(* ===== verification/_CoqProject ===== *)
-Q . S2P
Prelude.v
Bytes.v
Text.v
Wire.v
CLayout.v
SysConsts.v
Sys.v
SysLayout.v
NvAbi.v
Xlate.v
Tables.v
RequestShape.v
ClientPolicy.v
Mirror.v
Vgpu.v
VramPolicy.v
Vram.v
Answers.v
Naming.v
Grid.v
AnswerShape.v
Window.v
Arena.v
HostPool.v
Waiters.v
Effects.v
Prepare.v
Prepared.v
Execute.v
Executed.v
Request.v
Mediate.v
Session.v
Polls.v
Device.v
DeviceInv.v
Serve.v
Served.v
Fetch.v
AbiCheck.v
Backing.v
Start.v
Trace.v
Flags.v
Guards.v
Client.v
