(* ===== verification/Prelude.v ===== *)
(** * Verification of the NVIDIA RM forwarding backend

    The program lets a virtual machine use the host's NVIDIA driver.  A guest
    kernel module packs every ioctl, mmap and close of the guest's GPU
    processes into a request (crates/nvrm-wire); the backend process
    (crates/vhost-user-nvrm) decodes it, checks it against tables of the
    driver's ABI (crates/nvrm-abi, crates/nvrm-sys), replaces descriptors and
    pointers by its own, charges video memory, performs the call and rewrites
    what the guest must not see in the answer.  The guest is not trusted:
    every theorem about a request quantifies over arbitrary bytes.

    ** Parts and files

    The files follow the source; each opens with the file it models.

    - [Prelude] (this file): the [outcome] type ([Ok], [Err], [Panic]) with its
      monad, checked 64-bit arithmetic, sums over finite maps ([gsum]), ranges,
      the tactics [bools], [inv_ok], [no_panic] and the hint database [nvrm].
    - [Bytes], [Text]: little-endian reads and writes of byte buffers; strings
      as code points with the parsing and formatting the sources use.
    - [Wire] (nvrm-wire/src/lib.rs): [Req], [Rsp], [ProcInfo], [NestedDesc],
      their byte views through the class of plain-data types, kinds and device
      tags, the rendering of a process name.
    - [CLayout], [SysConsts], [Sys], [SysLayout] (nvrm-sys): the layout
      algorithm of repr(C), the constants and structures of the driver
      bindings as data, and the sizes, alignments and offsets the bindings
      assert, as far as the modelled tables reach them (about a tenth of the
      assertions).
    - [NvAbi] (nvrm-sys/src/lib.rs, version.rs; nvrm-abi/src/nvgpu.rs, xfer.rs):
      the ABI of each driver series, selection by version string, ioctl
      numbers, bit fields, XFER unwrapping.
    - [Flags], [Guards] (nvrm-abi/src/nvgpu.rs, lib.rs): the tables of flag
      bits, the assertions the source makes at compile time about the
      bindings, the names of statuses.
    - [Xlate] (nvrm-abi/src/xlate.rs): sizes of escapes, allocations, UVM
      calls and controls; where pointers and descriptors are.
    - [RequestShape] (request_shape.rs): [validate], which accepts or refuses
      a request, and the clearing of pointers that are not forwarded.
    - [ClientPolicy] (client_policy.rs): whether a request names one of the
      backend's own RM clients.
    - [Mirror] (mirror.rs, guest_words.rs): the table from tokens to host
      descriptors as a step relation; checked guest addresses and lengths.
    - [Vgpu] (nvrm-abi/src/vgpu.rs): prices and types of virtual GPUs.
    - [VramPolicy], [Vram] (vram.rs): the start-up decision, what an allocation
      costs, the shared ledger with its compare-and-swap loops, the books of a
      session, the process roster; [vm_step] interleaves sessions.
    - [Answers] (mediate.rs, grid.rs, vram.rs): the answers rewritten for the
      guest.
    - [Naming] (nvrm-abi/src/naming.rs, vram.rs): the name of the card, how it
      is made and read back, and where it replaces the driver's.
    - [Grid] (grid.rs): the UUID of the card in the guest and its translation.
    - [Window] (nvrm.rs, session.rs): the shared mapping window; the VMM is the
      class [Vmm], its laws [VmmLaws], [TableVmm] an instance; it may refuse
      any mapping and any unmapping.
    - [Arena], [HostPool] (host_pool.rs): guest pages mapped into the host and
      registered with RM and UVM.  Guest RAM is the class [GuestMem]; the
      driver is the class [PoolDriver], the trait of the source with its state
      made explicit, with [PoolDriverLaws] and the instance [TableDriver].
    - [Backing] (host_pool.rs, share.rs, nvrm-abi/src/lib.rs): the RM client of
      a session and the ioctls behind that trait, with their parameter blocks.
      The kernel is the class [RmKernel], a function on bytes, its laws
      [RmKernelLaws], [TableKernel] an instance; [RealDriver] is a second
      instance of [PoolDriver].
    - [Waiters] (waiters.rs, and the event half of session.rs and nvrm.rs): OS
      events, semaphore waiters and the poll thread; [dev_step] interleaves the
      thread with the device's requests and with exits, done or refused.
    - [Effects]: the state-and-outcome monad [eff] of session code and its
      weakest preconditions.
    - [Prepare], [Prepared] (session.rs, [prepare]): from a guest request to
      the [Plan] and the two buffers of the driver call, stage by stage; the
      second file holds the proofs.
    - [AnswerShape], [Execute], [Executed] (session.rs, [execute]): the driver
      call or what stands for it, the books after it and the answer with its
      rewrites, in the same monad; shapes of answers; the proofs.
    - [Request] (session.rs, [on_ioctl]): preparation and execution together,
      as what they do to every component.
    - [Mediate] (nvrm-abi/src/mediate.rs): the manifest of all fields that are
      rewritten between guest and driver, against what [Execute] rewrites.
    - [Session] (session.rs): the messages of one process, [handle_msg_with].
    - [Polls] (nvrm.rs): the epoll set with its two tables.
    - [Device], [DeviceInv] (nvrm.rs): [NvrmDevice], which owns the sessions and
      what they share, and [handle]; each component's view is a projection, and
      the invariants of all of them hold of the projections.
    - [Serve], [Served] (nvrm.rs): the request queue and the event queue,
      [process_queue] and [on_poll]; [reach] is the device after any history,
      with the set of processes that asked to leave and were kept because the
      VMM refused an unmap (their waiters are no longer watched,
      [refused_exit_forgets]).
    - [Tables] (nvrm-abi table.rs, nvrm-wire tables.rs, nvrm_tables.c): the
      rows the backend collects from [Xlate], their stream, and the guest's
      parser and lookups.
    - [Fetch] (virtio_nvrm.c, nvrm_fetch_tables): the loop by which the guest
      asks the device for that stream.
    - [Start] (main.rs, version.rs, and the start-up of nvrm.rs, vram.rs,
      grid.rs and host_pool.rs): the process from [main] to its socket.
    - [AbiCheck] (xtask/src/abi): the comparison of measured driver layouts on
      which the choice of shared bindings and versions rests, and the
      resolution of type aliases.
    - [Client] (nvrm-client): the direct client of the diagnostic tools: handles,
      the record of objects and the order of freeing, memory and mappings.
    - [Trace] (nvrm-trace/src/lib.rs, fdtable.rs): the hooks of the trace library
      and its table of tags; libc and the kernel behind it are the class [Libc],
      with [LibcLaws] and the instance [SmallOs].  Calls that are not hooked may
      do anything to descriptors.

    ** What the theorems show

    - Requests: an accepted request has the lengths and nested buffers the
      host's own tables demand, carries no guest pointer or descriptor number
      the host would take for its own, and no request makes validation panic
      ([validate_sound], [no_raw_pointer_forwarded], [validate_resolves_fds],
      [validate_never_panics], [private_client_complete]).
    - Preparation: the buffers given to the driver hold only addresses and
      descriptors of the host, nothing panics, and what was reserved, pinned
      or registered is what the plan says ([prepare_contains_pointers],
      [prepare_translates_fds], [prepare_never_panics],
      [prepare_effects_exact]).
    - Execution: a forwarded call is one ioctl on the prepared buffers, a full
      card is answered without one, and process lists leave the backend
      as the machine's own roster ([driver_call_exact], [full_card_answered],
      [process_lists_mediated]); nothing of an answer is changed outside the
      fields of the manifest, but that an allocation over guest pages gets its
      own bytes back ([answers_within_manifest]).
    - The device: after any history every posted request gets one answer that
      belongs to it, the books of all components are exact together, and every
      event is one numbered message ([requests_answered], [device_sound],
      [events_in_order], [waiter_messages], [poll_ids_exact]).
    - Tables: hand-written tables agree with compiled layouts for every key
      ([uvm_sizes_agree], [control_tables_coherent],
      [dispatched_abi_consistent]), the layout algorithm itself is sound
      ([struct_layout_sound]) and gives the measured layouts that are modelled
      ([measured_layouts_hold]).
    - Tables on the wire: the guest only accepts streams whose rows it can
      read, finds in the tables of the backend what the host's translation
      says, and always gets them ([tables_checked], [guest_lookups_agree],
      [guest_gets_tables]).
    - Memory of the host: MAP_FIXED stays inside its reservation and maps the
      pages the guest named, pages stay mapped while the GPU can reach them, pinned memory is bounded and
      accounted for exactly, semaphore writes land in live mappings
      ([arena_maps_inside], [no_dma_after_unmap], [pin_budget_conserves],
      [semaphore_write_inside]), and the real driver calls keep the laws this
      rests on ([real_driver_sound]); the window table is what the VMM has mapped
      ([window_matches_vmm], [proc_gone_cleans]).
    - Video memory: conservation over any interleaving of sessions, the cap
      under any interleaving of the compare-and-swap loops, exact release,
      exact charging, exact reporting ([ledger_conserves],
      [charge_never_overshoots], [free_releases_exactly], [charged_exactly],
      [roster_reports_owed]); prices and admission ([profile_for_accounting],
      [admits_sound], [derive_types_fit]).
    - Answers: a guest sees only its own processes and its own share
      ([get_pids_shows_roster_only], [get_pid_info_answers_from_roster],
      [fb_sizes_capped]), the card under its own name and UUID
      ([gpu_name_replaced], [uuid_translation_complete], under conditions on
      the two UUIDs that [shifted_overlap_recreates] shows to be needed).
    - Events: what the poll thread watches is what the books have armed, and a
      firing reaches its callback once ([waiter_registrations_exact],
      [armed_waiter_delivered]), refused exits apart.
    - Encodings: round trips of requests and page runs ([req_encode_decode],
      [req_decode_spec], [runs_decode_exact]) and names
      ([guest_name_roundtrip]).

    - Start-up: a backend that serves has dropped its privilege, speaks the ABI
      of the running driver, has the policy its variables select, and what it
      serves keeps the device's invariant ([backend_start]).
    - Tracing: a traced program computes what it does untraced and, while the
      hooks see what happens to device descriptors ([undisturbed]), the tags
      are true and complete ([tracing_exact], [unhooked_dup_missed]).
    - The direct client: what hangs on a handle is freed once, by one call each
      up to the first refusal, and dependants first, handles are fresh, addresses apart ([client_frees_in_order],
      [buffer_freed_first], [handles_fresh], [addresses_apart]).
    - Transcribed constants: composed flag words read back, the source's own
      assertions hold of the modelled bindings, the escapes listed as carrying
      a descriptor are those translated, one status code is transcribed
      wrongly ([flags_read_back], [guards_hold], [escapes_with_fd_translated],
      [state_in_use_misnamed]).
    - ABI compatibility: what the comparison calls compatible is safe for
      callers built for the older driver if aliases resolve alike
      ([aliases_agree]; [retargeted_alias_missed] shows that they must), the shared declarations are the
      largest closed set that reads the same everywhere, and the generator
      stops at unacknowledged breaks ([old_callers_safe],
      [stable_names_shared], [breaks_acknowledged]).

    ** Conventions

    Integers are [Z]; each operation writes out its width: [checked_add64] and
    its kin return [option], [wrap32] and [as_i32] reduce.  [Panic] stands for a
    Rust panic and for an out-of-bounds access in unsafe code, so its absence
    is a theorem.  Shared state is passed explicitly; the operations of
    different sessions interleave through [vm_step], [device_step],
    [pool_step] and [reach], and the compare-and-swap loops through [CasLoop.thread_step].
    Recursion is structural (on tables, runs, pools, fields) but for the scan
    of [Grid.swap], a while loop: it takes one more than a quarter of the buffer's
    length as fuel, enough because each turn moves on by four bytes, and is
    proved to end as the loop does; and for the loops of [Fetch], where a turn
    takes at least a byte of at most a megabyte, and of [AbiCheck.partition], where
    every round but the last removes a name;
    for the walk of [Client.visit], where every level has a handle of its own; and for
    [Client.take_loop], which skips one number at most.  What the kernel, the VMM or the driver decide is
    an argument ([ArenaEnv], [PrepEnv], [ExecEnv], [HostEnv], [DeviceEnv],
    [Chain], [Wait], [StartEnv], [PoolDriver], [RmKernel], [Libc], [Vmm]); a law assumed of them is a
    field of a class, and every such class has an instance.

    ** Not modelled

    The guest module (C) but for its table parser, lookups and fetch, the probe programs, the log texts and
    payload decoding of the trace library, the parsing and text output of the generators (nvrm-genhdr, xtask), device nodes and system-call
    wrappers, the test hook LEA_TEST_SHMEM_MAP_OOB, virtqueues, log texts and names of escapes, the textual dump of
    the forwarding tables and of the manifest.
    The relaxed memory order of the counters is taken as sequentially
    consistent: each counter is a single word updated by read-modify-write. *)
From Stdlib Require Export ZArith Lia.
From stdpp Require Export base option list numbers gmap.

Global Open Scope Z_scope.

(** ** Outcomes of fallible Rust code

    [Ok] and [Err] are the two constructors of [Result]; [Panic] is a Rust
    panic (a failed slice index, [unwrap], [expect] or [unreachable!]) or an
    access an [unsafe] block would make outside its allocation.  Keeping it
    apart from [Err] lets a theorem say that guest input cannot reach it. *)
Inductive outcome (E A : Type) : Type :=
| Ok (a : A)
| Err (e : E)
| Panic.
Arguments Ok {E A} a.
Arguments Err {E A} e.
Arguments Panic {E A}.

Global Instance outcome_ret {E} : MRet (outcome E) := fun A a => Ok a.

Global Instance outcome_bind {E} : MBind (outcome E) := fun A B f m =>
  match m with Ok a => f a | Err e => Err e | Panic => Panic end.

Global Instance outcome_fmap {E} : FMap (outcome E) := fun A B f m =>
  match m with Ok a => Ok (f a) | Err e => Err e | Panic => Panic end.

Definition ok_or {E A} (o : option A) (e : E) : outcome E A :=
  match o with Some a => Ok a | None => Err e end.

Definition or_panic {E A} (o : option A) : outcome E A :=
  match o with Some a => Ok a | None => Panic end.

Definition map_err {E F A} (f : E -> F) (m : outcome E A) : outcome F A :=
  match m with Ok a => Ok a | Err e => Err (f e) | Panic => Panic end.

Declare Scope rust_scope.
Delimit Scope rust_scope with rust.
Notation "'guard!' c 'else' e ; k" := (if (c : bool) then k else Err e)
  (at level 100, c at next level, e at next level, k at level 200,
   right associativity) : rust_scope.
Notation "'fail_if!' c 'with' e ; k" := (if (c : bool) then Err e else k)
  (at level 100, c at next level, e at next level, k at level 200,
   right associativity) : rust_scope.
Global Open Scope rust_scope.

(** The value is an [Ok] or an [Err]: no panic and no wild access. *)
Definition no_panic {E A} (m : outcome E A) : Prop := m <> Panic.

(** ** Machine integers: [Z] with the bounds written out *)
Definition u8_max : Z := 255.
Definition u32_max : Z := 4294967295.
Definition u64_max : Z := 18446744073709551615.

Definition is_u32 (z : Z) : Prop := 0 <= z <= u32_max.
Definition is_u64 (z : Z) : Prop := 0 <= z <= u64_max.

Definition wrap32 (z : Z) : Z := z mod 4294967296.
Definition wrap64 (z : Z) : Z := z mod 18446744073709551616.

Definition checked_add64 (a b : Z) : option Z :=
  if a + b <=? u64_max then Some (a + b) else None.
Definition checked_sub64 (a b : Z) : option Z :=
  if b <=? a then Some (a - b) else None.
Definition checked_mul64 (a b : Z) : option Z :=
  if a * b <=? u64_max then Some (a * b) else None.
Definition checked_add32 (a b : Z) : option Z :=
  if a + b <=? u32_max then Some (a + b) else None.
Definition checked_mul32 (a b : Z) : option Z :=
  if a * b <=? u32_max then Some (a * b) else None.
Definition saturating_sub (a b : Z) : Z := Z.max 0 (a - b).
Definition saturating_add64 (a b : Z) : Z := Z.min u64_max (a + b).

(** Code that cannot fail otherwise, with arithmetic whose overflow panics
    ([overflow-checks], the debug profile the tests run under). *)
Abbreviation may_panic A := (outcome Empty_set A).
Definition add64 (a b : Z) : may_panic Z := or_panic (checked_add64 a b).
Definition sub64 (a b : Z) : may_panic Z := or_panic (checked_sub64 a b).
Definition mul64 (a b : Z) : may_panic Z := or_panic (checked_mul64 a b).
(** [div_ceil]; its divisor is never zero where the code uses it. *)
Definition div_ceil (a b : Z) : Z :=
  if a mod b =? 0 then a / b else a / b + 1.

(** The signed reading of a 32-bit and of a 64-bit word ([as i32], [as i64]). *)
Definition as_i32 (w : Z) : Z :=
  let w' := wrap32 w in if 2147483648 <=? w' then w' - 4294967296 else w'.
Definition as_i64 (w : Z) : Z :=
  let w' := wrap64 w in
  if 9223372036854775808 <=? w' then w' - 18446744073709551616 else w'.

(** ** Automation *)
Create HintDb nvrm discriminated.

Ltac bools :=
  repeat match goal with
  | H : _ && _ = true |- _ => apply andb_true_iff in H; destruct H
  | H : _ || _ = false |- _ => apply orb_false_iff in H; destruct H
  | H : _ && _ = false |- _ => apply andb_false_iff in H
  | H : _ || _ = true |- _ => apply orb_true_iff in H
  | H : negb _ = true |- _ => apply negb_true_iff in H
  | H : negb _ = false |- _ => apply negb_false_iff in H
  | H : (_ =? _) = true |- _ => apply Z.eqb_eq in H
  | H : (_ =? _) = false |- _ => apply Z.eqb_neq in H
  | H : (_ <? _) = true |- _ => apply Z.ltb_lt in H
  | H : (_ <? _) = false |- _ => apply Z.ltb_ge in H
  | H : (_ <=? _) = true |- _ => apply Z.leb_le in H
  | H : (_ <=? _) = false |- _ => apply Z.leb_gt in H
  | H : bool_decide _ = true |- _ => apply bool_decide_eq_true in H
  | H : bool_decide _ = false |- _ => apply bool_decide_eq_false in H
  end.

(** The same with a case per disjunct. *)
Ltac bool_cases :=
  bools; repeat match goal with H : _ \/ _ |- _ => destruct H; bools end.

(** Split an equation [m = Ok a] along the binds and guards of [m]. *)
Ltac outcome_simpl H :=
  cbn [mbind outcome_bind fmap outcome_fmap ok_or or_panic map_err] in H.

Ltac inv_ok :=
  repeat (match goal with
  | H : mbind _ ?m = Ok _ |- _ => destruct m eqn:?; outcome_simpl H; try discriminate H
  | H : fmap _ ?m = Ok _ |- _ => destruct m eqn:?; outcome_simpl H; try discriminate H
  | H : ok_or ?o _ = Ok _ |- _ => destruct o eqn:?; outcome_simpl H; try discriminate H
  | H : or_panic ?o = Ok _ |- _ => destruct o eqn:?; outcome_simpl H; try discriminate H
  | H : (if ?c then _ else _) = Ok _ |- _ => destruct c eqn:?; try discriminate H
  | H : map_err _ ?m = Ok _ |- _ => destruct m eqn:?; outcome_simpl H; try discriminate H
  end; simplify_eq); simplify_eq; bools.

Lemma bind_Ok {E A B} (m : outcome E A) (f : A -> outcome E B) b :
  m ≫= f = Ok b -> exists a, m = Ok a /\ f a = Ok b.
Proof. destruct m; simpl; naive_solver. Qed.

Lemma or_panic_Ok {E A} (o : option A) (a : A) : or_panic (E:=E) o = Ok a -> o = Some a.
Proof. destruct o; simpl; congruence. Qed.

(** ** Panic freedom is compositional *)
Lemma no_panic_ok {E A} (a : A) : no_panic (E:=E) (Ok a).
Proof. done. Qed.

Lemma no_panic_err {E A} (e : E) : no_panic (A:=A) (Err e).
Proof. done. Qed.

Lemma no_panic_ok_or {E A} (o : option A) (e : E) : no_panic (ok_or o e).
Proof. by destruct o. Qed.

Lemma no_panic_map_err {E F A} (f : E -> F) (m : outcome E A) :
  no_panic m -> no_panic (map_err f m).
Proof. by destruct m. Qed.

Lemma no_panic_bind {E A B} (m : outcome E A) (f : A -> outcome E B) :
  no_panic m -> (forall a, m = Ok a -> no_panic (f a)) -> no_panic (m ≫= f).
Proof. destruct m; intros Hm Hf; simpl; [by apply Hf | done | done]. Qed.

Lemma no_panic_if {E A} (c : bool) (m n : outcome E A) :
  (c = true -> no_panic m) -> (c = false -> no_panic n) ->
  no_panic (if c then m else n).
Proof. destruct c; auto. Qed.

#[export] Hint Resolve no_panic_ok no_panic_err no_panic_ok_or
  no_panic_map_err : nvrm.

Ltac no_panic :=
  repeat match goal with
  | |- no_panic (mbind _ _) => apply no_panic_bind; [|intros ? ?]
  | |- no_panic (if _ then _ else _) => apply no_panic_if; intros ?
  | |- no_panic (ok_or _ _) => apply no_panic_ok_or
  | |- no_panic (map_err _ _) => apply no_panic_map_err
  | |- no_panic (match ?x with _ => _ end) => destruct x eqn:?
  | |- no_panic (Ok _) => apply no_panic_ok
  | |- no_panic (Err _) => apply no_panic_err
  end; auto with nvrm.

(** ** Checked arithmetic *)
Lemma checked_add64_Some a b c :
  checked_add64 a b = Some c <-> c = a + b /\ a + b <= u64_max.
Proof.
  unfold checked_add64. destruct (a + b <=? u64_max) eqn:?; bools;
    naive_solver lia.
Qed.

Lemma checked_sub64_Some a b c :
  checked_sub64 a b = Some c <-> c = a - b /\ b <= a.
Proof.
  unfold checked_sub64. destruct (b <=? a) eqn:?; bools;
    naive_solver lia.
Qed.

Lemma checked_mul64_Some a b c :
  checked_mul64 a b = Some c <-> c = a * b /\ a * b <= u64_max.
Proof.
  unfold checked_mul64. destruct (a * b <=? u64_max) eqn:?; bools;
    naive_solver lia.
Qed.

Lemma checked_mul32_Some a b c :
  checked_mul32 a b = Some c <-> c = a * b /\ a * b <= u32_max.
Proof.
  unfold checked_mul32. destruct (a * b <=? u32_max) eqn:?; bools;
    naive_solver lia.
Qed.

Lemma add64_ok a b : a + b <= u64_max -> add64 a b = Ok (a + b).
Proof. intros H. unfold add64, checked_add64. by rewrite (proj2 (Z.leb_le _ _) H). Qed.

Lemma sub64_ok a b : b <= a -> sub64 a b = Ok (a - b).
Proof. intros H. unfold sub64, checked_sub64. by rewrite (proj2 (Z.leb_le _ _) H). Qed.

Lemma mul64_ok a b : a * b <= u64_max -> mul64 a b = Ok (a * b).
Proof. intros H. unfold mul64, checked_mul64. by rewrite (proj2 (Z.leb_le _ _) H). Qed.

(** ** Rounding up *)
Lemma div_ceil_spec a b : 0 < b -> a <= b * div_ceil a b < a + b.
Proof.
  intros Hb. unfold div_ceil. pose proof (Z.div_mod a b). pose proof (Z.mod_pos_bound a b Hb).
  destruct (a mod b =? 0) eqn:E; bools; nia.
Qed.

Lemma div_ceil_le a b q : 0 < b -> a <= b * q -> div_ceil a b <= q.
Proof. intros Hb Ha. pose proof (div_ceil_spec a b Hb). nia. Qed.

Lemma div_ceil_nonneg a b : 0 <= a -> 0 < b -> 0 <= div_ceil a b.
Proof. intros Ha Hb. pose proof (div_ceil_spec a b Hb). nia. Qed.

(** ** Pairwise relations on lists *)
Fixpoint pairwise {A} (R : A -> A -> Prop) (l : list A) : Prop :=
  match l with
  | [] => True
  | x :: l' => Forall (R x) l' /\ pairwise R l'
  end.

Lemma pairwise_app {A} (R : A -> A -> Prop) l k :
  pairwise R (l ++ k) <->
  pairwise R l /\ pairwise R k /\ Forall (fun x => Forall (R x) k) l.
Proof.
  induction l as [|x l IH]; simpl; [by intuition|].
  rewrite Forall_app, Forall_cons, IH. tauto.
Qed.

Lemma pairwise_lookup {A} (R : A -> A -> Prop) l (i j : nat) x y :
  pairwise R l -> (i < j)%nat -> l !! i = Some x -> l !! j = Some y -> R x y.
Proof.
  revert i j. induction l as [|z l IH]; intros [|i] [|j] Hp Hij Hi Hj;
    simplify_eq/=; try lia; destruct Hp as [Hz Hl].
  - rewrite Forall_forall in Hz. apply Hz. by eapply list_elem_of_lookup_2.
  - eapply IH; [done| |done|done]. lia.
Qed.

Lemma pairwise_filter {A} (R : A -> A -> Prop) (P : A -> Prop) `{forall x, Decision (P x)} l :
  pairwise R l -> pairwise R (filter P l).
Proof.
  induction l as [|x l IH]; simpl; [done|]. intros [Hx Hl]. rewrite filter_cons.
  destruct (decide (P x)); [|auto]. simpl. split; [|auto].
  rewrite Forall_forall in *. intros y [_ Hy]%list_elem_of_filter. auto.
Qed.

(** Half-open ranges [(start, stop)] with no common point. *)
Definition disjoint_ranges (r q : Z * Z) : Prop := r.2 <= q.1 \/ q.2 <= r.1.

Lemma disjoint_ranges_sym r q : disjoint_ranges r q -> disjoint_ranges q r.
Proof. unfold disjoint_ranges. tauto. Qed.

(** ** Sums over finite maps *)
Section gsum.
Context {K A : Type} `{Countable K} (f : A -> Z).

Definition gsum (m : gmap K A) : Z := map_fold (fun _ a acc => f a + acc) 0 m.

Lemma gsum_empty : gsum ∅ = 0.
Proof. apply map_fold_empty. Qed.

Lemma gsum_fresh m k a : m !! k = None -> gsum (<[k := a]> m) = f a + gsum m.
Proof.
  intros Hk. unfold gsum. rewrite map_fold_insert_L; [done | | done].
  intros. lia.
Qed.

Lemma gsum_take m k a : m !! k = Some a -> gsum m = f a + gsum (delete k m).
Proof.
  intros Hk. rewrite <- (insert_delete_id m k a Hk) at 1.
  apply gsum_fresh. apply lookup_delete_eq.
Qed.

Lemma gsum_update m k a a' :
  m !! k = Some a -> gsum (<[k := a']> m) = gsum m - f a + f a'.
Proof.
  intros Hk. rewrite (gsum_take m k a Hk). rewrite <- insert_delete_eq.
  rewrite gsum_fresh by apply lookup_delete_eq. lia.
Qed.

Lemma gsum_replace m k a b : gsum (<[k := b]> m) = gsum (<[k := a]> m) - f a + f b.
Proof. rewrite <- (insert_insert_eq m k b a). apply gsum_update, lookup_insert_eq. Qed.

Lemma gsum_remove m k a : m !! k = Some a -> gsum (delete k m) = gsum m - f a.
Proof. intros Hk. rewrite (gsum_take m k a Hk). lia. Qed.

Lemma gsum_nonneg m : map_Forall (fun _ a => 0 <= f a) m -> 0 <= gsum m.
Proof.
  induction m as [|k a m Hk IH] using map_ind; intros Hall; [by rewrite gsum_empty|].
  apply map_Forall_insert in Hall as [Ha Hm]; [|done].
  rewrite gsum_fresh by done. specialize (IH Hm). lia.
Qed.

Lemma gsum_lookup_le m k a :
  map_Forall (fun _ a => 0 <= f a) m -> m !! k = Some a -> f a <= gsum m.
Proof.
  intros Hall Hk. rewrite (gsum_take m k a Hk).
  assert (0 <= gsum (delete k m)); [|lia].
  apply gsum_nonneg. by apply map_Forall_delete.
Qed.

Lemma gsum_split (p : A -> bool) m :
  gsum m = gsum (filter (fun ka => p ka.2 = true) m) + gsum (filter (fun ka => p ka.2 = false) m).
Proof.
  induction m as [|k a m Hk IH] using map_ind.
  - by rewrite !map_filter_empty, !gsum_empty.
  - rewrite gsum_fresh by done. destruct (p a) eqn:Hp.
    + rewrite map_filter_insert_True, map_filter_insert_not' by (simpl; congruence).
      rewrite gsum_fresh; [lia|]. apply map_lookup_filter_None_2. by left.
    + rewrite map_filter_insert_not', map_filter_insert_True by (simpl; congruence).
      rewrite gsum_fresh; [lia|]. apply map_lookup_filter_None_2. by left.
Qed.
End gsum.

(** ** Counting *)

(** How often [id] occurs. *)
Definition occ (id : Z) (l : list Z) : Z :=
  foldr (fun x acc => (if x =? id then 1 else 0) + acc) 0 l.

Lemma occ_app id l k : occ id (l ++ k) = occ id l + occ id k.
Proof. induction l as [|x l IH]; simpl; [done|]. rewrite IH. lia. Qed.

Lemma occ_nonneg id l : 0 <= occ id l.
Proof. induction l as [|x l IH]; simpl; [done|]. destruct (x =? id); lia. Qed.

Lemma occ_elem id l : id ∈ l -> 1 <= occ id l.
Proof.
  induction l as [|x l IH]; [by intros ?%not_elem_of_nil|].
  intros [->|Hin]%elem_of_cons; simpl.
  - rewrite Z.eqb_refl. pose proof (occ_nonneg x l). lia.
  - specialize (IH Hin). destruct (x =? id); lia.
Qed.

Lemma occ_cons id x l : occ id (x :: l) = (if x =? id then 1 else 0) + occ id l.
Proof. done. Qed.

Lemma NoDup_occ l : (forall id, occ id l <= 1) -> NoDup l.
Proof.
  induction l as [|x l IH]; intros Hl; constructor.
  - intros Hin%occ_elem. specialize (Hl x). rewrite occ_cons, Z.eqb_refl in Hl. lia.
  - apply IH. intros id. specialize (Hl id). rewrite occ_cons in Hl. destruct (x =? id); lia.
Qed.

Lemma occ_map_to_list {K A} `{Countable K} (g : A -> Z) id (m : gmap K A) :
  occ id (map (fun e => g e.2) (map_to_list m)) = gsum (fun a => if g a =? id then 1 else 0) m.
Proof.
  unfold gsum, occ. rewrite map_fold_foldr.
  by induction (map_to_list m) as [|[k a] l IH]; [|cbn; rewrite IH].
Qed.
