(* ===== verification/Bytes.v ===== *)
(** * Byte buffers

    A buffer is a list of bytes, each a [Z] below 256.  [get_range] is
    Rust's [bytes.get(off..off + len)], [put_range] the in-place
    [copy_from_slice] into such a range, [le_bytes]/[le_val] are
    [to_le_bytes]/[from_le_bytes].  The lemmas are the frame and round trip
    laws the components use. *)
From S2P Require Import Prelude.

Abbreviation bytes := (list Z) (only parsing).

Definition is_byte (b : Z) : Prop := 0 <= b < 256.
Definition wf_bytes (b : bytes) : Prop := Forall is_byte b.

Definition blen (b : bytes) : Z := Z.of_nat (length b).

Fixpoint le_bytes (n : nat) (z : Z) : bytes :=
  match n with
  | O => []
  | S m => z mod 256 :: le_bytes m (z / 256)
  end.

Fixpoint le_val (b : bytes) : Z :=
  match b with
  | [] => 0
  | x :: r => x + 256 * le_val r
  end.

Definition in_range (b : bytes) (off len : Z) : bool :=
  (0 <=? off) && (0 <=? len) && (off + len <=? blen b).

(** [bytes.get(off..off + len)] *)
Definition get_range (b : bytes) (off len : Z) : option bytes :=
  if in_range b off len
  then Some (take (Z.to_nat len) (drop (Z.to_nat off) b))
  else None.

(** [bytes[off..off + d.len()].copy_from_slice(d)] on a range that exists *)
Definition put_range (b : bytes) (off : Z) (d : bytes) : bytes :=
  take (Z.to_nat off) b ++ d ++ drop (Z.to_nat off + length d) b.

(** The same store when the range may not exist: Rust panics. *)
Definition set_range (b : bytes) (off : Z) (d : bytes) : option bytes :=
  if in_range b off (blen d) then Some (put_range b off d) else None.

Definition get_le (n : nat) (b : bytes) (off : Z) : option Z :=
  le_val <$> get_range b off (Z.of_nat n).
Abbreviation get_u32 := (get_le 4).
Abbreviation get_u64 := (get_le 8).

Definition set_le (n : nat) (b : bytes) (off v : Z) : option bytes :=
  set_range b off (le_bytes n v).
Abbreviation set_u32 := (set_le 4).
Abbreviation set_u64 := (set_le 8).

(** ** Little-endian words *)
Lemma length_le_bytes n z : length (le_bytes n z) = n.
Proof. revert z. induction n; simpl; auto. Qed.

Lemma wf_le_bytes n z : wf_bytes (le_bytes n z).
Proof.
  revert z. induction n as [|n IH]; intros z; simpl; constructor.
  - unfold is_byte. pose proof (Z.mod_pos_bound z 256). lia.
  - apply IH.
Qed.

Lemma pow256_S n : 256 ^ Z.of_nat (S n) = 256 * 256 ^ Z.of_nat n.
Proof. rewrite Nat2Z.inj_succ, Z.pow_succ_r; lia. Qed.

Lemma le_val_bounds b : wf_bytes b -> 0 <= le_val b < 256 ^ blen b.
Proof.
  unfold blen. induction 1 as [|x b Hx Hb IH]; simpl; [lia|].
  change (Z.pos (Pos.of_succ_nat (length b))) with (Z.of_nat (S (length b))).
  rewrite pow256_S. unfold is_byte in Hx. lia.
Qed.

Lemma le_val_le_bytes n z : le_val (le_bytes n z) = z mod 256 ^ Z.of_nat n.
Proof.
  revert z. induction n as [|n IH]; intros z; [simpl; by rewrite Z.mod_1_r|].
  cbn [le_bytes le_val]. rewrite IH, pow256_S.
  rewrite Z.rem_mul_r by lia. lia.
Qed.

Lemma le_val_le_bytes_small n z :
  0 <= z < 256 ^ Z.of_nat n -> le_val (le_bytes n z) = z.
Proof. intros. rewrite le_val_le_bytes. by apply Z.mod_small. Qed.

Lemma le_bytes_le_val b : wf_bytes b -> le_bytes (length b) (le_val b) = b.
Proof.
  induction 1 as [|x b Hx Hb IH]; cbn [le_bytes le_val length]; [done|].
  unfold is_byte in Hx.
  replace ((x + 256 * le_val b) mod 256) with x
    by (rewrite (Z.mul_comm 256), Z_mod_plus_full, Z.mod_small; lia).
  replace ((x + 256 * le_val b) / 256) with (le_val b)
    by (rewrite (Z.mul_comm 256), Z_div_plus_full, Z.div_small; lia).
  by rewrite IH.
Qed.

Lemma le_bytes_mod n z : le_bytes n (z mod 256 ^ Z.of_nat n) = le_bytes n z.
Proof.
  rewrite <- le_val_le_bytes.
  rewrite <- (length_le_bytes n z) at 1.
  apply le_bytes_le_val, wf_le_bytes.
Qed.

(** ** Ranges *)
Lemma in_range_spec b off len :
  in_range b off len = true <-> 0 <= off /\ 0 <= len /\ off + len <= blen b.
Proof. unfold in_range. rewrite !andb_true_iff, !Z.leb_le. lia. Qed.

Lemma blen_nonneg b : 0 <= blen b.
Proof. unfold blen. lia. Qed.

Lemma blen_app a b : blen (a ++ b) = blen a + blen b.
Proof. unfold blen. rewrite length_app. lia. Qed.

Lemma get_range_is_Some b off len :
  is_Some (get_range b off len) <-> 0 <= off /\ 0 <= len /\ off + len <= blen b.
Proof.
  rewrite <- in_range_spec. unfold get_range, is_Some.
  destruct (in_range b off len); naive_solver.
Qed.

Lemma get_range_length b off len d :
  get_range b off len = Some d -> blen d = len.
Proof.
  unfold get_range. destruct (in_range b off len) eqn:H; [|done].
  apply in_range_spec in H. intros [= <-]. unfold blen in *.
  rewrite length_take, length_drop. lia.
Qed.

Lemma get_range_wf b off len d :
  wf_bytes b -> get_range b off len = Some d -> wf_bytes d.
Proof.
  unfold get_range. destruct (in_range b off len); [|done].
  intros Hb [= <-]. by apply Forall_take, Forall_drop.
Qed.

Lemma get_range_lookup b off len d (i : nat) :
  get_range b off len = Some d -> (i < Z.to_nat len)%nat ->
  d !! i = b !! (Z.to_nat off + i)%nat.
Proof.
  unfold get_range. destruct (in_range b off len) eqn:H; [|done].
  intros [= <-] Hi. by rewrite lookup_take_lt, lookup_drop by lia.
Qed.

Lemma blen_put_range b off d :
  0 <= off -> off + blen d <= blen b -> blen (put_range b off d) = blen b.
Proof.
  unfold blen, put_range. intros.
  rewrite !length_app, length_take, length_drop. lia.
Qed.

Lemma put_range_wf b off d :
  wf_bytes b -> wf_bytes d -> wf_bytes (put_range b off d).
Proof.
  intros Hb Hd. unfold put_range, wf_bytes.
  repeat apply Forall_app_2; auto using Forall_take, Forall_drop.
Qed.

Lemma get_put_same b off d :
  0 <= off -> off + blen d <= blen b ->
  get_range (put_range b off d) off (blen d) = Some d.
Proof.
  intros Ho Hl. unfold get_range.
  destruct (in_range _ off (blen d)) eqn:Hr.
  - f_equal. unfold put_range, blen in *.
    rewrite drop_app_length' by (rewrite length_take; lia).
    by rewrite take_app_length' by lia.
  - assert (in_range (put_range b off d) off (blen d) = true); [|congruence].
    apply in_range_spec. rewrite blen_put_range by done.
    pose proof (blen_nonneg d). lia.
Qed.

Lemma put_range_lookup_ne b off d (i : nat) :
  0 <= off -> off + blen d <= blen b ->
  Z.of_nat i < off \/ off + blen d <= Z.of_nat i ->
  put_range b off d !! i = b !! i.
Proof.
  unfold put_range, blen. intros Ho Hl [Hi|Hi].
  - rewrite lookup_app_l by (rewrite length_take; lia).
    by rewrite lookup_take_lt by lia.
  - rewrite lookup_app_r by (rewrite length_take; lia).
    rewrite lookup_app_r by (rewrite length_take; lia).
    rewrite lookup_drop, length_take. f_equal. lia.
Qed.

Lemma get_put_disjoint b off d o l :
  0 <= off -> off + blen d <= blen b ->
  o + l <= off \/ off + blen d <= o ->
  get_range (put_range b off d) o l = get_range b o l.
Proof.
  intros Ho Hl Hd. unfold get_range, in_range. rewrite blen_put_range by done.
  destruct ((0 <=? o) && (0 <=? l) && (o + l <=? blen b)) eqn:Hr; [|done].
  bools. f_equal. apply list_eq. intros i.
  destruct (decide (i < Z.to_nat l)%nat).
  - rewrite !lookup_take_lt, !lookup_drop by done.
    apply put_range_lookup_ne; lia.
  - by rewrite !lookup_take_ge by lia.
Qed.

Lemma set_range_Some b off d b' :
  set_range b off d = Some b' <->
  b' = put_range b off d /\ 0 <= off /\ off + blen d <= blen b.
Proof.
  unfold set_range. pose proof (blen_nonneg d).
  destruct (in_range b off (blen d)) eqn:Hr.
  - apply in_range_spec in Hr. naive_solver lia.
  - split; [done|]. intros (-> & ? & ?).
    assert (in_range b off (blen d) = true) by (apply in_range_spec; lia).
    congruence.
Qed.

Lemma get_range_all b : get_range b 0 (blen b) = Some b.
Proof.
  unfold get_range. rewrite (proj2 (in_range_spec b 0 (blen b))) by (pose proof (blen_nonneg b); lia).
  rewrite drop_0, take_ge; [done|unfold blen; lia].
Qed.

(** A store seen through reads. *)
Record stored (b : bytes) (o : Z) (d b' : bytes) : Prop := {
  so_len : blen b' = blen b;
  so_wf : wf_bytes b -> wf_bytes d -> wf_bytes b';
  so_get : get_range b' o (blen d) = Some d;
  so_frame : forall o' l, o' + l <= o \/ o + blen d <= o' -> get_range b' o' l = get_range b o' l;
}.

Lemma set_range_stored b o d b' : set_range b o d = Some b' -> stored b o d b'.
Proof.
  intros (-> & Ho & Hl)%set_range_Some. split.
  - by apply blen_put_range.
  - intros ? ?. by apply put_range_wf.
  - by apply get_put_same.
  - intros o' l Hd. by apply get_put_disjoint.
Qed.

Lemma set_range_total b o d : 0 <= o -> o + blen d <= blen b ->
  exists b', set_range b o d = Some b' /\ stored b o d b'.
Proof.
  intros Ho Hl. exists (put_range b o d). split; [by apply set_range_Some|].
  apply set_range_stored. by apply set_range_Some.
Qed.

Lemma get_range_app b o l1 l2 x y :
  get_range b o l1 = Some x -> get_range b (o + l1) l2 = Some y ->
  get_range b o (l1 + l2) = Some (x ++ y).
Proof.
  unfold get_range. destruct (in_range b o l1) eqn:H1; [|done].
  destruct (in_range b (o + l1) l2) eqn:H2; [|done].
  apply in_range_spec in H1 as (? & ? & ?). apply in_range_spec in H2 as (? & ? & ?).
  intros [= <-] [= <-]. rewrite (proj2 (in_range_spec b o (l1 + l2))) by lia. f_equal.
  rewrite !Z2Nat.inj_add by lia. rewrite <- drop_drop. by rewrite take_take_drop.
Qed.

(** ** Words in a buffer *)
Lemma get_le_is_Some n b off :
  is_Some (get_le n b off) <-> 0 <= off /\ off + Z.of_nat n <= blen b.
Proof.
  unfold get_le. rewrite fmap_is_Some, get_range_is_Some. lia.
Qed.

Lemma get_le_nat n b (o : nat) :
  (o + n <= length b)%nat ->
  get_le n b (Z.of_nat o) = Some (le_val (take n (drop o b))).
Proof.
  intros Hl. unfold get_le, get_range.
  replace (in_range b (Z.of_nat o) (Z.of_nat n)) with true
    by (symmetry; apply in_range_spec; unfold blen; lia).
  simpl. by rewrite !Nat2Z.id.
Qed.

Lemma get_le_bounds n b off v :
  wf_bytes b -> get_le n b off = Some v -> 0 <= v < 256 ^ Z.of_nat n.
Proof.
  unfold get_le. intros Hb (d & Hd & ->)%fmap_Some.
  rewrite <- (get_range_length _ _ _ _ Hd).
  eauto using le_val_bounds, get_range_wf.
Qed.

Lemma get_u32_bounds b off v : wf_bytes b -> get_u32 b off = Some v -> is_u32 v.
Proof. intros ? H%get_le_bounds; [|done]. unfold is_u32, u32_max. simpl in H. lia. Qed.

Lemma get_u64_bounds b off v : wf_bytes b -> get_u64 b off = Some v -> is_u64 v.
Proof. intros ? H%get_le_bounds; [|done]. unfold is_u64, u64_max. simpl in H. lia. Qed.

Lemma set_le_Some n b off v b' :
  set_le n b off v = Some b' <->
  b' = put_range b off (le_bytes n v) /\ 0 <= off /\ off + Z.of_nat n <= blen b.
Proof.
  unfold set_le. rewrite set_range_Some. unfold blen.
  by rewrite length_le_bytes.
Qed.

Lemma set_le_blen n b off v b' : set_le n b off v = Some b' -> blen b' = blen b.
Proof.
  intros (-> & ? & ?)%set_le_Some. apply blen_put_range; [done|].
  unfold blen at 1. by rewrite length_le_bytes.
Qed.

Lemma set_le_wf n b off v b' :
  wf_bytes b -> set_le n b off v = Some b' -> wf_bytes b'.
Proof.
  intros Hb (-> & _ & _)%set_le_Some. apply put_range_wf; auto using wf_le_bytes.
Qed.

Lemma get_set_le_same n b off v b' :
  set_le n b off v = Some b' -> get_le n b' off = Some (v mod 256 ^ Z.of_nat n).
Proof.
  intros (-> & Ho & Hl)%set_le_Some. unfold get_le.
  pose proof (get_put_same b off (le_bytes n v)) as Hg.
  unfold blen at 1 3 in Hg. rewrite length_le_bytes in Hg.
  rewrite Hg by done. simpl. by rewrite le_val_le_bytes.
Qed.

Lemma get_set_le_disjoint n m b off v b' o :
  set_le n b off v = Some b' ->
  o + Z.of_nat m <= off \/ off + Z.of_nat n <= o ->
  get_le m b' o = get_le m b o.
Proof.
  intros (-> & Ho & Hl)%set_le_Some Hd. unfold get_le. f_equal.
  apply get_put_disjoint; [done| |]; unfold blen at 1; rewrite length_le_bytes; lia.
Qed.

(** A word of a prefix is the word of the buffer. *)
Lemma get_range_prefix b n p o l d :
  get_range b 0 n = Some p -> get_range p o l = Some d -> get_range b o l = Some d.
Proof.
  unfold get_range. destruct (in_range b 0 n) eqn:Hn; [|done]. intros [= <-].
  destruct (in_range _ o l) eqn:Hl; [|done]. intros [= <-].
  rewrite in_range_spec in *. unfold blen in *. rewrite length_take, length_drop in *.
  replace (in_range b o l) with true by (symmetry; apply in_range_spec; unfold blen; lia).
  f_equal. rewrite drop_0. apply list_eq. intros i.
  destruct (decide (i < Z.to_nat l)%nat); [|by rewrite !lookup_take_ge by lia].
  rewrite !lookup_take_lt, !lookup_drop, lookup_take_lt by lia. done.
Qed.

Lemma get_le_prefix k b n p o v :
  get_range b 0 n = Some p -> get_le k p o = Some v -> get_le k b o = Some v.
Proof.
  intros Hp. unfold get_le. intros (d & Hd & ->)%fmap_Some.
  by rewrite (get_range_prefix _ _ _ _ _ _ Hp Hd).
Qed.

(** A range of a range. *)
Lemma get_range_sub (b : bytes) o n p d k :
  get_range b o n = Some p -> 0 <= d -> 0 <= k -> d + k <= n -> get_range p d k = get_range b (o + d) k.
Proof.
  intros Hp Hd Hk Hn. pose proof (get_range_length _ _ _ _ Hp) as Hl.
  pose proof (proj1 (get_range_is_Some b o n) (ex_intro _ _ Hp)) as (? & ? & ?).
  destruct (proj2 (get_range_is_Some p d k)) as [x Hx]; [lia|].
  destruct (proj2 (get_range_is_Some b (o + d) k)) as [y Hy]; [lia|]. rewrite Hx, Hy. f_equal.
  apply list_eq. intros i. destruct (decide (i < Z.to_nat k)%nat).
  - rewrite (get_range_lookup _ _ _ _ i Hx), (get_range_lookup _ _ _ _ i Hy) by done.
    rewrite (get_range_lookup _ _ _ _ _ Hp) by lia. f_equal. lia.
  - pose proof (get_range_length _ _ _ _ Hx). pose proof (get_range_length _ _ _ _ Hy).
    unfold blen in *. rewrite !lookup_ge_None_2 by lia. done.
Qed.

#[export] Hint Resolve length_le_bytes wf_le_bytes get_range_wf put_range_wf
  set_le_wf blen_nonneg : nvrm.
