(* ===== verification/Text.v ===== *)
(** * Text: the [str] operations the profile and naming code uses

    A Rust [str] is a sequence of Unicode scalar values, here a list of code
    points.  [trim] strips the characters with the White_Space property,
    [parse::<u64>] and [parse::<u32>] accept an optional plus sign and at
    least one digit and refuse a value outside the type, and formatting a
    number writes its decimal digits. *)
From stdpp Require Import strings.
From S2P Require Import Prelude.

Definition str : Type := list Z.

(** A literal of the source. *)
Fixpoint lit (s : string) : str :=
  match s with
  | EmptyString => []
  | String a s' => Z.of_nat (Ascii.nat_of_ascii a) :: lit s'
  end.

(** [char::is_whitespace]: the White_Space property. *)
Definition is_whitespace (c : Z) : bool :=
  ((9 <=? c) && (c <=? 13)) || (c =? 32) || (c =? 133) || (c =? 160)
  || (c =? 5760) || ((8192 <=? c) && (c <=? 8202)) || (c =? 8232)
  || (c =? 8233) || (c =? 8239) || (c =? 8287) || (c =? 12288).

Fixpoint trim_start (s : str) : str :=
  match s with
  | c :: s' => if is_whitespace c then trim_start s' else s
  | [] => []
  end.

Definition trim_end (s : str) : str := reverse (trim_start (reverse s)).
Definition trim (s : str) : str := trim_end (trim_start s).

Definition str_eqb (s t : str) : bool := bool_decide (s = t).
Definition is_empty (s : str) : bool := match s with [] => true | _ => false end.

Definition is_ascii_digit (c : Z) : bool := (48 <=? c) && (c <=? 57).

Fixpoint strip_prefix (p s : str) : option str :=
  match p, s with
  | [], _ => Some s
  | a :: p', b :: s' => if a =? b then strip_prefix p' s' else None
  | _ :: _, [] => None
  end.

Definition ascii_upper (c : Z) : Z :=
  if (97 <=? c) && (c <=? 122) then c - 32 else c.
Definition to_ascii_uppercase (s : str) : str := map ascii_upper s.

(** [split_at] the first character that is not a digit. *)
Fixpoint span_digits (s : str) : str * str :=
  match s with
  | c :: s' =>
      if is_ascii_digit c then let '(d, r) := span_digits s' in (c :: d, r)
      else ([], s)
  | [] => ([], [])
  end.

(** ** [parse] to an unsigned type with the given maximum *)
Fixpoint parse_digits (max acc : Z) (s : str) : option Z :=
  match s with
  | [] => Some acc
  | c :: s' =>
      if is_ascii_digit c then
        let v := 10 * acc + (c - 48) in
        if v <=? max then parse_digits max v s' else None
      else None
  end.

Definition parse_uint (max : Z) (s : str) : option Z :=
  match s with
  | [] => None
  | c :: s' =>
      if c =? 43
      then match s' with [] => None | _ => parse_digits max 0 s' end
      else parse_digits max 0 s
  end.

Definition parse_u64 (s : str) : option Z := parse_uint u64_max s.
Definition parse_u32 (s : str) : option Z := parse_uint u32_max s.

(** ** Decimal formatting *)
Fixpoint dec_digits (fuel : nat) (n : Z) (acc : str) : str :=
  match fuel with
  | O => acc
  | S f =>
      let acc' := 48 + n mod 10 :: acc in
      if n / 10 =? 0 then acc' else dec_digits f (n / 10) acc'
  end.

(** A number has at most as many decimal digits as binary ones. *)
Definition fmt_u64 (n : Z) : str := dec_digits (S (Z.to_nat (Z.log2 n))) n [].

(** ** Laws *)
Lemma parse_digits_app max acc s t :
  parse_digits max acc (s ++ t) =
  parse_digits max acc s ≫= fun v => parse_digits max v t.
Proof.
  revert acc. induction s as [|c s IH]; intros acc; simpl; [done|].
  destruct (is_ascii_digit c); [|done].
  destruct (10 * acc + (c - 48) <=? max); [apply IH | done].
Qed.

Lemma parse_digits_le max acc s v :
  acc <= max -> parse_digits max acc s = Some v -> v <= max.
Proof.
  revert acc. induction s as [|c s IH]; intros acc Ha; simpl; [by intros [= <-]|].
  destruct (is_ascii_digit c); [|done].
  destruct (10 * acc + (c - 48) <=? max) eqn:E; [|done]. bools. eauto.
Qed.

Lemma parse_digits_nonneg max acc s v :
  0 <= acc -> parse_digits max acc s = Some v -> 0 <= v.
Proof.
  revert acc. induction s as [|c s IH]; intros acc Ha; simpl; [by intros [= <-]|].
  destruct (is_ascii_digit c) eqn:Hc; [|done]. unfold is_ascii_digit in Hc. bools.
  destruct (10 * acc + (c - 48) <=? max) eqn:E; [|done]. apply IH. lia.
Qed.

(** A parsed number is in the range of its type. *)
Lemma parse_uint_range max s v :
  0 <= max -> parse_uint max s = Some v -> 0 <= v <= max.
Proof.
  intros Hm. destruct s as [|c s]; simpl; [done|].
  destruct (c =? 43).
  - destruct s; [done|]. intros H. split.
    + by eapply parse_digits_nonneg; [|exact H].
    + by eapply parse_digits_le; [|exact H].
  - intros H. change (parse_digits max 0 (c :: s) = Some v) in H. split.
    + by eapply parse_digits_nonneg; [|exact H].
    + by eapply parse_digits_le; [|exact H].
Qed.

(** The digits of [n], most significant first, each reading one decimal. *)
Lemma dec_digits_spec fuel n acc :
  0 <= n < 10 ^ Z.of_nat fuel -> fuel <> O ->
  exists d, dec_digits fuel n acc = d ++ acc /\ d <> [] /\
    Forall (fun c => is_ascii_digit c = true) d /\
    forall max, n <= max -> parse_digits max 0 d = Some n.
Proof.
  revert n acc. induction fuel as [|f IH]; intros n acc Hn Hf; [done|]. simpl.
  pose proof (Z.mod_pos_bound n 10 eq_refl).
  assert (Hdig : is_ascii_digit (48 + n mod 10) = true).
  { unfold is_ascii_digit. apply andb_true_iff. split; apply Z.leb_le; lia. }
  destruct (n / 10 =? 0) eqn:E; bools.
  - assert (Hq : n mod 10 = n) by (rewrite Z.mod_eq by lia; lia).
    exists [48 + n mod 10]. rewrite Hq in *. repeat split; try done.
    + by constructor.
    + intros max Hmax. cbn [parse_digits]. rewrite Hdig.
      replace (10 * 0 + (48 + n - 48)) with n by lia.
      by rewrite (proj2 (Z.leb_le n max)) by lia.
  - assert (f <> O) as Hf'.
    { intros ->. change (10 ^ Z.of_nat 1) with 10 in Hn.
      apply E. apply Z.div_small. lia. }
    destruct (IH (n / 10) (48 + n mod 10 :: acc)) as (d & Hd & Hne & Hall & Hp).
    + rewrite Nat2Z.inj_succ, Z.pow_succ_r in Hn by lia. split.
      * apply Z.div_pos; lia.
      * apply Z.div_lt_upper_bound; lia.
    + done.
    + exists (d ++ [48 + n mod 10]). rewrite Hd, <- app_assoc. repeat split; try done.
      * by intros [_ ?]%app_nil.
      * apply Forall_app. split; [done|]. by constructor.
      * intros max Hmax. rewrite parse_digits_app, Hp
          by (pose proof (Z.div_le_upper_bound n 10 n); lia).
        cbn [mbind option_bind parse_digits]. rewrite Hdig.
        replace (10 * (n / 10) + (48 + n mod 10 - 48)) with n
          by (pose proof (Z.div_mod n 10); lia).
        by rewrite (proj2 (Z.leb_le n max)) by lia.
Qed.

Lemma fmt_u64_spec n :
  0 <= n -> exists d, fmt_u64 n = d /\ d <> [] /\
    Forall (fun c => is_ascii_digit c = true) d /\
    forall max, n <= max -> parse_digits max 0 d = Some n.
Proof.
  intros Hn. destruct (dec_digits_spec (S (Z.to_nat (Z.log2 n))) n [])
    as (d & Hd & Hrest); [|done|].
  - split; [done|]. rewrite Nat2Z.inj_succ, Z2Nat.id by apply Z.log2_nonneg.
    destruct (decide (n = 0)) as [->|]; [reflexivity|].
    eapply Z.lt_le_trans; [apply Z.log2_spec; lia|].
    apply Z.pow_le_mono_l. lia.
  - exists d. unfold fmt_u64. rewrite Hd, app_nil_r. done.
Qed.

Lemma parse_uint_digits max d :
  d <> [] -> Forall (fun c => is_ascii_digit c = true) d ->
  parse_uint max d = parse_digits max 0 d.
Proof.
  intros Hne Hall. destruct d as [|c d]; [done|].
  apply Forall_cons_1 in Hall as [Hc _]. unfold parse_uint.
  destruct (c =? 43) eqn:E; [|done]. bools. subst. done.
Qed.

(** Printing and parsing a number are inverse. *)
Lemma parse_fmt max n : 0 <= n <= max -> parse_uint max (fmt_u64 n) = Some n.
Proof.
  intros Hn. destruct (fmt_u64_spec n) as (d & -> & Hne & Hall & Hp); [lia|].
  rewrite parse_uint_digits by done. apply Hp. lia.
Qed.

Lemma span_digits_app d r :
  Forall (fun c => is_ascii_digit c = true) d ->
  (forall c r', r = c :: r' -> is_ascii_digit c = false) ->
  span_digits (d ++ r) = (d, r).
Proof.
  intros Hd Hr. induction Hd as [|c d Hc Hd IH]; simpl.
  - destruct r as [|c r]; [done|]. simpl. by rewrite (Hr c r eq_refl).
  - by rewrite Hc, IH.
Qed.

Lemma strip_prefix_app p s : strip_prefix p (p ++ s) = Some s.
Proof. induction p as [|a p IH]; simpl; [done|]. by rewrite Z.eqb_refl. Qed.

Lemma strip_prefix_Some p s r : strip_prefix p s = Some r -> s = p ++ r.
Proof.
  revert s. induction p as [|a p IH]; intros [|b s]; simpl; try congruence.
  destruct (a =? b) eqn:E; [|done]. bools. intros ->%IH. by subst.
Qed.

Lemma trim_start_id s :
  (forall c r, s = c :: r -> is_whitespace c = false) -> trim_start s = s.
Proof. destruct s as [|c s]; [done|]. intros H. simpl. by rewrite (H c s eq_refl). Qed.

(** Text that neither starts nor ends with a space is its own trim. *)
Lemma trim_id s :
  (forall c, head s = Some c -> is_whitespace c = false) ->
  (forall c, last s = Some c -> is_whitespace c = false) -> trim s = s.
Proof.
  intros Hh Hl. unfold trim, trim_end. rewrite (trim_start_id s).
  - rewrite trim_start_id; [apply reverse_involutive|].
    intros c r Hr. apply Hl. rewrite <- (reverse_involutive s), Hr.
    by rewrite reverse_cons, last_snoc.
  - intros c r ->. by apply Hh.
Qed.

Lemma upper_digit c : is_ascii_digit c = true -> ascii_upper c = c.
Proof.
  unfold is_ascii_digit, ascii_upper. intros H. bools.
  destruct (97 <=? c) eqn:E; bools; [lia|done].
Qed.

Lemma ascii_upper_idem c : ascii_upper (ascii_upper c) = ascii_upper c.
Proof.
  unfold ascii_upper. destruct ((97 <=? c) && (c <=? 122)) eqn:E; [|by rewrite E].
  bools. destruct (97 <=? c - 32) eqn:E2; bools; [lia|done].
Qed.
