(* ===== verification/Wire.v ===== *)
(** * The guest/host wire schema (crates/nvrm-wire/src/lib.rs)

    The request, reply and process-information records, their byte views and
    the request kinds.  [pod_bytes!] generates [as_bytes]/[from_bytes] for a
    [repr(C)] struct without holes; here a [Pod] instance gives the struct's
    field widths and the two generic byte views are defined once, as in the
    macro. *)
From S2P Require Import Prelude.
From S2P Require Import Bytes.

Definition PROTO_VERSION : Z := 6.
Definition NONE_U32 : Z := u32_max.
Definition NONE_U64 : Z := u64_max.

Definition KIND_GET_TABLES : Z := 6.
Definition KIND_MAP_RELEASE : Z := 7.
Definition KIND_PROC_GONE : Z := 8.
Definition KIND_EVENT_FIRED : Z := 9.

Definition MAX_PAYLOAD : Z := 16384.
Definition MAX_AUX : Z := 1024 * 1024.
Definition MAX_MSG : Z := MAX_PAYLOAD + MAX_AUX + 4096.
Definition MAX_NESTED : nat := 4.

(** ** Kinds and device tags *)
Module Kind.

Inductive t : Type := Hello | Open | Close | Ioctl | MapPrepare | UvmPoolBack.

Definition to_u32 (k : t) : Z :=
  match k with
  | Hello => 0 | Open => 1 | Close => 2 | Ioctl => 3
  | MapPrepare => 4 | UvmPoolBack => 5
  end.

Definition from_u32 (v : Z) : option t :=
  match v with
  | 0 => Some Hello
  | 1 => Some Open
  | 2 => Some Close
  | 3 => Some Ioctl
  | 4 => Some MapPrepare
  | 5 => Some UvmPoolBack
  | _ => None
  end.

Global Instance eq_dec : EqDecision t.
Proof. solve_decision. Defined.

Lemma kind_from_u32_Some v k : from_u32 v = Some k <-> v = to_u32 k.
Proof.
  split; [|intros ->; by destruct k].
  unfold from_u32. repeat case_match; intros; simplify_eq; done.
Qed.

End Kind.

Module DevTag.

Inductive t : Type := Ctl | Gpu | Uvm | UvmTools.

Definition to_u32 (k : t) : Z :=
  match k with Ctl => 0 | Gpu => 1 | Uvm => 2 | UvmTools => 3 end.

Definition from_u32 (v : Z) : option t :=
  match v with
  | 0 => Some Ctl
  | 1 => Some Gpu
  | 2 => Some Uvm
  | 3 => Some UvmTools
  | _ => None
  end.

Global Instance eq_dec : EqDecision t.
Proof. solve_decision. Defined.

Lemma dev_tag_from_u32_Some v k : from_u32 v = Some k <-> v = to_u32 k.
Proof.
  split; [|intros ->; by destruct k].
  unfold from_u32. repeat case_match; intros; simplify_eq; done.
Qed.

End DevTag.

(** ** Packed structs *)
Definition fits (ws : list nat) (vs : list Z) : Prop :=
  Forall2 (fun w v => 0 <= v < 256 ^ Z.of_nat w) ws vs.

Fixpoint pack (ws : list nat) (vs : list Z) : bytes :=
  match ws, vs with
  | w :: ws', v :: vs' => le_bytes w v ++ pack ws' vs'
  | _, _ => []
  end.

Fixpoint unpack (ws : list nat) (b : bytes) : list Z :=
  match ws with
  | [] => []
  | w :: ws' => le_val (take w b) :: unpack ws' (drop w b)
  end.

Class Pod (A : Type) := {
  pod_layout : list nat;
  pod_words : A -> list Z;
  pod_of_words : list Z -> A;
  pod_wf : A -> Prop;
}.

Class PodLaws (A : Type) `{Pod A} := {
  pod_words_fit : forall a : A, pod_wf a -> fits pod_layout (pod_words a);
  pod_of_words_words : forall a : A, pod_wf a -> pod_of_words (pod_words a) = a;
  pod_words_of_words : forall l, fits pod_layout l ->
    pod_words (pod_of_words l : A) = l;
  pod_of_words_wf : forall l, fits pod_layout l -> pod_wf (pod_of_words l : A);
}.

Definition WIRE_LEN (A : Type) `{Pod A} : Z := Z.of_nat (sum_list (pod_layout (A:=A))).

Definition as_bytes {A} `{Pod A} (a : A) : bytes := pack pod_layout (pod_words a).

Definition from_bytes {A} `{Pod A} (b : bytes) : option A :=
  if blen b <? WIRE_LEN A then None else Some (pod_of_words (unpack pod_layout b)).

Lemma length_pack ws vs : fits ws vs -> length (pack ws vs) = sum_list ws.
Proof.
  induction 1; simpl; [done|]. by rewrite length_app, length_le_bytes, IHForall2.
Qed.

Lemma wf_pack ws vs : wf_bytes (pack ws vs).
Proof.
  revert vs. induction ws as [|w ws IH]; intros [|v vs]; simpl; try constructor.
  apply Forall_app_2; [apply wf_le_bytes|apply IH].
Qed.

Lemma unpack_pack ws vs rest : fits ws vs -> unpack ws (pack ws vs ++ rest) = vs.
Proof.
  induction 1 as [|w v ws vs Hv Hvs IH]; simpl; [done|].
  rewrite <- (assoc_L (++)).
  rewrite take_app_length', drop_app_length' by (by rewrite length_le_bytes).
  by rewrite IH, le_val_le_bytes_small.
Qed.

Lemma pack_unpack ws b :
  wf_bytes b -> (sum_list ws <= length b)%nat -> pack ws (unpack ws b) = take (sum_list ws) b.
Proof.
  revert b. induction ws as [|w ws IH]; intros b Hb Hl; simpl in *; [done|].
  rewrite IH by (try apply Forall_drop; try rewrite length_drop; auto; lia).
  replace w with (length (take w b)) at 1 by (rewrite length_take; lia).
  rewrite le_bytes_le_val by (by apply Forall_take).
  by rewrite take_take_drop.
Qed.

Lemma unpack_fits ws b :
  wf_bytes b -> (sum_list ws <= length b)%nat -> fits ws (unpack ws b).
Proof.
  revert b. induction ws as [|w ws IH]; intros b Hb Hl; simpl in *; constructor.
  - assert (wf_bytes (take w b)) as Ht%le_val_bounds by (by apply Forall_take).
    unfold blen in Ht. rewrite length_take in Ht.
    by replace (w `min` length b)%nat with w in Ht by lia.
  - apply IH; [by apply Forall_drop|]. rewrite length_drop. lia.
Qed.

Lemma sum_list_take_lookup (ws : list nat) (i w : nat) :
  ws !! i = Some w -> (sum_list (take i ws) + w <= sum_list ws)%nat.
Proof.
  revert i. induction ws as [|x ws IH]; intros [|i] Hi; simplify_eq/=; [lia|].
  apply IH in Hi. lia.
Qed.

(** The word of field [i] sits at the sum of the widths before it. *)
Lemma unpack_lookup ws b (i : nat) w :
  ws !! i = Some w -> (sum_list ws <= length b)%nat ->
  unpack ws b !! i = get_le w b (Z.of_nat (sum_list (take i ws))).
Proof.
  revert b i. induction ws as [|w' ws IH]; intros b [|i] Hi Hl; simpl in *;
    simplify_eq.
  - by rewrite get_le_nat by lia.
  - set (o := sum_list (take i ws)).
    assert (o + w <= sum_list ws)%nat as Hs by by apply sum_list_take_lookup.
    rewrite IH by (try rewrite length_drop; auto; lia).
    rewrite !get_le_nat by (try rewrite length_drop; lia).
    by rewrite drop_drop.
Qed.

Section pod.
Context {A : Type} `{PodLaws A}.

Lemma as_bytes_length (a : A) : pod_wf a -> blen (as_bytes a) = WIRE_LEN A.
Proof. intros. unfold blen, as_bytes. by rewrite length_pack by auto using pod_words_fit. Qed.

Lemma as_bytes_wf (a : A) : wf_bytes (as_bytes a).
Proof. apply wf_pack. Qed.

Lemma from_bytes_as_bytes (a : A) rest :
  pod_wf a -> from_bytes (as_bytes a ++ rest) = Some a.
Proof.
  intros Ha. unfold from_bytes.
  destruct (blen (as_bytes a ++ rest) <? WIRE_LEN A) eqn:Hl; bools.
  - rewrite blen_app, as_bytes_length in Hl by done.
    pose proof (blen_nonneg rest). lia.
  - f_equal. unfold as_bytes. rewrite unpack_pack by auto using pod_words_fit.
    auto using pod_of_words_words.
Qed.

Lemma from_bytes_is_Some b : is_Some (from_bytes (A:=A) b) <-> WIRE_LEN A <= blen b.
Proof.
  unfold from_bytes. destruct (blen b <? WIRE_LEN A) eqn:?; bools.
  - split; [intros [? ?]; done|lia].
  - split; [done|eauto].
Qed.

Lemma from_bytes_inv b (a : A) :
  wf_bytes b -> from_bytes b = Some a ->
  pod_wf a /\ as_bytes a = take (Z.to_nat (WIRE_LEN A)) b.
Proof.
  unfold from_bytes. destruct (blen b <? WIRE_LEN A) eqn:Hl; [done|].
  intros Hb [= <-]. bools. unfold WIRE_LEN, blen in *.
  assert (fits pod_layout (unpack pod_layout b)) by (apply unpack_fits; [done|lia]).
  split; [by apply pod_of_words_wf|].
  unfold as_bytes. rewrite pod_words_of_words by done.
  rewrite pack_unpack by (done || lia). f_equal. lia.
Qed.

(** Field [i] of the decoded record is the little-endian word at its offset. *)
Lemma from_bytes_field b (a : A) (i : nat) w :
  wf_bytes b -> from_bytes b = Some a -> pod_layout (A:=A) !! i = Some w ->
  get_le w b (Z.of_nat (sum_list (take i (pod_layout (A:=A))))) = pod_words a !! i.
Proof.
  unfold from_bytes. destruct (blen b <? WIRE_LEN A) eqn:Hl; [done|].
  intros Hb [= <-] Hi. bools. unfold WIRE_LEN, blen in *.
  rewrite pod_words_of_words by (apply unpack_fits; [done|lia]).
  symmetry. apply unpack_lookup; [done|lia].
Qed.

End pod.

(** ** The request *)
Record NestedDesc := {
  ptr_off : Z;
  aux_off : Z;
  nd_len : Z;
  nd_pad : Z;
}.

Definition NestedDesc_default : NestedDesc :=
  {| ptr_off := 0; aux_off := 0; nd_len := 0; nd_pad := 0 |}.

Record Req := {
  seq : Z;
  kind : Z;
  dev_tag : Z;
  ioctl_nr : Z;
  target_token : Z;
  inline_len : Z;
  aux_len : Z;
  fd_field_off : Z;
  fd_field_proc : Z;
  fd_field_token : Z;
  embedded_ptr_off : Z;
  nested_count : Z;
  nested : list NestedDesc;
  aux_fd_field_off : Z;
  aux_fd_field_proc : Z;
  aux_fd_field_token : Z;
  map_len : Z;
  addr : Z;
  gpa_run_count : Z;
  guest_proc : Z;
}.

Definition Req_default : Req := {|
  seq := 0; kind := 0; dev_tag := 0; ioctl_nr := 0; target_token := 0;
  inline_len := 0; aux_len := 0;
  fd_field_off := NONE_U32; fd_field_proc := NONE_U32; fd_field_token := NONE_U64;
  embedded_ptr_off := NONE_U32; nested_count := 0;
  nested := replicate MAX_NESTED NestedDesc_default;
  aux_fd_field_off := NONE_U32; aux_fd_field_proc := NONE_U32;
  aux_fd_field_token := NONE_U64;
  map_len := 0; addr := 0; gpa_run_count := 0; guest_proc := 0;
|}.

Record Rsp := {
  rsp_seq : Z;
  ret : Z;
  token : Z;
  rsp_inline_len : Z;
  rsp_aux_len : Z;
  scm_fd_count : Z;
  rsp_pad : Z;
}.

Definition Rsp_default : Rsp :=
  {| rsp_seq := 0; ret := 0; token := 0; rsp_inline_len := 0; rsp_aux_len := 0;
     scm_fd_count := 0; rsp_pad := 0 |}.

Record ProcInfo := {
  pid : Z;
  pi_pad : Z;
  comm : bytes;
}.

(** *** Well-formed records: every field within its machine type *)
Definition wf_nested (d : NestedDesc) : Prop :=
  is_u32 (ptr_off d) /\ is_u32 (aux_off d) /\ is_u32 (nd_len d) /\ is_u32 (nd_pad d).

Definition wf_req (r : Req) : Prop :=
  is_u32 (seq r) /\ is_u32 (kind r) /\ is_u32 (dev_tag r) /\ is_u32 (ioctl_nr r) /\
  is_u64 (target_token r) /\ is_u32 (inline_len r) /\ is_u32 (aux_len r) /\
  is_u32 (fd_field_off r) /\ is_u32 (fd_field_proc r) /\ is_u64 (fd_field_token r) /\
  is_u32 (embedded_ptr_off r) /\ is_u32 (nested_count r) /\
  (length (nested r) = MAX_NESTED /\ Forall wf_nested (nested r)) /\
  is_u32 (aux_fd_field_off r) /\ is_u32 (aux_fd_field_proc r) /\
  is_u64 (aux_fd_field_token r) /\ is_u64 (map_len r) /\ is_u64 (addr r) /\
  is_u32 (gpa_run_count r) /\ is_u32 (guest_proc r).

Definition wf_rsp (r : Rsp) : Prop :=
  is_u32 (rsp_seq r) /\ -2147483648 <= ret r < 2147483648 /\ is_u64 (token r) /\
  is_u32 (rsp_inline_len r) /\ is_u32 (rsp_aux_len r) /\ is_u32 (scm_fd_count r) /\
  is_u32 (rsp_pad r).

Definition wf_proc_info (p : ProcInfo) : Prop :=
  is_u32 (pid p) /\ is_u32 (pi_pad p) /\ length (comm p) = 16%nat /\ wf_bytes (comm p).

(** *** Layouts *)
Definition nested_words (d : NestedDesc) : list Z :=
  [ptr_off d; aux_off d; nd_len d; nd_pad d].

Definition nested_of_words (l : list Z) (i : nat) : NestedDesc :=
  {| ptr_off := nth i l 0; aux_off := nth (i + 1) l 0;
     nd_len := nth (i + 2) l 0; nd_pad := nth (i + 3) l 0 |}.

Definition req_layout : list nat :=
  [4; 4; 4; 4; 8; 4; 4; 4; 4; 8; 4; 4;
   4; 4; 4; 4; 4; 4; 4; 4; 4; 4; 4; 4; 4; 4; 4; 4;
   4; 4; 8; 8; 8; 4; 4]%nat.

Definition req_words (r : Req) : list Z :=
  [seq r; kind r; dev_tag r; ioctl_nr r; target_token r; inline_len r; aux_len r;
   fd_field_off r; fd_field_proc r; fd_field_token r; embedded_ptr_off r; nested_count r]
  ++ concat (nested_words <$> nested r)
  ++ [aux_fd_field_off r; aux_fd_field_proc r; aux_fd_field_token r; map_len r; addr r;
      gpa_run_count r; guest_proc r].

Definition req_of_words (l : list Z) : Req := {|
  seq := nth 0 l 0; kind := nth 1 l 0; dev_tag := nth 2 l 0; ioctl_nr := nth 3 l 0;
  target_token := nth 4 l 0; inline_len := nth 5 l 0; aux_len := nth 6 l 0;
  fd_field_off := nth 7 l 0; fd_field_proc := nth 8 l 0; fd_field_token := nth 9 l 0;
  embedded_ptr_off := nth 10 l 0; nested_count := nth 11 l 0;
  nested := [nested_of_words l 12; nested_of_words l 16; nested_of_words l 20;
             nested_of_words l 24];
  aux_fd_field_off := nth 28 l 0; aux_fd_field_proc := nth 29 l 0;
  aux_fd_field_token := nth 30 l 0; map_len := nth 31 l 0; addr := nth 32 l 0;
  gpa_run_count := nth 33 l 0; guest_proc := nth 34 l 0;
|}.

#[export] Instance Req_pod : Pod Req := {
  pod_layout := req_layout; pod_words := req_words;
  pod_of_words := req_of_words; pod_wf := wf_req;
}.

#[export] Instance Rsp_pod : Pod Rsp := {
  pod_layout := [4; 4; 8; 4; 4; 4; 4]%nat;
  pod_words r := [rsp_seq r; wrap32 (ret r); token r; rsp_inline_len r; rsp_aux_len r;
                  scm_fd_count r; rsp_pad r];
  pod_of_words l := {|
    rsp_seq := nth 0 l 0; ret := as_i32 (nth 1 l 0); token := nth 2 l 0;
    rsp_inline_len := nth 3 l 0; rsp_aux_len := nth 4 l 0;
    scm_fd_count := nth 5 l 0; rsp_pad := nth 6 l 0 |};
  pod_wf := wf_rsp;
}.

#[export] Instance ProcInfo_pod : Pod ProcInfo := {
  pod_layout := [4; 4]%nat ++ replicate 16 1%nat;
  pod_words p := pid p :: pi_pad p :: comm p;
  pod_of_words l := {| pid := nth 0 l 0; pi_pad := nth 1 l 0; comm := drop 2 l |};
  pod_wf := wf_proc_info;
}.

(** [ProcInfo::comm_str]: the name up to the first NUL, as character codes. *)
Definition is_ascii_graphic (c : Z) : bool := (33 <=? c) && (c <=? 126).

Fixpoint take_while (f : Z -> bool) (l : list Z) : list Z :=
  match l with
  | [] => []
  | c :: l' => if f c then c :: take_while f l' else []
  end.

Definition comm_str (p : ProcInfo) : list Z :=
  (fun c => if is_ascii_graphic c || (c =? 32) then c else 63)
    <$> take_while (fun c => negb (c =? 0)) (comm p).

(** *** The instances obey the laws *)
Lemma Forall2_cons_inv {A B} (P : A -> B -> Prop) x xs l :
  Forall2 P (x :: xs) l -> exists y ys, l = y :: ys /\ P x y /\ Forall2 P xs ys.
Proof. inversion 1; naive_solver. Qed.

Ltac fits_cases H :=
  repeat (apply Forall2_cons_inv in H;
    destruct H as (? & ? & -> & ? & H)); apply Forall2_nil_inv_l in H; subst.

Lemma u32_fits v : is_u32 v <-> 0 <= v < 256 ^ Z.of_nat 4.
Proof. unfold is_u32, u32_max. simpl. lia. Qed.

Lemma u64_fits v : is_u64 v <-> 0 <= v < 256 ^ Z.of_nat 8.
Proof. unfold is_u64, u64_max. simpl. lia. Qed.

Lemma wrap32_bounds z : is_u32 (wrap32 z).
Proof. unfold is_u32, u32_max, wrap32. pose proof (Z.mod_pos_bound z 4294967296). lia. Qed.

Lemma as_i32_bounds z : -2147483648 <= as_i32 z < 2147483648.
Proof.
  unfold as_i32. pose proof (wrap32_bounds z). unfold is_u32, u32_max in *.
  destruct (2147483648 <=? wrap32 z) eqn:?; bools; lia.
Qed.

Lemma as_i32_wrap32 z : -2147483648 <= z < 2147483648 -> as_i32 (wrap32 z) = z.
Proof.
  intros. unfold as_i32, wrap32. rewrite Z.mod_mod by lia.
  destruct (2147483648 <=? z mod 4294967296) eqn:?; bools;
    destruct (decide (0 <= z)).
  - rewrite Z.mod_small in * by lia. lia.
  - rewrite <- (Z_mod_plus_full z 1), Z.mod_small by lia. lia.
  - by rewrite Z.mod_small by lia.
  - rewrite <- (Z_mod_plus_full z 1), Z.mod_small in * by lia. lia.
Qed.

Lemma wrap32_as_i32 z : is_u32 z -> wrap32 (as_i32 z) = z.
Proof.
  unfold is_u32, u32_max, as_i32, wrap32. intros.
  rewrite (Z.mod_small z) by lia.
  destruct (2147483648 <=? z) eqn:?; bools.
  - rewrite <- (Z_mod_plus_full _ 1), Z.mod_small by lia. lia.
  - by rewrite Z.mod_small by lia.
Qed.

Ltac fits_solve :=
  repeat match goal with
  | |- fits _ _ => unfold fits
  | |- Forall2 _ (_ :: _) (_ :: _) => constructor
  | |- Forall2 _ [] [] => constructor
  | |- 0 <= _ < 256 ^ Z.of_nat 4 => apply u32_fits
  | |- 0 <= _ < 256 ^ Z.of_nat 8 => apply u64_fits
  end; auto using wrap32_bounds.

#[export] Instance Req_pod_laws : PodLaws Req.
Proof.
  assert (forall l, length l = 4%nat -> exists a b c d : NestedDesc, l = [a; b; c; d]) as H4.
  { intros [|a [|b [|c [|d [|? ?]]]]] ?; naive_solver. }
  split.
  - intros r Hr. unfold wf_req, wf_nested in Hr. destruct_and! Hr.
    destruct (H4 (nested r)) as (a & b & c & d & Hn); [done|].
    cbn. unfold req_words. rewrite Hn in *. decompose_Forall_hyps.
    unfold wf_nested in *. destruct_and?. unfold req_layout. cbn. fits_solve.
  - intros r Hr. unfold wf_req in Hr. destruct_and! Hr.
    destruct (H4 (nested r)) as ([] & [] & [] & [] & Hn); [done|].
    destruct r; simpl in *; subst; done.
  - intros l Hl. cbn in Hl. unfold fits, req_layout in Hl. fits_cases Hl. done.
  - intros l Hl. cbn in Hl. unfold fits, req_layout in Hl. fits_cases Hl.
    rewrite <- ?u32_fits, <- ?u64_fits in *.
    cbn. unfold wf_req, wf_nested; simpl. split_and!; auto.
    repeat constructor; simpl; unfold is_u32 in *; lia.
Qed.

#[export] Instance Rsp_pod_laws : PodLaws Rsp.
Proof.
  split.
  - intros r Hr. cbn in *. unfold wf_rsp in Hr. destruct_and! Hr. fits_solve.
  - intros r Hr. cbn in *. unfold wf_rsp in Hr. destruct_and! Hr.
    rewrite as_i32_wrap32 by done. by destruct r.
  - intros l Hl. cbn in Hl. unfold fits in Hl. fits_cases Hl.
    rewrite <- ?u32_fits, <- ?u64_fits in *. cbn. by rewrite wrap32_as_i32.
  - intros l Hl. cbn in Hl. unfold fits in Hl. fits_cases Hl.
    rewrite <- ?u32_fits, <- ?u64_fits in *. cbn. unfold wf_rsp; simpl.
    split_and!; auto; apply as_i32_bounds.
Qed.

#[export] Instance ProcInfo_pod_laws : PodLaws ProcInfo.
Proof.
  split.
  - intros p Hp. cbn -[replicate] in *. unfold wf_proc_info in Hp. destruct_and! Hp.
    unfold fits. constructor; [by apply u32_fits|]. constructor; [by apply u32_fits|].
    match goal with H : length _ = _ |- _ => rewrite <- H end.
    apply Forall2_replicate_l; [done|].
    eapply Forall_impl; [eassumption|]. unfold is_byte. simpl. intros; lia.
  - intros [] Hp. done.
  - intros l Hl. cbn in Hl. unfold fits in Hl. fits_cases Hl. done.
  - intros l Hl. cbn in Hl. unfold fits in Hl. fits_cases Hl.
    rewrite <- ?u32_fits, <- ?u64_fits in *. cbn. unfold wf_proc_info; simpl.
    split_and!; auto. repeat constructor; unfold is_byte in *; simpl in *; lia.
Qed.

(** ** Theorems *)

(** C31: Encoding a well-formed request gives exactly 160 bytes, and decoding them
    (whatever payload follows) gives the request back; the encoding is made
    of bytes. *)
Theorem req_encode_decode (r : Req) (payload : bytes) :
  wf_req r ->
  blen (as_bytes r) = 160 /\ wf_bytes (as_bytes r) /\
  from_bytes (as_bytes r ++ payload) = Some r.
Proof.
  intros Hr. split_and!.
  - by rewrite as_bytes_length.
  - apply as_bytes_wf.
  - by apply from_bytes_as_bytes.
Qed.

Definition req_example : Req := {|
  seq := 7; kind := 3; dev_tag := 2; ioctl_nr := 0x4b; target_token := 2 ^ 63 + 5;
  inline_len := 32; aux_len := 64; fd_field_off := 8; fd_field_proc := 1;
  fd_field_token := 3; embedded_ptr_off := 16; nested_count := 1;
  nested := [{| ptr_off := 8; aux_off := 40; nd_len := 24; nd_pad := 0 |};
             NestedDesc_default; NestedDesc_default; NestedDesc_default];
  aux_fd_field_off := NONE_U32; aux_fd_field_proc := NONE_U32;
  aux_fd_field_token := NONE_U64; map_len := 0; addr := 0x7f00deadbeef;
  gpa_run_count := 0; guest_proc := 9 |}.

Lemma wf_req_example : wf_req req_example.
Proof.
  unfold wf_req, req_example, is_u32, is_u64, NONE_U32, NONE_U64, u32_max, u64_max; simpl.
  repeat (split; [lia|]). split; [split; [reflexivity|]|split_and!; lia].
  unfold wf_nested, is_u32, u32_max. repeat (apply Forall_cons_2; [simpl; lia|]).
  apply Forall_nil_2.
Defined.

Lemma req_encode_decode_witness :
  from_bytes (as_bytes req_example ++ [1; 2; 3]) = Some req_example.
Proof. apply (req_encode_decode req_example [1; 2; 3] wf_req_example). Defined.

(** Decoding a received buffer fails exactly when it is shorter than a
    request; otherwise it gives a request whose fields are within their
    machine types and whose encoding is the buffer's first 160 bytes, each
    field read from the byte offset the wire contract pins. *)
Theorem req_decode_spec (b : bytes) :
  wf_bytes b ->
  (from_bytes (A:=Req) b = None <-> blen b < 160) /\
  forall r : Req, from_bytes b = Some r ->
    wf_req r /\ as_bytes r = take 160 b /\
    get_u32 b 0 = Some (seq r) /\ get_u32 b 4 = Some (kind r) /\
    get_u32 b 8 = Some (dev_tag r) /\ get_u32 b 12 = Some (ioctl_nr r) /\
    get_u64 b 16 = Some (target_token r) /\ get_u32 b 24 = Some (inline_len r) /\
    get_u32 b 28 = Some (aux_len r) /\ get_u32 b 32 = Some (fd_field_off r) /\
    get_u32 b 36 = Some (fd_field_proc r) /\ get_u64 b 40 = Some (fd_field_token r) /\
    get_u32 b 48 = Some (embedded_ptr_off r) /\ get_u32 b 52 = Some (nested_count r) /\
    get_u32 b 120 = Some (aux_fd_field_off r) /\
    get_u32 b 124 = Some (aux_fd_field_proc r) /\
    get_u64 b 128 = Some (aux_fd_field_token r) /\ get_u64 b 136 = Some (map_len r) /\
    get_u64 b 144 = Some (addr r) /\ get_u32 b 152 = Some (gpa_run_count r) /\
    get_u32 b 156 = Some (guest_proc r).
Proof.
  intros Hb. split.
  - rewrite eq_None_not_Some, from_bytes_is_Some.
    change (WIRE_LEN Req) with 160. lia.
  - intros r Hr. destruct (from_bytes_inv b r Hb Hr) as [Hwf He].
    split; [exact Hwf|]. split; [exact He|].
    assert (exists d0 d1 d2 d3, nested r = [d0; d1; d2; d3]) as (d0&d1&d2&d3&Hn).
    { destruct Hwf as (_&_&_&_&_&_&_&_&_&_&_&_&[Hl _]&_).
      destruct (nested r) as [|? [|? [|? [|? [|? ?]]]]]; try discriminate Hl. by eauto. }
    pose proof (fun i w => from_bytes_field b r i w Hb Hr) as F.
    cbn in F. unfold req_words in F. rewrite Hn in F.
    repeat split.
    all: first
      [ exact (F 0%nat 4%nat eq_refl) | exact (F 1%nat 4%nat eq_refl)
      | exact (F 2%nat 4%nat eq_refl) | exact (F 3%nat 4%nat eq_refl)
      | exact (F 4%nat 8%nat eq_refl) | exact (F 5%nat 4%nat eq_refl)
      | exact (F 6%nat 4%nat eq_refl) | exact (F 7%nat 4%nat eq_refl)
      | exact (F 8%nat 4%nat eq_refl) | exact (F 9%nat 8%nat eq_refl)
      | exact (F 10%nat 4%nat eq_refl) | exact (F 11%nat 4%nat eq_refl)
      | exact (F 28%nat 4%nat eq_refl) | exact (F 29%nat 4%nat eq_refl)
      | exact (F 30%nat 8%nat eq_refl) | exact (F 31%nat 8%nat eq_refl)
      | exact (F 32%nat 8%nat eq_refl) | exact (F 33%nat 4%nat eq_refl)
      | exact (F 34%nat 4%nat eq_refl) ].
Qed.

Lemma req_decode_spec_witness :
  wf_bytes (as_bytes req_example) /\
  wf_req req_example /\ as_bytes req_example = take 160 (as_bytes req_example).
Proof.
  split; [apply as_bytes_wf|].
  destruct (req_decode_spec (as_bytes req_example) (as_bytes_wf _)) as [_ H].
  destruct (H req_example ltac:(vm_compute; reflexivity)) as (H1 & H2 & _).
  exact (conj H1 H2).
Defined.

(** Replies and process-information payloads survive the wire in both
    directions: a well-formed record decodes to itself, its encoding has the
    fixed length (32 and 24 bytes), negative return codes included, and a
    decoded record re-encodes to the bytes it came from. *)
Theorem rsp_proc_info_roundtrip :
  (forall (r : Rsp) rest, wf_rsp r ->
     blen (as_bytes r) = 32 /\ from_bytes (as_bytes r ++ rest) = Some r) /\
  (forall (p : ProcInfo) rest, wf_proc_info p ->
     blen (as_bytes p) = 24 /\ from_bytes (as_bytes p ++ rest) = Some p) /\
  (forall b (r : Rsp), wf_bytes b -> from_bytes b = Some r ->
     wf_rsp r /\ as_bytes r = take 32 b) /\
  (forall b (p : ProcInfo), wf_bytes b -> from_bytes b = Some p ->
     wf_proc_info p /\ as_bytes p = take 24 b).
Proof.
  split_and!.
  - intros r rest Hr. split; [by rewrite as_bytes_length|by apply from_bytes_as_bytes].
  - intros p rest Hp. split; [by rewrite as_bytes_length|by apply from_bytes_as_bytes].
  - intros b r Hb Hr. exact (from_bytes_inv b r Hb Hr).
  - intros b p Hb Hp. exact (from_bytes_inv b p Hb Hp).
Qed.

Lemma rsp_proc_info_roundtrip_witness :
  let r := {| rsp_seq := 1; ret := -22; token := 5; rsp_inline_len := 0;
              rsp_aux_len := 0; scm_fd_count := 0; rsp_pad := 0 |} in
  from_bytes (as_bytes r ++ []) = Some r.
Proof.
  intros r. apply (proj1 rsp_proc_info_roundtrip r []).
  unfold wf_rsp, is_u32, is_u64, u32_max, u64_max; simpl. lia.
Defined.

(** Session dispatch accepts exactly the six session kinds: the decoder is
    the inverse of the discriminants, and no carrier-only kind (table fetch,
    map release, process exit, event notification) decodes to one.  The same
    holds for the four device tags. *)
Theorem kind_dispatch_exact :
  (forall v k, Kind.from_u32 v = Some k <-> v = Kind.to_u32 k) /\
  (forall v k, DevTag.from_u32 v = Some k <-> v = DevTag.to_u32 k) /\
  Forall (fun v => Kind.from_u32 v = None)
    [KIND_GET_TABLES; KIND_MAP_RELEASE; KIND_PROC_GONE; KIND_EVENT_FIRED].
Proof.
  split_and!; [apply Kind.kind_from_u32_Some|apply DevTag.dev_tag_from_u32_Some|].
  repeat constructor.
Qed.

Lemma take_while_Forall f l : Forall (fun c => f c = true) (take_while f l).
Proof. induction l as [|c l IH]; simpl; [done|]. destruct (f c) eqn:?; by constructor. Qed.

Lemma length_take_while f l : (length (take_while f l) <= length l)%nat.
Proof. induction l as [|c l IH]; simpl; [done|]. destruct (f c); simpl; lia. Qed.

(** The diagnostic name of a guest process is at most 16 printable ASCII
    characters whatever bytes the guest sent, so it cannot inject control
    characters into the host log; a name that was printable is kept. *)
Theorem comm_str_printable (p : ProcInfo) :
  wf_proc_info p ->
  (length (comm_str p) <= 16)%nat /\ Forall (fun c => 32 <= c <= 126) (comm_str p) /\
  (Forall (fun c => 32 <= c <= 126) (comm p) -> comm_str p = comm p).
Proof.
  intros (_ & _ & Hl & _). unfold comm_str. split_and!.
  - rewrite length_fmap, <- Hl. apply length_take_while.
  - apply Forall_fmap, Forall_forall. intros c _. unfold compose, is_ascii_graphic.
    destruct (_ || _) eqn:Hc; [|lia]. bools. destruct Hc; bools; lia.
  - clear Hl. induction 1 as [|c l Hc Hl IH]; [done|]. cbn [take_while].
    destruct (c =? 0) eqn:?; bools; [lia|]. cbn [negb]. rewrite fmap_cons, IH.
    unfold is_ascii_graphic. destruct (_ || _) eqn:Hf; [done|]. bools. naive_solver lia.
Qed.

Lemma comm_str_printable_witness :
  let p := {| pid := 1; pi_pad := 0; comm := 65 :: 10 :: replicate 14 0 |} in
  (length (comm_str p) <= 16)%nat.
Proof.
  intros p. refine (proj1 (comm_str_printable p _)).
  unfold wf_proc_info, is_u32, u32_max; simpl. split_and!; try lia.
  repeat constructor; unfold is_byte; lia.
Defined.
