(* ===== verification/CLayout.v ===== *)
(** * C structure layout

    The bindings describe kernel structures as [repr(C)] Rust types.  A type
    is represented by what [size_of], [align_of] and [offset_of!] say of it;
    [struct], [union], [array] and [align_to] compute these the way the C ABI
    does, so that a Rocq definition of a structure is the Rust declaration
    read field by field. *)
From stdpp Require Import strings.
From S2P Require Import Prelude.

Record layout := Layout {
  size_of : Z;
  align_of : Z;
  (** field name, byte offset and size, in declaration order *)
  fields_of : list (string * (Z * Z));
}.

Definition round_up (x a : Z) : Z := (x + a - 1) / a * a.

Definition scalar (n : Z) : layout := Layout n n [].
Definition pointer : layout := scalar 8.
Definition array (t : layout) (n : Z) : layout := Layout (size_of t * n) (align_of t) [].

Definition max_align (fs : list (string * layout)) : Z :=
  foldr (fun f a => Z.max (align_of f.2) a) 1 fs.

Fixpoint place (off : Z) (fs : list (string * layout)) : list (string * (Z * Z)) :=
  match fs with
  | [] => []
  | (f, t) :: fs' =>
      let o := round_up off (align_of t) in
      (f, (o, size_of t)) :: place (o + size_of t) fs'
  end.

Fixpoint place_end (off : Z) (fs : list (string * layout)) : Z :=
  match fs with
  | [] => off
  | (_, t) :: fs' => place_end (round_up off (align_of t) + size_of t) fs'
  end.

Definition struct (fs : list (string * layout)) : layout :=
  Layout (round_up (place_end 0 fs) (max_align fs)) (max_align fs) (place 0 fs).

Definition union (fs : list (string * layout)) : layout :=
  Layout (round_up (foldr (fun f s => Z.max (size_of f.2) s) 0 fs) (max_align fs))
    (max_align fs) ((fun f => (f.1, (0, size_of f.2))) <$> fs).

Definition align_to (a : Z) (t : layout) : layout :=
  let a' := Z.max a (align_of t) in Layout (round_up (size_of t) a') a' (fields_of t).

Fixpoint find_field (f : string) (l : list (string * (Z * Z))) : option (Z * Z) :=
  match l with
  | [] => None
  | (g, p) :: l' => if String.eqb f g then Some p else find_field f l'
  end.

(** [offset_of!(T, f)]; a field the structure does not have is no offset. *)
Definition offset_of (t : layout) (f : string) : Z :=
  match find_field f (fields_of t) with Some (o, _) => o | None => -1 end.

(** [assert_layout!(T, size = s, align = a, f @ o, ...)] *)
Record measured := Measured {
  m_type : layout;
  m_size : Z;
  m_align : Z;
  m_offsets : list (string * Z);
}.

Definition assert_layout (m : measured) : bool :=
  (size_of (m_type m) =? m_size m) && (align_of (m_type m) =? m_align m) &&
  forallb (fun fo => offset_of (m_type m) fo.1 =? fo.2) (m_offsets m).

(** ** Soundness of the layout algorithm *)
Definition wf_layout (t : layout) : Prop := 0 <= size_of t /\ 0 < align_of t.

Lemma round_up_spec x a :
  0 < a -> x <= round_up x a < x + a /\ (a | round_up x a).
Proof.
  intros Ha. unfold round_up.
  pose proof (Z.div_mod (x + a - 1) a). pose proof (Z.mod_pos_bound (x + a - 1) a).
  split; [nia|]. apply Z.divide_factor_r.
Qed.

Lemma max_align_pos fs : 0 < max_align fs.
Proof. induction fs; simpl; lia. Qed.

(** The fields a placement produces follow each other: each starts at or
    after [lo], inside [hi], and before every later one. *)
Fixpoint ordered (lo : Z) (ps : list (string * (Z * Z))) (hi : Z) : Prop :=
  match ps with
  | [] => lo <= hi
  | (_, (o, s)) :: ps' => lo <= o /\ 0 <= s /\ ordered (o + s) ps' hi
  end.

Lemma place_ordered fs off :
  Forall (fun f => wf_layout f.2) fs -> ordered off (place off fs) (place_end off fs).
Proof.
  intros Hfs. revert off. induction Hfs as [|[f t] fs [Hs Ha] Hfs IH]; intros off; simpl; [lia|].
  simpl in *. destruct (round_up_spec off (align_of t) Ha). split_and!; [lia|done|apply IH].
Qed.

Lemma ordered_weaken lo ps hi hi' : ordered lo ps hi -> hi <= hi' -> ordered lo ps hi'.
Proof.
  revert lo. induction ps as [|[f [o s]] ps IH]; intros lo; simpl; [lia|].
  intros (? & ? & ?) ?. auto.
Qed.

Lemma ordered_le lo ps hi : ordered lo ps hi -> lo <= hi.
Proof.
  revert lo. induction ps as [|[? [? ?]] ps IH]; intros lo; simpl; [done|].
  intros (? & ? & H%IH). lia.
Qed.

Lemma ordered_bounds lo ps hi f o s :
  ordered lo ps hi -> (f, (o, s)) ∈ ps -> lo <= o /\ 0 <= s /\ o + s <= hi.
Proof.
  revert lo. induction ps as [|[g [o' s']] ps IH]; intros lo; simpl.
  - intros _ H. by apply not_elem_of_nil in H.
  - intros (Hlo & Hs & Hps) [H|H]%elem_of_cons; simplify_eq.
    + apply ordered_le in Hps. lia.
    + eapply IH in H; [|done]. lia.
Qed.

Lemma place_aligned fs off f o s :
  Forall (fun g => wf_layout g.2) fs -> (f, (o, s)) ∈ place off fs ->
  exists t, (f, t) ∈ fs /\ s = size_of t /\ (align_of t | o).
Proof.
  intros Hfs. revert off. induction Hfs as [|[g t] fs [Hs Ha] Hfs IH]; intros off; simpl.
  - intros H. by apply not_elem_of_nil in H.
  - intros [H|H]%elem_of_cons; simplify_eq.
    + exists t. split_and!; [constructor|done|]. by apply round_up_spec.
    + apply IH in H as (t' & ? & ?). exists t'. split; [by constructor|done].
Qed.

Lemma place_lookup_disjoint lo ps hi (i j : nat) f o s g o' s' :
  ordered lo ps hi -> (i < j)%nat -> ps !! i = Some (f, (o, s)) ->
  ps !! j = Some (g, (o', s')) -> o + s <= o'.
Proof.
  revert lo i j. induction ps as [|[h [p q]] ps IH]; intros lo [|i] [|j] Hord Hij Hi Hj;
    simplify_eq/=; try lia; destruct Hord as (_ & _ & Hord).
  - apply list_elem_of_lookup_2 in Hj. eapply ordered_bounds in Hord; [|done]. lia.
  - eapply IH; [done| |done|done]. lia.
Qed.

(** The [repr(C)] layout of any structure with well-formed field types is
    sound: every field lies inside the structure at a multiple of its
    alignment, with the size of its type; two distinct fields never overlap;
    and the structure's size is a multiple of its alignment. *)
Theorem struct_layout_sound (fs : list (string * layout)) :
  Forall (fun f => wf_layout f.2) fs ->
  wf_layout (struct fs) /\ (align_of (struct fs) | size_of (struct fs)) /\
  (forall f o s, (f, (o, s)) ∈ fields_of (struct fs) ->
     0 <= o /\ o + s <= size_of (struct fs) /\
     exists t, (f, t) ∈ fs /\ s = size_of t /\ (align_of t | o)) /\
  (forall (i j : nat) f o s g o' s', (i < j)%nat ->
     fields_of (struct fs) !! i = Some (f, (o, s)) ->
     fields_of (struct fs) !! j = Some (g, (o', s')) -> o + s <= o').
Proof.
  intros Hfs. pose proof (place_ordered fs 0 Hfs) as Hord.
  pose proof (max_align_pos fs) as Ha.
  destruct (round_up_spec (place_end 0 fs) (max_align fs) Ha) as [Hr Hd].
  assert (ordered 0 (place 0 fs) (size_of (struct fs))) as Hord'
    by (eapply ordered_weaken; [done|simpl; lia]).
  assert (0 <= size_of (struct fs)) as Hsz.
  { simpl. destruct fs as [|[f t] fs']; [vm_compute; discriminate|].
    destruct (ordered_bounds 0 (place 0 ((f, t) :: fs')) (place_end 0 ((f, t) :: fs')) f
      (round_up 0 (align_of t)) (size_of t) Hord); [left|lia]. }
  split_and!.
  - split; done.
  - exact Hd.
  - intros f o s H. destruct (ordered_bounds _ _ _ _ _ _ Hord' H) as (? & ? & ?).
    split_and!; [done|done|]. by apply place_aligned in H.
  - intros i j f o s g o' s' Hij Hi Hj. by eapply place_lookup_disjoint.
Qed.

Definition struct_example : list (string * layout) :=
  [("cmd"%string, scalar 4); ("flag"%string, scalar 1); ("ptr"%string, pointer)].

Lemma struct_layout_sound_witness :
  fields_of (struct struct_example)
    = [("cmd"%string, (0, 4)); ("flag"%string, (4, 1)); ("ptr"%string, (8, 8))] /\
  wf_layout (struct struct_example).
Proof.
  split; [vm_compute; reflexivity|].
  apply (struct_layout_sound struct_example).
  repeat constructor; simpl; lia.
Defined.
