(* ===== verification/SysConsts.v ===== *)
(** * Driver constants (crates/nvrm-sys/src/stable.rs) and errno values

    The escape numbers, class numbers, flags and status codes of the NVIDIA
    headers that the forwarding code names, as the bindings define them, and
    the Linux errno values of the replies. *)
From S2P Require Import Prelude.

(** ** Linux errno *)
Definition EPERM : Z := 1.
Definition EIO : Z := 5.
Definition EBADF : Z := 9.
Definition ENOMEM : Z := 12.
Definition EACCES : Z := 13.
Definition EBUSY : Z := 16.
Definition EINVAL : Z := 22.
Definition ENOSPC : Z := 28.
Definition EPROTO : Z := 71.
Definition EMSGSIZE : Z := 90.
Definition ENOTSUP : Z := 95.

(** ** NVIDIA constants *)
Definition FERMI_CONTEXT_SHARE_A : Z := 36967.
Definition FERMI_VASPACE_A : Z := 37105.
Definition KEPLER_CHANNEL_GROUP_A : Z := 41068.
Definition NV0000_CTRL_CMD_GPUACCT_GET_ACCOUNTING_STATE : Z := 2818.
Definition NV0000_CTRL_CMD_GPU_ASYNC_ATTACH_ID : Z := 649.
Definition NV0000_CTRL_CMD_GPU_ATTACH_IDS : Z := 533.
Definition NV0000_CTRL_CMD_GPU_DETACH_IDS : Z := 534.
Definition NV0000_CTRL_CMD_GPU_GET_ACTIVE_DEVICE_IDS : Z := 648.
Definition NV0000_CTRL_CMD_GPU_GET_ATTACHED_IDS : Z := 513.
Definition NV0000_CTRL_CMD_GPU_GET_ID_INFO : Z := 514.
Definition NV0000_CTRL_CMD_GPU_GET_ID_INFO_V2 : Z := 517.
Definition NV0000_CTRL_CMD_GPU_GET_PCI_INFO : Z := 539.
Definition NV0000_CTRL_CMD_GPU_GET_PROBED_IDS : Z := 532.
Definition NV0000_CTRL_CMD_GPU_GET_UUID_FROM_GPU_ID : Z := 629.
Definition NV0000_CTRL_CMD_GPU_GET_UUID_INFO : Z := 628.
Definition NV0000_CTRL_CMD_GPU_MODIFY_DRAIN_STATE : Z := 632.
Definition NV0000_CTRL_CMD_GPU_QUERY_DRAIN_STATE : Z := 633.
Definition NV0000_CTRL_CMD_GPU_WAIT_ATTACH_ID : Z := 656.
Definition NV0000_CTRL_CMD_SYSTEM_GET_P2P_CAPS_MATRIX : Z := 314.
Definition NV0000_CTRL_GPU_MAX_ACTIVE_DEVICES : Z := 256.
Definition NV0000_CTRL_GPU_MAX_ATTACHED_GPUS : Z := 32.
Definition NV0000_CTRL_GPU_MAX_PROBED_GPUS : Z := 32.
Definition NV0000_CTRL_SYSTEM_MAX_P2P_GROUP_GPUS : Z := 8.
Definition NV01_DEVICE_0 : Z := 128.
Definition NV01_EVENT_KERNEL_CALLBACK : Z := 120.
Definition NV01_EVENT_KERNEL_CALLBACK_EX : Z := 126.
Definition NV01_EVENT_OS_EVENT : Z := 121.
Definition NV01_MEMORY_SYSTEM : Z := 62.
Definition NV01_MEMORY_SYSTEM_OS_DESCRIPTOR : Z := 113.
Definition NV01_ROOT_CLIENT : Z := 65.
Definition NV2080_CTRL_CMD_GPU_GET_GID_INFO : Z := 545259850.
Definition NV20_SUBDEVICE_0 : Z := 8320.
Definition NV50_MEMORY_VIRTUAL : Z := 20640.
Definition NVA06C_CTRL_CMD_GPFIFO_SCHEDULE : Z := 2691432705.
Definition NVC361_NOTIFY_CHANNEL_PENDING : Z := 144.
Definition NVC36F_CTRL_CMD_GPFIFO_GET_WORK_SUBMIT_TOKEN : Z := 3278831880.
Definition NVC46F_DMA_SEC_OP_INC_METHOD : Z := 1.
Definition NVC46F_GP_ENTRY__SIZE : Z := 8.
Definition NVC46F_SEM_ADDR_HI : Z := 96.
Definition NVC46F_SEM_ADDR_LO : Z := 92.
Definition NVC46F_SEM_EXECUTE : Z := 108.
Definition NVC46F_SEM_EXECUTE_OPERATION_RELEASE : Z := 1.
Definition NVC46F_SEM_PAYLOAD_HI : Z := 104.
Definition NVC46F_SEM_PAYLOAD_LO : Z := 100.
Definition NVOS02_FLAGS_COHERENCY_WRITE_BACK : Z := 5.
Definition NVOS02_FLAGS_GPU_CACHEABLE_NO : Z := 0.
Definition NVOS02_FLAGS_GPU_CACHEABLE_YES : Z := 1.
Definition NVOS02_FLAGS_LOCATION_PCI : Z := 0.
Definition NVOS02_FLAGS_MAPPING_NO_MAP : Z := 1.
Definition NVOS02_FLAGS_PHYSICALITY_NONCONTIGUOUS : Z := 1.
Definition NVOS32_ALLOC_FLAGS_VIRTUAL : Z := 524288.
Definition NVOS32_ATTR2_GPU_CACHEABLE_YES : Z := 1.
Definition NVOS32_ATTR_COHERENCY_CACHED : Z := 1.
Definition NVOS32_ATTR_COHERENCY_UNCACHED : Z := 0.
Definition NVOS32_ATTR_COHERENCY_WRITE_BACK : Z := 5.
Definition NVOS32_ATTR_COHERENCY_WRITE_COMBINE : Z := 2.
Definition NVOS32_ATTR_COHERENCY_WRITE_PROTECT : Z := 4.
Definition NVOS32_ATTR_COHERENCY_WRITE_THROUGH : Z := 3.
Definition NVOS32_ATTR_LOCATION_ANY : Z := 3.
Definition NVOS32_ATTR_PAGE_SIZE_4KB : Z := 1.
Definition NVOS32_ATTR_PHYSICALITY_NONCONTIGUOUS : Z := 1.
Definition NVOS32_ATTR_LOCATION_PCI : Z := 1.
Definition NVOS32_ATTR_LOCATION_VIDMEM : Z := 0.
Definition NVOS32_DESCRIPTOR_TYPE_VIRTUAL_ADDRESS : Z := 0.
Definition NVOS32_FUNCTION_ALLOC_OS_DESCRIPTOR : Z := 27.
Definition NVOS32_FUNCTION_ALLOC_SIZE : Z := 2.
Definition NVOS32_FUNCTION_FREE : Z := 3.
Definition NVOS32_FUNCTION_HW_ALLOC : Z := 19.
Definition NVOS32_FUNCTION_INFO : Z := 5.
Definition NVOS32_TYPE_IMAGE : Z := 0.
Definition NVOS33_FLAGS_ACCESS_WRITE_ONLY : Z := 2.
Definition NVOS54_FLAGS_FINN_SERIALIZED : Z := 4.
Definition NVOS64_FLAGS_FINN_SERIALIZED : Z := 1.
Definition NV_CHANNELGPFIFO_NOTIFICATION_TYPE_WORK_SUBMIT_TOKEN : Z := 1.
Definition NV_ERR_INSERT_DUPLICATE_NAME : Z := 25.
Definition NV_ERR_INSUFFICIENT_PERMISSIONS : Z := 27.
Definition NV_ERR_INVALID_ADDRESS : Z := 30.
Definition NV_ERR_INVALID_ARGUMENT : Z := 31.
Definition NV_ERR_INVALID_CLASS : Z := 34.
Definition NV_ERR_INVALID_CLIENT : Z := 35.
Definition NV_ERR_INVALID_COMMAND : Z := 36.
Definition NV_ERR_INVALID_LIMIT : Z := 46.
Definition NV_ERR_INVALID_OBJECT_HANDLE : Z := 51.
Definition NV_ERR_INVALID_PARAMETER : Z := 59.
Definition NV_ERR_INVALID_PARAM_STRUCT : Z := 58.
Definition NV_ERR_NOT_SUPPORTED : Z := 86.
Definition NV_ERR_NO_MEMORY : Z := 81.
Definition NV_ERR_OBJECT_NOT_FOUND : Z := 87.
Definition NV_ERR_OPERATING_SYSTEM : Z := 89.
Definition NV_ERR_STATE_IN_USE : Z := 99.
Definition NV_ESC_IOCTL_XFER_CMD : Z := 211.
Definition NV_ESC_RM_ALLOC : Z := 43.
Definition NV_ESC_RM_ALLOC_CONTEXT_DMA2 : Z := 84.
Definition NV_ESC_RM_ALLOC_MEMORY : Z := 39.
Definition NV_ESC_RM_ALLOC_OBJECT : Z := 40.
Definition NV_ESC_RM_BIND_CONTEXT_DMA : Z := 89.
Definition NV_ESC_RM_CONTROL : Z := 42.
Definition NV_ESC_RM_DUP_OBJECT : Z := 52.
Definition NV_ESC_RM_FREE : Z := 41.
Definition NV_ESC_RM_GET_EVENT_DATA : Z := 82.
Definition NV_ESC_RM_MAP_MEMORY : Z := 78.
Definition NV_ESC_RM_MAP_MEMORY_DMA : Z := 87.
Definition NV_ESC_RM_SHARE : Z := 53.
Definition NV_ESC_RM_UNMAP_MEMORY : Z := 79.
Definition NV_ESC_RM_UNMAP_MEMORY_DMA : Z := 88.
Definition NV_ESC_RM_VID_HEAP_CONTROL : Z := 74.
Definition NV_ESC_STATUS_CODE : Z := 209.
Definition NV_IOCTL_MAGIC : Z := 70.
Definition NV_OK : Z := 0.
Definition NV_SEMAPHORE_SURFACE_CTRL_CMD_REGISTER_WAITER : Z := 14286851.
Definition NV_SEMAPHORE_SURFACE_CTRL_CMD_UNREGISTER_WAITER : Z := 14286853.
Definition TURING_CHANNEL_GPFIFO_A : Z := 50287.
Definition TURING_USERMODE_A : Z := 50273.
Definition UvmGpuCachingTypeDefault : Z := 0.
Definition UvmGpuMappingTypeReadWriteAtomic : Z := 1.
