(* ===== verification/Sys.v ===== *)
(** * Kernel structures (crates/nvrm-sys/src/stable.rs and v5xx/v6xx.rs)

    The parameter structures the forwarding code names, transcribed field by
    field from the bindings.  Names that depend on the driver version carry
    the version module's name as a suffix. *)
From stdpp Require Import strings.
From S2P Require Import Prelude.
From S2P Require Import CLayout.

Local Open Scope string_scope.
Local Open Scope Z_scope.

(** ** stable.rs *)
Definition NvU32 : layout := scalar 4.
Definition NV0000_CTRL_GPUACCT_GET_ACCOUNTING_STATE_PARAMS : layout :=
  struct [("gpuId", NvU32);
   ("pid", NvU32);
   ("state", NvU32)].

Definition NV0000_CTRL_GPU_ACTIVE_DEVICE : layout :=
  struct [("gpuId", NvU32);
   ("gpuInstanceId", NvU32);
   ("computeInstanceId", NvU32)].

Definition NV0000_CTRL_GPU_ASYNC_ATTACH_ID_PARAMS : layout :=
  struct [("gpuId", NvU32)].

Definition NV0000_CTRL_GPU_ATTACH_IDS_PARAMS : layout :=
  struct [("gpuIds", array NvU32 32);
   ("failedId", NvU32)].

Definition NV0000_CTRL_GPU_DETACH_IDS_PARAMS : layout :=
  struct [("gpuIds", array NvU32 32)].

Definition NV0000_CTRL_GPU_GET_ACTIVE_DEVICE_IDS_PARAMS : layout :=
  struct [("numDevices", NvU32);
   ("devices", array NV0000_CTRL_GPU_ACTIVE_DEVICE 256)].

Definition NV0000_CTRL_GPU_GET_ATTACHED_IDS_PARAMS : layout :=
  struct [("gpuIds", array NvU32 32)].

Definition NvP64 : layout := pointer.
Definition NvS32 : layout := scalar 4.
Definition NV0000_CTRL_GPU_GET_ID_INFO_PARAMS : layout :=
  struct [("gpuId", NvU32);
   ("gpuFlags", NvU32);
   ("deviceInstance", NvU32);
   ("subDeviceInstance", NvU32);
   ("szName", NvP64);
   ("sliStatus", NvU32);
   ("boardId", NvU32);
   ("gpuInstance", NvU32);
   ("numaId", NvS32)].

Definition NV0000_CTRL_GPU_GET_ID_INFO_V2_PARAMS : layout :=
  struct [("gpuId", NvU32);
   ("gpuFlags", NvU32);
   ("deviceInstance", NvU32);
   ("subDeviceInstance", NvU32);
   ("sliStatus", NvU32);
   ("boardId", NvU32);
   ("gpuInstance", NvU32);
   ("numaId", NvS32)].

Definition NvU16 : layout := scalar 2.
Definition NV0000_CTRL_GPU_GET_PCI_INFO_PARAMS : layout :=
  struct [("gpuId", NvU32);
   ("domain", NvU32);
   ("bus", NvU16);
   ("slot", NvU16)].

Definition NV0000_CTRL_GPU_GET_PROBED_IDS_PARAMS : layout :=
  struct [("gpuIds", array NvU32 32);
   ("excludedGpuIds", array NvU32 32);
   ("gpuFlags", array NvU32 32)].

Definition NvU8 : layout := scalar 1.
Definition NV0000_CTRL_GPU_GET_UUID_FROM_GPU_ID_PARAMS : layout :=
  struct [("gpuId", NvU32);
   ("flags", NvU32);
   ("gpuUuid", array NvU8 256);
   ("uuidStrLen", NvU32)].

Definition NV0000_CTRL_GPU_GET_UUID_INFO_PARAMS : layout :=
  struct [("gpuUuid", array NvU8 256);
   ("flags", NvU32);
   ("gpuId", NvU32);
   ("deviceInstance", NvU32);
   ("subdeviceInstance", NvU32)].

Definition NV0000_CTRL_GPU_MODIFY_DRAIN_STATE_PARAMS : layout :=
  struct [("gpuId", NvU32);
   ("newState", NvU32);
   ("flags", NvU32)].

Definition NV0000_CTRL_GPU_QUERY_DRAIN_STATE_PARAMS : layout :=
  struct [("gpuId", NvU32);
   ("drainState", NvU32);
   ("flags", NvU32)].

Definition NV0000_CTRL_GPU_WAIT_ATTACH_ID_PARAMS : layout :=
  struct [("gpuId", NvU32)].

Definition NV0000_CTRL_SYSTEM_GET_BUILD_VERSION_PARAMS : layout :=
  struct [("sizeOfStrings", NvU32);
   ("pDriverVersionBuffer", NvP64);
   ("pVersionBuffer", NvP64);
   ("pTitleBuffer", NvP64);
   ("changelistNumber", NvU32);
   ("officialChangelistNumber", NvU32)].

Definition NvHandle : layout := NvU32.
Definition NvV32 : layout := scalar 4.
Definition NV0005_ALLOC_PARAMETERS : layout :=
  struct [("hParentClient", NvHandle);
   ("hSrcResource", NvHandle);
   ("hClass", NvV32);
   ("notifyIndex", NvV32);
   ("data", NvP64)].

Definition NvU64 : layout := scalar 8.
Definition NV0080_ALLOC_PARAMETERS : layout :=
  struct [("deviceId", NvU32);
   ("hClientShare", NvHandle);
   ("hTargetClient", NvHandle);
   ("hTargetDevice", NvHandle);
   ("flags", NvV32);
   ("vaSpaceSize", NvU64);
   ("vaStartInternal", NvU64);
   ("vaLimitInternal", NvU64);
   ("vaMode", NvV32)].

Definition NV0080_CTRL_FB_GET_CAPS_PARAMS : layout :=
  struct [("capsTblSize", NvU32);
   ("capsTbl", NvP64)].

Definition NV0080_CTRL_FIFO_GET_CAPS_PARAMS : layout :=
  struct [("capsTblSize", NvU32);
   ("capsTbl", NvP64)].

Definition NV0080_CTRL_FIFO_GET_CHANNELLIST_PARAMS : layout :=
  struct [("numChannels", NvU32);
   ("pChannelHandleList", NvP64);
   ("pChannelList", NvP64)].

Definition NV0080_CTRL_GPU_GET_CLASSLIST_PARAMS : layout :=
  struct [("numClasses", NvU32);
   ("classList", NvP64)].

Definition NvBool : layout := NvU8.
Definition NV0080_CTRL_GPU_GET_VIRTUALIZATION_MODE_PARAMS : layout :=
  struct [("virtualizationMode", NvU32);
   ("isGridBuild", NvBool)].

Definition NV0080_CTRL_GR_GET_CAPS_PARAMS : layout :=
  struct [("capsTblSize", NvU32);
   ("capsTbl", NvP64)].

Definition NV0080_CTRL_GR_GET_INFO_PARAMS : layout :=
  struct [("grInfoListSize", NvU32);
   ("grInfoList", NvP64)].

Definition NV0080_CTRL_NVENC_GET_CAPS_PARAMS : layout :=
  struct [("capsTblSize", NvU32);
   ("capsTbl", NvP64)].

Definition NV00DE_ALLOC_PARAMETERS : layout :=
  struct [("polledDataMask", NvU64)].

Definition NV2080_ALLOC_PARAMETERS : layout :=
  struct [("subDeviceId", NvU32)].

Definition NV2080_CTRL_BIOS_GET_INFO_PARAMS : layout :=
  struct [("biosInfoListSize", NvU32);
   ("biosInfoList", NvP64)].

Definition NV2080_CTRL_BUS_GET_INFO_PARAMS : layout :=
  struct [("busInfoListSize", NvU32);
   ("busInfoList", NvP64)].

Definition NV2080_CTRL_FB_GET_INFO_PARAMS : layout :=
  struct [("fbInfoListSize", NvU32);
   ("fbInfoList", NvP64)].

Definition NVXXXX_CTRL_XXX_INFO : layout :=
  struct [("index", NvU32);
   ("data", NvU32)].

Definition NV2080_CTRL_FB_INFO : layout := NVXXXX_CTRL_XXX_INFO.
Definition NV2080_CTRL_FB_GET_INFO_V2_PARAMS : layout :=
  struct [("fbInfoListSize", NvU32);
   ("fbInfoList", array NV2080_CTRL_FB_INFO 128)].

Definition NV2080_CTRL_ENCODER_CAPACITY_QUERY_TYPE : layout := scalar 4.
Definition NV2080_CTRL_GPU_GET_ENCODER_CAPACITY_PARAMS : layout :=
  struct [("queryType", NV2080_CTRL_ENCODER_CAPACITY_QUERY_TYPE);
   ("encoderCapacity", NvU32)].

Definition NV2080_CTRL_GPU_GET_ENGINES_PARAMS : layout :=
  struct [("engineCount", NvU32);
   ("engineList", NvP64)].

Definition NV2080_CTRL_GPU_GET_GID_INFO_PARAMS : layout :=
  struct [("index", NvU32);
   ("flags", NvU32);
   ("length", NvU32);
   ("data", array NvU8 256)].

Definition NV2080_CTRL_GPU_GET_PIDS_PARAMS : layout :=
  struct [("idType", NvU32);
   ("id", NvU32);
   ("pidTblCount", NvU32);
   ("pidTbl", array NvU32 950)].

Definition NV2080_CTRL_GPU_PID_INFO_VIDEO_MEMORY_USAGE_DATA : layout :=
  struct [("memPrivate", NvU64);
   ("memSharedOwned", NvU64);
   ("memSharedDuped", NvU64);
   ("protectedMemPrivate", NvU64);
   ("protectedMemSharedOwned", NvU64);
   ("protectedMemSharedDuped", NvU64)].

Definition NV2080_CTRL_GPU_PID_INFO_DATA : layout :=
  union [("vidMemUsage", NV2080_CTRL_GPU_PID_INFO_VIDEO_MEMORY_USAGE_DATA)].

Definition NV2080_CTRL_SMC_SUBSCRIPTION_INFO : layout :=
  struct [("computeInstanceId", NvU32);
   ("gpuInstanceId", NvU32)].

Definition NV2080_CTRL_GPU_PID_INFO : layout :=
  struct [("pid", NvU32);
   ("index", NvU32);
   ("result", NvU32);
   ("data", NV2080_CTRL_GPU_PID_INFO_DATA);
   ("smcSubscription", NV2080_CTRL_SMC_SUBSCRIPTION_INFO)].

Definition NV2080_CTRL_GPU_GET_PID_INFO_PARAMS : layout :=
  struct [("pidInfoListCount", NvU32);
   ("pidInfoList", array NV2080_CTRL_GPU_PID_INFO 200)].

Definition NV0080_CTRL_GR_ROUTE_INFO : layout :=
  struct [("flags", NvU32);
   ("route", NvU64)].

Definition NV2080_CTRL_GR_ROUTE_INFO : layout := NV0080_CTRL_GR_ROUTE_INFO.
Definition NV2080_CTRL_GR_GET_INFO_PARAMS : layout :=
  struct [("grInfoListSize", NvU32);
   ("grInfoList", NvP64);
   ("grRouteInfo", NV2080_CTRL_GR_ROUTE_INFO)].

Definition NV2081_ALLOC_PARAMETERS : layout :=
  struct [("reserved", NvU32)].

Definition NV83DE_ALLOC_PARAMETERS : layout :=
  struct [("hDebuggerClient_Obsolete", NvHandle);
   ("hAppClient", NvHandle);
   ("hClass3dObject", NvHandle)].

Definition NV9072_ALLOCATION_PARAMETERS : layout :=
  struct [("logicalHeadId", NvU32);
   ("displayMask", NvU32);
   ("caps", NvU32)].

Definition NVA06F_CTRL_GPFIFO_SCHEDULE_PARAMS : layout :=
  struct [("bEnable", NvBool);
   ("bSkipSubmit", NvBool);
   ("bSkipEnable", NvBool)].

Definition NVA06C_CTRL_GPFIFO_SCHEDULE_PARAMS : layout := NVA06F_CTRL_GPFIFO_SCHEDULE_PARAMS.
Definition NVA0BC_ALLOC_PARAMETERS : layout :=
  struct [("codecType", NvU32);
   ("hResolution", NvU32);
   ("vResolution", NvU32);
   ("version", NvU32);
   ("hMem", NvHandle)].

Definition NVB0B5_ALLOCATION_PARAMETERS : layout :=
  struct [("version", NvU32);
   ("engineType", NvU32)].

Definition NVC36F_CTRL_CMD_GPFIFO_GET_WORK_SUBMIT_TOKEN_PARAMS : layout :=
  struct [("workSubmitToken", NvU32)].

Definition NVC640_ALLOCATION_PARAMETERS : layout :=
  struct [("capDescriptor", NvU64)].

Definition NVOS00_PARAMETERS : layout :=
  struct [("hRoot", NvHandle);
   ("hObjectParent", NvHandle);
   ("hObjectOld", NvHandle);
   ("status", NvV32)].

Definition NVOS02_PARAMETERS : layout :=
  struct [("hRoot", NvHandle);
   ("hObjectParent", NvHandle);
   ("hObjectNew", NvHandle);
   ("hClass", NvV32);
   ("flags", NvV32);
   ("pMemory", NvP64);
   ("limit", NvU64);
   ("status", NvV32)].

Definition NVOS05_PARAMETERS : layout :=
  struct [("hRoot", NvHandle);
   ("hObjectParent", NvHandle);
   ("hObjectNew", NvHandle);
   ("hClass", NvV32);
   ("status", NvV32)].

Definition NVOS21_PARAMETERS : layout :=
  struct [("hRoot", NvHandle);
   ("hObjectParent", NvHandle);
   ("hObjectNew", NvHandle);
   ("hClass", NvV32);
   ("pAllocParms", NvP64);
   ("paramsSize", NvU32);
   ("status", NvV32)].

Definition NvS16 : layout := scalar 2.
Definition NVOS32_PARAMETERS__bindgen_ty_1__bindgen_ty_1 : layout :=
  struct [("owner", NvU32);
   ("hMemory", NvHandle);
   ("type_", NvU32);
   ("flags", NvU32);
   ("attr", NvU32);
   ("format", NvU32);
   ("comprCovg", NvU32);
   ("zcullCovg", NvU32);
   ("partitionStride", NvU32);
   ("width", NvU32);
   ("height", NvU32);
   ("size", NvU64);
   ("alignment", NvU64);
   ("offset", NvU64);
   ("limit", NvU64);
   ("address", NvP64);
   ("rangeBegin", NvU64);
   ("rangeEnd", NvU64);
   ("attr2", NvU32);
   ("ctagOffset", NvU32);
   ("numaNode", NvS32)].

Definition NVOS32_PARAMETERS__bindgen_ty_1__bindgen_ty_2 : layout :=
  struct [("owner", NvU32);
   ("hMemory", NvHandle);
   ("type_", NvU32);
   ("flags", NvU32);
   ("height", NvU32);
   ("pitch", NvS32);
   ("attr", NvU32);
   ("width", NvU32);
   ("format", NvU32);
   ("comprCovg", NvU32);
   ("zcullCovg", NvU32);
   ("partitionStride", NvU32);
   ("size", NvU64);
   ("alignment", NvU64);
   ("offset", NvU64);
   ("limit", NvU64);
   ("address", NvP64);
   ("rangeBegin", NvU64);
   ("rangeEnd", NvU64);
   ("attr2", NvU32);
   ("ctagOffset", NvU32);
   ("numaNode", NvS32)].

Definition NVOS32_PARAMETERS__bindgen_ty_1__bindgen_ty_3 : layout :=
  struct [("owner", NvU32);
   ("hMemory", NvHandle);
   ("flags", NvU32)].

Definition NVOS32_PARAMETERS__bindgen_ty_1__bindgen_ty_4 : layout :=
  struct [("owner", NvU32);
   ("flags", NvU32);
   ("hMemory", NvHandle)].

Definition NVOS32_PARAMETERS__bindgen_ty_1__bindgen_ty_5 : layout :=
  struct [("owner", NvU32);
   ("flags", NvU32);
   ("hMemory", NvHandle)].

Definition NVOS32_PARAMETERS__bindgen_ty_1__bindgen_ty_6 : layout :=
  struct [("attr", NvU32);
   ("offset", NvU64);
   ("size", NvU64);
   ("base", NvU64)].

Definition NVOS32_PARAMETERS__bindgen_ty_1__bindgen_ty_7 : layout :=
  struct [("owner", NvU32);
   ("hMemory", NvHandle);
   ("type_", NvU32);
   ("flags", NvU32);
   ("attr", NvU32);
   ("format", NvU32);
   ("comprCovg", NvU32);
   ("zcullCovg", NvU32);
   ("partitionStride", NvU32);
   ("size", NvU64);
   ("alignment", NvU64);
   ("offset", NvU64);
   ("limit", NvU64);
   ("rangeBegin", NvU64);
   ("rangeEnd", NvU64);
   ("address", NvP64);
   ("attr2", NvU32);
   ("ctagOffset", NvU32);
   ("numaNode", NvS32)].

Definition NVOS32_PARAMETERS__bindgen_ty_1__bindgen_ty_8 : layout :=
  struct [("alignType", NvU32);
   ("alignAttr", NvU32);
   ("alignInputFlags", NvU32);
   ("alignSize", NvU64);
   ("alignHeight", NvU32);
   ("alignWidth", NvU32);
   ("alignPitch", NvU32);
   ("alignPad", NvU32);
   ("alignMask", NvU32);
   ("alignKind", NvU32);
   ("alignAdjust", NvU32);
   ("alignAttr2", NvU32)].

Definition NVOS32_PARAMETERS__bindgen_ty_1__bindgen_ty_9__bindgen_ty_1 : layout :=
  struct [("compPageShift", NvU32);
   ("compressedKind", NvU32);
   ("compTagLineMin", NvU32);
   ("compPageIndexLo", NvU32);
   ("compPageIndexHi", NvU32);
   ("compTagLineMultiplier", NvU32)].

Definition NVOS32_PARAMETERS__bindgen_ty_1__bindgen_ty_9 : layout :=
  struct [("allocOwner", NvU32);
   ("allochMemory", NvHandle);
   ("flags", NvU32);
   ("allocType", NvU32);
   ("allocAttr", NvU32);
   ("allocInputFlags", NvU32);
   ("allocSize", NvU64);
   ("allocHeight", NvU32);
   ("allocWidth", NvU32);
   ("allocPitch", NvU32);
   ("allocMask", NvU32);
   ("allocComprCovg", NvU32);
   ("allocZcullCovg", NvU32);
   ("bindResultFunc", NvP64);
   ("pHandle", NvP64);
   ("hResourceHandle", NvHandle);
   ("retAttr", NvU32);
   ("kind", NvU32);
   ("osDeviceHandle", NvU64);
   ("allocAttr2", NvU32);
   ("retAttr2", NvU32);
   ("allocAddr", NvU64);
   ("comprInfo", NVOS32_PARAMETERS__bindgen_ty_1__bindgen_ty_9__bindgen_ty_1);
   ("uncompressedKind", NvU32)].

Definition NVOS32_PARAMETERS__bindgen_ty_1__bindgen_ty_10 : layout :=
  struct [("hResourceHandle", NvHandle);
   ("flags", NvU32)].

Definition NVOS32_PARAMETERS__bindgen_ty_1__bindgen_ty_11 : layout :=
  struct [("hMemory", NvHandle);
   ("type_", NvU32);
   ("flags", NvU32);
   ("attr", NvU32);
   ("attr2", NvU32);
   ("descriptor", NvP64);
   ("limit", NvU64);
   ("descriptorType", NvU32)].

Definition NVOS32_PARAMETERS__bindgen_ty_1 : layout :=
  union [("AllocSize", NVOS32_PARAMETERS__bindgen_ty_1__bindgen_ty_1);
   ("AllocTiledPitchHeight", NVOS32_PARAMETERS__bindgen_ty_1__bindgen_ty_2);
   ("Free", NVOS32_PARAMETERS__bindgen_ty_1__bindgen_ty_3);
   ("ReleaseCompr", NVOS32_PARAMETERS__bindgen_ty_1__bindgen_ty_4);
   ("ReacquireCompr", NVOS32_PARAMETERS__bindgen_ty_1__bindgen_ty_5);
   ("Info", NVOS32_PARAMETERS__bindgen_ty_1__bindgen_ty_6);
   ("AllocSizeRange", NVOS32_PARAMETERS__bindgen_ty_1__bindgen_ty_7);
   ("AllocHintAlignment", NVOS32_PARAMETERS__bindgen_ty_1__bindgen_ty_8);
   ("HwAlloc", NVOS32_PARAMETERS__bindgen_ty_1__bindgen_ty_9);
   ("HwFree", NVOS32_PARAMETERS__bindgen_ty_1__bindgen_ty_10);
   ("AllocOsDesc", NVOS32_PARAMETERS__bindgen_ty_1__bindgen_ty_11)].

Definition NVOS32_PARAMETERS : layout :=
  struct [("hRoot", NvHandle);
   ("hObjectParent", NvHandle);
   ("function", NvU32);
   ("hVASpace", NvHandle);
   ("ivcHeapNumber", NvS16);
   ("status", NvV32);
   ("total", NvU64);
   ("free", NvU64);
   ("data", NVOS32_PARAMETERS__bindgen_ty_1)].

Definition NVOS33_PARAMETERS : layout :=
  struct [("hClient", NvHandle);
   ("hDevice", NvHandle);
   ("hMemory", NvHandle);
   ("offset", NvU64);
   ("length", NvU64);
   ("pLinearAddress", NvP64);
   ("status", NvU32);
   ("flags", NvU32)].

Definition NVOS34_PARAMETERS : layout :=
  struct [("hClient", NvHandle);
   ("hDevice", NvHandle);
   ("hMemory", NvHandle);
   ("pLinearAddress", NvP64);
   ("status", NvU32);
   ("flags", NvU32)].

Definition NVOS39_PARAMETERS : layout :=
  struct [("hObjectParent", NvHandle);
   ("hSubDevice", NvHandle);
   ("hObjectNew", NvHandle);
   ("hClass", NvV32);
   ("flags", NvV32);
   ("selector", NvU32);
   ("hMemory", NvHandle);
   ("offset", NvU64);
   ("limit", NvU64);
   ("status", NvV32)].

Definition NVOS41_PARAMETERS : layout :=
  struct [("pEvent", NvP64);
   ("MoreEvents", NvV32);
   ("status", NvV32)].

Definition NVOS46_PARAMETERS : layout :=
  struct [("hClient", NvHandle);
   ("hDevice", NvHandle);
   ("hDma", NvHandle);
   ("hMemory", NvHandle);
   ("offset", NvU64);
   ("length", NvU64);
   ("flags", NvV32);
   ("flags2", NvV32);
   ("kindOverride", NvV32);
   ("dmaOffset", NvU64);
   ("status", NvV32)].

Definition NVOS47_PARAMETERS : layout :=
  struct [("hClient", NvHandle);
   ("hDevice", NvHandle);
   ("hDma", NvHandle);
   ("hMemory", NvHandle);
   ("flags", NvV32);
   ("dmaOffset", NvU64);
   ("size", NvU64);
   ("status", NvV32)].

Definition NVOS49_PARAMETERS : layout :=
  struct [("hClient", NvHandle);
   ("hChannel", NvHandle);
   ("hCtxDma", NvHandle);
   ("status", NvV32)].

Definition NVOS54_PARAMETERS : layout :=
  struct [("hClient", NvHandle);
   ("hObject", NvHandle);
   ("cmd", NvV32);
   ("flags", NvU32);
   ("params", NvP64);
   ("paramsSize", NvU32);
   ("status", NvV32)].

Definition NVOS55_PARAMETERS : layout :=
  struct [("hClient", NvHandle);
   ("hParent", NvHandle);
   ("hObject", NvHandle);
   ("hClientSrc", NvHandle);
   ("hObjectSrc", NvHandle);
   ("flags", NvU32);
   ("status", NvU32)].

Definition RsAccessLimb : layout := NvU32.
Definition RS_ACCESS_MASK : layout :=
  struct [("limbs", array RsAccessLimb 1)].

Definition RS_SHARE_POLICY : layout :=
  struct [("target", NvU32);
   ("accessMask", RS_ACCESS_MASK);
   ("type_", NvU16);
   ("action", NvU8)].

Definition NVOS57_PARAMETERS : layout :=
  struct [("hClient", NvHandle);
   ("hObject", NvHandle);
   ("sharePolicy", RS_SHARE_POLICY);
   ("status", NvU32)].

Definition NVOS64_PARAMETERS : layout :=
  struct [("hRoot", NvHandle);
   ("hObjectParent", NvHandle);
   ("hObjectNew", NvHandle);
   ("hClass", NvV32);
   ("pAllocParms", NvP64);
   ("pRightsRequested", NvP64);
   ("paramsSize", NvU32);
   ("flags", NvU32);
   ("status", NvV32)].

Definition NV_CONFIDENTIAL_COMPUTE_ALLOC_PARAMS : layout :=
  struct [("hClient", NvHandle)].

Definition NV_CONTEXT_DMA_ALLOCATION_PARAMS : layout :=
  struct [("hSubDevice", NvHandle);
   ("flags", NvV32);
   ("hMemory", NvHandle);
   ("offset", NvU64);
   ("limit", NvU64)].

Definition NV_CTXSHARE_ALLOCATION_PARAMETERS : layout :=
  struct [("hVASpace", NvHandle);
   ("flags", NvU32);
   ("subctxId", NvU32)].

Definition NV_GR_ALLOCATION_PARAMETERS : layout :=
  struct [("version", NvU32);
   ("flags", NvU32);
   ("size", NvU32);
   ("caps", NvU32)].

Definition NV_HOPPER_USERMODE_A_PARAMS : layout :=
  struct [("bBar1Mapping", NvBool);
   ("bPriv", NvBool)].

Definition NV_MEMORY_ALLOCATION_PARAMS : layout :=
  struct [("owner", NvU32);
   ("type_", NvU32);
   ("flags", NvU32);
   ("width", NvU32);
   ("height", NvU32);
   ("pitch", NvS32);
   ("attr", NvU32);
   ("attr2", NvU32);
   ("format", NvU32);
   ("comprCovg", NvU32);
   ("zcullCovg", NvU32);
   ("rangeLo", NvU64);
   ("rangeHi", NvU64);
   ("size", NvU64);
   ("alignment", NvU64);
   ("offset", NvU64);
   ("limit", NvU64);
   ("address", NvP64);
   ("ctagOffset", NvU32);
   ("hVASpace", NvHandle);
   ("internalflags", NvU32);
   ("tag", NvU32);
   ("numaNode", NvS32)].

Definition NV_MEMORY_DESC_PARAMS : layout :=
  struct [("base", NvU64);
   ("size", NvU64);
   ("addressSpace", NvU32);
   ("cacheAttrib", NvU32)].

Definition NV_MEMORY_MAPPER_ALLOCATION_PARAMS : layout :=
  struct [("hSemaphoreSurface", NvHandle);
   ("maxQueueSize", NvU32);
   ("hNotificationMemory", NvHandle);
   ("notificationOffset", NvU64)].

Definition NV_MEMORY_SYNCPOINT_ALLOCATION_PARAMS : layout :=
  struct [("syncpointId", NvU32)].

Definition NV_MEMORY_VIRTUAL_ALLOCATION_PARAMS : layout :=
  struct [("offset", NvU64);
   ("limit", NvU64);
   ("hVASpace", NvHandle)].

Definition NV_NVDEC_ALLOCATION_PARAMETERS : layout :=
  struct [("size", NvU32);
   ("prohibitMultipleInstances", NvU32);
   ("engineInstance", NvU32)].

Definition NV_NVENC_ALLOCATION_PARAMETERS : layout :=
  struct [("size", NvU32);
   ("prohibitMultipleInstances", NvU32);
   ("engineInstance", NvU32)].

Definition NV_NVJPG_ALLOCATION_PARAMETERS : layout :=
  struct [("size", NvU32);
   ("prohibitMultipleInstances", NvU32);
   ("engineInstance", NvU32)].

Definition NV_OFA_ALLOCATION_PARAMETERS : layout :=
  struct [("size", NvU32);
   ("prohibitMultipleInstances", NvU32);
   ("engineInstance", NvU32)].

Definition NV_OS_DESC_MEMORY_ALLOCATION_PARAMS : layout :=
  struct [("type_", NvU32);
   ("flags", NvU32);
   ("attr", NvU32);
   ("attr2", NvU32);
   ("descriptor", NvP64);
   ("limit", NvU64);
   ("descriptorType", NvU32);
   ("tag", NvU32)].

Definition NV_PHYSICAL_MEMORY_ALLOCATION_PARAMS : layout :=
  struct [("memSize", NvU64);
   ("format", NvU32);
   ("pageSize", NvU64)].

Definition NV_SEMAPHORE_SURFACE_ALLOC_PARAMETERS : layout :=
  struct [("hSemaphoreMem", NvHandle);
   ("hMaxSubmittedMem", NvHandle);
   ("flags", NvU64)].

Definition NV_SEMAPHORE_SURFACE_CTRL_REGISTER_WAITER_PARAMS : layout :=
  struct [("index", NvU64);
   ("waitValue", NvU64);
   ("newValue", NvU64);
   ("notificationHandle", NvU64)].

Definition NV_SEMAPHORE_SURFACE_CTRL_UNREGISTER_WAITER_PARAMS : layout :=
  struct [("index", NvU64);
   ("waitValue", NvU64);
   ("notificationHandle", NvU64)].

Definition NV_VASPACE_ALLOCATION_PARAMETERS : layout :=
  struct [("index", NvU32);
   ("flags", NvV32);
   ("vaSize", NvU64);
   ("vaStartInternal", NvU64);
   ("vaLimitInternal", NvU64);
   ("bigPageSize", NvU32);
   ("vaBase", NvU64);
   ("pasid", NvU32)].

Definition NV_VIDMEM_ACCESS_BIT_ALLOCATION_PARAMS_ADDR_SPACE : layout := scalar 4.
Definition NV_VIDMEM_ACCESS_BIT_ALLOCATION_PARAMS : layout :=
  struct [("bDirtyTracking", NvBool);
   ("granularity", NvU32);
   ("accessBitMask", array NvU64 64);
   ("noOfEntries", NvU32);
   ("addrSpace", NV_VIDMEM_ACCESS_BIT_ALLOCATION_PARAMS_ADDR_SPACE)].

Definition nv_uuid : layout :=
  struct [("uuid", array NvU8 16)].

Definition NvUuid : layout := nv_uuid.
Definition NvProcessorUuid : layout := NvUuid.
Definition NvUnixEvent : layout :=
  struct [("hObject", NvHandle);
   ("NotifyIndex", NvV32);
   ("info32", NvV32);
   ("info16", NvU16)].

Definition UvmGpuMappingAttributes : layout :=
  struct [("gpuUuid", NvProcessorUuid);
   ("gpuMappingType", NvU32);
   ("gpuCachingType", NvU32);
   ("gpuFormatType", NvU32);
   ("gpuElementBits", NvU32);
   ("gpuCompressionType", NvU32)].

Definition NV_STATUS : layout := NvU32.
Definition UVM_ALLOC_SEMAPHORE_POOL_PARAMS : layout :=
  struct [("base", NvU64);
   ("length", NvU64);
   ("perGpuAttributes", array UvmGpuMappingAttributes 256);
   ("gpuAttributesCount", NvU64);
   ("rmStatus", NV_STATUS)].

Definition UVM_CREATE_EXTERNAL_RANGE_PARAMS : layout :=
  struct [("base", NvU64);
   ("length", NvU64);
   ("rmStatus", NV_STATUS)].

Definition UVM_DISABLE_READ_DUPLICATION_PARAMS : layout :=
  struct [("requestedBase", NvU64);
   ("length", NvU64);
   ("rmStatus", NV_STATUS)].

Definition UVM_ENABLE_READ_DUPLICATION_PARAMS : layout :=
  struct [("requestedBase", NvU64);
   ("length", NvU64);
   ("rmStatus", NV_STATUS)].

Definition UVM_INITIALIZE_PARAMS : layout :=
  struct [("flags", NvU64);
   ("rmStatus", NV_STATUS)].

Definition UVM_MAP_DYNAMIC_PARALLELISM_REGION_PARAMS : layout :=
  struct [("base", NvU64);
   ("length", NvU64);
   ("gpuUuid", NvProcessorUuid);
   ("rmStatus", NV_STATUS)].

Definition UVM_MAP_EXTERNAL_ALLOCATION_PARAMS : layout :=
  struct [("base", NvU64);
   ("length", NvU64);
   ("offset", NvU64);
   ("perGpuAttributes", array UvmGpuMappingAttributes 256);
   ("gpuAttributesCount", NvU64);
   ("rmCtrlFd", NvS32);
   ("hClient", NvU32);
   ("hMemory", NvU32);
   ("rmStatus", NV_STATUS)].

Definition UVM_MIGRATE_PARAMS : layout :=
  struct [("base", NvU64);
   ("length", NvU64);
   ("destinationUuid", NvProcessorUuid);
   ("flags", NvU32);
   ("semaphoreAddress", NvU64);
   ("semaphorePayload", NvU32);
   ("cpuNumaNode", NvS32);
   ("userSpaceStart", NvU64);
   ("userSpaceLength", NvU64);
   ("rmStatus", NV_STATUS)].

Definition UVM_MM_INITIALIZE_PARAMS : layout :=
  struct [("uvmFd", NvS32);
   ("rmStatus", NV_STATUS)].

Definition UVM_PAGEABLE_MEM_ACCESS_ON_GPU_PARAMS : layout :=
  struct [("gpu_uuid", NvProcessorUuid);
   ("pageableMemAccess", NvBool);
   ("rmStatus", NV_STATUS)].

Definition UVM_PAGEABLE_MEM_ACCESS_PARAMS : layout :=
  struct [("pageableMemAccess", NvBool);
   ("rmStatus", NV_STATUS)].

Definition UVM_REGISTER_CHANNEL_PARAMS : layout :=
  struct [("gpuUuid", NvProcessorUuid);
   ("rmCtrlFd", NvS32);
   ("hClient", NvHandle);
   ("hChannel", NvHandle);
   ("base", NvU64);
   ("length", NvU64);
   ("rmStatus", NV_STATUS)].

Definition UVM_REGISTER_GPU_PARAMS : layout :=
  struct [("gpu_uuid", NvProcessorUuid);
   ("numaEnabled", NvBool);
   ("numaNodeId", NvS32);
   ("rmCtrlFd", NvS32);
   ("hClient", NvHandle);
   ("hSmcPartRef", NvHandle);
   ("rmStatus", NV_STATUS)].

Definition UVM_REGISTER_GPU_VASPACE_PARAMS : layout :=
  struct [("gpuUuid", NvProcessorUuid);
   ("rmCtrlFd", NvS32);
   ("hClient", NvHandle);
   ("hVaSpace", NvHandle);
   ("rmStatus", NV_STATUS)].

Definition UVM_SET_ACCESSED_BY_PARAMS : layout :=
  struct [("requestedBase", NvU64);
   ("length", NvU64);
   ("accessedByUuid", NvProcessorUuid);
   ("rmStatus", NV_STATUS)].

Definition UVM_SET_PREFERRED_LOCATION_PARAMS : layout :=
  struct [("requestedBase", NvU64);
   ("length", NvU64);
   ("preferredLocation", NvProcessorUuid);
   ("preferredCpuNumaNode", NvS32);
   ("rmStatus", NV_STATUS)].

Definition UVM_UNREGISTER_GPU_VASPACE_PARAMS : layout :=
  struct [("gpuUuid", NvProcessorUuid);
   ("rmStatus", NV_STATUS)].

Definition UVM_UNSET_ACCESSED_BY_PARAMS : layout :=
  struct [("requestedBase", NvU64);
   ("length", NvU64);
   ("accessedByUuid", NvProcessorUuid);
   ("rmStatus", NV_STATUS)].

Definition UVM_UNSET_PREFERRED_LOCATION_PARAMS : layout :=
  struct [("requestedBase", NvU64);
   ("length", NvU64);
   ("rmStatus", NV_STATUS)].

Definition UVM_VALIDATE_VA_RANGE_PARAMS : layout :=
  struct [("base", NvU64);
   ("length", NvU64);
   ("rmStatus", NV_STATUS)].

Definition nv_pci_info_t : layout :=
  struct [("domain", NvU32);
   ("bus", NvU8);
   ("slot", NvU8);
   ("function", NvU8);
   ("vendor_id", NvU16);
   ("device_id", NvU16)].

Definition nv_ioctl_card_info : layout :=
  struct [("valid", NvBool);
   ("pci_info", nv_pci_info_t);
   ("gpu_id", NvU32);
   ("interrupt_line", NvU16);
   ("reg_address", NvU64);
   ("reg_size", NvU64);
   ("fb_address", NvU64);
   ("fb_size", NvU64);
   ("minor_number", NvU32);
   ("dev_name", array NvU8 10)].

Definition nv_ioctl_card_info_t : layout := nv_ioctl_card_info.
Definition nv_ioctl_query_device_intr : layout :=
  struct [("intrStatus", NvU32);
   ("status", NvU32)].

Definition nv_ioctl_rm_api_version : layout :=
  struct [("cmd", NvU32);
   ("reply", NvU32);
   ("versionString", array (scalar 1) 64)].

Definition nv_ioctl_rm_api_version_t : layout := nv_ioctl_rm_api_version.
Definition nv_ioctl_status_code : layout :=
  struct [("domain", NvU32);
   ("bus", NvU8);
   ("slot", NvU8);
   ("status", NvU32)].

Definition nv_ioctl_status_code_t : layout := nv_ioctl_status_code.
Definition nv_ioctl_sys_params : layout :=
  struct [("memblock_size", NvU64)].

Definition nv_ioctl_sys_params_t : layout := nv_ioctl_sys_params.
Definition nv_ioctl_wait_open_complete : layout :=
  struct [("rc", scalar 4);
   ("adapterStatus", NvU32)].

Definition nv_ioctl_wait_open_complete_t : layout := nv_ioctl_wait_open_complete.
Definition nv_ioctl_xfer : layout :=
  struct [("cmd", NvU32);
   ("size", NvU32);
   ("ptr", NvP64)].

Definition nv_ioctl_xfer_t : layout := nv_ioctl_xfer.
(** ** v580.rs *)
Definition NV_CHANNEL_ALLOC_PARAMS_v580 : layout :=
  struct [("hObjectError", NvHandle);
   ("hObjectBuffer", NvHandle);
   ("gpFifoOffset", NvU64);
   ("gpFifoEntries", NvU32);
   ("flags", NvU32);
   ("hContextShare", NvHandle);
   ("hVASpace", NvHandle);
   ("hUserdMemory", array NvHandle 8);
   ("userdOffset", array NvU64 8);
   ("engineType", NvU32);
   ("cid", NvU32);
   ("subDeviceId", NvU32);
   ("hObjectEccError", NvHandle);
   ("instanceMem", NV_MEMORY_DESC_PARAMS);
   ("userdMem", NV_MEMORY_DESC_PARAMS);
   ("ramfcMem", NV_MEMORY_DESC_PARAMS);
   ("mthdbufMem", NV_MEMORY_DESC_PARAMS);
   ("hPhysChannelGroup", NvHandle);
   ("internalFlags", NvU32);
   ("errorNotifierMem", NV_MEMORY_DESC_PARAMS);
   ("eccErrorNotifierMem", NV_MEMORY_DESC_PARAMS);
   ("ProcessID", NvU32);
   ("SubProcessID", NvU32);
   ("encryptIv", array NvU32 3);
   ("decryptIv", array NvU32 3);
   ("hmacNonce", array NvU32 8);
   ("tpcConfigID", NvU32)].

Definition NV2080_CTRL_GPU_GET_NAME_STRING_PARAMS__bindgen_ty_1_v580 : layout :=
  union [("ascii", array NvU8 64);
   ("unicode", array NvU16 64)].

Definition NV2080_CTRL_GPU_GET_NAME_STRING_PARAMS_v580 : layout :=
  struct [("gpuNameStringFlags", NvU32);
   ("gpuNameString", NV2080_CTRL_GPU_GET_NAME_STRING_PARAMS__bindgen_ty_1_v580)].

Definition NV0000_CTRL_P2P_CAPS_MATRIX_ROW_v580 : layout := array NvU32 8.
Definition NV0000_CTRL_SYSTEM_GET_P2P_CAPS_MATRIX_PARAMS_v580 : layout :=
  struct [("grpACount", NvU32);
   ("grpBCount", NvU32);
   ("gpuIdGrpA", array NvU32 8);
   ("gpuIdGrpB", array NvU32 8);
   ("p2pCaps", array NV0000_CTRL_P2P_CAPS_MATRIX_ROW_v580 8);
   ("a2bOptimalReadCes", array NV0000_CTRL_P2P_CAPS_MATRIX_ROW_v580 8);
   ("a2bOptimalWriteCes", array NV0000_CTRL_P2P_CAPS_MATRIX_ROW_v580 8);
   ("b2aOptimalReadCes", array NV0000_CTRL_P2P_CAPS_MATRIX_ROW_v580 8);
   ("b2aOptimalWriteCes", array NV0000_CTRL_P2P_CAPS_MATRIX_ROW_v580 8)].

Definition NV_CHANNEL_GROUP_ALLOCATION_PARAMETERS_v580 : layout :=
  struct [("hObjectError", NvHandle);
   ("hObjectEccError", NvHandle);
   ("hVASpace", NvHandle);
   ("engineType", NvU32);
   ("bIsCallingContextVgpuPlugin", NvBool)].

Definition UVM_FREE_PARAMS_v580 : layout :=
  struct [("base", NvU64);
   ("length", NvU64);
   ("rmStatus", NV_STATUS)].

Definition UVM_UNREGISTER_CHANNEL_PARAMS_v580 : layout :=
  struct [("gpuUuid", NvProcessorUuid);
   ("hClient", NvHandle);
   ("hChannel", NvHandle);
   ("rmStatus", NV_STATUS)].

(** ** v595.rs *)
Definition NV_CHANNEL_ALLOC_PARAMS_v595 : layout :=
  struct [("hObjectError", NvHandle);
   ("hObjectBuffer", NvHandle);
   ("gpFifoOffset", NvU64);
   ("gpFifoEntries", NvU32);
   ("flags", NvU32);
   ("hContextShare", NvHandle);
   ("hVASpace", NvHandle);
   ("hUserdMemory", array NvHandle 8);
   ("userdOffset", array NvU64 8);
   ("engineType", NvU32);
   ("cid", NvU32);
   ("subDeviceId", NvU32);
   ("hObjectEccError", NvHandle);
   ("instanceMem", NV_MEMORY_DESC_PARAMS);
   ("userdMem", NV_MEMORY_DESC_PARAMS);
   ("ramfcMem", NV_MEMORY_DESC_PARAMS);
   ("mthdbufMem", NV_MEMORY_DESC_PARAMS);
   ("hPhysChannelGroup", NvHandle);
   ("internalFlags", NvU32);
   ("errorNotifierMem", NV_MEMORY_DESC_PARAMS);
   ("eccErrorNotifierMem", NV_MEMORY_DESC_PARAMS);
   ("ProcessID", NvU32);
   ("SubProcessID", NvU32);
   ("encryptIv", array NvU32 3);
   ("decryptIv", array NvU32 3);
   ("hmacNonce", array NvU32 8);
   ("tpcConfigID", NvU32)].

Definition NV2080_CTRL_GPU_GET_NAME_STRING_PARAMS__bindgen_ty_1_v595 : layout :=
  struct [("ascii", array NvU8 64)].

Definition NV2080_CTRL_GPU_GET_NAME_STRING_PARAMS_v595 : layout :=
  struct [("gpuNameStringFlags", NvU32);
   ("gpuNameString", NV2080_CTRL_GPU_GET_NAME_STRING_PARAMS__bindgen_ty_1_v595)].

Definition NV0000_CTRL_SYSTEM_GET_P2P_CAPS_MATRIX_PARAMS_v595 : layout :=
  struct [("grpACount", NvU32);
   ("grpBCount", NvU32);
   ("gpuIdGrpA", array NvU32 8);
   ("gpuIdGrpB", array NvU32 8);
   ("p2pCaps", array (array NvU32 8) 8);
   ("a2bOptimalReadCes", array (array NvU32 8) 8);
   ("a2bOptimalWriteCes", array (array NvU32 8) 8);
   ("b2aOptimalReadCes", array (array NvU32 8) 8);
   ("b2aOptimalWriteCes", array (array NvU32 8) 8)].

Definition NV_CHANNEL_GROUP_ALLOCATION_PARAMETERS_v595 : layout :=
  struct [("hObjectError", NvHandle);
   ("hObjectEccError", NvHandle);
   ("hVASpace", NvHandle);
   ("engineType", NvU32);
   ("bIsCallingContextVgpuPlugin", NvBool)].

Definition UVM_FREE_PARAMS_v595 : layout :=
  struct [("base", NvU64);
   ("rmStatus", NV_STATUS)].

Definition UVM_UNREGISTER_CHANNEL_PARAMS_v595 : layout :=
  struct [("hClient", NvHandle);
   ("hChannel", NvHandle);
   ("rmStatus", NV_STATUS)].

(** ** v610.rs *)
Definition NV_CHANNEL_ALLOC_PARAMS_v610 : layout :=
  struct [("hObjectError", NvHandle);
   ("hObjectBuffer", NvHandle);
   ("gpFifoOffset", NvU64);
   ("gpFifoEntries", NvU32);
   ("flags", NvU32);
   ("hContextShare", NvHandle);
   ("hVASpace", NvHandle);
   ("hHandleVASpace", NvHandle);
   ("hUserdMemory", array NvHandle 8);
   ("userdOffset", array NvU64 8);
   ("engineType", NvU32);
   ("cid", NvU32);
   ("subDeviceId", NvU32);
   ("hObjectEccError", NvHandle);
   ("instanceMem", NV_MEMORY_DESC_PARAMS);
   ("userdMem", NV_MEMORY_DESC_PARAMS);
   ("ramfcMem", NV_MEMORY_DESC_PARAMS);
   ("mthdbufMem", NV_MEMORY_DESC_PARAMS);
   ("hPhysChannelGroup", NvHandle);
   ("internalFlags", NvU32);
   ("errorNotifierMem", NV_MEMORY_DESC_PARAMS);
   ("eccErrorNotifierMem", NV_MEMORY_DESC_PARAMS);
   ("ProcessID", NvU32);
   ("SubProcessID", NvU32);
   ("encryptIv", array NvU32 3);
   ("decryptIv", array NvU32 3);
   ("hmacNonce", array NvU32 8);
   ("tpcConfigID", NvU32)].

Definition NV2080_CTRL_GPU_GET_NAME_STRING_PARAMS__bindgen_ty_1_v610 : layout :=
  struct [("ascii", array NvU8 64)].

Definition NV2080_CTRL_GPU_GET_NAME_STRING_PARAMS_v610 : layout :=
  struct [("gpuNameStringFlags", NvU32);
   ("gpuNameString", NV2080_CTRL_GPU_GET_NAME_STRING_PARAMS__bindgen_ty_1_v610)].

Definition NV0000_CTRL_SYSTEM_GET_P2P_CAPS_MATRIX_PARAMS_v610 : layout :=
  struct [("grpACount", NvU32);
   ("grpBCount", NvU32);
   ("gpuIdGrpA", array NvU32 8);
   ("gpuIdGrpB", array NvU32 8);
   ("p2pCaps", array (array NvU32 8) 8);
   ("a2bOptimalReadCes", array (array NvU32 8) 8);
   ("a2bOptimalWriteCes", array (array NvU32 8) 8);
   ("b2aOptimalReadCes", array (array NvU32 8) 8);
   ("b2aOptimalWriteCes", array (array NvU32 8) 8)].

Definition NV_CHANNEL_GROUP_ALLOCATION_PARAMETERS_v610 : layout :=
  struct [("hObjectError", NvHandle);
   ("hObjectEccError", NvHandle);
   ("hVASpace", NvHandle);
   ("engineType", NvU32);
   ("bIsCallingContextVgpuPlugin", NvBool)].

Definition UVM_FREE_PARAMS_v610 : layout :=
  struct [("base", NvU64);
   ("rmStatus", NV_STATUS)].

Definition UVM_UNREGISTER_CHANNEL_PARAMS_v610 : layout :=
  struct [("hClient", NvHandle);
   ("hChannel", NvHandle);
   ("rmStatus", NV_STATUS)].

(** ** v615.rs *)
Definition NV_CHANNEL_ALLOC_PARAMS_v615 : layout :=
  struct [("hObjectError", NvHandle);
   ("hObjectBuffer", NvHandle);
   ("gpFifoOffset", NvU64);
   ("gpFifoEntries", NvU32);
   ("flags", NvU32);
   ("hContextShare", NvHandle);
   ("hVASpace", NvHandle);
   ("hHandleVASpace", NvHandle);
   ("hUserdMemory", array NvHandle 8);
   ("userdOffset", array NvU64 8);
   ("engineType", NvU32);
   ("cid", NvU32);
   ("subDeviceId", NvU32);
   ("hObjectEccError", NvHandle);
   ("instanceMem", NV_MEMORY_DESC_PARAMS);
   ("userdMem", NV_MEMORY_DESC_PARAMS);
   ("ramfcMem", NV_MEMORY_DESC_PARAMS);
   ("mthdbufMem", NV_MEMORY_DESC_PARAMS);
   ("hPhysChannelGroup", NvHandle);
   ("internalFlags", NvU32);
   ("errorNotifierMem", NV_MEMORY_DESC_PARAMS);
   ("eccErrorNotifierMem", NV_MEMORY_DESC_PARAMS);
   ("ProcessID", NvU32);
   ("SubProcessID", NvU32);
   ("encryptIv", array NvU32 3);
   ("decryptIv", array NvU32 3);
   ("hmacNonce", array NvU32 8);
   ("tpcConfigID", NvU32)].

Definition NV2080_CTRL_GPU_GET_NAME_STRING_PARAMS__bindgen_ty_1_v615 : layout :=
  struct [("ascii", array NvU8 64)].

Definition NV2080_CTRL_GPU_GET_NAME_STRING_PARAMS_v615 : layout :=
  struct [("gpuNameStringFlags", NvU32);
   ("gpuNameString", NV2080_CTRL_GPU_GET_NAME_STRING_PARAMS__bindgen_ty_1_v615)].

Definition NV0000_CTRL_SYSTEM_GET_P2P_CAPS_MATRIX_PARAMS_v615 : layout :=
  struct [("grpACount", NvU32);
   ("grpBCount", NvU32);
   ("gpuIdGrpA", array NvU32 8);
   ("gpuIdGrpB", array NvU32 8);
   ("p2pCaps", array (array NvU32 8) 8);
   ("a2bOptimalReadCes", array (array NvU32 8) 8);
   ("a2bOptimalWriteCes", array (array NvU32 8) 8);
   ("b2aOptimalReadCes", array (array NvU32 8) 8);
   ("b2aOptimalWriteCes", array (array NvU32 8) 8)].

Definition NV_CHANNEL_GROUP_ALLOCATION_PARAMETERS_v615 : layout :=
  struct [("hObjectError", NvHandle);
   ("hObjectEccError", NvHandle);
   ("hVASpace", NvHandle);
   ("engineType", NvU32);
   ("bIsCallingContextVgpuPlugin", NvBool);
   ("reserved", NvU32);
   ("internalFlags", NvU32)].

Definition UVM_FREE_PARAMS_v615 : layout :=
  struct [("base", NvU64);
   ("rmStatus", NV_STATUS)].

Definition UVM_UNREGISTER_CHANNEL_PARAMS_v615 : layout :=
  struct [("hClient", NvHandle);
   ("hChannel", NvHandle);
   ("rmStatus", NV_STATUS)].

