(* ===== verification/SysLayout.v ===== *)
(** * The measured layouts and the driver ABI interface

    [assert_layout!] pins the size, the alignment and the field offsets that
    were measured for a structure (crates/nvrm-sys/src/stable.rs and the
    version modules).  About a tenth of these assertions is modelled, a
    selection around the structures the backend reads and writes.  [RmAbi] is
    the trait of crates/nvrm-sys/src/lib.rs that names the version-dependent
    ones. *)
From stdpp Require Import strings.
From S2P Require Import Prelude.
From S2P Require Import CLayout.
From S2P Require Import Sys.

Local Open Scope string_scope.
Local Open Scope Z_scope.

(** ** Measured layouts *)
Definition measured_NV0000_CTRL_GPUACCT_GET_ACCOUNTING_STATE_PARAMS : measured :=
  Measured NV0000_CTRL_GPUACCT_GET_ACCOUNTING_STATE_PARAMS 12 4
  [("gpuId", 0); ("pid", 4); ("state", 8)].

Definition measured_NV0000_CTRL_GPU_ACTIVE_DEVICE : measured :=
  Measured NV0000_CTRL_GPU_ACTIVE_DEVICE 12 4
  [("gpuId", 0); ("gpuInstanceId", 4); ("computeInstanceId", 8)].

Definition measured_NV0000_CTRL_GPU_ASYNC_ATTACH_ID_PARAMS : measured :=
  Measured NV0000_CTRL_GPU_ASYNC_ATTACH_ID_PARAMS 4 4
  [("gpuId", 0)].

Definition measured_NV0000_CTRL_GPU_ATTACH_IDS_PARAMS : measured :=
  Measured NV0000_CTRL_GPU_ATTACH_IDS_PARAMS 132 4
  [("gpuIds", 0); ("failedId", 128)].

Definition measured_NV0000_CTRL_GPU_DETACH_IDS_PARAMS : measured :=
  Measured NV0000_CTRL_GPU_DETACH_IDS_PARAMS 128 4
  [("gpuIds", 0)].

Definition measured_NV0000_CTRL_GPU_GET_ACTIVE_DEVICE_IDS_PARAMS : measured :=
  Measured NV0000_CTRL_GPU_GET_ACTIVE_DEVICE_IDS_PARAMS 3076 4
  [("numDevices", 0); ("devices", 4)].

Definition measured_NV0000_CTRL_GPU_GET_ATTACHED_IDS_PARAMS : measured :=
  Measured NV0000_CTRL_GPU_GET_ATTACHED_IDS_PARAMS 128 4
  [("gpuIds", 0)].

Definition measured_NV0000_CTRL_GPU_GET_ID_INFO_PARAMS : measured :=
  Measured NV0000_CTRL_GPU_GET_ID_INFO_PARAMS 40 8
  [("gpuId", 0); ("gpuFlags", 4); ("deviceInstance", 8); ("subDeviceInstance", 12);
    ("szName", 16); ("sliStatus", 24); ("boardId", 28); ("gpuInstance", 32); ("numaId", 36)].

Definition measured_NV0000_CTRL_GPU_GET_ID_INFO_V2_PARAMS : measured :=
  Measured NV0000_CTRL_GPU_GET_ID_INFO_V2_PARAMS 32 4
  [("gpuId", 0); ("gpuFlags", 4); ("deviceInstance", 8); ("subDeviceInstance", 12);
    ("sliStatus", 16); ("boardId", 20); ("gpuInstance", 24); ("numaId", 28)].

Definition measured_NV0000_CTRL_GPU_GET_PCI_INFO_PARAMS : measured :=
  Measured NV0000_CTRL_GPU_GET_PCI_INFO_PARAMS 12 4
  [("gpuId", 0); ("domain", 4); ("bus", 8); ("slot", 10)].

Definition measured_NV0000_CTRL_GPU_GET_PROBED_IDS_PARAMS : measured :=
  Measured NV0000_CTRL_GPU_GET_PROBED_IDS_PARAMS 384 4
  [("gpuIds", 0); ("excludedGpuIds", 128); ("gpuFlags", 256)].

Definition measured_NV0000_CTRL_GPU_GET_UUID_FROM_GPU_ID_PARAMS : measured :=
  Measured NV0000_CTRL_GPU_GET_UUID_FROM_GPU_ID_PARAMS 268 4
  [("gpuId", 0); ("flags", 4); ("gpuUuid", 8); ("uuidStrLen", 264)].

Definition measured_NV0000_CTRL_GPU_GET_UUID_INFO_PARAMS : measured :=
  Measured NV0000_CTRL_GPU_GET_UUID_INFO_PARAMS 272 4
  [("gpuUuid", 0); ("flags", 256); ("gpuId", 260); ("deviceInstance", 264);
    ("subdeviceInstance", 268)].

Definition measured_NV0000_CTRL_GPU_MODIFY_DRAIN_STATE_PARAMS : measured :=
  Measured NV0000_CTRL_GPU_MODIFY_DRAIN_STATE_PARAMS 12 4
  [("gpuId", 0); ("newState", 4); ("flags", 8)].

Definition measured_NV0000_CTRL_GPU_QUERY_DRAIN_STATE_PARAMS : measured :=
  Measured NV0000_CTRL_GPU_QUERY_DRAIN_STATE_PARAMS 12 4
  [("gpuId", 0); ("drainState", 4); ("flags", 8)].

Definition measured_NV0000_CTRL_GPU_WAIT_ATTACH_ID_PARAMS : measured :=
  Measured NV0000_CTRL_GPU_WAIT_ATTACH_ID_PARAMS 4 4
  [("gpuId", 0)].

Definition measured_NV0000_CTRL_SYSTEM_GET_BUILD_VERSION_PARAMS : measured :=
  Measured NV0000_CTRL_SYSTEM_GET_BUILD_VERSION_PARAMS 40 8
  [("sizeOfStrings", 0); ("pDriverVersionBuffer", 8); ("pVersionBuffer", 16);
    ("pTitleBuffer", 24); ("changelistNumber", 32); ("officialChangelistNumber", 36)].

Definition measured_NV0005_ALLOC_PARAMETERS : measured :=
  Measured NV0005_ALLOC_PARAMETERS 24 8
  [("hParentClient", 0); ("hSrcResource", 4); ("hClass", 8); ("notifyIndex", 12);
    ("data", 16)].

Definition measured_NV0080_ALLOC_PARAMETERS : measured :=
  Measured NV0080_ALLOC_PARAMETERS 56 8
  [("deviceId", 0); ("hClientShare", 4); ("hTargetClient", 8); ("hTargetDevice", 12);
    ("flags", 16); ("vaSpaceSize", 24); ("vaStartInternal", 32); ("vaLimitInternal", 40);
    ("vaMode", 48)].

Definition measured_NV0080_CTRL_FB_GET_CAPS_PARAMS : measured :=
  Measured NV0080_CTRL_FB_GET_CAPS_PARAMS 16 8
  [("capsTblSize", 0); ("capsTbl", 8)].

Definition measured_NV0080_CTRL_FIFO_GET_CAPS_PARAMS : measured :=
  Measured NV0080_CTRL_FIFO_GET_CAPS_PARAMS 16 8
  [("capsTblSize", 0); ("capsTbl", 8)].

Definition measured_NV0080_CTRL_FIFO_GET_CHANNELLIST_PARAMS : measured :=
  Measured NV0080_CTRL_FIFO_GET_CHANNELLIST_PARAMS 24 8
  [("numChannels", 0); ("pChannelHandleList", 8); ("pChannelList", 16)].

Definition measured_NV0080_CTRL_GPU_GET_CLASSLIST_PARAMS : measured :=
  Measured NV0080_CTRL_GPU_GET_CLASSLIST_PARAMS 16 8
  [("numClasses", 0); ("classList", 8)].

Definition measured_NV0080_CTRL_GPU_GET_VIRTUALIZATION_MODE_PARAMS : measured :=
  Measured NV0080_CTRL_GPU_GET_VIRTUALIZATION_MODE_PARAMS 8 4
  [("virtualizationMode", 0); ("isGridBuild", 4)].

Definition measured_NV0080_CTRL_GR_GET_CAPS_PARAMS : measured :=
  Measured NV0080_CTRL_GR_GET_CAPS_PARAMS 16 8
  [("capsTblSize", 0); ("capsTbl", 8)].

Definition measured_NV0080_CTRL_GR_GET_INFO_PARAMS : measured :=
  Measured NV0080_CTRL_GR_GET_INFO_PARAMS 16 8
  [("grInfoListSize", 0); ("grInfoList", 8)].

Definition measured_NV0080_CTRL_NVENC_GET_CAPS_PARAMS : measured :=
  Measured NV0080_CTRL_NVENC_GET_CAPS_PARAMS 16 8
  [("capsTblSize", 0); ("capsTbl", 8)].

Definition measured_NV00DE_ALLOC_PARAMETERS : measured :=
  Measured NV00DE_ALLOC_PARAMETERS 8 8
  [("polledDataMask", 0)].

Definition measured_NV2080_ALLOC_PARAMETERS : measured :=
  Measured NV2080_ALLOC_PARAMETERS 4 4
  [("subDeviceId", 0)].

Definition measured_NV2080_CTRL_BIOS_GET_INFO_PARAMS : measured :=
  Measured NV2080_CTRL_BIOS_GET_INFO_PARAMS 16 8
  [("biosInfoListSize", 0); ("biosInfoList", 8)].

Definition measured_NV2080_CTRL_BUS_GET_INFO_PARAMS : measured :=
  Measured NV2080_CTRL_BUS_GET_INFO_PARAMS 16 8
  [("busInfoListSize", 0); ("busInfoList", 8)].

Definition measured_NV2080_CTRL_FB_GET_INFO_PARAMS : measured :=
  Measured NV2080_CTRL_FB_GET_INFO_PARAMS 16 8
  [("fbInfoListSize", 0); ("fbInfoList", 8)].

Definition measured_NVXXXX_CTRL_XXX_INFO : measured :=
  Measured NVXXXX_CTRL_XXX_INFO 8 4
  [("index", 0); ("data", 4)].

Definition measured_NV2080_CTRL_FB_GET_INFO_V2_PARAMS : measured :=
  Measured NV2080_CTRL_FB_GET_INFO_V2_PARAMS 1028 4
  [("fbInfoListSize", 0); ("fbInfoList", 4)].

Definition measured_NV2080_CTRL_GPU_GET_ENCODER_CAPACITY_PARAMS : measured :=
  Measured NV2080_CTRL_GPU_GET_ENCODER_CAPACITY_PARAMS 8 4
  [("queryType", 0); ("encoderCapacity", 4)].

Definition measured_NV2080_CTRL_GPU_GET_ENGINES_PARAMS : measured :=
  Measured NV2080_CTRL_GPU_GET_ENGINES_PARAMS 16 8
  [("engineCount", 0); ("engineList", 8)].

Definition measured_NV2080_CTRL_GPU_GET_GID_INFO_PARAMS : measured :=
  Measured NV2080_CTRL_GPU_GET_GID_INFO_PARAMS 268 4
  [("index", 0); ("flags", 4); ("length", 8); ("data", 12)].

Definition measured_NV2080_CTRL_GPU_GET_PIDS_PARAMS : measured :=
  Measured NV2080_CTRL_GPU_GET_PIDS_PARAMS 3812 4
  [("idType", 0); ("id", 4); ("pidTblCount", 8); ("pidTbl", 12)].

Definition measured_NV2080_CTRL_GPU_PID_INFO_VIDEO_MEMORY_USAGE_DATA : measured :=
  Measured NV2080_CTRL_GPU_PID_INFO_VIDEO_MEMORY_USAGE_DATA 48 8
  [("memPrivate", 0); ("memSharedOwned", 8); ("memSharedDuped", 16);
    ("protectedMemPrivate", 24); ("protectedMemSharedOwned", 32);
    ("protectedMemSharedDuped", 40)].

Definition measured_NV2080_CTRL_GPU_PID_INFO_DATA : measured :=
  Measured NV2080_CTRL_GPU_PID_INFO_DATA 48 8
  [("vidMemUsage", 0)].

Definition measured_NV2080_CTRL_SMC_SUBSCRIPTION_INFO : measured :=
  Measured NV2080_CTRL_SMC_SUBSCRIPTION_INFO 8 4
  [("computeInstanceId", 0); ("gpuInstanceId", 4)].

Definition measured_NV2080_CTRL_GPU_PID_INFO : measured :=
  Measured NV2080_CTRL_GPU_PID_INFO 72 8
  [("pid", 0); ("index", 4); ("result", 8); ("data", 16); ("smcSubscription", 64)].

Definition measured_NV2080_CTRL_GPU_GET_PID_INFO_PARAMS : measured :=
  Measured NV2080_CTRL_GPU_GET_PID_INFO_PARAMS 14408 8
  [("pidInfoListCount", 0); ("pidInfoList", 8)].

Definition measured_NV0080_CTRL_GR_ROUTE_INFO : measured :=
  Measured NV0080_CTRL_GR_ROUTE_INFO 16 8
  [("flags", 0); ("route", 8)].

Definition measured_NV2080_CTRL_GR_GET_INFO_PARAMS : measured :=
  Measured NV2080_CTRL_GR_GET_INFO_PARAMS 32 8
  [("grInfoListSize", 0); ("grInfoList", 8); ("grRouteInfo", 16)].

Definition measured_NV2081_ALLOC_PARAMETERS : measured :=
  Measured NV2081_ALLOC_PARAMETERS 4 4
  [("reserved", 0)].

Definition measured_NV83DE_ALLOC_PARAMETERS : measured :=
  Measured NV83DE_ALLOC_PARAMETERS 12 4
  [("hDebuggerClient_Obsolete", 0); ("hAppClient", 4); ("hClass3dObject", 8)].

Definition measured_NV9072_ALLOCATION_PARAMETERS : measured :=
  Measured NV9072_ALLOCATION_PARAMETERS 12 4
  [("logicalHeadId", 0); ("displayMask", 4); ("caps", 8)].

Definition measured_NVA06F_CTRL_GPFIFO_SCHEDULE_PARAMS : measured :=
  Measured NVA06F_CTRL_GPFIFO_SCHEDULE_PARAMS 3 1
  [("bEnable", 0); ("bSkipSubmit", 1); ("bSkipEnable", 2)].

Definition measured_NVA0BC_ALLOC_PARAMETERS : measured :=
  Measured NVA0BC_ALLOC_PARAMETERS 20 4
  [("codecType", 0); ("hResolution", 4); ("vResolution", 8); ("version", 12); ("hMem", 16)].

Definition measured_NVB0B5_ALLOCATION_PARAMETERS : measured :=
  Measured NVB0B5_ALLOCATION_PARAMETERS 8 4
  [("version", 0); ("engineType", 4)].

Definition measured_NVC36F_CTRL_CMD_GPFIFO_GET_WORK_SUBMIT_TOKEN_PARAMS : measured :=
  Measured NVC36F_CTRL_CMD_GPFIFO_GET_WORK_SUBMIT_TOKEN_PARAMS 4 4
  [("workSubmitToken", 0)].

Definition measured_NVC640_ALLOCATION_PARAMETERS : measured :=
  Measured NVC640_ALLOCATION_PARAMETERS 8 8
  [("capDescriptor", 0)].

Definition measured_NVOS00_PARAMETERS : measured :=
  Measured NVOS00_PARAMETERS 16 4
  [("hRoot", 0); ("hObjectParent", 4); ("hObjectOld", 8); ("status", 12)].

Definition measured_NVOS02_PARAMETERS : measured :=
  Measured NVOS02_PARAMETERS 48 8
  [("hRoot", 0); ("hObjectParent", 4); ("hObjectNew", 8); ("hClass", 12); ("flags", 16);
    ("pMemory", 24); ("limit", 32); ("status", 40)].

Definition measured_NVOS05_PARAMETERS : measured :=
  Measured NVOS05_PARAMETERS 20 4
  [("hRoot", 0); ("hObjectParent", 4); ("hObjectNew", 8); ("hClass", 12); ("status", 16)].

Definition measured_NVOS21_PARAMETERS : measured :=
  Measured NVOS21_PARAMETERS 32 8
  [("hRoot", 0); ("hObjectParent", 4); ("hObjectNew", 8); ("hClass", 12); ("pAllocParms", 16);
    ("paramsSize", 24); ("status", 28)].

Definition measured_NVOS32_PARAMETERS__bindgen_ty_1__bindgen_ty_1 : measured :=
  Measured NVOS32_PARAMETERS__bindgen_ty_1__bindgen_ty_1 120 8
  [("owner", 0); ("hMemory", 4); ("type_", 8); ("flags", 12); ("attr", 16); ("format", 20);
    ("comprCovg", 24); ("zcullCovg", 28); ("partitionStride", 32); ("width", 36);
    ("height", 40); ("size", 48); ("alignment", 56); ("offset", 64); ("limit", 72);
    ("address", 80); ("rangeBegin", 88); ("rangeEnd", 96); ("attr2", 104);
    ("ctagOffset", 108); ("numaNode", 112)].

Definition measured_NVOS32_PARAMETERS__bindgen_ty_1__bindgen_ty_2 : measured :=
  Measured NVOS32_PARAMETERS__bindgen_ty_1__bindgen_ty_2 120 8
  [("owner", 0); ("hMemory", 4); ("type_", 8); ("flags", 12); ("height", 16); ("pitch", 20);
    ("attr", 24); ("width", 28); ("format", 32); ("comprCovg", 36); ("zcullCovg", 40);
    ("partitionStride", 44); ("size", 48); ("alignment", 56); ("offset", 64); ("limit", 72);
    ("address", 80); ("rangeBegin", 88); ("rangeEnd", 96); ("attr2", 104);
    ("ctagOffset", 108); ("numaNode", 112)].

Definition measured_NVOS32_PARAMETERS__bindgen_ty_1__bindgen_ty_3 : measured :=
  Measured NVOS32_PARAMETERS__bindgen_ty_1__bindgen_ty_3 12 4
  [("owner", 0); ("hMemory", 4); ("flags", 8)].

Definition measured_NVOS32_PARAMETERS__bindgen_ty_1__bindgen_ty_4 : measured :=
  Measured NVOS32_PARAMETERS__bindgen_ty_1__bindgen_ty_4 12 4
  [("owner", 0); ("flags", 4); ("hMemory", 8)].

Definition measured_NVOS32_PARAMETERS__bindgen_ty_1__bindgen_ty_5 : measured :=
  Measured NVOS32_PARAMETERS__bindgen_ty_1__bindgen_ty_5 12 4
  [("owner", 0); ("flags", 4); ("hMemory", 8)].

Definition measured_NVOS32_PARAMETERS__bindgen_ty_1__bindgen_ty_6 : measured :=
  Measured NVOS32_PARAMETERS__bindgen_ty_1__bindgen_ty_6 32 8
  [("attr", 0); ("offset", 8); ("size", 16); ("base", 24)].

Definition measured_NVOS32_PARAMETERS__bindgen_ty_1__bindgen_ty_7 : measured :=
  Measured NVOS32_PARAMETERS__bindgen_ty_1__bindgen_ty_7 112 8
  [("owner", 0); ("hMemory", 4); ("type_", 8); ("flags", 12); ("attr", 16); ("format", 20);
    ("comprCovg", 24); ("zcullCovg", 28); ("partitionStride", 32); ("size", 40);
    ("alignment", 48); ("offset", 56); ("limit", 64); ("rangeBegin", 72); ("rangeEnd", 80);
    ("address", 88); ("attr2", 96); ("ctagOffset", 100); ("numaNode", 104)].

Definition measured_NVOS32_PARAMETERS__bindgen_ty_1__bindgen_ty_8 : measured :=
  Measured NVOS32_PARAMETERS__bindgen_ty_1__bindgen_ty_8 56 8
  [("alignType", 0); ("alignAttr", 4); ("alignInputFlags", 8); ("alignSize", 16);
    ("alignHeight", 24); ("alignWidth", 28); ("alignPitch", 32); ("alignPad", 36);
    ("alignMask", 40); ("alignKind", 44); ("alignAdjust", 48); ("alignAttr2", 52)].

Definition measured_NVOS32_PARAMETERS__bindgen_ty_1__bindgen_ty_9__bindgen_ty_1 : measured :=
  Measured NVOS32_PARAMETERS__bindgen_ty_1__bindgen_ty_9__bindgen_ty_1 24 4
  [("compPageShift", 0); ("compressedKind", 4); ("compTagLineMin", 8);
    ("compPageIndexLo", 12); ("compPageIndexHi", 16); ("compTagLineMultiplier", 20)].

Definition measured_NVOS32_PARAMETERS__bindgen_ty_1__bindgen_ty_9 : measured :=
  Measured NVOS32_PARAMETERS__bindgen_ty_1__bindgen_ty_9 144 8
  [("allocOwner", 0); ("allochMemory", 4); ("flags", 8); ("allocType", 12); ("allocAttr", 16);
    ("allocInputFlags", 20); ("allocSize", 24); ("allocHeight", 32); ("allocWidth", 36);
    ("allocPitch", 40); ("allocMask", 44); ("allocComprCovg", 48); ("allocZcullCovg", 52);
    ("bindResultFunc", 56); ("pHandle", 64); ("hResourceHandle", 72); ("retAttr", 76);
    ("kind", 80); ("osDeviceHandle", 88); ("allocAttr2", 96); ("retAttr2", 100);
    ("allocAddr", 104); ("comprInfo", 112); ("uncompressedKind", 136)].

Definition measured_NVOS32_PARAMETERS__bindgen_ty_1__bindgen_ty_10 : measured :=
  Measured NVOS32_PARAMETERS__bindgen_ty_1__bindgen_ty_10 8 4
  [("hResourceHandle", 0); ("flags", 4)].

Definition measured_NVOS32_PARAMETERS__bindgen_ty_1__bindgen_ty_11 : measured :=
  Measured NVOS32_PARAMETERS__bindgen_ty_1__bindgen_ty_11 48 8
  [("hMemory", 0); ("type_", 4); ("flags", 8); ("attr", 12); ("attr2", 16);
    ("descriptor", 24); ("limit", 32); ("descriptorType", 40)].

Definition measured_NVOS32_PARAMETERS__bindgen_ty_1 : measured :=
  Measured NVOS32_PARAMETERS__bindgen_ty_1 144 8
  [("AllocSize", 0); ("AllocTiledPitchHeight", 0); ("Free", 0); ("ReleaseCompr", 0);
    ("ReacquireCompr", 0); ("Info", 0); ("AllocSizeRange", 0); ("AllocHintAlignment", 0);
    ("HwAlloc", 0); ("HwFree", 0); ("AllocOsDesc", 0)].

Definition measured_NVOS32_PARAMETERS : measured :=
  Measured NVOS32_PARAMETERS 184 8
  [("hRoot", 0); ("hObjectParent", 4); ("function", 8); ("hVASpace", 12);
    ("ivcHeapNumber", 16); ("status", 20); ("total", 24); ("free", 32); ("data", 40)].

Definition measured_NVOS33_PARAMETERS : measured :=
  Measured NVOS33_PARAMETERS 48 8
  [("hClient", 0); ("hDevice", 4); ("hMemory", 8); ("offset", 16); ("length", 24);
    ("pLinearAddress", 32); ("status", 40); ("flags", 44)].

Definition measured_NVOS34_PARAMETERS : measured :=
  Measured NVOS34_PARAMETERS 32 8
  [("hClient", 0); ("hDevice", 4); ("hMemory", 8); ("pLinearAddress", 16); ("status", 24);
    ("flags", 28)].

Definition measured_NVOS39_PARAMETERS : measured :=
  Measured NVOS39_PARAMETERS 56 8
  [("hObjectParent", 0); ("hSubDevice", 4); ("hObjectNew", 8); ("hClass", 12); ("flags", 16);
    ("selector", 20); ("hMemory", 24); ("offset", 32); ("limit", 40); ("status", 48)].

Definition measured_NVOS41_PARAMETERS : measured :=
  Measured NVOS41_PARAMETERS 16 8
  [("pEvent", 0); ("MoreEvents", 8); ("status", 12)].

Definition measured_NVOS46_PARAMETERS : measured :=
  Measured NVOS46_PARAMETERS 64 8
  [("hClient", 0); ("hDevice", 4); ("hDma", 8); ("hMemory", 12); ("offset", 16);
    ("length", 24); ("flags", 32); ("flags2", 36); ("kindOverride", 40); ("dmaOffset", 48);
    ("status", 56)].

Definition measured_NVOS47_PARAMETERS : measured :=
  Measured NVOS47_PARAMETERS 48 8
  [("hClient", 0); ("hDevice", 4); ("hDma", 8); ("hMemory", 12); ("flags", 16);
    ("dmaOffset", 24); ("size", 32); ("status", 40)].

Definition measured_NVOS49_PARAMETERS : measured :=
  Measured NVOS49_PARAMETERS 16 4
  [("hClient", 0); ("hChannel", 4); ("hCtxDma", 8); ("status", 12)].

Definition measured_NVOS54_PARAMETERS : measured :=
  Measured NVOS54_PARAMETERS 32 8
  [("hClient", 0); ("hObject", 4); ("cmd", 8); ("flags", 12); ("params", 16);
    ("paramsSize", 24); ("status", 28)].

Definition measured_NVOS55_PARAMETERS : measured :=
  Measured NVOS55_PARAMETERS 28 4
  [("hClient", 0); ("hParent", 4); ("hObject", 8); ("hClientSrc", 12); ("hObjectSrc", 16);
    ("flags", 20); ("status", 24)].

Definition measured_RS_ACCESS_MASK : measured :=
  Measured RS_ACCESS_MASK 4 4
  [("limbs", 0)].

Definition measured_RS_SHARE_POLICY : measured :=
  Measured RS_SHARE_POLICY 12 4
  [("target", 0); ("accessMask", 4); ("type_", 8); ("action", 10)].

Definition measured_NVOS57_PARAMETERS : measured :=
  Measured NVOS57_PARAMETERS 24 4
  [("hClient", 0); ("hObject", 4); ("sharePolicy", 8); ("status", 20)].

Definition measured_NVOS64_PARAMETERS : measured :=
  Measured NVOS64_PARAMETERS 48 8
  [("hRoot", 0); ("hObjectParent", 4); ("hObjectNew", 8); ("hClass", 12); ("pAllocParms", 16);
    ("pRightsRequested", 24); ("paramsSize", 32); ("flags", 36); ("status", 40)].

Definition measured_NV_CONFIDENTIAL_COMPUTE_ALLOC_PARAMS : measured :=
  Measured NV_CONFIDENTIAL_COMPUTE_ALLOC_PARAMS 4 4
  [("hClient", 0)].

Definition measured_NV_CONTEXT_DMA_ALLOCATION_PARAMS : measured :=
  Measured NV_CONTEXT_DMA_ALLOCATION_PARAMS 32 8
  [("hSubDevice", 0); ("flags", 4); ("hMemory", 8); ("offset", 16); ("limit", 24)].

Definition measured_NV_CTXSHARE_ALLOCATION_PARAMETERS : measured :=
  Measured NV_CTXSHARE_ALLOCATION_PARAMETERS 12 4
  [("hVASpace", 0); ("flags", 4); ("subctxId", 8)].

Definition measured_NV_GR_ALLOCATION_PARAMETERS : measured :=
  Measured NV_GR_ALLOCATION_PARAMETERS 16 4
  [("version", 0); ("flags", 4); ("size", 8); ("caps", 12)].

Definition measured_NV_HOPPER_USERMODE_A_PARAMS : measured :=
  Measured NV_HOPPER_USERMODE_A_PARAMS 2 1
  [("bBar1Mapping", 0); ("bPriv", 1)].

Definition measured_NV_MEMORY_ALLOCATION_PARAMS : measured :=
  Measured NV_MEMORY_ALLOCATION_PARAMS 128 8
  [("owner", 0); ("type_", 4); ("flags", 8); ("width", 12); ("height", 16); ("pitch", 20);
    ("attr", 24); ("attr2", 28); ("format", 32); ("comprCovg", 36); ("zcullCovg", 40);
    ("rangeLo", 48); ("rangeHi", 56); ("size", 64); ("alignment", 72); ("offset", 80);
    ("limit", 88); ("address", 96); ("ctagOffset", 104); ("hVASpace", 108);
    ("internalflags", 112); ("tag", 116); ("numaNode", 120)].

Definition measured_NV_MEMORY_DESC_PARAMS : measured :=
  Measured NV_MEMORY_DESC_PARAMS 24 8
  [("base", 0); ("size", 8); ("addressSpace", 16); ("cacheAttrib", 20)].

Definition measured_NV_MEMORY_MAPPER_ALLOCATION_PARAMS : measured :=
  Measured NV_MEMORY_MAPPER_ALLOCATION_PARAMS 24 8
  [("hSemaphoreSurface", 0); ("maxQueueSize", 4); ("hNotificationMemory", 8);
    ("notificationOffset", 16)].

Definition measured_NV_MEMORY_SYNCPOINT_ALLOCATION_PARAMS : measured :=
  Measured NV_MEMORY_SYNCPOINT_ALLOCATION_PARAMS 4 4
  [("syncpointId", 0)].

Definition measured_NV_MEMORY_VIRTUAL_ALLOCATION_PARAMS : measured :=
  Measured NV_MEMORY_VIRTUAL_ALLOCATION_PARAMS 24 8
  [("offset", 0); ("limit", 8); ("hVASpace", 16)].

Definition measured_NV_NVDEC_ALLOCATION_PARAMETERS : measured :=
  Measured NV_NVDEC_ALLOCATION_PARAMETERS 12 4
  [("size", 0); ("prohibitMultipleInstances", 4); ("engineInstance", 8)].

Definition measured_NV_NVENC_ALLOCATION_PARAMETERS : measured :=
  Measured NV_NVENC_ALLOCATION_PARAMETERS 12 4
  [("size", 0); ("prohibitMultipleInstances", 4); ("engineInstance", 8)].

Definition measured_NV_NVJPG_ALLOCATION_PARAMETERS : measured :=
  Measured NV_NVJPG_ALLOCATION_PARAMETERS 12 4
  [("size", 0); ("prohibitMultipleInstances", 4); ("engineInstance", 8)].

Definition measured_NV_OFA_ALLOCATION_PARAMETERS : measured :=
  Measured NV_OFA_ALLOCATION_PARAMETERS 12 4
  [("size", 0); ("prohibitMultipleInstances", 4); ("engineInstance", 8)].

Definition measured_NV_OS_DESC_MEMORY_ALLOCATION_PARAMS : measured :=
  Measured NV_OS_DESC_MEMORY_ALLOCATION_PARAMS 40 8
  [("type_", 0); ("flags", 4); ("attr", 8); ("attr2", 12); ("descriptor", 16); ("limit", 24);
    ("descriptorType", 32); ("tag", 36)].

Definition measured_NV_PHYSICAL_MEMORY_ALLOCATION_PARAMS : measured :=
  Measured NV_PHYSICAL_MEMORY_ALLOCATION_PARAMS 24 8
  [("memSize", 0); ("format", 8); ("pageSize", 16)].

Definition measured_NV_SEMAPHORE_SURFACE_ALLOC_PARAMETERS : measured :=
  Measured NV_SEMAPHORE_SURFACE_ALLOC_PARAMETERS 16 8
  [("hSemaphoreMem", 0); ("hMaxSubmittedMem", 4); ("flags", 8)].

Definition measured_NV_SEMAPHORE_SURFACE_CTRL_REGISTER_WAITER_PARAMS : measured :=
  Measured NV_SEMAPHORE_SURFACE_CTRL_REGISTER_WAITER_PARAMS 32 8
  [("index", 0); ("waitValue", 8); ("newValue", 16); ("notificationHandle", 24)].

Definition measured_NV_SEMAPHORE_SURFACE_CTRL_UNREGISTER_WAITER_PARAMS : measured :=
  Measured NV_SEMAPHORE_SURFACE_CTRL_UNREGISTER_WAITER_PARAMS 24 8
  [("index", 0); ("waitValue", 8); ("notificationHandle", 16)].

Definition measured_NV_VASPACE_ALLOCATION_PARAMETERS : measured :=
  Measured NV_VASPACE_ALLOCATION_PARAMETERS 56 8
  [("index", 0); ("flags", 4); ("vaSize", 8); ("vaStartInternal", 16);
    ("vaLimitInternal", 24); ("bigPageSize", 32); ("vaBase", 40); ("pasid", 48)].

Definition measured_NV_VIDMEM_ACCESS_BIT_ALLOCATION_PARAMS : measured :=
  Measured NV_VIDMEM_ACCESS_BIT_ALLOCATION_PARAMS 528 8
  [("bDirtyTracking", 0); ("granularity", 4); ("accessBitMask", 8); ("noOfEntries", 520);
    ("addrSpace", 524)].

Definition measured_nv_uuid : measured :=
  Measured nv_uuid 16 1
  [("uuid", 0)].

Definition measured_NvUnixEvent : measured :=
  Measured NvUnixEvent 16 4
  [("hObject", 0); ("NotifyIndex", 4); ("info32", 8); ("info16", 12)].

Definition measured_UvmGpuMappingAttributes : measured :=
  Measured UvmGpuMappingAttributes 36 4
  [("gpuUuid", 0); ("gpuMappingType", 16); ("gpuCachingType", 20); ("gpuFormatType", 24);
    ("gpuElementBits", 28); ("gpuCompressionType", 32)].

Definition measured_UVM_ALLOC_SEMAPHORE_POOL_PARAMS : measured :=
  Measured UVM_ALLOC_SEMAPHORE_POOL_PARAMS 9248 8
  [("base", 0); ("length", 8); ("perGpuAttributes", 16); ("gpuAttributesCount", 9232);
    ("rmStatus", 9240)].

Definition measured_UVM_CREATE_EXTERNAL_RANGE_PARAMS : measured :=
  Measured UVM_CREATE_EXTERNAL_RANGE_PARAMS 24 8
  [("base", 0); ("length", 8); ("rmStatus", 16)].

Definition measured_UVM_DISABLE_READ_DUPLICATION_PARAMS : measured :=
  Measured UVM_DISABLE_READ_DUPLICATION_PARAMS 24 8
  [("requestedBase", 0); ("length", 8); ("rmStatus", 16)].

Definition measured_UVM_ENABLE_READ_DUPLICATION_PARAMS : measured :=
  Measured UVM_ENABLE_READ_DUPLICATION_PARAMS 24 8
  [("requestedBase", 0); ("length", 8); ("rmStatus", 16)].

Definition measured_UVM_INITIALIZE_PARAMS : measured :=
  Measured UVM_INITIALIZE_PARAMS 16 8
  [("flags", 0); ("rmStatus", 8)].

Definition measured_UVM_MAP_DYNAMIC_PARALLELISM_REGION_PARAMS : measured :=
  Measured UVM_MAP_DYNAMIC_PARALLELISM_REGION_PARAMS 40 8
  [("base", 0); ("length", 8); ("gpuUuid", 16); ("rmStatus", 32)].

Definition measured_UVM_MAP_EXTERNAL_ALLOCATION_PARAMS : measured :=
  Measured UVM_MAP_EXTERNAL_ALLOCATION_PARAMS 9264 8
  [("base", 0); ("length", 8); ("offset", 16); ("perGpuAttributes", 24);
    ("gpuAttributesCount", 9240); ("rmCtrlFd", 9248); ("hClient", 9252); ("hMemory", 9256);
    ("rmStatus", 9260)].

Definition measured_UVM_MIGRATE_PARAMS : measured :=
  Measured UVM_MIGRATE_PARAMS 80 8
  [("base", 0); ("length", 8); ("destinationUuid", 16); ("flags", 32);
    ("semaphoreAddress", 40); ("semaphorePayload", 48); ("cpuNumaNode", 52);
    ("userSpaceStart", 56); ("userSpaceLength", 64); ("rmStatus", 72)].

Definition measured_UVM_MM_INITIALIZE_PARAMS : measured :=
  Measured UVM_MM_INITIALIZE_PARAMS 8 4
  [("uvmFd", 0); ("rmStatus", 4)].

Definition measured_UVM_PAGEABLE_MEM_ACCESS_ON_GPU_PARAMS : measured :=
  Measured UVM_PAGEABLE_MEM_ACCESS_ON_GPU_PARAMS 24 4
  [("gpu_uuid", 0); ("pageableMemAccess", 16); ("rmStatus", 20)].

Definition measured_UVM_PAGEABLE_MEM_ACCESS_PARAMS : measured :=
  Measured UVM_PAGEABLE_MEM_ACCESS_PARAMS 8 4
  [("pageableMemAccess", 0); ("rmStatus", 4)].

Definition measured_UVM_REGISTER_CHANNEL_PARAMS : measured :=
  Measured UVM_REGISTER_CHANNEL_PARAMS 56 8
  [("gpuUuid", 0); ("rmCtrlFd", 16); ("hClient", 20); ("hChannel", 24); ("base", 32);
    ("length", 40); ("rmStatus", 48)].

Definition measured_UVM_REGISTER_GPU_PARAMS : measured :=
  Measured UVM_REGISTER_GPU_PARAMS 40 4
  [("gpu_uuid", 0); ("numaEnabled", 16); ("numaNodeId", 20); ("rmCtrlFd", 24);
    ("hClient", 28); ("hSmcPartRef", 32); ("rmStatus", 36)].

Definition measured_UVM_REGISTER_GPU_VASPACE_PARAMS : measured :=
  Measured UVM_REGISTER_GPU_VASPACE_PARAMS 32 4
  [("gpuUuid", 0); ("rmCtrlFd", 16); ("hClient", 20); ("hVaSpace", 24); ("rmStatus", 28)].

Definition measured_UVM_SET_ACCESSED_BY_PARAMS : measured :=
  Measured UVM_SET_ACCESSED_BY_PARAMS 40 8
  [("requestedBase", 0); ("length", 8); ("accessedByUuid", 16); ("rmStatus", 32)].

Definition measured_UVM_SET_PREFERRED_LOCATION_PARAMS : measured :=
  Measured UVM_SET_PREFERRED_LOCATION_PARAMS 40 8
  [("requestedBase", 0); ("length", 8); ("preferredLocation", 16);
    ("preferredCpuNumaNode", 32); ("rmStatus", 36)].

Definition measured_UVM_UNREGISTER_GPU_VASPACE_PARAMS : measured :=
  Measured UVM_UNREGISTER_GPU_VASPACE_PARAMS 20 4
  [("gpuUuid", 0); ("rmStatus", 16)].

Definition measured_UVM_UNSET_ACCESSED_BY_PARAMS : measured :=
  Measured UVM_UNSET_ACCESSED_BY_PARAMS 40 8
  [("requestedBase", 0); ("length", 8); ("accessedByUuid", 16); ("rmStatus", 32)].

Definition measured_UVM_UNSET_PREFERRED_LOCATION_PARAMS : measured :=
  Measured UVM_UNSET_PREFERRED_LOCATION_PARAMS 24 8
  [("requestedBase", 0); ("length", 8); ("rmStatus", 16)].

Definition measured_UVM_VALIDATE_VA_RANGE_PARAMS : measured :=
  Measured UVM_VALIDATE_VA_RANGE_PARAMS 24 8
  [("base", 0); ("length", 8); ("rmStatus", 16)].

Definition measured_nv_pci_info_t : measured :=
  Measured nv_pci_info_t 12 4
  [("domain", 0); ("bus", 4); ("slot", 5); ("function", 6); ("vendor_id", 8);
    ("device_id", 10)].

Definition measured_nv_ioctl_card_info : measured :=
  Measured nv_ioctl_card_info 72 8
  [("valid", 0); ("pci_info", 4); ("gpu_id", 16); ("interrupt_line", 20); ("reg_address", 24);
    ("reg_size", 32); ("fb_address", 40); ("fb_size", 48); ("minor_number", 56);
    ("dev_name", 60)].

Definition measured_nv_ioctl_query_device_intr : measured :=
  Measured nv_ioctl_query_device_intr 8 4
  [("intrStatus", 0); ("status", 4)].

Definition measured_nv_ioctl_rm_api_version : measured :=
  Measured nv_ioctl_rm_api_version 72 4
  [("cmd", 0); ("reply", 4); ("versionString", 8)].

Definition measured_nv_ioctl_status_code : measured :=
  Measured nv_ioctl_status_code 12 4
  [("domain", 0); ("bus", 4); ("slot", 5); ("status", 8)].

Definition measured_nv_ioctl_sys_params : measured :=
  Measured nv_ioctl_sys_params 8 8
  [("memblock_size", 0)].

Definition measured_nv_ioctl_wait_open_complete : measured :=
  Measured nv_ioctl_wait_open_complete 8 4
  [("rc", 0); ("adapterStatus", 4)].

Definition measured_nv_ioctl_xfer : measured :=
  Measured nv_ioctl_xfer 16 8
  [("cmd", 0); ("size", 4); ("ptr", 8)].

Definition measured_NV_CHANNEL_ALLOC_PARAMS_v580 : measured :=
  Measured NV_CHANNEL_ALLOC_PARAMS_v580 368 8
  [("hObjectError", 0); ("hObjectBuffer", 4); ("gpFifoOffset", 8); ("gpFifoEntries", 16);
    ("flags", 20); ("hContextShare", 24); ("hVASpace", 28); ("hUserdMemory", 32);
    ("userdOffset", 64); ("engineType", 128); ("cid", 132); ("subDeviceId", 136);
    ("hObjectEccError", 140); ("instanceMem", 144); ("userdMem", 168); ("ramfcMem", 192);
    ("mthdbufMem", 216); ("hPhysChannelGroup", 240); ("internalFlags", 244);
    ("errorNotifierMem", 248); ("eccErrorNotifierMem", 272); ("ProcessID", 296);
    ("SubProcessID", 300); ("encryptIv", 304); ("decryptIv", 316); ("hmacNonce", 328);
    ("tpcConfigID", 360)].

Definition measured_NV2080_CTRL_GPU_GET_NAME_STRING_PARAMS__bindgen_ty_1_v580 : measured :=
  Measured NV2080_CTRL_GPU_GET_NAME_STRING_PARAMS__bindgen_ty_1_v580 128 2
  [("ascii", 0); ("unicode", 0)].

Definition measured_NV2080_CTRL_GPU_GET_NAME_STRING_PARAMS_v580 : measured :=
  Measured NV2080_CTRL_GPU_GET_NAME_STRING_PARAMS_v580 132 4
  [("gpuNameStringFlags", 0); ("gpuNameString", 4)].

Definition measured_NV0000_CTRL_SYSTEM_GET_P2P_CAPS_MATRIX_PARAMS_v580 : measured :=
  Measured NV0000_CTRL_SYSTEM_GET_P2P_CAPS_MATRIX_PARAMS_v580 1352 4
  [("grpACount", 0); ("grpBCount", 4); ("gpuIdGrpA", 8); ("gpuIdGrpB", 40); ("p2pCaps", 72);
    ("a2bOptimalReadCes", 328); ("a2bOptimalWriteCes", 584); ("b2aOptimalReadCes", 840);
    ("b2aOptimalWriteCes", 1096)].

Definition measured_NV_CHANNEL_GROUP_ALLOCATION_PARAMETERS_v580 : measured :=
  Measured NV_CHANNEL_GROUP_ALLOCATION_PARAMETERS_v580 20 4
  [("hObjectError", 0); ("hObjectEccError", 4); ("hVASpace", 8); ("engineType", 12);
    ("bIsCallingContextVgpuPlugin", 16)].

Definition measured_UVM_FREE_PARAMS_v580 : measured :=
  Measured UVM_FREE_PARAMS_v580 24 8
  [("base", 0); ("length", 8); ("rmStatus", 16)].

Definition measured_UVM_UNREGISTER_CHANNEL_PARAMS_v580 : measured :=
  Measured UVM_UNREGISTER_CHANNEL_PARAMS_v580 28 4
  [("gpuUuid", 0); ("hClient", 16); ("hChannel", 20); ("rmStatus", 24)].

Definition measured_NV_CHANNEL_ALLOC_PARAMS_v595 : measured :=
  Measured NV_CHANNEL_ALLOC_PARAMS_v595 368 8
  [("hObjectError", 0); ("hObjectBuffer", 4); ("gpFifoOffset", 8); ("gpFifoEntries", 16);
    ("flags", 20); ("hContextShare", 24); ("hVASpace", 28); ("hUserdMemory", 32);
    ("userdOffset", 64); ("engineType", 128); ("cid", 132); ("subDeviceId", 136);
    ("hObjectEccError", 140); ("instanceMem", 144); ("userdMem", 168); ("ramfcMem", 192);
    ("mthdbufMem", 216); ("hPhysChannelGroup", 240); ("internalFlags", 244);
    ("errorNotifierMem", 248); ("eccErrorNotifierMem", 272); ("ProcessID", 296);
    ("SubProcessID", 300); ("encryptIv", 304); ("decryptIv", 316); ("hmacNonce", 328);
    ("tpcConfigID", 360)].

Definition measured_NV2080_CTRL_GPU_GET_NAME_STRING_PARAMS__bindgen_ty_1_v595 : measured :=
  Measured NV2080_CTRL_GPU_GET_NAME_STRING_PARAMS__bindgen_ty_1_v595 64 1
  [("ascii", 0)].

Definition measured_NV2080_CTRL_GPU_GET_NAME_STRING_PARAMS_v595 : measured :=
  Measured NV2080_CTRL_GPU_GET_NAME_STRING_PARAMS_v595 68 4
  [("gpuNameStringFlags", 0); ("gpuNameString", 4)].

Definition measured_NV0000_CTRL_SYSTEM_GET_P2P_CAPS_MATRIX_PARAMS_v595 : measured :=
  Measured NV0000_CTRL_SYSTEM_GET_P2P_CAPS_MATRIX_PARAMS_v595 1352 4
  [("grpACount", 0); ("grpBCount", 4); ("gpuIdGrpA", 8); ("gpuIdGrpB", 40); ("p2pCaps", 72);
    ("a2bOptimalReadCes", 328); ("a2bOptimalWriteCes", 584); ("b2aOptimalReadCes", 840);
    ("b2aOptimalWriteCes", 1096)].

Definition measured_NV_CHANNEL_GROUP_ALLOCATION_PARAMETERS_v595 : measured :=
  Measured NV_CHANNEL_GROUP_ALLOCATION_PARAMETERS_v595 20 4
  [("hObjectError", 0); ("hObjectEccError", 4); ("hVASpace", 8); ("engineType", 12);
    ("bIsCallingContextVgpuPlugin", 16)].

Definition measured_UVM_FREE_PARAMS_v595 : measured :=
  Measured UVM_FREE_PARAMS_v595 16 8
  [("base", 0); ("rmStatus", 8)].

Definition measured_UVM_UNREGISTER_CHANNEL_PARAMS_v595 : measured :=
  Measured UVM_UNREGISTER_CHANNEL_PARAMS_v595 12 4
  [("hClient", 0); ("hChannel", 4); ("rmStatus", 8)].

Definition measured_NV_CHANNEL_ALLOC_PARAMS_v610 : measured :=
  Measured NV_CHANNEL_ALLOC_PARAMS_v610 376 8
  [("hObjectError", 0); ("hObjectBuffer", 4); ("gpFifoOffset", 8); ("gpFifoEntries", 16);
    ("flags", 20); ("hContextShare", 24); ("hVASpace", 28); ("hHandleVASpace", 32);
    ("hUserdMemory", 36); ("userdOffset", 72); ("engineType", 136); ("cid", 140);
    ("subDeviceId", 144); ("hObjectEccError", 148); ("instanceMem", 152); ("userdMem", 176);
    ("ramfcMem", 200); ("mthdbufMem", 224); ("hPhysChannelGroup", 248);
    ("internalFlags", 252); ("errorNotifierMem", 256); ("eccErrorNotifierMem", 280);
    ("ProcessID", 304); ("SubProcessID", 308); ("encryptIv", 312); ("decryptIv", 324);
    ("hmacNonce", 336); ("tpcConfigID", 368)].

Definition measured_NV2080_CTRL_GPU_GET_NAME_STRING_PARAMS__bindgen_ty_1_v610 : measured :=
  Measured NV2080_CTRL_GPU_GET_NAME_STRING_PARAMS__bindgen_ty_1_v610 64 1
  [("ascii", 0)].

Definition measured_NV2080_CTRL_GPU_GET_NAME_STRING_PARAMS_v610 : measured :=
  Measured NV2080_CTRL_GPU_GET_NAME_STRING_PARAMS_v610 68 4
  [("gpuNameStringFlags", 0); ("gpuNameString", 4)].

Definition measured_NV0000_CTRL_SYSTEM_GET_P2P_CAPS_MATRIX_PARAMS_v610 : measured :=
  Measured NV0000_CTRL_SYSTEM_GET_P2P_CAPS_MATRIX_PARAMS_v610 1352 4
  [("grpACount", 0); ("grpBCount", 4); ("gpuIdGrpA", 8); ("gpuIdGrpB", 40); ("p2pCaps", 72);
    ("a2bOptimalReadCes", 328); ("a2bOptimalWriteCes", 584); ("b2aOptimalReadCes", 840);
    ("b2aOptimalWriteCes", 1096)].

Definition measured_NV_CHANNEL_GROUP_ALLOCATION_PARAMETERS_v610 : measured :=
  Measured NV_CHANNEL_GROUP_ALLOCATION_PARAMETERS_v610 20 4
  [("hObjectError", 0); ("hObjectEccError", 4); ("hVASpace", 8); ("engineType", 12);
    ("bIsCallingContextVgpuPlugin", 16)].

Definition measured_UVM_FREE_PARAMS_v610 : measured :=
  Measured UVM_FREE_PARAMS_v610 16 8
  [("base", 0); ("rmStatus", 8)].

Definition measured_UVM_UNREGISTER_CHANNEL_PARAMS_v610 : measured :=
  Measured UVM_UNREGISTER_CHANNEL_PARAMS_v610 12 4
  [("hClient", 0); ("hChannel", 4); ("rmStatus", 8)].

Definition measured_NV_CHANNEL_ALLOC_PARAMS_v615 : measured :=
  Measured NV_CHANNEL_ALLOC_PARAMS_v615 376 8
  [("hObjectError", 0); ("hObjectBuffer", 4); ("gpFifoOffset", 8); ("gpFifoEntries", 16);
    ("flags", 20); ("hContextShare", 24); ("hVASpace", 28); ("hHandleVASpace", 32);
    ("hUserdMemory", 36); ("userdOffset", 72); ("engineType", 136); ("cid", 140);
    ("subDeviceId", 144); ("hObjectEccError", 148); ("instanceMem", 152); ("userdMem", 176);
    ("ramfcMem", 200); ("mthdbufMem", 224); ("hPhysChannelGroup", 248);
    ("internalFlags", 252); ("errorNotifierMem", 256); ("eccErrorNotifierMem", 280);
    ("ProcessID", 304); ("SubProcessID", 308); ("encryptIv", 312); ("decryptIv", 324);
    ("hmacNonce", 336); ("tpcConfigID", 368)].

Definition measured_NV2080_CTRL_GPU_GET_NAME_STRING_PARAMS__bindgen_ty_1_v615 : measured :=
  Measured NV2080_CTRL_GPU_GET_NAME_STRING_PARAMS__bindgen_ty_1_v615 64 1
  [("ascii", 0)].

Definition measured_NV2080_CTRL_GPU_GET_NAME_STRING_PARAMS_v615 : measured :=
  Measured NV2080_CTRL_GPU_GET_NAME_STRING_PARAMS_v615 68 4
  [("gpuNameStringFlags", 0); ("gpuNameString", 4)].

Definition measured_NV0000_CTRL_SYSTEM_GET_P2P_CAPS_MATRIX_PARAMS_v615 : measured :=
  Measured NV0000_CTRL_SYSTEM_GET_P2P_CAPS_MATRIX_PARAMS_v615 1352 4
  [("grpACount", 0); ("grpBCount", 4); ("gpuIdGrpA", 8); ("gpuIdGrpB", 40); ("p2pCaps", 72);
    ("a2bOptimalReadCes", 328); ("a2bOptimalWriteCes", 584); ("b2aOptimalReadCes", 840);
    ("b2aOptimalWriteCes", 1096)].

Definition measured_NV_CHANNEL_GROUP_ALLOCATION_PARAMETERS_v615 : measured :=
  Measured NV_CHANNEL_GROUP_ALLOCATION_PARAMETERS_v615 28 4
  [("hObjectError", 0); ("hObjectEccError", 4); ("hVASpace", 8); ("engineType", 12);
    ("bIsCallingContextVgpuPlugin", 16); ("reserved", 20); ("internalFlags", 24)].

Definition measured_UVM_FREE_PARAMS_v615 : measured :=
  Measured UVM_FREE_PARAMS_v615 16 8
  [("base", 0); ("rmStatus", 8)].

Definition measured_UVM_UNREGISTER_CHANNEL_PARAMS_v615 : measured :=
  Measured UVM_UNREGISTER_CHANNEL_PARAMS_v615 12 4
  [("hClient", 0); ("hChannel", 4); ("rmStatus", 8)].

Definition measured_layouts : list measured :=
  [measured_NV0000_CTRL_GPUACCT_GET_ACCOUNTING_STATE_PARAMS;
   measured_NV0000_CTRL_GPU_ACTIVE_DEVICE;
   measured_NV0000_CTRL_GPU_ASYNC_ATTACH_ID_PARAMS;
   measured_NV0000_CTRL_GPU_ATTACH_IDS_PARAMS;
   measured_NV0000_CTRL_GPU_DETACH_IDS_PARAMS;
   measured_NV0000_CTRL_GPU_GET_ACTIVE_DEVICE_IDS_PARAMS;
   measured_NV0000_CTRL_GPU_GET_ATTACHED_IDS_PARAMS;
   measured_NV0000_CTRL_GPU_GET_ID_INFO_PARAMS;
   measured_NV0000_CTRL_GPU_GET_ID_INFO_V2_PARAMS;
   measured_NV0000_CTRL_GPU_GET_PCI_INFO_PARAMS;
   measured_NV0000_CTRL_GPU_GET_PROBED_IDS_PARAMS;
   measured_NV0000_CTRL_GPU_GET_UUID_FROM_GPU_ID_PARAMS;
   measured_NV0000_CTRL_GPU_GET_UUID_INFO_PARAMS;
   measured_NV0000_CTRL_GPU_MODIFY_DRAIN_STATE_PARAMS;
   measured_NV0000_CTRL_GPU_QUERY_DRAIN_STATE_PARAMS;
   measured_NV0000_CTRL_GPU_WAIT_ATTACH_ID_PARAMS;
   measured_NV0000_CTRL_SYSTEM_GET_BUILD_VERSION_PARAMS;
   measured_NV0005_ALLOC_PARAMETERS;
   measured_NV0080_ALLOC_PARAMETERS;
   measured_NV0080_CTRL_FB_GET_CAPS_PARAMS;
   measured_NV0080_CTRL_FIFO_GET_CAPS_PARAMS;
   measured_NV0080_CTRL_FIFO_GET_CHANNELLIST_PARAMS;
   measured_NV0080_CTRL_GPU_GET_CLASSLIST_PARAMS;
   measured_NV0080_CTRL_GPU_GET_VIRTUALIZATION_MODE_PARAMS;
   measured_NV0080_CTRL_GR_GET_CAPS_PARAMS;
   measured_NV0080_CTRL_GR_GET_INFO_PARAMS;
   measured_NV0080_CTRL_NVENC_GET_CAPS_PARAMS;
   measured_NV00DE_ALLOC_PARAMETERS;
   measured_NV2080_ALLOC_PARAMETERS;
   measured_NV2080_CTRL_BIOS_GET_INFO_PARAMS;
   measured_NV2080_CTRL_BUS_GET_INFO_PARAMS;
   measured_NV2080_CTRL_FB_GET_INFO_PARAMS;
   measured_NVXXXX_CTRL_XXX_INFO;
   measured_NV2080_CTRL_FB_GET_INFO_V2_PARAMS;
   measured_NV2080_CTRL_GPU_GET_ENCODER_CAPACITY_PARAMS;
   measured_NV2080_CTRL_GPU_GET_ENGINES_PARAMS;
   measured_NV2080_CTRL_GPU_GET_GID_INFO_PARAMS;
   measured_NV2080_CTRL_GPU_GET_PIDS_PARAMS;
   measured_NV2080_CTRL_GPU_PID_INFO_VIDEO_MEMORY_USAGE_DATA;
   measured_NV2080_CTRL_GPU_PID_INFO_DATA;
   measured_NV2080_CTRL_SMC_SUBSCRIPTION_INFO;
   measured_NV2080_CTRL_GPU_PID_INFO;
   measured_NV2080_CTRL_GPU_GET_PID_INFO_PARAMS;
   measured_NV0080_CTRL_GR_ROUTE_INFO;
   measured_NV2080_CTRL_GR_GET_INFO_PARAMS;
   measured_NV2081_ALLOC_PARAMETERS;
   measured_NV83DE_ALLOC_PARAMETERS;
   measured_NV9072_ALLOCATION_PARAMETERS;
   measured_NVA06F_CTRL_GPFIFO_SCHEDULE_PARAMS;
   measured_NVA0BC_ALLOC_PARAMETERS;
   measured_NVB0B5_ALLOCATION_PARAMETERS;
   measured_NVC36F_CTRL_CMD_GPFIFO_GET_WORK_SUBMIT_TOKEN_PARAMS;
   measured_NVC640_ALLOCATION_PARAMETERS;
   measured_NVOS00_PARAMETERS;
   measured_NVOS02_PARAMETERS;
   measured_NVOS05_PARAMETERS;
   measured_NVOS21_PARAMETERS;
   measured_NVOS32_PARAMETERS__bindgen_ty_1__bindgen_ty_1;
   measured_NVOS32_PARAMETERS__bindgen_ty_1__bindgen_ty_2;
   measured_NVOS32_PARAMETERS__bindgen_ty_1__bindgen_ty_3;
   measured_NVOS32_PARAMETERS__bindgen_ty_1__bindgen_ty_4;
   measured_NVOS32_PARAMETERS__bindgen_ty_1__bindgen_ty_5;
   measured_NVOS32_PARAMETERS__bindgen_ty_1__bindgen_ty_6;
   measured_NVOS32_PARAMETERS__bindgen_ty_1__bindgen_ty_7;
   measured_NVOS32_PARAMETERS__bindgen_ty_1__bindgen_ty_8;
   measured_NVOS32_PARAMETERS__bindgen_ty_1__bindgen_ty_9__bindgen_ty_1;
   measured_NVOS32_PARAMETERS__bindgen_ty_1__bindgen_ty_9;
   measured_NVOS32_PARAMETERS__bindgen_ty_1__bindgen_ty_10;
   measured_NVOS32_PARAMETERS__bindgen_ty_1__bindgen_ty_11;
   measured_NVOS32_PARAMETERS__bindgen_ty_1;
   measured_NVOS32_PARAMETERS;
   measured_NVOS33_PARAMETERS;
   measured_NVOS34_PARAMETERS;
   measured_NVOS39_PARAMETERS;
   measured_NVOS41_PARAMETERS;
   measured_NVOS46_PARAMETERS;
   measured_NVOS47_PARAMETERS;
   measured_NVOS49_PARAMETERS;
   measured_NVOS54_PARAMETERS;
   measured_NVOS55_PARAMETERS;
   measured_RS_ACCESS_MASK;
   measured_RS_SHARE_POLICY;
   measured_NVOS57_PARAMETERS;
   measured_NVOS64_PARAMETERS;
   measured_NV_CONFIDENTIAL_COMPUTE_ALLOC_PARAMS;
   measured_NV_CONTEXT_DMA_ALLOCATION_PARAMS;
   measured_NV_CTXSHARE_ALLOCATION_PARAMETERS;
   measured_NV_GR_ALLOCATION_PARAMETERS;
   measured_NV_HOPPER_USERMODE_A_PARAMS;
   measured_NV_MEMORY_ALLOCATION_PARAMS;
   measured_NV_MEMORY_DESC_PARAMS;
   measured_NV_MEMORY_MAPPER_ALLOCATION_PARAMS;
   measured_NV_MEMORY_SYNCPOINT_ALLOCATION_PARAMS;
   measured_NV_MEMORY_VIRTUAL_ALLOCATION_PARAMS;
   measured_NV_NVDEC_ALLOCATION_PARAMETERS;
   measured_NV_NVENC_ALLOCATION_PARAMETERS;
   measured_NV_NVJPG_ALLOCATION_PARAMETERS;
   measured_NV_OFA_ALLOCATION_PARAMETERS;
   measured_NV_OS_DESC_MEMORY_ALLOCATION_PARAMS;
   measured_NV_PHYSICAL_MEMORY_ALLOCATION_PARAMS;
   measured_NV_SEMAPHORE_SURFACE_ALLOC_PARAMETERS;
   measured_NV_SEMAPHORE_SURFACE_CTRL_REGISTER_WAITER_PARAMS;
   measured_NV_SEMAPHORE_SURFACE_CTRL_UNREGISTER_WAITER_PARAMS;
   measured_NV_VASPACE_ALLOCATION_PARAMETERS;
   measured_NV_VIDMEM_ACCESS_BIT_ALLOCATION_PARAMS;
   measured_nv_uuid;
   measured_NvUnixEvent;
   measured_UvmGpuMappingAttributes;
   measured_UVM_ALLOC_SEMAPHORE_POOL_PARAMS;
   measured_UVM_CREATE_EXTERNAL_RANGE_PARAMS;
   measured_UVM_DISABLE_READ_DUPLICATION_PARAMS;
   measured_UVM_ENABLE_READ_DUPLICATION_PARAMS;
   measured_UVM_INITIALIZE_PARAMS;
   measured_UVM_MAP_DYNAMIC_PARALLELISM_REGION_PARAMS;
   measured_UVM_MAP_EXTERNAL_ALLOCATION_PARAMS;
   measured_UVM_MIGRATE_PARAMS;
   measured_UVM_MM_INITIALIZE_PARAMS;
   measured_UVM_PAGEABLE_MEM_ACCESS_ON_GPU_PARAMS;
   measured_UVM_PAGEABLE_MEM_ACCESS_PARAMS;
   measured_UVM_REGISTER_CHANNEL_PARAMS;
   measured_UVM_REGISTER_GPU_PARAMS;
   measured_UVM_REGISTER_GPU_VASPACE_PARAMS;
   measured_UVM_SET_ACCESSED_BY_PARAMS;
   measured_UVM_SET_PREFERRED_LOCATION_PARAMS;
   measured_UVM_UNREGISTER_GPU_VASPACE_PARAMS;
   measured_UVM_UNSET_ACCESSED_BY_PARAMS;
   measured_UVM_UNSET_PREFERRED_LOCATION_PARAMS;
   measured_UVM_VALIDATE_VA_RANGE_PARAMS;
   measured_nv_pci_info_t;
   measured_nv_ioctl_card_info;
   measured_nv_ioctl_query_device_intr;
   measured_nv_ioctl_rm_api_version;
   measured_nv_ioctl_status_code;
   measured_nv_ioctl_sys_params;
   measured_nv_ioctl_wait_open_complete;
   measured_nv_ioctl_xfer;
   measured_NV_CHANNEL_ALLOC_PARAMS_v580;
   measured_NV2080_CTRL_GPU_GET_NAME_STRING_PARAMS__bindgen_ty_1_v580;
   measured_NV2080_CTRL_GPU_GET_NAME_STRING_PARAMS_v580;
   measured_NV0000_CTRL_SYSTEM_GET_P2P_CAPS_MATRIX_PARAMS_v580;
   measured_NV_CHANNEL_GROUP_ALLOCATION_PARAMETERS_v580;
   measured_UVM_FREE_PARAMS_v580;
   measured_UVM_UNREGISTER_CHANNEL_PARAMS_v580;
   measured_NV_CHANNEL_ALLOC_PARAMS_v595;
   measured_NV2080_CTRL_GPU_GET_NAME_STRING_PARAMS__bindgen_ty_1_v595;
   measured_NV2080_CTRL_GPU_GET_NAME_STRING_PARAMS_v595;
   measured_NV0000_CTRL_SYSTEM_GET_P2P_CAPS_MATRIX_PARAMS_v595;
   measured_NV_CHANNEL_GROUP_ALLOCATION_PARAMETERS_v595;
   measured_UVM_FREE_PARAMS_v595;
   measured_UVM_UNREGISTER_CHANNEL_PARAMS_v595;
   measured_NV_CHANNEL_ALLOC_PARAMS_v610;
   measured_NV2080_CTRL_GPU_GET_NAME_STRING_PARAMS__bindgen_ty_1_v610;
   measured_NV2080_CTRL_GPU_GET_NAME_STRING_PARAMS_v610;
   measured_NV0000_CTRL_SYSTEM_GET_P2P_CAPS_MATRIX_PARAMS_v610;
   measured_NV_CHANNEL_GROUP_ALLOCATION_PARAMETERS_v610;
   measured_UVM_FREE_PARAMS_v610;
   measured_UVM_UNREGISTER_CHANNEL_PARAMS_v610;
   measured_NV_CHANNEL_ALLOC_PARAMS_v615;
   measured_NV2080_CTRL_GPU_GET_NAME_STRING_PARAMS__bindgen_ty_1_v615;
   measured_NV2080_CTRL_GPU_GET_NAME_STRING_PARAMS_v615;
   measured_NV0000_CTRL_SYSTEM_GET_P2P_CAPS_MATRIX_PARAMS_v615;
   measured_NV_CHANNEL_GROUP_ALLOCATION_PARAMETERS_v615;
   measured_UVM_FREE_PARAMS_v615;
   measured_UVM_UNREGISTER_CHANNEL_PARAMS_v615].

(** ** Driver versions *)
Inductive DriverVersion := DV580 | DV595 | DV610 | DV615.

Global Instance DriverVersion_eq_dec : EqDecision DriverVersion.
Proof. solve_decision. Defined.

Definition DriverVersion_as_str (v : DriverVersion) : string :=
  match v with
  | DV580 => "580.178.04"
  | DV595 => "595.99.02"
  | DV610 => "610.57.04"
  | DV615 => "615.71.09"
  end.

Definition from_version_string (s : string) : option DriverVersion :=
  if String.eqb s "580.178.04" then Some DV580
  else if String.eqb s "595.99.02" then Some DV595
  else if String.eqb s "610.57.04" then Some DV610
  else if String.eqb s "615.71.09" then Some DV615
  else None.

(** ** The ABI interface

    One group of members per version-dependent type: the type, the size that
    goes on the wire and the offset constants [<TYPE>_OFF_<field>].  A field
    a version does not have has the type's size as its offset. *)
Class RmAbi := {
  VERSION : DriverVersion;
  AllocChannelParams : layout;
  ALLOC_CHANNEL_PARAMS_SIZE : Z;
  ALLOC_CHANNEL_PARAMS_OFFS : list (string * Z);
  GpuNameStringBuffer : layout;
  GPU_NAME_STRING_BUFFER_SIZE : Z;
  GPU_NAME_STRING_BUFFER_OFFS : list (string * Z);
  GpuNameStringParams : layout;
  GPU_NAME_STRING_PARAMS_SIZE : Z;
  GPU_NAME_STRING_PARAMS_OFFS : list (string * Z);
  P2pCapsMatrixParams : layout;
  P2P_CAPS_MATRIX_PARAMS_SIZE : Z;
  P2P_CAPS_MATRIX_PARAMS_OFFS : list (string * Z);
  TsgParams : layout;
  TSG_PARAMS_SIZE : Z;
  TSG_PARAMS_OFFS : list (string * Z);
  UvmFreeParams : layout;
  UVM_FREE_PARAMS_SIZE : Z;
  UVM_FREE_PARAMS_OFFS : list (string * Z);
  UvmUnregisterChannelParams : layout;
  UVM_UNREGISTER_CHANNEL_PARAMS_SIZE : Z;
  UVM_UNREGISTER_CHANNEL_PARAMS_OFFS : list (string * Z);
  CLASS_DISPLAYLESS : option Z;
  CTRL_VD_GET_DEFAULT_EDID : option Z;
  CTRL_VD_GET_MAX_PIXELS : option Z;
  CTRL_VD_GET_MAX_RESOLUTION : option Z;
  CTRL_VD_GET_NUM_HEADS : option Z;
  CTRL_VD_IS_ACTIVE : option Z;
  CTRL_VD_IS_CONNECTED : option Z;
}.

Definition off_const (l : list (string * Z)) (f : string) : Z :=
  match list_find (fun p => p.1 = f) l with Some (_, (_, o)) => o | None => -1 end.

Definition UVM_FREE_PARAMS_OFF_base `{RmAbi} : Z := off_const UVM_FREE_PARAMS_OFFS "base".
Definition UVM_FREE_PARAMS_OFF_length `{RmAbi} : Z := off_const UVM_FREE_PARAMS_OFFS "length".
Definition UVM_FREE_PARAMS_OFF_rmStatus `{RmAbi} : Z :=
  off_const UVM_FREE_PARAMS_OFFS "rmStatus".
Definition UVM_UNREGISTER_CHANNEL_PARAMS_OFF_hClient `{RmAbi} : Z :=
  off_const UVM_UNREGISTER_CHANNEL_PARAMS_OFFS "hClient".
Definition UVM_UNREGISTER_CHANNEL_PARAMS_OFF_rmStatus `{RmAbi} : Z :=
  off_const UVM_UNREGISTER_CHANNEL_PARAMS_OFFS "rmStatus".
Definition GPU_NAME_STRING_BUFFER_OFF_ascii `{RmAbi} : Z :=
  off_const GPU_NAME_STRING_BUFFER_OFFS "ascii".
Definition GPU_NAME_STRING_PARAMS_OFF_gpuNameString `{RmAbi} : Z :=
  off_const GPU_NAME_STRING_PARAMS_OFFS "gpuNameString".

Definition V580 : RmAbi := {|
  VERSION := DV580;
  AllocChannelParams := NV_CHANNEL_ALLOC_PARAMS_v580;
  ALLOC_CHANNEL_PARAMS_SIZE := 368;
  ALLOC_CHANNEL_PARAMS_OFFS :=
    [("hObjectError", 0); ("hObjectBuffer", 4); ("gpFifoOffset", 8);
     ("gpFifoEntries", 16); ("flags", 20); ("hContextShare", 24); ("hVASpace", 28);
     ("hUserdMemory", 32); ("userdOffset", 64); ("engineType", 128); ("cid", 132);
     ("subDeviceId", 136); ("hObjectEccError", 140); ("instanceMem", 144);
     ("userdMem", 168); ("ramfcMem", 192); ("mthdbufMem", 216);
     ("hPhysChannelGroup", 240); ("internalFlags", 244); ("errorNotifierMem", 248);
     ("eccErrorNotifierMem", 272); ("ProcessID", 296); ("SubProcessID", 300);
     ("encryptIv", 304); ("decryptIv", 316); ("hmacNonce", 328); ("tpcConfigID", 360);
     ("hHandleVASpace", 368)];
  GpuNameStringBuffer := NV2080_CTRL_GPU_GET_NAME_STRING_PARAMS__bindgen_ty_1_v580;
  GPU_NAME_STRING_BUFFER_SIZE := 128;
  GPU_NAME_STRING_BUFFER_OFFS :=
    [("ascii", 0); ("unicode", 0)];
  GpuNameStringParams := NV2080_CTRL_GPU_GET_NAME_STRING_PARAMS_v580;
  GPU_NAME_STRING_PARAMS_SIZE := 132;
  GPU_NAME_STRING_PARAMS_OFFS :=
    [("gpuNameStringFlags", 0); ("gpuNameString", 4)];
  P2pCapsMatrixParams := NV0000_CTRL_SYSTEM_GET_P2P_CAPS_MATRIX_PARAMS_v580;
  P2P_CAPS_MATRIX_PARAMS_SIZE := 1352;
  P2P_CAPS_MATRIX_PARAMS_OFFS :=
    [("grpACount", 0); ("grpBCount", 4); ("gpuIdGrpA", 8); ("gpuIdGrpB", 40);
     ("p2pCaps", 72); ("a2bOptimalReadCes", 328); ("a2bOptimalWriteCes", 584);
     ("b2aOptimalReadCes", 840); ("b2aOptimalWriteCes", 1096)];
  TsgParams := NV_CHANNEL_GROUP_ALLOCATION_PARAMETERS_v580;
  TSG_PARAMS_SIZE := 20;
  TSG_PARAMS_OFFS :=
    [("hObjectError", 0); ("hObjectEccError", 4); ("hVASpace", 8); ("engineType", 12);
     ("bIsCallingContextVgpuPlugin", 16); ("reserved", 20); ("internalFlags", 20)];
  UvmFreeParams := UVM_FREE_PARAMS_v580;
  UVM_FREE_PARAMS_SIZE := 24;
  UVM_FREE_PARAMS_OFFS :=
    [("base", 0); ("length", 8); ("rmStatus", 16)];
  UvmUnregisterChannelParams := UVM_UNREGISTER_CHANNEL_PARAMS_v580;
  UVM_UNREGISTER_CHANNEL_PARAMS_SIZE := 28;
  UVM_UNREGISTER_CHANNEL_PARAMS_OFFS :=
    [("gpuUuid", 0); ("hClient", 16); ("hChannel", 20); ("rmStatus", 24)];
  CLASS_DISPLAYLESS := None;
  CTRL_VD_GET_DEFAULT_EDID := None;
  CTRL_VD_GET_MAX_PIXELS := None;
  CTRL_VD_GET_MAX_RESOLUTION := None;
  CTRL_VD_GET_NUM_HEADS := None;
  CTRL_VD_IS_ACTIVE := None;
  CTRL_VD_IS_CONNECTED := None;
|}.

Definition V595 : RmAbi := {|
  VERSION := DV595;
  AllocChannelParams := NV_CHANNEL_ALLOC_PARAMS_v595;
  ALLOC_CHANNEL_PARAMS_SIZE := 368;
  ALLOC_CHANNEL_PARAMS_OFFS :=
    [("hObjectError", 0); ("hObjectBuffer", 4); ("gpFifoOffset", 8);
     ("gpFifoEntries", 16); ("flags", 20); ("hContextShare", 24); ("hVASpace", 28);
     ("hUserdMemory", 32); ("userdOffset", 64); ("engineType", 128); ("cid", 132);
     ("subDeviceId", 136); ("hObjectEccError", 140); ("instanceMem", 144);
     ("userdMem", 168); ("ramfcMem", 192); ("mthdbufMem", 216);
     ("hPhysChannelGroup", 240); ("internalFlags", 244); ("errorNotifierMem", 248);
     ("eccErrorNotifierMem", 272); ("ProcessID", 296); ("SubProcessID", 300);
     ("encryptIv", 304); ("decryptIv", 316); ("hmacNonce", 328); ("tpcConfigID", 360);
     ("hHandleVASpace", 368)];
  GpuNameStringBuffer := NV2080_CTRL_GPU_GET_NAME_STRING_PARAMS__bindgen_ty_1_v595;
  GPU_NAME_STRING_BUFFER_SIZE := 64;
  GPU_NAME_STRING_BUFFER_OFFS :=
    [("ascii", 0); ("unicode", 64)];
  GpuNameStringParams := NV2080_CTRL_GPU_GET_NAME_STRING_PARAMS_v595;
  GPU_NAME_STRING_PARAMS_SIZE := 68;
  GPU_NAME_STRING_PARAMS_OFFS :=
    [("gpuNameStringFlags", 0); ("gpuNameString", 4)];
  P2pCapsMatrixParams := NV0000_CTRL_SYSTEM_GET_P2P_CAPS_MATRIX_PARAMS_v595;
  P2P_CAPS_MATRIX_PARAMS_SIZE := 1352;
  P2P_CAPS_MATRIX_PARAMS_OFFS :=
    [("grpACount", 0); ("grpBCount", 4); ("gpuIdGrpA", 8); ("gpuIdGrpB", 40);
     ("p2pCaps", 72); ("a2bOptimalReadCes", 328); ("a2bOptimalWriteCes", 584);
     ("b2aOptimalReadCes", 840); ("b2aOptimalWriteCes", 1096)];
  TsgParams := NV_CHANNEL_GROUP_ALLOCATION_PARAMETERS_v595;
  TSG_PARAMS_SIZE := 20;
  TSG_PARAMS_OFFS :=
    [("hObjectError", 0); ("hObjectEccError", 4); ("hVASpace", 8); ("engineType", 12);
     ("bIsCallingContextVgpuPlugin", 16); ("reserved", 20); ("internalFlags", 20)];
  UvmFreeParams := UVM_FREE_PARAMS_v595;
  UVM_FREE_PARAMS_SIZE := 16;
  UVM_FREE_PARAMS_OFFS :=
    [("base", 0); ("length", 16); ("rmStatus", 8)];
  UvmUnregisterChannelParams := UVM_UNREGISTER_CHANNEL_PARAMS_v595;
  UVM_UNREGISTER_CHANNEL_PARAMS_SIZE := 12;
  UVM_UNREGISTER_CHANNEL_PARAMS_OFFS :=
    [("gpuUuid", 12); ("hClient", 0); ("hChannel", 4); ("rmStatus", 8)];
  CLASS_DISPLAYLESS := Some 41091;
  CTRL_VD_GET_DEFAULT_EDID := Some 2692940035;
  CTRL_VD_GET_MAX_PIXELS := Some 2692940038;
  CTRL_VD_GET_MAX_RESOLUTION := Some 2692940034;
  CTRL_VD_GET_NUM_HEADS := Some 2692940033;
  CTRL_VD_IS_ACTIVE := Some 2692940036;
  CTRL_VD_IS_CONNECTED := Some 2692940037;
|}.

Definition V610 : RmAbi := {|
  VERSION := DV610;
  AllocChannelParams := NV_CHANNEL_ALLOC_PARAMS_v610;
  ALLOC_CHANNEL_PARAMS_SIZE := 376;
  ALLOC_CHANNEL_PARAMS_OFFS :=
    [("hObjectError", 0); ("hObjectBuffer", 4); ("gpFifoOffset", 8);
     ("gpFifoEntries", 16); ("flags", 20); ("hContextShare", 24); ("hVASpace", 28);
     ("hUserdMemory", 36); ("userdOffset", 72); ("engineType", 136); ("cid", 140);
     ("subDeviceId", 144); ("hObjectEccError", 148); ("instanceMem", 152);
     ("userdMem", 176); ("ramfcMem", 200); ("mthdbufMem", 224);
     ("hPhysChannelGroup", 248); ("internalFlags", 252); ("errorNotifierMem", 256);
     ("eccErrorNotifierMem", 280); ("ProcessID", 304); ("SubProcessID", 308);
     ("encryptIv", 312); ("decryptIv", 324); ("hmacNonce", 336); ("tpcConfigID", 368);
     ("hHandleVASpace", 32)];
  GpuNameStringBuffer := NV2080_CTRL_GPU_GET_NAME_STRING_PARAMS__bindgen_ty_1_v610;
  GPU_NAME_STRING_BUFFER_SIZE := 64;
  GPU_NAME_STRING_BUFFER_OFFS :=
    [("ascii", 0); ("unicode", 64)];
  GpuNameStringParams := NV2080_CTRL_GPU_GET_NAME_STRING_PARAMS_v610;
  GPU_NAME_STRING_PARAMS_SIZE := 68;
  GPU_NAME_STRING_PARAMS_OFFS :=
    [("gpuNameStringFlags", 0); ("gpuNameString", 4)];
  P2pCapsMatrixParams := NV0000_CTRL_SYSTEM_GET_P2P_CAPS_MATRIX_PARAMS_v610;
  P2P_CAPS_MATRIX_PARAMS_SIZE := 1352;
  P2P_CAPS_MATRIX_PARAMS_OFFS :=
    [("grpACount", 0); ("grpBCount", 4); ("gpuIdGrpA", 8); ("gpuIdGrpB", 40);
     ("p2pCaps", 72); ("a2bOptimalReadCes", 328); ("a2bOptimalWriteCes", 584);
     ("b2aOptimalReadCes", 840); ("b2aOptimalWriteCes", 1096)];
  TsgParams := NV_CHANNEL_GROUP_ALLOCATION_PARAMETERS_v610;
  TSG_PARAMS_SIZE := 20;
  TSG_PARAMS_OFFS :=
    [("hObjectError", 0); ("hObjectEccError", 4); ("hVASpace", 8); ("engineType", 12);
     ("bIsCallingContextVgpuPlugin", 16); ("reserved", 20); ("internalFlags", 20)];
  UvmFreeParams := UVM_FREE_PARAMS_v610;
  UVM_FREE_PARAMS_SIZE := 16;
  UVM_FREE_PARAMS_OFFS :=
    [("base", 0); ("length", 16); ("rmStatus", 8)];
  UvmUnregisterChannelParams := UVM_UNREGISTER_CHANNEL_PARAMS_v610;
  UVM_UNREGISTER_CHANNEL_PARAMS_SIZE := 12;
  UVM_UNREGISTER_CHANNEL_PARAMS_OFFS :=
    [("gpuUuid", 12); ("hClient", 0); ("hChannel", 4); ("rmStatus", 8)];
  CLASS_DISPLAYLESS := Some 41091;
  CTRL_VD_GET_DEFAULT_EDID := Some 2692940035;
  CTRL_VD_GET_MAX_PIXELS := Some 2692940038;
  CTRL_VD_GET_MAX_RESOLUTION := Some 2692940034;
  CTRL_VD_GET_NUM_HEADS := Some 2692940033;
  CTRL_VD_IS_ACTIVE := Some 2692940036;
  CTRL_VD_IS_CONNECTED := Some 2692940037;
|}.

Definition V615 : RmAbi := {|
  VERSION := DV615;
  AllocChannelParams := NV_CHANNEL_ALLOC_PARAMS_v615;
  ALLOC_CHANNEL_PARAMS_SIZE := 376;
  ALLOC_CHANNEL_PARAMS_OFFS :=
    [("hObjectError", 0); ("hObjectBuffer", 4); ("gpFifoOffset", 8);
     ("gpFifoEntries", 16); ("flags", 20); ("hContextShare", 24); ("hVASpace", 28);
     ("hUserdMemory", 36); ("userdOffset", 72); ("engineType", 136); ("cid", 140);
     ("subDeviceId", 144); ("hObjectEccError", 148); ("instanceMem", 152);
     ("userdMem", 176); ("ramfcMem", 200); ("mthdbufMem", 224);
     ("hPhysChannelGroup", 248); ("internalFlags", 252); ("errorNotifierMem", 256);
     ("eccErrorNotifierMem", 280); ("ProcessID", 304); ("SubProcessID", 308);
     ("encryptIv", 312); ("decryptIv", 324); ("hmacNonce", 336); ("tpcConfigID", 368);
     ("hHandleVASpace", 32)];
  GpuNameStringBuffer := NV2080_CTRL_GPU_GET_NAME_STRING_PARAMS__bindgen_ty_1_v615;
  GPU_NAME_STRING_BUFFER_SIZE := 64;
  GPU_NAME_STRING_BUFFER_OFFS :=
    [("ascii", 0); ("unicode", 64)];
  GpuNameStringParams := NV2080_CTRL_GPU_GET_NAME_STRING_PARAMS_v615;
  GPU_NAME_STRING_PARAMS_SIZE := 68;
  GPU_NAME_STRING_PARAMS_OFFS :=
    [("gpuNameStringFlags", 0); ("gpuNameString", 4)];
  P2pCapsMatrixParams := NV0000_CTRL_SYSTEM_GET_P2P_CAPS_MATRIX_PARAMS_v615;
  P2P_CAPS_MATRIX_PARAMS_SIZE := 1352;
  P2P_CAPS_MATRIX_PARAMS_OFFS :=
    [("grpACount", 0); ("grpBCount", 4); ("gpuIdGrpA", 8); ("gpuIdGrpB", 40);
     ("p2pCaps", 72); ("a2bOptimalReadCes", 328); ("a2bOptimalWriteCes", 584);
     ("b2aOptimalReadCes", 840); ("b2aOptimalWriteCes", 1096)];
  TsgParams := NV_CHANNEL_GROUP_ALLOCATION_PARAMETERS_v615;
  TSG_PARAMS_SIZE := 28;
  TSG_PARAMS_OFFS :=
    [("hObjectError", 0); ("hObjectEccError", 4); ("hVASpace", 8); ("engineType", 12);
     ("bIsCallingContextVgpuPlugin", 16); ("reserved", 20); ("internalFlags", 24)];
  UvmFreeParams := UVM_FREE_PARAMS_v615;
  UVM_FREE_PARAMS_SIZE := 16;
  UVM_FREE_PARAMS_OFFS :=
    [("base", 0); ("length", 16); ("rmStatus", 8)];
  UvmUnregisterChannelParams := UVM_UNREGISTER_CHANNEL_PARAMS_v615;
  UVM_UNREGISTER_CHANNEL_PARAMS_SIZE := 12;
  UVM_UNREGISTER_CHANNEL_PARAMS_OFFS :=
    [("gpuUuid", 12); ("hClient", 0); ("hChannel", 4); ("rmStatus", 8)];
  CLASS_DISPLAYLESS := Some 41091;
  CTRL_VD_GET_DEFAULT_EDID := Some 2692940035;
  CTRL_VD_GET_MAX_PIXELS := Some 2692940038;
  CTRL_VD_GET_MAX_RESOLUTION := Some 2692940034;
  CTRL_VD_GET_NUM_HEADS := Some 2692940033;
  CTRL_VD_IS_ACTIVE := Some 2692940036;
  CTRL_VD_IS_CONNECTED := Some 2692940037;
|}.

Definition dispatch {Out} (version : DriverVersion) (visit : RmAbi -> Out) : Out :=
  match version with
  | DV580 => visit V580
  | DV595 => visit V595
  | DV610 => visit V610
  | DV615 => visit V615
  end.

(** What every implementation of the interface promises: the wire sizes are
    the sizes of the types, and each offset constant is the field's offset,
    or the type's size when this version lacks the field. *)
Definition group_ok (t : layout) (size : Z) (offs : list (string * Z)) : bool :=
  (size_of t =? size) &&
  forallb (fun fo => match find_field fo.1 (fields_of t) with
                     | Some (o, _) => o =? fo.2
                     | None => fo.2 =? size
                     end) offs.

Class RmAbiOk (A : RmAbi) : Prop := {
  abi_alloc_channel :
    group_ok AllocChannelParams ALLOC_CHANNEL_PARAMS_SIZE ALLOC_CHANNEL_PARAMS_OFFS = true;
  abi_name_buffer :
    group_ok GpuNameStringBuffer GPU_NAME_STRING_BUFFER_SIZE GPU_NAME_STRING_BUFFER_OFFS = true;
  abi_name_params :
    group_ok GpuNameStringParams GPU_NAME_STRING_PARAMS_SIZE GPU_NAME_STRING_PARAMS_OFFS = true;
  abi_p2p :
    group_ok P2pCapsMatrixParams P2P_CAPS_MATRIX_PARAMS_SIZE P2P_CAPS_MATRIX_PARAMS_OFFS = true;
  abi_tsg : group_ok TsgParams TSG_PARAMS_SIZE TSG_PARAMS_OFFS = true;
  abi_uvm_free : group_ok UvmFreeParams UVM_FREE_PARAMS_SIZE UVM_FREE_PARAMS_OFFS = true;
  abi_uvm_unregister :
    group_ok UvmUnregisterChannelParams UVM_UNREGISTER_CHANNEL_PARAMS_SIZE
      UVM_UNREGISTER_CHANNEL_PARAMS_OFFS = true;
  abi_sizes_u32 :
    forallb (fun t => (0 <? size_of t) && (size_of t <? 16384))
      [AllocChannelParams; GpuNameStringParams; TsgParams; UvmFreeParams;
       UvmUnregisterChannelParams] = true;
  abi_unregister_hClient :
    (0 <=? UVM_UNREGISTER_CHANNEL_PARAMS_OFF_hClient)
    && (UVM_UNREGISTER_CHANNEL_PARAMS_OFF_hClient + 4 <=? size_of UvmUnregisterChannelParams)
    = true;
  abi_status_inside :
    (0 <=? UVM_FREE_PARAMS_OFF_rmStatus)
    && (UVM_FREE_PARAMS_OFF_rmStatus + 4 <=? size_of UvmFreeParams)
    && (0 <=? UVM_UNREGISTER_CHANNEL_PARAMS_OFF_rmStatus)
    && (UVM_UNREGISTER_CHANNEL_PARAMS_OFF_rmStatus + 4 <=? size_of UvmUnregisterChannelParams)
    = true;
  abi_free_base :
    (0 <=? UVM_FREE_PARAMS_OFF_base) && (UVM_FREE_PARAMS_OFF_base + 8 <=? size_of UvmFreeParams)
    = true;
}.

#[export] Instance V580_ok : RmAbiOk V580.
Proof. by split. Qed.
#[export] Instance V595_ok : RmAbiOk V595.
Proof. by split. Qed.
#[export] Instance V610_ok : RmAbiOk V610.
Proof. by split. Qed.
#[export] Instance V615_ok : RmAbiOk V615.
Proof. by split. Qed.

(** The measured size, alignment and field offsets of the structures modelled
    here (a selection of the [assert_layout!] lines, of structures common to all
    drivers and of each of the four versions) are those of their
    declarations under the C layout rules. *)
Lemma measured_layouts_hold :
  Forall (fun m => assert_layout m = true) measured_layouts.
Proof. repeat constructor. Qed.

(** Whatever version string selects a driver, the ABI that dispatch hands
    out is that version's and its size and offset constants agree with the
    version's structures; a string that names no supported version selects
    nothing, and the accepted strings are exactly the four advertised ones. *)
Theorem dispatched_abi_consistent (s : string) :
  (forall v, from_version_string s = Some v ->
     DriverVersion_as_str v = s /\
     @VERSION (dispatch v id) = v /\ RmAbiOk (dispatch v id)) /\
  (from_version_string s = None <->
     s ∉ ["580.178.04"; "595.99.02"; "610.57.04"; "615.71.09"]).
Proof.
  unfold from_version_string. split.
  - intros v Hv. repeat case_match; simplify_eq;
      match goal with H : String.eqb s _ = true |- _ => apply String.eqb_eq in H as -> end;
      split_and!; try done; apply _.
  - repeat match goal with |- context [String.eqb s ?x] => destruct (String.eqb_spec s x) as [->|] end;
      split; try done; try set_solver.
Qed.

Lemma dispatched_abi_consistent_witness : RmAbiOk (dispatch DV580 id).
Proof. apply (proj1 (dispatched_abi_consistent "580.178.04") DV580 eq_refl). Defined.
