(* ===== verification/NvAbi.v ===== *)
(** * ioctl encoding, bit fields and parameter builders (crates/nvrm-abi)

    [_IOC] encoding and decoding (lib.rs), the [Drf] bit fields and the
    structures outside the SDK headers (nvgpu.rs), the unwrapping of
    [NV_ESC_IOCTL_XFER_CMD] (xfer.rs) and the sharing parameter builders
    (share.rs). *)
From stdpp Require Import strings.
From S2P Require Import Prelude.
From S2P Require Import Bytes.
From S2P Require Import CLayout.
From S2P Require Import SysConsts.
From S2P Require Import Sys.

(** ** _IOC encoding (lib.rs) *)
Module Ioc.

Definition IOC_NRBITS : Z := 8.
Definition IOC_TYPEBITS : Z := 8.
Definition IOC_SIZEBITS : Z := 14.
Definition IOC_NRSHIFT : Z := 0.
Definition IOC_TYPESHIFT : Z := IOC_NRSHIFT + IOC_NRBITS.
Definition IOC_SIZESHIFT : Z := IOC_TYPESHIFT + IOC_TYPEBITS.
Definition IOC_DIRSHIFT : Z := IOC_SIZESHIFT + IOC_SIZEBITS.
Definition IOC_NONE : Z := 0.
Definition IOC_WRITE : Z := 1.
Definition IOC_READ : Z := 2.

(** [u32 << n]: the bits past the word are lost. *)
Definition shl32 (x n : Z) : Z := wrap32 (Z.shiftl x n).

Definition ioc (dir ty nr size : Z) : Z :=
  Z.lor (Z.lor (Z.lor (shl32 dir IOC_DIRSHIFT) (shl32 ty IOC_TYPESHIFT))
    (shl32 nr IOC_NRSHIFT)) (shl32 size IOC_SIZESHIFT).

Definition iowr_raw (nr size : Z) : Z := ioc (Z.lor IOC_READ IOC_WRITE) NV_IOCTL_MAGIC nr size.

Definition iowr (t : layout) (nr : Z) : Z := iowr_raw nr (wrap32 (size_of t)).

Definition ioc_nr (cmd : Z) : Z := Z.land (Z.shiftr cmd IOC_NRSHIFT) (Z.shiftl 1 IOC_NRBITS - 1).
Definition ioc_size (cmd : Z) : Z :=
  Z.land (Z.shiftr cmd IOC_SIZESHIFT) (Z.shiftl 1 IOC_SIZEBITS - 1).
Definition ioc_type (cmd : Z) : Z :=
  Z.land (Z.shiftr cmd IOC_TYPESHIFT) (Z.shiftl 1 IOC_TYPEBITS - 1).

Definition is_nv_cmd (cmd : Z) : bool := ioc_type cmd =? NV_IOCTL_MAGIC.

(** *** Bits of the encoding *)
Lemma wrap32_testbit x i : 0 <= i -> Z.testbit (wrap32 x) i = (i <? 32) && Z.testbit x i.
Proof.
  intros. unfold wrap32. change 4294967296 with (2 ^ 32).
  destruct (i <? 32) eqn:?; bools.
  - by rewrite Z.mod_pow2_bits_low by lia.
  - by rewrite Z.mod_pow2_bits_high by lia.
Qed.

Lemma shl32_testbit x n i :
  0 <= n -> 0 <= i -> Z.testbit (shl32 x n) i = (i <? 32) && (n <=? i) && Z.testbit x (i - n).
Proof.
  intros. unfold shl32. rewrite wrap32_testbit, Z.shiftl_spec by lia.
  destruct (n <=? i) eqn:?; bools; [by rewrite andb_true_r|].
  rewrite Z.testbit_neg_r by lia. by rewrite !andb_false_r.
Qed.

Lemma small_testbit x n i : 0 <= x < 2 ^ n -> n <= i -> Z.testbit x i = false.
Proof.
  intros Hx Hi. destruct (decide (0 <= n)).
  - rewrite <- (Z.mod_small x (2 ^ n)) by done. by rewrite Z.mod_pow2_bits_high by lia.
  - rewrite Z.pow_neg_r in Hx by lia. lia.
Qed.

(** Reading [w] bits at [s] of a word. *)
Lemma field_testbit cmd s w i :
  0 <= s -> 0 <= w -> 0 <= i ->
  Z.testbit (Z.land (Z.shiftr cmd s) (Z.shiftl 1 w - 1)) i = (i <? w) && Z.testbit cmd (i + s).
Proof.
  intros. rewrite Z.shiftl_1_l.
  replace (2 ^ w - 1) with (Z.ones w) by (rewrite Z.ones_equiv; lia).
  rewrite Z.land_spec, Z.shiftr_spec by lia. destruct (i <? w) eqn:?; bools.
  - by rewrite Z.ones_spec_low, andb_true_r by lia.
  - by rewrite Z.ones_spec_high, andb_false_r by lia.
Qed.

Ltac ioc_bits :=
  apply Z.bits_inj'; intros i Hi;
  unfold ioc_nr, ioc_size, ioc_type, ioc, IOC_DIRSHIFT, IOC_SIZESHIFT, IOC_TYPESHIFT,
    IOC_NRSHIFT, IOC_NRBITS, IOC_TYPEBITS, IOC_SIZEBITS;
  rewrite field_testbit by lia; rewrite !Z.lor_spec, !shl32_testbit by lia.

Lemma ioc_nr_ioc dir ty nr size : 0 <= nr < 2 ^ 8 -> ioc_nr (ioc dir ty nr size) = nr.
Proof.
  intros Hn. ioc_bits. destruct (i <? 8) eqn:?; bools.
  - rewrite (proj2 (Z.leb_gt _ (i + 0))), (proj2 (Z.leb_gt (0 + 8) _)) by lia.
    rewrite (proj2 (Z.leb_gt (0 + 8 + 8) _)), (proj2 (Z.leb_le 0 _)), (proj2 (Z.ltb_lt _ 32)) by lia.
    simpl. rewrite orb_false_r. f_equal. lia.
  - symmetry. by apply (small_testbit nr 8).
Qed.

Lemma ioc_type_ioc dir ty nr size :
  0 <= nr < 2 ^ 8 -> 0 <= ty < 2 ^ 8 -> ioc_type (ioc dir ty nr size) = ty.
Proof.
  intros Hn Ht. ioc_bits. destruct (i <? 8) eqn:?; bools.
  - rewrite (proj2 (Z.leb_gt (0 + 8 + 8 + 14) _)), (proj2 (Z.leb_gt (0 + 8 + 8) _)) by lia.
    rewrite (proj2 (Z.leb_le (0 + 8) _)), (proj2 (Z.ltb_lt _ 32)), (small_testbit nr 8) by lia.
    rewrite !andb_false_r, !orb_false_r. simpl. f_equal. lia.
  - symmetry. by apply (small_testbit ty 8).
Qed.

Lemma ioc_size_ioc dir ty nr size :
  0 <= nr < 2 ^ 8 -> 0 <= ty < 2 ^ 8 -> ioc_size (ioc dir ty nr size) = size mod 2 ^ 14.
Proof.
  intros Hn Ht. ioc_bits. destruct (i <? 14) eqn:?; bools.
  - rewrite (proj2 (Z.leb_gt (0 + 8 + 8 + 14) _)) by lia.
    rewrite (proj2 (Z.leb_le (0 + 8 + 8) _)), (proj2 (Z.ltb_lt _ 32)) by lia.
    rewrite (small_testbit nr 8), (small_testbit ty 8) by lia.
    rewrite !andb_false_r, Z.mod_pow2_bits_low by lia. simpl. f_equal. lia.
  - by rewrite Z.mod_pow2_bits_high by lia.
Qed.

Lemma ioc_is_u32 dir ty nr size : is_u32 (ioc dir ty nr size).
Proof.
  assert (ioc dir ty nr size = wrap32 (ioc dir ty nr size)) as ->.
  { apply Z.bits_inj'. intros i Hi. rewrite wrap32_testbit by done.
    destruct (i <? 32) eqn:Hb; [done|]. unfold ioc, IOC_DIRSHIFT, IOC_SIZESHIFT,
      IOC_TYPESHIFT, IOC_NRSHIFT, IOC_NRBITS, IOC_TYPEBITS, IOC_SIZEBITS.
    rewrite !Z.lor_spec, !shl32_testbit by lia. by rewrite Hb. }
  unfold is_u32, u32_max, wrap32.
  pose proof (Z.mod_pos_bound (ioc dir ty nr size) 4294967296). lia.
Qed.

End Ioc.

(** ** Bit fields (nvgpu.rs) *)
Module Drf.

Record t := Mk { shift : Z; mask : Z }.

(** [hi_lo] asserts its arguments at compile time: an ill-formed pair does
    not compile, here it has no value. *)
Definition hi_lo (hi lo : Z) : option t :=
  if (lo <=? hi) && (hi <? 32)
  then let width := hi - lo + 1 in
       Some (Mk lo (if 32 <=? width then u32_max else Z.shiftl 1 width - 1))
  else None.

Definition shift_mask (s m : Z) : t := Mk s m.

Definition set (f : t) (v : Z) : Z := Ioc.shl32 (Z.land v (mask f)) (shift f).

Definition get (f : t) (word : Z) : Z := Z.land (Z.shiftr word (shift f)) (mask f).

Definition put (f : t) (word v : Z) : Z :=
  Z.lor (Z.land word (Z.lxor (Ioc.shl32 (mask f) (shift f)) u32_max)) (set f v).

(** Bits [lo..hi] of a word. *)
Definition covers (hi lo : Z) (f : t) : Prop :=
  0 <= lo <= hi /\ hi < 32 /\ shift f = lo /\ mask f = Z.ones (hi - lo + 1).

Lemma hi_lo_covers hi lo f : 0 <= lo -> hi_lo hi lo = Some f -> covers hi lo f.
Proof.
  unfold hi_lo, covers. intros Hlo H. destruct (_ && _) eqn:Hc; [|done]. bools.
  simplify_eq/=. split_and!; try lia. rewrite Z.ones_equiv, Z.shiftl_1_l.
  destruct (32 <=? hi - lo + 1) eqn:?; bools; [|lia].
  replace (hi - lo + 1) with 32 by lia. done.
Qed.

Lemma u32_max_testbit i : 0 <= i -> Z.testbit u32_max i = (i <? 32).
Proof.
  intros. change u32_max with (Z.ones 32). destruct (i <? 32) eqn:?; bools.
  - by apply Z.ones_spec_low.
  - apply Z.ones_spec_high. lia.
Qed.

Lemma ones_testbit w i : 0 <= w -> 0 <= i -> Z.testbit (Z.ones w) i = (i <? w).
Proof.
  intros. destruct (i <? w) eqn:?; bools.
  - by apply Z.ones_spec_low.
  - apply Z.ones_spec_high. lia.
Qed.

Lemma get_testbit hi lo f word i :
  covers hi lo f -> 0 <= i ->
  Z.testbit (get f word) i = (i <? hi - lo + 1) && Z.testbit word (i + lo).
Proof.
  intros (? & ? & Hs & Hm) ?. unfold get. rewrite Hs, Hm.
  rewrite Z.land_spec, Z.shiftr_spec, ones_testbit by lia. apply andb_comm.
Qed.

Lemma put_testbit hi lo f word v i :
  covers hi lo f -> is_u32 word -> 0 <= i ->
  Z.testbit (put f word v) i =
    if (lo <=? i) && (i <=? hi) then Z.testbit v (i - lo) else Z.testbit word i.
Proof.
  intros (? & ? & Hs & Hm) Hw ?. unfold put, set. rewrite Hs, Hm.
  rewrite Z.lor_spec, Z.land_spec, Z.lxor_spec, !Ioc.shl32_testbit, u32_max_testbit by lia.
  destruct (i <? 32) eqn:?; bools.
  - destruct (lo <=? i) eqn:?; bools; simpl; [|by rewrite andb_true_r, orb_false_r].
    rewrite Z.land_spec, ones_testbit by lia. destruct (i <=? hi) eqn:?; bools.
    + rewrite (proj2 (Z.ltb_lt _ _)) by lia. simpl. by rewrite andb_false_r, andb_true_r.
    + rewrite (proj2 (Z.ltb_ge _ _)) by lia. simpl. by rewrite !andb_true_r, andb_false_r, orb_false_r.
  - rewrite (proj2 (Z.leb_gt i hi)), andb_false_r by lia. simpl.
    rewrite andb_false_r. symmetry. apply (Ioc.small_testbit word 32); [|lia].
    unfold is_u32, u32_max in Hw. lia.
Qed.

Lemma put_is_u32 hi lo f word v : covers hi lo f -> is_u32 word -> is_u32 (put f word v).
Proof.
  intros Hf Hw.
  assert (put f word v = wrap32 (put f word v)) as ->.
  { apply Z.bits_inj'. intros i Hi. rewrite Ioc.wrap32_testbit by done.
    destruct (i <? 32) eqn:Hb; [done|]. bools.
    erewrite put_testbit by done. destruct Hf as (? & ? & _).
    rewrite (proj2 (Z.leb_gt i hi)), andb_false_r by lia.
    apply (Ioc.small_testbit word 32); [|lia]. unfold is_u32, u32_max in Hw. lia. }
  unfold is_u32, u32_max, wrap32.
  pose proof (Z.mod_pos_bound (put f word v) 4294967296). lia.
Qed.

Lemma drf_get_put_same hi lo f word v :
  covers hi lo f -> is_u32 word -> get f (put f word v) = v mod 2 ^ (hi - lo + 1).
Proof.
  intros Hf Hw. apply Z.bits_inj'. intros i Hi.
  erewrite get_testbit by done. destruct (i <? hi - lo + 1) eqn:?; bools.
  - erewrite put_testbit by (done || (destruct Hf; lia)).
    rewrite (proj2 (Z.leb_le lo _)), (proj2 (Z.leb_le _ hi)) by lia. simpl.
    rewrite Z.mod_pow2_bits_low by lia. f_equal. lia.
  - destruct Hf. by rewrite Z.mod_pow2_bits_high by lia.
Qed.

Lemma drf_get_put_other hi lo f hi' lo' g word v :
  covers hi lo f -> covers hi' lo' g -> hi < lo' \/ hi' < lo -> is_u32 word ->
  get g (put f word v) = get g word.
Proof.
  intros Hf Hg Hd Hw. apply Z.bits_inj'. intros i Hi.
  erewrite !(get_testbit hi' lo' g) by done.
  destruct (i <? hi' - lo' + 1) eqn:?; bools; [|done]. simpl.
  destruct Hg as (? & _). erewrite put_testbit by (done || lia).
  replace ((lo <=? i + lo') && (i + lo' <=? hi)) with false; [done|].
  symmetry. apply andb_false_iff. rewrite !Z.leb_gt. lia.
Qed.

End Drf.

(** ** Escape numbers and structures outside the SDK headers (nvgpu.rs) *)
Definition NV_IOCTL_BASE : Z := 200.
Definition NV_ESC_CARD_INFO : Z := NV_IOCTL_BASE.
Definition NV_ESC_REGISTER_FD : Z := NV_IOCTL_BASE + 1.
Definition NV_ESC_ALLOC_OS_EVENT : Z := NV_IOCTL_BASE + 6.
Definition NV_ESC_FREE_OS_EVENT : Z := NV_IOCTL_BASE + 7.
Definition NV_ESC_CHECK_VERSION_STR : Z := NV_IOCTL_BASE + 10.
Definition NV_ESC_ATTACH_GPUS_TO_FD : Z := NV_IOCTL_BASE + 12.
Definition NV_ESC_SYS_PARAMS : Z := NV_IOCTL_BASE + 14.
Definition NV_ESC_NUMA_INFO : Z := NV_IOCTL_BASE + 15.
Definition NV_ESC_WAIT_OPEN_COMPLETE : Z := NV_IOCTL_BASE + 18.

Section nvgpu_structs.
Local Open Scope string_scope.
Local Open Scope Z_scope.

Definition IoctlRegisterFd : layout := struct [("ctl_fd", scalar 4)].

Definition IoctlNumaOfflineAddresses : layout :=
  align_to 8 (struct [("addresses", array (scalar 8) 64); ("num_entries", scalar 4)]).

Definition IoctlNumaInfo : layout :=
  align_to 8 (struct
    [("nid", scalar 4); ("status", scalar 4); ("memblock_size", scalar 8);
     ("numa_mem_addr", scalar 8); ("numa_mem_size", scalar 8);
     ("use_auto_online", scalar 1); ("offline_addresses", IoctlNumaOfflineAddresses)]).

Definition IoctlAllocOsEvent : layout :=
  struct [("h_client", scalar 4); ("h_device", scalar 4); ("fd", scalar 4); ("status", scalar 4)].

Definition IoctlFreeOsEvent : layout :=
  struct [("h_client", scalar 4); ("h_device", scalar 4); ("fd", scalar 4); ("status", scalar 4)].

Definition Nvos33WithFd : layout :=
  struct [("params", NVOS33_PARAMETERS); ("fd", scalar 4); ("_pad", scalar 4)].

Definition Nvos02WithFd : layout :=
  struct [("params", NVOS02_PARAMETERS); ("fd", scalar 4); ("_pad", scalar 4)].

End nvgpu_structs.

(** NVOS02 flag fields used by OS-descriptor allocations. *)
Definition NVOS02_FLAGS_PHYSICALITY : option Drf.t := Drf.hi_lo 7 4.
Definition NVOS02_FLAGS_LOCATION : option Drf.t := Drf.hi_lo 11 8.
Definition NVOS02_FLAGS_COHERENCY : option Drf.t := Drf.hi_lo 15 12.
Definition NVOS02_FLAGS_GPU_CACHEABLE : option Drf.t := Drf.hi_lo 18 18.
Definition NVOS02_FLAGS_MAPPING : Drf.t := Drf.shift_mask 30 3.

(** NVOS32 attribute fields. *)
Definition NVOS32_ATTR_LOCATION : Drf.t := Drf.shift_mask 25 3.
Definition NVOS32_ATTR_COHERENCY : option Drf.t := Drf.hi_lo 31 29.
Definition NVOS32_ATTR2_GPU_CACHEABLE : option Drf.t := Drf.hi_lo 3 2.

(** ** XFER wrappers (xfer.rs) *)
Definition ABSOLUTE_MAX_IOCTL_SIZE : Z := 16384.

Record nv_ioctl_xfer_value := { x_cmd : Z; x_size : Z; x_ptr : Z }.

(** [arg] is the pointed-to wrapper, [None] for a null pointer. *)
Definition unwrap_xfer (cmd : Z) (arg : option nv_ioctl_xfer_value) :
    option (outcome unit (Z * Z * Z)) :=
  if negb (Ioc.ioc_nr cmd =? NV_ESC_IOCTL_XFER_CMD) then None
  else match arg with
  | None => Some (Err tt)
  | Some x =>
      if (x_size x =? 0) || (ABSOLUTE_MAX_IOCTL_SIZE <? x_size x) || (x_ptr x =? 0)
      then Some (Err tt)
      else Some (Ok (x_cmd x, x_ptr x, x_size x))
  end.

(** ** Sharing parameters (share.rs) *)
Definition uvm_dupes_class (hclass : Z) : bool :=
  match hclass with
  | 0x90f1 | 0xa06c | 0x9067 | 0x003e | 0x0040 | 0x0071 | 0x50a0 => true
  | _ => false
  end.

Definition NAME_MAX : Z := 100.

Definition sub_process_id_params (sub_id : Z) (name : bytes) : bytes :=
  let params := replicate (Z.to_nat (4 + NAME_MAX)) 0 in
  let params := put_range params 0 (le_bytes 4 sub_id) in
  let n := Z.min (blen name) (NAME_MAX - 1) in
  put_range params 4 (take (Z.to_nat n) name).

Definition share_object_params (hobject : Z) : bytes :=
  let params := replicate 16 0 in
  let params := put_range params 0 (le_bytes 4 hobject) in
  let params := put_range params 8 (le_bytes 4 (Z.shiftl 1 0)) in
  let params := put_range params 12 (le_bytes 2 4) in
  put_range params 14 [Z.shiftl 1 2].

(** [params_ptr] is the address of the parameter buffer. *)
Definition nvos54_client_control (hclient cmd params_ptr params_len : Z) : bytes :=
  let p := replicate 32 0 in
  let p := put_range p 0 (le_bytes 4 hclient) in
  let p := put_range p 4 (le_bytes 4 hclient) in
  let p := put_range p 8 (le_bytes 4 cmd) in
  let p := put_range p 16 (le_bytes 8 params_ptr) in
  put_range p 24 (le_bytes 4 params_len).

(** ** Theorems *)

(** An encoded frontend command decodes to the number, type and size it was
    built from; a size that does not fit the 14-bit field is truncated to it,
    without touching the number or the type, and the command stays a 32-bit
    word recognised as an NVIDIA command. *)
Theorem ioc_roundtrip (nr size : Z) :
  0 <= nr < 2 ^ 8 ->
  let cmd := Ioc.iowr_raw nr size in
  is_u32 cmd /\ Ioc.ioc_nr cmd = nr /\ Ioc.ioc_type cmd = NV_IOCTL_MAGIC /\
  Ioc.is_nv_cmd cmd = true /\ Ioc.ioc_size cmd = size mod 2 ^ 14 /\
  (0 <= size < 2 ^ 14 -> Ioc.ioc_size cmd = size).
Proof.
  intros Hn cmd. subst cmd. unfold Ioc.iowr_raw, Ioc.is_nv_cmd.
  assert (0 <= NV_IOCTL_MAGIC < 2 ^ 8) as Hm by (vm_compute; intuition discriminate).
  rewrite Ioc.ioc_nr_ioc, Ioc.ioc_type_ioc, Ioc.ioc_size_ioc by done.
  split_and!; try done; [apply Ioc.ioc_is_u32|]. intros. by rewrite Z.mod_small.
Qed.

Lemma ioc_roundtrip_witness : Ioc.ioc_size (Ioc.iowr_raw 0x2a 16384) = 0.
Proof.
  assert (0 <= 0x2a < 2 ^ 8) as H by lia.
  exact (proj1 (proj2 (proj2 (proj2 (proj2 (ioc_roundtrip 0x2a 16384 H)))))).
Defined.

(** Writing a [hi:lo] bit field of a 32-bit word and reading it back gives the
    value modulo the field's width, every disjoint field is unchanged, and
    the word stays a 32-bit word. *)
Theorem drf_laws (hi lo : Z) (f : Drf.t) (word v : Z) :
  0 <= lo -> Drf.hi_lo hi lo = Some f -> is_u32 word ->
  is_u32 (Drf.put f word v) /\
  Drf.get f (Drf.put f word v) = v mod 2 ^ (hi - lo + 1) /\
  forall hi' lo' g, 0 <= lo' -> Drf.hi_lo hi' lo' = Some g -> hi < lo' \/ hi' < lo ->
    Drf.get g (Drf.put f word v) = Drf.get g word.
Proof.
  intros Hlo Hf%Drf.hi_lo_covers Hw; [|done]. split_and!.
  - by eapply Drf.put_is_u32.
  - by apply Drf.drf_get_put_same.
  - intros hi' lo' g Hlo' Hg%Drf.hi_lo_covers Hd; [|done]. by eapply Drf.drf_get_put_other.
Qed.

Lemma drf_laws_witness :
  Drf.get (Drf.Mk 12 15) (Drf.put (Drf.Mk 12 15) 0xffffffff 0x25) = 5.
Proof.
  assert (is_u32 0xffffffff) as Hw by (unfold is_u32, u32_max; lia).
  assert (0 <= 12) as Hl by lia.
  exact (proj1 (proj2 (drf_laws 15 12 (Drf.Mk 12 15) 0xffffffff 0x25 Hl eq_refl Hw))).
Defined.

(** Unwrapping an XFER command yields an inner call only for a non-null,
    non-empty buffer of at most 16384 bytes; anything else is rejected, and an
    ordinary command is left alone. *)
Theorem unwrap_xfer_spec (cmd : Z) (arg : option nv_ioctl_xfer_value) :
  (unwrap_xfer cmd arg = None <-> Ioc.ioc_nr cmd <> NV_ESC_IOCTL_XFER_CMD) /\
  unwrap_xfer cmd arg <> Some Panic /\
  forall nr ptr len, unwrap_xfer cmd arg = Some (Ok (nr, ptr, len)) <->
    Ioc.ioc_nr cmd = NV_ESC_IOCTL_XFER_CMD /\
    exists x, arg = Some x /\ nr = x_cmd x /\ ptr = x_ptr x /\ len = x_size x /\
      ptr <> 0 /\ len <> 0 /\ len <= ABSOLUTE_MAX_IOCTL_SIZE.
Proof.
  unfold unwrap_xfer.
  destruct (Ioc.ioc_nr cmd =? NV_ESC_IOCTL_XFER_CMD) eqn:Hn; bools; simpl.
  - destruct arg as [x|].
    + destruct (_ || _) eqn:Hc; bools.
      * split_and!; [naive_solver|done|]. intros nr ptr len. split; [done|].
        intros (_ & x' & [= <-] & -> & -> & -> & ? & ? & ?).
        bool_cases; lia.
      * split_and!; [naive_solver|done|]. intros nr ptr len. split.
        -- intros [= <- <- <-]. split; [done|]. exists x. naive_solver lia.
        -- intros (_ & x' & [= <-] & -> & -> & -> & _). done.
    + split_and!; [naive_solver|done|]. naive_solver.
  - split_and!; [naive_solver|done|]. naive_solver.
Qed.
