(* ===== verification/Xlate.v ===== *)
(** * Forwarding descriptors (crates/nvrm-abi/src/xlate.rs)

    What the backend knows about each ioctl: payload sizes, the fields that
    hold process-local file descriptors, and the pointers whose buffers travel
    with the request.  A Rust [match] on a request number becomes a table
    searched in order, a row per arm with the arm's alternatives, so that a
    property of a whole function is a check of its rows. *)
From stdpp Require Import strings.
From S2P Require Import Prelude.
From S2P Require Import Bytes.
From S2P Require Import CLayout.
From S2P Require Import SysConsts.
From S2P Require Import Sys.
From S2P Require Import SysLayout.
From S2P Require Import NvAbi.

Local Open Scope string_scope.
Local Open Scope Z_scope.

(** ** Match tables *)
Fixpoint match_nr {A} (t : list (list Z * A)) (n : Z) : option A :=
  match t with
  | [] => None
  | (ks, a) :: t' => if existsb (Z.eqb n) ks then Some a else match_nr t' n
  end.

Definition match_keys {A} (t : list (list Z * A)) : list Z := concat (t.*1).

Lemma existsb_eqb_In n ks : existsb (Z.eqb n) ks = true <-> n ∈ ks.
Proof.
  rewrite existsb_exists. setoid_rewrite Z.eqb_eq. setoid_rewrite <- list_elem_of_In.
  naive_solver.
Qed.

Lemma match_nr_Some {A} (t : list (list Z * A)) n a :
  match_nr t n = Some a -> exists ks, (ks, a) ∈ t /\ n ∈ ks.
Proof.
  induction t as [|[ks b] t IH]; simpl; [done|].
  destruct (existsb (Z.eqb n) ks) eqn:He.
  - intros [= ->]. exists ks. split; [by constructor|by apply existsb_eqb_In].
  - intros (ks' & ? & ?)%IH. exists ks'. split; [by constructor|done].
Qed.

Lemma match_nr_None {A} (t : list (list Z * A)) n :
  match_nr t n = None <-> n ∉ match_keys t.
Proof.
  unfold match_keys. induction t as [|[ks b] t IH]; simpl.
  - split; [|done]. intros _ H. by apply not_elem_of_nil in H.
  - destruct (existsb (Z.eqb n) ks) eqn:He.
    + apply existsb_eqb_In in He. set_solver.
    + rewrite IH. assert (n ∉ ks) by (by rewrite <- existsb_eqb_In, He). set_solver.
Qed.

Lemma match_nr_is_Some {A} (t : list (list Z * A)) n :
  is_Some (match_nr t n) <-> n ∈ match_keys t.
Proof.
  pose proof (match_nr_None t n) as H. destruct (match_nr t n).
  - split; [intros _|eauto]. destruct (decide (n ∈ match_keys t)) as [|Hn]; [done|].
    by apply H in Hn.
  - split; [by intros [? ?]|]. intros Hn. by destruct (proj1 H eq_refl).
Qed.

(** A predicate of (number, answer) that holds on every row holds of the
    function. *)
Lemma match_nr_check {A} (P : Z -> A -> bool) (t : list (list Z * A)) n a :
  forallb (fun r => forallb (fun k => P k r.2) r.1) t = true ->
  match_nr t n = Some a -> P n a = true.
Proof.
  intros Ht (ks & Hr & Hk)%match_nr_Some.
  rewrite forallb_forall in Ht. apply list_elem_of_In in Hr. specialize (Ht _ Hr).
  simpl in Ht. rewrite forallb_forall in Ht. apply list_elem_of_In in Hk. by apply Ht.
Qed.

(** ** Devices *)
Inductive Dev := Ctl | Gpu | Uvm | UvmTools.

Global Instance Dev_eq_dec : EqDecision Dev.
Proof. solve_decision. Defined.

Definition is_uvm (d : Dev) : bool := match d with Uvm | UvmTools => true | _ => false end.

(** ** UVM commands *)
Module uvm.

Definition INITIALIZE : Z := 0x30000001.
Definition DEINITIALIZE : Z := 0x30000002.
Definition PAGEABLE_MEM_ACCESS : Z := 39.
Definition MM_INITIALIZE : Z := 75.
Definition REGISTER_GPU_VASPACE : Z := 25.
Definition UNREGISTER_GPU_VASPACE : Z := 26.
Definition REGISTER_CHANNEL : Z := 27.
Definition UNREGISTER_CHANNEL : Z := 28.
Definition MAP_EXTERNAL_ALLOCATION : Z := 33.
Definition FREE : Z := 34.
Definition REGISTER_GPU : Z := 37.
Definition MAP_DYNAMIC_PARALLELISM_REGION : Z := 65.
Definition ALLOC_SEMAPHORE_POOL : Z := 68.
Definition SET_PREFERRED_LOCATION : Z := 42.
Definition UNSET_PREFERRED_LOCATION : Z := 43.
Definition ENABLE_READ_DUPLICATION : Z := 44.
Definition DISABLE_READ_DUPLICATION : Z := 45.
Definition SET_ACCESSED_BY : Z := 46.
Definition UNSET_ACCESSED_BY : Z := 47.
Definition MIGRATE : Z := 51.
Definition PAGEABLE_MEM_ACCESS_ON_GPU : Z := 70.
Definition VALIDATE_VA_RANGE : Z := 72.
Definition CREATE_EXTERNAL_RANGE : Z := 73.

End uvm.

(** The sizes worked out by hand from the headers. *)
Definition uvm_param_size (cmd : Z) : option Z :=
  match_nr
    [([uvm.INITIALIZE], 16);
     ([uvm.DEINITIALIZE], 0);
     ([uvm.PAGEABLE_MEM_ACCESS], 8);
     ([uvm.MM_INITIALIZE], 8);
     ([uvm.REGISTER_GPU_VASPACE], 32);
     ([uvm.UNREGISTER_GPU_VASPACE], 20);
     ([uvm.REGISTER_CHANNEL], 56);
     ([uvm.UNREGISTER_CHANNEL], 12);
     ([uvm.MAP_EXTERNAL_ALLOCATION], 9264);
     ([uvm.FREE], 16);
     ([uvm.REGISTER_GPU], 40);
     ([uvm.MAP_DYNAMIC_PARALLELISM_REGION], 40);
     ([uvm.ALLOC_SEMAPHORE_POOL], 9248);
     ([uvm.PAGEABLE_MEM_ACCESS_ON_GPU], 24);
     ([uvm.SET_PREFERRED_LOCATION], 40);
     ([uvm.UNSET_PREFERRED_LOCATION], 24);
     ([uvm.ENABLE_READ_DUPLICATION], 24);
     ([uvm.DISABLE_READ_DUPLICATION], 24);
     ([uvm.SET_ACCESSED_BY], 40);
     ([uvm.UNSET_ACCESSED_BY], 40);
     ([uvm.MIGRATE], 80);
     ([uvm.VALIDATE_VA_RANGE], 24);
     ([uvm.CREATE_EXTERNAL_RANGE], 24)] cmd.

Section abi.
Context {A : RmAbi}.

(** The sizes of the selected driver's structures. *)
Definition uvm_structs : list (list Z * layout) :=
  [([uvm.INITIALIZE], UVM_INITIALIZE_PARAMS);
   ([uvm.PAGEABLE_MEM_ACCESS], UVM_PAGEABLE_MEM_ACCESS_PARAMS);
   ([uvm.MM_INITIALIZE], UVM_MM_INITIALIZE_PARAMS);
   ([uvm.REGISTER_GPU_VASPACE], UVM_REGISTER_GPU_VASPACE_PARAMS);
   ([uvm.UNREGISTER_GPU_VASPACE], UVM_UNREGISTER_GPU_VASPACE_PARAMS);
   ([uvm.REGISTER_CHANNEL], UVM_REGISTER_CHANNEL_PARAMS);
   ([uvm.UNREGISTER_CHANNEL], UvmUnregisterChannelParams);
   ([uvm.MAP_EXTERNAL_ALLOCATION], UVM_MAP_EXTERNAL_ALLOCATION_PARAMS);
   ([uvm.FREE], UvmFreeParams);
   ([uvm.REGISTER_GPU], UVM_REGISTER_GPU_PARAMS);
   ([uvm.MAP_DYNAMIC_PARALLELISM_REGION], UVM_MAP_DYNAMIC_PARALLELISM_REGION_PARAMS);
   ([uvm.ALLOC_SEMAPHORE_POOL], UVM_ALLOC_SEMAPHORE_POOL_PARAMS);
   ([uvm.SET_PREFERRED_LOCATION], UVM_SET_PREFERRED_LOCATION_PARAMS);
   ([uvm.UNSET_PREFERRED_LOCATION], UVM_UNSET_PREFERRED_LOCATION_PARAMS);
   ([uvm.ENABLE_READ_DUPLICATION], UVM_ENABLE_READ_DUPLICATION_PARAMS);
   ([uvm.DISABLE_READ_DUPLICATION], UVM_DISABLE_READ_DUPLICATION_PARAMS);
   ([uvm.SET_ACCESSED_BY], UVM_SET_ACCESSED_BY_PARAMS);
   ([uvm.UNSET_ACCESSED_BY], UVM_UNSET_ACCESSED_BY_PARAMS);
   ([uvm.MIGRATE], UVM_MIGRATE_PARAMS);
   ([uvm.PAGEABLE_MEM_ACCESS_ON_GPU], UVM_PAGEABLE_MEM_ACCESS_ON_GPU_PARAMS);
   ([uvm.VALIDATE_VA_RANGE], UVM_VALIDATE_VA_RANGE_PARAMS);
   ([uvm.CREATE_EXTERNAL_RANGE], UVM_CREATE_EXTERNAL_RANGE_PARAMS)].

Definition uvm_param_size_compiled (cmd : Z) : option Z :=
  size_of <$> match_nr uvm_structs cmd.

Definition uvm_param_size_for (cmd : Z) : option Z :=
  if cmd =? uvm.DEINITIALIZE then Some 0
  else n ← uvm_param_size_compiled cmd; if n <=? u32_max then Some n else None.

End abi.

(** ** Frontend envelopes *)
Definition sz (t : layout) : Z := wrap32 (size_of t).

Inductive FrontendSize :=
| Fixed (n : Z)
| Array (n : Z)
| Allocation.

(** [u32::is_multiple_of] *)
Definition is_multiple_of (size n : Z) : bool :=
  if n =? 0 then size =? 0 else size mod n =? 0.

Definition accepts (s : FrontendSize) (size : Z) : bool :=
  match s with
  | Fixed n => size =? n
  | Array n => is_multiple_of size n
  | Allocation => (size =? sz NVOS21_PARAMETERS) || (size =? sz NVOS64_PARAMETERS)
  end.

Definition frontend_table : list (list Z * FrontendSize) :=
  [([NV_ESC_RM_ALLOC], Allocation);
   ([NV_ESC_RM_ALLOC_OBJECT], Fixed (sz NVOS05_PARAMETERS));
   ([NV_ESC_RM_FREE], Fixed (sz NVOS00_PARAMETERS));
   ([NV_ESC_RM_CONTROL], Fixed (sz NVOS54_PARAMETERS));
   ([NV_ESC_RM_ALLOC_MEMORY], Fixed (sz Nvos02WithFd));
   ([NV_ESC_RM_MAP_MEMORY], Fixed (sz Nvos33WithFd));
   ([NV_ESC_RM_UNMAP_MEMORY], Fixed (sz NVOS34_PARAMETERS));
   ([NV_ESC_RM_VID_HEAP_CONTROL], Fixed (sz NVOS32_PARAMETERS));
   ([NV_ESC_RM_ALLOC_CONTEXT_DMA2], Fixed (sz NVOS39_PARAMETERS));
   ([NV_ESC_RM_BIND_CONTEXT_DMA], Fixed (sz NVOS49_PARAMETERS));
   ([NV_ESC_RM_MAP_MEMORY_DMA], Fixed (sz NVOS46_PARAMETERS));
   ([NV_ESC_RM_UNMAP_MEMORY_DMA], Fixed (sz NVOS47_PARAMETERS));
   ([NV_ESC_RM_DUP_OBJECT], Fixed (sz NVOS55_PARAMETERS));
   ([NV_ESC_RM_SHARE], Fixed (sz NVOS57_PARAMETERS));
   ([NV_ESC_RM_GET_EVENT_DATA], Fixed (sz NVOS41_PARAMETERS));
   ([NV_ESC_STATUS_CODE], Fixed (sz nv_ioctl_status_code_t));
   ([NV_ESC_CARD_INFO], Array (sz nv_ioctl_card_info_t));
   ([NV_ESC_ATTACH_GPUS_TO_FD], Array (sz (scalar 4)));
   ([NV_ESC_REGISTER_FD], Fixed (sz IoctlRegisterFd));
   ([NV_ESC_ALLOC_OS_EVENT], Fixed (sz IoctlAllocOsEvent));
   ([NV_ESC_FREE_OS_EVENT], Fixed (sz IoctlFreeOsEvent));
   ([NV_ESC_CHECK_VERSION_STR], Fixed (sz nv_ioctl_rm_api_version_t));
   ([NV_ESC_SYS_PARAMS], Fixed (sz nv_ioctl_sys_params_t));
   ([NV_ESC_NUMA_INFO], Fixed (sz IoctlNumaInfo));
   ([NV_ESC_WAIT_OPEN_COMPLETE], Fixed (sz nv_ioctl_wait_open_complete_t));
   ([213], Fixed (sz nv_ioctl_query_device_intr))].

Definition frontend_size (nr : Z) : option FrontendSize := match_nr frontend_table nr.

(** ** Allocation parameters *)
Section alloc.
Context {A : RmAbi}.

(** Structures bound by the generator, per class. *)
Definition alloc_structs : list (list Z * layout) :=
  [([0x003e; 0x0040; 0x50a0; 0x90ce], NV_MEMORY_ALLOCATION_PARAMS);
   ([0x0071], NV_OS_DESC_MEMORY_ALLOCATION_PARAMS);
   ([0x0080], NV0080_ALLOC_PARAMETERS);
   ([0x90f1], NV_VASPACE_ALLOCATION_PARAMETERS);
   ([0xa06c], TsgParams);
   ([0x9067], NV_CTXSHARE_ALLOCATION_PARAMETERS);
   ([0x906f; 0xa06f; 0xa16f; 0xb06f; 0xc06f; 0xc36f; 0xc46f; 0xc56f; 0xc86f;
      0xc96f; 0xca6f], AllocChannelParams);
   ([0x902d; 0xa140; 0xc597; 0xc5c0; 0xc697; 0xc6c0; 0xc797; 0xc7c0; 0xc997;
      0xc9c0; 0xcb97; 0xcbc0; 0xcd40; 0xcd97; 0xcdc0; 0xce97; 0xcec0], NV_GR_ALLOCATION_PARAMETERS);
   ([0xb8b0; 0xc4b0; 0xc6b0; 0xc7b0; 0xc9b0; 0xcdb0; 0xceb0; 0xcfb0; 0xd1b0;
      0xd2b0], NV_NVDEC_ALLOCATION_PARAMETERS);
   ([0xb4b7; 0xc4b7; 0xc7b7; 0xc9b7; 0xceb7; 0xcfb7; 0xd1b7], NV_NVENC_ALLOCATION_PARAMETERS);
   ([0xb8fa; 0xc6fa; 0xc7fa; 0xc9fa; 0xcdfa; 0xcefa; 0xcffa; 0xd1fa; 0xd2fa], NV_OFA_ALLOCATION_PARAMETERS);
   ([0xb8d1; 0xc4d1; 0xc9d1; 0xcdd1; 0xced0; 0xcfd1; 0xd2d1], NV_NVJPG_ALLOCATION_PARAMETERS);
   ([0x0002], NV_CONTEXT_DMA_ALLOCATION_PARAMS);
   ([0x0005; 0x0078; 0x0079; 0x007e], NV0005_ALLOC_PARAMETERS);
   ([0x2080], NV2080_ALLOC_PARAMETERS);
   ([0xc661; 0xc761], NV_HOPPER_USERMODE_A_PARAMS);
   ([0xc763; 0xc863], NV_VIDMEM_ACCESS_BIT_ALLOCATION_PARAMS);
   ([0xb0b5; 0xc0b5; 0xc5b5; 0xc6b5; 0xc7b5; 0xc8b5; 0xc9b5; 0xcab5], NVB0B5_ALLOCATION_PARAMETERS);
   ([0x0070], NV_MEMORY_VIRTUAL_ALLOCATION_PARAMS);
   ([0x9072], NV9072_ALLOCATION_PARAMETERS);
   ([0x2081], NV2081_ALLOC_PARAMETERS);
   ([0x00fe], NV_MEMORY_MAPPER_ALLOCATION_PARAMS);
   ([0x00de], NV00DE_ALLOC_PARAMETERS);
   ([0xcb33], NV_CONFIDENTIAL_COMPUTE_ALLOC_PARAMS);
   ([0x83de], NV83DE_ALLOC_PARAMETERS);
   ([0x00da], NV_SEMAPHORE_SURFACE_ALLOC_PARAMETERS);
   ([0xc640], NVC640_ALLOCATION_PARAMETERS);
   ([0xa0bc], NVA0BC_ALLOC_PARAMETERS);
   ([0x00c2], NV_PHYSICAL_MEMORY_ALLOCATION_PARAMS);
   ([0x00c3], NV_MEMORY_SYNCPOINT_ALLOCATION_PARAMS)].

Definition alloc_param_size_compiled (hclass : Z) : option Z :=
  size_of <$> match_nr alloc_structs hclass.

(** The forwarding table, in three parts as the source groups it. *)
Definition alloc_sizes_traced : list (list Z * Z) :=
  [([0x0080], sz NV0080_ALLOC_PARAMETERS);
   ([0x90f1], sz NV_VASPACE_ALLOCATION_PARAMETERS);
   ([0xa06c], sz TsgParams);
   ([0x9067], sz NV_CTXSHARE_ALLOCATION_PARAMETERS);
   ([0xc46f], sz AllocChannelParams);
   ([0x2080], 4);
   ([0x2081], 4);
   ([0x0079], 24);
   ([0xc640], 8);
   ([0x003e; 0x0040; 0x50a0], sz NV_MEMORY_ALLOCATION_PARAMS);
   ([0x0071], sz NV_OS_DESC_MEMORY_ALLOCATION_PARAMS);
   ([0x00de], 8);
   ([0x83de], 12);
   ([0xc5b5], 8);
   ([0xc5c0], 16);
   ([0xcb33], 4)].

Definition alloc_sizes_arch : list (list Z * Z) :=
  [([0x902d; 0xa140; 0xc597; 0xc697; 0xc6c0; 0xc797; 0xc7c0; 0xc997; 0xc9c0;
      0xcb97; 0xcbc0; 0xcd40; 0xcd97; 0xcdc0; 0xce97; 0xcec0], 16);
   ([0xb8b0; 0xc4b0; 0xc6b0; 0xc7b0; 0xc9b0; 0xcdb0; 0xceb0; 0xcfb0; 0xd1b0;
      0xd2b0], 12);
   ([0x906f; 0xa06f; 0xa16f; 0xb06f; 0xc06f; 0xc36f; 0xc56f; 0xc86f; 0xc96f;
      0xca6f], sz AllocChannelParams);
   ([0xb8fa; 0xc6fa; 0xc7fa; 0xc9fa; 0xcdfa; 0xcefa; 0xcffa; 0xd1fa; 0xd2fa], 12);
   ([0xb0b5; 0xc0b5; 0xc6b5; 0xc7b5; 0xc8b5; 0xc9b5; 0xcab5], 8);
   ([0xb4b7; 0xc4b7; 0xc7b7; 0xc9b7; 0xceb7; 0xcfb7; 0xd1b7], 12);
   ([0xb8d1; 0xc4d1; 0xc9d1; 0xcdd1; 0xced0; 0xcfd1; 0xd2d1], 12);
   ([0x0000; 0x0001; 0x0020; 0x0041], 4);
   ([0x0005; 0x0078; 0x007e], 24);
   ([0xc661; 0xc761], 2);
   ([0xc763; 0xc863], 528)].

Definition alloc_sizes_headers : list (list Z * Z) :=
  [([0x000f], 16);
   ([0x0050], 24);
   ([0x0060], 4);
   ([0x00db], 8);
   ([0x00e0], 244);
   ([0x00f8], 48);
   ([0x00fb], 32);
   ([0x2082], 4);
   ([0x30f1], 4);
   ([0x503b], 88);
   ([0x503c], 4);
   ([0x5080], 1);
   ([0x9072], 12);
   ([0xa084], 88);
   ([0xa0bc], 20);
   ([0xa0bd], 20);
   ([0xb0cd], 8);
   ([0xb0ce], 16);
   ([0xb1cc], 4);
   ([0xb2cc], 8);
   ([0xc637], 16);
   ([0xc638], 16);
   ([0xc639], 8);
   ([0xcdcd], 8);
   ([0xc365], 4);
   ([0x0002], 32);
   ([0x90ce], sz NV_MEMORY_ALLOCATION_PARAMS);
   ([0x00fe], 24);
   ([0x00c3], 4);
   ([0x0070], 24);
   ([0x00c2], 24);
   ([0x00da], 16);
   ([0xc574], 8)].

Definition alloc_param_size (hclass : Z) : option Z :=
  match_nr (alloc_sizes_traced ++ alloc_sizes_arch ++ alloc_sizes_headers)%list hclass.

End alloc.

Definition alloc_class_blocked (hclass : Z) : bool :=
  existsb (Z.eqb hclass)
    [0xc637; 0xc638; 0xc639; 0xc640; 0xb0cd; 0xb0ce; 0xcdcd].

Definition alloc_class_verified (hclass : Z) : bool :=
  existsb (Z.eqb hclass)
    [0x003e; 0x0040; 0x0071; 0x0079; 0x0080; 0x00de; 0x2080; 0x2081; 0x50a0; 0x83de;
     0x9067; 0x90f1; 0xa06c; 0xc46f; 0xc5b5; 0xc5c0; 0xc640; 0xcb33; 0x0002; 0x0041;
     0x0070; 0xa0bc; 0xc361; 0xc461; 0xc4b0; 0xc4b7].

Definition nested_cmds : list Z :=
  [0x101; 0x20801802; 0x20801201; 0x80170d; 0x800201; 0x801b01; 0x801301; 0x801102;
     0x801701; 0x801104; 0x20801301; 0x20800123; 0x410110; 0x20800802].

Definition blocked_ctrls : list Z :=
  [0x901; 0x902; 0x3d08; 0x3d0a; 0x3d0b; 0x3d0c; 0x127; 0x130; 0x602; 0x730120; 0x801401;
     0x80180f; 0x20800122; 0x20800124; 0x2080016e; 0x208001e8; 0x208001f2; 0x20800610;
     0x20800803; 0x20800806; 0x20801336; 0x20802204; 0x20802402; 0x20802a01; 0x402c0102;
     0x402c0105; 0x83de0315; 0x83de0316; 0x83de0326; 0x83de0327; 0xa0830103; 0xa0bc0101;
     0xb06f010c; 0xb06f010d].

Inductive LenSource :=
| LenFixed (n : Z)
| LenField (off elem : Z).

Record NestedPtr := { np_ptr_off : Z; np_len : LenSource }.

Definition XLATE_MAX_NESTED : nat := 4.

Definition np (p off elem : Z) : NestedPtr :=
  {| np_ptr_off := p; np_len := LenField off elem |}.

Definition nested_table : list (list Z * list NestedPtr) :=
  [([0x101], [np 8 0 1; np 16 0 1; np 24 0 1]);
   ([0x20801802], [np 8 0 8]);
   ([0x20800802], [np 8 0 8]);
   ([0x410110], [np 8 0 8]);
   ([0x20801201], [np 8 0 8]);
   ([0x80170d], [np 8 0 4; np 16 0 4]);
   ([0x800201], [np 8 0 4]);
   ([0x801b01], [np 8 0 1]);
   ([0x801301], [np 8 0 1]);
   ([0x801102], [np 8 0 1]);
   ([0x801701], [np 8 0 1]);
   ([0x801104], [np 8 0 8]);
   ([0x20801301], [np 8 0 8]);
   ([0x20800123], [np 8 0 4])].

Definition nested_ptrs (cmd : Z) : list NestedPtr := default [] (match_nr nested_table cmd).

(** The same offsets as the bindings give them: (pointer, count, element). *)
Definition INFO : Z := sz NVXXXX_CTRL_XXX_INFO.

Definition ctrl_nested_compiled_table : list (list Z * list (Z * Z * Z)) :=
  [([0x101],
    [(offset_of NV0000_CTRL_SYSTEM_GET_BUILD_VERSION_PARAMS "pDriverVersionBuffer",
      offset_of NV0000_CTRL_SYSTEM_GET_BUILD_VERSION_PARAMS "sizeOfStrings", 1);
     (offset_of NV0000_CTRL_SYSTEM_GET_BUILD_VERSION_PARAMS "pVersionBuffer",
      offset_of NV0000_CTRL_SYSTEM_GET_BUILD_VERSION_PARAMS "sizeOfStrings", 1);
     (offset_of NV0000_CTRL_SYSTEM_GET_BUILD_VERSION_PARAMS "pTitleBuffer",
      offset_of NV0000_CTRL_SYSTEM_GET_BUILD_VERSION_PARAMS "sizeOfStrings", 1)]);
   ([0x20800802],
    [(offset_of NV2080_CTRL_BIOS_GET_INFO_PARAMS "biosInfoList",
      offset_of NV2080_CTRL_BIOS_GET_INFO_PARAMS "biosInfoListSize", INFO)]);
   ([0x20801201],
    [(offset_of NV2080_CTRL_GR_GET_INFO_PARAMS "grInfoList",
      offset_of NV2080_CTRL_GR_GET_INFO_PARAMS "grInfoListSize", INFO)]);
   ([0x20801301],
    [(offset_of NV2080_CTRL_FB_GET_INFO_PARAMS "fbInfoList",
      offset_of NV2080_CTRL_FB_GET_INFO_PARAMS "fbInfoListSize", INFO)]);
   ([0x20801802],
    [(offset_of NV2080_CTRL_BUS_GET_INFO_PARAMS "busInfoList",
      offset_of NV2080_CTRL_BUS_GET_INFO_PARAMS "busInfoListSize", INFO)]);
   ([0x801104],
    [(offset_of NV0080_CTRL_GR_GET_INFO_PARAMS "grInfoList",
      offset_of NV0080_CTRL_GR_GET_INFO_PARAMS "grInfoListSize", INFO)]);
   ([0x20800123],
    [(offset_of NV2080_CTRL_GPU_GET_ENGINES_PARAMS "engineList",
      offset_of NV2080_CTRL_GPU_GET_ENGINES_PARAMS "engineCount", 4)]);
   ([0x800201],
    [(offset_of NV0080_CTRL_GPU_GET_CLASSLIST_PARAMS "classList",
      offset_of NV0080_CTRL_GPU_GET_CLASSLIST_PARAMS "numClasses", 4)]);
   ([0x80170d],
    [(offset_of NV0080_CTRL_FIFO_GET_CHANNELLIST_PARAMS "pChannelHandleList",
      offset_of NV0080_CTRL_FIFO_GET_CHANNELLIST_PARAMS "numChannels", 4);
     (offset_of NV0080_CTRL_FIFO_GET_CHANNELLIST_PARAMS "pChannelList",
      offset_of NV0080_CTRL_FIFO_GET_CHANNELLIST_PARAMS "numChannels", 4)]);
   ([0x801102],
    [(offset_of NV0080_CTRL_GR_GET_CAPS_PARAMS "capsTbl",
      offset_of NV0080_CTRL_GR_GET_CAPS_PARAMS "capsTblSize", 1)]);
   ([0x801301],
    [(offset_of NV0080_CTRL_FB_GET_CAPS_PARAMS "capsTbl",
      offset_of NV0080_CTRL_FB_GET_CAPS_PARAMS "capsTblSize", 1)]);
   ([0x801701],
    [(offset_of NV0080_CTRL_FIFO_GET_CAPS_PARAMS "capsTbl",
      offset_of NV0080_CTRL_FIFO_GET_CAPS_PARAMS "capsTblSize", 1)]);
   ([0x801b01],
    [(offset_of NV0080_CTRL_NVENC_GET_CAPS_PARAMS "capsTbl",
      offset_of NV0080_CTRL_NVENC_GET_CAPS_PARAMS "capsTblSize", 1)])].

Definition ctrl_nested_compiled (cmd : Z) : list (Z * Z * Z) :=
  default [] (match_nr ctrl_nested_compiled_table cmd).

(** ** File descriptors inside payloads *)
Definition fd_field_offset (dev : Dev) (nr size : Z) : option Z :=
  if is_uvm dev
  then match_nr
    [([uvm.MM_INITIALIZE], 0);
     ([uvm.REGISTER_GPU_VASPACE], 16);
     ([uvm.REGISTER_CHANNEL], 16);
     ([uvm.REGISTER_GPU], 24);
     ([uvm.MAP_EXTERNAL_ALLOCATION], 9248)] nr
  else match_nr
    [([NV_ESC_REGISTER_FD], 0);
     ([NV_ESC_ALLOC_OS_EVENT; NV_ESC_FREE_OS_EVENT], 8);
     ([NV_ESC_RM_MAP_MEMORY], 48);
     ([NV_ESC_RM_ALLOC_MEMORY], 48)] nr.

Definition alloc_fd_field (hclass : Z) : option Z :=
  match_nr [([0x0079], 16); ([0x0005], 16)] hclass.

Definition alloc_fd_guard (hclass : Z) : option (Z * Z) :=
  match_nr [([0x0005; 0x0079], (8, 0x0079))] hclass.

Definition ctrl_blocked (cmd : Z) : bool := existsb (Z.eqb cmd) blocked_ctrls.

Definition ctrl_fd_offset (cmd : Z) : option Z :=
  match_nr [([0x3d05], 16); ([0x3d06], 0)] cmd.

Definition ctrl_fd_cmds : list Z := [0x3d05; 0x3d06].

(** ** The primary embedded pointer *)
Record Embedded := { emb_ptr_off : Z; emb_len : Z }.

(** The reads go through a raw pointer: one outside [buf] is a [Panic]. *)
Definition embedded_ptr {A : RmAbi} (dev : Dev) (nr : Z) (buf : bytes) (size : Z) :
    outcome unit (option Embedded) :=
  if is_uvm dev then Ok None
  else if (nr =? NV_ESC_RM_CONTROL) && (32 <=? size) then
    plen ← or_panic (get_u32 buf 24);
    pptr ← or_panic (get_u64 buf 16);
    if (pptr =? 0) || (plen =? 0) then Ok None
    else Ok (Some {| emb_ptr_off := 16; emb_len := plen |})
  else if (nr =? NV_ESC_RM_ALLOC) && ((size =? 48) || (size =? 32)) then
    pptr ← or_panic (get_u64 buf 16);
    if pptr =? 0 then Ok None
    else
      rights ← (if size =? 48 then or_panic (get_u64 buf 24) else Ok 0);
      if negb (rights =? 0) then Err tt
      else
        hclass ← or_panic (get_u32 buf 12);
        match alloc_param_size hclass with
        | Some len => Ok (Some {| emb_ptr_off := 16; emb_len := len |})
        | None => Err tt
        end
  else if (nr =? NV_ESC_RM_GET_EVENT_DATA) && (size_of NVOS41_PARAMETERS <=? size) then
    pptr ← or_panic (get_u64 buf 0);
    if pptr =? 0 then Ok None
    else Ok (Some {| emb_ptr_off := 0; emb_len := wrap32 (size_of NvUnixEvent) |})
  else Ok None.

(** ** Lengths of nested buffers *)
Definition resolve (l : LenSource) (params : bytes) (params_len : Z) : outcome unit (option Z) :=
  match l with
  | LenFixed n => Ok (Some n)
  | LenField off elem =>
      match checked_add32 off 4 with
      | Some e =>
          if params_len <? e then Ok None
          else n ← or_panic (get_u32 params off); Ok (checked_mul32 n elem)
      | None => Ok None
      end
  end.

(** ** Properties of the tables *)
Lemma forallb_elem {B} (P : B -> bool) l x : forallb P l = true -> x ∈ l -> P x = true.
Proof. rewrite forallb_forall. intros H Hx%list_elem_of_In. by apply H. Qed.

(** Two partial functions that agree on the listed numbers and are undefined
    elsewhere are equal. *)
Lemma table_ext {B} (f g : Z -> option B) (keys : list Z) (eqb : option B -> option B -> bool) n :
  (forall x y, eqb x y = true -> x = y) ->
  (n ∉ keys -> f n = None /\ g n = None) ->
  forallb (fun k => eqb (f k) (g k)) keys = true -> f n = g n.
Proof.
  intros Heqb Hout Hk. destruct (decide (n ∈ keys)) as [Hn|Hn].
  - apply Heqb. exact (forallb_elem _ _ _ Hk Hn).
  - by destruct (Hout Hn) as [-> ->].
Qed.

Definition optZ_eqb (x y : option Z) : bool :=
  match x, y with Some a, Some b => a =? b | None, None => true | _, _ => false end.

Lemma optZ_eqb_eq x y : optZ_eqb x y = true -> x = y.
Proof. destruct x, y; simpl; intros; bools; congruence. Qed.

Lemma same_keys (l k : list Z) n :
  forallb (fun x => existsb (Z.eqb x) k) l && forallb (fun x => existsb (Z.eqb x) l) k = true ->
  n ∈ l <-> n ∈ k.
Proof.
  intros [Hl Hk]%andb_true_iff. split; intros Hn; apply existsb_eqb_In.
  - exact (forallb_elem _ _ _ Hl Hn).
  - exact (forallb_elem _ _ _ Hk Hn).
Qed.

Definition uvm_cmds : list Z := match_keys (uvm_structs (A:=V615)).

Lemma uvm_cmds_abi (A : RmAbi) : match_keys (uvm_structs (A:=A)) = uvm_cmds.
Proof. reflexivity. Qed.

Lemma uvm_param_size_None cmd :
  uvm_param_size cmd = None <-> cmd ∉ uvm.DEINITIALIZE :: uvm_cmds.
Proof.
  unfold uvm_param_size. rewrite match_nr_None. apply not_iff_compat.
  by apply same_keys.
Qed.

Lemma uvm_param_size_compiled_None (A : RmAbi) cmd :
  uvm_param_size_compiled (A:=A) cmd = None <-> cmd ∉ uvm_cmds.
Proof.
  unfold uvm_param_size_compiled. rewrite fmap_None, match_nr_None. by rewrite uvm_cmds_abi.
Qed.

(** Every structure the two tables name has between 1 and 16383 bytes. *)
Definition small_struct (r : list Z * layout) : Prop := 0 < size_of r.2 < 16384.

Lemma abi_structs_small (A : RmAbi) :
  RmAbiOk A -> Forall small_struct (uvm_structs (A:=A)) /\ Forall small_struct (alloc_structs (A:=A)).
Proof.
  intros HA. pose proof (abi_sizes_u32 (A:=A)) as Hs. cbn [forallb] in Hs. bools.
  split; repeat (apply Forall_cons; split);
    first [apply Forall_nil; exact I | unfold small_struct; simpl snd; lia
          | unfold small_struct; vm_compute; split; congruence].
Qed.

Lemma match_small t (tbl : list (list Z * layout)) n :
  Forall small_struct tbl -> match_nr tbl n = Some t -> 0 < size_of t < 16384.
Proof.
  intros Hb (ks & Hr & _)%match_nr_Some. rewrite Forall_forall in Hb. exact (Hb _ Hr).
Qed.

Lemma uvm_param_size_compiled_bounds (A : RmAbi) cmd n :
  RmAbiOk A -> uvm_param_size_compiled (A:=A) cmd = Some n -> 0 < n < 16384.
Proof.
  intros HA (t & Ht & ->)%fmap_Some. eapply match_small, Ht. by apply abi_structs_small.
Qed.

(** ** Theorems *)

(** The UVM payload sizes worked out by hand are those of the default
    driver's structures, command by command and for every number: both tables
    know the same commands except DEINITIALIZE, which has no structure and an
    empty payload; and on every supported driver the same commands have a
    forwarding size, which is the compiled one and fits 14 bits. *)
Theorem uvm_sizes_agree (cmd : Z) :
  (cmd <> uvm.DEINITIALIZE -> uvm_param_size cmd = uvm_param_size_compiled (A:=V615) cmd) /\
  uvm_param_size_for (A:=V615) cmd = uvm_param_size cmd /\
  (forall (A : RmAbi), RmAbiOk A ->
     (uvm_param_size_for (A:=A) cmd = None <-> uvm_param_size cmd = None) /\
     forall n, uvm_param_size_for (A:=A) cmd = Some n ->
       0 <= n < 16384 /\
       (cmd <> uvm.DEINITIALIZE -> uvm_param_size_compiled (A:=A) cmd = Some n)).
Proof.
  assert (cmd <> uvm.DEINITIALIZE -> uvm_param_size cmd = uvm_param_size_compiled (A:=V615) cmd)
    as Hhand.
  { intros Hne. apply (table_ext _ _ uvm_cmds optZ_eqb).
    - apply optZ_eqb_eq.
    - intros Hn. split; [|by apply uvm_param_size_compiled_None].
      apply uvm_param_size_None. by intros [?|?]%elem_of_cons.
    - by vm_compute. }
  assert (forall A, RmAbiOk A -> cmd <> uvm.DEINITIALIZE ->
    uvm_param_size_for (A:=A) cmd = uvm_param_size_compiled (A:=A) cmd) as Hfor.
  { intros A HA Hne. unfold uvm_param_size_for.
    destruct (cmd =? uvm.DEINITIALIZE) eqn:?; bools; [done|].
    destruct (uvm_param_size_compiled (A:=A) cmd) as [n|] eqn:Hn; simpl; [|done].
    apply uvm_param_size_compiled_bounds in Hn; [|done].
    unfold u32_max. by rewrite (proj2 (Z.leb_le _ _)) by lia. }
  destruct (decide (cmd = uvm.DEINITIALIZE)) as [->|Hne].
  - split_and!; [done|by vm_compute|]. intros A HA. split; [by vm_compute|].
    intros n [= <-]. split; [lia|done].
  - split_and!; [done|by rewrite Hfor, Hhand by (done || apply _)|].
    intros A HA. rewrite Hfor by done. split.
    + rewrite uvm_param_size_compiled_None, uvm_param_size_None, not_elem_of_cons. tauto.
    + intros n Hn. split; [|done]. apply uvm_param_size_compiled_bounds in Hn; [lia|done].
Qed.

Lemma uvm_sizes_agree_witness :
  uvm_param_size uvm.MIGRATE = uvm_param_size_compiled (A:=V615) uvm.MIGRATE.
Proof.
  apply (proj1 (uvm_sizes_agree uvm.MIGRATE)). vm_compute. discriminate.
Defined.

(** Case analysis on a row [Hr : (ks, a) ∈ table] and a key [Hk : n ∈ ks]. *)
Ltac destruct_elems Hr Hk :=
  repeat (apply elem_of_cons in Hr as [Hr|Hr];
    [injection Hr as -> ?; subst;
     repeat (apply elem_of_cons in Hk as [->|Hk];
       [first [eexists; split; [reflexivity|reflexivity]
              | split; [reflexivity|lia]]|]);
     by apply not_elem_of_nil in Hk|]);
  by apply not_elem_of_nil in Hr.

(** The sizes the allocation table uses are nonzero and below 14 bits. *)
Lemma alloc_param_size_bounds (A : RmAbi) hclass n :
  RmAbiOk A -> alloc_param_size (A:=A) hclass = Some n -> 0 < n < 16384.
Proof.
  intros HA Hn. pose proof (abi_sizes_u32 (A:=A)) as Hs. cbn [forallb] in Hs. bools.
  assert (forall t, 0 < size_of t -> size_of t < 16384 -> sz t = size_of t) as Hsz
    by (intros t ? ?; unfold sz, wrap32; apply Z.mod_small; lia).
  cut (forallb (fun r => (0 <? r.2) && (r.2 <? 16384))
    (alloc_sizes_traced (A:=A) ++ alloc_sizes_arch (A:=A) ++ alloc_sizes_headers)%list = true).
  { intros Hc. apply match_nr_Some in Hn as (ks & Hr & _).
    pose proof (forallb_elem _ _ _ Hc Hr) as Hb. simpl in Hb. bools. lia. }
  rewrite !forallb_app. apply andb_true_intro. split; [|apply andb_true_intro; split].
  - unfold alloc_sizes_traced. cbn [forallb snd]. rewrite !Hsz by (done || vm_compute; done).
    rewrite !andb_true_iff, !Z.ltb_lt. split_and!; (lia || by vm_compute).
  - unfold alloc_sizes_arch. cbn [forallb snd]. rewrite Hsz by done.
    rewrite !andb_true_iff, !Z.ltb_lt. split_and!; lia.
  - by vm_compute.
Qed.

(** For every class whose parameter structure is bound, on every supported
    driver, the forwarding table gives exactly the compiled size; every class
    with a translated file descriptor has parameters that contain the field
    and the field that guards it, and no size in the table is zero or exceeds
    the 14-bit request limit. *)
Theorem alloc_sizes_agree (A : RmAbi) (hclass : Z) :
  RmAbiOk A ->
  (forall n, alloc_param_size_compiled (A:=A) hclass = Some n ->
     alloc_param_size (A:=A) hclass = Some n) /\
  (forall n, alloc_param_size (A:=A) hclass = Some n -> 0 < n < 16384) /\
  (forall off, alloc_fd_field hclass = Some off ->
     exists n, alloc_param_size (A:=A) hclass = Some n /\ off + 8 <= n) /\
  (forall off v, alloc_fd_guard hclass = Some (off, v) ->
     exists n, alloc_param_size (A:=A) hclass = Some n /\ off + 4 <= n).
Proof.
  intros HA. pose proof (abi_sizes_u32 (A:=A)) as Hs. cbn [forallb] in Hs. bools.
  split_and!.
  - intros n. unfold alloc_param_size_compiled. intros (t & Ht & ->)%fmap_Some.
    assert (exists c, alloc_param_size (A:=A) hclass = Some c /\ wrap32 (size_of t) = c) as Hc.
    { apply match_nr_Some in Ht as (ks & Hr & Hk).
      unfold alloc_structs in Hr. destruct_elems Hr Hk. }
    destruct Hc as (c & Hc & <-). rewrite Hc. f_equal. apply Z.mod_small.
    destruct (match_small t (alloc_structs (A:=A)) hclass) as [? ?];
      [by apply abi_structs_small|done|lia].
  - intros n. by apply alloc_param_size_bounds.
  - intros off (ks & Hr & Hk)%match_nr_Some. exists 24. destruct_elems Hr Hk.
  - intros off v (ks & Hr & Hk)%match_nr_Some. exists 24. destruct_elems Hr Hk.
Qed.

Lemma alloc_sizes_agree_witness :
  RmAbiOk V580 /\ alloc_param_size (A:=V580) 0xa06c = Some 20.
Proof.
  split; [apply V580_ok|].
  apply (proj1 (alloc_sizes_agree V580 0xa06c V580_ok)). reflexivity.
Defined.

Definition np_eqb (p : NestedPtr) (c : Z * Z * Z) : bool :=
  match np_len p with
  | LenField off elem => (np_ptr_off p =? c.1.1) && (off =? c.1.2) && (elem =? c.2)
  | LenFixed _ => false
  end.

Fixpoint nps_eqb (ps : list NestedPtr) (cs : list (Z * Z * Z)) : bool :=
  match ps, cs with
  | [], [] => true
  | p :: ps', c :: cs' => np_eqb p c && nps_eqb ps' cs'
  | _, _ => false
  end.

Definition np_triple (p : NestedPtr) : option (Z * Z * Z) :=
  match np_len p with LenField off elem => Some (np_ptr_off p, off, elem) | LenFixed _ => None end.

Lemma nps_eqb_spec ps cs : nps_eqb ps cs = true -> np_triple <$> ps = Some <$> cs.
Proof.
  revert cs. induction ps as [|p ps IH]; intros [|[[a b] c] cs]; simpl; try done.
  intros [Hp Hr]%andb_true_iff. f_equal; [|by apply IH].
  unfold np_eqb in Hp. unfold np_triple. destruct (np_len p); [done|]. simpl in Hp. bools. congruence.
Qed.

(** A property of all descriptors of the table, checked row by row. *)
Lemma nested_ptrs_check (P : Z -> list NestedPtr -> bool) cmd :
  (forall n, P n [] = true) ->
  forallb (fun r => forallb (fun k => P k r.2) r.1) nested_table = true ->
  P cmd (nested_ptrs cmd) = true.
Proof.
  intros H0 H. unfold nested_ptrs. destruct (match_nr nested_table cmd) as [ps|] eqn:Hm;
    [|apply H0]. by eapply match_nr_check.
Qed.

(** The control tables are coherent for every command number: a command has
    nested pointers exactly when it is enumerated for the guest, never more
    than the wire carries, with the pointer, count and element size the bound
    structures give; no command with nested pointers or a translated file
    descriptor is blocked; and the enumeration of descriptor-carrying controls
    is exact. *)
Theorem control_tables_coherent (cmd : Z) :
  (nested_ptrs cmd <> [] <-> cmd ∈ nested_cmds) /\
  (length (nested_ptrs cmd) <= XLATE_MAX_NESTED)%nat /\
  (ctrl_nested_compiled cmd <> [] ->
     np_triple <$> nested_ptrs cmd = Some <$> ctrl_nested_compiled cmd) /\
  (ctrl_blocked cmd = true -> nested_ptrs cmd = [] /\ ctrl_fd_offset cmd = None) /\
  (is_Some (ctrl_fd_offset cmd) <-> cmd ∈ ctrl_fd_cmds).
Proof.
  split_and!.
  - assert (match_nr nested_table cmd = None <-> cmd ∉ nested_cmds) as Hk.
    { rewrite match_nr_None. apply not_iff_compat. by apply same_keys. }
    unfold nested_ptrs.
    destruct (match_nr nested_table cmd) as [ps|] eqn:Hm; simpl.
    + assert (cmd ∈ nested_cmds) by (destruct (decide (cmd ∈ nested_cmds)); naive_solver).
      split; [done|]. intros _.
      pose proof (match_nr_check (fun _ ps => negb (bool_decide (length ps = 0%nat)))
        nested_table cmd ps eq_refl Hm) as Hl. intros ->. by vm_compute in Hl.
    + split; [done|]. intros Hin. by destruct (proj1 Hk eq_refl).
  - pose proof (nested_ptrs_check (fun _ ps => (length ps <=? 4)%nat) cmd) as H.
    apply Nat.leb_le, H; by vm_compute.
  - unfold ctrl_nested_compiled.
    destruct (match_nr ctrl_nested_compiled_table cmd) as [cs|] eqn:Hm; simpl; [|done].
    intros _. apply nps_eqb_spec.
    exact (match_nr_check (fun k cs => nps_eqb (nested_ptrs k) cs)
      ctrl_nested_compiled_table cmd cs eq_refl Hm).
  - unfold ctrl_blocked. intros Hb%existsb_eqb_In.
    pose proof (forallb_elem (fun k => bool_decide (length (nested_ptrs k) = 0%nat)
      && optZ_eqb (ctrl_fd_offset k) None) blocked_ctrls cmd eq_refl Hb) as Hc.
    apply andb_true_iff in Hc as [Hl Hf]. apply bool_decide_eq_true in Hl.
    split; [by apply nil_length_inv|by apply optZ_eqb_eq].
  - unfold ctrl_fd_offset. rewrite match_nr_is_Some. by apply same_keys.
Qed.

Lemma control_tables_coherent_witness :
  ctrl_blocked 0x20800122 = true /\ nested_ptrs 0x20800122 = [].
Proof.
  split; [reflexivity|].
  apply (proj1 (proj2 (proj2 (proj2 (control_tables_coherent 0x20800122)))) eq_refl).
Defined.

Lemma or_panic_get n (buf : bytes) off E :
  0 <= off -> off + Z.of_nat n <= blen buf ->
  no_panic (E:=E) (or_panic (get_le n buf off)).
Proof.
  intros. destruct (proj2 (get_le_is_Some n buf off)) as [v ->]; done.
Qed.

(** Descriptor fields are [u32]. *)
Definition wf_len (l : LenSource) : Prop :=
  match l with
  | LenFixed n => is_u32 n
  | LenField off elem => is_u32 off /\ is_u32 elem
  end.

Lemma resolve_spec l (params : bytes) :
  wf_len l -> wf_bytes params ->
  no_panic (resolve l params (blen params)) /\
  forall n, resolve l params (blen params) = Ok (Some n) ->
    is_u32 n /\
    match l with
    | LenFixed m => n = m
    | LenField off elem =>
        off + 4 <= blen params /\ exists c, get_u32 params off = Some c /\ n = c * elem
    end.
Proof.
  intros Hl Hp. destruct l as [m|off elem]; simpl.
  - split; [done|]. intros n [= <-]. done.
  - destruct Hl as [[? ?] [? ?]]. unfold checked_add32.
    destruct (off + 4 <=? u32_max) eqn:?; [|done].
    destruct (blen params <? off + 4) eqn:?; [done|]. bools.
    destruct (proj2 (get_le_is_Some 4 params off)) as [c Hc]; [simpl; lia|].
    rewrite Hc. simpl. split; [done|]. intros n [= Hn].
    apply checked_mul32_Some in Hn as [-> Hn].
    pose proof (get_u32_bounds _ _ _ Hp Hc) as [? ?].
    split; [split; [nia|done]|]. split; [lia|]. eauto.
Qed.

Lemma nested_ptrs_wf cmd :
  Forall (fun p => is_u32 (np_ptr_off p) /\ wf_len (np_len p)) (nested_ptrs cmd).
Proof.
  pose proof (nested_ptrs_check (fun _ => forallb (fun p =>
    (0 <=? np_ptr_off p) && (np_ptr_off p <=? u32_max) &&
    match np_len p with
    | LenFixed n => (0 <=? n) && (n <=? u32_max)
    | LenField o e => (0 <=? o) && (o <=? u32_max) && (0 <=? e) && (e <=? u32_max)
    end)) cmd (fun _ => eq_refl) eq_refl) as H.
  apply Forall_forall. intros p Hp. pose proof (forallb_elem _ _ _ H Hp) as Hb. simpl in Hb.
  unfold is_u32, wf_len, is_u32. destruct (np_len p); bools; lia.
Qed.

(** The embedded pointer of an allocation. *)
(** Within one control, pointers do not overlap each other and lie behind the
    counts. *)
Fixpoint ptrs_apart (ps : list NestedPtr) : bool :=
  match ps with
  | [] => true
  | p :: ps' => forallb (fun q => np_ptr_off p + 8 <=? np_ptr_off q) ps' && ptrs_apart ps'
  end.

Definition counts_first (ps : list NestedPtr) : bool :=
  forallb (fun p => match np_len p with
                    | LenField off _ => forallb (fun q => off + 4 <=? np_ptr_off q) ps
                    | LenFixed _ => true
                    end) ps.

Lemma ptrs_apart_pairwise ps :
  ptrs_apart ps = true -> pairwise (fun p q => np_ptr_off p + 8 <= np_ptr_off q) ps.
Proof.
  induction ps as [|p ps IH]; simpl; [done|]. intros [Hp Hps]%andb_true_iff.
  split; [|by apply IH]. apply Forall_forall. intros q Hq.
  apply Z.leb_le. exact (forallb_elem _ _ _ Hp Hq).
Qed.

Lemma nested_ptrs_layout cmd :
  pairwise (fun p q => np_ptr_off p + 8 <= np_ptr_off q) (nested_ptrs cmd) /\
  forall p q off elem, p ∈ nested_ptrs cmd -> q ∈ nested_ptrs cmd ->
    np_len p = LenField off elem -> off + 4 <= np_ptr_off q.
Proof.
  pose proof (nested_ptrs_check (fun _ ps => ptrs_apart ps && counts_first ps) cmd
    (fun _ => eq_refl) eq_refl) as [Ha Hc]%andb_true_iff.
  split; [by apply ptrs_apart_pairwise|]. intros p q off elem Hp Hq Hl.
  pose proof (forallb_elem _ _ _ Hc Hp) as Hf. cbv beta in Hf. rewrite Hl in Hf.
  apply Z.leb_le. exact (forallb_elem _ _ _ Hf Hq).
Qed.

(** Controls whose parameters are edited otherwise have no nested pointers. *)
Lemma nested_ptrs_special cmd :
  is_Some (ctrl_fd_offset cmd) \/ cmd = NV_SEMAPHORE_SURFACE_CTRL_CMD_REGISTER_WAITER \/
  cmd = NV_SEMAPHORE_SURFACE_CTRL_CMD_UNREGISTER_WAITER -> nested_ptrs cmd = [].
Proof.
  intros [Hf|[->| ->]]; [|done..]. unfold ctrl_fd_offset in Hf.
  apply match_nr_is_Some in Hf. vm_compute (match_keys _) in Hf.
  repeat (apply elem_of_cons in Hf as [->|Hf]; [done|]). by apply elem_of_nil in Hf.
Qed.

Lemma embedded_alloc_len (A : RmAbi) hclass n :
  RmAbiOk A -> alloc_param_size (A:=A) hclass = Some n -> 0 < n <= u32_max.
Proof. intros HA Hn%alloc_param_size_bounds; [|done]. unfold u32_max. lia. Qed.

Lemma embedded_ptr_spec (A : RmAbi) (dev : Dev) (nr : Z) (buf : bytes) :
  RmAbiOk A -> wf_bytes buf ->
  no_panic (embedded_ptr (A:=A) dev nr buf (blen buf)) /\
  forall e, embedded_ptr (A:=A) dev nr buf (blen buf) = Ok (Some e) ->
    is_uvm dev = false /\
    0 <= emb_ptr_off e /\ emb_ptr_off e + 8 <= blen buf /\ 0 < emb_len e <= u32_max /\
    (exists p, get_u64 buf (emb_ptr_off e) = Some p /\ p <> 0) /\
    (nr = NV_ESC_RM_ALLOC -> exists c, get_u32 buf 12 = Some c /\
       alloc_param_size (A:=A) c = Some (emb_len e)) /\
    (nr <> NV_ESC_RM_GET_EVENT_DATA -> emb_ptr_off e = 16).
Proof.
  intros HA Hb. unfold embedded_ptr. split.
  - assert (size_of NVOS41_PARAMETERS = 16) as H41 by by vm_compute.
    no_panic; bool_cases; try (apply or_panic_get; simpl; lia).
  - intros e He. destruct (is_uvm dev) eqn:Hu; [done|]. split; [done|].
    assert (size_of NVOS41_PARAMETERS = 16) as H41 by by vm_compute.
    assert (0 < wrap32 (size_of NvUnixEvent) <= u32_max) as Hev by (by vm_compute).
    destruct ((nr =? NV_ESC_RM_CONTROL) && (32 <=? blen buf)) eqn:Hc; [bools; subst nr|].
    { destruct (get_u32 buf 24) as [plen|] eqn:Hplen; [|done]; outcome_simpl He.
      destruct (get_u64 buf 16) as [pptr|] eqn:Hpptr; [|done]; outcome_simpl He.
      destruct (get_u32_bounds _ _ _ Hb Hplen).
      inv_ok. cbn [emb_ptr_off emb_len]. split_and!; try lia; [eauto|intros Hx; by vm_compute in Hx]. }
    destruct ((nr =? NV_ESC_RM_ALLOC) && ((blen buf =? 48) || (blen buf =? 32))) eqn:Ha.
    { destruct (get_u64 buf 16) as [pptr|] eqn:Hpptr; [|done]; outcome_simpl He.
      destruct (pptr =? 0) eqn:?; [done|].
      inv_ok; case_match eqn:Hlen; simplify_eq; cbn [emb_ptr_off emb_len];
        destruct (embedded_alloc_len A _ _ HA Hlen);
        split_and!; try lia; try (bool_cases; lia); eauto. }
    destruct ((nr =? NV_ESC_RM_GET_EVENT_DATA) && (size_of NVOS41_PARAMETERS <=? blen buf)) eqn:Hg;
      [bools; subst nr|done].
    destruct (get_u64 buf 0) as [pptr|] eqn:Hpptr; [|done]; outcome_simpl He.
    inv_ok. cbn [emb_ptr_off emb_len]. split_and!; try lia; try exact (proj1 Hev); try exact (proj2 Hev); [eauto|intros Hx; by vm_compute in Hx].
Qed.

(** On a buffer of the stated size, looking for the embedded pointer never
    reads outside it; a pointer it reports lies inside the inline payload, is
    not null and has a nonzero 32-bit length; for an allocation that length is
    the class's parameter size, and only event data keeps its pointer
    elsewhere than at offset 16. *)
Theorem embedded_ptr_safe (A : RmAbi) (dev : Dev) (nr : Z) (buf : bytes) :
  RmAbiOk A -> wf_bytes buf ->
  no_panic (embedded_ptr (A:=A) dev nr buf (blen buf)) /\
  forall e, embedded_ptr (A:=A) dev nr buf (blen buf) = Ok (Some e) ->
    is_uvm dev = false /\
    0 <= emb_ptr_off e /\ emb_ptr_off e + 8 <= blen buf /\ 0 < emb_len e <= u32_max /\
    (exists p, get_u64 buf (emb_ptr_off e) = Some p /\ p <> 0) /\
    (nr = NV_ESC_RM_ALLOC -> exists c, get_u32 buf 12 = Some c /\
       alloc_param_size (A:=A) c = Some (emb_len e)) /\
    (nr <> NV_ESC_RM_GET_EVENT_DATA -> emb_ptr_off e = 16).
Proof. apply embedded_ptr_spec. Qed.

Lemma embedded_ptr_safe_witness :
  let buf := put_range (put_range (replicate 32 0) 16 [1]) 24 [7] in
  no_panic (embedded_ptr (A:=V615) Ctl NV_ESC_RM_CONTROL buf (blen buf)).
Proof.
  intros buf. apply (embedded_ptr_safe V615 Ctl NV_ESC_RM_CONTROL buf V615_ok).
  repeat constructor; unfold is_byte; vm_compute; congruence.
Defined.

(** When the envelope of a request has the size its descriptor demands (the
    selected driver's UVM structure, or an accepted frontend size), the file
    descriptor field the backend translates lies inside it. *)
Theorem fd_field_inside (A : RmAbi) (dev : Dev) (nr size off : Z) :
  fd_field_offset dev nr size = Some off ->
  (dev = Uvm -> uvm_param_size_for (A:=A) nr = Some size -> 0 <= off /\ off + 4 <= size) /\
  (is_uvm dev = false -> forall s, frontend_size nr = Some s -> accepts s size = true ->
     0 <= off /\ off + 4 <= size).
Proof.
  intros Hf. split.
  - intros ->. unfold fd_field_offset in Hf. simpl is_uvm in Hf. cbn iota in Hf.
    apply match_nr_Some in Hf as (ks & Hr & Hk). intros Hs.
    repeat (apply elem_of_cons in Hr as [Hr|Hr];
      [injection Hr as -> ->; apply elem_of_cons in Hk as [->|Hk];
       [vm_compute in Hs; injection Hs as <-; lia|by apply not_elem_of_nil in Hk]|]).
    by apply not_elem_of_nil in Hr.
  - intros Hd s Hs Ha. unfold fd_field_offset in Hf. rewrite Hd in Hf.
    eapply (match_nr_check (fun k o => match frontend_size k with
      | Some (Fixed n) => (0 <=? o) && (o + 4 <=? n) | _ => false end)) in Hf; [|by vm_compute].
    rewrite Hs in Hf. destruct s; try done. simpl in Ha. bools. lia.
Qed.

Lemma fd_field_inside_witness :
  fd_field_offset Uvm uvm.REGISTER_GPU 40 = Some 24 /\ 24 + 4 <= 40.
Proof.
  split; [reflexivity|].
  apply (proj1 (fd_field_inside V610 Uvm uvm.REGISTER_GPU 40 24 eq_refl)); reflexivity.
Defined.
