(* ===== verification/Tables.v ===== *)
(** * The forwarding tables on the wire (nvrm-wire/src/tables.rs,
    nvrm-abi/src/table.rs; guest-module/virtio_nvrm/nvrm_tables.c)

    The backend serialises what [Xlate] knows about ioctls, classes and
    controls; the guest module fetches the stream, checks it and looks rows up
    while it packs requests.  Both sides are modelled: [build] and
    [serialize] of the host, [nvrm_tables_parse] and the lookups of the
    guest. *)
From stdpp Require Import strings.
From S2P Require Import Prelude.
From S2P Require Import Bytes.
From S2P Require Import Wire.
From S2P Require Import CLayout.
From S2P Require Import SysConsts.
From S2P Require Import Sys.
From S2P Require Import SysLayout.
From S2P Require Import NvAbi.
From S2P Require Import Xlate.

Local Open Scope list_scope.
Local Open Scope Z_scope.

(** ** The format *)
Definition TABLE_MAGIC : Z := le_val [78; 86; 82; 84].
Definition TABLE_VERSION : Z := 1.
Definition NONE : Z := u32_max.
Definition SIZE_FROM_IOC : Z := u32_max.
Definition EMB_NONE : Z := 0.
Definition EMB_LEN_FIELD : Z := 1.
Definition EMB_LEN_CLASS : Z := 2.
Definition EMB_LEN_FIXED : Z := 3.
Definition F_XFER : Z := Z.shiftl 1 0.
Definition F_OSDESC : Z := Z.shiftl 1 1.
Definition F_FREE : Z := Z.shiftl 1 2.
Definition HDR_LEN : Z := 96.
Definition IOCTL_DESC_LEN : Z := 48.
Definition CLASS_DESC_LEN : Z := 24.
Definition CTRL_DESC_LEN : Z := 20.
Definition NESTED_DESC_LEN : Z := 16.
Definition CF_BLOCK : Z := Z.shiftl 1 0.
Definition CF_FD : Z := Z.shiftl 1 1.
Definition KF_UNVERIFIED : Z := Z.shiftl 1 0.
Definition NLEN_FIXED : Z := 0.
Definition NLEN_FIELD : Z := 1.

Record TableHdr := MkTableHdr {
  magic : Z; table_version : Z; total_len : Z; checksum : Z;
  n_ioctl : Z; n_class : Z; n_ctrl : Z; n_nested : Z;
  xfer_nr : Z; xfer_struct_len : Z; xfer_cmd_off : Z; xfer_size_off : Z; xfer_ptr_off : Z;
  max_ioctl_size : Z;
  osdesc_class : Z; osdesc_pmem_off : Z; osdesc_limit_off : Z; osdesc_status_off : Z; osdesc_handle_off : Z;
  max_inline : Z; max_aux : Z; max_nested : Z; pad0 : Z; pad1 : Z }.

Record IoctlDesc := MkIoctlDesc {
  id_dev : Z; id_nr : Z; id_size : Z; id_fd_off : Z; id_emb_ptr_off : Z; emb_len_kind : Z; emb_len_off : Z;
  cmd_off : Z; rights_off : Z; rights_if_size : Z; handle_off : Z; id_flags : Z }.

Record ClassDesc := MkClassDesc {
  cl_hclass : Z; param_size : Z; cl_fd_off : Z; cl_flags : Z; fd_if_off : Z; fd_if_val : Z }.

Record CtrlDesc := MkCtrlDesc { ct_cmd : Z; first : Z; count : Z; ct_flags : Z; ct_fd_off : Z }.

Record NestedDescRow := MkNestedRow { nr_ptr_off : Z; len_kind : Z; len_off : Z; elem : Z }.

(** Every record is a sequence of little-endian words. *)
Definition hdr_words (h : TableHdr) : list Z :=
  [magic h; table_version h; total_len h; checksum h; n_ioctl h; n_class h; n_ctrl h; n_nested h; xfer_nr h;
   xfer_struct_len h; xfer_cmd_off h; xfer_size_off h; xfer_ptr_off h; max_ioctl_size h; osdesc_class h;
   osdesc_pmem_off h; osdesc_limit_off h; osdesc_status_off h; osdesc_handle_off h; max_inline h; max_aux h;
   max_nested h; pad0 h; pad1 h].
Definition ioctl_words (d : IoctlDesc) : list Z :=
  [id_dev d; id_nr d; id_size d; id_fd_off d; id_emb_ptr_off d; emb_len_kind d; emb_len_off d; cmd_off d;
   rights_off d; rights_if_size d; handle_off d; id_flags d].
Definition class_words (c : ClassDesc) : list Z :=
  [cl_hclass c; param_size c; cl_fd_off c; cl_flags c; fd_if_off c; fd_if_val c].
Definition ctrl_words (c : CtrlDesc) : list Z := [ct_cmd c; first c; count c; ct_flags c; ct_fd_off c].
Definition nested_row_words (n : NestedDescRow) : list Z := [nr_ptr_off n; len_kind n; len_off n; elem n].

#[export] Instance TableHdr_pod : Pod TableHdr := {
  pod_layout := replicate 24 4%nat; pod_words := hdr_words; pod_wf h := Forall is_u32 (hdr_words h);
  pod_of_words l := MkTableHdr (nth 0 l 0) (nth 1 l 0) (nth 2 l 0) (nth 3 l 0) (nth 4 l 0) (nth 5 l 0) (nth 6 l 0)
    (nth 7 l 0) (nth 8 l 0) (nth 9 l 0) (nth 10 l 0) (nth 11 l 0) (nth 12 l 0) (nth 13 l 0) (nth 14 l 0) (nth 15 l 0)
    (nth 16 l 0) (nth 17 l 0) (nth 18 l 0) (nth 19 l 0) (nth 20 l 0) (nth 21 l 0) (nth 22 l 0) (nth 23 l 0) }.
#[export] Instance IoctlDesc_pod : Pod IoctlDesc := {
  pod_layout := replicate 12 4%nat; pod_words := ioctl_words; pod_wf d := Forall is_u32 (ioctl_words d);
  pod_of_words l := MkIoctlDesc (nth 0 l 0) (nth 1 l 0) (nth 2 l 0) (nth 3 l 0) (nth 4 l 0) (nth 5 l 0) (nth 6 l 0)
    (nth 7 l 0) (nth 8 l 0) (nth 9 l 0) (nth 10 l 0) (nth 11 l 0) }.
#[export] Instance ClassDesc_pod : Pod ClassDesc := {
  pod_layout := replicate 6 4%nat; pod_words := class_words; pod_wf c := Forall is_u32 (class_words c);
  pod_of_words l := MkClassDesc (nth 0 l 0) (nth 1 l 0) (nth 2 l 0) (nth 3 l 0) (nth 4 l 0) (nth 5 l 0) }.
#[export] Instance CtrlDesc_pod : Pod CtrlDesc := {
  pod_layout := replicate 5 4%nat; pod_words := ctrl_words; pod_wf c := Forall is_u32 (ctrl_words c);
  pod_of_words l := MkCtrlDesc (nth 0 l 0) (nth 1 l 0) (nth 2 l 0) (nth 3 l 0) (nth 4 l 0) }.
#[export] Instance NestedDescRow_pod : Pod NestedDescRow := {
  pod_layout := replicate 4 4%nat; pod_words := nested_row_words; pod_wf n := Forall is_u32 (nested_row_words n);
  pod_of_words l := MkNestedRow (nth 0 l 0) (nth 1 l 0) (nth 2 l 0) (nth 3 l 0) }.

Definition fnv1a32 (b : bytes) : Z :=
  foldl (fun h x => wrap32 (Z.lxor h x * 0x01000193)) 0x811c9dc5 b.

(** ** Collecting the rows *)
Definition UVM_SCAN_MAX : Z := 2047.
Definition UVM_SPECIAL : list Z := [uvm.INITIALIZE; uvm.DEINITIALIZE].
Definition CLASS_SCAN_MAX : Z := 0xffff.
Definition FRONTEND_SCAN_MAX : Z := 0xff.

Definition NVOS54_CMD_OFF : Z := 8.
Definition NVOS54_PARAMS_OFF : Z := 16.
Definition NVOS54_PARAMSSIZE_OFF : Z := 24.
Definition NVOS64_HCLASS_OFF : Z := 12.
Definition NVOS64_PARAMS_OFF : Z := 16.
Definition NVOS64_RIGHTS_OFF : Z := 24.
Definition NVOS64_LEN : Z := 48.
Definition NVOS00_HOBJECTOLD_OFF : Z := 8.
Definition NVOS02_HOBJECTNEW_OFF : Z := 8.
Definition NVOS02_HCLASS_OFF : Z := 12.
Definition NVOS02_PMEMORY_OFF : Z := 24.
Definition NVOS02_LIMIT_OFF : Z := 32.
Definition NVOS02_STATUS_OFF : Z := 40.
Definition OSDESC_CLASS : Z := 0x71.

(** The assertions the build makes about them. *)
Definition offsets_asserted : bool :=
  forallb (fun p => p.1 =? p.2)
    [(NVOS54_CMD_OFF, offset_of NVOS54_PARAMETERS "cmd"); (NVOS54_PARAMS_OFF, offset_of NVOS54_PARAMETERS "params");
     (NVOS54_PARAMSSIZE_OFF, offset_of NVOS54_PARAMETERS "paramsSize");
     (NVOS64_HCLASS_OFF, offset_of NVOS64_PARAMETERS "hClass"); (NVOS64_PARAMS_OFF, offset_of NVOS64_PARAMETERS "pAllocParms");
     (NVOS64_RIGHTS_OFF, offset_of NVOS64_PARAMETERS "pRightsRequested"); (NVOS64_LEN, size_of NVOS64_PARAMETERS);
     (NVOS00_HOBJECTOLD_OFF, offset_of NVOS00_PARAMETERS "hObjectOld");
     (NVOS02_HOBJECTNEW_OFF, offset_of NVOS02_PARAMETERS "hObjectNew"); (NVOS02_HCLASS_OFF, offset_of NVOS02_PARAMETERS "hClass");
     (NVOS02_PMEMORY_OFF, offset_of NVOS02_PARAMETERS "pMemory"); (NVOS02_LIMIT_OFF, offset_of NVOS02_PARAMETERS "limit");
     (NVOS02_STATUS_OFF, offset_of NVOS02_PARAMETERS "status")].

Record Parts := MkParts {
  ioctls : list IoctlDesc; classes : list ClassDesc; ctrls : list CtrlDesc; nested_rows : list NestedDescRow }.

Definition desc (dev nr : Z) : IoctlDesc :=
  MkIoctlDesc dev nr SIZE_FROM_IOC NONE NONE EMB_NONE NONE NONE NONE NONE NONE 0.

Definition set_size_fd (d : IoctlDesc) (size fd : Z) : IoctlDesc :=
  MkIoctlDesc (id_dev d) (id_nr d) size fd (id_emb_ptr_off d) (emb_len_kind d) (emb_len_off d) (cmd_off d)
    (rights_off d) (rights_if_size d) (handle_off d) (id_flags d).

(** The fields of [Special], on a row of their own. *)
Record Special := MkSpecial {
  sp_emb_ptr_off : Z; sp_emb_len_kind : Z; sp_emb_len_off : Z; sp_cmd_off : Z; sp_rights_off : Z;
  sp_rights_if_size : Z; sp_handle_off : Z; sp_flags : Z }.

Definition frontend_special (nr : Z) : option Special :=
  if nr =? NV_ESC_RM_CONTROL then
    Some (MkSpecial NVOS54_PARAMS_OFF EMB_LEN_FIELD NVOS54_PARAMSSIZE_OFF NVOS54_CMD_OFF NONE NONE NONE 0)
  else if nr =? NV_ESC_RM_ALLOC then
    Some (MkSpecial NVOS64_PARAMS_OFF EMB_LEN_CLASS NVOS64_HCLASS_OFF NONE NVOS64_RIGHTS_OFF NVOS64_LEN NONE 0)
  else if nr =? NV_ESC_RM_FREE then
    Some (MkSpecial NONE EMB_NONE NONE NONE NONE NONE NVOS00_HOBJECTOLD_OFF F_FREE)
  else if nr =? NV_ESC_RM_ALLOC_MEMORY then
    Some (MkSpecial NONE EMB_NONE NVOS02_HCLASS_OFF NONE NONE NONE NVOS02_HOBJECTNEW_OFF F_OSDESC)
  else if nr =? NV_ESC_IOCTL_XFER_CMD then
    Some (MkSpecial NONE EMB_NONE NONE NONE NONE NONE NONE F_XFER)
  else if nr =? NV_ESC_RM_GET_EVENT_DATA then
    Some (MkSpecial (wrap32 (offset_of NVOS41_PARAMETERS "pEvent")) EMB_LEN_FIXED (wrap32 (size_of NvUnixEvent))
            NONE NONE NONE NONE 0)
  else None.

Definition with_special (d : IoctlDesc) (s : Special) : IoctlDesc :=
  MkIoctlDesc (id_dev d) (id_nr d) (id_size d) (id_fd_off d) (sp_emb_ptr_off s) (sp_emb_len_kind s)
    (sp_emb_len_off s) (sp_cmd_off s) (sp_rights_off s) (sp_rights_if_size s) (sp_handle_off s) (sp_flags s).

(** [nested_ptrs] as rows. *)
Definition nested_row (p : NestedPtr) : NestedDescRow :=
  match np_len p with
  | LenFixed n => MkNestedRow (np_ptr_off p) NLEN_FIXED n 1
  | LenField off elem => MkNestedRow (np_ptr_off p) NLEN_FIELD off elem
  end.

(** The three loops over controls. *)
Definition push_nested (s : list CtrlDesc * list NestedDescRow) (cmd : Z)
  : outcome Empty_set (list CtrlDesc * list NestedDescRow) :=
  let '(cs, ns) := s in
  let specs := nested_ptrs cmd in
  match specs with
  | [] => Panic
  | _ =>
      let fd := ctrl_fd_offset cmd in
      Ok (cs ++ [MkCtrlDesc cmd (wrap32 (Z.of_nat (length ns))) (wrap32 (Z.of_nat (length specs)))
                   (Z.lor (if ctrl_blocked cmd then CF_BLOCK else 0) (if bool_decide (is_Some fd) then CF_FD else 0))
                   (default NONE fd)],
          ns ++ map nested_row specs)
  end.

Definition push_blocked (cs : list CtrlDesc) (cmd : Z) : list CtrlDesc :=
  if existsb (fun c => ct_cmd c =? cmd) cs then cs else cs ++ [MkCtrlDesc cmd 0 0 CF_BLOCK NONE].

(** [iter_mut().find(..)]: the first row of [cmd] learns its descriptor. *)
Fixpoint set_fd (cs : list CtrlDesc) (cmd off : Z) : option (list CtrlDesc) :=
  match cs with
  | [] => None
  | c :: cs' =>
      if ct_cmd c =? cmd
      then Some (MkCtrlDesc (ct_cmd c) (first c) (count c) (Z.lor (ct_flags c) CF_FD) off :: cs')
      else cons c <$> set_fd cs' cmd off
  end.

Definition push_fd (cs : list CtrlDesc) (cmd : Z) : outcome Empty_set (list CtrlDesc) :=
  match ctrl_fd_offset cmd with
  | None => Panic
  | Some off => Ok (default (cs ++ [MkCtrlDesc cmd 0 0 CF_FD off]) (set_fd cs cmd off))
  end.

Fixpoint fold_loop {S X} (f : S -> X -> outcome Empty_set S) (s : S) (l : list X) : outcome Empty_set S :=
  match l with
  | [] => Ok s
  | x :: l' => s ← f s x; fold_loop f s l'
  end.

Definition collect_ctrls : outcome Empty_set (list CtrlDesc * list NestedDescRow) :=
  s ← fold_loop push_nested ([], []) nested_cmds;
  let cs := foldl push_blocked s.1 blocked_ctrls in
  cs ← fold_loop push_fd cs ctrl_fd_cmds;
  Ok (cs, s.2).

Section collect.
Context {A : RmAbi}.

Definition uvm_row (tag : Z) (dev : Dev) (nr : Z) : option IoctlDesc :=
  size ← uvm_param_size_for nr;
  Some (set_size_fd (desc tag nr) size (default NONE (fd_field_offset dev nr size))).

Definition frontend_row (tag : Z) (dev : Dev) (nr : Z) : option IoctlDesc :=
  let special := frontend_special nr in
  match frontend_size nr, special with
  | None, None => None
  | _, _ =>
      let d := desc tag nr in
      let d := set_size_fd d (id_size d) (default NONE (fd_field_offset dev nr 0)) in
      Some (match special with Some s => with_special d s | None => d end)
  end.

Definition class_row (hclass : Z) : option ClassDesc :=
  size ← alloc_param_size hclass;
  Some (MkClassDesc hclass size (default NONE (alloc_fd_field hclass))
          (if alloc_class_verified hclass then 0 else KF_UNVERIFIED)
          (default NONE (fst <$> alloc_fd_guard hclass)) (default 0 (snd <$> alloc_fd_guard hclass))).

Definition collect_ioctls : list IoctlDesc :=
  omap (uvm_row (DevTag.to_u32 DevTag.Uvm) Uvm) (seqZ 0 (UVM_SCAN_MAX + 1) ++ UVM_SPECIAL) ++
  omap (uvm_row (DevTag.to_u32 DevTag.UvmTools) UvmTools) (seqZ 0 (UVM_SCAN_MAX + 1) ++ UVM_SPECIAL) ++
  omap (frontend_row (DevTag.to_u32 DevTag.Ctl) Ctl) (seqZ 0 (FRONTEND_SCAN_MAX + 1)) ++
  omap (frontend_row (DevTag.to_u32 DevTag.Gpu) Gpu) (seqZ 0 (FRONTEND_SCAN_MAX + 1)).

Definition collect_classes : list ClassDesc := omap class_row (seqZ 0 (CLASS_SCAN_MAX + 1)).

(** What [embedded_ptr] must say of a sample payload. *)
Definition expect_embedded (nr : Z) (buf : bytes) (off len : Z) : outcome Empty_set unit :=
  match embedded_ptr Ctl nr buf (blen buf) with
  | Ok (Some e) => if (emb_ptr_off e =? off) && (emb_len e =? len) then Ok tt else Panic
  | _ => Panic
  end.

Definition verify_against_xlate : outcome Empty_set unit :=
  let ctrl := put_range (put_range (replicate 32 0) 16 (le_bytes 8 0xdeadbeef)) 24 (le_bytes 4 1234) in
  _ ← expect_embedded NV_ESC_RM_CONTROL ctrl NVOS54_PARAMS_OFF 1234;
  want ← or_panic (alloc_param_size 0x2080);
  let alloc := put_range (put_range (replicate 48 0) 12 (le_bytes 4 0x2080)) 16 (le_bytes 8 0xdeadbeef) in
  _ ← expect_embedded NV_ESC_RM_ALLOC alloc NVOS64_PARAMS_OFF want;
  _ ← match embedded_ptr Ctl NV_ESC_RM_ALLOC (put_range alloc 24 (le_bytes 8 1)) 48 with
      | Err _ => Ok tt | _ => Panic end;
  let event := put_range (replicate 16 0) 0 (le_bytes 8 0xdeadbeef) in
  _ ← expect_embedded NV_ESC_RM_GET_EVENT_DATA event 0 (wrap32 (size_of NvUnixEvent));
  if NV_ESC_RM_ALLOC_MEMORY =? uvm.PAGEABLE_MEM_ACCESS then Ok tt else Panic.

Definition collect : outcome Empty_set Parts :=
  _ ← verify_against_xlate;
  cn ← collect_ctrls;
  Ok (MkParts collect_ioctls collect_classes cn.1 cn.2).

End collect.

(** ** Serialising *)
Definition len32 {X} (l : list X) : Z := wrap32 (Z.of_nat (length l)).

Definition header_words (p : Parts) (total sum : Z) : TableHdr :=
  MkTableHdr TABLE_MAGIC TABLE_VERSION total sum (len32 (ioctls p)) (len32 (classes p)) (len32 (ctrls p))
    (len32 (nested_rows p)) NV_ESC_IOCTL_XFER_CMD (wrap32 (size_of nv_ioctl_xfer_t))
    (wrap32 (offset_of nv_ioctl_xfer_t "cmd")) (wrap32 (offset_of nv_ioctl_xfer_t "size"))
    (wrap32 (offset_of nv_ioctl_xfer_t "ptr")) (wrap32 ABSOLUTE_MAX_IOCTL_SIZE) OSDESC_CLASS NVOS02_PMEMORY_OFF
    NVOS02_LIMIT_OFF NVOS02_STATUS_OFF NVOS02_HOBJECTNEW_OFF (wrap32 MAX_PAYLOAD) (wrap32 MAX_AUX)
    (wrap32 (Z.of_nat MAX_NESTED)) 0 0.

Definition rows {X} `{Pod X} (l : list X) : bytes := concat (map as_bytes l).

Definition body (p : Parts) : bytes :=
  rows (ioctls p) ++ rows (classes p) ++ rows (ctrls p) ++ rows (nested_rows p).

(** The header is always 24 words ([TableHdr_pod]), as the code asserts. *)
Definition serialize (p : Parts) : bytes * Z :=
  let b := body p in let sum := fnv1a32 b in let total := wrap32 (HDR_LEN + blen b) in
  (as_bytes (header_words p total sum) ++ b, sum).

Record Tables := MkTables {
  tb_bytes : bytes; tb_checksum : Z; tb_version : Z;
  tb_n_ioctl : Z; tb_n_class : Z; tb_n_ctrl : Z; tb_n_nested : Z }.

Definition build {A : RmAbi} : outcome Empty_set Tables :=
  p ← collect;
  let '(b, sum) := serialize p in
  Ok (MkTables b sum TABLE_VERSION (len32 (ioctls p)) (len32 (classes p)) (len32 (ctrls p)) (len32 (nested_rows p))).

(** ** The guest (nvrm_tables.c, virtio_nvrm.c) *)
Definition NVRM_XFER_HEADER_MAX : Z := 64.
Definition SZ_1M : Z := 0x100000.

Definition nvrm_range_valid (offset size total : Z) : bool := (offset <=? total) && (size <=? total - offset).

(** Row [i] of a table that starts at [base]. *)
Definition row_at {X} `{Pod X} (blob : bytes) (base : Z) (i : nat) : option X :=
  from_bytes (drop (Z.to_nat (base + Z.of_nat i * WIRE_LEN X)) blob).

Definition table_at {X} `{Pod X} (blob : bytes) (base n : Z) : list X :=
  omap (row_at blob base) (List.seq 0 (Z.to_nat n)).

Record GuestTables := MkGuestTables {
  g_hdr : TableHdr; g_ioctls : list IoctlDesc; g_classes : list ClassDesc;
  g_ctrls : list CtrlDesc; g_nested : list NestedDescRow }.

Inductive Why :=
| ShortStream | WrongMagic | WrongVersion | WrongTotal | WrongCounts | WrongChecksum
| TooManyNested | LimitsExceeded | XferOutside | BadControl.

Definition ctrl_valid (h : TableHdr) (c : CtrlDesc) : bool :=
  negb (max_nested h <? count c) && nvrm_range_valid (first c) (count c) (n_nested h).

Definition nvrm_tables_parse (blob : bytes) : outcome Why GuestTables :=
  let len := blen blob in
  h ← ok_or (from_bytes (A:=TableHdr) blob) ShortStream;
  fail_if! negb (magic h =? TABLE_MAGIC) with WrongMagic;
  fail_if! negb (table_version h =? TABLE_VERSION) with WrongVersion;
  fail_if! negb (total_len h =? len) with WrongTotal;
  let need := WIRE_LEN TableHdr + n_ioctl h * WIRE_LEN IoctlDesc + n_class h * WIRE_LEN ClassDesc +
              n_ctrl h * WIRE_LEN CtrlDesc + n_nested h * WIRE_LEN NestedDescRow in
  fail_if! negb (need =? len) with WrongCounts;
  fail_if! negb (fnv1a32 (drop (Z.to_nat (WIRE_LEN TableHdr)) blob) =? checksum h) with WrongChecksum;
  fail_if! Z.of_nat MAX_NESTED <? max_nested h with TooManyNested;
  fail_if! (MAX_PAYLOAD <? max_inline h) || (MAX_PAYLOAD <? max_ioctl_size h) || (MAX_AUX <? max_aux h)
    with LimitsExceeded;
  fail_if! (NVRM_XFER_HEADER_MAX <? xfer_struct_len h) ||
    negb (nvrm_range_valid (xfer_cmd_off h) 4 (xfer_struct_len h)) ||
    negb (nvrm_range_valid (xfer_size_off h) 4 (xfer_struct_len h)) ||
    negb (nvrm_range_valid (xfer_ptr_off h) 8 (xfer_struct_len h)) with XferOutside;
  let ioctls := WIRE_LEN TableHdr in
  let classes := ioctls + n_ioctl h * WIRE_LEN IoctlDesc in
  let ctrls := classes + n_class h * WIRE_LEN ClassDesc in
  let nested := ctrls + n_ctrl h * WIRE_LEN CtrlDesc in
  let cs := table_at blob ctrls (n_ctrl h) in
  if forallb (ctrl_valid h) cs
  then Ok (MkGuestTables h (table_at blob ioctls (n_ioctl h)) (table_at blob classes (n_class h)) cs
             (table_at blob nested (n_nested h)))
  else Err BadControl.

Definition find_ioctl (l : list IoctlDesc) (dev nr : Z) : option IoctlDesc :=
  find (fun d => (id_dev d =? dev) && (id_nr d =? nr)) l.
Definition find_class (l : list ClassDesc) (hclass : Z) : option ClassDesc :=
  find (fun c => cl_hclass c =? hclass) l.
Definition find_ctrl (l : list CtrlDesc) (cmd : Z) : option CtrlDesc :=
  find (fun c => ct_cmd c =? cmd) l.

(** The descriptor of the embedded buffer in [gather_embedded]: where its
    pointer is and how long it is, before anything is copied.  [inl] is the
    inline structure; EOPNOTSUPP and ENOTSUP are one number. *)
Definition gather_length (t : GuestTables) (d : IoctlDesc) (inl : bytes) : outcome Z (option (Z * Z)) :=
  let size := blen inl in
  if id_emb_ptr_off d =? NONE then Ok None
  else
    fail_if! negb (nvrm_range_valid (id_emb_ptr_off d) 8 size) with EINVAL;
    let blocked :=
      if negb (cmd_off d =? NONE) && nvrm_range_valid (cmd_off d) 4 size
      then match get_u32 inl (cmd_off d) ≫= find_ctrl (g_ctrls t) with
           | Some c => negb (Z.land (ct_flags c) CF_BLOCK =? 0)
           | None => false
           end
      else false in
    fail_if! blocked with EPERM;
    ptr ← or_panic (get_u64 inl (id_emb_ptr_off d));
    if ptr =? 0 then Ok None
    else
      plen ←
        (if emb_len_kind d =? EMB_LEN_FIELD then
           fail_if! negb (nvrm_range_valid (emb_len_off d) 4 size) with EINVAL;
           or_panic (get_u32 inl (emb_len_off d))
         else if emb_len_kind d =? EMB_LEN_CLASS then
           fail_if! negb (nvrm_range_valid (emb_len_off d) 4 size) with EINVAL;
           hclass ← or_panic (get_u32 inl (emb_len_off d));
           match find_class (g_classes t) hclass with
           | None => Err ENOTSUP
           | Some cls =>
               if negb (rights_off d =? NONE) && (size =? rights_if_size d) then
                 fail_if! negb (nvrm_range_valid (rights_off d) 8 size) with EINVAL;
                 r ← or_panic (get_u64 inl (rights_off d));
                 if r =? 0 then Ok (param_size cls) else Err ENOTSUP
               else Ok (param_size cls)
           end
         else if emb_len_kind d =? EMB_LEN_FIXED then Ok (emb_len_off d)
         else Ok 0);
      if plen =? 0 then Ok None
      else if max_aux (g_hdr t) <? plen then Err EMSGSIZE
      else Ok (Some (id_emb_ptr_off d, plen)).

(** ** Rows *)
Lemma fits_u32 l : fits (replicate (length l) 4%nat) l <-> Forall is_u32 l.
Proof.
  induction l as [|x l IH]; cbn; [by split; constructor|]. split.
  - intros Hf. apply Forall2_cons in Hf as [Hx Hf]. constructor; [by apply u32_fits|by apply IH].
  - intros Hf. apply Forall_cons in Hf as [Hx Hf]. constructor; [by apply u32_fits|by apply IH].
Qed.

Lemma fits_length ws l : fits ws l -> length l = length ws.
Proof. intros Hf. symmetry. by eapply Forall2_length. Qed.

Ltac list_of_length l Hn := cbn in Hn; repeat (destruct l as [|? l]; cbn in Hn; try discriminate Hn).

Ltac word_pod := split;
  [ intros a Ha; exact (proj2 (fits_u32 (pod_words a)) Ha)
  | by intros [] _
  | intros l Hl; pose proof (fits_length _ _ Hl) as Hn; list_of_length l Hn; reflexivity
  | intros l Hl; pose proof (fits_length _ _ Hl) as Hn; list_of_length l Hn;
    match type of Hl with fits _ ?w => exact (proj1 (fits_u32 w) Hl) end ].

#[export] Instance TableHdr_laws : PodLaws TableHdr.
Proof. word_pod. Qed.
#[export] Instance IoctlDesc_laws : PodLaws IoctlDesc.
Proof. word_pod. Qed.
#[export] Instance ClassDesc_laws : PodLaws ClassDesc.
Proof. word_pod. Qed.
#[export] Instance CtrlDesc_laws : PodLaws CtrlDesc.
Proof. word_pod. Qed.
#[export] Instance NestedDescRow_laws : PodLaws NestedDescRow.
Proof. word_pod. Qed.

Section rows.
Context {X : Type} `{PodLaws X}.

Lemma rows_length (l : list X) : Forall pod_wf l -> blen (rows l) = Z.of_nat (length l) * WIRE_LEN X.
Proof.
  induction 1 as [|x l Hx _ IH]; [done|]. unfold rows in *. cbn [map concat length].
  rewrite blen_app, IH, as_bytes_length by done. lia.
Qed.

Lemma rows_wf (l : list X) : wf_bytes (rows l).
Proof.
  induction l as [|x l IH]; [constructor|]. unfold rows in *. cbn [map concat].
  apply Forall_app. split; [apply as_bytes_wf|done].
Qed.

(** What was written is read back, wherever it is. *)
Lemma table_rows (l : list X) base blob : forall k pre rest, Forall pod_wf l ->
  blob = pre ++ rows l ++ rest -> blen pre = base + Z.of_nat k * WIRE_LEN X ->
  omap (row_at blob base) (List.seq k (length l)) = l.
Proof.
  induction l as [|x l IH]; intros k pre rest Hl Hb Hp; [done|].
  apply Forall_cons in Hl as [Hx Hl]. cbn [length List.seq omap list_omap].
  assert (row_at blob base k = Some x) as ->.
  { unfold row_at. rewrite Hb, drop_app_length' by (unfold blen in Hp; lia).
    unfold rows. cbn [map concat]. rewrite <- app_assoc. by apply from_bytes_as_bytes. }
  f_equal. apply (IH (S k) (pre ++ as_bytes x) rest); [done| |].
  - rewrite Hb. unfold rows. cbn [map concat]. by rewrite !app_assoc.
  - rewrite blen_app, as_bytes_length by done. lia.
Qed.

Lemma table_at_rows (l : list X) blob pre rest base n : Forall pod_wf l -> blob = pre ++ rows l ++ rest ->
  base = blen pre -> n = Z.of_nat (length l) -> table_at blob base n = l.
Proof.
  intros Hl Hb -> ->. unfold table_at. rewrite Nat2Z.id. by apply (table_rows l _ _ 0 pre rest); [..|cbn; lia].
Qed.
(** What is read is what is there. *)
Lemma rows_read blob base : 0 <= base -> wf_bytes blob -> forall n k, base + Z.of_nat (k + n) * WIRE_LEN X <= blen blob ->
  let l := omap (row_at blob base) (List.seq k n) in
  length l = n /\ Forall pod_wf l /\
  drop (Z.to_nat (base + Z.of_nat k * WIRE_LEN X)) blob = rows l ++ drop (Z.to_nat (base + Z.of_nat (k + n) * WIRE_LEN X)) blob.
Proof.
  intros Hb Hw. induction n as [|n IH]; intros k Hl l.
  { split_and!; [done|constructor|]. subst l. cbn. by rewrite Nat.add_0_r. }
  assert (0 <= WIRE_LEN X) as Hx by (unfold WIRE_LEN; lia).
  set (b := drop (Z.to_nat (base + Z.of_nat k * WIRE_LEN X)) blob).
  assert (WIRE_LEN X <= blen b) as Hlen.
  { unfold b, blen in *. rewrite length_drop. nia. }
  destruct (proj2 (from_bytes_is_Some b) Hlen) as [x Hrow].
  assert (wf_bytes b) as Hwb by (by apply Forall_drop). destruct (from_bytes_inv b x Hwb Hrow) as [Hwx Hb'].
  destruct (IH (S k)) as (L1 & L2 & L3); [rewrite <- Nat.add_succ_comm in Hl; done|].
  assert (l = x :: omap (row_at blob base) (List.seq (S k) n)) as El.
  { subst l. cbn [List.seq omap list_omap]. unfold row_at at 1. fold b. by rewrite Hrow. }
  rewrite El. split_and!; [cbn; by rewrite L1|by constructor|].
  unfold rows in *. cbn [map concat]. rewrite <- app_assoc, <- Nat.add_succ_comm, <- L3.
  rewrite <- (take_drop (Z.to_nat (WIRE_LEN X)) b) at 1. f_equal; [by rewrite Hb'|].
  unfold b. rewrite drop_drop. f_equal. nia.
Qed.

Lemma table_read blob base n : 0 <= base -> 0 <= n -> wf_bytes blob -> base + n * WIRE_LEN X <= blen blob ->
  Z.of_nat (length (table_at blob base n)) = n /\ Forall pod_wf (table_at blob base n) /\
  drop (Z.to_nat base) blob = rows (table_at blob base n) ++ drop (Z.to_nat (base + n * WIRE_LEN X)) blob.
Proof.
  intros Hb Hn Hw Hl. destruct (rows_read blob base Hb Hw (Z.to_nat n) 0) as (L1 & L2 & L3); [rewrite Nat.add_0_l, Z2Nat.id; done|].
  cbn in L3. rewrite Z.add_0_r in L3. rewrite Z2Nat.id in L3 by done.
  split_and!; [unfold table_at; rewrite L1; lia|done|done].
Qed.
End rows.

(** ** What the guest reads is what the host wrote *)
Record parts_ok (p : Parts) : Prop := {
  po_ioctls : Forall pod_wf (ioctls p); po_classes : Forall pod_wf (classes p);
  po_ctrls : Forall pod_wf (ctrls p); po_nested : Forall pod_wf (nested_rows p);
  po_total : HDR_LEN + blen (body p) <= u32_max;
  po_ranges : Forall (fun c => count c <= Z.of_nat MAX_NESTED /\
    first c + count c <= Z.of_nat (length (nested_rows p))) (ctrls p);
}.

Lemma fnv_u32 b : is_u32 (fnv1a32 b).
Proof.
  unfold fnv1a32. assert (is_u32 0x811c9dc5) as Hi by (vm_compute; split; congruence).
  revert Hi. generalize 0x811c9dc5. induction b as [|x b IH]; intros h Hh; [done|]. cbn [foldl].
  apply IH, wrap32_bounds.
Qed.

Lemma body_length p : parts_ok p -> blen (body p) =
  Z.of_nat (length (ioctls p)) * WIRE_LEN IoctlDesc + Z.of_nat (length (classes p)) * WIRE_LEN ClassDesc +
  Z.of_nat (length (ctrls p)) * WIRE_LEN CtrlDesc + Z.of_nat (length (nested_rows p)) * WIRE_LEN NestedDescRow.
Proof.
  intros [P1 P2 P3 P4 _ _]. unfold body. rewrite !blen_app, !rows_length by done. lia.
Qed.

Lemma wrap32_id z : 0 <= z <= u32_max -> wrap32 z = z.
Proof. unfold wrap32, u32_max. intros. apply Z.mod_small. lia. Qed.

(** No count wraps. *)
Lemma counts_small p : parts_ok p -> len32 (ioctls p) = Z.of_nat (length (ioctls p)) /\
  len32 (classes p) = Z.of_nat (length (classes p)) /\ len32 (ctrls p) = Z.of_nat (length (ctrls p)) /\
  len32 (nested_rows p) = Z.of_nat (length (nested_rows p)).
Proof.
  intros Hp. pose proof (body_length p Hp) as Hb. pose proof (po_total p Hp) as Ht.
  change (WIRE_LEN IoctlDesc) with 48 in Hb. change (WIRE_LEN ClassDesc) with 24 in Hb.
  change (WIRE_LEN CtrlDesc) with 20 in Hb. change (WIRE_LEN NestedDescRow) with 16 in Hb.
  unfold HDR_LEN in Ht. unfold len32. split_and!; apply wrap32_id; lia.
Qed.

Lemma header_wf p total sum : is_u32 total -> is_u32 sum -> pod_wf (header_words p total sum).
Proof.
  intros Ht Hs. cbn. unfold header_words, hdr_words, len32. cbn.
  repeat first [apply Forall_nil; exact I|apply Forall_cons; split];
    first [exact Ht|exact Hs|apply wrap32_bounds|vm_compute; split; congruence].
Qed.

Lemma parse_serialize p : parts_ok p ->
  nvrm_tables_parse (serialize p).1 =
  Ok (MkGuestTables (header_words p (blen (serialize p).1) (fnv1a32 (body p))) (ioctls p) (classes p) (ctrls p)
        (nested_rows p)).
Proof.
  intros Hp. pose proof Hp as [P1 P2 P3 P4 P5 P6]. destruct (counts_small p Hp) as (C1 & C2 & C3 & C4).
  pose proof (body_length p Hp) as Hb. pose proof (blen_nonneg (body p)) as Hb0.
  set (total := wrap32 (HDR_LEN + blen (body p))). assert (total = HDR_LEN + blen (body p)) as Et by
    (apply wrap32_id; unfold HDR_LEN in *; lia).
  set (h := header_words p total (fnv1a32 (body p))).
  assert (pod_wf h) as Hh by (apply header_wf; [unfold total; apply wrap32_bounds|apply fnv_u32]).
  assert ((serialize p).1 = as_bytes h ++ body p) as Es by reflexivity.
  assert (blen (as_bytes h ++ body p) = total) as El by (rewrite blen_app, as_bytes_length by done; done).
  rewrite Es, El. fold h. unfold nvrm_tables_parse. rewrite El, from_bytes_as_bytes by done. cbn [ok_or mbind outcome_bind].
  change (magic h) with TABLE_MAGIC. change (table_version h) with TABLE_VERSION. change (total_len h) with total.
  change (checksum h) with (fnv1a32 (body p)). change (n_ioctl h) with (len32 (ioctls p)).
  change (n_class h) with (len32 (classes p)). change (n_ctrl h) with (len32 (ctrls p)).
  change (n_nested h) with (len32 (nested_rows p)). rewrite C1, C2, C3, C4, !Z.eqb_refl. cbn [negb].
  rewrite (proj2 (Z.eqb_eq _ total)) by (rewrite Et, Hb; change (WIRE_LEN TableHdr) with HDR_LEN; lia). cbn [negb].
  assert ((Z.of_nat MAX_NESTED <? max_nested h) = false) as -> by reflexivity.
  assert ((MAX_PAYLOAD <? max_inline h) || (MAX_PAYLOAD <? max_ioctl_size h) || (MAX_AUX <? max_aux h) = false) as ->
    by reflexivity.
  assert ((NVRM_XFER_HEADER_MAX <? xfer_struct_len h)
    || negb (nvrm_range_valid (xfer_cmd_off h) 4 (xfer_struct_len h))
    || negb (nvrm_range_valid (xfer_size_off h) 4 (xfer_struct_len h))
    || negb (nvrm_range_valid (xfer_ptr_off h) 8 (xfer_struct_len h)) = false) as -> by (vm_compute; reflexivity).
  assert (blen (as_bytes h) = WIRE_LEN TableHdr) as Hhl by (by apply as_bytes_length).
  rewrite (table_at_rows (ctrls p) _ (as_bytes h ++ rows (ioctls p) ++ rows (classes p)) (rows (nested_rows p)));
    [|done|unfold body; by rewrite <- !app_assoc|rewrite !blen_app, !rows_length by done; lia|done].
  rewrite (table_at_rows (ioctls p) _ (as_bytes h) (rows (classes p) ++ rows (ctrls p) ++ rows (nested_rows p)));
    [|done|done|done|done].
  rewrite (table_at_rows (classes p) _ (as_bytes h ++ rows (ioctls p)) (rows (ctrls p) ++ rows (nested_rows p)));
    [|done|unfold body; by rewrite <- !app_assoc|rewrite !blen_app, !rows_length by done; lia|done].
  rewrite (table_at_rows (nested_rows p) _ (as_bytes h ++ rows (ioctls p) ++ rows (classes p) ++ rows (ctrls p)) []);
    [|done|unfold body; by rewrite <- !app_assoc, app_nil_r|rewrite !blen_app, !rows_length by done; lia|done].
  assert (forallb (ctrl_valid h) (ctrls p) = true) as ->; [|done].
  apply forallb_forall. intros c Hc%list_elem_of_In. rewrite Forall_forall in P6. destruct (P6 c Hc) as [Hn Hr].
  unfold ctrl_valid, nvrm_range_valid. change (max_nested h) with (Z.of_nat MAX_NESTED).
  change (n_nested h) with (len32 (nested_rows p)). rewrite C4.
  assert (0 <= count c) as Hc0.
  { rewrite Forall_forall in P3. specialize (P3 c Hc). cbn in P3. unfold ctrl_words in P3.
    rewrite !Forall_cons in P3. unfold is_u32 in P3. lia. }
  apply andb_true_iff. split; [apply negb_true_iff, Z.ltb_ge; lia|]. apply andb_true_iff. rewrite !Z.leb_le. lia.
Qed.

Lemma serialize_length p : parts_ok p -> blen (serialize p).1 =
  HDR_LEN + 48 * Z.of_nat (length (ioctls p)) + 24 * Z.of_nat (length (classes p)) +
  20 * Z.of_nat (length (ctrls p)) + 16 * Z.of_nat (length (nested_rows p)).
Proof.
  intros Hp. pose proof (body_length p Hp) as Hb. unfold serialize. cbn [fst].
  rewrite blen_app, as_bytes_length, Hb by (apply header_wf; [apply wrap32_bounds|apply fnv_u32]).
  change (WIRE_LEN TableHdr) with HDR_LEN. change (WIRE_LEN IoctlDesc) with 48. change (WIRE_LEN ClassDesc) with 24.
  change (WIRE_LEN CtrlDesc) with 20. change (WIRE_LEN NestedDescRow) with 16. lia.
Qed.

(** What the checks leave of a stream. *)
Record parsed (blob : bytes) (g : GuestTables) : Prop := {
  pa_wf : pod_wf (g_hdr g) /\ Forall pod_wf (g_ioctls g) /\ Forall pod_wf (g_classes g) /\ Forall pod_wf (g_ctrls g) /\
    Forall pod_wf (g_nested g);
  pa_stream : blob = as_bytes (g_hdr g) ++ rows (g_ioctls g) ++ rows (g_classes g) ++ rows (g_ctrls g) ++ rows (g_nested g);
  pa_counts : n_ioctl (g_hdr g) = Z.of_nat (length (g_ioctls g)) /\ n_class (g_hdr g) = Z.of_nat (length (g_classes g)) /\
    n_ctrl (g_hdr g) = Z.of_nat (length (g_ctrls g)) /\ n_nested (g_hdr g) = Z.of_nat (length (g_nested g));
  pa_nested c : c ∈ g_ctrls g -> 0 <= first c /\ 0 <= count c <= Z.of_nat MAX_NESTED /\
    first c + count c <= Z.of_nat (length (g_nested g));
  pa_limits : max_inline (g_hdr g) <= MAX_PAYLOAD /\ max_ioctl_size (g_hdr g) <= MAX_PAYLOAD /\ max_aux (g_hdr g) <= MAX_AUX;
  pa_xfer : xfer_struct_len (g_hdr g) <= NVRM_XFER_HEADER_MAX /\ xfer_cmd_off (g_hdr g) + 4 <= xfer_struct_len (g_hdr g) /\
    xfer_size_off (g_hdr g) + 4 <= xfer_struct_len (g_hdr g) /\ xfer_ptr_off (g_hdr g) + 8 <= xfer_struct_len (g_hdr g);
}.

Lemma hdr_counts h : pod_wf h -> 0 <= n_ioctl h /\ 0 <= n_class h /\ 0 <= n_ctrl h /\ 0 <= n_nested h.
Proof. cbn. unfold hdr_words. rewrite !Forall_cons. unfold is_u32. tauto. Qed.

Lemma ctrl_fields c : pod_wf c -> 0 <= first c /\ 0 <= count c.
Proof. cbn. unfold ctrl_words. rewrite !Forall_cons. unfold is_u32. tauto. Qed.

Lemma range_valid_spec off n total : nvrm_range_valid off n total = true <-> off + n <= total /\ off <= total.
Proof. unfold nvrm_range_valid. rewrite andb_true_iff, !Z.leb_le. lia. Qed.

Lemma parse_parsed blob g : wf_bytes blob -> nvrm_tables_parse blob = Ok g -> parsed blob g.
Proof.
  intros Hw. unfold nvrm_tables_parse. destruct (from_bytes blob) as [h|] eqn:Hh; [|done]. cbn [ok_or mbind outcome_bind].
  destruct (negb (magic h =? _)); [done|]. destruct (negb (table_version h =? _)); [done|].
  destruct (negb (total_len h =? _)); [done|]. destruct (negb (_ =? blen blob)) eqn:Hneed; [done|].
  destruct (negb (fnv1a32 _ =? _)); [done|]. destruct (_ <? max_nested h) eqn:Hmax; [done|].
  destruct (_ || (_ <? max_aux h)) eqn:Hlim; [done|]. destruct (_ || negb (nvrm_range_valid (xfer_ptr_off h) _ _)) eqn:Hx; [done|].
  set (o1 := WIRE_LEN TableHdr + n_ioctl h * WIRE_LEN IoctlDesc) in *. set (o2 := o1 + n_class h * WIRE_LEN ClassDesc) in *.
  set (o3 := o2 + n_ctrl h * WIRE_LEN CtrlDesc) in *.
  destruct (forallb _ _) eqn:Hc; [|done]. intros [= <-].
  destruct (from_bytes_inv blob h Hw Hh) as [Hwf Hhb]. destruct (hdr_counts h Hwf) as (N1 & N2 & N3 & N4).
  apply negb_false_iff, Z.eqb_eq in Hneed.
  assert (0 <= WIRE_LEN TableHdr /\ 0 <= o1 /\ 0 <= o2 /\ 0 <= o3) as (P0 & P1 & P2 & P3).
  { unfold o3, o2, o1. change (WIRE_LEN TableHdr) with 96. change (WIRE_LEN IoctlDesc) with 48.
    change (WIRE_LEN ClassDesc) with 24. change (WIRE_LEN CtrlDesc) with 20. lia. }
  change (WIRE_LEN NestedDescRow) with 16 in Hneed.
  destruct (table_read (X:=IoctlDesc) blob (WIRE_LEN TableHdr) (n_ioctl h) P0 N1 Hw) as (A1 & A2 & A3); [fold o1; unfold o3, o2 in *; change (WIRE_LEN ClassDesc) with 24 in *; change (WIRE_LEN CtrlDesc) with 20 in *; lia|].
  destruct (table_read (X:=ClassDesc) blob o1 (n_class h) P1 N2 Hw) as (B1 & B2 & B3); [fold o2; unfold o3 in *; change (WIRE_LEN CtrlDesc) with 20 in *; lia|].
  destruct (table_read (X:=CtrlDesc) blob o2 (n_ctrl h) P2 N3 Hw) as (C1 & C2 & C3); [fold o3; lia|].
  destruct (table_read (X:=NestedDescRow) blob o3 (n_nested h) P3 N4 Hw) as (D1 & D2 & D3); [change (WIRE_LEN NestedDescRow) with 16; lia|].
  fold o1 in A3. fold o2 in B3. fold o3 in C3. apply Z.ltb_ge in Hmax. rewrite !orb_false_iff in Hlim. rewrite !orb_false_iff in Hx.
  destruct Hlim as [[L1 L2] L3], Hx as [[[X1 X2] X3] X4]. apply Z.ltb_ge in L1, L2, L3, X1.
  apply negb_false_iff, range_valid_spec in X2, X3, X4.
  split; cbn [g_hdr g_ioctls g_classes g_ctrls g_nested]; auto; [| |tauto].
  - rewrite Hhb. rewrite <- (take_drop (Z.to_nat (WIRE_LEN TableHdr)) blob) at 1. f_equal. rewrite A3, B3, C3, D3.
    do 3 f_equal. rewrite drop_ge; [by rewrite app_nil_r|]. change (WIRE_LEN NestedDescRow) with 16. unfold blen in *. lia.
  - intros c Hin. rewrite Forall_forall in C2. destruct (ctrl_fields c (C2 c Hin)) as [F1 F2].
    pose proof (forallb_elem _ _ _ Hc Hin) as Hv. unfold ctrl_valid in Hv. apply andb_true_iff in Hv as [V1 V2].
    apply negb_true_iff, Z.ltb_ge in V1. apply range_valid_spec in V2. rewrite D1. lia.
Qed.

(** ** What is collected *)
Lemma verified (A : RmAbi) : verify_against_xlate = Ok tt.
Proof. vm_compute. reflexivity. Qed.

(** The control tables do not depend on the driver. *)
Definition all_ctrls : list CtrlDesc * list NestedDescRow :=
  Eval vm_compute in match collect_ctrls with Ok x => x | _ => ([], []) end.

Lemma collected_ctrls : collect_ctrls = Ok all_ctrls.
Proof. vm_compute. reflexivity. Qed.

Lemma collected (A : RmAbi) : collect = Ok (MkParts collect_ioctls collect_classes all_ctrls.1 all_ctrls.2).
Proof. unfold collect. by rewrite verified, collected_ctrls. Qed.

(** A scan finds exactly the rows the rule gives, under their own key. *)
Lemma find_omap {X} (f : Z -> option X) (P : X -> bool) (l : list Z) n : (forall m x, f m = Some x -> P x = (m =? n)) ->
  (is_Some (f n) -> n ∈ l) -> find P (omap f l) = f n.
Proof.
  intros Hk Hin. induction l as [|m l IH].
  { cbn. destruct (f n); [|done]. specialize (Hin ltac:(by eexists)). by apply elem_of_nil in Hin. }
  cbn [omap list_omap]. destruct (f m) as [y|] eqn:Hm.
  - cbn [find]. rewrite (Hk m y Hm). destruct (m =? n) eqn:E; bools; [subst; congruence|]. apply IH. intros Hs.
    apply Hin in Hs. apply elem_of_cons in Hs as [->|Hs]; [congruence|done].
  - apply IH. intros Hs. pose proof (Hin Hs) as Hc. apply elem_of_cons in Hc as [->|Hc]; [|done].
    destruct Hs; congruence.
Qed.

Lemma find_app_none {X} (P : X -> bool) l k : find P l = None -> find P (l ++ k) = find P k.
Proof. induction l as [|x l IH]; [done|]. cbn. by destruct (P x). Qed.

Lemma find_app_some {X} (P : X -> bool) l k : find P k = None -> find P (l ++ k) = find P l.
Proof. intros Hk. induction l as [|x l IH]; [done|]. cbn. by destruct (P x). Qed.

Lemma find_omap_none {X} (P : X -> bool) (f : Z -> option X) l : (forall m x, f m = Some x -> P x = false) ->
  find P (omap f l) = None.
Proof.
  intros Hf. induction l as [|m l IH]; [done|]. cbn [omap list_omap]. destruct (f m) as [x|] eqn:Hm; [|done].
  cbn [find]. by rewrite (Hf m x Hm).
Qed.

Section lookups.
Context {A : RmAbi} {AOk : RmAbiOk A}.

Lemma uvm_row_key tag dev nr d : uvm_row tag dev nr = Some d -> id_dev d = tag /\ id_nr d = nr.
Proof. unfold uvm_row. destruct (uvm_param_size_for nr); [|done]. by intros [= <-]. Qed.

Lemma frontend_row_key tag dev nr d : frontend_row tag dev nr = Some d -> id_dev d = tag /\ id_nr d = nr.
Proof.
  unfold frontend_row. destruct (frontend_size nr), (frontend_special nr); try done; by intros [= <-].
Qed.

Lemma uvm_key nr n : uvm_param_size_for nr = Some n -> nr ∈ uvm.DEINITIALIZE :: uvm_cmds.
Proof.
  intros Hn. unfold uvm_param_size_for in Hn. destruct (nr =? uvm.DEINITIALIZE) eqn:E.
  { bools. subst. constructor. }
  destruct (uvm_param_size_compiled nr) as [m|] eqn:Hc; [|done]. constructor.
  destruct (decide (nr ∈ uvm_cmds)) as [|Hno]; [done|]. apply (uvm_param_size_compiled_None A) in Hno. congruence.
Qed.

Lemma uvm_scanned nr : is_Some (uvm_param_size_for nr) -> nr ∈ seqZ 0 (UVM_SCAN_MAX + 1) ++ UVM_SPECIAL.
Proof.
  intros [n Hn%uvm_key].
  assert (forallb (fun n => bool_decide (n ∈ UVM_SPECIAL) || ((0 <=? n) && (n <? UVM_SCAN_MAX + 1)))
    (uvm.DEINITIALIZE :: uvm_cmds) = true) as Hall by (vm_compute; reflexivity).
  pose proof (forallb_elem _ _ _ Hall Hn) as Hs. apply orb_true_iff in Hs as [Hs|Hs]; bools; apply elem_of_app.
  - by right.
  - left. apply elem_of_seqZ. lia.
Qed.

(** The numbers a row of the frontend nodes can be for. *)
Definition frontend_keys : list Z := match_keys frontend_table ++
  [NV_ESC_RM_CONTROL; NV_ESC_RM_ALLOC; NV_ESC_RM_FREE; NV_ESC_RM_ALLOC_MEMORY; NV_ESC_IOCTL_XFER_CMD;
   NV_ESC_RM_GET_EVENT_DATA].

Lemma frontend_key tag dev nr : is_Some (frontend_row tag dev nr) -> nr ∈ frontend_keys.
Proof.
  intros [d Hd]. apply elem_of_app. revert Hd. unfold frontend_row, frontend_size, frontend_special.
  destruct (match_nr frontend_table nr) eqn:Hm.
  - intros _. left. apply match_nr_is_Some. by eexists.
  - repeat case_match; intros; try done; right; bools; subst; set_solver.
Qed.

Lemma frontend_scanned tag dev nr : is_Some (frontend_row tag dev nr) -> nr ∈ seqZ 0 (FRONTEND_SCAN_MAX + 1).
Proof.
  intros Hin%frontend_key.
  assert (forallb (fun n => (0 <=? n) && (n <? FRONTEND_SCAN_MAX + 1)) frontend_keys = true) as Hall
    by (vm_compute; reflexivity).
  pose proof (forallb_elem _ _ _ Hall Hin) as Hs. cbv beta in Hs. bools. apply elem_of_seqZ. lia.
Qed.

Definition class_keys : list Z := match_keys (alloc_sizes_traced (A:=V615) ++ alloc_sizes_arch (A:=V615) ++ alloc_sizes_headers).

Lemma class_scanned h : is_Some (class_row h) -> h ∈ class_keys /\ h ∈ seqZ 0 (CLASS_SCAN_MAX + 1).
Proof.
  intros [c Hc]. unfold class_row in Hc. destruct (alloc_param_size h) as [n|] eqn:Hn; [|done].
  assert (h ∈ class_keys) as Hin.
  { assert (is_Some (alloc_param_size h)) as Hs by (by eexists). unfold alloc_param_size in Hs.
    by apply match_nr_is_Some in Hs. }
  split; [done|].
  assert (forallb (fun n => (0 <=? n) && (n <? CLASS_SCAN_MAX + 1)) class_keys = true) as Hall by (vm_compute; reflexivity).
  pose proof (forallb_elem _ _ _ Hall Hin) as Hs. cbv beta in Hs. bools. apply elem_of_seqZ. lia.
Qed.

Lemma find_segment tag (row : Z -> option IoctlDesc) l nr :
  (forall m d, row m = Some d -> id_dev d = tag /\ id_nr d = m) -> (is_Some (row nr) -> nr ∈ l) ->
  find_ioctl (omap row l) tag nr = row nr.
Proof.
  intros Hk Hin. apply find_omap; [|done]. intros m d [-> ->]%Hk. by rewrite Z.eqb_refl.
Qed.

Lemma find_segment_none tag tag' (row : Z -> option IoctlDesc) l nr :
  (forall m d, row m = Some d -> id_dev d = tag') -> tag' <> tag -> find_ioctl (omap row l) tag nr = None.
Proof.
  intros Hk Hne. apply find_omap_none. intros m d Hd. by rewrite (Hk m d Hd), (proj2 (Z.eqb_neq _ _) Hne).
Qed.

(** The rows of a device node. *)
Definition row_of (dev : Dev) (nr : Z) : option IoctlDesc :=
  match dev with
  | Uvm => uvm_row (DevTag.to_u32 DevTag.Uvm) Uvm nr
  | UvmTools => uvm_row (DevTag.to_u32 DevTag.UvmTools) UvmTools nr
  | Ctl => frontend_row (DevTag.to_u32 DevTag.Ctl) Ctl nr
  | Gpu => frontend_row (DevTag.to_u32 DevTag.Gpu) Gpu nr
  end.

Definition tag_of (dev : Dev) : Z :=
  DevTag.to_u32 match dev with Ctl => DevTag.Ctl | Gpu => DevTag.Gpu | Uvm => DevTag.Uvm | UvmTools => DevTag.UvmTools end.

(** Four segments with different tags: a lookup ends in its own. *)
Lemma find_four t1 t2 t3 t4 (r1 r2 r3 r4 : Z -> option IoctlDesc) l k :
  NoDup [t1; t2; t3; t4] ->
  (forall m d, r1 m = Some d -> id_dev d = t1 /\ id_nr d = m) -> (forall m d, r2 m = Some d -> id_dev d = t2 /\ id_nr d = m) ->
  (forall m d, r3 m = Some d -> id_dev d = t3 /\ id_nr d = m) -> (forall m d, r4 m = Some d -> id_dev d = t4 /\ id_nr d = m) ->
  (forall n, is_Some (r1 n) -> n ∈ l) -> (forall n, is_Some (r2 n) -> n ∈ l) ->
  (forall n, is_Some (r3 n) -> n ∈ k) -> (forall n, is_Some (r4 n) -> n ∈ k) -> forall nr,
  let t := omap r1 l ++ omap r2 l ++ omap r3 k ++ omap r4 k in
  find_ioctl t t1 nr = r1 nr /\ find_ioctl t t2 nr = r2 nr /\ find_ioctl t t3 nr = r3 nr /\ find_ioctl t t4 nr = r4 nr.
Proof.
  intros Ht K1 K2 K3 K4 S1 S2 S3 S4 nr. cbv zeta.
  assert (forall tag tag' (row : Z -> option IoctlDesc) l', (forall m d, row m = Some d -> id_dev d = tag' /\ id_nr d = m) ->
    tag' <> tag -> find_ioctl (omap row l') tag nr = None) as N.
  { intros tag tag' row l' Hk. apply find_segment_none. intros m d Hd. by destruct (Hk m d Hd). }
  assert (t1 <> t2 /\ t1 <> t3 /\ t1 <> t4 /\ t2 <> t3 /\ t2 <> t4 /\ t3 <> t4) as (N12 & N13 & N14 & N23 & N24 & N34).
  { rewrite !NoDup_cons in Ht. set_solver. }
  pose proof (find_segment t1 r1 l nr K1 (S1 nr)) as F1. pose proof (find_segment t2 r2 l nr K2 (S2 nr)) as F2.
  pose proof (find_segment t3 r3 k nr K3 (S3 nr)) as F3. pose proof (find_segment t4 r4 k nr K4 (S4 nr)) as F4.
  unfold find_ioctl in *. split_and!.
  - rewrite find_app_some; [done|]. rewrite !find_app_none; eapply N; eauto.
  - rewrite find_app_none by (eapply N; eauto). rewrite find_app_some; [done|]. rewrite !find_app_none; eapply N; eauto.
  - rewrite !find_app_none by (eapply N; eauto). rewrite find_app_some; [done|]. eapply N; eauto.
  - rewrite !find_app_none by (eapply N; eauto). done.
Qed.

Lemma find_ioctl_row dev nr : find_ioctl collect_ioctls (tag_of dev) nr = row_of dev nr.
Proof.
  assert (forall tag dev' n, is_Some (uvm_row tag dev' n) -> n ∈ seqZ 0 (UVM_SCAN_MAX + 1) ++ UVM_SPECIAL) as Hu.
  { intros tag dev' n [d Hd]. apply uvm_scanned. unfold uvm_row in Hd. destruct (uvm_param_size_for n); [by eexists|done]. }
  unfold collect_ioctls.
  edestruct (find_four (DevTag.to_u32 DevTag.Uvm) (DevTag.to_u32 DevTag.UvmTools) (DevTag.to_u32 DevTag.Ctl)
    (DevTag.to_u32 DevTag.Gpu) (uvm_row (DevTag.to_u32 DevTag.Uvm) Uvm) (uvm_row (DevTag.to_u32 DevTag.UvmTools) UvmTools)
    (frontend_row (DevTag.to_u32 DevTag.Ctl) Ctl) (frontend_row (DevTag.to_u32 DevTag.Gpu) Gpu)
    (seqZ 0 (UVM_SCAN_MAX + 1) ++ UVM_SPECIAL) (seqZ 0 (FRONTEND_SCAN_MAX + 1))) with (nr := nr) as (F1 & F2 & F3 & F4).
  - by apply (bool_decide_unpack _).
  - apply uvm_row_key.
  - apply uvm_row_key.
  - apply frontend_row_key.
  - apply frontend_row_key.
  - apply Hu.
  - apply Hu.
  - apply frontend_scanned.
  - apply frontend_scanned.
  - destruct dev; assumption.
Qed.

Lemma class_row_key m c : class_row m = Some c -> cl_hclass c = m.
Proof. unfold class_row. destruct (alloc_param_size m); [|done]. by intros [= <-]. Qed.

Lemma find_class_row h : find_class collect_classes h = class_row h.
Proof.
  unfold find_class, collect_classes.
  rewrite (find_omap class_row (fun c => cl_hclass c =? h) (seqZ 0 (CLASS_SCAN_MAX + 1)) h); [reflexivity| |].
  - intros m c Hc. by rewrite (class_row_key m c Hc).
  - intros Hs. by apply class_scanned.
Qed.

End lookups.

(** The rows of a control. *)
Definition ctrl_agrees (cmd : Z) : Prop :=
  match find_ctrl all_ctrls.1 cmd with
  | Some c =>
      (Z.land (ct_flags c) CF_BLOCK =? 0) = negb (ctrl_blocked cmd) /\
      ct_fd_off c = default NONE (ctrl_fd_offset cmd) /\
      take (Z.to_nat (count c)) (drop (Z.to_nat (first c)) all_ctrls.2) = map nested_row (nested_ptrs cmd)
  | None => ctrl_blocked cmd = false /\ nested_ptrs cmd = [] /\ ctrl_fd_offset cmd = None
  end.

Global Instance NestedDescRow_eq_dec : EqDecision NestedDescRow.
Proof. solve_decision. Defined.

Global Instance ctrl_agrees_dec cmd : Decision (ctrl_agrees cmd).
Proof. unfold ctrl_agrees. destruct (find_ctrl _ _); [apply _|].
  apply and_dec; [apply _|]. apply and_dec; [|apply _]. destruct (nested_ptrs cmd); [by left|by right]. Defined.

Lemma ctrls_agree cmd : ctrl_agrees cmd.
Proof.
  set (keys := map ct_cmd all_ctrls.1). destruct (decide (cmd ∈ keys)) as [Hin|Hout].
  - assert (forallb (fun c => bool_decide (ctrl_agrees c)) keys = true) as Hall by (vm_compute; reflexivity).
    pose proof (forallb_elem _ _ _ Hall Hin) as Hc. cbv beta in Hc. by apply bool_decide_eq_true in Hc.
  - unfold ctrl_agrees. assert (find_ctrl all_ctrls.1 cmd = None) as ->.
    { destruct (find_ctrl all_ctrls.1 cmd) as [c|] eqn:Hf; [|done]. apply find_some in Hf as [Hc%list_elem_of_In He].
      exfalso. bools. subst. by apply Hout, list_elem_of_fmap_2. }
    assert (forall l, forallb (fun n => bool_decide (n ∈ keys)) l = true -> cmd ∉ l) as Hsub.
    { intros l Hl Hc. pose proof (forallb_elem _ _ _ Hl Hc) as Hk. cbv beta in Hk. by apply bool_decide_eq_true in Hk. }
    split_and!.
    + unfold ctrl_blocked. apply not_true_iff_false. intros (b & Hb%list_elem_of_In & He)%existsb_exists. bools. subst.
      revert Hb. by apply Hsub.
    + unfold nested_ptrs. rewrite (proj2 (match_nr_None _ _)); [done|]. by apply Hsub.
    + unfold ctrl_fd_offset. apply match_nr_None. by apply Hsub.
Qed.

(** ** The collected rows are well formed and few *)
Lemma omap_few {X} (f : Z -> option X) (l K : list Z) : NoDup l -> (forall n, is_Some (f n) -> n ∈ K) ->
  (length (omap f l) <= length K)%nat.
Proof.
  intros Hl Hf.
  assert (length (omap f l) = length (filter (fun n => is_Some (f n)) l)) as ->.
  { induction l as [|n l IH]; [done|]. apply NoDup_cons in Hl as [_ Hl]. rewrite filter_cons. cbn [omap list_omap].
    destruct (f n) as [x|] eqn:Hn; cbn; [rewrite decide_True by eauto|rewrite decide_False by (by intros [])]; cbn;
    by rewrite IH. }
  apply submseteq_length, NoDup_submseteq; [by apply NoDup_filter|]. intros n [Hs _]%list_elem_of_filter. by apply Hf.
Qed.

Lemma omap_Forall {X} (f : Z -> option X) (l : list Z) (P : X -> Prop) :
  (forall n x, n ∈ l -> f n = Some x -> P x) -> Forall P (omap f l).
Proof.
  intros Hf. apply Forall_forall. intros x (n & Hn & Hx)%list_elem_of_omap. by eapply Hf.
Qed.

Ltac u32_const := unfold is_u32; vm_compute; split; congruence.

Ltac words := repeat first [apply Forall_nil; exact I|apply Forall_cons; split]; first [eassumption|u32_const].

Lemma default_u32 o d : is_u32 d -> (forall n, o = Some n -> is_u32 n) -> is_u32 (default d o).
Proof. destruct o; cbn; auto. Qed.

Lemma is_u32_b z : (0 <=? z) && (z <=? u32_max) = true -> is_u32 z.
Proof. unfold is_u32, u32_max. intros. bools. lia. Qed.

Lemma fd_field_offset_u32 dev nr size n : fd_field_offset dev nr size = Some n -> is_u32 n.
Proof.
  unfold fd_field_offset. intros Hm. apply is_u32_b.
  destruct (is_uvm dev); (eapply (match_nr_check (fun _ a => (0 <=? a) && (a <=? u32_max))); [|exact Hm]);
    vm_compute; reflexivity.
Qed.

Lemma frontend_special_u32 nr s : frontend_special nr = Some s ->
  Forall is_u32 [sp_emb_ptr_off s; sp_emb_len_kind s; sp_emb_len_off s; sp_cmd_off s; sp_rights_off s;
    sp_rights_if_size s; sp_handle_off s; sp_flags s].
Proof.
  unfold frontend_special.
  repeat (case_match; [intros [= <-]; repeat first [apply Forall_nil; exact I|apply Forall_cons; split]; u32_const|]).
  done.
Qed.

Section few.
Context {A : RmAbi} {AOk : RmAbiOk A}.

Lemma uvm_row_wf tag dev nr d : is_u32 tag -> is_u32 nr -> uvm_row tag dev nr = Some d -> pod_wf d.
Proof.
  intros Ht Hn. unfold uvm_row. destruct (uvm_param_size_for nr) as [n|] eqn:Hs; [|done]. intros [= <-].
  assert (is_u32 n) as Hz.
  { unfold uvm_param_size_for in Hs. destruct (nr =? uvm.DEINITIALIZE); [injection Hs as <-; u32_const|].
    destruct (uvm_param_size_compiled nr) as [m|] eqn:Hc; [|done].
    apply uvm_param_size_compiled_bounds in Hc; [|done]. cbn in Hs. case_match; [|done].
    injection Hs as <-. unfold is_u32. lia. }
  assert (is_u32 (default NONE (fd_field_offset dev nr n))) as Hf by
    (apply default_u32; [u32_const|]; intros m; apply fd_field_offset_u32).
  unfold pod_wf, IoctlDesc_pod, set_size_fd, desc, ioctl_words. cbn [id_dev id_nr id_size id_fd_off id_emb_ptr_off
    emb_len_kind emb_len_off cmd_off rights_off rights_if_size handle_off id_flags]. words.
Qed.

Lemma frontend_row_wf tag dev nr d : is_u32 tag -> is_u32 nr -> frontend_row tag dev nr = Some d -> pod_wf d.
Proof.
  intros Ht Hn. unfold frontend_row.
  assert (is_u32 (default NONE (fd_field_offset dev nr 0))) as Hf by
    (apply default_u32; [u32_const|]; intros m; apply fd_field_offset_u32).
  destruct (frontend_special nr) as [s|] eqn:Hs.
  - pose proof (frontend_special_u32 nr s Hs) as Hu. rewrite !Forall_cons in Hu.
    destruct Hu as (U1 & U2 & U3 & U4 & U5 & U6 & U7 & U8 & _). intros Hd.
    assert (d = with_special (set_size_fd (desc tag nr) (id_size (desc tag nr)) (default NONE (fd_field_offset dev nr 0))) s)
      as -> by (destruct (frontend_size nr); by injection Hd as <-).
    unfold pod_wf, IoctlDesc_pod, ioctl_words, with_special, set_size_fd, desc.
    cbn [id_dev id_nr id_size id_fd_off id_emb_ptr_off
      emb_len_kind emb_len_off cmd_off rights_off rights_if_size handle_off id_flags]. words.
  - destruct (frontend_size nr); [|done]. intros [= <-].
    unfold pod_wf, IoctlDesc_pod, ioctl_words, set_size_fd, desc.
    cbn [id_dev id_nr id_size id_fd_off id_emb_ptr_off
      emb_len_kind emb_len_off cmd_off rights_off rights_if_size handle_off id_flags]. words.
Qed.

Lemma class_row_wf h c : is_u32 h -> class_row h = Some c -> pod_wf c.
Proof.
  intros Hh. unfold class_row. destruct (alloc_param_size h) as [n|] eqn:Hn; [|done].
  apply alloc_param_size_bounds in Hn; [|done]. intros [= <-].
  assert (is_u32 n) as Hz by (unfold is_u32, u32_max; lia).
  assert (is_u32 (default NONE (alloc_fd_field h))) as Hf.
  { apply default_u32; [u32_const|]. intros m Hm. apply is_u32_b.
    eapply (match_nr_check (fun _ a => (0 <=? a) && (a <=? u32_max))); [|exact Hm]. vm_compute. reflexivity. }
  assert (is_u32 (default NONE (fst <$> alloc_fd_guard h)) /\ is_u32 (default 0 (snd <$> alloc_fd_guard h))) as [Hg1 Hg2].
  { split; (apply default_u32; [u32_const|]); intros m (p & Hm & ->)%fmap_Some; apply is_u32_b;
    [eapply (match_nr_check (fun _ a => (0 <=? a.1) && (a.1 <=? u32_max)))
    |eapply (match_nr_check (fun _ a => (0 <=? a.2) && (a.2 <=? u32_max)))]; try exact Hm; vm_compute; reflexivity. }
  assert (is_u32 (if alloc_class_verified h then 0 else KF_UNVERIFIED)) as Hv by
    (destruct (alloc_class_verified h); u32_const).
  unfold pod_wf, ClassDesc_pod, class_words. cbn [cl_hclass param_size cl_fd_off cl_flags fd_if_off fd_if_val]. words.
Qed.

Lemma collect_ioctls_few : (length collect_ioctls <= 2 * length (uvm.DEINITIALIZE :: uvm_cmds) + 2 * length frontend_keys)%nat.
Proof.
  assert (NoDup (seqZ 0 (UVM_SCAN_MAX + 1) ++ UVM_SPECIAL)) as Hd.
  { apply NoDup_app. split_and!; [apply NoDup_seqZ| |by apply (bool_decide_unpack _)].
    intros x Hx%elem_of_seqZ Hs. unfold UVM_SPECIAL in Hs. rewrite !elem_of_cons in Hs.
    unfold UVM_SCAN_MAX, uvm.INITIALIZE, uvm.DEINITIALIZE in *. set_solver by lia. }
  assert (forall tag dev, (length (omap (uvm_row tag dev) (seqZ 0 (UVM_SCAN_MAX + 1) ++ UVM_SPECIAL))
    <= length (uvm.DEINITIALIZE :: uvm_cmds))%nat) as Hu.
  { intros. apply omap_few; [done|]. intros n [d Hr]. unfold uvm_row in Hr.
    destruct (uvm_param_size_for n) eqn:Hs; [|done]. by eapply uvm_key. }
  assert (forall tag dev, (length (omap (frontend_row tag dev) (seqZ 0 (FRONTEND_SCAN_MAX + 1)))
    <= length frontend_keys)%nat) as Hf.
  { intros. apply omap_few; [apply NoDup_seqZ|]. intros n Hr. by eapply frontend_key. }
  unfold collect_ioctls. rewrite !length_app.
  pose proof (Hu (DevTag.to_u32 DevTag.Uvm) Uvm). pose proof (Hu (DevTag.to_u32 DevTag.UvmTools) UvmTools).
  pose proof (Hf (DevTag.to_u32 DevTag.Ctl) Ctl). pose proof (Hf (DevTag.to_u32 DevTag.Gpu) Gpu). lia.
Qed.

Lemma collect_classes_few : (length collect_classes <= length class_keys)%nat.
Proof. apply omap_few; [apply NoDup_seqZ|]. intros n Hs. by apply class_scanned. Qed.

(** The parts [collect] gives. *)
Definition parts_of : Parts := MkParts collect_ioctls collect_classes all_ctrls.1 all_ctrls.2.

Lemma ioctls_wf : Forall pod_wf collect_ioctls.
Proof.
  assert (forall n, n ∈ seqZ 0 (UVM_SCAN_MAX + 1) ++ UVM_SPECIAL -> is_u32 n) as Hu.
  { intros n [Hn%elem_of_seqZ|Hn]%elem_of_app; [unfold is_u32, u32_max, UVM_SCAN_MAX in *; lia|].
    assert (forallb (fun n => (0 <=? n) && (n <=? u32_max)) UVM_SPECIAL = true) as Hall by (vm_compute; reflexivity).
    by apply is_u32_b, (forallb_elem _ _ _ Hall). }
  assert (forall n, n ∈ seqZ 0 (FRONTEND_SCAN_MAX + 1) -> is_u32 n) as Hf.
  { intros n Hn%elem_of_seqZ. unfold is_u32, u32_max, FRONTEND_SCAN_MAX in *. lia. }
  unfold collect_ioctls. rewrite !Forall_app.
  split_and!; apply omap_Forall; intros n x Hn Hx;
    first [eapply uvm_row_wf; [| |exact Hx]; [u32_const|by apply Hu]
          |eapply frontend_row_wf; [| |exact Hx]; [u32_const|by apply Hf]].
Qed.

Lemma classes_wf : Forall pod_wf collect_classes.
Proof.
  apply omap_Forall. intros n c Hn%elem_of_seqZ Hc. eapply class_row_wf; [|exact Hc].
  unfold is_u32, u32_max, CLASS_SCAN_MAX in *. lia.
Qed.

Lemma ctrl_rows_wf : Forall pod_wf all_ctrls.1 /\ Forall pod_wf all_ctrls.2 /\
  Forall (fun c => count c <= Z.of_nat MAX_NESTED /\ first c + count c <= Z.of_nat (length all_ctrls.2)) all_ctrls.1.
Proof.
  assert (forall ws, forallb (fun z => (0 <=? z) && (z <=? u32_max)) ws = true -> Forall is_u32 ws) as Hw.
  { intros ws Hws. apply Forall_forall. intros z Hz. by apply is_u32_b, (forallb_elem _ _ _ Hws). }
  split_and!; apply Forall_forall; intros c Hc.
  - apply Hw. revert Hc. apply (forallb_elem (fun c => forallb _ (ctrl_words c))). vm_compute. reflexivity.
  - apply Hw. revert Hc. apply (forallb_elem (fun c => forallb _ (nested_row_words c))). vm_compute. reflexivity.
  - assert (forallb (fun c => (count c <=? Z.of_nat MAX_NESTED) && (first c + count c <=? Z.of_nat (length all_ctrls.2)))
      all_ctrls.1 = true) as Hall by (vm_compute; reflexivity).
    pose proof (forallb_elem _ _ _ Hall Hc) as Hb. cbv beta in Hb. bools. done.
Qed.

(** The stream is far below the megabyte the guest accepts. *)
Lemma parts_small : HDR_LEN + 48 * Z.of_nat (length collect_ioctls) + 24 * Z.of_nat (length collect_classes) +
  20 * Z.of_nat (length all_ctrls.1) + 16 * Z.of_nat (length all_ctrls.2) <= SZ_1M.
Proof.
  pose proof collect_ioctls_few as Hi. pose proof collect_classes_few as Hc.
  assert (HDR_LEN + 48 * (2 * Z.of_nat (length (uvm.DEINITIALIZE :: uvm_cmds)) + 2 * Z.of_nat (length frontend_keys)) +
    24 * Z.of_nat (length class_keys) + 20 * Z.of_nat (length all_ctrls.1) + 16 * Z.of_nat (length all_ctrls.2) <= SZ_1M)
    as Ht by (vm_compute; congruence).
  lia.
Qed.

Lemma parts_of_ok : parts_ok parts_of.
Proof.
  destruct ctrl_rows_wf as (W3 & W4 & W5). pose proof parts_small as Hs.
  split; [exact ioctls_wf|exact classes_wf|exact W3|exact W4| |exact W5].
  unfold body. rewrite !blen_app. unfold parts_of. cbn [ioctls classes ctrls nested_rows].
  rewrite (rows_length collect_ioctls ioctls_wf), (rows_length collect_classes classes_wf), (rows_length _ W3), (rows_length _ W4).
  change (WIRE_LEN IoctlDesc) with 48. change (WIRE_LEN ClassDesc) with 24. change (WIRE_LEN CtrlDesc) with 20.
  change (WIRE_LEN NestedDescRow) with 16. unfold SZ_1M, u32_max in *. lia.
Qed.

End few.

(** ** The guest packs what the host expects *)
Lemma get_le_in n b off : 0 <= off -> off + Z.of_nat n <= blen b -> exists v, get_le n b off = Some v.
Proof.
  intros H0 H1. unfold get_le, get_range. rewrite (proj2 (in_range_spec b off (Z.of_nat n))) by lia. by eexists.
Qed.

(** The structure sizes for which both sides look for a buffer. *)
Definition size_expected (nr size : Z) : Prop :=
  (nr = NV_ESC_RM_CONTROL -> 32 <= size) /\ (nr = NV_ESC_RM_ALLOC -> size = 32 \/ size = 48) /\
  (nr = NV_ESC_RM_GET_EVENT_DATA -> size_of NVOS41_PARAMETERS <= size).

(** What the guest is to find: the host's answer, or a refusal of its own. *)
Definition gather_expected {A : RmAbi} (dev : Dev) (nr : Z) (inl : bytes) : outcome Z (option (Z * Z)) :=
  if negb (is_uvm dev) && (nr =? NV_ESC_RM_CONTROL) && ctrl_blocked (default 0 (get_u32 inl NVOS54_CMD_OFF)) then Err EPERM
  else match embedded_ptr dev nr inl (blen inl) with
       | Ok None => Ok None
       | Ok (Some e) => if MAX_AUX <? emb_len e then Err EMSGSIZE else Ok (Some (emb_ptr_off e, emb_len e))
       | Err _ => Err ENOTSUP
       | Panic => Panic
       end.

Section gather.
Context {A : RmAbi} {AOk : RmAbiOk A} (t : GuestTables).
Hypothesis Haux : max_aux (g_hdr t) = MAX_AUX.
Hypothesis Hcls : g_classes t = collect_classes.
Hypothesis Hctl : g_ctrls t = all_ctrls.1.

Lemma blocked_agrees cmd : match find_ctrl all_ctrls.1 cmd with
  | Some c => negb (Z.land (ct_flags c) CF_BLOCK =? 0) | None => false end = ctrl_blocked cmd.
Proof.
  pose proof (ctrls_agree cmd) as Hc. unfold ctrl_agrees in Hc. destruct (find_ctrl _ _) as [c|].
  - destruct Hc as [-> _]. apply negb_involutive.
  - by destruct Hc as [-> _].
Qed.

Lemma gather_none d inl : id_emb_ptr_off d = NONE -> gather_length t d inl = Ok None.
Proof. unfold gather_length. intros ->. reflexivity. Qed.

Lemma gather_control dev d inl : is_uvm dev = false -> 32 <= blen inl -> row_of dev NV_ESC_RM_CONTROL = Some d ->
  gather_length t d inl = gather_expected dev NV_ESC_RM_CONTROL inl.
Proof.
  intros Hd Hs Hr.
  assert (id_emb_ptr_off d = NVOS54_PARAMS_OFF /\ emb_len_kind d = EMB_LEN_FIELD /\ emb_len_off d = NVOS54_PARAMSSIZE_OFF /\
    cmd_off d = NVOS54_CMD_OFF) as (E1 & E2 & E3 & E4) by (destruct dev; try done; by injection Hr as <-).
  unfold gather_length, gather_expected, embedded_ptr. rewrite E1, E2, E3, E4, Hd, Hctl, Haux.
  destruct (get_le_in 4 inl NVOS54_CMD_OFF) as [cmd Hc]; [done|unfold NVOS54_CMD_OFF; lia|].
  destruct (get_le_in 8 inl 16) as [ptr Hp]; [done|lia|]. destruct (get_le_in 4 inl 24) as [n Hn]; [done|lia|].
  change (get_u32 inl NVOS54_CMD_OFF) with (get_le 4 inl NVOS54_CMD_OFF).
  change (get_u64 inl NVOS54_PARAMS_OFF) with (get_le 8 inl 16). change (get_u64 inl 16) with (get_le 8 inl 16).
  change (get_u32 inl NVOS54_PARAMSSIZE_OFF) with (get_le 4 inl 24). change (get_u32 inl 24) with (get_le 4 inl 24).
  rewrite Hc, Hp, Hn. rewrite !(proj2 (range_valid_spec _ _ _)) by (unfold NVOS54_PARAMS_OFF, NVOS54_CMD_OFF, NVOS54_PARAMSSIZE_OFF; lia).
  rewrite (proj2 (Z.leb_le 32 (blen inl))) by done. cbn -[ctrl_blocked find_ctrl all_ctrls MAX_AUX].
  rewrite blocked_agrees. destruct (ctrl_blocked cmd); [done|]. destruct (ptr =? 0); [done|]. by destruct (n =? 0).
Qed.

Lemma gather_alloc dev d inl : is_uvm dev = false -> blen inl = 32 \/ blen inl = 48 -> row_of dev NV_ESC_RM_ALLOC = Some d ->
  gather_length t d inl = gather_expected dev NV_ESC_RM_ALLOC inl.
Proof.
  intros Hd Hs Hr.
  assert (id_emb_ptr_off d = NVOS64_PARAMS_OFF /\ emb_len_kind d = EMB_LEN_CLASS /\ emb_len_off d = NVOS64_HCLASS_OFF /\
    cmd_off d = NONE /\ rights_off d = NVOS64_RIGHTS_OFF /\ rights_if_size d = NVOS64_LEN)
    as (E1 & E2 & E3 & E4 & E5 & E6) by (destruct dev; try done; by injection Hr as <-).
  unfold gather_length, gather_expected, embedded_ptr. rewrite E1, E2, E3, E4, E5, E6, Hd, Haux, Hcls.
  destruct (get_le_in 8 inl 16) as [ptr Hp]; [done|lia|]. destruct (get_le_in 4 inl 12) as [cls Hn]; [done|lia|].
  change (get_u64 inl NVOS64_PARAMS_OFF) with (get_le 8 inl 16). change (get_u64 inl 16) with (get_le 8 inl 16).
  change (get_u32 inl NVOS64_HCLASS_OFF) with (get_le 4 inl 12). change (get_u32 inl 12) with (get_le 4 inl 12).
  change (get_u64 inl NVOS64_RIGHTS_OFF) with (get_le 8 inl 24). change (get_u64 inl 24) with (get_le 8 inl 24).
  rewrite Hp, Hn. rewrite (proj2 (range_valid_spec NVOS64_PARAMS_OFF 8 _)), (proj2 (range_valid_spec NVOS64_HCLASS_OFF 4 _))
    by (unfold NVOS64_PARAMS_OFF, NVOS64_HCLASS_OFF; lia).
  cbn -[find_class MAX_AUX alloc_param_size].
  destruct (ptr =? 0); [by destruct Hs as [-> | ->]|]. rewrite find_class_row. unfold class_row.
  assert (forall n, alloc_param_size cls = Some n -> (n =? 0) = false) as H0.
  { intros n Hz%alloc_param_size_bounds; [|done]. apply Z.eqb_neq. lia. }
  destruct Hs as [Hs|Hs]; rewrite Hs.
  - cbn -[MAX_AUX alloc_param_size]. destruct (alloc_param_size cls) as [n|]; [|done].
    cbn -[MAX_AUX]. by rewrite (H0 n eq_refl).
  - destruct (get_le_in 8 inl 24) as [r Hg]; [done|lia|]. rewrite Hg.
    cbn -[MAX_AUX alloc_param_size]. destruct (alloc_param_size cls) as [n|]; cbn -[MAX_AUX]; destruct (r =? 0); try done.
    change (8 <=? 48 - NVOS64_RIGHTS_OFF) with true. cbn -[MAX_AUX]. by rewrite (H0 n eq_refl).
Qed.

Lemma gather_event dev d inl : is_uvm dev = false -> size_of NVOS41_PARAMETERS <= blen inl ->
  row_of dev NV_ESC_RM_GET_EVENT_DATA = Some d -> gather_length t d inl = gather_expected dev NV_ESC_RM_GET_EVENT_DATA inl.
Proof.
  intros Hd Hs Hr. pose proof Hs as Hs'. change (size_of NVOS41_PARAMETERS) with 16 in Hs'.
  assert (id_emb_ptr_off d = 0 /\ emb_len_kind d = EMB_LEN_FIXED /\ emb_len_off d = wrap32 (size_of NvUnixEvent) /\
    cmd_off d = NONE) as (E1 & E2 & E3 & E4) by (destruct dev; try done; by injection Hr as <-).
  unfold gather_length, gather_expected, embedded_ptr. rewrite E1, E2, E3, E4, Hd, Haux.
  destruct (get_le_in 8 inl 0) as [ptr Hp]; [done|lia|]. change (get_u64 inl 0) with (get_le 8 inl 0). rewrite Hp.
  rewrite (proj2 (range_valid_spec 0 8 _)) by lia. rewrite (proj2 (Z.leb_le _ _) Hs).
  cbn. by destruct (ptr =? 0).
Qed.

Lemma embedded_ptr_other dev nr inl : nr <> NV_ESC_RM_CONTROL -> nr <> NV_ESC_RM_ALLOC -> nr <> NV_ESC_RM_GET_EVENT_DATA ->
  embedded_ptr dev nr inl (blen inl) = Ok None.
Proof.
  intros N1 N2 N3. unfold embedded_ptr. rewrite (proj2 (Z.eqb_neq _ _) N1), (proj2 (Z.eqb_neq _ _) N2), (proj2 (Z.eqb_neq _ _) N3).
  by destruct (is_uvm dev).
Qed.

Lemma gather_agrees dev nr d inl : size_expected nr (blen inl) -> row_of dev nr = Some d ->
  gather_length t d inl = gather_expected dev nr inl.
Proof.
  intros (S1 & S2 & S3) Hr. destruct (is_uvm dev) eqn:Hu.
  { rewrite gather_none; [unfold gather_expected, embedded_ptr; by rewrite Hu|].
    destruct dev; try done; cbn in Hr; unfold uvm_row in Hr; destruct (uvm_param_size_for nr); try done; by injection Hr as <-. }
  destruct (decide (nr = NV_ESC_RM_CONTROL)) as [-> |N1]; [apply gather_control; auto|].
  destruct (decide (nr = NV_ESC_RM_ALLOC)) as [-> |N2]; [apply gather_alloc; auto|].
  destruct (decide (nr = NV_ESC_RM_GET_EVENT_DATA)) as [-> |N3]; [apply gather_event; auto|].
  rewrite gather_none.
  - unfold gather_expected. rewrite embedded_ptr_other by done. rewrite (proj2 (Z.eqb_neq _ _) N1). by rewrite andb_false_r.
  - assert (frontend_row (tag_of dev) dev nr = Some d) as Hf by (destruct dev; done).
    unfold frontend_row, frontend_special in Hf. rewrite (proj2 (Z.eqb_neq _ _) N1), (proj2 (Z.eqb_neq _ _) N2), (proj2 (Z.eqb_neq _ _) N3) in Hf.
    clear Hr. destruct (frontend_size nr); repeat case_match; try done; simplify_eq; reflexivity.
Qed.

End gather.

(** ** Host and guest together *)
Global Instance Ok_inj {E X} : Inj (=) (=) (Ok (E:=E) (A:=X)).
Proof. by intros x y [=]. Qed.

Section both.
Context {A : RmAbi} {AOk : RmAbiOk A}.

(** What the guest ends up with. *)
Definition guest_tables : GuestTables :=
  MkGuestTables (header_words parts_of (blen (serialize parts_of).1) (fnv1a32 (body parts_of)))
    collect_ioctls collect_classes all_ctrls.1 all_ctrls.2.

Definition stream : bytes := (serialize parts_of).1.

Lemma built : build = Ok (MkTables stream (fnv1a32 (body parts_of)) TABLE_VERSION (len32 (ioctls parts_of))
  (len32 (classes parts_of)) (len32 (ctrls parts_of)) (len32 (nested_rows parts_of))).
Proof. unfold build. rewrite collected. fold parts_of. unfold stream. generalize parts_of. intros p. reflexivity. Qed.

Lemma stream_parses : nvrm_tables_parse stream = Ok guest_tables.
Proof. unfold stream. rewrite (parse_serialize parts_of parts_of_ok). unfold guest_tables. reflexivity. Qed.

Lemma stream_length : HDR_LEN <= blen stream <= SZ_1M.
Proof.
  unfold stream. rewrite (serialize_length parts_of parts_of_ok). pose proof parts_small as Hs.
  unfold parts_of. cbn [ioctls classes ctrls nested_rows]. lia.
Qed.

Lemma stream_wf : wf_bytes stream.
Proof.
  unfold stream. generalize parts_of. intros p. unfold serialize, body. cbn [fst]. apply Forall_app.
  split; [apply as_bytes_wf|]. repeat (apply Forall_app; split); apply rows_wf.
Qed.

(** A row says where descriptors are and, on the UVM nodes, how long the
    structure is. *)
Lemma row_fields dev nr d : row_of dev nr = Some d ->
  id_fd_off d = default NONE (fd_field_offset dev nr 0) /\
  (if is_uvm dev then uvm_param_size_for nr = Some (id_size d) else id_size d = SIZE_FROM_IOC).
Proof.
  destruct dev; cbn [row_of is_uvm]; unfold uvm_row, frontend_row.
  - destruct (frontend_size nr), (frontend_special nr); try done; by intros [= <-].
  - destruct (frontend_size nr), (frontend_special nr); try done; by intros [= <-].
  - destruct (uvm_param_size_for nr); [|done]. by intros [= <-].
  - destruct (uvm_param_size_for nr); [|done]. by intros [= <-].
Qed.

Lemma row_exists dev nr : is_Some (row_of dev nr) <->
  (if is_uvm dev then is_Some (uvm_param_size_for nr) else is_Some (frontend_size nr) \/ is_Some (frontend_special nr)).
Proof.
  destruct dev; cbn [row_of is_uvm]; unfold uvm_row, frontend_row.
  - destruct (frontend_size nr), (frontend_special nr); cbn; naive_solver eauto.
  - destruct (frontend_size nr), (frontend_special nr); cbn; naive_solver eauto.
  - destruct (uvm_param_size_for nr); cbn; naive_solver eauto.
  - destruct (uvm_param_size_for nr); cbn; naive_solver eauto.
Qed.

End both.

(** C35: Whatever stream the guest module accepts, every row it will read lies
    inside that stream: the stream is the header and the four tables, as many
    rows as the header counts and nothing else; the nested rows of every
    control exist and are no more than a request carries; the limits are no
    larger than the wire allows; and the fields of the transfer wrapper lie
    inside it. *)
Theorem tables_checked (blob : bytes) (g : GuestTables) :
  wf_bytes blob -> nvrm_tables_parse blob = Ok g -> parsed blob g.
Proof. apply parse_parsed. Qed.

(** C34: For every driver the backend speaks to, the tables can be built and the
    guest accepts them, and
    what the guest looks up in them is what the host's translation says, for
    every device node, number, class and control: the fixed offsets are those
    of the bound structures; a row exists exactly for
    the calls the translation knows, with the same structure size and the same
    place of a file descriptor; a class has the same parameter length and
    descriptor guard; a control has the same nested pointers, is blocked
    exactly when the host blocks it; and for every structure of an expected
    size the guest finds the same parameter buffer, of the same length, or
    refuses where the host refuses. *)
Theorem guest_lookups_agree (v : DriverVersion) :
  let A := dispatch v id in
  exists t g, build (A:=A) = Ok t /\ nvrm_tables_parse (tb_bytes t) = Ok g /\
  offsets_asserted = true /\
  (forall dev nr, is_Some (find_ioctl (g_ioctls g) (tag_of dev) nr) <->
     (if is_uvm dev then is_Some (uvm_param_size_for nr)
      else is_Some (frontend_size nr) \/ is_Some (frontend_special nr))) /\
  (forall dev nr d, find_ioctl (g_ioctls g) (tag_of dev) nr = Some d ->
     id_fd_off d = default NONE (fd_field_offset dev nr 0) /\
     (if is_uvm dev then uvm_param_size_for nr = Some (id_size d) else id_size d = SIZE_FROM_IOC) /\
     forall inl, size_expected nr (blen inl) -> gather_length g d inl = gather_expected dev nr inl) /\
  (forall h, param_size <$> find_class (g_classes g) h = alloc_param_size h /\
     forall c, find_class (g_classes g) h = Some c -> cl_fd_off c = default NONE (alloc_fd_field h) /\
       (fd_if_off c, fd_if_val c) = default (NONE, 0) (alloc_fd_guard h)) /\
  (forall cmd, match find_ctrl (g_ctrls g) cmd with
     | Some c => (Z.land (ct_flags c) CF_BLOCK =? 0) = negb (ctrl_blocked cmd) /\
         ct_fd_off c = default NONE (ctrl_fd_offset cmd) /\
         take (Z.to_nat (count c)) (drop (Z.to_nat (first c)) (g_nested g)) = map nested_row (nested_ptrs cmd)
     | None => ctrl_blocked cmd = false /\ nested_ptrs cmd = [] /\ ctrl_fd_offset cmd = None
     end).
Proof.
  intros A. assert (RmAbiOk A) as HA by (destruct v; apply _). clearbody A.
  eexists _, _. split; [apply built|]. cbn [tb_bytes]. split; [apply stream_parses|].
  unfold guest_tables. cbn [g_ioctls g_classes g_ctrls g_nested]. split_and!.
  - vm_compute. reflexivity.
  - intros dev nr. rewrite find_ioctl_row. apply row_exists.
  - intros dev nr d. rewrite find_ioctl_row. intros Hd. destruct (row_fields dev nr d Hd) as [F1 F2].
    split_and!; [done|done|]. intros inl Hs. by apply gather_agrees.
  - intros h. rewrite find_class_row. unfold class_row. destruct (alloc_param_size h) as [n|]; [|done].
    split; [done|]. intros c [= <-]. cbn [cl_fd_off fd_if_off fd_if_val]. by destruct (alloc_fd_guard h) as [[]|].
  - exact ctrls_agree.
Qed.

(** The tables of 615, and the parameters of a control in a request. *)
Definition sample_inline : bytes := put_range (put_range (replicate 32 0) 16 (le_bytes 8 4096)) 24 (le_bytes 4 12).

Lemma guest_lookups_agree_witness : exists t g d, build (A:=V615) = Ok t /\ nvrm_tables_parse (tb_bytes t) = Ok g /\
  find_ioctl (g_ioctls g) (tag_of Ctl) NV_ESC_RM_CONTROL = Some d /\ gather_length g d sample_inline = Ok (Some (16, 12)).
Proof.
  destruct (guest_lookups_agree DV615) as (t & g & Ht & Hg & _ & H1 & H2 & _).
  destruct (proj2 (H1 Ctl NV_ESC_RM_CONTROL)) as [d Hd]; [right; by eexists|].
  exists t, g, d. split_and!; [exact Ht|exact Hg|exact Hd|].
  destruct (H2 Ctl NV_ESC_RM_CONTROL d Hd) as (_ & _ & H3). rewrite H3; [vm_compute; reflexivity|].
  split_and!; [intros _; by vm_compute|by intros [=]..].
Defined.

(** A stream of a header alone. *)
Definition header_only : bytes := (serialize (MkParts [] [] [] [])).1.

Lemma tables_checked_witness : exists g, nvrm_tables_parse header_only = Ok g /\ parsed header_only g.
Proof.
  assert (exists g, nvrm_tables_parse header_only = Ok g) as [g Hg] by (eexists; vm_compute; reflexivity).
  exists g. split; [exact Hg|]. apply (tables_checked header_only g); [|exact Hg].
  apply Forall_app. split; [apply as_bytes_wf|constructor].
Defined.
