(* ===== verification/RequestShape.v ===== *)
(** * Request validation (crates/vhost-user-nvrm/src/request_shape.rs)

    Every forwarded ioctl passes [validate] before any resource is acquired:
    it checks the envelope size, the file-descriptor translation metadata, the
    refused classes and controls, the embedded and nested pointers and the
    guest page runs against the host's own descriptors.  [Shape] records the
    pointers that must be cleared because no buffer travelled for them.

    The Rust function is one body of two hundred lines; here its consecutive
    parts are separate definitions in the same order. *)
From stdpp Require Import strings.
From S2P Require Import Prelude.
From S2P Require Import Bytes.
From S2P Require Import Wire.
From S2P Require Import CLayout.
From S2P Require Import SysConsts.
From S2P Require Import Sys.
From S2P Require Import SysLayout.
From S2P Require Import NvAbi.
From S2P Require Import Xlate.

Local Open Scope string_scope.
Local Open Scope list_scope.
Local Open Scope Z_scope.

Record Error := { errno : Z; why : string }.

Definition invalid (why : string) : Error := {| errno := EINVAL; why := why |}.
Definition unsupported (why : string) : Error := {| errno := ENOTSUP; why := why |}.

Record Shape := { zero_inline : option Z; zero_aux : list Z }.

Definition Shape_default : Shape := {| zero_inline := None; zero_aux := [] |}.

(** [buf[off..off + 8].fill(0)] *)
Definition fill8 (buf : bytes) (off : Z) : outcome Error bytes :=
  or_panic (set_range buf off (replicate 8 0)).

Fixpoint fill8_all (buf : bytes) (offs : list Z) : outcome Error bytes :=
  match offs with
  | [] => Ok buf
  | off :: offs' => buf' ← fill8 buf off; fill8_all buf' offs'
  end.

Definition clear_unused_pointers (s : Shape) (inline aux : bytes) :
    outcome Error (bytes * bytes) :=
  inline' ← match zero_inline s with Some off => fill8 inline off | None => Ok inline end;
  aux' ← fill8_all aux (zero_aux s);
  Ok (inline', aux').

Definition u32_at (b : bytes) (off : Z) : outcome Error Z :=
  ok_or (get_u32 b off) (invalid "descriptor field outside its parameter buffer").

Definition u64_at (b : bytes) (off : Z) : outcome Error Z :=
  ok_or (get_u64 b off) (invalid "descriptor field outside its parameter buffer").

(** Is the descriptor field a negative sentinel? *)
Definition fd_negative (b : bytes) (width off : Z) : outcome Error bool :=
  if width =? 4 then v ← u32_at b off; Ok (as_i32 v <? 0)
  else if width =? 8 then
    v ← u64_at b off;
    let raw := as_i64 v in Ok ((raw <? 0) && (raw =? as_i32 raw))
  else Panic.

Definition fd_field (b : bytes) (expected : option (Z * Z)) (off token owner : Z) :
    outcome Error unit :=
  match expected with
  | None =>
      if (off =? NONE_U32) && (token =? NONE_U64) && (owner =? NONE_U32) then Ok tt
      else Err (invalid "unexpected FD translation metadata")
  | Some (expected_off, width) =>
      fail_if! negb (off =? expected_off)
        with invalid "missing or misplaced FD translation metadata";
      negative ← fd_negative b width off;
      fail_if! (token =? NONE_U64) && (negb negative || negb (owner =? NONE_U32))
        with invalid "nonnegative FD requires a resolved guest token";
      Ok tt
  end.

(** [c && m?]: the right operand is only evaluated when [c] holds. *)
Definition and_also (c : bool) (m : outcome Error bool) : outcome Error bool :=
  if c then m else Ok false.

Section validate.
Context {A : RmAbi}.

(** Lengths, device and envelope size. *)
Definition check_envelope (dev : Dev) (req : Req) (inline aux : bytes) : outcome Error unit :=
  let nr := ioctl_nr req in
  fail_if! negb (blen inline =? inline_len req) || negb (blen aux =? aux_len req)
    with invalid "request lengths do not match its buffers";
  match dev with
  | UvmTools => Err (unsupported "UVM tools forwarding has no request descriptors")
  | Uvm =>
      size ← ok_or (uvm_param_size_for nr) (unsupported "unknown UVM request");
      fail_if! negb (inline_len req =? size)
        with invalid "UVM inline size differs from the host ABI";
      Ok tt
  | _ =>
      fail_if! Z.shiftl 1 14 <=? inline_len req
        with {| errno := EMSGSIZE; why := "frontend request exceeds _IOC size" |};
      size ← ok_or (frontend_size nr) (unsupported "unsupported frontend request");
      fail_if! negb (accepts size (inline_len req))
        with invalid "frontend inline size differs from the host ABI";
      Ok tt
  end.

Definition is_alloc (dev : Dev) (nr : Z) : bool := negb (is_uvm dev) && (nr =? NV_ESC_RM_ALLOC).
Definition is_control (dev : Dev) (nr : Z) : bool := negb (is_uvm dev) && (nr =? NV_ESC_RM_CONTROL).

(** Classes, controls and forms that are refused outright; the result is the
    pointer of a control whose parameters are empty. *)
Definition check_refused (dev : Dev) (nr : Z) (inline : bytes) : outcome Error (option Z) :=
  let alloc := is_alloc dev nr in
  let control := is_control dev nr in
  blocked_class ← and_also (negb (is_uvm dev) && ((nr =? NV_ESC_RM_ALLOC) ||
      (nr =? NV_ESC_RM_ALLOC_OBJECT) || (nr =? NV_ESC_RM_ALLOC_MEMORY)))
    (alloc_class_blocked <$> u32_at inline 12);
  fail_if! blocked_class with unsupported "allocation capability FD is not translated";
  blocked ← and_also control (ctrl_blocked <$> u32_at inline 8);
  fail_if! blocked with {| errno := EPERM; why := "control is not forwarded" |};
  serialized ← and_also control
    ((fun f => negb (Z.land f NVOS54_FLAGS_FINN_SERIALIZED =? 0)) <$> u32_at inline 12);
  fail_if! serialized with unsupported "serialized controls have no translation layout";
  serialized ← and_also (alloc && (blen inline =? size_of NVOS64_PARAMETERS))
    ((fun f => negb (Z.land f NVOS64_FLAGS_FINN_SERIALIZED =? 0)) <$> u32_at inline 36);
  fail_if! serialized with unsupported "serialized allocations have no translation layout";
  heap ← and_also (negb (is_uvm dev) && (nr =? NV_ESC_RM_VID_HEAP_CONTROL))
    ((fun f => (f =? NVOS32_FUNCTION_HW_ALLOC) || (f =? NVOS32_FUNCTION_ALLOC_OS_DESCRIPTOR))
       <$> u32_at inline 8);
  fail_if! heap
    with unsupported "VID_HEAP callback/OS-descriptor parameters are not translated";
  rights ← and_also (alloc && (blen inline =? size_of NVOS64_PARAMETERS))
    ((fun p => negb (p =? 0)) <$> u64_at inline 24);
  fail_if! rights with unsupported "pRightsRequested is not translated";
  unused ← and_also control
    (nonnull ← (fun p => negb (p =? 0)) <$> u64_at inline 16;
     and_also nonnull ((fun n => n =? 0) <$> u32_at inline 24));
  Ok (if (unused : bool) then Some 16 else None).

(** The primary embedded buffer: its length inside aux. *)
Definition check_embedded (dev : Dev) (req : Req) (inline aux : bytes) : outcome Error Z :=
  embedded ← map_err (fun _ => unsupported "unknown allocation parameter layout")
    (embedded_ptr dev (ioctl_nr req) inline (inline_len req));
  match embedded with
  | Some e =>
      fail_if! negb (embedded_ptr_off req =? emb_ptr_off e) || (blen aux <? emb_len e)
        with invalid "missing embedded pointer metadata or truncated parameters";
      Ok (emb_len e)
  | None =>
      fail_if! negb (embedded_ptr_off req =? NONE_U32)
        with invalid "unexpected embedded pointer metadata";
      Ok 0
  end.

(** Guest page runs of an OS-descriptor allocation. *)
Definition check_runs (dev : Dev) (req : Req) (inline aux : bytes) (params_len : Z) :
    outcome Error unit :=
  let nr := ioctl_nr req in
  let alloc := is_alloc dev nr in
  osdesc ← and_also (negb (is_uvm dev) && (alloc || (nr =? NV_ESC_RM_ALLOC_MEMORY)))
    ((fun c => c =? NV01_MEMORY_SYSTEM_OS_DESCRIPTOR) <$> u32_at inline 12);
  if negb (gpa_run_count req =? 0) then
    fail_if! negb osdesc || (alloc && negb (blen inline =? size_of NVOS64_PARAMETERS))
      with invalid "GPA runs require an OS-descriptor allocation";
    run_bytes ← ok_or (checked_mul64 (gpa_run_count req) 16) (invalid "GPA run length overflow");
    fail_if! negb (bool_decide (checked_add64 params_len run_bytes = Some (blen aux)))
      with invalid "GPA run bytes differ from the declared count";
    Ok tt
  else if (osdesc : bool) then
    Err (unsupported "OS-descriptor allocation requires pinned GPA runs")
  else if (params_len =? 0) && negb (blen aux =? 0) then
    Err (invalid "aux buffer has no host-described target")
  else Ok tt.

(** The descriptor field expected inside the parameters. *)
Definition expected_aux_fd (dev : Dev) (nr : Z) (inline params : bytes) :
    outcome Error (option (Z * Z)) :=
  if is_alloc dev nr && negb (blen params =? 0) then
    class ← u32_at inline 12;
    enabled ← match alloc_fd_guard class with
      | Some (off, value) => v ← u32_at params off; Ok (v =? value)
      | None => Ok true
      end;
    Ok (match alloc_fd_field class with
        | Some off => if (enabled : bool) then Some (off, 8) else None
        | None => None
        end)
  else if is_control dev nr && negb (blen params =? 0) then
    cmd ← u32_at inline 8;
    Ok (match ctrl_fd_offset cmd with Some off => Some (off, 4) | None => None end)
  else Ok None.

(** The nested pointers the control's parameters contain. *)
Definition nested_specs (dev : Dev) (nr : Z) (inline : bytes) (params_len : Z) :
    outcome Error (list NestedPtr) :=
  if is_control dev nr && negb (params_len =? 0)
  then cmd ← u32_at inline 8; Ok (nested_ptrs cmd) else Ok [].

(** The nested pointers: descriptors consumed so far, their ranges in aux,
    pointers to clear. *)
Fixpoint check_nested (req : Req) (params : bytes) (aux_size : Z) (specs : list NestedPtr)
    (used : nat) (ranges : list (Z * Z)) (zeros : list Z) : outcome Error (nat * list Z) :=
  match specs with
  | [] => Ok (used, zeros)
  | spec :: specs' =>
      pointer ← u64_at params (np_ptr_off spec);
      resolved ← map_err (fun _ => invalid "unreachable")
        (resolve (np_len spec) params (wrap32 (blen params)));
      len ← ok_or resolved (invalid "nested length exceeds the parameter layout");
      if (pointer =? 0) || (len =? 0) then
        check_nested req params aux_size specs' used ranges
          (if negb (pointer =? 0) then zeros ++ [np_ptr_off spec] else zeros)
      else
        d ← ok_or (if Z.of_nat used <? nested_count req then nested req !! used else None)
              (invalid "missing nested pointer translation metadata");
        fail_if! negb (ptr_off d =? np_ptr_off spec) || (nd_len d <? len)
          with invalid "nested descriptor differs from the host layout";
        let start := aux_off d in
        stop ← ok_or (checked_add64 start (nd_len d)) (invalid "nested buffer length overflow");
        fail_if! (start <? blen params) || (aux_size <? stop) ||
            existsb (fun r => (start <? r.2) && (r.1 <? stop)) ranges
          with invalid "nested buffers overlap or extend outside aux";
        check_nested req params aux_size specs' (S used) (ranges ++ [(start, stop)]) zeros
  end.

Definition validate (dev : Dev) (req : Req) (inline aux : bytes) : outcome Error Shape :=
  let nr := ioctl_nr req in
  _ ← check_envelope dev req inline aux;
  _ ← fd_field inline ((fun o => (o, 4)) <$> fd_field_offset dev nr (inline_len req))
        (fd_field_off req) (fd_field_token req) (fd_field_proc req);
  zero_inline ← check_refused dev nr inline;
  params_len ← check_embedded dev req inline aux;
  params ← or_panic (get_range aux 0 params_len);
  _ ← check_runs dev req inline aux params_len;
  aux_fd ← expected_aux_fd dev nr inline params;
  _ ← fd_field params aux_fd (aux_fd_field_off req) (aux_fd_field_token req)
        (aux_fd_field_proc req);
  fail_if! Z.of_nat (length (nested req)) <? nested_count req
    with invalid "nested_count exceeds the wire descriptor array";
  specs ← nested_specs dev nr inline params_len;
  '(used, zeros) ← check_nested req params (blen aux) specs 0 [] [];
  fail_if! negb (Z.of_nat used =? nested_count req)
    with invalid "unexpected nested pointer translation metadata";
  Ok {| zero_inline := zero_inline; zero_aux := zeros |}.

End validate.

(** ** Validation never panics *)
Section safety.
Context {A : RmAbi} {AOk : RmAbiOk A}.

Lemma u32_at_no_panic b off : no_panic (u32_at b off).
Proof. apply no_panic_ok_or. Qed.

Lemma u64_at_no_panic b off : no_panic (u64_at b off).
Proof. apply no_panic_ok_or. Qed.

Lemma no_panic_fmap {E B C} (f : B -> C) (m : outcome E B) : no_panic m -> no_panic (f <$> m).
Proof. by destruct m. Qed.

Lemma and_also_no_panic c m : no_panic m -> no_panic (and_also c m).
Proof. by destruct c. Qed.

Hint Resolve u32_at_no_panic u64_at_no_panic no_panic_fmap and_also_no_panic : nvrm.

Lemma fd_field_no_panic b expected off token owner :
  (forall o w, expected = Some (o, w) -> w = 4 \/ w = 8) ->
  no_panic (fd_field b expected off token owner).
Proof.
  intros Hw. unfold fd_field. destruct expected as [[o w]|]; [|no_panic].
  no_panic. unfold fd_negative.
  destruct (Hw o w eq_refl) as [->| ->]; simpl; no_panic.
Qed.

Lemma check_envelope_no_panic dev req inline aux :
  no_panic (check_envelope dev req inline aux).
Proof. unfold check_envelope. no_panic. Qed.

Lemma check_refused_no_panic dev nr inline : no_panic (check_refused dev nr inline).
Proof. unfold check_refused. no_panic. apply and_also_no_panic. no_panic. Qed.

Lemma check_embedded_no_panic dev req inline aux :
  wf_bytes inline -> blen inline = inline_len req ->
  no_panic (check_embedded dev req inline aux).
Proof.
  intros Hb Hl. unfold check_embedded. no_panic. rewrite <- Hl.
  by apply embedded_ptr_spec.
Qed.

(** What the embedded buffer's check establishes. *)
Lemma check_embedded_Ok dev req inline aux n :
  wf_bytes inline -> blen inline = inline_len req ->
  check_embedded dev req inline aux = Ok n ->
  (n = 0 /\ embedded_ptr_off req = NONE_U32 /\
     embedded_ptr dev (ioctl_nr req) inline (blen inline) = Ok None) \/
  (exists e, embedded_ptr dev (ioctl_nr req) inline (blen inline) = Ok (Some e) /\
     n = emb_len e /\ embedded_ptr_off req = emb_ptr_off e /\ 0 < n <= blen aux /\
     n <= u32_max).
Proof.
  intros Hb Hl. unfold check_embedded. rewrite <- Hl. intros H.
  destruct (embedded_ptr dev (ioctl_nr req) inline (blen inline)) as [[e|]| |] eqn:He;
    outcome_simpl H; inv_ok.
  - right. exists e. apply embedded_ptr_spec in He as (_ & _ & _ & [? ?] & _); [|done..].
    split_and!; auto; lia.
  - left. done.
Qed.

Lemma check_runs_no_panic dev req inline aux n : no_panic (check_runs dev req inline aux n).
Proof. unfold check_runs. no_panic. Qed.

Lemma expected_aux_fd_no_panic dev nr inline params :
  no_panic (expected_aux_fd dev nr inline params).
Proof. unfold expected_aux_fd. no_panic. Qed.

Lemma expected_aux_fd_width dev nr inline params o w :
  expected_aux_fd dev nr inline params = Ok (Some (o, w)) -> w = 4 \/ w = 8.
Proof. unfold expected_aux_fd. intros H. inv_ok; repeat case_match; inv_ok; auto. Qed.

Lemma check_nested_no_panic req params aux_size specs used ranges zeros :
  wf_bytes params -> blen params <= u32_max ->
  Forall (fun p => is_u32 (np_ptr_off p) /\ wf_len (np_len p)) specs ->
  no_panic (check_nested req params aux_size specs used ranges zeros).
Proof.
  intros Hp Hl Hs. assert (wrap32 (blen params) = blen params) as Hw.
  { apply Z.mod_small. pose proof (blen_nonneg params). unfold u32_max in Hl. lia. }
  revert used ranges zeros. induction Hs as [|spec specs [Ho Hlen] Hs IH];
    intros used ranges zeros; simpl; [done|]. no_panic.
  rewrite Hw. by apply resolve_spec.
Qed.

Lemma nested_specs_wf dev nr inline n specs :
  nested_specs dev nr inline n = Ok specs ->
  Forall (fun p => is_u32 (np_ptr_off p) /\ wf_len (np_len p)) specs.
Proof.
  unfold nested_specs. intros H. inv_ok; [apply nested_ptrs_wf|by constructor].
Qed.

Lemma validate_no_panic dev req inline aux :
  wf_bytes inline -> wf_bytes aux -> no_panic (validate dev req inline aux).
Proof.
  intros Hi Ha. unfold validate.
  apply no_panic_bind; [apply check_envelope_no_panic|]. intros [] Henv.
  assert (blen inline = inline_len req) as Hl.
  { unfold check_envelope in Henv. destruct (_ || _) eqn:Hc; [done|]. bools. lia. }
  apply no_panic_bind; [|intros _ _].
  { apply fd_field_no_panic. intros o w (? & _ & ?)%fmap_Some. simplify_eq. auto. }
  apply no_panic_bind; [apply check_refused_no_panic|intros zi _].
  apply no_panic_bind; [by apply check_embedded_no_panic|intros n Hn].
  assert (0 <= n /\ n <= blen aux /\ n <= u32_max) as (? & ? & ?).
  { apply check_embedded_Ok in Hn as [(-> & _)|(e & _ & _ & _ & ? & ?)]; [|lia..|done|done].
    pose proof (blen_nonneg aux). unfold u32_max. lia. }
  destruct (proj2 (get_range_is_Some aux 0 n)) as [params Hp]; [lia|].
  pose proof (get_range_length _ _ _ _ Hp) as Hpl. rewrite Hp. simpl.
  apply no_panic_bind; [apply check_runs_no_panic|intros _ _].
  apply no_panic_bind; [apply expected_aux_fd_no_panic|intros fd Hfd].
  apply no_panic_bind; [|intros _ _].
  { apply fd_field_no_panic. intros o w ->. by eapply expected_aux_fd_width. }
  apply no_panic_if; intros _; [done|].
  apply no_panic_bind; [unfold nested_specs; no_panic|intros specs Hspecs].
  apply no_panic_bind; [|intros [used zeros] _; no_panic].
  apply check_nested_no_panic; [by eapply get_range_wf|lia|].
  by eapply nested_specs_wf.
Qed.

End safety.

(** ** What a validated request looks like *)

(** A nested descriptor lies in aux behind the parameters. *)
Definition inside_aux (params_len aux_size : Z) (d : NestedDesc) : Prop :=
  params_len <= aux_off d /\ aux_off d + nd_len d <= aux_size.

Definition nd_range (d : NestedDesc) : Z * Z := (aux_off d, aux_off d + nd_len d).

(** A nested pointer of the parameters is null, will be cleared, or has a
    descriptor that covers its host-computed length. *)
Definition pointer_covered (params : bytes) (zeros : list Z) (ds : list NestedDesc)
    (spec : NestedPtr) : Prop :=
  exists p len, get_u64 params (np_ptr_off spec) = Some p /\
    resolve (np_len spec) params (blen params) = Ok (Some len) /\
    (p = 0 \/ np_ptr_off spec ∈ zeros \/
     exists d, d ∈ ds /\ ptr_off d = np_ptr_off spec /\ 0 < len <= nd_len d).

Lemma pointer_covered_mono params zs zs' ds ds' spec :
  zs ⊆ zs' -> ds ⊆ ds' ->
  pointer_covered params zs ds spec -> pointer_covered params zs' ds' spec.
Proof.
  intros Hz Hd (p & len & ? & ? & Hc). exists p, len. split_and!; [done|done|].
  destruct Hc as [?|[?|(d & ? & ?)]]; [by left|right; left; by apply Hz|].
  right; right. exists d. split; [by apply Hd|done].
Qed.

(** A pointer of the parameters, decided one way: a descriptor with at least
    the host-computed length for [Some d], null or to be cleared for [None]. *)
Definition spec_met (params : bytes) (zeros : list Z) (spec : NestedPtr) (o : option NestedDesc)
  : Prop :=
  exists p len, get_u64 params (np_ptr_off spec) = Some p /\
    resolve (np_len spec) params (blen params) = Ok (Some len) /\
    match o with
    | Some d => ptr_off d = np_ptr_off spec /\ 0 < len <= nd_len d
    | None => p = 0 \/ np_ptr_off spec ∈ zeros
    end.

(** What the loop over [specs] from position [used] establishes of the
    descriptors [ds] it consumed and the pointers [zs] it asks to clear. *)
Record nested_facts (req : Req) (params : bytes) (aux_size : Z) (specs : list NestedPtr)
    (used : nat) (ranges : list (Z * Z)) (ds : list NestedDesc) (zs : list Z) : Prop := {
  nf_prefix : ds = take (length ds) (drop used (nested req));
  nf_inside : Forall (inside_aux (blen params) aux_size) ds;
  nf_disjoint : pairwise disjoint_ranges (nd_range <$> ds);
  nf_ranges : Forall (fun r => Forall (disjoint_ranges r) (nd_range <$> ds)) ranges;
  nf_zeros : Forall (fun z => 0 <= z /\ z + 8 <= blen params) zs;
  nf_zeros_specs : Forall (fun z => z ∈ np_ptr_off <$> specs) zs;
  nf_covered : Forall (pointer_covered params zs ds) specs;
  nf_met : exists os : list (option NestedDesc), ds = omap (fun o => o) os /\ Forall2 (spec_met params zs) specs os;
}.

Lemma spec_met_mono params zs zs' spec o :
  zs ⊆ zs' -> spec_met params zs spec o -> spec_met params zs' spec o.
Proof.
  intros Hz (p & len & ? & ? & Ho). exists p, len. split_and!; [done|done|].
  destruct o; [done|]. destruct Ho; [by left|right; by apply Hz].
Qed.

Lemma nested_facts_skip req params aux_size spec specs used ranges ds zs p len :
  is_u32 (np_ptr_off spec) ->
  get_u64 params (np_ptr_off spec) = Some p ->
  resolve (np_len spec) params (blen params) = Ok (Some len) ->
  nested_facts req params aux_size specs used ranges ds zs ->
  nested_facts req params aux_size (spec :: specs) used ranges ds
    (if negb (p =? 0) then np_ptr_off spec :: zs else zs).
Proof.
  intros [? ?] Hp Hl [? ? ? ? Hz Hzs Hc (os & -> & Hm)].
  assert (np_ptr_off spec + 8 <= blen params)
    by (apply (get_le_is_Some 8 params); by eexists).
  split; try done.
  - destruct (p =? 0); simpl; [done|]. constructor; [lia|done].
  - assert (Forall (fun z => z ∈ np_ptr_off <$> spec :: specs) zs)
      by (eapply Forall_impl; [exact Hzs|]; intros z Hz1; rewrite fmap_cons; by constructor).
    destruct (p =? 0); simpl; [done|]. constructor; [constructor|done].
  - assert (zs ⊆ (if negb (p =? 0) then np_ptr_off spec :: zs else zs)) as Hsub
      by (destruct (p =? 0); simpl; set_solver).
    constructor.
    + exists p, len. split_and!; [done|done|]. destruct (p =? 0) eqn:?; bools; [by left|].
      right; left. simpl. constructor.
    + eapply Forall_impl; [exact Hc|]. intros q. by apply pointer_covered_mono.
  - exists (None :: os). split; [done|]. constructor.
    + exists p, len. split_and!; [done|done|]. destruct (p =? 0) eqn:?; bools; [by left|].
      right. simpl. constructor.
    + eapply Forall2_impl; [exact Hm|]. intros q o. apply spec_met_mono.
      destruct (p =? 0); simpl; set_solver.
Qed.

Lemma nested_facts_take req params aux_size spec specs used ranges ds zs p len d :
  get_u64 params (np_ptr_off spec) = Some p ->
  resolve (np_len spec) params (blen params) = Ok (Some len) -> 0 < len <= nd_len d ->
  nested req !! used = Some d -> ptr_off d = np_ptr_off spec ->
  inside_aux (blen params) aux_size d ->
  Forall (fun r => disjoint_ranges r (nd_range d)) ranges ->
  nested_facts req params aux_size specs (S used) (ranges ++ [nd_range d]) ds zs ->
  nested_facts req params aux_size (spec :: specs) used ranges (d :: ds) zs.
Proof.
  intros Hp Hl Hlen Hd Hptr Hin Hr [Hpre ? ? Hrs ? Hzs Hc (os & -> & Hm)].
  apply Forall_app in Hrs as [Hrs Hd1]. rewrite Forall_singleton in Hd1.
  split; try done.
  - simpl. rewrite (drop_S _ _ _ Hd). simpl. by f_equal.
  - by constructor.
  - rewrite Forall_forall in *. intros r Hrin. rewrite fmap_cons. constructor; auto.
  - eapply Forall_impl; [exact Hzs|]. intros z Hz1. rewrite fmap_cons. by constructor.
  - constructor.
    + exists p, len. split_and!; [done|done|]. right; right. exists d. split; [constructor|done].
    + eapply Forall_impl; [exact Hc|]. intros q. apply pointer_covered_mono; [done|].
      set_solver.
  - exists (Some d :: os). split; [done|]. constructor; [|done].
    exists p, len. split_and!; [done|done|done|lia|lia].
Qed.

Lemma existsb_overlap_false start stop ranges :
  existsb (fun r : Z * Z => (start <? r.2) && (r.1 <? stop)) ranges = false ->
  Forall (fun r => disjoint_ranges r (start, stop)) ranges.
Proof.
  intros H. apply Forall_forall. intros r Hr%list_elem_of_In.
  assert (~ (start < r.2 /\ r.1 < stop)).
  { intros [? ?]. apply not_true_iff_false in H. apply H, existsb_exists. exists r.
    split; [done|]. apply andb_true_intro. rewrite !Z.ltb_lt. done. }
  unfold disjoint_ranges. simpl. lia.
Qed.

Lemma check_nested_Ok req params aux_size specs used ranges zeros used' zeros' :
  wf_bytes params -> blen params <= u32_max ->
  Forall (fun p => is_u32 (np_ptr_off p) /\ wf_len (np_len p)) specs ->
  check_nested req params aux_size specs used ranges zeros = Ok (used', zeros') ->
  exists ds zs, used' = (used + length ds)%nat /\ zeros' = zeros ++ zs /\
    nested_facts req params aux_size specs used ranges ds zs.
Proof.
  intros Hp Hl Hs. assert (wrap32 (blen params) = blen params) as Hw.
  { apply Z.mod_small. pose proof (blen_nonneg params). unfold u32_max in Hl. lia. }
  revert used ranges zeros.
  induction Hs as [|spec specs [Ho Hlen] Hs IH]; intros used ranges zeros H; simpl in H.
  - inv_ok. exists [], []. rewrite app_nil_r, Nat.add_0_r.
    split_and!; try done. split; try done; try constructor; [by apply Forall_true|].
    exists []. split; [done|constructor].
  - rewrite Hw in H. unfold u64_at in H. inv_ok.
    + apply IH in H as (ds & zs & -> & -> & HF). eexists ds, _. split; [done|].
      split; [|by eapply nested_facts_skip]. destruct (a =? 0); [done|].
      simpl. by rewrite <- (assoc_L (++)).
    + apply IH in H as (ds & zs & -> & -> & HF).
      match goal with H : (if _ then nested req !! used else None) = Some ?x |- _ =>
        rename x into d; destruct (_ <? _) in H; [|done]; rename H into Hd end.
      match goal with H : checked_add64 _ _ = Some _ |- _ =>
        apply checked_add64_Some in H as [-> _] end.
      exists (d :: ds), zs. simpl. split_and!; [lia|done|].
      destruct (resolve_spec (np_len spec) params Hlen Hp) as [_ Hres].
      match goal with H : resolve _ _ _ = Ok (Some _) |- _ => destruct (Hres _ H) as [[? _] _] end.
      eapply nested_facts_take; eauto; [lia|by split|by apply existsb_overlap_false].
Qed.

(** ** File descriptors *)

(** The field at [o] of width [w] reads as a negative descriptor once narrowed
    to 32 bits, as the driver does. *)
Definition negative_fd (b : bytes) (o w : Z) : Prop :=
  exists v, get_le (Z.to_nat w) b o = Some v /\ as_i32 v < 0.

Lemma wrap32_as_i64 v : wrap32 (as_i64 v) = wrap32 v.
Proof.
  unfold as_i64, wrap32, wrap64.
  assert ((4294967296 | 18446744073709551616)) as Hd by (by exists 4294967296).
  destruct (9223372036854775808 <=? _); [|by apply Z.mod_mod_divide].
  rewrite <- (Z_mod_plus_full _ 4294967296).
  replace (_ - _ + _) with (v mod 18446744073709551616) by lia.
  by apply Z.mod_mod_divide.
Qed.

(** Translation metadata that was accepted. *)
Definition fd_resolved (b : bytes) (expected : option (Z * Z)) (off token owner : Z) : Prop :=
  match expected with
  | None => off = NONE_U32 /\ token = NONE_U64 /\ owner = NONE_U32
  | Some (o, w) =>
      off = o /\ 0 <= o /\ o + w <= blen b /\
      (token <> NONE_U64 \/ (owner = NONE_U32 /\ negative_fd b o w))
  end.

Lemma fd_field_Ok b expected off token owner :
  (forall o w, expected = Some (o, w) -> w = 4 \/ w = 8) ->
  fd_field b expected off token owner = Ok tt -> fd_resolved b expected off token owner.
Proof.
  intros Hw. unfold fd_field, fd_resolved.
  destruct expected as [[o w]|]; [|intros H; inv_ok; done].
  intros H. inv_ok. unfold fd_negative in *.
  assert (exists v, get_le (Z.to_nat w) b o = Some v /\ 0 <= o /\ o + w <= blen b /\
    (a = true -> as_i32 v < 0)) as (v & Hv & Ho & Hlen & Hneg).
  { destruct (Hw o w eq_refl) as [->| ->]; simpl in *; unfold u32_at, u64_at in *; inv_ok;
      match goal with H : get_le ?n b o = Some ?x |- _ =>
        exists x; pose proof (proj1 (get_le_is_Some n b o) (ex_intro _ x H)) as [? ?] end;
      split_and!; try done; try (simpl in *; lia); intros; bools; try lia.
    unfold as_i32. rewrite <- wrap32_as_i64.
    match goal with H : as_i64 _ = as_i32 _ |- _ => unfold as_i32 in H end. lia. }
  split_and!; try done. bool_cases.
  - by left.
  - right. split; [done|]. exists v. split; [done|]. apply Hneg. by destruct a.
Qed.

(** ** The accepted request, stage by stage *)
Section accepted.
Context {A : RmAbi} {AOk : RmAbiOk A}.

Lemma check_envelope_Ok dev req inline aux u :
  check_envelope dev req inline aux = Ok u ->
  blen inline = inline_len req /\ blen aux = aux_len req /\ dev <> UvmTools /\
  (dev = Uvm -> uvm_param_size_for (ioctl_nr req) = Some (inline_len req)) /\
  (is_uvm dev = false -> inline_len req < 16384 /\
     exists s, frontend_size (ioctl_nr req) = Some s /\ accepts s (inline_len req) = true).
Proof.
  unfold check_envelope. intros H. destruct (_ || _) eqn:Hc; [done|]. bools.
  destruct dev; inv_ok; simpl in *; split_and!; try done; try lia; intros; try done;
    try congruence; eauto.
Qed.

(** The stages of an accepted request. *)
Record accepted (dev : Dev) (req : Req) (inline aux : bytes) (s : Shape)
    (params : bytes) (aux_fd : option (Z * Z)) (specs : list NestedPtr)
    (ds : list NestedDesc) : Prop := {
  acc_envelope : check_envelope dev req inline aux = Ok tt;
  acc_fd : fd_resolved inline ((fun o => (o, 4)) <$> fd_field_offset dev (ioctl_nr req)
      (inline_len req)) (fd_field_off req) (fd_field_token req) (fd_field_proc req);
  acc_refused : check_refused dev (ioctl_nr req) inline = Ok (zero_inline s);
  acc_embedded : check_embedded dev req inline aux = Ok (blen params);
  acc_params : get_range aux 0 (blen params) = Some params;
  acc_params_u32 : blen params <= u32_max;
  acc_runs : check_runs dev req inline aux (blen params) = Ok tt;
  acc_aux_fd : expected_aux_fd dev (ioctl_nr req) inline params = Ok aux_fd;
  acc_aux_resolved : fd_resolved params aux_fd (aux_fd_field_off req)
      (aux_fd_field_token req) (aux_fd_field_proc req);
  acc_specs : nested_specs dev (ioctl_nr req) inline (blen params) = Ok specs;
  acc_count : Z.of_nat (length ds) = nested_count req;
  acc_count_max : (length ds <= length (nested req))%nat;
  acc_nested : nested_facts req params (blen aux) specs 0 [] ds (zero_aux s);
}.

Lemma validate_accepted dev req inline aux s :
  wf_bytes inline -> wf_bytes aux -> validate dev req inline aux = Ok s ->
  exists params aux_fd specs ds, accepted dev req inline aux s params aux_fd specs ds.
Proof.
  intros Hi Ha H. unfold validate in H.
  apply bind_Ok in H as ([] & Henv & H). apply bind_Ok in H as ([] & Hfd & H).
  apply bind_Ok in H as (zi & Href & H). apply bind_Ok in H as (n & Hemb & H).
  apply bind_Ok in H as (params & Hp%or_panic_Ok & H). apply bind_Ok in H as ([] & Hruns & H).
  apply bind_Ok in H as (aux_fd & Haux & H). apply bind_Ok in H as ([] & Hafd & H).
  destruct (_ <? _) eqn:Hmax; [done|]. apply bind_Ok in H as (specs & Hspecs & H).
  apply bind_Ok in H as ([used zeros] & Hnest & H).
  destruct (check_envelope_Ok _ _ _ _ _ Henv) as (Hl & _).
  pose proof (get_range_length _ _ _ _ Hp) as Hpl. subst n.
  assert (blen params <= u32_max).
  { apply check_embedded_Ok in Hemb as [(-> & _)|(? & _ & _ & _ & _ & ?)]; done. }
  apply check_nested_Ok in Hnest as (ds & zs & -> & -> & HF);
    [|by eapply get_range_wf|done|by eapply nested_specs_wf].
  inv_ok. exists params, aux_fd, specs, ds. split; simpl; try done; try lia.
  - apply fd_field_Ok; [|done]. intros o w (? & _ & ?)%fmap_Some. simplify_eq. auto.
  - apply fd_field_Ok; [|done]. intros o w ->. by eapply expected_aux_fd_width.
Qed.

(** The refusals an accepted request has passed. *)
Lemma check_refused_Ok dev nr inline z :
  check_refused dev nr inline = Ok z ->
  (is_control dev nr = true ->
     (exists cmd, get_u32 inline 8 = Some cmd /\ ctrl_blocked cmd = false) /\
     exists p, get_u64 inline 16 = Some p /\
       (z = None \/ z = Some 16) /\
       (z = Some 16 <-> p <> 0 /\ get_u32 inline 24 = Some 0)) /\
  (is_control dev nr = false -> z = None) /\
  (is_uvm dev = false -> nr ∈ [NV_ESC_RM_ALLOC; NV_ESC_RM_ALLOC_OBJECT; NV_ESC_RM_ALLOC_MEMORY] ->
     exists c, get_u32 inline 12 = Some c /\ alloc_class_blocked c = false).
Proof.
  unfold check_refused. intros H.
  apply bind_Ok in H as (bc & Hbc & H). destruct bc; [done|].
  apply bind_Ok in H as (b & Hb & H). destruct b; [done|].
  apply bind_Ok in H as (s1 & _ & H). destruct s1; [done|].
  apply bind_Ok in H as (s2 & _ & H). destruct s2; [done|].
  apply bind_Ok in H as (h & _ & H). destruct h; [done|].
  apply bind_Ok in H as (r & _ & H). destruct r; [done|].
  apply bind_Ok in H as (u & Hu & H). simplify_eq.
  unfold and_also, u32_at, u64_at in *. split_and!.
  - intros Hc. rewrite Hc in Hb, Hu. clear Hbc. inv_ok; (split; [by eauto|]); simplify_eq;
      eexists; (split; [done|]).
    + destruct (_ =? 0) eqn:?; bools; split; auto; naive_solver.
    + split; [by left|]. naive_solver.
  - intros Hc. rewrite Hc in Hu. by simplify_eq.
  - intros Hd Hnr. rewrite Hd in Hbc. simpl in Hbc.
    replace (_ || _ || _) with true in Hbc; [inv_ok; eauto|].
    symmetry. rewrite !orb_true_iff, !Z.eqb_eq. set_solver.
Qed.

End accepted.

(** ** Clearing pointers *)
Definition zero_at (b : bytes) (z : Z) : Prop := get_u64 b z = Some 0.

Lemma zero_at_lookup b z :
  wf_bytes b -> 0 <= z -> z + 8 <= blen b ->
  zero_at b z <-> forall i : nat, (i < 8)%nat -> b !! (Z.to_nat z + i)%nat = Some 0.
Proof.
  intros Hb Hz Hl. unfold zero_at, get_le.
  destruct (proj2 (get_range_is_Some b z 8)) as [d Hd]; [lia|].
  change (Z.of_nat 8) with 8. rewrite Hd. simpl.
  pose proof (get_range_length _ _ _ _ Hd) as Hdl.
  pose proof (fun i Hi => get_range_lookup b z 8 d i Hd Hi) as Hlk.
  assert (wf_bytes d) as Hwd by (by eapply get_range_wf). split.
  - intros [= Hv] i Hi. rewrite <- Hlk by lia.
    assert (d = replicate 8 0) as ->; [|by rewrite lookup_replicate_2].
    rewrite <- (le_bytes_le_val d) by done. rewrite Hv.
    replace (length d) with 8%nat by (unfold blen in Hdl; lia). done.
  - intros Hi. assert (d = replicate 8 0) as ->; [|done].
    apply list_eq. intros i. destruct (decide (i < 8)%nat).
    + rewrite Hlk by lia. by rewrite Hi, lookup_replicate_2 by done.
    + rewrite !lookup_ge_None_2; [done|rewrite length_replicate; lia|unfold blen in Hdl; lia].
Qed.

Lemma fill8_Ok b z :
  wf_bytes b -> 0 <= z -> z + 8 <= blen b ->
  exists b', fill8 b z = Ok b' /\ wf_bytes b' /\ blen b' = blen b /\ zero_at b' z /\
    (forall y, 0 <= y -> y + 8 <= blen b -> zero_at b y -> zero_at b' y) /\
    (forall o l, o + l <= z \/ z + 8 <= o -> get_range b' o l = get_range b o l).
Proof.
  intros Hb Hz Hl. exists (put_range b z (replicate 8 0)).
  assert (blen (replicate 8 0) = 8) as H8 by done.
  assert (wf_bytes (put_range b z (replicate 8 0))) as Hwf.
  { apply put_range_wf; [done|]. by repeat constructor. }
  assert (blen (put_range b z (replicate 8 0)) = blen b) as Hlen
    by (apply blen_put_range; lia).
  assert (zero_at (put_range b z (replicate 8 0)) z) as Hzero.
  { unfold zero_at, get_le. change (Z.of_nat 8) with (blen (replicate 8 0)).
    by rewrite get_put_same by lia. }
  split_and!; try done.
  - unfold fill8, set_range. rewrite H8.
    by rewrite (proj2 (in_range_spec b z 8)) by lia.
  - intros y Hy Hyl. rewrite !zero_at_lookup by (done || lia). intros Hyz i Hi.
    destruct (decide (Z.to_nat z <= Z.to_nat y + i < Z.to_nat z + 8)%nat).
    + rewrite zero_at_lookup in Hzero by (done || lia).
      replace (Z.to_nat y + i)%nat with (Z.to_nat z + (Z.to_nat y + i - Z.to_nat z))%nat by lia.
      apply Hzero. lia.
    + rewrite put_range_lookup_ne by lia. by apply Hyz.
  - intros o l Hd. apply get_put_disjoint; lia.
Qed.

Lemma fill8_all_Ok b zs :
  wf_bytes b -> Forall (fun z => 0 <= z /\ z + 8 <= blen b) zs ->
  exists b', fill8_all b zs = Ok b' /\ wf_bytes b' /\ blen b' = blen b /\
    Forall (zero_at b') zs /\
    (forall y, 0 <= y -> y + 8 <= blen b -> zero_at b y -> zero_at b' y) /\
    (forall o l, Forall (fun z => o + l <= z \/ z + 8 <= o) zs ->
       get_range b' o l = get_range b o l).
Proof.
  intros Hb Hzs. revert b Hb Hzs. induction zs as [|z zs IH]; intros b Hb Hzs.
  - exists b. by split_and!.
  - apply Forall_cons in Hzs as [[Hz Hl] Hzs].
    destruct (fill8_Ok b z Hb Hz Hl) as (b1 & Hf & Hb1 & Hl1 & Hz1 & Hk1 & Hr1).
    destruct (IH b1 Hb1) as (b2 & Hf2 & Hb2 & Hl2 & Hz2 & Hk2 & Hr2); [by rewrite Hl1|].
    exists b2. simpl. rewrite Hf. simpl. split_and!; try done; [congruence| | |].
    + constructor; [|done]. apply Hk2; [done|lia|done].
    + intros y Hy Hyl Hyz. apply Hk2; [done|lia|]. by apply Hk1.
    + intros o l [Ho Hos]%Forall_cons. rewrite Hr2 by done. by apply Hr1.
Qed.

(** Clearing the pointers of an accepted request. *)
Record cleared (s : Shape) (inline aux inline' aux' : bytes) : Prop := {
  cl_result : clear_unused_pointers s inline aux = Ok (inline', aux');
  cl_wf : wf_bytes inline' /\ wf_bytes aux';
  cl_inline_len : blen inline' = blen inline;
  cl_aux_len : blen aux' = blen aux;
  cl_inline : forall o l, o + l <= 16 \/ 24 <= o -> get_range inline' o l = get_range inline o l;
  cl_kept : zero_inline s <> Some 16 -> inline' = inline;
  cl_zero : zero_inline s = Some 16 -> zero_at inline' 16;
  cl_zeros : Forall (zero_at aux') (zero_aux s);
  cl_null : forall y, 0 <= y -> y + 8 <= blen aux -> zero_at aux y -> zero_at aux' y;
  cl_aux : forall o l, Forall (fun z => o + l <= z \/ z + 8 <= o) (zero_aux s) ->
    get_range aux' o l = get_range aux o l;
}.

Lemma clear_accepted {A : RmAbi} {AOk : RmAbiOk A} dev req inline aux s params afd specs ds :
  wf_bytes inline -> wf_bytes aux -> accepted dev req inline aux s params afd specs ds ->
  exists inline' aux', cleared s inline aux inline' aux'.
Proof.
  intros Hi Ha HH.
  assert (exists inline', match zero_inline s with
      | Some off => fill8 inline off | None => Ok inline end = Ok inline' /\
    wf_bytes inline' /\ blen inline' = blen inline /\
    (forall o l, o + l <= 16 \/ 24 <= o -> get_range inline' o l = get_range inline o l) /\
    (zero_inline s <> Some 16 -> inline' = inline) /\
    (zero_inline s = Some 16 -> zero_at inline' 16))
    as (inline' & Hf & Hw & Hlen & Hfr & Hk & Hz).
  { destruct (check_refused_Ok _ _ _ _ (acc_refused _ _ _ _ _ _ _ _ _ HH)) as (Hc & Hn & _).
    destruct (is_control dev (ioctl_nr req)); [|rewrite Hn by done; by exists inline].
    destruct (Hc eq_refl) as (_ & p & Hp & [Hs|Hs] & _); rewrite Hs; [by exists inline|].
    assert (16 + 8 <= blen inline) as Hl by (apply (get_le_is_Some 8 inline); by eexists).
    destruct (fill8_Ok inline 16 Hi) as (b & ? & ? & ? & ? & _ & Hfr); [lia|done|].
    exists b. split_and!; auto; done. }
  pose proof (acc_params _ _ _ _ _ _ _ _ _ HH) as Hp.
  pose proof (acc_nested _ _ _ _ _ _ _ _ _ HH) as Hnest.
  pose proof (proj1 (get_range_is_Some aux 0 (blen params)) (ex_intro _ _ Hp)).
  destruct (fill8_all_Ok aux (zero_aux s) Ha) as (aux' & Hfa & Hwa & Hla & Hza & Hka & Hra).
  { eapply Forall_impl; [exact (nf_zeros _ _ _ _ _ _ _ _ Hnest)|]. simpl. intros; lia. }
  exists inline', aux'. split; try done.
  unfold clear_unused_pointers. rewrite Hf. simpl. by rewrite Hfa.
Qed.

(** ** Theorems *)

(** Validation of a guest request never panics and never reads outside the
    buffers it was given, whatever the request fields and payload bytes are,
    on every supported driver ABI. *)
Theorem validate_never_panics (A : RmAbi) (dev : Dev) (req : Req) (inline aux : bytes) :
  RmAbiOk A -> wf_bytes inline -> wf_bytes aux -> no_panic (validate (A:=A) dev req inline aux).
Proof. intros. by apply validate_no_panic. Qed.

(** A control with one nested pointer: GR_GET_INFO with two entries. *)
Definition ctrl_inline : bytes :=
  put_range (put_range (put_range (replicate 32 0) 8 (le_bytes 4 0x20801201))
    16 (le_bytes 8 0x7f0000001000)) 24 (le_bytes 4 32).

Definition ctrl_aux : bytes :=
  put_range (put_range (replicate 48 0) 0 (le_bytes 4 2)) 8 (le_bytes 8 0x7f0000002000).

Definition ctrl_req : Req := {|
  seq := 1; kind := 3; dev_tag := 0; ioctl_nr := NV_ESC_RM_CONTROL; target_token := 1;
  inline_len := 32; aux_len := 48; fd_field_off := NONE_U32; fd_field_proc := NONE_U32;
  fd_field_token := NONE_U64; embedded_ptr_off := 16; nested_count := 1;
  nested := [{| ptr_off := 8; aux_off := 32; nd_len := 16; nd_pad := 0 |};
             NestedDesc_default; NestedDesc_default; NestedDesc_default];
  aux_fd_field_off := NONE_U32; aux_fd_field_proc := NONE_U32;
  aux_fd_field_token := NONE_U64; map_len := 0; addr := 0; gpa_run_count := 0;
  guest_proc := 1 |}.

Definition wf_bytesb (b : bytes) : bool := forallb (fun x => (0 <=? x) && (x <? 256)) b.

Lemma wf_bytesb_spec b : wf_bytesb b = true -> wf_bytes b.
Proof.
  unfold wf_bytesb, wf_bytes. intros H. apply Forall_forall. intros x Hx.
  pose proof (forallb_elem _ _ _ H Hx) as Hb. simpl in Hb. bools. unfold is_byte. lia.
Defined.

Lemma validate_never_panics_witness :
  validate (A:=V615) Ctl ctrl_req ctrl_inline ctrl_aux = Ok Shape_default /\
  no_panic (validate (A:=V580) Gpu ctrl_req ctrl_inline [7; 9]).
Proof.
  split; [vm_compute; reflexivity|].
  apply (validate_never_panics V580 Gpu ctrl_req ctrl_inline [7; 9] V580_ok);
    by apply wf_bytesb_spec.
Defined.

Lemma nested_facts_descriptors req params aux_size specs ds zs :
  nested_facts req params aux_size specs 0 [] ds zs ->
  Z.of_nat (length ds) = nested_count req ->
  ds = take (Z.to_nat (nested_count req)) (nested req).
Proof. intros HF Hc. rewrite <- Hc, Nat2Z.id. apply HF. Qed.

(** The parameters of an accepted request: the prefix of aux that the
    embedded pointer of its envelope describes. *)
Definition described (A : RmAbi) (dev : Dev) (req : Req) (inline aux params : bytes) : Prop :=
  match embedded_ptr (A:=A) dev (ioctl_nr req) inline (blen inline) with
  | Ok (Some e) => embedded_ptr_off req = emb_ptr_off e /\ blen params = emb_len e /\
      get_range aux 0 (emb_len e) = Some params
  | Ok None => embedded_ptr_off req = NONE_U32 /\ params = []
  | _ => False
  end.

Lemma accepted_described (A : RmAbi) (HA : RmAbiOk A) dev req inline aux s params afd specs ds :
  wf_bytes inline -> accepted dev req inline aux s params afd specs ds ->
  described A dev req inline aux params.
Proof.
  intros Hi [Henv _ _ Hemb Hp _ _ _ _ _ _ _ _]. unfold described.
  destruct (check_envelope_Ok _ _ _ _ _ Henv) as (Hl & _).
  apply check_embedded_Ok in Hemb as [(H0 & Hoff & ->)|(e & -> & Hlen & Hoff & _)]; [| |done..].
  - split; [done|]. destruct params; [done|]. unfold blen in H0. simpl in H0. lia.
  - by rewrite <- Hlen.
Qed.

(** The envelope of an accepted control names its command and parameters. *)
Lemma described_control (A : RmAbi) (HA : RmAbiOk A) dev req inline aux params :
  check_envelope dev req inline aux = Ok tt -> is_control dev (ioctl_nr req) = true ->
  described A dev req inline aux params ->
  exists p n, get_u64 inline 16 = Some p /\ get_u32 inline 24 = Some n /\
    blen params = if p =? 0 then 0 else n.
Proof.
  intros Henv Hctl. unfold described.
  destruct (check_envelope_Ok _ _ _ _ _ Henv) as (Hl & _ & _ & _ & Hf).
  unfold is_control in Hctl. destruct (is_uvm dev) eqn:Hd; [done|]. simpl in Hctl.
  destruct (Hf eq_refl) as (_ & fs & Hfs & Hacc). rewrite <- Hl in Hacc. bools. rewrite Hctl in *.
  assert (fs = Fixed 32) as -> by (vm_compute in Hfs; congruence). simpl in Hacc. bools.
  unfold embedded_ptr. rewrite Hd, Hacc. simpl.
  destruct (get_u32 inline 24) as [n|]; [|done]. destruct (get_u64 inline 16) as [q|]; [|done]. simpl.
  intros Hp. exists q, n. split; [done|]. split; [done|].
  destruct (q =? 0) eqn:?; simpl in Hp; [by destruct Hp as [_ ->]|].
  destruct (n =? 0) eqn:?; simpl in Hp; bools; [destruct Hp as [_ ->]; by subst|]. by destruct Hp as (_ & ? & _).
Qed.

(** C4: What a validated request guarantees before anything is acquired: the
    buffers have the announced lengths; the request is no refused class and no
    blocked control; the parameters are the prefix of aux that the envelope
    describes (for a control, of the length at offset 24 unless the pointer at
    offset 16 is null); the nested descriptors the guest announced lie in aux
    behind these parameters and do not overlap; and every pointer the host
    knows in a control's parameters is null, marked for clearing, or covered
    by one of these descriptors with at least the length the host computes. *)
Theorem validate_sound (A : RmAbi) (dev : Dev) (req : Req) (inline aux : bytes) (s : Shape) :
  RmAbiOk A -> wf_bytes inline -> wf_bytes aux ->
  validate (A:=A) dev req inline aux = Ok s ->
  exists params,
    blen inline = inline_len req /\ blen aux = aux_len req /\ dev <> UvmTools /\
    described A dev req inline aux params /\
    (is_uvm dev = false ->
     ioctl_nr req ∈ [NV_ESC_RM_ALLOC; NV_ESC_RM_ALLOC_OBJECT; NV_ESC_RM_ALLOC_MEMORY] ->
     exists c, get_u32 inline 12 = Some c /\ alloc_class_blocked c = false) /\
    let ds := take (Z.to_nat (nested_count req)) (nested req) in
    Z.of_nat (length ds) = nested_count req /\
    Forall (inside_aux (blen params) (blen aux)) ds /\
    pairwise disjoint_ranges (nd_range <$> ds) /\
    (is_control dev (ioctl_nr req) = true ->
     exists cmd p n, get_u32 inline 8 = Some cmd /\ get_u64 inline 16 = Some p /\
       get_u32 inline 24 = Some n /\ ctrl_blocked cmd = false /\
       blen params = (if p =? 0 then 0 else n) /\
       (0 < blen params -> Forall (pointer_covered params (zero_aux s) ds) (nested_ptrs cmd))).
Proof.
  intros HA Hi Ha H.
  apply validate_accepted in H as (params & afd & specs & ds & HH); [|done..].
  pose proof (accepted_described _ _ _ _ _ _ _ _ _ _ _ Hi HH) as Hdesc. destruct HH.
  destruct (check_envelope_Ok _ _ _ _ _ acc_envelope0) as (? & ? & ? & _).
  destruct (check_refused_Ok _ _ _ _ acc_refused0) as (Hc & _ & Hcl).
  exists params. split_and!; try done.
  rewrite <- (nested_facts_descriptors _ _ _ _ _ _ acc_nested0 acc_count0).
  pose proof acc_nested0 as [? ? ? ? ? ? Hcov _]. split_and!; try done.
  intros Hctl. destruct (Hc Hctl) as [(cmd & Hcmd & Hbl) _].
  destruct (described_control _ _ _ _ _ _ _ acc_envelope0 Hctl Hdesc) as (p & n & Hp & Hn & Hlen).
  exists cmd, p, n. split_and!; try done. intros Hpos.
  unfold nested_specs in acc_specs0. rewrite Hctl in acc_specs0.
  destruct (blen params =? 0) eqn:?; bools; [lia|]. simpl in acc_specs0.
  unfold u32_at in acc_specs0. rewrite Hcmd in acc_specs0. outcome_simpl acc_specs0.
  by simplify_eq.
Qed.

(** Thirty-two bytes of parameters, and behind them the sixteen bytes of the
    one nested list they announce. *)
Lemma validate_sound_witness :
  exists params, blen params = 32 /\
    get_range ctrl_aux 0 32 = Some params /\
    Forall (inside_aux 32 48) [{| ptr_off := 8; aux_off := 32; nd_len := 16; nd_pad := 0 |}].
Proof.
  destruct (validate_sound V615 Ctl ctrl_req ctrl_inline ctrl_aux Shape_default V615_ok
    (wf_bytesb_spec ctrl_inline eq_refl) (wf_bytesb_spec ctrl_aux eq_refl) eq_refl)
    as (params & _ & _ & _ & (_ & Hn & Hp) & _ & _ & Hin & _).
  change (blen params = 32) in Hn. exists params. split; [exact Hn|]. split; [exact Hp|].
  rewrite Hn in Hin. exact Hin.
Defined.

(** A validated request never carries an untranslated host descriptor: the
    inline field and the field inside the parameters are each either absent
    with no metadata, or lie in their buffer at the offset the request names,
    with a guest token to resolve or, without one, with a value the driver
    reads as negative even after narrowing it to 32 bits. *)
Theorem validate_resolves_fds (A : RmAbi) (dev : Dev) (req : Req) (inline aux : bytes) (s : Shape) :
  RmAbiOk A -> wf_bytes inline -> wf_bytes aux ->
  validate (A:=A) dev req inline aux = Ok s ->
  exists params aux_fd,
    get_range aux 0 (blen params) = Some params /\
    expected_aux_fd dev (ioctl_nr req) inline params = Ok aux_fd /\
    fd_resolved inline ((fun o => (o, 4)) <$> fd_field_offset dev (ioctl_nr req) (inline_len req))
      (fd_field_off req) (fd_field_token req) (fd_field_proc req) /\
    fd_resolved params aux_fd (aux_fd_field_off req) (aux_fd_field_token req)
      (aux_fd_field_proc req).
Proof.
  intros HA Hi Ha H.
  apply validate_accepted in H as (params & afd & specs & ds & []); [|done..].
  by exists params, afd.
Qed.

(** An OS event allocation names descriptor 5 through token 9. *)
Definition os_event_inline : bytes := put_range (replicate 16 0) 8 (le_bytes 4 5).

Definition os_event_req : Req := {|
  seq := 1; kind := 3; dev_tag := 0; ioctl_nr := NV_ESC_ALLOC_OS_EVENT; target_token := 1;
  inline_len := 16; aux_len := 0; fd_field_off := 8; fd_field_proc := 1;
  fd_field_token := 9; embedded_ptr_off := NONE_U32; nested_count := 0;
  nested := replicate MAX_NESTED NestedDesc_default;
  aux_fd_field_off := NONE_U32; aux_fd_field_proc := NONE_U32;
  aux_fd_field_token := NONE_U64; map_len := 0; addr := 0; gpa_run_count := 0;
  guest_proc := 1 |}.

Lemma validate_resolves_fds_witness :
  exists params aux_fd,
    expected_aux_fd Ctl NV_ESC_ALLOC_OS_EVENT os_event_inline params = Ok aux_fd.
Proof.
  destruct (validate_resolves_fds V615 Ctl os_event_req os_event_inline [] Shape_default V615_ok
    (wf_bytesb_spec os_event_inline eq_refl) (wf_bytesb_spec [] eq_refl) eq_refl)
    as (params & fd & _ & Hf & _).
  exists params, fd. exact Hf.
Defined.

(** The primary pointer of an accepted control or allocation: null, to be
    cleared, or described. *)
Lemma accepted_primary (A : RmAbi) (HA : RmAbiOk A) dev req inline aux s params afd specs ds :
  wf_bytes inline -> accepted dev req inline aux s params afd specs ds ->
  is_control dev (ioctl_nr req) = true \/ is_alloc dev (ioctl_nr req) = true ->
  zero_at inline 16 \/ zero_inline s = Some 16 \/
  (embedded_ptr_off req = 16 /\ 0 < blen params <= blen aux).
Proof.
  intros Hi [Henv _ Href Hemb _ _ _ _ _ _ _ _ _] Hk.
  destruct (check_envelope_Ok _ _ _ _ _ Henv) as (Hl & _ & _ & _ & Hf).
  assert (is_uvm dev = false) as Hd
    by (unfold is_control, is_alloc in Hk; destruct (is_uvm dev); simpl in Hk; naive_solver).
  destruct (Hf Hd) as (_ & fs & Hfs & Hacc). rewrite <- Hl in Hacc.
  apply check_embedded_Ok in Hemb as [(_ & _ & He)|(e & He & Hlen & Hoff & Hpos & _)]; [|
    right; right|done|done].
  - unfold embedded_ptr in He. rewrite Hd in He.
    destruct Hk as [Hk|Hk]; pose proof Hk as Hnr;
      unfold is_control, is_alloc in Hnr; rewrite Hd in Hnr; simpl in Hnr; bools; rewrite Hnr in *.
    + assert (fs = Fixed 32) as -> by (vm_compute in Hfs; congruence).
      simpl in Hacc. bools. rewrite Hacc in He.
      destruct (check_refused_Ok _ _ _ _ Href) as (Hc & _).
      destruct (Hc Hk) as (_ & p & Hp & _ & Hz). unfold zero_at. rewrite Hp.
      destruct (decide (p = 0)) as [->|Hne]; [by left|right; left; apply Hz; split; [done|]].
      simpl in He. rewrite Hp in He.
      destruct (get_u32 inline 24) as [n|]; [|done]. outcome_simpl He.
      destruct ((p =? 0) || (n =? 0)) eqn:Hor; [|done]. bool_cases; [done|by subst].
    + assert (fs = Allocation) as -> by (vm_compute in Hfs; congruence).
      simpl in He. left. unfold zero_at.
      replace ((blen inline =? 48) || (blen inline =? 32)) with true in He
        by (unfold accepts in Hacc; vm_compute (sz _) in Hacc; rewrite orb_comm in Hacc; done).
      inv_ok; [|repeat case_match; inv_ok..]. congruence.
  - apply embedded_ptr_spec in He as (_ & _ & _ & _ & _ & _ & H16); [|done..].
    split; [|lia]. rewrite Hoff. apply H16. intros Hev. rewrite Hev in Hk.
    unfold is_control, is_alloc in Hk. rewrite Hd in Hk. by destruct Hk.
Qed.

(** C5: After a request is accepted, clearing the pointers marked in its shape
    cannot fail, keeps both lengths, and leaves no raw guest address behind:
    the parameter pointer of a control or allocation is null or announced in
    the request with its buffer inside aux, and each pointer the host knows
    inside a control's parameters is null or has a nested descriptor, inside
    aux, for the host to rewrite it with. *)
Theorem no_raw_pointer_forwarded (A : RmAbi) (dev : Dev) (req : Req) (inline aux : bytes)
    (s : Shape) :
  RmAbiOk A -> wf_bytes inline -> wf_bytes aux ->
  validate (A:=A) dev req inline aux = Ok s ->
  exists inline' aux', clear_unused_pointers s inline aux = Ok (inline', aux') /\
    blen inline' = blen inline /\ blen aux' = blen aux /\
    exists params_len, 0 <= params_len <= blen aux /\
    (is_control dev (ioctl_nr req) = true \/ is_alloc dev (ioctl_nr req) = true ->
       zero_at inline' 16 \/ (embedded_ptr_off req = 16 /\ 0 < params_len)) /\
    (is_control dev (ioctl_nr req) = true -> 0 < params_len ->
       exists cmd, get_u32 inline 8 = Some cmd /\
       Forall (fun spec => zero_at aux' (np_ptr_off spec) \/
         exists (i : nat) d, nested req !! i = Some d /\ Z.of_nat i < nested_count req /\
           ptr_off d = np_ptr_off spec /\ inside_aux params_len (blen aux) d)
         (nested_ptrs cmd)).
Proof.
  intros HA Hi Ha H.
  apply validate_accepted in H as (params & afd & specs & ds & HH); [|done..].
  destruct (clear_accepted _ _ _ _ _ _ _ _ _ Hi Ha HH) as (inline' & aux' & Hcl).
  pose proof HH as [_ _ _ Hemb Hp _ _ _ _ Hspecs Hcount _ Hnest].
  assert (0 <= blen params <= blen aux) as Hpl.
  { pose proof (blen_nonneg params).
    pose proof (proj1 (get_range_is_Some aux 0 (blen params)) (ex_intro _ _ Hp)). lia. }
  destruct Hcl as [Hres _ Hlen Hla _ Hk Hz Hza Hka _].
  exists inline', aux'. split_and!; try done.
  exists (blen params). split_and!; [lia|lia|..].
  - intros Hc. destruct (decide (zero_inline s = Some 16)); [left; auto|].
    destruct (accepted_primary A HA _ _ _ _ _ _ _ _ _ Hi HH Hc) as [?|[?|[? ?]]];
      [left; by rewrite Hk|done|right; split; [done|lia]].
  - intros Hc Hpos. unfold nested_specs in Hspecs. rewrite Hc in Hspecs.
    destruct (blen params =? 0) eqn:?; bools; [lia|]. simpl in Hspecs.
    apply bind_Ok in Hspecs as (cmd & Hcmd & [= <-]). exists cmd.
    split; [unfold u32_at in Hcmd; by inv_ok|].
    eapply Forall_impl; [exact (nf_covered _ _ _ _ _ _ _ _ Hnest)|].
    intros spec (p & len & Hptr & _ & Hcov). destruct Hcov as [->|[Hin|(d & Hin & Hd & _)]].
    + left. pose proof (proj1 (get_le_is_Some 8 params _) (ex_intro _ _ Hptr)).
      apply Hka; [lia|lia|]. by eapply get_le_prefix.
    + left. rewrite Forall_forall in Hza. by apply Hza.
    + right. apply list_elem_of_lookup in Hin as [i Hin].
      pose proof (nf_inside _ _ _ _ _ _ _ _ Hnest) as Hins. rewrite Forall_lookup in Hins.
      exists i, d. pose proof (lookup_lt_Some _ _ _ Hin). split_and!; [|lia|done|by eapply Hins].
      rewrite (nf_prefix _ _ _ _ _ _ _ _ Hnest), drop_0 in Hin.
      by apply lookup_take_Some in Hin as [? _].
Qed.

(** The same control with a count of zero: its list pointer is cleared. *)
Definition empty_list_aux : bytes := put_range (replicate 32 0) 8 (le_bytes 8 0x7f0000002000).

Definition empty_list_req : Req := {|
  seq := 1; kind := 3; dev_tag := 0; ioctl_nr := NV_ESC_RM_CONTROL; target_token := 1;
  inline_len := 32; aux_len := 32; fd_field_off := NONE_U32; fd_field_proc := NONE_U32;
  fd_field_token := NONE_U64; embedded_ptr_off := 16; nested_count := 0;
  nested := replicate MAX_NESTED NestedDesc_default;
  aux_fd_field_off := NONE_U32; aux_fd_field_proc := NONE_U32;
  aux_fd_field_token := NONE_U64; map_len := 0; addr := 0; gpa_run_count := 0;
  guest_proc := 1 |}.

Lemma no_raw_pointer_forwarded_witness :
  exists inline' aux',
    clear_unused_pointers {| zero_inline := None; zero_aux := [8] |} ctrl_inline empty_list_aux
    = Ok (inline', aux').
Proof.
  destruct (no_raw_pointer_forwarded V615 Ctl empty_list_req ctrl_inline empty_list_aux
    {| zero_inline := None; zero_aux := [8] |} V615_ok
    (wf_bytesb_spec ctrl_inline eq_refl) (wf_bytesb_spec empty_list_aux eq_refl) eq_refl)
    as (i' & a' & Hc & _).
  exists i', a'. exact Hc.
Defined.
