(* ===== verification/ClientPolicy.v ===== *)
(** * Protection of backend-owned RM clients (client_policy.rs)

    The backend allocates RM clients of its own on the host driver.  Before a
    guest request is forwarded, [private_client] looks for a client handle in
    every field of the request that names one and reports a handle the
    predicate [is_private] claims for the backend. *)
From stdpp Require Import strings.
From S2P Require Import Prelude.
From S2P Require Import Bytes.
From S2P Require Import CLayout.
From S2P Require Import SysConsts.
From S2P Require Import Sys.
From S2P Require Import SysLayout.
From S2P Require Import NvAbi.
From S2P Require Import Xlate.
From S2P Require Import Wire.
From S2P Require Import RequestShape.

Local Open Scope string_scope.
Local Open Scope list_scope.
Local Open Scope Z_scope.

Section policy.
Context {A : RmAbi}.

(** The client fields of the inline payload; [None] for requests the policy
    does not cover. *)
Definition uvm_client_offsets : list (list Z * Z) :=
  [([uvm.REGISTER_GPU_VASPACE], offset_of UVM_REGISTER_GPU_VASPACE_PARAMS "hClient");
   ([uvm.REGISTER_CHANNEL], offset_of UVM_REGISTER_CHANNEL_PARAMS "hClient");
   ([uvm.UNREGISTER_CHANNEL], UVM_UNREGISTER_CHANNEL_PARAMS_OFF_hClient);
   ([uvm.MAP_EXTERNAL_ALLOCATION], offset_of UVM_MAP_EXTERNAL_ALLOCATION_PARAMS "hClient");
   ([uvm.REGISTER_GPU], offset_of UVM_REGISTER_GPU_PARAMS "hClient")].

Definition frontend_client_offsets : list (list Z * list Z) :=
  [([NV_ESC_RM_DUP_OBJECT],
    [offset_of NVOS55_PARAMETERS "hClient"; offset_of NVOS55_PARAMETERS "hClientSrc"]);
   ([NV_ESC_RM_ALLOC; NV_ESC_RM_ALLOC_OBJECT; NV_ESC_RM_ALLOC_MEMORY; NV_ESC_RM_FREE;
     NV_ESC_RM_CONTROL; NV_ESC_RM_SHARE; NV_ESC_RM_MAP_MEMORY; NV_ESC_RM_UNMAP_MEMORY;
     NV_ESC_RM_VID_HEAP_CONTROL; NV_ESC_RM_BIND_CONTEXT_DMA; NV_ESC_RM_MAP_MEMORY_DMA;
     NV_ESC_RM_UNMAP_MEMORY_DMA; NV_ESC_ALLOC_OS_EVENT; NV_ESC_FREE_OS_EVENT], [0])].

Definition inline_offsets (dev : Dev) (nr : Z) : option (list Z) :=
  if is_uvm dev then (fun o => [o]) <$> match_nr uvm_client_offsets nr
  else match_nr frontend_client_offsets nr.

(** The client fields of an allocation's parameters. *)
Definition aux_offsets (class : Z) : option (list Z) :=
  match_nr
    [([NV01_DEVICE_0],
      [offset_of NV0080_ALLOC_PARAMETERS "hClientShare";
       offset_of NV0080_ALLOC_PARAMETERS "hTargetClient"]);
     ([0xcb33], [offset_of NV_CONFIDENTIAL_COMPUTE_ALLOC_PARAMS "hClient"]);
     ([0x83de], [offset_of NV83DE_ALLOC_PARAMETERS "hAppClient"]);
     ([0xc574; 0xb2cc], [0])] class.

Section find.
Variable is_private : Z -> bool.

(** The first private handle among the fields that are present. *)
Fixpoint find (b : bytes) (offsets : list Z) : option Z :=
  match offsets with
  | [] => None
  | o :: offsets' =>
      match get_u32 b o with
      | Some client => if is_private client then Some client else find b offsets'
      | None => find b offsets'
      end
  end.

Definition private_client (dev : Dev) (nr : Z) (inline aux : bytes) : option Z :=
  offsets ← inline_offsets dev nr;
  match find inline offsets with
  | Some client => Some client
  | None =>
      if is_uvm dev || negb (nr =? NV_ESC_RM_ALLOC) then None
      else
        class ← get_u32 inline 12;
        offsets ← aux_offsets class;
        find aux offsets
  end.

Lemma find_Some b offsets c :
  find b offsets = Some c ->
  is_private c = true /\ exists o, o ∈ offsets /\ get_u32 b o = Some c.
Proof.
  induction offsets as [|o os IH]; simpl; [done|].
  destruct (get_u32 b o) as [v|] eqn:Hv.
  - destruct (is_private v) eqn:Hp; [intros [= ->]; split; [done|exists o; by split; [constructor|]]|].
    intros (? & o' & ? & ?)%IH. split; [done|]. exists o'. by split; [constructor|].
  - intros (? & o' & ? & ?)%IH. split; [done|]. exists o'. by split; [constructor|].
Qed.

Lemma find_None b offsets :
  find b offsets = None <->
  forall o c, o ∈ offsets -> get_u32 b o = Some c -> is_private c = false.
Proof.
  induction offsets as [|o os IH]; simpl.
  - split; [intros _ o c Ho; by apply not_elem_of_nil in Ho|done].
  - destruct (get_u32 b o) as [v|] eqn:Hv; [destruct (is_private v) eqn:Hp|].
    + split; [done|]. intros H. specialize (H o v). rewrite H in Hp; [done|constructor|done].
    + rewrite IH. setoid_rewrite elem_of_cons. naive_solver.
    + rewrite IH. setoid_rewrite elem_of_cons. naive_solver.
Qed.

End find.
End policy.

(** ** The fields are where the policy looks *)
Lemma uvm_client_offset_inside (A : RmAbi) nr o size :
  RmAbiOk A -> match_nr (uvm_client_offsets (A:=A)) nr = Some o ->
  uvm_param_size_for (A:=A) nr = Some size -> 0 <= o /\ o + 4 <= size.
Proof.
  intros HA (ks & Hr & Hk)%match_nr_Some Hs.
  pose proof (abi_unregister_hClient (A:=A)) as Hu. bools.
  unfold uvm_client_offsets in Hr.
  repeat (apply elem_of_cons in Hr as [Hr|Hr];
    [injection Hr as -> ->; apply elem_of_cons in Hk as [->|Hk];
     [|by apply not_elem_of_nil in Hk]|]);
    [..|by apply not_elem_of_nil in Hr].
  3: { unfold uvm_param_size_for in Hs. cbn [Z.eqb Pos.eqb] in Hs.
       apply bind_Some in Hs as (n & Hn & Hs). destruct (n <=? u32_max); [|done].
       injection Hs as <-. unfold uvm_param_size_compiled in Hn.
       apply fmap_Some in Hn as (t & Ht & ->).
       change (Some (UvmUnregisterChannelParams (RmAbi:=A)) = Some t) in Ht.
       injection Ht as <-. lia. }
  all: vm_compute in Hs; injection Hs as <-; split; vm_compute; congruence.
Qed.

Lemma frontend_client_offset_inside nr os o s size :
  match_nr frontend_client_offsets nr = Some os -> o ∈ os ->
  frontend_size nr = Some s -> accepts s size = true -> 0 <= o /\ o + 4 <= size.
Proof.
  intros Hm Ho Hs Ha.
  eapply (match_nr_check (fun k os => match frontend_size k with
    | Some (Fixed n) => forallb (fun o => (0 <=? o) && (o + 4 <=? n)) os
    | Some Allocation => forallb (fun o => (0 <=? o) && (o + 4 <=? 32)) os
    | _ => false end)) in Hm; [|by vm_compute].
  rewrite Hs in Hm. destruct s; try done; pose proof (forallb_elem _ _ _ Hm Ho) as Hb;
    simpl in Hb; bools.
  - simpl in Ha. bools. lia.
  - assert (size = 32 \/ size = 48).
    { unfold accepts in Ha. bool_cases; [left|right]; subst; by vm_compute. }
    lia.
Qed.

Lemma aux_client_offset_inside (A : RmAbi) class os o n :
  aux_offsets class = Some os -> o ∈ os ->
  alloc_param_size (A:=A) class = Some n -> 0 <= o /\ o + 4 <= n.
Proof.
  intros (ks & Hr & Hk)%match_nr_Some Ho Hn.
  repeat (apply elem_of_cons in Hr as [Hr|Hr];
    [injection Hr as -> ->; repeat (apply elem_of_cons in Hk as [->|Hk];
      [vm_compute in Hn; injection Hn as <-;
       repeat (apply elem_of_cons in Ho as [->|Ho]; [vm_compute; split; congruence|]);
       by apply not_elem_of_nil in Ho|]); by apply not_elem_of_nil in Hk|]).
  by apply not_elem_of_nil in Hr.
Qed.

(** ** Theorems *)

(** C29: The backend's own clients are out of reach: for a request that passed
    the envelope check, every client field the policy covers is present in the
    payload; if no private client is reported, none of these fields (inline,
    and for an allocation with parameters the class's fields too) holds a
    private handle; and a reported handle is private and really named by the
    request. *)
Theorem private_client_complete (A : RmAbi) (is_private : Z -> bool) (dev : Dev) (req : Req)
    (inline aux : bytes) (os : list Z) :
  RmAbiOk A -> check_envelope (A:=A) dev req inline aux = Ok tt ->
  inline_offsets (A:=A) dev (ioctl_nr req) = Some os ->
  (private_client (A:=A) is_private dev (ioctl_nr req) inline aux = None ->
     (forall o, o ∈ os -> exists c, get_u32 inline o = Some c /\ is_private c = false) /\
     (dev = Ctl \/ dev = Gpu -> ioctl_nr req = NV_ESC_RM_ALLOC ->
      forall class params aos n, get_u32 inline 12 = Some class ->
        aux_offsets class = Some aos -> alloc_param_size (A:=A) class = Some n ->
        get_range aux 0 n = Some params ->
        forall o, o ∈ aos -> exists c, get_u32 params o = Some c /\ is_private c = false)) /\
  (forall c, private_client (A:=A) is_private dev (ioctl_nr req) inline aux = Some c ->
     is_private c = true /\
     exists o, get_u32 inline o = Some c \/ get_u32 aux o = Some c).
Proof.
  intros HA Henv Hos. destruct (check_envelope_Ok _ _ _ _ _ Henv) as (Hl & _ & Hnt & Huvm & Hfe).
  unfold private_client. rewrite Hos. simpl. split.
  - intros Hnone. destruct (find is_private inline os) eqn:Hf; [done|].
    rewrite find_None in Hf. split.
    + intros o Ho. assert (0 <= o /\ o + 4 <= blen inline) as Hin.
      { rewrite Hl. unfold inline_offsets in Hos. destruct (is_uvm dev) eqn:Hd.
        - apply fmap_Some in Hos as (o' & Ho' & ->). apply list_elem_of_singleton in Ho as ->.
          eapply uvm_client_offset_inside; [done..|]. apply Huvm. by destruct dev.
        - destruct (Hfe eq_refl) as (_ & s & Hs & Hacc). by eapply frontend_client_offset_inside. }
      destruct (proj2 (get_le_is_Some 4 inline o)) as [c Hc]; [simpl; lia|]. eauto.
    + intros Hd Hnr class params aos n Hcl Haos Hn Hp o Ho.
      assert (is_uvm dev = false) as Hu by (by destruct Hd as [->| ->]).
      rewrite Hu, Hnr in Hnone. simpl in Hnone. rewrite Hcl in Hnone. simpl in Hnone.
      rewrite Haos in Hnone. simpl in Hnone. rewrite find_None in Hnone.
      pose proof (get_range_length _ _ _ _ Hp).
      destruct (aux_client_offset_inside A class aos o n Haos Ho Hn).
      destruct (proj2 (get_le_is_Some 4 params o)) as [c Hc]; [simpl; lia|].
      exists c. split; [done|]. eapply Hnone; [done|]. by eapply get_le_prefix.
  - intros c Hc. destruct (find is_private inline os) as [c'|] eqn:Hf; simplify_eq.
    + apply find_Some in Hf as (? & o & _ & ?). eauto.
    + destruct (is_uvm dev || _); [done|].
      destruct (get_u32 inline 12); [|done]. simpl in Hc.
      destruct (aux_offsets _); [|done]. simpl in Hc.
      apply find_Some in Hc as (? & o & _ & ?). eauto.
Qed.

(** A DUP_OBJECT whose source client is the backend's. *)
Definition dup_inline : bytes := put_range (replicate 28 0) 12 (le_bytes 4 0xc1d00001).

Definition dup_req : Req := {|
  seq := 1; kind := 3; dev_tag := 0; ioctl_nr := NV_ESC_RM_DUP_OBJECT; target_token := 1;
  inline_len := 28; aux_len := 0; fd_field_off := NONE_U32; fd_field_proc := NONE_U32;
  fd_field_token := NONE_U64; embedded_ptr_off := NONE_U32; nested_count := 0;
  nested := replicate MAX_NESTED NestedDesc_default;
  aux_fd_field_off := NONE_U32; aux_fd_field_proc := NONE_U32;
  aux_fd_field_token := NONE_U64; map_len := 0; addr := 0; gpa_run_count := 0;
  guest_proc := 1 |}.

Lemma private_client_complete_witness :
  private_client (A:=V615) (Z.eqb 0xc1d00001) Ctl NV_ESC_RM_DUP_OBJECT dup_inline []
    = Some 0xc1d00001 /\
  Z.eqb 0xc1d00001 0xc1d00001 = true.
Proof.
  split; [vm_compute; reflexivity|].
  apply (private_client_complete V615 (Z.eqb 0xc1d00001) Ctl dup_req dup_inline []
    [offset_of NVOS55_PARAMETERS "hClient"; offset_of NVOS55_PARAMETERS "hClientSrc"] V615_ok
    eq_refl eq_refl). vm_compute. reflexivity.
Defined.
