(* ===== verification/Mirror.v ===== *)
(** * Guest words and the descriptor mirror

    [GuestAddr]/[GuestLen] (crates/vhost-user-nvrm/src/guest_words.rs) are the
    checked arithmetic every guest-named range goes through.  [Mirror]
    (mirror.rs) owns the host descriptors of one session behind tokens the
    guest holds: tokens count up from one and are never issued twice. *)
From S2P Require Import Prelude.
From S2P Require Import Xlate.

(** ** Guest words *)
Module GuestWords.

Record GuestAddr := { ga : Z }.
Record GuestLen := { gl : Z }.

Definition addr_end (a : GuestAddr) (len : GuestLen) : option GuestAddr :=
  Build_GuestAddr <$> checked_add64 (ga a) (gl len).

Definition offset_from (a base : GuestAddr) : option Z := checked_sub64 (ga a) (ga base).

Definition is_zero (l : GuestLen) : bool := gl l =? 0.

Definition plus (a b : GuestLen) : option GuestLen :=
  Build_GuestLen <$> checked_add64 (gl a) (gl b).

End GuestWords.

(** ** The mirror *)
Module FdMirror.

Record Entry := { fd : Z; entry_kind : Dev }.

Record Mirror := { next : Z; map : gmap Z Entry }.

Definition Mirror_new : Mirror := {| next := 1; map := ∅ |}.

(** [checked_add(1).expect(..)]: the session dies rather than wrap. *)
Definition insert (m : Mirror) (f : Z) (k : Dev) : outcome unit (Z * Mirror) :=
  let tok := next m in
  n ← or_panic (checked_add64 tok 1);
  Ok (tok, {| next := n; map := <[tok := {| fd := f; entry_kind := k |}]> (map m) |}).

Definition raw (m : Mirror) (token : Z) : option Z := fd <$> map m !! token.

Definition kind_of (m : Mirror) (token : Z) : option Dev := entry_kind <$> map m !! token.

Definition remove (m : Mirror) (token : Z) : Mirror :=
  {| next := next m; map := delete token (map m) |}.

Definition len (m : Mirror) : nat := size (map m).

Definition is_empty (m : Mirror) : bool := bool_decide (map m = ∅).

Definition ever (m : Mirror) : Z := next m - 1.

(** ** The mirror as a transition system *)
Inductive mirror_step : Mirror -> Mirror -> Prop :=
| step_insert m f k tok m' : insert m f k = Ok (tok, m') -> mirror_step m m'
| step_remove m tok : mirror_step m (remove m tok).

Definition reachable (m : Mirror) : Prop := rtc mirror_step Mirror_new m.

(** Live tokens are among those issued so far. *)
Definition mirror_inv (m : Mirror) : Prop :=
  1 <= next m <= u64_max /\ forall t, is_Some (map m !! t) -> 1 <= t < next m.

Lemma insert_Ok m f k tok m' :
  insert m f k = Ok (tok, m') <->
  tok = next m /\ next m + 1 <= u64_max /\
  m' = {| next := next m + 1; map := <[next m := {| fd := f; entry_kind := k |}]> (map m) |}.
Proof.
  unfold insert, checked_add64. destruct (next m + 1 <=? u64_max) eqn:?; bools; simpl;
    split; naive_solver lia.
Qed.

Lemma mirror_step_inv m m' : mirror_inv m -> mirror_step m m' -> mirror_inv m'.
Proof.
  intros [Hn Hm] Hs. inversion Hs as [? f k tok ? Hi|? tok]; subst.
  - apply insert_Ok in Hi as (-> & ? & ->). split; simpl; [lia|]. intros t.
    destruct (decide (t = next m)) as [->|]; [lia|].
    rewrite lookup_insert_ne by done. intros ?%Hm. lia.
  - split; [done|]. intros t. simpl. rewrite lookup_delete_is_Some. naive_solver.
Qed.

Lemma mirror_reachable_inv m : reachable m -> mirror_inv m.
Proof.
  intros H. unfold reachable in H. remember Mirror_new as m0 eqn:Hm0.
  assert (mirror_inv m0) as Hi.
  { subst. split; [unfold u64_max; simpl; lia|]. intros t. simpl. by intros [? ?%lookup_empty_Some]. }
  clear Hm0. induction H; [done|]. eauto using mirror_step_inv.
Qed.

(** The next token only grows, and a dead token stays dead. *)
Lemma mirror_steps_dead m m' t :
  rtc mirror_step m m' -> t < next m -> map m !! t = None ->
  next m <= next m' /\ map m' !! t = None.
Proof.
  induction 1 as [|m m1 m2 Hs Hr IH]; [done|]. intros Ht Hd.
  assert (next m <= next m1 /\ map m1 !! t = None) as [Hn Hd1].
  { inversion Hs as [? f k tok ? Hi|? tok]; subst.
    - apply insert_Ok in Hi as (-> & ? & ->). simpl. split; [lia|].
      rewrite lookup_insert_ne by lia. done.
    - simpl. split; [done|]. by rewrite lookup_delete_None; right. }
  destruct IH as [? ?]; [lia|done|]. split; [lia|done].
Qed.

(** The whole table's size against the number of tokens ever issued. *)
Lemma mirror_len_le_ever m : reachable m -> Z.of_nat (len m) <= ever m.
Proof.
  intros Hr. apply mirror_reachable_inv in Hr as [Hn Hm]. unfold len, ever.
  assert (dom (map m) ⊆ list_to_set (seqZ 1 (next m - 1))) as Hsub.
  { intros t [e He]%elem_of_dom. rewrite elem_of_list_to_set, elem_of_seqZ.
    assert (1 <= t < next m) by (apply Hm; eauto). lia. }
  apply subseteq_size in Hsub. rewrite size_dom in Hsub.
  rewrite size_list_to_set in Hsub by apply NoDup_seqZ.
  rewrite length_seqZ in Hsub. lia.
Qed.

(** ** Theorems *)

(** C30: Tokens name one open for ever: in any session history an insertion
    returns a token that was not live, resolves to exactly the inserted
    descriptor and leaves every other token alone; a removed token never
    resolves again, whatever is inserted or removed later. *)
Theorem mirror_tokens_never_reused (m : Mirror) :
  reachable m ->
  (forall f k tok m', insert m f k = Ok (tok, m') ->
     raw m tok = None /\ raw m' tok = Some f /\ kind_of m' tok = Some k /\
     forall t, t <> tok -> raw m' t = raw m t) /\
  (forall t m', is_Some (raw m t) -> rtc mirror_step (remove m t) m' -> raw m' t = None).
Proof.
  intros Hr. pose proof (mirror_reachable_inv m Hr) as [Hn Hm]. unfold raw, kind_of. split.
  - intros f k tok m' (-> & ? & ->)%insert_Ok. simpl.
    rewrite lookup_insert_eq. split_and!; try done.
    + destruct (map m !! next m) eqn:He; [|done].
      assert (1 <= next m < next m) by (apply Hm; eauto). lia.
    + intros t Ht. by rewrite lookup_insert_ne.
  - intros t m' Ht Hs. rewrite fmap_is_Some in Ht.
    apply (mirror_steps_dead _ _ t) in Hs as [_ ->]; [done|simpl; by apply Hm|].
    simpl. apply lookup_delete_eq.
Qed.

Lemma mirror_tokens_never_reused_witness :
  exists m', rtc mirror_step (remove {| next := 2; map := {[1 := {| fd := 7; entry_kind := Gpu |}]} |} 1) m' /\
    raw m' 1 = None.
Proof.
  assert (reachable {| next := 2; map := {[1 := {| fd := 7; entry_kind := Gpu |}]} |}) as Hr.
  { eapply rtc_once, (step_insert _ 7 Gpu 1). reflexivity. }
  eexists. split; [apply rtc_refl|].
  refine (proj2 (mirror_tokens_never_reused _ Hr) 1 _ _ (rtc_refl _ _)).
  eexists. reflexivity.
Defined.

(** The census adds up: the number of live descriptors never exceeds the
    number ever issued, opening one raises both by one, and closing a live
    token lowers only the live count. *)
Theorem mirror_census (m : Mirror) :
  reachable m ->
  Z.of_nat (len m) <= ever m /\
  (forall f k tok m', insert m f k = Ok (tok, m') ->
     len m' = S (len m) /\ ever m' = ever m + 1) /\
  (forall t, is_Some (raw m t) -> S (len (remove m t)) = len m /\ ever (remove m t) = ever m) /\
  (is_empty m = true <-> len m = 0%nat).
Proof.
  intros Hr. split_and!; [by apply mirror_len_le_ever|..].
  - intros f k tok m' (-> & ? & ->)%insert_Ok. pose proof (mirror_reachable_inv m Hr) as [Hn Hm].
    unfold len, ever. simpl. rewrite map_size_insert_None; [split; [done|lia]|].
    destruct (map m !! next m) eqn:He; [|done].
    assert (1 <= next m < next m) by (apply Hm; eauto). lia.
  - intros t [e He]%fmap_is_Some. unfold len, remove. simpl.
    rewrite map_size_delete_Some by eauto. split; [|done].
    assert (size (map m) <> 0%nat); [|lia]. rewrite map_size_ne_0_lookup. eauto.
  - unfold is_empty, len. rewrite bool_decide_eq_true. by rewrite map_size_empty_iff.
Qed.

Lemma mirror_census_witness : Z.of_nat (len Mirror_new) <= ever Mirror_new.
Proof. apply (mirror_census Mirror_new (rtc_refl _ _)). Defined.

End FdMirror.

(** Guest range arithmetic is exact or refused: the end of a range exists
    precisely when it does not wrap, it lies [len] bytes after the start, and
    measuring back gives the length; sums of lengths likewise. *)
Theorem guest_range_exact (a : GuestWords.GuestAddr) (l k : GuestWords.GuestLen) :
  0 <= GuestWords.gl l ->
  (GuestWords.addr_end a l = None <-> u64_max < GuestWords.ga a + GuestWords.gl l) /\
  (forall e, GuestWords.addr_end a l = Some e ->
     GuestWords.ga e = GuestWords.ga a + GuestWords.gl l /\
     GuestWords.offset_from e a = Some (GuestWords.gl l)) /\
  (forall s, GuestWords.plus l k = Some s -> GuestWords.gl s = GuestWords.gl l + GuestWords.gl k).
Proof.
  intros Hl. unfold GuestWords.addr_end, GuestWords.offset_from, GuestWords.plus.
  split_and!.
  - rewrite fmap_None. unfold checked_add64. destruct (_ <=? _) eqn:?; bools; naive_solver lia.
  - intros e (x & [-> ?]%checked_add64_Some & ->)%fmap_Some. simpl. split; [done|].
    apply checked_sub64_Some. lia.
  - intros s (x & [-> ?]%checked_add64_Some & ->)%fmap_Some. done.
Qed.

Lemma guest_range_exact_witness :
  GuestWords.addr_end {| GuestWords.ga := u64_max |} {| GuestWords.gl := 1 |} = None.
Proof.
  apply (guest_range_exact {| GuestWords.ga := u64_max |} {| GuestWords.gl := 1 |}
    {| GuestWords.gl := 0 |}); simpl; lia.
Defined.
