(* ===== verification/Vgpu.v ===== *)
(** * Framebuffer profiles (crates/nvrm-abi/src/vgpu.rs)

    [Catalogue] divides a card's memory among virtual machines.  A profile is
    priced so that it pays for its framebuffer, the measured per-VM overhead
    and its share of the memory the card cannot hand out; [admits] adds the
    prices of the live profiles.  Arithmetic on [u64] panics on overflow, the
    two products the source widens to [u128] are exact and the results are
    narrowed with [wrap64] and [wrap32]. *)
From stdpp Require Import strings.
From S2P Require Import Prelude.
From S2P Require Import Text.

Local Open Scope string_scope.
Local Open Scope list_scope.
Local Open Scope Z_scope.

Module vgpu.

Record Profile := MkProfile {
  name : str;
  max_instance : Z;
  profile_size : Z;
  reservation : Z;
  fb_length : Z;
  segments : Z;
  encoder_capacity : Z;
}.

Record Catalogue := MkCatalogue {
  board : str;
  total : Z;
  usable : Z;
  segment : Z;
  overhead : Z;
  profiles : list Profile;
}.

Definition VMMU_SEGMENT_SIZES : list Z :=
  [0x02000000; 0x04000000; 0x08000000; 0x10000000; 0x20000000; 0x40000000].

Definition strip_or (p s : str) : str := default s (strip_prefix p s).

Definition board_name (real : str) : str :=
  let s := trim real in
  let s := strip_or (lit "NVIDIA ") s in
  let s := strip_or (lit "GeForce ") s in
  let s := strip_or (lit "Quadro ") s in
  filter (fun c => is_whitespace c = false) s.

(** [to_ascii_uppercase] of the trimmed unit, matched against the units. *)
Definition unit_scale (unit : str) : option Z :=
  let u := to_ascii_uppercase (trim unit) in
  if is_empty u || str_eqb u (lit "M") || str_eqb u (lit "MIB") then Some 1
  else if str_eqb u (lit "G") || str_eqb u (lit "GIB") then Some 1024
  else None.

Definition parse_mib (s : str) : option Z :=
  let '(n, unit) := span_digits (trim s) in
  scale ← unit_scale unit;
  v ← parse_u64 n;
  m ← checked_mul64 v scale;
  if 0 <? m then Some m else None.

Definition clamp (lo hi v : Z) : Z := Z.min hi (Z.max lo v).

Definition encoder_share (fb_length total : Z) : Z :=
  if total =? 0 then 0 else clamp 1 100 (100 * fb_length / total).

Definition MIB : Z := 2 ^ 20.
Definition GIB : Z := 2 ^ 30.

Definition align_up (v a : Z) : may_panic Z :=
  if a =? 0 then Ok v else mul64 (div_ceil v a) a.

Definition align_down (v a : Z) : Z :=
  if a =? 0 then v else v / a * a.

Definition available (c : Catalogue) : may_panic Z :=
  if segment c =? 0 then Ok (total c)
  else s8 ← mul64 8 (segment c); align_up (total c) s8.

(** [None] is the [None] of the source: the size does not fit. *)
Definition profile_for (c : Catalogue) (nm : str) (fb : Z) : may_panic (option Profile) :=
  av ← available c;
  match checked_sub64 av (saturating_sub (total c) (usable c)) with
  | None => Ok None
  | Some us =>
      match checked_add64 fb (overhead c) with
      | None => Ok None
      | Some need =>
          if (fb =? 0) || (us <? need) then Ok None
          else
            cost ← align_up (wrap64 (div_ceil (need * av) us)) MIB;
            res ← sub64 cost fb;
            Ok (Some (MkProfile nm (wrap32 (av / cost)) cost res fb
                        (if segment c =? 0 then 0 else fb / segment c)
                        (encoder_share fb (total c))))
      end
  end.

Fixpoint sum64 (acc : Z) (l : list Z) : may_panic Z :=
  match l with
  | [] => Ok acc
  | x :: l' => s ← add64 acc x; sum64 s l'
  end.

Definition admits (c : Catalogue) (live : list Z) (want : Z) : may_panic bool :=
  s ← sum64 0 live;
  s ← add64 s want;
  av ← available c;
  Ok (s <=? av).

(** One round of the loop of [derive]: the named type for [count] instances,
    or [None] where the loop [continue]s. *)
Definition derive_row (c : Catalogue) (count : Z) : may_panic (option Profile) :=
  av ← available c;
  let carve_out := saturating_sub (total c) (usable c) in
  let share := av / count in
  if negb (share mod GIB =? 0) || (share =? 0) then Ok None
  else
    let reserved := wrap64 (div_ceil (carve_out * share) av) in
    ro ← add64 reserved (overhead c);
    up ← align_up ro (segment c);
    let fb := align_down (saturating_sub share up) (segment c) in
    if fb =? 0 then Ok None
    else
      all ← mul64 fb count;
      if usable c <? all then Ok None
      else profile_for c (board c ++ lit "-" ++ fmt_u64 (share / GIB) ++ lit "Q") fb.

Fixpoint derive_rows (c : Catalogue) (counts : list Z) : may_panic (list Profile) :=
  match counts with
  | [] => Ok []
  | n :: counts' =>
      row ← derive_row c n;
      rows ← derive_rows c counts';
      Ok (option_list row ++ rows)
  end.

Definition derive (b : str) (tot us seg ovh : Z) : may_panic Catalogue :=
  let cat := MkCatalogue b tot us seg ovh [] in
  if (seg =? 0) || (tot =? 0) then Ok cat
  else
    rows ← derive_rows cat [1; 2; 4; 8; 16];
    Ok (MkCatalogue b tot us seg ovh rows).

Definition resolve (c : Catalogue) (want : str) : may_panic (option Profile) :=
  let bd := to_ascii_uppercase (board c) ++ lit "-" in
  let w := to_ascii_uppercase (trim want) in
  let short := strip_or bd w in
  match list_find (fun p => to_ascii_uppercase (name p) = bd ++ short) (profiles c) with
  | Some (_, p) => Ok (Some p)
  | None =>
      match parse_mib short ≫= fun mib => m ← checked_mul64 mib MIB; Some (mib, m) with
      | None => Ok None
      | Some (mib, fb) =>
          let size := if mib mod 1024 =? 0 then fmt_u64 (mib / 1024) ++ lit "G"
                      else fmt_u64 mib ++ lit "M" in
          profile_for c (board c ++ lit "-" ++ size) fb
      end
  end.

(** ** Lemmas *)

(** The sizes of a card leave room for the rounding of the code. *)
Record card_ok (c : Catalogue) : Prop := {
  card_total : 0 <= total c;
  card_usable : 0 <= usable c;
  card_segment : 0 <= segment c;
  card_overhead : 0 <= overhead c;
  card_room : total c + 9 * segment c + overhead c + MIB <= u64_max;
}.

Lemma MIB_pos : 0 < MIB.
Proof. done. Qed.
#[local] Hint Resolve MIB_pos : nvrm.

Lemma align_up_ok v a :
  0 <= v -> 0 <= a -> v + a <= u64_max ->
  exists r, align_up v a = Ok r /\ v <= r < v + Z.max 1 a /\ (a | r) \/
            align_up v a = Ok v /\ a = 0.
Proof.
  intros Hv Ha Hr. unfold align_up. destruct (a =? 0) eqn:E; bools; [by exists 0; right|].
  pose proof (div_ceil_spec v a ltac:(lia)). exists (div_ceil v a * a). left.
  rewrite mul64_ok by lia. split; [done|]. split; [lia|]. by exists (div_ceil v a).
Qed.

Lemma align_up_pos v a :
  0 <= v -> 0 < a -> v + a <= u64_max ->
  exists r, align_up v a = Ok r /\ v <= r < v + a /\ (a | r).
Proof.
  intros Hv Ha Hr. destruct (align_up_ok v a) as (r & [(? & ? & ?) | [_ ?]]); try lia.
  exists r. split; [done|]. split; [lia|done].
Qed.

(** [align_up] is the least multiple: it stays below any multiple above it. *)
Lemma align_up_least v a r q :
  0 < a -> align_up v a = Ok r -> v <= q -> (a | q) -> r <= q.
Proof.
  intros Ha. unfold align_up. destruct (a =? 0) eqn:E; bools; [lia|].
  unfold mul64. intros [-> _]%or_panic_Ok%checked_mul64_Some Hq [k ->].
  pose proof (div_ceil_le v a k Ha). nia.
Qed.

Lemma available_ok c :
  card_ok c -> exists av, available c = Ok av /\ total c <= av <= total c + 8 * segment c.
Proof.
  intros []. unfold available. destruct (segment c =? 0) eqn:E; bools.
  - exists (total c). split; [done|lia].
  - rewrite mul64_ok by (pose proof MIB_pos; lia). cbn [mbind outcome_bind].
    destruct (align_up_pos (total c) (8 * segment c)) as (r & -> & Hr & _);
      [lia | lia | pose proof MIB_pos; lia|]. exists r. split; [done|lia].
Qed.

Lemma available_bounds c av :
  card_ok c -> available c = Ok av -> total c <= av <= total c + 8 * segment c.
Proof. intros Hc Hav. destruct (available_ok c Hc) as (av' & Hav' & Hb). congruence. Qed.

(** What [profile_for] may hand out: [available] less the carve-out. *)
Definition grantable (c : Catalogue) (av : Z) : Z :=
  av - saturating_sub (total c) (usable c).

Lemma wrap64_id z : is_u64 z -> wrap64 z = z.
Proof. unfold is_u64, u64_max, wrap64. intros. apply Z.mod_small. lia. Qed.

(** The price of [need] bytes, rounded up to a MiB. *)
Lemma cost_ok c av need :
  card_ok c -> available c = Ok av -> 0 < need <= grantable c av ->
  exists cost,
    align_up (wrap64 (div_ceil (need * av) (grantable c av))) MIB = Ok cost /\
    need * av <= cost * grantable c av /\ need <= cost /\ (MIB | cost) /\
    forall q, (MIB | q) -> need * av <= q * grantable c av -> cost <= q.
Proof.
  intros Hc Hav Hn. pose proof (available_bounds c av Hc Hav) as Hb.
  pose proof Hc as [Ht Hu Hs Ho Hroom].
  assert (Hg : grantable c av <= av) by (unfold grantable, saturating_sub; lia).
  set (g := grantable c av) in *.
  pose proof (div_ceil_spec (need * av) g ltac:(lia)) as Hd.
  assert (Hle : div_ceil (need * av) g <= av) by (apply div_ceil_le; nia).
  assert (H0 : 0 <= div_ceil (need * av) g)
    by (apply div_ceil_nonneg; [apply Z.mul_nonneg_nonneg|]; lia).
  rewrite wrap64_id by (unfold is_u64; pose proof MIB_pos; lia).
  destruct (align_up_pos (div_ceil (need * av) g) MIB) as (cost & Hcost & Hr & Hdiv);
    auto with nvrm; [lia|].
  exists cost. split; [done|]. split; [nia|]. split; [nia|]. split; [done|].
  intros q Hq Hneed. eapply align_up_least; [apply MIB_pos | exact Hcost | | done].
  apply div_ceil_le; lia.
Qed.

(** The whole behaviour of [profile_for]. *)
Lemma profile_for_spec c av nm fb :
  card_ok c -> available c = Ok av -> is_u64 fb ->
  (profile_for c nm fb = Ok None /\ (fb = 0 \/ grantable c av < fb + overhead c)) \/
  exists p,
    profile_for c nm fb = Ok (Some p) /\ 0 < fb /\ fb + overhead c <= grantable c av /\
    name p = nm /\ fb_length p = fb /\ reservation p = profile_size p - fb /\
    (fb + overhead c) * av <= profile_size p * grantable c av /\
    fb + overhead c <= profile_size p /\ (MIB | profile_size p) /\
    (forall q, (MIB | q) -> (fb + overhead c) * av <= q * grantable c av ->
               profile_size p <= q) /\
    max_instance p = wrap32 (av / profile_size p) /\
    encoder_capacity p = encoder_share fb (total c).
Proof.
  intros Hc Hav Hfb. pose proof (available_bounds c av Hc Hav) as Hb.
  pose proof Hc as [Ht Hu Hs Ho Hroom]. unfold profile_for. rewrite Hav. cbn [mbind outcome_bind].
  assert (Hsub : checked_sub64 av (saturating_sub (total c) (usable c)) = Some (grantable c av)).
  { apply checked_sub64_Some. split; [done|]. unfold saturating_sub. lia. }
  rewrite Hsub. unfold is_u64 in Hfb. pose proof MIB_pos.
  assert (Hg : grantable c av <= av) by (unfold grantable, saturating_sub; lia).
  destruct (checked_add64 fb (overhead c)) as [need|] eqn:Ha.
  2: { left. split; [done|]. right. unfold checked_add64 in Ha.
       destruct (fb + overhead c <=? u64_max) eqn:?; [done|]. bools. lia. }
  apply checked_add64_Some in Ha as [-> Ha].
  destruct ((fb =? 0) || (grantable c av <? fb + overhead c)) eqn:E.
  { left. split; [done|]. bool_cases; [by left|by right]. }
  bools. destruct (cost_ok c av (fb + overhead c) Hc Hav) as (cost & -> & C1 & C2 & C3 & C4);
    [lia|]. cbn [mbind outcome_bind]. rewrite sub64_ok by lia. cbn [mbind outcome_bind].
  right. eexists. split; [reflexivity|]. cbn. repeat split; auto; lia.
Qed.

Lemma wrap32_le z : 0 <= z -> 0 <= wrap32 z <= z.
Proof.
  intros Hz. unfold wrap32. pose proof (Z.mod_pos_bound z 4294967296 eq_refl).
  pose proof (Z.mod_le z 4294967296 Hz eq_refl). lia.
Qed.

(** An [Ok (Some p)] of [profile_for] pays for what it takes. *)
Lemma profile_for_price c av nm fb p :
  card_ok c -> available c = Ok av -> is_u64 fb -> profile_for c nm fb = Ok (Some p) ->
  0 < fb_length p /\ fb_length p + overhead c <= grantable c av /\
  (fb_length p + overhead c) * av <= profile_size p * grantable c av /\
  fb_length p + overhead c <= profile_size p.
Proof.
  intros Hc Hav Hfb Hp. destruct (profile_for_spec c av nm fb Hc Hav Hfb)
    as [[Hn _] | (p' & Hp' & H)]; [congruence|].
  rewrite Hp in Hp'. simplify_eq. destruct H as (? & ? & _ & -> & _ & ? & ? & _).
  repeat split; done.
Qed.

(** The instances a profile promises fit into what the card can hand out. *)
Lemma instances_fit need cost av g n :
  0 < cost -> 0 <= n -> 0 < av -> n <= av / cost -> need * av <= cost * g -> 0 <= g ->
  n * cost <= av /\ n * need <= g.
Proof.
  intros Hc Hn Hav Hd Hprice Hg. pose proof (Z.mul_div_le av cost Hc).
  assert (Hnc : n * cost <= av) by nia. split; [done|].
  apply (Z.mul_le_mono_pos_r _ _ av Hav). nia.
Qed.

(** Pricing a framebuffer never panics on a card whose sizes leave room
    for rounding.  It refuses exactly the sizes that are zero or that, with
    the overhead, exceed what the card can hand out.  A price covers the
    framebuffer and a reservation of at least the overhead; [max_instance] is
    the number of times the price goes into the card, it is at least one when
    the card is a whole number of MiB, and that many virtual machines with
    their overheads fit together into the memory the card can hand out. *)
Theorem profile_for_accounting c av nm fb :
  card_ok c -> available c = Ok av -> is_u64 fb -> 0 < total c -> av < 2 ^ 52 ->
  exists r, profile_for c nm fb = Ok r /\
    (r = None <-> fb = 0 \/ grantable c av < fb + overhead c) /\
    forall p, r = Some p ->
      fb_length p = fb /\ reservation p + fb_length p = profile_size p /\
      overhead c <= reservation p /\
      max_instance p * profile_size p <= av < (max_instance p + 1) * profile_size p /\
      ((MIB | av) -> 1 <= max_instance p) /\
      max_instance p * (fb_length p + overhead c) <= grantable c av /\
      1 <= encoder_capacity p <= 100.
Proof.
  intros Hc Hav Hfb Ht Hsmall. pose proof (available_bounds c av Hc Hav) as Hb.
  destruct (profile_for_spec c av nm fb Hc Hav Hfb)
    as [[Hn Hwhy] | (p & Hp & Hfb0 & Hfit & _ & Hlen & Hres & Hprice & Hle & Hdiv & Hmin & Hmax & Henc)].
  { exists None. split; [done|]. split; [done|]. done. }
  exists (Some p). split; [done|]. split; [split; [done|lia]|]. intros ? [= <-].
  pose proof Hc as [_ _ _ Ho _].
  assert (Hpos : MIB <= profile_size p).
  { apply Z.divide_pos_le; [lia|done]. }
  assert (Hq : av / profile_size p <= av / MIB)
    by (apply Z.div_le_compat_l; [lia | pose proof MIB_pos; lia]).
  assert (HqM : av / MIB < 4294967296) by (apply Z.div_lt_upper_bound; [done | exact Hsmall]).
  pose proof (Z.div_pos av (profile_size p) ltac:(lia) ltac:(pose proof MIB_pos; lia)).
  unfold wrap32 in Hmax. rewrite Z.mod_small in Hmax by lia.
  pose proof (Z.mul_succ_div_gt av (profile_size p) ltac:(pose proof MIB_pos; lia)).
  destruct (instances_fit (fb + overhead c) (profile_size p) av (grantable c av) (max_instance p))
    as [I1 I2]; [pose proof MIB_pos; lia | lia | lia | lia | lia | lia |].
  rewrite Hlen, Hres. repeat split; try lia.
  - intros Hav'. rewrite Hmax. apply Z.div_le_lower_bound; [pose proof MIB_pos; lia|].
    rewrite Z.mul_1_r. apply Hmin; [done|]. nia.
  - rewrite Henc. unfold encoder_share, clamp. rewrite (proj2 (Z.eqb_neq (total c) 0)) by lia. lia.
  - rewrite Henc. unfold encoder_share, clamp. rewrite (proj2 (Z.eqb_neq (total c) 0)) by lia. lia.
Qed.

(** The launcher's numbers for an RTX 2070 beside a busy desktop. *)
Definition busy_rtx2070 : Catalogue :=
  MkCatalogue (lit "RTX2070") (8192 * MIB) (6871 * MIB) (256 * MIB) (256 * MIB) [].

Lemma busy_rtx2070_ok : card_ok busy_rtx2070.
Proof. constructor; vm_compute; congruence. Qed.

Lemma profile_for_accounting_witness :
  exists r, profile_for busy_rtx2070 (lit "RTX2070-3G") (3072 * MIB) = Ok r /\
    (r = None <-> 3072 * MIB = 0 \/
       grantable busy_rtx2070 (8192 * MIB) < 3072 * MIB + overhead busy_rtx2070) /\
    forall p, r = Some p ->
      fb_length p = 3072 * MIB /\ reservation p + fb_length p = profile_size p /\
      overhead busy_rtx2070 <= reservation p /\
      max_instance p * profile_size p <= 8192 * MIB < (max_instance p + 1) * profile_size p /\
      ((MIB | 8192 * MIB) -> 1 <= max_instance p) /\
      max_instance p * (fb_length p + overhead busy_rtx2070)
        <= grantable busy_rtx2070 (8192 * MIB) /\
      1 <= encoder_capacity p <= 100.
Proof.
  apply (profile_for_accounting busy_rtx2070 (8192 * MIB)).
  - apply busy_rtx2070_ok.
  - reflexivity.
  - split; vm_compute; congruence.
  - reflexivity.
  - reflexivity.
Defined.

(** The numbers of the repository's own test for this card. *)
Example busy_rtx2070_3g :
  exists p, profile_for busy_rtx2070 (lit "RTX2070-3G") (3072 * MIB) = Ok (Some p) /\
    profile_size p = 3968 * MIB /\ reservation p = 896 * MIB /\
    max_instance p = 2 /\ encoder_capacity p = 37.
Proof. eexists. split; [vm_compute; reflexivity|]. repeat split. Qed.

(** ** Admission *)

(** A profile this catalogue priced. *)
Definition priced (c : Catalogue) (p : Profile) : Prop :=
  exists nm fb, is_u64 fb /\ profile_for c nm fb = Ok (Some p).

(** Framebuffer and overhead of a set of machines. *)
Definition demand (c : Catalogue) (ps : list Profile) : Z :=
  foldr (fun p acc => fb_length p + overhead c + acc) 0 ps.

Lemma sum64_ok acc l s : sum64 acc l = Ok s -> s = foldr Z.add acc l.
Proof.
  revert acc. induction l as [|x l IH]; intros acc; simpl; [congruence|].
  intros H. inv_ok. unfold add64 in *. inv_ok.
  match goal with E : checked_add64 _ _ = Some _ |- _ =>
    apply checked_add64_Some in E as [-> _] end.
  rewrite (IH _ H). clear. induction l; simpl; lia.
Qed.

Lemma demand_price c av ps :
  card_ok c -> available c = Ok av -> Forall (priced c) ps ->
  demand c ps * av <= foldr Z.add 0 (map profile_size ps) * grantable c av.
Proof.
  intros Hc Hav. induction 1 as [|p ps (nm & fb & Hfb & Hp) _ IH]; simpl; [lia|].
  destruct (profile_for_price c av nm fb p Hc Hav Hfb Hp) as (_ & _ & Hpr & _). lia.
Qed.

(** Admission by price is safe: when the prices of the live machines and
    of the new one add up to at most the card, their framebuffers and
    overheads together fit into what the card can hand out, and on a card
    that its VMMU segments divide evenly they fit into the usable heap. *)
Theorem admits_sound c av live want :
  card_ok c -> available c = Ok av -> Forall (priced c) live -> priced c want ->
  admits c (map profile_size live) (profile_size want) = Ok true ->
  demand c (want :: live) <= grantable c av /\
  (av = total c -> usable c <= total c -> demand c (want :: live) <= usable c).
Proof.
  intros Hc Hav Hlive Hwant Hadm. unfold admits in Hadm. rewrite Hav in Hadm.
  inv_ok. unfold add64 in *. inv_ok.
  match goal with E : sum64 _ _ = Ok _ |- _ => apply sum64_ok in E as -> end.
  match goal with E : checked_add64 _ _ = Some _ |- _ =>
    apply checked_add64_Some in E as [-> _] end.
  assert (Hall : Forall (priced c) (want :: live)) by (constructor; done).
  pose proof (demand_price c av _ Hc Hav Hall) as Hd. cbn [map foldr] in Hd.
  destruct Hwant as (nm & fb & Hfb & Hp).
  destruct (profile_for_price c av nm fb want Hc Hav Hfb Hp) as (Hpos & Hfit & _).
  pose proof Hc as [_ _ _ Ho _].
  assert (Hg : grantable c av <= av) by (unfold grantable, saturating_sub; lia).
  assert (Hfin : demand c (want :: live) <= grantable c av).
  { apply (Z.mul_le_mono_pos_r _ _ av); [lia|]. nia. }
  split; [done|]. intros -> Hut. unfold grantable, saturating_sub in Hfin. lia.
Qed.

Lemma admits_sound_witness :
  exists p,
    profile_for busy_rtx2070 (lit "RTX2070-3G") (3072 * MIB) = Ok (Some p) /\
    demand busy_rtx2070 [p; p] <= grantable busy_rtx2070 (8192 * MIB) /\
    (8192 * MIB = total busy_rtx2070 -> usable busy_rtx2070 <= total busy_rtx2070 ->
     demand busy_rtx2070 [p; p] <= usable busy_rtx2070).
Proof.
  eexists. split; [vm_compute; reflexivity|].
  apply (admits_sound busy_rtx2070 (8192 * MIB)); [apply busy_rtx2070_ok | reflexivity | | |].
  - constructor; [|constructor]. exists (lit "RTX2070-3G"), (3072 * MIB).
    split; [split; vm_compute; congruence | vm_compute; reflexivity].
  - exists (lit "RTX2070-3G"), (3072 * MIB).
    split; [split; vm_compute; congruence | vm_compute; reflexivity].
  - vm_compute. reflexivity.
Defined.

(** On a card that is not a multiple of eight segments [available] rounds the
    card up, and the price of a framebuffer larger than the whole card is
    still quoted: 11500 MiB on a card of 11264 MiB. *)
Example framebuffer_beyond_card :
  exists p, profile_for (MkCatalogue (lit "C") (11264 * MIB) (11000 * MIB) (256 * MIB)
                           (256 * MIB) []) (lit "C-11500M") (11500 * MIB) = Ok (Some p) /\
            11264 * MIB < fb_length p.
Proof. eexists. split; [vm_compute; reflexivity|]. reflexivity. Qed.

(** ** The derived types *)
Lemma carve_share carve share av :
  0 <= carve <= av -> 0 <= share <= av -> 0 < av ->
  let r := div_ceil (carve * share) av in
  carve * share <= r * av /\ 0 <= r <= carve.
Proof.
  intros Hc Hs Hav r. pose proof (div_ceil_spec (carve * share) av Hav).
  split; [unfold r; lia|]. split; [apply div_ceil_nonneg; nia|]. apply div_ceil_le; nia.
Qed.

Lemma align_down_spec v a :
  0 <= v -> 0 < a -> (0 <= align_down v a <= v /\ v < align_down v a + a) /\ (a | align_down v a).
Proof.
  intros Hv Ha. unfold align_down. rewrite (proj2 (Z.eqb_neq a 0)) by lia.
  pose proof (Z.mul_div_le v a Ha). pose proof (Z.div_pos v a Hv Ha). pose proof (Z.mul_succ_div_gt v a Ha).
  split; [nia|]. by exists (v / a).
Qed.

Lemma GIB_MIB s : s mod GIB = 0 -> (MIB | s).
Proof.
  intros H. apply Z.mod_divide in H; [|done]. eapply Z.divide_trans; [|exact H].
  by exists 1024.
Qed.

(** The largest framebuffer that is a whole number of segments and leaves room
    in the share of one of [n] instances for its part of the memory the card
    keeps back and for the overhead, rounded up to segments. *)
Definition fills (c : Catalogue) (av n F : Z) : Prop :=
  0 < F /\ (segment c | F) /\
  exists up, (segment c | up) /\
    up - segment c < div_ceil (saturating_sub (total c) (usable c) * (av / n)) av + overhead c <= up /\
    F + up <= av / n < F + up + segment c.

Lemma multiple_unique s a b x : 0 < s -> a * s - s < x <= a * s -> b * s - s < x <= b * s -> a = b.
Proof.
  intros Hs Ha Hb.
  assert (a - b < 1) by (apply (Z.mul_lt_mono_pos_r s); lia).
  assert (b - a < 1) by (apply (Z.mul_lt_mono_pos_r s); lia). lia.
Qed.

Lemma fills_unique c av n F F' : 0 < segment c -> fills c av n F -> fills c av n F' -> F = F'.
Proof.
  intros Hs (_ & [k ->] & up & [u ->] & Hu & Hf) (_ & [k' ->] & up' & [u' ->] & Hu' & Hf').
  assert (u = u') as <- by (eapply (multiple_unique (segment c)); [done|exact Hu|exact Hu']).
  f_equal. apply (multiple_unique (segment c) _ _ (av / n - u * segment c - segment c + 1)); lia.
Qed.

(** What a named type is: the type for [n] instances. *)
Record type_for (c : Catalogue) (av n : Z) (p : Profile) : Prop := {
  tf_share : 0 < av / n /\ (GIB | av / n);
  tf_name : name p = board c ++ lit "-" ++ fmt_u64 (av / n / GIB) ++ lit "Q";
  tf_priced : priced c p;
  tf_cost : profile_size p <= av / n;
  tf_fb : fills c av n (fb_length p);
  tf_heap : fb_length p * n <= usable c;
  tf_instances : n <= max_instance p /\ max_instance p * profile_size p <= av;
}.

(** What one round of the loop produces. *)
Lemma derive_row_spec c av count :
  card_ok c -> available c = Ok av -> 0 < segment c -> 0 < total c -> 0 < count -> av < 2 ^ 52 ->
  exists r, derive_row c count = Ok r /\
    (forall p, r = Some p -> type_for c av count p) /\
    (forall F, 0 < av / count -> (GIB | av / count) -> fills c av count F -> F * count <= usable c -> is_Some r).
Proof.
  intros Hc Hav Hseg Htot Hn Hsmall. pose proof (available_bounds c av Hc Hav) as Hb.
  pose proof Hc as [_ Hu _ Ho Hroom]. pose proof MIB_pos as HM. unfold derive_row.
  rewrite Hav. cbn [mbind outcome_bind].
  set (share := av / count). set (carve := saturating_sub (total c) (usable c)).
  assert (Hcarve : 0 <= carve <= total c) by (unfold carve, saturating_sub; lia).
  assert (Hshare : 0 <= share <= av).
  { split; [apply Z.div_pos; lia|]. apply Z.div_le_upper_bound; nia. }
  assert (Hsn : share * count <= av) by (pose proof (Z.mul_div_le av count Hn); lia).
  destruct (negb (share mod GIB =? 0) || (share =? 0)) eqn:E.
  { exists None. split; [done|]. split; [done|]. intros F H0 Hg. exfalso.
    apply Z.mod_divide in Hg; [|done]. rewrite Hg in E. cbn in E. bools. lia. }
  bools. destruct (carve_share carve share av) as [Hr1 Hr2]; [lia | lia | lia|].
  set (r := div_ceil (carve * share) av) in *.
  rewrite wrap64_id by (unfold is_u64; lia).
  rewrite add64_ok by lia. cbn [mbind outcome_bind].
  destruct (align_up_pos (r + overhead c) (segment c)) as (up & -> & Hup & Hupd); [lia..|].
  cbn [mbind outcome_bind].
  destruct (align_down_spec (saturating_sub share up) (segment c)) as [[Hfb Hfb2] Hdiv];
    [unfold saturating_sub; lia | done |].
  set (fb := align_down (saturating_sub share up) (segment c)) in *.
  assert (Hfills : fb <> 0 -> fills c av count fb).
  { intros Hne. split; [lia|]. split; [done|]. exists up. split; [done|]. fold share carve r. unfold saturating_sub in Hfb, Hfb2. lia. }
  assert (Honly : forall F, fills c av count F -> fb = F /\ fb <> 0).
  { intros F HF. destruct (decide (fb = 0)) as [E0|Hne].
    - exfalso. destruct HF as (HF0 & [k ->] & up' & [u' ->] & Hu' & HF'). fold share carve r in Hu', HF'.
      destruct Hupd as [u ->].
      assert (u = u') as <- by (eapply (multiple_unique (segment c)); [done| |exact Hu']; lia).
      assert (1 <= k) by (apply Z.lt_pred_le, (Z.mul_lt_mono_pos_r (segment c)); lia).
      assert (segment c <= k * segment c) by nia. unfold saturating_sub in Hfb, Hfb2. lia.
    - split; [|done]. by apply (fills_unique c av count); [|apply Hfills|]. }
  destruct (fb =? 0) eqn:Efb; bools.
  { exists None. split; [done|]. split; [done|]. intros F _ _ HF. by destruct (Honly F HF). }
  assert (Hfb' : fb <= share - up) by (unfold saturating_sub in Hfb; lia).
  rewrite mul64_ok by nia. cbn [mbind outcome_bind].
  destruct (usable c <? fb * count) eqn:Eu; bools.
  { exists None. split; [done|]. split; [done|]. intros F _ _ HF HFu. destruct (Honly F HF) as [<- _]. lia. }
  assert (Hu64 : is_u64 fb) by (unfold is_u64; lia).
  assert (Hprice : (fb + overhead c) * av <= share * grantable c av).
  { unfold grantable. fold carve. nia. }
  destruct (profile_for_spec c av (board c ++ lit "-" ++ fmt_u64 (share / GIB) ++ lit "Q")
              fb Hc Hav Hu64)
    as [[_ [?|Hno]] | (p & Hp & Hpos & _ & Hname & Hlen & _ & _ & Hge & Hdv & Hmin & Hmax & _)].
  - lia.
  - exfalso. assert (0 <= grantable c av <= av) by (unfold grantable; fold carve; lia). nia.
  - exists (Some p). split; [done|]. split; [|by eexists]. intros ? [= <-].
    assert (Hsz : profile_size p <= share) by (apply Hmin; [by apply GIB_MIB | done]).
    assert (Hmi : max_instance p = av / profile_size p).
    { rewrite Hmax. unfold wrap32. apply Z.mod_small. split; [apply Z.div_pos; lia|].
      assert (MIB <= profile_size p) as Hmib by (apply Z.divide_pos_le; [lia|done]).
      apply Z.div_lt_upper_bound; [lia|]. change MIB with 1048576 in Hmib. clear -Hsmall Hmib. lia. }
    split; rewrite ?Hlen; try done.
    + split; [lia|]. by apply Z.mod_divide.
    + by eexists _, fb.
    + by apply Hfills.
    + rewrite Hmi. split; [|rewrite Z.mul_comm; apply Z.mul_div_le; lia].
      apply Z.div_le_lower_bound; [lia|]. etransitivity; [|exact Hsn]. apply Z.mul_le_mono_nonneg_r; lia.
Qed.

Lemma derive_rows_spec c av counts :
  card_ok c -> available c = Ok av -> 0 < segment c -> 0 < total c -> av < 2 ^ 52 ->
  Forall (fun n => 0 < n) counts ->
  exists rows, derive_rows c counts = Ok rows /\
    Forall (fun p => exists n, n ∈ counts /\ type_for c av n p) rows /\
    (forall n F, n ∈ counts -> 0 < av / n -> (GIB | av / n) -> fills c av n F -> F * n <= usable c ->
       exists p, p ∈ rows /\ type_for c av n p).
Proof.
  intros Hc Hav Hs Ht Hsm. induction 1 as [|n counts Hn _ IH]; simpl.
  { exists []. split; [done|]. split; [done|]. by intros n F []%elem_of_nil. }
  destruct (derive_row_spec c av n) as (r & -> & Hr & Hall); [done..|].
  destruct IH as (rows & -> & Hrows & Hmore). simpl. eexists. split; [reflexivity|]. split.
  - apply Forall_app. split.
    + destruct r as [p|]; simpl; [|constructor]. constructor; [|constructor].
      exists n. split; [by left|]. by apply Hr.
    + eapply Forall_impl; [exact Hrows|]. intros p (m & Hm & Hrest). exists m.
      split; [by right|done].
  - intros m F [->|Hm]%elem_of_cons Hpos Hg HF Hu.
    + destruct (Hall F Hpos Hg HF Hu) as [p ->]. exists p. split; [by left|by apply Hr].
    + destruct (Hmore m F Hm Hpos Hg HF Hu) as (p & Hp & Ht'). exists p. split; [|done].
      apply elem_of_app. by right.
Qed.



(** The named types of the same card, with the framebuffers of the tests. *)
Example busy_rtx2070_types :
  exists cat, derive (lit "RTX2070") (8192 * MIB) (6871 * MIB) (256 * MIB) (256 * MIB) = Ok cat /\
    map (fun p => (name p, fb_length p / MIB)) (profiles cat) =
      [(lit "RTX2070-8Q", 6400); (lit "RTX2070-4Q", 3072); (lit "RTX2070-2Q", 1280);
       (lit "RTX2070-1Q", 512)] /\
    (p ← resolve cat (lit " 2q "); Ok (option_map fb_length p)) = Ok (Some (1280 * MIB)) /\
    resolve cat (lit "6616M") = Ok None.
Proof. eexists. split; [vm_compute; reflexivity|]. repeat split. Qed.

End vgpu.
