(* ===== verification/VramPolicy.v ===== *)
(** * The memory policy (crates/vhost-user-nvrm/src/vram.rs, the first part)

    [decide] turns the backend's environment variables into the [Profile] that
    the ledger enforces, or refuses to start.  The messages of the source are
    values of [decide_error] and [note]; everything they print is an argument
    of the constructor. *)
From stdpp Require Import strings.
From S2P Require Import Prelude.
From S2P Require Import Text.
From S2P Require Import Vgpu.

Local Open Scope string_scope.
Local Open Scope list_scope.
Local Open Scope Z_scope.

Definition DEFAULT_RESERVATION_MIB : Z := 256.

Inductive Policy := Off | Accounting | Reserved | Grid.

Global Instance Policy_eq_dec : EqDecision Policy.
Proof. solve_decision. Defined.

Definition knob (p : Policy) : str :=
  match p with
  | Off => lit "no cap"
  | Accounting => lit "LEA_VRAM_LIMIT_MIB"
  | Reserved => lit "LEA_VRAM_PROFILE_MIB"
  | Grid => lit "LEA_VGPU_TYPE"
  end.

Record Profile := MkProfile {
  policy : Policy;
  size : Z;
  reservation : Z;
  fb_length : Z;
  vgpu_type : str;
  encoder_capacity : Z;
}.

Definition OFF : Profile := MkProfile Off 0 0 0 [] 0.

Definition accounting (bytes : Z) : Profile :=
  if bytes =? 0 then OFF else MkProfile Accounting bytes 0 bytes [] 0.

Record RawEnv := MkRawEnv {
  env_limit : option str;
  env_profile : option str;
  env_reserve : option str;
  env_vgpu_type : option str;
  env_vgpu_profile : option str;
  env_vgpu_fb : option str;
  env_vgpu_encoder : option str;
  card_total : Z;
}.

(** Why a size setting cannot be used; the hint is what [parse_mib] makes of
    it. *)
Inductive unusable :=
| ExceedsRange (nm s : str)
| NotMib (nm s : str) (hint : option Z).

Inductive note := VgpuSizesWithoutType | ReserveWithoutProfile.

Inductive decide_error :=
| Unusable (us : list unusable)
| VgpuConflict (t : str)
| VgpuIncomplete (t : str)
| VgpuNothingReserved (t : str) (f p : Z)
| LimitAndProfile (l p : Z)
| ReserveTooLarge (r sz : Z).

(** The closure [mib]: a positive number of MiB, or [None] for an unset or
    zero setting; what it pushes onto [unusable] is the second component. *)
Definition mib (nm : str) (raw : option str) : option Z * list unusable :=
  match raw with
  | None => (None, [])
  | Some s =>
      if is_empty (trim s) then (None, [])
      else match parse_u64 (trim s) with
           | Some v =>
               if v =? 0 then (None, [])
               else if v <=? Z.shiftr u64_max 20 then (Some v, [])
               else (None, [ExceedsRange nm s])
           | None => (None, [NotMib nm s (vgpu.parse_mib s)])
           end
  end.

(** [<< 20] on [u64]. *)
Definition shl20 (v : Z) : Z := wrap64 (Z.shiftl v 20).

(** The [let (policy, size, fb, label) = ...] of [decide]: [inl] is the early
    [Ok((Profile::OFF, notes))]. *)
Definition choose (limit sz reserve vprofile vfb : option Z) (vtype : option str)
  : outcome decide_error (list note + list note * (Policy * Z * Z * str)) :=
  match vtype with
  | Some t =>
      if bool_decide (is_Some limit) || bool_decide (is_Some sz) then Err (VgpuConflict t)
      else match vprofile, vfb with
           | Some p, Some f =>
               if p <=? f then Err (VgpuNothingReserved t f p)
               else Ok (inr ([], (Grid, p, f, t)))
           | _, _ => Err (VgpuIncomplete t)
           end
  | None =>
      let notes := if bool_decide (is_Some vprofile) || bool_decide (is_Some vfb)
                   then [VgpuSizesWithoutType] else [] in
      match limit, sz with
      | Some l, Some p => Err (LimitAndProfile l p)
      | None, Some s =>
          let r := default DEFAULT_RESERVATION_MIB reserve in
          if s <=? r then Err (ReserveTooLarge r s)
          else Ok (inr (notes, (Reserved, s, s - r, [])))
      | _, None =>
          let notes := if bool_decide (is_Some reserve)
                       then notes ++ [ReserveWithoutProfile] else notes in
          match limit with
          | None => Ok (inl notes)
          | Some l => Ok (inr (notes, (Accounting, l, l, [])))
          end
      end
  end.

(** A type name that is not blank. *)
Definition type_name (raw : option str) : option str :=
  raw ≫= fun t => if is_empty (trim t) then None else Some (trim t).

Definition encoder_of (env : RawEnv) (fb : Z) : Z :=
  if negb (card_total env =? 0) then vgpu.encoder_share (shl20 fb) (card_total env)
  else default 0 (v ← env_vgpu_encoder env;
                  p ← parse_u32 (trim v);
                  if (1 <=? p) && (p <=? 100) then Some p else None).

Module startup.

Definition decide (env : RawEnv) : outcome decide_error (Profile * list note) :=
  let '(limit, u1) := mib (lit "LEA_VRAM_LIMIT_MIB") (env_limit env) in
  let '(sz, u2) := mib (lit "LEA_VRAM_PROFILE_MIB") (env_profile env) in
  let '(reserve, u3) := mib (lit "LEA_VRAM_RESERVE_MIB") (env_reserve env) in
  let '(vprofile, u4) := mib (lit "LEA_VGPU_PROFILE_MIB") (env_vgpu_profile env) in
  let '(vfb, u5) := mib (lit "LEA_VGPU_FB_MIB") (env_vgpu_fb env) in
  let us := u1 ++ u2 ++ u3 ++ u4 ++ u5 in
  match us with
  | _ :: _ => Err (Unusable us)
  | [] =>
      c ← choose limit sz reserve vprofile vfb (type_name (env_vgpu_type env));
      match c with
      | inl notes => Ok (OFF, notes)
      | inr (notes, (pol, s, fb, label)) =>
          Ok (MkProfile pol (shl20 s) (shl20 (s - fb)) (shl20 fb) label (encoder_of env fb),
              notes)
      end
  end.

(** ** Lemmas *)

(** The value of a size setting. *)
Definition setting (raw : option str) : option Z := (mib [] raw).1.

Lemma mib_value nm raw : (mib nm raw).1 = setting raw.
Proof.
  unfold setting, mib. destruct raw as [s|]; [|done]. destruct (is_empty _); [done|].
  destruct (parse_u64 _); [|done]. by repeat case_match.
Qed.

Lemma setting_range raw v : setting raw = Some v -> 1 <= v <= 2 ^ 44 - 1.
Proof.
  unfold setting, mib. destruct raw as [s|]; [|done]. destruct (is_empty _); [done|].
  destruct (parse_u64 (trim s)) as [w|] eqn:E; [|done].
  apply parse_uint_range in E; [|done].
  destruct (w =? 0) eqn:E0; [done|]. destruct (w <=? Z.shiftr u64_max 20) eqn:E1; [|done].
  bools. intros [= <-]. change (Z.shiftr u64_max 20) with (2 ^ 44 - 1) in E1. lia.
Qed.

Lemma shl20_exact v : 0 <= v <= 2 ^ 44 - 1 -> shl20 v = v * vgpu.MIB.
Proof.
  intros Hv. unfold shl20, wrap64. rewrite Z.shiftl_mul_pow2 by lia.
  rewrite Z.mod_small; [done|]. change (2 ^ 44 - 1) with 17592186044415 in Hv. lia.
Qed.

Lemma encoder_of_range env fb : 0 <= encoder_of env fb <= 100.
Proof.
  unfold encoder_of, vgpu.encoder_share, vgpu.clamp.
  destruct (card_total env =? 0) eqn:E; cbn [negb]; [|lia].
  destruct (env_vgpu_encoder env) as [v|]; [|simpl; lia]. simpl.
  destruct (parse_u32 (trim v)) as [p|]; [|simpl; lia]. simpl.
  destruct ((1 <=? p) && (p <=? 100)) eqn:Ep; simpl; [bools|]; lia.
Qed.

(** The policy each combination of settings selects. *)
Definition selected (env : RawEnv) (p : Profile) : Prop :=
  match policy p with
  | Off => p = OFF /\ setting (env_limit env) = None /\ setting (env_profile env) = None /\
           type_name (env_vgpu_type env) = None
  | Accounting =>
      exists l, setting (env_limit env) = Some l /\ setting (env_profile env) = None /\
        type_name (env_vgpu_type env) = None /\
        fb_length p = l * vgpu.MIB /\ reservation p = 0
  | Reserved =>
      exists s, setting (env_limit env) = None /\ setting (env_profile env) = Some s /\
        type_name (env_vgpu_type env) = None /\ size p = s * vgpu.MIB /\
        reservation p = default DEFAULT_RESERVATION_MIB (setting (env_reserve env)) * vgpu.MIB
  | Grid =>
      exists s f, setting (env_limit env) = None /\ setting (env_profile env) = None /\
        type_name (env_vgpu_type env) = Some (vgpu_type p) /\
        setting (env_vgpu_profile env) = Some s /\ setting (env_vgpu_fb env) = Some f /\
        size p = s * vgpu.MIB /\ fb_length p = f * vgpu.MIB
  end.

(** The numbers of a profile add up and fit their type. *)
Definition coherent (p : Profile) : Prop :=
  (policy p = Off \/ 0 < fb_length p) /\
  size p = fb_length p + reservation p /\ 0 <= reservation p /\ is_u64 (size p) /\
  (policy p = Reserved \/ policy p = Grid -> 0 < reservation p) /\
  0 <= encoder_capacity p <= 100.

Lemma profile_coherent env pol s fb label :
  1 <= fb <= s -> s <= 2 ^ 44 - 1 -> (pol = Reserved \/ pol = Grid -> fb < s) ->
  coherent (MkProfile pol (shl20 s) (shl20 (s - fb)) (shl20 fb) label (encoder_of env fb)).
Proof.
  intros Hf Hs Hlt. unfold coherent. cbn. rewrite !shl20_exact by lia.
  change vgpu.MIB with 1048576. unfold is_u64, u64_max.
  change (2 ^ 44 - 1) with 17592186044415 in Hs.
  repeat split; try lia; try apply encoder_of_range. intros H%Hlt. lia.
Qed.

(** A configuration that starts the backend selects at most one policy,
    and exactly the one its variables name; the sizes that come out are the
    configured MiB without overflow, they add up (profile = framebuffer +
    reservation), the guest always keeps a framebuffer, the reserved policies
    always keep something back, and the encoder share is a percentage. *)
Theorem decide_selects env p notes :
  decide env = Ok (p, notes) -> selected env p /\ coherent p.
Proof.
  unfold decide.
  pose proof (mib_value (lit "LEA_VRAM_LIMIT_MIB") (env_limit env)) as V1.
  pose proof (mib_value (lit "LEA_VRAM_PROFILE_MIB") (env_profile env)) as V2.
  pose proof (mib_value (lit "LEA_VRAM_RESERVE_MIB") (env_reserve env)) as V3.
  pose proof (mib_value (lit "LEA_VGPU_PROFILE_MIB") (env_vgpu_profile env)) as V4.
  pose proof (mib_value (lit "LEA_VGPU_FB_MIB") (env_vgpu_fb env)) as V5.
  do 5 destruct (mib _ _) as [?v ?us]. cbn [fst] in *. subst.
  destruct (_ ++ _); [|done]. unfold choose, selected. intros H.
  destruct (type_name (env_vgpu_type env)) as [t|] eqn:Et.
  - destruct (setting (env_limit env)) eqn:E1; [done|].
    destruct (setting (env_profile env)) eqn:E2; [done|].
    destruct (setting (env_vgpu_profile env)) as [s|] eqn:E4; [|done].
    destruct (setting (env_vgpu_fb env)) as [f|] eqn:E5; [|done]. simpl in H.
    pose proof (setting_range _ _ E4). pose proof (setting_range _ _ E5).
    destruct (s <=? f) eqn:Ef; [done|]. simplify_eq/=. bools. split.
    + exists s, f. rewrite !shl20_exact by lia. done.
    + apply profile_coherent; lia.
  - destruct (setting (env_limit env)) as [l|] eqn:E1;
      destruct (setting (env_profile env)) as [s|] eqn:E2; simplify_eq/=; try done.
    + pose proof (setting_range _ _ E1). split.
      * exists l. rewrite !shl20_exact by lia. repeat split; lia.
      * apply profile_coherent; [lia | lia | by intros [?|?]].
    + pose proof (setting_range _ _ E2).
      assert (Hr : 1 <= default DEFAULT_RESERVATION_MIB (setting (env_reserve env))).
      { destruct (setting (env_reserve env)) as [r|] eqn:E3; [|done].
        by apply setting_range in E3 as [? _]. }
      destruct (s <=? _) eqn:Ef; simplify_eq/=. bools. split.
      * exists s. rewrite !shl20_exact by lia. repeat split; try done; lia.
      * apply profile_coherent; lia.
    + repeat split; try done; try lia; [by left | by intros [?|?]].
Qed.

Lemma decide_selects_witness :
  let env := MkRawEnv None (Some (lit " 2048 ")) None None None None None (8192 * vgpu.MIB) in
  let p := MkProfile Reserved (2048 * vgpu.MIB) (256 * vgpu.MIB) (1792 * vgpu.MIB) [] 21 in
  decide env = Ok (p, []) /\ selected env p /\ coherent p.
Proof.
  intros env p. assert (H : decide env = Ok (p, [])) by (vm_compute; reflexivity).
  split; [exact H|]. apply (decide_selects env p [] H).
Defined.

(** Two policies at once are refused, and so is a size with a unit. *)
Example decide_refuses_both :
  decide (MkRawEnv (Some (lit "1024")) (Some (lit "2048")) None None None None None 0)
  = Err (LimitAndProfile 1024 2048).
Proof. reflexivity. Qed.

Example decide_refuses_unit :
  decide (MkRawEnv (Some (lit "3G")) None None None None None None 0)
  = Err (Unusable [NotMib (lit "LEA_VRAM_LIMIT_MIB") (lit "3G") (Some 3072)]).
Proof. reflexivity. Qed.

End startup.
