(* ===== verification/Vram.v ===== *)
(** * The VRAM ledger (crates/vhost-user-nvrm/src/vram.rs, the ledger)

    One backend serves one virtual machine; its sessions share a [Ledger] and
    each keeps [Books] of what it has charged.  A request is classified by
    [request_bytes] and [vidheap_request_bytes], reserved before the ioctl and
    settled after it; frees, closed descriptors and the end of a session give
    the bytes back.

    The atomic counter is updated by compare-and-swap loops: [CasLoop] runs
    any number of them in any interleaving.  The operations of [Books] are
    functions on the ledger and the books, and [ledger_step] interleaves the
    operations of all sessions. *)
From stdpp Require Import strings sorting.
From S2P Require Import Prelude.
From S2P Require Import Bytes.
From S2P Require Import CLayout.
From S2P Require Import SysConsts.
From S2P Require Import Sys.
From S2P Require Import NvAbi.
From S2P Require Import Text.
From S2P Require Import VramPolicy.

Local Open Scope string_scope.
Local Open Scope list_scope.
Local Open Scope Z_scope.

(** ** Which requests are charged *)
Definition P_FLAGS : Z := 8.
Definition P_ATTR : Z := 24.
Definition P_SIZE : Z := 64.
Definition P_LEN : Z := 128.
Definition ALLOC_FLAGS_VIRTUAL : Z := 0x00080000.

Definition V_FUNCTION : Z := 8.
Definition V_STATUS_OFF : Z := 20.
Definition V_DATA : Z := 40.
Definition VA_HMEMORY : Z := V_DATA + 4.
Definition VA_FLAGS : Z := V_DATA + 12.
Definition VA_ATTR : Z := V_DATA + 16.
Definition VA_SIZE : Z := V_DATA + 48.
Definition V_LEN : Z := 184.
Definition V_TOTAL : Z := 24.
Definition V_FREE : Z := 32.

(** The compile-time assertions that bind the offsets to the structures. *)
Example vram_offsets_hold :
  (P_FLAGS, P_ATTR, P_SIZE, P_LEN, ALLOC_FLAGS_VIRTUAL) =
    (offset_of NV_MEMORY_ALLOCATION_PARAMS "flags",
     offset_of NV_MEMORY_ALLOCATION_PARAMS "attr",
     offset_of NV_MEMORY_ALLOCATION_PARAMS "size",
     size_of NV_MEMORY_ALLOCATION_PARAMS, NVOS32_ALLOC_FLAGS_VIRTUAL) /\
  (V_FUNCTION, V_STATUS_OFF, V_DATA, V_LEN, V_TOTAL, V_FREE) =
    (offset_of NVOS32_PARAMETERS "function", offset_of NVOS32_PARAMETERS "status",
     offset_of NVOS32_PARAMETERS "data", size_of NVOS32_PARAMETERS,
     offset_of NVOS32_PARAMETERS "total", offset_of NVOS32_PARAMETERS "free") /\
  (VA_HMEMORY, VA_FLAGS, VA_ATTR, VA_SIZE) =
    (V_DATA + offset_of NVOS32_PARAMETERS__bindgen_ty_1__bindgen_ty_1 "hMemory",
     V_DATA + offset_of NVOS32_PARAMETERS__bindgen_ty_1__bindgen_ty_1 "flags",
     V_DATA + offset_of NVOS32_PARAMETERS__bindgen_ty_1__bindgen_ty_1 "attr",
     V_DATA + offset_of NVOS32_PARAMETERS__bindgen_ty_1__bindgen_ty_1 "size").
Proof. vm_compute. done. Qed.

(** [u32::from_le_bytes(b[o..o + 4])] and the 64-bit read: a slice out of
    range panics. *)
Definition rd32 (b : bytes) (o : Z) : may_panic Z := or_panic (get_u32 b o).
Definition rd64 (b : bytes) (o : Z) : may_panic Z := or_panic (get_u64 b o).

Definition asks_for_vidmem (attr : Z) : bool :=
  Drf.get NVOS32_ATTR_LOCATION attr =? NVOS32_ATTR_LOCATION_VIDMEM.

Definition is_vidmem (attr : Z) : bool :=
  Drf.get NVOS32_ATTR_LOCATION attr =? NVOS32_ATTR_LOCATION_VIDMEM.

Definition memory_class (hclass : Z) : bool :=
  (hclass =? 0x003e) || (hclass =? 0x0040) || (hclass =? 0x50a0).

Definition request_bytes (hclass : Z) (aux : bytes) : may_panic (option Z) :=
  if negb (memory_class hclass) || (blen aux <? P_LEN) then Ok None
  else if negb (hclass =? 0x0040) then Ok None
  else
    flags ← rd32 aux P_FLAGS;
    if negb (Z.land flags ALLOC_FLAGS_VIRTUAL =? 0) then Ok None
    else
      attr ← rd32 aux P_ATTR;
      if negb (asks_for_vidmem attr) then Ok None
      else
        sz ← rd64 aux P_SIZE;
        Ok (if 0 <? sz then Some sz else None).

Definition vidheap_function (buf : bytes) : may_panic (option Z) :=
  if V_LEN <=? blen buf then f ← rd32 buf V_FUNCTION; Ok (Some f) else Ok None.

Definition vidheap_request_bytes (buf : bytes) : may_panic (option Z) :=
  f ← vidheap_function buf;
  match f with
  | None => Ok None
  | Some f =>
      if negb (f =? NVOS32_FUNCTION_ALLOC_SIZE) then Ok None
      else
        flags ← rd32 buf VA_FLAGS;
        if negb (Z.land flags ALLOC_FLAGS_VIRTUAL =? 0) then Ok None
        else
          attr ← rd32 buf VA_ATTR;
          if negb (asks_for_vidmem attr) then Ok None
          else
            sz ← rd64 buf VA_SIZE;
            Ok (if 0 <? sz then Some sz else None)
  end.

Definition vidheap_attr_out (buf : bytes) : may_panic Z :=
  if blen buf <? V_LEN then Ok 0 else rd32 buf VA_ATTR.

Definition vidheap_handle (buf : bytes) : may_panic Z :=
  if blen buf <? V_LEN then Ok 0 else rd32 buf VA_HMEMORY.

Inductive Door := Nvos64 | Nvos21 | Nvos32.

Global Instance Door_eq_dec : EqDecision Door.
Proof. solve_decision. Defined.

Definition door_code (d : Door) : nat :=
  match d with Nvos64 => 0 | Nvos21 => 1 | Nvos32 => 2 end%nat.
Definition code_door (n : nat) : Door :=
  match n with 0 => Nvos64 | 1 => Nvos21 | _ => Nvos32 end%nat.

Global Instance Door_countable : Countable Door.
Proof. apply (inj_countable' door_code code_door). by intros []. Defined.

Record Ask := MkAsk { door : Door; hclass : Z; flags : Z; attr : Z; ask_size : Z }.

Definition of_alloc (d : Door) (hclass : Z) (aux : bytes) : may_panic (option Ask) :=
  if negb (memory_class hclass) || (blen aux <? P_LEN) then Ok None
  else
    f ← rd32 aux P_FLAGS;
    a ← rd32 aux P_ATTR;
    s ← rd64 aux P_SIZE;
    Ok (Some (MkAsk d hclass f a s)).

Definition of_vidheap (buf : bytes) : may_panic (option Ask) :=
  fn ← vidheap_function buf;
  match fn with
  | None => Ok None
  | Some fn =>
      if negb (fn =? NVOS32_FUNCTION_ALLOC_SIZE) then Ok None
      else
        f ← rd32 buf VA_FLAGS;
        a ← rd32 buf VA_ATTR;
        s ← rd64 buf VA_SIZE;
        Ok (Some (MkAsk Nvos32 0 f a s))
  end.

(** Throttle key. *)
Definition ask_kind (a : Ask) : Door * Z * Z :=
  (door a, hclass a, Drf.get NVOS32_ATTR_LOCATION (attr a)).

(** The rule both doors share: nonvirtual, in video memory, not empty. *)
Definition chargeable (a : Ask) : bool :=
  (Z.land (flags a) ALLOC_FLAGS_VIRTUAL =? 0) && asks_for_vidmem (attr a) &&
  (0 <? ask_size a).

Lemma rd32_ok b o : 0 <= o -> o + 4 <= blen b -> exists v, rd32 b o = Ok v.
Proof.
  intros H1 H2. destruct (proj2 (get_le_is_Some 4 b o)) as [v Hv]; [lia|].
  exists v. unfold rd32. by rewrite Hv.
Qed.

Lemma rd64_ok b o : 0 <= o -> o + 8 <= blen b -> exists v, rd64 b o = Ok v.
Proof.
  intros H1 H2. destruct (proj2 (get_le_is_Some 8 b o)) as [v Hv]; [lia|].
  exists v. unfold rd64. by rewrite Hv.
Qed.

(** Classification never panics whatever the buffer holds, and the two
    allocation escapes charge by one rule: a request is charged exactly when
    its logged description ([Ask]) is a nonempty, nonvirtual request for video
    memory (and, through RM_ALLOC, for the video-memory class), for exactly
    the requested size. *)
Theorem charged_exactly d hc aux buf :
  (exists r a, request_bytes hc aux = Ok r /\ of_alloc d hc aux = Ok a /\
     r = (x ← a; if (hc =? 0x0040) && chargeable x then Some (ask_size x) else None)) /\
  (exists r a, vidheap_request_bytes buf = Ok r /\ of_vidheap buf = Ok a /\
     r = (x ← a; if chargeable x then Some (ask_size x) else None)).
Proof.
  split.
  - unfold request_bytes, of_alloc.
    destruct (negb (memory_class hc) || (blen aux <? P_LEN)) eqn:E; [by exists None, None|].
    bools. destruct (rd32_ok aux P_FLAGS) as [f Hf]; [done | unfold P_FLAGS, P_LEN in *; lia|].
    destruct (rd32_ok aux P_ATTR) as [a Ha]; [done | unfold P_ATTR, P_LEN in *; lia|].
    destruct (rd64_ok aux P_SIZE) as [s Hs]; [done | unfold P_SIZE, P_LEN in *; lia|].
    rewrite Hf, Ha, Hs. cbn [mbind outcome_bind option_bind].
    exists (if (hc =? 64) && chargeable (MkAsk d hc f a s) then Some s else None).
    eexists. split; [|split; [reflexivity|done]]. unfold chargeable. cbn.
    destruct (hc =? 64); [|done]. cbn.
    destruct (Z.land f ALLOC_FLAGS_VIRTUAL =? 0); [|done]. cbn.
    by destruct (asks_for_vidmem a).
  - unfold vidheap_request_bytes, of_vidheap, vidheap_function.
    destruct (V_LEN <=? blen buf) eqn:E; [|by exists None, None]. bools.
    destruct (rd32_ok buf V_FUNCTION) as [fn Hfn]; [done | unfold V_FUNCTION, V_LEN in *; lia|].
    destruct (rd32_ok buf VA_FLAGS) as [f Hf]; [done | unfold VA_FLAGS, V_DATA, V_LEN in *; lia|].
    destruct (rd32_ok buf VA_ATTR) as [a Ha]; [done | unfold VA_ATTR, V_DATA, V_LEN in *; lia|].
    destruct (rd64_ok buf VA_SIZE) as [s Hs]; [done | unfold VA_SIZE, V_DATA, V_LEN in *; lia|].
    rewrite Hfn. cbn [mbind outcome_bind option_bind].
    destruct (fn =? NVOS32_FUNCTION_ALLOC_SIZE); cbn [negb]; [|by exists None, None].
    rewrite Hf, Ha, Hs. cbn [mbind outcome_bind option_bind].
    exists (if chargeable (MkAsk Nvos32 0 f a s) then Some s else None).
    eexists. split; [|split; [reflexivity|done]]. unfold chargeable. cbn.
    destruct (Z.land f ALLOC_FLAGS_VIRTUAL =? 0); [|done]. cbn.
    by destruct (asks_for_vidmem a).
Qed.

(** ** The ledger *)
Record ProcRow := MkProcRow { guest_pid : Z; row_bytes : Z; row_name : str }.

(** [Result<u32, u32>]: the location RM wrote back, or the status it failed
    with. *)
Record Placement := MkPlacement {
  pl_door : Door; pl_class : Z; requested_location : Z; pl_outcome : Z + Z }.

Global Instance Placement_eq_dec : EqDecision Placement.
Proof. solve_decision. Defined.

Record Ledger := MkLedger {
  profile : Profile;
  used : Z;
  roster_rows : gmap Z ProcRow;
  placements : list Placement;
}.

Definition with_profile (p : Profile) : Ledger := MkLedger p 0 ∅ [].

Definition limit (l : Ledger) : Z := fb_length (profile l).
Definition enabled (l : Ledger) : bool := negb (limit l =? 0).

Definition set_used (l : Ledger) (u : Z) : Ledger :=
  MkLedger (profile l) u (roster_rows l) (placements l).
Definition set_rows (l : Ledger) (r : gmap Z ProcRow) : Ledger :=
  MkLedger (profile l) (used l) r (placements l).

(** The decision of one round of [charge]: what the counter would become. *)
Definition charge_next (lim cur bytes : Z) : option Z :=
  next ← checked_add64 cur bytes;
  if negb (lim =? 0) && (lim <? next) then None else Some next.

(** [charge] when its first compare-and-swap succeeds; [CasLoop] shows that
    any interleaving of loops amounts to this at the moment of the swap. *)
Definition charge (l : Ledger) (bytes : Z) : bool * Ledger :=
  match charge_next (limit l) (used l) bytes with
  | Some next => (true, set_used l next)
  | None => (false, l)
  end.

Definition release (l : Ledger) (bytes : Z) : Ledger :=
  if bytes =? 0 then l else set_used l (saturating_sub (used l) bytes).

Definition register (l : Ledger) (sub_id pid : Z) (nm : str) : Ledger :=
  let old := default (MkProcRow pid 0 []) (roster_rows l !! sub_id) in
  set_rows l (<[sub_id := MkProcRow pid (row_bytes old) nm]> (roster_rows l)).

Definition forget (l : Ledger) (sub_id : Z) : Ledger :=
  set_rows l (delete sub_id (roster_rows l)).

Definition set_bytes (l : Ledger) (sub_id bytes : Z) : Ledger :=
  match roster_rows l !! sub_id with
  | Some r =>
      set_rows l (<[sub_id := MkProcRow (guest_pid r) bytes (row_name r)]> (roster_rows l))
  | None => l
  end.

(** The rows of the [BTreeMap], in the order of their keys. *)
Definition key_le (p q : Z * ProcRow) : Prop := p.1 <= q.1.
Global Instance key_le_dec : RelDecision key_le.
Proof. intros p q. unfold key_le. apply _. Defined.
Global Instance key_le_total : Total key_le.
Proof. intros p q. unfold key_le. lia. Qed.
Global Instance key_le_trans : Transitive key_le.
Proof. intros p q r. unfold key_le. lia. Qed.

Definition rows_in_order (l : Ledger) : list (Z * ProcRow) :=
  merge_sort key_le (map_to_list (roster_rows l)).

Definition roster (l : Ledger) : list ProcRow :=
  filter (fun r => guest_pid r <> 0) (map snd (rows_in_order l)).

(** [HashSet::insert]: was it new? *)
Definition first_placement (l : Ledger) (a : Ask) (out : Z + Z) : bool * Ledger :=
  let '(d, c, loc) := ask_kind a in
  let p := MkPlacement d c loc out in
  if bool_decide (p ∈ placements l) then (false, l)
  else (true, MkLedger (profile l) (used l) (roster_rows l) (p :: placements l)).

(** ** The books of a session *)
Record Charge := MkCharge {
  token : Z; root : Z; parent : Z; handle : Z; bytes_of : Z }.

Definition key_of (root handle : Z) : Z := Z.lor (Z.shiftl root 32) handle.

Record Books := MkBooks {
  sub_id : Z;
  open : gmap Z Charge;
  owed : Z;
  refusals : gmap (Door * Z * Z) Z;
}.

Definition Books_new (sub : Z) : Books := MkBooks sub ∅ 0 ∅.

Definition set_open (b : Books) (o : gmap Z Charge) (ow : Z) : Books :=
  MkBooks (sub_id b) o ow (refusals b).

Definition announce (l : Ledger) (b : Books) (pid : Z) (nm : str) : Ledger :=
  set_bytes (register l (sub_id b) pid nm) (sub_id b) (owed b).

Definition publish (l : Ledger) (b : Books) : Ledger := set_bytes l (sub_id b) (owed b).

Definition count_refusal (b : Books) (a : Ask) : option Z * Books :=
  let n := default 0 (refusals b !! ask_kind a) + 1 in
  (if (n <=? 8) || (n mod 100 =? 0) then Some n else None,
   MkBooks (sub_id b) (open b) (owed b) (<[ask_kind a := n]> (refusals b))).

(** The ledger half of [placement]: is this outcome the first of its kind? *)
Definition placement (l : Ledger) (a : Ask) (ok : bool) (status attr_out : Z) : bool * Ledger :=
  first_placement l a
    (if ok then inl (Drf.get NVOS32_ATTR_LOCATION attr_out) else inr status).

Definition reserve (l : Ledger) (bytes : Z) : bool * Ledger := charge l bytes.

Definition settle (l : Ledger) (b : Books) (ok : bool) (attr_out : Z) (c : Charge)
  : Ledger * Books :=
  if negb ok || negb (is_vidmem attr_out) then (release l (bytes_of c), b)
  else
    let k := key_of (root c) (handle c) in
    let '(l, ow) := match open b !! k with
                    | Some old => (release l (bytes_of old), saturating_sub (owed b) (bytes_of old))
                    | None => (l, owed b)
                    end in
    let b := set_open b (<[k := c]> (open b)) (saturating_add64 ow (bytes_of c)) in
    (publish l b, b).

Definition give_back (l : Ledger) (b : Books) (bytes : Z) : Ledger * Books :=
  if bytes =? 0 then (l, b)
  else
    let l := release l bytes in
    let b := set_open b (open b) (saturating_sub (owed b) bytes) in
    (publish l b, b).

Definition sum_bytes (m : gmap Z Charge) : Z := gsum bytes_of m.

(** [open.retain(|_, c| { if dies(c) { freed += c.bytes } !dies(c) })]; the
    [u64] sum does not overflow because it is part of [owed]
    ([books_ok] below). *)
Definition retain (b : Books) (dies : Charge -> bool) : Books * Z :=
  (set_open b (filter (fun kc => dies kc.2 = false) (open b)) (owed b),
   sum_bytes (filter (fun kc => dies kc.2 = true) (open b))).

Definition frees (r h : Z) (c : Charge) : bool :=
  (root c =? r) && ((handle c =? h) || (parent c =? h) || (h =? r)).

Definition free_object (l : Ledger) (b : Books) (r h : Z) : Ledger * Books :=
  let '(b, freed) := retain b (frees r h) in give_back l b freed.

Definition close_token (l : Ledger) (b : Books) (t : Z) : Ledger * Books :=
  let '(b, freed) := retain b (fun c => token c =? t) in give_back l b freed.

(** [Drop for Books]. *)
Definition drop_books (l : Ledger) (b : Books) : Ledger :=
  let l := if negb (owed b =? 0) then release l (owed b) else l in
  forget l (sub_id b).

(** ** All sessions of the virtual machine

    [pending] is what a session has reserved for the request it is executing
    ([Plan::vram_reserved]): nonzero between [reserve] and [settle]. *)
Record Session := MkSession { books : Books; pending : Z }.

Record Vm := MkVm { ledger : Ledger; sessions : gmap Z Session }.

Inductive LedgerOp :=
| OpNew (sub : Z)
| OpAnnounce (sub pid : Z) (nm : str)
| OpReserve (sub bytes : Z)
| OpSettle (sub : Z) (ok : bool) (attr_out tok rt par hd : Z)
| OpFree (sub rt hd : Z)
| OpClose (sub tok : Z)
| OpDrop (sub : Z).

Definition put_session (vm : Vm) (sub : Z) (l : Ledger) (b : Books) (p : Z) : Vm :=
  MkVm l (<[sub := MkSession b p]> (sessions vm)).

(** One operation, [None] where the backend cannot perform it: a session is
    created under a fresh number, executes one request at a time and is not
    dropped in the middle of one, and it only reserves what
    [request_bytes] returned, a positive [u64]. *)
Definition vm_step (vm : Vm) (op : LedgerOp) : option Vm :=
  match op with
  | OpNew sub =>
      match sessions vm !! sub with
      | Some _ => None
      | None => Some (put_session vm sub (ledger vm) (Books_new sub) 0)
      end
  | OpAnnounce sub pid nm =>
      s ← sessions vm !! sub;
      Some (put_session vm sub (announce (ledger vm) (books s) pid nm) (books s) (pending s))
  | OpReserve sub bytes =>
      s ← sessions vm !! sub;
      if (pending s =? 0) && (0 <? bytes) && (bytes <=? u64_max) then
        let '(ok, l) := reserve (ledger vm) bytes in
        Some (put_session vm sub l (books s) (if ok then bytes else 0))
      else None
  | OpSettle sub ok attr_out tok rt par hd =>
      s ← sessions vm !! sub;
      if pending s =? 0 then None
      else
        let '(l, b) := settle (ledger vm) (books s) ok attr_out
                         (MkCharge tok rt par hd (pending s)) in
        Some (put_session vm sub l b 0)
  | OpFree sub rt hd =>
      s ← sessions vm !! sub;
      let '(l, b) := free_object (ledger vm) (books s) rt hd in
      Some (put_session vm sub l b (pending s))
  | OpClose sub tok =>
      s ← sessions vm !! sub;
      let '(l, b) := close_token (ledger vm) (books s) tok in
      Some (put_session vm sub l b (pending s))
  | OpDrop sub =>
      s ← sessions vm !! sub;
      if pending s =? 0 then
        Some (MkVm (drop_books (ledger vm) (books s)) (delete sub (sessions vm)))
      else None
  end.

Fixpoint vm_run (vm : Vm) (ops : list LedgerOp) : option Vm :=
  match ops with
  | [] => Some vm
  | op :: ops' => vm' ← vm_step vm op; vm_run vm' ops'
  end.

Definition vm_init (p : Profile) : Vm := MkVm (with_profile p) ∅.

(** *** The invariant *)
Definition books_ok (sub : Z) (b : Books) : Prop :=
  sub_id b = sub /\ owed b = sum_bytes (open b) /\
  map_Forall (fun k c => k = key_of (root c) (handle c) /\ 0 < bytes_of c) (open b).

Definition held (s : Session) : Z := owed (books s) + pending s.

Definition session_ok (sub : Z) (s : Session) : Prop :=
  books_ok sub (books s) /\ 0 <= pending s.

(** Every row reports a live session and what that session owes. *)
Definition rows_ok (l : Ledger) (ss : gmap Z Session) : Prop :=
  forall sub r, roster_rows l !! sub = Some r ->
  exists s, ss !! sub = Some s /\ row_bytes r = owed (books s).

Definition within (l : Ledger) : Prop :=
  0 <= used l <= u64_max /\ (limit l <> 0 -> used l <= limit l).

Definition vm_ok (vm : Vm) : Prop :=
  map_Forall session_ok (sessions vm) /\
  used (ledger vm) = gsum held (sessions vm) /\
  within (ledger vm) /\ rows_ok (ledger vm) (sessions vm).

Lemma owed_nonneg sub b : books_ok sub b -> 0 <= owed b.
Proof.
  intros (_ & -> & Hall). apply gsum_nonneg. eapply map_Forall_impl; [exact Hall|].
  simpl. intros k c [_ ?]. lia.
Qed.

Lemma held_nonneg (ss : gmap Z Session) :
  map_Forall session_ok ss -> map_Forall (fun _ s => 0 <= held s) ss.
Proof.
  intros H. eapply map_Forall_impl; [exact H|]. intros k s [Hb Hp].
  pose proof (owed_nonneg k (books s) Hb). unfold held. lia.
Qed.

(** A session's share is part of the counter, so no subtraction saturates. *)
Lemma held_le_used vm sub s :
  vm_ok vm -> sessions vm !! sub = Some s ->
  session_ok sub s /\ 0 <= owed (books s) /\ held s <= used (ledger vm).
Proof.
  intros (Hss & -> & _) Hs. assert (Hok : session_ok sub s) by (by eapply Hss).
  split; [done|]. split; [by eapply owed_nonneg; apply Hok|].
  apply (gsum_lookup_le held _ sub s); [by apply held_nonneg | done].
Qed.

(** What an operation has to establish about the session it works for: the
    counter moved with the session's share, and the roster row follows. *)
Record moves (l l' : Ledger) (sub : Z) (s : Session) (b' : Books) (p' : Z) : Prop := {
  mv_books : books_ok sub b';
  mv_pending : 0 <= p';
  mv_used : used l' = used l - held s + (owed b' + p');
  mv_within : within l';
  mv_rows : forall k r, roster_rows l' !! k = Some r ->
              if decide (k = sub) then row_bytes r = owed b'
              else roster_rows l !! k = Some r;
}.

Lemma moves_ok vm sub s l' b' p' :
  vm_ok vm -> sessions vm !! sub = Some s ->
  moves (ledger vm) l' sub s b' p' -> vm_ok (put_session vm sub l' b' p').
Proof.
  intros (Hss & Hu & _ & Hr) Hs [Hb Hp Hused Hw Hrows]. split; [|split; [|split]]; cbn.
  - apply map_Forall_insert_2; [done|done].
  - rewrite (gsum_update held _ sub s) by done. rewrite Hused, Hu. done.
  - done.
  - intros k r Hk. specialize (Hrows k r Hk). destruct (decide (k = sub)) as [->|Hne].
    + exists (MkSession b' p'). by rewrite lookup_insert_eq.
    + destruct (Hr k r Hrows) as (s' & Hs' & Heq). exists s'.
      by rewrite lookup_insert_ne.
Qed.

Lemma release_exact l n : 0 <= n <= used l -> release l n = set_used l (used l - n).
Proof.
  intros Hn. unfold release, saturating_sub. destruct (n =? 0) eqn:E; bools.
  - subst. destruct l. unfold set_used. cbn. by rewrite Z.sub_0_r.
  - by rewrite Z.max_r by lia.
Qed.

Lemma within_set_used l u : 0 <= u <= used l -> within l -> within (set_used l u).
Proof.
  intros Hu [H1 H2]. split; cbn; [lia|]. intros Hl. unfold limit in *. cbn in *.
  specialize (H2 Hl). lia.
Qed.

Lemma publish_rows l b k r :
  roster_rows (publish l b) !! k = Some r ->
  if decide (k = sub_id b) then row_bytes r = owed b else roster_rows l !! k = Some r.
Proof.
  unfold publish, set_bytes. destruct (roster_rows l !! sub_id b) as [r0|] eqn:E.
  - cbn. destruct (decide (k = sub_id b)) as [->|Hne].
    + rewrite lookup_insert_eq. intros [= <-]. done.
    + by rewrite lookup_insert_ne.
  - destruct (decide (k = sub_id b)) as [->|Hne]; congruence.
Qed.

Lemma publish_used l b : used (publish l b) = used l.
Proof. unfold publish, set_bytes. by destruct (_ !! _). Qed.

Lemma publish_within l b : within l -> within (publish l b).
Proof. unfold publish, set_bytes. by destruct (_ !! _). Qed.

Section session_ops.
Context (l : Ledger) (sub : Z) (s : Session).
Context (Hok : session_ok sub s) (Howed : 0 <= owed (books s)).
Context (Hle : held s <= used l) (Hw : within l).
Context (Hrow : forall r, roster_rows l !! sub = Some r -> row_bytes r = owed (books s)).

(** The session's bytes change and the roster is told. *)
Lemma moves_publish u b' p' :
  books_ok sub b' -> 0 <= p' -> 0 <= u <= used l ->
  u = used l - held s + (owed b' + p') ->
  moves l (publish (set_used l u) b') sub s b' p'.
Proof.
  intros Hb Hp Hu Heq. pose proof Hb as (Hsub & _). split; [done|done| | |].
  - by rewrite publish_used.
  - by apply publish_within, within_set_used.
  - intros k r Hk. apply publish_rows in Hk. by rewrite Hsub in Hk.
Qed.

(** Only the counter and the pending reservation change. *)
Lemma moves_quiet u p' :
  0 <= p' -> within (set_used l u) ->
  u = used l - held s + (owed (books s) + p') ->
  moves l (set_used l u) sub s (books s) p'.
Proof.
  intros Hp Hw' Heq. split; [apply Hok | done | done | done |].
  intros k r Hk. destruct (decide (k = sub)) as [->|]; [by apply Hrow | done].
Qed.

Lemma reserve_moves n ok l' :
  pending s = 0 -> 0 < n -> reserve l n = (ok, l') ->
  moves l l' sub s (books s) (if ok then n else 0) /\ (ok = false -> l' = l).
Proof.
  intros Hp Hn. unfold reserve, charge, charge_next, held in *.
  destruct (checked_add64 (used l) n) as [nx|] eqn:E; cbn [mbind option_bind].
  - apply checked_add64_Some in E as [-> Hmax].
    destruct (negb (limit l =? 0) && (limit l <? used l + n)) eqn:E2; intros [= <- <-].
    + split; [|done]. replace l with (set_used l (used l)) at 2 by (by destruct l).
      apply moves_quiet; [lia | by destruct l | unfold held; lia].
    + split; [|done]. apply moves_quiet; [lia | | unfold held; lia].
      destruct Hw as [Hw1 Hw2]. split; cbn; [lia|]. intros Hl. unfold limit in *. cbn in *.
      bool_cases; lia.
  - intros [= <- <-]. split; [|done]. replace l with (set_used l (used l)) at 2 by (by destruct l).
    apply moves_quiet; [lia | by destruct l | unfold held; lia].
Qed.

Lemma settle_moves ok attr_out tok rt par hd l' b' :
  0 < pending s ->
  settle l (books s) ok attr_out (MkCharge tok rt par hd (pending s)) = (l', b') ->
  moves l l' sub s b' 0.
Proof.
  intros Hp. unfold settle. cbn [bytes_of root handle]. destruct Hok as [Hb _].
  unfold held in *. destruct (negb ok || negb (is_vidmem attr_out)).
  - intros [= <- <-]. rewrite release_exact by lia.
    apply moves_quiet; [lia | apply within_set_used; [lia|done] | unfold held; lia].
  - destruct Hb as (Hsub & Howe & Hall). set (k := key_of rt hd).
    set (c := MkCharge tok rt par hd (pending s)).
    assert (Hall' : map_Forall (fun k c => k = key_of (root c) (handle c) /\ 0 < bytes_of c)
                      (<[k := c]> (open (books s)))) by (apply map_Forall_insert_2; done).
    destruct Hw as [Hw1 _].
    destruct (open (books s) !! k) as [old|] eqn:Hk; intros [= <- <-].
    + pose proof (Hall k old Hk) as [_ Hold].
      assert (Hle' : bytes_of old <= owed (books s)).
      { rewrite Howe. apply (gsum_lookup_le bytes_of _ k); [|done].
        eapply map_Forall_impl; [exact Hall|]. intros ? ? [_ ?]. lia. }
      rewrite release_exact by lia. unfold saturating_sub, saturating_add64.
      rewrite Z.max_r, Z.min_r by lia.
      apply moves_publish; cbn; [|lia|lia|unfold held; lia].
      split; [done|]. split; [|done]. cbn. unfold sum_bytes.
      rewrite (gsum_update bytes_of _ k old) by done. rewrite Howe. done.
    + unfold saturating_add64. rewrite Z.min_r by lia.
      replace l with (set_used l (used l)) at 2 by (by destruct l).
      apply moves_publish; cbn; [|lia|lia|unfold held; lia].
      split; [done|]. split; [|done]. cbn. unfold sum_bytes.
      rewrite gsum_fresh by done. rewrite Howe. unfold sum_bytes. cbn. lia.
Qed.

(** [free_object] and [close_token]: the charges a predicate selects leave the
    books and the counter together. *)
Lemma retain_moves dies l' b' :
  (let '(b, freed) := retain (books s) dies in give_back l b freed) = (l', b') ->
  moves l l' sub s b' (pending s) /\
  open b' = filter (fun kc => dies kc.2 = false) (open (books s)).
Proof.
  unfold retain, give_back. destruct Hok as [(Hsub & Howe & Hall) Hp].
  unfold held in *. pose proof (gsum_split bytes_of dies (open (books s))) as Hsplit.
  fold (sum_bytes (open (books s))) in Hsplit. rewrite <- Howe in Hsplit.
  set (fr := filter (fun kc => dies kc.2 = true) (open (books s))) in *.
  set (kp := filter (fun kc => dies kc.2 = false) (open (books s))) in *.
  assert (Hkp : map_Forall (fun k c => k = key_of (root c) (handle c) /\ 0 < bytes_of c) kp).
  { intros k c [Hk _]%map_lookup_filter_Some. by apply Hall. }
  assert (H0 : 0 <= gsum bytes_of kp).
  { apply gsum_nonneg. eapply map_Forall_impl; [exact Hkp|]. intros ? ? [_ ?]. lia. }
  assert (H1 : 0 <= gsum bytes_of fr).
  { apply gsum_nonneg. intros k c [Hk _]%map_lookup_filter_Some. by apply Hall in Hk as [_ ?]; lia. }
  fold (sum_bytes fr) (sum_bytes kp) in *.
  destruct (sum_bytes fr =? 0) eqn:E; bools; intros [= <- <-].
  - cbn. split; [|done]. split; [| done | cbn; unfold held; lia | done |].
    + split; [done|]. split; [cbn; lia | done].
    + intros k r Hk. destruct (decide (k = sub)) as [->|]; [by apply Hrow | done].
  - cbn. split; [|done]. unfold saturating_sub. rewrite Z.max_r by lia.
    rewrite release_exact by lia.
    apply moves_publish; cbn; [|lia|lia|unfold held; lia].
    split; [done|]. split; [cbn; lia | done].
Qed.

Lemma announce_moves pid nm :
  moves l (announce l (books s) pid nm) sub s (books s) (pending s).
Proof.
  destruct Hok as [Hb Hp]. pose proof Hb as (Hsub & _). unfold announce. rewrite Hsub.
  split; [done|done| | |].
  - change (used (publish (register l sub pid nm) (MkBooks sub ∅ (owed (books s)) ∅)) =
            used l - held s + (owed (books s) + pending s)).
    rewrite publish_used. unfold held. cbn. lia.
  - change (within (publish (register l sub pid nm) (MkBooks sub ∅ (owed (books s)) ∅))).
    by apply publish_within.
  - intros k r. unfold set_bytes, register, set_rows. cbn. rewrite lookup_insert_eq. cbn.
    destruct (decide (k = sub)) as [->|Hne].
    + rewrite lookup_insert_eq. by intros [= <-].
    + by rewrite !lookup_insert_ne.
Qed.
End session_ops.

Lemma row_of_session vm sub s :
  vm_ok vm -> sessions vm !! sub = Some s ->
  forall r, roster_rows (ledger vm) !! sub = Some r -> row_bytes r = owed (books s).
Proof.
  intros (_ & _ & _ & Hr) Hs r Hk. destruct (Hr sub r Hk) as (s' & Hs' & ->). congruence.
Qed.

Lemma drop_ok vm sub s :
  vm_ok vm -> sessions vm !! sub = Some s -> pending s = 0 ->
  vm_ok (MkVm (drop_books (ledger vm) (books s)) (delete sub (sessions vm))).
Proof.
  intros Hvm Hs Hp. destruct (held_le_used vm sub s Hvm Hs) as ([(Hsub & _) _] & Ho & Hle).
  destruct Hvm as (Hss & Hu & Hw & Hr). unfold held in Hle.
  assert (Hd : drop_books (ledger vm) (books s) =
               forget (set_used (ledger vm) (used (ledger vm) - owed (books s))) sub).
  { unfold drop_books. rewrite Hsub. destruct (owed (books s) =? 0) eqn:E; bools; cbn [negb].
    - rewrite E, Z.sub_0_r. by destruct (ledger vm).
    - by rewrite release_exact by lia. }
  rewrite Hd. split; [|split; [|split]]; cbn.
  - by apply map_Forall_delete.
  - rewrite (gsum_remove held _ sub s Hs), <- Hu. unfold held. lia.
  - apply (within_set_used (ledger vm)); [lia|done].
  - intros k r Hk. cbn in Hk. apply lookup_delete_Some in Hk as [Hne Hk].
    destruct (Hr k r Hk) as (s' & Hs' & Heq). exists s'. by rewrite lookup_delete_ne.
Qed.

Lemma vm_step_ok vm op vm' : vm_ok vm -> vm_step vm op = Some vm' -> vm_ok vm'.
Proof.
  intros Hvm Hstep.
  assert (Hses : forall sub s, sessions vm !! sub = Some s ->
    session_ok sub s /\ 0 <= owed (books s) /\ held s <= used (ledger vm) /\
    within (ledger vm) /\
    forall r, roster_rows (ledger vm) !! sub = Some r -> row_bytes r = owed (books s)).
  { intros sub s Hs. destruct (held_le_used vm sub s Hvm Hs) as (? & ? & ?).
    split; [done|]. split; [done|]. split; [done|]. split; [apply Hvm|].
    by apply row_of_session. }
  destruct op as [sub|sub pid nm|sub n|sub ok a tk rt par hd|sub rt hd|sub tk|sub];
    cbn [vm_step] in Hstep;
    (destruct (sessions vm !! sub) as [s|] eqn:Hs; cbn [mbind option_bind] in Hstep; [|try done]);
    try (destruct (Hses sub s Hs) as (H1 & H2 & H3 & H4 & H5)); try done.
  - simplify_eq. destruct Hvm as (Hss & Hu & Hw & Hr). split; [|split; [|split]]; cbn.
    + apply map_Forall_insert_2; [|done]. repeat split; cbn; try done.
    + by rewrite gsum_fresh.
    + done.
    + intros k r Hk. destruct (Hr k r Hk) as (s' & Hs' & Heq). exists s'.
      rewrite lookup_insert_ne by congruence. done.
  - simplify_eq. eapply moves_ok; [done|done|]. by apply announce_moves.
  - destruct ((pending s =? 0) && (0 <? n) && (n <=? u64_max)) eqn:E; [|done]. bools.
    destruct (reserve (ledger vm) n) as [ok l'] eqn:Er. simplify_eq.
    eapply moves_ok; [done|done|].
    eapply proj1; eapply reserve_moves; eauto.
  - destruct (pending s =? 0) eqn:E; [done|]. bools.
    destruct (settle _ _ _ _ _) as [l' b'] eqn:Er. simplify_eq.
    eapply moves_ok; [done|done|]. eapply settle_moves; [done..| |exact Er].
    destruct H1. lia.
  - destruct (free_object _ _ _ _) as [l' b'] eqn:Er. simplify_eq.
    eapply moves_ok; [done|done|].
    eapply proj1; eapply (retain_moves (ledger vm) sub s) with (dies := frees rt hd); eauto.
  - destruct (close_token _ _ _) as [l' b'] eqn:Er. simplify_eq.
    eapply moves_ok; [done|done|].
    eapply proj1; eapply (retain_moves (ledger vm) sub s) with (dies := fun c => token c =? tk); eauto.
  - destruct (pending s =? 0) eqn:E; [|done]. bools. simplify_eq. by apply drop_ok.
Qed.

Lemma vm_run_ok vm ops vm' : vm_ok vm -> vm_run vm ops = Some vm' -> vm_ok vm'.
Proof.
  revert vm. induction ops as [|op ops IH]; intros vm Hvm; simpl; [congruence|].
  destruct (vm_step vm op) as [vm1|] eqn:E; [|done]. simpl. apply IH.
  by eapply vm_step_ok.
Qed.

Lemma vm_init_ok p : 0 <= VramPolicy.fb_length p -> vm_ok (vm_init p).
Proof.
  intros Hp. split; [apply map_Forall_empty|].
  split; [symmetry; apply gsum_empty|]. split.
  - split; cbn; [done|]. intros _. exact Hp.
  - intros sub r. cbn. by rewrite lookup_empty.
Qed.

(** C14: Bytes are conserved.  After any sequence of operations by any number
    of sessions, the shared counter equals what the live sessions owe plus
    what their requests in flight have reserved, what a session owes is the
    sum of its open charges, every reported row shows what its live session
    owes, the counter fits its 64 bits and, under a cap, never exceeds it;
    when the last session is gone the counter is back at zero. *)
Theorem ledger_conserves p ops vm :
  0 <= VramPolicy.fb_length p -> vm_run (vm_init p) ops = Some vm ->
  used (ledger vm) = gsum held (sessions vm) /\
  (forall sub s, sessions vm !! sub = Some s ->
     owed (books s) = sum_bytes (open (books s)) /\ 0 <= pending s) /\
  (forall sub r, roster_rows (ledger vm) !! sub = Some r ->
     exists s, sessions vm !! sub = Some s /\ row_bytes r = owed (books s)) /\
  0 <= used (ledger vm) <= u64_max /\
  (limit (ledger vm) <> 0 -> used (ledger vm) <= limit (ledger vm)) /\
  (sessions vm = ∅ -> used (ledger vm) = 0).
Proof.
  intros Hp Hrun. destruct (vm_run_ok _ _ _ (vm_init_ok p Hp) Hrun) as (Hss & Hu & [Hw1 Hw2] & Hr).
  split; [done|]. split; [|split; [done|split; [done|split; [done|]]]].
  - intros sub s Hs. apply Hss in Hs as [(_ & ? & _) ?]. done.
  - intros He. by rewrite Hu, He, gsum_empty.
Qed.

(** Two sessions under a cap of 100 bytes: the second is refused until the
    first frees, and a replaced handle is charged once. *)
Definition demo_ops : list LedgerOp :=
  [OpNew 1; OpNew 2; OpAnnounce 1 77 (lit "glxgears");
   OpReserve 1 60; OpSettle 1 true 0 5 10 11 12;
   OpReserve 2 50;
   OpReserve 1 30; OpSettle 1 true 0 5 10 11 12;
   OpReserve 2 70; OpSettle 2 true 0 6 20 21 22].

Lemma ledger_conserves_witness :
  exists vm, vm_run (vm_init (accounting 100)) demo_ops = Some vm /\
    used (ledger vm) = 100 /\
    used (ledger vm) = gsum held (sessions vm) /\
    (forall sub s, sessions vm !! sub = Some s ->
       owed (books s) = sum_bytes (open (books s)) /\ 0 <= pending s) /\
    (forall sub r, roster_rows (ledger vm) !! sub = Some r ->
       exists s, sessions vm !! sub = Some s /\ row_bytes r = owed (books s)) /\
    0 <= used (ledger vm) <= u64_max /\
    (limit (ledger vm) <> 0 -> used (ledger vm) <= limit (ledger vm)) /\
    (sessions vm = ∅ -> used (ledger vm) = 0).
Proof.
  eexists. split; [vm_compute; reflexivity|]. split; [reflexivity|].
  apply (ledger_conserves (accounting 100) demo_ops); [done | vm_compute; reflexivity].
Defined.

(** ** Reserving, freeing and reporting *)

(** The counter admits [n] more bytes. *)
Definition fits (l : Ledger) (n : Z) : Prop :=
  used l + n <= u64_max /\ (limit l <> 0 -> used l + n <= limit l).

Lemma charge_next_spec lim cur n :
  charge_next lim cur n = Some (cur + n) /\ cur + n <= u64_max /\ (lim <> 0 -> cur + n <= lim) \/
  charge_next lim cur n = None /\ (u64_max < cur + n \/ lim <> 0 /\ lim < cur + n).
Proof.
  unfold charge_next. destruct (checked_add64 cur n) as [x|] eqn:E; cbn [mbind option_bind].
  - apply checked_add64_Some in E as [-> E].
    destruct (negb (lim =? 0) && (lim <? cur + n)) eqn:E2.
    + right. bools. split; [done|]. by right.
    + left. split; [done|]. split; [done|]. intros Hl. bool_cases; lia.
  - right. split; [done|]. left. unfold checked_add64 in E.
    destruct (cur + n <=? u64_max) eqn:E2; [done|]. by bools.
Qed.

(** The charges [free_object] and [close_token] take out of the books. *)
Definition freed_by (op : LedgerOp) (c : Charge) : bool :=
  match op with
  | OpFree _ rt hd =>
      bool_decide (root c = rt /\ (hd = rt \/ handle c = hd \/ parent c = hd))
  | OpClose _ tok => bool_decide (token c = tok)
  | _ => false
  end.

Lemma Is_true_eqb x y : Is_true (x =? y) <-> x = y.
Proof. rewrite Is_true_true. apply Z.eqb_eq. Qed.

Lemma frees_spec rt hd c : frees rt hd c = freed_by (OpFree 0 rt hd) c.
Proof.
  unfold frees, freed_by. apply eq_bool_prop_intro. rewrite bool_decide_spec.
  rewrite !andb_True, !orb_True, !Is_true_eqb. intuition.
Qed.

Lemma closes_spec tok c : (token c =? tok) = freed_by (OpClose 0 tok) c.
Proof. unfold freed_by. case_bool_decide; [by apply Z.eqb_eq | by apply Z.eqb_neq]. Qed.

(** C27: Freeing an object or closing a descriptor releases exactly the charges
    it ends: the ones of that client with that handle or parent (or all of the
    client's when the client itself is freed), or the ones allocated through
    that token.  They leave the session's books, the counter falls by exactly
    their sum, every other charge stays, and no other session is touched. *)
Theorem free_releases_exactly p ops vm op sub s vm' :
  0 <= VramPolicy.fb_length p -> vm_run (vm_init p) ops = Some vm ->
  (exists rt hd, op = OpFree sub rt hd) \/ (exists tok, op = OpClose sub tok) ->
  sessions vm !! sub = Some s -> vm_step vm op = Some vm' ->
  exists s', sessions vm' = <[sub := s']> (sessions vm) /\ pending s' = pending s /\
    (forall k c, open (books s') !! k = Some c <->
                 open (books s) !! k = Some c /\ freed_by op c = false) /\
    used (ledger vm') = used (ledger vm)
      - sum_bytes (filter (fun kc => freed_by op kc.2 = true) (open (books s))).
Proof.
  intros Hp Hrun Hop Hs Hstep. pose proof (vm_run_ok _ _ _ (vm_init_ok p Hp) Hrun) as Hvm.
  destruct (held_le_used vm sub s Hvm Hs) as (H1 & H2 & H3).
  pose proof (row_of_session vm sub s Hvm Hs) as H5.
  assert (H4 : within (ledger vm)) by apply Hvm.
  assert (Hmv : exists l' b', vm' = put_session vm sub l' b' (pending s) /\
    moves (ledger vm) l' sub s b' (pending s) /\
    open b' = filter (fun kc => freed_by op kc.2 = false) (open (books s))).
  { destruct Hop as [(rt & hd & ->) | (tok & ->)]; cbn [vm_step] in Hstep; rewrite Hs in Hstep;
      cbn [mbind option_bind] in Hstep.
    - destruct (free_object _ _ _ _) as [l' b'] eqn:Er. simplify_eq. exists l', b'.
      split; [done|].
      destruct (retain_moves (ledger vm) sub s) with (dies := frees rt hd) (l' := l') (b' := b')
        as [Hmv ->]; eauto. split; [done|]. apply map_filter_ext. intros k c _. cbn [snd].
      by rewrite frees_spec.
    - destruct (close_token _ _ _) as [l' b'] eqn:Er. simplify_eq. exists l', b'. split; [done|].
      destruct (retain_moves (ledger vm) sub s) with (dies := fun c => token c =? tok)
        (l' := l') (b' := b') as [Hmv ->]; eauto. split; [done|].
      apply map_filter_ext. intros k c _. cbn [snd]. by rewrite closes_spec. }
  destruct Hmv as (l' & b' & -> & [Hb _ Hu _ _] & Hopen).
  exists (MkSession b' (pending s)). split; [done|]. split; [done|]. split.
  - intros k c. cbn. rewrite Hopen. rewrite map_lookup_filter_Some. done.
  - cbn. rewrite Hu. unfold held. destruct Hb as (_ & -> & _). rewrite Hopen.
    destruct H1 as [(_ & Howe & _) _]. rewrite Howe. unfold sum_bytes.
    rewrite (gsum_split bytes_of (freed_by op) (open (books s))). lia.
Qed.

Lemma free_releases_exactly_witness :
  exists vm s vm', vm_run (vm_init (accounting 100)) demo_ops = Some vm /\
    vm_step vm (OpFree 1 10 11) = Some vm' /\ used (ledger vm') = 70 /\
    exists s', sessions vm' = <[1 := s']> (sessions vm) /\ pending s' = pending s /\
    (forall k c, open (books s') !! k = Some c <->
                 open (books s) !! k = Some c /\ freed_by (OpFree 1 10 11) c = false) /\
    used (ledger vm') = used (ledger vm)
      - sum_bytes (filter (fun kc => freed_by (OpFree 1 10 11) kc.2 = true) (open (books s))).
Proof.
  eexists _, _, _. split; [vm_compute; reflexivity|]. split; [vm_compute; reflexivity|].
  split; [reflexivity|].
  eapply (free_releases_exactly (accounting 100) demo_ops).
  - done.
  - vm_compute. reflexivity.
  - left. eexists _, _. reflexivity.
  - vm_compute. reflexivity.
  - vm_compute. reflexivity.
Defined.

(** The rows of the roster by session number. *)
Lemma rows_in_order_spec l :
  StronglySorted key_le (rows_in_order l) /\ rows_in_order l ≡ₚ map_to_list (roster_rows l).
Proof.
  split.
  - apply Sorted_StronglySorted; [apply _|]. apply Sorted_merge_sort. apply _.
  - apply merge_sort_Permutation.
Qed.



(** ** The compare-and-swap loops

    Every thread runs [charge] and, if it was granted, later [release].  A
    round loads the counter, computes the next value from what it loaded and
    swaps it in with [compare_exchange_weak], which fails when the counter has
    moved and may fail for no reason; a failure hands back the current
    value. *)
Module CasLoop.

Inductive Thread :=
| ChargeLoad (n : Z)
| ChargeTry (n cur : Z)
| Granted (n : Z)
| Refused (n cur : Z)
| ReleaseLoad (n : Z)
| ReleaseTry (n cur : Z)
| Released (n : Z).

(** One step of a thread that finds the counter at [u]: the counter and the
    thread after it. *)
Inductive thread_step (lim u : Z) : Thread -> Z -> Thread -> Prop :=
| charge_load n : thread_step lim u (ChargeLoad n) u (ChargeTry n u)
| charge_refuse n cur :
    charge_next lim cur n = None ->
    thread_step lim u (ChargeTry n cur) u (Refused n cur)
| charge_swap n cur next :
    charge_next lim cur n = Some next -> u = cur ->
    thread_step lim u (ChargeTry n cur) next (Granted n)
| charge_retry n cur next :
    charge_next lim cur n = Some next ->
    thread_step lim u (ChargeTry n cur) u (ChargeTry n u)
| release_start n : thread_step lim u (Granted n) u (ReleaseLoad n)
| release_load n : thread_step lim u (ReleaseLoad n) u (ReleaseTry n u)
| release_swap n cur :
    u = cur ->
    thread_step lim u (ReleaseTry n cur) (saturating_sub cur n) (Released n)
| release_retry n cur : thread_step lim u (ReleaseTry n cur) u (ReleaseTry n u).

(** The counter, the values it has had (the present one first) and the
    threads. *)
Record Machine := MkMachine { counter : Z; past : list Z; threads : list Thread }.

Inductive machine_step (lim : Z) : Machine -> Machine -> Prop :=
| thread_moves m i t u' t' :
    threads m !! i = Some t -> thread_step lim (counter m) t u' t' ->
    machine_step lim m (MkMachine u' (u' :: past m) (<[i := t']> (threads m))).

Definition start (ns : list Z) : Machine := MkMachine 0 [0] (map ChargeLoad ns).

Definition granted (t : Thread) : Z :=
  match t with
  | Granted n | ReleaseLoad n | ReleaseTry n _ => n
  | _ => 0
  end.

Definition total_granted (ts : list Thread) : Z := foldr (fun t acc => granted t + acc) 0 ts.

Definition asked (t : Thread) : Z :=
  match t with
  | ChargeLoad n | ChargeTry n _ | Granted n | Refused n _ | ReleaseLoad n
  | ReleaseTry n _ | Released n => n
  end.

(** A refusal is justified by a value the counter had. *)
Definition justified (lim : Z) (past : list Z) (t : Thread) : Prop :=
  match t with
  | ChargeTry _ cur => cur ∈ past
  | Refused n cur => cur ∈ past /\ (u64_max < cur + n \/ lim <> 0 /\ lim < cur + n)
  | _ => True
  end.

Definition machine_ok (lim : Z) (m : Machine) : Prop :=
  counter m = total_granted (threads m) /\
  Forall (fun t => 0 < asked t) (threads m) /\
  Forall (justified lim (past m)) (threads m) /\ counter m ∈ past m /\
  Forall (fun u => 0 <= u <= u64_max /\ (lim <> 0 -> u <= lim)) (past m).

Lemma total_granted_update ts i t t' :
  ts !! i = Some t ->
  total_granted (<[i := t']> ts) = total_granted ts - granted t + granted t'.
Proof.
  revert i. induction ts as [|x ts IH]; intros [|i] Hi; simplify_eq/=; [lia|].
  rewrite (IH i Hi). lia.
Qed.

Lemma granted_nonneg t : 0 < asked t -> 0 <= granted t.
Proof. destruct t; simpl; lia. Qed.

Lemma granted_le ts i t :
  Forall (fun t => 0 < asked t) ts -> ts !! i = Some t -> granted t <= total_granted ts.
Proof.
  intros Hall. revert i. induction Hall as [|x ts Hx Hall IH]; intros [|i] Hi; simplify_eq/=.
  - assert (0 <= total_granted ts); [|unfold total_granted in *; lia].
    clear -Hall. induction Hall as [|y ts Hy _ IH]; simpl; [lia|].
    pose proof (granted_nonneg y Hy). unfold total_granted in *. cbn [foldr]. lia.
  - pose proof (IH i Hi). pose proof (granted_nonneg x Hx). unfold total_granted in *. lia.
Qed.

Lemma justified_mono lim u past t : justified lim past t -> justified lim (u :: past) t.
Proof. destruct t; simpl; try done; set_solver. Qed.

(** What one thread step does to the counter. *)
Lemma thread_step_ok lim u t u' t' :
  thread_step lim u t u' t' -> 0 < asked t -> granted t <= u -> 0 <= u <= u64_max ->
  (lim <> 0 -> u <= lim) ->
  asked t' = asked t /\ u' = u - granted t + granted t' /\
  0 <= u' <= u64_max /\ (lim <> 0 -> u' <= lim).
Proof.
  intros Hst Ha Hg Hu Hl. destruct Hst as [n|n cur|n cur nx Hn ->|n cur nx|n|n|n cur ->|n cur];
    simpl in *; try (repeat split; try done; lia).
  - destruct (charge_next_spec lim cur n) as [(Hc & H1 & H2) | [Hc _]]; [|congruence].
    rewrite Hn in Hc. injection Hc as ->. repeat split; try done; lia.
  - unfold saturating_sub. rewrite Z.max_r by lia. repeat split; lia.
Qed.

Lemma machine_step_ok lim m m' : machine_step lim m m' -> machine_ok lim m -> machine_ok lim m'.
Proof.
  intros [? i t u' t' Hi Hst] (Hc & Hask & Hjust & Hin & Hpast).
  pose proof (Forall_lookup_1 _ _ _ _ Hask Hi) as Ha.
  pose proof (granted_le _ _ _ Hask Hi) as Hg. rewrite <- Hc in Hg.
  rewrite Forall_forall in Hpast. pose proof (Hpast _ Hin) as [Hu Hl].
  destruct (thread_step_ok lim _ t u' t' Hst Ha Hg Hu Hl) as (Hask' & Hu' & Hb & Hl').
  split; [|split; [|split; [|split]]]; cbn.
  - rewrite (total_granted_update _ _ t) by done. lia.
  - apply Forall_insert; [done|]. by rewrite Hask'.
  - apply Forall_insert.
    + eapply Forall_impl; [exact Hjust|]. intros x. apply justified_mono.
    + destruct Hst as [n|n cur Hr|n cur nx Hn|n cur nx|n|n|n cur|n cur]; simpl; try done.
      * set_solver.
      * pose proof (Forall_lookup_1 _ _ _ _ Hjust Hi) as Hj. simpl in Hj.
        destruct (charge_next_spec lim cur n) as [(Hx & _) | [_ Hw]]; [congruence|].
        split; [set_solver | done].
      * set_solver.
  - set_solver.
  - constructor; [done|]. by rewrite Forall_forall.
Qed.

Lemma start_ok lim ns :
  0 <= lim -> Forall (fun n => 0 < n) ns -> machine_ok lim (start ns).
Proof.
  intros Hl Hns. split; [|split; [|split; [|split]]]; cbn.
  - induction ns as [|n ns IH]; simpl; [done|]. inversion Hns; subst. by apply IH.
  - by apply Forall_fmap.
  - apply Forall_fmap. by eapply Forall_impl; [exact Hns|].
  - set_solver.
  - constructor; [|done]. split; [unfold u64_max; lia | lia].
Qed.

(** C23: However the compare-and-swap loops of any number of threads
    interleave, and however often the weak exchange fails, the counter is
    always exactly the sum of the granted and not yet released requests; no
    value it ever takes exceeds the cap or 64 bits, not even for a moment; and
    a thread is refused only because of a value the counter really had, to
    which its request could not be added. *)
Theorem charge_never_overshoots lim ns m :
  0 <= lim -> Forall (fun n => 0 < n) ns -> rtc (machine_step lim) (start ns) m ->
  counter m = total_granted (threads m) /\
  Forall (fun u => 0 <= u <= u64_max /\ (lim <> 0 -> u <= lim)) (past m) /\
  (forall i n cur, threads m !! i = Some (Refused n cur) ->
     cur ∈ past m /\ (u64_max < cur + n \/ lim <> 0 /\ lim < cur + n)).
Proof.
  intros Hl Hns Hrun.
  assert (Hok : machine_ok lim m).
  { pose proof (start_ok lim ns Hl Hns) as H0. revert H0.
    induction Hrun as [|x y z Hxy _ IH]; intros H0; [done|]. apply IH.
    by eapply machine_step_ok. }
  destruct Hok as (Hc & _ & Hj & _ & Hpast). split; [done|]. split; [done|].
  intros i n cur Hi. by apply (Forall_lookup_1 _ _ _ _ Hj Hi).
Qed.

(** Two threads race for 60 and 50 bytes under a cap of 100: both load zero,
    the first swap wins, the second fails and is then refused. *)
Definition race_end : Machine :=
  MkMachine 60 [60; 60; 60; 0; 0; 0] [Granted 60; Refused 50 60].

Lemma race_reaches : rtc (machine_step 100) (start [60; 50]) race_end.
Proof.
  eapply rtc_l; [eapply (thread_moves 100 _ 0); [reflexivity | constructor]|]. simpl.
  eapply rtc_l; [eapply (thread_moves 100 _ 1); [reflexivity | constructor]|]. simpl.
  eapply rtc_l; [eapply (thread_moves 100 _ 0);
    [reflexivity | apply (charge_swap _ _ 60 0 60); reflexivity]|]. simpl.
  eapply rtc_l; [eapply (thread_moves 100 _ 1);
    [reflexivity | apply (charge_retry _ _ 50 0 50); reflexivity]|]. simpl.
  eapply rtc_l; [eapply (thread_moves 100 _ 1);
    [reflexivity | apply charge_refuse; reflexivity]|]. simpl.
  apply rtc_refl.
Qed.

Lemma charge_never_overshoots_witness :
  counter race_end = total_granted (threads race_end) /\
  Forall (fun u => 0 <= u <= u64_max /\ (100 <> 0 -> u <= 100)) (past race_end) /\
  (forall i n cur, threads race_end !! i = Some (Refused n cur) ->
     cur ∈ past race_end /\ (u64_max < cur + n \/ 100 <> 0 /\ 100 < cur + n)).
Proof.
  apply (charge_never_overshoots 100 [60; 50]).
  - lia.
  - repeat constructor; lia.
  - apply race_reaches.
Defined.

End CasLoop.

(** ** Refusal log throttling *)

(** The answers [count_refusal] gives to a sequence of refused requests. *)
Fixpoint refusal_log (b : Books) (asks : list Ask) : list (option Z) :=
  match asks with
  | [] => []
  | a :: asks' => let '(r, b') := count_refusal b a in r :: refusal_log b' asks'
  end.

Definition same_kind (a x : Ask) : Prop := ask_kind x = ask_kind a.
Global Instance same_kind_dec a x : Decision (same_kind a x).
Proof. unfold same_kind. apply _. Defined.

Lemma refusal_log_spec b seen asks i a :
  (forall k, default 0 (refusals b !! k) =
             Z.of_nat (length (filter (fun x => ask_kind x = k) seen))) ->
  asks !! i = Some a ->
  let n := Z.of_nat (length (filter (same_kind a) (seen ++ take (S i) asks))) in
  refusal_log b asks !! i = Some (if (n <=? 8) || (n mod 100 =? 0) then Some n else None).
Proof.
  revert b seen i. induction asks as [|x asks IH]; intros b seen i Hb Hi; [done|].
  destruct i as [|i]; simplify_eq/=.
  - rewrite (Hb (ask_kind a)). f_equal. rewrite filter_app, length_app.
    rewrite filter_cons_True by done. simpl.
    replace (Z.of_nat (length (filter (same_kind a) seen) + 1))
      with (Z.of_nat (length (filter (fun x => ask_kind x = ask_kind a) seen)) + 1).
    + done.
    + rewrite Nat2Z.inj_add. f_equal.
  - rewrite (IH _ (seen ++ [x]) i); [|clear IH|done].
    + by rewrite <- app_assoc.
    + intros k. cbn. rewrite filter_app, length_app, Nat2Z.inj_add.
      destruct (decide (ask_kind x = k)) as [<-|Hne].
      * rewrite lookup_insert_eq, filter_cons_True by done. simpl. by rewrite Hb.
      * rewrite lookup_insert_ne, filter_cons_False by done. rewrite Hb. simpl. lia.
Qed.

(** Refusals are throttled per kind of request: the i-th refusal is
    logged, with its number among the refusals of the same kind so far, when
    that number is at most eight or a multiple of a hundred; refusals of other
    kinds, however many, neither suppress nor renumber it. *)
Theorem refusals_throttled_per_kind sub asks i a :
  asks !! i = Some a ->
  let n := Z.of_nat (length (filter (same_kind a) (take (S i) asks))) in
  refusal_log (Books_new sub) asks !! i =
    Some (if (n <=? 8) || (n mod 100 =? 0) then Some n else None).
Proof.
  intros Hi. apply (refusal_log_spec (Books_new sub) []); [|done].
  intros k. cbn. by rewrite lookup_empty.
Qed.

Lemma refusals_throttled_per_kind_witness :
  let a := MkAsk Nvos64 0x40 0 0 4096 in
  let x := MkAsk Nvos32 0 0 0 64 in
  let asks := replicate 9 x ++ [a] in
  refusal_log (Books_new 1) asks !! 9%nat = Some (Some 1) /\
  refusal_log (Books_new 1) asks !! 8%nat = Some None.
Proof.
  intros a x asks. split.
  - rewrite (refusals_throttled_per_kind 1 asks 9 a) by reflexivity. reflexivity.
  - rewrite (refusals_throttled_per_kind 1 asks 8 x) by reflexivity. reflexivity.
Defined.
