(* ===== verification/Answers.v ===== *)
(** * Answers the backend rewrites

    RM answers some controls with facts about the host: the process list,
    per-process memory, the size of the whole card.  Before they reach the
    guest the backend replaces them with this virtual machine's own ledger
    (crates/vhost-user-nvrm/src/vram.rs, grid.rs), at offsets shared with the
    comparison manifest (crates/nvrm-abi/src/mediate.rs). *)
From stdpp Require Import strings.
From S2P Require Import Prelude.
From S2P Require Import Bytes.
From S2P Require Import CLayout.
From S2P Require Import SysConsts.
From S2P Require Import Sys.
From S2P Require Import Vram.

Local Open Scope string_scope.
Local Open Scope list_scope.
Local Open Scope Z_scope.

(** ** Offsets (mediate.rs) *)
Definition CMD_GPU_GET_PIDS : Z := 0x2080018d.
Definition CMD_GPU_GET_PID_INFO : Z := 0x2080018e.
Definition CMD_FB_GET_INFO_V2 : Z := 0x20801303.
Definition CMD_FB_GET_INFO : Z := 0x20801301.
Definition CMD_GPU_GET_VIRTUALIZATION_MODE : Z := 0x00800289.
Definition CMD_GPU_GET_ENCODER_CAPACITY : Z := 0x2080016c.
Definition CMD_GPU_GET_GID_INFO : Z := 0x2080014a.
Definition CMD_GPU_GET_NAME_STRING : Z := 0x20800110.

Definition VIRTMODE_OFF : Z :=
  offset_of NV0080_CTRL_GPU_GET_VIRTUALIZATION_MODE_PARAMS "virtualizationMode".
Definition VIRTMODE_GRIDBUILD_OFF : Z :=
  offset_of NV0080_CTRL_GPU_GET_VIRTUALIZATION_MODE_PARAMS "isGridBuild".
Definition VIRTMODE_LEN : Z := size_of NV0080_CTRL_GPU_GET_VIRTUALIZATION_MODE_PARAMS.
Definition VIRTUALIZATION_MODE_VGX : Z := 2.

Definition ENCCAP_OFF : Z :=
  offset_of NV2080_CTRL_GPU_GET_ENCODER_CAPACITY_PARAMS "encoderCapacity".
Definition ENCCAP_LEN : Z := size_of NV2080_CTRL_GPU_GET_ENCODER_CAPACITY_PARAMS.

Definition PIDS_COUNT_OFF : Z := offset_of NV2080_CTRL_GPU_GET_PIDS_PARAMS "pidTblCount".
Definition PIDS_TBL_OFF : Z := offset_of NV2080_CTRL_GPU_GET_PIDS_PARAMS "pidTbl".
Definition PIDS_MAX : nat := 950.
Definition PIDS_LEN : Z := size_of NV2080_CTRL_GPU_GET_PIDS_PARAMS.

Definition PIDINFO_COUNT_OFF : Z :=
  offset_of NV2080_CTRL_GPU_GET_PID_INFO_PARAMS "pidInfoListCount".
Definition PIDINFO_LIST_OFF : Z :=
  offset_of NV2080_CTRL_GPU_GET_PID_INFO_PARAMS "pidInfoList".
Definition PIDINFO_MAX : Z := 200.
Definition PIDINFO_ENTRY : Z := size_of NV2080_CTRL_GPU_PID_INFO.
Definition PIDINFO_LEN : Z := size_of NV2080_CTRL_GPU_GET_PID_INFO_PARAMS.
Definition PIDINFO_MEM_PRIVATE : Z := offset_of NV2080_CTRL_GPU_PID_INFO "data".
Definition PIDINFO_INDEX_VIDEO_MEMORY_USAGE : Z := 0.

Definition FBINFO_COUNT_OFF : Z := 0.
Definition FBINFO_LIST_OFF : Z := 4.
Definition FBINFO_ENTRY : Z := size_of NV2080_CTRL_FB_INFO.
Definition FBINFO_MAX : Z := 128.
Definition FBINFO_DATA_OFF : Z := offset_of NV2080_CTRL_FB_INFO "data".

Definition FB_INFO_INDEX_RAM_SIZE : Z := 0x07.
Definition FB_INFO_INDEX_TOTAL_RAM_SIZE : Z := 0x08.
Definition FB_INFO_INDEX_HEAP_SIZE : Z := 0x09.
Definition FB_INFO_INDEX_HEAP_FREE : Z := 0x16.
Definition FB_INFO_INDEX_USABLE_RAM_SIZE : Z := 0x20.

(** The compile-time assertions of the source. *)
Lemma pids_layout : PIDS_COUNT_OFF = 8 /\ PIDS_TBL_OFF = 12 /\ PIDS_LEN = 3812.
Proof. vm_compute. done. Qed.

Lemma pidinfo_layout :
  PIDINFO_COUNT_OFF = 0 /\ PIDINFO_LIST_OFF = 8 /\ PIDINFO_ENTRY = 72 /\
  PIDINFO_LEN = 14408 /\ PIDINFO_MEM_PRIVATE = 16.
Proof. vm_compute. done. Qed.

Lemma fbinfo_layout : FBINFO_ENTRY = 8 /\ FBINFO_DATA_OFF = 4.
Proof. vm_compute. done. Qed.

Lemma enccap_layout : ENCCAP_OFF = 4 /\ ENCCAP_LEN = 8.
Proof. vm_compute. done. Qed.

Lemma virtmode_layout : VIRTMODE_OFF = 0 /\ VIRTMODE_GRIDBUILD_OFF = 4 /\ VIRTMODE_LEN = 8.
Proof. vm_compute. done. Qed.

(** ** The rewrites *)

(** [b[o..o + 4].copy_from_slice(&v.to_le_bytes())] and the 64-bit write. *)
Definition wr32 (b : bytes) (o v : Z) : may_panic bytes := or_panic (set_u32 b o v).
Definition wr64 (b : bytes) (o v : Z) : may_panic bytes := or_panic (set_u64 b o v).

(** Consecutive [u32] entries from [o]. *)
Fixpoint write_u32s (b : bytes) (o : Z) (vs : list Z) : may_panic bytes :=
  match vs with
  | [] => Ok b
  | v :: vs' => b' ← wr32 b o v; write_u32s b' (o + 4) vs'
  end.

(** Each rewrite returns the source's [Option] and the buffer. *)
Definition rewrite_get_pids (aux : bytes) (rows : list ProcRow)
  : may_panic (option Z * bytes) :=
  if blen aux <? PIDS_LEN then Ok (None, aux)
  else
    let n := Nat.min (length rows) PIDS_MAX in
    a ← write_u32s aux PIDS_TBL_OFF (map guest_pid (take n rows));
    a ← write_u32s a (PIDS_TBL_OFF + 4 * Z.of_nat n) (replicate (PIDS_MAX - n) 0);
    a ← wr32 a PIDS_COUNT_OFF (Z.of_nat n);
    Ok (Some (Z.of_nat n), a).

(** The usage the guest is told for [pid]. *)
Definition usage_of (rows : list ProcRow) (pid index : Z) : Z :=
  if index =? PIDINFO_INDEX_VIDEO_MEMORY_USAGE then
    match list_find (fun r => guest_pid r = pid) rows with
    | Some (_, r) => row_bytes r
    | None => 0
    end
  else 0.

Fixpoint write_u64s (b : bytes) (o : Z) (vs : list Z) : may_panic bytes :=
  match vs with
  | [] => Ok b
  | v :: vs' => b' ← wr64 b o v; write_u64s b' (o + 8) vs'
  end.

Definition pid_info_entry (a : bytes) (rows : list ProcRow) (i : Z) : may_panic bytes :=
  let base := PIDINFO_LIST_OFF + PIDINFO_ENTRY * i in
  pid ← rd32 a base;
  index ← rd32 a (base + 4);
  let n := usage_of rows pid index in
  a ← wr32 a (base + 8) NV_OK;
  a ← write_u64s a (base + PIDINFO_MEM_PRIVATE) (replicate 6 0);
  wr64 a (base + PIDINFO_MEM_PRIVATE) n.

Fixpoint for_range (f : bytes -> Z -> may_panic bytes) (a : bytes) (i : Z) (n : nat)
  : may_panic bytes :=
  match n with
  | O => Ok a
  | S n' => a' ← f a i; for_range f a' (i + 1) n'
  end.

Definition rewrite_get_pid_info (aux : bytes) (rows : list ProcRow)
  : may_panic (option Z * bytes) :=
  if blen aux <? PIDINFO_LIST_OFF + PIDINFO_ENTRY then Ok (None, aux)
  else
    asked ← rd32 aux PIDINFO_COUNT_OFF;
    let fits := (blen aux - PIDINFO_LIST_OFF) / PIDINFO_ENTRY in
    let n := Z.min (Z.min asked PIDINFO_MAX) fits in
    a ← for_range (fun a i => pid_info_entry a rows i) aux 0 (Z.to_nat n);
    a ← wr32 a PIDINFO_COUNT_OFF n;
    Ok (Some n, a).

(** KiB, saturated to the 32-bit data field. *)
Definition kb (b : Z) : Z := Z.min (b / 1024) u32_max.

(** The value of a size index, [None] for an index that is left alone. *)
Definition fb_value (lim us index : Z) : option Z :=
  if (index =? FB_INFO_INDEX_RAM_SIZE) || (index =? FB_INFO_INDEX_TOTAL_RAM_SIZE)
     || (index =? FB_INFO_INDEX_HEAP_SIZE) || (index =? FB_INFO_INDEX_USABLE_RAM_SIZE)
  then Some (kb lim)
  else if index =? FB_INFO_INDEX_HEAP_FREE then Some (kb (saturating_sub lim us))
  else None.

Fixpoint cap_entries (list : bytes) (lim us i : Z) (n : nat) (touched : Z)
  : may_panic (Z * bytes) :=
  match n with
  | O => Ok (touched, list)
  | S n' =>
      let o := FBINFO_ENTRY * i in
      index ← rd32 list o;
      match fb_value lim us index with
      | None => cap_entries list lim us (i + 1) n' touched
      | Some v =>
          list' ← wr32 list (o + 4) v;
          cap_entries list' lim us (i + 1) n' (touched + 1)
      end
  end.

Definition cap_fb_entries (list : bytes) (asked lim us : Z) : may_panic (option Z * bytes) :=
  let fits := blen list / FBINFO_ENTRY in
  let n := Z.min (Z.min asked FBINFO_MAX) fits in
  r ← cap_entries list lim us 0 (Z.to_nat n) 0;
  Ok (Some r.1, r.2).

Definition rewrite_fb_info (aux : bytes) (lim us : Z) : may_panic (option Z * bytes) :=
  if (lim =? 0) || (blen aux <? FBINFO_LIST_OFF + FBINFO_ENTRY) then Ok (None, aux)
  else
    asked ← rd32 aux FBINFO_COUNT_OFF;
    let hd := take (Z.to_nat FBINFO_LIST_OFF) aux in
    r ← cap_fb_entries (drop (Z.to_nat FBINFO_LIST_OFF) aux) asked lim us;
    Ok (r.1, hd ++ r.2).

Definition rewrite_fb_info_list (list : bytes) (asked lim us : Z)
  : may_panic (option Z * bytes) :=
  if (lim =? 0) || (blen list <? FBINFO_ENTRY) then Ok (None, list)
  else cap_fb_entries list asked lim us.

Definition rewrite_vidheap_info (buf : bytes) (lim us : Z) : may_panic (bool * bytes) :=
  fn ← vidheap_function buf;
  if (lim =? 0) || negb (bool_decide (fn = Some NVOS32_FUNCTION_INFO)) then Ok (false, buf)
  else
    b ← wr64 buf V_TOTAL lim;
    b ← wr64 b V_FREE (saturating_sub lim us);
    Ok (true, b).

(** grid.rs *)
Definition rewrite_virtualization_mode (aux : bytes) : may_panic (option Z * bytes) :=
  if blen aux <? VIRTMODE_LEN then Ok (None, aux)
  else
    a ← wr32 aux VIRTMODE_OFF VIRTUALIZATION_MODE_VGX;
    a ← or_panic (set_range a VIRTMODE_GRIDBUILD_OFF [1]);
    Ok (Some VIRTUALIZATION_MODE_VGX, a).

Definition rewrite_encoder_capacity (aux : bytes) (percent : Z)
  : may_panic (option Z * bytes) :=
  if (blen aux <? ENCCAP_LEN) || (percent =? 0) || (100 <? percent) then Ok (None, aux)
  else a ← wr32 aux ENCCAP_OFF percent; Ok (Some percent, a).

(** ** Lemmas *)

(** [b'] differs from [b] only in [lo, hi). *)
Definition frame (b b' : bytes) (lo hi : Z) : Prop :=
  blen b' = blen b /\
  forall o l, o + l <= lo \/ hi <= o -> get_range b' o l = get_range b o l.

Lemma frame_refl b lo hi : frame b b lo hi.
Proof. done. Qed.

Lemma frame_sub a b lo hi lo' hi' :
  frame a b lo' hi' -> lo <= lo' -> hi' <= hi -> frame a b lo hi.
Proof. intros [Hl H] H1 H2. split; [done|]. intros o l Hd. apply H. lia. Qed.

Lemma frame_both a b c lo hi : frame a b lo hi -> frame b c lo hi -> frame a c lo hi.
Proof.
  intros [Hl1 H1] [Hl2 H2]. split; [congruence|]. intros o l Hd.
  rewrite H2 by done. by apply H1.
Qed.

Lemma frame_get_le n a b lo hi o :
  frame a b lo hi -> o + Z.of_nat n <= lo \/ hi <= o -> get_le n b o = get_le n a o.
Proof. intros [_ H] Hd. unfold get_le. by rewrite H. Qed.

Lemma set_le_frame n b o v :
  0 <= o -> o + Z.of_nat n <= blen b ->
  exists b', or_panic (E:=Empty_set) (set_le n b o v) = Ok b' /\
    frame b b' o (o + Z.of_nat n) /\ get_le n b' o = Some (v mod 256 ^ Z.of_nat n).
Proof.
  intros Ho Hl. destruct (set_le n b o v) as [b'|] eqn:E.
  - exists b'. split; [done|]. split; [|by eapply get_set_le_same].
    split; [by eapply set_le_blen|]. apply set_le_Some in E as (-> & _ & _).
    intros o' l Hd.
    apply get_put_disjoint; [done| |]; unfold blen at 1; rewrite length_le_bytes; lia.
  - exfalso. assert (Hs : set_le n b o v = Some (put_range b o (le_bytes n v)))
      by (apply set_le_Some; done). congruence.
Qed.

Lemma wr32_spec b o v :
  0 <= o -> o + 4 <= blen b -> is_u32 v ->
  exists b', wr32 b o v = Ok b' /\ frame b b' o (o + 4) /\ get_u32 b' o = Some v.
Proof.
  intros Ho Hl Hv. destruct (set_le_frame 4 b o v Ho Hl) as (b' & H1 & H2 & H3).
  exists b'. split; [done|]. split; [done|]. rewrite H3. f_equal. apply Z.mod_small.
  unfold is_u32, u32_max in Hv. change (256 ^ Z.of_nat 4) with 4294967296. lia.
Qed.

Lemma wr64_spec b o v :
  0 <= o -> o + 8 <= blen b -> is_u64 v ->
  exists b', wr64 b o v = Ok b' /\ frame b b' o (o + 8) /\ get_u64 b' o = Some v.
Proof.
  intros Ho Hl Hv. destruct (set_le_frame 8 b o v Ho Hl) as (b' & H1 & H2 & H3).
  exists b'. split; [done|]. split; [done|]. rewrite H3. f_equal. apply Z.mod_small.
  unfold is_u64, u64_max in Hv. change (256 ^ Z.of_nat 8) with 18446744073709551616. lia.
Qed.

Lemma write_u32s_spec b o vs :
  0 <= o -> o + 4 * Z.of_nat (length vs) <= blen b -> Forall is_u32 vs ->
  exists b', write_u32s b o vs = Ok b' /\
    frame b b' o (o + 4 * Z.of_nat (length vs)) /\
    forall i v, vs !! i = Some v -> get_u32 b' (o + 4 * Z.of_nat i) = Some v.
Proof.
  revert b o. induction vs as [|v vs IH]; intros b o Ho Hl Hvs.
  { exists b. split; [done|]. split; [apply frame_refl|]. done. }
  apply Forall_cons_1 in Hvs as [Hv Hvs]. cbn [length] in Hl. cbn [write_u32s].
  destruct (wr32_spec b o v) as (b1 & -> & Hf1 & Hg1); [done | lia | done |].
  cbn [mbind outcome_bind]. pose proof Hf1 as [Hlen _].
  destruct (IH b1 (o + 4)) as (b2 & -> & Hf2 & Hg2); [lia | lia | done |].
  exists b2. split; [done|]. split.
  - eapply frame_both; [apply (frame_sub _ _ _ _ _ _ Hf1) | apply (frame_sub _ _ _ _ _ _ Hf2)];
      cbn [length]; lia.
  - intros [|i] w Hw; simplify_eq/=.
    + rewrite Z.add_0_r, (frame_get_le _ _ _ _ _ _ Hf2) by lia. done.
    + replace (o + 4 * Z.of_nat (S i)) with (o + 4 + 4 * Z.of_nat i) by lia. by apply Hg2.
Qed.

Lemma write_zeros64 b o n :
  0 <= o -> o + 8 * Z.of_nat n <= blen b ->
  exists b', write_u64s b o (replicate n 0) = Ok b' /\
    frame b b' o (o + 8 * Z.of_nat n) /\
    forall i, (i < n)%nat -> get_u64 b' (o + 8 * Z.of_nat i) = Some 0.
Proof.
  revert b o. induction n as [|n IH]; intros b o Ho Hl.
  { exists b. split; [done|]. split; [apply frame_refl|]. lia. }
  cbn [write_u64s replicate].
  destruct (wr64_spec b o 0) as (b1 & -> & Hf1 & Hg1); [done | lia | done |].
  cbn [mbind outcome_bind]. pose proof Hf1 as [Hlen _].
  destruct (IH b1 (o + 8)) as (b2 & -> & Hf2 & Hg2); [lia | lia |].
  exists b2. split; [done|]. split.
  - eapply frame_both; [apply (frame_sub _ _ _ _ _ _ Hf1) | apply (frame_sub _ _ _ _ _ _ Hf2)]; lia.
  - intros [|i] Hi.
    + rewrite Z.add_0_r, (frame_get_le _ _ _ _ _ _ Hf2) by lia. done.
    + replace (o + 8 * Z.of_nat (S i)) with (o + 8 + 8 * Z.of_nat i) by lia. apply Hg2. lia.
Qed.

(** Rows as the wire carries them: 32-bit PIDs and 64-bit byte counts. *)
Definition row_ok (r : ProcRow) : Prop := is_u32 (guest_pid r) /\ is_u64 (row_bytes r).

(** The table entry at position [i]: a guest PID, then zeros. *)
Definition pid_entry (rows : list ProcRow) (i : nat) : Z :=
  match rows !! i with Some r => guest_pid r | None => 0 end.

(** The process list is the guest's own.  A buffer that is the structure
    comes back with the count and all 950 table entries determined by the
    roster alone (its PIDs, cut at the table size, then zeros), so nothing of
    the host's table survives; every other byte is unchanged.  A short buffer
    is reported and not touched.  Nothing panics. *)
Theorem get_pids_shows_roster_only aux rows :
  Forall row_ok rows ->
  exists r aux', rewrite_get_pids aux rows = Ok (r, aux') /\
  (blen aux < PIDS_LEN -> r = None /\ aux' = aux) /\
  (PIDS_LEN <= blen aux ->
     let n := Z.of_nat (Nat.min (length rows) PIDS_MAX) in
     r = Some n /\ get_u32 aux' PIDS_COUNT_OFF = Some n /\
     (forall i, (i < PIDS_MAX)%nat ->
        get_u32 aux' (PIDS_TBL_OFF + 4 * Z.of_nat i) = Some (pid_entry rows i)) /\
     frame aux aux' PIDS_COUNT_OFF PIDS_LEN).
Proof.
  intros Hrows. unfold rewrite_get_pids. destruct pids_layout as (-> & -> & ->).
  destruct (blen aux <? 3812) eqn:E; bools.
  { eexists _, _. split; [reflexivity|]. split; [done|]. lia. }
  set (n := Nat.min (length rows) PIDS_MAX).
  assert (Hn : (n <= length rows)%nat /\ (n <= 950)%nat) by (unfold n, PIDS_MAX; lia).
  destruct (write_u32s_spec aux 12 (map guest_pid (take n rows))) as (a1 & -> & Hf1 & Hg1);
    [done | rewrite length_map, length_take; lia | |].
  { apply Forall_fmap, Forall_take. eapply Forall_impl; [exact Hrows|]. by intros ? [? _]. }
  rewrite length_map, length_take, Nat.min_l in Hf1 by lia.
  cbn [mbind outcome_bind]. pose proof Hf1 as [Hl1 _].
  destruct (write_u32s_spec a1 (12 + 4 * Z.of_nat n) (replicate (PIDS_MAX - n) 0))
    as (a2 & -> & Hf2 & Hg2); [lia | rewrite length_replicate; unfold PIDS_MAX; lia | |].
  { by apply Forall_replicate. }
  rewrite length_replicate in Hf2.
  cbn [mbind outcome_bind]. pose proof Hf2 as [Hl2 _].
  destruct (wr32_spec a2 8 (Z.of_nat n)) as (a3 & -> & Hf3 & Hg3);
    [done | lia | unfold is_u32, u32_max; lia |].
  cbn [mbind outcome_bind]. eexists _, a3. split; [reflexivity|]. split; [lia|]. intros _.
  split; [done|]. split; [done|]. split.
  - intros i Hi. rewrite (frame_get_le _ _ _ _ _ _ Hf3) by lia. unfold pid_entry.
    destruct (decide (i < n)%nat) as [Hlt|Hge].
    + rewrite (frame_get_le _ _ _ _ _ _ Hf2) by lia.
      destruct (rows !! i) as [r|] eqn:Hr; [|apply lookup_ge_None in Hr; lia].
      apply Hg1. rewrite list_lookup_fmap, lookup_take_lt, Hr by done. done.
    + unfold PIDS_MAX in *. assert (Hnone : rows !! i = None) by (apply lookup_ge_None; lia).
      rewrite Hnone. replace (12 + 4 * Z.of_nat i) with (12 + 4 * Z.of_nat n + 4 * Z.of_nat (i - n))
        by lia. apply Hg2. apply lookup_replicate. split; [done|lia].
  - unfold PIDS_MAX in Hf2.
    eapply frame_both; [eapply frame_both|]; [apply (frame_sub _ _ _ _ _ _ Hf1) |
      apply (frame_sub _ _ _ _ _ _ Hf2) | apply (frame_sub _ _ _ _ _ _ Hf3)]; lia.
Qed.

Lemma get_pids_shows_roster_only_witness :
  let rows := [MkProcRow 77 30 []; MkProcRow 4242 0 []] in
  exists r aux', rewrite_get_pids (replicate 3812 255) rows = Ok (r, aux') /\
  (blen (replicate 3812 255) < PIDS_LEN -> r = None /\ aux' = replicate 3812 255) /\
  (PIDS_LEN <= blen (replicate 3812 255) ->
     let n := Z.of_nat (Nat.min (length rows) PIDS_MAX) in
     r = Some n /\ get_u32 aux' PIDS_COUNT_OFF = Some n /\
     (forall i, (i < PIDS_MAX)%nat ->
        get_u32 aux' (PIDS_TBL_OFF + 4 * Z.of_nat i) = Some (pid_entry rows i)) /\
     frame (replicate 3812 255) aux' PIDS_COUNT_OFF PIDS_LEN).
Proof.
  intros rows. apply (get_pids_shows_roster_only (replicate 3812 255) rows).
  repeat constructor; vm_compute; congruence.
Defined.

(** ** Per-process memory *)

(** Entry [i] of the answer [a'] to the query [a]: the question is unchanged,
    the usage comes from the roster and the rest of RM's union is zero. *)
Definition entry_answered (rows : list ProcRow) (a a' : bytes) (i : Z) : Prop :=
  let base := PIDINFO_LIST_OFF + PIDINFO_ENTRY * i in
  exists pid index,
    get_u32 a base = Some pid /\ get_u32 a (base + 4) = Some index /\
    get_u32 a' base = Some pid /\ get_u32 a' (base + 4) = Some index /\
    get_u32 a' (base + 8) = Some NV_OK /\
    get_u64 a' (base + PIDINFO_MEM_PRIVATE) = Some (usage_of rows pid index) /\
    forall k, 1 <= k <= 5 -> get_u64 a' (base + PIDINFO_MEM_PRIVATE + 8 * k) = Some 0.

Lemma usage_of_u64 rows pid index : Forall row_ok rows -> is_u64 (usage_of rows pid index).
Proof.
  intros Hrows. unfold usage_of. destruct (index =? _); [|done].
  destruct (list_find _ rows) as [[j r]|] eqn:E; [|done].
  apply list_find_Some in E as (Hj & _). by apply (Forall_lookup_1 _ _ _ _ Hrows Hj).
Qed.

Lemma rd32_get a o : 0 <= o -> o + 4 <= blen a -> exists v, rd32 a o = Ok v /\ get_u32 a o = Some v.
Proof.
  intros H1 H2. destruct (proj2 (get_le_is_Some 4 a o)) as [v Hv]; [lia|].
  exists v. unfold rd32. by rewrite Hv.
Qed.

Lemma pid_info_entry_spec a rows i :
  Forall row_ok rows -> 0 <= i -> 8 + 72 * (i + 1) <= blen a ->
  exists a', pid_info_entry a rows i = Ok a' /\
    frame a a' (8 + 72 * i + 8) (8 + 72 * i + 64) /\ entry_answered rows a a' i.
Proof.
  intros Hrows Hi Hlen. unfold pid_info_entry, entry_answered.
  destruct pidinfo_layout as (_ & -> & -> & _ & ->). set (base := 8 + 72 * i).
  destruct (rd32_get a base) as (pid & -> & Hp); [unfold base; lia | unfold base; lia |].
  destruct (rd32_get a (base + 4)) as (index & -> & Hx); [unfold base; lia | unfold base; lia |].
  cbn [mbind outcome_bind].
  destruct (wr32_spec a (base + 8) NV_OK) as (a1 & -> & Hf1 & Hg1);
    [unfold base; lia | unfold base; lia | done |].
  cbn [mbind outcome_bind]. pose proof Hf1 as [Hl1 _].
  destruct (write_zeros64 a1 (base + 16) 6) as (a2 & -> & Hf2 & Hg2);
    [unfold base; lia | unfold base in *; lia |].
  cbn [mbind outcome_bind]. pose proof Hf2 as [Hl2 _].
  destruct (wr64_spec a2 (base + 16) (usage_of rows pid index)) as (a3 & -> & Hf3 & Hg3);
    [unfold base; lia | unfold base in *; lia | by apply usage_of_u64 |].
  exists a3. split; [done|].
  assert (Hf : frame a a3 (base + 8) (base + 64)).
  { eapply frame_both; [eapply frame_both|]; [apply (frame_sub _ _ _ _ _ _ Hf1) |
      apply (frame_sub _ _ _ _ _ _ Hf2) | apply (frame_sub _ _ _ _ _ _ Hf3)]; lia. }
  split; [done|]. exists pid, index. repeat split; try done.
  - rewrite (frame_get_le _ _ _ _ _ _ Hf) by lia. done.
  - rewrite (frame_get_le _ _ _ _ _ _ Hf) by lia. done.
  - rewrite (frame_get_le _ _ _ _ _ _ Hf3), (frame_get_le _ _ _ _ _ _ Hf2) by lia. done.
  - intros k Hk. rewrite (frame_get_le _ _ _ _ _ _ Hf3) by lia.
    replace (8 * k) with (8 * Z.of_nat (Z.to_nat k)) by lia. apply Hg2. lia.
Qed.

(** Answers outside the bytes a later write touches stay answered. *)
Lemma entry_answered_frame rows a b a' b' i lo hi lo' hi' :
  frame a b lo hi -> frame a' b' lo' hi' ->
  (hi <= 8 + 72 * i \/ 8 + 72 * i + 8 <= lo) ->
  (hi' <= 8 + 72 * i \/ 8 + 72 * (i + 1) <= lo') ->
  entry_answered rows b a' i -> entry_answered rows a b' i.
Proof.
  unfold entry_answered. destruct pidinfo_layout as (_ & -> & -> & _ & ->).
  intros Hf Hf' Hd Hd' (pid & ix & H1 & H2 & H3 & H4 & H5 & H6 & H7).
  rewrite (frame_get_le _ _ _ _ _ _ Hf) in H1 by lia.
  rewrite (frame_get_le _ _ _ _ _ _ Hf) in H2 by lia.
  exists pid, ix. repeat split; try done.
  1-4: rewrite (frame_get_le _ _ _ _ _ _ Hf') by lia; done.
  intros k Hk. rewrite (frame_get_le _ _ _ _ _ _ Hf') by lia. by apply H7.
Qed.

Lemma pid_info_loop rows m : forall a i,
  Forall row_ok rows -> 0 <= i -> 8 + 72 * (i + Z.of_nat m) <= blen a ->
  exists a', for_range (fun a i => pid_info_entry a rows i) a i m = Ok a' /\
    frame a a' (8 + 72 * i) (8 + 72 * (i + Z.of_nat m)) /\
    forall j, i <= j < i + Z.of_nat m -> entry_answered rows a a' j.
Proof.
  induction m as [|m IH]; intros a i Hrows Hi Hlen.
  { exists a. split; [done|]. split; [apply frame_refl|]. lia. }
  cbn [for_range].
  destruct (pid_info_entry_spec a rows i) as (a1 & -> & Hf1 & Hans); [done | lia | lia |].
  cbn [mbind outcome_bind]. pose proof Hf1 as [Hl1 _].
  destruct (IH a1 (i + 1)) as (a2 & -> & Hf2 & Hrest); [done | lia | lia |].
  exists a2. split; [done|]. split.
  - eapply frame_both; [apply (frame_sub _ _ _ _ _ _ Hf1) | apply (frame_sub _ _ _ _ _ _ Hf2)]; lia.
  - intros j Hj. destruct (decide (j = i)) as [->|Hne].
    + eapply (entry_answered_frame rows a a a1 a2 i 0 0); [apply frame_refl | exact Hf2 | lia | lia | done].
    + eapply (entry_answered_frame rows a a1 a2 a2 j _ _ 0 0);
        [exact Hf1 | apply frame_refl | lia | lia | apply Hrest; lia].
Qed.

(** A query for per-process memory is answered from this machine's roster
    only.  For each entry (as many as were asked, fit the buffer and the
    structure allows) the question is unchanged, the status is NV_OK, the
    usage is what the roster holds for that PID (zero for an unknown PID or
    another index) and the rest of RM's usage record is zero; the count says
    how many entries that is, nothing outside the entries and the count
    changes, and nothing panics. *)
Theorem get_pid_info_answers_from_roster aux rows asked :
  Forall row_ok rows -> wf_bytes aux -> PIDINFO_LIST_OFF + PIDINFO_ENTRY <= blen aux ->
  get_u32 aux PIDINFO_COUNT_OFF = Some asked ->
  let n := Z.min (Z.min asked PIDINFO_MAX) ((blen aux - PIDINFO_LIST_OFF) / PIDINFO_ENTRY) in
  exists aux', rewrite_get_pid_info aux rows = Ok (Some n, aux') /\
    get_u32 aux' PIDINFO_COUNT_OFF = Some n /\
    (forall i, 0 <= i < n -> entry_answered rows aux aux' i) /\
    frame aux aux' 0 (PIDINFO_LIST_OFF + PIDINFO_ENTRY * n).
Proof.
  intros Hrows Hwf Hlen Hask. unfold rewrite_get_pid_info.
  destruct pidinfo_layout as (-> & -> & -> & _ & _).
  change (PIDINFO_COUNT_OFF) with 0 in *. change PIDINFO_LIST_OFF with 8 in *.
  change PIDINFO_ENTRY with 72 in *.
  rewrite (proj2 (Z.ltb_ge _ _)) by lia. unfold rd32. rewrite Hask. cbn [mbind outcome_bind or_panic].
  pose proof (get_u32_bounds _ _ _ Hwf Hask) as Ha.
  pose proof (Z.mul_div_le (blen aux - 8) 72 ltac:(lia)).
  pose proof (Z.div_pos (blen aux - 8) 72 ltac:(lia) ltac:(lia)).
  set (n := Z.min (Z.min asked PIDINFO_MAX) ((blen aux - 8) / 72)) in *.
  assert (Hn : 0 <= n <= 200) by (unfold n, PIDINFO_MAX, is_u32 in *; lia).
  assert (Hfit : 8 + 72 * n <= blen aux) by lia.
  destruct (pid_info_loop rows (Z.to_nat n) aux 0) as (a1 & -> & Hf1 & Hans); [done | lia | lia |].
  rewrite Z2Nat.id in Hf1 by lia. cbn [mbind outcome_bind]. pose proof Hf1 as [Hl1 _].
  destruct (wr32_spec a1 0 n) as (a2 & -> & Hf2 & Hg2);
    [done | lia | unfold is_u32, u32_max; lia |].
  cbn [mbind outcome_bind]. exists a2. split; [done|]. split; [done|]. split.
  - intros i Hi. eapply (entry_answered_frame rows aux aux a1 a2 i 0 0);
      [apply frame_refl | exact Hf2 | lia | lia | apply Hans; lia].
  - eapply frame_both; [apply (frame_sub _ _ _ _ _ _ Hf1) | apply (frame_sub _ _ _ _ _ _ Hf2)]; lia.
Qed.

(** One query for PID 77 behind a count that claims two. *)
Definition demo_query : bytes :=
  le_bytes 4 2 ++ replicate 4 0 ++ le_bytes 4 77 ++ le_bytes 4 0 ++ replicate 64 255.

Lemma get_pid_info_answers_from_roster_witness :
  let rows := [MkProcRow 77 30 []] in
  exists aux', rewrite_get_pid_info demo_query rows = Ok (Some 1, aux') /\
    get_u32 aux' PIDINFO_COUNT_OFF = Some 1 /\
    (forall i, 0 <= i < 1 -> entry_answered rows demo_query aux' i) /\
    frame demo_query aux' 0 (PIDINFO_LIST_OFF + PIDINFO_ENTRY * 1).
Proof.
  intros rows. apply (get_pid_info_answers_from_roster demo_query rows 2).
  - repeat constructor; vm_compute; congruence.
  - unfold demo_query, wf_bytes. repeat apply Forall_app_2; try apply wf_le_bytes;
      apply Forall_replicate; unfold is_byte; lia.
  - vm_compute. congruence.
  - reflexivity.
Defined.

(** ** Framebuffer sizes *)

(** Entry [i]: the index is unchanged; a size index carries the ledger's
    number, any other index what RM answered. *)
Definition fb_entry_capped (lim us : Z) (a a' : bytes) (i : Z) : Prop :=
  exists index d,
    get_u32 a (8 * i) = Some index /\ get_u32 a (8 * i + 4) = Some d /\
    get_u32 a' (8 * i) = Some index /\
    get_u32 a' (8 * i + 4) = Some (default d (fb_value lim us index)).

Lemma kb_u32 b : 0 <= b -> is_u32 (kb b).
Proof.
  intros Hb. unfold is_u32, kb, u32_max. pose proof (Z.div_pos b 1024 Hb eq_refl). lia.
Qed.

Lemma fb_value_u32 lim us index v : 0 <= lim -> fb_value lim us index = Some v -> is_u32 v.
Proof.
  intros Hl. unfold fb_value. destruct (_ || _ || _ || _); [intros [= <-]; by apply kb_u32|].
  destruct (index =? _); [|done]. intros [= <-]. apply kb_u32. unfold saturating_sub. lia.
Qed.

Lemma fb_entry_frame lim us a b a' b' i lo hi lo' hi' :
  frame a b lo hi -> frame a' b' lo' hi' ->
  (hi <= 8 * i \/ 8 * (i + 1) <= lo) -> (hi' <= 8 * i \/ 8 * (i + 1) <= lo') ->
  fb_entry_capped lim us b a' i -> fb_entry_capped lim us a b' i.
Proof.
  intros Hf Hf' Hd Hd' (ix & d & H1 & H2 & H3 & H4).
  rewrite (frame_get_le _ _ _ _ _ _ Hf) in H1 by lia.
  rewrite (frame_get_le _ _ _ _ _ _ Hf) in H2 by lia.
  exists ix, d. repeat split; try done; rewrite (frame_get_le _ _ _ _ _ _ Hf') by lia; done.
Qed.

Lemma cap_entries_spec lim us m : forall a i t,
  0 <= lim -> 0 <= i -> 8 * (i + Z.of_nat m) <= blen a ->
  exists t' a', cap_entries a lim us i m t = Ok (t', a') /\
    frame a a' (8 * i) (8 * (i + Z.of_nat m)) /\
    forall j, i <= j < i + Z.of_nat m -> fb_entry_capped lim us a a' j.
Proof.
  induction m as [|m IH]; intros a i t Hl Hi Hlen.
  { exists t, a. split; [done|]. split; [apply frame_refl|]. lia. }
  cbn [cap_entries]. destruct fbinfo_layout as [-> _].
  destruct (rd32_get a (8 * i)) as (ix & -> & Hx); [lia | lia |].
  destruct (rd32_get a (8 * i + 4)) as (d & _ & Hd); [lia | lia |].
  cbn [mbind outcome_bind].
  assert (Hstep : exists t1 a1,
    (match fb_value lim us ix with
     | Some v => list' ← wr32 a (8 * i + 4) v; cap_entries list' lim us (i + 1) m (t + 1)
     | None => cap_entries a lim us (i + 1) m t
     end) = cap_entries a1 lim us (i + 1) m t1 /\
    frame a a1 (8 * i + 4) (8 * i + 8) /\ fb_entry_capped lim us a a1 i).
  { destruct (fb_value lim us ix) as [v|] eqn:Ev.
    - destruct (wr32_spec a (8 * i + 4) v) as (a1 & -> & Hf1 & Hg1);
        [lia | lia | by apply (fb_value_u32 lim us ix) |].
      exists (t + 1), a1. split; [done|].
      split; [by replace (8 * i + 8) with (8 * i + 4 + 4) by lia|]. exists ix, d.
      repeat split; try done; [|by rewrite Ev].
      rewrite (frame_get_le _ _ _ _ _ _ Hf1) by lia. done.
    - exists t, a. split; [done|]. split; [apply frame_refl|]. exists ix, d. by rewrite Ev. }
  destruct Hstep as (t1 & a1 & -> & Hf1 & Hans). pose proof Hf1 as [Hl1 _].
  destruct (IH a1 (i + 1) t1) as (t2 & a2 & -> & Hf2 & Hrest); [done | lia | lia |].
  exists t2, a2. split; [done|]. split.
  - eapply frame_both; [apply (frame_sub _ _ _ _ _ _ Hf1) | apply (frame_sub _ _ _ _ _ _ Hf2)]; lia.
  - intros j Hj. destruct (decide (j = i)) as [->|Hne].
    + eapply (fb_entry_frame lim us a a a1 a2 i 0 0); [apply frame_refl | exact Hf2 | lia | lia | done].
    + eapply (fb_entry_frame lim us a a1 a2 a2 j _ _ 0 0);
        [exact Hf1 | apply frame_refl | lia | lia | apply Hrest; lia].
Qed.

(** Under a cap, both forms of FB_GET_INFO tell the guest one story.  For
    the first entries (as many as were asked, fit and the structure allows)
    the four capacity indices report the cap in KiB, the free index reports
    the cap less what is used, never more than the capacity, every other
    answer and every index is unchanged, and so is everything behind those
    entries.  The inline form gives exactly the answer of the list form behind
    its four-byte count. *)
Theorem fb_sizes_capped hd lst asked lim us :
  0 < lim -> 0 <= us -> FBINFO_ENTRY <= blen lst -> blen hd = FBINFO_LIST_OFF ->
  get_u32 hd 0 = Some asked -> 0 <= asked ->
  let n := Z.min (Z.min asked FBINFO_MAX) (blen lst / FBINFO_ENTRY) in
  exists t lst',
    rewrite_fb_info_list lst asked lim us = Ok (Some t, lst') /\
    rewrite_fb_info (hd ++ lst) lim us = Ok (Some t, hd ++ lst') /\
    (forall i, 0 <= i < n -> fb_entry_capped lim us lst lst' i) /\
    frame lst lst' 0 (FBINFO_ENTRY * n) /\
    kb (saturating_sub lim us) <= kb lim.
Proof.
  intros Hlim Hus Hlen Hhd Hask Ha n.
  unfold rewrite_fb_info_list, rewrite_fb_info, cap_fb_entries.
  change FBINFO_LIST_OFF with 4 in *. change FBINFO_COUNT_OFF with 0.
  destruct fbinfo_layout as [He _]. rewrite He in *.
  rewrite (proj2 (Z.eqb_neq lim 0)), blen_app, !(proj2 (Z.ltb_ge _ _)) by lia. cbn [orb].
  assert (Hrd : rd32 (hd ++ lst) 0 = Ok asked).
  { unfold rd32. rewrite (get_le_prefix 4 (hd ++ lst) 4 hd 0 asked); [done | | done].
    unfold get_range. rewrite (proj2 (in_range_spec _ _ _)) by (rewrite blen_app; lia).
    f_equal. unfold blen in Hhd. change (drop (Z.to_nat 0) (hd ++ lst)) with (hd ++ lst).
    apply take_app_length'. lia. }
  rewrite Hrd. cbn [mbind outcome_bind].
  rewrite (drop_app_length' hd lst), (take_app_length' hd lst) by (unfold blen in Hhd; lia).
  pose proof (Z.mul_div_le (blen lst) 8 ltac:(lia)).
  pose proof (Z.div_pos (blen lst) 8 ltac:(lia) ltac:(lia)).
  unfold n. rewrite He. set (m := Z.min (Z.min asked FBINFO_MAX) (blen lst / 8)).
  assert (Hm : 0 <= m /\ 8 * m <= blen lst) by (unfold m, FBINFO_MAX; lia).
  destruct (cap_entries_spec lim us (Z.to_nat m) lst 0 0) as (t & lst' & -> & Hf & Hans);
    [lia | lia | lia |]. rewrite Z2Nat.id in * by lia.
  exists t, lst'. split; [done|]. split; [done|]. split; [|split].
  - intros i Hi. apply Hans. lia.
  - by rewrite Z.mul_0_r, Z.add_0_l in Hf.
  - unfold kb, saturating_sub. pose proof (Z.div_le_mono (Z.max 0 (lim - us)) lim 1024). lia.
Qed.

Lemma fb_sizes_capped_witness :
  let hd := le_bytes 4 2 in
  let lst := le_bytes 4 8 ++ le_bytes 4 8388608 ++ le_bytes 4 0x16 ++ le_bytes 4 5000000 in
  exists t lst',
    rewrite_fb_info_list lst 2 (2 ^ 30) (2 ^ 29) = Ok (Some t, lst') /\
    rewrite_fb_info (hd ++ lst) (2 ^ 30) (2 ^ 29) = Ok (Some t, hd ++ lst') /\
    (forall i, 0 <= i < 2 -> fb_entry_capped (2 ^ 30) (2 ^ 29) lst lst' i) /\
    frame lst lst' 0 (FBINFO_ENTRY * 2) /\
    kb (saturating_sub (2 ^ 30) (2 ^ 29)) <= kb (2 ^ 30).
Proof.
  intros hd lst. apply (fb_sizes_capped hd lst 2 (2 ^ 30) (2 ^ 29)).
  - done.
  - done.
  - vm_compute. congruence.
  - reflexivity.
  - reflexivity.
  - done.
Defined.
