(* ===== verification/Naming.v ===== *)
(** * The name of the card in the guest (nvrm-abi/src/naming.rs, vram.rs)

    A guest sees the card under a name made of the platform, the transport,
    the board of the host and the size of its framebuffer; [parse_name] reads
    such a name back.  [rewrite_gpu_name] replaces the driver's answer.

    Text is a list of code points ([Text]); where a byte length matters it is
    that of its UTF-8 form, written out here with the lossy decoding the
    driver's name goes through.  A [ParseError] carries the refused text
    instead of the sentence made of it. *)
From stdpp Require Import strings.
From S2P Require Import Prelude.
From S2P Require Import Bytes.
From S2P Require Import Text.
From S2P Require Import CLayout.
From S2P Require Import SysLayout.
From S2P Require Import Vgpu.
From S2P Require Import VramPolicy.

Local Open Scope string_scope.
Local Open Scope list_scope.
Local Open Scope Z_scope.

(** ** UTF-8 *)
Definition utf8_char (c : Z) : bytes :=
  if c <? 0x80 then [c]
  else if c <? 0x800 then [0xC0 + c / 64; 0x80 + c mod 64]
  else if c <? 0x10000 then [0xE0 + c / 4096; 0x80 + c / 64 mod 64; 0x80 + c mod 64]
  else [0xF0 + c / 262144; 0x80 + c / 4096 mod 64; 0x80 + c / 64 mod 64; 0x80 + c mod 64].

Definition utf8 (s : str) : bytes := s ≫= utf8_char.

(** [str::len] *)
Definition str_len (s : str) : Z := blen (utf8 s).

Definition between (lo hi c : Z) : bool := (lo <=? c) && (c <=? hi).
Definition is_cont (c : Z) : bool := between 0x80 0xBF c.

(** The second byte a three- or four-byte sequence may have. *)
Definition second3 (x y : Z) : bool :=
  if x =? 0xE0 then between 0xA0 0xBF y
  else if x =? 0xED then between 0x80 0x9F y
  else is_cont y.
Definition second4 (x y : Z) : bool :=
  if x =? 0xF0 then between 0x90 0xBF y
  else if x =? 0xF4 then between 0x80 0x8F y
  else is_cont y.

(** [String::from_utf8_lossy]: each maximal prefix of a sequence that cannot
    be continued becomes one U+FFFD. *)
Fixpoint from_utf8_lossy (b : bytes) : str :=
  match b with
  | [] => []
  | x :: r =>
      if x <? 0x80 then x :: from_utf8_lossy r
      else if between 0xC2 0xDF x then
        match r with
        | y :: r2 => if is_cont y then (x - 0xC0) * 64 + (y - 0x80) :: from_utf8_lossy r2
                     else 0xFFFD :: from_utf8_lossy r
        | [] => [0xFFFD]
        end
      else if between 0xE0 0xEF x then
        match r with
        | y :: r2 =>
            if second3 x y then
              match r2 with
              | z :: r3 =>
                  if is_cont z
                  then (x - 0xE0) * 4096 + (y - 0x80) * 64 + (z - 0x80) :: from_utf8_lossy r3
                  else 0xFFFD :: from_utf8_lossy r2
              | [] => [0xFFFD]
              end
            else 0xFFFD :: from_utf8_lossy r
        | [] => [0xFFFD]
        end
      else if between 0xF0 0xF4 x then
        match r with
        | y :: r2 =>
            if second4 x y then
              match r2 with
              | z :: r3 =>
                  if is_cont z then
                    match r3 with
                    | w :: r4 =>
                        if is_cont w
                        then (x - 0xF0) * 262144 + (y - 0x80) * 4096 + (z - 0x80) * 64 + (w - 0x80)
                               :: from_utf8_lossy r4
                        else 0xFFFD :: from_utf8_lossy r3
                    | [] => [0xFFFD]
                    end
                  else 0xFFFD :: from_utf8_lossy r2
              | [] => [0xFFFD]
              end
            else 0xFFFD :: from_utf8_lossy r
        | [] => [0xFFFD]
        end
      else 0xFFFD :: from_utf8_lossy r
  end.

(** ** Splitting *)
Fixpoint split_once (c : Z) (s : str) : option (str * str) :=
  match s with
  | [] => None
  | x :: r => if x =? c then Some ([], r)
              else '(a, b) ← split_once c r; Some (x :: a, b)
  end.

Fixpoint rsplit_once (c : Z) (s : str) : option (str * str) :=
  match s with
  | [] => None
  | x :: r => match rsplit_once c r with
              | Some (a, b) => Some (x :: a, b)
              | None => if x =? c then Some ([], r) else None
              end
  end.

Definition ascii_lower (c : Z) : Z := if (65 <=? c) && (c <=? 90) then c + 32 else c.
Definition to_ascii_lowercase (s : str) : str := map ascii_lower s.

Definition one_of (s : str) (l : list string) : bool := existsb (fun w => str_eqb s (lit w)) l.

Definition SPACE : Z := 32.
Definition DASH : Z := 45.

Module naming.

Definition PLATFORM : str := lit "Leandro".
Definition FALLBACK : str := lit "Leandro GPU".

Inductive ParseError :=
| NotTransport (s : str) | NoBoardBefore (s : str) | VgpuType (s : str) | NotASize (s : str)
| EmptyBackend | NotFormat (s : str) | NoPlatform (s : str) | NoBoard (s : str)
| InEnv (e : ParseError).

(** ** The fields of a name *)
Inductive Transport := Vfio | Virtio.

Global Instance Transport_eq_dec : EqDecision Transport.
Proof. solve_decision. Defined.

Definition word (t : Transport) : str :=
  match t with Vfio => lit "VFIO" | Virtio => lit "VirtIO" end.

Definition transport_from_str (s : str) : outcome ParseError Transport :=
  let t := to_ascii_lowercase (trim s) in
  if one_of t ["vfio"; "vfio-user"; "caraxes"; "v2"] then Ok Vfio
  else if one_of t ["virtio"; "vhost-user"; "virtio-nvrm"; "v1"] then Ok Virtio
  else Err (NotTransport s).

Record Personality := MkPersonality { as_str : str }.

Definition personality_new (name : str) : Personality := MkPersonality (trim name).

Definition from_driver_name (real : str) : Personality :=
  let real := trim real in
  let real := default real (strip_prefix (lit "NVIDIA ") real) in
  personality_new (default real (strip_prefix (lit "GeForce ") real)).

(** Never zero. *)
Record Profile := MkNameProfile { fb_mib : Z }.

Global Instance Profile_eq_dec : EqDecision Profile.
Proof. solve_decision. Defined.

Definition from_mib (n : Z) : option Profile := if 0 <? n then Some (MkNameProfile n) else None.
Definition from_fb_bytes (n : Z) : option Profile := from_mib (Z.shiftr n 20).
Definition from_catalogue (p : vgpu.Profile) : option Profile := from_fb_bytes (vgpu.fb_length p).
Definition fb_bytes (p : Profile) : Z := wrap64 (Z.shiftl (fb_mib p) 20).

Definition label (p : Profile) : str :=
  if fb_mib p mod 1024 =? 0 then fmt_u64 (fb_mib p / 1024) ++ lit "G"
  else fmt_u64 (fb_mib p) ++ lit "M".

(** [split_at] cuts at a byte: before the last byte, which panics inside a
    longer character. *)
Definition from_label {E} (s : str) : outcome E (option Profile) :=
  match last s with
  | None => Ok None
  | Some u =>
      if negb (blen (utf8_char u) =? 1) then Panic
      else
        let n := removelast s in
        if is_empty n || negb (forallb is_ascii_digit n) then Ok None
        else
          Ok (scale ← (if u =? 71 then Some 1024 else if u =? 77 then Some 1 else None);
              v ← parse_u64 n; m ← checked_mul64 v scale; from_mib m)
  end.

Definition strip_q (s : str) : option str :=
  match last s with
  | Some c => if (c =? 81) || (c =? 113) then Some (removelast s) else None
  | None => None
  end.

Definition profile_from_str (s : str) : outcome ParseError Profile :=
  let t := trim s in
  size ← match rsplit_once DASH t with
         | Some (board, size) =>
             if negb (is_empty (trim board)) then Ok size else Err (NoBoardBefore s)
         | None => Ok t
         end;
  fail_if! match strip_q size with
           | Some n => negb (is_empty n) && forallb is_ascii_digit n
           | None => false
           end with VgpuType s;
  ok_or (vgpu.parse_mib size ≫= from_mib) (NotASize s).

Inductive Backend := OpenRm | NovaCore | Other (s : str).

Definition backend_from_str (s : str) : outcome ParseError Backend :=
  let t := trim s in
  let l := to_ascii_lowercase t in
  if is_empty l then Err EmptyBackend
  else if one_of l ["openrm"; "open-rm"; "rm"] then Ok OpenRm
  else if one_of l ["nova"; "nova-core"; "novacore"] then Ok NovaCore
  else Ok (Other t).

Inductive NameFormat := Legacy | WithTransport.

Definition NameFormat_default : NameFormat := WithTransport.

Definition format_from_str (s : str) : outcome ParseError NameFormat :=
  let t := to_ascii_lowercase (trim s) in
  if is_empty t then Ok NameFormat_default
  else if one_of t ["legacy"; "short"] then Ok Legacy
  else if one_of t ["transport"; "full"] then Ok WithTransport
  else Err (NotFormat s).

(** The value of the environment variable is an argument. *)
Definition from_env (v : option str) : outcome ParseError NameFormat :=
  map_err InEnv (match v with None => Ok NameFormat_default | Some v => format_from_str v end).

(** ** Names *)
Record VirtualGpuSpec := MkSpec {
  transport : Transport; personality : Personality; profile : option Profile; backend : Backend }.

Definition head (g : VirtualGpuSpec) (f : NameFormat) : str :=
  match f with
  | Legacy => PLATFORM ++ [SPACE] ++ as_str (personality g)
  | WithTransport =>
      PLATFORM ++ [SPACE] ++ word (transport g) ++ [SPACE] ++ as_str (personality g)
  end.

Definition guest_name (g : VirtualGpuSpec) (f : NameFormat) : str :=
  match profile g with
  | Some p => head g f ++ [DASH] ++ label p
  | None => head g f
  end.

Definition guest_name_within (g : VirtualGpuSpec) (f : NameFormat) (max : Z) : str :=
  let full := guest_name g f in
  if str_len full <? max then full
  else if str_len (head g f) <? max then head g f
  else FALLBACK.

Record ParsedName := MkParsed {
  pn_transport : option Transport; pn_personality : Personality; pn_profile : option Profile }.

Definition split_transport (rest : str) : option Transport * str :=
  match split_once SPACE rest with
  | Some (w, r) => if str_eqb w (word Vfio) then (Some Vfio, r)
                   else if str_eqb w (word Virtio) then (Some Virtio, r)
                   else (None, rest)
  | None => (None, rest)
  end.

Definition split_profile {E} (rest : str) : outcome E (str * option Profile) :=
  match rsplit_once DASH rest with
  | Some (p, size) =>
      l ← from_label size;
      Ok (match l with Some z => (p, Some z) | None => (rest, None) end)
  | None => Ok (rest, None)
  end.

Definition parse_name (name : str) : outcome ParseError ParsedName :=
  rest ← ok_or (strip_prefix PLATFORM (trim name) ≫= strip_prefix [SPACE]) (NoPlatform name);
  let '(t, rest) := split_transport rest in
  '(board, size) ← split_profile rest;
  fail_if! is_empty (trim board) with NoBoard name;
  Ok (MkParsed t (personality_new board) size).

End naming.

(** ** The driver's answer *)

(** [name_off], [name_max] of the default ABI: the code uses that layout
    whichever driver it serves. *)
Definition name_off : Z := GPU_NAME_STRING_PARAMS_OFF_gpuNameString (H:=V615).
Definition name_max : Z := size_of (GpuNameStringBuffer (RmAbi:=V615)).

Definition guest_card_name_as (real : str) (p : Profile) (f : naming.NameFormat) : str :=
  naming.guest_name_within
    (naming.MkSpec naming.Virtio (naming.from_driver_name real)
       (naming.from_fb_bytes (fb_length p)) naming.OpenRm) f name_max.

Fixpoint until_nul (b : bytes) : bytes :=
  match b with [] => [] | x :: r => if x =? 0 then [] else x :: until_nul r end.

Definition rewrite_gpu_name (f : naming.NameFormat) (aux : bytes) (p : Profile)
  : may_panic (option str * bytes) :=
  if blen aux <? name_off + name_max then Ok (None, aux)
  else
    raw ← or_panic (get_range aux name_off name_max);
    let name := guest_card_name_as (from_utf8_lossy (until_nul raw)) p f in
    let b := utf8 name in
    let n := Z.min (blen b) (name_max - 1) in
    aux ← or_panic (set_range aux name_off (take (Z.to_nat n) b));
    aux ← or_panic (set_range aux (name_off + n) (replicate (Z.to_nat (name_max - n)) 0));
    Ok (Some name, aux).

(** ** Lemmas *)
Definition scalar_value (c : Z) : Prop := 0 <= c < 0xD800 \/ 0xDFFF < c <= 0x10FFFF.

Lemma between_spec lo hi c : between lo hi c = true <-> lo <= c <= hi.
Proof. unfold between. rewrite andb_true_iff, !Z.leb_le. done. Qed.

Lemma between_false lo hi c : c < lo \/ hi < c -> between lo hi c = false.
Proof. intros Hc. apply not_true_iff_false. rewrite between_spec. lia. Qed.

Lemma utf8_char_wf c : 0 <= c <= 0x10FFFF -> wf_bytes (utf8_char c).
Proof.
  intros Hc. unfold utf8_char.
  pose proof (Z.div_mod c 64 ltac:(lia)). pose proof (Z.mod_pos_bound c 64 ltac:(lia)).
  pose proof (Z.mod_pos_bound (c / 64) 64 ltac:(lia)).
  pose proof (Z.mod_pos_bound (c / 4096) 64 ltac:(lia)).
  pose proof (Z.div_mod c 4096 ltac:(lia)). pose proof (Z.mod_pos_bound c 4096 ltac:(lia)).
  pose proof (Z.div_mod c 262144 ltac:(lia)). pose proof (Z.mod_pos_bound c 262144 ltac:(lia)).
  repeat (case_match; bools); repeat constructor; unfold is_byte; lia.
Qed.

Lemma utf8_wf s : Forall (fun c => 0 <= c <= 0x10FFFF) s -> wf_bytes (utf8 s).
Proof.
  induction 1 as [|c s Hc Hs IH]; [constructor|].
  change (utf8 (c :: s)) with (utf8_char c ++ utf8 s). by apply Forall_app_2; [apply utf8_char_wf|].
Qed.

Lemma utf8_char_len c : 1 <= blen (utf8_char c) <= 4.
Proof. unfold utf8_char, blen. repeat case_match; cbn; lia. Qed.

Lemma utf8_app s t : utf8 (s ++ t) = utf8 s ++ utf8 t.
Proof. apply bind_app. Qed.

(** The name in the answer is what the driver wrote, up to the bytes that
    are not UTF-8. *)
Lemma utf8_char_roundtrip c r :
  scalar_value c -> from_utf8_lossy (utf8_char c ++ r) = c :: from_utf8_lossy r.
Proof.
  intros Hc. unfold utf8_char, scalar_value in *.
  destruct (c <? 0x80) eqn:E1; bools.
  { cbn [app from_utf8_lossy]. by rewrite (proj2 (Z.ltb_lt c 0x80)). }
  destruct (c <? 0x800) eqn:E2; bools.
  { pose proof (Z.div_mod c 64 ltac:(lia)). pose proof (Z.mod_pos_bound c 64 ltac:(lia)).
    cbn [app from_utf8_lossy]. rewrite (proj2 (Z.ltb_ge _ _)) by lia.
    rewrite (proj2 (between_spec _ _ _)) by lia. unfold is_cont.
    rewrite (proj2 (between_spec _ _ _)) by lia. f_equal. lia. }
  pose proof (Z.div_mod c 64 ltac:(lia)). pose proof (Z.mod_pos_bound c 64 ltac:(lia)).
  pose proof (Z.div_mod (c / 64) 64 ltac:(lia)). pose proof (Z.mod_pos_bound (c / 64) 64 ltac:(lia)).
  assert (c / 64 / 64 = c / 4096) as Hq by (rewrite Z.div_div by lia; done).
  destruct (c <? 0x10000) eqn:E3; bools.
  { cbn [app from_utf8_lossy]. rewrite (proj2 (Z.ltb_ge _ _)) by lia.
    rewrite between_false by lia. rewrite (proj2 (between_spec _ _ _)) by lia.
    assert (second3 (0xE0 + c / 4096) (0x80 + c / 64 mod 64) = true) as ->.
    { unfold second3, is_cont. destruct (_ =? 0xE0) eqn:F1; bools; [apply between_spec; lia|].
      destruct (_ =? 0xED) eqn:F2; bools; apply between_spec; lia. }
    unfold is_cont. rewrite (proj2 (between_spec _ _ _)) by lia. f_equal. lia. }
  pose proof (Z.div_mod (c / 4096) 64 ltac:(lia)). pose proof (Z.mod_pos_bound (c / 4096) 64 ltac:(lia)).
  assert (c / 4096 / 64 = c / 262144) as Hq2 by (rewrite Z.div_div by lia; done).
  cbn [app from_utf8_lossy]. rewrite (proj2 (Z.ltb_ge _ _)) by lia.
  rewrite !between_false by lia. rewrite (proj2 (between_spec _ _ _)) by lia.
  assert (second4 (0xF0 + c / 262144) (0x80 + c / 4096 mod 64) = true) as ->.
  { unfold second4, is_cont. destruct (_ =? 0xF0) eqn:F1; bools; [apply between_spec; lia|].
    destruct (_ =? 0xF4) eqn:F2; bools; apply between_spec; lia. }
  unfold is_cont. rewrite !(proj2 (between_spec _ _ _)) by lia. f_equal. lia.
Qed.

Lemma utf8_roundtrip s : Forall scalar_value s -> from_utf8_lossy (utf8 s) = s.
Proof.
  induction 1 as [|c s Hc Hs IH]; [done|].
  change (utf8 (c :: s)) with (utf8_char c ++ utf8 s). by rewrite utf8_char_roundtrip, IH.
Qed.

Lemma from_utf8_lossy_range b : wf_bytes b -> Forall (fun c => 0 <= c <= 0x10FFFF) (from_utf8_lossy b).
Proof.
  assert (forall n (b : bytes), (length b <= n)%nat -> wf_bytes b ->
    Forall (fun c => 0 <= c <= 0x10FFFF) (from_utf8_lossy b)) as Hind; [|by apply (Hind (length b))].
  clear b. induction n as [|n IH]; intros b Hn Hw; [destruct b; [constructor|cbn in Hn; lia]|].
  destruct b as [|x r]; [constructor|]. apply Forall_cons in Hw as [Hx Hw]. unfold is_byte in Hx.
  cbn in Hn. cbn [from_utf8_lossy]. unfold second3, second4, is_cont.
  repeat match goal with
  | |- Forall _ (match ?r with [] => _ | _ => _ end) =>
      let H := fresh in destruct r eqn:H; subst; cbn in Hn; try apply Forall_cons in Hw as [? Hw]
  | |- Forall _ (if ?c then _ else _) => destruct c eqn:?
  end;
  repeat match goal with
  | H : between _ _ _ = true |- _ => apply between_spec in H
  | H : (if ?c then _ else _) = true |- _ => destruct c eqn:?
  end; bools; unfold is_byte in *; apply Forall_cons_2; try lia; try apply Forall_nil_2;
  apply IH; cbn; try lia; repeat (apply Forall_cons_2; [unfold is_byte; lia|]); done.
Qed.

(** *** Splitting *)
Lemma split_once_app c a b : c ∉ a -> split_once c (a ++ c :: b) = Some (a, b).
Proof.
  induction a as [|x a IH]; intros Hc; cbn; [by rewrite Z.eqb_refl|].
  apply not_elem_of_cons in Hc as [Hx Hc]. rewrite (proj2 (Z.eqb_neq x c)) by done. by rewrite IH.
Qed.

Lemma split_once_None c s : c ∉ s -> split_once c s = None.
Proof.
  induction s as [|x s IH]; intros Hc; cbn; [done|].
  apply not_elem_of_cons in Hc as [Hx Hc]. rewrite (proj2 (Z.eqb_neq x c)) by done. by rewrite IH.
Qed.

Lemma split_once_Some c s a b : split_once c s = Some (a, b) -> s = a ++ c :: b /\ c ∉ a.
Proof.
  revert a b. induction s as [|x s IH]; intros a b; cbn; [done|].
  destruct (x =? c) eqn:E; bools.
  - intros [= <- <-]. subst. split; [done|apply not_elem_of_nil].
  - destruct (split_once c s) as [[a' b']|]; [|done]. intros [= <- <-].
    destruct (IH a' b' eq_refl) as [-> Ha]. split; [done|]. apply not_elem_of_cons. auto.
Qed.

Lemma rsplit_once_None c s : c ∉ s -> rsplit_once c s = None.
Proof.
  induction s as [|x s IH]; intros Hc; cbn; [done|].
  apply not_elem_of_cons in Hc as [Hx Hc]. rewrite IH by done. by rewrite (proj2 (Z.eqb_neq x c)).
Qed.

Lemma rsplit_once_app c a b : c ∉ b -> rsplit_once c (a ++ c :: b) = Some (a, b).
Proof.
  intros Hc. induction a as [|x a IH]; cbn; [by rewrite rsplit_once_None, Z.eqb_refl|].
  by rewrite IH.
Qed.

(** Not empty, with no space at either end. *)
Definition clean (s : str) : Prop :=
  s <> [] /\ (forall c, head s = Some c -> is_whitespace c = false) /\
  (forall c, last s = Some c -> is_whitespace c = false).

Lemma clean_trim s : clean s -> trim s = s.
Proof. intros (_ & ? & ?). by apply trim_id. Qed.

Lemma clean_app a b : clean a -> clean b -> clean (a ++ b).
Proof.
  intros (Ha & Hah & Hal) (Hb & Hbh & Hbl). split_and!.
  - by intros [? ?]%app_nil.
  - destruct a; [done|]. exact Hah.
  - intros c. rewrite last_app. destruct (last b) as [d|] eqn:E; [|by apply last_None in E].
    intros [= <-]. auto.
Qed.

(** Every board name a [Personality] holds is clean or empty. *)
Lemma trim_start_suffix s : exists p, s = p ++ trim_start s.
Proof.
  induction s as [|c s [p IH]]; [by exists []|]. cbn. destruct (is_whitespace c); [|by exists []].
  exists (c :: p). by rewrite IH at 1.
Qed.

Lemma trim_start_head s c : head (trim_start s) = Some c -> is_whitespace c = false.
Proof.
  induction s as [|x s IH]; [done|]. cbn. destruct (is_whitespace x) eqn:E; [done|].
  by intros [= <-].
Qed.

Lemma trim_clean s : trim s <> [] -> clean (trim s).
Proof.
  intros Hne. split; [done|]. unfold trim, trim_end in *.
  destruct (trim_start_suffix (reverse (trim_start s))) as [p Hp].
  set (t := trim_start (reverse (trim_start s))) in *. split.
  - intros c Hc. apply (trim_start_head s).
    assert (trim_start s = reverse t ++ reverse p) as ->.
    { by rewrite <- reverse_app, <- Hp, reverse_involutive. }
    destruct (reverse t); [done|exact Hc].
  - intros c Hc. apply (trim_start_head (reverse (trim_start s))). fold t.
    destruct t as [|x t]; [done|]. rewrite reverse_cons, last_snoc in Hc. by injection Hc as ->.
Qed.

Section names.
Import naming.

(** A size is written with digits and one letter. *)
Lemma label_digits p : 0 <= fb_mib p ->
  exists d u, label p = d ++ [u] /\ d <> [] /\ Forall (fun c => is_ascii_digit c = true) d /\
    (u = 71 \/ u = 77).
Proof.
  intros Hp. unfold label. destruct (_ =? 0).
  - destruct (fmt_u64_spec (fb_mib p / 1024)) as (d & -> & ? & ? & _); [by apply Z.div_pos|].
    exists d, 71. auto.
  - destruct (fmt_u64_spec (fb_mib p)) as (d & -> & ? & ? & _); [done|]. exists d, 77. auto.
Qed.

Lemma from_label_snoc {E} d u :
  d <> [] -> Forall (fun c => is_ascii_digit c = true) d -> u = 71 \/ u = 77 ->
  from_label (E:=E) (d ++ [u]) =
  Ok (scale ← (if u =? 71 then Some 1024 else if u =? 77 then Some 1 else None);
      v ← parse_u64 d; m ← checked_mul64 v scale; from_mib m).
Proof.
  intros Hne Hd Hu. unfold from_label. rewrite last_snoc.
  assert (blen (utf8_char u) = 1) as -> by (destruct Hu; subst; done). cbn [Z.eqb Pos.eqb negb].
  assert (removelast (d ++ [u]) = d) as ->
    by (rewrite List.removelast_app by done; by rewrite app_nil_r).
  destruct d as [|x d]; [done|]. cbn [is_empty orb].
  assert (forallb is_ascii_digit (x :: d) = true) as Hall.
  { apply forallb_forall. intros c Hc%list_elem_of_In. rewrite Forall_forall in Hd. by apply Hd. }
  by rewrite Hall.
Qed.

Lemma from_label_label {E} p :
  0 < fb_mib p <= u64_max -> from_label (E:=E) (label p) = Ok (Some p).
Proof.
  intros Hp. unfold label. destruct (fb_mib p mod 1024 =? 0) eqn:Hm; bools.
  - pose proof (Z.div_mod (fb_mib p) 1024 ltac:(lia)) as Hdiv.
    assert (0 <= fb_mib p / 1024) as Hq by (apply Z.div_pos; lia).
    destruct (fmt_u64_spec (fb_mib p / 1024) Hq) as (d & Hd & Hne & Hall & Hparse).
    rewrite Hd. change (lit "G") with [71]. rewrite from_label_snoc by auto. f_equal. cbn [Z.eqb Pos.eqb mbind option_bind]. unfold parse_u64.
    rewrite parse_uint_digits, Hparse by (done || lia). cbn.
    unfold checked_mul64. rewrite (proj2 (Z.leb_le _ _)) by lia. cbn. unfold from_mib.
    rewrite (proj2 (Z.ltb_lt _ _)) by lia. destruct p as [n]. cbn in *. do 2 f_equal. lia.
  - destruct (fmt_u64_spec (fb_mib p)) as (d & Hd & Hne & Hall & Hparse); [lia|].
    rewrite Hd. change (lit "M") with [77]. rewrite from_label_snoc by auto. f_equal. cbn [Z.eqb Pos.eqb mbind option_bind]. unfold parse_u64.
    rewrite parse_uint_digits, Hparse by (done || lia). cbn.
    unfold checked_mul64. rewrite (proj2 (Z.leb_le _ _)) by lia. cbn. unfold from_mib.
    rewrite (proj2 (Z.ltb_lt _ _)) by lia. destruct p as [n]. cbn in *. do 2 f_equal. lia.
Qed.

(** A name can be read back when its board is clean text, a legacy name does
    not start like one with a transport, and a name without a size does not
    end like one with a size. *)
Record readable (g : VirtualGpuSpec) (f : NameFormat) : Prop := {
  rd_board : clean (as_str (personality g));
  rd_profile : forall p, profile g = Some p -> 0 < fb_mib p <= u64_max;
  rd_legacy : f = Legacy -> forall t r, as_str (personality g) <> word t ++ SPACE :: r;
  rd_bare : profile g = None -> forall a b,
    rsplit_once DASH (as_str (personality g)) = Some (a, b) -> from_label (E:=ParseError) b = Ok None;
}.

Definition suffix (g : VirtualGpuSpec) : str :=
  match profile g with Some p => DASH :: label p | None => [] end.

Lemma guest_name_parts g f :
  guest_name g f = PLATFORM ++ [SPACE] ++
    match f with Legacy => [] | WithTransport => word (transport g) ++ [SPACE] end ++
    as_str (personality g) ++ suffix g.
Proof.
  unfold guest_name, head, suffix. destruct (profile g), f; rewrite <- ?app_assoc, ?app_nil_r; done.
Qed.

Lemma label_no c p : 0 <= fb_mib p -> is_ascii_digit c = false -> c <> 71 -> c <> 77 -> c ∉ label p.
Proof.
  intros Hp Hd Hg Hm Hin. destruct (label_digits p Hp) as (d & u & Hl & _ & Hall & Hu).
  rewrite Hl in Hin. apply elem_of_app in Hin as [Hin|Hin].
  - rewrite Forall_forall in Hall. rewrite (Hall c Hin) in Hd. done.
  - apply list_elem_of_singleton in Hin as ->. destruct Hu; done.
Qed.

Lemma board_suffix_clean g f : readable g f -> clean (as_str (personality g) ++ suffix g).
Proof.
  intros Hr. pose proof (rd_board _ _ Hr) as (Hne & Hh & Hl). unfold suffix.
  destruct (profile g) as [p|] eqn:Hp; [|by rewrite app_nil_r].
  pose proof (rd_profile _ _ Hr p Hp).
  destruct (label_digits p ltac:(lia)) as (d & u & -> & _ & _ & Hu). split_and!.
  - by intros [? ?]%app_nil.
  - destruct (as_str (personality g)); [done|]. exact Hh.
  - intros c. change (DASH :: d ++ [u]) with ((DASH :: d) ++ [u]). rewrite app_assoc, last_snoc.
    intros [= <-]. destruct Hu; subst; done.
Qed.

Lemma clean_between a k b : clean a -> clean b -> clean (a ++ k ++ b).
Proof.
  intros (Ha & Hah & _) (Hb & _ & Hbl). split_and!.
  - by intros [? ?]%app_nil.
  - destruct a; [done|]. exact Hah.
  - intros c. rewrite !last_app. destruct (last b) as [d|] eqn:E; [|by apply last_None in E].
    intros [= <-]. auto.
Qed.

Lemma legacy_unsplit g r w :
  readable g Legacy -> split_once SPACE (as_str (personality g) ++ suffix g) = Some (w, r) ->
  w <> word Vfio /\ w <> word Virtio.
Proof.
  intros Hr [Heq _]%split_once_Some.
  assert (forall t, w <> word t) as Hw; [|split; apply Hw]. intros t ->.
  assert (SPACE ∉ suffix g) as Hs.
  { unfold suffix. destruct (profile g) as [p|] eqn:Hp; [|apply not_elem_of_nil].
    apply not_elem_of_cons. split; [done|]. pose proof (rd_profile _ _ Hr p Hp).
    apply label_no; done || lia. }
  apply app_eq_inv in Heq as [(k & Hb & Hk)|(k & _ & Hk)].
  2: { apply Hs. rewrite Hk. set_solver. }
  destruct k as [|x k]; cbn in Hk.
  - apply Hs. rewrite <- Hk. set_solver.
  - injection Hk as <- _. by apply (rd_legacy _ _ Hr eq_refl t k).
Qed.

Lemma split_profile_parts g f :
  readable g f ->
  split_profile (E:=ParseError) (as_str (personality g) ++ suffix g)
  = Ok (as_str (personality g), profile g).
Proof.
  intros Hr. unfold split_profile, suffix. destruct (profile g) as [p|] eqn:Hp.
  - pose proof (rd_profile _ _ Hr p Hp) as Hb. rewrite rsplit_once_app by (apply label_no; done || lia).
    by rewrite from_label_label.
  - rewrite app_nil_r. destruct (rsplit_once DASH _) as [[a b]|] eqn:Hs; [|done].
    by rewrite (rd_bare _ _ Hr Hp a b Hs).
Qed.

Lemma split_transport_parts g f :
  readable g f ->
  split_transport (match f with Legacy => [] | WithTransport => word (transport g) ++ [SPACE] end
    ++ as_str (personality g) ++ suffix g) =
  (match f with Legacy => None | WithTransport => Some (transport g) end,
   as_str (personality g) ++ suffix g).
Proof.
  intros Hr. unfold split_transport. destruct f.
  - cbn [app]. destruct (split_once SPACE _) as [[w r]|] eqn:Hs; [|done].
    destruct (legacy_unsplit g r w Hr Hs) as [H1 H2]. unfold str_eqb.
    by rewrite !bool_decide_false by done.
  - rewrite <- app_assoc. cbn [app]. rewrite split_once_app by (by destruct (transport g); set_solver).
    by destruct (transport g).
Qed.

(** A guest-visible name read back gives the transport it shows, the board and
    the framebuffer size it was made of, in both formats. *)
Theorem guest_name_roundtrip g f :
  readable g f ->
  parse_name (guest_name g f) =
  Ok (MkParsed (match f with Legacy => None | WithTransport => Some (transport g) end)
        (personality g) (profile g)).
Proof.
  intros Hr. pose proof (rd_board _ _ Hr) as Hc. pose proof (board_suffix_clean g f Hr) as Hbs.
  unfold parse_name. rewrite guest_name_parts. rewrite clean_trim.
  2: { rewrite (app_assoc [SPACE]). apply clean_between; [|done]. split; [done|].
       split; intros c; cbn; by intros [= <-]. }
  rewrite strip_prefix_app. cbn [mbind option_bind]. rewrite strip_prefix_app. cbn [ok_or mbind outcome_bind].
  rewrite (split_transport_parts g f Hr).
  cbv beta iota. rewrite (split_profile_parts g f Hr). cbn [mbind outcome_bind].
  unfold personality_new. rewrite clean_trim by done.
  destruct (personality g) as [[|x b]]; [by destruct Hc|]. done.
Qed.

End names.

Definition demo_spec : naming.VirtualGpuSpec :=
  naming.MkSpec naming.Virtio (naming.from_driver_name (lit "NVIDIA GeForce RTX 2070"))
    (naming.from_mib 4096) naming.OpenRm.

Lemma guest_name_roundtrip_witness :
  naming.parse_name (lit "Leandro VirtIO RTX 2070-4G") =
  Ok (naming.MkParsed (Some naming.Virtio) (naming.personality demo_spec) (naming.profile demo_spec)).
Proof.
  apply (guest_name_roundtrip demo_spec naming.WithTransport). split.
  - split; [done|]. split; intros c; cbn; by intros [= <-].
  - intros p [= <-]. cbn. unfold u64_max. lia.
  - done.
  - done.
Defined.

(** [split_at] in [from_label] counts bytes: a name whose last word ends in a
    character outside ASCII is not refused but panics. *)
Example parse_name_cuts_a_character :
  naming.parse_name (lit "Leandro GPU-" ++ [233]) = Panic.
Proof. vm_compute. done. Qed.

(** ** The name field of an answer *)
Example name_layout : name_off = 4 /\ name_max = 64 /\
  size_of (GpuNameStringBuffer (RmAbi:=V580)) = 128.
Proof. vm_compute. done. Qed.

Lemma guest_name_within_fits g f max :
  11 < max -> str_len (naming.guest_name_within g f max) < max.
Proof.
  intros Hm. unfold naming.guest_name_within.
  destruct (_ <? max) eqn:E1; bools; [done|]. destruct (str_len (naming.head g f) <? max) eqn:E2; bools;
    [done|]. by change (str_len naming.FALLBACK) with 11.
Qed.

Definition in_unicode (s : str) : Prop := Forall (fun c => 0 <= c <= 0x10FFFF) s.

Lemma trim_start_Forall P s : Forall P s -> Forall P (trim_start s).
Proof. induction 1; cbn; [done|]. case_match; [done|]. by constructor. Qed.

Lemma trim_Forall P s : Forall P s -> Forall P (trim s).
Proof. intros. unfold trim, trim_end. by apply Forall_reverse, trim_start_Forall, Forall_reverse, trim_start_Forall. Qed.

Lemma strip_prefix_Forall P p s : Forall P s -> Forall P (default s (strip_prefix p s)).
Proof.
  intros Hs. destruct (strip_prefix p s) as [r|] eqn:Hr; [|done]. cbn.
  apply strip_prefix_Some in Hr as ->. by apply Forall_app in Hs as [_ ?].
Qed.

Lemma fmt_u64_unicode n : 0 <= n -> in_unicode (fmt_u64 n).
Proof.
  intros Hn. destruct (fmt_u64_spec n Hn) as (d & -> & _ & Hall & _).
  eapply Forall_impl; [exact Hall|]. intros c Hc. unfold is_ascii_digit in Hc. bools. lia.
Qed.

Lemma lit_unicode w : in_unicode (lit w).
Proof.
  unfold in_unicode. induction w as [|a w IH]; constructor; [|done].
  pose proof (Ascii.nat_ascii_bounded a). lia.
Qed.

Lemma guest_card_name_unicode real p f :
  in_unicode real -> 0 <= fb_length p -> in_unicode (guest_card_name_as real p f).
Proof.
  intros Hr Hp. unfold guest_card_name_as, naming.guest_name_within.
  set (g := naming.MkSpec _ _ _ _).
  assert (in_unicode (naming.as_str (naming.personality g))) as Hb.
  { unfold g, naming.from_driver_name, naming.personality_new.
    cbn [naming.personality naming.as_str]. apply trim_Forall.
    apply strip_prefix_Forall, strip_prefix_Forall, trim_Forall. exact Hr. }
  assert (in_unicode (naming.head g f)) as Hh.
  { unfold naming.head, in_unicode in *. destruct f; repeat (apply Forall_app_2 || apply Forall_cons_2);
      try apply lit_unicode; try apply Forall_nil_2; try done; unfold SPACE; lia. }
  assert (in_unicode (naming.guest_name g f)) as Hg.
  { unfold naming.guest_name. destruct (naming.profile g) as [q|] eqn:Hq; [|done].
    assert (0 <= naming.fb_mib q) as Hm.
    { cbn in Hq. unfold naming.from_fb_bytes, naming.from_mib in Hq. case_match; [|done].
      injection Hq as <-. bools. cbn. lia. }
    apply Forall_app_2; [done|]. apply Forall_cons_2; [unfold DASH; lia|].
    unfold naming.label. destruct (_ =? 0); apply Forall_app_2; try apply lit_unicode;
      apply fmt_u64_unicode; [|done]. apply Z.div_pos; lia. }
  destruct (_ <? _); [done|]. destruct (_ <? _); [done|]. apply lit_unicode.
Qed.

Lemma until_nul_wf b : wf_bytes b -> wf_bytes (until_nul b).
Proof. induction 1; cbn; [constructor|]. case_match; [constructor|]. by constructor. Qed.

(** The card name the guest is told replaces exactly the 64 bytes of the
    driver's: the generated name in full, never cut, and zeros up to the end,
    so that it is terminated.  Everything else in the answer stays, and an
    answer too short for the field is left alone. *)
Theorem gpu_name_replaced f aux p :
  wf_bytes aux -> 0 <= fb_length p ->
  match rewrite_gpu_name f aux p with
  | Ok (None, aux') => blen aux < 68 /\ aux' = aux
  | Ok (Some name, aux') =>
      str_len name < 64 /\
      (exists raw, get_range aux 4 64 = Some raw /\
         name = guest_card_name_as (from_utf8_lossy (until_nul raw)) p f) /\
      blen aux' = blen aux /\ wf_bytes aux' /\
      get_range aux' 4 64 = Some (utf8 name ++ replicate (Z.to_nat (64 - str_len name)) 0) /\
      (forall o l, o + l <= 4 \/ 68 <= o -> get_range aux' o l = get_range aux o l)
  | Err _ | Panic => False
  end.
Proof.
  intros Hw Hp. destruct name_layout as (Ho & Hm & _). unfold rewrite_gpu_name. rewrite Ho, Hm.
  destruct (blen aux <? 4 + 64) eqn:Hl; bools; [split; [lia|done]|].
  destruct (proj2 (get_range_is_Some aux 4 64)) as [raw Hraw]; [lia|]. rewrite Hraw. cbn [mbind outcome_bind or_panic].
  set (name := guest_card_name_as _ p f).
  assert (str_len name < 64) as Hfit by (unfold name, guest_card_name_as; rewrite Hm; by apply guest_name_within_fits).
  assert (wf_bytes (utf8 name)) as Hwn.
  { apply utf8_wf, guest_card_name_unicode; [|done]. apply from_utf8_lossy_range, until_nul_wf.
    by eapply get_range_wf. }
  change (blen (utf8 name)) with (str_len name). rewrite (Z.min_l (str_len name)) by lia.
  set (n := str_len name) in *. assert (0 <= n) as Hn0 by apply blen_nonneg.
  assert (take (Z.to_nat n) (utf8 name) = utf8 name) as ->
    by (apply take_ge; unfold n, str_len, blen; lia).
  set (zeros := replicate (Z.to_nat (64 - n)) 0).
  assert (blen zeros = 64 - n) as Hz by (unfold blen, zeros; rewrite length_replicate; lia).
  destruct (set_range_total aux 4 (utf8 name)) as (a1 & -> & S1); [lia|change (blen (utf8 name)) with n; lia|].
  pose proof (so_len _ _ _ _ S1). cbn [mbind outcome_bind or_panic].
  destruct (set_range_total a1 (4 + n) zeros) as (a2 & -> & S2); [lia..|]. cbn [mbind outcome_bind or_panic].
  pose proof (so_len _ _ _ _ S2).
  split; [done|]. split; [by exists raw|]. split; [lia|]. split.
  { apply (so_wf _ _ _ _ S2); [|by apply Forall_replicate]. by apply (so_wf _ _ _ _ S1). }
  split.
  - fold n zeros. replace 64 with (n + blen zeros) by lia. apply get_range_app.
    + rewrite (so_frame _ _ _ _ S2) by lia. apply (so_get _ _ _ _ S1).
    + apply (so_get _ _ _ _ S2).
  - intros o l Hol. rewrite (so_frame _ _ _ _ S2) by lia.
    apply (so_frame _ _ _ _ S1). change (blen (utf8 name)) with n. lia.
Qed.

Lemma gpu_name_replaced_witness :
  let aux := put_range (replicate 68 0) 4 (utf8 (lit "NVIDIA GeForce RTX 2070")) in
  exists aux', rewrite_gpu_name naming.WithTransport aux (accounting (3 * 2 ^ 30))
    = Ok (Some (lit "Leandro VirtIO RTX 2070-3G"), aux') /\
  blen aux' = blen aux.
Proof.
  intros aux. eexists. split; [vm_compute; reflexivity|].
  refine (proj1 (proj2 (proj2 (gpu_name_replaced naming.WithTransport aux (accounting (3 * 2 ^ 30)) _ _)))).
  - by repeat (apply Forall_cons_2; [unfold is_byte; vm_compute; by split|]).
  - vm_compute. done.
Defined.
