(* ===== verification/Grid.v ===== *)
(** * The identity of the card in the guest (crates/vhost-user-nvrm/src/grid.rs)

    A guest knows the card by a UUID of its own, derived from the name of its
    virtual machine.  It replaces the card's UUID in every answer, binary and
    in text, and is replaced by the card's in every question, by value at
    four-byte boundaries. *)
From stdpp Require Import strings.
From S2P Require Import Prelude.
From S2P Require Import Bytes.
From S2P Require Import Text.
From S2P Require Import SysConsts.
From S2P Require Import Answers.
From S2P Require Import Naming.

Local Open Scope string_scope.
Local Open Scope list_scope.
Local Open Scope Z_scope.

(** ** Which answers are rewritten: [LEA_VGPU_MEDIATE] *)
Record Switches := MkSwitches { mediate_mode : bool; mediate_uuid : bool; mediate_enc : bool }.

Fixpoint split_at (c : Z) (s : str) : list str :=
  match s with
  | [] => [[]]
  | x :: r => if x =? c then [] :: split_at c r
              else match split_at c r with h :: t => (x :: h) :: t | [] => [[x]] end
  end.

Definition eq_ignore_ascii_case (s t : str) : bool :=
  str_eqb (to_ascii_lowercase s) (to_ascii_lowercase t).

(** An unset variable reads as an empty one. *)
Definition switches (raw : option str) : Switches :=
  let raw := trim (default [] raw) in
  if is_empty raw then MkSwitches false true true
  else if eq_ignore_ascii_case raw (lit "none") then MkSwitches false false false
  else
    let has w := existsb (fun p => eq_ignore_ascii_case (trim p) (lit w)) (split_at 44 raw) in
    MkSwitches (has "all" || has "mode") (has "all" || has "uuid") (has "all" || has "enc").

(** ** The UUID of a virtual machine *)
Definition wrapping_mul64 (a b : Z) : Z := wrap64 (a * b).

Definition fnv1a (seed : bytes) : Z :=
  foldl (fun h b => wrapping_mul64 (Z.lxor h b) 0x100000001b3) 0xcbf29ce484222325 seed.

Definition to_be_bytes (v : Z) : bytes := reverse (le_bytes 8 v).

Definition vm_uuid (name : str) : bytes :=
  let a := fnv1a (utf8 name) in
  let b := fnv1a (utf8 name ++ utf8 (lit "/leandro-vgpu")) in
  let out := to_be_bytes a ++ to_be_bytes b in
  let out := <[6%nat := Z.lor (Z.land (nth 6 out 0) 0x0f) 0x40]> out in
  <[8%nat := Z.lor (Z.land (nth 8 out 0) 0x3f) 0x80]> out.

Definition hex_digit (d : Z) : Z := if d <? 10 then 48 + d else 87 + d.
Definition hex (b : bytes) : str := b ≫= fun x => [hex_digit (x / 16); hex_digit (x mod 16)].

Definition format_uuid (u : bytes) : str :=
  lit "GPU-" ++ hex (take 4 u) ++ [DASH] ++ hex (take 2 (drop 4 u)) ++ [DASH]
  ++ hex (take 2 (drop 6 u)) ++ [DASH] ++ hex (take 2 (drop 8 u)) ++ [DASH]
  ++ hex (take 6 (drop 10 u)).

(** [name_from_socket]: a path is its components; a lone dot is one only at
    the start of a relative path. *)
Definition path_components (p : str) : list str :=
  let absolute := match p with 47 :: _ => true | _ => false end in
  let parts := split_at 47 p in
  let keep (first : bool) (c : str) := negb (is_empty c) && (negb (str_eqb c [46]) || first) in
  match parts with
  | [] => []
  | c :: r => filter (fun c => keep (negb absolute) c) [c] ++ filter (fun c => keep false c) r
  end.

(** [Path::file_name] of the last component. *)
Definition file_name (cs : list str) : option str :=
  c ← last cs;
  if str_eqb c [46; 46] || str_eqb c [46] then None else Some c.

Definition file_stem (cs : list str) : option str :=
  n ← file_name cs;
  match rsplit_once 46 n with
  | Some (before, _) => if is_empty before then Some n else Some before
  | None => Some n
  end.

Definition name_from_socket (socket : str) : str :=
  let cs := path_components socket in
  default [] (file_name (removelast cs)) ++ [47] ++ default [] (file_stem cs).

(** ** The card *)
Record Card := MkCard { host : bytes; guest : bytes; card_bytes : Z; ascii : bytes * bytes }.

Definition Card_new (socket : str) (h : bytes) (total : Z) : Card :=
  let g := vm_uuid (name_from_socket socket) in
  MkCard h g total (utf8 (format_uuid h), utf8 (format_uuid g)).

(** [while o + from.len() <= buf.len()], from offset [o]; the window and its
    replacement have the same length or the copy panics. *)
Fixpoint swap_loop (fuel : nat) (from to buf : bytes) (o : Z) : may_panic bytes :=
  match fuel with
  | O => Ok buf
  | S fuel' =>
      if o + blen from <=? blen buf then
        cur ← or_panic (get_range buf o (blen from));
        buf ← (if bool_decide (cur = from)
               then if blen to =? blen from then or_panic (set_range buf o to) else Panic
               else Ok buf);
        swap_loop fuel' from to buf (o + 4)
      else Ok buf
  end.

(** A round consumes four bytes. *)
Definition swap (buf from to : bytes) : may_panic bytes :=
  swap_loop (S (Z.to_nat (blen buf / 4))) from to buf 0.

Definition to_host (c : Card) (buf : bytes) : may_panic bytes :=
  buf ← swap buf (guest c) (host c); swap buf (ascii c).2 (ascii c).1.

Definition to_guest (c : Card) (buf : bytes) : may_panic bytes :=
  buf ← swap buf (host c) (guest c); swap buf (ascii c).1 (ascii c).2.

Definition UUID_CONTROLS : list Z :=
  [CMD_GPU_GET_GID_INFO; NV0000_CTRL_CMD_GPU_GET_UUID_INFO;
   NV0000_CTRL_CMD_GPU_GET_UUID_FROM_GPU_ID].

(** The examples of the source's tests. *)
Example names_of_sockets :
  name_from_socket (lit "/mnt/vmstore/leandro/vm/desktop2/nvrm.sock") = lit "desktop2/nvrm" /\
  name_from_socket (lit "/run/ms/nvrm/0f3a.sock") = lit "nvrm/0f3a" /\
  name_from_socket (lit "nvrm.sock") = lit "/nvrm".
Proof. vm_compute. done. Qed.

(** ** Reading a replaced buffer *)
(** A pattern at an offset; at no offset the scan visits. *)
Definition occurs (pat buf : bytes) (o : Z) : Prop := get_range buf o (blen pat) = Some pat.
Definition absent (pat buf : bytes) : Prop := forall k, 0 <= k -> ~ occurs pat buf (4 * k).

(** What writing [to] at one place can make of [from] at an earlier one. *)
Definition no_shift (from to : bytes) : Prop :=
  from <> to /\ forall k, 0 < k -> 4 * k < blen from ->
    get_range from (4 * k) (blen from - 4 * k) <> get_range to 0 (blen from - 4 * k).

Definition no_common_word (pat to : bytes) : Prop :=
  forall i j, 0 <= i -> 4 * i + 4 <= blen pat -> 0 <= j -> 4 * j + 4 <= blen to ->
    get_range pat (4 * i) 4 <> get_range to (4 * j) 4.

Lemma stored_shift from to buf k k' buf' :
  blen to = blen from -> no_shift from to -> stored buf (4 * k) to buf' ->
  0 <= k' <= k -> ~ occurs from buf (4 * k') \/ k' = k -> ~ occurs from buf' (4 * k').
Proof.
  intros Hl [Hne Hs] St Hk Hno Ho. unfold occurs in *.
  destruct (decide (k' = k)) as [->|Hkk].
  { pose proof (so_get _ _ _ _ St) as Hg. rewrite Hl in Hg. congruence. }
  destruct Hno as [Hno|?]; [|done].
  destruct (decide (4 * k' + blen from <= 4 * k)) as [Hout|Hin].
  { apply Hno. rewrite <- Ho. symmetry. apply (so_frame _ _ _ _ St). lia. }
  apply (Hs (k - k')); [lia|lia|].
  rewrite (get_range_sub _ _ _ _ (4 * (k - k')) (blen from - 4 * (k - k')) Ho) by lia.
  rewrite (get_range_sub _ _ _ _ 0 (blen from - 4 * (k - k')) (so_get _ _ _ _ St)) by lia.
  f_equal. lia.
Qed.

Lemma stored_other pat to buf k buf' :
  blen pat mod 4 = 0 -> blen to mod 4 = 0 -> 0 < blen pat -> 0 < blen to -> 0 <= k ->
  no_common_word pat to -> stored buf (4 * k) to buf' -> absent pat buf -> absent pat buf'.
Proof.
  intros Hp Ht Hpos Hpt Hk Hc St Ha k' Hk' Ho. unfold occurs in Ho.
  pose proof (Z.div_mod (blen pat) 4 ltac:(lia)). pose proof (Z.div_mod (blen to) 4 ltac:(lia)).
  destruct (decide (4 * k' + blen pat <= 4 * k \/ 4 * k + blen to <= 4 * k')) as [Hout|Hin].
  { apply (Ha k' Hk'). unfold occurs. rewrite <- Ho. symmetry. by apply (so_frame _ _ _ _ St). }
  assert (exists c, k <= c /\ k' <= c /\ (c = k \/ c = k')) as (c & ? & ? & ?)
    by (exists (Z.max k k'); lia).
  apply (Hc (c - k') (c - k)); try lia.
  rewrite (get_range_sub _ _ _ _ (4 * (c - k')) 4 Ho) by lia.
  rewrite (get_range_sub _ _ _ _ (4 * (c - k)) 4 (so_get _ _ _ _ St)) by lia.
  f_equal. lia.
Qed.

(** ** The loop *)

(** The [while] loop as the language runs it. *)
Inductive while_swap (from to : bytes) : Z -> bytes -> bytes -> Prop :=
| ws_done o buf : blen buf < o + blen from -> while_swap from to o buf buf
| ws_match o buf buf1 buf' :
    get_range buf o (blen from) = Some from -> set_range buf o to = Some buf1 ->
    while_swap from to (o + 4) buf1 buf' -> while_swap from to o buf buf'
| ws_other o buf cur buf' :
    get_range buf o (blen from) = Some cur -> cur <> from ->
    while_swap from to (o + 4) buf buf' -> while_swap from to o buf buf'.

Lemma swap_loop_runs from to : blen to = blen from -> forall fuel buf o,
  0 <= o -> blen buf < o + 4 * Z.of_nat fuel ->
  exists buf', swap_loop fuel from to buf o = Ok buf' /\ while_swap from to o buf buf'.
Proof.
  intros Hl. induction fuel as [|fuel IH]; intros buf o Ho Hf.
  - exists buf. split; [done|]. constructor. pose proof (blen_nonneg from). lia.
  - cbn [swap_loop]. destruct (o + blen from <=? blen buf) eqn:Hc; bools.
    2: { exists buf. split; [done|]. constructor. lia. }
    pose proof (blen_nonneg from). destruct (proj2 (get_range_is_Some buf o (blen from))) as [cur Hcur]; [lia|].
    rewrite Hcur. cbn [mbind outcome_bind or_panic]. destruct (bool_decide (cur = from)) eqn:Hd.
    + apply bool_decide_eq_true in Hd as ->. rewrite Hl, Z.eqb_refl.
      destruct (set_range_total buf o to) as (buf1 & Hs & St); [lia..|]. rewrite Hs.
      cbn [mbind outcome_bind or_panic]. pose proof (so_len _ _ _ _ St).
      destruct (IH buf1 (o + 4)) as (buf' & Hr & Hw); [lia..|]. exists buf'. split; [done|].
      by eapply ws_match.
    + apply bool_decide_eq_false in Hd. cbn [mbind outcome_bind].
      destruct (IH buf (o + 4)) as (buf' & Hr & Hw); [lia..|]. exists buf'. split; [done|].
      by eapply ws_other.
Qed.

Lemma while_swap_kept from to o buf buf' :
  while_swap from to o buf buf' ->
  blen buf' = blen buf /\ (wf_bytes to -> wf_bytes buf -> wf_bytes buf').
Proof.
  induction 1 as [|o buf buf1 buf' _ Hs _ [IHl IHw]|]; [done| |done].
  pose proof (set_range_stored _ _ _ _ Hs) as St. split; [rewrite IHl; apply (so_len _ _ _ _ St)|].
  intros. apply IHw; [done|]. by apply (so_wf _ _ _ _ St).
Qed.

Lemma while_swap_clears from to o buf buf' :
  blen to = blen from -> no_shift from to -> while_swap from to o buf buf' ->
  forall k, o = 4 * k -> 0 <= k -> (forall k', 0 <= k' < k -> ~ occurs from buf (4 * k')) ->
  absent from buf'.
Proof.
  intros Hl Hn. induction 1 as [o buf Hend|o buf buf1 buf' Hm Hs _ IH|o buf cur buf' Hm Hc _ IH];
    intros k -> Hk Hno.
  - intros j Hj Ho. destruct (proj1 (get_range_is_Some buf (4 * j) (blen from))) as (? & ? & ?);
      [by exists from|]. apply (Hno j); [lia|done].
  - pose proof (set_range_stored _ _ _ _ Hs) as St. apply (IH (k + 1)); [lia..|].
    intros k' Hk'. apply (stored_shift from to buf k k' buf1); [done..|lia|].
    destruct (decide (k' = k)); [by right|left]. apply Hno. lia.
  - apply (IH (k + 1)); [lia..|]. intros k' Hk' Ho. destruct (decide (k' = k)) as [->|].
    + unfold occurs in Ho. congruence.
    + apply (Hno k'); [lia|done].
Qed.

Lemma while_swap_other pat from to o buf buf' :
  blen pat mod 4 = 0 -> blen to mod 4 = 0 -> 0 < blen pat -> 0 < blen to -> no_common_word pat to ->
  while_swap from to o buf buf' -> forall k, o = 4 * k -> 0 <= k -> absent pat buf -> absent pat buf'.
Proof.
  intros Hp Ht Hpos Hpt Hc. induction 1 as [o buf Hend|o buf buf1 buf' Hm Hs _ IH|o buf cur buf' Hm Hd _ IH];
    intros k -> Hk Ha; [done| |apply (IH (k + 1)); [lia..|done]].
  apply (IH (k + 1)); [lia..|]. eapply (stored_other pat to buf k); try done.
  by apply set_range_stored.
Qed.

Lemma swap_runs buf from to : blen to = blen from ->
  exists buf', swap buf from to = Ok buf' /\ while_swap from to 0 buf buf'.
Proof.
  intros Hl. apply swap_loop_runs; [done|lia|].
  pose proof (Z.div_mod (blen buf) 4 ltac:(lia)). pose proof (Z.mod_pos_bound (blen buf) 4 ltac:(lia)).
  assert (0 <= blen buf / 4) by (apply Z.div_pos; [apply blen_nonneg|lia]). lia.
Qed.

(** ** The text form *)
Definition hex_char (c : Z) : Prop := 48 <= c <= 57 \/ 97 <= c <= 102.

Lemma hex_digit_char d : 0 <= d < 16 -> hex_char (hex_digit d).
Proof. intros Hd. unfold hex_digit, hex_char. destruct (d <? 10) eqn:?; bools; lia. Qed.

Lemma hex_digit_inj d e : 0 <= d < 16 -> 0 <= e < 16 -> hex_digit d = hex_digit e -> d = e.
Proof. unfold hex_digit. intros. repeat (case_match; bools); lia. Qed.

Lemma byte_halves x : is_byte x -> 0 <= x / 16 < 16 /\ 0 <= x mod 16 < 16 /\ x = 16 * (x / 16) + x mod 16.
Proof.
  unfold is_byte. intros Hx. pose proof (Z.div_mod x 16 ltac:(lia)).
  pose proof (Z.mod_pos_bound x 16 ltac:(lia)). lia.
Qed.

Lemma hex_chars b : wf_bytes b -> Forall hex_char (hex b).
Proof.
  induction 1 as [|x b Hx Hb IH]; [constructor|]. destruct (byte_halves x Hx) as (? & ? & _).
  repeat (apply Forall_cons_2; [by apply hex_digit_char|]). exact IH.
Qed.

Lemma hex_length b : length (hex b) = (2 * length b)%nat.
Proof. induction b as [|x b IH]; [done|]. change (hex (x :: b)) with ([hex_digit (x / 16); hex_digit (x mod 16)] ++ hex b). cbn. lia. Qed.

Lemma hex_inj a b : wf_bytes a -> wf_bytes b -> hex a = hex b -> a = b.
Proof.
  intros Ha. revert b. induction Ha as [|x a Hx Ha IH]; intros b Hb Heq.
  - destruct b; [done|]. by apply (f_equal length) in Heq.
  - destruct Hb as [|y b Hy Hb]; [by apply (f_equal length) in Heq|].
    change (hex_digit (x / 16) :: hex_digit (x mod 16) :: hex a
      = hex_digit (y / 16) :: hex_digit (y mod 16) :: hex b) in Heq.
    injection Heq as H1 H2 H3. destruct (byte_halves x Hx) as (? & ? & ->), (byte_halves y Hy) as (? & ? & ->).
    apply hex_digit_inj in H1; [|lia..]. apply hex_digit_inj in H2; [|lia..].
    rewrite H1, H2. f_equal. by apply IH.
Qed.

(** What follows the [G] of a UUID in text. *)
Definition uuid_tail (u : bytes) : str :=
  [80; 85; 45] ++ hex (take 4 u) ++ [DASH] ++ hex (take 2 (drop 4 u)) ++ [DASH]
  ++ hex (take 2 (drop 6 u)) ++ [DASH] ++ hex (take 2 (drop 8 u)) ++ [DASH]
  ++ hex (take 6 (drop 10 u)).

Definition uuid_ok (u : bytes) : Prop := wf_bytes u /\ length u = 16%nat.

Lemma format_uuid_tail u : format_uuid u = 71 :: uuid_tail u.
Proof. done. Qed.

Lemma uuid_tail_chars u : uuid_ok u ->
  Forall (fun c => 0 <= c < 128 /\ c <> 71) (uuid_tail u) /\ length (uuid_tail u) = 39%nat.
Proof.
  intros [Hw Hl].
  assert (forall b, wf_bytes b -> Forall (fun c => 0 <= c < 128 /\ c <> 71) (hex b)) as Hh.
  { intros b Hb. eapply Forall_impl; [by apply hex_chars|]. unfold hex_char. lia. }
  split.
  - unfold uuid_tail, DASH. repeat apply Forall_app_2; try (repeat constructor; lia);
      apply Hh; repeat (apply Forall_take || apply Forall_drop); done.
  - unfold uuid_tail. rewrite !length_app, !hex_length, !length_take, !length_drop, Hl. done.
Qed.

Lemma utf8_ascii s : Forall (fun c => 0 <= c < 128 /\ c <> 71) s -> utf8 s = s.
Proof.
  induction 1 as [|c s Hc Hs IH]; [done|]. change (utf8 (c :: s)) with (utf8_char c ++ utf8 s).
  rewrite IH. unfold utf8_char. by rewrite (proj2 (Z.ltb_lt c 128)) by lia.
Qed.

Lemma uuid_text u : uuid_ok u ->
  utf8 (format_uuid u) = 71 :: uuid_tail u /\ blen (utf8 (format_uuid u)) = 40.
Proof.
  intros Hu. destruct (uuid_tail_chars u Hu) as [Hc Hl]. rewrite format_uuid_tail.
  change (utf8 (71 :: uuid_tail u)) with (71 :: utf8 (uuid_tail u)). rewrite utf8_ascii by done.
  split; [done|]. unfold blen. cbn [length]. rewrite Hl. done.
Qed.

Lemma take_drop_inj (u v : bytes) n :
  take n u = take n v -> drop n u = drop n v -> u = v.
Proof. intros Ht Hd. by rewrite <- (take_drop n u), <- (take_drop n v), Ht, Hd. Qed.

Lemma uuid_tail_inj u v : uuid_ok u -> uuid_ok v -> uuid_tail u = uuid_tail v -> u = v.
Proof.
  intros [Hwu Hlu] [Hwv Hlv] Heq. unfold uuid_tail in Heq.
  assert (forall n m, wf_bytes (take n (drop m u)) /\ wf_bytes (take n (drop m v))) as Hw
    by (intros; split; by apply Forall_take, Forall_drop).
  assert (forall n m, length (hex (take n (drop m u))) = length (hex (take n (drop m v)))) as Hlen
    by (intros; rewrite !hex_length, !length_take, !length_drop, Hlu, Hlv; done).
  apply app_inj_1 in Heq as [_ Heq]; [|done].
  pose proof (Hlen 4%nat 0%nat) as Hl0. rewrite !drop_0 in Hl0. apply app_inj_1 in Heq as [H1 Heq]; [|done].
  apply app_inj_1 in Heq as [_ Heq]; [|done]. apply app_inj_1 in Heq as [H2 Heq]; [|apply Hlen].
  apply app_inj_1 in Heq as [_ Heq]; [|done]. apply app_inj_1 in Heq as [H3 Heq]; [|apply Hlen].
  apply app_inj_1 in Heq as [_ Heq]; [|done]. apply app_inj_1 in Heq as [H4 Heq]; [|apply Hlen].
  apply app_inj_1 in Heq as [_ H5]; [|done].
  pose proof (Hw 4%nat 0%nat) as Hw0. rewrite !drop_0 in Hw0.
  apply hex_inj in H1; [|apply Hw0..]. apply hex_inj in H2; [|apply Hw..].
  apply hex_inj in H3; [|apply Hw..]. apply hex_inj in H4; [|apply Hw..]. apply hex_inj in H5; [|apply Hw..].
  apply (take_drop_inj u v 4); [done|]. apply (take_drop_inj _ _ 2); [done|]. rewrite !drop_drop.
  apply (take_drop_inj _ _ 2); [done|]. rewrite !drop_drop. apply (take_drop_inj _ _ 2); [done|].
  rewrite !drop_drop. cbn [Nat.add]. rewrite !take_ge in H5 by (rewrite length_drop; lia). done.
Qed.

(** The two texts never overlap shifted: a [G] stands only at the start. *)
Lemma uuid_text_no_shift u v : uuid_ok u -> uuid_ok v -> u <> v ->
  no_shift (utf8 (format_uuid u)) (utf8 (format_uuid v)).
Proof.
  intros Hu Hv Hne. destruct (uuid_text u Hu) as [Htu Hlu]. destruct (uuid_text v Hv) as [Htv Hlv].
  split.
  - rewrite Htu, Htv. intros Heq. apply Hne, uuid_tail_inj; [done..|]. exact (f_equal tail Heq).
  - intros k Hk Hk4 Heq. rewrite Hlu in *.
    destruct (proj2 (get_range_is_Some (utf8 (format_uuid u)) (4 * k) (40 - 4 * k))) as [x Hx]; [lia|].
    rewrite Hx in Heq. symmetry in Heq.
    pose proof (get_range_lookup _ _ _ _ 0 Hx ltac:(lia)) as H1.
    pose proof (get_range_lookup _ _ _ _ 0 Heq ltac:(lia)) as H2.
    rewrite H2, Htv, Htu in H1.
    destruct (Z.to_nat (4 * k) + 0)%nat as [|i] eqn:Hi; [lia|].
    change (Some 71 = uuid_tail u !! i) in H1.
    destruct (uuid_tail_chars u Hu) as [Hc _]. rewrite Forall_lookup in Hc.
    destruct (Hc i 71 (eq_sym H1)) as [_ Hbad]. done.
Qed.

(** ** Claims *)
Record card_ok (c : Card) : Prop := {
  co_host : uuid_ok (host c);
  co_guest : uuid_ok (guest c);
  co_ascii : ascii c = (utf8 (format_uuid (host c)), utf8 (format_uuid (guest c)));
}.

Lemma uuid_blen u : uuid_ok u -> blen u = 16.
Proof. intros [_ Hl]. unfold blen. by rewrite Hl. Qed.

(** One direction of the translation. *)
Lemma translate_spec u v buf :
  uuid_ok u -> uuid_ok v ->
  exists buf', (b ← swap buf u v; swap b (utf8 (format_uuid u)) (utf8 (format_uuid v))) = Ok buf' /\
    blen buf' = blen buf /\ (wf_bytes buf -> wf_bytes buf') /\
    (no_shift u v -> no_common_word u (utf8 (format_uuid v)) ->
     absent u buf' /\ absent (utf8 (format_uuid u)) buf').
Proof.
  intros Hu Hv. destruct (uuid_text u Hu) as [Htu Hlu]. destruct (uuid_text v Hv) as [Htv Hlv].
  pose proof (uuid_blen u Hu) as Hbu. pose proof (uuid_blen v Hv) as Hbv.
  destruct (swap_runs buf u v) as (b1 & -> & W1); [lia|]. cbn [mbind outcome_bind].
  destruct (swap_runs b1 (utf8 (format_uuid u)) (utf8 (format_uuid v))) as (b2 & -> & W2); [lia|].
  destruct (while_swap_kept _ _ _ _ _ W1) as [L1 F1], (while_swap_kept _ _ _ _ _ W2) as [L2 F2].
  assert (wf_bytes (utf8 (format_uuid v))) as Hwv.
  { rewrite Htv. apply Forall_cons_2; [unfold is_byte; lia|].
    eapply Forall_impl; [apply (uuid_tail_chars v Hv)|]. unfold is_byte. cbv beta. lia. }
  exists b2. split; [done|]. split; [lia|]. split; [intros; apply F2; [done|]; by apply F1; [apply Hv|]|].
  intros Hns Hcw. split.
  - apply (while_swap_other u _ _ _ _ _ ltac:(by rewrite Hbu) ltac:(by rewrite Hlv) ltac:(lia) ltac:(lia)
      Hcw W2 0); [lia..|]. eapply (while_swap_clears u v _ _ _ ltac:(lia) Hns W1 0); [lia..|intros; lia].
  - assert (u <> v) as Hne by (by destruct Hns).
    assert (blen (utf8 (format_uuid v)) = blen (utf8 (format_uuid u))) as Hlt by lia.
    eapply (while_swap_clears _ _ _ _ _ Hlt (uuid_text_no_shift u v Hu Hv Hne) W2 0);
      [lia..|intros; lia].
Qed.

Lemma low_bits_byte x m t :
  forallb (fun a => let v := Z.lor a t in (0 <=? v) && (v <? 256)) (seqZ 0 (2 ^ m)) = true ->
  0 <= m -> 0 <= x -> is_byte (Z.lor (Z.land x (Z.ones m)) t).
Proof.
  intros Hall Hm Hx. rewrite Z.land_ones by done.
  pose proof (Z.mod_pos_bound x (2 ^ m) ltac:(by apply Z.pow_pos_nonneg)).
  rewrite forallb_forall in Hall. specialize (Hall (x mod 2 ^ m)).
  rewrite <- list_elem_of_In, elem_of_seqZ in Hall. specialize (Hall ltac:(lia)).
  cbv beta zeta in Hall. bools. unfold is_byte. lia.
Qed.

Lemma vm_uuid_ok name : uuid_ok (vm_uuid name).
Proof.
  unfold vm_uuid, to_be_bytes. set (o := _ ++ _).
  assert (wf_bytes o /\ length o = 16%nat) as [Hw Hl].
  { unfold o. rewrite length_app, !length_reverse, !length_le_bytes. split; [|done].
    apply Forall_app_2; apply Forall_reverse, wf_le_bytes. }
  assert (forall (l : bytes) i, wf_bytes l -> 0 <= nth i l 0) as Hn.
  { intros l i Hf. destruct (nth_in_or_default i l 0) as [Hi| ->]; [|done].
    apply list_elem_of_In in Hi. unfold wf_bytes in Hf. rewrite Forall_forall in Hf. by destruct (Hf _ Hi). }
  assert (wf_bytes (<[6%nat := Z.lor (Z.land (nth 6 o 0) 0x0f) 0x40]> o)) as Hw6.
  { apply Forall_insert; [done|]. apply (low_bits_byte _ 4); [done|done|by apply Hn]. }
  split; [|by rewrite !length_insert].
  apply Forall_insert; [done|]. apply (low_bits_byte _ 6); [done|done|by apply Hn].
Qed.

Lemma Card_new_ok socket h total : uuid_ok h -> card_ok (Card_new socket h total).
Proof. intros Hh. split; [done|apply vm_uuid_ok|done]. Qed.

(** C28: The scan for UUIDs ends on every buffer, as the source's loop does,
    without panic and without changing its length.  It is thorough under two
    conditions on the card's UUID and the machine's: the tail of the searched
    one, from a four-byte boundary on, is not the head of the one written for
    it ([no_shift]), and no word of the searched one is a word of the text
    written afterwards ([no_common_word]).  Then the card's UUID is at no
    four-byte boundary of a translated answer, neither in binary nor in text,
    and the machine's at none of a translated question.  The source does not
    check the conditions; [shifted_overlap_recreates] shows that the first is
    needed. *)
Theorem uuid_translation_complete c buf :
  card_ok c ->
  (exists answer, to_guest c buf = Ok answer /\ blen answer = blen buf /\
     (no_shift (host c) (guest c) -> no_common_word (host c) (ascii c).2 ->
      absent (host c) answer /\ absent (ascii c).1 answer)) /\
  (exists question, to_host c buf = Ok question /\ blen question = blen buf /\
     (no_shift (guest c) (host c) -> no_common_word (guest c) (ascii c).1 ->
      absent (guest c) question /\ absent (ascii c).2 question)).
Proof.
  intros [Hh Hg Ha]. unfold to_guest, to_host. rewrite Ha. cbn [fst snd]. split.
  - destruct (translate_spec (host c) (guest c) buf Hh Hg) as (b & Hb & Hl & _ & Hab). exists b. auto.
  - destruct (translate_spec (guest c) (host c) buf Hg Hh) as (b & Hb & Hl & _ & Hab). exists b. auto.
Qed.

(** A card and a virtual machine; both conditions can be computed. *)
Definition no_shiftb (from to : bytes) : bool :=
  negb (bool_decide (from = to)) &&
  forallb (fun k => negb (bool_decide (get_range from (4 * k) (blen from - 4 * k)
                                      = get_range to 0 (blen from - 4 * k))))
    (seqZ 1 (blen from / 4 - 1)).

Lemma no_shiftb_spec from to : blen from mod 4 = 0 -> no_shiftb from to = true -> no_shift from to.
Proof.
  unfold no_shiftb, no_shift. intros Hm Hb. bools. split; [done|]. intros k Hk Hl Heq.
  match goal with H : forallb _ _ = true |- _ => rewrite forallb_forall in H; specialize (H k);
    rewrite <- list_elem_of_In, elem_of_seqZ in H; rename H into Hall end.
  pose proof (Z.div_mod (blen from) 4 ltac:(lia)). specialize (Hall ltac:(lia)). by bools.
Qed.

Definition no_common_wordb (pat to : bytes) : bool :=
  forallb (fun i => forallb (fun j => negb (bool_decide (get_range pat (4 * i) 4 = get_range to (4 * j) 4)))
    (seqZ 0 (blen to / 4))) (seqZ 0 (blen pat / 4)).

Lemma no_common_wordb_spec pat to : no_common_wordb pat to = true -> no_common_word pat to.
Proof.
  unfold no_common_wordb, no_common_word. rewrite forallb_forall. intros Hb i j Hi Hli Hj Hlj Heq.
  pose proof (Z.div_mod (blen pat) 4 ltac:(lia)). pose proof (Z.mod_pos_bound (blen pat) 4 ltac:(lia)).
  pose proof (Z.div_mod (blen to) 4 ltac:(lia)). pose proof (Z.mod_pos_bound (blen to) 4 ltac:(lia)).
  specialize (Hb i). rewrite <- list_elem_of_In, elem_of_seqZ in Hb. specialize (Hb ltac:(lia)).
  rewrite forallb_forall in Hb. specialize (Hb j). rewrite <- list_elem_of_In, elem_of_seqZ in Hb.
  specialize (Hb ltac:(lia)). by bools.
Qed.

Definition demo_card : Card := Card_new (lit "vm/desktop2/nvrm.sock") (replicate 16 0x41) 0x200000000.

Lemma uuid_translation_complete_witness : exists answer,
  to_guest demo_card (replicate 12 0 ++ replicate 16 0x41 ++ replicate 4 0) = Ok answer /\
  absent (host demo_card) answer /\ absent (ascii demo_card).1 answer.
Proof.
  destruct (uuid_translation_complete demo_card (replicate 12 0 ++ replicate 16 0x41 ++ replicate 4 0))
    as [(answer & Ha & _ & Hab) _].
  - apply Card_new_ok. split; [|done]. by repeat (apply Forall_cons_2; [by split|]).
  - exists answer. split; [exact Ha|]. apply Hab.
    + apply no_shiftb_spec; vm_compute; reflexivity.
    + apply no_common_wordb_spec. vm_compute. reflexivity.
Defined.

(** A card whose UUID continues with the machine's own: the scan does not look
    back, and writing the machine's UUID completes the card's at the word
    before. *)
Definition shifted_card : Card :=
  Card_new (lit "vm/desktop2/nvrm.sock") ([1; 2; 3; 4] ++ take 12 (guest demo_card)) 0x200000000.

Example shifted_overlap_recreates :
  card_ok shifted_card /\ exists answer,
  to_guest shifted_card ([1; 2; 3; 4] ++ host shifted_card) = Ok answer /\
  get_range answer 0 16 = Some (host shifted_card).
Proof.
  split.
  - apply Card_new_ok. split; [|by vm_compute]. apply (bool_decide_unpack _). by vm_compute.
  - eexists. split; vm_compute; reflexivity.
Qed.
