(* ===== verification/AnswerShape.v ===== *)
(** * Rewritten answers keep their shape

    Every rewrite of [Answers], [Naming] and [Grid] ends without a panic on
    any buffer, however short, and returns one of the same length: the reply
    header announces the lengths of the request. *)
From S2P Require Import Prelude.
From S2P Require Import Bytes.
From S2P Require Import Text.
From S2P Require Import CLayout.
From S2P Require Import SysConsts.
From S2P Require Import NvAbi.
From S2P Require Import VramPolicy.
From S2P Require Import Vram.
From S2P Require Import Answers.
From S2P Require Import Naming.
From S2P Require Import Grid.

(** [m] is [b] rewritten in place. *)
Definition edits (b : bytes) (m : may_panic bytes) : Prop :=
  exists b', m = Ok b' /\ blen b' = blen b /\ (wf_bytes b -> wf_bytes b').

(** The same for a rewrite that also returns a value. *)
Definition keeps {X} (b : bytes) (m : may_panic (X * bytes)) : Prop :=
  exists x b', m = Ok (x, b') /\ blen b' = blen b /\ (wf_bytes b -> wf_bytes b').

Lemma edits_refl b : edits b (Ok b).
Proof. by exists b. Qed.

Lemma keeps_refl {X} (x : X) b : keeps b (Ok (x, b)).
Proof. by exists x, b. Qed.

Lemma edits_bind b m f :
  edits b m -> (forall b', m = Ok b' -> blen b' = blen b -> edits b' (f b')) -> edits b (m ≫= f).
Proof.
  intros (b1 & Hm & Hl & Hw) Hf. destruct (Hf b1 Hm Hl) as (b2 & Hm2 & Hl2 & Hw2).
  exists b2. rewrite Hm. cbn [mbind outcome_bind]. split; [done|]. split; [lia|auto].
Qed.

Lemma edits_keeps {X} b m (f : bytes -> may_panic (X * bytes)) :
  edits b m -> (forall b', m = Ok b' -> blen b' = blen b -> keeps b' (f b')) -> keeps b (m ≫= f).
Proof.
  intros (b1 & Hm & Hl & Hw) Hf. destruct (Hf b1 Hm Hl) as (x & b2 & Hm2 & Hl2 & Hw2).
  exists x, b2. rewrite Hm. cbn [mbind outcome_bind]. split; [done|]. split; [lia|auto].
Qed.

Lemma keeps_keeps {X Y} b (m : may_panic (X * bytes)) (f : X * bytes -> may_panic (Y * bytes)) :
  keeps b m -> (forall x b', m = Ok (x, b') -> blen b' = blen b -> keeps b' (f (x, b'))) ->
  keeps b (m ≫= f).
Proof.
  intros (x1 & b1 & Hm & Hl & Hw) Hf. destruct (Hf x1 b1 Hm Hl) as (x & b2 & Hm2 & Hl2 & Hw2).
  exists x, b2. rewrite Hm. cbn [mbind outcome_bind]. split; [done|]. split; [lia|auto].
Qed.

Lemma edits_range b o v : 0 <= o -> o + blen v <= blen b -> wf_bytes v ->
  edits b (or_panic (set_range b o v)).
Proof.
  intros Ho Hl Hv. destruct (set_range_total b o v) as (b' & Hs & S); [done..|].
  rewrite Hs. exists b'. split; [done|]. split; [apply (so_len _ _ _ _ S)|].
  intros Hw. by apply (so_wf _ _ _ _ S).
Qed.

Lemma edits_le n b o v : 0 <= o -> o + Z.of_nat n <= blen b -> edits b (or_panic (set_le n b o v)).
Proof.
  intros Ho Hl. unfold set_le. apply edits_range; [done| |apply wf_le_bytes].
  unfold blen at 1. by rewrite length_le_bytes.
Qed.

Lemma edits_wr32 b o v : 0 <= o -> o + 4 <= blen b -> edits b (wr32 b o v).
Proof. apply (edits_le 4). Qed.

Lemma edits_wr64 b o v : 0 <= o -> o + 8 <= blen b -> edits b (wr64 b o v).
Proof. apply (edits_le 8). Qed.

Lemma edits_u32s vs : forall b o, 0 <= o -> o + 4 * Z.of_nat (length vs) <= blen b ->
  edits b (write_u32s b o vs).
Proof.
  induction vs as [|v vs IH]; intros b o Ho Hl; cbn [write_u32s length] in *; [apply edits_refl|].
  apply edits_bind; [apply edits_wr32; lia|]. intros b' _ Hb. apply IH; lia.
Qed.

Lemma edits_u64s vs : forall b o, 0 <= o -> o + 8 * Z.of_nat (length vs) <= blen b ->
  edits b (write_u64s b o vs).
Proof.
  induction vs as [|v vs IH]; intros b o Ho Hl; cbn [write_u64s length] in *; [apply edits_refl|].
  apply edits_bind; [apply edits_wr64; lia|]. intros b' _ Hb. apply IH; lia.
Qed.

Lemma edits_for_range f n : forall b i,
  (forall b' j, blen b' = blen b -> i <= j < i + Z.of_nat n -> edits b' (f b' j)) ->
  edits b (for_range f b i n).
Proof.
  induction n as [|n IH]; intros b i Hf; cbn [for_range]; [apply edits_refl|].
  apply edits_bind; [apply Hf; [done|lia]|]. intros b' _ Hb. apply IH. intros. apply Hf; lia.
Qed.

Lemma keeps_get_pids b rows : keeps b (rewrite_get_pids b rows).
Proof.
  destruct pids_layout as (Hc & Ht & Hlen). unfold rewrite_get_pids. rewrite Hc, Ht, Hlen.
  destruct (blen b <? 3812) eqn:E; bools; [apply keeps_refl|].
  set (n := Nat.min (length rows) PIDS_MAX). assert (n <= 950)%nat by (unfold n, PIDS_MAX; lia).
  apply edits_keeps; [apply edits_u32s; [lia|rewrite length_map, length_take; lia]|]. intros b1 _ H1.
  apply edits_keeps; [apply edits_u32s; [lia|rewrite length_replicate; unfold PIDS_MAX; lia]|].
  intros b2 _ H2. apply edits_keeps; [apply edits_wr32; lia|]. intros b3 _ H3. apply keeps_refl.
Qed.

Lemma edits_pid_entry b rows i : 0 <= i -> 8 + 72 * (i + 1) <= blen b ->
  edits b (pid_info_entry b rows i).
Proof.
  destruct pidinfo_layout as (_ & Hl & He & _ & Hm). unfold pid_info_entry. rewrite Hl, He, Hm.
  intros Hi Hb. destruct (rd32_ok b (8 + 72 * i)) as [p ->]; [lia..|].
  destruct (rd32_ok b (8 + 72 * i + 4)) as [ix ->]; [lia..|]. cbn [mbind outcome_bind].
  apply edits_bind; [apply edits_wr32; lia|]. intros b1 _ H1.
  apply edits_bind; [apply edits_u64s; [lia|rewrite length_replicate; lia]|]. intros b2 _ H2.
  apply edits_wr64; lia.
Qed.

Lemma keeps_get_pid_info b rows : keeps b (rewrite_get_pid_info b rows).
Proof.
  destruct pidinfo_layout as (Hc & Hl & He & _ & _). unfold rewrite_get_pid_info. rewrite Hc, Hl, He.
  destruct (blen b <? 8 + 72) eqn:E; bools; [apply keeps_refl|].
  destruct (rd32_ok b 0) as [a ->]; [lia..|]. cbn [mbind outcome_bind].
  set (n := Z.min (Z.min a PIDINFO_MAX) ((blen b - 8) / 72)).
  apply edits_keeps.
  { apply edits_for_range. intros b' j Hb Hj. apply edits_pid_entry; [lia|].
    assert (72 * ((blen b - 8) / 72) <= blen b - 8) by (apply Z.mul_div_le; lia).
    unfold n in Hj. lia. }
  intros b1 _ H1. apply edits_keeps; [apply edits_wr32; lia|]. intros b2 _ H2. apply keeps_refl.
Qed.

Lemma keeps_cap_entries lim us n : forall b i t, 0 <= i -> 8 * (i + Z.of_nat n) <= blen b ->
  keeps b (cap_entries b lim us i n t).
Proof.
  destruct fbinfo_layout as [He _].
  induction n as [|n IH]; intros b i t Hi Hl; cbn [cap_entries]; [apply keeps_refl|]. rewrite He.
  destruct (rd32_ok b (8 * i)) as [ix ->]; [lia..|]. cbn [mbind outcome_bind].
  destruct (fb_value lim us ix); [|apply IH; lia].
  apply edits_keeps; [apply edits_wr32; lia|]. intros b1 _ H1. apply IH; lia.
Qed.

Lemma keeps_cap_fb b asked lim us : keeps b (cap_fb_entries b asked lim us).
Proof.
  unfold cap_fb_entries. destruct fbinfo_layout as [He _]. rewrite He.
  apply keeps_keeps; [|intros; apply keeps_refl]. apply keeps_cap_entries; [lia|].
  assert (8 * (blen b / 8) <= blen b) by (apply Z.mul_div_le; lia). pose proof (blen_nonneg b). lia.
Qed.

Lemma keeps_fb_list b asked lim us : keeps b (rewrite_fb_info_list b asked lim us).
Proof. unfold rewrite_fb_info_list. destruct (_ || _); [apply keeps_refl|apply keeps_cap_fb]. Qed.

(** A rewrite of the end of a buffer. *)
Lemma keeps_suffix {X Y} n b (m : may_panic (X * bytes)) (g : X -> Y) :
  0 <= n <= blen b -> keeps (drop (Z.to_nat n) b) m ->
  keeps b (r ← m; Ok (g r.1, take (Z.to_nat n) b ++ r.2)).
Proof.
  intros Hn (x & b' & -> & Hl & Hw). cbn [mbind outcome_bind fst snd]. eexists _, _. split; [done|].
  split; [unfold blen in *; rewrite length_app, Nat2Z.inj_add, Hl, length_take, length_drop; lia|].
  intros Hb. apply Forall_app. split; [by apply Forall_take|]. apply Hw. by apply Forall_drop.
Qed.

Lemma keeps_fb_info b lim us : keeps b (rewrite_fb_info b lim us).
Proof.
  unfold rewrite_fb_info. destruct fbinfo_layout as [He _]. rewrite He.
  destruct ((lim =? 0) || _) eqn:E; [apply keeps_refl|]. unfold FBINFO_LIST_OFF, FBINFO_COUNT_OFF in *.
  bools. destruct (rd32_ok b 0) as [a ->]; [lia..|]. cbn [mbind outcome_bind].
  apply (keeps_suffix 4 b _ (fun x => x)); [lia|apply keeps_cap_fb].
Qed.

Lemma keeps_vidheap_info b lim us : keeps b (rewrite_vidheap_info b lim us).
Proof.
  unfold rewrite_vidheap_info, vidheap_function. unfold V_LEN, V_TOTAL, V_FREE.
  destruct (184 <=? blen b) eqn:E; bools; cbn [mbind outcome_bind].
  - destruct (rd32_ok b V_FUNCTION) as [f ->]; [done|unfold V_FUNCTION; lia|]. cbn [mbind outcome_bind].
    destruct (_ || _); [apply keeps_refl|].
    apply edits_keeps; [apply edits_wr64; lia|]. intros b1 _ H1.
    apply edits_keeps; [apply edits_wr64; lia|]. intros b2 _ H2. apply keeps_refl.
  - rewrite bool_decide_eq_false_2 by done. cbn [negb]. rewrite orb_true_r. apply keeps_refl.
Qed.

Lemma keeps_virtualization_mode b : keeps b (rewrite_virtualization_mode b).
Proof.
  destruct virtmode_layout as (H1 & H2 & H3). unfold rewrite_virtualization_mode. rewrite H1, H2, H3.
  destruct (blen b <? 8) eqn:E; bools; [apply keeps_refl|].
  apply edits_keeps; [apply edits_wr32; lia|]. intros b1 _ Hb.
  apply edits_keeps; [|intros; apply keeps_refl].
  apply edits_range; [lia|change (blen [1]) with 1; lia|repeat constructor; unfold is_byte; lia].
Qed.

Lemma keeps_encoder_capacity b p : keeps b (rewrite_encoder_capacity b p).
Proof.
  destruct enccap_layout as [H1 H2]. unfold rewrite_encoder_capacity. rewrite H1, H2.
  destruct (_ || _ || _) eqn:E; [apply keeps_refl|]. bools.
  apply edits_keeps; [apply edits_wr32; lia|]. intros; apply keeps_refl.
Qed.

(** The card's name; a negative framebuffer size does not exist. *)
Lemma keeps_gpu_name f b p : wf_bytes b -> 0 <= fb_length p -> keeps b (rewrite_gpu_name f b p).
Proof.
  intros Hw Hp. destruct name_layout as (Ho & Hm & _). unfold rewrite_gpu_name. rewrite Ho, Hm.
  destruct (blen b <? 4 + 64) eqn:E; bools; [apply keeps_refl|].
  destruct (proj2 (get_range_is_Some b 4 64)) as [raw Hraw]; [lia|]. rewrite Hraw.
  cbn [mbind outcome_bind or_panic]. set (name := guest_card_name_as _ p f).
  assert (wf_bytes (utf8 name)) as Hwn.
  { apply utf8_wf, guest_card_name_unicode; [|done]. apply from_utf8_lossy_range, until_nul_wf.
    by eapply get_range_wf. }
  set (n := Z.min (blen (utf8 name)) (64 - 1)). pose proof (blen_nonneg (utf8 name)).
  assert (0 <= n <= 63) as Hn by lia.
  apply edits_keeps; [apply edits_range; [lia| |by apply Forall_take]|].
  { unfold blen at 1. rewrite length_take. lia. }
  intros b1 _ H1. apply edits_keeps; [|intros; apply keeps_refl].
  apply edits_range; [lia| |apply Forall_replicate; unfold is_byte; lia].
  unfold blen at 1. rewrite length_replicate. lia.
Qed.

(** The translation of UUIDs. *)
Lemma edits_translate c b : card_ok c -> edits b (to_host c b) /\ edits b (to_guest c b).
Proof.
  intros [Hh Hg Ha]. unfold to_guest, to_host. rewrite Ha. cbn [fst snd]. split.
  - destruct (translate_spec (guest c) (host c) b Hg Hh) as (b' & Hb & Hl & Hw & _). by exists b'.
  - destruct (translate_spec (host c) (guest c) b Hh Hg) as (b' & Hb & Hl & Hw & _). by exists b'.
Qed.
