(* ===== verification/Window.v ===== *)
(** * The host-visible window (crates/vhost-user-nvrm/src/nvrm.rs)

    The guest picks an offset of an 8 GiB window for each RM mapping; the
    backend checks it, has the VMM map it (SHMEM_MAP) and keeps the entry
    until the VMM has confirmed the unmap.  The session half of MapPrepare
    (crates/vhost-user-nvrm/src/session.rs) turns a token into a pending
    mapping that the device consumes.

    The VMM is on the other side of a socket: [Vmm] is what the backend asks of
    it and [VmmLaws] what the vhost-user protocol says of the answers.  The
    duplication of a descriptor, the probing [mmap] and the poll set are
    outcomes the kernel decides; [Env] carries them. *)
From S2P Require Import Prelude.
From S2P Require Import SysConsts.
From S2P Require Import Wire.
From S2P Require Import Xlate.
From S2P Require Import Mirror.

Definition HOST_VISIBLE_SIZE : Z := Z.shiftl 8 30.
Definition MAX_MAP_LEN : Z := Z.shiftl 256 20.
Definition MAX_SESSIONS : nat := 1024.
Definition MAP_CACHE_CACHED : Z := 1.
Definition MAP_CACHE_UNCACHED : Z := 2.

Definition cache_for (d : Dev) : Z :=
  match d with Gpu => MAP_CACHE_UNCACHED | _ => MAP_CACHE_CACHED end.

Definition dev_of (tag : Z) : option Dev :=
  t ← DevTag.from_u32 tag;
  Some (match t with
        | DevTag.Ctl => Ctl | DevTag.Gpu => Gpu | DevTag.Uvm => Uvm
        | DevTag.UvmTools => UvmTools
        end).

Definition ok_rsp (s tok : Z) : Rsp :=
  {| rsp_seq := s; ret := 0; token := tok; rsp_inline_len := 0; rsp_aux_len := 0;
     scm_fd_count := 0; rsp_pad := 0 |}.

Definition err_rsp (s errno : Z) : Rsp :=
  {| rsp_seq := s; ret := - errno; token := 0; rsp_inline_len := 0; rsp_aux_len := 0;
     scm_fd_count := 0; rsp_pad := 0 |}.

(** ** The map of window entries *)
Record WindowMap := MkWindowMap { wm_len : Z; wm_proc : Z }.

Definition window_of_proc (w : gmap Z WindowMap) (proc : Z) : list Z :=
  map fst (filter (fun om => wm_proc om.2 = proc) (map_to_list w)).

(** [range(..e).next_back()]: the entry with the greatest offset below [e]. *)
Definition later (e : Z) (best : option (Z * WindowMap)) (om : Z * WindowMap)
  : option (Z * WindowMap) :=
  if om.1 <? e then
    match best with
    | Some b => if b.1 <? om.1 then Some om else best
    | None => Some om
    end
  else best.

Definition last_below (w : gmap Z WindowMap) (e : Z) : option (Z * WindowMap) :=
  foldl (later e) None (map_to_list w).

Definition window_overlaps (w : gmap Z WindowMap) (off len : Z) : bool :=
  match last_below w (off + len) with
  | Some (o, m) => off <? o + wm_len m
  | None => false
  end.

(** ** The session half *)
Record PendingMap := MkPendingMap { pm_token : Z; pm_len : Z; pm_dev : Dev }.

Record MapSession := MkMapSession {
  mirror : FdMirror.Mirror;
  pending_maps : gmap Z PendingMap;
  next_blob_id : Z;
}.

Definition detached_proc (sub_id : Z) : MapSession :=
  MkMapSession FdMirror.Mirror_new ∅ (Z.lor (Z.shiftl sub_id 32) 1).

(** The counter in the low half wraps past zero. *)
Definition blob_after (id : Z) : Z :=
  let low := Z.land (id + 1) u32_max in
  Z.lor (Z.shiftl (Z.shiftr id 32) 32) (if low =? 0 then 1 else low).

Definition session_map_prepare (s : MapSession) (req : Req) : Rsp * MapSession :=
  match FdMirror.raw (mirror s) (target_token req) with
  | None => (err_rsp (seq req) EBADF, s)
  | Some _ =>
      if (map_len req =? 0) || (MAX_MAP_LEN <? map_len req)
      then (err_rsp (seq req) EINVAL, s)
      else
        match FdMirror.kind_of (mirror s) (target_token req) with
        | None => (err_rsp (seq req) EBADF, s)
        | Some dev =>
            if negb (bool_decide (dev_of (dev_tag req) = Some dev))
            then (err_rsp (seq req) EINVAL, s)
            else
              let id := next_blob_id s in
              (ok_rsp (seq req) id,
               MkMapSession (mirror s)
                 (<[id := MkPendingMap (target_token req) (map_len req) dev]> (pending_maps s))
                 (blob_after id))
        end
  end.

(** [dup_ok]: did the kernel duplicate the descriptor? *)
Definition take_pending_map (s : MapSession) (blob_id : Z) (dup_ok : bool)
  : option (Z * Z * Dev) * MapSession :=
  match pending_maps s !! blob_id with
  | None => (None, s)
  | Some p =>
      let s' := MkMapSession (mirror s) (delete blob_id (pending_maps s)) (next_blob_id s) in
      match FdMirror.raw (mirror s) (pm_token p) with
      | None => (None, s')
      | Some fd => (if dup_ok then Some (fd, pm_len p, pm_dev p) else None, s')
      end
  end.

(** ** The VMM *)
Class Vmm (V : Type) := {
  shmem_map : V -> Z -> Z -> bool * V;
  shmem_unmap : V -> Z -> Z -> bool * V;
  mapped : V -> gmap Z Z;
}.

(** An acknowledged request has taken effect, a refused one has none, and
    SHMEM_UNMAP succeeds only on exactly one earlier range. *)
Class VmmLaws (V : Type) `{Vmm V} := {
  map_acked v o l v' : shmem_map v o l = (true, v') -> mapped v' = <[o := l]> (mapped v);
  map_refused v o l v' : shmem_map v o l = (false, v') -> mapped v' = mapped v;
  unmap_acked v o l v' :
    shmem_unmap v o l = (true, v') ->
    mapped v !! o = Some l /\ mapped v' = delete o (mapped v);
  unmap_refused v o l v' : shmem_unmap v o l = (false, v') -> mapped v' = mapped v;
}.

(** What the host kernel decides during a request. *)
Record Env := MkEnv { dup_ok : bool; probe : option Z; unregister_ok : bool }.

(** ** The device *)
Section device.
Context {V : Type} `{Vmm V}.

(** The window's part of [NvrmDevice]; [backend] is the channel to the VMM. *)
Record Device := MkDevice {
  sessions : gmap Z MapSession;
  window : gmap Z WindowMap;
  backend : option V;
  event_error : bool;
}.

Definition set_session (d : Device) (p : Z) (s : MapSession) : Device :=
  MkDevice (<[p := s]> (sessions d)) (window d) (backend d) (event_error d).

Definition session_for (d : Device) (p : Z) : option (MapSession * Device) :=
  match sessions d !! p with
  | Some s => Some (s, d)
  | None =>
      if bool_decide (MAX_SESSIONS <= size (sessions d))%nat then None
      else Some (detached_proc p, set_session d p (detached_proc p))
  end.

Definition usable_slot (off len : Z) : bool :=
  (off mod 4096 =? 0) && (len mod 4096 =? 0) &&
  match checked_add64 off len with Some e => e <=? HOST_VISIBLE_SIZE | None => false end.

(** From the taken mapping on.  This is the backend as it is run: the test hook
    [LEA_TEST_SHMEM_MAP_OOB], unset by default, which makes one request of the
    process ask the VMM for a place past the window in order to see it refused,
    is left out. *)
Definition install (env : Env) (d : Device) (req : Req) (len : Z) (dev : Dev) : Rsp * Device :=
  match backend d with
  | None => (err_rsp (seq req) EIO, d)
  | Some v =>
      let off := addr req in
      if negb (usable_slot off len) then (err_rsp (seq req) EINVAL, d)
      else if window_overlaps (window d) off len then (err_rsp (seq req) EBUSY, d)
      else
        match probe env with
        | Some errno => (err_rsp (seq req) errno, d)
        | None =>
            let '(ok, v') := shmem_map v off len in
            if negb ok
            then (err_rsp (seq req) EIO, MkDevice (sessions d) (window d) (Some v') (event_error d))
            else
              (ok_rsp (seq req) (cache_for dev),
               MkDevice (sessions d) (<[off := MkWindowMap len (guest_proc req)]> (window d))
                 (Some v') (event_error d))
        end
  end.

Definition on_map_prepare (env : Env) (d : Device) (req : Req) : Rsp * Device :=
  match session_for d (guest_proc req) with
  | None => (err_rsp (seq req) ENOMEM, d)
  | Some (s, d) =>
      let '(rsp, s) := session_map_prepare s req in
      let d := set_session d (guest_proc req) s in
      if negb (ret rsp =? 0) then (rsp, d)
      else
        let '(taken, s) := take_pending_map s (token rsp) (dup_ok env) in
        let d := set_session d (guest_proc req) s in
        match taken with
        | None => (err_rsp (seq req) EIO, d)
        | Some (_, len, dev) => install env d req len dev
        end
  end.

(** [true] is [Ok(())]. *)
Definition release_window (d : Device) (off : Z) : bool * Device :=
  match backend d with
  | None => (false, d)
  | Some v =>
      match window d !! off with
      | None => (true, d)
      | Some m =>
          let '(ok, v') := shmem_unmap v off (wm_len m) in
          (ok, MkDevice (sessions d) (if ok then delete off (window d) else window d)
                 (Some v') (event_error d))
      end
  end.

Definition on_map_release (d : Device) (req : Req) : Rsp * Device :=
  let '(ok, d) := release_window d (addr req) in
  (if ok then ok_rsp (seq req) 0 else err_rsp (seq req) EIO, d).

(** Every offset is tried; the result is whether none failed. *)
Fixpoint release_all (d : Device) (offs : list Z) : bool * Device :=
  match offs with
  | [] => (true, d)
  | o :: offs' =>
      let '(ok, d) := release_window d o in
      let '(ok', d) := release_all d offs' in
      (ok && ok', d)
  end.

Definition release_window_of (d : Device) (proc : Z) : bool * Device :=
  release_all d (window_of_proc (window d) proc).

Definition on_proc_gone (env : Env) (d : Device) (req : Req) : Rsp * Device :=
  if guest_proc req =? 0 then (err_rsp (seq req) EINVAL, d)
  else if negb (unregister_ok env)
  then (err_rsp (seq req) EIO, MkDevice (sessions d) (window d) (backend d) true)
  else
    let '(ok, d) := release_window_of d (guest_proc req) in
    if negb ok then (err_rsp (seq req) EIO, d)
    else (ok_rsp (seq req) 0,
          MkDevice (delete (guest_proc req) (sessions d)) (window d) (backend d) (event_error d)).

(** The requests that reach the window, and what sessions do to their mirrors
    in between (an Open or a Close). *)
Inductive DeviceOp :=
| MirrorStep (proc : Z) (m : FdMirror.Mirror)
| MapPrepare (env : Env) (req : Req)
| MapRelease (req : Req)
| ProcGone (env : Env) (req : Req).

(** [handle]: after a failure of the event machinery only EIO is answered. *)
Definition device_step (d : Device) (op : DeviceOp) : Rsp * Device :=
  match op with
  | MirrorStep proc m =>
      match session_for d proc with
      | None => (err_rsp 0 ENOMEM, d)
      | Some (s, d) =>
          (ok_rsp 0 0, set_session d proc (MkMapSession m (pending_maps s) (next_blob_id s)))
      end
  | MapPrepare env req =>
      if event_error d then (err_rsp (seq req) EIO, d) else on_map_prepare env d req
  | MapRelease req =>
      if event_error d then (err_rsp (seq req) EIO, d) else on_map_release d req
  | ProcGone env req =>
      if event_error d then (err_rsp (seq req) EIO, d) else on_proc_gone env d req
  end.

Fixpoint device_run (d : Device) (ops : list DeviceOp) : Device :=
  match ops with
  | [] => d
  | op :: ops' => device_run (device_step d op).2 ops'
  end.

Definition device_new (v : V) : Device := MkDevice ∅ ∅ (Some v) false.
End device.
Arguments Device V : clear implicits.

(** ** Lemmas *)

(** Aligned, inside the window and pairwise disjoint. *)
Definition entry_ok (o : Z) (m : WindowMap) : Prop :=
  0 <= o /\ o mod 4096 = 0 /\ wm_len m mod 4096 = 0 /\ 0 < wm_len m /\
  o + wm_len m <= HOST_VISIBLE_SIZE.

Definition disjoint_entries (w : gmap Z WindowMap) : Prop :=
  forall o m o' m', w !! o = Some m -> w !! o' = Some m' -> o < o' -> o + wm_len m <= o'.

Definition window_ok (w : gmap Z WindowMap) : Prop :=
  map_Forall entry_ok w /\ disjoint_entries w.

Lemma later_cases e b om :
  later e b om = b /\ (e <= om.1 \/ exists y, b = Some y /\ om.1 <= y.1) \/
  later e b om = Some om /\ om.1 < e /\ forall y, b = Some y -> y.1 < om.1.
Proof.
  unfold later. destruct (om.1 <? e) eqn:E; bools; [|by left; split; [|left]].
  destruct b as [y|]; [|by right].
  destruct (y.1 <? om.1) eqn:E2; bools.
  - right. split; [done|]. split; [done|]. by intros ? [= <-].
  - left. split; [done|]. right. by exists y.
Qed.

Lemma foldl_later e l b :
  (forall x, b = Some x -> x.1 < e) ->
  match foldl (later e) b l with
  | None => b = None /\ forall om, om ∈ l -> e <= om.1
  | Some r => r.1 < e /\ (r ∈ l \/ b = Some r) /\
              (forall om, om ∈ l -> om.1 < e -> om.1 <= r.1) /\
              (forall x, b = Some x -> x.1 <= r.1)
  end.
Proof.
  revert b. induction l as [|om l IH]; intros b Hb; simpl.
  { destruct b as [x|]; [|set_solver]. split; [by apply Hb|]. split; [by right|].
    split; [set_solver|]. intros ? [= <-]. lia. }
  destruct (later_cases e b om) as [[-> Hom]|(-> & Hom & Hy)].
  - specialize (IH b Hb). destruct (foldl (later e) b l) as [r|].
    + destruct IH as (H1 & H2 & H3 & H4). split; [done|]. split; [set_solver|]. split; [|done].
      intros x [->|Hx]%elem_of_cons Hlt; [|by apply H3].
      destruct Hom as [?|(y & Hy & ?)]; [lia|]. pose proof (H4 y Hy). lia.
    + destruct IH as [-> H2]. split; [done|]. intros x [->|Hx]%elem_of_cons; [|by apply H2].
      by destruct Hom as [?|(y & ? & _)].
  - specialize (IH (Some om)). destruct (foldl (later e) (Some om) l) as [r|].
    + destruct IH as (H1 & H2 & H3 & H4); [by intros ? [= <-]|].
      pose proof (H4 om eq_refl). split; [done|]. split; [set_solver|]. split.
      * intros x [->|Hx]%elem_of_cons Hlt; [done|by apply H3].
      * intros y Hby. pose proof (Hy y Hby). lia.
    + destruct IH as [? _]; [by intros ? [= <-]|done].
Qed.

Lemma last_below_spec w e :
  match last_below w e with
  | Some (o, m) => w !! o = Some m /\ o < e /\
                   forall o' m', w !! o' = Some m' -> o' < e -> o' <= o
  | None => forall o' m', w !! o' = Some m' -> e <= o'
  end.
Proof.
  unfold last_below. pose proof (foldl_later e (map_to_list w) None ltac:(done)) as H.
  destruct (foldl _ _ _) as [[o m]|].
  - destruct H as (H1 & [H2|?] & H3 & _); [|done]. apply elem_of_map_to_list in H2.
    split; [done|]. split; [done|]. intros o' m' Hm'%elem_of_map_to_list Hlt.
    by apply (H3 (o', m')).
  - destruct H as [_ H2]. intros o' m' Hm'%elem_of_map_to_list. by apply (H2 (o', m')).
Qed.

Lemma window_overlaps_spec w off len :
  window_ok w -> 0 < len ->
  window_overlaps w off len = true <->
  exists o m, w !! o = Some m /\ o < off + len /\ off < o + wm_len m.
Proof.
  intros [Hok Hdis] Hlen. unfold window_overlaps.
  pose proof (last_below_spec w (off + len)) as Hlast.
  destruct (last_below w (off + len)) as [[k mk]|].
  - destruct Hlast as (Hk & Hlt & Hmax). rewrite Z.ltb_lt. split.
    + intros Hov. by exists k, mk.
    + intros (o & m & Ho & Hoe & Hov). pose proof (Hmax o m Ho Hoe).
      destruct (decide (o = k)) as [->|Hne]; [by simplify_eq|].
      pose proof (Hdis o m k mk Ho Hk ltac:(lia)). pose proof (Hok k mk Hk) as (_ & _ & _ & ? & _).
      lia.
  - split; [done|]. intros (o & m & Ho & Hoe & _). pose proof (Hlast o m Ho). lia.
Qed.

Lemma window_ok_empty : window_ok ∅.
Proof. split; [apply map_Forall_empty|]. intros o m o' m'. by rewrite lookup_empty. Qed.

Lemma window_ok_delete w o : window_ok w -> window_ok (delete o w).
Proof.
  intros [H1 H2]. split; [by apply map_Forall_delete|].
  intros a m a' m' [_ Ha]%lookup_delete_Some [_ Ha']%lookup_delete_Some. by eapply H2.
Qed.

(** A slot that passed the checks extends the window. *)
Lemma window_ok_insert w off len proc :
  window_ok w -> 0 <= off -> 0 < len -> usable_slot off len = true ->
  window_overlaps w off len = false ->
  w !! off = None /\ window_ok (<[off := MkWindowMap len proc]> w).
Proof.
  intros Hw Hoff Hlen Huse Hno. pose proof (window_overlaps_spec w off len Hw Hlen) as Hspec.
  assert (Hfree : forall o m, w !! o = Some m -> off + len <= o \/ o + wm_len m <= off).
  { intros o m Ho. destruct (decide (off + len <= o)); [by left|].
    destruct (decide (o + wm_len m <= off)); [by right|]. exfalso.
    assert (window_overlaps w off len = true); [|congruence].
    apply Hspec. exists o, m. split; [done|]. lia. }
  unfold usable_slot in Huse. destruct (checked_add64 off len) as [e|] eqn:Ee; [|by bools].
  apply checked_add64_Some in Ee as [-> _]. bools.
  destruct Hw as [W1 W2].
  assert (Hnone : w !! off = None).
  { destruct (w !! off) as [m|] eqn:Hm; [|done]. pose proof (W1 _ _ Hm) as (_ & _ & _ & ? & _).
    destruct (Hfree _ _ Hm); lia. }
  split; [done|]. split.
  - apply map_Forall_insert_2; [|done]. by repeat split.
  - intros o m o' m' Ho Ho' Hlt.
    apply lookup_insert_Some in Ho as [[<- <-]|[Hn Ho]];
      apply lookup_insert_Some in Ho' as [[<- <-]|[Hn' Ho']]; cbn; [lia| | |].
    + destruct (Hfree _ _ Ho'); [done|]. pose proof (W1 _ _ Ho') as (_ & _ & _ & ? & _). lia.
    + destruct (Hfree _ _ Ho); lia.
    + by eapply W2.
Qed.

Section device_proofs.
Context {V : Type} `{VmmLaws V}.
Implicit Types d : Device V.

(** The backend's table is what the VMM has mapped, and no registered mapping
    is left behind in a session. *)
Definition device_ok (d : Device V) : Prop :=
  window_ok (window d) /\
  match backend d with
  | Some v => mapped v = wm_len <$> window d
  | None => window d = ∅
  end /\
  map_Forall (fun _ s => pending_maps s = ∅) (sessions d).

Lemma set_session_ok d p s : device_ok d -> pending_maps s = ∅ -> device_ok (set_session d p s).
Proof.
  intros (Hw & Hv & Hs) Hp. split; [done|]. split; [done|]. by apply map_Forall_insert_2.
Qed.

Lemma session_for_ok d p s d' :
  device_ok d -> session_for d p = Some (s, d') ->
  device_ok d' /\ pending_maps s = ∅ /\ window d' = window d /\ backend d' = backend d.
Proof.
  intros Hd. unfold session_for. destruct (sessions d !! p) as [s0|] eqn:E.
  - intros [= <- <-]. split; [done|]. split; [|done]. destruct Hd as (_ & _ & Hs).
    by apply (Hs p).
  - destruct (bool_decide _); [done|]. intros [= <- <-]. split; [by apply set_session_ok|]. done.
Qed.

Lemma install_ok env d req ln dv :
  device_ok d -> 0 <= addr req -> 0 < ln -> device_ok (install env d req ln dv).2.
Proof.
  intros Hd Ha Hl. unfold install. destruct (backend d) as [v|] eqn:Hb; [|done].
  destruct (usable_slot (addr req) ln) eqn:Hu; [|done]. cbn [negb].
  destruct (window_overlaps (window d) (addr req) ln) eqn:Ho; [done|].
  destruct (probe env); [done|]. pose proof Hd as (Hw & Hv & Hs). rewrite Hb in Hv.
  destruct (shmem_map v (addr req) ln) as [[] v'] eqn:Hm; cbn.
  - apply map_acked in Hm.
    destruct (window_ok_insert _ _ _ (guest_proc req) Hw Ha Hl Hu Ho) as [_ Hw'].
    split; [done|]. split; [|done]. cbn. by rewrite Hm, fmap_insert, Hv.
  - apply map_refused in Hm. split; [done|]. split; [|done]. cbn. by rewrite Hm.
Qed.

(** The session half either refuses and registers nothing or registers one
    mapping with a plausible length. *)
Lemma session_map_prepare_spec s req rsp s' :
  0 <= map_len req -> session_map_prepare s req = (rsp, s') ->
  (ret rsp <> 0 /\ s' = s) \/
  (ret rsp = 0 /\ 0 < map_len req <= MAX_MAP_LEN /\ mirror s' = mirror s /\
   exists dv, FdMirror.kind_of (mirror s) (target_token req) = Some dv /\
     dev_of (dev_tag req) = Some dv /\
     pending_maps s' = <[token rsp := MkPendingMap (target_token req) (map_len req) dv]>
                         (pending_maps s)).
Proof.
  intros Hlen. unfold session_map_prepare.
  destruct (FdMirror.raw _ _); [|by intros [= <- <-]; left].
  destruct ((map_len req =? 0) || (MAX_MAP_LEN <? map_len req)) eqn:E; [by intros [= <- <-]; left|].
  destruct (FdMirror.kind_of _ _) as [dv|] eqn:Hk; [|by intros [= <- <-]; left].
  destruct (bool_decide (dev_of (dev_tag req) = Some dv)) eqn:Hd;
    intros [= <- <-]; [right|by left]. bools.
  split; [done|]. split; [lia|]. split; [done|]. by exists dv.
Qed.

(** Taking it leaves no trace of it. *)
Lemma take_pending_map_spec s id b taken s' p :
  take_pending_map s id b = (taken, s') -> pending_maps s !! id = Some p ->
  pending_maps s' = delete id (pending_maps s) /\
  forall fd ln dv, taken = Some (fd, ln, dv) ->
    FdMirror.raw (mirror s) (pm_token p) = Some fd /\ ln = pm_len p /\ dv = pm_dev p.
Proof.
  unfold take_pending_map. intros Ht Hp. rewrite Hp in Ht.
  destruct (FdMirror.raw _ _) as [fd|]; [|by injection Ht as <- <-].
  destruct b; injection Ht as <- <-; [|done]. split; [done|]. by intros ? ? ? [= <- <- <-].
Qed.

Lemma on_map_prepare_ok env d req :
  device_ok d -> 0 <= addr req -> 0 <= map_len req ->
  device_ok (on_map_prepare env d req).2.
Proof.
  intros Hd Ha Hl. unfold on_map_prepare.
  destruct (session_for d (guest_proc req)) as [[s d1]|] eqn:Hs; [|done].
  destruct (session_for_ok d _ s d1 Hd Hs) as (Hd1 & Hp & _).
  destruct (session_map_prepare s req) as [rsp s1] eqn:Hm.
  apply session_map_prepare_spec in Hm as [[Hr ->]|(Hr & Hlen & _ & dv & _ & _ & Hp1)]; [| |done].
  - rewrite (proj2 (Z.eqb_neq _ _) Hr). cbn. by apply set_session_ok.
  - rewrite Hr. cbn [Z.eqb negb].
    destruct (take_pending_map s1 (token rsp) (dup_ok env)) as [taken s2] eqn:Ht.
    destruct (take_pending_map_spec _ _ _ _ _
      (MkPendingMap (target_token req) (map_len req) dv) Ht) as [Hp2 Htk].
    { by rewrite Hp1, lookup_insert_eq. }
    assert (Hempty : pending_maps s2 = ∅).
    { rewrite Hp2, Hp1, Hp. by rewrite delete_insert_eq, delete_empty. }
    assert (Hd2 : device_ok (set_session (set_session d1 (guest_proc req) s1) (guest_proc req) s2)).
    { destruct Hd1 as (Hw & Hv & Hss). split; [done|]. split; [done|]. cbn.
      rewrite insert_insert_eq. by apply map_Forall_insert_2. }
    destruct taken as [[[fd ln] dv']|]; [|done].
    destruct (Htk _ _ _ eq_refl) as (_ & -> & _). apply install_ok; [done|done|]. cbn. lia.
Qed.

Lemma release_window_spec d off ok d' :
  device_ok d -> release_window d off = (ok, d') ->
  device_ok d' /\ sessions d' = sessions d /\
  window d' = (if ok then delete off (window d) else window d).
Proof.
  intros Hd. pose proof Hd as (Hw & Hv & Hs). unfold release_window.
  destruct (backend d) as [v|] eqn:Hb; [|by intros [= <- <-]].
  destruct (window d !! off) as [m|] eqn:Hm.
  2: { intros [= <- <-]. split; [done|]. split; [done|]. by rewrite delete_id. }
  destruct (shmem_unmap v off (wm_len m)) as [[] v'] eqn:Hu; intros [= <- <-].
  - apply unmap_acked in Hu as [_ Hu]. split; [|done]. split; [by apply window_ok_delete|].
    split; [|done]. cbn. by rewrite Hu, fmap_delete, Hv.
  - apply unmap_refused in Hu. split; [|done]. split; [done|]. split; [|done]. cbn. by rewrite Hu.
Qed.

Lemma release_all_spec offs : forall d ok d',
  device_ok d -> release_all d offs = (ok, d') ->
  device_ok d' /\ sessions d' = sessions d /\
  (forall o m, window d' !! o = Some m -> window d !! o = Some m) /\
  (forall o, o ∉ offs -> window d' !! o = window d !! o) /\
  (ok = true -> forall o, o ∈ offs -> window d' !! o = None).
Proof.
  induction offs as [|o offs IH]; intros d ok d' Hd; simpl.
  { intros [= <- <-]. split; [done|]. split; [done|]. split; [done|]. split; [done|].
    intros _ o Ho. by apply not_elem_of_nil in Ho. }
  destruct (release_window d o) as [ok1 d1] eqn:E1.
  destruct (release_all d1 offs) as [ok2 d2] eqn:E2. intros [= <- <-].
  destruct (release_window_spec d o ok1 d1 Hd E1) as (Hd1 & Hs1 & Hw1).
  destruct (IH d1 ok2 d2 Hd1 E2) as (Hd2 & Hs2 & Hsub & Hout & Hin).
  assert (Hsub1 : forall a m, window d1 !! a = Some m -> window d !! a = Some m).
  { intros a m. rewrite Hw1. destruct ok1; [|done]. by intros [_ ?]%lookup_delete_Some. }
  split; [done|]. split; [by rewrite Hs2|]. split; [|split].
  - intros a m Ha. by apply Hsub1, Hsub.
  - intros a [Hne Hno]%not_elem_of_cons. rewrite (Hout a Hno), Hw1.
    destruct ok1; [|done]. by rewrite lookup_delete_ne.
  - intros [-> ->]%andb_true_iff a [->|Ha]%elem_of_cons; [|by apply Hin].
    destruct (window d2 !! o) as [m|] eqn:Hm; [|done]. apply Hsub in Hm.
    by rewrite Hw1, lookup_delete_eq in Hm.
Qed.

Lemma elem_window_of_proc w p o :
  o ∈ window_of_proc w p <-> exists m, w !! o = Some m /\ wm_proc m = p.
Proof.
  unfold window_of_proc. rewrite list_elem_of_fmap. split.
  - intros ([o' m] & -> & [Hp Hin]%list_elem_of_filter). apply elem_of_map_to_list in Hin.
    by exists m.
  - intros (m & Hm & Hp). exists (o, m). split; [done|]. apply list_elem_of_filter.
    split; [done|]. by apply elem_of_map_to_list.
Qed.

Lemma on_proc_gone_ok env d req : device_ok d -> device_ok (on_proc_gone env d req).2.
Proof.
  intros Hd. unfold on_proc_gone. destruct (guest_proc req =? 0); [done|].
  destruct (unregister_ok env); cbn [negb]; [|by destruct Hd as (? & ? & ?)].
  unfold release_window_of. destruct (release_all _ _) as [ok d1] eqn:E.
  destruct (release_all_spec _ _ _ _ Hd E) as ((Hw & Hv & Hs) & _).
  destruct ok; cbn [negb snd]; [|done]. split; [done|]. split; [done|]. by apply map_Forall_delete.
Qed.

(** Requests carry unsigned words. *)
Definition op_ok (op : DeviceOp) : Prop :=
  match op with
  | MapPrepare _ req => 0 <= addr req /\ 0 <= map_len req
  | _ => True
  end.

Lemma device_step_ok d op : device_ok d -> op_ok op -> device_ok (device_step d op).2.
Proof.
  intros Hd Hop. destruct op as [p m|env req|req|env req]; cbn [device_step].
  - destruct (session_for d p) as [[s d1]|] eqn:E; [|done].
    destruct (session_for_ok d p s d1 Hd E) as (Hd1 & Hp & _). by apply set_session_ok.
  - destruct (event_error d); [done|]. destruct Hop. by apply on_map_prepare_ok.
  - destruct (event_error d); [done|]. unfold on_map_release.
    destruct (release_window d (addr req)) as [ok d1] eqn:E.
    by apply (release_window_spec d _ _ _ Hd E).
  - destruct (event_error d); [done|]. by apply on_proc_gone_ok.
Qed.

Lemma device_run_ok d ops : device_ok d -> Forall op_ok ops -> device_ok (device_run d ops).
Proof.
  revert d. induction ops as [|op ops IH]; intros d Hd Hops; [done|].
  apply Forall_cons_1 in Hops as [Hop Hops]. simpl. apply IH; [|done]. by apply device_step_ok.
Qed.

Lemma device_new_ok v : mapped v = ∅ -> device_ok (device_new v).
Proof.
  intros Hv. split; [apply window_ok_empty|]. split; [|apply map_Forall_empty].
  cbn. by rewrite Hv, fmap_empty.
Qed.
End device_proofs.

(** ** Theorems *)

(** A VMM that maps what is free and unmaps what it has mapped. *)
Definition TableVmm : Type := gmap Z Z.

Global Instance TableVmm_vmm : Vmm TableVmm := {
  shmem_map v o l := if bool_decide (v !! o = None) then (true, <[o := l]> v) else (false, v);
  shmem_unmap v o l := if bool_decide (v !! o = Some l) then (true, delete o v) else (false, v);
  mapped v := v;
}.

Global Instance TableVmm_laws : VmmLaws TableVmm.
Proof.
  split; intros v o l v'; cbn; destruct (bool_decide _) eqn:E; intros Heq; simplify_eq; try done.
  bools. done.
Qed.

(** C15: Against any VMM that follows the protocol, and for any sequence of
    requests whatever offsets, lengths and tokens they carry and however the
    host's system calls end, the backend's window table is exactly what the
    VMM has mapped; every entry is page-aligned, nonempty and inside the
    window, no two overlap, and no registered mapping is left in a session. *)
Theorem window_matches_vmm {V} `{VmmLaws V} (v : V) (ops : list DeviceOp) :
  mapped v = ∅ -> Forall op_ok ops ->
  let d := device_run (device_new v) ops in
  map_Forall entry_ok (window d) /\ disjoint_entries (window d) /\
  (forall v', backend d = Some v' -> mapped v' = wm_len <$> window d) /\
  (forall p s, sessions d !! p = Some s -> pending_maps s = ∅).
Proof.
  intros Hv Hops d. destruct (device_run_ok _ ops (device_new_ok v Hv) Hops) as ([H1 H2] & Hb & Hs).
  fold d in H1, H2, Hb, Hs. split; [done|]. split; [done|]. split.
  - intros v' Hv'. by rewrite Hv' in Hb.
  - intros p s Hps. by apply (Hs p).
Qed.

(** Process 7 opens a GPU node (token 1) and maps 8 KiB at 4096; a second
    mapping at 8192 would overlap it. *)
Definition demo_mirror : FdMirror.Mirror :=
  {| FdMirror.next := 2;
     FdMirror.map := {[1 := {| FdMirror.fd := 5; FdMirror.entry_kind := Gpu |}]} |}.

Definition demo_req (off ln : Z) : Req :=
  {| seq := 1; kind := 5; dev_tag := 1; ioctl_nr := 0; target_token := 1;
     inline_len := 0; aux_len := 0; fd_field_off := NONE_U32; fd_field_proc := NONE_U32;
     fd_field_token := NONE_U64; embedded_ptr_off := NONE_U32; nested_count := 0;
     nested := []; aux_fd_field_off := NONE_U32; aux_fd_field_proc := NONE_U32;
     aux_fd_field_token := NONE_U64; map_len := ln; addr := off; gpa_run_count := 0;
     guest_proc := 7 |}.

Definition demo_device_ops : list DeviceOp :=
  [MirrorStep 7 demo_mirror;
   MapPrepare (MkEnv true None true) (demo_req 4096 8192);
   MapPrepare (MkEnv true None true) (demo_req 8192 4096);
   MapPrepare (MkEnv true None true) (demo_req 100 4096)].

Lemma window_matches_vmm_witness :
  let d := device_run (device_new (∅ : TableVmm)) demo_device_ops in
  window d = {[4096 := MkWindowMap 8192 7]} /\
  map_Forall entry_ok (window d) /\ disjoint_entries (window d) /\
  (forall v', backend d = Some v' -> mapped v' = wm_len <$> window d) /\
  (forall p s, sessions d !! p = Some s -> pending_maps s = ∅).
Proof.
  intros d. split; [vm_compute; reflexivity|].
  apply (window_matches_vmm (∅ : TableVmm) demo_device_ops); [reflexivity|].
  repeat constructor; cbn; lia.
Defined.

(** The overlap check looks at one entry only, the last that starts below
    the end of the new range, and that is enough: on a table of disjoint
    nonempty entries it answers exactly whether the range meets any of them. *)
Theorem overlap_check_exact w off ln :
  map_Forall entry_ok w -> disjoint_entries w -> 0 < ln ->
  window_overlaps w off ln = true <->
  exists o m, w !! o = Some m /\ ~ disjoint_ranges (off, off + ln) (o, o + wm_len m).
Proof.
  intros H1 H2 Hl. rewrite window_overlaps_spec by done. unfold disjoint_ranges. cbn.
  split; intros (o & m & Ho & Hx); exists o, m; (split; [done|]); lia.
Qed.

Lemma overlap_check_exact_witness :
  let w := {[4096 := MkWindowMap 8192 7; 40960 := MkWindowMap 4096 7]} in
  window_overlaps w 8192 4096 = true /\
  (exists o m, w !! o = Some m /\ ~ disjoint_ranges (8192, 8192 + 4096) (o, o + wm_len m)).
Proof.
  intros w. split; [vm_compute; reflexivity|].
  apply (overlap_check_exact w 8192 4096).
  - apply map_Forall_insert_2; [repeat split; vm_compute; congruence|].
    apply map_Forall_singleton. repeat split; vm_compute; congruence.
  - intros o m o' m' Ho Ho' Hlt.
    apply lookup_insert_Some in Ho as [[<- <-]|[_ Ho]];
      apply lookup_insert_Some in Ho' as [[<- <-]|[_ Ho']]; try lia;
      try apply lookup_singleton_Some in Ho as [<- <-];
      try apply lookup_singleton_Some in Ho' as [<- <-]; cbn; lia.
  - lia.
  - vm_compute. reflexivity.
Defined.

(** C26: When a guest process is reported gone, the answer is honest.  Success
    means that none of its window mappings is left, its session is gone and
    every other process's mapping is untouched; on failure the session stays,
    other processes' mappings are untouched and each mapping of this process
    either is gone from the VMM too or keeps its slot. *)
Theorem proc_gone_cleans {V} `{VmmLaws V} (v : V) ops env req rsp d' :
  let d := device_run (device_new v) ops in
  mapped v = ∅ -> Forall op_ok ops -> on_proc_gone env d req = (rsp, d') ->
  (forall o m, window d !! o = Some m -> wm_proc m <> guest_proc req ->
               window d' !! o = Some m) /\
  (forall o m, window d' !! o = Some m -> window d !! o = Some m) /\
  (forall v', backend d' = Some v' -> mapped v' = wm_len <$> window d') /\
  (ret rsp = 0 ->
     (forall o m, window d' !! o = Some m -> wm_proc m <> guest_proc req) /\
     sessions d' = delete (guest_proc req) (sessions d)) /\
  (ret rsp <> 0 -> sessions d' = sessions d).
Proof.
  intros d Hv Hops Hgone. pose proof (device_run_ok _ ops (device_new_ok v Hv) Hops) as Hd.
  fold d in Hd. pose proof (on_proc_gone_ok env d req Hd) as Hd'. rewrite Hgone in Hd'.
  destruct Hd' as (_ & Hb' & _). cbn [snd] in Hb'.
  assert (Hback : forall v', backend d' = Some v' -> mapped v' = wm_len <$> window d')
    by (intros v' Hv'; by rewrite Hv' in Hb').
  unfold on_proc_gone in Hgone. destruct (guest_proc req =? 0) eqn:E0.
  { injection Hgone as <- <-. by repeat split. }
  destruct (unregister_ok env); cbn [negb] in Hgone.
  2: { injection Hgone as <- <-. by repeat split. }
  unfold release_window_of in Hgone. destruct (release_all _ _) as [ok d1] eqn:E.
  destruct (release_all_spec _ _ _ _ Hd E) as (_ & Hs & Hsub & Hout & Hin).
  assert (Hothers : forall o m, window d !! o = Some m -> wm_proc m <> guest_proc req ->
                                window d1 !! o = Some m).
  { intros o m Hm Hp. rewrite Hout; [done|]. rewrite elem_window_of_proc.
    intros (m' & Hm' & Hp'). congruence. }
  destruct ok; cbn [negb] in Hgone; injection Hgone as <- <-.
  - split; [done|]. split; [done|]. split; [done|]. split; [|done]. intros _. cbn. split.
    + intros o m Hm Hp. assert (Hnone : window d1 !! o = None); [|congruence].
      apply Hin; [done|]. apply elem_window_of_proc. exists m. split; [by apply Hsub|done].
    + by rewrite Hs.
  - split; [done|]. split; [done|]. split; [done|]. split; [done|]. by intros _.
Qed.

Lemma proc_gone_cleans_witness :
  let d := device_run (device_new (∅ : TableVmm)) demo_device_ops in
  exists rsp d', on_proc_gone (MkEnv true None true) d (demo_req 0 0) = (rsp, d') /\
  ret rsp = 0 /\ window d' = ∅ /\
  (forall o m, window d !! o = Some m -> wm_proc m <> 7 -> window d' !! o = Some m) /\
  (forall o m, window d' !! o = Some m -> window d !! o = Some m) /\
  (forall v', backend d' = Some v' -> mapped v' = wm_len <$> window d') /\
  (ret rsp = 0 ->
     (forall o m, window d' !! o = Some m -> wm_proc m <> 7) /\
     sessions d' = delete 7 (sessions d)) /\
  (ret rsp <> 0 -> sessions d' = sessions d).
Proof.
  intros d. eexists _, _. split; [reflexivity|]. split; [vm_compute; reflexivity|].
  split; [vm_compute; reflexivity|].
  apply (proc_gone_cleans (∅ : TableVmm) demo_device_ops (MkEnv true None true) (demo_req 0 0)).
  - reflexivity.
  - repeat constructor; cbn; lia.
  - reflexivity.
Defined.
