(* ===== verification/Arena.v ===== *)
(** * Guest pages in the host's address space (crates/vhost-user-nvrm/src/host_pool.rs)

    The guest names page runs of its own RAM; [Arena::build] reserves one
    stretch of host address space and covers it run by run with
    [mmap(MAP_SHARED | MAP_FIXED)] of the guest RAM file.  A wrong destination
    would overwrite unrelated host mappings, a wrong file offset would expose
    other pages, so the calls themselves are the result: [build] returns every
    MAP_FIXED call it makes, also on the paths that fail later.

    [find_region] belongs to the vm-memory crate; [GuestMem] is what the code
    uses of it.  Whether a system call succeeds is decided by [ArenaEnv]. *)
From S2P Require Import Prelude.
From S2P Require Import Bytes.
From S2P Require Import Text.
From S2P Require Import Mirror.

Import GuestWords.

(** ** Runs *)
Record GpaRun := MkRun { gpa : GuestAddr; run_len : GuestLen }.

Definition GpaRun_WIRE : Z := 16.

Fixpoint decode_from (aux : bytes) (i : Z) (n : nat) : may_panic (list GpaRun) :=
  match n with
  | O => Ok []
  | S n' =>
      a ← or_panic (get_u64 aux (i * GpaRun_WIRE));
      l ← or_panic (get_u64 aux (i * GpaRun_WIRE + 8));
      rest ← decode_from aux (i + 1) n';
      Ok (MkRun {| ga := a |} {| gl := l |} :: rest)
  end.

Definition decode (aux : bytes) (count : Z) : may_panic (option (list GpaRun)) :=
  match checked_mul64 count GpaRun_WIRE with
  | None => Ok None
  | Some need =>
      if blen aux <? need then Ok None
      else runs ← decode_from aux 0 (Z.to_nat count); Ok (Some runs)
  end.

(** ** Limits *)
Definition parse_pin_bytes (raw : str) : option Z :=
  v ← parse_u64 (trim raw);
  b ← checked_mul64 v (2 ^ 20);
  if b =? 0 then None else Some b.

Inductive pool_error :=
| EmptyArena | RoundingOverflow
| RunUnaligned | SumOverflow | SumMismatch | OverPinLimit | ReserveFailed
| NoRegion | NoFile | RunOverflow | RegionOverflow | RunBeyondRegion
| BeyondArena | BeforeRegion | FileOffset | MapFailed
| BudgetExceeded | RangeOverflow | NotWholePages | Overlap | DupFailed
| DriverFailed | SetupFailed.

Definition registration_bytes (page bytes : Z) : outcome pool_error Z :=
  if bytes =? 0 then Err EmptyArena
  else rounded ← ok_or (checked_add64 bytes (page - 1)) RoundingOverflow;
       Ok (rounded / page * page).

(** ** The arena *)
Record Region := MkRegion { region_start : Z; region_len : Z; file_start : option Z }.

Class GuestMem (M : Type) := { find_region : M -> Z -> option Region }.

(** The region that is returned contains the address. *)
Class GuestMemLaws (M : Type) `{GuestMem M} := {
  find_region_contains m a r :
    find_region m a = Some r -> region_start r <= a < region_start r + region_len r;
}.

(** One [mmap] with MAP_FIXED: [m_len] bytes at [m_dst] into the reservation,
    from [m_file_off] of the file behind [m_region]. *)
Record FixedMap := MkFixedMap {
  m_dst : Z; m_len : Z; m_file_off : Z; m_region : Region }.

Record ArenaEnv := MkArenaEnv { reserve_ok : bool; map_ok : Z -> bool }.

Definition i64_max : Z := 9223372036854775807.

(** The first loop: alignment and the checked sum. *)
Fixpoint sum_runs (page : Z) (sum : GuestLen) (runs : list GpaRun)
  : outcome pool_error GuestLen :=
  match runs with
  | [] => Ok sum
  | r :: runs' =>
      if is_zero (run_len r) || negb (ga (gpa r) mod page =? 0)
         || negb (gl (run_len r) mod page =? 0)
      then Err RunUnaligned
      else s ← ok_or (plus sum (run_len r)) SumOverflow; sum_runs page s runs'
  end.

Section build.
Context {M : Type} `{GuestMem M}.

(** What the second loop decides for one run at [off]: the call it makes. *)
Definition plan_run (m : M) (total off : Z) (r : GpaRun) : outcome pool_error FixedMap :=
  region ← ok_or (find_region m (ga (gpa r))) NoRegion;
  fo ← ok_or (file_start region) NoFile;
  let region_base := {| ga := region_start region |} in
  run_end ← ok_or (addr_end (gpa r) (run_len r)) RunOverflow;
  region_end ← ok_or (addr_end region_base {| gl := region_len region |}) RegionOverflow;
  fail_if! ga region_end <? ga run_end with RunBeyondRegion;
  fail_if! match checked_add64 off (gl (run_len r)) with
           | Some e => total <? e | None => true end with BeyondArena;
  in_region ← ok_or (offset_from (gpa r) region_base) BeforeRegion;
  file_off ← ok_or (o ← checked_add64 fo in_region;
                    if o <=? i64_max then Some o else None) FileOffset;
  Ok (MkFixedMap off (gl (run_len r)) file_off region).

(** The second loop: the calls made, and how it ends. *)
Fixpoint map_runs (env : ArenaEnv) (m : M) (total off : Z) (runs : list GpaRun)
  : list FixedMap * outcome pool_error unit :=
  match runs with
  | [] => ([], Ok tt)
  | r :: runs' =>
      match plan_run m total off r with
      | Ok c =>
          if map_ok env off then
            let '(cs, res) := map_runs env m total (off + gl (run_len r)) runs' in (c :: cs, res)
          else ([c], Err MapFailed)
      | Err e => ([], Err e)
      | Panic => ([], Panic)
      end
  end.

Definition build (page max_pin : Z) (env : ArenaEnv) (m : M) (runs : list GpaRun)
    (total : GuestLen) : list FixedMap * outcome pool_error Z :=
  match sum_runs page {| gl := 0 |} runs with
  | Ok sum =>
      if negb (gl sum =? gl total) then ([], Err SumMismatch)
      else if is_zero total || (max_pin <? gl total) then ([], Err OverPinLimit)
      else if negb (reserve_ok env) then ([], Err ReserveFailed)
      else
        let '(cs, res) := map_runs env m (gl total) 0 runs in
        (cs, match res with Ok _ => Ok (gl total) | Err e => Err e | Panic => Panic end)
  | Err e => ([], Err e)
  | Panic => ([], Panic)
  end.
End build.

(** ** Lemmas *)

(** An arena has the announced length. *)
Lemma build_len {M} `{GuestMem M} page max_pin env (m : M) runs total n :
  (build page max_pin env m runs total).2 = Ok n -> n = gl total.
Proof.
  unfold build. destruct (sum_runs _ _ _) as [s|e|]; [|done|done].
  destruct (negb _); [done|]. destruct (_ || _); [done|]. destruct (negb _); [done|].
  destruct (map_runs _ _ _ _ _) as [cs [[]|e|]]; cbn; congruence.
Qed.

Lemma sum_runs_no_panic page sum runs : no_panic (sum_runs page sum runs).
Proof. revert sum. induction runs as [|r runs IH]; intros sum; simpl; no_panic. Qed.

Lemma map_runs_no_panic {M} `{GuestMem M} env (m : M) total runs : forall off,
  (map_runs env m total off runs).2 <> Panic.
Proof.
  induction runs as [|r runs IH]; intros off; simpl; [done|].
  assert (Hn : no_panic (plan_run m total off r)) by (unfold plan_run; no_panic).
  destruct (plan_run m total off r) as [c|e|]; [|done|by destruct (Hn eq_refl)].
  destruct (map_ok env off); [|done]. specialize (IH (off + gl (run_len r))).
  by destruct (map_runs _ _ _ _ _).
Qed.

Lemma build_no_panic {M} `{GuestMem M} page max_pin env (m : M) runs total :
  (build page max_pin env m runs total).2 <> Panic.
Proof.
  unfold build. pose proof (sum_runs_no_panic page {| gl := 0 |} runs) as Hs.
  destruct (sum_runs _ _ _) as [s|e|]; [|done|by destruct (Hs eq_refl)].
  destruct (negb _); [done|]. destruct (_ || _); [done|]. destruct (negb _); [done|].
  pose proof (map_runs_no_panic env m (gl total) runs 0).
  by destruct (map_runs _ _ _ _ _) as [cs [[]|e|]].
Qed.

(** The lengths of the calls, in order, from [off]. *)
Fixpoint tiles (off : Z) (cs : list FixedMap) : Prop :=
  match cs with
  | [] => True
  | c :: cs' => m_dst c = off /\ tiles (off + m_len c) cs'
  end.

(** A call that stays where it may: inside the reservation, on page
    boundaries, and inside the guest RAM that the region's file holds. *)
Definition call_ok (page total : Z) (c : FixedMap) : Prop :=
  0 <= m_dst c /\ 0 < m_len c /\ m_dst c + m_len c <= total /\
  m_dst c mod page = 0 /\ m_len c mod page = 0 /\
  exists fo, file_start (m_region c) = Some fo /\
    fo <= m_file_off c /\ m_file_off c + m_len c <= fo + region_len (m_region c) /\
    m_file_off c <= i64_max.

Definition run_ok (page : Z) (r : GpaRun) : Prop :=
  0 <= ga (gpa r) /\ 0 < gl (run_len r) /\ ga (gpa r) mod page = 0 /\ gl (run_len r) mod page = 0.

Definition run_words (r : GpaRun) : Prop := is_u64 (ga (gpa r)) /\ is_u64 (gl (run_len r)).

Definition total_len (runs : list GpaRun) : Z :=
  foldr (fun r acc => gl (run_len r) + acc) 0 runs.

Lemma sum_runs_ok page runs s0 s :
  Forall run_words runs -> sum_runs page s0 runs = Ok s ->
  Forall (run_ok page) runs /\ gl s = gl s0 + total_len runs.
Proof.
  revert s0. induction runs as [|r runs IH]; intros s0 Hw; simpl.
  { intros [= <-]. split; [done|]. lia. }
  apply Forall_cons_1 in Hw as [[Hg Hl] Hw].
  destruct (is_zero _ || _ || _) eqn:E; [done|]. unfold is_zero in E. bools.
  unfold plus. intros Hs. inv_ok.
  match goal with Hp : _ <$> checked_add64 _ _ = Some _ |- _ =>
    apply fmap_Some in Hp as (x & [-> _]%checked_add64_Some & ->) end.
  apply IH in Hs as [Hall ->]; [|done]. split; [|simpl; lia].
  constructor; [|done]. unfold is_u64 in *. repeat split; try done; lia.
Qed.

(** The call maps the pages the run names: from the file of the region that
    holds them, at the place of the run's guest address in that region. *)
Definition maps_run {M} `{GuestMem M} (m : M) (r : GpaRun) (c : FixedMap) : Prop :=
  find_region m (ga (gpa r)) = Some (m_region c) /\ m_len c = gl (run_len r) /\
  (exists fo, file_start (m_region c) = Some fo /\
     m_file_off c = fo + (ga (gpa r) - region_start (m_region c))) /\
  region_start (m_region c) <= ga (gpa r) /\
  ga (gpa r) + gl (run_len r) <= region_start (m_region c) + region_len (m_region c).

Section build_proofs.
Context {M : Type} `{GuestMemLaws M}.

Lemma plan_run_ok page m total off r c :
  0 < page -> run_ok page r -> 0 <= off -> off mod page = 0 ->
  plan_run m total off r = Ok c ->
  call_ok page total c /\ m_dst c = off /\ maps_run m r c.
Proof.
  intros Hpage (Hg & Hl & Hga & Hla) Hoff Hal. unfold plan_run. intros Hp. inv_ok.
  match goal with Hf : find_region _ _ = Some _ |- _ => pose proof (find_region_contains _ _ _ Hf) end.
  unfold addr_end, offset_from in *.
  repeat match goal with
  | Hx : _ <$> checked_add64 _ _ = Some _ |- _ =>
      apply fmap_Some in Hx as (? & [-> ?]%checked_add64_Some & ->)
  | Hx : checked_sub64 _ _ = Some _ |- _ => apply checked_sub64_Some in Hx as [-> ?]
  end.
  match goal with Hx : (checked_add64 _ _ ≫= _) = Some _ |- _ =>
    apply bind_Some in Hx as (o & [-> ?]%checked_add64_Some & Hx);
    destruct (_ <=? i64_max) eqn:?; [|done]; injection Hx as <- end.
  destruct (checked_add64 off (gl (run_len r))) as [e|] eqn:He; [|done].
  apply checked_add64_Some in He as [-> _]. bools. cbn in *.
  split; [|split; [done|]].
  - unfold call_ok. cbn. repeat split; try done; try lia. eexists. split; [done|]. lia.
  - unfold maps_run. cbn. repeat split; try done; try lia. eexists. split; [done|]. lia.
Qed.

Lemma map_runs_ok page env m total runs : forall off cs res,
  0 < page -> Forall (run_ok page) runs -> 0 <= off -> off mod page = 0 ->
  map_runs env m total off runs = (cs, res) ->
  Forall (call_ok page total) cs /\ tiles off cs /\
  exists mapped rest, runs = mapped ++ rest /\ Forall2 (maps_run m) mapped cs /\ (res = Ok tt -> rest = []).
Proof.
  induction runs as [|r runs IH]; intros off cs res Hp Hall Hoff Hal; simpl.
  { intros [= <- <-]. split; [done|]. split; [done|]. by exists [], []. }
  apply Forall_cons_1 in Hall as [Hr Hall].
  destruct (plan_run m total off r) as [c|e|] eqn:Hc.
  - destruct (plan_run_ok page m total off r c Hp Hr Hoff Hal Hc) as (Hok & Hd & Hn).
    pose proof Hn as (_ & Hl & _).
    destruct (map_ok env off).
    + destruct (map_runs env m total (off + gl (run_len r)) runs) as [cs' res'] eqn:E.
      intros [= <- <-]. destruct Hr as (_ & Hl0 & _ & Hlm).
      apply IH in E as (H1 & H2 & H3); [|done|done|lia|].
      * split; [by constructor|]. split; [simpl; rewrite Hl; done|].
        destruct H3 as (mapped & rest & -> & H3 & H4). exists (r :: mapped), rest. by split_and!; [|constructor|].
      * rewrite Z.add_mod, Hal, Hlm by lia. apply Z.mod_0_l. lia.
    + intros [= <- <-]. split; [by constructor|]. split; [simpl; done|].
      exists [r], runs. split; [done|]. split; [constructor; [exact Hn|constructor]|done].
  - intros [= <- <-]. split; [done|]. split; [done|]. by exists [], (r :: runs).
  - intros [= <- <-]. split; [done|]. split; [done|]. by exists [], (r :: runs).
Qed.
End build_proofs.

(** Guest RAM as a list of regions. *)
Definition RegionList : Type := list Region.

Definition contains (a : Z) (r : Region) : Prop :=
  region_start r <= a < region_start r + region_len r.
Global Instance contains_dec a r : Decision (contains a r).
Proof. unfold contains. apply _. Defined.

Global Instance RegionList_mem : GuestMem RegionList := {
  find_region m a := snd <$> list_find (contains a) m;
}.

Global Instance RegionList_laws : GuestMemLaws RegionList.
Proof.
  split. intros m a r. cbn. intros ([i r'] & (_ & Hc & _)%list_find_Some & ->)%fmap_Some. done.
Qed.

(** C22: Whatever runs the guest sends and however the system calls end, every
    MAP_FIXED call made while an arena is built lies inside the reservation
    just made, on page boundaries, behind the previous one.  The calls are
    for the runs in order, up to the one that failed, and each maps exactly
    the pages its run names: the whole run lies in the region that holds its
    guest address, and the bytes come from that region's file, at the run's
    distance from the start of the region.  On success every run has its call,
    they cover the reservation exactly, and its length is the announced total
    within the pin limit.  Nothing panics. *)
Theorem arena_maps_inside {M} `{GuestMemLaws M} page max_pin env (m : M) runs total cs res :
  0 < page -> Forall run_words runs -> build page max_pin env m runs total = (cs, res) ->
  Forall (call_ok page (gl total)) cs /\ tiles 0 cs /\
  (exists mapped rest, runs = mapped ++ rest /\ Forall2 (maps_run m) mapped cs /\ ((exists n, res = Ok n) -> rest = [])) /\
  res <> Panic /\
  (forall n, res = Ok n -> n = gl total /\ 0 < n <= max_pin /\ total_len runs = n).
Proof.
  intros Hpage Hw Hb. assert (Hnp : res <> Panic).
  { pose proof (build_no_panic page max_pin env m runs total) as Hn. by rewrite Hb in Hn. }
  assert (forall e, cs = [] -> res = Err e -> Forall (call_ok page (gl total)) cs /\ tiles 0 cs /\
    (exists mapped rest, runs = mapped ++ rest /\ Forall2 (maps_run m) mapped cs /\ ((exists n, res = Ok n) -> rest = [])) /\
    res <> Panic /\ (forall n, res = Ok n -> n = gl total /\ 0 < n <= max_pin /\ total_len runs = n)) as Hnone.
  { intros e -> ->. split_and!; try done. exists [], runs. split; [done|]. split; [done|]. by intros []. }
  revert Hb. unfold build.
  destruct (sum_runs page {| gl := 0 |} runs) as [s|e|] eqn:Hs.
  2: { intros [= <- <-]. by eapply Hnone. }
  2: { intros [= <- <-]. done. }
  destruct (sum_runs_ok _ _ _ _ Hw Hs) as [Hall Hsum]. cbn in Hsum.
  destruct (gl s =? gl total) eqn:E; cbn [negb]; [|intros [= <- <-]; by eapply Hnone]. bools.
  destruct (is_zero total || (max_pin <? gl total)) eqn:E2; [intros [= <- <-]; by eapply Hnone|].
  unfold is_zero in E2. bools.
  destruct (reserve_ok env); cbn [negb]; [|intros [= <- <-]; by eapply Hnone].
  destruct (map_runs env m (gl total) 0 runs) as [cs' res'] eqn:Hm. intros [= <- <-].
  destruct (map_runs_ok page env m (gl total) runs 0 cs' res') as (Hcalls & Htiles & mapped & rest & Hruns & Hcover & Hall');
    [done | done | done | apply Z.mod_0_l; lia | done |].
  split; [done|]. split; [done|]. split; [|split; [done|]].
  { exists mapped, rest. split; [done|]. split; [done|]. intros [n Hn]. apply Hall'. by destruct res' as [[]|e|]. }
  intros n Hn. destruct res' as [[]|e|]; simplify_eq.
  assert (Hpos : 0 <= total_len (mapped ++ rest)).
  { clear -Hall. induction Hall as [|r runs (_ & ? & _) _ IH]; simpl; lia. }
  repeat split; lia.
Qed.

Lemma arena_maps_inside_witness :
  let m : RegionList := [MkRegion 0x10000000 0x800000 (Some 0)] in
  let runs := [MkRun {| ga := 0x10003000 |} {| gl := 0x2000 |};
               MkRun {| ga := 0x10000000 |} {| gl := 0x1000 |}] in
  exists cs, build 4096 0x10000000 (MkArenaEnv true (fun _ => true)) m runs {| gl := 0x3000 |}
             = (cs, Ok 0x3000) /\
    map (fun c => (m_dst c, m_len c, m_file_off c)) cs = [(0, 0x2000, 0x3000); (0x2000, 0x1000, 0)] /\
    Forall (call_ok 4096 0x3000) cs /\ tiles 0 cs /\ Forall2 (maps_run m) runs cs.
Proof.
  intros m runs. eexists. split; [vm_compute; reflexivity|]. split; [reflexivity|].
  destruct (arena_maps_inside 4096 0x10000000 (MkArenaEnv true (fun _ => true)) m runs {| gl := 0x3000 |} _ (Ok 0x3000) eq_refl
    ltac:(repeat constructor; vm_compute; congruence) ltac:(vm_compute; reflexivity))
    as (H1 & H2 & (mapped & rest & Hr & H3 & H4) & _).
  split; [exact H1|]. split; [exact H2|]. rewrite (H4 (ex_intro _ _ eq_refl)), app_nil_r in Hr. rewrite Hr. exact H3.
Defined.

(** ** Runs on the wire *)
Definition encode_run (r : GpaRun) : bytes :=
  le_bytes 8 (ga (gpa r)) ++ le_bytes 8 (gl (run_len r)).

Lemma length_encode_run r : length (encode_run r) = 16%nat.
Proof. unfold encode_run. by rewrite length_app, !length_le_bytes. Qed.

Lemma get_u64_here p v rest :
  is_u64 v -> get_u64 (p ++ le_bytes 8 v ++ rest) (blen p) = Some v.
Proof.
  intros Hv. unfold blen. rewrite get_le_nat
    by (rewrite !length_app, length_le_bytes; lia).
  rewrite drop_app_length, take_app_length' by (by rewrite length_le_bytes).
  rewrite le_val_le_bytes. f_equal. apply Z.mod_small. unfold is_u64, u64_max in Hv.
  change (256 ^ Z.of_nat 8) with 18446744073709551616. lia.
Qed.

Lemma decode_from_encode runs rest : forall p i,
  Forall run_words runs -> blen p = i * 16 ->
  decode_from (p ++ concat (map encode_run runs) ++ rest) i (length runs) = Ok runs.
Proof.
  induction runs as [|r runs IH]; intros p i Hw Hp; [done|].
  apply Forall_cons_1 in Hw as [[H1 H2] Hw]. cbn [length decode_from].
  set (tl := concat (map encode_run runs) ++ rest).
  assert (Hbuf : p ++ concat (map encode_run (r :: runs)) ++ rest = p ++ encode_run r ++ tl)
    by (cbn [map concat]; by rewrite <- app_assoc).
  assert (G1 : get_u64 (p ++ encode_run r ++ tl) (i * GpaRun_WIRE) = Some (ga (gpa r))).
  { unfold GpaRun_WIRE, encode_run. rewrite <- Hp, <- app_assoc. by apply get_u64_here. }
  assert (G2 : get_u64 (p ++ encode_run r ++ tl) (i * GpaRun_WIRE + 8) = Some (gl (run_len r))).
  { unfold GpaRun_WIRE, encode_run. rewrite <- Hp, <- app_assoc, (app_assoc p).
    replace (blen p + 8) with (blen (p ++ le_bytes 8 (ga (gpa r))))
      by (rewrite blen_app; unfold blen at 2; by rewrite length_le_bytes).
    by apply get_u64_here. }
  rewrite Hbuf, G1, G2. cbn [or_panic mbind outcome_bind]. rewrite app_assoc. unfold tl.
  rewrite (IH (p ++ encode_run r) (i + 1)); [|done|].
  - cbn [mbind outcome_bind]. by destruct r as [[] []].
  - rewrite blen_app, Hp. unfold blen. rewrite length_encode_run. lia.
Qed.

Lemma decode_from_total aux n : forall i,
  0 <= i -> (i + Z.of_nat n) * 16 <= blen aux ->
  exists runs, decode_from aux i n = Ok runs /\ length runs = n.
Proof.
  induction n as [|n IH]; intros i Hi Hl; [by exists []|]. cbn [decode_from].
  unfold GpaRun_WIRE.
  destruct (proj2 (get_le_is_Some 8 aux (i * 16))) as [a ->]; [lia|].
  destruct (proj2 (get_le_is_Some 8 aux (i * 16 + 8))) as [l ->]; [lia|].
  cbn [or_panic mbind outcome_bind].
  destruct (IH (i + 1)) as (runs & -> & Hlen); [lia|lia|].
  eexists. split; [reflexivity|]. simpl. by rewrite Hlen.
Qed.

(** The guest's page runs are read exactly: for any count and any buffer
    decoding does not panic, it refuses exactly a count whose byte length
    overflows or exceeds the buffer, otherwise returns that many runs, and it
    inverts the wire encoding whatever follows the runs. *)
Theorem runs_decode_exact aux count :
  0 <= count ->
  (exists r, decode aux count = Ok r /\
     (r = None <-> u64_max < count * 16 \/ blen aux < count * 16) /\
     (forall runs, r = Some runs -> Z.of_nat (length runs) = count)) /\
  (forall runs rest, Forall run_words runs -> Z.of_nat (length runs) * 16 <= u64_max ->
     decode (concat (map encode_run runs) ++ rest) (Z.of_nat (length runs)) = Ok (Some runs)).
Proof.
  intros Hc. split.
  - unfold decode, GpaRun_WIRE. destruct (checked_mul64 count 16) as [need|] eqn:E.
    + apply checked_mul64_Some in E as [-> E]. destruct (blen aux <? count * 16) eqn:E2; bools.
      * exists None. split; [done|]. split; [|done]. split; [by right|done].
      * destruct (decode_from_total aux (Z.to_nat count) 0) as (runs & -> & Hl); [lia|lia|].
        exists (Some runs). split; [done|]. split; [split; [done|lia]|]. intros ? [= <-]. lia.
    + exists None. split; [done|]. split; [|done]. split; [|done]. intros _. left.
      unfold checked_mul64 in E. destruct (count * 16 <=? u64_max) eqn:E2; [done|]. by bools.
  - intros runs rest Hw Hl. unfold decode, GpaRun_WIRE, checked_mul64.
    rewrite (proj2 (Z.leb_le _ _) Hl).
    assert (Hlen : blen (concat (map encode_run runs) ++ rest) = Z.of_nat (length runs) * 16 + blen rest).
    { rewrite blen_app. f_equal. clear. induction runs as [|r runs IH]; [done|].
      cbn [map concat]. rewrite blen_app, IH. unfold blen at 1. rewrite length_encode_run.
      cbn [length]. lia. }
    rewrite (proj2 (Z.ltb_ge _ _)) by (rewrite Hlen; pose proof (blen_nonneg rest); lia).
    rewrite Nat2Z.id. pose proof (decode_from_encode runs rest [] 0 Hw eq_refl) as Hd.
    cbn [app] in Hd. by rewrite Hd.
Qed.

Lemma runs_decode_exact_witness :
  decode (concat (map encode_run [MkRun {| ga := 4096 |} {| gl := 8192 |}]) ++ [1; 2]) 1
  = Ok (Some [MkRun {| ga := 4096 |} {| gl := 8192 |}]).
Proof.
  apply (proj2 (runs_decode_exact [] 0 ltac:(lia)) [MkRun {| ga := 4096 |} {| gl := 8192 |}] [1; 2]).
  - repeat constructor; vm_compute; congruence.
  - vm_compute. congruence.
Defined.
