(* ===== verification/HostPool.v ===== *)
(** * Registered guest pages (crates/vhost-user-nvrm/src/host_pool.rs)

    An arena stays mapped while the GPU may reach its pages.  A pool registers
    its arena with RM (an OS descriptor), and UVM maps the descriptor at the
    guest's GPU address; a forwarded OS-descriptor allocation registers its
    arena through the guest's own client.  [PinBudget] bounds the bytes of all
    of them across the sessions of the virtual machine.

    [PoolDriver] is the trait of the source, with the driver's state made
    explicit: [objects] are the OS descriptors RM holds and [ranges] the UVM
    mappings, each with the arena whose pages it can reach.  The identity of
    an arena is the number [a_id]; [dropped] collects the arenas whose address
    range has been given back to the host ([Drop for Arena]). *)
From S2P Require Import Prelude.
From S2P Require Import Mirror.
From S2P Require Import Arena.

Import GuestWords.

(** ** The driver *)

(** An OS descriptor belongs to the backing client of one session. *)
Definition ObjKey : Type := Z * Z.
(** A UVM range: session, token of the UVM descriptor, address. *)
Definition RangeKey : Type := Z * Z * Z.

Class PoolDriver (D : Type) := {
  (** session (its backing client) and arena; the new handle *)
  allocate : D -> Z -> Z -> option Z * D;
  grant : D -> ObjKey -> bool * D;
  create_range : D -> RangeKey -> Z -> bool * D;
  map_range : D -> RangeKey -> ObjKey -> Z -> bool * D;
  free_range : D -> RangeKey -> bool * D;
  free_object : D -> ObjKey -> bool * D;
  (** the guest's own UVM_FREE, forwarded and successful *)
  guest_free : D -> RangeKey -> D;
  objects : D -> gmap ObjKey Z;
  ranges : D -> gmap RangeKey Z;
}.

(** What the source relies on: a successful allocation registers the arena
    under the returned handle, a map can at most give its range a reference to
    the arena of its object (it may also fail half way, or drop what was
    mapped there), a successful free removes the reference it names, and
    nothing else adds one.  The handle of an allocation is new to its client. *)
Class PoolDriverLaws (D : Type) `{PoolDriver D} := {
  allocate_some d s a h d' :
    allocate d s a = (Some h, d') -> objects d !! (s, h) = None /\
    objects d' = <[(s, h) := a]> (objects d) /\ ranges d' = ranges d;
  allocate_none d s a d' :
    allocate d s a = (None, d') -> objects d' = objects d /\ ranges d' = ranges d;
  grant_refs d k ok d' :
    grant d k = (ok, d') -> objects d' = objects d /\ ranges d' = ranges d;
  create_refs d k l ok d' :
    create_range d k l = (ok, d') -> objects d' = objects d /\ ranges d' = ranges d;
  map_refs d k o l ok d' :
    map_range d k o l = (ok, d') -> objects d' = objects d /\
    (ranges d' ⊆ ranges d \/ exists a, objects d !! o = Some a /\
       ranges d' ⊆ <[k := a]> (ranges d));
  free_range_refs d k ok d' :
    free_range d k = (ok, d') -> objects d' = objects d /\
    ranges d' = if ok then delete k (ranges d) else ranges d;
  free_object_refs d k ok d' :
    free_object d k = (ok, d') -> ranges d' = ranges d /\
    objects d' = if ok then delete k (objects d) else objects d;
  guest_free_refs d k :
    objects (guest_free d k) = objects d /\ ranges (guest_free d k) = delete k (ranges d);
}.

(** ** Data *)

(** [lease] is zero once the charge has been detached. *)
Record Arena := MkArena { a_id : Z; a_len : Z; lease : Z }.

Record PoolMap := MkPoolMap {
  p_session : Z; p_token : Z; p_addr : GuestAddr; p_len : GuestLen; p_arena : Arena;
  osdesc : option Z; range_live : bool; active : bool; quarantined_charge : Z }.

Record PinBudget := MkPinBudget {
  pin_limit : Z; pin_used : Z; retained_bytes : Z;
  retained : list Arena; quarantine : list PoolMap }.

Record PoolState := MkPoolState {
  pools : list PoolMap; osdesc_arenas : gmap (Z * Z) Arena }.

Definition PinBudget_new (lim : Z) : outcome pool_error PinBudget :=
  if lim =? 0 then Err BudgetExceeded else Ok (MkPinBudget lim 0 0 [] []).

Definition range_key (p : PoolMap) : RangeKey := (p_session p, p_token p, ga (p_addr p)).
Definition pool_end (p : PoolMap) : Z := ga (p_addr p) + gl (p_len p).

(** What a pool is charged for. *)
Definition pool_charge (p : PoolMap) : Z := lease (p_arena p) + quarantined_charge p.

Section pool.
Context {D : Type} `{PoolDriver D}.
Context {M : Type} `{GuestMem M}.

(** All of the virtual machine; [states] by session. *)
Record World := MkWorld {
  budget : PinBudget; states : gmap Z PoolState; drv : D; next_arena : Z; dropped : list Z }.

(** ** Cleanup *)
Definition set_refs (p : PoolMap) (o : option Z) (r : bool) : PoolMap :=
  MkPoolMap (p_session p) (p_token p) (p_addr p) (p_len p) (p_arena p) o r false
    (quarantined_charge p).

(** UVM_FREE first, then RM_FREE; the first failure ends the attempt. *)
Definition cleanup (d : D) (p : PoolMap) : bool * D * PoolMap :=
  let '(ok, d, live) :=
    if range_live p then let '(ok, d) := free_range d (range_key p) in (ok, d, negb ok)
    else (true, d, false) in
  if negb ok then (false, d, set_refs p (osdesc p) live)
  else
    match osdesc p with
    | Some h =>
        let '(ok, d) := free_object d (p_session p, h) in
        (ok, d, set_refs p (if ok then None else Some h) false)
    | None => (true, d, set_refs p None false)
    end.

(** [retain_mut] over a list of pools: the selected ones are cleaned up; a
    pool leaves the list when that succeeded. *)
Fixpoint sweep (sel : PoolMap -> bool) (d : D) (l : list PoolMap)
  : list PoolMap * list PoolMap * D :=
  match l with
  | [] => ([], [], d)
  | p :: l' =>
      if sel p then
        let '(ok, d, p') := cleanup d p in
        let '(kept, gone, d) := sweep sel d l' in
        if ok then (kept, p' :: gone, d) else (p' :: kept, gone, d)
      else
        let '(kept, gone, d) := sweep sel d l' in (p :: kept, gone, d)
  end.

Definition charges (l : list PoolMap) : Z := foldr (fun p acc => pool_charge p + acc) 0 l.
Definition arena_ids (l : list PoolMap) : list Z := map (fun p => a_id (p_arena p)) l.

Definition set_used (b : PinBudget) (u : Z) : PinBudget :=
  MkPinBudget (pin_limit b) u (retained_bytes b) (retained b) (quarantine b).

(** Pools that left a list are dropped: their leases and quarantined charges
    return to the budget and their arenas are unmapped. *)
Definition drop_pools (w : World) (gone : list PoolMap) (d : D) : World :=
  MkWorld (set_used (budget w) (pin_used (budget w) - charges gone)) (states w) d
    (next_arena w) (arena_ids gone ++ dropped w).

(** [PinBudget::retry_cleanup]. *)
Definition budget_retry (w : World) : World :=
  let '(kept, gone, d) := sweep (fun _ => true) (drv w) (quarantine (budget w)) in
  let b := budget w in
  drop_pools (MkWorld (MkPinBudget (pin_limit b) (pin_used b) (retained_bytes b) (retained b) kept)
                (states w) d (next_arena w) (dropped w)) gone d.

Definition set_drv (w : World) (d : D) : World :=
  MkWorld (budget w) (states w) d (next_arena w) (dropped w).

Definition set_state (w : World) (s : Z) (st : PoolState) : World :=
  MkWorld (budget w) (<[s := st]> (states w)) (drv w) (next_arena w) (dropped w).

(** Sweep the pools of one session. *)
Definition session_sweep (sel : PoolMap -> bool) (w : World) (s : Z) (st : PoolState)
  : World * PoolState :=
  let '(kept, gone, d) := sweep sel (drv w) (pools st) in
  let st := MkPoolState kept (osdesc_arenas st) in
  (drop_pools (set_state w s st) gone d, st).

(** [PoolState::retry_cleanup]. *)
Definition retry_cleanup (w : World) (s : Z) (st : PoolState) : World * PoolState :=
  session_sweep (fun p => negb (active p)) (budget_retry w) s st.

(** ** Arenas *)
Definition pin_reserve (b : PinBudget) (n : Z) : outcome pool_error PinBudget :=
  fail_if! n =? 0 with EmptyArena;
  match checked_add64 (pin_used b) n with
  | Some u => if u <=? pin_limit b then Ok (set_used b u) else Err BudgetExceeded
  | None => Err BudgetExceeded
  end.

(** The surroundings of [Arena::build] (the page size, the limit for one
    arena, the system calls, guest RAM) and the runs of the request. *)
Record ArenaCall := MkArenaCall {
  page_size : Z; max_pin : Z; calls : ArenaEnv; guest : M; runs : list GpaRun }.

(** [PoolState::arena]: a failed build gives the lease back. *)
Definition arena (w : World) (c : ArenaCall) (total : GuestLen)
  : outcome pool_error Arena * World :=
  let w := budget_retry w in
  match registration_bytes (page_size c) (gl total) with
  | Ok n =>
      match pin_reserve (budget w) n with
      | Ok b =>
          match (build (page_size c) (max_pin c) (calls c) (guest c) (runs c) total).2 with
          | Ok ln =>
              (Ok (MkArena (next_arena w) ln n),
               MkWorld b (states w) (drv w) (next_arena w + 1) (dropped w))
          | Err e => (Err e, w)
          | Panic => (Panic, w)
          end
      | Err e => (Err e, w)
      | Panic => (Panic, w)
      end
  | Err e => (Err e, w)
  | Panic => (Panic, w)
  end.

(** [Drop for Arena] with its lease. *)
Definition drop_arena (w : World) (a : Arena) : World :=
  MkWorld (set_used (budget w) (pin_used (budget w) - lease a)) (states w) (drv w)
    (next_arena w) (a_id a :: dropped w).

(** [PinBudget::retain]: the charge is detached and counted as retained. *)
Definition retain (w : World) (a : Arena) : World :=
  let b := budget w in
  MkWorld (MkPinBudget (pin_limit b) (pin_used b) (retained_bytes b + lease a)
             (retained b ++ [MkArena (a_id a) (a_len a) 0]) (quarantine b))
    (states w) (drv w) (next_arena w) (dropped w).

(** [PinBudget::quarantine]. *)
Definition detach (p : PoolMap) : PoolMap :=
  let a := p_arena p in
  MkPoolMap (p_session p) (p_token p) (p_addr p) (p_len p) (MkArena (a_id a) (a_len a) 0)
    (osdesc p) (range_live p) (active p) (lease a).

Definition quarantine_all (w : World) (ps : list PoolMap) : World :=
  let b := budget w in
  MkWorld (MkPinBudget (pin_limit b) (pin_used b) (retained_bytes b) (retained b)
             (quarantine b ++ map detach ps))
    (states w) (drv w) (next_arena w) (dropped w).

(** ** Backing a pool *)
Definition overlaps_pool (token lo hi : Z) (p : PoolMap) : may_panic bool :=
  if negb (p_token p =? token) then Ok false
  else pe ← or_panic (addr_end (p_addr p) (p_len p));
       Ok ((lo <? ga pe) && (ga (p_addr p) <? hi)).

Fixpoint any_overlap (token lo hi : Z) (ps : list PoolMap) : may_panic bool :=
  match ps with
  | [] => Ok false
  | p :: ps' =>
      hit ← overlaps_pool token lo hi p;
      if hit : bool then Ok true else any_overlap token lo hi ps'
  end.

(** The closure [setup]: each resource is recorded as soon as it exists. *)
Definition setup (d : D) (p : PoolMap) : bool * D * PoolMap :=
  let mk o r a := MkPoolMap (p_session p) (p_token p) (p_addr p) (p_len p) (p_arena p) o r a
                    (quarantined_charge p) in
  match allocate d (p_session p) (a_id (p_arena p)) with
  | (None, d) => (false, d, p)
  | (Some h, d) =>
      match grant d (p_session p, h) with
      | (false, d) => (false, d, mk (Some h) false false)
      | (true, d) =>
          match create_range d (range_key p) (gl (p_len p)) with
          | (false, d) => (false, d, mk (Some h) false false)
          | (true, d) =>
              match map_range d (range_key p) (p_session p, h) (gl (p_len p)) with
              | (false, d) => (false, d, mk (Some h) true false)
              | (true, d) => (true, d, mk (Some h) true true)
              end
          end
      end
  end.

(** The rest of [back_pool_for] once the arena exists. *)
Definition finish_pool (w : World) (s : Z) (st : PoolState) (token : Z) (a : Arena)
    (addr : GuestAddr) (len : GuestLen) : outcome pool_error unit * World :=
  let '(ok, d, p) := setup (drv w) (MkPoolMap s token addr len a None false false 0) in
  let w := set_drv w d in
  if ok then (Ok tt, set_state w s (MkPoolState (pools st ++ [p]) (osdesc_arenas st)))
  else
    let '(ok, d, p) := cleanup (drv w) p in
    let w := set_drv w d in
    if ok then (Err SetupFailed, drop_arena w (p_arena p))
    else (Err SetupFailed, set_state w s (MkPoolState (pools st ++ [p]) (osdesc_arenas st))).

Definition back_pool_for (w : World) (s token : Z) (addr : GuestAddr) (len : GuestLen)
    (c : ArenaCall) (dup_ok driver_ok : bool) : outcome pool_error unit * World :=
  match states w !! s with
  | None => (Err DriverFailed, w)
  | Some st =>
      match addr_end addr len with
      | None => (Err RangeOverflow, w)
      | Some e =>
          if is_zero len || negb (ga addr mod 4096 =? 0) || negb (gl len mod 4096 =? 0)
          then (Err NotWholePages, w)
          else
            let '(w, st) := retry_cleanup w s st in
            match any_overlap token (ga addr) (ga e) (pools st) with
            | Ok false =>
                match arena w c len with
                | (Ok a, w) =>
                    if negb dup_ok then (Err DupFailed, drop_arena w a)
                    else if negb driver_ok then (Err DriverFailed, drop_arena w a)
                    else finish_pool w s st token a addr len
                | (Err e, w) => (Err e, w)
                | (Panic, w) => (Panic, w)
                end
            | Ok true => (Err Overlap, w)
            | _ => (Panic, w)
            end
      end
  end.

(** ** Releasing *)
Definition matches_pool (token : Z) (addr : option GuestAddr) (p : PoolMap) : bool :=
  (p_token p =? token) &&
  match addr with Some a => ga (p_addr p) =? ga a | None => true end.

(** The guest's UVM_FREE took effect, then [release_uvm_range]. *)
Definition forget_range (token : Z) (addr : GuestAddr) (p : PoolMap) : PoolMap :=
  if (p_token p =? token) && (ga (p_addr p) =? ga addr)
  then set_refs p (osdesc p) false else p.

Definition release_uvm_range (w : World) (s token : Z) (addr : GuestAddr) : World :=
  match states w !! s with
  | None => w
  | Some st =>
      let d := guest_free (drv w) (s, token, ga addr) in
      let w := set_drv w d in
      let st := MkPoolState (map (forget_range token addr) (pools st)) (osdesc_arenas st) in
      (session_sweep (matches_pool token (Some addr)) w s st).1
  end.

Definition close_uvm (w : World) (s token : Z) : World :=
  match states w !! s with
  | None => w
  | Some st => (session_sweep (matches_pool token None) w s st).1
  end.

(** [keep_osdesc_arena]: the arena of a request becomes that of the object RM
    made of it. *)
Definition keep_osdesc_arena (w : World) (s root h : Z) (a : Arena) : World :=
  match states w !! s with
  | None => w
  | Some st =>
      let w := set_state w s (MkPoolState (pools st) (<[(root, h) := a]> (osdesc_arenas st))) in
      match osdesc_arenas st !! (root, h) with
      | Some previous => retain w previous
      | None => w
      end
  end.

(** A forwarded OS-descriptor allocation: the request owns the arena until RM
    answers; [rm_ok] says whether RM registered it under [(root, h)]. *)
Definition forward_osdesc (w : World) (s root h : Z) (c : ArenaCall) (total : GuestLen)
    (rm_ok : bool) : World :=
  match states w !! s with
  | None => w
  | Some _ =>
      match arena w c total with
      | (Ok a, w) => if rm_ok then keep_osdesc_arena w s root h a else drop_arena w a
      | (_, w) => w
      end
  end.

Definition drop_osdesc_arena (w : World) (s root h : Z) : World :=
  match states w !! s with
  | None => w
  | Some st =>
      match osdesc_arenas st !! (root, h) with
      | None => w
      | Some a =>
          retain (set_state w s (MkPoolState (pools st) (delete (root, h) (osdesc_arenas st)))) a
      end
  end.

(** [drop_osdesc_client]: every arena of one client. *)
Definition client_arenas (st : PoolState) (root : Z) : list Z :=
  map snd (List.filter (fun k => k.1 =? root) (map fst (map_to_list (osdesc_arenas st)))).

Definition drop_osdesc_client (w : World) (s root : Z) : World :=
  match states w !! s with
  | None => w
  | Some st => foldl (fun w h => drop_osdesc_arena w s root h) w (client_arenas st root)
  end.

(** [write_guest_u32_for]: where the word is stored, arena and offset, if it
    is. *)
Fixpoint write_in_pools (ps : list PoolMap) (token : Z) (va : GuestAddr) (ve : GuestAddr)
  : option (Z * Z) :=
  match ps with
  | [] => None
  | p :: ps' =>
      if negb (active p) || negb (p_token p =? token) then write_in_pools ps' token va ve
      else match addr_end (p_addr p) (p_len p) with
           | None => write_in_pools ps' token va ve
           | Some pe =>
               if (ga (p_addr p) <=? ga va) && (ga ve <=? ga pe) then
                 let off := ga va - ga (p_addr p) in
                 if negb (off mod 4 =? 0) then None else Some (a_id (p_arena p), off)
               else write_in_pools ps' token va ve
           end
  end.

Definition write_guest_u32_for (st : PoolState) (token : Z) (va : GuestAddr) : option (Z * Z) :=
  match addr_end va {| gl := 4 |} with
  | None => None
  | Some ve => write_in_pools (pools st) token va ve
  end.

Fixpoint retain_all (w : World) (l : list Arena) : World :=
  match l with [] => w | a :: l' => retain_all (retain w a) l' end.

(** [Drop for PoolState]. *)
Definition end_session (w : World) (s : Z) : World :=
  match states w !! s with
  | None => w
  | Some st =>
      let '(kept, gone, d) := sweep (fun _ => true) (drv w) (pools st) in
      let w := MkWorld (budget w) (delete s (states w)) d (next_arena w) (dropped w) in
      let w := drop_pools w gone d in
      let w := quarantine_all w kept in
      retain_all w (map snd (map_to_list (osdesc_arenas st)))
  end.

Inductive PoolOp :=
| NewSession (s : Z)
| BackPool (s token : Z) (addr : GuestAddr) (len : GuestLen) (c : ArenaCall) (dup_ok driver_ok : bool)
| ReleaseRange (s token : Z) (addr : GuestAddr)
| CloseUvm (s token : Z)
| ForwardOsdesc (s root h : Z) (c : ArenaCall) (total : GuestLen) (rm_ok : bool)
| DropOsdesc (s root h : Z)
| DropOsdescClient (s root : Z)
| RetryCleanup
| EndSession (s : Z).

(** Session numbers name one session for ever (an incarnation). *)
Definition pool_step (w : World) (op : PoolOp) : World :=
  match op with
  | NewSession s =>
      match states w !! s with
      | None => set_state w s (MkPoolState [] ∅)
      | Some _ => w
      end
  | BackPool s t a l c du dr => (back_pool_for w s t a l c du dr).2
  | ReleaseRange s t a => release_uvm_range w s t a
  | CloseUvm s t => close_uvm w s t
  | ForwardOsdesc s r h c t ok => forward_osdesc w s r h c t ok
  | DropOsdesc s r h => drop_osdesc_arena w s r h
  | DropOsdescClient s r => drop_osdesc_client w s r
  | RetryCleanup => budget_retry w
  | EndSession s => end_session w s
  end.

Fixpoint pool_run (w : World) (ops : list PoolOp) : World :=
  match ops with [] => w | op :: ops' => pool_run (pool_step w op) ops' end.

Definition world_new (lim : Z) (d : D) : World :=
  MkWorld (MkPinBudget lim 0 0 [] []) ∅ d 0 [].
End pool.
Arguments World D : clear implicits.

(** ** Ownership *)
Definition arena_occ (id : Z) (a : Arena) : Z := if a_id a =? id then 1 else 0.

Definition st_charge (st : PoolState) : Z := charges (pools st) + gsum lease (osdesc_arenas st).
Definition st_occ (id : Z) (st : PoolState) : Z :=
  occ id (arena_ids (pools st)) + gsum (arena_occ id) (osdesc_arenas st).

Definition owns_obj (p : PoolMap) (k : ObjKey) (a : Z) : Prop :=
  osdesc p = Some k.2 /\ p_session p = k.1 /\ a_id (p_arena p) = a.

Definition owns_range (p : PoolMap) (k : RangeKey) (a : Z) : Prop :=
  range_live p = true /\ range_key p = k /\ a_id (p_arena p) = a.

Definition nonneg (p : PoolMap) : Prop := 0 <= lease (p_arena p) /\ 0 <= quarantined_charge p.

(** The pools of a session that is open are charged through their lease. *)
Definition open_pool (s : Z) (p : PoolMap) : Prop :=
  p_session p = s /\ 0 <= lease (p_arena p) /\ quarantined_charge p = 0 /\
  a_len (p_arena p) = gl (p_len p) /\ 0 <= ga (p_addr p) /\ pool_end p <= u64_max.

(** What cleaning up does not touch. *)
Definition same_pool (p p' : PoolMap) : Prop :=
  p_arena p' = p_arena p /\ quarantined_charge p' = quarantined_charge p /\
  p_session p' = p_session p /\ p_len p' = p_len p /\ p_addr p' = p_addr p.

Definition stable (P : PoolMap -> Prop) : Prop := forall p p', same_pool p p' -> P p -> P p'.

Lemma charges_app l k : charges (l ++ k) = charges l + charges k.
Proof. induction l as [|p l IH]; simpl; [done|]. rewrite IH. lia. Qed.

Lemma charges_cons p l : charges (p :: l) = pool_charge p + charges l.
Proof. done. Qed.

Lemma stable_nonneg : stable nonneg.
Proof. intros p p' (Ha & Hq & _). unfold nonneg. by rewrite Ha, Hq. Qed.

Lemma stable_open s : stable (open_pool s).
Proof. intros p p' (Ha & Hq & Hs & Hl & Hd). unfold open_pool, pool_end. by rewrite Ha, Hq, Hs, Hl, Hd. Qed.

Lemma open_nonneg s l : Forall (open_pool s) l -> Forall nonneg l.
Proof. intros Hl. eapply Forall_impl; [exact Hl|]. intros p (_ & ? & ? & _). unfold nonneg. lia. Qed.

Lemma charges_nonneg l : Forall nonneg l -> 0 <= charges l.
Proof. induction 1 as [|p l [? ?] _ IH]; simpl; [lia|]. unfold pool_charge. lia. Qed.

Section ownership.
Context {D : Type} `{PoolDriverLaws D}.

(** The UVM half of [cleanup]. *)
Lemma cleanup_range d p ok d' live :
  (if range_live p then let '(ok, d) := free_range d (range_key p) in (ok, d, negb ok)
   else (true, d, false)) = (ok, d', live) ->
  objects d' = objects d /\ ranges d' ⊆ ranges d /\ live = negb ok /\
  (ok = true -> forall k a, ranges d' !! k = Some a -> ~ owns_range p k a) /\
  (ok = false -> range_live p = true).
Proof.
  destruct (range_live p) eqn:Hl.
  - destruct (free_range d (range_key p)) as [ok1 d1] eqn:Hf. intros [= <- <- <-].
    apply free_range_refs in Hf as [-> ->]. destruct ok1; [|by repeat split].
    split; [done|]. split; [apply delete_subseteq|]. split; [done|]. split; [|done].
    intros _ k a Hk (_ & <- & _). by rewrite lookup_delete_eq in Hk.
  - intros [= <- <- <-]. repeat split; try done. intros _ k a _ (? & _). congruence.
Qed.

(** Cleaning up keeps the pool's identity and gives up a reference only when
    the driver has. *)
Record cleaned (d d' : D) (ok : bool) (p p' : PoolMap) : Prop := {
  cl_same : same_pool p p';
  cl_objects : objects d' ⊆ objects d;
  cl_ranges : ranges d' ⊆ ranges d;
  cl_obj k a : objects d' !! k = Some a -> owns_obj p k a -> owns_obj p' k a /\ ok = false;
  cl_range k a : ranges d' !! k = Some a -> owns_range p k a -> owns_range p' k a /\ ok = false;
}.

Lemma cleanup_spec d p ok d' p' : cleanup d p = (ok, d', p') -> cleaned d d' ok p p'.
Proof.
  unfold cleanup. destruct (if range_live p then _ else _) as [[ok1 d1] live] eqn:E.
  apply cleanup_range in E as (Ho1 & Hr1 & -> & Hfreed & Hstill).
  destruct ok1; cbn [negb].
  - specialize (Hfreed eq_refl). destruct (osdesc p) as [h|] eqn:Hd.
    + destruct (free_object d1 (p_session p, h)) as [ok2 d2] eqn:Hf.
      apply free_object_refs in Hf as [Hr2 Ho2]. intros [= <- <- <-].
      split; [done| | | |].
      * rewrite Ho2, Ho1. destruct ok2; [apply delete_subseteq|done].
      * by rewrite Hr2.
      * intros k a Hk (Hs & Hses & Ha). rewrite Ho2, Ho1 in Hk.
        assert (Hkey : k = (p_session p, h)) by (destruct k; cbn in *; congruence).
        destruct ok2; [by rewrite Hkey, lookup_delete_eq in Hk|].
        split; [|done]. split; [cbn; congruence|done].
      * intros k a Hk Hown. rewrite Hr2 in Hk. by destruct (Hfreed k a Hk Hown).
    + intros [= <- <- <-]. split; [done|by rewrite Ho1|done| |].
      * intros k a _ (Hs & _). congruence.
      * intros k a Hk Hown. by destruct (Hfreed k a Hk Hown).
  - specialize (Hstill eq_refl). intros [= <- <- <-].
    split; [done|by rewrite Ho1|done| |].
    + intros k a _ Hown. by split.
    + intros k a _ (Hl & Hkey & Ha). split; [|done]. by split.
Qed.

(** A sweep of a list. *)
Record swept (d d' : D) (l kept gone : list PoolMap) : Prop := {
  sw_objects : objects d' ⊆ objects d;
  sw_ranges : ranges d' ⊆ ranges d;
  sw_obj k a p : objects d' !! k = Some a -> p ∈ l -> owns_obj p k a ->
                 exists p', p' ∈ kept /\ owns_obj p' k a;
  sw_range k a p : ranges d' !! k = Some a -> p ∈ l -> owns_range p k a ->
                   exists p', p' ∈ kept /\ owns_range p' k a;
  sw_charges : charges l = charges kept + charges gone;
  sw_occ id : occ id (arena_ids l) = occ id (arena_ids kept) + occ id (arena_ids gone);
  sw_stable P : stable P -> Forall P l -> Forall P kept /\ Forall P gone;
}.

Lemma sweep_spec sel l : forall d kept gone d',
  sweep sel d l = (kept, gone, d') -> swept d d' l kept gone.
Proof.
  induction l as [|p l IH]; intros d kept gone d'; simpl.
  { intros [= <- <- <-]. split; try done; set_solver. }
  destruct (sel p).
  - destruct (cleanup d p) as [[ok d1] p'] eqn:Hc. destruct (sweep sel d1 l) as [[kp gn] d2] eqn:Hs.
    apply cleanup_spec in Hc. apply IH in Hs.
    pose proof Hc as [(Ca & Cq & Cs & Cl & Cd) Co Cr Cob Crg]. pose proof Hs as [So Sr Sob Srg Sc Socc Sn].
    assert (Hch : pool_charge p' = pool_charge p) by (unfold pool_charge; by rewrite Ca, Cq).
    assert (Hgoal : forall k1 g1, (kept = k1 /\ gone = g1) ->
      k1 = (if ok then kp else p' :: kp) -> g1 = (if ok then p' :: gn else gn) -> d' = d2 ->
      swept d d' (p :: l) kept gone).
    { intros k1 g1 [-> ->] -> -> ->. split.
      - by etransitivity.
      - by etransitivity.
      - intros k a q Hk [->|Hq]%elem_of_cons Hown.
        + destruct (Cob k a) as [Hp' ->]; [by eapply lookup_weaken|done|].
          exists p'. split; [by left|done].
        + destruct (Sob k a q Hk Hq Hown) as (q' & Hq' & Hown'). exists q'.
          split; [destruct ok; [done|by right]|done].
      - intros k a q Hk [->|Hq]%elem_of_cons Hown.
        + destruct (Crg k a) as [Hp' ->]; [by eapply lookup_weaken|done|].
          exists p'. split; [by left|done].
        + destruct (Srg k a q Hk Hq Hown) as (q' & Hq' & Hown'). exists q'.
          split; [destruct ok; [done|by right]|done].
      - destruct ok; simpl; rewrite Sc, Hch; lia.
      - intros id. specialize (Socc id). destruct ok; simpl; rewrite Socc, Ca; lia.
      - intros P HP [Hp Hl]%Forall_cons_1. destruct (Sn P HP Hl).
        assert (P p') by (by eapply HP; [split|]). destruct ok; split; auto. }
    destruct ok; intros [= <- <- <-]; by eapply Hgoal.
  - destruct (sweep sel d l) as [[kp gn] d2] eqn:Hs. intros [= <- <- <-].
    apply IH in Hs as [So Sr Sob Srg Sc Socc Sn]. split; [done|done| | | | |].
    + intros k a q Hk [->|Hq]%elem_of_cons Hown; [exists p; split; [by left|done]|].
      destruct (Sob k a q Hk Hq Hown) as (q' & ? & ?). exists q'. split; [by right|done].
    + intros k a q Hk [->|Hq]%elem_of_cons Hown; [exists p; split; [by left|done]|].
      destruct (Srg k a q Hk Hq Hown) as (q' & ? & ?). exists q'. split; [by right|done].
    + simpl. lia.
    + intros id. simpl. rewrite (Socc id). lia.
    + intros P HP [Hp Hl]%Forall_cons_1. destruct (Sn P HP Hl). split; [by constructor|done].
Qed.
End ownership.

#[local] Arguments charges : simpl never.
#[local] Arguments occ : simpl never.

#[local] Arguments arena_ids : simpl never.

(** ** The invariant *)
(** Leases of arenas that a request holds at the moment. *)
Definition leases (x : list Arena) : Z := foldr (fun a acc => lease a + acc) 0 x.
#[local] Arguments leases : simpl never.

Lemma leases_cons a x : leases (a :: x) = lease a + leases x.
Proof. done. Qed.

Section world.
Context {D : Type} `{PoolDriverLaws D}.
Implicit Types w : World D.

Definition own (w : World D) (p : PoolMap) : Prop :=
  p ∈ quarantine (budget w) \/ exists s st, states w !! s = Some st /\ p ∈ pools st.

Definition state_ok (s : Z) (st : PoolState) : Prop :=
  Forall (open_pool s) (pools st) /\ map_Forall (fun _ a => 0 <= lease a) (osdesc_arenas st).

(** [x] are the arenas in the hands of the request being executed. *)
Record world_ok (x : list Arena) (w : World D) : Prop := {
  (** the budget is the sum of what is held *)
  wk_used : pin_used (budget w) =
    gsum st_charge (states w) + charges (quarantine (budget w)) + retained_bytes (budget w)
    + leases x;
  wk_limit : pin_used (budget w) <= pin_limit (budget w);
  (** every arena ever made is held in exactly one place or dropped once *)
  wk_occ id :
    gsum (st_occ id) (states w) + occ id (arena_ids (quarantine (budget w)))
    + occ id (map a_id (retained (budget w))) + occ id (dropped w) + occ id (map a_id x)
    = if (0 <=? id) && (id <? next_arena w) then 1 else 0;
  wk_next : 0 <= next_arena w;
  (** every reference of the driver belongs to a pool that is still held *)
  wk_obj k a : objects (drv w) !! k = Some a -> exists p, own w p /\ owns_obj p k a;
  wk_range k a : ranges (drv w) !! k = Some a -> exists p, own w p /\ owns_range p k a;
  wk_quarantine : Forall nonneg (quarantine (budget w));
  wk_states : map_Forall state_ok (states w);
  wk_retained : 0 <= retained_bytes (budget w);
  wk_hand : Forall (fun a => 0 <= lease a) x;
}.

Lemma own_set_state w s st p :
  own (set_state w s st) p <->
  p ∈ quarantine (budget w) \/ p ∈ pools st \/
  exists s' st', s' <> s /\ states w !! s' = Some st' /\ p ∈ pools st'.
Proof.
  unfold own, set_state. cbn. split.
  - intros [Hq|(s' & st' & [[<- <-]|[Hne Hs]]%lookup_insert_Some & Hp)]; [by left|by right; left|].
    right. right. by exists s', st'.
  - intros [Hq|[Hp|(s' & st' & Hne & Hs & Hp)]]; [by left| |]; right.
    + exists s, st. by rewrite lookup_insert_eq.
    + exists s', st'. by rewrite lookup_insert_ne.
Qed.

Lemma set_state_id w s st : states w !! s = Some st -> set_state w s st = w.
Proof. intros Hs. destruct w. unfold set_state. cbn in *. by rewrite insert_id. Qed.

(** Sweeping the pools of a session keeps the invariant. *)
Lemma sweep_state_ok x sel w s st kept gone d :
  world_ok x (set_state w s st) -> sweep sel (drv w) (pools st) = (kept, gone, d) ->
  world_ok x (drop_pools (set_state w s (MkPoolState kept (osdesc_arenas st))) gone d).
Proof.
  intros [Hu Hl Hocc Hn Hobj Hrng Hq Hst Hr Hx] Hsw. cbn in *.
  apply sweep_spec in Hsw as [So Sr Sob Srg Sc Socc Sn].
  pose proof (Hst s st (lookup_insert_eq _ _ _)) as [Hpn Han].
  destruct (Sn _ (stable_open s) Hpn) as [Hkept Hgone].
  pose proof (charges_nonneg gone (open_nonneg s gone Hgone)).
  split; cbn.
  - rewrite Hu, (gsum_replace st_charge (states w) s st (MkPoolState kept (osdesc_arenas st))).
    assert (st_charge (MkPoolState kept (osdesc_arenas st)) = st_charge st - charges gone)
      by (unfold st_charge; cbn [pools osdesc_arenas]; lia). lia.
  - lia.
  - intros id. rewrite <- (Hocc id),
      (gsum_replace (st_occ id) (states w) s st (MkPoolState kept (osdesc_arenas st))).
    assert (st_occ id (MkPoolState kept (osdesc_arenas st)) = st_occ id st - occ id (arena_ids gone))
      by (unfold st_occ; cbn [pools osdesc_arenas]; specialize (Socc id); lia).
    rewrite occ_app. lia.
  - done.
  - intros k a Hk. destruct (Hobj k a) as (p & Hp & Hown); [by eapply lookup_weaken|].
    apply own_set_state in Hp as [Hp|[Hp|Hp]].
    + exists p. split; [by left|done].
    + destruct (Sob k a p Hk Hp Hown) as (p' & Hp' & Hown'). exists p'. split; [|done].
      right. exists s, (MkPoolState kept (osdesc_arenas st)). cbn. by rewrite lookup_insert_eq.
    + destruct Hp as (s' & st' & Hne & Hs' & Hp). exists p. split; [|done]. right.
      exists s', st'. cbn. by rewrite lookup_insert_ne.
  - intros k a Hk. destruct (Hrng k a) as (p & Hp & Hown); [by eapply lookup_weaken|].
    apply own_set_state in Hp as [Hp|[Hp|Hp]].
    + exists p. split; [by left|done].
    + destruct (Srg k a p Hk Hp Hown) as (p' & Hp' & Hown'). exists p'. split; [|done].
      right. exists s, (MkPoolState kept (osdesc_arenas st)). cbn. by rewrite lookup_insert_eq.
    + destruct Hp as (s' & st' & Hne & Hs' & Hp). exists p. split; [|done]. right.
      exists s', st'. cbn. by rewrite lookup_insert_ne.
  - done.
  - intros s' st' [[<- <-]|[Hne Hs']]%lookup_insert_Some; [by split|].
    apply (Hst s'). by rewrite lookup_insert_ne.
  - done.
  - done.
Qed.

Lemma session_sweep_ok x sel w s st w' st' :
  world_ok x (set_state w s st) -> session_sweep sel w s st = (w', st') ->
  world_ok x w' /\ states w' !! s = Some st'.
Proof.
  intros Hw. unfold session_sweep. destruct (sweep sel (drv w) (pools st)) as [[kp gn] d] eqn:E.
  intros [= <- <-]. split; [by eapply sweep_state_ok|]. cbn. by rewrite lookup_insert_eq.
Qed.

(** The same for the quarantine. *)
Lemma budget_retry_ok x w :
  world_ok x w -> world_ok x (budget_retry w) /\ states (budget_retry w) = states w.
Proof.
  intros [Hu Hl Hocc Hn Hobj Hrng Hq Hst Hr Hx]. unfold budget_retry.
  destruct (sweep _ (drv w) (quarantine (budget w))) as [[kp gn] d] eqn:E.
  apply sweep_spec in E as [So Sr Sob Srg Sc Socc Sn]. destruct (Sn _ stable_nonneg Hq) as [Hkept Hgone].
  pose proof (charges_nonneg gn Hgone). split; [|done]. split; cbn.
  - lia.
  - lia.
  - intros id. rewrite <- (Hocc id), occ_app. specialize (Socc id). lia.
  - done.
  - intros k a Hk. destruct (Hobj k a) as (p & [Hp|Hp] & Hown); [by eapply lookup_weaken| |].
    + destruct (Sob k a p Hk Hp Hown) as (p' & ? & ?). exists p'. split; [by left|done].
    + exists p. split; [by right|done].
  - intros k a Hk. destruct (Hrng k a) as (p & [Hp|Hp] & Hown); [by eapply lookup_weaken| |].
    + destruct (Srg k a p Hk Hp Hown) as (p' & ? & ?). exists p'. split; [by left|done].
    + exists p. split; [by right|done].
  - done.
  - done.
  - done.
  - done.
Qed.

(** *** Arenas in hand *)
Lemma drop_arena_ok a x w : world_ok (a :: x) w -> world_ok x (drop_arena w a).
Proof.
  intros [Hu Hl Hocc Hn Hobj Hrng Hq Hst Hr Hx]. apply Forall_cons_1 in Hx as [Ha Hx].
  rewrite leases_cons in Hu. split; cbn; try done.
  - lia.
  - lia.
  - intros id. rewrite <- (Hocc id). cbn [map]. rewrite !occ_cons. lia.
Qed.

Lemma retain_ok a x w : world_ok (a :: x) w -> world_ok x (retain w a).
Proof.
  intros [Hu Hl Hocc Hn Hobj Hrng Hq Hst Hr Hx]. apply Forall_cons_1 in Hx as [Ha Hx].
  rewrite leases_cons in Hu. split; cbn; try done.
  - lia.
  - intros id. rewrite <- (Hocc id), map_app, occ_app. cbn [map]. rewrite !occ_cons. cbn.
    change (occ id []) with 0. lia.
  - lia.
Qed.

Lemma retain_all_ok l x w : world_ok (l ++ x) w -> world_ok x (retain_all w l).
Proof.
  revert w. induction l as [|a l IH]; intros w Hw; simpl; [done|]. by apply IH, retain_ok.
Qed.

Lemma arena_made {M} `{GuestMem M} x w (c : ArenaCall (M:=M)) total a w' :
  world_ok x w -> 0 < page_size c -> 0 <= gl total ->
  arena w c total = (Ok a, w') ->
  world_ok (a :: x) w' /\ states w' = states w /\ a_len a = gl total.
Proof.
  intros Hw Hpg Ht. unfold arena. destruct (budget_retry_ok x w Hw) as [Hw1 Hs].
  set (w1 := budget_retry w) in *. unfold registration_bytes, pin_reserve.
  destruct (gl total =? 0) eqn:E0; [done|]. bools.
  destruct (checked_add64 (gl total) (page_size c - 1)) as [rd|] eqn:Er; [|done]. simpl.
  apply checked_add64_Some in Er as [-> Er].
  set (n := (gl total + (page_size c - 1)) / page_size c * page_size c).
  assert (Hn : 0 < n).
  { unfold n. apply Z.mul_pos_pos; [|done]. apply Z.div_str_pos. lia. }
  rewrite (proj2 (Z.eqb_neq n 0)) by lia.
  destruct (checked_add64 (pin_used (budget w1)) n) as [u|] eqn:Eu; [|done].
  apply checked_add64_Some in Eu as [-> Eu].
  destruct (pin_used (budget w1) + n <=? pin_limit (budget w1)) eqn:El; [|done]. bools.
  destruct (build _ _ _ _ _ _).2 as [ln|e|] eqn:Hb; [|done|done]. intros [= <- <-].
  split; [|split; [done|by apply build_len in Hb]].
  destruct Hw1 as [Hu Hl Hocc Hnx Hobj Hrng Hq Hst Hr Hx]. split; cbn; try done.
  - rewrite leases_cons. cbn. lia.
  - intros id. specialize (Hocc id). rewrite occ_cons. cbn.
    destruct (next_arena w1 =? id) eqn:E1; destruct (0 <=? id) eqn:E2;
      destruct (id <? next_arena w1) eqn:E3; destruct (id <? next_arena w1 + 1) eqn:E4;
      bools; cbn in *; lia.
  - lia.
  - constructor; [cbn; lia|done].
Qed.

Lemma arena_failed {M} `{GuestMem M} x w (c : ArenaCall (M:=M)) total r w' :
  world_ok x w -> arena w c total = (r, w') -> (forall a, r <> Ok a) ->
  world_ok x w' /\ states w' = states w.
Proof.
  intros Hw. unfold arena. destruct (budget_retry_ok x w Hw) as [Hw1 Hs].
  repeat case_match; intros [= <- <-] Hr; try done. by destruct (Hr _ eq_refl).
Qed.

(** *** Backing a pool *)

(** Giving up references keeps the invariant. *)
Lemma set_drv_ok x w d :
  world_ok x w ->
  (forall k a, objects d !! k = Some a -> objects (drv w) !! k = Some a) ->
  (forall k a, ranges d !! k = Some a -> ranges (drv w) !! k = Some a) ->
  world_ok x (set_drv w d).
Proof.
  intros [Hu Hl Hocc Hn Hobj Hrng Hq Hst Hr Hx] Ho Hrg. split; cbn; try done.
  - intros k a Hk. apply (Hobj k a), Ho, Hk.
  - intros k a Hk. apply (Hrng k a), Hrg, Hk.
Qed.

(** [p] accounts for every reference that [d'] has and [d] had not. *)
Definition adds_for (p : PoolMap) (d d' : D) : Prop :=
  (forall k a, objects d' !! k = Some a -> objects d !! k = Some a \/ owns_obj p k a) /\
  (forall k a, ranges d' !! k = Some a -> ranges d !! k = Some a \/ owns_range p k a).

Lemma setup_spec d p ok d' p' :
  setup d p = (ok, d', p') -> osdesc p = None -> range_live p = false ->
  same_pool p p' /\ adds_for p' d d'.
Proof.
  unfold setup. intros Hset Ho Hr.
  destruct (allocate d (p_session p) (a_id (p_arena p))) as [[h|] d1] eqn:Ha.
  2: { injection Hset as <- <- <-. apply allocate_none in Ha as [Eo Er].
       split; [done|]. split; intros k a; rewrite ?Eo, ?Er; by left. }
  apply allocate_some in Ha as (_ & Eo1 & Er1).
  assert (Hobj : forall r act k a, objects d1 !! k = Some a -> objects d !! k = Some a \/
     owns_obj (MkPoolMap (p_session p) (p_token p) (p_addr p) (p_len p) (p_arena p) (Some h)
                 r act (quarantined_charge p)) k a).
  { intros r act k a. rewrite Eo1. intros [[<- <-]|[_ Hk]]%lookup_insert_Some; [by right|by left]. }
  destruct (grant d1 (p_session p, h)) as [ok2 d2] eqn:Hg. apply grant_refs in Hg as [Eo2 Er2].
  destruct ok2.
  2: { injection Hset as <- <- <-. split; [done|]. split; intros k a.
       - rewrite Eo2. apply Hobj.
       - rewrite Er2, Er1. by left. }
  destruct (create_range d2 (range_key p) (gl (p_len p))) as [ok3 d3] eqn:Hc.
  apply create_refs in Hc as [Eo3 Er3]. destruct ok3.
  2: { injection Hset as <- <- <-. split; [done|]. split; intros k a.
       - rewrite Eo3, Eo2. apply Hobj.
       - rewrite Er3, Er2, Er1. by left. }
  destruct (map_range d3 (range_key p) (p_session p, h) (gl (p_len p))) as [ok4 d4] eqn:Hm.
  apply map_refs in Hm as [Eo4 Er4].
  assert (Hrng : forall act k a, ranges d4 !! k = Some a -> ranges d !! k = Some a \/
     owns_range (MkPoolMap (p_session p) (p_token p) (p_addr p) (p_len p) (p_arena p) (Some h)
                 true act (quarantined_charge p)) k a).
  { intros act k a Hk. rewrite <- Er1, <- Er2, <- Er3.
    destruct Er4 as [Er4|(a' & Ha' & Er4)]; [left; by eapply lookup_weaken|].
    eapply lookup_weaken in Hk; [|exact Er4].
    rewrite Eo3, Eo2, Eo1, lookup_insert_eq in Ha'. injection Ha' as <-.
    apply lookup_insert_Some in Hk as [[<- <-]|[_ Hk]]; [by right|by left]. }
  destruct ok4; injection Hset as <- <- <-; split; try done; split; intros k a Hk;
    try (by apply (Hrng _ k a)); apply Hobj; by rewrite <- Eo2, <- Eo3, <- Eo4.
Qed.

(** A pool that takes the arena in hand joins its session. *)
Lemma push_pool_ok x w s st a p d :
  world_ok (a :: x) w -> states w !! s = Some st ->
  p_arena p = a -> p_session p = s -> quarantined_charge p = 0 -> a_len a = gl (p_len p) ->
  0 <= ga (p_addr p) -> pool_end p <= u64_max -> adds_for p (drv w) d ->
  world_ok x (set_state (set_drv w d) s (MkPoolState (pools st ++ [p]) (osdesc_arenas st))).
Proof.
  intros [Hu Hl Hocc Hn Hobj Hrng Hq Hst Hr Hx] Hs Ea Es Eq El Hlo Hhi [Ho Hrg].
  apply Forall_cons_1 in Hx as [Ha Hx]. rewrite leases_cons in Hu. cbn [map] in Hocc.
  set (st' := MkPoolState _ _). pose proof (Hst s st Hs) as [Hpn Han].
  assert (Hown : forall q, own w q \/ q = p -> own (set_state (set_drv w d) s st') q).
  { intros q Hq'. apply own_set_state. cbn. destruct Hq' as [[?|(s' & st2 & Hs' & Hin)]| ->].
    - by left.
    - right. destruct (decide (s' = s)) as [->|Hne]; [left|right; by exists s', st2].
      simplify_eq. set_solver.
    - right. left. set_solver. }
  split; cbn; try done.
  - rewrite (gsum_update _ _ _ _ _ Hs). unfold st_charge. cbn. rewrite charges_app, charges_cons.
    unfold pool_charge. rewrite Ea, Eq. change (charges []) with 0. unfold st_charge in Hu. lia.
  - intros id. rewrite <- (Hocc id), (gsum_update _ _ _ _ _ Hs), occ_cons. unfold st_occ. cbn.
    unfold arena_ids. rewrite map_app, occ_app. cbn [map]. rewrite occ_cons, Ea.
    change (occ id []) with 0. lia.
  - intros k b Hk. destruct (Ho k b Hk) as [Hk'|Hp]; [|exists p; auto].
    destruct (Hobj k b Hk') as (q & Hq' & Hqo). exists q. auto.
  - intros k b Hk. destruct (Hrg k b Hk) as [Hk'|Hp]; [|exists p; auto].
    destruct (Hrng k b Hk') as (q & Hq' & Hqo). exists q. auto.
  - apply map_Forall_insert_2; [|done]. split; cbn; [|done].
    apply Forall_app. split; [done|]. constructor; [|done].
    split; [done|]. rewrite Ea, Eq. done.
Qed.

Lemma finish_pool_ok x w s st token a addr len r w' :
  world_ok (a :: x) w -> states w !! s = Some st -> a_len a = gl len ->
  0 <= ga addr -> ga addr + gl len <= u64_max ->
  finish_pool w s st token a addr len = (r, w') -> world_ok x w'.
Proof.
  intros Hw Hs Hlen Hlo Hhi. unfold finish_pool.
  destruct (setup _ _) as [[ok d] p] eqn:Hset.
  apply setup_spec in Hset as [(Ea & Eq & Es & El & Ed) Hadd]; [|done|done].
  cbn in Ea, Eq, Es, El, Ed.
  destruct ok.
  { intros [= _ <-]. eapply push_pool_ok; try done; unfold pool_end; congruence. }
  destruct (cleanup (drv (set_drv w d)) p) as [[ok d2] p2] eqn:Hc.
  apply cleanup_spec in Hc as [(Ca & Cq & Cs & Cl & Cd) Co Cr Cob Crg]. cbn in Co, Cr.
  destruct Hadd as [Ho Hrg].
  assert (Hadd : adds_for p2 (drv w) d2 /\ (ok = true -> world_ok (a :: x) (set_drv w d2))).
  { split; [split; intros k b Hk|intros ->; apply set_drv_ok; [done| |]; intros k b Hk].
    - destruct (Ho k b); [by eapply lookup_weaken|by left|].
      destruct (Cob k b) as [? _]; [done|done|by right].
    - destruct (Hrg k b); [by eapply lookup_weaken|by left|].
      destruct (Crg k b) as [? _]; [done|done|by right].
    - destruct (Ho k b); [by eapply lookup_weaken|done|]. by destruct (Cob k b).
    - destruct (Hrg k b); [by eapply lookup_weaken|done|]. by destruct (Crg k b). }
  destruct Hadd as [Hadd Hgone]. destruct ok; intros [= _ <-].
  - rewrite Ca, Ea. by apply drop_arena_ok, Hgone.
  - change (set_drv (set_drv w d) d2) with (set_drv w d2).
    eapply push_pool_ok; [done|done| | | | | | |done]; unfold pool_end; congruence.
Qed.

Lemma retry_cleanup_ok x w s st w' st' :
  world_ok x w -> states w !! s = Some st -> retry_cleanup w s st = (w', st') ->
  world_ok x w' /\ states w' !! s = Some st'.
Proof.
  intros Hw Hs. destruct (budget_retry_ok x w Hw) as [Hw1 Hs1]. unfold retry_cleanup.
  apply session_sweep_ok. rewrite set_state_id; [done|]. by rewrite Hs1.
Qed.

Lemma any_overlap_ok token lo hi s ps :
  Forall (open_pool s) ps -> exists hit, any_overlap token lo hi ps = Ok hit.
Proof.
  induction 1 as [|p ps (_ & _ & _ & _ & _ & Hhi) _ [hit IH]]; simpl; [by eexists|].
  assert (Hov : exists b, overlaps_pool token lo hi p = Ok b).
  { unfold overlaps_pool, addr_end, checked_add64. destruct (negb _); [by eexists|].
    unfold pool_end in Hhi. rewrite (proj2 (Z.leb_le _ _) Hhi). by eexists. }
  destruct Hov as [[] ->]; simpl; eauto.
Qed.

Lemma arena_no_panic {M} `{GuestMem M} w (c : ArenaCall (M:=M)) total w' :
  arena w c total = (Panic, w') -> False.
Proof.
  unfold arena, registration_bytes, pin_reserve.
  destruct (gl total =? 0); [done|]. destruct (checked_add64 _ _); [|done]. simpl.
  destruct (_ =? 0); [done|]. simpl. destruct (checked_add64 _ _); [|done].
  destruct (_ <=? _); [|done].
  pose proof (build_no_panic (page_size c) (max_pin c) (calls c) (guest c) (runs c) total).
  by destruct (build _ _ _ _ _ _).2.
Qed.

Lemma finish_no_panic w s st token a addr len r w' :
  finish_pool w s st token a addr len = (r, w') -> r <> Panic.
Proof.
  unfold finish_pool. destruct (setup _ _) as [[[] ?] ?]; [by intros [= <- _]|].
  destruct (cleanup _ _) as [[[] ?] ?]; by intros [= <- _].
Qed.

Lemma back_pool_for_ok {M} `{GuestMem M} x w s t addr len (c : ArenaCall (M:=M)) du dr r w' :
  world_ok x w -> 0 < page_size c -> 0 <= gl len -> 0 <= ga addr ->
  back_pool_for w s t addr len c du dr = (r, w') -> world_ok x w' /\ r <> Panic.
Proof.
  intros Hw Hpg Hl Had. unfold back_pool_for.
  destruct (states w !! s) as [st|] eqn:Hs; [|by intros [= <- <-]].
  destruct (addr_end addr len) as [e|] eqn:He; [|by intros [= <- <-]].
  apply fmap_Some in He as (hi & [-> Hhi]%checked_add64_Some & ->).
  destruct (_ || _ || _); [by intros [= <- <-]|].
  destruct (retry_cleanup w s st) as [w1 st1] eqn:Hr.
  eapply retry_cleanup_ok in Hr as [Hw1 Hs1]; [|done|done].
  destruct (any_overlap_ok t (ga addr) (ga addr + gl len) s (pools st1)) as [hit Hh].
  { by destruct (wk_states _ _ Hw1 s st1 Hs1). }
  cbn [ga]. rewrite Hh. destruct hit; [by intros [= <- <-]|].
  destruct (arena w1 c len) as [[a|err|] w2] eqn:Ha.
  - apply (arena_made x) in Ha as (Hw2 & Hs2 & Hl2); [|done|done|done].
    destruct du; [|intros [= <- <-]; split; [by apply drop_arena_ok|done]].
    destruct dr; [|intros [= <- <-]; split; [by apply drop_arena_ok|done]].
    intros Hf. split; [|exact (finish_no_panic _ _ _ _ _ _ _ _ _ Hf)].
    eapply (finish_pool_ok x w2); [done|by rewrite Hs2|done|done|done|exact Hf].
  - intros [= <- <-]. split; [by eapply arena_failed in Ha as [? _]|done].
  - by apply arena_no_panic in Ha.
Qed.

(** *** Releasing *)
Lemma charges_map f l : (forall p, pool_charge (f p) = pool_charge p) -> charges (map f l) = charges l.
Proof. intros Hf. induction l as [|p l IH]; [done|]. cbn [map]. rewrite !charges_cons, Hf, IH. done. Qed.

Lemma arena_ids_map f l :
  (forall p, a_id (p_arena (f p)) = a_id (p_arena p)) -> arena_ids (map f l) = arena_ids l.
Proof. intros Hf. unfold arena_ids. rewrite map_map. by apply map_ext. Qed.

Lemma arena_ids_app l k : arena_ids (l ++ k) = arena_ids l ++ arena_ids k.
Proof. apply map_app. Qed.

Lemma forget_same token addr p : same_pool p (forget_range token addr p).
Proof. unfold forget_range. by destruct (_ && _). Qed.

(** After the guest's own UVM_FREE the pools forget the range it named. *)
Lemma forget_range_ok x w s st token addr :
  world_ok x w -> states w !! s = Some st ->
  world_ok x (set_state (set_drv w (guest_free (drv w) (s, token, ga addr))) s
                (MkPoolState (map (forget_range token addr) (pools st)) (osdesc_arenas st))).
Proof.
  intros [Hu Hl Hocc Hn Hobj Hrng Hq Hst Hr Hx] Hs.
  destruct (guest_free_refs (drv w) (s, token, ga addr)) as [Eo Er].
  set (st' := MkPoolState _ _). pose proof (Hst s st Hs) as [Hpn Han].
  assert (Hch : st_charge st' = st_charge st).
  { unfold st_charge, st'. cbn. rewrite charges_map; [done|]. intros p.
    destruct (forget_same token addr p) as (Ha & Hqc & _). unfold pool_charge. by rewrite Ha, Hqc. }
  assert (Hoc : forall id, st_occ id st' = st_occ id st).
  { intros id. unfold st_occ, st'. cbn. rewrite arena_ids_map; [done|]. intros p.
    by destruct (forget_same token addr p) as (-> & _). }
  assert (Hown : forall q, own w q -> exists q', own (set_state (set_drv w (guest_free (drv w) (s, token, ga addr))) s st') q' /\
            (q' = q \/ p_session q = s /\ q' = forget_range token addr q)).
  { intros q [Hin|(s' & st2 & Hs' & Hin)].
    - exists q. split; [|by left]. by left.
    - destruct (decide (s' = s)) as [->|Hne].
      + simplify_eq. exists (forget_range token addr q). split.
        * apply own_set_state. right. left. cbn. by apply list_elem_of_fmap_2.
        * right. split; [|done]. rewrite Forall_forall in Hpn. by destruct (Hpn q Hin).
      + exists q. split; [|by left]. apply own_set_state. right. right. by exists s', st2. }
  split; cbn; try done.
  - rewrite (gsum_update _ _ _ _ _ Hs), Hch. lia.
  - intros id. rewrite <- (Hocc id), (gsum_update _ _ _ _ _ Hs), Hoc. lia.
  - intros k a. rewrite Eo. intros Hk. destruct (Hobj k a Hk) as (p & Hp & Hpo).
    destruct (Hown p Hp) as (q & Hq' & [->|[_ ->]]); [by exists p|].
    eexists. split; [done|]. unfold forget_range. by destruct (_ && _).
  - intros k a. rewrite Er. intros [Hne Hk]%lookup_delete_Some.
    destruct (Hrng k a Hk) as (p & Hp & Hpo).
    destruct (Hown p Hp) as (q & Hq' & [->|[Hses ->]]); [by exists p|].
    eexists. split; [done|]. unfold forget_range. destruct (_ && _) eqn:E; [|done].
    destruct Hne. destruct Hpo as (_ & <- & _). unfold range_key. bools. congruence.
  - apply map_Forall_insert_2; [|done]. split; cbn; [|done]. apply Forall_fmap.
    eapply Forall_impl; [exact Hpn|]. intros p Hp. eapply stable_open; [apply forget_same|done].
Qed.

Lemma release_uvm_range_ok x w s t addr : world_ok x w -> world_ok x (release_uvm_range w s t addr).
Proof.
  intros Hw. unfold release_uvm_range. destruct (states w !! s) as [st|] eqn:Hs; [|done].
  destruct (session_sweep _ _ _ _) as [w' st'] eqn:E.
  eapply session_sweep_ok in E as [? _]; [done|]. by apply forget_range_ok.
Qed.

Lemma close_uvm_ok x w s t : world_ok x w -> world_ok x (close_uvm w s t).
Proof.
  intros Hw. unfold close_uvm. destruct (states w !! s) as [st|] eqn:Hs; [|done].
  destruct (session_sweep _ _ _ _) as [w' st'] eqn:E.
  eapply session_sweep_ok in E as [? _]; [done|]. by rewrite set_state_id.
Qed.

(** *** Forwarded OS descriptors *)

(** Any exchange of arenas between the hand and a session's table. *)
Lemma set_arenas_ok x x' w s st m :
  world_ok x w -> states w !! s = Some st ->
  gsum lease m + leases x' = gsum lease (osdesc_arenas st) + leases x ->
  (forall id, gsum (arena_occ id) m + occ id (map a_id x')
              = gsum (arena_occ id) (osdesc_arenas st) + occ id (map a_id x)) ->
  map_Forall (fun _ a => 0 <= lease a) m -> Forall (fun a => 0 <= lease a) x' ->
  world_ok x' (set_state w s (MkPoolState (pools st) m)).
Proof.
  intros [Hu Hl Hocc Hn Hobj Hrng Hq Hst Hr Hx] Hs Hsum Hsocc Hm Hx'.
  pose proof (Hst s st Hs) as [Hpn _].
  assert (Hown : forall q, own w q -> own (set_state w s (MkPoolState (pools st) m)) q).
  { intros q [Hin|(s' & st2 & Hs' & Hin)]; apply own_set_state; [by left|].
    right. destruct (decide (s' = s)) as [->|Hne]; [left; by simplify_eq|right; by exists s', st2]. }
  split; cbn; try done.
  - rewrite (gsum_update _ _ _ _ _ Hs). unfold st_charge. cbn. unfold st_charge in Hu. lia.
  - intros id. rewrite <- (Hocc id), (gsum_update _ _ _ _ _ Hs). unfold st_occ. cbn.
    specialize (Hsocc id). lia.
  - intros k a Hk. destruct (Hobj k a Hk) as (p & ? & ?). eauto.
  - intros k a Hk. destruct (Hrng k a Hk) as (p & ? & ?). eauto.
  - by apply map_Forall_insert_2.
Qed.

Lemma state_arenas x w s st :
  world_ok x w -> states w !! s = Some st ->
  map_Forall (fun _ a => 0 <= lease a) (osdesc_arenas st).
Proof. intros Hw Hs. by destruct (wk_states _ _ Hw s st Hs). Qed.

Lemma drop_osdesc_arena_ok x w s r h : world_ok x w -> world_ok x (drop_osdesc_arena w s r h).
Proof.
  intros Hw. unfold drop_osdesc_arena. destruct (states w !! s) as [st|] eqn:Hs; [|done].
  destruct (osdesc_arenas st !! (r, h)) as [a|] eqn:Ha; [|done].
  pose proof (state_arenas x w s st Hw Hs) as Hm. apply retain_ok.
  apply (set_arenas_ok x); [done|done| | | |].
  - rewrite leases_cons, (gsum_remove _ _ _ _ Ha). lia.
  - intros id. cbn [map]. rewrite occ_cons, (gsum_remove _ _ _ _ Ha).
    unfold arena_occ at 2. lia.
  - by apply map_Forall_delete.
  - constructor; [exact (Hm _ _ Ha)|apply (wk_hand _ _ Hw)].
Qed.

Lemma drop_osdesc_client_ok x w s r : world_ok x w -> world_ok x (drop_osdesc_client w s r).
Proof.
  intros Hw. unfold drop_osdesc_client. destruct (states w !! s) as [st|]; [|done].
  revert w Hw. induction (client_arenas st r) as [|h l IH]; intros w Hw; [done|].
  cbn [foldl]. by apply IH, drop_osdesc_arena_ok.
Qed.

Lemma keep_osdesc_arena_ok a x w s r h :
  world_ok (a :: x) w -> is_Some (states w !! s) -> world_ok x (keep_osdesc_arena w s r h a).
Proof.
  intros Hw [st Hs]. unfold keep_osdesc_arena. rewrite Hs.
  pose proof (state_arenas _ w s st Hw Hs) as Hm.
  pose proof (wk_hand _ _ Hw) as [Hla Hlx]%Forall_cons_1.
  destruct (osdesc_arenas st !! (r, h)) as [prev|] eqn:Hp; [apply retain_ok|].
  - apply (set_arenas_ok (a :: x)); [done|done| | | |].
    + rewrite !leases_cons, (gsum_update _ _ _ _ _ Hp). lia.
    + intros id. cbn [map]. rewrite !occ_cons, (gsum_update _ _ _ _ _ Hp). unfold arena_occ at 2 3. lia.
    + by apply map_Forall_insert_2.
    + constructor; [exact (Hm _ _ Hp)|done].
  - apply (set_arenas_ok (a :: x)); [done|done| | | |done].
    + rewrite !leases_cons, (gsum_fresh _ _ _ _ Hp). lia.
    + intros id. cbn [map]. rewrite !occ_cons, (gsum_fresh _ _ _ _ Hp). unfold arena_occ at 1. lia.
    + by apply map_Forall_insert_2.
Qed.

Lemma forward_osdesc_ok {M} `{GuestMem M} x w s r h (c : ArenaCall (M:=M)) total ok :
  world_ok x w -> 0 < page_size c -> 0 <= gl total ->
  world_ok x (forward_osdesc w s r h c total ok).
Proof.
  intros Hw Hpg Ht. unfold forward_osdesc. destruct (states w !! s) as [st|] eqn:Hs; [|done].
  destruct (arena w c total) as [[a|e|] w1] eqn:Ha; [|by eapply arena_failed in Ha as [? _]..].
  apply (arena_made x) in Ha as (Hw1 & Hs1 & _); [|done|done|done].
  destruct ok; [|by apply drop_arena_ok]. apply keep_osdesc_arena_ok; [done|]. by rewrite Hs1, Hs.
Qed.

(** *** The end of a session *)
Lemma leases_gsum (m : gmap (Z * Z) Arena) : leases (map snd (map_to_list m)) = gsum lease m.
Proof.
  unfold gsum, leases. rewrite map_fold_foldr.
  by induction (map_to_list m) as [|[k a] l IH]; [|cbn; rewrite IH].
Qed.

Lemma occ_gsum (id : Z) (m : gmap (Z * Z) Arena) :
  occ id (map a_id (map snd (map_to_list m))) = gsum (arena_occ id) m.
Proof.
  unfold gsum, occ. rewrite map_fold_foldr.
  by induction (map_to_list m) as [|[k a] l IH]; [|cbn; rewrite IH].
Qed.

Lemma leases_app l k : leases (l ++ k) = leases l + leases k.
Proof. induction l as [|a l IH]; [done|]. cbn [app]. rewrite !leases_cons, IH. lia. Qed.

Lemma hand_arenas (m : gmap (Z * Z) Arena) :
  map_Forall (fun _ a => 0 <= lease a) m -> Forall (fun a => 0 <= lease a) (map snd (map_to_list m)).
Proof.
  intros Hm. apply Forall_forall. intros a ([k b] & -> & Hin)%list_elem_of_fmap.
  apply elem_of_map_to_list in Hin. exact (Hm k b Hin).
Qed.

Lemma charges_detach s l : Forall (open_pool s) l -> charges (map detach l) = charges l.
Proof.
  induction 1 as [|p l (_ & _ & Hq & _) _ IH]; [done|]. cbn [map]. rewrite !charges_cons, IH.
  unfold pool_charge. cbn. rewrite Hq. lia.
Qed.

Lemma end_session_ok x w s : world_ok x w -> world_ok x (end_session w s).
Proof.
  intros [Hu Hl Hocc Hn Hobj Hrng Hq Hst Hr Hx]. unfold end_session.
  destruct (states w !! s) as [st|] eqn:Hs; [|done].
  destruct (sweep _ (drv w) (pools st)) as [[kept gone] d] eqn:Hsw.
  apply sweep_spec in Hsw as [So Sr Sob Srg Sc Socc Sn].
  pose proof (Hst s st Hs) as [Hpn Han]. destruct (Sn _ (stable_open s) Hpn) as [Hkept Hgone].
  pose proof (charges_nonneg gone (open_nonneg s gone Hgone)).
  set (w' := quarantine_all _ _).
  assert (Hown : forall p, own w p -> p ∈ pools st \/ own w' p).
  { intros p [Hin|(s' & st2 & Hs' & Hin)]; [right; left; cbn; set_solver|].
    destruct (decide (s' = s)) as [->|Hne]; [left; by simplify_eq|right; right].
    exists s', st2. cbn. by rewrite lookup_delete_ne. }
  assert (Hquar : forall p, p ∈ kept -> own w' (detach p)).
  { intros p Hin. left. cbn. apply elem_of_app. right. by apply list_elem_of_fmap_2. }
  apply retain_all_ok. split; cbn; try done.
  - rewrite charges_app, (charges_detach s) by done.
    rewrite leases_app, leases_gsum, (gsum_remove _ _ _ _ Hs). unfold st_charge at 2. lia.
  - lia.
  - intros id. rewrite <- (Hocc id), (gsum_remove _ _ _ _ Hs). unfold st_occ at 2.
    rewrite arena_ids_app, map_app, !occ_app, occ_gsum, (Socc id), arena_ids_map by done. lia.
  - intros k a Hk. destruct (Hobj k a) as (p & Hp & Hpo); [by eapply lookup_weaken|].
    destruct (Hown p Hp) as [Hin|]; [|by exists p].
    destruct (Sob k a p Hk Hin Hpo) as (p' & Hp' & Ho'). exists (detach p'). auto.
  - intros k a Hk. destruct (Hrng k a) as (p & Hp & Hpo); [by eapply lookup_weaken|].
    destruct (Hown p Hp) as [Hin|]; [|by exists p].
    destruct (Srg k a p Hk Hin Hpo) as (p' & Hp' & Ho'). exists (detach p'). auto.
  - apply Forall_app. split; [done|]. apply Forall_fmap.
    eapply Forall_impl; [exact Hkept|]. intros p (_ & ? & _). by split.
  - by apply map_Forall_delete.
  - apply Forall_app. split; [by apply hand_arenas|done].
Qed.

Lemma new_session_ok x w s :
  world_ok x w -> states w !! s = None -> world_ok x (set_state w s (MkPoolState [] ∅)).
Proof.
  intros [Hu Hl Hocc Hn Hobj Hrng Hq Hst Hr Hx] Hs.
  assert (Hown : forall p, own w p -> own (set_state w s (MkPoolState [] ∅)) p).
  { intros p [Hin|(s' & st2 & Hs' & Hin)]; apply own_set_state; [by left|].
    right. right. exists s', st2. split; [congruence|done]. }
  split; cbn; try done.
  - rewrite (gsum_fresh _ _ _ _ Hs). change (st_charge (MkPoolState [] ∅)) with 0. lia.
  - intros id. rewrite <- (Hocc id), (gsum_fresh _ _ _ _ Hs).
    change (st_occ id (MkPoolState [] ∅)) with 0. lia.
  - intros k a Hk. destruct (Hobj k a Hk) as (p & ? & ?). eauto.
  - intros k a Hk. destruct (Hrng k a Hk) as (p & ? & ?). eauto.
  - by apply map_Forall_insert_2.
Qed.

(** *** Any sequence of operations *)
Context {M : Type} `{GuestMem M}.

(** Page sizes are positive and lengths are words. *)
Definition op_ok (op : PoolOp (M:=M)) : Prop :=
  match op with
  | BackPool _ _ addr len c _ _ => 0 < page_size c /\ is_u64 (gl len) /\ is_u64 (ga addr)
  | ForwardOsdesc _ _ _ c total _ => 0 < page_size c /\ is_u64 (gl total)
  | _ => True
  end.

Lemma pool_step_ok w op : op_ok op -> world_ok [] w -> world_ok [] (pool_step w op).
Proof.
  intros Hop Hw. destruct op; cbn in *.
  - destruct (states w !! s) eqn:Hs; [done|]. by apply new_session_ok.
  - destruct Hop as (? & [? _] & [? _]). destruct (back_pool_for _ _ _ _ _ _ _ _) eqn:E. cbn.
    by eapply back_pool_for_ok in E as [? _].
  - by apply release_uvm_range_ok.
  - by apply close_uvm_ok.
  - destruct Hop as [? [? _]]. by apply forward_osdesc_ok.
  - by apply drop_osdesc_arena_ok.
  - by apply drop_osdesc_client_ok.
  - by apply budget_retry_ok.
  - by apply end_session_ok.
Qed.

Lemma pool_run_ok ops : forall w, Forall op_ok ops -> world_ok [] w -> world_ok [] (pool_run w ops).
Proof.
  induction ops as [|op ops IH]; intros w Hops Hw; [done|].
  apply Forall_cons_1 in Hops as [Hop Hops]. simpl. by apply IH, pool_step_ok.
Qed.

Lemma world_new_ok lim d :
  0 <= lim -> objects d = ∅ -> ranges d = ∅ -> world_ok [] (world_new lim d).
Proof.
  intros Hlim Ho Hr. split; cbn; try done.
  - intros id. destruct ((0 <=? id) && (id <? 0)) eqn:E; [bools; lia|done].
  - rewrite Ho. by intros k a ?%lookup_empty_Some.
  - rewrite Hr. by intros k a ?%lookup_empty_Some.
Qed.

(** *** The limit does not change *)
Definition pin_limit_of (w : World D) : Z := pin_limit (budget w).

Lemma limit_budget_retry w : pin_limit_of (budget_retry w) = pin_limit_of w.
Proof. unfold budget_retry. by destruct (sweep _ _ _) as [[? ?] ?]. Qed.

Lemma limit_session_sweep sel w s st : pin_limit_of (session_sweep sel w s st).1 = pin_limit_of w.
Proof. unfold session_sweep. by destruct (sweep _ _ _) as [[? ?] ?]. Qed.

Lemma limit_arena (w : World D) (c : ArenaCall (M:=M)) total : pin_limit_of (arena w c total).2 = pin_limit_of w.
Proof.
  rewrite <- (limit_budget_retry w). unfold arena, pin_reserve.
  destruct (registration_bytes _ _) as [n| |]; [|done|done].
  destruct (n =? 0); cbn; [done|]. destruct (checked_add64 _ _) as [u|]; [|done].
  destruct (u <=? _); [|done]. by destruct (build _ _ _ _ _ _).2.
Qed.

Lemma limit_finish w s st t a addr len : pin_limit_of (finish_pool w s st t a addr len).2 = pin_limit_of w.
Proof.
  unfold finish_pool. destruct (setup _ _) as [[[] ?] ?]; [done|].
  by destruct (cleanup _ _) as [[[] ?] ?].
Qed.

Lemma limit_back_pool w s t addr len (c : ArenaCall (M:=M)) du dr :
  pin_limit_of (back_pool_for w s t addr len c du dr).2 = pin_limit_of w.
Proof.
  unfold back_pool_for. destruct (states w !! s) as [st|]; [|done].
  destruct (addr_end addr len) as [e|]; [|done]. destruct (_ || _ || _); [done|].
  rewrite <- (limit_budget_retry w). unfold retry_cleanup.
  rewrite <- (limit_session_sweep (fun p => negb (active p)) (budget_retry w) s st).
  destruct (session_sweep _ _ _ _) as [w1 st1].
  destruct (any_overlap _ _ _ _) as [[]|?|]; [done| |done|done]. cbn [fst].
  rewrite <- (limit_arena w1 c len). destruct (arena w1 c len) as [[a|?|] w2]; [|done|done].
  destruct du; [|done]. destruct dr; [|done]. apply limit_finish.
Qed.

Lemma limit_retain_all w l : pin_limit_of (retain_all w l) = pin_limit_of w.
Proof. revert w. induction l as [|a l IH]; intros w; [done|]. simpl. by rewrite IH. Qed.

Lemma limit_drop_osdesc w s r h : pin_limit_of (drop_osdesc_arena w s r h) = pin_limit_of w.
Proof. unfold drop_osdesc_arena. by repeat case_match. Qed.

Lemma limit_step w (op : PoolOp (M:=M)) : pin_limit_of (pool_step w op) = pin_limit_of w.
Proof.
  destruct op; cbn.
  - by case_match.
  - apply limit_back_pool.
  - unfold release_uvm_range. case_match; [|done]. by rewrite limit_session_sweep.
  - unfold close_uvm. case_match; [|done]. by rewrite limit_session_sweep.
  - unfold forward_osdesc. case_match; [|done]. rewrite <- (limit_arena w c total).
    destruct (arena w c total) as [[a|?|] w1]; [|done|done]. unfold keep_osdesc_arena. by repeat case_match.
  - apply limit_drop_osdesc.
  - unfold drop_osdesc_client. case_match; [|done].
    generalize (client_arenas p root) as l. clear. intros l. revert w.
    induction l as [|h l IH]; intros w; [done|]. cbn [foldl]. by rewrite IH, limit_drop_osdesc.
  - apply limit_budget_retry.
  - unfold end_session. case_match; [|done]. destruct (sweep _ _ _) as [[? ?] ?].
    by rewrite limit_retain_all.
Qed.

Lemma limit_run (ops : list (PoolOp (M:=M))) : forall w, pin_limit_of (pool_run w ops) = pin_limit_of w.
Proof. induction ops as [|op ops IH]; intros w; [done|]. simpl. by rewrite IH, limit_step. Qed.

(** *** Which sessions there are *)
Definition live (w : World D) : gset Z := dom (states w).

Lemma live_set_state w s st : s ∈ live w -> live (set_state w s st) = live w.
Proof. intros Hs. unfold live in *. cbn. rewrite dom_insert_L. set_solver. Qed.

Lemma live_elem w s st : states w !! s = Some st -> s ∈ live w.
Proof. intros Hs. by apply elem_of_dom_2 in Hs. Qed.

Lemma live_budget_retry w : live (budget_retry w) = live w.
Proof. unfold budget_retry. by destruct (sweep _ _ _) as [[? ?] ?]. Qed.

Lemma live_session_sweep sel w s st : s ∈ live w -> live (session_sweep sel w s st).1 = live w.
Proof.
  intros Hs. unfold session_sweep. destruct (sweep _ _ _) as [[? ?] ?]. cbn [fst].
  exact (live_set_state w s _ Hs).
Qed.

Lemma live_arena (w : World D) (c : ArenaCall (M:=M)) total : live (arena w c total).2 = live w.
Proof.
  rewrite <- (live_budget_retry w). unfold arena, pin_reserve.
  destruct (registration_bytes _ _) as [n| |]; [|done|done].
  destruct (n =? 0); cbn; [done|]. destruct (checked_add64 _ _) as [u|]; [|done].
  destruct (u <=? _); [|done]. by destruct (build _ _ _ _ _ _).2.
Qed.

Lemma live_finish w s st t a addr len : s ∈ live w -> live (finish_pool w s st t a addr len).2 = live w.
Proof.
  intros Hs. unfold finish_pool. destruct (setup _ _) as [[[] ?] ?].
  - exact (live_set_state (set_drv w _) s _ Hs).
  - destruct (cleanup _ _) as [[[] ?] ?]; [done|]. exact (live_set_state (set_drv w _) s _ Hs).
Qed.

Lemma live_back_pool w s t addr len (c : ArenaCall (M:=M)) du dr :
  live (back_pool_for w s t addr len c du dr).2 = live w.
Proof.
  unfold back_pool_for. destruct (states w !! s) as [st|] eqn:Hs; [|done]. apply live_elem in Hs.
  destruct (addr_end addr len) as [e|]; [|done]. destruct (_ || _ || _); [done|].
  rewrite <- (live_budget_retry w) in Hs |- *. unfold retry_cleanup.
  pose proof (live_session_sweep (fun p => negb (active p)) (budget_retry w) s st Hs) as <-.
  assert (s ∈ live (session_sweep (fun p => negb (active p)) (budget_retry w) s st).1) as Hs1
    by (by rewrite live_session_sweep).
  destruct (session_sweep _ _ _ _) as [w1 st1]. cbn [fst] in Hs1.
  destruct (any_overlap _ _ _ _) as [[]|?|]; [done| |done|done]. cbn [fst].
  rewrite <- (live_arena w1 c len) in Hs1 |- *. destruct (arena w1 c len) as [[a|?|] w2]; [|done|done].
  destruct du; [|done]. destruct dr; [|done]. by apply live_finish.
Qed.

Lemma live_drop_osdesc w s r h : live (drop_osdesc_arena w s r h) = live w.
Proof.
  unfold drop_osdesc_arena. destruct (states w !! s) as [st|] eqn:Hs; [|done]. apply live_elem in Hs.
  destruct (_ !! _); [|done]. exact (live_set_state w s _ Hs).
Qed.

Definition in_session (op : PoolOp (M:=M)) : Prop :=
  match op with NewSession _ | EndSession _ => False | _ => True end.

Lemma live_step w (op : PoolOp (M:=M)) : in_session op -> live (pool_step w op) = live w.
Proof.
  destruct op; cbn; try done; intros _.
  - apply live_back_pool.
  - unfold release_uvm_range. destruct (states w !! s) eqn:Hs; [|done]. apply live_elem in Hs.
    by rewrite live_session_sweep.
  - unfold close_uvm. destruct (states w !! s) eqn:Hs; [|done]. apply live_elem in Hs.
    by rewrite live_session_sweep.
  - unfold forward_osdesc. case_match; [|done]. rewrite <- (live_arena w c total).
    destruct (arena w c total) as [[a|?|] w1]; [|done|done]. cbn [snd]. destruct rm_ok; [|done].
    unfold keep_osdesc_arena. destruct (states w1 !! s) as [st|] eqn:Hs; [|done]. apply live_elem in Hs.
    destruct (_ !! (root, h)); exact (live_set_state w1 s _ Hs).
  - apply live_drop_osdesc.
  - unfold drop_osdesc_client. destruct (states w !! s) as [p|]; [|done].
    generalize (client_arenas p root) as l. intros l. revert w.
    induction l as [|h l IH]; intros w; [done|]. cbn [foldl]. by rewrite IH, live_drop_osdesc.
  - apply live_budget_retry.
Qed.

Lemma live_run (ops : list (PoolOp (M:=M))) : forall w, Forall in_session ops -> live (pool_run w ops) = live w.
Proof.
  induction ops as [|op ops IH]; intros w Hops; [done|]. apply Forall_cons_1 in Hops as [Ho Hops].
  cbn. by rewrite IH, live_step.
Qed.

(** *** Forwarded registrations *)
(** The arenas that an RM client of the guest may still use: those behind the
    objects of an open session, and those retained after their object, client
    or session is gone. *)
Definition forwarded (w : World D) (id : Z) : Prop :=
  (exists s st k a, states w !! s = Some st /\ osdesc_arenas st !! k = Some a /\ a_id a = id) \/
  id ∈ map a_id (retained (budget w)).

Definition fw_keeps (w w' : World D) : Prop := forall id, forwarded w id -> forwarded w' id.

Lemma fw_refl w : fw_keeps w w.
Proof. by intros id. Qed.
#[local] Hint Resolve fw_refl : core.

Lemma fw_trans w1 w2 w3 : fw_keeps w1 w2 -> fw_keeps w2 w3 -> fw_keeps w1 w3.
Proof. unfold fw_keeps. auto. Qed.

Lemma fw_same w w' :
  states w' = states w -> retained (budget w') = retained (budget w) -> fw_keeps w w'.
Proof. intros Es Er id. unfold forwarded. by rewrite Es, Er. Qed.

Lemma fw_set_state w s st st' :
  states w !! s = Some st -> osdesc_arenas st ⊆ osdesc_arenas st' ->
  fw_keeps w (set_state w s st').
Proof.
  intros Hs Hsub id [(s' & st1 & k & a & Hs1 & Hk & Ha)|Hr]; [left|by right].
  destruct (decide (s' = s)) as [->|Hne].
  - rewrite Hs in Hs1. injection Hs1 as <-. exists s, st', k, a. cbn. rewrite lookup_insert_eq.
    split; [done|]. split; [by eapply lookup_weaken|done].
  - exists s', st1, k, a. cbn. by rewrite lookup_insert_ne.
Qed.

Lemma forwarded_retain w a id : forwarded (retain w a) id <-> forwarded w id \/ id = a_id a.
Proof.
  unfold forwarded, retain. cbn. rewrite map_app. cbn. rewrite elem_of_app, list_elem_of_singleton.
  tauto.
Qed.

Lemma forwarded_retain_all l : forall w id,
  forwarded (retain_all w l) id <-> forwarded w id \/ id ∈ map a_id l.
Proof.
  induction l as [|a l IH]; intros w id; cbn; [set_solver|].
  rewrite IH, forwarded_retain, elem_of_cons. tauto.
Qed.

(** A registration that leaves a session's table is retained. *)
Lemma fw_replace w s st m k a :
  states w !! s = Some st -> osdesc_arenas st !! k = Some a ->
  delete k (osdesc_arenas st) ⊆ m ->
  fw_keeps w (retain (set_state w s (MkPoolState (pools st) m)) a).
Proof.
  intros Hs Hk Hm id Hid. apply forwarded_retain.
  destruct Hid as [(s' & st1 & k' & a' & Hs1 & Hk' & <-)|Hr]; [|by left; right].
  destruct (decide (s' = s)) as [->|Hne].
  - rewrite Hs in Hs1. injection Hs1 as <-. destruct (decide (k' = k)) as [->|Hnk].
    + right. congruence.
    + left. left. exists s, (MkPoolState (pools st) m), k', a'. cbn. rewrite lookup_insert_eq.
      split; [done|]. split; [|done]. eapply lookup_weaken; [|exact Hm]. by rewrite lookup_delete_ne.
  - left. left. exists s', st1, k', a'. cbn. by rewrite lookup_insert_ne.
Qed.

Lemma fw_budget_retry w : states (budget_retry w) = states w /\ fw_keeps w (budget_retry w).
Proof.
  unfold budget_retry. destruct (sweep _ _ _) as [[kept gone] d]. split; [done|]. by apply fw_same.
Qed.

Lemma fw_session_sweep sel w s st0 st :
  states w !! s = Some st0 -> osdesc_arenas st0 ⊆ osdesc_arenas st ->
  let '(w', st') := session_sweep sel w s st in states w' !! s = Some st' /\ fw_keeps w w'.
Proof.
  intros Hs Hsub. unfold session_sweep. destruct (sweep _ _ _) as [[kept gone] d]. split.
  - cbn. by rewrite lookup_insert_eq.
  - eapply fw_trans; [by eapply (fw_set_state w s st0 (MkPoolState kept (osdesc_arenas st)))|].
    by apply fw_same.
Qed.

Lemma fw_arena (w : World D) (c : ArenaCall (M:=M)) total :
  states (arena w c total).2 = states w /\ fw_keeps w (arena w c total).2.
Proof.
  destruct (fw_budget_retry w) as [Es Hk]. unfold arena, pin_reserve.
  destruct (registration_bytes _ _) as [n| |]; [|done|done].
  destruct (n =? 0); cbn; [done|]. destruct (checked_add64 _ _) as [u|]; [|done].
  destruct (u <=? _); [|done]. destruct (build _ _ _ _ _ _).2; [|done|done].
  split; [done|]. eapply fw_trans; [exact Hk|]. by apply fw_same.
Qed.

Lemma fw_finish w s st t a addr len :
  states w !! s = Some st -> fw_keeps w (finish_pool w s st t a addr len).2.
Proof.
  intros Hs. unfold finish_pool. destruct (setup _ _) as [[[] d] p].
  - by eapply (fw_set_state (set_drv w d) s st (MkPoolState (pools st ++ [p]) (osdesc_arenas st))).
  - destruct (cleanup _ _) as [[[] d'] p']; [by apply fw_same|].
    by eapply (fw_set_state (set_drv w d') s st (MkPoolState (pools st ++ [p']) (osdesc_arenas st))).
Qed.

Lemma fw_back_pool w s t addr len (c : ArenaCall (M:=M)) du dr :
  fw_keeps w (back_pool_for w s t addr len c du dr).2.
Proof.
  unfold back_pool_for. destruct (states w !! s) as [st|] eqn:Hs; [|done].
  destruct (addr_end addr len) as [e|]; [|done]. destruct (_ || _ || _); [done|].
  unfold retry_cleanup. destruct (fw_budget_retry w) as [Eb Hb].
  pose proof (fw_session_sweep (fun p => negb (active p)) (budget_retry w) s st st) as Hsw.
  rewrite Eb in Hsw. specialize (Hsw Hs (reflexivity _)).
  destruct (session_sweep _ _ _ _) as [w1 st1]. destruct Hsw as [Hs1 Hk1].
  apply (fw_trans _ _ _ Hb) in Hk1. clear Hb Eb Hs.
  destruct (any_overlap _ _ _ _) as [[]|?|]; [done| |done|done].
  destruct (fw_arena w1 c len) as [Ea Hka]. apply (fw_trans _ _ _ Hk1) in Hka.
  destruct (arena w1 c len) as [[a|?|] w2]; [|done|done]. cbn [snd] in Ea, Hka.
  eapply fw_trans; [exact Hka|]. destruct du; [|by apply fw_same]. destruct dr; [|by apply fw_same].
  apply fw_finish. by rewrite Ea.
Qed.

Lemma fw_drop_osdesc w s r h : fw_keeps w (drop_osdesc_arena w s r h).
Proof.
  unfold drop_osdesc_arena. destruct (states w !! s) as [st|] eqn:Hs; [|done].
  destruct (osdesc_arenas st !! (r, h)) as [a|] eqn:Ha; [|done]. by eapply fw_replace.
Qed.

Lemma fw_keep_osdesc w s r h a :
  is_Some (states w !! s) ->
  fw_keeps w (keep_osdesc_arena w s r h a) /\ forwarded (keep_osdesc_arena w s r h a) (a_id a).
Proof.
  intros [st Hs]. unfold keep_osdesc_arena. rewrite Hs.
  assert (Hnew : forwarded (set_state w s (MkPoolState (pools st) (<[(r, h) := a]> (osdesc_arenas st)))) (a_id a)).
  { left. eexists s, _, (r, h), a. cbn. rewrite lookup_insert_eq. split; [done|].
    cbn. by rewrite lookup_insert_eq. }
  destruct (osdesc_arenas st !! (r, h)) as [prev|] eqn:Hp; split; [|by apply forwarded_retain; left| |done].
  - eapply fw_replace; [done|done|]. apply map_subseteq_spec.
    intros k b Hk. apply lookup_delete_Some in Hk as [Hne Hk]. by rewrite lookup_insert_ne.
  - eapply fw_set_state; [done|]. by apply insert_subseteq.
Qed.

Lemma fw_end_session w s : fw_keeps w (end_session w s).
Proof.
  unfold end_session. destruct (states w !! s) as [st|] eqn:Hs; [|done].
  destruct (sweep _ _ _) as [[kept gone] d]. intros id Hid. apply forwarded_retain_all.
  destruct Hid as [(s' & st1 & k & a & Hs1 & Hk & <-)|Hr]; [|by left; right].
  destruct (decide (s' = s)) as [->|Hne].
  - right. rewrite Hs in Hs1. injection Hs1 as <-. apply list_elem_of_fmap_2.
    apply (list_elem_of_fmap_2 snd _ (k, a)). by apply elem_of_map_to_list.
  - left. left. exists s', st1, k, a. cbn. by rewrite lookup_delete_ne.
Qed.

Lemma fw_step w (op : PoolOp (M:=M)) : fw_keeps w (pool_step w op).
Proof.
  destruct op; cbn.
  - destruct (states w !! s) as [st|] eqn:Hs; [done|]. intros id [(s' & st1 & k & a & Hs1 & Hk)|Hr]; [left|by right].
    exists s', st1, k, a. cbn. rewrite lookup_insert_ne; [done|congruence].
  - apply fw_back_pool.
  - unfold release_uvm_range. destruct (states w !! s) as [st|] eqn:Hs; [|done].
    pose proof (fw_session_sweep (matches_pool token (Some addr)) (set_drv w (guest_free (drv w) (s, token, ga addr)))
      s st (MkPoolState (map (forget_range token addr) (pools st)) (osdesc_arenas st)) Hs (reflexivity _)) as Hsw.
    destruct (session_sweep _ _ _ _) as [w1 st1]. exact (proj2 Hsw).
  - unfold close_uvm. destruct (states w !! s) as [st|] eqn:Hs; [|done].
    pose proof (fw_session_sweep (matches_pool token None) w s st st Hs (reflexivity _)) as Hsw.
    destruct (session_sweep _ _ _ _) as [w1 st1]. exact (proj2 Hsw).
  - unfold forward_osdesc. destruct (states w !! s) as [st|] eqn:Hs; [|done].
    destruct (fw_arena w c total) as [Ea Hka].
    destruct (arena w c total) as [[a|?|] w1]; [|done|done]. cbn [snd] in Ea, Hka.
    eapply fw_trans; [exact Hka|]. destruct rm_ok; [|by apply fw_same].
    apply fw_keep_osdesc. by rewrite Ea, Hs.
  - apply fw_drop_osdesc.
  - unfold drop_osdesc_client. destruct (states w !! s) as [p|]; [|done].
    generalize (client_arenas p root) as l. intros l. revert w.
    induction l as [|h l IH]; intros w; [done|]. cbn [foldl]. eapply fw_trans; [apply fw_drop_osdesc|apply IH].
  - apply fw_budget_retry.
  - apply fw_end_session.
Qed.

Lemma fw_run (ops : list (PoolOp (M:=M))) : forall w, fw_keeps w (pool_run w ops).
Proof.
  induction ops as [|op ops IH]; intros w; [done|]. cbn. eapply fw_trans; [apply fw_step|apply IH].
Qed.

(** A registration that RM accepted is forwarded from then on. *)
Lemma fw_forward w s root h (c : ArenaCall (M:=M)) total a :
  is_Some (states w !! s) -> (arena w c total).1 = Ok a ->
  forwarded (pool_step w (ForwardOsdesc s root h c total true)) (a_id a).
Proof.
  intros [st Hs] Ha. cbn. unfold forward_osdesc. rewrite Hs. destruct (fw_arena w c total) as [Ea _].
  destruct (arena w c total) as [r w1]. cbn in Ha, Ea. rewrite Ha. apply fw_keep_osdesc.
  by rewrite Ea, Hs.
Qed.

(** *** What the invariant says of the references *)
Lemma gsum_occ_nonneg (m : gmap (Z * Z) Arena) id : 0 <= gsum (arena_occ id) m.
Proof. apply gsum_nonneg. intros k a _. unfold arena_occ. by destruct (_ =? _). Qed.

Lemma st_occ_nonneg id st : 0 <= st_occ id st.
Proof.
  unfold st_occ. pose proof (occ_nonneg id (arena_ids (pools st))).
  pose proof (gsum_occ_nonneg (osdesc_arenas st) id). lia.
Qed.

(** An arena that is held anywhere has not been unmapped. *)
Lemma held_not_dropped w id :
  world_ok [] w ->
  (exists s st, states w !! s = Some st /\ 1 <= st_occ id st) \/
  id ∈ arena_ids (quarantine (budget w)) \/ id ∈ map a_id (retained (budget w)) ->
  id ∉ dropped w.
Proof.
  intros Hw Hheld Hd. apply occ_elem in Hd. pose proof (wk_occ _ _ Hw id) as Hocc.
  pose proof (occ_nonneg id (arena_ids (quarantine (budget w)))).
  pose proof (occ_nonneg id (map a_id (retained (budget w)))).
  assert (Hst : map_Forall (fun _ st => 0 <= st_occ id st) (states w))
    by (intros ? ? _; apply st_occ_nonneg).
  pose proof (gsum_nonneg (st_occ id) (states w) Hst). cbn in Hocc. change (occ id []) with 0 in Hocc.
  assert (2 <= 1); [|lia].
  destruct Hheld as [(s & st & Hs & Hone)|[Hin%occ_elem|Hin%occ_elem]];
    [pose proof (gsum_lookup_le (st_occ id) (states w) s st Hst Hs)|..];
    destruct ((0 <=? id) && (id <? next_arena w)); lia.
Qed.

Lemma pool_occ st p : p ∈ pools st -> 1 <= st_occ (a_id (p_arena p)) st.
Proof.
  intros Hin. unfold st_occ. pose proof (gsum_occ_nonneg (osdesc_arenas st) (a_id (p_arena p))).
  assert (1 <= occ (a_id (p_arena p)) (arena_ids (pools st))); [|lia].
  apply occ_elem. by apply (list_elem_of_fmap_2 (fun q => a_id (p_arena q))).
Qed.

Lemma owned_not_dropped w p : world_ok [] w -> own w p -> a_id (p_arena p) ∉ dropped w.
Proof.
  intros Hw [Hin|(s & st & Hs & Hin)]; apply held_not_dropped; [done| |done|].
  - right. left. by apply (list_elem_of_fmap_2 (fun q => a_id (p_arena q))).
  - left. exists s, st. split; [done|]. by apply pool_occ.
Qed.

Lemma osdesc_not_dropped w s st k a :
  world_ok [] w -> states w !! s = Some st -> osdesc_arenas st !! k = Some a ->
  a_id a ∉ dropped w.
Proof.
  intros Hw Hs Hk. apply held_not_dropped; [done|]. left. exists s, st. split; [done|].
  unfold st_occ. pose proof (occ_nonneg (a_id a) (arena_ids (pools st))).
  assert (Hle : arena_occ (a_id a) a <= gsum (arena_occ (a_id a)) (osdesc_arenas st)).
  { apply gsum_lookup_le with k; [|done]. intros ? ? _. unfold arena_occ. by destruct (_ =? _). }
  assert (Hone : arena_occ (a_id a) a = 1) by (unfold arena_occ; by rewrite Z.eqb_refl). lia.
Qed.

Lemma forwarded_not_dropped w id : world_ok [] w -> forwarded w id -> id ∉ dropped w.
Proof.
  intros Hw [(s & st & k & a & Hs & Hk & <-)|Hr]; [by eapply osdesc_not_dropped|].
  apply held_not_dropped; [done|]. by right; right.
Qed.

Lemma dropped_once w : world_ok [] w -> NoDup (dropped w).
Proof.
  intros Hw. apply NoDup_occ. intros id. pose proof (wk_occ _ _ Hw id) as Hocc.
  pose proof (occ_nonneg id (arena_ids (quarantine (budget w)))).
  pose proof (occ_nonneg id (map a_id (retained (budget w)))).
  pose proof (occ_nonneg id (map a_id [])).
  assert (0 <= gsum (st_occ id) (states w)) by (apply gsum_nonneg; intros ? ? _; apply st_occ_nonneg).
  destruct ((0 <=? id) && (id <? next_arena w)); lia.
Qed.
End world.

(** ** A driver *)

(** Tables of references and a handle counter; [t_stuck] makes RM_FREE fail. *)
Record TableDriver := MkTableDriver {
  t_objects : gmap ObjKey Z; t_ranges : gmap RangeKey Z; t_next : Z; t_stuck : bool }.

Global Instance TableDriver_driver : PoolDriver TableDriver := {
  allocate d s a :=
    match t_objects d !! (s, t_next d) with
    | None => (Some (t_next d), MkTableDriver (<[(s, t_next d) := a]> (t_objects d)) (t_ranges d)
                                  (t_next d + 1) (t_stuck d))
    | Some _ => (None, d)
    end;
  grant d _ := (true, d);
  create_range d _ _ := (true, d);
  map_range d k o _ :=
    match t_objects d !! o with
    | Some a => (true, MkTableDriver (t_objects d) (<[k := a]> (t_ranges d)) (t_next d) (t_stuck d))
    | None => (false, d)
    end;
  free_range d k :=
    (true, MkTableDriver (t_objects d) (delete k (t_ranges d)) (t_next d) (t_stuck d));
  free_object d k :=
    if t_stuck d then (false, d)
    else (true, MkTableDriver (delete k (t_objects d)) (t_ranges d) (t_next d) false);
  guest_free d k := MkTableDriver (t_objects d) (delete k (t_ranges d)) (t_next d) (t_stuck d);
  objects := t_objects;
  ranges := t_ranges;
}.

Global Instance TableDriver_laws : PoolDriverLaws TableDriver.
Proof.
  split; cbn; intros d *.
  - destruct (t_objects d !! (s, t_next d)) eqn:E; [done|]. by intros [= <- <-].
  - destruct (t_objects d !! (s, t_next d)) eqn:E; [|done]. by intros [= <-].
  - intros _ ok d' [= <- <-]. by split.
  - intros _ _ ok d' [= <- <-]. by split.
  - intros _ ok d'. destruct (t_objects d !! o) as [a|] eqn:E; intros [= <- <-]; cbn;
      [|by split; [|left]].
    split; [done|]. right. by exists a.
  - by intros [= <- <-].
  - by destruct (t_stuck d); intros [= <- <-].
  - done.
Qed.

(** A host with 4 KiB pages and one region of guest RAM; each call registers
    three pages. *)
Definition example_call : ArenaCall (M:=RegionList) :=
  MkArenaCall 4096 0x10000000 (MkArenaEnv true (fun _ => true))
    [MkRegion 0x10000000 0x800000 (Some 0)]
    [MkRun {| ga := 0x10003000 |} {| gl := 0x2000 |};
     MkRun {| ga := 0x10000000 |} {| gl := 0x1000 |}].

Definition example_len : GuestLen := {| gl := 0x3000 |}.
Definition example_pool (s t a : Z) : PoolOp (M:=RegionList) :=
  BackPool s t {| ga := a |} example_len example_call true true.

(** A pool whose OS descriptor cannot be freed, one that fails for lack of
    budget, and a forwarded descriptor that the guest frees. *)
Definition example_ops : list (PoolOp (M:=RegionList)) :=
  [NewSession 1; example_pool 1 7 0x200000;
   ForwardOsdesc 1 3 4 example_call example_len true;
   example_pool 1 7 0x300000; DropOsdesc 1 3 4; CloseUvm 1 7].

Definition example_driver (stuck : bool) : TableDriver := MkTableDriver ∅ ∅ 100 stuck.
Definition example_world (stuck : bool) (ops : list (PoolOp (M:=RegionList))) : World TableDriver :=
  pool_run (world_new 0x8000 (example_driver stuck)) ops.

Lemma example_ops_ok : Forall op_ok example_ops.
Proof. repeat constructor; vm_compute; congruence. Qed.

(** ** Claims *)
Section claims.
Context {D : Type} `{PoolDriverLaws D} {M : Type} `{GuestMem M}.

Lemma reachable_ok lim d (ops : list (PoolOp (M:=M))) :
  0 <= lim -> objects d = ∅ -> ranges d = ∅ -> Forall op_ok ops ->
  world_ok [] (pool_run (world_new lim d) ops).
Proof. intros. apply pool_run_ok; [done|]. by apply world_new_ok. Qed.

(** Nothing that is referenced has been unmapped. *)
Lemma world_no_dma w : world_ok [] w ->
  (forall k a, objects (drv w) !! k = Some a -> a ∉ dropped w) /\
  (forall k a, ranges (drv w) !! k = Some a -> a ∉ dropped w).
Proof.
  intros Hw. split; intros k a Hk.
  - destruct (wk_obj _ _ Hw k a Hk) as (p & Hp & _ & _ & <-). by apply owned_not_dropped.
  - destruct (wk_range _ _ Hw k a Hk) as (p & Hp & _ & _ & <-). by apply owned_not_dropped.
Qed.

Lemma pool_run_app (l k : list (PoolOp (M:=M))) : forall w : World D,
  pool_run w (l ++ k) = pool_run (pool_run w l) k.
Proof. induction l as [|op l IH]; intros w; [done|]. apply IH. Qed.

(** C12: Guest pages stay mapped while the GPU may reach them.  After any
    sequence of registrations, releases, failures at any driver call, retries
    and session ends, no arena whose host mapping has been given back is
    referenced by an OS descriptor or a UVM mapping that the driver still
    holds.  The arena of an OS-descriptor allocation that RM accepted for the
    guest's own client is never given back, whatever follows the allocation:
    freeing the object or the client, registering another one under the same
    handle, and the end of the session retain it.  One that RM refused is
    given back at once. *)
Theorem no_dma_after_unmap lim d (ops : list (PoolOp (M:=M))) :
  0 <= lim -> objects d = ∅ -> ranges d = ∅ -> Forall op_ok ops ->
  let w := pool_run (world_new lim d) ops in
  (forall k a, objects (drv w) !! k = Some a -> a ∉ dropped w) /\
  (forall k a, ranges (drv w) !! k = Some a -> a ∉ dropped w) /\
  (forall pre post s root h c total ok a,
     ops = pre ++ ForwardOsdesc s root h c total ok :: post ->
     is_Some (states (pool_run (world_new lim d) pre) !! s) ->
     (arena (pool_run (world_new lim d) pre) c total).1 = Ok a ->
     if ok : bool then a_id a ∉ dropped w
     else a_id a ∈ dropped (pool_run (world_new lim d) (pre ++ [ForwardOsdesc s root h c total ok]))).
Proof.
  intros Hlim Ho Hr Hops w. pose proof (reachable_ok lim d ops Hlim Ho Hr Hops) as Hw.
  fold w in Hw. split; [by apply world_no_dma|]. split; [by apply world_no_dma|].
  intros pre post s root h c total ok a Eops Hs Ha. destruct ok.
  - apply forwarded_not_dropped; [done|]. unfold w. rewrite Eops, pool_run_app.
    cbn [pool_run]. apply fw_run. by apply fw_forward.
  - rewrite pool_run_app. cbn. unfold forward_osdesc. destruct Hs as [st Hs]. rewrite Hs.
    destruct (arena _ c total) as [r w1]. cbn in Ha. rewrite Ha. cbn. by left.
Qed.

(** C24: The pin budget is exact and bounds the virtual machine.  After any
    sequence of operations the bytes in use are the charges of the open
    pools and forwarded registrations of every session, of the quarantined
    pools and of the retained registrations; they never exceed the limit, and
    no arena's mapping is given back twice. *)
Theorem pin_budget_conserves lim d (ops : list (PoolOp (M:=M))) :
  0 <= lim -> objects d = ∅ -> ranges d = ∅ -> Forall op_ok ops ->
  let w := pool_run (world_new lim d) ops in
  let b := budget w in
  pin_used b = gsum st_charge (states w) + charges (quarantine b) + retained_bytes b /\
  0 <= pin_used b <= lim /\ NoDup (dropped w).
Proof.
  intros Hlim Ho Hr Hops w b. pose proof (reachable_ok lim d ops Hlim Ho Hr Hops) as Hw.
  fold w in Hw. pose proof (wk_used _ _ Hw) as Hu. change (leases []) with 0 in Hu.
  pose proof (wk_limit _ _ Hw) as Hl. pose proof (limit_run ops (world_new lim d)) as El.
  fold w in El. unfold pin_limit_of in El. cbn in El.
  pose proof (charges_nonneg _ (wk_quarantine _ _ Hw)). pose proof (wk_retained _ _ Hw).
  assert (0 <= gsum st_charge (states w)).
  { apply gsum_nonneg. intros s st Hs. destruct (wk_states _ _ Hw s st Hs) as [Hp Ha].
    pose proof (charges_nonneg _ (open_nonneg s _ Hp)).
    pose proof (gsum_nonneg lease (osdesc_arenas st) Ha). unfold st_charge. lia. }
  subst b. split; [lia|]. split; [lia|]. by apply dropped_once.
Qed.

Lemma write_in_pools_Some ps token va ve aid off :
  write_in_pools ps token va ve = Some (aid, off) ->
  exists p, p ∈ ps /\ active p = true /\ p_token p = token /\ a_id (p_arena p) = aid /\
    off = ga va - ga (p_addr p) /\ ga (p_addr p) <= ga va /\ ga ve <= pool_end p /\ off mod 4 = 0.
Proof.
  induction ps as [|p ps IH]; simpl; [done|].
  destruct (negb (active p) || negb (p_token p =? token)) eqn:E1.
  { intros (q & Hin & Hq)%IH. exists q. split; [by right|done]. }
  unfold addr_end. destruct (checked_add64 _ _) as [pe|] eqn:Epe; simpl.
  2: { intros (q & Hin & Hq)%IH. exists q. split; [by right|done]. }
  apply checked_add64_Some in Epe as [-> _].
  destruct ((ga (p_addr p) <=? ga va) && (ga ve <=? _)) eqn:E2.
  2: { intros (q & Hin & Hq)%IH. exists q. split; [by right|done]. }
  destruct (negb (_ mod 4 =? 0)) eqn:E3; [done|]. intros [= <- <-]. bools.
  exists p. split; [by left|]. unfold pool_end. by repeat split.
Qed.

(** C25: A semaphore word that the host signals for the guest is stored inside
    a live mapping: the address lies in an active pool of the very UVM
    descriptor the request names, the four bytes lie inside that pool's arena
    at their place in the pool, aligned, and the arena has not been unmapped. *)
Theorem semaphore_write_inside lim d (ops : list (PoolOp (M:=M))) s st token va aid off :
  0 <= lim -> objects d = ∅ -> ranges d = ∅ -> Forall op_ok ops ->
  let w := pool_run (world_new lim d) ops in
  states w !! s = Some st -> write_guest_u32_for st token va = Some (aid, off) ->
  (aid ∉ dropped w) /\
  exists p, p ∈ pools st /\ active p = true /\ p_token p = token /\ a_id (p_arena p) = aid /\
    ga va = ga (p_addr p) + off /\ 0 <= off /\ off + 4 <= a_len (p_arena p) /\ off mod 4 = 0.
Proof.
  intros Hlim Ho Hr Hops w Hs Hwr. pose proof (reachable_ok lim d ops Hlim Ho Hr Hops) as Hw.
  fold w in Hw. unfold write_guest_u32_for, addr_end in Hwr.
  destruct (checked_add64 _ _) as [ve|] eqn:Eve; [|done]. simpl in Hwr.
  apply checked_add64_Some in Eve as [-> _]. cbn in Hwr.
  apply write_in_pools_Some in Hwr as (p & Hin & Hact & Htok & Haid & -> & Hlo & Hhi & Hal).
  cbn in Hhi. destruct (wk_states _ _ Hw s st Hs) as [Hp _]. rewrite Forall_forall in Hp.
  destruct (Hp p Hin) as (_ & _ & _ & Hlen & _). unfold pool_end in Hhi. split.
  - rewrite <- Haid. apply owned_not_dropped; [done|]. right. by exists s, st.
  - exists p. repeat split; try done; lia.
Qed.
End claims.

(** The descriptor of the pool cannot be freed; the forwarded registration
    (arena 1) outlives its object. *)
Lemma no_dma_after_unmap_witness :
  let w := example_world true example_ops in
  objects (drv w) !! (1, 100) = Some 0 /\ map a_id (retained (budget w)) = [1] /\ dropped w = [] /\
  (0 ∉ dropped w) /\ (1 ∉ dropped w).
Proof.
  intros w. split; [vm_compute; reflexivity|]. split; [vm_compute; reflexivity|].
  split; [vm_compute; reflexivity|].
  destruct (no_dma_after_unmap 0x8000 (example_driver true) example_ops) as (Hobj & _ & Hfw);
    [lia|reflexivity|reflexivity|apply example_ops_ok|]. split.
  - apply (Hobj (1, 100)). vm_compute. reflexivity.
  - apply (Hfw [NewSession 1; example_pool 1 7 0x200000]
             [example_pool 1 7 0x300000; DropOsdesc 1 3 4; CloseUvm 1 7]
             1 3 4 example_call example_len true (MkArena 1 0x3000 0x3000)).
    + reflexivity.
    + vm_compute. by eexists.
    + vm_compute. reflexivity.
Defined.

Lemma pin_budget_conserves_witness :
  let w := example_world false example_ops in
  pin_used (budget w) = 0x3000 /\ dropped w = [0] /\ NoDup (dropped w).
Proof.
  intros w. split; [vm_compute; reflexivity|]. split; [vm_compute; reflexivity|].
  apply (pin_budget_conserves 0x8000 (example_driver false) example_ops); [lia|reflexivity|reflexivity|apply example_ops_ok].
Defined.

Lemma semaphore_write_inside_witness :
  let w := example_world false [NewSession 1; example_pool 1 7 0x200000] in
  exists st, states w !! 1 = Some st /\
  write_guest_u32_for st 7 {| ga := 0x202ffc |} = Some (0, 0x2ffc) /\ 0 ∉ dropped w.
Proof.
  intros w. eexists. split; [vm_compute; reflexivity|]. split; [vm_compute; reflexivity|].
  eapply (semaphore_write_inside 0x8000 (example_driver false)
           [NewSession 1; example_pool 1 7 0x200000] 1 _ 7 {| ga := 0x202ffc |} 0 0x2ffc).
  - lia.
  - reflexivity.
  - reflexivity.
  - repeat constructor; vm_compute; congruence.
  - vm_compute. reflexivity.
  - vm_compute. reflexivity.
Defined.
