(* ===== verification/Waiters.v ===== *)
(** * Events and semaphore waiters (session.rs, waiters.rs, nvrm.rs)

    Guest kernel callbacks become host OS events.  A semaphore waiter needs a
    private control descriptor with one OS event, a slot; slots are pooled per
    RM client, armed for one firing and watched by the thread of waiters.rs,
    which reports a firing once.  The session keeps the books ([EventBooks]),
    the thread its watches and the firings not yet collected ([Poller]), and
    the device moves registrations between them after every request.

    The thread runs concurrently with the device: a [Poll] step may happen
    between any two steps of the device, also in the middle of a request
    ([Phase]).  What the kernel and RM decide (descriptors, statuses, which
    descriptors are readable, pacing) is part of the step. *)
From S2P Require Import Prelude.
From S2P Require Import SysConsts.

(** ** Data *)
Record EventReg := MkEventReg {
  er_client : Z; h_event : Z; class : Z; notify_index : Z; guest_data : Z; er_token : Z; er_id : Z }.

Record WaiterSlot := MkSlot { ctl : Z; slot_id : Z }.
Record WaiterRetirement := MkRetirement { ret_slot : WaiterSlot; reuse_for : option Z }.
Record WaiterTarget := MkTarget { surface : Z; index : Z; wait_value : Z }.

Global Instance WaiterTarget_eq_dec : EqDecision WaiterTarget.
Proof. solve_decision. Defined.

Record ActiveWaiter := MkActive {
  aw_slot : WaiterSlot; generation : Z; target : WaiterTarget;
  aw_client : Z; guest_kc : Z; aw_token : Z }.

Record PendingWaiter := MkPending {
  pw_slot : WaiterSlot; pw_generation : Z; pw_target : WaiterTarget;
  pw_client : Z; pw_kc : Z; pw_token : Z }.

Record RegistrationId := MkReg { event_id : Z; reg_generation : Z }.
Record Fired := MkFired { fired_proc : Z; registration : RegistrationId }.
Record Watch := MkWatch { watch_fired : Fired; watch_fd : Z }.

Global Instance RegistrationId_eq_dec : EqDecision RegistrationId.
Proof. solve_decision. Defined.
Global Instance Fired_eq_dec : EqDecision Fired.
Proof. solve_decision. Defined.

(** The event half of a session. [pending_watch] holds the [Pollable::Waiter]
    entries of [pending_pollables], [ctl_news] the [Pollable::EventCtl] ones. *)
Record EventBooks := MkBooks {
  event_ctls : gmap Z Z;
  next_event_id : Z;
  next_waiter_generation : Z;
  events : gmap (Z * Z) EventReg;
  waiter_pool : gmap Z (list WaiterSlot);
  waiters : gmap Z ActiveWaiter;
  pending_unwatch : list WaiterRetirement;
  pending_ctl_unwatch : list (Z * Z);
  pending_watch : list (RegistrationId * Z);
  ctl_news : list (Z * Z);
  client_token : gmap Z Z;
  ev_registered : Z; ev_fired : Z; ev_unmatched : Z; ev_dataless : Z }.

Definition EventBooks_new : EventBooks :=
  MkBooks ∅ 1 1 ∅ ∅ ∅ [] [] [] [] ∅ 0 0 0 0.

(** Field updates. *)
Definition set_ids (b : EventBooks) (i g : Z) : EventBooks :=
  MkBooks (event_ctls b) i g (events b) (waiter_pool b) (waiters b) (pending_unwatch b)
    (pending_ctl_unwatch b) (pending_watch b) (ctl_news b) (client_token b)
    (ev_registered b) (ev_fired b) (ev_unmatched b) (ev_dataless b).
Definition set_waiters (b : EventBooks) (p : gmap Z (list WaiterSlot)) (w : gmap Z ActiveWaiter)
    (u : list WaiterRetirement) (n : list (RegistrationId * Z)) : EventBooks :=
  MkBooks (event_ctls b) (next_event_id b) (next_waiter_generation b) (events b) p w u
    (pending_ctl_unwatch b) n (ctl_news b) (client_token b)
    (ev_registered b) (ev_fired b) (ev_unmatched b) (ev_dataless b).
Definition set_events (b : EventBooks) (c : gmap Z Z) (e : gmap (Z * Z) EventReg)
    (u : list (Z * Z)) (n : list (Z * Z)) : EventBooks :=
  MkBooks c (next_event_id b) (next_waiter_generation b) e (waiter_pool b) (waiters b)
    (pending_unwatch b) u (pending_watch b) n (client_token b)
    (ev_registered b) (ev_fired b) (ev_unmatched b) (ev_dataless b).
Definition set_clients (b : EventBooks) (t : gmap Z Z) : EventBooks :=
  MkBooks (event_ctls b) (next_event_id b) (next_waiter_generation b) (events b) (waiter_pool b)
    (waiters b) (pending_unwatch b) (pending_ctl_unwatch b) (pending_watch b) (ctl_news b) t
    (ev_registered b) (ev_fired b) (ev_unmatched b) (ev_dataless b).
Definition add_counts (b : EventBooks) (r f u d : Z) : EventBooks :=
  MkBooks (event_ctls b) (next_event_id b) (next_waiter_generation b) (events b) (waiter_pool b)
    (waiters b) (pending_unwatch b) (pending_ctl_unwatch b) (pending_watch b) (ctl_news b)
    (client_token b) (ev_registered b + r) (ev_fired b + f) (ev_unmatched b + u) (ev_dataless b + d).

(** ** Identifiers *)
Definition take_event_id (b : EventBooks) : outcome Z Z * EventBooks :=
  if next_event_id b <=? u32_max
  then (Ok (next_event_id b), set_ids b (next_event_id b + 1) (next_waiter_generation b))
  else (Err ENOSPC, b).

Definition take_waiter_generation (b : EventBooks) : outcome Z Z * EventBooks :=
  match checked_add64 (next_waiter_generation b) 1 with
  | Some n => (Ok (next_waiter_generation b), set_ids b (next_event_id b) n)
  | None => (Err ENOSPC, b)
  end.

(** ** Waiter slots *)
Definition pool_of (b : EventBooks) (c : Z) : list WaiterSlot := default [] (waiter_pool b !! c).

(** [entry(c).or_default().push(s)] *)
Definition pool_push (p : gmap Z (list WaiterSlot)) (c : Z) (s : WaiterSlot)
  : gmap Z (list WaiterSlot) := <[c := default [] (p !! c) ++ [s]]> p.

(** [get_mut(c).and_then(Vec::pop)] *)
Definition pool_pop (p : gmap Z (list WaiterSlot)) (c : Z)
  : option (WaiterSlot * gmap Z (list WaiterSlot)) :=
  match p !! c with
  | Some l => match last l with
              | Some s => Some (s, <[c := removelast l]> p)
              | None => None
              end
  | None => None
  end.

(** [opened] is the descriptor that opening the control node gave, [bound]
    whether ALLOC_OS_EVENT succeeded on it. *)
Definition waiter_slot_get (b : EventBooks) (client : Z) (opened : option Z) (bound : bool)
  : outcome Z WaiterSlot * EventBooks :=
  match pool_pop (waiter_pool b) client with
  | Some (s, p) => (Ok s, set_waiters b p (waiters b) (pending_unwatch b) (pending_watch b))
  | None =>
      match take_event_id b with
      | (Ok id, b) =>
          match opened with
          | None => (Err EIO, b)
          | Some fd => if bound then (Ok (MkSlot fd id), b) else (Err EIO, b)
          end
      | (Err e, b) => (Err e, b)
      | (Panic, b) => (Panic, b)
      end
  end.

(** Preparation of REGISTER_WAITER with a kernel callback. *)
Definition register_prepare (b : EventBooks) (client : Z) (t : WaiterTarget) (kc token : Z)
    (opened : option Z) (bound : bool) : outcome Z PendingWaiter * EventBooks :=
  match take_waiter_generation b with
  | (Ok g, b) =>
      match waiter_slot_get b client opened bound with
      | (Ok s, b) => (Ok (MkPending s g t client kc token), b)
      | (Err e, b) => (Err e, b)
      | (Panic, b) => (Panic, b)
      end
  | (Err e, b) => (Err e, b)
  | (Panic, b) => (Panic, b)
  end.

(** Its execution: armed on NV_OK, otherwise the slot goes back. *)
Definition register_finish (b : EventBooks) (p : PendingWaiter) (ok : bool) : EventBooks :=
  if ok then
    let id := slot_id (pw_slot p) in
    add_counts
      (set_waiters b (waiter_pool b)
         (<[id := MkActive (pw_slot p) (pw_generation p) (pw_target p) (pw_client p) (pw_kc p)
                    (pw_token p)]> (waiters b))
         (pending_unwatch b)
         (pending_watch b ++ [(MkReg id (pw_generation p), ctl (pw_slot p))])) 1 0 0 0
  else set_waiters b (pool_push (waiter_pool b) (pw_client p) (pw_slot p)) (waiters b)
         (pending_unwatch b) (pending_watch b).

(** UNREGISTER_WAITER: the armed waiter of that callback and target. *)
Definition unregister_find (b : EventBooks) (client kc : Z) (t : WaiterTarget) : option Z :=
  (fun x => x.2.1) <$>
  list_find (fun e : Z * ActiveWaiter =>
               aw_client e.2 = client /\ guest_kc e.2 = kc /\ target e.2 = t)
    (map_to_list (waiters b)).

Definition unregister_finish (b : EventBooks) (id : Z) (ok : bool) : EventBooks :=
  if ok then
    match waiters b !! id with
    | Some w => set_waiters b (waiter_pool b) (delete id (waiters b))
                  (pending_unwatch b ++ [MkRetirement (aw_slot w) (Some (aw_client w))])
                  (pending_watch b)
    | None => b
    end
  else b.

Definition semsurf_wake (b : EventBooks) (r : RegistrationId)
  : option (Z * Z * Z) * EventBooks :=
  match waiters b !! event_id r with
  | None => (None, b)
  | Some w =>
      if negb (generation w =? reg_generation r) then (None, b)
      else (Some (aw_client w, guest_kc w, aw_token w),
            add_counts (set_waiters b (pool_push (waiter_pool b) (aw_client w) (aw_slot w))
                          (delete (event_id r) (waiters b)) (pending_unwatch b) (pending_watch b))
              0 1 0 0)
  end.

Fixpoint push_retired (p : gmap Z (list WaiterSlot)) (l : list WaiterRetirement)
  : gmap Z (list WaiterSlot) :=
  match l with
  | [] => p
  | r :: l' => push_retired (match reuse_for r with
                             | Some c => pool_push p c (ret_slot r)
                             | None => p
                             end) l'
  end.

(** [take_unwatch] and, once the poller has acknowledged, [finish_unwatch]. *)
Definition finish_unwatch (b : EventBooks) : EventBooks :=
  set_waiters b (push_retired (waiter_pool b) (pending_unwatch b)) (waiters b) []
    (pending_watch b).

(** ** Clients *)
Definition retire (s : WaiterSlot) : WaiterRetirement := MkRetirement s None.

Definition of_client (c : Z) (w : ActiveWaiter) : bool := aw_client w =? c.

(** What a session holds for a client that is gone; the first component is
    the number of descriptors given up. *)
Definition release_client (b : EventBooks) (c : Z) : Z * EventBooks :=
  let b := set_events b (event_ctls b) (filter (fun e => e.1.1 <> c) (events b))
             (pending_ctl_unwatch b) (ctl_news b) in
  let b := set_clients b (delete c (client_token b)) in
  let '(n0, b) :=
    match event_ctls b !! c with
    | Some fd => (1, set_events b (delete c (event_ctls b)) (events b)
                       (pending_ctl_unwatch b ++ [(c, fd)]) (ctl_news b))
    | None => (0, b)
    end in
  let pooled := pool_of b c in
  let dead := map (fun e : Z * ActiveWaiter => aw_slot e.2)
                (map_to_list (filter (fun e => of_client c e.2 = true) (waiters b))) in
  (n0 + Z.of_nat (length pooled) + Z.of_nat (length dead),
   set_waiters b (delete c (waiter_pool b)) (filter (fun e => of_client c e.2 = false) (waiters b))
     (pending_unwatch b ++ map retire pooled ++ map retire dead) (pending_watch b)).

Definition release_clients (b : EventBooks) (cs : list Z) : EventBooks :=
  foldl (fun b c => (release_client b c).2) b cs.

(** Closing a descriptor ends the clients that were allocated on it. *)
Definition close_clients_of_token (b : EventBooks) (token : Z) : EventBooks :=
  release_clients b
    (map fst (map_to_list (filter (fun e : Z * Z => e.2 = token) (client_token b)))).

(** ** Events with a handle *)

(** One control descriptor per client, announced when it is new. *)
Definition alloc_os_event_id (b : EventBooks) (client : Z) (opened : option Z) (bound : bool)
  : outcome Z Z * EventBooks :=
  match take_event_id b with
  | (Ok id, b) =>
      let r := match event_ctls b !! client with
               | Some _ => Some b
               | None =>
                   match opened with
                   | Some fd => Some (set_events b (<[client := fd]> (event_ctls b)) (events b)
                                        (pending_ctl_unwatch b) (ctl_news b ++ [(client, fd)]))
                   | None => None
                   end
               end in
      match r with
      | None => (Err EIO, b)
      | Some b => if bound then (Ok id, b) else (Err EIO, b)
      end
  | (Err e, b) => (Err e, b)
  | (Panic, b) => (Panic, b)
  end.

(** Execution of a substituted event allocation: [h] is hObjectNew. *)
Definition event_finish (b : EventBooks) (r : EventReg) (ok : bool) (h : Z) : EventBooks :=
  if ok then
    let r := MkEventReg (er_client r) h (class r) (notify_index r) (guest_data r) (er_token r)
               (er_id r) in
    add_counts (set_events b (event_ctls b) (<[(er_client r, h) := r]> (events b))
                  (pending_ctl_unwatch b) (ctl_news b)) 1 0 0 0
  else b.

(** A confirmed RM_FREE of [h] under [root]. *)
Definition rm_free (b : EventBooks) (root h : Z) : EventBooks :=
  if h =? root then (release_client b root).2
  else set_events b (event_ctls b) (delete (root, h) (events b)) (pending_ctl_unwatch b)
         (ctl_news b).

Definition note_client (b : EventBooks) (h token : Z) : EventBooks :=
  set_clients b (<[h := token]> (client_token b)).

(** What GET_EVENT_DATA answers. *)
Inductive EventData :=
| CallFailed
| StatusOnly (st : Z)
| Event (hObject info32 : Z) (more : bool).

Definition lose_ctl (b : EventBooks) (c : Z) : EventBooks :=
  set_events b (delete c (event_ctls b)) (filter (fun e => e.1.1 <> c) (events b))
    (pending_ctl_unwatch b) (ctl_news b).

Fixpoint drain_loop (n : nat) (b : EventBooks) (c : Z) (answer : nat -> EventData)
  : list (EventReg * Z) * EventBooks :=
  match n with
  | O => ([], b)
  | S n' =>
      match answer n' with
      | CallFailed => ([], lose_ctl b c)
      | StatusOnly st =>
          if st =? NV_ERR_OPERATING_SYSTEM then ([], add_counts b 0 0 0 1) else ([], lose_ctl b c)
      | Event h info more =>
          let '(hit, b) := match events b !! (c, h) with
                           | Some r => ([(r, info)], add_counts b 0 1 0 0)
                           | None => ([], add_counts b 0 1 1 0)
                           end in
          if more then let '(l, b) := drain_loop n' b c answer in (hit ++ l, b) else (hit, b)
      end
  end.

Definition drain_os_events (b : EventBooks) (c : Z) (answer : nat -> EventData)
  : list (EventReg * Z) * EventBooks :=
  match event_ctls b !! c with
  | None => ([], b)
  | Some _ => drain_loop 256 b c answer
  end.

(** ** The poller *)
Record Poller := MkPoller { watches : list Watch; fired : list Fired }.

Definition conflicts (w w' : Watch) : bool :=
  (watch_fd w' =? watch_fd w) ||
  ((fired_proc (watch_fired w') =? fired_proc (watch_fired w)) &&
   (event_id (registration (watch_fired w')) =? event_id (registration (watch_fired w)))).

(** [Operation::Watch]: refused when the slot is armed already. *)
Definition watch (p : Poller) (w : Watch) : option Poller :=
  if existsb (conflicts w) (watches p) then None
  else Some (MkPoller (watches p ++ [w]) (fired p)).

Definition cancelled (s : Z) (ids : list Z) (f : Fired) : Prop :=
  fired_proc f = s /\ event_id (registration f) ∈ ids.
Global Instance cancelled_dec s ids f : Decision (cancelled s ids f).
Proof. unfold cancelled. apply _. Defined.

Definition cancel_slots (p : Poller) (s : Z) (ids : list Z) : Poller :=
  MkPoller (filter (fun w => ~ cancelled s ids (watch_fired w)) (watches p))
    (filter (fun f => ~ cancelled s ids f) (fired p)).

Definition cancel_process (p : Poller) (s : Z) : Poller :=
  MkPoller (filter (fun w => fired_proc (watch_fired w) <> s) (watches p))
    (filter (fun f => fired_proc f <> s) (fired p)).

(** One round of [run]: processes that are paced are left out of the
    snapshot; [ready] says which of the others poll(2) reports. *)
Definition poll_round (p : Poller) (paced : Z -> bool) (ready : Watch -> bool) : Poller :=
  let snapshot := List.filter (fun w => negb (paced (fired_proc (watch_fired w)))) (watches p) in
  let hits := map watch_fired (List.filter ready snapshot) in
  MkPoller (filter (fun w => watch_fired w ∉ hits) (watches p)) (fired p ++ hits).

(** ** The device *)
Inductive Phase := Idle | Cancelling (s : Z) | Finishing (s : Z) | Watching (s : Z).

Record EventDevice := MkEventDevice {
  books : gmap Z EventBooks; poller : Poller; phase : Phase; event_error : bool }.

(** The part of a request that concerns events. *)
Inductive EventReq :=
| RegisterWaiter (client : Z) (t : WaiterTarget) (kc token : Z) (opened : option Z)
    (bound ok : bool)
| UnregisterWaiter (client kc : Z) (t : WaiterTarget) (ok : bool)
| AllocEvent (r : EventReg) (opened : option Z) (bound ok : bool) (h : Z)
| NoteClient (h token : Z)
| FreeObject (root h : Z)
| CloseToken (token : Z)
| OtherReq.

Definition run_req (b : EventBooks) (r : EventReq) : EventBooks :=
  match r with
  | RegisterWaiter c t kc tok opened bound ok =>
      match register_prepare b c t kc tok opened bound with
      | (Ok p, b) => register_finish b p ok
      | (_, b) => b
      end
  | UnregisterWaiter c kc t ok =>
      match unregister_find b c kc t with
      | Some id => unregister_finish b id ok
      | None => b
      end
  | AllocEvent r opened bound ok h =>
      match alloc_os_event_id b (er_client r) opened bound with
      | (Ok id, b) =>
          event_finish b (MkEventReg (er_client r) 0 (class r) (notify_index r) (guest_data r)
                            (er_token r) id) ok h
      | (_, b) => b
      end
  | NoteClient h token => note_client b h token
  | FreeObject root h => rm_free b root h
  | CloseToken token => close_clients_of_token b token
  | OtherReq => b
  end.

Definition slots (b : EventBooks) : list WaiterSlot :=
  concat (map snd (map_to_list (waiter_pool b))) ++
  map (fun e : Z * ActiveWaiter => aw_slot e.2) (map_to_list (waiters b)) ++
  map ret_slot (pending_unwatch b).

Definition open_fds (d : EventDevice) : list Z :=
  concat (map (fun e : Z * EventBooks => map ctl (slots e.2)) (map_to_list (books d))).

(** The kernel never hands out a descriptor that is open. *)
Definition fresh_for (d : EventDevice) (r : EventReq) : bool :=
  match r with
  | RegisterWaiter _ _ _ _ (Some fd) _ _ => negb (existsb (Z.eqb fd) (open_fds d))
  | _ => true
  end.

Inductive DevOp :=
| NewSession (s : Z)
| Request (s : Z) (r : EventReq)
| Cancel
| Finish
| Register
| Poll (paced : Z -> bool) (ready : Watch -> bool)
| Deliver
| DrainCtl (s c : Z) (answer : nat -> EventData)
| ProcGone (s : Z) (unmapped : bool).

(** [register_pollables] for the waiters of a session. *)
Fixpoint watch_all (p : Poller) (s : Z) (l : list (RegistrationId * Z)) : Poller * bool :=
  match l with
  | [] => (p, true)
  | (r, fd) :: l' =>
      match watch p (MkWatch (MkFired s r) fd) with
      | Some p => watch_all p s l'
      | None => (p, false)
      end
  end.

(** The wakes that one collection of firings delivers, and the books after. *)
Fixpoint deliver (m : gmap Z EventBooks) (l : list Fired)
  : list (Fired * (Z * Z * Z)) * gmap Z EventBooks :=
  match l with
  | [] => ([], m)
  | f :: l' =>
      match m !! fired_proc f with
      | None => deliver m l'
      | Some b =>
          let '(r, b) := semsurf_wake b (registration f) in
          let '(out, m) := deliver (<[fired_proc f := b]> m) l' in
          (match r with Some w => (f, w) :: out | None => out end, m)
      end
  end.

Definition set_books (d : EventDevice) (s : Z) (b : EventBooks) (ph : Phase) : EventDevice :=
  MkEventDevice (<[s := b]> (books d)) (poller d) ph (event_error d).

(** PROC_GONE: the thread forgets the process first; when the VMM then refuses
    an unmap, the request fails and the session stays. *)
Definition proc_gone (d : EventDevice) (s : Z) (unmapped : bool) : EventDevice :=
  let p := cancel_process (poller d) s in
  MkEventDevice (if unmapped then delete s (books d) else books d) p Idle (event_error d).

(** A thread that stops answering ends this: the device then refuses every
    request ([n_error] of the whole device). *)
Definition dev_step (d : EventDevice) (op : DevOp) : option EventDevice :=
  match op, phase d with
  | Poll paced ready, _ =>
      Some (MkEventDevice (books d) (poll_round (poller d) paced ready) (phase d) (event_error d))
  | NewSession s, Idle =>
      match books d !! s with
      | None => Some (set_books d s EventBooks_new Idle)
      | Some _ => None
      end
  | Request s r, Idle =>
      b ← books d !! s;
      if fresh_for d r then Some (set_books d s (run_req b r) (Cancelling s)) else None
  | Cancel, Cancelling s =>
      b ← books d !! s;
      Some (MkEventDevice (books d)
              (cancel_slots (poller d) s (map (fun r => slot_id (ret_slot r)) (pending_unwatch b)))
              (Finishing s) (event_error d))
  | Finish, Finishing s =>
      b ← books d !! s; Some (set_books d s (finish_unwatch b) (Watching s))
  | Register, Watching s =>
      b ← books d !! s;
      let '(p, ok) := watch_all (poller d) s (pending_watch b) in
      Some (MkEventDevice
              (<[s := set_waiters b (waiter_pool b) (waiters b) (pending_unwatch b) []]> (books d))
              p Idle (event_error d || negb ok))
  | Deliver, Idle =>
      Some (MkEventDevice (deliver (books d) (fired (poller d))).2
              (MkPoller (watches (poller d)) []) Idle (event_error d))
  | DrainCtl s c answer, Idle =>
      b ← books d !! s; Some (set_books d s (drain_os_events b c answer).2 Idle)
  | ProcGone s unmapped, Idle => Some (proc_gone d s unmapped)
  | _, _ => None
  end.

Fixpoint dev_run (d : EventDevice) (ops : list DevOp) : option EventDevice :=
  match ops with
  | [] => Some d
  | op :: ops' => d ← dev_step d op; dev_run d ops'
  end.

Definition EventDevice_new : EventDevice := MkEventDevice ∅ (MkPoller [] []) Idle false.

(** ** Where slots are *)
Section occupancy.
Variable f : WaiterSlot -> Z.
Variable x : Z.

Definition one (s : WaiterSlot) : Z := if f s =? x then 1 else 0.
Definition pool_occ (p : gmap Z (list WaiterSlot)) : Z := gsum (fun l => occ x (map f l)) p.
Definition arm_occ (m : gmap Z ActiveWaiter) : Z := gsum (fun w => one (aw_slot w)) m.
Definition ret_occ (l : list WaiterRetirement) : Z := occ x (map (fun r => f (ret_slot r)) l).
Definition slot_occ (b : EventBooks) : Z :=
  pool_occ (waiter_pool b) + arm_occ (waiters b) + ret_occ (pending_unwatch b).

#[local] Arguments one : simpl never.
#[local] Arguments pool_occ : simpl never.
#[local] Arguments arm_occ : simpl never.
#[local] Arguments ret_occ : simpl never.
#[local] Arguments slot_occ : simpl never.

Lemma one_nonneg s : 0 <= one s <= 1.
Proof. unfold one. destruct (_ =? _); lia. Qed.

Lemma pool_occ_nonneg p : 0 <= pool_occ p.
Proof. apply gsum_nonneg. intros ? ? _. apply occ_nonneg. Qed.

Lemma arm_occ_nonneg m : 0 <= arm_occ m.
Proof. apply gsum_nonneg. intros ? ? _. apply one_nonneg. Qed.

Lemma slot_occ_nonneg b : 0 <= slot_occ b.
Proof.
  pose proof (pool_occ_nonneg (waiter_pool b)). pose proof (arm_occ_nonneg (waiters b)).
  pose proof (occ_nonneg x (map (fun r => f (ret_slot r)) (pending_unwatch b))).
  unfold slot_occ, ret_occ. lia.
Qed.

Lemma occ_one s : occ x [f s] = one s.
Proof. unfold one. cbn. lia. Qed.

Lemma pool_push_occ p c s : pool_occ (pool_push p c s) = pool_occ p + one s.
Proof.
  unfold pool_push, pool_occ. destruct (p !! c) as [l|] eqn:E; simpl.
  - rewrite (gsum_update _ _ _ _ _ E), map_app, occ_app. cbn [map]. rewrite occ_one. unfold id. lia.
  - rewrite (gsum_fresh _ _ _ _ E). cbn [map]. rewrite occ_one. lia.
Qed.

Lemma pool_pop_occ p c s p' : pool_pop p c = Some (s, p') -> pool_occ p = pool_occ p' + one s.
Proof.
  unfold pool_pop, pool_occ. destruct (p !! c) as [l|] eqn:E; [|done].
  destruct (last l) as [s'|] eqn:El; [|done]. intros [= <- <-].
  rewrite (gsum_update _ _ _ _ _ E). apply last_Some in El as [l' ->].
  rewrite removelast_last, map_app, occ_app. cbn [map]. rewrite occ_one. lia.
Qed.

Lemma push_retired_occ l : forall p, pool_occ (push_retired p l) <= pool_occ p + ret_occ l.
Proof.
  induction l as [|r l IH]; intros p; simpl.
  { unfold ret_occ. cbn. lia. }
  etransitivity; [apply IH|]. unfold ret_occ. cbn [map]. rewrite occ_cons.
  fold (one (ret_slot r)). pose proof (one_nonneg (ret_slot r)).
  destruct (reuse_for r); rewrite ?pool_push_occ; lia.
Qed.

Lemma pool_delete_occ p c : pool_occ (delete c p) = pool_occ p - occ x (map f (default [] (p !! c))).
Proof.
  unfold pool_occ. destruct (p !! c) as [l|] eqn:E; simpl.
  - by rewrite (gsum_remove _ _ _ _ E).
  - rewrite delete_id by done. lia.
Qed.

Lemma ret_occ_app l k : ret_occ (l ++ k) = ret_occ l + ret_occ k.
Proof. unfold ret_occ. by rewrite map_app, occ_app. Qed.

Lemma ret_occ_retire l : ret_occ (map retire l) = occ x (map f l).
Proof. unfold ret_occ. by rewrite map_map. Qed.

Lemma release_client_occ b c : slot_occ (release_client b c).2 = slot_occ b.
Proof.
  unfold release_client.
  set (b1 := set_clients _ _). assert (Hb1 : slot_occ b1 = slot_occ b) by done.
  assert (H2 : exists n b2, (match event_ctls b1 !! c with
    | Some fd => (1, set_events b1 (delete c (event_ctls b1)) (events b1)
                       (pending_ctl_unwatch b1 ++ [(c, fd)]) (ctl_news b1))
    | None => (0, b1)
    end) = (n, b2) /\ slot_occ b2 = slot_occ b)
    by (destruct (event_ctls b1 !! c); eexists _, _; done).
  destruct H2 as (n & b2 & -> & <-). cbn [snd]. unfold slot_occ. cbn.
  rewrite pool_delete_occ, !ret_occ_app, !ret_occ_retire, map_map.
  change (map (fun e => f (aw_slot e.2)) ?l) with (map (fun e : Z * ActiveWaiter => (fun w => f (aw_slot w)) e.2) l).
  rewrite occ_map_to_list. unfold pool_of, arm_occ.
  rewrite (gsum_split (fun w => one (aw_slot w)) (of_client c) (waiters b2)). unfold one. lia.
Qed.
End occupancy.

#[local] Arguments one : simpl never.
#[local] Arguments pool_occ : simpl never.
#[local] Arguments arm_occ : simpl never.
#[local] Arguments ret_occ : simpl never.
#[local] Arguments slot_occ : simpl never.
#[local] Arguments release_client : simpl never.

(** ** The invariant of a session *)
Definition ret_ids (b : EventBooks) : list Z := map (fun r => slot_id (ret_slot r)) (pending_unwatch b).
Definition hand_occ (f : WaiterSlot -> Z) (x : Z) (h : list WaiterSlot) : Z := occ x (map f h).

#[local] Arguments hand_occ : simpl never.

Definition armed (b : EventBooks) (r : RegistrationId) : Prop :=
  exists w, waiters b !! event_id r = Some w /\ generation w = reg_generation r.

(** [rs] are the registrations of this session that the poller knows, [h] the
    slots in the hands of the request being executed; [ex] says that nothing
    armed has been forgotten. *)
Record books_ok (ex : bool) (h : list WaiterSlot) (b : EventBooks) (rs : list RegistrationId) : Prop := {
  (** a slot is in one place only, and its number was issued *)
  bk_ids x : slot_occ slot_id x b + hand_occ slot_id x h
             <= if (1 <=? x) && (x <? next_event_id b) then 1 else 0;
  bk_next : 1 <= next_event_id b;
  bk_key id w : waiters b !! id = Some w -> slot_id (aw_slot w) = id;
  (** a slot is registered at most once *)
  bk_nodup : NoDup (map event_id (rs ++ map fst (pending_watch b)));
  (** in an exact session an armed waiter is registered, or about to be *)
  bk_armed id w : ex = true -> waiters b !! id = Some w ->
                  MkReg id (generation w) ∈ rs ++ map fst (pending_watch b);
  (** a registration belongs to this arm, or is about to be cancelled *)
  bk_regs r : r ∈ rs -> armed b r \/ event_id r ∈ ret_ids b;
  bk_pending r fd : (r, fd) ∈ pending_watch b ->
    exists w, waiters b !! event_id r = Some w /\ generation w = reg_generation r /\
              ctl (aw_slot w) = fd;
}.
Arguments bk_ids {ex} _ _ _ _ _.
Arguments bk_next {ex} _ _ _ _.
Arguments bk_key {ex} _ _ _ _ _ _ _.
Arguments bk_nodup {ex} _ _ _ _.
Arguments bk_armed {ex} _ _ _ _ _ _ _ _.
Arguments bk_regs {ex} _ _ _ _ _ _.
Arguments bk_pending {ex} _ _ _ _ _ _ _.

Section exactness.
Context {ex : bool}.

Lemma hand_occ_cons f x s h : hand_occ f x (s :: h) = one f x s + hand_occ f x h.
Proof. done. Qed.

Lemma hand_occ_nonneg f x h : 0 <= hand_occ f x h.
Proof. apply occ_nonneg. Qed.

Lemma arm_occ_armed f x (m : gmap Z ActiveWaiter) id w :
  m !! id = Some w -> f (aw_slot w) = x -> 1 <= arm_occ f x m.
Proof.
  intros Hw <-. unfold arm_occ.
  transitivity (one f (f (aw_slot w)) (aw_slot w)); [unfold one; by rewrite Z.eqb_refl|].
  apply (gsum_lookup_le (fun w' => one f (f (aw_slot w)) (aw_slot w')) m id w); [|done].
  intros ? ? _. apply one_nonneg.
Qed.

Lemma ret_occ_ids b id : id ∈ ret_ids b -> 1 <= ret_occ slot_id id (pending_unwatch b).
Proof. intros Hin. by apply occ_elem. Qed.

(** A slot in hand is neither armed nor retired, nor registered. *)
Lemma hand_free h s b rs :
  books_ok ex (s :: h) b rs ->
  waiters b !! slot_id s = None /\ (slot_id s ∉ ret_ids b) /\
  slot_id s ∉ map event_id (rs ++ map fst (pending_watch b)).
Proof.
  intros Hb. pose proof (bk_ids _ _ _ Hb (slot_id s)) as Hid. rewrite hand_occ_cons in Hid.
  assert (Hone : one slot_id (slot_id s) s = 1) by (unfold one; by rewrite Z.eqb_refl).
  pose proof (hand_occ_nonneg slot_id (slot_id s) h) as Hh.
  pose proof (pool_occ_nonneg slot_id (slot_id s) (waiter_pool b)).
  pose proof (arm_occ_nonneg slot_id (slot_id s) (waiters b)).
  assert (Hr : 0 <= ret_occ slot_id (slot_id s) (pending_unwatch b)) by apply occ_nonneg.
  unfold slot_occ in Hid.
  assert (Hsum : pool_occ slot_id (slot_id s) (waiter_pool b) +
     arm_occ slot_id (slot_id s) (waiters b) + ret_occ slot_id (slot_id s) (pending_unwatch b) <= 0)
    by (destruct ((1 <=? slot_id s) && (slot_id s <? next_event_id b)); lia).
  assert (Hw : waiters b !! slot_id s = None).
  { destruct (waiters b !! slot_id s) as [w|] eqn:E; [|done].
    pose proof (arm_occ_armed slot_id (slot_id s) _ _ _ E (bk_key _ _ _ Hb _ _ E)). lia. }
  assert (Hret : slot_id s ∉ ret_ids b) by (intros ?%ret_occ_ids; lia).
  split; [done|]. split; [done|]. intros (r & Er & [Hin|Hin]%elem_of_app)%list_elem_of_fmap.
  - destruct (bk_regs _ _ _ Hb r Hin) as [(w & Hw' & _)|Hin']; congruence.
  - apply list_elem_of_fmap in Hin as ([r' fd] & -> & Hin). cbn in *.
    destruct (bk_pending _ _ _ Hb r' fd Hin) as (w & Hw' & _). congruence.
Qed.

(** Slots that move without touching arms and registrations. *)
Lemma books_move h h' b b' rs :
  books_ok ex h b rs ->
  (forall x, slot_occ slot_id x b' + hand_occ slot_id x h'
             <= slot_occ slot_id x b + hand_occ slot_id x h) ->
  next_event_id b' = next_event_id b -> waiters b' = waiters b ->
  pending_watch b' = pending_watch b -> pending_unwatch b' = pending_unwatch b ->
  books_ok ex h' b' rs.
Proof.
  intros [Hid Hn Hk Hnd Ha Hr Hp] Hx En Ew Ep Eu. split.
  - intros x. specialize (Hid x). specialize (Hx x). rewrite En. lia.
  - by rewrite En.
  - by rewrite Ew.
  - by rewrite Ep.
  - by rewrite Ew, Ep.
  - unfold armed, ret_ids. by rewrite Ew, Eu.
  - by rewrite Ew, Ep.
Qed.

Lemma take_event_id_ok h b rs r b' :
  books_ok ex h b rs -> take_event_id b = (r, b') ->
  books_ok ex h b' rs /\
  forall id, r = Ok id -> forall fd, books_ok ex (MkSlot fd id :: h) b' rs.
Proof.
  intros [Hid Hn Hk Hnd Ha Hr Hp]. unfold take_event_id.
  destruct (next_event_id b <=? u32_max); intros [= <- <-]; split; try done.
  - split; try done; cbn; [|lia]. intros x. specialize (Hid x).
    change (slot_occ slot_id x (set_ids _ _ _)) with (slot_occ slot_id x b).
    destruct (1 <=? x) eqn:E1; destruct (x <? next_event_id b) eqn:E2;
      destruct (x <? next_event_id b + 1) eqn:E3; bools; cbn in *; lia.
  - intros id [= <-] fd. split; try done; cbn; [|lia]. intros x. specialize (Hid x).
    change (slot_occ slot_id x (set_ids _ _ _)) with (slot_occ slot_id x b).
    rewrite hand_occ_cons. unfold one. cbn.
    destruct (next_event_id b =? x) eqn:E0; destruct (1 <=? x) eqn:E1;
      destruct (x <? next_event_id b) eqn:E2;
      destruct (x <? next_event_id b + 1) eqn:E3; bools; cbn in *; lia.
Qed.

Lemma waiter_slot_get_ok h b rs c opened bound r b' :
  books_ok ex h b rs -> waiter_slot_get b c opened bound = (r, b') ->
  (forall s, r = Ok s -> books_ok ex (s :: h) b' rs) /\ ((forall s, r <> Ok s) -> books_ok ex h b' rs).
Proof.
  intros Hb. unfold waiter_slot_get.
  destruct (pool_pop (waiter_pool b) c) as [[s p]|] eqn:Ep.
  - intros [= <- <-]. split; [|intros Hn; by destruct (Hn s)]. intros ? [= <-].
    eapply books_move; [exact Hb| |done..]. intros x. rewrite hand_occ_cons.
    unfold slot_occ. cbn. rewrite (pool_pop_occ slot_id x _ _ _ _ Ep). lia.
  - destruct (take_event_id b) as [[id|e|] b1] eqn:Et;
      destruct (take_event_id_ok h b rs _ _ Hb Et) as [Hb1 Hfresh]; [|by intros [= <- <-]..].
    destruct opened as [fd|]; [|by intros [= <- <-]].
    destruct bound; intros [= <- <-]; [|done]. split; [|intros Hn; by destruct (Hn (MkSlot fd id))].
    intros ? [= <-]. by apply Hfresh.
Qed.

(** *** Requests *)
Lemma register_finish_ok h b rs p ok :
  books_ok ex (pw_slot p :: h) b rs -> books_ok ex h (register_finish b p ok) rs.
Proof.
  intros Hb. destruct (hand_free _ _ _ _ Hb) as (Hfree & Hret & Hreg).
  pose proof Hb as [Hid Hn Hk Hnd Ha Hr Hp]. unfold register_finish. destruct ok.
  - set (id := slot_id (pw_slot p)) in *. split; cbn.
    + intros x. specialize (Hid x). rewrite hand_occ_cons in Hid. unfold slot_occ in *. cbn.
      unfold arm_occ in *. rewrite (gsum_fresh _ _ _ _ Hfree). cbn. lia.
    + done.
    + intros i w [[<- <-]|[_ Hw]]%lookup_insert_Some; [done|eauto].
    + rewrite (map_app fst), app_assoc, (map_app event_id). cbn [map fst event_id]. apply NoDup_app. split; [done|].
      split; [|apply NoDup_singleton]. intros i Hi [->|[]%elem_of_nil]%elem_of_cons. done.
    + rewrite map_app. cbn. intros i w Hex [[<- <-]|[_ Hw]]%lookup_insert_Some; cbn.
      * rewrite !elem_of_app, list_elem_of_singleton. by right; right.
      * specialize (Ha _ _ Hex Hw). rewrite !elem_of_app in *. destruct Ha; [by left|by right; left].
    + intros r Hin. destruct (Hr r Hin) as [(w & Hw & Hg)|Hin']; [left|by right].
      exists w. split; [|done]. cbn. rewrite lookup_insert_ne; [done|]. congruence.
    + intros r fd [Hin|[= -> ->]%list_elem_of_singleton]%elem_of_app; cbn.
      * destruct (Hp r fd Hin) as (w & Hw & Hg). exists w. split; [|done].
        rewrite lookup_insert_ne; [done|]. congruence.
      * eexists. rewrite lookup_insert_eq. done.
  - eapply books_move; [exact Hb| |done..]. intros x. rewrite hand_occ_cons. unfold slot_occ. cbn.
    rewrite pool_push_occ. lia.
Qed.

Lemma register_ok h b rs c t kc tok opened bound r b' :
  books_ok ex h b rs -> register_prepare b c t kc tok opened bound = (r, b') ->
  (forall p, r = Ok p -> books_ok ex (pw_slot p :: h) b' rs) /\
  ((forall p, r <> Ok p) -> books_ok ex h b' rs).
Proof.
  intros Hb. unfold register_prepare, take_waiter_generation.
  destruct (checked_add64 (next_waiter_generation b) 1) as [n|]; [|by intros [= <- <-]].
  set (b1 := set_ids b (next_event_id b) n).
  assert (Hb1 : books_ok ex h b1 rs) by (eapply books_move; [exact Hb|done..]).
  destruct (waiter_slot_get b1 c opened bound) as [[s|e|] b2] eqn:Es;
    destruct (waiter_slot_get_ok _ _ _ _ _ _ _ _ Hb1 Es) as [Hok Hno]; intros [= <- <-].
  - split; [|intros Hn; by destruct (Hn (MkPending s (next_waiter_generation b) t c kc tok))].
    intros ? [= <-]. by apply Hok.
  - split; [done|]. intros _. by apply Hno.
  - split; [done|]. intros _. by apply Hno.
Qed.

(** Arms [gone] leave for the retirement list; nothing is waiting to be
    watched. *)
Lemma retire_arms_ok h b b' rs :
  books_ok ex h b rs -> pending_watch b = [] ->
  (forall x, slot_occ slot_id x b' = slot_occ slot_id x b) ->
  next_event_id b' = next_event_id b -> pending_watch b' = [] ->
  waiters b' ⊆ waiters b ->
  (forall id, id ∈ ret_ids b -> id ∈ ret_ids b') ->
  (forall id w, waiters b !! id = Some w -> waiters b' !! id = Some w \/ id ∈ ret_ids b') ->
  books_ok ex h b' rs.
Proof.
  intros [Hid Hn Hk Hnd Ha Hr Hp] Hpw Hx En Epw Hsub Hret Hmove. split.
  - intros x. rewrite Hx, En. apply Hid.
  - by rewrite En.
  - intros id w Hw. eapply Hk, lookup_weaken; eauto.
  - by rewrite Epw, <- Hpw.
  - intros id w Hex Hw. rewrite Epw, <- Hpw. eapply Ha, lookup_weaken; eauto.
  - intros r Hin. destruct (Hr r Hin) as [(w & Hw & Hg)|Hin']; [|right; by apply Hret].
    destruct (Hmove _ _ Hw) as [Hw'|?]; [left; by exists w|by right].
  - rewrite Epw. by intros r fd ?%elem_of_nil.
Qed.

Lemma unregister_finish_ok h b rs id ok :
  books_ok ex h b rs -> pending_watch b = [] -> books_ok ex h (unregister_finish b id ok) rs.
Proof.
  intros Hb Hpw. unfold unregister_finish. destruct ok; [|done].
  destruct (waiters b !! id) as [w|] eqn:Hw; [|done].
  assert (Hret : forall i, i ∈ ret_ids (set_waiters b (waiter_pool b) (delete id (waiters b))
     (pending_unwatch b ++ [MkRetirement (aw_slot w) (Some (aw_client w))]) (pending_watch b))
     <-> i ∈ ret_ids b \/ i = id).
  { intros i. unfold ret_ids. cbn. rewrite map_app, elem_of_app. cbn.
    rewrite list_elem_of_singleton, (bk_key _ _ _ Hb _ _ Hw). done. }
  eapply retire_arms_ok; [exact Hb|done| |done|done| | |].
  - intros x. unfold slot_occ. cbn. rewrite ret_occ_app. unfold arm_occ.
    rewrite (gsum_remove _ _ _ _ Hw).
    change (ret_occ slot_id x [MkRetirement (aw_slot w) (Some (aw_client w))])
      with (occ x [slot_id (aw_slot w)]). rewrite occ_one. lia.
  - apply delete_subseteq.
  - intros i Hi. apply Hret. by left.
  - intros i w' Hw'. cbn. destruct (decide (i = id)) as [->|Hne].
    + right. apply Hret. by right.
    + left. by rewrite lookup_delete_ne.
Qed.

Lemma release_client_fields b c :
  let b' := (release_client b c).2 in
  next_event_id b' = next_event_id b /\ pending_watch b' = pending_watch b /\
  waiters b' = filter (fun e => of_client c e.2 = false) (waiters b) /\
  pending_unwatch b' = pending_unwatch b ++ map retire (pool_of b c) ++
    map retire (map (fun e : Z * ActiveWaiter => aw_slot e.2)
                  (map_to_list (filter (fun e => of_client c e.2 = true) (waiters b)))).
Proof.
  unfold release_client. destruct (event_ctls _ !! c); cbn; done.
Qed.

Lemma release_client_ok h b rs c :
  books_ok ex h b rs -> pending_watch b = [] ->
  books_ok ex h (release_client b c).2 rs /\ pending_watch (release_client b c).2 = [].
Proof.
  intros Hb Hpw. destruct (release_client_fields b c) as (En & Epw & Ew & Eu).
  split; [|by rewrite Epw].
  eapply retire_arms_ok; [exact Hb|done|intros x; apply release_client_occ|done|by rewrite Epw| | |].
  - rewrite Ew. apply map_filter_subseteq.
  - intros id. unfold ret_ids. rewrite Eu, map_app, elem_of_app. by left.
  - intros id w Hw. rewrite Ew. destruct (of_client c w) eqn:Hc.
    + right. unfold ret_ids. rewrite Eu, !map_app, !map_map, !elem_of_app. right. right.
      rewrite <- (bk_key _ _ _ Hb _ _ Hw).
      apply (list_elem_of_fmap_2 (fun e : Z * ActiveWaiter => slot_id (ret_slot (retire (aw_slot e.2))))
               _ (id, w)).
      apply elem_of_map_to_list. by apply map_lookup_filter_Some.
    + left. by apply map_lookup_filter_Some.
Qed.

Lemma release_clients_ok h rs cs : forall b,
  books_ok ex h b rs -> pending_watch b = [] ->
  books_ok ex h (release_clients b cs) rs /\ pending_watch (release_clients b cs) = [].
Proof.
  induction cs as [|c cs IH]; intros b Hb Hpw; [done|]. cbn.
  destruct (release_client_ok h b rs c Hb Hpw). by apply IH.
Qed.

Lemma alloc_event_ok h b rs c opened bound r b' :
  books_ok ex h b rs -> alloc_os_event_id b c opened bound = (r, b') -> books_ok ex h b' rs.
Proof.
  intros Hb. unfold alloc_os_event_id. destruct (take_event_id b) as [[id|e|] b1] eqn:Et;
    destruct (take_event_id_ok h b rs _ _ Hb Et) as [Hb1 _]; [|by intros [= _ <-]..].
  destruct (event_ctls b1 !! c) as [fd|].
  { destruct bound; by intros [= _ <-]. }
  destruct opened as [fd|]; [|by intros [= _ <-]].
  destruct bound; intros [= _ <-]; (eapply books_move; [exact Hb1|done..]).
Qed.

Lemma run_req_ok b rs r :
  books_ok ex [] b rs -> pending_watch b = [] -> books_ok ex [] (run_req b r) rs.
Proof.
  intros Hb Hpw. destruct r as [c t kc tok op bd ok|c kc t ok|r op bd ok h|h tok|root h|tok|]; cbn.
  - destruct (register_prepare b c t kc tok op bd) as [[p|e|] b1] eqn:Er;
      destruct (register_ok _ _ _ _ _ _ _ _ _ _ _ Hb Er) as [Hok Hno].
    + by apply register_finish_ok, Hok.
    + by apply Hno.
    + by apply Hno.
  - destruct (unregister_find b c kc t); [by apply unregister_finish_ok|done].
  - destruct (alloc_os_event_id b (er_client r) op bd) as [[id|e|] b1] eqn:Ea;
      eapply alloc_event_ok in Ea; try done.
    unfold event_finish. destruct ok; [|done]. eapply books_move; [exact Ea|done..].
  - eapply books_move; [exact Hb|done..].
  - unfold rm_free. destruct (h =? root); [by apply release_client_ok|].
    eapply books_move; [exact Hb|done..].
  - by apply release_clients_ok.
  - done.
Qed.

(** *** The device's steps *)
Lemma books_perm h b rs rs' : rs ≡ₚ rs' -> books_ok ex h b rs -> books_ok ex h b rs'.
Proof.
  intros Hp [Hid Hn Hk Hnd Ha Hr Hpw]. split; try done.
  - by rewrite <- Hp.
  - intros id w Hex Hw. specialize (Ha id w Hex Hw). by rewrite <- Hp.
  - intros r Hin. apply Hr. by rewrite Hp.
Qed.

(** Nothing that is retired is armed. *)
Lemma retired_not_armed h b rs id :
  books_ok ex h b rs -> id ∈ ret_ids b -> waiters b !! id = None.
Proof.
  intros Hb Hin. destruct (waiters b !! id) as [w|] eqn:Hw; [|done]. exfalso.
  pose proof (bk_ids _ _ _ Hb id) as Hid. apply ret_occ_ids in Hin.
  pose proof (arm_occ_armed slot_id id _ _ _ Hw (bk_key _ _ _ Hb _ _ Hw)).
  pose proof (pool_occ_nonneg slot_id id (waiter_pool b)). pose proof (hand_occ_nonneg slot_id id h).
  unfold slot_occ in Hid. destruct (_ && _) in Hid; lia.
Qed.

Lemma cancel_books_ok h b rs :
  books_ok ex h b rs -> books_ok ex h b (filter (fun r => event_id r ∉ ret_ids b) rs).
Proof.
  intros Hb. pose proof Hb as [Hid Hn Hk Hnd Ha Hr Hpw]. split; try done.
  - rewrite map_app in *. apply NoDup_app in Hnd as (Hn1 & Hn2 & Hn3). apply NoDup_app.
    split; [|split; [|done]].
    + eapply sublist_NoDup; [exact Hn1|]. apply (fmap_sublist event_id), sublist_filter.
    + intros i (r & -> & [_ Hin]%list_elem_of_filter)%list_elem_of_fmap. apply Hn2.
      by apply list_elem_of_fmap_2.
  - intros id w Hex Hw. specialize (Ha id w Hex Hw). rewrite elem_of_app in *.
    destruct Ha as [Hin|?]; [left|by right]. apply list_elem_of_filter. split; [|done]. cbn.
    intros Hret. rewrite (retired_not_armed h b rs id Hb Hret) in Hw. done.
  - intros r [_ Hin]%list_elem_of_filter. by apply Hr.
Qed.

Lemma finish_unwatch_ok h b rs :
  books_ok ex h b rs -> (forall r, r ∈ rs -> event_id r ∉ ret_ids b) ->
  books_ok ex h (finish_unwatch b) rs.
Proof.
  intros [Hid Hn Hk Hnd Ha Hr Hpw] Hout. split; try done; cbn.
  - intros x. specialize (Hid x). unfold slot_occ in *. cbn.
    pose proof (push_retired_occ slot_id x (pending_unwatch b) (waiter_pool b)).
    change (ret_occ slot_id x []) with 0. lia.
  - intros r Hin. destruct (Hr r Hin) as [?|?]; [by left|]. by destruct (Hout r Hin).
Qed.

Lemma watched_ok h b rs :
  books_ok ex h b rs ->
  books_ok ex h (set_waiters b (waiter_pool b) (waiters b) (pending_unwatch b) [])
    (rs ++ map fst (pending_watch b)).
Proof.
  intros [Hid Hn Hk Hnd Ha Hr Hpw]. split; cbn; try done.
  - by rewrite app_nil_r.
  - intros id w Hex Hw. rewrite app_nil_r. by apply Ha.
  - intros r [Hin|([r' fd] & -> & Hin)%list_elem_of_fmap]%elem_of_app; [by apply Hr|].
    left. destruct (Hpw r' fd Hin) as (w & ? & ? & _). by exists w.
  - by intros r fd ?%elem_of_nil.
Qed.

Lemma semsurf_wake_ok b rs r :
  books_ok ex [] b (r :: rs) -> pending_watch b = [] -> pending_unwatch b = [] ->
  exists w b', waiters b !! event_id r = Some w /\ generation w = reg_generation r /\
    semsurf_wake b r = (Some (aw_client w, guest_kc w, aw_token w), b') /\
    books_ok ex [] b' rs /\ pending_watch b' = [] /\ pending_unwatch b' = [] /\
    (forall f x, slot_occ f x b' = slot_occ f x b).
Proof.
  intros Hb Hpw Hpu. pose proof Hb as [Hid Hn Hk Hnd Ha Hr Hp].
  destruct (Hr r) as [(w & Hw & Hg)|Hin]; [by left| |].
  2: { unfold ret_ids in Hin. rewrite Hpu in Hin. by apply elem_of_nil in Hin. }
  assert (Hocc : forall f x, slot_occ f x (add_counts (set_waiters b
      (pool_push (waiter_pool b) (aw_client w) (aw_slot w)) (delete (event_id r) (waiters b))
      (pending_unwatch b) (pending_watch b)) 0 1 0 0) = slot_occ f x b).
  { intros f x. unfold slot_occ. cbn. rewrite pool_push_occ. unfold arm_occ.
    rewrite (gsum_remove _ _ _ _ Hw). lia. }
  exists w. eexists. split; [done|]. split; [done|]. split.
  { unfold semsurf_wake. rewrite Hw, Hg, Z.eqb_refl. done. }
  split; [|done]. rewrite Hpw, app_nil_r in Hnd. cbn in Hnd.
  apply NoDup_cons in Hnd as [Hout Hnd]. split; cbn.
  - intros x. rewrite Hocc. apply Hid.
  - done.
  - intros id w' [_ Hw']%lookup_delete_Some. eauto.
  - by rewrite Hpw, app_nil_r.
  - intros id w' Hex [Hne Hw']%lookup_delete_Some. rewrite Hpw, app_nil_r.
    specialize (Ha id w' Hex Hw'). rewrite Hpw, app_nil_r in Ha.
    apply elem_of_cons in Ha as [<-|?]; [by destruct Hne|done].
  - intros r' Hin. left. destruct (Hr r') as [(w' & Hw' & Hg')|Hin']; [by right| |].
    + exists w'. split; [|done]. apply lookup_delete_Some. split; [|done].
      intros Heq. apply Hout. rewrite Heq. by apply list_elem_of_fmap_2.
    + unfold ret_ids in Hin'. rewrite Hpu in Hin'. by apply elem_of_nil in Hin'.
  - rewrite Hpw. by intros r' fd ?%elem_of_nil.
Qed.

End exactness.

(** ** The invariant of the device *)

(** Every firing the poller may still report, watched or queued. *)
Definition fireds (p : Poller) : list Fired := map watch_fired (watches p) ++ fired p.
Definition regs_of (p : Poller) (s : Z) : list RegistrationId :=
  map registration (filter (fun f => fired_proc f = s) (fireds p)).

#[local] Arguments regs_of : simpl never.

Lemma filter_map {A B} (f : A -> B) (P : B -> Prop) `{forall x, Decision (P x)}
    `{forall x, Decision (P (f x))} l :
  filter P (map f l) = map f (filter (fun x => P (f x)) l).
Proof.
  induction l as [|a l IH]; [done|]. cbn [map]. destruct (decide (P (f a))).
  - rewrite !filter_cons_True by done. cbn [map]. by rewrite IH.
  - by rewrite !filter_cons_False by done.
Qed.

Lemma fired_nodup l :
  (forall s, NoDup (map event_id (map registration (filter (fun f => fired_proc f = s) l)))) -> NoDup l.
Proof.
  induction l as [|f l IH]; intros Hs; constructor.
  - intros Hin. specialize (Hs (fired_proc f)). rewrite filter_cons_True in Hs by done.
    cbn in Hs. apply NoDup_cons in Hs as [Hout _]. apply Hout. rewrite map_map.
    apply (list_elem_of_fmap_2 (fun g => event_id (registration g))). by apply list_elem_of_filter.
  - apply IH. intros s. specialize (Hs s). destruct (decide (fired_proc f = s)) as [E|E].
    + rewrite filter_cons_True in Hs by done. cbn in Hs. by apply NoDup_cons in Hs as [_ ?].
    + by rewrite filter_cons_False in Hs.
Qed.

Lemma poll_round_perm p paced ready :
  NoDup (fireds p) -> fireds (poll_round p paced ready) ≡ₚ fireds p.
Proof.
  unfold fireds. intros [Hn _]%NoDup_app. unfold poll_round. cbn.
  set (hits := map watch_fired (List.filter ready _)). rewrite (Permutation_app_comm (fired p)), app_assoc.
  apply Permutation_app_tail.
  assert (Hsub : hits `sublist_of` map watch_fired (watches p)).
  { apply (fmap_sublist watch_fired). clear. induction (watches p) as [|w l IH]; [done|]. cbn.
    destruct (negb _); cbn; [destruct (ready w); [by apply sublist_skip|]|]; by apply sublist_cons. }
  match goal with |- context [map watch_fired ?l ++ hits] =>
    replace (map watch_fired l) with (filter (fun f => f ∉ hits) (map watch_fired (watches p)))
      by apply (filter_map watch_fired (fun f => f ∉ hits)) end.
  apply NoDup_Permutation.
  - apply NoDup_app. split; [by apply NoDup_filter|]. split.
    + by intros f [? _]%list_elem_of_filter.
    + by eapply sublist_NoDup.
  - done.
  - intros f. rewrite elem_of_app, list_elem_of_filter. split.
    + intros [[_ ?]|Hin]; [done|]. by eapply elem_of_submseteq, sublist_submseteq.
    + intros Hin. destruct (decide (f ∈ hits)); [by right|by left].
Qed.

Lemma cancel_regs p s ids :
  regs_of (cancel_slots p s ids) s = filter (fun r => event_id r ∉ ids) (regs_of p s) /\
  forall s', s' <> s -> regs_of (cancel_slots p s ids) s' = regs_of p s'.
Proof.
  assert (Hf : fireds (cancel_slots p s ids) = filter (fun f => ~ cancelled s ids f) (fireds p)).
  { unfold fireds, cancel_slots. cbn. rewrite filter_app. f_equal. symmetry.
    apply (filter_map watch_fired (fun f => ~ cancelled s ids f)). }
  unfold regs_of. rewrite Hf. clear Hf. split; [|intros s' Hs]; induction (fireds p) as [|f l IH]; try done;
    destruct (decide (cancelled s ids f)) as [[E1 E2]|E].
  - rewrite filter_cons_False by (intros Hn; by apply Hn).
    rewrite (filter_cons_True (fun f => fired_proc f = s)) by done. cbn [map].
    rewrite filter_cons_False by tauto. done.
  - rewrite filter_cons_True by done. destruct (decide (fired_proc f = s)) as [E1|E1].
    + rewrite !(filter_cons_True (fun f => fired_proc f = s)) by done. cbn [map].
      rewrite filter_cons_True by (intros ?; by apply E). by rewrite IH.
    + by rewrite !(filter_cons_False (fun f => fired_proc f = s)) by done.
  - rewrite filter_cons_False by (intros Hn; by apply Hn). rewrite IH.
    by rewrite filter_cons_False by congruence.
  - rewrite filter_cons_True by done. destruct (decide (fired_proc f = s')) as [E1|E1].
    + rewrite !(filter_cons_True (fun f => fired_proc f = s')) by done. cbn [map]. by rewrite IH.
    + by rewrite !(filter_cons_False (fun f => fired_proc f = s')) by done.
Qed.

Lemma cancel_process_regs p s s' :
  regs_of (cancel_process p s) s' = if decide (s' = s) then [] else regs_of p s'.
Proof.
  assert (Hf : fireds (cancel_process p s) = filter (fun f => fired_proc f <> s) (fireds p)).
  { unfold fireds, cancel_process. cbn. rewrite filter_app. f_equal. symmetry.
    apply (filter_map watch_fired (fun f => fired_proc f <> s)). }
  unfold regs_of. rewrite Hf. clear Hf. induction (fireds p) as [|f l IH]; [by case_decide|].
  destruct (decide (fired_proc f = s)) as [E|E].
  - rewrite filter_cons_False by tauto. rewrite IH. case_decide; [done|].
    by rewrite filter_cons_False by congruence.
  - rewrite (filter_cons_True (fun f => fired_proc f <> s)) by done.
    destruct (decide (fired_proc f = s')) as [E1|E1].
    + rewrite !(filter_cons_True (fun f => fired_proc f = s')) by done. cbn [map].
      rewrite IH. case_decide; [congruence|done].
    + by rewrite !(filter_cons_False (fun f => fired_proc f = s')) by done.
Qed.

Definition quiet (b : EventBooks) : Prop := pending_unwatch b = [] /\ pending_watch b = [].

(** Slots that the poller may know. *)
Definition held_slots (b : EventBooks) : list WaiterSlot :=
  map (fun e : Z * ActiveWaiter => aw_slot e.2) (map_to_list (waiters b)) ++
  map ret_slot (pending_unwatch b).
Definition held (b : EventBooks) (sl : WaiterSlot) : Prop := sl ∈ held_slots b.

Definition phase_ok (d : EventDevice) : Prop :=
  match phase d with
  | Idle => map_Forall (fun _ b => quiet b) (books d)
  | Cancelling s => forall s' b, books d !! s' = Some b -> s' <> s -> quiet b
  | Finishing s =>
      (forall s' b, books d !! s' = Some b -> s' <> s -> quiet b) /\
      (forall b, books d !! s = Some b ->
         forall r, r ∈ regs_of (poller d) s -> event_id r ∉ ret_ids b)
  | Watching s =>
      (forall s' b, books d !! s' = Some b -> s' <> s -> quiet b) /\
      (forall b, books d !! s = Some b -> pending_unwatch b = [])
  end.

(** [G] are the sessions whose exit was refused. *)
Definition exact (G : gset Z) (s : Z) : bool := bool_decide (s ∉ G).

Record dev_ok (G : gset Z) (d : EventDevice) : Prop := {
  dv_books s b : books d !! s = Some b -> books_ok (exact G s) [] b (regs_of (poller d) s);
  dv_gone s : books d !! s = None -> regs_of (poller d) s = [];
  (** no two slots of the virtual machine share a descriptor *)
  dv_fds x : gsum (slot_occ ctl x) (books d) <= 1;
  (** the poller watches the descriptor of the slot it names *)
  dv_watch w : w ∈ watches (poller d) -> exists b sl,
    books d !! fired_proc (watch_fired w) = Some b /\ held b sl /\
    slot_id sl = event_id (registration (watch_fired w)) /\ ctl sl = watch_fd w;
  dv_phase : phase_ok d;
  dv_error : event_error d = false;
}.
Arguments dv_books {G} _ _ _ _ _.
Arguments dv_gone {G} _ _ _ _.
Arguments dv_fds {G} _ _ _.
Arguments dv_watch {G} _ _ _ _.
Arguments dv_phase {G} _ _.
Arguments dv_error {G} _ _.

(** What is said of fewer sessions. *)
Lemma dev_ok_weaken (G G' : gset Z) d :
  (forall s, is_Some (books d !! s) -> s ∈ G -> s ∈ G') -> dev_ok G d -> dev_ok G' d.
Proof.
  intros Hsub [Hb Hg Hf Hw Hph He]. split; try done. intros s b Hs.
  destruct (Hb s b Hs) as [Hid Hn Hk Hnd Ha Hr Hp]. split; try done.
  intros id w Hex. apply Ha. unfold exact in *. rewrite bool_decide_eq_true in *. intros HG. apply Hex, Hsub; eauto.
Qed.

Section steps.
Context {G : gset Z}.

Lemma dev_nodup d : dev_ok G d -> NoDup (fireds (poller d)).
Proof.
  intros Hd. apply fired_nodup. intros s. destruct (books d !! s) as [b|] eqn:Hs.
  - pose proof (bk_nodup _ _ _ (dv_books _ Hd s b Hs)) as Hn. rewrite map_app in Hn.
    by apply NoDup_app in Hn as [Hn _].
  - pose proof (dv_gone _ Hd s Hs) as Hn. unfold regs_of in Hn. rewrite Hn. constructor.
Qed.

(** *** Held slots *)
Lemma held_spec b sl :
  held b sl <-> (exists id w, waiters b !! id = Some w /\ aw_slot w = sl) \/
                sl ∈ map ret_slot (pending_unwatch b).
Proof.
  unfold held, held_slots. rewrite elem_of_app. f_equiv. rewrite list_elem_of_fmap. split.
  - intros ([id w] & -> & Hin%elem_of_map_to_list). by exists id, w.
  - intros (id & w & Hw & <-). exists (id, w). split; [done|]. by apply elem_of_map_to_list.
Qed.

Lemma held_slots_occ f x b : occ x (map f (held_slots b)) <= slot_occ f x b.
Proof.
  unfold held_slots. rewrite map_app, occ_app, !map_map.
  rewrite (occ_map_to_list (fun w => f (aw_slot w))). pose proof (pool_occ_nonneg f x (waiter_pool b)).
  unfold slot_occ, arm_occ, ret_occ, one. lia.
Qed.

Lemma occ_unique f x (l : list WaiterSlot) a b :
  occ x (map f l) <= 1 -> a ∈ l -> b ∈ l -> f a = x -> f b = x -> a = b.
Proof.
  intros Hocc Ha Hb Ea Eb. induction l as [|c l IH]; [by apply elem_of_nil in Ha|].
  cbn [map] in Hocc. rewrite occ_cons in Hocc.
  assert (Hin : forall s, s ∈ l -> f s = x -> 1 <= occ x (map f l)).
  { intros s Hs <-. apply occ_elem. by apply list_elem_of_fmap_2. }
  apply elem_of_cons in Ha as [->|Ha], Hb as [->|Hb]; try done.
  - specialize (Hin b Hb Eb). rewrite Ea, Z.eqb_refl in Hocc. lia.
  - specialize (Hin a Ha Ea). rewrite Eb, Z.eqb_refl in Hocc. lia.
  - apply IH; [|done|done]. destruct (f c =? x); lia.
Qed.

Lemma held_occ f b sl : held b sl -> 1 <= slot_occ f (f sl) b.
Proof.
  intros Hh. etransitivity; [|apply held_slots_occ]. apply occ_elem. by apply list_elem_of_fmap_2.
Qed.

Lemma gsum_two {K A} `{Countable K} (f : A -> Z) (m : gmap K A) k1 k2 a1 a2 :
  map_Forall (fun _ a => 0 <= f a) m -> k1 <> k2 -> m !! k1 = Some a1 -> m !! k2 = Some a2 ->
  f a1 + f a2 <= gsum f m.
Proof.
  intros Hm Hne H1 H2. rewrite (gsum_take f m k1 a1 H1).
  assert (f a2 <= gsum f (delete k1 m)); [|lia].
  apply gsum_lookup_le with k2; [by apply map_Forall_delete|]. by rewrite lookup_delete_ne.
Qed.

(** Descriptors identify slots. *)
Lemma fd_unique (m : gmap Z EventBooks) s1 s2 b1 b2 sl1 sl2 :
  (forall x, gsum (slot_occ ctl x) m <= 1) ->
  m !! s1 = Some b1 -> m !! s2 = Some b2 -> held b1 sl1 -> held b2 sl2 ->
  ctl sl1 = ctl sl2 -> s1 = s2 /\ sl1 = sl2.
Proof.
  intros Hfd H1 H2 Hh1 Hh2 Ec. specialize (Hfd (ctl sl1)).
  assert (Hm : map_Forall (fun _ b => 0 <= slot_occ ctl (ctl sl1) b) m)
    by (intros ? ? _; apply slot_occ_nonneg).
  pose proof (held_occ ctl b1 sl1 Hh1). pose proof (held_occ ctl b2 sl2 Hh2) as Ho2.
  rewrite <- Ec in Ho2. destruct (decide (s1 = s2)) as [<-|Hne].
  - split; [done|]. simplify_eq. pose proof (gsum_lookup_le _ m s1 b1 Hm H1).
    apply (occ_unique ctl (ctl sl1) (held_slots b1)); try done.
    pose proof (held_slots_occ ctl (ctl sl1) b1). lia.
  - pose proof (gsum_two _ m s1 s2 b1 b2 Hm Hne H1 H2). lia.
Qed.

Lemma release_client_held b c sl : held b sl -> held (release_client b c).2 sl.
Proof.
  destruct (release_client_fields b c) as (_ & _ & Ew & Eu). rewrite !held_spec, Ew, Eu.
  rewrite !map_app, !map_map, !elem_of_app. intros [(id & w & Hw & <-)|Hin]; [|by right; left].
  destruct (of_client c w) eqn:Hc.
  - right. right. right.
    apply (list_elem_of_fmap_2 (fun e : Z * ActiveWaiter => ret_slot (retire (aw_slot e.2))) _ (id, w)).
    apply elem_of_map_to_list. by apply map_lookup_filter_Some.
  - left. exists id, w. split; [|done]. by apply map_lookup_filter_Some.
Qed.

Lemma release_clients_held cs : forall b sl, held b sl -> held (release_clients b cs) sl.
Proof.
  induction cs as [|c cs IH]; intros b sl Hh; [done|]. cbn. by apply IH, release_client_held.
Qed.

Lemma unregister_held {ex} b id ok sl rs :
  books_ok ex [] b rs -> held b sl -> held (unregister_finish b id ok) sl.
Proof.
  intros Hb. unfold unregister_finish. destruct ok; [|done].
  destruct (waiters b !! id) as [w|] eqn:Hw; [|done]. rewrite !held_spec. cbn.
  rewrite map_app, elem_of_app. cbn. rewrite list_elem_of_singleton.
  intros [(i & w' & Hw' & <-)|Hin]; [|by right; left].
  destruct (decide (i = id)) as [->|Hne]; [simplify_eq; by right; right|].
  left. exists i, w'. by rewrite lookup_delete_ne.
Qed.

(** The fields that a request for an event object leaves alone. *)
Lemma same_waiters_held b b' sl :
  waiters b' = waiters b -> pending_unwatch b' = pending_unwatch b -> held b sl -> held b' sl.
Proof. intros Ew Eu. by rewrite !held_spec, Ew, Eu. Qed.

(** *** A request at the device *)
Definition new_fd (x : Z) (r : EventReq) : Z :=
  match r with
  | RegisterWaiter _ _ _ _ (Some fd) _ _ => if fd =? x then 1 else 0
  | _ => 0
  end.

Lemma take_event_id_fields b r b' :
  take_event_id b = (r, b') ->
  waiters b' = waiters b /\ pending_unwatch b' = pending_unwatch b /\ waiter_pool b' = waiter_pool b.
Proof. unfold take_event_id. destruct (_ <=? _); by intros [= <- <-]. Qed.

Lemma waiter_slot_get_fields b c opened bound r b' :
  waiter_slot_get b c opened bound = (r, b') ->
  waiters b' = waiters b /\ pending_unwatch b' = pending_unwatch b /\
  forall x, slot_occ ctl x b' + match r with Ok s => one ctl x s | _ => 0 end
            <= slot_occ ctl x b + match opened with Some fd => if fd =? x then 1 else 0 | None => 0 end.
Proof.
  unfold waiter_slot_get. destruct (pool_pop (waiter_pool b) c) as [[s p]|] eqn:Ep.
  - intros [= <- <-]. split; [done|]. split; [done|]. intros x. unfold slot_occ. cbn.
    rewrite (pool_pop_occ ctl x _ _ _ _ Ep). destruct opened as [fd|]; [destruct (fd =? x)|]; lia.
  - destruct (take_event_id b) as [[id|e|] b1] eqn:Et; apply take_event_id_fields in Et as (Ew & Eu & Ep1);
      assert (Hocc : forall x, slot_occ ctl x b1 = slot_occ ctl x b)
        by (intros x; unfold slot_occ; by rewrite Ew, Eu, Ep1).
    2, 3: intros [= <- <-]; do 2 (split; [done|]); intros x; rewrite Hocc;
      destruct opened as [fd|]; [destruct (fd =? x)|]; lia.
    destruct opened as [fd|].
    + destruct bound; intros [= <- <-]; do 2 (split; [done|]); intros x; rewrite Hocc; unfold one; cbn;
        destruct (fd =? x); lia.
    + intros [= <- <-]. do 2 (split; [done|]). intros x. rewrite Hocc. lia.
Qed.

Lemma register_prepare_fields b c t kc tok opened bound r b' :
  register_prepare b c t kc tok opened bound = (r, b') ->
  waiters b' = waiters b /\ pending_unwatch b' = pending_unwatch b /\
  forall x, slot_occ ctl x b' + match r with Ok p => one ctl x (pw_slot p) | _ => 0 end
            <= slot_occ ctl x b + match opened with Some fd => if fd =? x then 1 else 0 | None => 0 end.
Proof.
  unfold register_prepare, take_waiter_generation.
  destruct (checked_add64 _ _) as [n|].
  - destruct (waiter_slot_get (set_ids b _ n) c opened bound) as [[s|e|] b1] eqn:E;
      apply waiter_slot_get_fields in E as (Ew & Eu & Hx); by intros [= <- <-].
  - intros [= <- <-]. do 2 (split; [done|]). intros x. destruct opened as [fd|]; [destruct (fd =? x)|]; lia.
Qed.

Lemma run_req_fd {ex} b r x rs :
  books_ok ex [] b rs -> slot_occ ctl x (run_req b r) <= slot_occ ctl x b + new_fd x r.
Proof.
  intros Hb. destruct r as [c t kc tok op bd ok|c kc t ok|r op bd ok h|h tok|root h|tok|]; cbn.
  - destruct (register_prepare b c t kc tok op bd) as [r b1] eqn:Er.
    pose proof (register_ok _ _ _ _ _ _ _ _ _ _ _ Hb Er) as [Hok _].
    apply register_prepare_fields in Er as (_ & _ & Hx). specialize (Hx x).
    destruct r as [p|e|]; [|lia|lia]. unfold register_finish. destruct ok.
    + destruct (hand_free _ _ _ _ (Hok p eq_refl)) as (Hfree & _).
      unfold slot_occ in *. cbn. unfold arm_occ in *. rewrite (gsum_fresh _ _ _ _ Hfree). cbn. lia.
    + unfold slot_occ in *. cbn. rewrite pool_push_occ. lia.
  - destruct (unregister_find b c kc t) as [id|]; [|lia]. unfold unregister_finish.
    destruct ok; [|lia]. destruct (waiters b !! id) as [w|] eqn:Hw; [|lia].
    unfold slot_occ. cbn. rewrite ret_occ_app. unfold arm_occ. rewrite (gsum_remove _ _ _ _ Hw).
    change (ret_occ ctl x [MkRetirement (aw_slot w) (Some (aw_client w))])
      with (occ x [ctl (aw_slot w)]). rewrite occ_one. lia.
  - unfold alloc_os_event_id. destruct (take_event_id b) as [[id|e|] b1] eqn:Et;
      apply take_event_id_fields in Et as (Ew & Eu & Ep);
      assert (Hocc : slot_occ ctl x b1 = slot_occ ctl x b) by (unfold slot_occ; by rewrite Ew, Eu, Ep);
      [|lia|lia].
    unfold event_finish. rewrite <- Hocc.
    destruct (event_ctls b1 !! er_client r); [destruct bd; [destruct ok|]; cbn; unfold slot_occ; cbn; lia|].
    destruct op; [|lia]. destruct bd; [destruct ok|]; cbn; unfold slot_occ; cbn; lia.
  - unfold slot_occ. cbn. lia.
  - unfold rm_free. destruct (h =? root); [rewrite release_client_occ; lia|].
    unfold slot_occ. cbn. lia.
  - unfold close_clients_of_token. set (cs := map fst _). clearbody cs. clear Hb. revert b.
    induction cs as [|c cs IH]; intros b; cbn; [lia|].
    etransitivity; [apply IH|]. rewrite release_client_occ. lia.
  - lia.
Qed.

Lemma run_req_held {ex} b r rs sl : books_ok ex [] b rs -> held b sl -> held (run_req b r) sl.
Proof.
  intros Hb Hh. destruct r as [c t kc tok op bd ok|c kc t ok|r op bd ok h|h tok|root h|tok|]; cbn.
  - destruct (register_prepare b c t kc tok op bd) as [r b1] eqn:Er.
    pose proof (register_ok _ _ _ _ _ _ _ _ _ _ _ Hb Er) as [Hok _].
    apply register_prepare_fields in Er as (Ew & Eu & _).
    assert (Hh1 : held b1 sl) by (by eapply same_waiters_held).
    destruct r as [p|e|]; [|done|done]. unfold register_finish.
    destruct ok; [|by eapply same_waiters_held].
    destruct (hand_free _ _ _ _ (Hok p eq_refl)) as (Hfree & _).
    rewrite held_spec in *. cbn. destruct Hh1 as [(id & w & Hw & <-)|?]; [left|by right].
    exists id, w. split; [|done]. rewrite lookup_insert_ne; [done|]. congruence.
  - destruct (unregister_find b c kc t); [by eapply unregister_held|done].
  - unfold alloc_os_event_id. destruct (take_event_id b) as [[id|e|] b1] eqn:Et;
      apply take_event_id_fields in Et as (Ew & Eu & _);
      assert (Hh1 : held b1 sl) by (by eapply same_waiters_held); [|done|done].
    unfold event_finish. destruct (event_ctls b1 !! er_client r);
      [destruct bd; [destruct ok|]; by eapply same_waiters_held|].
    destruct op; [|done]. destruct bd; [destruct ok|]; by eapply same_waiters_held.
  - by eapply same_waiters_held.
  - unfold rm_free. destruct (h =? root); [by apply release_client_held|by eapply same_waiters_held].
  - by apply release_clients_held.
  - done.
Qed.

Lemma occ_concat {K A} `{Countable K} (g : A -> list Z) x (m : gmap K A) :
  occ x (concat (map (fun e => g e.2) (map_to_list m))) = gsum (fun a => occ x (g a)) m.
Proof.
  unfold gsum. rewrite map_fold_foldr.
  induction (map_to_list m) as [|[k a] l IH]; [done|]. cbn [map concat foldr]. rewrite occ_app, IH. done.
Qed.

Lemma map_concat {A B} (f : A -> B) l : map f (concat l) = concat (map (map f) l).
Proof. induction l as [|a l IH]; [done|]. cbn. by rewrite map_app, IH. Qed.

Lemma slots_occ x b : occ x (map ctl (slots b)) = slot_occ ctl x b.
Proof.
  unfold slots. rewrite !map_app, !occ_app, map_concat, !map_map.
  rewrite (occ_concat (map ctl)), (occ_map_to_list (fun w => ctl (aw_slot w))).
  unfold slot_occ, pool_occ, arm_occ, ret_occ, one. lia.
Qed.

Lemma open_fds_occ d x : occ x (open_fds d) = gsum (slot_occ ctl x) (books d).
Proof.
  unfold open_fds. rewrite (occ_concat (fun b => map ctl (slots b))). unfold gsum.
  rewrite !map_fold_foldr. induction (map_to_list (books d)) as [|[k b] l IH]; [done|].
  cbn. by rewrite slots_occ, IH.
Qed.

Lemma fresh_fd d r x :
  fresh_for d r = true -> new_fd x r = 0 \/ gsum (slot_occ ctl x) (books d) = 0.
Proof.
  destruct r as [c t kc tok [fd|] bd ok| | | | | |]; cbn; try (by left).
  destruct (fd =? x) eqn:E; [|by left]. bools. subst. intros Hf%negb_true_iff. right.
  rewrite <- open_fds_occ. induction (open_fds d) as [|y l IH]; [done|]. cbn in Hf.
  apply orb_false_iff in Hf as [Hy Hf]. rewrite occ_cons, (IH Hf).
  rewrite Z.eqb_sym, Hy. done.
Qed.

(** The steps, one by one. *)
Lemma poll_ok d paced ready :
  dev_ok G d -> dev_ok G (MkEventDevice (books d) (poll_round (poller d) paced ready) (phase d)
                        (event_error d)).
Proof.
  intros Hd. pose proof (poll_round_perm (poller d) paced ready (dev_nodup d Hd)) as Hp.
  assert (Hr : forall s, regs_of (poll_round (poller d) paced ready) s ≡ₚ regs_of (poller d) s)
    by (intros s; unfold regs_of; by rewrite Hp).
  destruct Hd as [Hb Hg Hf Hw Hph He]. split; cbn; try done.
  - intros s b Hs. eapply books_perm; [symmetry; apply Hr|]. by apply Hb.
  - intros s Hs. specialize (Hr s). rewrite (Hg s Hs) in Hr. by apply Permutation_nil_r in Hr.
  - intros w [_ Hin]%list_elem_of_filter. by apply Hw.
  - unfold phase_ok in *. cbn. destruct (phase d); try done. destruct Hph as [Hq Hc]. split; [done|].
    intros b Hs r Hin. apply (Hc b Hs). by rewrite <- Hr.
Qed.

Lemma new_session_dev_ok d s :
  dev_ok G d -> phase d = Idle -> books d !! s = None -> dev_ok G (set_books d s EventBooks_new Idle).
Proof.
  intros [Hb Hg Hf Hw Hph He] Hi Hs. unfold phase_ok in Hph. rewrite Hi in Hph. split; cbn; try done.
  - intros s' b [[<- <-]|[Hne Hs']]%lookup_insert_Some; [|by apply Hb].
    rewrite (Hg s Hs). split; cbn; try done.
    + intros x. change (slot_occ slot_id x EventBooks_new) with 0.
      change (hand_occ slot_id x []) with 0. destruct (_ && _); lia.
    + constructor.
    + by intros r ?%elem_of_nil.
    + by intros r fd ?%elem_of_nil.
  - intros s' [Hs' Hne]%lookup_insert_None. by apply Hg.
  - intros x. rewrite (gsum_fresh _ _ _ _ Hs). change (slot_occ ctl x EventBooks_new) with 0.
    apply Hf.
  - intros w Hin. destruct (Hw w Hin) as (b & sl & Hb' & ?). exists b, sl.
    rewrite lookup_insert_ne by congruence. done.
  - unfold phase_ok. cbn. by apply map_Forall_insert_2.
Qed.

Lemma request_ok d s b r :
  dev_ok G d -> phase d = Idle -> books d !! s = Some b -> fresh_for d r = true ->
  dev_ok G (set_books d s (run_req b r) (Cancelling s)).
Proof.
  intros [Hb Hg Hf Hw Hph He] Hi Hs Hfr. unfold phase_ok in Hph. rewrite Hi in Hph.
  pose proof (Hb s b Hs) as Hbs. destruct (Hph s b Hs) as [_ Hpw]. split; cbn; try done.
  - intros s' b' [[<- <-]|[Hne Hs']]%lookup_insert_Some; [by apply run_req_ok|by apply Hb].
  - intros s' [Hs' _]%lookup_insert_None. by apply Hg.
  - intros x. rewrite (gsum_update _ _ _ _ _ Hs). pose proof (run_req_fd b r x _ Hbs).
    assert (slot_occ ctl x b <= gsum (slot_occ ctl x) (books d))
      by (eapply gsum_lookup_le; [intros ? ? _; apply slot_occ_nonneg|done]).
    pose proof (slot_occ_nonneg ctl x b). specialize (Hf x).
    assert (new_fd x r <= 1).
    { destruct r as [? ? ? ? [fd|] ? ?| | | | | |]; cbn; try lia. destruct (fd =? x); lia. }
    destruct (fresh_fd d r x Hfr); lia.
  - intros w Hin. destruct (Hw w Hin) as (b' & sl & Hb' & Hh & ?).
    destruct (decide (fired_proc (watch_fired w) = s)) as [E|Hne].
    + rewrite E in *. simplify_eq. exists (run_req b r), sl. rewrite lookup_insert_eq. split; [done|].
      split; [exact (run_req_held _ r _ sl Hbs Hh)|done].
    + exists b', sl. by rewrite lookup_insert_ne.
  - unfold phase_ok. cbn. intros s' b' [[<- <-]|[_ Hs']]%lookup_insert_Some Hne; [done|].
    by apply (Hph s').
Qed.

Lemma cancel_ok d s b :
  dev_ok G d -> phase d = Cancelling s -> books d !! s = Some b ->
  dev_ok G (MkEventDevice (books d) (cancel_slots (poller d) s (ret_ids b)) (Finishing s)
            (event_error d)).
Proof.
  intros [Hb Hg Hf Hw Hph He] Hi Hs. unfold phase_ok in Hph. rewrite Hi in Hph.
  destruct (cancel_regs (poller d) s (ret_ids b)) as [Ers Ero]. split; cbn; try done.
  - intros s' b' Hs'. destruct (decide (s' = s)) as [->|Hne].
    + simplify_eq. rewrite Ers. by apply cancel_books_ok, Hb.
    + rewrite Ero by done. by apply Hb.
  - intros s' Hs'. rewrite Ero; [by apply Hg|]. congruence.
  - intros w [_ Hin]%list_elem_of_filter. by apply Hw.
  - split; [done|]. cbn. intros b' Hs' r. simplify_eq. rewrite Ers.
    by intros [? _]%list_elem_of_filter.
Qed.

Lemma finish_ok d s b :
  dev_ok G d -> phase d = Finishing s -> books d !! s = Some b ->
  dev_ok G (set_books d s (finish_unwatch b) (Watching s)).
Proof.
  intros [Hb Hg Hf Hw Hph He] Hi Hs. unfold phase_ok in Hph. rewrite Hi in Hph.
  destruct Hph as [Hq Hc]. specialize (Hc b Hs). split; cbn; try done.
  - intros s' b' [[<- <-]|[Hne Hs']]%lookup_insert_Some; [|by apply Hb].
    by apply finish_unwatch_ok; [apply Hb|].
  - intros s' [Hs' _]%lookup_insert_None. by apply Hg.
  - intros x. rewrite (gsum_update _ _ _ _ _ Hs). specialize (Hf x).
    pose proof (push_retired_occ ctl x (pending_unwatch b) (waiter_pool b)).
    assert (slot_occ ctl x (finish_unwatch b) <= slot_occ ctl x b); [|lia].
    unfold slot_occ. cbn. change (ret_occ ctl x []) with 0. lia.
  - intros w Hin. destruct (Hw w Hin) as (b' & sl & Hb' & Hh & Eid & Ec).
    destruct (decide (fired_proc (watch_fired w) = s)) as [E|Hne].
    + rewrite E in *. simplify_eq. exists (finish_unwatch b), sl. rewrite lookup_insert_eq.
      split; [done|]. split; [|done]. rewrite held_spec in *. cbn. destruct Hh as [Hh|Hret]; [by left|].
      exfalso. apply (Hc (registration (watch_fired w))).
      * unfold regs_of. apply list_elem_of_fmap_2. apply list_elem_of_filter. split; [done|].
        apply elem_of_app. left. by apply list_elem_of_fmap_2.
      * rewrite <- Eid. unfold ret_ids. apply list_elem_of_fmap in Hret as (r & -> & Hr).
        by apply (list_elem_of_fmap_2 (fun r => slot_id (ret_slot r))).
    + exists b', sl. by rewrite lookup_insert_ne.
  - split; cbn.
    + intros s' b' [[<- <-]|[_ Hs']]%lookup_insert_Some Hne; [done|]. by apply (Hq s').
    + rewrite lookup_insert_eq. by intros b' [= <-].
Qed.

(** Installing the new watches never meets an armed slot. *)
Lemma regs_of_watch ws q w s :
  regs_of (MkPoller (ws ++ [w]) q) s ≡ₚ
  regs_of (MkPoller ws q) s ++
    (if decide (fired_proc (watch_fired w) = s) then [registration (watch_fired w)] else []).
Proof.
  unfold regs_of, fireds. cbn. rewrite map_app. cbn [map].
  rewrite <- app_assoc, (Permutation_app_comm [_]), app_assoc. rewrite filter_app, map_app.
  apply Permutation_app_head. case_decide.
  - by rewrite filter_cons_True.
  - by rewrite filter_cons_False.
Qed.

Definition watch_ok (m : gmap Z EventBooks) (w : Watch) : Prop := exists b sl,
  m !! fired_proc (watch_fired w) = Some b /\ held b sl /\
  slot_id sl = event_id (registration (watch_fired w)) /\ ctl sl = watch_fd w.

Lemma watched_reg p w :
  w ∈ watches p -> registration (watch_fired w) ∈ regs_of p (fired_proc (watch_fired w)).
Proof.
  intros Hin. unfold regs_of. apply list_elem_of_fmap_2. apply list_elem_of_filter. split; [done|].
  apply elem_of_app. left. by apply list_elem_of_fmap_2.
Qed.

Lemma watch_all_ok (m : gmap Z EventBooks) s b l : forall p,
  (forall x, gsum (slot_occ ctl x) m <= 1) -> m !! s = Some b ->
  (forall w, w ∈ watches p -> watch_ok m w) ->
  (forall r fd, (r, fd) ∈ l -> watch_ok m (MkWatch (MkFired s r) fd)) ->
  NoDup (map event_id (regs_of p s ++ map fst l)) ->
  exists p', watch_all p s l = (p', true) /\ fired p' = fired p /\
    regs_of p' s ≡ₚ regs_of p s ++ map fst l /\
    (forall s', s' <> s -> regs_of p' s' ≡ₚ regs_of p s') /\
    (forall w, w ∈ watches p' -> watch_ok m w).
Proof.
  induction l as [|[r fd] l IH]; intros p Hfd Hs Hw Hl Hn.
  { exists p. cbn. rewrite app_nil_r. done. }
  cbn [watch_all]. unfold watch. set (w := MkWatch (MkFired s r) fd).
  assert (Hnew : event_id r ∉ map event_id (regs_of p s)).
  { cbn in Hn. rewrite map_app in Hn. apply NoDup_app in Hn as (_ & Hd & _).
    intros Hin. apply (Hd _ Hin). cbn. by left. }
  assert (Hc : existsb (conflicts w) (watches p) = false).
  { apply not_true_iff_false. intros (w' & Hin%list_elem_of_In & Hcf)%existsb_exists.
    assert (Hsame : fired_proc (watch_fired w') = s /\
                    event_id (registration (watch_fired w')) = event_id r).
    { unfold conflicts in Hcf. cbn in Hcf. bools. destruct Hcf as [E|E]; bools; [|done].
      destruct (Hw w' Hin) as (b' & sl' & Hb' & Hh' & Eid' & Ec').
      destruct (Hl r fd) as (b2 & sl & Hb2 & Hh & Eid & Ec); [by left|]. cbn in *.
      destruct (fd_unique m _ _ _ _ _ _ Hfd Hb' Hb2 Hh' Hh) as [? ->]; [congruence|].
      split; [done|congruence]. }
    destruct Hsame as [E1 E2]. apply Hnew. rewrite <- E2. apply list_elem_of_fmap_2.
    rewrite <- E1. by apply watched_reg. }
  rewrite Hc. pose proof (regs_of_watch (watches p) (fired p) w) as Hr. cbn in Hr.
  assert (Hrs : regs_of (MkPoller (watches p ++ [w]) (fired p)) s ≡ₚ regs_of p s ++ [r]).
  { rewrite Hr. rewrite decide_True by done. by destruct p. }
  destruct (IH (MkPoller (watches p ++ [w]) (fired p))) as (p' & -> & Hf & Hp1 & Hp2 & Hp3);
    [done|done| | | |].
  - cbn. intros w' [Hin|Hin%list_elem_of_singleton]%elem_of_app; [by apply Hw|]. subst. apply Hl. by left.
  - intros r' fd' Hin. apply Hl. by right.
  - rewrite Hrs, <- app_assoc. done.
  - exists p'. split; [done|]. split; [done|]. split; [|split; [|done]].
    + by rewrite Hp1, Hrs, <- app_assoc.
    + intros s' Hne. rewrite Hp2 by done. rewrite Hr, decide_False by done.
      rewrite app_nil_r. by destruct p.
Qed.

Lemma armed_held b id w : waiters b !! id = Some w -> held b (aw_slot w).
Proof. intros Hw. apply held_spec. left. by exists id, w. Qed.

Lemma register_dev_ok d s b :
  dev_ok G d -> phase d = Watching s -> books d !! s = Some b ->
  exists p, watch_all (poller d) s (pending_watch b) = (p, true) /\
    dev_ok G (MkEventDevice
              (<[s := set_waiters b (waiter_pool b) (waiters b) (pending_unwatch b) []]> (books d))
              p Idle (event_error d)).
Proof.
  intros [Hb Hg Hf Hw Hph He] Hi Hs. unfold phase_ok in Hph. rewrite Hi in Hph.
  destruct Hph as [Hq Hpu]. specialize (Hpu b Hs). pose proof (Hb s b Hs) as Hbs.
  destruct (watch_all_ok (books d) s b (pending_watch b) (poller d))
    as (p & Hp & _ & Hrs & Hro & Hwp); [done|done|done| | |].
  { intros r fd Hin. destruct (bk_pending _ _ _ Hbs r fd Hin) as (w & Hw' & Hgen & Hc).
    exists b, (aw_slot w). split; [done|]. split; [by eapply armed_held|].
    split; [by apply (bk_key _ _ _ Hbs)|done]. }
  { apply (bk_nodup _ _ _ Hbs). }
  exists p. split; [done|]. split; cbn; try done.
  - intros s' b' [[<- <-]|[Hne Hs']]%lookup_insert_Some.
    + eapply books_perm; [symmetry; exact Hrs|]. by apply watched_ok.
    + eapply books_perm; [symmetry; by apply Hro|]. by apply Hb.
  - intros s' [Hs' Hne]%lookup_insert_None. apply Permutation_nil_r.
    rewrite <- (Hg s' Hs'). by apply Hro.
  - intros x. rewrite (gsum_update _ _ _ _ _ Hs). specialize (Hf x).
    change (slot_occ ctl x (set_waiters b (waiter_pool b) (waiters b) (pending_unwatch b) []))
      with (slot_occ ctl x b). lia.
  - intros w Hin. destruct (Hwp w Hin) as (b' & sl & Hb' & Hh & ?).
    destruct (decide (fired_proc (watch_fired w) = s)) as [E|Hne].
    + rewrite E in *. eexists _, sl. rewrite lookup_insert_eq. split; [done|]. split; [|done].
      simplify_eq. by eapply same_waiters_held.
    + exists b', sl. by rewrite lookup_insert_ne.
  - unfold phase_ok. cbn. intros s' b' [[<- <-]|[Hne Hs']]%lookup_insert_Some; [by split|].
    by eapply Hq.
Qed.

(** *** Delivering *)
Lemma regs_of_fired ws f q s :
  regs_of (MkPoller ws (f :: q)) s ≡ₚ
  (if decide (fired_proc f = s) then [registration f] else []) ++ regs_of (MkPoller ws q) s.
Proof.
  unfold regs_of, fireds. cbn [watches fired]. rewrite <- Permutation_middle. case_decide.
  - by rewrite filter_cons_True.
  - by rewrite filter_cons_False.
Qed.

Lemma wake_dev_ok m ws f q e :
  dev_ok G (MkEventDevice m (MkPoller ws (f :: q)) Idle e) ->
  exists b w b', m !! fired_proc f = Some b /\
    waiters b !! event_id (registration f) = Some w /\
    generation w = reg_generation (registration f) /\
    semsurf_wake b (registration f) = (Some (aw_client w, guest_kc w, aw_token w), b') /\
    dev_ok G (MkEventDevice (<[fired_proc f := b']> m) (MkPoller ws q) Idle e).
Proof.
  intros Hd. pose proof Hd as [Hb Hg Hf Hw Hph He]. cbn in *. unfold phase_ok in Hph. cbn in Hph.
  set (s := fired_proc f) in *.
  assert (Hrs : regs_of (MkPoller ws (f :: q)) s ≡ₚ registration f :: regs_of (MkPoller ws q) s)
    by (rewrite regs_of_fired, decide_True by done; done).
  destruct (m !! s) as [b|] eqn:Hs.
  2: { exfalso. rewrite (Hg s Hs) in Hrs. by apply Permutation_nil_l in Hrs. }
  destruct (Hph s b Hs) as [Hpu Hpw]. pose proof (books_perm _ _ _ _ Hrs (Hb s b Hs)) as Hbs.
  destruct (semsurf_wake_ok b _ _ Hbs Hpw Hpu)
    as (w & b' & Hw' & Hgen & Hwake & Hb' & Hpw' & Hpu' & Hocc).
  exists b, w, b'. do 4 (split; [done|]). split; cbn; try done.
  - intros s' b2 [[<- <-]|[Hne Hs']]%lookup_insert_Some; [done|].
    eapply books_perm; [|by apply Hb]. rewrite regs_of_fired, decide_False by done. done.
  - intros s' [Hs' Hne]%lookup_insert_None. apply Permutation_nil_r. rewrite <- (Hg s' Hs').
    rewrite regs_of_fired, decide_False by done. done.
  - intros x. rewrite (gsum_update _ _ _ _ _ Hs), Hocc. specialize (Hf x). lia.
  - intros v Hin. destruct (Hw v Hin) as (b2 & sl & Hb2 & Hh & Eid & Ec).
    destruct (decide (fired_proc (watch_fired v) = s)) as [E|Hne].
    + rewrite E in *. exists b', sl. rewrite lookup_insert_eq. split; [done|]. split; [|done].
      simplify_eq. unfold semsurf_wake in Hwake. rewrite Hw', Hgen, Z.eqb_refl in Hwake.
      injection Hwake as <-. rewrite held_spec in *. cbn.
      destruct Hh as [(i & w2 & Hw2 & <-)|Hin']; [left|by right]. exists i, w2. split; [|done].
      rewrite lookup_delete_ne; [done|]. intros <-.
      pose proof (bk_nodup _ _ _ Hbs) as Hn. rewrite Hpw, app_nil_r in Hn. cbn in Hn.
      apply NoDup_cons in Hn as [Hout _]. apply Hout.
      rewrite <- (bk_key _ _ _ Hbs _ _ Hw2), Eid. apply list_elem_of_fmap_2.
      rewrite <- E. by apply (watched_reg (MkPoller ws q)).
    + exists b2, sl. by rewrite lookup_insert_ne.
  - unfold phase_ok. cbn. apply map_Forall_insert_2; [by split|]. done.
Qed.

(** Every queued firing wakes the waiter it was registered for. *)
Definition wakes (m : gmap Z EventBooks) (f : Fired) (c : Z * Z * Z) : Prop :=
  exists b w, m !! fired_proc f = Some b /\ waiters b !! event_id (registration f) = Some w /\
    generation w = reg_generation (registration f) /\ c = (aw_client w, guest_kc w, aw_token w).

Lemma wake_wakes b r b' c m s f cc :
  m !! s = Some b -> semsurf_wake b r = (c, b') -> wakes (<[s := b']> m) f cc -> wakes m f cc.
Proof.
  intros Hs Hw (b2 & w & [[Es Eb]|[Hne Hs2]]%lookup_insert_Some & Hi & Hg & Hc).
  - exists b, w. split; [by rewrite <- Es|]. split; [|done]. unfold semsurf_wake in Hw.
    destruct (waiters b !! event_id r) as [w2|]; [|by simplify_eq].
    destruct (negb _); simplify_eq; [done|]. cbn in Hi. by apply lookup_delete_Some in Hi as [_ ?].
  - by exists b2, w.
Qed.

Lemma deliver_ok q : forall m ws e,
  dev_ok G (MkEventDevice m (MkPoller ws q) Idle e) ->
  map fst (deliver m q).1 = q /\ Forall (fun fc => wakes m fc.1 fc.2) (deliver m q).1 /\
  dev_ok G (MkEventDevice (deliver m q).2 (MkPoller ws []) Idle e).
Proof.
  induction q as [|f q IH]; intros m ws e Hd; [done|].
  destruct (wake_dev_ok m ws f q e Hd) as (b & w & b' & Hs & Hw & Hgen & Hwake & Hd').
  cbn. rewrite Hs, Hwake. destruct (IH _ _ _ Hd') as (Hm & Hall & Hok).
  destruct (deliver (<[fired_proc f := b']> m) q) as [out m'] eqn:E. cbn in *.
  split; [by rewrite Hm|]. split; [|done]. constructor; [by exists b, w|].
  eapply Forall_impl; [exact Hall|]. intros [f' c'] Hfc. by eapply wake_wakes.
Qed.

(** *** The remaining steps *)
Lemma drain_loop_fields n c answer : forall b,
  let b' := (drain_loop n b c answer).2 in
  waiter_pool b' = waiter_pool b /\ waiters b' = waiters b /\
  pending_unwatch b' = pending_unwatch b /\ pending_watch b' = pending_watch b /\
  next_event_id b' = next_event_id b.
Proof.
  induction n as [|n IH]; intros b; cbn; [done|]. destruct (answer n) as [|st|h i more]; [done| |].
  - by destruct (st =? _).
  - destruct (events b !! (c, h)) as [r|]; (destruct more; [|done]).
    + specialize (IH (add_counts b 0 1 0 0)). cbn in IH.
      by destruct (drain_loop n (add_counts b 0 1 0 0) c answer).
    + specialize (IH (add_counts b 0 1 1 0)). cbn in IH.
      by destruct (drain_loop n (add_counts b 0 1 1 0) c answer).
Qed.

Lemma drain_ok d s b c answer :
  dev_ok G d -> phase d = Idle -> books d !! s = Some b ->
  dev_ok G (set_books d s (drain_os_events b c answer).2 Idle).
Proof.
  intros [Hb Hg Hf Hw Hph He] Hi Hs. unfold phase_ok in Hph. rewrite Hi in Hph.
  set (b' := (drain_os_events b c answer).2).
  assert (Hfields : waiter_pool b' = waiter_pool b /\ waiters b' = waiters b /\
     pending_unwatch b' = pending_unwatch b /\ pending_watch b' = pending_watch b /\
     next_event_id b' = next_event_id b).
  { unfold b', drain_os_events. destruct (event_ctls b !! c); [apply drain_loop_fields|done]. }
  destruct Hfields as (Ep & Ew & Eu & Epw & En).
  assert (Hocc : forall f x, slot_occ f x b' = slot_occ f x b)
    by (intros f x; unfold slot_occ; by rewrite Ep, Ew, Eu).
  split; cbn; try done.
  - intros s' b2 [[<- <-]|[Hne Hs']]%lookup_insert_Some; [|by apply Hb].
    eapply books_move; [by apply Hb| |done..]. intros x. by rewrite Hocc.
  - intros s' [Hs' _]%lookup_insert_None. by apply Hg.
  - intros x. rewrite (gsum_update _ _ _ _ _ Hs), Hocc. specialize (Hf x). lia.
  - intros w Hin. destruct (Hw w Hin) as (b2 & sl & Hb2 & Hh & ?).
    destruct (decide (fired_proc (watch_fired w) = s)) as [E|Hne].
    + rewrite E in *. exists b', sl. rewrite lookup_insert_eq. split; [done|]. split; [|done].
      simplify_eq. by eapply same_waiters_held.
    + exists b2, sl. by rewrite lookup_insert_ne.
  - unfold phase_ok. cbn. apply map_Forall_insert_2; [|done]. destruct (Hph s b Hs).
    split; congruence.
Qed.

End steps.

(** A session that leaves takes its exception with it; a session that may not
    leave becomes one. *)
Definition note_exit (G : gset Z) (op : DevOp) : gset Z :=
  match op with
  | ProcGone s true => G ∖ {[s]}
  | ProcGone s false => G ∪ {[s]}
  | _ => G
  end.

(** The sessions whose exit was refused, over a run. *)
Definition stranded (ops : list DevOp) : gset Z := foldl note_exit ∅ ops.

Lemma exact_other G G' s : (s ∈ G' <-> s ∈ G) -> exact G' s = exact G s.
Proof. intros Hs. apply bool_decide_ext. by rewrite Hs. Qed.

Lemma gone_ok G d s unmapped :
  dev_ok G d -> phase d = Idle -> dev_ok (note_exit G (ProcGone s unmapped)) (proc_gone d s unmapped).
Proof.
  intros [Hb Hg Hf Hw Hph He] Hi. unfold phase_ok in Hph. rewrite Hi in Hph. destruct unmapped.
  { split; cbn; try done.
  - intros s' b [Hne Hs']%lookup_delete_Some. rewrite cancel_process_regs, decide_False by done.
    rewrite (exact_other G) by set_solver. by apply Hb.
  - intros s' Hs'. rewrite cancel_process_regs. case_decide as E; [done|]. apply Hg.
    by rewrite lookup_delete_ne in Hs'.
  - intros x. specialize (Hf x). destruct (books d !! s) as [b|] eqn:Hs.
    + rewrite (gsum_remove _ _ _ _ Hs). pose proof (slot_occ_nonneg ctl x b). lia.
    + by rewrite delete_id.
  - intros w [Hne Hin]%list_elem_of_filter. destruct (Hw w Hin) as (b & sl & Hb' & ?).
    exists b, sl. by rewrite lookup_delete_ne.
  - unfold phase_ok. cbn. by apply map_Forall_delete. }
  split; cbn; try done.
  - intros s' b Hs'. rewrite cancel_process_regs. case_decide as E.
    + subst s'. destruct (Hb s b Hs') as [Hid Hn Hk Hnd Ha Hr Hp]. split; try done.
      * rewrite map_app in Hnd. by apply NoDup_app in Hnd as (_ & _ & Hnd).
      * intros id w Hex. unfold exact in Hex. apply bool_decide_eq_true in Hex. set_solver.
      * by intros r ?%elem_of_nil.
    + rewrite (exact_other G) by set_solver. by apply Hb.
  - intros s' Hs'. rewrite cancel_process_regs. case_decide; [done|by apply Hg].
  - intros w [_ Hin]%list_elem_of_filter. by apply Hw.
Qed.

Lemma dev_step_ok G d op d' : dev_ok G d -> dev_step d op = Some d' -> dev_ok (note_exit G op) d'.
Proof.
  intros Hd. unfold dev_step.
  destruct op as [s|s r| | | |paced ready| |s c answer|s un]; destruct (phase d) as [|t|t|t] eqn:Hi;
    try done; try (intros [= <-]; rewrite <- Hi; by apply poll_ok).
  - destruct (books d !! s) eqn:Hs; [done|]. intros [= <-]. by apply new_session_dev_ok.
  - intros (b & Hs & Hf)%bind_Some. destruct (fresh_for d r) eqn:Hfr; [|done]. injection Hf as <-.
    by apply request_ok.
  - intros (b & Hs & [= <-])%bind_Some. by apply cancel_ok.
  - intros (b & Hs & [= <-])%bind_Some. by apply finish_ok.
  - intros (b & Hs & Hf)%bind_Some. destruct (register_dev_ok d t b Hd Hi Hs) as (p & Hp & Hok).
    rewrite Hp in Hf. injection Hf as <-. cbn. by rewrite orb_false_r.
  - intros [= <-]. destruct d as [m [ws q] ph e]. cbn in *. subst. by apply deliver_ok.
  - intros (b & Hs & [= <-])%bind_Some. by apply drain_ok.
  - intros [= <-]. by apply gone_ok.
Qed.

Lemma dev_run_ok ops : forall G d d', dev_ok G d -> dev_run d ops = Some d' -> dev_ok (foldl note_exit G ops) d'.
Proof.
  induction ops as [|op ops IH]; intros G d d' Hd; cbn; [by intros [= <-]|].
  intros (d1 & Hs & Hr)%bind_Some. eapply IH; [|exact Hr]. by eapply dev_step_ok.
Qed.

Lemma dev_new_ok : dev_ok ∅ EventDevice_new.
Proof.
  split; cbn; try done. by intros w ?%elem_of_nil.
Qed.

(** ** Claims *)
Definition demo_target : WaiterTarget := MkTarget 0x5c000001 3 17.
Definition demo_arm (fd : Z) : list DevOp :=
  [Request 1 (RegisterWaiter 0xc1d00001 demo_target 0xffff8000deadbeef 9 (Some fd) true true);
   Cancel; Finish; Register].
Definition demo_ops : list DevOp :=
  NewSession 1 :: demo_arm 40 ++ [Poll (fun _ => false) (fun _ => true); Deliver] ++ demo_arm 41.
Definition demo_device : EventDevice := default EventDevice_new (dev_run EventDevice_new demo_ops).

Lemma pooled_not_registered {ex} b rs c sl :
  books_ok ex [] b rs -> sl ∈ pool_of b c -> pending_unwatch b = [] ->
  slot_id sl ∉ map event_id rs.
Proof.
  intros Hb Hin Hpu (r & Er & Hr)%list_elem_of_fmap.
  pose proof (bk_ids _ _ _ Hb (slot_id sl)) as Hid. unfold slot_occ in Hid.
  assert (Hp : 1 <= pool_occ slot_id (slot_id sl) (waiter_pool b)).
  { unfold pool_of in Hin. destruct (waiter_pool b !! c) as [l|] eqn:El; [|by apply elem_of_nil in Hin].
    transitivity (occ (slot_id sl) (map slot_id l)).
    - apply occ_elem. by apply list_elem_of_fmap_2.
    - apply (gsum_lookup_le (fun l => occ (slot_id sl) (map slot_id l)) _ c); [|done].
      intros ? ? _. apply occ_nonneg. }
  assert (Ha : 1 <= arm_occ slot_id (slot_id sl) (waiters b)).
  { destruct (bk_regs _ _ _ Hb r Hr) as [(w & Hw & _)|Hret].
    - eapply arm_occ_armed; [exact Hw|]. rewrite (bk_key _ _ _ Hb _ _ Hw). done.
    - unfold ret_ids in Hret. rewrite Hpu in Hret. by apply elem_of_nil in Hret. }
  assert (0 <= ret_occ slot_id (slot_id sl) (pending_unwatch b)) by apply occ_nonneg.
  pose proof (hand_occ_nonneg slot_id (slot_id sl) []).
  destruct (_ && _) in Hid; lia.
Qed.

(** Between requests the thread knows the armed waiters, all of them where no
    exit was refused. *)
Lemma idle_registrations {G} d s b : dev_ok G d -> phase d = Idle -> books d !! s = Some b ->
  NoDup (map event_id (regs_of (poller d) s)) /\
  (forall r, r ∈ regs_of (poller d) s -> armed b r) /\
  (s ∉ G -> forall r, armed b r -> r ∈ regs_of (poller d) s) /\
  (forall c sl, sl ∈ pool_of b c -> slot_id sl ∉ map event_id (regs_of (poller d) s)).
Proof.
  intros Hd Hi Hs. pose proof (dv_phase _ Hd) as Hph. unfold phase_ok in Hph. rewrite Hi in Hph.
  destruct (Hph s b Hs) as [Hpu Hpw]. pose proof (dv_books _ Hd s b Hs) as Hb.
  pose proof (bk_nodup _ _ _ Hb) as Hn. rewrite Hpw, app_nil_r in Hn. split; [done|]. split; [|split].
  - intros r Hin. destruct (bk_regs _ _ _ Hb r Hin) as [?|Hret]; [done|].
    unfold ret_ids in Hret. rewrite Hpu in Hret. by apply elem_of_nil in Hret.
  - intros HG r (w & Hw & Hg). pose proof (bk_armed _ _ _ Hb _ _ (bool_decide_eq_true_2 _ HG) Hw) as Ha.
    rewrite Hpw, app_nil_r, Hg in Ha. by destruct r.
  - intros c sl Hin. by eapply pooled_not_registered.
Qed.

(** C16: The session's books and the poll thread agree.  Between requests, after
    any interleaving of requests, poll rounds, deliveries and exits, each exit
    with its unmaps done or refused: every registration the thread watches or
    has queued is an armed waiter of a session that is there, in its current
    generation, once; every armed waiter is registered, unless an exit of its
    process was refused (the thread had forgotten the process by then); a slot
    back in the pool is neither watched nor queued, and no watch was ever
    refused. *)
Theorem waiter_registrations_exact ops d :
  dev_run EventDevice_new ops = Some d -> phase d = Idle ->
  event_error d = false /\
  (forall s, books d !! s = None -> regs_of (poller d) s = []) /\
  (forall s b, books d !! s = Some b ->
     NoDup (map event_id (regs_of (poller d) s)) /\
     (forall r, r ∈ regs_of (poller d) s -> armed b r) /\
     (s ∉ stranded ops -> forall r, armed b r -> r ∈ regs_of (poller d) s) /\
     (forall c sl, sl ∈ pool_of b c -> slot_id sl ∉ map event_id (regs_of (poller d) s))).
Proof.
  intros Hrun Hi. pose proof (dev_run_ok _ _ _ _ dev_new_ok Hrun) as Hd.
  split; [apply (dv_error _ Hd)|]. split; [apply (dv_gone _ Hd)|]. intros s b Hs. by apply idle_registrations.
Qed.

Lemma waiter_registrations_exact_witness :
  exists d b, dev_run EventDevice_new demo_ops = Some d /\ books d !! 1 = Some b /\
    regs_of (poller d) 1 = [MkReg 1 2] /\ event_error d = false.
Proof.
  eexists _, _. split; [vm_compute; reflexivity|]. split; [vm_compute; reflexivity|].
  split; [vm_compute; reflexivity|].
  apply (waiter_registrations_exact demo_ops); vm_compute; reflexivity.
Defined.

(** C17: A firing reaches the guest callback it was armed for, once.  Whenever
    the device is between requests, collecting the queue delivers each queued
    firing exactly once, in order, to the client, callback and token of the
    waiter armed under that registration; and a waiter that is armed is
    delivered by the next poll round that finds its descriptor readable,
    unless its process is being paced or has asked to leave and was kept
    because the VMM refused an unmap. *)
Theorem armed_waiter_delivered ops d s b id w paced ready :
  dev_run EventDevice_new ops = Some d -> phase d = Idle ->
  map fst (deliver (books d) (fired (poller d))).1 = fired (poller d) /\
  Forall (fun fc => wakes (books d) fc.1 fc.2) (deliver (books d) (fired (poller d))).1 /\
  (s ∉ stranded ops -> books d !! s = Some b -> waiters b !! id = Some w ->
   paced s = false -> (forall v, watch_fd v = ctl (aw_slot w) -> ready v = true) ->
   (MkFired s (MkReg id (generation w)), (aw_client w, guest_kc w, aw_token w))
     ∈ (deliver (books d) (fired (poll_round (poller d) paced ready))).1).
Proof.
  intros Hrun Hi. pose proof (dev_run_ok _ _ _ _ dev_new_ok Hrun) as Hd.
  destruct d as [m [ws q] ph e]. cbn [books poller phase fired] in *. subst ph.
  destruct (deliver_ok q m ws e Hd) as (Hm & Hall & _). split; [done|]. split; [done|].
  intros HG Hs Hw Hpace Hready. pose proof (dv_phase _ Hd) as Hph. unfold phase_ok in Hph. cbn in Hph.
  destruct (Hph s b Hs) as [Hpu Hpw]. pose proof (dv_books _ Hd s b Hs) as Hb. cbn in Hb.
  pose proof (poll_ok _ paced ready Hd) as Hd2. cbn [books poller phase event_error] in Hd2.
  set (f := MkFired s (MkReg id (generation w))).
  assert (Hf : f ∈ fireds (MkPoller ws q)).
  { pose proof (bk_armed _ _ _ Hb _ _ (bool_decide_eq_true_2 _ HG) Hw) as Ha. rewrite Hpw, app_nil_r in Ha.
    apply list_elem_of_fmap in Ha as (f' & Er & [Ep Hin]%list_elem_of_filter).
    destruct f' as [p r]. cbn in *. by subst. }
  assert (Hq : f ∈ fired (poll_round (MkPoller ws q) paced ready)).
  { cbn. apply elem_of_app. apply elem_of_app in Hf as [Hin|?]; [right|by left]. cbn in Hin.
    apply list_elem_of_fmap in Hin as (v & Ef & Hin). rewrite Ef. apply list_elem_of_fmap_2.
    apply list_elem_of_In, filter_In. split.
    - apply filter_In. split; [by apply list_elem_of_In|]. rewrite <- Ef. cbn. by rewrite Hpace.
    - apply Hready. destruct (dv_watch _ Hd v Hin) as (b2 & sl & Hb2 & Hh & Eid & <-). cbn in Hb2.
      rewrite <- Ef in Hb2, Eid. cbn in Hb2, Eid. assert (b2 = b) as -> by congruence. f_equal.
      apply held_spec in Hh as [(i & w2 & Hw2 & <-)|Hret].
      + rewrite (bk_key _ _ _ Hb _ _ Hw2) in Eid. congruence.
      + rewrite Hpu in Hret. by apply elem_of_nil in Hret. }
  destruct (poll_round (MkPoller ws q) paced ready) as [ws2 q2]. cbn [fired] in *.
  destruct (deliver_ok q2 m ws2 e Hd2) as (Hm2 & Hall2 & _). rewrite <- Hm2 in Hq.
  apply list_elem_of_fmap in Hq as ([f' c] & Ef & Hin). cbn in Ef. subst f'.
  rewrite Forall_forall in Hall2.
  destruct (Hall2 _ Hin) as (b3 & w3 & Hb3 & Hw3 & _ & Hc). cbn in Hb3, Hw3, Hc.
  assert (b3 = b) as -> by congruence. assert (w3 = w) as -> by congruence. by rewrite <- Hc.
Qed.

Lemma armed_waiter_delivered_witness :
  exists b w, books demo_device !! 1 = Some b /\ waiters b !! 1 = Some w /\
    aw_client w = 0xc1d00001 /\ guest_kc w = 0xffff8000deadbeef /\
    (MkFired 1 (MkReg 1 (generation w)), (aw_client w, guest_kc w, aw_token w))
      ∈ (deliver (books demo_device)
           (fired (poll_round (poller demo_device) (fun _ => false) (fun _ => true)))).1.
Proof.
  eexists _, _. split; [vm_compute; reflexivity|]. split; [vm_compute; reflexivity|].
  split; [reflexivity|]. split; [reflexivity|].
  eapply (proj2 (armed_waiter_delivered demo_ops demo_device 1 _ 1 _ (fun _ => false)
                          (fun _ => true) ltac:(vm_compute; reflexivity)
                          ltac:(vm_compute; reflexivity))).
  - vm_compute. set_solver.
  - vm_compute. reflexivity.
  - vm_compute. reflexivity.
  - reflexivity.
  - done.
Defined.

(** What a refused exit does: the session of process 1 keeps an armed waiter
    that nothing watches, and a poll that finds every descriptor readable
    reports nothing. *)
Example refused_exit_forgets :
  let d := default EventDevice_new (dev_run EventDevice_new (demo_ops ++ [ProcGone 1 false])) in
  (exists b w, books d !! 1 = Some b /\ waiters b !! 1 = Some w /\ generation w = 2) /\
  regs_of (poller d) 1 = [] /\
  fired (poll_round (poller d) (fun _ => false) (fun _ => true)) = [].
Proof.
  split; [|split; vm_compute; reflexivity].
  eexists _, _. split; [vm_compute; reflexivity|]. split; vm_compute; reflexivity.
Qed.
