(* ===== verification/Effects.v ===== *)
(** * Fallible code that changes state

    A method with a [&mut self] that returns a [Result] is a value of
    [eff E St A]: from a state it gives an outcome and the state left behind,
    also when it fails, because what was done before an early return stays
    done.  [wp] is its weakest precondition with one postcondition for normal
    returns and one for errors; a panic satisfies neither, so proving a [wp]
    also proves that the code does not panic.  [sat] is the same for code
    that only computes. *)
From S2P Require Import Prelude.

Definition eff (E St A : Type) : Type := St -> outcome E A * St.

Global Instance eff_ret {E St} : MRet (eff E St) := fun A a s => (Ok a, s).

Global Instance eff_bind {E St} : MBind (eff E St) := fun A B f m s =>
  match m s with
  | (Ok a, s) => f a s
  | (Err e, s) => (Err e, s)
  | (Panic, s) => (Panic, s)
  end.

(** Code without effects, a read of the state, a change of it, an error. *)
Definition lift {E St A} (m : outcome E A) : eff E St A := fun s => (m, s).
Definition asks {E St A} (f : St -> A) : eff E St A := fun s => (Ok (f s), s).
Definition modify {E St} (f : St -> St) : eff E St unit := fun s => (Ok tt, f s).
Definition fail {E St A} (e : E) : eff E St A := fun s => (Err e, s).

(** Run [m] on a part of the state. *)
Definition zoom {E St Sub A} (get : St -> Sub) (set : Sub -> St -> St) (m : Sub -> outcome E A * Sub)
  : eff E St A := fun s => let '(r, x) := m (get s) in (r, set x s).

(** A local value with a destructor: [cleanup] runs when [m] returns early. *)
Definition on_error {E St A} (cleanup : St -> St) (m : eff E St A) : eff E St A := fun s =>
  match m s with
  | (Err e, s) => (Err e, cleanup s)
  | r => r
  end.

(** ** Postconditions *)
Definition sat {E A} (m : outcome E A) (Q : A -> Prop) (R : E -> Prop) : Prop :=
  match m with Ok a => Q a | Err e => R e | Panic => False end.

Definition wp {E St A} (m : eff E St A) (Q : A -> St -> Prop) (R : E -> St -> Prop) (s : St)
  : Prop :=
  sat (m s).1 (fun a => Q a (m s).2) (fun e => R e (m s).2).

Section pure.
Context {E : Type}.

Lemma sat_mono {A} (m : outcome E A) (Q Q' : A -> Prop) (R R' : E -> Prop) :
  sat m Q R -> (forall a, m = Ok a -> Q a -> Q' a) -> (forall e, R e -> R' e) -> sat m Q' R'.
Proof. destruct m; simpl; auto. Qed.

Lemma sat_bind {A B} (m : outcome E A) (f : A -> outcome E B) (Q : B -> Prop) (R : E -> Prop) :
  sat m (fun a => sat (f a) Q R) R -> sat (m ≫= f) Q R.
Proof. by destruct m. Qed.

Lemma sat_if {A} (c : bool) (m n : outcome E A) (Q : A -> Prop) (R : E -> Prop) :
  (c = true -> sat m Q R) -> (c = false -> sat n Q R) -> sat (if c then m else n) Q R.
Proof. destruct c; auto. Qed.

Lemma sat_no_panic {A} (m : outcome E A) :
  no_panic m <-> sat m (fun a => m = Ok a) (fun e => m = Err e).
Proof. by destruct m. Qed.

Lemma sat_or_panic {A} (o : option A) a (Q : A -> Prop) (R : E -> Prop) :
  o = Some a -> Q a -> sat (or_panic o) Q R.
Proof. by intros ->. Qed.

Lemma sat_map_err {F A} (f : E -> F) (m : outcome E A) (Q : A -> Prop) (R : F -> Prop) :
  sat m Q (fun e => R (f e)) -> sat (map_err f m) Q R.
Proof. by destruct m. Qed.

End pure.

Section rules.
Context {E St : Type}.
Implicit Types s : St.

Lemma wp_mono {A} (m : eff E St A) (Q Q' : A -> St -> Prop) (R R' : E -> St -> Prop) s :
  wp m Q R s -> (forall a s', Q a s' -> Q' a s') -> (forall e s', R e s' -> R' e s') ->
  wp m Q' R' s.
Proof. unfold wp. intros H ? ?. eapply sat_mono; [exact H|..]; simpl; auto. Qed.

Lemma wp_and {A} (m : eff E St A) (Q Q' : A -> St -> Prop) (R R' : E -> St -> Prop) s :
  wp m Q R s -> wp m Q' R' s ->
  wp m (fun a s' => Q a s' /\ Q' a s') (fun e s' => R e s' /\ R' e s') s.
Proof. unfold wp. by destruct (m s) as [[] ?]. Qed.

Lemma wp_bind {A B} (m : eff E St A) (f : A -> eff E St B) Q R s :
  wp m (fun a => wp (f a) Q R) R s -> wp (m ≫= f) Q R s.
Proof. unfold wp, mbind, eff_bind. by destruct (m s) as [[] ?]. Qed.

Lemma wp_bind_bind {A B C} (m : eff E St A) (f : A -> eff E St B) (g : B -> eff E St C) Q R s :
  wp (m ≫= f) (fun b => wp (g b) Q R) R s -> wp (a ← m; b ← f a; g b) Q R s.
Proof.
  unfold wp, mbind, eff_bind. destruct (m s) as [[] s1]; cbn; [|done|done].
  by destruct (f a s1) as [[] ?].
Qed.

Lemma wp_bind_bind3 {A B C F} (m : eff E St A) (f : A -> eff E St B) (g : B -> eff E St C)
    (k : C -> eff E St F) Q R s :
  wp (a ← m; b ← f a; g b) (fun c => wp (k c) Q R) R s -> wp (a ← m; b ← f a; c ← g b; k c) Q R s.
Proof.
  unfold wp, mbind, eff_bind. destruct (m s) as [[] s1]; cbn; [|done|done].
  destruct (f a s1) as [[] s2]; cbn; [|done|done]. by destruct (g a0 s2) as [[] ?].
Qed.

Lemma wp_ret {A} (a : A) (Q : A -> St -> Prop) (R : E -> St -> Prop) s :
  Q a s -> wp (mret a) Q R s.
Proof. done. Qed.

Lemma wp_lift {A} (m : outcome E A) (Q : A -> St -> Prop) R s :
  sat m (fun a => Q a s) (fun e => R e s) -> wp (lift m) Q R s.
Proof. done. Qed.

Lemma wp_asks {A} (f : St -> A) (Q : A -> St -> Prop) (R : E -> St -> Prop) s :
  Q (f s) s -> wp (asks f) Q R s.
Proof. done. Qed.

Lemma wp_modify (f : St -> St) (Q : unit -> St -> Prop) (R : E -> St -> Prop) s :
  Q tt (f s) -> wp (modify f) Q R s.
Proof. done. Qed.

Lemma wp_fail {A} (e : E) (Q : A -> St -> Prop) R s : R e s -> wp (fail e) Q R s.
Proof. done. Qed.

Lemma wp_if {A} (c : bool) (m n : eff E St A) Q R s :
  (c = true -> wp m Q R s) -> (c = false -> wp n Q R s) -> wp (if c then m else n) Q R s.
Proof. destruct c; auto. Qed.

Lemma wp_on_error {A} (cleanup : St -> St) (m : eff E St A) Q R s :
  wp m Q (fun e s' => R e (cleanup s')) s -> wp (on_error cleanup m) Q R s.
Proof. unfold wp, on_error. by destruct (m s) as [[] ?]. Qed.

Lemma wp_run {A} (m : eff E St A) Q R s r s' :
  wp m Q R s -> m s = (r, s') -> sat r (fun a => Q a s') (fun e => R e s').
Proof. unfold wp. by intros H Hm; rewrite Hm in H. Qed.

End rules.

(** One step of a proof about straight-line code. *)
Ltac wp_step :=
  lazymatch goal with
  | |- wp (mbind _ _) _ _ _ => apply wp_bind
  | |- wp (mret _) _ _ _ => apply wp_ret
  | |- wp (lift _) _ _ _ => apply wp_lift
  | |- wp (asks _) _ _ _ => apply wp_asks
  | |- wp (modify _) _ _ _ => apply wp_modify
  | |- wp (fail _) _ _ _ => apply wp_fail
  | |- wp (on_error _ _) _ _ _ => apply wp_on_error
  | |- wp (if _ then _ else _) _ _ _ => apply wp_if; intros ?
  | |- sat (mbind _ _) _ _ => apply sat_bind
  | |- sat (if _ then _ else _) _ _ => apply sat_if; intros ?
  end.
