(* ===== verification/Prepare.v ===== *)
(** * Preparation of an ioctl (crates/vhost-user-nvrm/src/session.rs, [prepare])

    [prepare] turns a guest request into the call the driver will see: it
    refuses what the policy forbids, replaces tokens by host descriptors,
    guest page runs by the address of an arena, guest pointers by addresses
    inside the session's own aux buffer, and guest callbacks by host OS
    events, and reserves video memory.  The result is a [Plan] and the two
    buffers the driver is given.

    The Rust function is one body; its consecutive parts are separate
    definitions here, in the same order and under the markers its comments
    use.  The session state a request can change is [Sess]; the virtual
    machine's ledger and page registrations, shared by all sessions, are part
    of it.  What the kernel decides during preparation (descriptors opened,
    addresses of buffers, guest RAM, results of the mapping calls) is the
    argument [PrepEnv].  A refusal is its errno; its text goes to the log. *)
From stdpp Require Import strings.
From S2P Require Import Prelude.
From S2P Require Import Effects.
From S2P Require Import Bytes.
From S2P Require Import Wire.
From S2P Require Import CLayout.
From S2P Require Import SysConsts.
From S2P Require Import Sys.
From S2P Require Import SysLayout.
From S2P Require Import NvAbi.
From S2P Require Import Xlate.
From S2P Require Import RequestShape.
From S2P Require Import ClientPolicy.
From S2P Require Import Mirror.
From S2P Require Import Text.
From S2P Require Import VramPolicy.
From S2P Require Import Vram.
From S2P Require Import Answers.
From S2P Require Import Window.
From S2P Require Import Arena.
From S2P Require Import HostPool.
From S2P Require Import Waiters.
Import GuestWords.

Local Open Scope string_scope.
Local Open Scope list_scope.
Local Open Scope Z_scope.

(** ** Constants *)
Definition UVM_ALLOC_SEMAPHORE_POOL : Z := 68.
Definition CTRL_SEMSURF_REGISTER_WAITER : Z := NV_SEMAPHORE_SURFACE_CTRL_CMD_REGISTER_WAITER.
Definition CTRL_SEMSURF_UNREGISTER_WAITER : Z := NV_SEMAPHORE_SURFACE_CTRL_CMD_UNREGISTER_WAITER.

Definition OSDESC_PARAMS : Z := size_of NV_OS_DESC_MEMORY_ALLOCATION_PARAMS.
Definition OSDESC_DESC : Z := offset_of NV_OS_DESC_MEMORY_ALLOCATION_PARAMS "descriptor".
Definition OSDESC_LIMIT : Z := offset_of NV_OS_DESC_MEMORY_ALLOCATION_PARAMS "limit".
Definition OSDESC_TYPE : Z := offset_of NV_OS_DESC_MEMORY_ALLOCATION_PARAMS "descriptorType".
Definition OSDESC_STYPE : Z := offset_of NV_OS_DESC_MEMORY_ALLOCATION_PARAMS "type_".
Definition OSDESC_ATTR : Z := offset_of NV_OS_DESC_MEMORY_ALLOCATION_PARAMS "attr".
Definition OSDESC_ATTR2 : Z := offset_of NV_OS_DESC_MEMORY_ALLOCATION_PARAMS "attr2".

Definition NVOS02_FLAGS : Z := 16.
Definition NVOS02_PMEM : Z := 24.
Definition NVOS02_LIMIT : Z := 32.
Definition NVOS02_FD : Z := 48.
Definition NVOS02_LEN : Z := 56.

Definition NV0005_HCLASS : Z := offset_of NV0005_ALLOC_PARAMETERS "hClass".
Definition NV0005_NOTIFYINDEX : Z := offset_of NV0005_ALLOC_PARAMETERS "notifyIndex".
Definition NV0005_DATA : Z := offset_of NV0005_ALLOC_PARAMETERS "data".

(** The numbers the comments of the source quote. *)
Example osdesc_layout :
  (OSDESC_PARAMS, OSDESC_DESC, OSDESC_LIMIT, OSDESC_TYPE) = (40, 16, 24, 32) /\
  (OSDESC_STYPE, OSDESC_ATTR, OSDESC_ATTR2) = (0, 8, 12) /\
  size_of Nvos02WithFd = NVOS02_LEN /\
  (NV0005_HCLASS, NV0005_NOTIFYINDEX, NV0005_DATA) = (8, 12, 16) /\
  size_of NV0005_ALLOC_PARAMETERS = 24.
Proof. vm_compute. done. Qed.

(** [u32::from_le_bytes(b[o..o + 4])], its 64-bit form, and the writes: a
    slice out of range panics, whatever the error type. *)
Definition u32_of {E} (b : bytes) (o : Z) : outcome E Z := or_panic (get_u32 b o).
Definition u64_of {E} (b : bytes) (o : Z) : outcome E Z := or_panic (get_u64 b o).
Definition put32 {E} (b : bytes) (o v : Z) : outcome E bytes := or_panic (set_u32 b o v).
Definition put64 {E} (b : bytes) (o v : Z) : outcome E bytes := or_panic (set_u64 b o v).

(** Code that can only panic, in a context with errors. *)
Definition infallible {E A} (m : may_panic A) : outcome E A :=
  map_err (fun e : Empty_set => match e with end) m.

(** ** Data *)

(** [Pollable::Client]; the other variants are in [EventBooks]. *)
Record ClientPoll := MkClientPoll { cp_token : Z; cp_fd : Z; cp_owner : option Z }.

Inductive Action := Forward | FakeSemaphorePool | FakeManaged | FakeVramFull.

Global Instance Action_eq_dec : EqDecision Action.
Proof. solve_decision. Defined.

Record Plan := MkPlan {
  p_seq : Z; p_target_fd : Z; p_request : Z; p_action : Action; p_ioctl_nr : Z; p_dev_tag : Z;
  p_inline_len : Z; p_aux_len : Z;
  osdesc_arena : option HostPool.Arena; osdesc_nvos64_tail : option bytes;
  p_target_token : Z; vram_reserved : Z; vram_status_off : Z;
  event_reg : option EventReg; waiter_reg : option PendingWaiter; waiter_unreg : option Z;
  vram_vidheap : bool; vram_ask : option Ask; fb_info_list : option (Z * Z) }.

(** The size and the descriptor fields in the two RM_ALLOC forms. *)
Definition alloc_status_off (inline_len : Z) : option Z :=
  if 48 <=? inline_len then Some 40 else if inline_len =? 32 then Some 28 else None.

(** The flags of an NVOS02 allocation over guest RAM, and the coherency that
    was asked for and cannot be had. *)
Definition drf (f : option Drf.t) : Drf.t := default (Drf.shift_mask 0 0) f.

Definition nvos02_flags_for_osdesc (attr attr2 : Z) : Z * option string :=
  let c := Drf.get (drf NVOS32_ATTR_COHERENCY) attr in
  let lost :=
    if (c =? NVOS32_ATTR_COHERENCY_CACHED) || (c =? NVOS32_ATTR_COHERENCY_WRITE_BACK) then None
    else if c =? NVOS32_ATTR_COHERENCY_UNCACHED then Some "UNCACHED"
    else if c =? NVOS32_ATTR_COHERENCY_WRITE_COMBINE then Some "WRITE_COMBINE"
    else if c =? NVOS32_ATTR_COHERENCY_WRITE_THROUGH then Some "WRITE_THROUGH"
    else if c =? NVOS32_ATTR_COHERENCY_WRITE_PROTECT then Some "WRITE_PROTECT"
    else Some "(unknown)" in
  let gpu_cacheable :=
    if Drf.get (drf NVOS32_ATTR2_GPU_CACHEABLE) attr2 =? NVOS32_ATTR2_GPU_CACHEABLE_YES
    then NVOS02_FLAGS_GPU_CACHEABLE_YES else NVOS02_FLAGS_GPU_CACHEABLE_NO in
  let flags :=
    Z.lor (Z.lor (Z.lor (Z.lor
      (Drf.set (drf NVOS02_FLAGS_PHYSICALITY) NVOS02_FLAGS_PHYSICALITY_NONCONTIGUOUS)
      (Drf.set (drf NVOS02_FLAGS_LOCATION) NVOS02_FLAGS_LOCATION_PCI))
      (Drf.set (drf NVOS02_FLAGS_COHERENCY) NVOS02_FLAGS_COHERENCY_WRITE_BACK))
      (Drf.set (drf NVOS02_FLAGS_GPU_CACHEABLE) gpu_cacheable))
      (Drf.set NVOS02_FLAGS_MAPPING NVOS02_FLAGS_MAPPING_NO_MAP) in
  (flags, lost).

(** [WaiterTarget::from_params] *)
Definition from_params (inline aux : bytes) : outcome Z WaiterTarget :=
  s ← u32_of inline 4; i ← u64_of aux 0; v ← u64_of aux 8; Ok (MkTarget s i v).

Section prepare.
Context {A : RmAbi} {D : Type} `{PoolDriver D} {M : Type} `{GuestMem M}.

(** What a request can change: the session, the VRAM ledger and the page
    registrations of the virtual machine. *)
Record Sess := MkSess {
  sid : Z;
  mirror : FdMirror.Mirror;
  evb : EventBooks;
  client_polls : list ClientPoll;
  osdesc_gpu : option Z;
  vbooks : Vram.Books;
  s_ledger : Ledger;
  world : World D }.

Definition set_evb (e : EventBooks) (s : Sess) : Sess :=
  MkSess (sid s) (mirror s) e (client_polls s) (osdesc_gpu s) (vbooks s) (s_ledger s) (world s).
Definition set_polls (l : list ClientPoll) (s : Sess) : Sess :=
  MkSess (sid s) (mirror s) (evb s) l (osdesc_gpu s) (vbooks s) (s_ledger s) (world s).
Definition set_gpu (g : option Z) (s : Sess) : Sess :=
  MkSess (sid s) (mirror s) (evb s) (client_polls s) g (vbooks s) (s_ledger s) (world s).
Definition set_vram (l : Ledger) (b : Vram.Books) (s : Sess) : Sess :=
  MkSess (sid s) (mirror s) (evb s) (client_polls s) (osdesc_gpu s) b l (world s).
Definition set_world (w : World D) (s : Sess) : Sess :=
  MkSess (sid s) (mirror s) (evb s) (client_polls s) (osdesc_gpu s) (vbooks s) (s_ledger s) w.
Definition set_mirror (m : FdMirror.Mirror) (s : Sess) : Sess :=
  MkSess (sid s) m (evb s) (client_polls s) (osdesc_gpu s) (vbooks s) (s_ledger s) (world s).

(** [aux_addr] is the address of the aux buffer, [arena_va] that of the arena
    built for this request; the [*_host] descriptors were resolved by the
    device; [ctl_*] and [gpu_*] are the outcomes of opening and registering a
    control or GPU node. *)
Record PrepEnv := MkPrepEnv {
  aux_addr : Z;
  aux_fd_host : option Z; fd_field_host : option Z;
  is_private : Z -> bool;
  mem : option M; pe_page : Z; pe_max_pin : Z; pe_calls : ArenaEnv; arena_va : Z;
  ctl_open : option Z; ctl_bound : bool;
  gpu_open : option Z; gpu_registered : bool;
  managed_compat : bool }.

Variable env : PrepEnv.
Variable req : Req.

(** ** What is refused before a buffer is copied *)
Definition check_lengths (payload : bytes) : outcome Z unit :=
  fail_if! (blen payload <? inline_len req + aux_len req)
           || (MAX_PAYLOAD <? inline_len req) || (MAX_AUX <? aux_len req) with EINVAL;
  Ok tt.

Definition check_blocked (dev : Dev) (payload : bytes) : outcome Z unit :=
  if negb (is_uvm dev) && (ioctl_nr req =? NV_ESC_RM_CONTROL) && (12 <=? inline_len req) then
    cmd ← u32_of payload 8;
    fail_if! ctrl_blocked cmd with EPERM;
    Ok tt
  else Ok tt.

(** The device, the descriptor behind the token, and the two buffers with
    the pointers of [shape] cleared. *)
Definition admission (m : FdMirror.Mirror) (payload : bytes)
  : outcome Z (Dev * Z * (bytes * bytes)) :=
  _ ← check_lengths payload;
  dev ← ok_or (dev_of (dev_tag req)) EINVAL;
  inline ← or_panic (get_range payload 0 (inline_len req));
  aux ← or_panic (get_range payload (inline_len req) (aux_len req));
  match private_client (is_private env) dev (ioctl_nr req) inline aux with
  | Some _ => Err EPERM
  | None =>
      _ ← check_blocked dev payload;
      shape ← map_err errno (validate dev req inline aux);
      fd ← ok_or (FdMirror.raw m (target_token req)) EBADF;
      fail_if! negb (bool_decide (FdMirror.kind_of m (target_token req) = Some dev)) with EINVAL;
      bufs ← map_err errno (clear_unused_pointers shape inline aux);
      Ok (dev, fd, bufs)
  end.

(** ** (1) The descriptor field of the inline payload *)
Definition translate_fd (m : FdMirror.Mirror) (scratch : bytes) : outcome Z bytes :=
  if negb (fd_field_off req =? NONE_U32) then
    let off := fd_field_off req in
    fail_if! inline_len req <? off + 4 with EINVAL;
    host ← (if fd_field_token req =? NONE_U64 then as_i32 <$> u32_of scratch off
            else match fd_field_host env with
                 | Some f => Ok f
                 | None =>
                     if fd_field_proc req =? NONE_U32
                     then ok_or (FdMirror.raw m (fd_field_token req)) EBADF
                     else Err EBADF
                 end);
    put32 scratch off (wrap32 host)
  else Ok scratch.

(** RM wakes the descriptor that allocates an OS event: the device polls it. *)
Definition note_os_event (dev : Dev) (target_fd : Z) : eff Z Sess unit :=
  if negb (is_uvm dev) && (ioctl_nr req =? NV_ESC_ALLOC_OS_EVENT)
  then modify (fun s => set_polls
         (client_polls s ++ [MkClientPoll (target_token req) target_fd None]) s)
  else mret tt.

(** ** (2b') OS descriptors over guest pages *)

(** The variables this part assigns for the later ones: the arena, the saved
    middle of the NVOS64 block, the rewritten number and target, and the two
    lengths. *)
Record Osdesc := MkOsdesc {
  od_arena : option HostPool.Arena; od_tail : option bytes; od_nr : option Z; od_fd : option Z;
  od_inline_len : Z; od_aux_len : Z }.

Definition no_osdesc : Osdesc := MkOsdesc None None None None (inline_len req) (aux_len req).

(** [osdesc_gpu_fd]: the GPU node is opened once. *)
Definition osdesc_gpu_fd : eff Z Sess Z :=
  cached ← asks osdesc_gpu;
  match cached with
  | Some f => mret f
  | None =>
      match gpu_open env with
      | None => fail EIO
      | Some f =>
          if gpu_registered env then _ ← modify (set_gpu (Some f)); mret f else fail EIO
      end
  end.

Definition arena_for_osdesc (m : M) (runs : list GpaRun) (total : Z) : eff Z Sess HostPool.Arena :=
  zoom world set_world (fun w =>
    match HostPool.arena w (MkArenaCall (pe_page env) (pe_max_pin env) (pe_calls env) m runs)
            {| gl := total |} with
    | (Ok a, w) => (Ok a, w)
    | (Err _, w) => (Err EIO, w)
    | (Panic, w) => (Panic, w)
    end).

(** The destructor of an arena that no plan has taken over. *)
Definition dropping (a : option HostPool.Arena) (s : Sess) : Sess :=
  match a with Some a => set_world (drop_arena (world s) a) s | None => s end.

(** NVKMS's NVOS64 allocation becomes the NVOS02 call RM accepts from user
    space; [params] still holds the guest's parameters. *)
Definition rewrite_nvos64 (limit : Z) (scratch params : bytes)
  : eff Z Sess (bytes * (bytes * Z)) :=
  if blen scratch <? 48 then fail EINVAL
  else
    tail ← lift (or_panic (get_range scratch 16 24));
    va ← lift (u64_of params OSDESC_DESC);
    attr ← lift (u32_of params OSDESC_ATTR);
    attr2 ← lift (u32_of params OSDESC_ATTR2);
    scratch ← lift (or_panic (set_range scratch NVOS02_FLAGS (replicate 8 0)));
    scratch ← lift (put32 scratch NVOS02_FLAGS (nvos02_flags_for_osdesc attr attr2).1);
    scratch ← lift (put64 scratch NVOS02_PMEM va);
    scratch ← lift (put64 scratch NVOS02_LIMIT limit);
    let scratch := if blen scratch <? NVOS02_LEN
                   then scratch ++ replicate (Z.to_nat (NVOS02_LEN - blen scratch)) 0
                   else scratch in
    gpu ← osdesc_gpu_fd;
    scratch ← lift (put32 scratch NVOS02_FD (wrap32 gpu));
    mret (scratch, (tail, gpu)).

Definition osdesc_stage (dev : Dev) (scratch aux : bytes)
  : eff Z Sess (Osdesc * (bytes * bytes)) :=
  if negb (negb (is_uvm dev) && (0 <? gpa_run_count req)) then mret (no_osdesc, (scratch, aux))
  else
    let kern_form := ioctl_nr req =? NV_ESC_RM_ALLOC in
    if negb kern_form && (negb (ioctl_nr req =? NV_ESC_RM_ALLOC_MEMORY) || (inline_len req <? 44))
    then fail EINVAL
    else match mem env with
    | None => fail EIO
    | Some m =>
        if kern_form && (blen aux <? OSDESC_PARAMS) then fail EINVAL
        else
          let run_bytes := if kern_form then drop (Z.to_nat OSDESC_PARAMS) aux else aux in
          decoded ← lift (infallible (decode run_bytes (gpa_run_count req)));
          match decoded with
          | None => fail EINVAL
          | Some runs =>
              limit ← lift (if kern_form then u64_of aux OSDESC_LIMIT else u64_of scratch 32);
              match checked_add64 limit 1 with
              | None => fail EINVAL
              | Some total =>
                  arena ← arena_for_osdesc m runs total;
                  on_error (dropping (Some arena))
                    (if kern_form then
                       aux ← lift (put64 aux OSDESC_DESC (arena_va env));
                       aux ← lift (put32 aux OSDESC_TYPE NVOS32_DESCRIPTOR_TYPE_VIRTUAL_ADDRESS);
                       aux ← lift (put32 aux OSDESC_STYPE NVOS32_TYPE_IMAGE);
                       '(scratch, (tail, gpu)) ← rewrite_nvos64 limit scratch aux;
                       mret (MkOsdesc (Some arena) (Some tail) (Some NV_ESC_RM_ALLOC_MEMORY)
                               (Some gpu) NVOS02_LEN 0, (scratch, []))
                     else
                       scratch ← lift (put64 scratch 24 (arena_va env));
                       mret (MkOsdesc (Some arena) None None None (inline_len req) 0, (scratch, [])))
              end
          end
    end.

(** ** (2) The embedded pointer *)
Definition point_embedded (od : Osdesc) (scratch : bytes) : outcome Z bytes :=
  if negb (embedded_ptr_off req =? NONE_U32) && negb (bool_decide (is_Some (od_nr od)))
  then put64 scratch (embedded_ptr_off req) (aux_addr env)
  else Ok scratch.

(** ** (1b) The descriptor field inside aux *)
Definition aux_fd_width (dev : Dev) (od : Osdesc) (scratch : bytes) : outcome Z Z :=
  ctrl_fd ← (if negb (is_uvm dev) && (ioctl_nr req =? NV_ESC_RM_CONTROL)
                && (32 <=? od_inline_len od)
             then cmd ← u32_of scratch 8; Ok (ctrl_fd_offset cmd) else Ok None);
  match ctrl_fd with
  | Some o => if o =? aux_fd_field_off req then Ok 4 else Err EINVAL
  | None => Ok 8
  end.

Definition translate_aux_fd (dev : Dev) (od : Osdesc) (scratch aux : bytes) : eff Z Sess bytes :=
  if aux_fd_field_off req =? NONE_U32 then mret aux
  else
    let off := aux_fd_field_off req in
    width ← lift (aux_fd_width dev od scratch);
    if blen aux <? off + width then fail EINVAL
    else if aux_fd_field_token req =? NONE_U64 then mret aux
    else match aux_fd_host env with
    | None => fail EBADF
    | Some f =>
        if width =? 4 then lift (put32 aux off (wrap32 f))
        else
          aux ← lift (put64 aux off (wrap64 f));
          _ ← modify (fun s => set_polls (client_polls s ++
                [MkClientPoll (aux_fd_field_token req) f
                   (if negb (aux_fd_field_proc req =? NONE_U32)
                    then Some (aux_fd_field_proc req) else None)]) s);
          mret aux
    end.

(** ** (2b) Nested pointers *)

(** One descriptor; [enabled] says whether a VRAM cap is set. *)
Definition point_nested (dev : Dev) (enabled : bool) (scratch aux : bytes) (d : NestedDesc)
  : outcome Z (bytes * option (Z * Z)) :=
  if blen aux <? aux_off d then Panic
  else
    aux ← put64 aux (ptr_off d) (wrap64 (aux_addr env + aux_off d));
    is_info ← (if negb (is_uvm dev) && enabled && (ioctl_nr req =? NV_ESC_RM_CONTROL)
               then cmd ← u32_of scratch 8; Ok (cmd =? CMD_FB_GET_INFO) else Ok false);
    if (is_info : bool) then asked ← u32_of aux 0; Ok (aux, Some (aux_off d, asked))
    else Ok (aux, None).

Fixpoint point_all_nested (dev : Dev) (enabled : bool) (scratch aux : bytes)
    (fb : option (Z * Z)) (ds : list NestedDesc) : outcome Z (bytes * option (Z * Z)) :=
  match ds with
  | [] => Ok (aux, fb)
  | d :: ds' =>
      '(aux, fb') ← point_nested dev enabled scratch aux d;
      point_all_nested dev enabled scratch aux
        (match fb' with Some x => Some x | None => fb end) ds'
  end.

(** [req.nested[..req.nested_count as usize]] *)
Definition announced : outcome Z (list NestedDesc) :=
  if Z.of_nat (length (nested req)) <? nested_count req then Panic
  else Ok (take (Z.to_nat (nested_count req)) (nested req)).

(** ** (3) The number of the call *)
Definition encode_request (dev : Dev) (od : Osdesc) : outcome Z Z :=
  if is_uvm dev then Ok (ioctl_nr req)
  else if Z.shiftl 1 14 - 1 <? od_inline_len od then Err EMSGSIZE
  else Ok (Ioc.iowr_raw (default (ioctl_nr req) (od_nr od)) (od_inline_len od)).

(** ** (1a') Kernel-callback events *)
Definition substitute_event (dev : Dev) (od : Osdesc) (scratch aux : bytes)
  : eff Z Sess (option EventReg * (bytes * bytes)) :=
  if negb (is_uvm dev) && (ioctl_nr req =? NV_ESC_RM_ALLOC) && (16 <=? od_inline_len od)
     && (size_of NV0005_ALLOC_PARAMETERS <=? blen aux)
  then
    hclass ← lift (u32_of scratch 12);
    if (hclass =? NV01_EVENT_KERNEL_CALLBACK) || (hclass =? NV01_EVENT_KERNEL_CALLBACK_EX) then
      h_client ← lift (u32_of scratch 0);
      guest_data ← lift (u64_of aux NV0005_DATA);
      notify_index ← lift (u32_of aux NV0005_NOTIFYINDEX);
      id ← zoom evb set_evb (fun b => alloc_os_event_id b h_client (ctl_open env) (ctl_bound env));
      aux ← lift (put32 aux NV0005_HCLASS NV01_EVENT_OS_EVENT);
      aux ← lift (put64 aux NV0005_DATA id);
      scratch ← lift (put32 scratch 12 NV01_EVENT_OS_EVENT);
      mret (Some (MkEventReg h_client 0 hclass notify_index guest_data (target_token req) id),
            (scratch, aux))
    else mret (None, (scratch, aux))
  else mret (None, (scratch, aux)).

(** ** (1a''') Semaphore waiters *)
Definition substitute_waiter (dev : Dev) (od : Osdesc) (scratch aux : bytes)
  : eff Z Sess (option PendingWaiter * option Z * bytes) :=
  if negb (is_uvm dev) && (ioctl_nr req =? NV_ESC_RM_CONTROL) && (32 <=? od_inline_len od) then
    cmd ← lift (u32_of scratch 8);
    if (cmd =? CTRL_SEMSURF_REGISTER_WAITER) && (32 <=? blen aux) then
      kc ← lift (u64_of aux 24);
      if u32_max <? kc then
        h_client ← lift (u32_of scratch 0);
        target ← lift (from_params scratch aux);
        p ← zoom evb set_evb (fun b => register_prepare b h_client target kc (target_token req)
                                         (ctl_open env) (ctl_bound env));
        aux ← lift (put64 aux 24 (slot_id (pw_slot p)));
        mret (Some p, None, aux)
      else mret (None, None, aux)
    else if (cmd =? CTRL_SEMSURF_UNREGISTER_WAITER) && (24 <=? blen aux) then
      kc ← lift (u64_of aux 16);
      if u32_max <? kc then
        h_client ← lift (u32_of scratch 0);
        target ← lift (from_params scratch aux);
        b ← asks evb;
        match unregister_find b h_client kc target with
        | Some id => aux ← lift (put64 aux 16 id); mret (None, Some id, aux)
        | None => mret (None, None, aux)
        end
      else mret (None, None, aux)
    else mret (None, None, aux)
  else mret (None, None, aux).

(** ** (2e) Video memory *)
Record VramPlan := MkVramPlan {
  vp_reserved : Z; vp_full : bool; vp_status_off : Z; vp_ask : option Ask; vp_vidheap : bool }.

Definition no_vram : VramPlan := MkVramPlan 0 false 0 None false.

Definition reserve_bytes (n : Z) : eff Z Sess bool :=
  zoom s_ledger (fun l s => set_vram l (vbooks s) s)
    (fun l => let '(ok, l) := Vram.reserve l n in (Ok ok, l)).

Definition reserve_alloc (dev : Dev) (od : Osdesc) (scratch aux : bytes) : eff Z Sess VramPlan :=
  if negb (is_uvm dev) && (ioctl_nr req =? NV_ESC_RM_ALLOC) then
    match alloc_status_off (od_inline_len od) with
    | None => mret no_vram
    | Some st_off =>
        hclass ← lift (u32_of scratch 12);
        bytes ← lift (infallible (request_bytes hclass aux));
        match bytes with
        | None => mret no_vram
        | Some n =>
            ask ← lift (infallible (of_alloc (if st_off =? 40 then Nvos64 else Nvos21) hclass aux));
            ok ← reserve_bytes n;
            mret (MkVramPlan (if ok : bool then n else 0) (negb ok) st_off ask false)
        end
    end
  else mret no_vram.

(** (2e') NVOS32 is entirely inline. *)
Definition reserve_vidheap (dev : Dev) (od : Osdesc) (scratch : bytes) (vp : VramPlan)
  : eff Z Sess VramPlan :=
  if negb (is_uvm dev) && (ioctl_nr req =? NV_ESC_RM_VID_HEAP_CONTROL) then
    buf ← lift (or_panic (get_range scratch 0 (od_inline_len od)));
    bytes ← lift (infallible (vidheap_request_bytes buf));
    match bytes with
    | None => mret vp
    | Some n =>
        ask ← lift (infallible (of_vidheap buf));
        ok ← reserve_bytes n;
        mret (MkVramPlan (if ok : bool then n else vp_reserved vp) (vp_full vp || negb ok)
                V_STATUS_OFF ask true)
    end
  else mret vp.

(** ** The plan *)
Definition choose_action (dev : Dev) (vp : VramPlan) : Action :=
  if is_uvm dev && (ioctl_nr req =? UVM_ALLOC_SEMAPHORE_POOL) then FakeSemaphorePool
  else if is_uvm dev && existsb (Z.eqb (ioctl_nr req)) [42; 43; 44; 45; 46; 47; 51]
          && managed_compat env then FakeManaged
  else if vp_full vp then FakeVramFull
  else Forward.

Definition finish_prepare (dev : Dev) (target_fd : Z) (od : Osdesc) (scratch aux : bytes)
  : eff Z Sess (Plan * (bytes * bytes)) :=
  scratch ← lift (point_embedded od scratch);
  aux ← translate_aux_fd dev od scratch aux;
  ds ← lift announced;
  cap ← asks (fun s => enabled (s_ledger s));
  '(aux, fb) ← lift (point_all_nested dev cap scratch aux None ds);
  request ← lift (encode_request dev od);
  '(ev, (scratch, aux)) ← substitute_event dev od scratch aux;
  '(wreg, wunreg, aux) ← substitute_waiter dev od scratch aux;
  vp ← reserve_alloc dev od scratch aux;
  vp ← reserve_vidheap dev od scratch vp;
  mret (MkPlan (seq req) (default target_fd (od_fd od)) request (choose_action dev vp)
          (default (ioctl_nr req) (od_nr od)) (dev_tag req) (od_inline_len od) (od_aux_len od)
          (od_arena od) (od_tail od) (target_token req) (vp_reserved vp) (vp_status_off vp)
          ev wreg wunreg (vp_vidheap vp) (vp_ask vp) fb, (scratch, aux)).

Definition prepare (payload : bytes) : eff Z Sess (Plan * (bytes * bytes)) :=
  m ← asks mirror;
  '(dev, target_fd, (scratch, aux)) ← lift (admission m payload);
  scratch ← lift (translate_fd m scratch);
  _ ← note_os_event dev target_fd;
  '(od, (scratch, aux)) ← osdesc_stage dev scratch aux;
  on_error (dropping (od_arena od)) (finish_prepare dev target_fd od scratch aux).

End prepare.
