(* ===== verification/Prepared.v ===== *)
(** * What a prepared call looks like (session.rs, [prepare])

    The theorems about [prepare]: it does not panic on any request, the
    buffers it hands to the driver contain no address and no descriptor
    number of the guest's choosing, and what it changed in the session is
    exactly what the plan says.  The proofs follow the stages of [Prepare]. *)
From stdpp Require Import strings.
From S2P Require Import Prelude.
From S2P Require Import Effects.
From S2P Require Import Bytes.
From S2P Require Import Wire.
From S2P Require Import CLayout.
From S2P Require Import SysConsts.
From S2P Require Import Sys.
From S2P Require Import SysLayout.
From S2P Require Import NvAbi.
From S2P Require Import Xlate.
From S2P Require Import RequestShape.
From S2P Require Import ClientPolicy.
From S2P Require Import Mirror.
From S2P Require Import Text.
From S2P Require Import VramPolicy.
From S2P Require Import Vram.
From S2P Require Import Answers.
From S2P Require Import Window.
From S2P Require Import Arena.
From S2P Require Import HostPool.
From S2P Require Import Waiters.
From S2P Require Import Prepare.
Import GuestWords.

(** ** Reads and writes of buffers *)

(** [b'] is [b] with the [n]-byte word [v] at [o]. *)
Record edited (n : nat) (b : bytes) (o v : Z) (b' : bytes) : Prop := {
  ed_len : blen b' = blen b;
  ed_wf : wf_bytes b -> wf_bytes b';
  ed_get : get_le n b' o = Some (v mod 256 ^ Z.of_nat n);
  ed_frame : forall o' l, o' + l <= o \/ o + Z.of_nat n <= o' ->
    get_range b' o' l = get_range b o' l;
}.

Lemma set_le_edited n b o v b' : set_le n b o v = Some b' -> edited n b o v b'.
Proof.
  intros Hs. split.
  - by eapply set_le_blen.
  - intros ?. by eapply set_le_wf.
  - by eapply get_set_le_same.
  - intros o' l Hd. apply set_le_Some in Hs as (-> & Ho & Hl).
    apply get_put_disjoint; [done| |]; unfold blen at 1; rewrite length_le_bytes; lia.
Qed.

Lemma edited_get n b o v b' m o' :
  edited n b o v b' -> o' + Z.of_nat m <= o \/ o + Z.of_nat n <= o' ->
  get_le m b' o' = get_le m b o'.
Proof. intros He Hd. unfold get_le. by rewrite (ed_frame _ _ _ _ _ He). Qed.

Lemma set_le_total n b o v : 0 <= o -> o + Z.of_nat n <= blen b ->
  exists b', set_le n b o v = Some b' /\ edited n b o v b'.
Proof.
  intros Ho Hl. eexists. assert (set_le n b o v = Some (put_range b o (le_bytes n v))) as Hs
    by (apply set_le_Some; split; [done|lia]).
  split; [exact Hs|]. by apply set_le_edited.
Qed.

Section buffers.
Context {E : Type}.
Implicit Types (R : E -> Prop).

Lemma sat_get n b o Q R :
  0 <= o -> o + Z.of_nat n <= blen b -> (forall v, get_le n b o = Some v -> Q v) ->
  sat (or_panic (get_le n b o)) Q R.
Proof.
  intros Ho Hl HQ. destruct (proj2 (get_le_is_Some n b o)) as [v Hv]; [lia|].
  rewrite Hv. simpl. by apply HQ.
Qed.

Lemma sat_set n b o v Q R :
  0 <= o -> o + Z.of_nat n <= blen b -> (forall b', edited n b o v b' -> Q b') ->
  sat (or_panic (set_le n b o v)) Q R.
Proof.
  intros Ho Hl HQ. destruct (set_le_total n b o v Ho Hl) as (b' & -> & He). simpl. by apply HQ.
Qed.

Lemma sat_u32_of b o Q R : 0 <= o -> o + 4 <= blen b ->
  (forall v, get_u32 b o = Some v -> Q v) -> sat (u32_of b o) Q R.
Proof. intros. unfold u32_of. by apply sat_get. Qed.

Lemma sat_u64_of b o Q R : 0 <= o -> o + 8 <= blen b ->
  (forall v, get_u64 b o = Some v -> Q v) -> sat (u64_of b o) Q R.
Proof. intros. unfold u64_of. by apply sat_get. Qed.

Lemma sat_put32 b o v Q R : 0 <= o -> o + 4 <= blen b ->
  (forall b', edited 4 b o v b' -> Q b') -> sat (put32 b o v) Q R.
Proof. intros. unfold put32. by apply sat_set. Qed.

Lemma sat_put64 b o v Q R : 0 <= o -> o + 8 <= blen b ->
  (forall b', edited 8 b o v b' -> Q b') -> sat (put64 b o v) Q R.
Proof. intros. unfold put64. by apply sat_set. Qed.

Lemma sat_range b o l Q R : 0 <= o -> 0 <= l -> o + l <= blen b ->
  (forall d, get_range b o l = Some d -> Q d) -> sat (or_panic (get_range b o l)) Q R.
Proof.
  intros Ho Hl0 Hl HQ. destruct (proj2 (get_range_is_Some b o l)) as [v Hv]; [lia|].
  rewrite Hv. simpl. by apply HQ.
Qed.

Lemma sat_infallible {X} (m : may_panic X) Q R :
  no_panic m -> (forall a, m = Ok a -> Q a) -> sat (infallible m) Q R.
Proof. destruct m as [a|[]|]; simpl; intros Hn HQ; [by apply HQ|by destruct Hn]. Qed.

Lemma sat_ok_or {X} (o : option X) (e : E) Q R :
  (forall a, o = Some a -> Q a) -> R e -> sat (ok_or o e) Q R.
Proof. destruct o; simpl; auto. Qed.

End buffers.

Lemma Forall2_mono_l {X Y} (P Q : X -> Y -> Prop) l k :
  Forall2 P l k -> (forall x y, x ∈ l -> P x y -> Q x y) -> Forall2 Q l k.
Proof. induction 1; intros HQ; constructor; [|apply IHForall2]; set_solver. Qed.

(** What [execute] needs of a plan: where its status words are, and
    which parts exclude each other. *)
Record ready (plan : Plan) : Prop := {
  rd_head : is_u32 (p_seq plan) /\ is_u32 (p_inline_len plan) /\ is_u32 (p_aux_len plan);
  rd_arena : is_Some (osdesc_arena plan) -> 44 <= p_inline_len plan;
  rd_tail : forall t, osdesc_nvos64_tail plan = Some t ->
    blen t = 24 /\ wf_bytes t /\ is_Some (osdesc_arena plan);
  rd_pages : is_Some (osdesc_arena plan) ->
    event_reg plan = None /\ waiter_reg plan = None /\ waiter_unreg plan = None /\
    vram_reserved plan = 0 /\ fb_info_list plan = None /\
    p_ioctl_nr plan = NV_ESC_RM_ALLOC_MEMORY /\ p_action plan = Forward;
  rd_event : is_Some (event_reg plan) -> p_ioctl_nr plan = NV_ESC_RM_ALLOC;
  rd_waiter : is_Some (waiter_reg plan) \/ is_Some (waiter_unreg plan) ->
    p_ioctl_nr plan = NV_ESC_RM_CONTROL /\ 32 <= p_inline_len plan;
  rd_vram : vram_reserved plan <> 0 \/ p_action plan = FakeVramFull ->
    0 <= vram_status_off plan /\ vram_status_off plan + 4 <= p_inline_len plan /\
    12 <= p_inline_len plan /\ (vram_vidheap plan = true -> V_LEN <= p_inline_len plan);
  rd_full : p_action plan = FakeVramFull ->
    (forall d, dev_of (p_dev_tag plan) = Some d -> is_uvm d = false) /\ osdesc_arena plan = None /\
    osdesc_nvos64_tail plan = None /\ vram_reserved plan = 0 /\
    if vram_vidheap plan then p_ioctl_nr plan = NV_ESC_RM_VID_HEAP_CONTROL /\ vram_status_off plan = V_STATUS_OFF
    else p_ioctl_nr plan = NV_ESC_RM_ALLOC;
  rd_managed : p_action plan = FakeManaged ->
    vram_reserved plan = 0 /\ event_reg plan = None /\ waiter_reg plan = None /\
    waiter_unreg plan = None /\ osdesc_arena plan = None;
  rd_fb : forall off asked, fb_info_list plan = Some (off, asked) -> 0 <= off;
}.

(** The addresses the allocator returned are 64-bit and not null. *)
Definition env_ok {M} (env : PrepEnv (M:=M)) : Prop :=
  is_u64 (arena_va env) /\ 0 < aux_addr env /\ aux_addr env + MAX_AUX <= u64_max.

Section prepare.
Context {A : RmAbi} {AOk : RmAbiOk A} {D : Type} `{PoolDriver D} {M : Type} `{GuestMem M}.
Context (env : PrepEnv (M:=M)) (req : Req) (payload : bytes).
Context (Hreq : wf_req req) (Hpayload : wf_bytes payload) (Henv : env_ok env).

(** A request for [n] bytes of video memory, as it is read off the wire: a
    device-memory allocation (class NV01_MEMORY_LOCAL_USER) whose parameters
    say so, or the ALLOC_SIZE function of NVOS32; physical, in video memory. *)
Definition wants_vram (dev : Dev) (n : Z) : Prop :=
  is_uvm dev = false /\ 0 < n /\
  ((ioctl_nr req = NV_ESC_RM_ALLOC /\ P_LEN <= aux_len req /\ get_u32 payload 12 = Some 0x40 /\
    exists flags attr, get_u32 payload (inline_len req + P_FLAGS) = Some flags /\
      Z.land flags ALLOC_FLAGS_VIRTUAL = 0 /\
      get_u32 payload (inline_len req + P_ATTR) = Some attr /\ asks_for_vidmem attr = true /\
      get_u64 payload (inline_len req + P_SIZE) = Some n) \/
   (ioctl_nr req = NV_ESC_RM_VID_HEAP_CONTROL /\ V_LEN <= inline_len req /\
    get_u32 payload V_FUNCTION = Some NVOS32_FUNCTION_ALLOC_SIZE /\
    exists flags attr, get_u32 payload VA_FLAGS = Some flags /\
      Z.land flags ALLOC_FLAGS_VIRTUAL = 0 /\
      get_u32 payload VA_ATTR = Some attr /\ asks_for_vidmem attr = true /\
      get_u64 payload VA_SIZE = Some n)).

(** Where such a request has its status word. *)
Definition memory_status_off : Z :=
  if ioctl_nr req =? NV_ESC_RM_ALLOC then if inline_len req =? 48 then 40 else 28 else V_STATUS_OFF.

(** ** Admission *)

(** What an admitted request was before its unused pointers were cleared. *)
Record admitted (m : FdMirror.Mirror) (dev : Dev) (fd : Z) (sc ax : bytes)
    (inline aux : bytes) (s : Shape) (params : bytes) (afd : option (Z * Z))
    (specs : list NestedPtr) (ds : list NestedDesc) : Prop := {
  ad_dev : dev_of (dev_tag req) = Some dev;
  ad_fd : FdMirror.raw m (target_token req) = Some fd;
  ad_kind : FdMirror.kind_of m (target_token req) = Some dev;
  ad_inline : get_range payload 0 (inline_len req) = Some inline;
  ad_aux : get_range payload (inline_len req) (aux_len req) = Some aux;
  ad_wf : wf_bytes inline /\ wf_bytes aux;
  ad_lens : inline_len req <= MAX_PAYLOAD /\ aux_len req <= MAX_AUX;
  ad_private : private_client (is_private env) dev (ioctl_nr req) inline aux = None;
  ad_accepted : accepted dev req inline aux s params afd specs ds;
  ad_cleared : cleared s inline aux sc ax;
}.

Lemma check_blocked_no_panic dev inline :
  get_range payload 0 (inline_len req) = Some inline -> no_panic (check_blocked req dev payload).
Proof.
  intros Hi. unfold check_blocked. destruct (_ && _) eqn:Hc; [|done]. bools.
  pose proof (proj1 (get_range_is_Some _ _ _) (ex_intro _ _ Hi)) as (_ & _ & ?).
  unfold u32_of. destruct (proj2 (get_le_is_Some 4 payload 8)) as [v ->]; [lia|]. simpl.
  by destruct (ctrl_blocked v).
Qed.

Lemma sat_admit m :
  sat (admission env req m payload)
    (fun '(dev, fd, (sc, ax)) => exists inline aux s params afd specs ds,
       admitted m dev fd sc ax inline aux s params afd specs ds)
    (fun _ => True).
Proof.
  destruct Hreq as (_ & _ & _ & _ & _ & Hil & Hal & _). unfold is_u32 in *. unfold admission.
  apply sat_bind. unfold check_lengths. apply sat_if; [by intros|]. intros Hc. simpl.
  apply sat_bind, sat_ok_or; [|done]. intros dev Hdev. bools.
  apply sat_bind, sat_range; [lia..|]. intros inline Hin.
  apply sat_bind, sat_range; [lia..|]. intros aux Haux.
  pose proof (get_range_wf _ _ _ _ Hpayload Hin) as Hwi.
  pose proof (get_range_wf _ _ _ _ Hpayload Haux) as Hwa.
  destruct (private_client _ _ _ _ _) eqn:Hpc; [done|].
  apply sat_bind. eapply sat_mono; [by apply sat_no_panic, (check_blocked_no_panic dev _ Hin)|
    intros _ _ _|done].
  apply sat_bind, sat_map_err.
  eapply sat_mono; [by apply sat_no_panic, (validate_no_panic dev req inline aux)| |done].
  intros s _ (params & afd & specs & ds & HH)%validate_accepted; [|done..].
  apply sat_bind, sat_ok_or; [|done]. intros fd Hfd.
  apply sat_if; [by intros|]. intros Hk. bools.
  destruct (clear_accepted _ _ _ _ _ _ _ _ _ Hwi Hwa HH) as (sc & ax & Hcl).
  apply sat_bind, sat_map_err. rewrite (cl_result _ _ _ _ _ Hcl). simpl.
  exists inline, aux, s, params, afd, specs, ds. by split.
Qed.

(** ** Stage by stage *)
Section stages.
Context (m : FdMirror.Mirror) (dev : Dev) (fd : Z) (sc ax inline aux : bytes) (s : Shape)
  (params : bytes) (afd : option (Z * Z)) (specs : list NestedPtr) (ds : list NestedDesc).
Context (Had : admitted m dev fd sc ax inline aux s params afd specs ds).

Lemma ad_envelope :
  blen inline = inline_len req /\ blen aux = aux_len req /\ dev <> UvmTools /\
  (is_uvm dev = false -> inline_len req < 16384 /\
     exists s, frontend_size (ioctl_nr req) = Some s /\ accepts s (inline_len req) = true).
Proof.
  destruct Had. destruct (check_envelope_Ok _ _ _ _ _ (acc_envelope _ _ _ _ _ _ _ _ _ ad_accepted0))
    as (? & ? & ? & _ & ?). by split_and!.
Qed.

Lemma ad_sc_len : blen sc = inline_len req.
Proof. destruct Had as [_ _ _ _ _ _ _ _ _ Hc]. rewrite (cl_inline_len _ _ _ _ _ Hc). apply ad_envelope. Qed.

Lemma ad_ax_len : blen ax = aux_len req.
Proof. destruct Had as [_ _ _ _ _ _ _ _ _ Hc]. rewrite (cl_aux_len _ _ _ _ _ Hc). apply ad_envelope. Qed.

Lemma ad_bufs_wf : wf_bytes sc /\ wf_bytes ax.
Proof. destruct Had as [_ _ _ _ _ _ _ _ _ Hc]. apply (cl_wf _ _ _ _ _ Hc). Qed.

Lemma ad_fixed n :
  is_uvm dev = false -> frontend_size (ioctl_nr req) = Some (Fixed n) -> inline_len req = n.
Proof.
  intros Hd Hf. destruct ad_envelope as (_ & _ & _ & He).
  destruct (He Hd) as (_ & fs & Hfs & Hacc). rewrite Hf in Hfs. simplify_eq. simpl in Hacc. by bools.
Qed.

Lemma ad_frontend nr n :
  is_uvm dev = false -> ioctl_nr req = nr -> frontend_size nr = Some (Fixed n) -> inline_len req = n.
Proof. intros Hd <- Hf. by apply ad_fixed. Qed.

Lemma ad_alloc_len : is_alloc dev (ioctl_nr req) = true -> inline_len req = 32 \/ inline_len req = 48.
Proof.
  unfold is_alloc. intros Ha. bools. destruct ad_envelope as (_ & _ & _ & He).
  destruct (He ltac:(done)) as (_ & fs & Hfs & Hacc).
  match goal with H : ioctl_nr req = _ |- _ => rewrite H in Hfs end.
  assert (fs = Allocation) as -> by (vm_compute in Hfs; congruence).
  unfold accepts in Hacc. vm_compute (sz _) in Hacc. bool_cases; auto.
Qed.

Lemma ad_control_len : is_control dev (ioctl_nr req) = true -> inline_len req = 32.
Proof.
  unfold is_control. intros Hc. bools. by eapply ad_frontend; [|done|vm_compute].
Qed.

(** Only controls lose an inline pointer. *)
Lemma ad_sc_kept : is_control dev (ioctl_nr req) = false -> sc = inline.
Proof.
  intros Hc. destruct Had as [_ _ _ _ _ _ _ _ Hacc Hcl]. apply (cl_kept _ _ _ _ _ Hcl).
  destruct (check_refused_Ok _ _ _ _ (acc_refused _ _ _ _ _ _ _ _ _ Hacc)) as (_ & Hn & _).
  by rewrite Hn.
Qed.

Lemma ad_sc_head n o : o + Z.of_nat n <= 16 \/ 24 <= o -> get_le n sc o = get_le n inline o.
Proof.
  intros Ho. destruct Had as [_ _ _ _ _ _ _ _ _ Hcl]. unfold get_le.
  by rewrite (cl_inline _ _ _ _ _ Hcl).
Qed.

(** *** (1) The inline descriptor *)

(** Where a translated descriptor number comes from. *)
Definition fd_origin (m : FdMirror.Mirror) (host : Z) : Prop :=
  (fd_field_token req = NONE_U64 /\ host < 0) \/
  (fd_field_token req <> NONE_U64 /\
     (fd_field_host env = Some host \/
      (fd_field_host env = None /\ fd_field_proc req = NONE_U32 /\
       FdMirror.raw m (fd_field_token req) = Some host))).

Definition fd_translated (sc1 : bytes) : Prop :=
  match fd_field_offset dev (ioctl_nr req) (inline_len req) with
  | None => sc1 = sc
  | Some off => 0 <= off /\ off + 4 <= inline_len req /\
      exists host, edited 4 sc off (wrap32 host) sc1 /\ fd_origin m host
  end.

Lemma fd_field_not_control off :
  fd_field_offset dev (ioctl_nr req) (inline_len req) = Some off ->
  is_control dev (ioctl_nr req) = false /\ is_alloc dev (ioctl_nr req) = false /\
  off <> NONE_U32.
Proof.
  unfold fd_field_offset, is_control, is_alloc. intros Hm. destruct (is_uvm dev).
  - split_and!; [done..|].
    apply (match_nr_check (fun _ o => negb (o =? NONE_U32))) in Hm; [by bools|done].
  - apply (match_nr_check (fun k o => negb (k =? NV_ESC_RM_CONTROL) && negb (k =? NV_ESC_RM_ALLOC)
      && negb (o =? NONE_U32))) in Hm; [|done]. bools. split_and!; [by apply Z.eqb_neq..|done].
Qed.

Lemma sat_translate_fd : sat (translate_fd env req m sc) fd_translated (fun _ => True).
Proof.
  pose proof ad_sc_len as Hlen.
  pose proof (acc_fd _ _ _ _ _ _ _ _ _ (ad_accepted _ _ _ _ _ _ _ _ _ _ _ _ Had)) as Hr.
  unfold translate_fd, fd_translated.
  destruct (fd_field_offset dev (ioctl_nr req) (inline_len req)) as [off|] eqn:Hoff; simpl in Hr.
  2: { destruct Hr as (-> & _). by rewrite Z.eqb_refl. }
  destruct (fd_field_not_control off Hoff) as (Hnc & _ & Hnone).
  destruct ad_envelope as (Hil & _). destruct Hr as (-> & H0off & Hend & Hr).
  rewrite (proj2 (Z.eqb_neq _ _) Hnone). simpl.
  apply sat_if; [by intros|intros _].
  assert (forall host, fd_origin m host -> sat (put32 (E:=Z) sc off (wrap32 host))
    (fun sc1 => 0 <= off /\ off + 4 <= inline_len req /\
       exists host, edited 4 sc off (wrap32 host) sc1 /\ fd_origin m host) (fun _ => True)) as Hput.
  { intros host Ho. apply sat_put32; [lia..|]. intros b' He. split_and!; [lia..|]. by exists host. }
  apply sat_bind. destruct (fd_field_token req =? NONE_U64) eqn:Htok; bools.
  - destruct Hr as [?|[_ (v & Hv & Hneg)]]; [done|].
    rewrite <- (ad_sc_kept Hnc) in Hv. change (Z.to_nat 4) with 4%nat in Hv.
    unfold u32_of. rewrite Hv. simpl.
    apply Hput. left. split; [done|]. done.
  - destruct (fd_field_host env) as [f|] eqn:Hf; simpl; [apply Hput; right; auto|].
    apply sat_if; intros Hp; bools; [|done]. apply sat_ok_or; [|done]. intros f Hraw.
    apply Hput. right. auto.
Qed.

(** *** (2b') OS descriptors *)
Lemma ad_runs : gpa_run_count req <> 0 ->
  is_uvm dev = false /\ get_u32 inline 12 = Some NV01_MEMORY_SYSTEM_OS_DESCRIPTOR /\
  ((is_alloc dev (ioctl_nr req) = true /\ blen inline = 48) \/
   ioctl_nr req = NV_ESC_RM_ALLOC_MEMORY).
Proof.
  intros Hn. pose proof (acc_runs _ _ _ _ _ _ _ _ _ (ad_accepted _ _ _ _ _ _ _ _ _ _ _ _ Had)) as Hr.
  unfold check_runs in Hr. apply bind_Ok in Hr as (osdesc & Ho & Hr).
  rewrite (proj2 (Z.eqb_neq _ _) Hn) in Hr. cbn [negb] in Hr.
  replace (size_of NVOS64_PARAMETERS) with 48 in Hr by (by vm_compute).
  destruct (negb osdesc || _) eqn:Hc; [done|]. bools. subst osdesc.
  unfold and_also in Ho. destruct (negb (is_uvm dev) && _) eqn:Hk; [|done].
  unfold u32_at in Ho. destruct (get_u32 inline 12) as [c|] eqn:Hcl; [|done]. simpl in Ho.
  assert (c = NV01_MEMORY_SYSTEM_OS_DESCRIPTOR) as ->
    by (apply Z.eqb_eq; injection Ho; done). bools.
  split_and!; [done|done|].
  destruct (is_alloc dev (ioctl_nr req)) eqn:Ha; [left|right; bool_cases; done].
  split; [done|]. bool_cases; done.
Qed.

(** An OS-descriptor allocation has no other field to translate. *)
Lemma ad_runs_plain : gpa_run_count req <> 0 ->
  is_control dev (ioctl_nr req) = false /\ aux_fd_field_off req = NONE_U32 /\ ds = [] /\
  nested_count req = 0 /\
  (ioctl_nr req = NV_ESC_RM_ALLOC_MEMORY -> embedded_ptr_off req = NONE_U32).
Proof.
  intros Hn. destruct (ad_runs Hn) as (Hd & Hcl & Hk). destruct ad_envelope as (Hil & _).
  pose proof (ad_accepted _ _ _ _ _ _ _ _ _ _ _ _ Had) as HH.
  assert (is_control dev (ioctl_nr req) = false) as Hnc.
  { unfold is_control, is_alloc in *. rewrite Hd in *. simpl in *.
    destruct Hk as [[Hk _]|Hk]; bools; rewrite Hk; done. }
  assert (afd = None) as ->.
  { pose proof (acc_aux_fd _ _ _ _ _ _ _ _ _ HH) as He. unfold expected_aux_fd in He.
    rewrite Hnc in He. unfold u32_at in He. rewrite Hcl in He. simpl in He.
    destruct (is_alloc _ _ && _) in He; by simplify_eq. }
  assert (specs = []) as ->.
  { pose proof (acc_specs _ _ _ _ _ _ _ _ _ HH) as He. unfold nested_specs in He.
    rewrite Hnc in He. simpl in He. by simplify_eq. }
  destruct (nf_met _ _ _ _ _ _ _ _ (acc_nested _ _ _ _ _ _ _ _ _ HH)) as (os & -> & Hos).
  apply Forall2_nil_inv_l in Hos as ->.
  pose proof (acc_count _ _ _ _ _ _ _ _ _ HH) as Hcount. simpl in Hcount.
  split_and!; [done|apply (acc_aux_resolved _ _ _ _ _ _ _ _ _ HH)|done|lia|].
  intros Hnr. pose proof (acc_embedded _ _ _ _ _ _ _ _ _ HH) as He.
  apply check_embedded_Ok in He as [(_ & He & _)|(e & He & _)]; [done| |apply Had|done].
  unfold embedded_ptr in He. rewrite Hd, Hnr in He. by simpl in He.
Qed.

Lemma wp_osdesc_gpu_fd (st : Sess (D:=D)) :
  wp (osdesc_gpu_fd env)
    (fun f st' => st' = set_gpu (Some f) st /\ (osdesc_gpu st = Some f \/ gpu_open env = Some f))
    (fun _ st' => st' = st) st.
Proof.
  unfold osdesc_gpu_fd. wp_step. wp_step. destruct (osdesc_gpu st) as [f|] eqn:Hg.
  - wp_step. split; [|auto]. destruct st; simpl in *. by subst.
  - destruct (gpu_open env) as [f|] eqn:Ho; [|by wp_step].
    wp_step; [|by wp_step]. wp_step. wp_step. wp_step. auto.
Qed.

(** The NVOS02 block that replaces an NVOS64 one of 48 bytes. *)
Record nvos02_of (limit va : Z) (sc1 sc2 tail : bytes) (gpu : Z) : Prop := {
  n02_len : blen sc2 = NVOS02_LEN;
  n02_wf : wf_bytes sc1 -> wf_bytes sc2;
  n02_tail : get_range sc1 16 24 = Some tail;
  n02_head : forall o l, o + l <= 16 -> get_range sc2 o l = get_range sc1 o l;
  n02_pmem : get_u64 sc2 NVOS02_PMEM = Some va;
  n02_limit : get_u64 sc2 NVOS02_LIMIT = Some limit;
  n02_fd : get_u32 sc2 NVOS02_FD = Some (wrap32 gpu);
}.

Lemma get_range_app_l (b c : bytes) o l :
  o + l <= blen b -> get_range (b ++ c) o l = get_range b o l.
Proof.
  intros Hl. unfold get_range. pose proof (blen_nonneg c).
  destruct (in_range b o l) eqn:Hi.
  - apply in_range_spec in Hi. rewrite (proj2 (in_range_spec (b ++ c) o l)) by (rewrite blen_app; lia).
    f_equal. unfold blen in *. rewrite drop_app_le by lia. by rewrite take_app_le by (rewrite length_drop; lia).
  - destruct (in_range (b ++ c) o l) eqn:Hj; [|done].
    apply in_range_spec in Hj. assert (in_range b o l = true) by (apply in_range_spec; lia). congruence.
Qed.

Lemma wf_bytes_app b c : wf_bytes b -> wf_bytes c -> wf_bytes (b ++ c).
Proof. apply Forall_app_2. Qed.

Lemma wrap32_mod v : wrap32 v mod 256 ^ Z.of_nat 4 = wrap32 v.
Proof. change (256 ^ Z.of_nat 4) with 4294967296. unfold wrap32. by rewrite Z.mod_mod. Qed.

Lemma u64_mod v : is_u64 v -> v mod 256 ^ Z.of_nat 8 = v.
Proof. intros [? ?]. apply Z.mod_small. unfold u64_max in *. simpl. lia. Qed.

Lemma wp_rewrite_nvos64 limit va sc1 prm (st : Sess (D:=D)) :
  blen sc1 = 48 -> OSDESC_PARAMS <= blen prm -> is_u64 limit -> is_u64 va ->
  get_u64 prm OSDESC_DESC = Some va ->
  wp (rewrite_nvos64 env limit sc1 prm)
    (fun '(sc2, (tail, gpu)) st' => nvos02_of limit va sc1 sc2 tail gpu /\
       st' = set_gpu (Some gpu) st /\ (osdesc_gpu st = Some gpu \/ gpu_open env = Some gpu))
    (fun _ st' => st' = st) st.
Proof.
  intros Hlen Hprm Hlim Hva Hdesc. destruct osdesc_layout as (Hl1 & Hl2 & _). simplify_eq.
  unfold rewrite_nvos64. apply wp_if; [intros; bools; lia|intros _].
  wp_step. wp_step. apply sat_range; [lia..|]. intros tail Htail.
  wp_step. wp_step. apply (sat_or_panic _ va _ _ Hdesc).
  wp_step. wp_step. apply sat_u32_of; [lia..|]. intros attr _.
  wp_step. wp_step. apply sat_u32_of; [lia..|]. intros attr2 _.
  wp_step. wp_step. change (set_range sc1 NVOS02_FLAGS (replicate 8 0)) with (set_u64 sc1 NVOS02_FLAGS 0).
  unfold NVOS02_FLAGS. apply sat_set; [lia..|]. intros b1 E1. pose proof (ed_len _ _ _ _ _ E1).
  wp_step. wp_step. apply sat_put32; [lia..|]. intros b2 E2. pose proof (ed_len _ _ _ _ _ E2).
  wp_step. wp_step. unfold NVOS02_PMEM. apply sat_put64; [lia..|]. intros b3 E3. pose proof (ed_len _ _ _ _ _ E3).
  wp_step. wp_step. unfold NVOS02_LIMIT. apply sat_put64; [lia..|]. intros b4 E4. pose proof (ed_len _ _ _ _ _ E4).
  assert (blen b4 = 48) as Hb4 by lia. rewrite Hb4. change (48 <? NVOS02_LEN) with true. cbv iota.
  assert (blen (b4 ++ replicate (Z.to_nat (NVOS02_LEN - 48)) 0) = 56) as Hb5
    by (rewrite blen_app, Hb4; done).
  wp_step. eapply wp_mono; [apply wp_osdesc_gpu_fd| |auto]. intros gpu st' [-> Hgpu].
  wp_step. wp_step. unfold NVOS02_FD. apply sat_put32; [lia..|]. intros b6 E6. wp_step.
  split; [|done]. split; unfold NVOS02_PMEM, NVOS02_LIMIT, NVOS02_FD, NVOS02_LEN.
  - rewrite (ed_len _ _ _ _ _ E6). done.
  - intros Hw. apply (ed_wf _ _ _ _ _ E6), wf_bytes_app; [|by apply Forall_replicate].
    by apply (ed_wf _ _ _ _ _ E4), (ed_wf _ _ _ _ _ E3), (ed_wf _ _ _ _ _ E2), (ed_wf _ _ _ _ _ E1).
  - done.
  - intros o l Hol. rewrite (ed_frame _ _ _ _ _ E6), get_range_app_l by lia.
    rewrite (ed_frame _ _ _ _ _ E4), (ed_frame _ _ _ _ _ E3), (ed_frame _ _ _ _ _ E2),
      (ed_frame _ _ _ _ _ E1) by lia. done.
  - unfold get_le. rewrite (ed_frame _ _ _ _ _ E6), get_range_app_l by lia.
    rewrite (ed_frame _ _ _ _ _ E4) by lia. pose proof (ed_get _ _ _ _ _ E3) as Hg.
    rewrite u64_mod in Hg by done. exact Hg.
  - unfold get_le. rewrite (ed_frame _ _ _ _ _ E6), get_range_app_l by lia.
    pose proof (ed_get _ _ _ _ _ E4) as Hg. rewrite u64_mod in Hg by done. exact Hg.
  - rewrite (ed_get _ _ _ _ _ E6). by rewrite wrap32_mod.
Qed.

(** The arena of a request, and what became of the page registrations when it
    was refused. *)
Definition pages_call (c : ArenaCall (M:=M)) (total : GuestLen) : Prop :=
  page_size c = pe_page env /\ is_u64 (gl total).

Definition arena_refused (w w' : World D) : Prop :=
  w' = w \/
  (exists (c : ArenaCall (M:=M)) total e, pages_call c total /\ HostPool.arena w c total = (Err e, w')) \/
  (exists (c : ArenaCall (M:=M)) total a w1, pages_call c total /\
     HostPool.arena w c total = (Ok a, w1) /\ w' = drop_arena w1 a).

Inductive osdesc_result (st : Sess (D:=D)) (sc1 : bytes) :
    Osdesc -> bytes -> bytes -> Sess (D:=D) -> Prop :=
| os_none : gpa_run_count req = 0 -> osdesc_result st sc1 (no_osdesc req) sc1 ax st
| os_kern a limit (c : ArenaCall (M:=M)) tail gpu sc2 w' :
    is_alloc dev (ioctl_nr req) = true -> gpa_run_count req <> 0 -> is_u64 limit ->
    pages_call c {| gl := limit + 1 |} -> HostPool.arena (world st) c {| gl := limit + 1 |} = (Ok a, w') ->
    nvos02_of limit (arena_va env) sc1 sc2 tail gpu ->
    (osdesc_gpu st = Some gpu \/ gpu_open env = Some gpu) ->
    osdesc_result st sc1
      (MkOsdesc (Some a) (Some tail) (Some NV_ESC_RM_ALLOC_MEMORY) (Some gpu) NVOS02_LEN 0) sc2 []
      (set_gpu (Some gpu) (set_world w' st))
| os_user a limit (c : ArenaCall (M:=M)) sc2 w' :
    ioctl_nr req = NV_ESC_RM_ALLOC_MEMORY -> gpa_run_count req <> 0 ->
    pages_call c {| gl := limit + 1 |} -> HostPool.arena (world st) c {| gl := limit + 1 |} = (Ok a, w') ->
    get_u64 sc1 NVOS02_LIMIT = Some limit -> edited 8 sc1 NVOS02_PMEM (arena_va env) sc2 ->
    osdesc_result st sc1 (MkOsdesc (Some a) None None None (inline_len req) 0) sc2 []
      (set_world w' st).

Definition refused_world (st st' : Sess (D:=D)) : Prop :=
  exists w', st' = set_world w' st /\ arena_refused (world st) w'.

Lemma refused_world_refl st : refused_world st st.
Proof. exists (world st). split; [by destruct st|by left]. Qed.

Lemma wp_arena_for_osdesc mm runs total (st : Sess (D:=D)) :
  is_u64 total ->
  wp (arena_for_osdesc env mm runs total)
    (fun a st' => exists (c : ArenaCall (M:=M)) w', pages_call c {| gl := total |} /\
       HostPool.arena (world st) c {| gl := total |} = (Ok a, w') /\ st' = set_world w' st)
    (fun _ st' => refused_world st st') st.
Proof.
  intros Ht. unfold arena_for_osdesc, zoom, wp.
  assert (forall c, page_size c = pe_page env -> pages_call c {| gl := total |}) as Hc by done.
  destruct (HostPool.arena (world st) _ _) as [[a|e|] w'] eqn:Ha; simpl.
  - eexists _, w'. split; [|done]. by apply Hc.
  - exists w'. split; [done|]. right; left. eexists _, _, e. split; [|done]. by apply Hc.
  - by eapply arena_no_panic.
Qed.

Lemma decode_no_panic b n : 0 <= n -> no_panic (decode b n).
Proof.
  intros Hn. unfold decode. destruct (checked_mul64 n GpaRun_WIRE) as [need|] eqn:Hm; [|done].
  destruct (_ <? _) eqn:Hl; [done|]. bools. apply checked_mul64_Some in Hm as [-> _].
  unfold GpaRun_WIRE in Hl.
  destruct (decode_from_total b (Z.to_nat n) 0) as (runs & -> & _); [lia|lia|done].
Qed.

Lemma wp_osdesc_stage sc1 (st : Sess (D:=D)) :
  blen sc1 = inline_len req -> wf_bytes sc1 ->
  wp (osdesc_stage env req dev sc1 ax)
    (fun '(od, (sc2, ax2)) st' => osdesc_result st sc1 od sc2 ax2 st')
    (fun _ st' => refused_world st st') st.
Proof.
  intros Hlen Hw. destruct osdesc_layout as (Hl1 & Hl2 & _). simplify_eq.
  destruct ad_bufs_wf as [_ Hwax]. destruct Henv as [Hva _].
  assert (0 <= gpa_run_count req) as Hpos by (unfold wf_req, is_u32 in Hreq; lia).
  unfold osdesc_stage. apply wp_if; intros Hc.
  { wp_step. rewrite negb_true_iff, andb_false_iff in Hc. apply os_none.
    destruct (decide (gpa_run_count req = 0)) as [|Hn]; [done|].
    destruct (ad_runs Hn) as (Hd & _). rewrite Hd in Hc. destruct Hc as [Hc|Hc]; [done|]. bools. lia. }
  bools. assert (gpa_run_count req <> 0) as Hn by lia.
  destruct (ad_runs Hn) as (Hd & Hcl & Hk). destruct ad_envelope as (Hil & _).
  pose proof (refused_world_refl st) as Hrefl.
  apply wp_if; intros Hc2; [by wp_step|].
  destruct (mem env) as [mm|]; [|by wp_step].
  apply wp_if; intros Hc3; [by wp_step|].
  wp_step. wp_step. apply sat_infallible; [by apply decode_no_panic|]. intros [runs|] _; [|by wp_step].
  destruct (ioctl_nr req =? NV_ESC_RM_ALLOC) eqn:Hkern; cbn [negb andb] in Hc2, Hc3; bools.
  - assert (is_alloc dev (ioctl_nr req) = true) as Ha by (unfold is_alloc; by rewrite Hd, Hkern).
    assert (blen sc1 = 48) as H48.
    { destruct Hk as [[_ ?]|Hk]; [lia|]. exfalso. rewrite Hk in Hkern. by vm_compute in Hkern. }
    wp_step. wp_step. apply sat_u64_of; [lia..|]. intros limit Hlim.
    pose proof (get_u64_bounds _ _ _ Hwax Hlim).
    destruct (checked_add64 limit 1) as [total|] eqn:Ht; [|by wp_step].
    apply checked_add64_Some in Ht as [-> Hu64].
    wp_step. eapply wp_mono; [apply wp_arena_for_osdesc| |auto].
    { pose proof (get_u64_bounds _ _ _ Hwax Hlim). unfold is_u64 in *. lia. }
    intros a st' (c & w' & Hpc & Har & ->). apply wp_on_error.
    assert (refused_world st (dropping (Some a) (set_world w' st))) as Hdrop.
    { exists (drop_arena w' a). split; [done|]. right; right. exists c, {| gl := limit + 1 |}, a, w'. done. }
    wp_step. wp_step. apply sat_put64; [lia..|]. intros a1 E1. pose proof (ed_len _ _ _ _ _ E1).
    wp_step. wp_step. apply sat_put32; [lia..|]. intros a2 E2. pose proof (ed_len _ _ _ _ _ E2).
    wp_step. wp_step. apply sat_put32; [lia..|]. intros a3 E3. pose proof (ed_len _ _ _ _ _ E3).
    wp_step. eapply wp_mono; [eapply (wp_rewrite_nvos64 limit (arena_va env)); try done; try lia| |].
    + rewrite (edited_get _ _ _ _ _ 8 _ E3), (edited_get _ _ _ _ _ 8 _ E2) by lia.
      rewrite (ed_get _ _ _ _ _ E1). by rewrite u64_mod.
    + intros [sc2 [tail gpu]] st' (Hn02 & -> & Hgpu). wp_step. by eapply os_kern.
    + intros e st' ->. done.
  - assert (ioctl_nr req = NV_ESC_RM_ALLOC_MEMORY) as Hnr.
    { destruct Hk as [[Hk _]|Hk]; [|done]. unfold is_alloc in Hk. bools. congruence. }
    assert (blen sc1 = 56) as H56.
    { rewrite Hlen. by eapply ad_frontend; [|exact Hnr|vm_compute]. }
    wp_step. wp_step. apply sat_u64_of; [lia..|]. intros limit Hlim.
    destruct (checked_add64 limit 1) as [total|] eqn:Ht; [|by wp_step].
    apply checked_add64_Some in Ht as [-> Hu64].
    wp_step. eapply wp_mono; [apply wp_arena_for_osdesc| |auto].
    { pose proof (get_u64_bounds _ _ _ Hw Hlim). unfold is_u64 in *. lia. }
    intros a st' (c & w' & Hpc & Har & ->). apply wp_on_error.
    wp_step. wp_step. apply sat_put64; [lia..|]. intros sc2 E1.
    wp_step. by eapply os_user.
Qed.

(** *** (2) The embedded pointer *)
Lemma ad_params_le : 0 <= blen params <= blen ax /\ blen params <= u32_max.
Proof.
  pose proof (ad_accepted _ _ _ _ _ _ _ _ _ _ _ _ Had) as HH.
  pose proof (proj1 (get_range_is_Some aux 0 _) (ex_intro _ _ (acc_params _ _ _ _ _ _ _ _ _ HH))).
  destruct ad_envelope as (_ & Hal & _). rewrite ad_ax_len, <- Hal.
  pose proof (acc_params_u32 _ _ _ _ _ _ _ _ _ HH). lia.
Qed.

Definition embedded_done (sc1 sc2 : bytes) : Prop :=
  (embedded_ptr_off req = NONE_U32 /\ blen params = 0 /\ sc2 = sc1 /\
     embedded_ptr dev (ioctl_nr req) inline (blen inline) = Ok None) \/
  (exists e, embedded_ptr dev (ioctl_nr req) inline (blen inline) = Ok (Some e) /\
     blen params = emb_len e /\ 0 < blen params /\ edited 8 sc1 (emb_ptr_off e) (aux_addr env) sc2).

Lemma sat_point_embedded sc1 :
  blen sc1 = inline_len req ->
  sat (point_embedded env req (no_osdesc req) sc1) (embedded_done sc1) (fun _ => False).
Proof.
  intros Hlen. destruct ad_envelope as (Hil & _).
  pose proof (ad_accepted _ _ _ _ _ _ _ _ _ _ _ _ Had) as HH.
  destruct (check_embedded_Ok _ _ _ _ _ (proj1 (ad_wf _ _ _ _ _ _ _ _ _ _ _ _ Had)) Hil
    (acc_embedded _ _ _ _ _ _ _ _ _ HH)) as [(Hn & Hoff & He)|(e & He & Hn & Hoff & Hpos & _)];
    unfold point_embedded, embedded_done; rewrite Hoff.
  - rewrite Z.eqb_refl. simpl. by left.
  - pose proof (proj2 (embedded_ptr_spec _ _ _ _ _ (proj1 (ad_wf _ _ _ _ _ _ _ _ _ _ _ _ Had))) e He)
      as (_ & Ho & Hend & _).
    assert (emb_ptr_off e <> NONE_U32) as Hne.
    { destruct ad_envelope as (_ & _ & _ & Hf). destruct (ad_lens _ _ _ _ _ _ _ _ _ _ _ _ Had).
      unfold NONE_U32, u32_max, MAX_PAYLOAD in *. lia. }
    rewrite (proj2 (Z.eqb_neq _ _) Hne). simpl.
    apply sat_put64; [lia..|]. intros sc2 E2. right. exists e. split_and!; try done; lia.
Qed.

(** *** (1b) The descriptor inside the parameters *)
Definition aux_fd_done (ax1 : bytes) : Prop :=
  match afd with
  | None => ax1 = ax
  | Some (o, w) => 0 <= o /\ o + w <= blen params /\
      ((aux_fd_field_token req = NONE_U64 /\ ax1 = ax /\ negative_fd params o w) \/
       (aux_fd_field_token req <> NONE_U64 /\ exists f, aux_fd_host env = Some f /\
          ((w = 4 /\ edited 4 ax o (wrap32 f) ax1) \/ (w = 8 /\ edited 8 ax o (wrap64 f) ax1))))
  end.

(** Only the descriptors to poll change. *)
Definition same_but_polls (st st' : Sess (D:=D)) : Prop :=
  exists l, st' = set_polls l st.

Lemma same_but_polls_refl st : same_but_polls st st.
Proof. exists (client_polls st). by destruct st. Qed.

Lemma ad_aux_fd_width o w sc2 :
  afd = Some (o, w) -> (is_control dev (ioctl_nr req) = true ->
    forall v, get_u32 inline 8 = Some v -> get_u32 sc2 8 = Some v) ->
  o <> NONE_U32 /\ aux_fd_field_off req = o /\
  sat (aux_fd_width req dev (no_osdesc req) sc2) (fun x => x = w) (fun _ => False).
Proof.
  intros Hafd Hcmd. pose proof (ad_accepted _ _ _ _ _ _ _ _ _ _ _ _ Had) as HH.
  pose proof (acc_aux_resolved _ _ _ _ _ _ _ _ _ HH) as Hr.
  pose proof (acc_aux_fd _ _ _ _ _ _ _ _ _ HH) as He. rewrite Hafd in Hr, He.
  destruct Hr as (Hoff & Ho0 & Hend & _). pose proof ad_params_le.
  assert (blen ax <= MAX_AUX) by (rewrite ad_ax_len; apply Had).
  pose proof (expected_aux_fd_width _ _ _ _ _ _ He).
  split; [unfold NONE_U32, u32_max, MAX_AUX in *; lia|]. split; [done|].
  unfold expected_aux_fd in He. unfold aux_fd_width. rewrite Hoff. cbn [od_inline_len no_osdesc].
  destruct (is_alloc dev (ioctl_nr req) && negb (blen params =? 0)) eqn:Ha.
  - bools. unfold is_alloc in *. bools.
    match goal with H : ioctl_nr req = _ |- _ => rewrite H end.
    replace (negb (is_uvm dev) && (NV_ESC_RM_ALLOC =? NV_ESC_RM_CONTROL) && _) with false
      by (by rewrite andb_false_r). simpl.
    inv_ok; repeat (case_match; inv_ok); done.
  - destruct (is_control dev (ioctl_nr req) && _) eqn:Hc; [|done]. bools.
    match goal with H : is_control _ _ = true |- _ => rename H into Hctl end.
    specialize (Hcmd Hctl). rewrite (ad_control_len Hctl). unfold is_control in Hctl. rewrite Hctl. simpl.
    unfold u32_at in He. destruct (get_u32 inline 8) as [cmd|] eqn:Hg; [|done]. simpl in He.
    apply sat_bind. unfold u32_of. rewrite (Hcmd cmd eq_refl). simpl.
    destruct (ctrl_fd_offset cmd) as [o'|]; simplify_eq. by rewrite Z.eqb_refl.
Qed.

Lemma wp_translate_aux_fd sc2 (st : Sess (D:=D)) :
  (is_control dev (ioctl_nr req) = true ->
    forall v, get_u32 inline 8 = Some v -> get_u32 sc2 8 = Some v) ->
  wp (translate_aux_fd env req dev (no_osdesc req) sc2 ax)
    (fun ax1 st' => aux_fd_done ax1 /\ same_but_polls st st')
    (fun _ st' => same_but_polls st st') st.
Proof.
  intros Hcmd. pose proof (ad_accepted _ _ _ _ _ _ _ _ _ _ _ _ Had) as HH.
  pose proof (acc_aux_resolved _ _ _ _ _ _ _ _ _ HH) as Hr.
  pose proof (acc_aux_fd _ _ _ _ _ _ _ _ _ HH) as He.
  pose proof (fun o w E => ad_aux_fd_width o w sc2 E Hcmd) as Hsat.
  pose proof ad_params_le. unfold translate_aux_fd, aux_fd_done.
  destruct afd as [[o w]|] eqn:Hafd.
  2: { destruct Hr as (-> & _). rewrite Z.eqb_refl. wp_step. split; [done|apply same_but_polls_refl]. }
  destruct (Hsat o w eq_refl) as (Hne & Hoff & Hw). destruct Hr as (_ & Ho & Hend & Hr).
  rewrite Hoff, (proj2 (Z.eqb_neq _ _) Hne). wp_step. wp_step.
  eapply sat_mono; [exact Hw| |done]. intros x _ ->.
  apply wp_if; intros Hc; [bools; lia|]. apply wp_if; intros Htok; bools.
  { wp_step. split; [|apply same_but_polls_refl]. split_and!; [done..|]. left. naive_solver. }
  destruct (aux_fd_host env) as [f|] eqn:Hf; [|wp_step; apply same_but_polls_refl].
  destruct (expected_aux_fd_width _ _ _ _ _ _ He) as [->| ->]; cbn [Z.eqb Pos.eqb].
  - wp_step. apply sat_put32; [lia..|]. intros ax1 E1. split; [|apply same_but_polls_refl].
    split_and!; [done..|]. right. split; [done|]. exists f. auto.
  - wp_step. wp_step. apply sat_put64; [lia..|]. intros ax1 E1. wp_step. wp_step. wp_step.
    split; [|by eexists]. split_and!; [done..|]. right. split; [done|]. exists f. auto.
Qed.

(** *** (2b) Nested pointers *)
Definition listed : list NestedDesc := take (Z.to_nat (nested_count req)) (nested req).

Definition fb_ok (fb : option (Z * Z)) : Prop :=
  forall off asked, fb = Some (off, asked) -> 0 <= off /\ is_u32 asked /\
    is_control dev (ioctl_nr req) = true /\ get_u32 inline 8 = Some CMD_FB_GET_INFO /\
    exists d, d ∈ listed /\ off = aux_off d.

(** The pointers of [l] after the loop, described or left alone. *)
Record pointed (l : list NestedPtr) (os : list (option NestedDesc)) (ax1 ax2 : bytes) : Prop := {
  pt_len : blen ax2 = blen ax1;
  pt_wf : wf_bytes ax1 -> wf_bytes ax2;
  pt_values : Forall2 (fun spec o => get_u64 ax2 (np_ptr_off spec) =
    match o with
    | Some d => Some (aux_addr env + aux_off d)
    | None => get_u64 ax1 (np_ptr_off spec)
    end) l os;
  pt_frame : forall o n, Forall (fun spec => o + n <= np_ptr_off spec \/ np_ptr_off spec + 8 <= o) l ->
    get_range ax2 o n = get_range ax1 o n;
}.

Definition placed (n : Z) (spec : NestedPtr) (o : option NestedDesc) : Prop :=
  0 <= np_ptr_off spec /\ np_ptr_off spec + 8 <= n /\
  forall d, o = Some d -> ptr_off d = np_ptr_off spec /\ 0 <= aux_off d <= n.

Lemma sat_point_nested cap sc2 ax1 spec d :
  is_control dev (ioctl_nr req) = true -> 12 <= blen sc2 -> get_u32 sc2 8 = get_u32 inline 8 ->
  d ∈ listed -> wf_bytes ax1 -> blen ax1 <= MAX_AUX -> placed (blen ax1) spec (Some d) ->
  sat (point_nested env req dev cap sc2 ax1 d)
    (fun '(ax2, fb) => fb_ok fb /\ edited 8 ax1 (np_ptr_off spec) (aux_addr env + aux_off d) ax2)
    (fun _ => False).
Proof.
  intros Hctl Hsc H8 Hin Hw Hmax (H0p & Hend & Hd). destruct (Hd d eq_refl) as (Hptr & Hoff).
  destruct Henv as (_ & Hpos & Haddr).
  unfold point_nested. apply sat_if; intros Hc; [bools; lia|]. rewrite Hptr.
  replace (wrap64 (aux_addr env + aux_off d)) with (aux_addr env + aux_off d)
    by (symmetry; apply Z.mod_small; unfold u64_max in *; lia).
  wp_step. apply sat_put64; [lia..|]. intros ax2 E2. pose proof (ed_len _ _ _ _ _ E2).
  wp_step. apply sat_if; intros Hi.
  2: { cbn [sat]. split; [|done]. by intros ? ?. }
  wp_step. apply sat_u32_of; [lia..|]. intros cmd Hcmd. cbn [sat]. apply sat_if; intros Hinfo.
  2: { cbn [sat]. split; [|done]. by intros ? ?. }
  wp_step. apply sat_u32_of; [lia..|]. intros asked Hasked. cbn [sat]. split; [|done].
  intros off a [= <- <-]. apply Z.eqb_eq in Hinfo. split_and!; [lia| |done|by rewrite <- H8, Hcmd, Hinfo|eauto].
  eapply get_u32_bounds; [|exact Hasked]. by apply (ed_wf _ _ _ _ _ E2).
Qed.

Lemma sat_point_all cap sc2 : forall l os ax1 fb,
  (l <> [] -> is_control dev (ioctl_nr req) = true /\ 12 <= blen sc2 /\ get_u32 sc2 8 = get_u32 inline 8) ->
  omap (fun o => o) os ⊆ listed ->
  pairwise (fun p q => np_ptr_off p + 8 <= np_ptr_off q) l ->
  wf_bytes ax1 -> blen ax1 <= MAX_AUX -> fb_ok fb ->
  Forall2 (placed (blen ax1)) l os ->
  sat (point_all_nested env req dev cap sc2 ax1 fb (omap (fun o => o) os))
    (fun '(ax2, fb') => fb_ok fb' /\ pointed l os ax1 ax2) (fun _ => False).
Proof.
  induction l as [|spec l IH]; intros os ax1 fb Hc Hlst Hp Hw Hmax Hfb Hpl.
  - apply Forall2_nil_inv_l in Hpl as ->. cbn. split; [done|]. by split.
  - apply Forall2_cons_inv_l in Hpl as (o & os' & Hsp & Hpl & ->). destruct Hp as [Hhd Hp].
    destruct (Hc ltac:(done)) as (Hctl & Hsc & H8). rewrite Forall_forall in Hhd.
    assert (0 <= np_ptr_off spec /\ np_ptr_off spec + 8 <= blen ax1) as [H0p Hend] by (destruct Hsp as (? & ? & _); done).
    destruct o as [d|]; cbn [omap list_omap].
    + cbn [omap list_omap] in Hlst. assert (d ∈ listed /\ omap (fun o => o) os' ⊆ listed) as [Hd0 Hlst'] by set_solver.
      cbn [point_all_nested]. wp_step.
      eapply sat_mono; [apply (sat_point_nested cap sc2 ax1 spec d); done| |done].
      intros [ax' fb'] _ [Hfb' E]. pose proof (ed_len _ _ _ _ _ E) as Hl.
      eapply sat_mono; [apply (IH os' ax')| |done]; try done; [by apply (ed_wf _ _ _ _ _ E)|by rewrite Hl| |by rewrite Hl|].
      { intros off asked. destruct fb'; [by apply Hfb'|by apply Hfb]. }
      intros [ax2 fb2] _ [Hfb2 [Hlen Hwf Hv Hfr]]. split; [done|]. split.
      * lia.
      * intros ?. by apply Hwf, (ed_wf _ _ _ _ _ E).
      * constructor.
        -- unfold get_le. rewrite Hfr by (apply Forall_forall; intros q Hq; specialize (Hhd q Hq); lia).
           pose proof (ed_get _ _ _ _ _ E) as Hg. unfold get_le in Hg. rewrite Hg, u64_mod; [done|].
           destruct Henv as (_ & ? & ?). destruct Hsp as (_ & _ & Hd). destruct (Hd d eq_refl). unfold is_u64. lia.
        -- eapply Forall2_mono_l; [exact Hv|]. intros q oq Hq Hval. rewrite Hval. destruct oq; [done|].
           apply (edited_get _ _ _ _ _ 8 _ E). right. by apply Hhd.
      * intros o n [Ho Hos]%Forall_cons. rewrite Hfr by done. by apply (ed_frame _ _ _ _ _ E).
    + eapply sat_mono; [apply (IH os' ax1 fb)| |done]; try done.
      intros [ax2 fb2] _ [Hfb2 [Hlen Hwf Hv Hfr]]. split; [done|]. split; try done.
      * constructor; [|done]. unfold get_le.
        rewrite Hfr; [done|]. apply Forall_forall. intros q Hq. specialize (Hhd q Hq). lia.
      * intros o n [Ho Hos]%Forall_cons. by apply Hfr.
Qed.

(** A nested pointer the driver will follow stays inside the aux buffer for
    the length it computes from the parameters it is given. *)
Definition nested_contained (n : Z) (ax2 : bytes) (spec : NestedPtr) : Prop :=
  exists p len, get_u64 ax2 (np_ptr_off spec) = Some p /\
    resolve (np_len spec) ax2 n = Ok (Some len) /\
    (p = 0 \/ (aux_addr env <= p /\ p + len <= aux_addr env + blen ax2)).

Lemma resolve_ext l (b b' : bytes) n :
  (forall off elem, l = LenField off elem -> off + 4 <= n -> get_u32 b off = get_u32 b' off) ->
  resolve l b n = resolve l b' n.
Proof.
  intros Hx. destruct l as [|off elem]; [done|]. simpl.
  destruct (checked_add32 off 4) as [e|] eqn:He; [|done].
  assert (e = off + 4) as -> by (unfold checked_add32 in He; by case_match; simplify_eq).
  destruct (n <? off + 4) eqn:Hn; [done|]. bools. by rewrite (Hx off elem eq_refl).
Qed.

(** The descriptor of each nested pointer, and the control they belong to. *)
Lemma ad_nested : exists os, Forall2 (spec_met params (zero_aux s)) specs os /\
  ds = omap (fun o => o) os /\ announced req = Ok ds /\
  (specs <> [] -> is_control dev (ioctl_nr req) = true /\ afd = None /\
     exists cmd, get_u32 inline 8 = Some cmd /\ specs = nested_ptrs cmd).
Proof.
  pose proof (ad_accepted _ _ _ _ _ _ _ _ _ _ _ _ Had) as HH.
  pose proof (acc_nested _ _ _ _ _ _ _ _ _ HH) as HF.
  destruct (nf_met _ _ _ _ _ _ _ _ HF) as (os & Hds & Hos). exists os. split; [done|]. split; [done|].
  pose proof (acc_count _ _ _ _ _ _ _ _ _ HH) as Hc.
  pose proof (acc_count_max _ _ _ _ _ _ _ _ _ HH) as Hm. split.
  { unfold announced. rewrite (proj2 (Z.ltb_ge _ _)) by lia. f_equal. symmetry.
    by apply (nested_facts_descriptors _ _ _ _ _ _ HF). }
  pose proof (acc_specs _ _ _ _ _ _ _ _ _ HH) as Hs. unfold nested_specs in Hs.
  destruct (is_control dev (ioctl_nr req) && _) eqn:Hctl; [|by simplify_eq]. bools.
  unfold u32_at in Hs. destruct (get_u32 inline 8) as [cmd|] eqn:Hcmd; [|done]. simpl in Hs. simplify_eq.
  intros Hne. split; [done|]. split; [|by eauto].
  pose proof (acc_aux_fd _ _ _ _ _ _ _ _ _ HH) as He. unfold expected_aux_fd, u32_at in He.
  assert (is_alloc dev (ioctl_nr req) = false) as Ha.
  { unfold is_control, is_alloc in *. bools. rewrite andb_false_iff, Z.eqb_neq. right.
    match goal with H : ioctl_nr req = _ |- _ => rewrite H end. done. }
  rewrite Ha, Hcmd in He. cbn [andb] in He; outcome_simpl He. destruct (is_control _ _ && _) in He; [|by simplify_eq].
  destruct (ctrl_fd_offset cmd) eqn:Hf; [|by simplify_eq]. destruct Hne. apply nested_ptrs_special. eauto.
Qed.

Lemma ad_spec_zero spec :
  spec_met params (zero_aux s) spec None -> get_u64 ax (np_ptr_off spec) = Some 0.
Proof.
  intros (p & len & Hp & _ & Hz). destruct Had as [_ _ _ _ _ [_ Hwa] _ _ Hacc Hcl].
  destruct Hz as [->|Hz].
  - pose proof (get_le_prefix _ _ _ _ _ _ (acc_params _ _ _ _ _ _ _ _ _ Hacc) Hp) as Hpa.
    pose proof (proj1 (get_le_is_Some _ _ _) (ex_intro _ _ Hpa)) as [? ?].
    apply (cl_null _ _ _ _ _ Hcl); [done|lia|done].
  - pose proof (cl_zeros _ _ _ _ _ Hcl) as Hzs. rewrite Forall_forall in Hzs. by apply Hzs.
Qed.

Lemma ad_placed spec o :
  (forall d, o = Some d -> d ∈ ds) -> spec_met params (zero_aux s) spec o ->
  placed (blen ax) spec o.
Proof.
  intros Hin (p & len & Hp & _ & Ho). pose proof ad_params_le.
  pose proof (proj1 (get_le_is_Some _ _ _) (ex_intro _ _ Hp)) as [? ?]. split; [done|]. split; [lia|].
  intros d ->. split; [apply Ho|]. destruct ad_envelope as (_ & Hal & _).
  pose proof (ad_accepted _ _ _ _ _ _ _ _ _ _ _ _ Had) as HH.
  pose proof (nf_inside _ _ _ _ _ _ _ _ (acc_nested _ _ _ _ _ _ _ _ _ HH)) as Hi.
  rewrite Forall_forall in Hi. destruct (Hi d (Hin d eq_refl)) as [? ?].
  rewrite ad_ax_len, <- Hal. lia.
Qed.

Lemma ad_count_kept cmd spec off elem :
  get_u32 inline 8 = Some cmd -> specs = nested_ptrs cmd -> spec ∈ specs ->
  np_len spec = LenField off elem -> off + 4 <= blen params ->
  get_u32 ax off = get_u32 params off.
Proof.
  intros Hcmd Hs Hin Hl Hend. destruct Had as [_ _ _ _ _ _ _ _ Hacc Hcl].
  pose proof (acc_specs _ _ _ _ _ _ _ _ _ Hacc) as Hspecs.
  pose proof (nested_specs_wf _ _ _ _ _ Hspecs) as Hwf. rewrite Forall_forall in Hwf.
  destruct (Hwf spec Hin) as [_ Hwl]. rewrite Hl in Hwl.
  assert (0 <= off) by (destruct Hwl as [[? ?] ?]; done).
  destruct (proj2 (get_le_is_Some 4 params off)) as [v Hv]; [lia|]. rewrite Hv.
  rewrite <- (get_le_prefix _ _ _ _ _ _ (acc_params _ _ _ _ _ _ _ _ _ Hacc) Hv).
  unfold get_le. f_equal. apply (cl_aux _ _ _ _ _ Hcl).
  eapply Forall_impl; [exact (nf_zeros_specs _ _ _ _ _ _ _ _ (acc_nested _ _ _ _ _ _ _ _ _ Hacc))|].
  intros z (q & -> & Hq)%list_elem_of_fmap. left. rewrite Hs in Hin, Hq.
  exact (proj2 (nested_ptrs_layout cmd) spec q off elem Hin Hq Hl).
Qed.

Lemma sat_nested cap sc2 ax1 :
  aux_fd_done ax1 -> wf_bytes ax1 -> blen ax1 = blen ax -> blen sc2 = inline_len req ->
  (is_control dev (ioctl_nr req) = true -> get_u32 sc2 8 = get_u32 inline 8) ->
  sat (point_all_nested env req dev cap sc2 ax1 None ds)
    (fun '(ax2, fb) => fb_ok fb /\ blen ax2 = blen ax /\ wf_bytes ax2 /\
       (specs = [] -> ax2 = ax1) /\ Forall (nested_contained (blen params) ax2) specs) (fun _ => False).
Proof.
  intros Hfd Hw Hlen Hsc H8. destruct ad_nested as (os & Hos & Hds & _ & Hctl).
  pose proof (ad_accepted _ _ _ _ _ _ _ _ _ _ _ _ Had) as HH.
  assert (blen ax <= MAX_AUX) as Hmax by (rewrite ad_ax_len; apply Had).
  destruct (decide (specs = [])) as [Hs|Hs].
  { rewrite Hs in Hos. apply Forall2_nil_inv_l in Hos as ->. rewrite Hds. cbn.
    split; [by intros ? ?|]. split_and!; try done. rewrite Hs. constructor. }
  destruct (Hctl Hs) as (Hc & Hafd & cmd & Hcmd & Hspecs).
  assert (ax1 = ax) as -> by (unfold aux_fd_done in Hfd; by rewrite Hafd in Hfd).
  assert (Forall2 (placed (blen ax)) specs os) as Hpl.
  { assert (Forall (fun o => forall d, o = Some d -> d ∈ ds) os) as Hin.
    { rewrite Hds. apply Forall_forall. intros o Ho d ->. apply list_elem_of_omap. by exists (Some d). }
    apply Forall2_same_length_lookup. split; [by eapply Forall2_length|]. intros i spec o Hi Hj.
    rewrite Forall_forall in Hin. apply ad_placed; [by apply Hin, list_elem_of_lookup_2 with i|].
    by eapply (Forall2_lookup_lr (spec_met params (zero_aux s))). }
  rewrite Hds. eapply sat_mono; [apply (sat_point_all cap sc2 specs os ax None)| |done].
  - intros _. split; [done|]. split; [rewrite Hsc, (ad_control_len Hc); lia|]. by apply H8.
  - rewrite <- Hds, (nested_facts_descriptors _ _ _ _ _ _ (acc_nested _ _ _ _ _ _ _ _ _ HH)
      (acc_count _ _ _ _ _ _ _ _ _ HH)). done.
  - rewrite Hspecs. apply nested_ptrs_layout.
  - done.
  - done.
  - by intros ? ?.
  - done.
  - intros [ax2 fb] _ [Hfb [Hl Hwf Hv Hfr]]. split_and!; try done; [by apply Hwf|].
    apply Forall_forall. intros spec Hin. pose proof Hin as (i & Hi)%list_elem_of_lookup.
    destruct (Forall2_lookup_l _ _ _ _ _ Hos Hi) as (o & Ho & Hmet).
    pose proof (Forall2_lookup_lr _ _ _ _ _ _ Hv Hi Ho) as Hval. cbv beta in Hval.
    pose proof Hmet as (p & len & Hp & Hres & Hcase).
    assert (resolve (np_len spec) ax2 (blen params) = Ok (Some len)) as Hres2.
    { rewrite <- Hres. apply resolve_ext. intros off elem Hle Hend.
      rewrite <- (ad_count_kept cmd spec off elem); try done. unfold get_le. f_equal. apply Hfr.
      apply Forall_forall. intros q Hq. left. rewrite Hspecs in Hin, Hq.
      exact (proj2 (nested_ptrs_layout cmd) spec q off elem Hin Hq Hle). }
    destruct o as [d|].
    + eexists _, _. split; [exact Hval|]. split; [exact Hres2|]. right.
      assert (d ∈ ds) as Hd by (rewrite Hds; apply list_elem_of_omap; exists (Some d);
        split; [by eapply list_elem_of_lookup_2|done]).
      pose proof (nf_inside _ _ _ _ _ _ _ _ (acc_nested _ _ _ _ _ _ _ _ _ HH)) as Hi2.
      rewrite Forall_forall in Hi2. destruct (Hi2 d Hd) as [? ?]. destruct ad_envelope as (_ & Hal & _).
      pose proof ad_params_le. rewrite Hl, ad_ax_len, <- Hal. destruct Hcase as [_ ?]. lia.
    + eexists _, _. split; [rewrite Hval; by apply ad_spec_zero|]. split; [exact Hres2|]. by left.
Qed.

(** *** (3) The number of the call *)
Definition request_of (od : Osdesc) : Z :=
  if is_uvm dev then ioctl_nr req
  else Ioc.iowr_raw (default (ioctl_nr req) (od_nr od)) (od_inline_len od).

Lemma sat_encode od :
  (is_uvm dev = false -> od_inline_len od < 16384) ->
  sat (encode_request req dev od) (fun r => r = request_of od) (fun _ => False).
Proof.
  intros Hl. unfold encode_request, request_of. destruct (is_uvm dev); [done|].
  apply sat_if; intros Hc; [|done]. bools. change (Z.shiftl 1 14 - 1) with 16383 in Hc.
  specialize (Hl eq_refl). lia.
Qed.

(** *** (1a') Events *)
Lemma take_event_id_no_panic b : (take_event_id b).1 <> Panic.
Proof. unfold take_event_id. by destruct (_ <=? _). Qed.

Lemma alloc_os_event_id_no_panic b c o k : (alloc_os_event_id b c o k).1 <> Panic.
Proof.
  unfold alloc_os_event_id. pose proof (take_event_id_no_panic b).
  destruct (take_event_id b) as [[] b1]; simpl in *; [|done|done].
  destruct (event_ctls b1 !! c); [by destruct k|]. destruct o; [by destruct k|done].
Qed.

Lemma register_prepare_no_panic b c t kc tok o k : (register_prepare b c t kc tok o k).1 <> Panic.
Proof.
  unfold register_prepare, take_waiter_generation. destruct (checked_add64 _ _); [|done].
  unfold waiter_slot_get. destruct (pool_pop _ _) as [[? ?]|]; [done|].
  match goal with |- context [take_event_id ?x] => pose proof (take_event_id_no_panic x);
    destruct (take_event_id x) as [[] ?] end; simpl in *; [|done|done].
  destruct o; [by destruct k|done].
Qed.

(** An event allocation after the substitution. *)
Record event_taken (r : EventReg) (sc3 ax3 sc4 ax4 : bytes) : Prop := {
  et_alloc : is_alloc dev (ioctl_nr req) = true;
  et_class : (class r = NV01_EVENT_KERNEL_CALLBACK \/ class r = NV01_EVENT_KERNEL_CALLBACK_EX) /\
    get_u32 sc3 12 = Some (class r);
  et_client : get_u32 sc3 0 = Some (er_client r);
  et_saved : get_u64 ax3 NV0005_DATA = Some (guest_data r) /\
    get_u32 ax3 NV0005_NOTIFYINDEX = Some (notify_index r);
  et_token : er_token r = target_token req;
  et_sc : edited 4 sc3 12 NV01_EVENT_OS_EVENT sc4;
  et_ax_len : blen ax4 = blen ax3 /\ 24 <= blen ax3;
  et_ax_wf : wf_bytes ax3 -> wf_bytes ax4;
  et_ax_class : get_u32 ax4 NV0005_HCLASS = Some NV01_EVENT_OS_EVENT;
  et_ax_data : get_u64 ax4 NV0005_DATA = Some (er_id r mod 256 ^ Z.of_nat 8);
}.

Definition event_done ev sc3 ax3 sc4 ax4 (st st' : Sess (D:=D)) : Prop :=
  (ev = None /\ sc4 = sc3 /\ ax4 = ax3 /\ st' = st) \/
  (exists r b, ev = Some r /\ event_taken r sc3 ax3 sc4 ax4 /\ st' = set_evb b st /\
     alloc_os_event_id (evb st) (er_client r) (ctl_open env) (ctl_bound env) = (Ok (er_id r), b)).

(** What became of the event books when a request was refused. *)
Definition events_refused (st st' : Sess (D:=D)) : Prop :=
  st' = st \/
  (exists b c e, st' = set_evb b st /\
     alloc_os_event_id (evb st) c (ctl_open env) (ctl_bound env) = (Err e, b)) \/
  (exists b c t kc e, st' = set_evb b st /\
     register_prepare (evb st) c t kc (target_token req) (ctl_open env) (ctl_bound env)
       = (Err e, b)).

Lemma wp_substitute_event sc3 ax3 (st : Sess (D:=D)) :
  blen sc3 = inline_len req ->
  wp (substitute_event env req dev (no_osdesc req) sc3 ax3)
    (fun '(ev, (sc4, ax4)) st' => event_done ev sc3 ax3 sc4 ax4 st st')
    (fun _ st' => events_refused st st') st.
Proof.
  intros Hlen. destruct osdesc_layout as (_ & _ & _ & Hl & Hsz). simplify_eq.
  unfold substitute_event, event_done. cbn [od_inline_len no_osdesc]. rewrite Hsz.
  apply wp_if; intros Hc; [|wp_step; by left]. bools.
  assert (is_alloc dev (ioctl_nr req) = true) as Ha
    by (unfold is_alloc; by apply andb_true_iff; rewrite negb_true_iff, Z.eqb_eq).
  wp_step. wp_step. apply sat_u32_of; [lia..|]. intros hclass Hcl.
  apply wp_if; intros Hk; [|wp_step; by left].
  wp_step. wp_step. apply sat_u32_of; [lia..|]. intros h_client Hcli.
  wp_step. wp_step. apply sat_u64_of; [lia..|]. intros gd Hgd.
  wp_step. wp_step. apply sat_u32_of; [lia..|]. intros ni Hni.
  wp_step. unfold zoom, wp at 1.
  pose proof (alloc_os_event_id_no_panic (evb st) h_client (ctl_open env) (ctl_bound env)) as Hnp.
  destruct (alloc_os_event_id (evb st) h_client _ _) as [[id|e|] b] eqn:Hal; cbn [sat fst snd] in *;
    [|by right; left; eauto|done].
  wp_step. wp_step. apply sat_put32; [lia..|]. intros a1 E1. pose proof (ed_len _ _ _ _ _ E1).
  wp_step. wp_step. apply sat_put64; [lia..|]. intros a2 E2. pose proof (ed_len _ _ _ _ _ E2).
  wp_step. wp_step. apply sat_put32; [lia..|]. intros sc4 E3. wp_step. right.
  eexists _, b. split; [done|]. split; [|by split].
  split; simpl; try done; try (split; [|done]); try lia.
  - intros Hw. by apply (ed_wf _ _ _ _ _ E2), (ed_wf _ _ _ _ _ E1).
  - rewrite (edited_get _ _ _ _ _ 4 _ E2) by lia. rewrite (ed_get _ _ _ _ _ E1). done.
  - by rewrite (ed_get _ _ _ _ _ E2).
Qed.

(** *** (1a''') Waiters *)
Definition waiter_done wreg wunreg sc4 ax4 ax5 (st st' : Sess (D:=D)) : Prop :=
  blen ax5 = blen ax4 /\ (wf_bytes ax4 -> wf_bytes ax5) /\
  ((wreg = None /\ wunreg = None /\ ax5 = ax4 /\ st' = st) \/
   (is_control dev (ioctl_nr req) = true /\
    (exists cmd, get_u32 sc4 8 = Some cmd /\ nested_ptrs cmd = [] /\ ctrl_fd_offset cmd = None) /\
    ((exists p b, wreg = Some p /\ wunreg = None /\ st' = set_evb b st /\
        get_u32 sc4 0 = Some (pw_client p) /\ u32_max < pw_kc p /\
        get_u64 ax5 24 = Some (slot_id (pw_slot p) mod 256 ^ Z.of_nat 8) /\
        register_prepare (evb st) (pw_client p) (pw_target p) (pw_kc p) (target_token req)
          (ctl_open env) (ctl_bound env) = (Ok p, b)) \/
     (exists id c kc t, wreg = None /\ wunreg = Some id /\ st' = st /\
        unregister_find (evb st) c kc t = Some id)))).

Lemma wp_substitute_waiter od sc4 ax4 (st : Sess (D:=D)) :
  od_inline_len od = blen sc4 ->
  wp (substitute_waiter env req dev od sc4 ax4)
    (fun '(wreg, wunreg, ax5) st' => waiter_done wreg wunreg sc4 ax4 ax5 st st')
    (fun _ st' => is_control dev (ioctl_nr req) = true /\ events_refused st st') st.
Proof.
  intros Hod. unfold substitute_waiter, waiter_done. rewrite Hod.
  apply wp_if; intros Hc; [|wp_step; split_and!; auto]. bools.
  assert (is_control dev (ioctl_nr req) = true) as Hctl
    by (unfold is_control; by apply andb_true_iff; rewrite negb_true_iff, Z.eqb_eq).
  wp_step. wp_step. apply sat_u32_of; [lia..|]. intros cmd Hcmd.
  apply wp_if; intros Hreg.
  - bools. wp_step. wp_step. apply sat_u64_of; [lia..|]. intros kc Hkc.
    apply wp_if; intros Hbig; [|wp_step; split_and!; auto]. bools.
    wp_step. wp_step. apply sat_u32_of; [lia..|]. intros h_client Hcli.
    wp_step. wp_step. unfold from_params.
    wp_step. apply sat_u32_of; [lia..|]. intros sf _. wp_step. apply sat_u64_of; [lia..|]. intros ix _.
    wp_step. apply sat_u64_of; [lia..|]. intros wv _. cbn [sat].
    wp_step. unfold zoom, wp at 1.
    pose proof (register_prepare_no_panic (evb st) h_client (MkTarget sf ix wv) kc (target_token req)
      (ctl_open env) (ctl_bound env)) as Hnp.
    destruct (register_prepare (evb st) h_client _ _ _ _ _) as [[p|e|] b] eqn:Hrp; cbn [sat fst snd] in *;
      [| |done].
    2: { split; [done|]. right; right. exists b, h_client, (MkTarget sf ix wv), kc, e. done. }
    assert (pw_client p = h_client /\ pw_target p = MkTarget sf ix wv /\ pw_kc p = kc) as (Hp1 & Hp2 & Hp3).
    { revert Hrp. unfold register_prepare. destruct (take_waiter_generation _) as [[] ?]; try done.
      destruct (waiter_slot_get _ _ _ _) as [[] ?]; try done. intros [= <- <-]. done. }
    wp_step. wp_step. apply sat_put64; [lia..|]. intros ax5 E5. wp_step.
    split; [apply (ed_len _ _ _ _ _ E5)|]. split; [apply (ed_wf _ _ _ _ _ E5)|]. right.
    split; [done|]. split; [exists cmd; split; [done|]; subst cmd; by vm_compute|].
    left. exists p, b. rewrite Hp1, Hp2, Hp3. split_and!; try done. by rewrite (ed_get _ _ _ _ _ E5).
  - apply wp_if; intros Hun; [|wp_step; split_and!; auto]. bools.
    wp_step. wp_step. apply sat_u64_of; [lia..|]. intros kc Hkc.
    apply wp_if; intros Hbig; [|wp_step; split_and!; auto].
    wp_step. wp_step. apply sat_u32_of; [lia..|]. intros h_client Hcli.
    wp_step. wp_step. unfold from_params.
    wp_step. apply sat_u32_of; [lia..|]. intros sf _. wp_step. apply sat_u64_of; [lia..|]. intros ix _.
    wp_step. apply sat_u64_of; [lia..|]. intros wv _. cbn [sat].
    wp_step. wp_step. destruct (unregister_find _ _ _ _) as [id|] eqn:Hf; [|wp_step; split_and!; auto].
    wp_step. wp_step. apply sat_put64; [lia..|]. intros ax5 E5. wp_step.
    split; [apply (ed_len _ _ _ _ _ E5)|]. split; [apply (ed_wf _ _ _ _ _ E5)|]. right.
    split; [done|]. split; [exists cmd; split; [done|]; subst cmd; by vm_compute|].
    right. eauto 10.
Qed.

(** *** (2e) Video memory *)
Lemma sat_request_bytes hc (b : bytes) :
  wf_bytes b ->
  sat (request_bytes hc b) (fun o => forall n, o = Some n -> 0 < n <= u64_max) (fun _ => True).
Proof.
  intros Hb. unfold request_bytes. apply sat_if; intros Hc; [done|]. bools.
  unfold P_LEN in *. apply sat_if; intros _; [done|].
  wp_step. apply sat_get; unfold P_FLAGS; [lia..|]. intros fl _. apply sat_if; intros _; [done|].
  wp_step. apply sat_get; unfold P_ATTR; [lia..|]. intros at' _. apply sat_if; intros _; [done|].
  wp_step. apply sat_get; unfold P_SIZE; [lia..|]. intros sz Hsz. cbn [sat].
  pose proof (get_u64_bounds _ _ _ Hb Hsz) as [? ?]. intros n. destruct (0 <? sz) eqn:?; [|done].
  intros [= <-]. bools. lia.
Qed.

Lemma of_alloc_no_panic d hc (b : bytes) : no_panic (of_alloc d hc b).
Proof.
  unfold of_alloc. destruct (_ || _) eqn:Hc; [done|]. bools. unfold P_LEN, rd32, rd64 in *.
  destruct (proj2 (get_le_is_Some 4 b P_FLAGS)) as [? ->]; [unfold P_FLAGS; lia|].
  destruct (proj2 (get_le_is_Some 4 b P_ATTR)) as [? ->]; [unfold P_ATTR; lia|].
  destruct (proj2 (get_le_is_Some 8 b P_SIZE)) as [? ->]; [unfold P_SIZE; lia|]. done.
Qed.

Lemma vidheap_function_spec (b : bytes) :
  (blen b < V_LEN /\ vidheap_function b = Ok None) \/
  (V_LEN <= blen b /\ exists f, vidheap_function b = Ok (Some f)).
Proof.
  unfold vidheap_function. destruct (V_LEN <=? blen b) eqn:Hl; bools; [right|left; auto].
  split; [done|]. unfold rd32. destruct (proj2 (get_le_is_Some 4 b V_FUNCTION)) as [f ->]; [|by exists f].
  unfold V_FUNCTION, V_LEN in *. lia.
Qed.

Lemma sat_vidheap_request_bytes (b : bytes) :
  wf_bytes b ->
  sat (vidheap_request_bytes b)
    (fun o => forall n, o = Some n -> 0 < n <= u64_max /\ V_LEN <= blen b) (fun _ => True).
Proof.
  intros Hb. unfold vidheap_request_bytes.
  destruct (vidheap_function_spec b) as [[_ Hf]|[Hl [f Hf]]];
    rewrite Hf; cbn [mbind outcome_bind]; [done|].
  assert (V_LEN = 184) as H184 by done.
  apply sat_if; intros _; [done|].
  wp_step. apply sat_get; unfold VA_FLAGS, V_DATA; [lia..|]. intros fl _. apply sat_if; intros _; [done|].
  wp_step. apply sat_get; unfold VA_ATTR, V_DATA; [lia..|]. intros at' _. apply sat_if; intros _; [done|].
  wp_step. apply sat_get; unfold VA_SIZE, V_DATA; [lia..|]. intros sz Hsz. cbn [sat].
  pose proof (get_u64_bounds _ _ _ Hb Hsz) as [? ?]. intros n. destruct (0 <? sz) eqn:?; [|done].
  intros [= <-]. bools. lia.
Qed.

Lemma of_vidheap_no_panic (b : bytes) : no_panic (of_vidheap b).
Proof.
  unfold of_vidheap. destruct (vidheap_function_spec b) as [[_ Hf]|[Hl [f Hf]]];
    rewrite Hf; cbn [mbind outcome_bind]; [done|].
  assert (V_LEN = 184) as H184 by done. apply no_panic_if; intros _; [done|]. unfold rd32, rd64.
  repeat (apply no_panic_bind; [apply or_panic_get; unfold VA_FLAGS, VA_ATTR, VA_SIZE, V_DATA; lia|
    intros ? _]). done.
Qed.

(** What the two reservation stages decide together. *)
Definition asked_bytes (sc ax : bytes) : may_panic (option Z) :=
  if is_alloc dev (ioctl_nr req) then
    match alloc_status_off (blen sc) with
    | None => Ok None
    | Some _ => c ← rd32 sc 12; request_bytes c ax
    end
  else if negb (is_uvm dev) && (ioctl_nr req =? NV_ESC_RM_VID_HEAP_CONTROL)
  then vidheap_request_bytes sc else Ok None.

Inductive vram_planned (sc ax : bytes) (st : Sess (D:=D)) : VramPlan -> Sess (D:=D) -> Prop :=
| vp_nothing : asked_bytes sc ax = Ok None -> vram_planned sc ax st no_vram st
| vp_asked n ok l off ask vh :
    0 < n <= u64_max -> Vram.reserve (s_ledger st) n = (ok, l) -> is_uvm dev = false ->
    0 <= off -> off + 4 <= blen sc -> 12 <= blen sc ->
    (vh = true -> V_LEN <= blen sc /\ ioctl_nr req = NV_ESC_RM_VID_HEAP_CONTROL /\ off = V_STATUS_OFF) ->
    (vh = false -> is_alloc dev (ioctl_nr req) = true) ->
    asked_bytes sc ax = Ok (Some n) -> (vh = false -> alloc_status_off (blen sc) = Some off) ->
    vram_planned sc ax st (MkVramPlan (if ok : bool then n else 0) (negb ok) off ask vh)
      (set_vram l (vbooks st) st).

Lemma wp_reserve_bytes n (st : Sess (D:=D)) :
  wp (reserve_bytes (D:=D) n)
    (fun ok st' => exists l, Vram.reserve (s_ledger st) n = (ok, l) /\ st' = set_vram l (vbooks st) st)
    (fun _ _ => False) st.
Proof. unfold reserve_bytes, zoom, wp. destruct (Vram.reserve (s_ledger st) n). cbn. eauto. Qed.

Lemma wp_reserve od sc5 ax5 (st : Sess (D:=D)) :
  blen sc5 = od_inline_len od -> wf_bytes sc5 -> wf_bytes ax5 ->
  wp (vp ← reserve_alloc req dev od sc5 ax5; reserve_vidheap req dev od sc5 vp)
    (vram_planned sc5 ax5 st) (fun _ _ => False) st.
Proof.
  intros Hlen Hws Hwa. wp_step. unfold reserve_alloc. rewrite <- Hlen.
  fold (is_alloc dev (ioctl_nr req)). destruct (is_alloc dev (ioctl_nr req)) eqn:Ha.
  - assert (forall vp st', vram_planned sc5 ax5 st vp st' ->
      wp (reserve_vidheap req dev od sc5 vp) (vram_planned sc5 ax5 st) (fun _ _ => False) st') as Hvh.
    { intros vp st' Hp. unfold reserve_vidheap. pose proof Ha as Hnr. unfold is_alloc in Hnr. bools.
      match goal with H : ioctl_nr req = _ |- _ => rewrite H end. rewrite andb_false_r. by wp_step. }
    assert (is_uvm dev = false) as Hd by (unfold is_alloc in Ha; by bools).
    destruct (alloc_status_off (blen sc5)) as [off|] eqn:Hoff.
    2: { wp_step. apply Hvh. constructor. unfold asked_bytes. by rewrite Ha, Hoff. }
    assert (32 <= blen sc5 /\ (off = 40 /\ 48 <= blen sc5 \/ off = 28)) as [H32 Ho].
    { revert Hoff. unfold alloc_status_off. destruct (48 <=? _) eqn:?; [intros [= <-]; bools; lia|].
      destruct (_ =? 32) eqn:?; [intros [= <-]; bools; lia|done]. }
    wp_step. wp_step. apply sat_u32_of; [lia..|]. intros hc Hhc.
    assert (asked_bytes sc5 ax5 = request_bytes hc ax5) as Hask
      by (unfold asked_bytes, rd32; by rewrite Ha, Hoff, Hhc).
    wp_step. wp_step. pose proof (sat_request_bytes hc ax5 Hwa) as Hrb.
    apply sat_infallible; [by destruct (request_bytes hc ax5)|]. intros o Hro. rewrite Hro in Hrb. cbn [sat] in Hrb.
    rewrite Hro in Hask. destruct o as [n|]; [|wp_step; apply Hvh; by constructor].
    wp_step. wp_step. apply sat_infallible; [apply of_alloc_no_panic|]. intros ask _.
    wp_step. eapply wp_mono; [apply wp_reserve_bytes| |done]. intros ok st' (l & Hl & ->).
    wp_step. apply Hvh. econstructor; try done; try lia. by apply Hrb.
  - wp_step. unfold reserve_vidheap. rewrite <- Hlen.
    apply wp_if; intros Hv; [|wp_step; constructor; unfold asked_bytes; by rewrite Ha, Hv].
    assert (asked_bytes sc5 ax5 = vidheap_request_bytes sc5) as Hask by (unfold asked_bytes; by rewrite Ha, Hv). bools.
    wp_step. wp_step. apply (sat_or_panic _ sc5 _ _ (get_range_all sc5)).
    wp_step. wp_step. pose proof (sat_vidheap_request_bytes sc5 Hws) as Hrb.
    apply sat_infallible; [by destruct (vidheap_request_bytes sc5)|]. intros o Hro. rewrite Hro in Hrb. cbn [sat] in Hrb.
    rewrite Hro in Hask. destruct o as [n|]; [|wp_step; by constructor]. destruct (Hrb n eq_refl) as [Hn Hvl].
    assert (V_LEN = 184) as H184 by done.
    wp_step. wp_step. apply sat_infallible; [apply of_vidheap_no_panic|]. intros ask _.
    wp_step. eapply wp_mono; [apply wp_reserve_bytes| |done]. intros ok st' (l & Hl & ->).
    wp_step. cbn [vp_reserved vp_full no_vram orb].
    econstructor; try done; unfold V_STATUS_OFF; lia.
Qed.

(** *** What the driver is given *)

(** The fields of the inline block that decide where pointers are. *)
Lemma ad_key_fields sc1 sc2 n o :
  fd_translated sc1 -> embedded_done sc1 sc2 ->
  ioctl_nr req ∈ [NV_ESC_RM_CONTROL; NV_ESC_RM_ALLOC; NV_ESC_RM_GET_EVENT_DATA] ->
  is_uvm dev = false ->
  (forall e, embedded_ptr dev (ioctl_nr req) inline (blen inline) = Ok (Some e) ->
     o + Z.of_nat n <= emb_ptr_off e \/ emb_ptr_off e + 8 <= o) ->
  get_le n sc2 o = get_le n sc o.
Proof.
  intros Hfd He Hnr Hd Hsep.
  assert (sc1 = sc) as ->.
  { unfold fd_translated in Hfd.
    destruct (fd_field_offset dev (ioctl_nr req) (inline_len req)) as [off|] eqn:Ho; [|done]. exfalso.
    unfold fd_field_offset in Ho. rewrite Hd in Ho.
    apply (match_nr_check (fun k _ => negb (existsb (Z.eqb k)
      [NV_ESC_RM_CONTROL; NV_ESC_RM_ALLOC; NV_ESC_RM_GET_EVENT_DATA]))) in Ho; [|done].
    bools. apply not_true_iff_false in Ho. apply Ho. by apply existsb_eqb_In. }
  destruct He as [(_ & _ & -> & _)|(e & He & _ & _ & E2)]; [done|].
  apply (edited_get _ _ _ _ _ n _ E2). by apply Hsep.
Qed.

Lemma embedded_off_control e :
  is_control dev (ioctl_nr req) = true \/ is_alloc dev (ioctl_nr req) = true ->
  embedded_ptr dev (ioctl_nr req) inline (blen inline) = Ok (Some e) -> emb_ptr_off e = 16.
Proof.
  intros Hk He. destruct (proj2 (embedded_ptr_spec _ _ _ _ _
    (proj1 (ad_wf _ _ _ _ _ _ _ _ _ _ _ _ Had))) e He) as (Hd & _ & _ & _ & _ & _ & H16).
  apply H16. intros Hnr. unfold is_control, is_alloc in Hk. rewrite Hd, Hnr in Hk. by destruct Hk.
Qed.

Lemma ad_primary sc1 sc2 :
  fd_translated sc1 -> embedded_done sc1 sc2 ->
  is_control dev (ioctl_nr req) = true \/ is_alloc dev (ioctl_nr req) = true ->
  get_u64 sc2 16 = Some 0 \/
  (get_u64 sc2 16 = Some (aux_addr env) /\ 0 < blen params /\
   exists e, embedded_ptr dev (ioctl_nr req) inline (blen inline) = Ok (Some e) /\
     emb_len e = blen params).
Proof.
  intros Hfd He Hk.
  assert (is_uvm dev = false /\
    ioctl_nr req ∈ [NV_ESC_RM_CONTROL; NV_ESC_RM_ALLOC; NV_ESC_RM_GET_EVENT_DATA]) as [Hd Hnr].
  { unfold is_control, is_alloc in Hk. destruct (is_uvm dev); [by destruct Hk|]. split; [done|].
    simpl in Hk. destruct Hk; bools; set_solver. }
  pose proof He as [(Hoff & Hn & -> & Hemb)|(e & Hemb & Hn & Hpos & E2)].
  - left. rewrite (ad_key_fields sc1 sc1 8 16) by (done || congruence).
    destruct Had as [_ _ _ _ _ [Hwi _] _ _ Hacc Hcl].
    destruct (decide (zero_inline s = Some 16)) as [Hz|Hz]; [by apply (cl_zero _ _ _ _ _ Hcl)|].
    rewrite (cl_kept _ _ _ _ _ Hcl Hz).
    destruct (accepted_primary A AOk _ _ _ _ _ _ _ _ _ Hwi Hacc Hk) as [?|[?|[? ?]]]; [done|done|lia].
  - right. rewrite (embedded_off_control e Hk Hemb) in E2. rewrite (ed_get _ _ _ _ _ E2).
    destruct Henv as (_ & ? & ?). rewrite u64_mod by (unfold is_u64, MAX_AUX in *; lia).
    split_and!; [done|done|]. by exists e.
Qed.

Lemma embedded_control_len (buf : bytes) e :
  is_control dev (ioctl_nr req) = true -> 32 <= blen buf ->
  embedded_ptr dev (ioctl_nr req) buf (blen buf) = Ok (Some e) -> get_u32 buf 24 = Some (emb_len e).
Proof.
  unfold is_control, embedded_ptr. intros Hc Hl He. bools.
  match goal with H : is_uvm dev = false |- _ => rewrite H in He end.
  match goal with H : ioctl_nr req = _ |- _ => rewrite H in He end.
  rewrite (proj2 (Z.leb_le _ _) Hl) in He. change (NV_ESC_RM_CONTROL =? NV_ESC_RM_CONTROL) with true in He.
  cbn [andb] in He. inv_ok. done.
Qed.

Lemma embedded_event_len (buf : bytes) e :
  ioctl_nr req = NV_ESC_RM_GET_EVENT_DATA ->
  embedded_ptr dev (ioctl_nr req) buf (blen buf) = Ok (Some e) ->
  emb_ptr_off e = 0 /\ emb_len e = 16.
Proof.
  unfold embedded_ptr. intros -> He. destruct (is_uvm dev); [done|].
  change (NV_ESC_RM_GET_EVENT_DATA =? NV_ESC_RM_CONTROL) with false in He.
  change (NV_ESC_RM_GET_EVENT_DATA =? NV_ESC_RM_ALLOC) with false in He. cbn [andb] in He.
  inv_ok. split; [done|]. by vm_compute.
Qed.

Lemma embedded_kinds (buf : bytes) e :
  embedded_ptr dev (ioctl_nr req) buf (blen buf) = Ok (Some e) ->
  is_uvm dev = false /\ (is_control dev (ioctl_nr req) = true \/
    is_alloc dev (ioctl_nr req) = true \/ ioctl_nr req = NV_ESC_RM_GET_EVENT_DATA).
Proof.
  unfold embedded_ptr, is_control, is_alloc. destruct (is_uvm dev); [done|]. intros He. split; [done|].
  destruct ((ioctl_nr req =? NV_ESC_RM_CONTROL) && _) eqn:?; [bools; left; simpl; by apply Z.eqb_eq|].
  destruct ((ioctl_nr req =? NV_ESC_RM_ALLOC) && _) eqn:?; [bools; right; left; simpl; by apply Z.eqb_eq|].
  destruct ((ioctl_nr req =? NV_ESC_RM_GET_EVENT_DATA) && _) eqn:?; [bools; auto|done].
Qed.

(** The block after a possible event substitution. *)
Definition class_rewritten (sc2 sc4 ax5 : bytes) : Prop :=
  sc4 = sc2 \/
  (is_alloc dev (ioctl_nr req) = true /\ edited 4 sc2 12 NV01_EVENT_OS_EVENT sc4 /\ 24 <= blen ax5).

Lemma event_param_size : alloc_param_size (A:=A) NV01_EVENT_OS_EVENT = Some 24.
Proof. by vm_compute. Qed.

Lemma alloc_not_control :
  is_alloc dev (ioctl_nr req) = true -> is_control dev (ioctl_nr req) = false.
Proof.
  unfold is_alloc, is_control. intros Ha. bools.
  match goal with H : ioctl_nr req = _ |- _ => rewrite H end. by rewrite andb_false_r.
Qed.

Lemma contained_embedded sc1 sc2 sc4 ax5 e' :
  fd_translated sc1 -> embedded_done sc1 sc2 -> class_rewritten sc2 sc4 ax5 ->
  blen sc4 = inline_len req -> wf_bytes sc4 -> blen ax5 = blen ax ->
  embedded_ptr dev (ioctl_nr req) sc4 (blen sc4) = Ok (Some e') ->
  get_u64 sc4 (emb_ptr_off e') = Some (aux_addr env) /\ emb_len e' <= blen ax5.
Proof.
  intros Hfd He Hcl Hlen Hw Hax He'. pose proof ad_params_le as [Hpl _].
  destruct (proj2 (embedded_ptr_spec _ _ _ _ _ Hw) e' He')
    as (_ & _ & _ & _ & (p & Hp & Hpn) & Halloc & H16).
  destruct (embedded_kinds sc4 e' He') as (Hd & [Hk|[Hk|Hk]]).
  - assert (sc4 = sc2) as ->.
    { destruct Hcl as [|[Ha _]]; [done|]. by rewrite (alloc_not_control Ha) in Hk. }
    assert (ioctl_nr req = NV_ESC_RM_CONTROL) as Hnr by (unfold is_control in Hk; by bools).
    rewrite H16 in * by (rewrite Hnr; done).
    destruct (ad_primary sc1 sc2 Hfd He (or_introl Hk)) as [Hz|(Ha & _ & e & Hemb & Hn)]; [congruence|].
    split; [done|]. destruct ad_envelope as (Hil & _). pose proof (ad_control_len Hk).
    pose proof (embedded_control_len inline e Hk ltac:(lia) Hemb) as Hw1.
    pose proof (embedded_control_len sc2 e' Hk ltac:(lia) He') as Hw2.
    rewrite (ad_key_fields sc1 sc2 4 24), ad_sc_head in Hw2; try done; try lia.
    + assert (emb_len e' = emb_len e) as -> by congruence. lia.
    + rewrite Hnr. set_solver.
    + intros e2 He2. rewrite (embedded_off_control e2 (or_introl Hk) He2). lia.
  - assert (ioctl_nr req = NV_ESC_RM_ALLOC) as Hnr by (unfold is_alloc in Hk; by bools).
    rewrite H16 in * by (rewrite Hnr; done). destruct (Halloc Hnr) as (c & Hc & Hsz).
    assert (get_u64 sc4 16 = get_u64 sc2 16) as Hsame.
    { destruct Hcl as [->|(_ & E & _)]; [done|]. by apply (edited_get _ _ _ _ _ 8 _ E); lia. }
    rewrite Hsame in Hp |- *.
    destruct (ad_primary sc1 sc2 Hfd He (or_intror Hk)) as [Hz|(Ha & _ & e & Hemb & Hn)]; [congruence|].
    split; [done|]. destruct Hcl as [->|(_ & E & H24)].
    + rewrite (ad_key_fields sc1 sc2 4 12), ad_sc_head in Hc; try done; try lia.
      * destruct (proj2 (embedded_ptr_spec _ _ _ _ _
          (proj1 (ad_wf _ _ _ _ _ _ _ _ _ _ _ _ Had))) e Hemb) as (_ & _ & _ & _ & _ & Hin & _).
        destruct (Hin Hnr) as (c' & Hc' & Hsz'). assert (emb_len e' = emb_len e) as -> by congruence. lia.
      * rewrite Hnr. set_solver.
      * intros e2 He2. rewrite (embedded_off_control e2 (or_intror Hk) He2). lia.
    + pose proof (ed_get _ _ _ _ _ E) as Hg.
      assert (c = NV01_EVENT_OS_EVENT) as -> by (rewrite Hg in Hc; by injection Hc).
      rewrite event_param_size in Hsz. injection Hsz. lia.
  - destruct (embedded_event_len sc4 e' Hk He') as [Ho Hl]. rewrite Ho, Hl in *.
    assert (sc4 = sc2) as ->.
    { destruct Hcl as [|[Ha _]]; [done|]. unfold is_alloc in Ha. by rewrite Hd, Hk in Ha. }
    pose proof He as [(_ & _ & -> & Hemb)|(e & Hemb & Hn & Hpos & E2)].
    + exfalso. rewrite (ad_key_fields sc1 sc1 8 0) in Hp; try done; [|rewrite Hk; set_solver|congruence].
      rewrite ad_sc_head in Hp by lia. unfold embedded_ptr in Hemb. rewrite Hd, Hk in Hemb.
      change (NV_ESC_RM_GET_EVENT_DATA =? NV_ESC_RM_CONTROL) with false in Hemb.
      change (NV_ESC_RM_GET_EVENT_DATA =? NV_ESC_RM_ALLOC) with false in Hemb.
      change (NV_ESC_RM_GET_EVENT_DATA =? NV_ESC_RM_GET_EVENT_DATA) with true in Hemb. cbn [andb] in Hemb.
      destruct ad_envelope as (Hil & _).
      rewrite (ad_frontend NV_ESC_RM_GET_EVENT_DATA 16) in Hil by (done || by vm_compute).
      replace (size_of NVOS41_PARAMETERS) with 16 in Hemb by (by vm_compute).
      rewrite Hil, Hp in Hemb. simpl in Hemb. rewrite (proj2 (Z.eqb_neq _ _) Hpn) in Hemb. done.
    + destruct (embedded_event_len inline e Hk Hemb) as [Ho2 Hl2]. rewrite Ho2 in E2.
      rewrite (ed_get _ _ _ _ _ E2). destruct Henv as (_ & ? & ?).
      rewrite u64_mod by (unfold is_u64, MAX_AUX in *; lia). split; [done|]. lia.
Qed.

(** *** The plain request: no page runs *)
Inductive finished (sc1 : bytes) (st : Sess (D:=D)) :
    Plan -> bytes -> bytes -> Sess (D:=D) -> Prop :=
| Finished sc2 ax1 ax2 fb ev sc4 ax4 wreg wunreg ax5 vp st1 st2 st3 st4 :
    embedded_done sc1 sc2 -> aux_fd_done ax1 -> same_but_polls st st1 -> fb_ok fb ->
    blen ax2 = blen ax -> wf_bytes ax2 -> (specs = [] -> ax2 = ax1) ->
    Forall (nested_contained (blen params) ax2) specs ->
    event_done ev sc2 ax2 sc4 ax4 st1 st2 ->
    waiter_done wreg wunreg sc4 ax4 ax5 st2 st3 ->
    vram_planned sc4 ax5 st3 vp st4 ->
    blen sc4 = inline_len req -> wf_bytes sc4 -> blen ax5 = blen ax -> wf_bytes ax5 ->
    finished sc1 st
      (MkPlan (seq req) fd (request_of (no_osdesc req)) (choose_action env req dev vp)
         (ioctl_nr req) (dev_tag req) (inline_len req) (aux_len req) None None
         (target_token req) (vp_reserved vp) (vp_status_off vp) ev wreg wunreg (vp_vidheap vp)
         (vp_ask vp) fb) sc4 ax5 st4.

Lemma edited_wf_le n b o v b' : edited n b o v b' -> wf_bytes b -> wf_bytes b' /\ blen b' = blen b.
Proof. intros He Hw. split; [by apply (ed_wf _ _ _ _ _ He)|apply (ed_len _ _ _ _ _ He)]. Qed.

Lemma embedded_done_wf sc1 sc2 : embedded_done sc1 sc2 -> wf_bytes sc1 ->
  wf_bytes sc2 /\ blen sc2 = blen sc1.
Proof.
  intros [(_ & _ & -> & _)|(e & _ & _ & _ & E)] Hw; [done|]. by apply (edited_wf_le _ _ _ _ _ E).
Qed.

Lemma aux_fd_done_wf ax1 : aux_fd_done ax1 -> wf_bytes ax1 /\ blen ax1 = blen ax.
Proof.
  destruct ad_bufs_wf as [_ Hw]. unfold aux_fd_done. destruct afd as [[o w]|]; [|by intros ->].
  intros (_ & _ & [(_ & -> & _)|(_ & f & _ & [[_ E]|[_ E]])]); [done|..]; by apply (edited_wf_le _ _ _ _ _ E).
Qed.

Lemma event_done_wf ev sc3 ax3 sc4 ax4 st st' :
  event_done ev sc3 ax3 sc4 ax4 st st' -> wf_bytes sc3 -> wf_bytes ax3 ->
  wf_bytes sc4 /\ wf_bytes ax4 /\ blen sc4 = blen sc3 /\ blen ax4 = blen ax3.
Proof.
  intros [(_ & -> & -> & _)|(r & b & _ & Ht & _)] Hs Ha; [done|].
  destruct (edited_wf_le _ _ _ _ _ (et_sc _ _ _ _ _ Ht) Hs).
  split_and!; [done|by apply (et_ax_wf _ _ _ _ _ Ht)|done|apply (et_ax_len _ _ _ _ _ Ht)].
Qed.

Lemma ad_key_cmd sc1 sc2 v :
  fd_translated sc1 -> embedded_done sc1 sc2 -> is_control dev (ioctl_nr req) = true ->
  get_u32 inline 8 = Some v -> get_u32 sc2 8 = Some v.
Proof.
  intros Hfd He Hk Hv. assert (is_uvm dev = false /\ ioctl_nr req = NV_ESC_RM_CONTROL) as [Hd Hnr]
    by (unfold is_control in Hk; by bools).
  rewrite (ad_key_fields sc1 sc2 4 8); [by rewrite ad_sc_head by lia|done|done|rewrite Hnr; set_solver|done|].
  intros e He2. rewrite (embedded_off_control e (or_introl Hk) He2). lia.
Qed.

Lemma wp_finish_plain sc1 (st : Sess (D:=D)) :
  fd_translated sc1 -> blen sc1 = inline_len req -> wf_bytes sc1 ->
  wp (finish_prepare env req dev fd (no_osdesc req) sc1 ax)
    (fun '(pl, (sc, ax')) st' => finished sc1 st pl sc ax' st')
    (fun _ st' => exists st1, same_but_polls st st1 /\ events_refused st1 st') st.
Proof.
  intros Hfd Hlen Hw. unfold finish_prepare. wp_step. wp_step.
  eapply sat_mono; [by apply sat_point_embedded| |done]. intros sc2 _ He.
  destruct (embedded_done_wf _ _ He Hw) as [Hw2 Hl2].
  wp_step. eapply wp_mono; [apply (wp_translate_aux_fd sc2 st)| |].
  { intros Hk v. by apply (ad_key_cmd sc1). }
  2: { intros ? st' Hp. exists st'. split; [done|by left]. }
  intros ax1 st1 [Hax1 Hp]. destruct (aux_fd_done_wf _ Hax1) as [Hwa1 Hla1].
  destruct ad_nested as (_ & _ & _ & Hann & _).
  wp_step. wp_step. rewrite Hann. cbn [sat]. wp_step. wp_step. wp_step. wp_step.
  eapply sat_mono; [apply (sat_nested (enabled (s_ledger st1)) sc2 ax1); [done..|lia|]| |done].
  { intros Hk. destruct ad_envelope as (Hil & _). pose proof (ad_control_len Hk).
    destruct (proj2 (get_le_is_Some 4 inline 8)) as [v Hv]; [lia|]. rewrite Hv. by apply (ad_key_cmd sc1). }
  intros [ax2 fb] _ (Hfb & Hla2 & Hwa2 & Hs & Hn).
  wp_step. wp_step. eapply sat_mono; [apply sat_encode| |done].
  { intros Hd. apply ad_envelope, Hd. }
  intros r _ ->. wp_step.
  eapply wp_mono; [apply (wp_substitute_event sc2 ax2 st1); lia| |].
  2: { intros ? st' Hr. by exists st1. }
  intros [ev [sc4 ax4]] st2 Hev. destruct (event_done_wf _ _ _ _ _ _ _ Hev Hw2 Hwa2) as (Hw4 & Hwa4 & Hl4 & Hla4).
  wp_step. eapply wp_mono; [apply (wp_substitute_waiter (no_osdesc req) sc4 ax4 st2); cbn; lia| |].
  2: { intros ? st' [Hk Hr]. exists st1. split; [done|].
       destruct Hev as [(_ & _ & _ & <-)|(r & b & _ & Ht & _)]; [done|].
       by rewrite (alloc_not_control (et_alloc _ _ _ _ _ Ht)) in Hk. }
  intros [[wreg wunreg] ax5] st3 Hwt. pose proof Hwt as (Hla5 & Hwa5 & _). specialize (Hwa5 Hwa4).
  apply wp_bind_bind. eapply wp_mono; [apply (wp_reserve (no_osdesc req) sc4 ax5 st3); [cbn; lia|done|done]| |done].
  intros vp st4 Hvp. wp_step. cbn [no_osdesc od_nr od_fd od_inline_len od_aux_len od_arena od_tail default].
  econstructor; done || lia.
Qed.

(** *** The request over guest pages *)
Definition osdesc_plan (od : Osdesc) : Plan :=
  MkPlan (seq req) (default fd (od_fd od)) (request_of od) Forward
    (default (ioctl_nr req) (od_nr od)) (dev_tag req) (od_inline_len od) 0
    (od_arena od) (od_tail od) (target_token req) 0 0 None None None false None None.

Lemma point_embedded_osdesc st0 sc1 od sc2 ax2 st :
  gpa_run_count req <> 0 -> osdesc_result st0 sc1 od sc2 ax2 st -> point_embedded env req od sc2 = Ok sc2.
Proof.
  intros Hn Ho. unfold point_embedded. destruct Ho; [done|by rewrite andb_false_r|].
  destruct (ad_runs_plain Hn) as (_ & _ & _ & _ & He). by rewrite He, Z.eqb_refl.
Qed.

Lemma osdesc_block st0 sc1 od sc2 ax2 st :
  gpa_run_count req <> 0 -> blen sc1 = inline_len req -> fd_translated sc1 ->
  osdesc_result st0 sc1 od sc2 ax2 st ->
  ax2 = [] /\ od_inline_len od = 56 /\ blen sc2 = 56 /\ od_aux_len od = 0 /\
  get_u32 sc2 12 = Some NV01_MEMORY_SYSTEM_OS_DESCRIPTOR /\ (wf_bytes sc1 -> wf_bytes sc2).
Proof.
  intros Hn Hlen Hfd Ho. destruct (ad_runs Hn) as (Hd & Hcl & _).
  destruct (ad_runs_plain Hn) as (Hnc & _). rewrite <- (ad_sc_kept Hnc) in Hcl.
  assert (get_u32 sc1 12 = Some NV01_MEMORY_SYSTEM_OS_DESCRIPTOR) as Hcl1.
  { unfold fd_translated in Hfd. destruct (fd_field_offset _ _ _) as [off|] eqn:Hoff; [|by subst].
    destruct Hfd as (_ & _ & host & E & _). unfold fd_field_offset in Hoff. rewrite Hd in Hoff.
    apply (match_nr_check (fun k o => if (k =? NV_ESC_RM_ALLOC_MEMORY) || (k =? NV_ESC_RM_ALLOC)
      then o =? 48 else true)) in Hoff; [|done].
    assert (off = 48) as ->.
    { apply Z.eqb_eq. destruct (ad_runs Hn) as (_ & _ & [[Ha _]|Hnr]); [|by rewrite Hnr in Hoff].
      unfold is_alloc in Ha. bools.
      match goal with H : ioctl_nr req = _ |- _ => by rewrite H in Hoff end. }
    rewrite (edited_get _ _ _ _ _ 4 _ E); [done|lia]. }
  destruct Ho as [?|a limit c tail gpu sc2 w' Ha _ _ _ _ H02 _|a limit c sc2 w' Hnr _ _ _ _ E]; [done| |].
  - split_and!; try done; [apply (n02_len _ _ _ _ _ _ H02)| |apply (n02_wf _ _ _ _ _ _ H02)].
    rewrite <- Hcl1. unfold get_le. f_equal. by apply (n02_head _ _ _ _ _ _ H02).
  - cbn. assert (inline_len req = 56) as H56 by (by eapply ad_frontend; [|exact Hnr|vm_compute]).
    pose proof (ed_len _ _ _ _ _ E). split_and!; try done; try lia; [|apply (ed_wf _ _ _ _ _ E)].
    rewrite (edited_get _ _ _ _ _ 4 _ E); [done|]. unfold NVOS02_PMEM. lia.
Qed.

Lemma wp_finish_osdesc st0 sc1 od sc2 ax2 (st : Sess (D:=D)) :
  gpa_run_count req <> 0 -> blen sc1 = inline_len req -> fd_translated sc1 ->
  osdesc_result st0 sc1 od sc2 ax2 st ->
  wp (finish_prepare env req dev fd od sc2 ax2)
    (fun '(pl, (sc, ax')) st' => pl = osdesc_plan od /\ sc = sc2 /\ ax' = [] /\ st' = st)
    (fun _ _ => False) st.
Proof.
  intros Hn Hlen Hfd Ho. destruct (ad_runs Hn) as (Hd & _ & Hk).
  destruct (ad_runs_plain Hn) as (Hnc & Haux & _ & Hcount & _).
  destruct (osdesc_block _ _ _ _ _ _ Hn Hlen Hfd Ho) as (-> & Hol & Hl2 & Hal & Hcls & _).
  assert (announced req = Ok []) as Hann.
  { unfold announced. rewrite Hcount. rewrite (proj2 (Z.ltb_ge _ _)) by lia. done. }
  assert ((ioctl_nr req =? NV_ESC_RM_VID_HEAP_CONTROL) = false) as Hnv.
  { destruct Hk as [[Ha _]|Hnr]; [unfold is_alloc in Ha; bools|];
      match goal with H : ioctl_nr req = _ |- _ => by rewrite H end. }
  unfold finish_prepare. rewrite (point_embedded_osdesc _ _ _ _ _ _ Hn Ho).
  wp_step. wp_step. cbn [sat]. unfold translate_aux_fd. rewrite Haux, Z.eqb_refl. wp_step. wp_step.
  rewrite Hann. wp_step. wp_step. cbn [sat]. wp_step. wp_step. cbn [point_all_nested].
  wp_step. wp_step. cbn [sat]. wp_step. wp_step.
  eapply sat_mono; [apply sat_encode; intros _; lia| |done]. intros r _ ->.
  unfold substitute_event. destruct osdesc_layout as (_ & _ & _ & _ & Hsz). rewrite Hsz.
  change (24 <=? blen []) with false. rewrite andb_false_r. wp_step. wp_step.
  unfold substitute_waiter. fold (is_control dev (ioctl_nr req)). rewrite Hnc. cbn [andb]. wp_step. wp_step.
  wp_step. eapply (wp_mono _ (fun vp st' => vp = no_vram /\ st' = st) _ (fun _ _ => False)); [| |done].
  - unfold reserve_alloc. apply wp_if; intros _; [|by wp_step]. rewrite Hol.
    change (alloc_status_off 56) with (Some 40). cbv iota. wp_step. wp_step.
    apply (sat_or_panic _ _ _ _ Hcls). wp_step. wp_step.
    assert (forall hc, request_bytes hc [] = Ok None) as Hrb
      by (intros hc; unfold request_bytes; change (blen [] <? P_LEN) with true; by rewrite orb_true_r).
    rewrite Hrb. cbn [infallible map_err sat]. by wp_step.
  - intros vp st' [-> ->]. unfold reserve_vidheap. rewrite Hnv, andb_false_r.
    wp_step. wp_step. wp_step. split; [|done]. unfold osdesc_plan, choose_action. rewrite Hd, Hal. done.
Qed.

(** *** The two kinds of request together *)
Inductive prepared (st : Sess (D:=D)) : Plan -> bytes -> bytes -> Sess (D:=D) -> Prop :=
| PreparedPlain sc1 st1 pl sc4 ax5 st' :
    gpa_run_count req = 0 -> fd_translated sc1 -> same_but_polls st st1 ->
    finished sc1 st1 pl sc4 ax5 st' -> prepared st pl sc4 ax5 st'
| PreparedPages sc1 od sc2 st' :
    gpa_run_count req <> 0 -> fd_translated sc1 -> blen sc1 = inline_len req -> wf_bytes sc1 ->
    osdesc_result st sc1 od sc2 [] st' -> prepared st (osdesc_plan od) sc2 [] st'.

(** A refused request: page registrations that were made are released, an
    event identifier may have been used up, nothing is charged. *)
Definition refused (st st' : Sess (D:=D)) : Prop :=
  exists st1, same_but_polls st st1 /\ (refused_world st1 st' \/ events_refused st1 st').

Lemma fd_translated_wf sc1 : fd_translated sc1 -> wf_bytes sc1 /\ blen sc1 = inline_len req.
Proof.
  destruct ad_bufs_wf as [Hw _]. rewrite <- ad_sc_len. unfold fd_translated.
  destruct (fd_field_offset _ _ _); [|by intros ->].
  intros (_ & _ & host & E & _). by apply (edited_wf_le _ _ _ _ _ E).
Qed.

Lemma same_but_polls_trans st1 st2 st3 :
  same_but_polls st1 st2 -> same_but_polls st2 st3 -> same_but_polls st1 st3.
Proof. intros [l ->] [k ->]. by exists k. Qed.

Lemma wp_after_admit (st : Sess (D:=D)) :
  wp (scratch ← lift (translate_fd env req m sc);
      _ ← note_os_event req dev fd;
      '(od, (scratch, aux)) ← osdesc_stage env req dev scratch ax;
      on_error (dropping (od_arena od)) (finish_prepare env req dev fd od scratch aux))
    (fun '(pl, (sc', ax')) st' => prepared st pl sc' ax' st')
    (fun _ st' => refused st st') st.
Proof.
  wp_step. wp_step. eapply sat_mono; [apply sat_translate_fd| |].
  2: { intros ? _. exists st. split; [apply same_but_polls_refl|]. left. apply refused_world_refl. }
  intros sc1 _ Hfd. destruct (fd_translated_wf _ Hfd) as [Hw Hlen]. wp_step.
  eapply (wp_mono _ (fun _ st1 => same_but_polls st st1 /\ (gpa_run_count req <> 0 -> st1 = st)) _
    (fun _ _ => False)); [| |done].
  { unfold note_os_event. apply wp_if; intros Hc; wp_step.
    2: { split; [apply same_but_polls_refl|done]. }
    split; [by eexists|]. intros Hn. exfalso. destruct (ad_runs Hn) as (_ & _ & Hk). bools.
    match goal with H : ioctl_nr req = _ |- _ => unfold is_alloc in Hk; rewrite H in Hk end.
    destruct Hk as [[Hk _]|Hk]; [by rewrite andb_false_r in Hk|by vm_compute in Hk]. }
  intros [] st1 [Hp1 Hst]. wp_step. eapply wp_mono; [by apply (wp_osdesc_stage sc1 st1)| |].
  2: { intros ? st' Hr. exists st1. auto. }
  intros [od [sc2 ax2]] st2 Ho. wp_step.
  destruct (decide (gpa_run_count req = 0)) as [Hz|Hn].
  - destruct Ho; [|done..]. eapply wp_mono; [by apply (wp_finish_plain sc1 st1)| |].
    + intros [pl [sc4 ax5]] st' Hf. by eapply PreparedPlain.
    + intros ? st' (st2 & Hp2 & Hr). exists st2. split; [by eapply same_but_polls_trans|]. by right.
  - rewrite (Hst Hn) in *. destruct (osdesc_block _ _ _ _ _ _ Hn Hlen Hfd Ho) as (-> & _).
    eapply wp_mono; [by eapply (wp_finish_osdesc st sc1)| |done].
    intros [pl [sc4 ax5]] st' (-> & -> & -> & ->). by eapply PreparedPages.
Qed.

(** *** Addresses *)

(** Every address the driver will follow in the two buffers is inside the
    session's own aux buffer, or the arena's. *)
Record contained (pl : Plan) (sc' ax' : bytes) : Prop := {
  ct_primary : is_control dev (p_ioctl_nr pl) = true \/ is_alloc dev (p_ioctl_nr pl) = true ->
    get_u64 sc' 16 = Some 0 \/ get_u64 sc' 16 = Some (aux_addr env);
  ct_embedded : forall e, embedded_ptr dev (p_ioctl_nr pl) sc' (blen sc') = Ok (Some e) ->
    get_u64 sc' (emb_ptr_off e) = Some (aux_addr env) /\ emb_len e <= blen ax';
  ct_nested : forall cmd n, is_control dev (p_ioctl_nr pl) = true ->
    get_u32 sc' 8 = Some cmd -> get_u32 sc' 24 = Some n -> get_u64 sc' 16 <> Some 0 ->
    n <= blen ax' /\ Forall (nested_contained n ax') (nested_ptrs cmd);
  ct_pages : is_alloc dev (p_ioctl_nr pl) = true \/
      (is_uvm dev = false /\ p_ioctl_nr pl = NV_ESC_RM_ALLOC_MEMORY) ->
    get_u32 sc' 12 = Some NV01_MEMORY_SYSTEM_OS_DESCRIPTOR ->
    p_ioctl_nr pl = NV_ESC_RM_ALLOC_MEMORY /\
    exists a limit, osdesc_arena pl = Some a /\ get_u64 sc' NVOS02_PMEM = Some (arena_va env) /\
      get_u64 sc' NVOS02_LIMIT = Some limit /\ a_len a = limit + 1;
}.

Lemma event_done_class ev sc2 ax2 sc4 ax4 ax5 st st' :
  event_done ev sc2 ax2 sc4 ax4 st st' -> blen ax5 = blen ax4 -> class_rewritten sc2 sc4 ax5.
Proof.
  intros [(_ & -> & _)|(r & b & _ & Ht & _)] Hl; [by left|right].
  destruct (et_ax_len _ _ _ _ _ Ht) as [Hl1 Hl2].
  split_and!; [apply (et_alloc _ _ _ _ _ Ht)|apply (et_sc _ _ _ _ _ Ht)|lia].
Qed.

Lemma class_rewritten_head sc2 sc4 ax5 n o :
  class_rewritten sc2 sc4 ax5 -> o + Z.of_nat n <= 12 \/ 16 <= o -> get_le n sc4 o = get_le n sc2 o.
Proof. intros [->|(_ & E & _)] Ho; [done|]. apply (edited_get _ _ _ _ _ n _ E). lia. Qed.

Lemma class_rewritten_control sc2 sc4 ax5 :
  class_rewritten sc2 sc4 ax5 -> is_alloc dev (ioctl_nr req) = false -> sc4 = sc2.
Proof. intros [->|(Ha & _)] Hk; [done|congruence]. Qed.

Lemma finished_nested sc1 st pl sc4 ax5 st' cmd n :
  fd_translated sc1 -> finished sc1 st pl sc4 ax5 st' -> is_control dev (ioctl_nr req) = true ->
  get_u32 sc4 8 = Some cmd -> get_u32 sc4 24 = Some n -> get_u64 sc4 16 <> Some 0 ->
  n <= blen ax5 /\ Forall (nested_contained n ax5) (nested_ptrs cmd).
Proof.
  intros Hfd Hfin Hk Hcmd Hn Hp. destruct Hfin as [sc2 ax1 ax2 fb ev sc4 ax4 wreg wunreg ax5 vp st1
    st2 st3 st4 He _ _ _ Hl2 _ _ Hnest Hev Hw _ Hl4 _ Hl5 _].
  assert (is_uvm dev = false /\ ioctl_nr req = NV_ESC_RM_CONTROL) as [Hd Hnr]
    by (unfold is_control in Hk; by bools).
  assert (ev = None /\ sc4 = sc2 /\ ax4 = ax2) as (_ & -> & ->).
  { destruct Hev as [(? & ? & ? & _)|(r & b & _ & Ht & _)]; [done|].
    by rewrite (alloc_not_control (et_alloc _ _ _ _ _ Ht)) in Hk. }
  destruct (ad_primary sc1 sc2 Hfd He (or_introl Hk)) as [Hz|(Ha & Hpos & e & Hemb & Hlen)]; [done|].
  destruct ad_envelope as (Hil & _). pose proof (ad_control_len Hk) as H32.
  pose proof (embedded_control_len inline e Hk ltac:(lia) Hemb) as Hplen.
  assert (forall k, k = 8 \/ k = 24 -> get_u32 sc2 k = get_u32 inline k) as Hkey.
  { intros k Hk8. rewrite (ad_key_fields sc1 sc2 4 k); [apply ad_sc_head; lia|done|done| |done|].
    - rewrite Hnr. set_solver.
    - intros e2 He2. rewrite (embedded_off_control e2 (or_introl Hk) He2). lia. }
  rewrite Hkey in Hn, Hcmd by lia. assert (n = blen params) as -> by congruence.
  pose proof ad_params_le. split; [lia|].
  assert (specs = nested_ptrs cmd) as Hs.
  { pose proof (acc_specs _ _ _ _ _ _ _ _ _ (ad_accepted _ _ _ _ _ _ _ _ _ _ _ _ Had)) as Hs.
    unfold nested_specs, u32_at in Hs. rewrite Hk, Hcmd, (proj2 (Z.eqb_neq (blen params) 0)) in Hs by lia.
    cbn in Hs. by injection Hs. }
  rewrite Hs in Hnest. destruct Hw as (_ & _ & [(_ & _ & -> & _)|(_ & (cmd' & Hc & Hnil & _) & _)]); [done|].
  rewrite Hkey in Hc by lia. assert (cmd' = cmd) as -> by congruence. rewrite Hnil. constructor.
Qed.

(** A plain allocation is not over guest pages. *)
Lemma ad_no_pages : gpa_run_count req = 0 ->
  is_alloc dev (ioctl_nr req) = true \/ (is_uvm dev = false /\ ioctl_nr req = NV_ESC_RM_ALLOC_MEMORY) ->
  get_u32 inline 12 <> Some NV01_MEMORY_SYSTEM_OS_DESCRIPTOR.
Proof.
  intros Hz Hk Hcl. pose proof (acc_runs _ _ _ _ _ _ _ _ _ (ad_accepted _ _ _ _ _ _ _ _ _ _ _ _ Had)) as Hr.
  unfold check_runs, u32_at in Hr. rewrite Hz, Hcl in Hr.
  assert (negb (is_uvm dev) && (is_alloc dev (ioctl_nr req)
    || (ioctl_nr req =? NV_ESC_RM_ALLOC_MEMORY)) = true) as Hc.
  { destruct Hk as [Ha|[Hd Hnr]]; [|by rewrite Hd, Hnr, orb_true_r].
    rewrite Ha. unfold is_alloc in Ha. bools. by rewrite andb_true_r, negb_true_iff. }
  rewrite Hc in Hr. done.
Qed.

Lemma finished_class sc1 st pl sc4 ax5 st' :
  gpa_run_count req = 0 -> fd_translated sc1 -> finished sc1 st pl sc4 ax5 st' ->
  is_alloc dev (ioctl_nr req) = true \/ (is_uvm dev = false /\ ioctl_nr req = NV_ESC_RM_ALLOC_MEMORY) ->
  get_u32 sc4 12 <> Some NV01_MEMORY_SYSTEM_OS_DESCRIPTOR.
Proof.
  intros Hz Hfd Hfin Hk Hcl. destruct Hfin as [sc2 ax1 ax2 fb ev sc4 ax4 wreg wunreg ax5 vp st1
    st2 st3 st4 He _ _ _ Hl2 _ _ _ Hev Hw _ _ _ _ _].
  assert (class_rewritten sc2 sc4 ax5) as Hcr by (eapply event_done_class; [exact Hev|apply Hw]).
  apply (ad_no_pages Hz Hk). destruct Hk as [Ha|[Hd Hnr]].
  - assert (is_uvm dev = false /\ ioctl_nr req = NV_ESC_RM_ALLOC) as [Hd Hnr]
      by (unfold is_alloc in Ha; by bools).
    destruct Hcr as [->|(_ & E & _)].
    + rewrite (ad_key_fields sc1 sc2 4 12), ad_sc_head in Hcl; try done; try lia.
      * rewrite Hnr. set_solver.
      * intros e2 He2. rewrite (embedded_off_control e2 (or_intror Ha) He2). lia.
    + rewrite (ed_get _ _ _ _ _ E) in Hcl. by vm_compute in Hcl.
  - assert (is_alloc dev (ioctl_nr req) = false /\ is_control dev (ioctl_nr req) = false) as [Ha Hc]
      by (unfold is_alloc, is_control; rewrite Hnr, !andb_false_r; done).
    rewrite (class_rewritten_control _ _ _ Hcr Ha) in Hcl.
    assert (sc2 = sc1) as ->.
    { destruct He as [(_ & _ & -> & _)|(e & Hemb & _)]; [done|].
      destruct (embedded_kinds _ _ Hemb) as (_ & [?|[?|Hk]]); [congruence..|]. by rewrite Hnr in Hk. }
    rewrite <- (ad_sc_kept Hc). unfold fd_translated in Hfd. unfold fd_field_offset in Hfd.
    rewrite Hd, Hnr in Hfd. destruct Hfd as (_ & _ & host & E & _). rewrite <- Hcl. symmetry.
    apply (edited_get _ _ _ _ _ 4 _ E). lia.
Qed.

Lemma finished_contained sc1 st pl sc4 ax5 st' :
  gpa_run_count req = 0 -> fd_translated sc1 -> finished sc1 st pl sc4 ax5 st' -> contained pl sc4 ax5.
Proof.
  intros Hz Hfd Hfin. assert (p_ioctl_nr pl = ioctl_nr req) as Hnr by (by destruct Hfin).
  split; rewrite Hnr.
  - intros Hk. destruct Hfin as [sc2 ? ? ? ev sc4 ax4 ? ? ax5 ? ? ? ? ? He _ _ _ _ _ _ _ Hev Hw].
    rewrite (class_rewritten_head sc2 sc4 ax5 8 16); [|by eapply event_done_class; [exact Hev|apply Hw]|lia].
    destruct (ad_primary sc1 sc2 Hfd He Hk) as [?|[? _]]; auto.
  - intros e Hemb. destruct Hfin as [sc2 ? ? ? ev sc4 ax4 ? ? ax5 ? ? ? ? ? He _ _ _ _ _ _ _ Hev Hw].
    eapply (contained_embedded sc1 sc2); try done. by eapply event_done_class; [exact Hev|apply Hw].
  - intros cmd n. by eapply finished_nested.
  - intros Hk Hcl. by destruct (finished_class _ _ _ _ _ _ Hz Hfd Hfin Hk).
Qed.

Lemma arena_len (w : World D) (c : ArenaCall (M:=M)) total a w' :
  HostPool.arena w c total = (Ok a, w') -> a_len a = gl total.
Proof.
  unfold HostPool.arena. destruct (registration_bytes _ _); [|done|done].
  destruct (pin_reserve _ _); [|done|done]. destruct (build _ _ _ _ _ _).2 eqn:Hb; [|done|done].
  intros [= <- <-]. by apply build_len in Hb.
Qed.

Lemma pages_contained st sc1 od sc2 st' :
  gpa_run_count req <> 0 -> fd_translated sc1 -> blen sc1 = inline_len req -> wf_bytes sc1 ->
  osdesc_result st sc1 od sc2 [] st' -> contained (osdesc_plan od) sc2 [].
Proof.
  intros Hn Hfd Hlen Hw Ho.
  destruct (osdesc_block _ _ _ _ _ _ Hn Hlen Hfd Ho) as (_ & _ & Hl2 & _).
  assert (p_ioctl_nr (osdesc_plan od) = NV_ESC_RM_ALLOC_MEMORY) as Hnr by (by destruct Ho).
  assert (exists a limit, od_arena od = Some a /\ get_u64 sc2 NVOS02_PMEM = Some (arena_va env) /\
    get_u64 sc2 NVOS02_LIMIT = Some limit /\ a_len a = limit + 1) as Hpages.
  { destruct Ho as [?|a limit c tail gpu sc2 w' Ha _ _ _ Har H02 _|a limit c sc2 w' _ _ _ Har Hlim E]; [done| |];
      exists a, limit; rewrite (arena_len _ _ _ _ _ Har); split_and!; try done.
    - apply (n02_pmem _ _ _ _ _ _ H02).
    - apply (n02_limit _ _ _ _ _ _ H02).
    - rewrite (ed_get _ _ _ _ _ E). destruct Henv as [Hva _]. by rewrite u64_mod.
    - rewrite (edited_get _ _ _ _ _ 8 _ E); [done|]. unfold NVOS02_LIMIT, NVOS02_PMEM. lia. }
  split; rewrite Hnr.
  - unfold is_control, is_alloc. change (NV_ESC_RM_ALLOC_MEMORY =? NV_ESC_RM_CONTROL) with false.
    change (NV_ESC_RM_ALLOC_MEMORY =? NV_ESC_RM_ALLOC) with false. rewrite andb_false_r. by intros [].
  - intros e He. unfold embedded_ptr in He. by destruct (is_uvm dev).
  - intros cmd n Hc. unfold is_control in Hc. by rewrite andb_false_r in Hc.
  - intros _ _. split; [done|]. destruct Hpages as (a & limit & ? & ? & ? & ?). by exists a, limit.
Qed.

Lemma prepared_contained st pl sc' ax' st' :
  prepared st pl sc' ax' st' -> contained pl sc' ax'.
Proof.
  intros []; [by eapply finished_contained|by eapply pages_contained].
Qed.

(** *** Descriptors *)

(** The value of a descriptor field: a host descriptor, or no descriptor. *)
Definition aux_fd_origin (v : Z) (w : Z) : Prop :=
  (aux_fd_field_token req = NONE_U64 /\ as_i32 v < 0) \/
  (aux_fd_field_token req <> NONE_U64 /\ exists f, aux_fd_host env = Some f /\
     v = f mod 256 ^ w).

Record fds_host (st' : Sess (D:=D)) (pl : Plan) (sc' ax' : bytes) : Prop := {
  fh_inline : forall off, fd_field_offset dev (p_ioctl_nr pl) (p_inline_len pl) = Some off ->
    exists host, get_u32 sc' off = Some (wrap32 host) /\
      (fd_origin m host \/ (is_Some (osdesc_nvos64_tail pl) /\ osdesc_gpu st' = Some host));
  fh_aux : event_reg pl = None ->
    forall o w, expected_aux_fd dev (p_ioctl_nr pl) sc' ax' = Ok (Some (o, w)) ->
      exists v, get_le (Z.to_nat w) ax' o = Some v /\ aux_fd_origin v w;
}.

Lemma fd_field_plain sc1 sc2 sc4 ax5 off :
  fd_translated sc1 -> embedded_done sc1 sc2 -> class_rewritten sc2 sc4 ax5 ->
  fd_field_offset dev (ioctl_nr req) (inline_len req) = Some off ->
  exists host, get_u32 sc4 off = Some (wrap32 host) /\ fd_origin m host.
Proof.
  intros Hfd He Hcr Hoff. destruct (fd_field_not_control off Hoff) as (Hc & Ha & _).
  rewrite (class_rewritten_control _ _ _ Hcr Ha).
  assert (sc2 = sc1) as ->.
  { destruct He as [(_ & _ & -> & _)|(e & Hemb & _)]; [done|]. exfalso.
    destruct (embedded_kinds _ _ Hemb) as (Hd & [?|[?|Hk]]); [congruence..|].
    unfold fd_field_offset in Hoff. by rewrite Hd, Hk in Hoff. }
  unfold fd_translated in Hfd. rewrite Hoff in Hfd. destruct Hfd as (_ & _ & host & E & Ho).
  exists host. split; [|done]. rewrite (ed_get _ _ _ _ _ E). by rewrite wrap32_mod.
Qed.

(** The guard of a descriptor field precedes it. *)
Lemma guard_before cls goff gv o :
  alloc_fd_guard cls = Some (goff, gv) -> alloc_fd_field cls = Some o -> goff + 4 <= o.
Proof.
  unfold alloc_fd_guard, alloc_fd_field. intros Hg Hf.
  apply (match_nr_check (fun _ x => x.1 + 4 <=? 16)) in Hg; [|done].
  apply (match_nr_check (fun _ x => x =? 16)) in Hf; [|done]. cbn in Hg. bools. lia.
Qed.

Lemma ad_params_nonempty : gpa_run_count req = 0 -> blen ax <> 0 -> blen params <> 0.
Proof.
  intros Hz Hax Hp. pose proof (acc_runs _ _ _ _ _ _ _ _ _ (ad_accepted _ _ _ _ _ _ _ _ _ _ _ _ Had)) as Hr.
  destruct ad_envelope as (_ & Hal & _). rewrite ad_ax_len, <- Hal in Hax.
  unfold check_runs in Hr. apply bind_Ok in Hr as (osdesc & _ & Hr). rewrite Hz, Hp in Hr.
  rewrite (proj2 (Z.eqb_neq _ _) Hax) in Hr. by destruct osdesc.
Qed.

(** Without nested pointers the parameters are forwarded as they came. *)
Lemma ad_params_kept n o v :
  specs = [] -> get_le n params o = Some v -> get_le n ax o = Some v.
Proof.
  intros Hs Hv. destruct Had as [_ _ _ _ _ _ _ _ Hacc Hcl].
  rewrite <- (get_le_prefix _ _ _ _ _ _ (acc_params _ _ _ _ _ _ _ _ _ Hacc) Hv).
  unfold get_le. f_equal. apply (cl_aux _ _ _ _ _ Hcl).
  eapply Forall_impl; [exact (nf_zeros_specs _ _ _ _ _ _ _ _ (acc_nested _ _ _ _ _ _ _ _ _ Hacc))|].
  rewrite Hs. intros z Hz. set_solver.
Qed.

Lemma aux_fd_value ax1 o w :
  specs = [] -> afd = Some (o, w) -> aux_fd_done ax1 ->
  exists v, get_le (Z.to_nat w) ax1 o = Some v /\ aux_fd_origin v w.
Proof.
  intros Hs Hafd Hd. unfold aux_fd_done in Hd. rewrite Hafd in Hd. destruct Hd as (_ & _ & Hd).
  destruct Hd as [(Ht & -> & v & Hv & Hneg)|(Ht & f & Hf & [[-> E]|[-> E]])].
  - exists v. split; [by apply ad_params_kept|by left].
  - exists (wrap32 f). change (Z.to_nat 4) with 4%nat. rewrite (ed_get _ _ _ _ _ E), wrap32_mod.
    split; [done|]. right. split; [done|]. by exists f.
  - exists (wrap64 f). change (Z.to_nat 8) with 8%nat. rewrite (ed_get _ _ _ _ _ E).
    change (256 ^ Z.of_nat 8) with 18446744073709551616.
    split; [unfold wrap64; by rewrite Z.mod_mod|]. right. split; [done|]. by exists f.
Qed.

Lemma aux_fd_done_frame ax1 n k v :
  specs = [] -> aux_fd_done ax1 -> (forall o w, afd = Some (o, w) -> k + Z.of_nat n <= o) ->
  get_le n params k = Some v -> get_le n ax1 k = Some v.
Proof.
  intros Hs Hd Hsep Hv. apply (ad_params_kept n k v Hs) in Hv. rewrite <- Hv.
  unfold aux_fd_done in Hd. destruct afd as [[o w]|]; [|by subst].
  specialize (Hsep o w eq_refl). destruct Hd as (_ & _ & [(_ & -> & _)|(_ & f & _ & [[-> E]|[-> E]])]);
    [done|..]; by apply (edited_get _ _ _ _ _ n _ E); lia.
Qed.

Lemma expected_alloc_fd inl prm a :
  is_alloc dev (ioctl_nr req) = true -> blen prm <> 0 ->
  expected_aux_fd dev (ioctl_nr req) inl prm = Ok a ->
  exists cls, get_u32 inl 12 = Some cls /\
    (forall goff gv, alloc_fd_guard cls = Some (goff, gv) -> exists v, get_u32 prm goff = Some v /\
       a = (if v =? gv then (fun o => (o, 8)) <$> alloc_fd_field cls else None)) /\
    (alloc_fd_guard cls = None -> a = (fun o => (o, 8)) <$> alloc_fd_field cls).
Proof.
  intros Ha Hp He. unfold expected_aux_fd in He. rewrite Ha, (proj2 (Z.eqb_neq _ _) Hp) in He.
  cbn [andb negb] in He. unfold u32_at in He. destruct (get_u32 inl 12) as [cls|]; [|done].
  exists cls. split; [done|]. outcome_simpl He. destruct (alloc_fd_guard cls) as [[goff gv]|].
  - split; [|done]. intros ? ? [= <- <-]. outcome_simpl He. destruct (get_u32 prm goff) as [v|]; [|done].
    exists v. split; [done|]. outcome_simpl He. destruct (alloc_fd_field cls); cbn; [|by destruct (v =? gv); simplify_eq].
    destruct (v =? gv); by simplify_eq.
  - split; [done|]. intros _. outcome_simpl He. destruct (alloc_fd_field cls); cbn; by simplify_eq.
Qed.

Lemma finished_aux_fd sc1 st pl sc4 ax5 st' o w :
  gpa_run_count req = 0 -> fd_translated sc1 -> finished sc1 st pl sc4 ax5 st' ->
  event_reg pl = None -> expected_aux_fd dev (ioctl_nr req) sc4 ax5 = Ok (Some (o, w)) ->
  exists v, get_le (Z.to_nat w) ax5 o = Some v /\ aux_fd_origin v w.
Proof.
  intros Hz Hfd Hfin Hno He. destruct Hfin as [sc2 ax1 ax2 fb ev sc4 ax4 wreg wunreg ax5 vp st1
    st2 st3 st4 Hem Haf _ _ Hl2 _ Hsame _ Hev Hw _ Hl4 _ Hl5 _]. cbn in Hno.
  assert (sc4 = sc2 /\ ax4 = ax2) as [-> ->]
    by (destruct Hev as [(_ & ? & ? & _)|(r & b & ? & _)]; [done|congruence]).
  pose proof (acc_aux_fd _ _ _ _ _ _ _ _ _ (ad_accepted _ _ _ _ _ _ _ _ _ _ _ _ Had)) as Hacc.
  destruct ad_nested as (_ & _ & _ & _ & Hspec).
  assert (blen ax5 <> 0) as Hne.
  { intros Hax0. unfold expected_aux_fd in He. rewrite Hax0, !andb_false_r in He. done. }
  pose proof (ad_params_nonempty Hz ltac:(lia)) as Hpne.
  destruct (is_alloc dev (ioctl_nr req)) eqn:Ha.
  - assert (is_uvm dev = false /\ ioctl_nr req = NV_ESC_RM_ALLOC) as [Hd Hnr]
      by (unfold is_alloc in Ha; by bools).
    pose proof (alloc_not_control Ha) as Hnc.
    assert (specs = []) as Hs by (destruct (decide (specs = [])) as [|Hs]; [done|];
      destruct (Hspec Hs) as [? _]; congruence).
    assert (ax5 = ax1) as ->.
    { rewrite <- (Hsame Hs). destruct Hw as (_ & _ & [(_ & _ & -> & _)|(Hk & _)]); [done|congruence]. }
    apply aux_fd_value; [done| |done].
    destruct (expected_alloc_fd _ _ _ Ha Hne He) as (cls & Hcls & Hg & Hng).
    destruct (expected_alloc_fd _ _ _ Ha Hpne Hacc) as (cls' & Hcls' & Hg' & Hng').
    rewrite (ad_key_fields sc1 sc2 4 12), ad_sc_head in Hcls; try done; try lia.
    2: { rewrite Hnr. set_solver. }
    2: { intros e2 He2. rewrite (embedded_off_control e2 (or_intror Ha) He2). lia. }
    assert (cls' = cls) as -> by congruence.
    destruct (alloc_fd_guard cls) as [[goff gv]|] eqn:Hguard; [|rewrite Hng, Hng' by done; done].
    destruct (Hg goff gv eq_refl) as (v & Hv & ->). destruct (Hg' goff gv eq_refl) as (v' & Hv' & Hafd).
    apply (aux_fd_done_frame ax1 4 goff v' Hs Haf) in Hv'; [by assert (v' = v) as -> by congruence|].
    intros o' w' E. rewrite E in Hafd. destruct (v' =? gv); [|done].
    destruct (alloc_fd_field cls) as [fo|] eqn:Hf; [|done]. cbn in Hafd. injection Hafd as -> ->.
    by eapply guard_before.
  - unfold expected_aux_fd in He, Hacc. rewrite Ha in He, Hacc. cbn [andb] in He, Hacc.
    destruct (is_control dev (ioctl_nr req)) eqn:Hk; [|done].
    rewrite (proj2 (Z.eqb_neq _ _) Hne) in He. rewrite (proj2 (Z.eqb_neq _ _) Hpne) in Hacc.
    cbn [andb negb] in He, Hacc. unfold u32_at in He, Hacc.
    destruct (get_u32 inline 8) as [cmd|] eqn:Hcmd; [|done].
    rewrite (ad_key_cmd sc1 sc2 cmd Hfd Hem Hk Hcmd) in He. outcome_simpl He. outcome_simpl Hacc.
    assert (afd = Some (o, w) /\ ctrl_fd_offset cmd = Some o) as [Hafd Hco]
      by (destruct (ctrl_fd_offset cmd); simplify_eq; done).
    assert (specs = []) as Hs by (destruct (decide (specs = [])) as [|Hs]; [done|];
      destruct (Hspec Hs) as (_ & ? & _); congruence).
    assert (ax5 = ax1) as ->.
    { rewrite <- (Hsame Hs). destruct Hw as (_ & _ & [(_ & _ & -> & _)|(_ & (cmd' & Hc & _ & Hn) & _)]); [done|].
      rewrite (ad_key_cmd sc1 sc2 cmd Hfd Hem Hk Hcmd) in Hc. congruence. }
    by apply aux_fd_value.
Qed.

Lemma prepared_fds st pl sc' ax' st' :
  prepared st pl sc' ax' st' -> fds_host st' pl sc' ax'.
Proof.
  intros [sc1 st1 pl' sc4 ax5 st2 Hz Hfd _ Hfin|sc1 od sc2 st2 Hn Hfd Hlen Hw Ho].
  - assert (p_ioctl_nr pl' = ioctl_nr req /\ p_inline_len pl' = inline_len req) as [Hnr Hl]
      by (by destruct Hfin).
    split; rewrite Hnr.
    + rewrite Hl. intros off Hoff.
      destruct Hfin as [sc2 ? ? ? ev sc4 ax4 ? ? ax5 ? ? ? ? ? He _ _ _ _ _ _ _ Hev Hw].
      destruct (fd_field_plain sc1 sc2 sc4 ax5 off Hfd He) as (host & ? & ?); [|done|by eauto].
      by eapply event_done_class; [exact Hev|apply Hw].
    + intros Hno o w He. by eapply finished_aux_fd.
  - assert (p_ioctl_nr (osdesc_plan od) = NV_ESC_RM_ALLOC_MEMORY) as Hnr by (by destruct Ho).
    destruct (ad_runs Hn) as (Hd & _). split; rewrite Hnr.
    + unfold fd_field_offset. rewrite Hd. intros off Hoff.
      assert (off = NVOS02_FD) as -> by (vm_compute in Hoff; by injection Hoff).
      destruct Ho as [?|a limit c tail gpu sc2 w' Ha _ _ _ Har H02 Hg|a limit c sc2 w' Hnr' _ _ Har Hlim E]; [done| |].
      * exists gpu. split; [apply (n02_fd _ _ _ _ _ _ H02)|]. right. cbn. split; [by eexists|done].
      * unfold fd_translated, fd_field_offset in Hfd. rewrite Hd, Hnr' in Hfd.
        destruct Hfd as (_ & _ & host & E0 & Hor). exists host. split; [|by left].
        rewrite (edited_get _ _ _ _ _ 4 _ E) by (unfold NVOS02_FD, NVOS02_PMEM; lia).
        pose proof (ed_get _ _ _ _ _ E0) as Hg. rewrite wrap32_mod in Hg. exact Hg.
    + intros _ o w He. unfold expected_aux_fd in He. change (blen [] =? 0) with true in He.
      rewrite !andb_false_r in He. done.
Qed.

(** *** Effects *)

(** What a prepared call holds: the reservation, the event or waiter, the
    arena its plan names, and nothing else. *)
Record accounted (st st' : Sess (D:=D)) (pl : Plan) : Prop := {
  ac_same : sid st' = sid st /\ mirror st' = mirror st /\ vbooks st' = vbooks st;
  ac_vram : (vram_reserved pl = 0 /\ p_action pl <> FakeVramFull /\ s_ledger st' = s_ledger st) \/
    (exists n ok, 0 < n <= u64_max /\ Vram.reserve (s_ledger st) n = (ok, s_ledger st') /\
       vram_reserved pl = (if ok : bool then n else 0) /\ (p_action pl = FakeVramFull <-> ok = false));
  ac_arena : match osdesc_arena pl with
    | None => world st' = world st
    | Some a => exists (c : ArenaCall (M:=M)) total, pages_call c total /\
        HostPool.arena (world st) c total = (Ok a, world st') end;
  ac_events : match event_reg pl, waiter_reg pl with
    | Some r, None => alloc_os_event_id (evb st) (er_client r) (ctl_open env) (ctl_bound env)
        = (Ok (er_id r), evb st')
    | None, Some p => register_prepare (evb st) (pw_client p) (pw_target p) (pw_kc p)
        (target_token req) (ctl_open env) (ctl_bound env) = (Ok p, evb st')
    | None, None => evb st' = evb st
    | Some _, Some _ => False
    end;
  ac_unreg : forall id, waiter_unreg pl = Some id -> event_reg pl = None /\ waiter_reg pl = None /\
    exists c kc t, unregister_find (evb st) c kc t = Some id;
}.

Lemma finished_accounted sc1 st0 st pl sc4 ax5 st' :
  same_but_polls st0 st -> finished sc1 st pl sc4 ax5 st' -> accounted st0 st' pl.
Proof.
  intros [l ->] Hfin. destruct Hfin as [sc2 ax1 ax2 fb ev sc4 ax4 wreg wunreg ax5 vp st1
    st2 st3 st4 _ _ [k ->] _ _ _ _ _ Hev Hw Hv _ _ _ _].
  assert ((st2 = set_evb (evb st2) (set_polls k (set_polls l st0))) /\
    (st3 = set_evb (evb st3) (set_polls k (set_polls l st0)))) as [H2 H3].
  { assert (st2 = set_evb (evb st2) (set_polls k (set_polls l st0))) as H2
      by (destruct Hev as [(_ & _ & _ & ->)|(r & b & _ & _ & -> & _)]; by destruct st0).
    split; [done|]. destruct Hw as (_ & _ & [(_ & _ & _ & ->)|(_ & _ & [(p & b & _ & _ & -> & _)|(? & ? & ? & ? & _ & _ & -> & _)])]);
      [done| |done]. by rewrite H2. }
  split; cbn.
  - destruct Hv; rewrite H3; done.
  - assert (s_ledger st3 = s_ledger st0) as Hl by (by rewrite H3).
    destruct Hv as [|n ok l0 off ask vh Hn Hr Hd _ _ _ _ _].
    + left. split_and!; [done| |done]. unfold choose_action. by repeat (case_match; try done).
    + right. exists n, ok. rewrite <- Hl. unfold choose_action. rewrite Hd. by destruct ok.
  - destruct Hv; rewrite H3; done.
  - assert (evb st4 = evb st3) as -> by (by destruct Hv).
    destruct Hev as [(-> & _ & _ & ->)|(r & b & -> & Ht & -> & Hal)].
    + destruct Hw as (_ & _ & [(-> & _ & _ & ->)|(_ & _ & [(p & b & -> & _ & -> & _ & _ & _ & Hr)|(? & ? & ? & ? & -> & _ & -> & _)])]); done.
    + destruct Hw as (_ & _ & [(-> & _ & _ & ->)|(Hk & _)]); [done|].
      by rewrite (alloc_not_control (et_alloc _ _ _ _ _ Ht)) in Hk.
  - intros i ->. destruct Hw as (_ & _ & [(_ & Hn & _)|(Hk & _ & [(p & b & _ & Hn & _)|(j & c & kc & tg & -> & Hj & _ & Hf)])]);
      [done|done|]. simplify_eq.
    destruct Hev as [(-> & _ & _ & ->)|(r & b & -> & Ht & _)];
      [|by rewrite (alloc_not_control (et_alloc _ _ _ _ _ Ht)) in Hk].
    split; [done|]. split; [done|]. by exists c, kc, tg.
Qed.

Lemma prepared_accounted st pl sc' ax' st' : prepared st pl sc' ax' st' -> accounted st st' pl.
Proof.
  intros [sc1 st1 pl' sc4 ax5 st2 _ _ Hp Hfin|sc1 od sc2 st2 Hn Hfd Hlen Hw Ho].
  - by eapply finished_accounted.
  - destruct Ho as [?|a limit c tail gpu sc2 w' _ _ _ Hpc Har _ _|a limit c sc2 w' _ _ Hpc Har _ _]; [done| |];
      (split; cbn; [done|by left|eauto|done|done]).
Qed.

(** A refusal keeps the ledger and what was pinned. *)
Record released (st st' : Sess (D:=D)) : Prop := {
  rl_same : sid st' = sid st /\ mirror st' = mirror st /\ vbooks st' = vbooks st /\
    s_ledger st' = s_ledger st /\ osdesc_gpu st' = osdesc_gpu st;
  rl_pins : states (world st') = states (world st);
  rl_budget : budget (world st') = budget (world st) \/
    budget (world st') = budget (budget_retry (world st));
}.

Lemma budget_retry_states (w : World D) : states (budget_retry w) = states w.
Proof. unfold budget_retry. by destruct (sweep _ _ _) as [[? ?] ?]. Qed.

Lemma arena_effect (w : World D) (c : ArenaCall (M:=M)) total r w' :
  HostPool.arena w c total = (r, w') ->
  states w' = states w /\
  match r with
  | Ok a => budget (drop_arena w' a) = budget (budget_retry w)
  | _ => budget w' = budget (budget_retry w)
  end.
Proof.
  unfold HostPool.arena, pin_reserve. rewrite <- (budget_retry_states w). set (v := budget_retry w).
  destruct (registration_bytes _ _) as [n| |]; [|by intros [= <- <-]..].
  destruct (n =? 0); [by intros [= <- <-]|]. destruct (checked_add64 _ _) as [u|] eqn:Hu; [|by intros [= <- <-]].
  apply checked_add64_Some in Hu as [-> _]. destruct (_ <=? _); [|by intros [= <- <-]].
  destruct (build _ _ _ _ _ _).2; intros [= <- <-]; try done. split; [done|]. cbn.
  destruct (budget v). unfold set_used. cbn. f_equal. lia.
Qed.

Lemma refused_released st st' : refused st st' -> released st st'.
Proof.
  intros (st1 & [l ->] & [(w' & -> & Hr)|Hr]).
  - split; cbn; [done|..]; destruct Hr as [->|[(c & t & e & _ & Ha)|(c & t & a & w1 & _ & Ha & ->)]]; auto;
      apply arena_effect in Ha as [? ?]; auto.
  - destruct Hr as [->|[(b & c & e & -> & _)|(b & c & t & kc & e & -> & _)]]; split; cbn; auto.
Qed.

(** *** What the execution relies on *)
Lemma finished_ready sc1 st pl sc4 ax5 st' : finished sc1 st pl sc4 ax5 st' ->
  ready pl /\ (wf_bytes sc4 /\ blen sc4 = p_inline_len pl) /\ (wf_bytes ax5 /\ blen ax5 = p_aux_len pl).
Proof.
  intros Hfin. destruct Hfin as [sc2 ax1 ax2 fb ev sc4 ax4 wreg wunreg ax5 vp st1 st2 st3 st4
    _ _ _ Hfb _ _ _ _ Hev Hw Hv Hl4 Hw4 Hl5 Hw5]. pose proof ad_ax_len as Hax.
  split; [|cbn; split; split; (done || congruence)].
  unfold wf_req in Hreq. split; cbn.
  - split_and!; apply Hreq.
  - by intros [].
  - done.
  - by intros [].
  - intros [r Hr]. destruct Hev as [(-> & _)|(r' & b & -> & Ht & _)]; [done|].
    pose proof (et_alloc _ _ _ _ _ Ht) as Ha. unfold is_alloc in Ha. by bools.
  - intros Hsome. destruct Hw as (_ & _ & [(-> & -> & _)|(Hc & _)]); [by destruct Hsome as [[]|[]]|].
    rewrite (ad_control_len Hc). unfold is_control in Hc. bools. split; [done|lia].
  - intros Hsome. destruct Hv as [|n ok l off ask vh Hn Hr Hd H0' H4 H12 Hvh _]; cbn in *.
    + destruct Hsome as [|Ha]; [done|]. unfold choose_action in Ha. repeat (case_match; try done).
    + split_and!; [done|lia|lia|]. intros ->. rewrite <- Hl4. by apply Hvh.
  - intros Ha. destruct Hv as [|n ok l off ask vh Hn Hr Hd _ _ _ Hvh Hal]; cbn in *.
    + unfold choose_action in Ha. repeat (case_match; try done).
    + assert (ok = false) as -> by (unfold choose_action in Ha; destruct ok; repeat (case_match; try done)).
      split_and!; [|done..|]. { intros d Hd'. rewrite (ad_dev _ _ _ _ _ _ _ _ _ _ _ _ Had) in Hd'. congruence. }
      destruct vh; [by split; apply Hvh|]. specialize (Hal eq_refl). unfold is_alloc in Hal. by bools.
  - intros Ha. assert (is_uvm dev = true) as Hu
      by (unfold choose_action in Ha; destruct (is_uvm dev); [done|]; by destruct (vp_full vp)).
    assert (is_alloc dev (ioctl_nr req) = false /\ is_control dev (ioctl_nr req) = false) as [Hna Hnc]
      by (unfold is_alloc, is_control; by rewrite Hu).
    destruct Hv as [|n ok l off ask vh _ _ Hd _ _ _ _ _]; [|congruence]. cbn.
    destruct Hev as [(-> & _)|(r & b & _ & Ht & _)]; [|by rewrite (et_alloc _ _ _ _ _ Ht) in Hna].
    destruct Hw as (_ & _ & [(-> & -> & _)|(Hc & _)]); [done|congruence].
  - intros off asked ->. by apply (Hfb off asked).
Qed.

Lemma prepared_ready st pl sc' ax' st' : prepared st pl sc' ax' st' ->
  ready pl /\ (wf_bytes sc' /\ blen sc' = p_inline_len pl) /\ (wf_bytes ax' /\ blen ax' = p_aux_len pl).
Proof.
  intros [sc1 st1 pl' sc4 ax5 st2 _ _ _ Hfin|sc1 od sc2 st2 Hn Hfd Hlen Hw Ho]; [by eapply finished_ready|].
  destruct (osdesc_block _ _ _ _ _ _ Hn Hlen Hfd Ho) as (_ & Hol & Hl2 & Hal & _ & Hw2).
  split; [|cbn; split; split; auto; try constructor; congruence].
  assert (od_arena od <> None /\ default (ioctl_nr req) (od_nr od) = NV_ESC_RM_ALLOC_MEMORY) as [Ha Hnr]
    by (by destruct Ho). unfold wf_req in Hreq. split; cbn; try done; try lia; rewrite ?Hol.
  - split_and!; [apply Hreq|by vm_compute|by vm_compute].
  - intros t Ht. destruct Ho as [?|a limit c tail gpu sc2 w' _ _ _ _ _ H02 _|]; [done| |done].
    cbn in Ht. simplify_eq. pose proof (n02_tail _ _ _ _ _ _ H02) as Hg. split_and!.
    + pose proof (get_range_length _ _ _ _ Hg). unfold blen in *. lia.
    + by eapply get_range_wf.
    + by eexists.
  - by intros [[]|[]].
Qed.

(** *** Where the plan comes from *)
Lemma ad_inline_range o l : 0 <= o -> 0 <= l -> o + l <= inline_len req -> get_range inline o l = get_range payload o l.
Proof. intros. apply (get_range_sub _ _ _ _ _ _ (ad_inline _ _ _ _ _ _ _ _ _ _ _ _ Had)); lia. Qed.

Lemma ad_aux_range o l : 0 <= o -> 0 <= l -> o + l <= aux_len req ->
  get_range aux o l = get_range payload (inline_len req + o) l.
Proof. intros. apply (get_range_sub _ _ _ _ _ _ (ad_aux _ _ _ _ _ _ _ _ _ _ _ _ Had)); lia. Qed.

(** The parameters of a device-memory allocation arrive as they were sent. *)
Lemma finished_alloc sc1 st pl sc4 ax5 st' :
  is_alloc dev (ioctl_nr req) = true -> get_u32 inline 12 = Some 0x40 -> fd_translated sc1 ->
  finished sc1 st pl sc4 ax5 st' ->
  get_u32 sc4 12 = Some 0x40 /\ forall o l, get_range ax5 o l = get_range aux o l.
Proof.
  intros Ha Hc Hfd Hfin. destruct Hfin as [sc2 ax1 ax2 fb ev sc4 ax4 wreg wunreg ax5 vp st1 st2 st3 st4
    He Hax _ _ _ _ Hax2 _ Hev Hw _ _ _ _ _].
  pose proof (alloc_not_control Ha) as Hnc. pose proof (ad_accepted _ _ _ _ _ _ _ _ _ _ _ _ Had) as HH.
  assert (is_uvm dev = false /\ ioctl_nr req = NV_ESC_RM_ALLOC) as [Hd Hnr] by (unfold is_alloc in Ha; by bools).
  assert (get_u32 sc2 12 = Some 0x40) as H12.
  { rewrite (ad_key_fields sc1 sc2 4 12); [rewrite ad_sc_head by lia; done|done|done|rewrite Hnr; by right; left|done|].
    intros e Hem. rewrite (embedded_off_control e (or_intror Ha) Hem). lia. }
  assert (specs = []) as Hs.
  { pose proof (acc_specs _ _ _ _ _ _ _ _ _ HH) as Hs. unfold nested_specs in Hs. rewrite Hnc in Hs.
    cbn in Hs. congruence. }
  assert (afd = None) as Hafd.
  { pose proof (acc_aux_fd _ _ _ _ _ _ _ _ _ HH) as Hf. destruct (decide (blen params = 0)) as [Hz|Hz].
    - unfold expected_aux_fd in Hf. rewrite Hz, Hnc, andb_false_r in Hf.
      cbn in Hf. congruence.
    - destruct (expected_alloc_fd _ _ _ Ha Hz Hf) as (cls & Hcls & _ & Hn). rewrite Hc in Hcls.
      injection Hcls as <-. by apply Hn. }
  unfold aux_fd_done in Hax. rewrite Hafd in Hax. subst ax1. rewrite Hax2 in * by done.
  destruct Hev as [(_ & -> & -> & _)|(r & b & _ & Ht & _)].
  2: { destruct (et_class _ _ _ _ _ Ht) as [Hk Hcl]. rewrite H12 in Hcl. injection Hcl as Hcl. rewrite <- Hcl in Hk.
       by destruct Hk. }
  destruct Hw as (_ & _ & [(_ & _ & -> & _)|(Hk & _)]); [|congruence]. split; [done|].
  intros o l. apply (cl_aux _ _ _ _ _ (ad_cleared _ _ _ _ _ _ _ _ _ _ _ _ Had)).
  eapply Forall_impl; [exact (nf_zeros_specs _ _ _ _ _ _ _ _ (acc_nested _ _ _ _ _ _ _ _ _ HH))|].
  rewrite Hs. intros z Hz. set_solver.
Qed.

(** NVOS32 is entirely inline and arrives as it was sent. *)
Lemma finished_vidheap sc1 st pl sc4 ax5 st' :
  is_uvm dev = false -> ioctl_nr req = NV_ESC_RM_VID_HEAP_CONTROL -> fd_translated sc1 ->
  finished sc1 st pl sc4 ax5 st' -> sc4 = inline.
Proof.
  intros Hd Hnr Hfd Hfin. destruct Hfin as [sc2 ax1 ax2 fb ev sc4 ax4 wreg wunreg ax5 vp st1 st2 st3 st4
    He _ _ _ _ _ _ _ Hev _ _ _ _ _ _].
  assert (is_alloc dev (ioctl_nr req) = false /\ is_control dev (ioctl_nr req) = false) as [Hna Hnc]
    by (unfold is_alloc, is_control; by rewrite Hnr, !andb_false_r).
  rewrite <- (ad_sc_kept Hnc).
  assert (fd_field_offset dev (ioctl_nr req) (inline_len req) = None) as Ho
    by (unfold fd_field_offset; rewrite Hd, Hnr; by vm_compute).
  unfold fd_translated in Hfd. rewrite Ho in Hfd. subst sc1.
  destruct Hev as [(_ & -> & _)|(r & b & _ & Ht & _)]; [|by rewrite (et_alloc _ _ _ _ _ Ht) in Hna].
  destruct He as [(_ & _ & -> & _)|(e & Hem & _)]; [done|]. unfold embedded_ptr in Hem. rewrite Hd, Hnr in Hem. done.
Qed.

(** What a request for video memory was sent as is what is reserved. *)
Lemma finished_asked sc1 st pl sc4 ax5 st' n :
  fd_translated sc1 -> finished sc1 st pl sc4 ax5 st' -> wants_vram dev n ->
  asked_bytes sc4 ax5 = Ok (Some n).
Proof.
  intros Hfd Hfin (Hd & Hpos & Hwant). unfold asked_bytes.
  assert (blen sc4 = inline_len req) as Hl4 by (by destruct Hfin). rewrite Hl4.
  destruct Hwant as [(Hnr & Hlen & Hc & fl & at' & Hfl & Hvirt & Hat & Hloc & Hsz)|
    (Hnr & Hlen & Hf & fl & at' & Hfl & Hvirt & Hat & Hloc & Hsz)].
  - assert (is_alloc dev (ioctl_nr req) = true) as Ha by (unfold is_alloc; by rewrite Hd, Hnr). rewrite Ha.
    pose proof (ad_alloc_len Ha) as Hil.
    assert (get_u32 inline 12 = Some 0x40) as Hc' by (unfold get_le in *; by rewrite ad_inline_range by lia).
    destruct (finished_alloc _ _ _ _ _ _ Ha Hc' Hfd Hfin) as [H12 Hax].
    assert (forall k o, 0 <= o -> o + Z.of_nat k <= P_LEN -> get_le k ax5 o = get_le k payload (inline_len req + o)) as Hget.
    { intros k o Ho Hk. unfold get_le. by rewrite Hax, ad_aux_range by lia. }
    assert (exists so, alloc_status_off (inline_len req) = Some so) as [so ->]
      by (unfold alloc_status_off; destruct Hil as [-> | ->]; eauto).
    unfold rd32. rewrite H12. cbn [or_panic mbind outcome_bind]. unfold request_bytes.
    assert (blen ax5 = aux_len req) as -> by (rewrite <- ad_ax_len; by destruct Hfin).
    rewrite (proj2 (Z.ltb_ge _ _)) by lia. cbn [memory_class orb negb Z.eqb]. unfold rd32, rd64.
    rewrite (Hget 4%nat P_FLAGS), Hfl by (vm_compute; congruence). cbn [or_panic mbind outcome_bind]. rewrite Hvirt.
    rewrite (Hget 4%nat P_ATTR), Hat by (vm_compute; congruence). cbn [or_panic mbind outcome_bind Z.eqb negb]. rewrite Hloc.
    rewrite (Hget 8%nat P_SIZE), Hsz by (vm_compute; congruence). cbn [or_panic mbind outcome_bind negb].
    by rewrite (proj2 (Z.ltb_lt _ _)).
  - assert (is_alloc dev (ioctl_nr req) = false) as -> by (unfold is_alloc; by rewrite Hnr, andb_false_r).
    rewrite (finished_vidheap _ _ _ _ _ _ Hd Hnr Hfd Hfin), Hd, Hnr. cbn [negb andb]. rewrite Z.eqb_refl.
    assert (forall k o, 0 <= o -> o + Z.of_nat k <= V_LEN -> get_le k inline o = get_le k payload o) as Hget.
    { intros k o Ho Hk. unfold get_le. by rewrite ad_inline_range by lia. }
    destruct ad_envelope as (Hil & _). unfold vidheap_request_bytes, vidheap_function, rd32, rd64.
    rewrite Hil, (proj2 (Z.leb_le _ _)) by done.
    rewrite (Hget 4%nat V_FUNCTION), Hf by (vm_compute; congruence). cbn [or_panic mbind outcome_bind]. rewrite Z.eqb_refl.
    rewrite (Hget 4%nat VA_FLAGS), Hfl by (vm_compute; congruence). cbn [or_panic mbind outcome_bind negb]. rewrite Hvirt.
    rewrite (Hget 4%nat VA_ATTR), Hat by (vm_compute; congruence). cbn [or_panic mbind outcome_bind Z.eqb negb]. rewrite Hloc.
    rewrite (Hget 8%nat VA_SIZE), Hsz by (vm_compute; congruence). cbn [or_panic mbind outcome_bind negb].
    by rewrite (proj2 (Z.ltb_lt _ _)).
Qed.

(** What the plan keeps of the guest's own bytes, and what it reserves. *)
Record sourced (st st' : Sess (D:=D)) (pl : Plan) : Prop := {
  so_tail t : osdesc_nvos64_tail pl = Some t -> get_range payload 16 24 = Some t;
  so_fb off asked : fb_info_list pl = Some (off, asked) ->
    get_u32 payload 8 = Some CMD_FB_GET_INFO /\ exists d, d ∈ listed /\ off = aux_off d;
  so_vram n : wants_vram dev n ->
    exists ok, Vram.reserve (s_ledger st) n = (ok, s_ledger st') /\ (ok = false -> p_action pl = FakeVramFull) /\
      vram_reserved pl = (if ok : bool then n else 0) /\ vram_status_off pl = memory_status_off;
}.

Lemma finished_sourced sc1 st0 st pl sc4 ax5 st' :
  same_but_polls st0 st -> fd_translated sc1 -> finished sc1 st pl sc4 ax5 st' -> sourced st0 st' pl.
Proof.
  intros [l ->] Hfd Hfin. pose proof Hfin as Hfin'. destruct Hfin as [sc2 ax1 ax2 fb ev sc4 ax4 wreg wunreg ax5 vp st1 st2 st3 st4
    _ _ [k ->] Hfb _ _ _ _ Hev Hw Hv Hl4 _ _ _]. split; cbn.
  - done.
  - intros off asked ->. destruct (Hfb off asked eq_refl) as (_ & _ & Hk & H8 & Hd). split; [|done].
    pose proof (ad_control_len Hk). unfold get_le in *. by rewrite <- ad_inline_range by lia.
  - intros n Hwant. pose proof (finished_asked _ _ _ _ _ _ _ Hfd Hfin' Hwant) as Hask.
    destruct Hwant as (Hd & _ & Hnr).
    assert (s_ledger st3 = s_ledger st0) as <-.
    { destruct Hw as (_ & _ & [(_ & _ & _ & ->)|(_ & _ & [(p & b & _ & _ & -> & _)|(? & ? & ? & ? & _ & _ & -> & _)])]);
        destruct Hev as [(_ & _ & _ & ->)|(r & b' & _ & _ & -> & _)]; done. }
    destruct Hv as [Hno|n' ok led off ask vh _ Hr _ _ _ _ Hvh Hal Hsome Hoff]; [congruence|].
    rewrite Hask in Hsome. injection Hsome as <-. exists ok. split; [done|]. split; [|split; [done|]].
    + intros ->. unfold choose_action. by rewrite Hd.
    + unfold memory_status_off. cbn. destruct vh.
      * destruct (Hvh eq_refl) as (_ & -> & ->). done.
      * specialize (Hal eq_refl). specialize (Hoff eq_refl). rewrite Hl4 in Hoff. pose proof (ad_alloc_len Hal) as Hil.
        unfold is_alloc in Hal. bools. match goal with H : ioctl_nr req = _ |- _ => rewrite H end.
        rewrite Z.eqb_refl. unfold alloc_status_off in Hoff.
        destruct Hil as [E | E]; rewrite E in Hoff |- *; by injection Hoff.
Qed.

Lemma prepared_sourced st pl sc' ax' st' : prepared st pl sc' ax' st' -> sourced st st' pl.
Proof.
  intros [sc1 st1 pl' sc4 ax5 st2 _ Hfd Hp Hfin|sc1 od sc2 st2 Hn Hfd Hlen Hw Ho]; [by eapply finished_sourced|].
  destruct (ad_runs Hn) as (_ & Hcl & Hk). split; cbn.
  - intros t Ht. destruct Ho as [?|a limit c tail gpu sc2 w' Ha _ _ _ _ H02 _|]; [done| |done]. cbn in Ht. simplify_eq.
    rewrite <- (n02_tail _ _ _ _ _ _ H02).
    assert (blen inline = 48) as H48.
    { destruct Hk as [[_ ?]|Hk]; [done|]. unfold is_alloc in Ha. rewrite Hk in Ha. by rewrite andb_false_r in Ha. }
    destruct ad_envelope as (Hil & _).
    assert (sc1 = sc) as ->.
    { unfold fd_translated in Hfd. destruct (fd_field_offset dev (ioctl_nr req) (inline_len req)) as [off|] eqn:Hoff; [|done].
      apply fd_field_not_control in Hoff as (_ & Hna & _). congruence. }
    rewrite (ad_sc_kept (alloc_not_control Ha)). symmetry. apply ad_inline_range; lia.
  - done.
  - intros n (Hd & _ & [(Hnr & _ & Hc & _)|(Hnr & _)]).
    + assert (is_alloc dev (ioctl_nr req) = true) as Ha by (unfold is_alloc; by rewrite Hd, Hnr).
      pose proof (ad_alloc_len Ha). unfold get_le in Hcl, Hc. rewrite ad_inline_range in Hcl by lia.
      rewrite Hc in Hcl. by vm_compute in Hcl.
    + exfalso. unfold is_alloc in Hk. rewrite Hnr, andb_false_r in Hk. destruct Hk as [[? _]|Hk]; [done|by vm_compute in Hk].
Qed.

End stages.

(** ** [prepare] *)
Lemma wp_prepare (st : Sess (D:=D)) :
  wp (prepare env req payload)
    (fun '(pl, (sc', ax')) st' => exists dev fd sc ax inline aux s params afd specs ds,
       admitted (mirror st) dev fd sc ax inline aux s params afd specs ds /\
       prepared (mirror st) dev fd sc ax inline params afd specs st pl sc' ax' st')
    (fun _ st' => refused st st') st.
Proof.
  unfold prepare. wp_step. wp_step. wp_step. wp_step. eapply sat_mono; [apply sat_admit| |].
  2: { intros e _. exists st. split; [apply same_but_polls_refl|]. left. apply refused_world_refl. }
  intros [[dev fd] [sc ax]] _ (inline & aux & s & params & afd & specs & ds & Had).
  eapply wp_mono; [by eapply wp_after_admit| |done].
  intros [pl [sc' ax']] st' Hp. exists dev, fd, sc, ax, inline, aux, s, params, afd, specs, ds. done.
Qed.

(** The node the call is made on. *)
Lemma prepared_target m dev fd sc ax inline aux s params afd specs ds st pl sc' ax' st' :
  admitted m dev fd sc ax inline aux s params afd specs ds ->
  prepared m dev fd sc ax inline params afd specs st pl sc' ax' st' ->
  p_dev_tag pl = dev_tag req /\
  (FdMirror.raw m (target_token req) = Some (p_target_fd pl) \/
   osdesc_gpu st' = Some (p_target_fd pl)).
Proof.
  intros Had [sc1 st1 pl' sc4 ax5 st2 _ _ _ Hfin|sc1 od sc2 st2 Hn _ _ _ Ho].
  - split; [by destruct Hfin|left]. destruct Hfin. apply (ad_fd _ _ _ _ _ _ _ _ _ _ _ _ Had).
  - split; [done|]. destruct Ho; [done|by right|]. left. apply (ad_fd _ _ _ _ _ _ _ _ _ _ _ _ Had).
Qed.

End prepare.

(** ** Claims *)

(** A control that lists two framebuffer values, in a session whose token 1
    is the control node. *)
Definition example_env : PrepEnv (M:=RegionList) :=
  MkPrepEnv 0x5000 None None (fun _ => false) (Some [MkRegion 0x10000000 0x800000 (Some 0)])
    4096 0x10000000 (MkArenaEnv true (fun _ => true)) 0x700000 (Some 40) true (Some 41) true false.

Definition example_sess : Sess (D:=TableDriver) :=
  MkSess 1 {| FdMirror.next := 2; FdMirror.map := {[1 := {| FdMirror.fd := 33; FdMirror.entry_kind := Ctl |}]} |}
    EventBooks_new [] None (Books_new 1) (with_profile (accounting 0x1000000))
    (world_new 0x8000 (example_driver false)).

Lemma example_env_ok : env_ok example_env.
Proof. split; [split|split]; vm_compute; done. Qed.

Lemma ctrl_req_wf : wf_req ctrl_req.
Proof.
  assert (Forall wf_nested (nested ctrl_req)) by (repeat constructor; vm_compute; congruence).
  unfold wf_req, is_u32, is_u64. cbn. split_and!; try done; lia.
Qed.

(** NVKMS's allocation over three guest pages. *)
Definition pages_req : Req := {|
  seq := 2; kind := 3; dev_tag := 0; ioctl_nr := NV_ESC_RM_ALLOC; target_token := 1;
  inline_len := 48; aux_len := 56; fd_field_off := NONE_U32; fd_field_proc := NONE_U32;
  fd_field_token := NONE_U64; embedded_ptr_off := 16; nested_count := 0;
  nested := replicate MAX_NESTED NestedDesc_default;
  aux_fd_field_off := NONE_U32; aux_fd_field_proc := NONE_U32;
  aux_fd_field_token := NONE_U64; map_len := 0; addr := 0; gpa_run_count := 1;
  guest_proc := 1 |}.

Definition pages_payload : bytes :=
  put_range (put_range (put_range (put_range (replicate 104 0)
    12 (le_bytes 4 NV01_MEMORY_SYSTEM_OS_DESCRIPTOR)) 16 (le_bytes 8 0x7f0000001000))
    72 (le_bytes 8 0x2fff)) 88 (le_bytes 8 0x10003000 ++ le_bytes 8 0x3000).

Lemma pages_req_wf : wf_req pages_req.
Proof.
  assert (Forall wf_nested (nested pages_req)) by (repeat constructor; vm_compute; congruence).
  unfold wf_req, is_u32, is_u64. cbn. split_and!; try done; lia.
Qed.

Definition pages_run := prepare (A:=V615) example_env pages_req pages_payload example_sess.
Definition ctrl_run := prepare (A:=V615) example_env ctrl_req (ctrl_inline ++ ctrl_aux) example_sess.

Section claims.
Context {A : RmAbi} {AOk : RmAbiOk A} {D : Type} `{PoolDriver D} {M : Type} `{GuestMem M}.
Implicit Types (env : PrepEnv (M:=M)) (st : Sess (D:=D)).

(** C20: No request makes the preparation panic: whatever the guest sends, every
    read and write of the two buffers is in range, in every session state and
    whatever the kernel answered while descriptors were opened and pages
    mapped. *)
Theorem prepare_never_panics env req payload st :
  wf_req req -> wf_bytes payload -> env_ok env -> (prepare env req payload st).1 <> Panic.
Proof.
  intros Hr Hp He Hn. pose proof (wp_prepare env req payload Hr Hp He st) as Hw.
  unfold wp in Hw. by rewrite Hn in Hw.
Qed.

(** C6: The buffers of a prepared call contain no address of the guest's choosing
    that the driver would follow: the parameter pointer is null or the
    session's aux buffer, which holds the whole parameter block for the class
    or command in the buffer; each pointer inside a control's parameters is
    null or points into aux for the length the driver computes from those
    parameters; and an allocation over guest pages names the arena built for
    it, with that arena's length. *)
Theorem prepare_contains_pointers env req payload st pl sc ax st' :
  wf_req req -> wf_bytes payload -> env_ok env ->
  prepare env req payload st = (Ok (pl, (sc, ax)), st') ->
  exists dev, dev_of (p_dev_tag pl) = Some dev /\ contained env dev pl sc ax.
Proof.
  intros Hr Hp He Hrun.
  pose proof (wp_run _ _ _ _ _ _ (wp_prepare env req payload Hr Hp He st) Hrun) as Hw.
  destruct Hw as (dev & fd & sc0 & ax0 & inline & aux & s & params & afd & specs & ds & Had & Hpr).
  exists dev. pose proof Hpr as Ht. eapply prepared_target in Ht as [-> _]; [|exact Had].
  split; [by eapply ad_dev|by eapply prepared_contained].
Qed.

(** C7: The descriptor numbers in a prepared call are the host's: the call is made
    on the descriptor behind the request's token or on the session's own GPU
    node; the inline descriptor field holds what the token resolved to, the
    session's own GPU node, or a negative number; and so does the field
    inside the parameters. *)
Theorem prepare_translates_fds env req payload st pl sc ax st' :
  wf_req req -> wf_bytes payload -> env_ok env ->
  prepare env req payload st = (Ok (pl, (sc, ax)), st') ->
  (FdMirror.raw (mirror st) (target_token req) = Some (p_target_fd pl) \/
   osdesc_gpu st' = Some (p_target_fd pl)) /\
  exists dev, dev_of (p_dev_tag pl) = Some dev /\ fds_host env req (mirror st) dev st' pl sc ax.
Proof.
  intros Hr Hp He Hrun.
  pose proof (wp_run _ _ _ _ _ _ (wp_prepare env req payload Hr Hp He st) Hrun) as Hw.
  destruct Hw as (dev & fd & sc0 & ax0 & inline & aux & s & params & afd & specs & ds & Had & Hpr).
  pose proof Hpr as Ht. eapply prepared_target in Ht as [-> Ht]; [|exact Had].
  split; [done|]. exists dev. split; [by eapply ad_dev|by eapply prepared_fds].
Qed.

(** C21: A prepared call holds exactly what its plan says: the video memory
    reserved for it, the event or waiter registered for it and the arena
    pinned for it.  A refused request leaves the ledger, the books, the
    descriptor mirror and the registrations as they were, and the pin budget
    without its arena. *)
Theorem prepare_effects_exact env req payload st r st' :
  wf_req req -> wf_bytes payload -> env_ok env ->
  prepare env req payload st = (r, st') ->
  match r with
  | Ok (pl, _) => accounted (M:=M) env req st st' pl
  | Err _ => released st st'
  | Panic => False
  end.
Proof.
  intros Hr Hp He Hrun.
  pose proof (wp_run _ _ _ _ _ _ (wp_prepare env req payload Hr Hp He st) Hrun) as Hw.
  destruct r as [[pl [sc ax]]|e|]; [|by eapply refused_released|done].
  destruct Hw as (dev & fd & sc0 & ax0 & inline & aux & s & params & afd & specs & ds & Had & Hpr).
  by eapply prepared_accounted.
Qed.

End claims.

Lemma prepare_never_panics_witness : pages_run.1 <> Panic /\ ctrl_run.1 <> Panic.
Proof.
  split; apply prepare_never_panics.
  - apply pages_req_wf.
  - by apply wf_bytesb_spec; vm_compute.
  - apply example_env_ok.
  - apply ctrl_req_wf.
  - by apply wf_bytesb_spec; vm_compute.
  - apply example_env_ok.
Defined.

Lemma prepare_contains_pointers_witness : exists pl sc ax st',
  ctrl_run = (Ok (pl, (sc, ax)), st') /\ get_u64 sc 16 = Some 0x5000 /\
  exists dev, dev_of (p_dev_tag pl) = Some dev /\ contained (A:=V615) example_env dev pl sc ax.
Proof.
  eexists _, _, _, ctrl_run.2. split; [vm_compute; reflexivity|]. split; [vm_compute; reflexivity|].
  eapply (prepare_contains_pointers (A:=V615) example_env ctrl_req (ctrl_inline ++ ctrl_aux) example_sess).
  - apply ctrl_req_wf.
  - by apply wf_bytesb_spec; vm_compute.
  - apply example_env_ok.
  - vm_compute. reflexivity.
Defined.

Lemma prepare_translates_fds_witness : exists pl sc ax st',
  pages_run = (Ok (pl, (sc, ax)), st') /\ p_target_fd pl = 41 /\
  exists dev, dev_of (p_dev_tag pl) = Some dev /\
    fds_host example_env pages_req (mirror example_sess) dev st' pl sc ax.
Proof.
  eexists _, _, _, pages_run.2. split; [vm_compute; reflexivity|]. split; [reflexivity|].
  eapply (prepare_translates_fds (A:=V615) example_env pages_req pages_payload example_sess).
  - apply pages_req_wf.
  - by apply wf_bytesb_spec; vm_compute.
  - apply example_env_ok.
  - vm_compute. reflexivity.
Defined.

Lemma prepare_effects_exact_witness : exists pl bufs st',
  pages_run = (Ok (pl, bufs), st') /\ is_Some (osdesc_arena pl) /\
  accounted (M:=RegionList) example_env pages_req example_sess st' pl.
Proof.
  eexists _, _, pages_run.2. split; [vm_compute; reflexivity|]. split; [by eexists|].
  refine (prepare_effects_exact (A:=V615) example_env pages_req pages_payload example_sess
    (Ok (_, _)) pages_run.2 pages_req_wf _ example_env_ok _).
  - by apply wf_bytesb_spec; vm_compute.
  - vm_compute. reflexivity.
Defined.
