(* ===== verification/Execute.v ===== *)
(** * Execution of a prepared ioctl (crates/vhost-user-nvrm/src/session.rs, [execute])

    [execute] performs the call of a [Plan], or answers it itself, and applies
    what it did to the books of the session: arenas, events, waiters, video
    memory.  Answers the guest must not see as the driver gave them are
    rewritten, and the reply is put together.

    The Rust function is one body; its consecutive parts are separate
    definitions here, in its order.  They act on the session and its two
    buffers, and on a list of what was asked of the host: the driver's call
    itself, calls made on the guest's behalf after it, words stored into guest
    memory.  The driver is an argument of [ExecEnv]: any function from the
    descriptor, the request and the two buffers to a return value, an errno
    and the two buffers after the call. *)
From stdpp Require Import strings.
From S2P Require Import Prelude.
From S2P Require Import Effects.
From S2P Require Import Bytes.
From S2P Require Import Text.
From S2P Require Import Wire.
From S2P Require Import CLayout.
From S2P Require Import SysConsts.
From S2P Require Import Sys.
From S2P Require Import SysLayout.
From S2P Require Import NvAbi.
From S2P Require Import Xlate.
From S2P Require Import RequestShape.
From S2P Require Import Mirror.
From S2P Require Import VramPolicy.
From S2P Require Import Vram.
From S2P Require Import Answers.
From S2P Require Import Naming.
From S2P Require Import Grid.
From S2P Require Import Window.
From S2P Require Import Arena.
From S2P Require Import HostPool.
From S2P Require Import Waiters.
From S2P Require Import Prepare.
Import GuestWords.

Local Open Scope string_scope.
Local Open Scope list_scope.
Local Open Scope Z_scope.

(** ** Offsets *)
Definition SEMAPHORE_POOL_RMSTATUS_OFF : Z := offset_of UVM_ALLOC_SEMAPHORE_POOL_PARAMS "rmStatus".
Definition MIGRATE_SEMAPHORE_ADDRESS_OFF : Z := offset_of UVM_MIGRATE_PARAMS "semaphoreAddress".
Definition MIGRATE_SEMAPHORE_PAYLOAD_OFF : Z := offset_of UVM_MIGRATE_PARAMS "semaphorePayload".
Definition MIGRATE_USER_SPACE_START_OFF : Z := offset_of UVM_MIGRATE_PARAMS "userSpaceStart".
Definition MIGRATE_USER_SPACE_LENGTH_OFF : Z := offset_of UVM_MIGRATE_PARAMS "userSpaceLength".

(** The compile-time assertions of the source. *)
Example managed_offsets :
  SEMAPHORE_POOL_RMSTATUS_OFF = 9240 /\
  map (fun t => offset_of t "rmStatus")
    [UVM_UNSET_PREFERRED_LOCATION_PARAMS; UVM_ENABLE_READ_DUPLICATION_PARAMS;
     UVM_DISABLE_READ_DUPLICATION_PARAMS; UVM_SET_PREFERRED_LOCATION_PARAMS;
     UVM_SET_ACCESSED_BY_PARAMS; UVM_UNSET_ACCESSED_BY_PARAMS; UVM_MIGRATE_PARAMS]
    = [16; 16; 16; 36; 32; 32; 72] /\
  (MIGRATE_USER_SPACE_START_OFF, MIGRATE_USER_SPACE_LENGTH_OFF) = (56, 64) /\
  (MIGRATE_SEMAPHORE_ADDRESS_OFF, MIGRATE_SEMAPHORE_PAYLOAD_OFF) = (40, 48).
Proof. vm_compute. done. Qed.

Section uvm_status.
Context {A : RmAbi}.

Definition uvm_status_off (nr : Z) : option Z :=
  match_nr
    [([uvm.INITIALIZE], offset_of UVM_INITIALIZE_PARAMS "rmStatus");
     ([uvm.REGISTER_GPU_VASPACE], offset_of UVM_REGISTER_GPU_VASPACE_PARAMS "rmStatus");
     ([uvm.UNREGISTER_GPU_VASPACE], offset_of UVM_UNREGISTER_GPU_VASPACE_PARAMS "rmStatus");
     ([uvm.REGISTER_CHANNEL], offset_of UVM_REGISTER_CHANNEL_PARAMS "rmStatus");
     ([uvm.UNREGISTER_CHANNEL], UVM_UNREGISTER_CHANNEL_PARAMS_OFF_rmStatus);
     ([uvm.MAP_EXTERNAL_ALLOCATION], offset_of UVM_MAP_EXTERNAL_ALLOCATION_PARAMS "rmStatus");
     ([uvm.FREE], UVM_FREE_PARAMS_OFF_rmStatus);
     ([uvm.REGISTER_GPU], offset_of UVM_REGISTER_GPU_PARAMS "rmStatus");
     ([uvm.PAGEABLE_MEM_ACCESS], offset_of UVM_PAGEABLE_MEM_ACCESS_PARAMS "rmStatus");
     ([uvm.SET_PREFERRED_LOCATION], offset_of UVM_SET_PREFERRED_LOCATION_PARAMS "rmStatus");
     ([uvm.UNSET_PREFERRED_LOCATION], offset_of UVM_UNSET_PREFERRED_LOCATION_PARAMS "rmStatus");
     ([uvm.ENABLE_READ_DUPLICATION], offset_of UVM_ENABLE_READ_DUPLICATION_PARAMS "rmStatus");
     ([uvm.DISABLE_READ_DUPLICATION], offset_of UVM_DISABLE_READ_DUPLICATION_PARAMS "rmStatus");
     ([uvm.SET_ACCESSED_BY], offset_of UVM_SET_ACCESSED_BY_PARAMS "rmStatus");
     ([uvm.UNSET_ACCESSED_BY], offset_of UVM_UNSET_ACCESSED_BY_PARAMS "rmStatus");
     ([uvm.MIGRATE], offset_of UVM_MIGRATE_PARAMS "rmStatus");
     ([uvm.MAP_DYNAMIC_PARALLELISM_REGION],
        offset_of UVM_MAP_DYNAMIC_PARALLELISM_REGION_PARAMS "rmStatus");
     ([uvm.ALLOC_SEMAPHORE_POOL], SEMAPHORE_POOL_RMSTATUS_OFF);
     ([uvm.PAGEABLE_MEM_ACCESS_ON_GPU], offset_of UVM_PAGEABLE_MEM_ACCESS_ON_GPU_PARAMS "rmStatus");
     ([uvm.VALIDATE_VA_RANGE], offset_of UVM_VALIDATE_VA_RANGE_PARAMS "rmStatus");
     ([uvm.CREATE_EXTERNAL_RANGE], offset_of UVM_CREATE_EXTERNAL_RANGE_PARAMS "rmStatus");
     ([uvm.MM_INITIALIZE], offset_of UVM_MM_INITIALIZE_PARAMS "rmStatus")] nr.

End uvm_status.

(** ** Replies *)
Definition reply (r : Rsp) (inline aux : bytes) : bytes := as_bytes r ++ inline ++ aux.
Definition reply_err (seq errno : Z) : bytes := reply (err_rsp seq errno) [] [].

(** ** What the host is asked to do *)
Inductive HostCall :=
| Ioctl (fd request : Z) (scratch aux : bytes)
| StoreU32 (arena off v : Z)
| FreeOsEvent (fd client id : Z)
| SetSubProcessId (fd client sub : Z) (name : str)
| GrantDup (fd client object : Z).

(** State of the log: how many failures were reported, how often each
    command was dumped. *)
Record LogBooks := MkLogBooks { fail_logs : Z; ctrl_dumps : gmap Z Z }.

(** [driver] answers with [ret], [errno] and the two buffers; the switches are
    the process-wide settings; [my_sub_id] and [my_proc] are the session's
    identity, which an ioctl does not change. *)
Record ExecEnv := MkExecEnv {
  driver : Z -> Z -> bytes -> bytes -> Z * Z * (bytes * bytes);
  card : option Card; grid_switches : Switches;
  gpu_name_raw : bool; name_format : naming.NameFormat;
  my_sub_id : Z; my_proc : ProcInfo;
  verbose : bool; ctrl_dump_wanted : Z -> bool }.

(** [sub_name] *)
Definition sub_name (sub : Z) (p : ProcInfo) : str :=
  if (pid p =? 0) && bool_decide (list.head (comm p) = Some 0)
  then lit "guest-" ++ fmt_u64 sub
  else comm_str p ++ lit "[" ++ fmt_u64 (pid p) ++ lit "]".

Section execute.
Context {A : RmAbi} {D : Type} `{PoolDriver D}.

Record Exec := MkExec {
  sess : Sess (D:=D); scratch : bytes; aux : bytes; calls : list HostCall; logs : LogBooks }.

Definition on_sess (f : Sess (D:=D) -> Sess (D:=D)) (x : Exec) : Exec :=
  MkExec (f (sess x)) (scratch x) (aux x) (calls x) (logs x).
Definition set_scratch (b : bytes) (x : Exec) : Exec := MkExec (sess x) b (aux x) (calls x) (logs x).
Definition set_aux (b : bytes) (x : Exec) : Exec := MkExec (sess x) (scratch x) b (calls x) (logs x).
Definition call (c : HostCall) (x : Exec) : Exec :=
  MkExec (sess x) (scratch x) (aux x) (calls x ++ [c]) (logs x).
Definition on_logs (f : LogBooks -> LogBooks) (x : Exec) : Exec :=
  MkExec (sess x) (scratch x) (aux x) (calls x) (f (logs x)).

Abbreviation exec X := (eff Empty_set Exec X).

(** Reads and writes of the scratch buffer, and rewrites of a buffer. *)
Definition at32 (o : Z) : exec Z := fun x => (u32_of (scratch x) o, x).
Definition at64 (o : Z) : exec Z := fun x => (u64_of (scratch x) o, x).
Definition edit_scratch (f : bytes -> may_panic bytes) : exec unit :=
  b ← asks scratch; b ← lift (f b); modify (set_scratch b).
Definition edit_aux (f : bytes -> may_panic bytes) : exec unit :=
  b ← asks aux; b ← lift (f b); modify (set_aux b).
Definition when (c : bool) (m : exec unit) : exec unit := if c then m else mret tt.

Variable env : ExecEnv.
Variable plan : Plan.

Definition uvm_call : bool :=
  match dev_of (p_dev_tag plan) with Some d => is_uvm d | None => false end.
Definition frontend : bool :=
  match dev_of (p_dev_tag plan) with Some d => negb (is_uvm d) | None => false end.

(** ** UUIDs *)

(** [&mut self.scratch[..n]] given to [f]. *)
Definition on_prefix (n : Z) (f : bytes -> may_panic bytes) (b : bytes) : may_panic bytes :=
  p ← or_panic (get_range b 0 n); p ← f p; Ok (p ++ drop (Z.to_nat n) b).

Definition uuid_swap (to_host : bool) : exec unit :=
  match (if mediate_uuid (grid_switches env) then card env else None) with
  | None => mret tt
  | Some c =>
      let f := if to_host then Grid.to_host c else Grid.to_guest c in
      len ← asks (fun x => blen (scratch x));
      let n := Z.min (p_inline_len plan) len in
      if uvm_call then edit_scratch (on_prefix n f)
      else if (p_ioctl_nr plan =? NV_ESC_RM_CONTROL) && (32 <=? n) then
        cmd ← at32 8;
        if bool_decide (cmd ∈ UUID_CONTROLS) then edit_aux f else mret tt
      else mret tt
  end.

(** ** The call itself *)

(** MIGRATE answered without a migration, its semaphore released. *)
Definition answer_migrate : exec unit :=
  _ ← edit_scratch (fun b => or_panic (set_range b MIGRATE_USER_SPACE_START_OFF (replicate 8 0)));
  _ ← edit_scratch (fun b => or_panic (set_range b MIGRATE_USER_SPACE_LENGTH_OFF (replicate 8 0)));
  _ ← edit_scratch (fun b => put32 b 72 NV_OK);
  sema ← at64 MIGRATE_SEMAPHORE_ADDRESS_OFF;
  pay ← at32 MIGRATE_SEMAPHORE_PAYLOAD_OFF;
  if sema =? 0 then mret tt
  else
    s ← asks sess;
    match (st ← states (world s) !! sid s;
           write_guest_u32_for st (p_target_token plan) {| ga := sema |}) with
    | Some (a, off) => modify (call (StoreU32 a off pay))
    | None => mret tt
    end.

(** The answers of "managed light"; [false] when the parameters are too short. *)
Definition answer_managed : exec bool :=
  let nr := p_ioctl_nr plan in let n := p_inline_len plan in
  if (43 <=? nr) && (nr <=? 45) && (20 <=? n)
  then _ ← edit_scratch (fun b => put32 b 16 NV_OK); mret true
  else if (nr =? 42) && (40 <=? n)
  then _ ← edit_scratch (fun b => put32 b 36 NV_OK); mret true
  else if ((nr =? 46) || (nr =? 47)) && (36 <=? n)
  then _ ← edit_scratch (fun b => put32 b 32 NV_OK); mret true
  else if (nr =? 51) && (80 <=? n) then _ ← answer_migrate; mret true
  else mret false.

Definition refuse_vram : exec unit :=
  _ ← edit_scratch (fun b => put32 b (vram_status_off plan) NV_ERR_NO_MEMORY);
  match vram_ask plan with
  | None => mret tt
  | Some ask =>
      modify (on_sess (fun s => set_vram (s_ledger s) (count_refusal (vbooks s) ask).2 s))
  end.

Definition forward : exec (Z * Z) :=
  _ ← uuid_swap true;
  x ← asks (fun x => x);
  let '(ret, errno, (sc, ax)) := driver env (p_target_fd plan) (p_request plan) (scratch x) (aux x) in
  _ ← modify (call (Ioctl (p_target_fd plan) (p_request plan) (scratch x) (aux x)));
  _ ← modify (set_scratch sc);
  _ ← modify (set_aux ax);
  mret (ret, errno).

(** The return value and errno; [None] is the early return of a managed call
    that cannot be answered. *)
Definition run_call : exec (option (Z * Z)) :=
  match p_action plan with
  | FakeVramFull => _ ← refuse_vram; mret (Some (0, 0))
  | FakeSemaphorePool =>
      _ ← when (SEMAPHORE_POOL_RMSTATUS_OFF + 4 <=? p_inline_len plan)
            (edit_scratch (fun b => put32 b SEMAPHORE_POOL_RMSTATUS_OFF NV_OK));
      mret (Some (0, 0))
  | FakeManaged => ok ← answer_managed; mret (if ok : bool then Some (0, 0) else None)
  | Forward => r ← forward; mret (Some r)
  end.

(** ** The books after the call *)
Variable rt : Z.

(** The status word of the call is NV_OK. *)
Definition status_ok (o : Z) : exec bool := st ← at32 o; mret (st =? NV_OK).

Definition keep_arena : exec unit :=
  match osdesc_arena plan with
  | None => mret tt
  | Some a =>
      ok ← status_ok 40;
      if (rt =? 0) && ok then
        hroot ← at32 0;
        hnew ← at32 8;
        modify (on_sess (fun s => set_world (keep_osdesc_arena (world s) (sid s) hroot hnew a) s))
      else modify (on_sess (dropping (Some a)))
  end.

Definition free_os_event (client id : Z) : exec unit :=
  s ← asks sess;
  match event_ctls (evb s) !! client with
  | None => mret tt
  | Some fd => modify (call (FreeOsEvent fd client id))
  end.

Definition on_evb (f : EventBooks -> EventBooks) : exec unit :=
  modify (on_sess (fun s => set_evb (f (evb s)) s)).

Definition finish_event : exec unit :=
  match event_reg plan with
  | None => mret tt
  | Some r =>
      len ← asks (fun x => blen (scratch x));
      ok ← (match alloc_status_off (p_inline_len plan) with
            | Some o => if (rt =? 0) && (o + 4 <=? len) then status_ok o else mret false
            | None => mret false
            end);
      if (ok : bool) && (12 <=? len)
      then h ← at32 8; on_evb (fun b => event_finish b r true h)
      else free_os_event (er_client r) (er_id r)
  end.

(** REGISTER_WAITER and UNREGISTER_WAITER took effect. *)
Definition waiter_ok : exec bool :=
  if (rt =? 0) && (32 <=? p_inline_len plan) then status_ok 28 else mret false.

Definition finish_register : exec unit :=
  match waiter_reg plan with
  | None => mret tt
  | Some p => ok ← waiter_ok; on_evb (fun b => register_finish b p ok)
  end.

Definition finish_unregister : exec unit :=
  match waiter_unreg plan with
  | None => mret tt
  | Some id => ok ← waiter_ok; on_evb (fun b => unregister_finish b id ok)
  end.

(** The guest's own NVOS64 fields around RM's verdict. *)
Definition restore_middle : exec unit :=
  match osdesc_nvos64_tail plan with
  | None => mret tt
  | Some tail =>
      len ← asks (fun x => blen (scratch x));
      if (40 <=? len) && (24 <=? blen tail)
      then edit_scratch (fun b => or_panic (set_range b 16 (take 24 tail)))
      else mret tt
  end.

(** ** Answers *)

(** The result of a rewrite is the option only the log looks at. *)
Definition rewritten {X} (f : bytes -> may_panic (option X * bytes)) (b : bytes) : may_panic bytes :=
  r ← f b; Ok r.2.

(** [&mut self.aux[off..]] given to [f]. *)
Definition on_suffix (off : Z) (f : bytes -> may_panic bytes) (b : bytes) : may_panic bytes :=
  if blen b <? off then Panic
  else p ← f (drop (Z.to_nat off) b); Ok (take (Z.to_nat off) b ++ p).

Definition capacity (cmd : Z) : exec unit :=
  l ← asks (fun x => s_ledger (sess x));
  if enabled l && (cmd =? CMD_FB_GET_INFO_V2) then
    ok ← status_ok 28;
    when ok (edit_aux (rewritten (fun a => rewrite_fb_info a (limit l) (used l))))
  else mret tt.

Definition capacity_list : exec unit :=
  match fb_info_list plan with
  | None => mret tt
  | Some (off, asked) =>
      ok ← status_ok 28;
      x ← asks (fun x => x);
      if ok && (off <=? blen (aux x)) then
        let l := s_ledger (sess x) in
        edit_aux (on_suffix off
          (rewritten (fun a => rewrite_fb_info_list a asked (limit l) (used l))))
      else mret tt
  end.

Definition card_name (cmd : Z) : exec unit :=
  if (cmd =? CMD_GPU_GET_NAME_STRING) && negb (gpu_name_raw env) then
    ok ← status_ok 28;
    l ← asks (fun x => s_ledger (sess x));
    when ok (edit_aux (rewritten (fun a => rewrite_gpu_name (name_format env) a (profile l))))
  else mret tt.

(** The process lists; [true] when the answer must be refused. *)
Definition process_lists (cmd : Z) : exec bool :=
  if (cmd =? CMD_GPU_GET_PIDS) || (cmd =? CMD_GPU_GET_PID_INFO) then
    ok ← status_ok 28;
    if (ok : bool) then
      rows ← asks (fun x => roster (s_ledger (sess x)));
      b ← asks aux;
      r ← lift (if cmd =? CMD_GPU_GET_PIDS then rewrite_get_pids b rows
                else rewrite_get_pid_info b rows);
      _ ← modify (set_aux r.2);
      mret (match r.1 with None => true | Some _ => false end)
    else mret false
  else mret false.

Definition vgpu_answers (cmd : Z) : exec unit :=
  p ← asks (fun x => profile (s_ledger (sess x)));
  ok ← status_ok 28;
  if negb ok then mret tt
  else if (cmd =? CMD_GPU_GET_VIRTUALIZATION_MODE) && bool_decide (policy p = VramPolicy.Grid)
          && mediate_mode (grid_switches env)
  then edit_aux (rewritten rewrite_virtualization_mode)
  else if (cmd =? CMD_GPU_GET_ENCODER_CAPACITY) && mediate_enc (grid_switches env)
  then edit_aux (rewritten (fun a => rewrite_encoder_capacity a (encoder_capacity p)))
  else mret tt.

Definition rewrite_answer : exec bool :=
  if frontend && (rt =? 0) && (p_ioctl_nr plan =? NV_ESC_RM_CONTROL) && (32 <=? p_inline_len plan)
  then
    cmd ← at32 8;
    _ ← capacity cmd;
    _ ← capacity_list;
    _ ← card_name cmd;
    refused ← process_lists cmd;
    _ ← vgpu_answers cmd;
    mret refused
  else mret false.

(** NVOS32 calls that RM accepted, with their inline block. *)
Definition vidheap_done : exec bool :=
  if frontend && (rt =? 0) && (p_ioctl_nr plan =? NV_ESC_RM_VID_HEAP_CONTROL)
     && (V_STATUS_OFF + 4 <=? p_inline_len plan)
  then status_ok V_STATUS_OFF else mret false.

Definition vidheap_capacity : exec unit :=
  l ← asks (fun x => s_ledger (sess x));
  ok ← (if enabled l then vidheap_done else mret false);
  when ok (edit_scratch (on_prefix (p_inline_len plan)
             (fun b => r ← rewrite_vidheap_info b (limit l) (used l); Ok r.2))).

(** ** Video memory *)

(** The attributes RM wrote back and the handle of the new object. *)
Definition placed_at : exec (Z * Z) :=
  if vram_vidheap plan then
    b ← asks scratch;
    p ← lift (or_panic (get_range b 0 (p_inline_len plan)));
    a ← lift (vidheap_attr_out p);
    h ← lift (vidheap_handle p);
    mret (a, h)
  else
    b ← asks aux;
    a ← lift (if 28 <=? blen b then u32_of b 24 else Ok 0);
    h ← at32 8;
    mret (a, h).

Definition settle_reservation : exec unit :=
  if vram_reserved plan =? 0 then mret tt
  else
    st ← at32 (vram_status_off plan);
    let ok := (rt =? 0) && (st =? NV_OK) in
    '(attr_out, hd) ← placed_at;
    _ ← (match vram_ask plan with
         | None => mret tt
         | Some ask => modify (on_sess (fun s =>
             set_vram (placement (s_ledger s) ask ok st attr_out).2 (vbooks s) s))
         end);
    hroot ← at32 0;
    hpar ← at32 4;
    modify (on_sess (fun s =>
      let '(l, b) := settle (s_ledger s) (vbooks s) ok attr_out
                       (MkCharge (p_target_token plan) hroot hpar hd (vram_reserved plan)) in
      set_vram l b s)).

Definition release_range : exec unit :=
  if (rt =? 0) && uvm_call && (p_ioctl_nr plan =? uvm.FREE)
     && (size_of UvmFreeParams <=? p_inline_len plan)
  then
    ok ← status_ok UVM_FREE_PARAMS_OFF_rmStatus;
    if (ok : bool) then
      base ← at64 UVM_FREE_PARAMS_OFF_base;
      modify (on_sess (fun s => set_world
        (release_uvm_range (world s) (sid s) (p_target_token plan) {| ga := base |}) s))
    else mret tt
  else mret tt.

Definition free_charges (hroot h : Z) : exec unit :=
  modify (on_sess (fun s => let '(l, b) := Vram.free_object (s_ledger s) (vbooks s) hroot h in
                            set_vram l b s)).

Definition vidheap_free : exec unit :=
  ok ← vidheap_done;
  if (ok : bool) then
    b ← asks scratch;
    p ← lift (or_panic (get_range b 0 (p_inline_len plan)));
    fn ← lift (vidheap_function p);
    if bool_decide (fn = Some NVOS32_FUNCTION_FREE) then
      hroot ← at32 0;
      h ← lift (vidheap_handle p);
      free_charges hroot h
    else mret tt
  else mret tt.

(** ** Clients and objects *)

(** The slice the object log is given. *)
Definition log_object : exec unit :=
  when frontend (b ← asks scratch; _ ← lift (or_panic (get_range b 0 (p_inline_len plan))); mret tt).

Definition record_root : exec unit :=
  if frontend && (rt =? 0) && (p_ioctl_nr plan =? NV_ESC_RM_ALLOC) && (12 <=? p_inline_len plan)
  then
    ok ← (match alloc_status_off (p_inline_len plan) with
          | Some o => if o + 4 <=? p_inline_len plan then status_ok o else mret false
          | None => mret false
          end);
    par ← at32 4;
    h ← at32 8;
    when ((ok : bool) && (par =? 0) && negb (h =? 0)) (on_evb (fun b => note_client b h (p_target_token plan)))
  else mret tt.

(** An object is gone: its arena, its charges, its event; a client takes all
    that was held for it along. *)
Definition free_rm_object : exec unit :=
  if frontend && (rt =? 0) && (p_ioctl_nr plan =? NV_ESC_RM_FREE) && (16 <=? p_inline_len plan)
  then
    ok ← status_ok 12;
    if (ok : bool) then
      hroot ← at32 0;
      hold ← at32 8;
      _ ← modify (on_sess (fun s => set_world (drop_osdesc_arena (world s) (sid s) hroot hold) s));
      _ ← free_charges hroot hold;
      if hold =? hroot then
        _ ← modify (on_sess (fun s => set_world (drop_osdesc_client (world s) (sid s) hroot) s));
        on_evb (fun b => rm_free b hroot hold)
      else
        s ← asks sess;
        _ ← on_evb (fun b => rm_free b hroot hold);
        match events (evb s) !! (hroot, hold) with
        | Some r => free_os_event (er_client r) (er_id r)
        | None => mret tt
        end
    else mret tt
  else mret tt.

Definition label_client : exec unit :=
  if frontend && (rt =? 0) && negb (my_sub_id env =? 0) && (p_ioctl_nr plan =? NV_ESC_RM_ALLOC)
     && (44 <=? p_inline_len plan)
  then
    hclass ← at32 12;
    ok ← status_ok 40;
    if (hclass =? NV01_ROOT_CLIENT) && ok then
      hclient ← at32 8;
      modify (call (SetSubProcessId (p_target_fd plan) hclient (my_sub_id env)
                      (sub_name (my_sub_id env) (my_proc env))))
    else mret tt
  else mret tt.

Definition grant_copies : exec unit :=
  if frontend && (rt =? 0) && (p_ioctl_nr plan =? NV_ESC_RM_ALLOC) && (48 <=? p_inline_len plan)
  then
    st ← at32 40;
    hclass ← at32 12;
    if (st =? 0) && uvm_dupes_class hclass then
      hclient ← at32 0;
      hobject ← at32 8;
      modify (call (GrantDup (p_target_fd plan) hclient hobject))
    else mret tt
  else mret tt.

(** ** The log *)
Definition log_sub : exec Z :=
  if frontend && (p_ioctl_nr plan =? NV_ESC_RM_CONTROL) && (32 <=? p_inline_len plan) then at32 8
  else if frontend && (p_ioctl_nr plan =? NV_ESC_RM_ALLOC) && (16 <=? p_inline_len plan) then at32 12
  else mret 0.

Definition log_status : exec Z :=
  let n := p_inline_len plan in let nr := p_ioctl_nr plan in
  if frontend && (nr =? NV_ESC_RM_CONTROL) && (32 <=? n) then at32 28
  else if frontend && (nr =? NV_ESC_RM_ALLOC) && (44 <=? n) then at32 40
  else if frontend && (nr =? NV_ESC_RM_ALLOC_MEMORY) && (44 <=? n) then at32 40
  else if frontend && (nr =? NV_ESC_RM_MAP_MEMORY) && (44 <=? n) then at32 40
  else if uvm_call then
    match uvm_status_off nr with
    | Some o => if o + 4 <=? n then at32 o else mret 0
    | None => mret 0
    end
  else mret 0.

Definition log_call : exec unit :=
  sub ← log_sub;
  st ← log_status;
  _ ← when (frontend && (p_ioctl_nr plan =? NV_ESC_RM_CONTROL) && (st =? 0) && ctrl_dump_wanted env sub)
        (modify (on_logs (fun l =>
           let n := default 0 (ctrl_dumps l !! sub) in
           MkLogBooks (fail_logs l) (<[sub := if n <? 2 then n + 1 else n]> (ctrl_dumps l)))));
  when (negb (rt =? 0) || negb (st =? 0) || verbose env)
    (modify (on_logs (fun l => MkLogBooks (fail_logs l + 1) (ctrl_dumps l)))).

(** ** Everything after the call, and the reply *)
Definition after_call (errno : Z) : exec bytes :=
  _ ← uuid_swap false;
  _ ← keep_arena;
  _ ← finish_event;
  _ ← finish_register;
  _ ← finish_unregister;
  _ ← restore_middle;
  refused ← rewrite_answer;
  _ ← vidheap_capacity;
  _ ← settle_reservation;
  _ ← release_range;
  _ ← vidheap_free;
  _ ← log_object;
  _ ← record_root;
  _ ← free_rm_object;
  _ ← label_client;
  _ ← grant_copies;
  _ ← log_call;
  if (refused : bool) then mret (reply_err (p_seq plan) EINVAL)
  else
    x ← asks (fun x => x);
    mret (reply {| rsp_seq := p_seq plan; Wire.ret := if rt <? 0 then - errno else rt; Wire.token := 0;
                   rsp_inline_len := wrap32 (p_inline_len plan);
                   rsp_aux_len := wrap32 (p_aux_len plan); scm_fd_count := 0; rsp_pad := 0 |}
            (scratch x) (aux x)).

End execute.

Section request.
Context {A : RmAbi} {D : Type} `{PoolDriver D} {M : Type} `{GuestMem M}.

Definition execute (env : ExecEnv) (plan : Plan) : eff Empty_set (Exec (D:=D)) bytes :=
  r ← run_call env plan;
  match r with
  | None =>
      _ ← modify (on_sess (dropping (osdesc_arena plan)));
      mret (reply_err (p_seq plan) EINVAL)
  | Some (rt, errno) => after_call env plan rt errno
  end.

(** [on_ioctl]: from a request to its reply. *)
Definition on_ioctl (penv : PrepEnv (M:=M)) (env : ExecEnv) (req : Req) (payload : bytes)
    (s : Sess (D:=D)) (lg : LogBooks) : outcome Empty_set bytes * Exec (D:=D) :=
  match prepare penv req payload s with
  | (Ok (plan, (sc, ax)), s) => execute env plan (MkExec s sc ax [] lg)
  | (Err errno, s) => (Ok (reply_err (seq req) errno), MkExec s [] [] [] lg)
  | (Panic, s) => (Panic, MkExec s [] [] [] lg)
  end.

End request.
