(* ===== verification/Executed.v ===== *)
(** * What an executed call leaves behind (session.rs, [execute])

    The books of a session after a call are those before it and a list of
    operations that [effects] reads off the plan and the answer: [execute]
    does not panic whatever the driver answered, performs exactly these
    operations, and sends the two buffers it read them from.  The theorems
    about whole requests follow from that and from what [Prepared] says of
    the plan. *)
From stdpp Require Import strings.
From S2P Require Import Prelude.
From S2P Require Import Effects.
From S2P Require Import Bytes.
From S2P Require Import Text.
From S2P Require Import Wire.
From S2P Require Import CLayout.
From S2P Require Import SysConsts.
From S2P Require Import Sys.
From S2P Require Import SysLayout.
From S2P Require Import NvAbi.
From S2P Require Import Xlate.
From S2P Require Import RequestShape.
From S2P Require Import Mirror.
From S2P Require Import VramPolicy.
From S2P Require Import Vram.
From S2P Require Import Answers.
From S2P Require Import Naming.
From S2P Require Import Grid.
From S2P Require Import AnswerShape.
From S2P Require Import Window.
From S2P Require Import Arena.
From S2P Require Import HostPool.
From S2P Require Import Waiters.
From S2P Require Import Prepare.
From S2P Require Import Prepared.
From S2P Require Import Execute.
Import GuestWords.

(** ** Operations on the books *)
Inductive SessOp :=
| KeepArena (root h : Z) (a : HostPool.Arena)
| DropArena (a : HostPool.Arena)
| EventDone (r : EventReg) (h : Z)
| RegisterDone (p : PendingWaiter) (ok : bool)
| UnregisterDone (id : Z) (ok : bool)
| RefusalCounted (a : Ask)
| Placed (a : Ask) (ok : bool) (status attr_out : Z)
| Settled (ok : bool) (attr_out : Z) (c : Charge)
| RangeFreed (token base : Z)
| ChargesFreed (root h : Z)
| RootNoted (h token : Z)
| ArenaFreed (root h : Z)
| ClientArenasFreed (root : Z)
| EventsFreed (root h : Z).

(** The first 4-byte word at [o], and whether it is NV_OK. *)
Definition word (b : bytes) (o : Z) : Z := default 0 (get_u32 b o).
Definition okw (b : bytes) (o : Z) : bool := bool_decide (get_u32 b o = Some NV_OK).

Lemma word_eq b o v : get_u32 b o = Some v -> word b o = v /\ okw b o = (v =? NV_OK).
Proof.
  intros Hg. unfold word, okw. rewrite Hg. split; [done|].
  destruct (v =? NV_OK) eqn:E; bools; [by subst; rewrite bool_decide_eq_true_2|].
  apply bool_decide_eq_false_2. congruence.
Qed.

Section effects.
Context {A : RmAbi} {D : Type} `{PoolDriver D}.

Definition sess_op (s : Sess (D:=D)) (op : SessOp) : Sess (D:=D) :=
  match op with
  | KeepArena r h a => set_world (keep_osdesc_arena (world s) (sid s) r h a) s
  | DropArena a => set_world (drop_arena (world s) a) s
  | EventDone r h => set_evb (event_finish (evb s) r true h) s
  | RegisterDone p ok => set_evb (register_finish (evb s) p ok) s
  | UnregisterDone id ok => set_evb (unregister_finish (evb s) id ok) s
  | RefusalCounted a => set_vram (s_ledger s) (count_refusal (vbooks s) a).2 s
  | Placed a ok st at_ => set_vram (placement (s_ledger s) a ok st at_).2 (vbooks s) s
  | Settled ok at_ c =>
      let '(l, b) := settle (s_ledger s) (vbooks s) ok at_ c in set_vram l b s
  | RangeFreed t b => set_world (release_uvm_range (world s) (sid s) t {| ga := b |}) s
  | ChargesFreed r h =>
      let '(l, b) := Vram.free_object (s_ledger s) (vbooks s) r h in set_vram l b s
  | RootNoted h t => set_evb (note_client (evb s) h t) s
  | ArenaFreed r h => set_world (drop_osdesc_arena (world s) (sid s) r h) s
  | ClientArenasFreed r => set_world (drop_osdesc_client (world s) (sid s) r) s
  | EventsFreed r h => set_evb (rm_free (evb s) r h) s
  end.

Definition sess_run : Sess (D:=D) -> list SessOp -> Sess (D:=D) := foldl sess_op.

Variable plan : Plan.
Variable rt : Z.

(** What each part of [execute] does, read from the buffers [sc] and [ax]. *)
Definition arena_ops (sc : bytes) : list SessOp :=
  match osdesc_arena plan with
  | None => []
  | Some a => if (rt =? 0) && okw sc 40 then [KeepArena (word sc 0) (word sc 8) a] else [DropArena a]
  end.

Definition event_ops (sc : bytes) : list SessOp :=
  match event_reg plan, alloc_status_off (p_inline_len plan) with
  | Some r, Some o => if (rt =? 0) && okw sc o then [EventDone r (word sc 8)] else []
  | _, _ => []
  end.

Definition waiter_ops (sc : bytes) : list SessOp :=
  match waiter_reg plan with Some p => [RegisterDone p ((rt =? 0) && okw sc 28)] | None => [] end ++
  match waiter_unreg plan with Some id => [UnregisterDone id ((rt =? 0) && okw sc 28)] | None => [] end.

Definition placed_attr (sc ax : bytes) : Z :=
  if vram_vidheap plan then word sc VA_ATTR else if 28 <=? blen ax then word ax 24 else 0.
Definition placed_handle (sc : bytes) : Z :=
  if vram_vidheap plan then word sc VA_HMEMORY else word sc 8.

Definition vram_ops (sc ax : bytes) : list SessOp :=
  if vram_reserved plan =? 0 then []
  else
    let ok := (rt =? 0) && okw sc (vram_status_off plan) in
    match vram_ask plan with
    | Some a => [Placed a ok (word sc (vram_status_off plan)) (placed_attr sc ax)]
    | None => []
    end ++
    [Settled ok (placed_attr sc ax)
       (MkCharge (p_target_token plan) (word sc 0) (word sc 4) (placed_handle sc) (vram_reserved plan))].

Definition range_ops (sc : bytes) : list SessOp :=
  if (rt =? 0) && uvm_call plan && (p_ioctl_nr plan =? uvm.FREE)
     && (size_of UvmFreeParams <=? p_inline_len plan) && okw sc UVM_FREE_PARAMS_OFF_rmStatus
  then [RangeFreed (p_target_token plan) (default 0 (get_u64 sc UVM_FREE_PARAMS_OFF_base))]
  else [].

Definition vidheap_ops (sc : bytes) : list SessOp :=
  if frontend plan && (rt =? 0) && (p_ioctl_nr plan =? NV_ESC_RM_VID_HEAP_CONTROL)
     && (V_LEN <=? p_inline_len plan) && okw sc V_STATUS_OFF
     && (word sc V_FUNCTION =? NVOS32_FUNCTION_FREE)
  then [ChargesFreed (word sc 0) (word sc VA_HMEMORY)] else [].

Definition root_ops (sc : bytes) : list SessOp :=
  match alloc_status_off (p_inline_len plan) with
  | Some o =>
      if frontend plan && (rt =? 0) && (p_ioctl_nr plan =? NV_ESC_RM_ALLOC) && okw sc o
         && (word sc 4 =? 0) && negb (word sc 8 =? 0)
      then [RootNoted (word sc 8) (p_target_token plan)] else []
  | None => []
  end.

Definition free_ops (sc : bytes) : list SessOp :=
  if frontend plan && (rt =? 0) && (p_ioctl_nr plan =? NV_ESC_RM_FREE)
     && (16 <=? p_inline_len plan) && okw sc 12
  then let r := word sc 0 in let h := word sc 8 in
       [ArenaFreed r h; ChargesFreed r h] ++
       (if h =? r then [ClientArenasFreed r] else []) ++ [EventsFreed r h]
  else [].

Definition effects (sc ax : bytes) : list SessOp :=
  arena_ops sc ++ event_ops sc ++ waiter_ops sc ++ vram_ops sc ax ++ range_ops sc ++
  vidheap_ops sc ++ root_ops sc ++ free_ops sc.

End effects.

(** ** What is assumed of the driver and of the process-wide settings *)

(** The kernel writes the buffers it was given and no others; an error has an
    errno. *)
Definition driver_ok (f : Z -> Z -> bytes -> bytes -> Z * Z * (bytes * bytes)) : Prop :=
  forall fd request sc ax, wf_bytes sc -> wf_bytes ax ->
  let '(ret, errno, (sc', ax')) := f fd request sc ax in
  (wf_bytes sc' /\ blen sc' = blen sc) /\ (wf_bytes ax' /\ blen ax' = blen ax) /\
  -2147483648 <= ret < 2147483648 /\ (ret < 0 -> 0 < errno < 4096).

Record exec_env_ok (env : ExecEnv) : Prop := {
  xe_driver : driver_ok (driver env);
  xe_card : forall c, card env = Some c -> card_ok c;
}.

Section stages.
Context {A : RmAbi} {AOk : RmAbiOk A} {D : Type} `{PoolDriver D}.
Context (env : ExecEnv) (plan : Plan) (Henv : exec_env_ok env) (Hready : ready plan).

Abbreviation Ex := (Exec (D:=D)).

Definition bufs (x : Ex) : Prop :=
  (wf_bytes (scratch x) /\ blen (scratch x) = p_inline_len plan) /\
  (wf_bytes (aux x) /\ blen (aux x) = p_aux_len plan).

(** Calls made after the driver's. *)
Definition afterwards (c : HostCall) : Prop :=
  match c with Ioctl _ _ _ _ | StoreU32 _ _ _ => False | _ => True end.

(** From [x] to [x'] by [l], with the buffers kept. *)
Record quiet (l : list SessOp) (x x' : Ex) : Prop := {
  q_sess : sess x' = sess_run (sess x) l;
  q_calls : exists cs, calls x' = calls x ++ cs /\ Forall afterwards cs;
  q_scratch : scratch x' = scratch x;
  q_aux : aux x' = aux x;
}.

(** The same with buffers of the same shape. *)
Record moved (l : list SessOp) (x x' : Ex) : Prop := {
  m_sess : sess x' = sess_run (sess x) l;
  m_calls : exists cs, calls x' = calls x ++ cs /\ Forall afterwards cs;
  m_bufs : bufs x -> bufs x';
}.

Lemma quiet_refl x : quiet [] x x.
Proof. split; try done. exists []. by rewrite app_nil_r. Qed.

Lemma quiet_trans l1 l2 x y z : quiet l1 x y -> quiet l2 y z -> quiet (l1 ++ l2) x z.
Proof.
  intros [H1 (c1 & H2 & H3) H4 H5] [K1 (c2 & K2 & K3) K4 K5]. split; try congruence.
  - unfold sess_run in *. by rewrite foldl_app, K1, H1.
  - exists (c1 ++ c2). rewrite K2, H2, app_assoc. split; [done|by apply Forall_app].
Qed.

Lemma quiet_moved l x y : quiet l x y -> moved l x y.
Proof. intros [? ? Hs Ha]. split; [done|done|]. unfold bufs. by rewrite Hs, Ha. Qed.

Lemma moved_trans l1 l2 x y z : moved l1 x y -> moved l2 y z -> moved (l1 ++ l2) x z.
Proof.
  intros [H1 (c1 & H2 & H3) H4] [K1 (c2 & K2 & K3) K4]. split; [| |auto].
  - unfold sess_run in *. by rewrite foldl_app, K1, H1.
  - exists (c1 ++ c2). rewrite K2, H2, app_assoc. split; [done|by apply Forall_app].
Qed.

Lemma quiet_op op x : quiet [op] x (on_sess (fun s => sess_op s op) x).
Proof. split; try done. exists []. by rewrite app_nil_r. Qed.

Lemma quiet_call c x : afterwards c -> quiet [] x (call c x).
Proof. intros Hc. split; try done. exists [c]. split; [done|by constructor]. Qed.

(** ** Rules for the reads and writes of [execute] *)
Abbreviation never := (fun (_ : Empty_set) (_ : Ex) => False).

Lemma wp_at32 (P : Z -> Ex -> Prop) o x : 0 <= o -> o + 4 <= blen (scratch x) ->
  (forall v, get_u32 (scratch x) o = Some v -> P v x) -> wp (at32 o) P never x.
Proof.
  intros Ho Hl HP. destruct (proj2 (get_le_is_Some 4 (scratch x) o)) as [v Hv]; [lia|].
  unfold wp, at32, u32_of. cbn [fst snd]. rewrite Hv. by apply HP.
Qed.

Lemma wp_at64 (P : Z -> Ex -> Prop) o x : 0 <= o -> o + 8 <= blen (scratch x) ->
  (forall v, get_u64 (scratch x) o = Some v -> P v x) -> wp (at64 o) P never x.
Proof.
  intros Ho Hl HP. destruct (proj2 (get_le_is_Some 8 (scratch x) o)) as [v Hv]; [lia|].
  unfold wp, at64, u64_of. cbn [fst snd]. rewrite Hv. by apply HP.
Qed.

Lemma wp_status_ok (P : bool -> Ex -> Prop) o x : 0 <= o -> o + 4 <= blen (scratch x) ->
  P (okw (scratch x) o) x -> wp (status_ok o) P never x.
Proof.
  intros Ho Hl HP. unfold status_ok. apply wp_bind, wp_at32; [done..|]. intros v Hv. apply wp_ret.
  by rewrite <- (proj2 (word_eq _ _ _ Hv)).
Qed.

Lemma wp_edit_scratch (P : unit -> Ex -> Prop) f x : edits (scratch x) (f (scratch x)) ->
  (forall b, f (scratch x) = Ok b -> blen b = blen (scratch x) ->
     (wf_bytes (scratch x) -> wf_bytes b) -> P tt (set_scratch b x)) ->
  wp (edit_scratch f) P never x.
Proof.
  intros (b & Hf & Hl & Hw) HP. unfold edit_scratch, wp, mbind, eff_bind, asks, lift, modify.
  rewrite Hf. cbn. auto.
Qed.

Lemma wp_edit_aux (P : unit -> Ex -> Prop) f x : edits (aux x) (f (aux x)) ->
  (forall b, f (aux x) = Ok b -> blen b = blen (aux x) ->
     (wf_bytes (aux x) -> wf_bytes b) -> P tt (set_aux b x)) ->
  wp (edit_aux f) P never x.
Proof.
  intros (b & Hf & Hl & Hw) HP. unfold edit_aux, wp, mbind, eff_bind, asks, lift, modify.
  rewrite Hf. cbn. auto.
Qed.

Lemma wp_when (P : unit -> Ex -> Prop) c m x :
  (c = true -> wp m P never x) -> (c = false -> P tt x) -> wp (when c m) P never x.
Proof. destruct c; intros H1 H2; [by apply H1|by apply wp_ret, H2]. Qed.

(** ** The stages after the call *)
Variable rt : Z.

Lemma blen_scratch x : bufs x -> blen (scratch x) = p_inline_len plan.
Proof. by intros [[_ ?] _]. Qed.

Lemma wp_keep_arena x : bufs x ->
  wp (keep_arena plan rt) (fun _ x' => quiet (arena_ops plan rt (scratch x)) x x') never x.
Proof.
  intros Hb%blen_scratch. unfold keep_arena, arena_ops.
  destruct (osdesc_arena plan) as [a|] eqn:Ha; [|apply wp_ret, quiet_refl].
  pose proof (rd_arena _ Hready ltac:(by rewrite Ha)).
  apply wp_bind, wp_status_ok; [lia..|]. destruct (_ && _).
  - apply wp_bind, wp_at32; [lia..|]. intros r Hr. apply wp_bind, wp_at32; [lia..|]. intros h Hh.
    apply wp_modify. rewrite (proj1 (word_eq _ _ _ Hr)), (proj1 (word_eq _ _ _ Hh)).
    apply (quiet_op (KeepArena r h a)).
  - apply wp_modify, (quiet_op (DropArena a)).
Qed.

Lemma wp_free_os_event c i x : wp (free_os_event c i) (fun _ x' => quiet [] x x') never x.
Proof.
  unfold free_os_event. apply wp_bind, wp_asks. destruct (event_ctls _ !! c); [|apply wp_ret, quiet_refl].
  by apply wp_modify, quiet_call.
Qed.

Lemma alloc_status_inside o : alloc_status_off (p_inline_len plan) = Some o ->
  28 <= o <= 40 /\ o + 4 <= p_inline_len plan.
Proof.
  unfold alloc_status_off. destruct (48 <=? _) eqn:E; bools; [intros [= <-]; lia|].
  destruct (_ =? 32) eqn:E2; bools; [intros [= <-]; lia|done].
Qed.

Lemma wp_finish_event x : bufs x ->
  wp (finish_event plan rt) (fun _ x' => quiet (event_ops plan rt (scratch x)) x x') never x.
Proof.
  intros Hb%blen_scratch. unfold finish_event, event_ops.
  destruct (event_reg plan) as [r|]; [|apply wp_ret, quiet_refl].
  apply wp_bind, wp_asks, wp_bind.
  destruct (alloc_status_off _) as [o|] eqn:Ho; [|apply wp_ret; cbn [andb]; apply wp_free_os_event].
  apply alloc_status_inside in Ho as [Ho1 Ho2]. rewrite (proj2 (Z.leb_le (o + 4) _)) by lia.
  rewrite andb_true_r. destruct (rt =? 0); [|apply wp_ret; cbn [andb]; apply wp_free_os_event].
  apply wp_status_ok; [lia..|]. cbn [andb]. rewrite (proj2 (Z.leb_le 12 _)) by lia. rewrite andb_true_r.
  destruct (okw _ _); [|apply wp_free_os_event].
  apply wp_bind, wp_at32; [lia..|]. intros h Hh. rewrite (proj1 (word_eq _ _ _ Hh)).
  apply wp_modify, (quiet_op (EventDone r h)).
Qed.

Lemma wp_waiter_ok (P : bool -> Ex -> Prop) x : bufs x -> 32 <= p_inline_len plan ->
  P ((rt =? 0) && okw (scratch x) 28) x -> wp (waiter_ok plan rt) P never x.
Proof.
  intros Hb%blen_scratch Hl HP. unfold waiter_ok. rewrite (proj2 (Z.leb_le 32 _)) by lia.
  rewrite andb_true_r. destruct (rt =? 0); [apply wp_status_ok; [lia..|done]|by apply wp_ret].
Qed.

Lemma wp_finish_waiters x : bufs x ->
  wp (_ ← finish_register plan rt; finish_unregister plan rt)
    (fun _ x' => quiet (waiter_ops plan rt (scratch x)) x x') never x.
Proof.
  intros Hb. unfold waiter_ops.
  assert (wp (finish_register plan rt) (fun _ y => quiet (match waiter_reg plan with
    | Some p => [RegisterDone p ((rt =? 0) && okw (scratch x) 28)] | None => [] end) x y) never x) as H1.
  { unfold finish_register. destruct (waiter_reg plan) as [p|] eqn:Hp; [|apply wp_ret, quiet_refl].
    destruct (rd_waiter _ Hready) as [_ Hl]; [rewrite Hp; by left|].
    apply wp_bind, wp_waiter_ok; [done|done|]. apply wp_modify, (quiet_op (RegisterDone p _)). }
  apply wp_bind. eapply wp_mono; [exact H1| |done]. intros [] y Hy. unfold finish_unregister.
  destruct (waiter_unreg plan) as [i|] eqn:Hi; [|by apply wp_ret; rewrite app_nil_r].
  destruct (rd_waiter _ Hready) as [_ Hl]; [rewrite Hi; by right|].
  apply wp_bind, wp_waiter_ok; [|done|].
  { by apply (m_bufs _ _ _ (quiet_moved _ _ _ Hy)). }
  rewrite (q_scratch _ _ _ Hy). apply wp_modify.
  eapply quiet_trans; [exact Hy|]. apply (quiet_op (UnregisterDone i _)).
Qed.

(** Reads that change nothing. *)
Lemma wp_placed_at (P : Z * Z -> Ex -> Prop) x : bufs x -> vram_reserved plan <> 0 ->
  P (placed_attr plan (scratch x) (aux x), placed_handle plan (scratch x)) x ->
  wp (placed_at plan) P never x.
Proof.
  intros Hb Hv HP. destruct (rd_vram _ Hready (or_introl Hv)) as (_ & _ & H12 & Hvh).
  pose proof (blen_scratch _ Hb) as Hl. unfold placed_at, placed_attr, placed_handle in *.
  destruct (vram_vidheap plan).
  - specialize (Hvh eq_refl). apply wp_bind, wp_asks. rewrite <- Hl.
    apply wp_bind, wp_lift. eapply sat_or_panic; [apply get_range_all|].
    assert (forall o, 0 <= o -> o + 4 <= blen (scratch x) ->
      (if blen (scratch x) <? V_LEN then Ok 0 else rd32 (scratch x) o) = Ok (word (scratch x) o)) as Hrd.
    { intros o Ho Hol. rewrite (proj2 (Z.ltb_ge _ _)) by lia. unfold rd32.
      destruct (proj2 (get_le_is_Some 4 (scratch x) o)) as [v Hg]; [lia|]. rewrite Hg.
      by rewrite (proj1 (word_eq _ _ _ Hg)). }
    unfold V_LEN in Hvh. unfold vidheap_attr_out, vidheap_handle.
    assert (VA_ATTR = 56 /\ VA_HMEMORY = 44) as [Ea Eh] by done.
    rewrite (Hrd VA_ATTR), (Hrd VA_HMEMORY) by lia.
    apply wp_bind, wp_lift. cbn [sat]. apply wp_bind, wp_lift. by apply wp_ret.
  - apply wp_bind, wp_asks, wp_bind, wp_lift.
    destruct (28 <=? blen (aux x)) eqn:E; bools.
    + apply sat_u32_of; [lia..|]. intros v Hg. apply wp_bind, wp_at32; [lia..|]. intros h Hh.
      apply wp_ret. by rewrite (proj1 (word_eq _ _ _ Hg)), (proj1 (word_eq _ _ _ Hh)) in HP.
    + cbn [sat]. apply wp_bind, wp_at32; [lia..|]. intros h Hh. apply wp_ret.
      by rewrite (proj1 (word_eq _ _ _ Hh)) in HP.
Qed.

Lemma wp_settle x : bufs x ->
  wp (settle_reservation plan rt) (fun _ x' => quiet (vram_ops plan rt (scratch x) (aux x)) x x') never x.
Proof.
  intros Hb. pose proof (blen_scratch _ Hb) as Hl. unfold settle_reservation, vram_ops.
  destruct (vram_reserved plan =? 0) eqn:Hz; bools; [apply wp_ret, quiet_refl|].
  destruct (rd_vram _ Hready (or_introl Hz)) as (Ho & Ho4 & H12 & _).
  apply wp_bind, wp_at32; [lia..|]. intros st Hst. destruct (word_eq _ _ _ Hst) as [-> ->].
  apply wp_bind, wp_placed_at; [done..|].
  set (at_ := placed_attr _ _ _). set (hd := placed_handle _ _). set (ok := (rt =? 0) && _).
  apply wp_bind. apply (wp_mono _ (fun _ y => quiet (match vram_ask plan with
    | Some a => [Placed a ok st at_] | None => [] end) x y) _ never); [| |done].
  { destruct (vram_ask plan) as [a|]; [|apply wp_ret, quiet_refl].
    apply wp_modify, (quiet_op (Placed a ok st at_)). }
  intros [] y Hy. pose proof (q_scratch _ _ _ Hy) as Hsc.
  apply wp_bind, wp_at32; [rewrite ?Hsc; lia..|]. intros r Hr.
  apply wp_bind, wp_at32; [rewrite ?Hsc; lia..|]. intros p Hp.
  rewrite Hsc in Hr, Hp. rewrite (proj1 (word_eq _ _ _ Hr)), (proj1 (word_eq _ _ _ Hp)).
  apply wp_modify. eapply quiet_trans; [exact Hy|]. apply (quiet_op (Settled ok at_ _)).
Qed.

Lemma wp_release_range x : bufs x ->
  wp (release_range plan rt) (fun _ x' => quiet (range_ops plan rt (scratch x)) x x') never x.
Proof.
  intros Hb%blen_scratch. unfold release_range, range_ops.
  destruct ((rt =? 0) && uvm_call plan && (p_ioctl_nr plan =? uvm.FREE) && _) eqn:E;
    [|cbn [andb]; apply wp_ret, quiet_refl].
  pose proof (abi_status_inside (A:=A)) as H1. pose proof (abi_free_base (A:=A)) as H2. bools.
  apply wp_bind, wp_status_ok; [lia..|]. cbn [andb]. destruct (okw _ _); [|apply wp_ret, quiet_refl].
  apply wp_bind, wp_at64; [lia..|]. intros b Hg. rewrite Hg.
  apply wp_modify, (quiet_op (RangeFreed _ b)).
Qed.

Lemma wp_vidheap_done (P : bool -> Ex -> Prop) x : bufs x ->
  P (frontend plan && (rt =? 0) && (p_ioctl_nr plan =? NV_ESC_RM_VID_HEAP_CONTROL)
     && (24 <=? p_inline_len plan) && okw (scratch x) V_STATUS_OFF) x ->
  wp (vidheap_done plan rt) P never x.
Proof.
  intros Hb%blen_scratch HP. unfold vidheap_done. change (V_STATUS_OFF + 4) with 24.
  destruct (frontend plan && (rt =? 0) && _ && _) eqn:E; [|by apply wp_ret]. bools.
  by apply wp_status_ok; [unfold V_STATUS_OFF; lia..|].
Qed.

Lemma wp_free_charges r h x : wp (free_charges r h) (fun _ x' => quiet [ChargesFreed r h] x x') never x.
Proof. apply wp_modify, (quiet_op (ChargesFreed r h)). Qed.

Lemma rd32_word b o : 0 <= o -> o + 4 <= blen b -> rd32 b o = Ok (word b o).
Proof.
  intros Ho Hl. destruct (proj2 (get_le_is_Some 4 b o)) as [v Hg]; [lia|]. unfold rd32. rewrite Hg.
  by rewrite (proj1 (word_eq _ _ _ Hg)).
Qed.

Lemma wp_vidheap_free x : bufs x ->
  wp (vidheap_free plan rt) (fun _ x' => quiet (vidheap_ops plan rt (scratch x)) x x') never x.
Proof.
  intros Hb. pose proof (blen_scratch _ Hb) as Hl. unfold vidheap_free, vidheap_ops.
  apply wp_bind, wp_vidheap_done; [done|]. rewrite <- Hl. unfold V_LEN.
  destruct (frontend plan && (rt =? 0) && _) eqn:E; cbn [andb]; [|apply wp_ret, quiet_refl].
  destruct (24 <=? blen (scratch x)) eqn:E24; cbn [andb]; bools.
  2: { rewrite (proj2 (Z.leb_gt 184 _)) by lia. apply wp_ret, quiet_refl. }
  destruct (okw _ _); cbn [andb]; [|rewrite andb_false_r; apply wp_ret, quiet_refl].
  rewrite andb_true_r. apply wp_bind, wp_asks, wp_bind, wp_lift.
  eapply sat_or_panic; [apply get_range_all|]. apply wp_bind, wp_lift.
  unfold vidheap_function, vidheap_handle, V_LEN. destruct (184 <=? blen (scratch x)) eqn:E184; bools; cbn [andb].
  2: { cbn [sat]. rewrite bool_decide_eq_false_2 by done. apply wp_ret, quiet_refl. }
  assert (V_FUNCTION = 8 /\ VA_HMEMORY = 44) as [EV EH] by done.
  rewrite (rd32_word _ V_FUNCTION) by lia. cbn [mbind outcome_bind sat].
  rewrite (proj2 (Z.ltb_ge _ 184)) by lia. rewrite (rd32_word _ VA_HMEMORY) by lia.
  destruct (word _ V_FUNCTION =? NVOS32_FUNCTION_FREE) eqn:Ef; bools.
  - rewrite Ef, bool_decide_eq_true_2 by done. apply wp_bind, wp_at32; [lia..|]. intros r Hr.
    apply wp_bind, wp_lift. cbn [sat]. rewrite (proj1 (word_eq _ _ _ Hr)). apply wp_free_charges.
  - rewrite bool_decide_eq_false_2 by congruence. apply wp_ret, quiet_refl.
Qed.

Lemma wp_log_object x : bufs x -> wp (log_object plan) (fun _ x' => quiet [] x x') never x.
Proof.
  intros Hb%blen_scratch. apply wp_when; intros _; [|apply quiet_refl].
  apply wp_bind, wp_asks, wp_bind, wp_lift. rewrite <- Hb.
  eapply sat_or_panic; [apply get_range_all|]. apply wp_ret, quiet_refl.
Qed.

Lemma wp_record_root x : bufs x ->
  wp (record_root plan rt) (fun _ x' => quiet (root_ops plan rt (scratch x)) x x') never x.
Proof.
  intros Hb%blen_scratch. unfold record_root, root_ops.
  destruct (frontend plan && (rt =? 0) && (p_ioctl_nr plan =? NV_ESC_RM_ALLOC)) eqn:E; cbn [andb].
  2: { destruct (alloc_status_off _); apply wp_ret, quiet_refl. }
  destruct (12 <=? p_inline_len plan) eqn:E12; bools.
  2: { destruct (alloc_status_off _) as [o|] eqn:Ho; [|apply wp_ret, quiet_refl].
       apply alloc_status_inside in Ho. lia. }
  apply wp_bind. destruct (alloc_status_off _) as [o|] eqn:Ho.
  - apply alloc_status_inside in Ho as [? ?]. rewrite (proj2 (Z.leb_le _ _)) by lia.
    apply wp_status_ok; [lia..|]. apply wp_bind, wp_at32; [lia..|]. intros p Hp.
    apply wp_bind, wp_at32; [lia..|]. intros h Hh.
    rewrite (proj1 (word_eq _ _ _ Hp)), (proj1 (word_eq _ _ _ Hh)).
    destruct (okw _ _ && _ && _); [|apply wp_ret, quiet_refl].
    apply wp_modify, (quiet_op (RootNoted h _)).
  - apply wp_ret, wp_bind, wp_at32; [lia..|]. intros p Hp. apply wp_bind, wp_at32; [lia..|]. intros h Hh.
    apply wp_ret, quiet_refl.
Qed.

Lemma wp_free_rm_object x : bufs x ->
  wp (free_rm_object plan rt) (fun _ x' => quiet (free_ops plan rt (scratch x)) x x') never x.
Proof.
  intros Hb%blen_scratch. unfold free_rm_object, free_ops.
  destruct (frontend plan && (rt =? 0) && _ && _) eqn:E; cbn [andb]; [|apply wp_ret, quiet_refl]. bools.
  apply wp_bind, wp_status_ok; [lia..|]. destruct (okw _ _); [|apply wp_ret, quiet_refl].
  apply wp_bind, wp_at32; [lia..|]. intros r Hr. apply wp_bind, wp_at32; [lia..|]. intros h Hh.
  rewrite (proj1 (word_eq _ _ _ Hr)), (proj1 (word_eq _ _ _ Hh)).
  apply wp_bind, wp_modify, wp_bind. pose proof (quiet_op (ArenaFreed r h) x) as Q1.
  eapply wp_mono; [apply wp_free_charges| |done]. intros [] y Q2.
  pose proof (quiet_trans _ _ _ _ _ Q1 Q2) as Q. clear Q1 Q2. cbn [app] in Q.
  destruct (h =? r) eqn:Ehr.
  - apply wp_bind, wp_modify. apply wp_modify.
    apply (quiet_trans [_; _] [_; _] _ _ _ Q).
    apply (quiet_trans [_] [_] _ _ _ (quiet_op (ClientArenasFreed r) y)).
    apply (quiet_op (EventsFreed r h)).
  - apply wp_bind, wp_asks, wp_bind, wp_modify.
    pose proof (quiet_trans [_; _] [_] _ _ _ Q (quiet_op (EventsFreed r h) y)) as Q3. cbn [app] in Q3 |- *.
    destruct (events _ !! (r, h)) as [e|]; [|by apply wp_ret].
    eapply wp_mono; [apply wp_free_os_event| |done]. intros [] z Q4.
    apply (quiet_trans [_; _; _] [] _ _ _ Q3 Q4).
Qed.

Lemma wp_label_client x : bufs x -> wp (label_client env plan rt) (fun _ x' => quiet [] x x') never x.
Proof.
  intros Hb%blen_scratch. unfold label_client. destruct (_ && _ && _ && _ && _) eqn:E; bools;
    [|apply wp_ret, quiet_refl].
  apply wp_bind, wp_at32; [lia..|]. intros c Hc. apply wp_bind, wp_status_ok; [lia..|].
  destruct (_ && _); [|apply wp_ret, quiet_refl]. apply wp_bind, wp_at32; [lia..|]. intros h Hh.
  by apply wp_modify, quiet_call.
Qed.

Lemma wp_grant_copies x : bufs x -> wp (grant_copies plan rt) (fun _ x' => quiet [] x x') never x.
Proof.
  intros Hb%blen_scratch. unfold grant_copies. destruct (_ && _ && _ && _) eqn:E; bools;
    [|apply wp_ret, quiet_refl].
  apply wp_bind, wp_at32; [lia..|]. intros st Hst. apply wp_bind, wp_at32; [lia..|]. intros c Hc.
  destruct (_ && _); [|apply wp_ret, quiet_refl].
  apply wp_bind, wp_at32; [lia..|]. intros r Hr. apply wp_bind, wp_at32; [lia..|]. intros h Hh.
  by apply wp_modify, quiet_call.
Qed.

Lemma uvm_status_nonneg nr o : uvm_status_off (A:=A) nr = Some o -> 0 <= o.
Proof.
  pose proof (abi_status_inside (A:=A)) as Ha. intros Ho. unfold uvm_status_off in Ho.
  apply match_nr_Some in Ho as (ks & Hin & _).
  repeat (apply elem_of_cons in Hin as [[= _ ->]|Hin]; [first [bools; lia|by vm_compute]|]).
  by apply elem_of_nil in Hin.
Qed.

Lemma wp_log_call x : bufs x -> wp (log_call env plan rt) (fun _ x' => quiet [] x x') never x.
Proof.
  intros Hb%blen_scratch. unfold log_call.
  assert (forall f y, quiet [] x y -> quiet [] x (on_logs f y)) as Hlog by (intros f y []; by split).
  apply wp_bind. apply (wp_mono _ (fun _ y => y = x) _ never); [| |done].
  { unfold log_sub. destruct (_ && _ && _) eqn:E; bools; [by apply wp_at32; [lia..|]|].
    destruct (frontend plan && (p_ioctl_nr plan =? NV_ESC_RM_ALLOC) && _) eqn:E2; bools;
      [by apply wp_at32; [lia..|]|by apply wp_ret]. }
  intros sub y ->. apply wp_bind. apply (wp_mono _ (fun _ y => y = x) _ never); [| |done].
  { unfold log_status. repeat (match goal with |- wp (if ?c then at32 _ else _) _ _ _ =>
      destruct c eqn:?; bools; [by apply wp_at32; [lia..|]|] end).
    destruct (uvm_call plan); [|by apply wp_ret].
    destruct (uvm_status_off _) as [o|] eqn:Ho; [|by apply wp_ret]. apply uvm_status_nonneg in Ho.
    destruct (o + 4 <=? _) eqn:E; bools; [by apply wp_at32; [lia..|]|by apply wp_ret]. }
  intros st y ->. apply wp_bind. apply (wp_mono _ (fun _ y => quiet [] x y) _ never); [| |done].
  { apply wp_when; intros _; [apply wp_modify, Hlog|]; apply quiet_refl. }
  intros [] y Hy. apply wp_when; intros _; [by apply wp_modify, Hlog|done].
Qed.

(** ** The stages that rewrite a buffer *)
Lemma moved_scratch b x : blen b = blen (scratch x) -> (wf_bytes (scratch x) -> wf_bytes b) ->
  moved [] x (set_scratch b x).
Proof.
  intros Hl Hw. split; cbn; [done|exists []; by rewrite app_nil_r|]. unfold bufs. cbn.
  intros [[? ?] ?]. split; [|done]. split; [auto|lia].
Qed.

Lemma moved_aux b x : blen b = blen (aux x) -> (wf_bytes (aux x) -> wf_bytes b) ->
  moved [] x (set_aux b x).
Proof.
  intros Hl Hw. split; cbn; [done|exists []; by rewrite app_nil_r|]. unfold bufs. cbn.
  intros [? [? ?]]. split; [done|]. split; [auto|lia].
Qed.

Lemma moved_refl x : moved [] x x.
Proof. apply quiet_moved, quiet_refl. Qed.

Lemma wp_restore x : bufs x ->
  wp (restore_middle plan) (fun _ x' => moved [] x x' /\ aux x' = aux x /\
    match osdesc_nvos64_tail plan with
    | None => scratch x' = scratch x
    | Some t => stored (scratch x) 16 t (scratch x')
    end) never x.
Proof.
  intros Hb%blen_scratch. unfold restore_middle.
  destruct (osdesc_nvos64_tail plan) as [t|] eqn:Ht; [|apply wp_ret; by split; [apply moved_refl|]].
  destruct (rd_tail _ Hready t Ht) as (Htl & Htw & Ha). pose proof (rd_arena _ Hready Ha).
  apply wp_bind, wp_asks. rewrite (proj2 (Z.leb_le 40 _)), (proj2 (Z.leb_le 24 _)) by lia. cbn [andb].
  rewrite take_ge by (unfold blen in Htl; lia).
  apply wp_edit_scratch; [by apply edits_range; [lia..|]|]. intros b Hs Hl Hw.
  split; [by apply moved_scratch|]. split; [done|]. cbn.
  destruct (set_range (scratch x) 16 t) as [b'|] eqn:E; [|done]. cbn in Hs. simplify_eq.
  by apply set_range_stored.
Qed.

Lemma edits_rewritten {Y} (f : bytes -> may_panic (option Y * bytes)) b : keeps b (f b) -> edits b (rewritten f b).
Proof. intros (r & b' & Hf & Hl & Hw). exists b'. unfold rewritten. by rewrite Hf. Qed.

Lemma edits_suffix off f b : 0 <= off <= blen b -> edits (drop (Z.to_nat off) b) (f (drop (Z.to_nat off) b)) ->
  edits b (on_suffix off f b).
Proof.
  intros Ho (b' & Hf & Hl & Hw). unfold on_suffix. rewrite (proj2 (Z.ltb_ge _ _)) by lia.
  destruct (keeps_suffix (X:=unit) off b (Ok (tt, b')) (fun x => x)) as (? & b2 & Hb2 & Hl2 & Hw2);
    [done|by exists tt, b'|]. cbn in Hb2. simplify_eq. rewrite Hf. by eexists.
Qed.

Lemma edits_prefix n f b : 0 <= n <= blen b -> (forall p, edits p (f p)) -> edits b (on_prefix n f b).
Proof.
  intros Hn Hf. unfold on_prefix. destruct (proj2 (get_range_is_Some b 0 n)) as [p Hp]; [lia|].
  rewrite Hp. cbn [mbind outcome_bind or_panic]. destruct (Hf p) as (p' & -> & Hl & Hw).
  cbn [mbind outcome_bind]. pose proof (get_range_length _ _ _ _ Hp) as Hpl.
  exists (p' ++ drop (Z.to_nat n) b). split; [done|]. split.
  - unfold blen in *. rewrite length_app, length_drop. lia.
  - intros Hb. apply Forall_app. split; [|by apply Forall_drop]. apply Hw. by eapply get_range_wf.
Qed.

(** The rewriting of a control's answer. *)
Record reanswered (x x' : Ex) : Prop := {
  ra_moved : moved [] x x';
  ra_sess : sess x' = sess x;
  ra_scratch : scratch x' = scratch x;
  ra_calls : calls x' = calls x;
}.

Lemma reanswered_refl x : reanswered x x.
Proof. split; try done. apply moved_refl. Qed.

Lemma reanswered_trans x y z : reanswered x y -> reanswered y z -> reanswered x z.
Proof. intros [? ? ? ?] [? ? ? ?]. split; try congruence. by apply (moved_trans [] [] x y z). Qed.

Lemma reanswered_aux b x : blen b = blen (aux x) -> (wf_bytes (aux x) -> wf_bytes b) ->
  reanswered x (set_aux b x).
Proof. intros. split; try done. by apply moved_aux. Qed.

Lemma wp_edit_answer f x : edits (aux x) (f (aux x)) ->
  wp (edit_aux f) (fun _ x' => reanswered x x' /\ f (aux x) = Ok (aux x')) never x.
Proof. intros He. apply wp_edit_aux; [done|]. intros b Hb Hl Hw. split; [by apply reanswered_aux|done]. Qed.

Lemma wp_rewritten {Y} (f : bytes -> may_panic (option Y * bytes)) x : keeps (aux x) (f (aux x)) ->
  wp (edit_aux (rewritten f)) (fun _ x' => reanswered x x') never x.
Proof.
  intros Hk. eapply wp_mono; [apply wp_edit_answer, edits_rewritten, Hk| |done]. by intros [] y [? _].
Qed.

Section answers.
Context (cmd : Z) (x : Ex) (Hb : bufs x) (H32 : 32 <= p_inline_len plan)
  (Hfb : 0 <= fb_length (profile (s_ledger (sess x)))).

Lemma wp_status28 (P : bool -> Ex -> Prop) : P (okw (scratch x) 28) x -> wp (status_ok 28) P never x.
Proof. intros HP. pose proof (blen_scratch _ Hb). apply wp_status_ok; [lia..|done]. Qed.

Lemma wp_capacity : wp (capacity cmd) (fun _ x' => reanswered x x') never x.
Proof.
  unfold capacity. apply wp_bind, wp_asks. destruct (_ && _); [|apply wp_ret, reanswered_refl].
  apply wp_bind, wp_status28, wp_when; intros _; [|apply reanswered_refl].
  apply wp_rewritten, keeps_fb_info.
Qed.

Lemma wp_capacity_list :
  wp (capacity_list plan) (fun _ x' => reanswered x x' /\ (fb_info_list plan = None -> x' = x)) never x.
Proof.
  unfold capacity_list. destruct (fb_info_list plan) as [[off asked]|] eqn:Hl;
    [|apply wp_ret; split; [apply reanswered_refl|done]]. pose proof (rd_fb _ Hready _ _ Hl).
  apply wp_bind, wp_status28, wp_bind, wp_asks. destruct (_ && _) eqn:E; bools;
    [|apply wp_ret; split; [apply reanswered_refl|done]].
  eapply wp_mono; [apply wp_edit_answer, edits_suffix; [lia|]| |done]; [|by intros [] y [? _]].
  apply edits_rewritten, keeps_fb_list.
Qed.

Lemma wp_card_name : wp (card_name env cmd) (fun _ x' => reanswered x x') never x.
Proof.
  unfold card_name. destruct (_ && _); [|apply wp_ret, reanswered_refl].
  apply wp_bind, wp_status28, wp_bind, wp_asks, wp_when; intros _; [|apply reanswered_refl].
  apply wp_rewritten, keeps_gpu_name; [apply Hb|done].
Qed.

Lemma wp_process_lists :
  wp (process_lists cmd) (fun r x' => reanswered x x' /\
    (if ((cmd =? CMD_GPU_GET_PIDS) || (cmd =? CMD_GPU_GET_PID_INFO)) && okw (scratch x) 28 then
       exists n, (if cmd =? CMD_GPU_GET_PIDS then rewrite_get_pids else rewrite_get_pid_info)
           (aux x) (roster (s_ledger (sess x))) = Ok (n, aux x') /\
         r = match n with None => true | Some _ => false end
     else r = false /\ x' = x)) never x.
Proof.
  unfold process_lists. destruct (_ || _); cbn [andb]; [|apply wp_ret; split; [apply reanswered_refl|done]].
  apply wp_bind, wp_status28. destruct (okw _ _); [|apply wp_ret; split; [apply reanswered_refl|done]].
  apply wp_bind, wp_asks, wp_bind, wp_asks, wp_bind, wp_lift. set (rows := roster _).
  assert (keeps (aux x) (if cmd =? CMD_GPU_GET_PIDS then rewrite_get_pids (aux x) rows
    else rewrite_get_pid_info (aux x) rows)) as (n & b & Hr & Hl & Hw)
    by (destruct (cmd =? _); [apply keeps_get_pids|apply keeps_get_pid_info]).
  rewrite Hr. cbn [sat]. apply wp_bind, wp_modify, wp_ret. split; [by apply reanswered_aux|].
  exists n. split; [|done]. cbn. by destruct (cmd =? _).
Qed.

Lemma wp_vgpu_answers : wp (vgpu_answers env cmd) (fun _ x' => reanswered x x') never x.
Proof.
  unfold vgpu_answers. apply wp_bind, wp_asks, wp_bind, wp_status28.
  destruct (negb _); [apply wp_ret, reanswered_refl|].
  destruct (_ && _ && _); [apply wp_rewritten, keeps_virtualization_mode|].
  destruct (_ && _); [apply wp_rewritten, keeps_encoder_capacity|apply wp_ret, reanswered_refl].
Qed.

End answers.

Lemma reanswered_bufs x y : reanswered x y -> bufs x -> bufs y.
Proof. intros Hr. apply (m_bufs _ _ _ (ra_moved _ _ Hr)). Qed.

Definition control_answer : bool :=
  frontend plan && (rt =? 0) && (p_ioctl_nr plan =? NV_ESC_RM_CONTROL) && (32 <=? p_inline_len plan).

Lemma wp_rewrite_answer x : bufs x -> 0 <= fb_length (profile (s_ledger (sess x))) ->
  wp (rewrite_answer env plan rt) (fun refused x' => reanswered x x' /\
    (control_answer = false -> refused = false /\ x' = x)) never x.
Proof.
  intros Hb Hfb. unfold rewrite_answer. fold control_answer.
  destruct control_answer eqn:E; [|apply wp_ret; by split; [apply reanswered_refl|]].
  unfold control_answer in E. bools. pose proof (blen_scratch _ Hb) as Hl.
  assert (forall y, reanswered x y -> bufs y /\ 0 <= fb_length (profile (s_ledger (sess y)))) as Hk.
  { intros y Hr. split; [by eapply reanswered_bufs|]. by rewrite (ra_sess _ _ Hr). }
  apply wp_bind, wp_at32; [lia..|]. intros cmd _.
  apply wp_bind. eapply wp_mono; [by apply wp_capacity| |done]. intros [] y1 R1. destruct (Hk _ R1).
  apply wp_bind. eapply wp_mono; [by apply wp_capacity_list| |done]. intros [] y2 [R2 _].
  pose proof (reanswered_trans _ _ _ R1 R2) as R12. destruct (Hk _ R12).
  apply wp_bind. eapply wp_mono; [by apply wp_card_name| |done]. intros [] y3 R3.
  pose proof (reanswered_trans _ _ _ R12 R3) as R13. destruct (Hk _ R13).
  apply wp_bind. eapply wp_mono; [by apply wp_process_lists| |done]. intros r y4 [R4 _].
  pose proof (reanswered_trans _ _ _ R13 R4) as R14. destruct (Hk _ R14).
  apply wp_bind. eapply wp_mono; [by apply wp_vgpu_answers| |done]. intros [] y5 R5.
  apply wp_ret. split; [by eapply reanswered_trans|done].
Qed.

Lemma wp_vidheap_capacity x : bufs x ->
  wp (vidheap_capacity plan rt) (fun _ x' => moved [] x x' /\ sess x' = sess x /\ aux x' = aux x /\
    frame (scratch x) (scratch x') 24 40 /\
    ((frontend plan && (p_ioctl_nr plan =? NV_ESC_RM_VID_HEAP_CONTROL)) = false -> x' = x)) never x.
Proof.
  intros Hb. pose proof (blen_scratch _ Hb) as Hl. unfold vidheap_capacity. apply wp_bind, wp_asks, wp_bind.
  set (l := s_ledger (sess x)).
  assert (moved [] x x /\ sess x = sess x /\ aux x = aux x /\ frame (scratch x) (scratch x) 24 40 /\
    ((frontend plan && (p_ioctl_nr plan =? NV_ESC_RM_VID_HEAP_CONTROL)) = false -> x = x)) as Hid
    by (split_and!; try done; apply moved_refl).
  destruct (enabled l); [|by apply wp_ret, wp_when].
  apply wp_vidheap_done; [done|]. apply wp_when; intros E; [|done]. bools.
  assert (exists b, on_prefix (p_inline_len plan) (fun b => r ← rewrite_vidheap_info b (limit l) (used l);
    Ok r.2) (scratch x) = Ok b /\ keeps (scratch x) (Ok (tt, b)) /\ frame (scratch x) b 24 40)
    as (b & Hp & (? & b' & Hb' & Hbl & Hbw) & Hf).
  { unfold on_prefix. rewrite <- Hl, get_range_all. cbn [mbind outcome_bind or_panic].
    destruct (keeps_vidheap_info (scratch x) (limit l) (used l)) as (r & b & Hr & Hbl & Hbw).
    exists b. rewrite Hr. cbn [mbind outcome_bind snd].
    rewrite drop_ge by (unfold blen; lia). rewrite app_nil_r. split; [done|]. split; [by exists tt, b|].
    revert Hr. unfold rewrite_vidheap_info. destruct (vidheap_function _); cbn [mbind outcome_bind]; [|done..].
    destruct (_ || _); [by intros [= <- <-]|].
    destruct (wr64 (scratch x) V_TOTAL _) as [b1| |] eqn:E1; cbn [mbind outcome_bind]; [|done..].
    destruct (wr64 b1 V_FREE _) as [b2| |] eqn:E2; cbn [mbind outcome_bind]; [|done..]. intros [= <- <-].
    unfold wr64 in E1, E2. destruct (set_u64 (scratch x) V_TOTAL _) as [c1|] eqn:S1; [|done].
    destruct (set_u64 b1 V_FREE _) as [c2|] eqn:S2; [|done]. cbn in E1, E2. simplify_eq.
    apply set_le_edited in S1, S2. assert (V_TOTAL = 24 /\ V_FREE = 32) as [Et Ef] by done.
    split; [exact Hbl|]. intros o k Hd.
    rewrite (ed_frame _ _ _ _ _ S2), (ed_frame _ _ _ _ _ S1) by lia. done. }
  simplify_eq. unfold edit_scratch. apply wp_bind, wp_asks, wp_bind, wp_lift. rewrite Hp. cbn [sat].
  apply wp_modify. split_and!; try done; [by apply moved_scratch|].
  intros Hn. exfalso. match goal with H : frontend plan = true |- _ => rewrite H in Hn end.
  match goal with H : p_ioctl_nr plan = _ |- _ => rewrite H in Hn end. done.
Qed.

(** ** UUIDs *)
Definition uuid_target (x : Ex) : bool :=
  (p_ioctl_nr plan =? NV_ESC_RM_CONTROL) && (32 <=? p_inline_len plan)
  && bool_decide (word (scratch x) 8 ∈ UUID_CONTROLS).

Definition translation (dir : bool) (b : bytes) : may_panic bytes :=
  match (if mediate_uuid (grid_switches env) then card env else None) with
  | None => Ok b
  | Some c => if dir then Grid.to_host c b else Grid.to_guest c b
  end.

Lemma edits_translation dir b : edits b (translation dir b).
Proof.
  unfold translation. destruct (mediate_uuid _); [|apply edits_refl].
  destruct (card env) as [c|] eqn:Hc; [|apply edits_refl].
  destruct (edits_translate c b (xe_card _ Henv c Hc)). by destruct dir.
Qed.

(** The scratch buffer of a UVM call, the parameters of the controls that
    name the card, and nothing else. *)
Record swapped (dir : bool) (x x' : Ex) : Prop := {
  sw_moved : moved [] x x';
  sw_sess : sess x' = sess x;
  sw_calls : calls x' = calls x;
  sw_scratch : if uvm_call plan then translation dir (scratch x) = Ok (scratch x')
               else scratch x' = scratch x;
  sw_aux : if negb (uvm_call plan) && uuid_target x then translation dir (aux x) = Ok (aux x')
           else aux x' = aux x;
}.

Lemma wp_uuid_swap dir x : bufs x -> wp (uuid_swap env plan dir) (fun _ x' => swapped dir x x') never x.
Proof.
  intros Hb. pose proof (blen_scratch _ Hb) as Hl. unfold uuid_swap.
  pose proof (edits_translation dir) as He.
  assert (translation dir = fun b => match (if mediate_uuid (grid_switches env) then card env else None) with
    | None => Ok b | Some c => if dir then Grid.to_host c b else Grid.to_guest c b end) as Ht by done.
  destruct (if mediate_uuid (grid_switches env) then card env else None) as [c|].
  2: { apply wp_ret. split; [apply moved_refl|done|done|..]; case_match; try done; by rewrite Ht. }
  apply wp_bind, wp_asks. rewrite Hl, Z.min_id.
  assert (forall b, (if dir then Grid.to_host c else Grid.to_guest c) b = translation dir b) as Hc
    by (intros b; rewrite Ht; by destruct dir).
  destruct (uvm_call plan) eqn:Hu.
  - apply wp_edit_scratch.
    { rewrite <- Hl. apply edits_prefix; [pose proof (blen_nonneg (scratch x)); lia|]. intros p. by rewrite Hc. }
    intros b Hs Hbl Hbw. split; [by apply moved_scratch|done|done|..]; rewrite Hu; cbn; [|done].
    revert Hs. unfold on_prefix. rewrite <- Hl, get_range_all. cbn [mbind outcome_bind or_panic].
    rewrite Hc. destruct (translation dir (scratch x)); cbn [mbind outcome_bind]; [|done..].
    rewrite drop_ge, app_nil_r by (unfold blen; lia). by intros [= <-].
  - assert (swapped dir x x \/ uuid_target x = true) as Hid.
    { destruct (uuid_target x) eqn:E; [by right|left]. split; [apply moved_refl|done|done|..]; rewrite Hu; [done|].
      by rewrite E. }
    unfold uuid_target in Hid. destruct ((p_ioctl_nr plan =? _) && _) eqn:E; cbn [andb] in Hid;
      [|apply wp_ret; by destruct Hid].
    bools. apply wp_bind, wp_at32; [lia..|]. intros cmd Hcmd. rewrite (proj1 (word_eq _ _ _ Hcmd)) in Hid.
    destruct (bool_decide (cmd ∈ UUID_CONTROLS)) eqn:Ec; [|apply wp_ret; by destruct Hid].
    apply wp_edit_aux; [by rewrite Hc|]. intros b Hs Hbl Hbw. rewrite Hc in Hs.
    split; [by apply moved_aux|done|done|..]; rewrite Hu; [done|]. cbn [negb andb].
    unfold uuid_target. rewrite (proj1 (word_eq _ _ _ Hcmd)), Ec.
    rewrite (proj2 (Z.eqb_eq _ _)), (proj2 (Z.leb_le _ _)) by done. done.
Qed.

(** ** Two kinds of control whose answer is known exactly *)
Definition mediated_controls : list Z :=
  [CMD_FB_GET_INFO_V2; CMD_GPU_GET_NAME_STRING; CMD_GPU_GET_PIDS; CMD_GPU_GET_PID_INFO;
   CMD_GPU_GET_VIRTUALIZATION_MODE; CMD_GPU_GET_ENCODER_CAPACITY].

Definition lists_processes (cmd : Z) : bool :=
  (cmd =? CMD_GPU_GET_PIDS) || (cmd =? CMD_GPU_GET_PID_INFO).

Definition list_rewrite (cmd : Z) : bytes -> list ProcRow -> may_panic (option Z * bytes) :=
  if cmd =? CMD_GPU_GET_PIDS then rewrite_get_pids else rewrite_get_pid_info.

(** What the other rewrites do to [cmd]. *)
Lemma wp_others_keep cmd x : bufs x -> 32 <= p_inline_len plan ->
  cmd ∉ mediated_controls \/ lists_processes cmd = true ->
  wp (_ ← capacity cmd; _ ← capacity_list plan; card_name env cmd)
    (fun _ x' => reanswered x x' /\ (fb_info_list plan = None -> x' = x)) never x /\
  wp (vgpu_answers env cmd) (fun _ x' => x' = x) never x.
Proof.
  intros Hb H32 Hc.
  assert (cmd <> CMD_FB_GET_INFO_V2 /\ cmd <> CMD_GPU_GET_NAME_STRING /\
    cmd <> CMD_GPU_GET_VIRTUALIZATION_MODE /\ cmd <> CMD_GPU_GET_ENCODER_CAPACITY) as (N1 & N2 & N3 & N4).
  { destruct Hc as [Hc|Hc]; [unfold mediated_controls in Hc; set_solver|].
    unfold lists_processes in Hc. by bool_cases; subst. }
  apply Z.eqb_neq in N1, N2, N3, N4. split.
  - apply wp_bind. unfold capacity. apply wp_bind, wp_asks. rewrite N1, andb_false_r. apply wp_ret.
    apply wp_bind. eapply wp_mono; [by apply wp_capacity_list| |done].
    intros [] y Hy. unfold card_name. rewrite N2. by apply wp_ret.
  - unfold vgpu_answers. apply wp_bind, wp_asks, wp_bind, wp_status28; [done..|]. rewrite N3, N4.
    cbn [andb]. destruct (negb _); by apply wp_ret.
Qed.

Lemma wp_answer_exact x cmd : bufs x -> control_answer = true ->
  get_u32 (scratch x) 8 = Some cmd -> cmd ∉ mediated_controls \/ lists_processes cmd = true ->
  wp (rewrite_answer env plan rt) (fun refused x' => exists y, reanswered x y /\
    (fb_info_list plan = None -> y = x) /\
    if lists_processes cmd && okw (scratch x) 28 then
      exists n, list_rewrite cmd (aux y) (roster (s_ledger (sess x))) = Ok (n, aux x') /\
        refused = match n with None => true | Some _ => false end
    else refused = false /\ x' = y) never x.
Proof.
  intros Hb E Hcmd Hc. unfold rewrite_answer. fold control_answer. rewrite E.
  unfold control_answer in E. bools. pose proof (blen_scratch _ Hb) as Hl.
  apply wp_bind, wp_at32; [lia..|]. intros v Hv. rewrite Hcmd in Hv. injection Hv as <-.
  destruct (wp_others_keep cmd x) as [W1 W2]; [done..|].
  apply wp_bind_bind3. eapply wp_mono; [exact W1| |done]. intros [] y [R1 Hf].
  pose proof (reanswered_bufs _ _ R1 Hb) as By.
  apply wp_bind. eapply wp_mono; [by apply wp_process_lists| |done]. intros r z [R HL].
  destruct (wp_others_keep cmd z) as [_ W3]; [by eapply reanswered_bufs|done..|].
  apply wp_bind. eapply wp_mono; [exact W3| |done]. intros [] z' ->. apply wp_ret. exists y.
  split; [done|]. split; [done|]. rewrite (ra_scratch _ _ R1), (ra_sess _ _ R1) in HL. exact HL.
Qed.

(** All that is said of a rewritten answer. *)
Definition answered (x : Ex) (refused : bool) (x' : Ex) : Prop :=
  forall cmd, control_answer = true ->
  get_u32 (scratch x) 8 = Some cmd -> cmd ∉ mediated_controls \/ lists_processes cmd = true ->
  exists ans, (fb_info_list plan = None -> ans = aux x) /\ wf_bytes ans /\
  if lists_processes cmd && okw (scratch x) 28 then
    exists n, list_rewrite cmd ans (roster (s_ledger (sess x))) = Ok (n, aux x') /\
      refused = match n with None => true | Some _ => false end
  else refused = false /\ aux x' = ans.

Lemma wp_answered x : bufs x -> 0 <= fb_length (profile (s_ledger (sess x))) ->
  wp (rewrite_answer env plan rt) (fun refused x' => reanswered x x' /\
    (control_answer = false -> refused = false /\ x' = x) /\ answered x refused x') never x.
Proof.
  intros Hb Hfb. pose proof (wp_rewrite_answer x Hb Hfb) as W.
  set (cmd := word (scratch x) 8). destruct (decide (control_answer = true /\
    get_u32 (scratch x) 8 = Some cmd /\ (cmd ∉ mediated_controls \/ lists_processes cmd = true)))
    as [(Hc & Hg & Hm)|Hno].
  - eapply wp_mono; [apply (wp_and _ _ _ _ _ _ W (wp_answer_exact x cmd Hb Hc Hg Hm))| |by intros ? ? []].
    intros refused x' [[R Hn] (y & Ry & Hf & He)]. split; [done|]. split; [done|]. intros cmd' _ Hg' _.
    rewrite Hg in Hg'. injection Hg' as <-. exists (aux y). split; [by intros ->%Hf|]. split; [apply (reanswered_bufs _ _ Ry Hb)|].
    destruct (_ && _); [done|]. by destruct He as [-> ->].
  - eapply wp_mono; [exact W| |done]. intros refused x' [R Hn]. split; [done|]. split; [done|].
    intros c Hc Hg Hm. destruct Hno. unfold cmd. rewrite (proj1 (word_eq _ _ _ Hg)). done.
Qed.

(** ** After the call *)
Definition vidheap_call : bool := frontend plan && (p_ioctl_nr plan =? NV_ESC_RM_VID_HEAP_CONTROL).

Definition rsp_of (errno : Z) : Rsp :=
  {| rsp_seq := p_seq plan; Wire.ret := if rt <? 0 then - errno else rt; Wire.token := 0;
     rsp_inline_len := wrap32 (p_inline_len plan); rsp_aux_len := wrap32 (p_aux_len plan);
     scm_fd_count := 0; rsp_pad := 0 |}.

(** From the answer, UUIDs translated, in [y] to the reply [r] and [x']. *)
Record concluded (errno : Z) (y : Ex) (r : bytes) (x' : Ex) : Prop := {
  cc_sess : sess x' = sess_run (sess y) (effects plan rt (scratch x') (aux x'));
  cc_bufs : bufs x';
  cc_calls : exists cs, calls x' = calls y ++ cs /\ Forall afterwards cs;
  cc_scratch :
    match osdesc_nvos64_tail plan with
    | Some t => stored (scratch y) 16 t (scratch x')
    | None => if vidheap_call then frame (scratch y) (scratch x') 24 40 else scratch x' = scratch y
    end;
  cc_aux : control_answer = false -> aux x' = aux y;
  cc_reply : exists refused, r = (if refused : bool then reply_err (p_seq plan) EINVAL
                                  else reply (rsp_of errno) (scratch x') (aux x')) /\
    (control_answer = false -> refused = false) /\
    answered y refused x';
}.

Lemma tail_not_vidheap t : osdesc_nvos64_tail plan = Some t -> vidheap_call = false.
Proof.
  intros Ht. destruct (rd_tail _ Hready t Ht) as (_ & _ & Ha).
  destruct (rd_pages _ Hready Ha) as (_ & _ & _ & _ & _ & Hnr & _). unfold vidheap_call. rewrite Hnr.
  by rewrite andb_false_r.
Qed.

(** The operations read before the buffers are rewritten are those of the
    reply. *)
Lemma early_ops (y : Ex) sc' :
  match osdesc_nvos64_tail plan with
  | Some t => stored (scratch y) 16 t sc'
  | None => if vidheap_call then frame (scratch y) sc' 24 40 else sc' = scratch y
  end ->
  arena_ops plan rt sc' = arena_ops plan rt (scratch y) /\
  event_ops plan rt sc' = event_ops plan rt (scratch y) /\
  waiter_ops plan rt sc' = waiter_ops plan rt (scratch y).
Proof.
  intros Hs. destruct (osdesc_nvos64_tail plan) as [t|] eqn:Ht.
  - destruct (rd_tail _ Hready t Ht) as (Hl & _ & Ha). destruct (rd_pages _ Hready Ha) as (He & Hw & Hu & _).
    unfold event_ops, waiter_ops. rewrite He, Hw, Hu. split; [|done]. unfold arena_ops, okw, word.
    assert (forall o, o + 4 <= 16 \/ 40 <= o -> get_u32 sc' o = get_u32 (scratch y) o) as Hg.
    { intros o Ho. unfold get_le. rewrite (so_frame _ _ _ _ Hs); [done|]. lia. }
    by rewrite !Hg by lia.
  - destruct vidheap_call eqn:Hv; [|by subst]. unfold vidheap_call in Hv. bools.
    match goal with H : p_ioctl_nr plan = _ |- _ => rename H into Hnr end.
    unfold arena_ops, event_ops, waiter_ops.
    destruct (osdesc_arena plan) eqn:Ha.
    { destruct (rd_pages _ Hready ltac:(by rewrite Ha)) as (_ & _ & _ & _ & _ & Hn & _).
      rewrite Hnr in Hn. by vm_compute in Hn. }
    destruct (event_reg plan) eqn:He.
    { pose proof (rd_event _ Hready ltac:(by rewrite He)) as Hn. rewrite Hnr in Hn. by vm_compute in Hn. }
    destruct (waiter_reg plan) eqn:Hw; [|destruct (waiter_unreg plan) eqn:Hu; [|done]];
      (destruct (rd_waiter _ Hready) as [Hn _]; [rewrite ?Hw, ?Hu; eauto|]; rewrite Hnr in Hn; by vm_compute in Hn).
Qed.

Lemma sess_run_ledger x l : Forall (fun op => match op with
    KeepArena _ _ _ | DropArena _ | EventDone _ _ | RegisterDone _ _ | UnregisterDone _ _ => True
    | _ => False end) l -> s_ledger (sess_run (D:=D) x l) = s_ledger x.
Proof.
  revert x. induction l as [|op l IH]; intros x Hl; [done|]. apply Forall_cons_1 in Hl as [Ho Hl].
  cbn. rewrite IH by done. by destruct op.
Qed.

Lemma early_ledger sc s :
  s_ledger (sess_run (D:=D) s (arena_ops plan rt sc ++ event_ops plan rt sc ++ waiter_ops plan rt sc)) = s_ledger s.
Proof.
  apply sess_run_ledger. unfold arena_ops, event_ops, waiter_ops.
  repeat apply Forall_app_2; repeat case_match; repeat constructor.
Qed.

Lemma quiet_step {X} (m : eff Empty_set Ex unit) (k : eff Empty_set Ex X) (ops : bytes -> bytes -> list SessOp)
    l x0 x P :
  (forall z, bufs z -> wp m (fun _ z' => quiet (ops (scratch z) (aux z)) z z') never z) ->
  quiet l x0 x -> bufs x0 ->
  (forall z, quiet (l ++ ops (scratch x0) (aux x0)) x0 z -> wp k P never z) ->
  wp (_ ← m; k) P never x.
Proof.
  intros Hm Q Hb Hk. apply wp_bind. eapply wp_mono; [apply Hm; by apply (m_bufs _ _ _ (quiet_moved _ _ _ Q))| |done].
  intros [] z Qz. apply Hk. rewrite (q_scratch _ _ _ Q), (q_aux _ _ _ Q) in Qz. by eapply quiet_trans.
Qed.

(** From the settlement of the reservation on, no buffer changes. *)
Lemma wp_late {X} (k : eff Empty_set Ex X) x P : bufs x ->
  (forall z, quiet (vram_ops plan rt (scratch x) (aux x) ++ range_ops plan rt (scratch x) ++
     vidheap_ops plan rt (scratch x) ++ root_ops plan rt (scratch x) ++ free_ops plan rt (scratch x)) x z ->
     wp k P never z) ->
  wp (_ ← settle_reservation plan rt; _ ← release_range plan rt; _ ← vidheap_free plan rt;
      _ ← log_object plan; _ ← record_root plan rt; _ ← free_rm_object plan rt;
      _ ← label_client env plan rt; _ ← grant_copies plan rt; _ ← log_call env plan rt; k) P never x.
Proof.
  intros Hb Hk.
  eapply (quiet_step _ _ (vram_ops plan rt)); [apply wp_settle|apply quiet_refl|done|]. intros z1 Q1.
  eapply (quiet_step _ _ (fun sc _ => range_ops plan rt sc)); [apply wp_release_range|exact Q1|done|]. intros z2 Q2.
  eapply (quiet_step _ _ (fun sc _ => vidheap_ops plan rt sc)); [apply wp_vidheap_free|exact Q2|done|]. intros z3 Q3.
  eapply (quiet_step _ _ (fun _ _ => [])); [apply wp_log_object|exact Q3|done|]. intros z4 Q4.
  eapply (quiet_step _ _ (fun sc _ => root_ops plan rt sc)); [apply wp_record_root|exact Q4|done|]. intros z5 Q5.
  eapply (quiet_step _ _ (fun sc _ => free_ops plan rt sc)); [apply wp_free_rm_object|exact Q5|done|]. intros z6 Q6.
  eapply (quiet_step _ _ (fun _ _ => [])); [apply wp_label_client|exact Q6|done|]. intros z7 Q7.
  eapply (quiet_step _ _ (fun _ _ => [])); [apply wp_grant_copies|exact Q7|done|]. intros z8 Q8.
  eapply (quiet_step _ _ (fun _ _ => [])); [apply wp_log_call|exact Q8|done|]. intros z9 Q9.
  apply Hk. rewrite !app_nil_r, <- !app_assoc in Q9. exact Q9.
Qed.

Lemma wp_after_call errno x : bufs x -> 0 <= fb_length (profile (s_ledger (sess x))) ->
  wp (after_call env plan rt errno) (fun r x' => exists y, swapped false x y /\ concluded errno y r x')
    never x.
Proof.
  intros Hb0 Hfb0. unfold after_call.
  apply wp_bind. eapply wp_mono; [by apply wp_uuid_swap| |done]. intros [] y Hsw.
  pose proof (m_bufs _ _ _ (sw_moved _ _ _ Hsw) Hb0) as Hb. assert (0 <= fb_length (profile (s_ledger (sess y)))) as Hfb
    by (by rewrite (sw_sess _ _ _ Hsw)). clear Hb0 Hfb0.
  apply wp_bind. eapply wp_mono; [by apply wp_keep_arena| |done]. intros [] x1 Q1.
  apply wp_bind. eapply wp_mono; [apply wp_finish_event; by apply (m_bufs _ _ _ (quiet_moved _ _ _ Q1))| |done].
  intros [] x2 Q2. rewrite (q_scratch _ _ _ Q1) in Q2. pose proof (quiet_trans _ _ _ _ _ Q1 Q2) as Q12.
  apply wp_bind_bind. eapply wp_mono; [apply wp_finish_waiters; by apply (m_bufs _ _ _ (quiet_moved _ _ _ Q12))| |done].
  intros [] x3 Q3. rewrite (q_scratch _ _ _ Q12) in Q3. pose proof (quiet_trans _ _ _ _ _ Q12 Q3) as Q.
  clear Q1 Q2 Q12 Q3 x1 x2. rewrite <- app_assoc in Q. pose proof (m_bufs _ _ _ (quiet_moved _ _ _ Q) Hb) as B3.
  assert (s_ledger (sess x3) = s_ledger (sess y)) as HL by (by rewrite (q_sess _ _ _ Q), early_ledger).
  apply wp_bind. eapply wp_mono; [by apply wp_restore| |done]. intros [] x4 (M4 & A4 & S4).
  pose proof (m_bufs _ _ _ M4 B3) as B4. assert (sess x4 = sess x3) as E4 by apply (m_sess _ _ _ M4).
  assert (s_ledger (sess x4) = s_ledger (sess y)) as HL4 by congruence.
  apply wp_bind. eapply wp_mono; [apply wp_answered; [done|by rewrite HL4]| |done].
  intros refused x5 (R5 & Hno & Han). pose proof (reanswered_bufs _ _ R5 B4) as B5.
  apply wp_bind. eapply wp_mono; [by apply wp_vidheap_capacity| |done]. intros [] x6 (M6 & E6 & A6 & F6 & N6).
  pose proof (m_bufs _ _ _ M6 B5) as B6.
  apply wp_late; [done|]. intros z Q6. clear B3 B4 B5.
  pose proof (m_bufs _ _ _ (quiet_moved _ _ _ Q6) B6) as Bz.
  assert (match osdesc_nvos64_tail plan with
    | Some t => stored (scratch y) 16 t (scratch z)
    | None => if vidheap_call then frame (scratch y) (scratch z) 24 40 else scratch z = scratch y
    end) as Hs.
  { rewrite (q_scratch _ _ _ Q6). rewrite (q_scratch _ _ _ Q) in S4.
    rewrite (ra_scratch _ _ R5) in F6. fold vidheap_call in N6.
    destruct (osdesc_nvos64_tail plan) as [t|] eqn:Ht.
    - by rewrite (N6 (tail_not_vidheap t Ht)), (ra_scratch _ _ R5).
    - rewrite S4 in F6. destruct vidheap_call; [done|]. by rewrite N6, (ra_scratch _ _ R5), S4. }
  assert (concluded errno y (if refused then reply_err (p_seq plan) EINVAL
                             else reply (rsp_of errno) (scratch z) (aux z)) z) as Hdone.
  { destruct (early_ops y (scratch z) Hs) as (O1 & O2 & O3). split; [|done| |done| |].
    - unfold effects. rewrite O1, O2, O3, (q_scratch _ _ _ Q6), (q_aux _ _ _ Q6), (q_sess _ _ _ Q6), E6.
      rewrite (ra_sess _ _ R5), E4, (q_sess _ _ _ Q). unfold sess_run. by rewrite !foldl_app.
    - destruct (q_calls _ _ _ Q) as (c1 & C1 & D1), (m_calls _ _ _ M4) as (c2 & C2 & D2),
        (m_calls _ _ _ M6) as (c3 & C3 & D3), (q_calls _ _ _ Q6) as (c4 & C4 & D4).
      exists (c1 ++ c2 ++ c3 ++ c4). rewrite C4, C3, (ra_calls _ _ R5), C2, C1, <- !app_assoc.
      split; [done|by repeat apply Forall_app_2].
    - intros Hc. destruct (Hno Hc) as [_ ->]. by rewrite (q_aux _ _ _ Q6), A6, A4, (q_aux _ _ _ Q).
    - exists refused. split; [done|]. split; [intros Hc; apply (Hno Hc)|].
      intros cmd Hc Hg Hm. assert (osdesc_nvos64_tail plan = None) as Ht.
      { destruct (osdesc_nvos64_tail plan) as [t|] eqn:Ht; [|done].
        destruct (rd_tail _ Hready t Ht) as (_ & _ & Ha).
        destruct (rd_pages _ Hready Ha) as (_ & _ & _ & _ & _ & Hnr & _).
        unfold control_answer in Hc. rewrite Hnr in Hc. change (NV_ESC_RM_ALLOC_MEMORY =? NV_ESC_RM_CONTROL)
          with false in Hc. by rewrite andb_false_r in Hc. }
      rewrite Ht in S4. pose proof (Han cmd Hc) as Hx.
      rewrite S4, (q_scratch _ _ _ Q), HL4, A4, (q_aux _ _ _ Q) in Hx. specialize (Hx Hg Hm).
      by rewrite (q_aux _ _ _ Q6), A6. }
  destruct refused; [apply wp_ret; eauto|]. apply wp_bind, wp_asks, wp_ret. exists y. split; [done|].
  exact Hdone.
Qed.

End stages.

Section execute.
Context {A : RmAbi} {AOk : RmAbiOk A} {D : Type} `{PoolDriver D}.
Context (env : ExecEnv) (plan : Plan) (Henv : exec_env_ok env) (Hready : ready plan).
Abbreviation Ex := (Exec (D:=D)).
Abbreviation never := (fun (_ : Empty_set) (_ : Ex) => False).
Abbreviation bufs := (bufs (D:=D) plan).

(** ** The call itself *)
Definition refusal_ops : list SessOp :=
  match p_action plan, vram_ask plan with
  | FakeVramFull, Some a => [RefusalCounted a]
  | _, _ => []
  end.

(** A word stored for the guest: where the session's pools say. *)
Definition semaphore_store (s : Sess (D:=D)) (cs : list HostCall) : Prop :=
  cs = [] \/ exists st a off v va, cs = [StoreU32 a off v] /\ states (world s) !! sid s = Some st /\
    write_guest_u32_for st (p_target_token plan) va = Some (a, off).

Definition called (x : Ex) (rt errno : Z) (x' : Ex) : Prop :=
  match p_action plan with
  | Forward => exists y, swapped env plan true x y /\ sess x' = sess x /\
      driver env (p_target_fd plan) (p_request plan) (scratch y) (aux y) = (rt, errno, (scratch x', aux x')) /\
      calls x' = calls x ++ [Ioctl (p_target_fd plan) (p_request plan) (scratch y) (aux y)]
  | FakeVramFull => rt = 0 /\ aux x' = aux x /\ calls x' = calls x /\ sess x' = sess_run (sess x) refusal_ops /\
      edited 4 (scratch x) (vram_status_off plan) NV_ERR_NO_MEMORY (scratch x')
  | FakeSemaphorePool => rt = 0 /\ aux x' = aux x /\ calls x' = calls x /\ sess x' = sess x
  | FakeManaged => rt = 0 /\ aux x' = aux x /\ sess x' = sess x /\
      exists cs, calls x' = calls x ++ cs /\ semaphore_store (sess x) cs
  end.

Lemma edits_put32 b o v : 0 <= o -> o + 4 <= blen b -> edits b (put32 b o v).
Proof. apply (edits_le 4). Qed.

(** A rewrite of the scratch buffer and nothing else. *)
Lemma wp_scratch_only f x : bufs x -> (forall b, blen b = p_inline_len plan -> edits b (f b)) ->
  wp (edit_scratch f) (fun _ x' => bufs x' /\ aux x' = aux x /\ sess x' = sess x /\
    calls x' = calls x /\ f (scratch x) = Ok (scratch x')) never x.
Proof.
  intros Hb He. pose proof (blen_scratch _ _ Hb) as Hbl. apply wp_edit_scratch; [by apply He|].
  intros b Hs L W. split_and!; try done. by apply (m_bufs _ _ _ _ (moved_scratch plan b x L W)).
Qed.

Lemma wp_put_status o v x : bufs x -> 0 <= o -> o + 4 <= p_inline_len plan ->
  wp (edit_scratch (fun b => put32 b o v)) (fun _ x' => bufs x' /\ aux x' = aux x /\ sess x' = sess x /\
    calls x' = calls x /\ edited 4 (scratch x) o v (scratch x')) never x.
Proof.
  intros Hb Ho Hl. eapply wp_mono; [apply wp_scratch_only; [done|]| |done].
  { intros b Hbl. apply edits_put32; lia. }
  intros [] y (By & Ay & Sy & Cy & Hs). split_and!; try done.
  apply set_le_edited. unfold put32 in Hs. destruct (set_u32 (scratch x) o v) as [b'|]; [|done].
  cbn in Hs. simplify_eq. done.
Qed.

Lemma wp_answer_migrate x : bufs x -> 80 <= p_inline_len plan ->
  wp (answer_migrate plan) (fun _ x' => bufs x' /\ aux x' = aux x /\ sess x' = sess x /\
    exists cs, calls x' = calls x ++ cs /\ semaphore_store (sess x) cs) never x.
Proof.
  intros Hb Hl. destruct managed_offsets as (_ & _ & H12 & H34).
  pose proof (f_equal fst H12) as Ho1. pose proof (f_equal snd H12) as Ho2.
  pose proof (f_equal fst H34) as Ho3. pose proof (f_equal snd H34) as Ho4. cbn [fst snd] in Ho1, Ho2, Ho3, Ho4.
  unfold answer_migrate. rewrite Ho1, Ho2, Ho3, Ho4.
  assert (forall o b, 0 <= o -> o + 8 <= p_inline_len plan -> blen b = p_inline_len plan ->
    edits b (or_panic (set_range b o (replicate 8 0)))) as Hz.
  { intros o b ? ? ?. apply edits_range; [done|change (blen (replicate 8 0)) with 8; lia|].
    apply Forall_replicate. unfold is_byte. lia. }
  apply wp_bind. eapply wp_mono; [apply wp_scratch_only; [done|intros; by apply Hz; [|lia|]]| |done].
  intros [] y1 (B1 & A1 & S1 & C1 & _). apply wp_bind.
  eapply wp_mono; [apply wp_scratch_only; [done|intros; by apply Hz; [|lia|]]| |done].
  intros [] y2 (B2 & A2 & S2 & C2 & _). apply wp_bind.
  eapply wp_mono; [apply wp_put_status; [done|lia..]| |done]. intros [] y3 (B3 & A3 & S3 & C3 & _).
  pose proof (blen_scratch _ _ B3) as L3. apply wp_bind, wp_at64; [lia..|]. intros sema _.
  apply wp_bind, wp_at32; [lia..|]. intros pay _.
  assert (sess y3 = sess x /\ aux y3 = aux x /\ calls y3 = calls x) as (Es & Ea & Ec) by (split_and!; congruence).
  assert (exists cs, calls y3 = calls x ++ cs /\ semaphore_store (sess x) cs) as Hnone
    by (exists []; rewrite app_nil_r; split; [done|by left]).
  destruct (sema =? 0); [by apply wp_ret|]. apply wp_bind, wp_asks. rewrite Es.
  destruct (states (world (sess x)) !! sid (sess x)) as [st|] eqn:Hst; cbn [mbind option_bind]; [|by apply wp_ret].
  destruct (write_guest_u32_for _ _ _) as [[a off]|] eqn:Hw; [|by apply wp_ret].
  apply wp_modify. split_and!; try done. exists [StoreU32 a off pay]. split; [cbn; by rewrite Ec|]. right. eauto 10.
Qed.

Lemma wp_answer_managed x : bufs x ->
  wp (answer_managed plan) (fun _ x' => bufs x' /\ aux x' = aux x /\ sess x' = sess x /\
    exists cs, calls x' = calls x ++ cs /\ semaphore_store (sess x) cs) never x.
Proof.
  intros Hb. unfold answer_managed.
  assert (forall o, 0 <= o -> o + 4 <= p_inline_len plan ->
    wp (_ ← edit_scratch (fun b => put32 b o NV_OK); mret true) (fun _ x' => bufs x' /\ aux x' = aux x /\
      sess x' = sess x /\ exists cs, calls x' = calls x ++ cs /\ semaphore_store (sess x) cs) never x) as Hput.
  { intros o Ho Hl. apply wp_bind. eapply wp_mono; [by apply wp_put_status| |done].
    intros [] y (By & Ay & Sy & Cy & _). apply wp_ret. split_and!; try done.
    exists []. rewrite app_nil_r. split; [done|by left]. }
  do 3 (apply wp_if; intros ?; [bools; apply Hput; lia|]). apply wp_if; intros ?.
  - bools. apply wp_bind. eapply wp_mono; [by apply wp_answer_migrate| |done]. intros [] y Hy. by apply wp_ret.
  - apply wp_ret. split_and!; try done. exists []. rewrite app_nil_r. split; [done|by left].
Qed.

Lemma wp_run_call x : bufs x ->
  wp (run_call env plan) (fun r x' => bufs x' /\ match r with
    | Some (rt, errno) => called x rt errno x' /\ -2147483648 <= rt < 2147483648 /\ (rt < 0 -> 0 < errno < 4096)
    | None => p_action plan = FakeManaged /\ sess x' = sess x /\
        exists cs, calls x' = calls x ++ cs /\ semaphore_store (sess x) cs
    end) never x.
Proof.
  intros Hb. unfold run_call, called. destruct (p_action plan) eqn:Hact.
  - apply wp_bind. unfold forward. apply wp_bind. eapply wp_mono; [by apply wp_uuid_swap| |done].
    intros [] y Hsw. pose proof (m_bufs _ _ _ _ (sw_moved _ _ _ _ _ Hsw) Hb) as By.
    apply wp_bind, wp_asks. destruct By as [[Ws Ls] [Wa La]].
    pose proof (xe_driver _ Henv (p_target_fd plan) (p_request plan) (scratch y) (aux y) Ws Wa) as Hd.
    destruct (driver env _ _ _ _) as [[rt errno] [sc' ax']] eqn:Ed.
    destruct Hd as ([? ?] & [? ?] & ? & ?). apply wp_bind, wp_modify, wp_bind, wp_modify, wp_bind, wp_modify.
    apply wp_ret, wp_ret. split; [split; split; cbn; (done || lia)|]. split; [|done].
    exists y. split_and!; try done; [apply (sw_sess _ _ _ _ _ Hsw)|]. cbn. by rewrite (sw_calls _ _ _ _ _ Hsw).
  - apply wp_bind. apply wp_when; intros E; bools; [|apply wp_ret; split_and!; done].
    eapply wp_mono; [apply wp_put_status; [done|by vm_compute|done]| |done].
    intros [] y (By & Ay & Sy & Cy & _). apply wp_ret. split_and!; done.
  - apply wp_bind. eapply wp_mono; [by apply wp_answer_managed| |done].
    intros ok y (By & Ay & Sy & Hc). apply wp_ret. split; [done|]. destruct ok; split_and!; done.
  - destruct (rd_vram _ Hready (or_intror Hact)) as (Ho & Ho4 & _). apply wp_bind. unfold refuse_vram.
    apply wp_bind. eapply wp_mono; [by apply wp_put_status| |done].
    intros [] y (By & Ay & Sy & Cy & Ey). unfold refusal_ops. rewrite Hact.
    destruct (vram_ask plan) as [a|]; [apply wp_modify|]; apply wp_ret; split_and!; try done.
    cbn. by rewrite Sy.
Qed.

(** ** The whole of [execute] *)
Inductive executed (x : Ex) (r : bytes) (x' : Ex) : Prop :=
| ExecShort : p_action plan = FakeManaged -> r = reply_err (p_seq plan) EINVAL ->
    sess x' = dropping (osdesc_arena plan) (sess x) -> bufs x' ->
    (exists cs, calls x' = calls x ++ cs /\ semaphore_store (sess x) cs) -> executed x r x'
| ExecDone rt errno y z : bufs y -> called x rt errno y ->
    -2147483648 <= rt < 2147483648 -> (rt < 0 -> 0 < errno < 4096) ->
    swapped env plan false y z -> concluded plan rt errno z r x' -> executed x r x'.

Lemma called_profile x rt errno y : called x rt errno y ->
  profile (s_ledger (sess y)) = profile (s_ledger (sess x)) /\
  sess y = sess_run (sess x) refusal_ops.
Proof.
  unfold called, refusal_ops. destruct (p_action plan).
  - by intros (z & _ & -> & _).
  - by intros (_ & _ & _ & ->).
  - by intros (_ & _ & -> & _).
  - intros (_ & _ & _ & -> & _). split; [|done]. by destruct (vram_ask plan).
Qed.

Lemma wp_execute x : bufs x -> 0 <= fb_length (profile (s_ledger (sess x))) ->
  wp (execute env plan) (fun r x' => executed x r x') never x.
Proof.
  intros Hb Hfb. unfold execute. apply wp_bind. eapply wp_mono; [by apply wp_run_call| |done].
  intros [[rt errno]|] y [By Hy].
  - destruct Hy as (Hc & Hrt & He). pose proof (proj1 (called_profile _ _ _ _ Hc)) as Hp.
    eapply wp_mono; [apply wp_after_call; [done..|by rewrite Hp]| |done].
    intros r x' (z & Hsw & Hcc). by eapply ExecDone.
  - destruct Hy as (Ha & Hs & Hc). apply wp_bind, wp_modify, wp_ret. apply ExecShort; try done.
    cbn. by rewrite Hs.
Qed.

End execute.
