(* ===== verification/Request.v ===== *)
(** * A whole ioctl (session.rs, [on_ioctl])

    From the bytes of a request to the bytes of its reply.  The theorems put
    [Prepared] and [Executed] together and relate what a request does to the
    books of a session to the components that keep them: the arenas of
    [HostPool], the events of [Waiters], the ledger of [Vram]. *)
From stdpp Require Import strings.
From S2P Require Import Prelude.
From S2P Require Import Effects.
From S2P Require Import Bytes.
From S2P Require Import Wire.
From S2P Require Import CLayout.
From S2P Require Import SysConsts.
From S2P Require Import SysLayout.
From S2P Require Import NvAbi.
From S2P Require Import Xlate.
From S2P Require Import RequestShape.
From S2P Require Import Mirror.
From S2P Require Import VramPolicy.
From S2P Require Import Vram.
From S2P Require Import Answers.
From S2P Require Import Naming.
From S2P Require Import Grid.
From S2P Require Import AnswerShape.
From S2P Require Import Window.
From S2P Require Import Arena.
From S2P Require Import HostPool.
From S2P Require Import Waiters.
From S2P Require Import Prepare.
From S2P Require Import Prepared.
From S2P Require Import Execute.
From S2P Require Import Executed.
Import GuestWords.

(** ** Refusals are errnos *)
Definition is_errno (e : Z) : Prop := 0 < e < 4096.

(** Every error [m] can return is one, read by [f]. *)
Definition errs {E X} (f : E -> Z) (m : outcome E X) : Prop :=
  match m with Err e => is_errno (f e) | _ => True end.
Definition eff_errs {St X} (m : eff Z St X) : Prop := forall s, errs id (m s).1.

Section errs.
Context {E St : Type} (f : E -> Z).

Lemma errs_bind {X Y} (m : outcome E X) (k : X -> outcome E Y) :
  errs f m -> (forall x, errs f (k x)) -> errs f (m ≫= k).
Proof. destruct m; simpl; auto. Qed.

Lemma errs_or_panic {X} (o : option X) : errs f (or_panic o).
Proof. by destruct o. Qed.

Lemma errs_ok_or {X} (o : option X) e : is_errno (f e) -> errs f (ok_or o e).
Proof. by destruct o. Qed.

Lemma errs_infallible {X} (m : may_panic X) : errs f (infallible m).
Proof. by destruct m. Qed.

Lemma errs_map_err {X} (m : outcome E X) : errs f m -> errs id (map_err f m).
Proof. by destruct m. Qed.

Lemma errs_map_const {F X} (g : F -> E) (m : outcome F X) : (forall e, is_errno (f (g e))) -> errs f (map_err g m).
Proof. destruct m; simpl; auto. Qed.

Lemma eff_errs_bind {X Y} (m : eff Z St X) (k : X -> eff Z St Y) :
  eff_errs m -> (forall x, eff_errs (k x)) -> eff_errs (m ≫= k).
Proof.
  intros Hm Hk s. specialize (Hm s). unfold mbind, eff_bind. destruct (m s) as [[x|e|] s']; simpl in *; auto.
  apply Hk.
Qed.

Lemma eff_errs_lift {X} (m : outcome Z X) : errs id m -> eff_errs (St:=St) (lift m).
Proof. by intros Hm s. Qed.

Lemma eff_errs_fail {X} e : is_errno e -> eff_errs (St:=St) (X:=X) (fail e).
Proof. by intros He s. Qed.

Lemma eff_errs_on_error {X} (g : St -> St) (m : eff Z St X) : eff_errs m -> eff_errs (on_error g m).
Proof. intros Hm s. specialize (Hm s). unfold on_error. by destruct (m s) as [[] ?]. Qed.

Lemma eff_errs_zoom {X Sub} (g : St -> Sub) st (m : Sub -> outcome Z X * Sub) :
  (forall u, errs id (m u).1) -> eff_errs (zoom g st m).
Proof. intros Hm s. specialize (Hm (g s)). unfold zoom. by destruct (m (g s)). Qed.

End errs.

Ltac head_of t := lazymatch t with ?f _ => head_of f | _ => t end.

(** Walk through straight-line code; the errors at its leaves are constants. *)
Ltac errs_step :=
  lazymatch goal with
  | |- eff_errs (mbind _ _) => apply eff_errs_bind; [|intros ?]
  | |- eff_errs (mret _) => intros ?; exact I
  | |- eff_errs (lift _) => apply eff_errs_lift
  | |- eff_errs (asks _) => intros ?; exact I
  | |- eff_errs (modify _) => intros ?; exact I
  | |- eff_errs (fail _) => apply eff_errs_fail; done
  | |- eff_errs (on_error _ _) => apply eff_errs_on_error
  | |- eff_errs (zoom _ _ _) => apply eff_errs_zoom; intros ?
  | |- eff_errs (match ?x with _ => _ end) => destruct x
  | |- eff_errs ?t => let h := head_of t in unfold h
  | |- errs _ (mbind _ _) => apply errs_bind; [|intros ?]
  | |- errs _ (fmap _ _) => apply errs_bind; [|intros ?]
  | |- errs _ (or_panic _) => apply errs_or_panic
  | |- errs _ (ok_or _ _) => apply errs_ok_or; done
  | |- errs _ (infallible _) => apply errs_infallible
  | |- errs _ (map_err _ _) => first [apply errs_map_const; done | apply errs_map_err]
  | |- errs _ (match ?x with _ => _ end) => destruct x
  | |- errs _ (Err _) => done
  | |- errs _ (Ok _) => exact I
  | |- errs _ Panic => exact I
  | |- errs _ ?t => let h := head_of t in unfold h
  end.

Section prepare_errs.
Context {A : RmAbi} {D : Type} `{PoolDriver D} {M : Type} `{GuestMem M}.

Lemma take_event_id_errs b : errs id (take_event_id b).1.
Proof. unfold take_event_id. by destruct (_ <=? _). Qed.

Lemma alloc_os_event_id_errs b c o k : errs id (alloc_os_event_id b c o k).1.
Proof.
  unfold alloc_os_event_id. pose proof (take_event_id_errs b).
  destruct (take_event_id b) as [[i|e|] b1]; [|done|done].
  destruct (event_ctls b1 !! c); [by destruct k|]. destruct o; [by destruct k|done].
Qed.

Lemma register_prepare_errs b c t kc tok o k : errs id (register_prepare b c t kc tok o k).1.
Proof.
  unfold register_prepare, take_waiter_generation, waiter_slot_get.
  destruct (checked_add64 _ _); [|done]. destruct (pool_pop _ _) as [[? ?]|]; [done|].
  match goal with |- context [take_event_id ?x] => pose proof (take_event_id_errs x);
    destruct (take_event_id x) as [[] ?] end; [|done|done].
  destruct o; [by destruct k|done].
Qed.

Lemma check_nested_errs req params n specs : forall used ranges zeros,
  errs errno (check_nested req params n specs used ranges zeros).
Proof.
  induction specs as [|spec specs IH]; intros used ranges zeros; cbn [check_nested]; [exact I|].
  repeat first [apply IH | errs_step].
Qed.

Lemma fill8_all_errs offs : forall b, errs errno (fill8_all b offs).
Proof.
  induction offs as [|o offs IH]; intros b; cbn [fill8_all]; [exact I|]. repeat first [apply IH | errs_step].
Qed.

Lemma validate_errs dev req inline aux : errs errno (validate dev req inline aux).
Proof. unfold validate. repeat first [apply check_nested_errs | errs_step]. Qed.

Lemma clear_errs s inline aux : errs errno (clear_unused_pointers s inline aux).
Proof. unfold clear_unused_pointers. repeat first [apply fill8_all_errs | errs_step]. Qed.

Context (penv : PrepEnv (M:=M)) (req : Req).

Lemma nested_errs dev e sc ds : forall ax fb, errs id (point_all_nested penv req dev e sc ax fb ds).
Proof.
  induction ds as [|d ds IH]; intros ax fb; cbn [point_all_nested]; [exact I|].
  repeat first [apply IH | errs_step].
Qed.

Lemma arena_errs mm runs total : eff_errs (arena_for_osdesc (D:=D) penv mm runs total).
Proof.
  apply eff_errs_zoom. intros w. by destruct (HostPool.arena w _ _) as [[] ?].
Qed.

Lemma reserve_errs n : eff_errs (reserve_bytes (D:=D) n).
Proof. apply eff_errs_zoom. intros l. by destruct (Vram.reserve l n). Qed.

(** Whatever is refused is refused with an errno. *)
Lemma prepare_errs payload : eff_errs (prepare (D:=D) penv req payload).
Proof.
  unfold prepare, finish_prepare.
  repeat first [apply validate_errs | apply clear_errs | apply nested_errs | apply arena_errs
    | apply reserve_errs | apply alloc_os_event_id_errs | apply register_prepare_errs | errs_step].
Qed.

End prepare_errs.

(** ** The outcome of a request *)
Section request.
Context {A : RmAbi} {AOk : RmAbiOk A} {D : Type} `{PoolDriver D} {M : Type} `{GuestMem M}.
Context (penv : PrepEnv (M:=M)) (env : ExecEnv) (req : Req) (payload : bytes).
Context (Hreq : wf_req req) (Hpayload : wf_bytes payload) (Hpenv : env_ok penv) (Henv : exec_env_ok env).

(** [prepare] accepted the request. *)
Definition planned (st : Sess (D:=D)) (pl : Plan) (sc ax : bytes) (st1 : Sess (D:=D)) : Prop :=
  exists dev fd sc0 ax0 inline aux0 s params afd specs ds,
    admitted penv req payload (mirror st) dev fd sc0 ax0 inline aux0 s params afd specs ds /\
    prepared penv req (mirror st) dev fd sc0 ax0 inline params afd specs st pl sc ax st1.

Inductive ioctl_done (st : Sess (D:=D)) (lg : LogBooks) (r : bytes) (x' : Exec (D:=D)) : Prop :=
| IoctlRefused e : is_errno e -> r = reply_err (seq req) e -> refused penv req st (sess x') ->
    calls x' = [] -> ioctl_done st lg r x'
| IoctlRun pl sc ax st1 : planned st pl sc ax st1 -> executed env pl (MkExec st1 sc ax [] lg) r x' ->
    ioctl_done st lg r x'.

Lemma planned_facts st pl sc ax st1 : planned st pl sc ax st1 ->
  accounted penv req st st1 pl /\ ready pl /\ p_seq pl = seq req /\
  (wf_bytes sc /\ blen sc = p_inline_len pl) /\ (wf_bytes ax /\ blen ax = p_aux_len pl).
Proof.
  intros (dev & fd & sc0 & ax0 & inline & aux0 & s & params & afd & specs & ds & Had & Hp).
  split; [by eapply prepared_accounted|].
  destruct (prepared_ready _ _ _ Hreq _ _ _ _ _ _ _ _ _ _ _ _ Had _ _ _ _ _ Hp) as (? & ? & ?).
  split; [done|]. split; [|done]. by destruct Hp as [? ? ? ? ? ? _ _ _ []|].
Qed.

(** What the plan took from the request's own bytes. *)
Lemma planned_sourced st pl sc ax st1 : planned st pl sc ax st1 ->
  exists dev, dev_of (dev_tag req) = Some dev /\ sourced req payload dev st st1 pl.
Proof.
  intros (dev & fd & sc0 & ax0 & inline & aux0 & s & params & afd & specs & ds & Had & Hp).
  exists dev. split; [by eapply ad_dev|by eapply prepared_sourced].
Qed.

Lemma reserve_profile l n ok l' : Vram.reserve l n = (ok, l') -> profile l' = profile l.
Proof. unfold Vram.reserve, charge. destruct (charge_next _ _ _); by intros [= _ <-]. Qed.

Lemma ioctl_cases st lg : 0 <= fb_length (profile (s_ledger st)) ->
  match prepare penv req payload st with
  | (Ok (pl, (sc, ax)), st1) => planned st pl sc ax st1 /\
      exists r x', on_ioctl penv env req payload st lg = (Ok r, x') /\
        executed env pl (MkExec st1 sc ax [] lg) r x'
  | (Err e, st1) => is_errno e /\ refused penv req st st1 /\
      on_ioctl penv env req payload st lg = (Ok (reply_err (seq req) e), MkExec st1 [] [] [] lg)
  | (Panic, _) => False
  end.
Proof.
  intros Hfb. pose proof (wp_prepare penv req payload Hreq Hpayload Hpenv st) as Hw.
  pose proof (prepare_errs penv req payload st) as He. unfold on_ioctl. unfold wp in Hw.
  destruct (prepare penv req payload st) as [[[pl [sc ax]]|e|] st1]; cbn [fst snd sat] in Hw; [|done|done].
  assert (planned st pl sc ax st1) as Hpl by exact Hw. split; [done|].
  destruct (planned_facts _ _ _ _ _ Hpl) as (Hac & Hrd & _ & Hsc & Hax).
  assert (profile (s_ledger st1) = profile (s_ledger st)) as Hp.
  { destruct (ac_vram _ _ _ _ _ Hac) as [(_ & _ & ->)|(n & ok & _ & Hr & _)]; [done|].
    by eapply reserve_profile. }
  pose proof (wp_execute env pl Henv Hrd (MkExec st1 sc ax [] lg)) as Hx.
  specialize (Hx (conj Hsc Hax)). cbn [sess] in Hx. rewrite Hp in Hx. specialize (Hx Hfb).
  unfold wp in Hx. destruct (execute env pl _) as [[r|[]|] x']; cbn [fst snd sat] in Hx; [|done].
  by exists r, x'.
Qed.

Lemma ioctl_runs st lg : 0 <= fb_length (profile (s_ledger st)) ->
  exists r x', on_ioctl penv env req payload st lg = (Ok r, x') /\ ioctl_done st lg r x'.
Proof.
  intros Hfb. pose proof (ioctl_cases st lg Hfb) as Hc.
  destruct (prepare penv req payload st) as [[[pl [sc ax]]|e|] st1]; [| |done].
  - destruct Hc as (Hpl & r & x' & Hr & Hex). exists r, x'. split; [done|]. by eapply IoctlRun.
  - destruct Hc as (He & Hr & Hi). eexists _, _. split; [exact Hi|]. by eapply IoctlRefused.
Qed.

(** *** The reply *)
Definition framed (r : bytes) : Prop := exists rsp : Rsp, from_bytes r = Some rsp /\ wf_rsp rsp /\
  rsp_seq rsp = seq req /\ scm_fd_count rsp = 0 /\
  blen r = WIRE_LEN Rsp + rsp_inline_len rsp + rsp_aux_len rsp.

Lemma reply_framed rsp inline aux : wf_rsp rsp -> rsp_seq rsp = seq req -> scm_fd_count rsp = 0 ->
  rsp_inline_len rsp = blen inline -> rsp_aux_len rsp = blen aux -> framed (reply rsp inline aux).
Proof.
  intros Hw Hs Hc Hi Ha. exists rsp. unfold reply. rewrite from_bytes_as_bytes by exact Hw.
  split_and!; try done. rewrite !blen_app, (as_bytes_length rsp) by exact Hw. lia.
Qed.

Lemma reply_err_framed e : is_errno e -> framed (reply_err (seq req) e).
Proof.
  intros He. apply reply_framed; try done. unfold wf_rsp, is_errno, wf_req in *. cbn.
  split_and!; try done; try lia; apply Hreq.
Qed.

Lemma wrap32_small n : is_u32 n -> wrap32 n = n.
Proof. unfold is_u32, wrap32, u32_max. intros. apply Z.mod_small. lia. Qed.

Lemma ioctl_framed st lg r x' : ioctl_done st lg r x' -> framed r.
Proof.
  intros [e He -> _ _|pl sc ax st1 Hpl Hex]; [by apply reply_err_framed|].
  destruct (planned_facts _ _ _ _ _ Hpl) as (_ & Hrd & Hseq & _).
  destruct (rd_head _ Hrd) as (Hs & Hi & Ha).
  destruct Hex as [_ -> _ _ _|rt errno y z _ _ Hrt Herr _ Hcc]; [rewrite Hseq; by apply reply_err_framed|].
  destruct (cc_reply _ _ _ _ _ _ Hcc) as ([] & -> & _); [rewrite Hseq; by apply reply_err_framed|].
  destruct (cc_bufs _ _ _ _ _ _ Hcc) as [[_ Hl1] [_ Hl2]].
  unfold rsp_of. rewrite !wrap32_small by done.
  assert (-2147483648 <= (if rt <? 0 then - errno else rt) < 2147483648) as Hret.
  { destruct (rt <? 0) eqn:E; bools; [|done]. specialize (Herr E). lia. }
  by apply reply_framed.
Qed.

End request.

(** ** What a request does to each component *)
Section steps.
Context {A : RmAbi} {D : Type} `{PoolDriver D}.

(** An operation seen by the page registrations and by the event books. *)
Definition pool_ops {M} `{GuestMem M} (s : Z) (op : SessOp) : list (PoolOp (M:=M)) :=
  match op with
  | RangeFreed t b => [ReleaseRange s t {| ga := b |}]
  | ArenaFreed r h => [DropOsdesc s r h]
  | ClientArenasFreed r => [DropOsdescClient s r]
  | _ => []
  end.

Definition event_op (b : EventBooks) (op : SessOp) : EventBooks :=
  match op with
  | EventDone r h => event_finish b r true h
  | RegisterDone p ok => register_finish b p ok
  | UnregisterDone id ok => unregister_finish b id ok
  | RootNoted h t => note_client b h t
  | EventsFreed r h => rm_free b r h
  | _ => b
  end.

Definition no_hand (op : SessOp) : Prop :=
  match op with KeepArena _ _ _ | DropArena _ => False | _ => True end.

Lemma sess_op_sid (s : Sess (D:=D)) op : sid (sess_op s op) = sid s.
Proof. destruct op; try done; cbn; by case_match. Qed.

Lemma sess_run_sid l : forall s : Sess (D:=D), sid (sess_run s l) = sid s.
Proof. induction l as [|op l IH]; intros s; [done|]. cbn. by rewrite IH, sess_op_sid. Qed.

Lemma sess_run_mirror l : forall s : Sess (D:=D), mirror (sess_run s l) = mirror s.
Proof.
  induction l as [|op l IH]; intros s; [done|]. cbn. rewrite IH. destruct op; try done; cbn; by case_match.
Qed.

Lemma sess_op_world {M} `{GuestMem M} (s : Sess (D:=D)) op : no_hand op ->
  world (sess_op s op) = pool_run (M:=M) (world s) (pool_ops (sid s) op).
Proof. intros Hn. destruct op; try done; cbn; by case_match. Qed.

Lemma sess_run_world {M} `{GuestMem M} l : forall s : Sess (D:=D), Forall no_hand l ->
  world (sess_run s l) = pool_run (M:=M) (world s) (l ≫= pool_ops (sid s)).
Proof.
  induction l as [|op l IH]; intros s Hl; [done|]. apply Forall_cons_1 in Hl as [Ho Hl]. cbn.
  rewrite IH by done. rewrite sess_op_sid, (sess_op_world (M:=M)) by done. by rewrite <- pool_run_app.
Qed.

(** An operation a session performs while it lives. *)
Definition call_ok {M} `{GuestMem M} (op : PoolOp (M:=M)) : Prop := op_ok op /\ in_session op.

Lemma pool_ops_ok {M} `{GuestMem M} s l : Forall (call_ok (M:=M)) (l ≫= pool_ops s).
Proof.
  induction l as [|op l IH]; [constructor|]. cbn. apply Forall_app_2; [|done].
  destruct op; repeat constructor.
Qed.

Lemma sess_run_evb l : forall s : Sess (D:=D), evb (sess_run s l) = foldl event_op (evb s) l.
Proof.
  induction l as [|op l IH]; intros s; [done|]. cbn. rewrite IH. f_equal.
  destruct op; try done; cbn; by case_match.
Qed.

Lemma event_ops_none l : Forall (fun op => match op with
    EventDone _ _ | RegisterDone _ _ | UnregisterDone _ _ | RootNoted _ _ | EventsFreed _ _ => False
    | _ => True end) l -> forall b, foldl event_op b l = b.
Proof. induction 1 as [|op l Ho Hl IH]; intros b; [done|]. cbn. rewrite IH. by destruct op. Qed.

Variable plan : Plan.

Lemma later_no_hand rt sc ax : Forall no_hand (event_ops plan rt sc ++ waiter_ops plan rt sc ++
  vram_ops plan rt sc ax ++ range_ops plan rt sc ++ vidheap_ops plan rt sc ++ root_ops plan rt sc ++ free_ops plan rt sc).
Proof.
  unfold event_ops, waiter_ops, vram_ops, range_ops, vidheap_ops, root_ops, free_ops.
  repeat apply Forall_app_2; repeat case_match; repeat constructor.
Qed.

(** The operations on the event books among all. *)
Lemma effects_events rt sc ax b :
  foldl event_op b (refusal_ops plan ++ effects plan rt sc ax) =
  foldl event_op b (event_ops plan rt sc ++ waiter_ops plan rt sc ++ root_ops plan rt sc ++ free_ops plan rt sc).
Proof.
  assert (forall b, foldl event_op b (refusal_ops plan) = b) as H1.
  { apply event_ops_none. unfold refusal_ops. repeat case_match; repeat constructor. }
  assert (forall b, foldl event_op b (arena_ops plan rt sc) = b) as H2.
  { apply event_ops_none. unfold arena_ops. repeat case_match; repeat constructor. }
  assert (forall b, foldl event_op b (vram_ops plan rt sc ax) = b) as H3.
  { apply event_ops_none. unfold vram_ops. repeat case_match; repeat constructor. }
  assert (forall b, foldl event_op b (range_ops plan rt sc) = b) as H4.
  { apply event_ops_none. unfold range_ops. repeat case_match; repeat constructor. }
  assert (forall b, foldl event_op b (vidheap_ops plan rt sc) = b) as H5.
  { apply event_ops_none. unfold vidheap_ops. repeat case_match; repeat constructor. }
  unfold effects. by rewrite !foldl_app, H1, H2, H3, H4, H5.
Qed.

End steps.

(** ** A request in terms of the operations of each component *)
Section request_steps.
Context {A : RmAbi} {D : Type} `{PoolDriver D} {M : Type} `{GuestMem M}.

(** [w'] is reached from [w] by operations on page registrations. *)
Definition pool_moves (w w' : World D) : Prop :=
  exists ops, Forall (call_ok (M:=M)) ops /\ w' = pool_run w ops.

Lemma pool_moves_refl w : pool_moves w w.
Proof. by exists []. Qed.

Lemma pool_moves_trans w1 w2 w3 : pool_moves w1 w2 -> pool_moves w2 w3 -> pool_moves w1 w3.
Proof.
  intros (l & Hl & ->) (k & Hk & ->). exists (l ++ k). split; [by apply Forall_app_2|].
  by rewrite pool_run_app.
Qed.

Lemma pool_moves_step w op : call_ok (M:=M) op -> pool_moves w (pool_step w op).
Proof. intros Ho. exists [op]. split; [by constructor|done]. Qed.

Lemma sess_run_moves (s : Sess (D:=D)) l : Forall no_hand l -> pool_moves (world s) (world (sess_run s l)).
Proof. intros Hl. eexists. split; [apply (pool_ops_ok (sid s) l)|by apply sess_run_world]. Qed.

Context (penv : PrepEnv (M:=M)) (Hpage : 0 < pe_page penv).

Lemma forwarded_moves w s root h c total rm_ok : is_Some (states w !! s) -> pages_call penv c total ->
  pool_moves w (match HostPool.arena (M:=M) w c total with
    | (Ok a, w1) => if rm_ok : bool then keep_osdesc_arena w1 s root h a else drop_arena w1 a
    | (_, w1) => w1 end).
Proof.
  intros [st Hs] [Hp Ht]. pose proof (pool_moves_step w (ForwardOsdesc s root h c total rm_ok)) as Hm.
  cbn in Hm. unfold forward_osdesc in Hm. rewrite Hs in Hm. apply Hm. split; [|done]. cbn. by rewrite Hp.
Qed.

Lemma refused_moves w w' s : is_Some (states w !! s) -> arena_refused penv w w' -> pool_moves w w'.
Proof.
  intros Hs [->|[(c & t & e & Hc & Ha)|(c & t & a & w1 & Hc & Ha & ->)]]; [apply pool_moves_refl|..];
    pose proof (forwarded_moves w s 0 0 c t false Hs Hc) as Hm; by rewrite Ha in Hm.
Qed.

Lemma effects_world plan rt sc ax (s s0 : Sess (D:=D)) : is_Some (states (world s0) !! sid s0) -> sid s = sid s0 ->
  match osdesc_arena plan with
  | None => world s = world s0
  | Some a => exists c total, pages_call penv c total /\ HostPool.arena (M:=M) (world s0) c total = (Ok a, world s)
  end -> pool_moves (world s0) (world (sess_run s (effects plan rt sc ax))).
Proof.
  intros Hs Hsid Ha. unfold effects. unfold sess_run at 1. rewrite foldl_app.
  eapply pool_moves_trans; [|apply sess_run_moves, later_no_hand].
  unfold arena_ops. destruct (osdesc_arena plan) as [a|]; [|cbn; rewrite Ha; apply pool_moves_refl].
  destruct Ha as (c & t & Hc & Ha).
  pose proof (forwarded_moves (world s0) (sid s0) (word sc 0) (word sc 8) c t ((rt =? 0) && okw sc 40) Hs Hc) as Hm.
  rewrite Ha in Hm. cbn zeta. destruct ((rt =? 0) && okw sc 40); cbn; [by rewrite Hsid|done].
Qed.

Context {AOk : RmAbiOk A}.
Context (env : ExecEnv) (req : Req) (payload : bytes) (Hreq : wf_req req).

(** The operations an executed plan amounts to, refusals included. *)
Lemma executed_sess plan (x x' : Exec (D:=D)) r : executed env plan x r x' ->
  (exists rt, sess x' = sess_run (sess x) (refusal_ops plan ++ effects plan rt (scratch x') (aux x'))) \/
  (p_action plan = FakeManaged /\ sess x' = dropping (osdesc_arena plan) (sess x)).
Proof.
  intros [Hm _ Hs _ _|rt errno y z _ Hc _ _ Hsw Hcc]; [by right|left]. exists rt.
  rewrite (cc_sess _ _ _ _ _ _ Hcc), (sw_sess _ _ _ _ _ Hsw), (proj2 (called_profile _ _ _ _ _ _ Hc)).
  unfold sess_run. by rewrite foldl_app.
Qed.

Lemma refusal_world plan (s : Sess (D:=D)) : world (sess_run s (refusal_ops plan)) = world s.
Proof. unfold refusal_ops. by destruct (p_action plan), (vram_ask plan). Qed.

Lemma ioctl_world st lg r x' : ioctl_done penv env req payload st lg r x' -> is_Some (states (world st) !! sid st) ->
  sid (sess x') = sid st /\ mirror (sess x') = mirror st /\ pool_moves (world st) (world (sess x')).
Proof.
  intros [e _ _ Hr _|pl sc ax st1 Hpl Hex] Hs.
  - destruct Hr as (st1 & [l ->] & [(w' & -> & Hr)|Hr]).
    + split_and!; [done..|]. cbn in *. by eapply refused_moves.
    + destruct Hr as [->|[(b & c & e' & -> & _)|(b & c & t & kc & e' & -> & _)]]; split_and!; try done;
        apply pool_moves_refl.
  - destruct (planned_facts _ _ _ Hreq _ _ _ _ _ Hpl) as (Hac & Hrd & _).
    destruct (ac_same _ _ _ _ _ Hac) as (E1 & E2 & _). pose proof (ac_arena _ _ _ _ _ Hac) as Ha.
    destruct (executed_sess _ _ _ _ Hex) as [[rt ->]|[Hm ->]]; cbn [sess].
    + rewrite sess_run_sid, sess_run_mirror. split; [done|]. split; [done|].
      unfold sess_run at 1. rewrite foldl_app. apply effects_world; [done|..];
        fold (sess_run st1 (refusal_ops pl)); [by rewrite sess_run_sid|]. by rewrite refusal_world.
    + destruct (rd_managed _ Hrd Hm) as (_ & _ & _ & _ & Hn). rewrite Hn in Ha |- *. cbn.
      rewrite Ha. split_and!; [done..|apply pool_moves_refl].
Qed.

(** *** Events

    An allocation can register an event and note a client; every other call
    does one thing to the event books. *)
Definition from_call (r : EventReq) : Prop :=
  match r with RegisterWaiter _ _ _ _ o _ _ => o = ctl_open penv | _ => True end.

Definition calm (r : EventReq) : Prop :=
  match r with AllocEvent _ _ _ _ _ | OtherReq => True | _ => False end.

Definition event_moves (b b' : EventBooks) : Prop :=
  exists r1 r2, calm r1 /\ from_call r2 /\ b' = run_req (run_req b r1) r2.

Lemma event_moves_one b r : from_call r -> event_moves b (run_req b r).
Proof. intros Hr. by exists OtherReq, r. Qed.

Lemma alloc_event_call b c b' e : alloc_os_event_id b c (ctl_open penv) (ctl_bound penv) = (Err e, b') ->
  event_moves b b'.
Proof.
  intros Ha. pose proof (event_moves_one b (AllocEvent (MkEventReg c 0 0 0 0 0 0) (ctl_open penv)
    (ctl_bound penv) false 0) I) as Hm. cbn in Hm. by rewrite Ha in Hm.
Qed.

Lemma register_call b c t kc tok b' e :
  register_prepare b c t kc tok (ctl_open penv) (ctl_bound penv) = (Err e, b') -> event_moves b b'.
Proof.
  intros Ha. pose proof (event_moves_one b (RegisterWaiter c t kc tok (ctl_open penv) (ctl_bound penv) false)
    eq_refl) as Hm. cbn in Hm. by rewrite Ha in Hm.
Qed.

Lemma ops_root plan rt sc : root_ops plan rt sc = [] \/
  (p_ioctl_nr plan = NV_ESC_RM_ALLOC /\ exists h t, root_ops plan rt sc = [RootNoted h t]).
Proof.
  unfold root_ops. destruct (alloc_status_off _); [|by left]. destruct (_ && _) eqn:E; [right|by left].
  bools. split; [done|by eexists _, _].
Qed.

Lemma ops_free plan rt sc b : foldl event_op b (free_ops plan rt sc) = b \/
  (p_ioctl_nr plan = NV_ESC_RM_FREE /\ exists r h, foldl event_op b (free_ops plan rt sc) = rm_free b r h).
Proof.
  unfold free_ops. destruct (_ && _) eqn:E; [right|by left]. bools. split; [done|].
  eexists _, _. cbn [foldl app]. by destruct (_ =? _).
Qed.

Lemma free_ops_nil plan rt sc b : p_ioctl_nr plan <> NV_ESC_RM_FREE ->
  foldl event_op b (free_ops plan rt sc) = b.
Proof. intros Hn. by destruct (ops_free plan rt sc b) as [->|[? _]]. Qed.

Lemma root_ops_nil plan rt sc : p_ioctl_nr plan <> NV_ESC_RM_ALLOC -> root_ops plan rt sc = [].
Proof. intros Hn. by destruct (ops_root plan rt sc) as [->|[? _]]. Qed.

Lemma effects_moves plan rt sc ax st st1 : accounted penv req st st1 plan -> ready plan ->
  event_moves (evb st) (foldl event_op (evb st1) (refusal_ops plan ++ effects plan rt sc ax)).
Proof.
  intros Hac Hrd. rewrite effects_events, !foldl_app. unfold event_ops, waiter_ops.
  pose proof (ac_events _ _ _ _ _ Hac) as He. pose proof (ac_unreg _ _ _ _ _ Hac) as Hu.
  pose proof (rd_event _ Hrd) as Hev. pose proof (rd_waiter _ Hrd) as Hw.
  destruct (event_reg plan) as [r|]; [|destruct (waiter_reg plan) as [p|];
    [|destruct (waiter_unreg plan) as [id|]]].
  - destruct (waiter_reg plan); [done|]. destruct (waiter_unreg plan) as [id|];
      [by destruct (Hu id eq_refl) as [? _]|]. specialize (Hev ltac:(by eexists)). cbn [foldl app].
    rewrite free_ops_nil by by rewrite Hev.
    set (ok := match alloc_status_off (p_inline_len plan) with Some o => (rt =? 0) && okw sc o | None => false end).
    assert (foldl event_op (evb st1) (match alloc_status_off (p_inline_len plan) with
      | Some o => if (rt =? 0) && okw sc o then [EventDone r (word sc 8)] else [] | None => [] end)
      = run_req (evb st) (AllocEvent r (ctl_open penv) (ctl_bound penv) ok (word sc 8))) as ->.
    { cbn. rewrite He. subst ok. destruct (alloc_status_off _); [|done]. by destruct (_ && _). }
    destruct (ops_root plan rt sc) as [->|(_ & h & t & ->)].
    + by exists (AllocEvent r (ctl_open penv) (ctl_bound penv) ok (word sc 8)), OtherReq.
    + by exists (AllocEvent r (ctl_open penv) (ctl_bound penv) ok (word sc 8)), (NoteClient h t).
  - destruct (waiter_unreg plan) as [id|]; [by destruct (Hu id eq_refl) as (_ & ? & _)|].
    destruct (Hw ltac:(left; by eexists)) as [Hnr _]. cbn [foldl app].
    rewrite free_ops_nil, root_ops_nil by by rewrite Hnr. cbn [foldl event_op].
    pose proof (event_moves_one (evb st) (RegisterWaiter (pw_client p) (pw_target p) (pw_kc p) (target_token req)
      (ctl_open penv) (ctl_bound penv) ((rt =? 0) && okw sc 28)) eq_refl) as Hm. cbn in Hm. by rewrite He in Hm.
  - destruct (Hu id eq_refl) as (_ & _ & c & kc & t & Hf). destruct (Hw ltac:(right; by eexists)) as [Hnr _].
    cbn [foldl app]. rewrite free_ops_nil, root_ops_nil by by rewrite Hnr. cbn [foldl event_op].
    pose proof (event_moves_one (evb st) (UnregisterWaiter c kc t ((rt =? 0) && okw sc 28)) I) as Hm.
    cbn in Hm. rewrite Hf in Hm. by rewrite He.
  - cbn [foldl app]. rewrite He. destruct (ops_root plan rt sc) as [->|(Hnr & h & t & ->)]; cbn [foldl].
    + destruct (ops_free plan rt sc (evb st)) as [->|(_ & r & h & ->)].
      * apply (event_moves_one _ OtherReq I).
      * apply (event_moves_one _ (FreeObject r h) I).
    + rewrite free_ops_nil by by rewrite Hnr. apply (event_moves_one _ (NoteClient h t) I).
Qed.

Lemma ioctl_events st lg r x' : ioctl_done penv env req payload st lg r x' ->
  event_moves (evb st) (evb (sess x')).
Proof.
  intros [e _ _ Hr _|pl sc ax st1 Hpl Hex].
  - destruct Hr as (st1 & [l ->] & [(w' & -> & Hr)|Hr]); [apply (event_moves_one _ OtherReq I)|].
    destruct Hr as [->|[(b & c & e' & -> & Ha)|(b & c & t & kc & e' & -> & Ha)]].
    + apply (event_moves_one _ OtherReq I).
    + by eapply alloc_event_call.
    + by eapply register_call.
  - destruct (planned_facts _ _ _ Hreq _ _ _ _ _ Hpl) as (Hac & Hrd & _).
    destruct (executed_sess _ _ _ _ Hex) as [[rt ->]|[Hm ->]]; cbn [sess].
    + rewrite sess_run_evb. by apply effects_moves.
    + destruct (rd_managed _ Hrd Hm) as (_ & He & Hw & _ & Hn). rewrite Hn. cbn [dropping].
      pose proof (ac_events _ _ _ _ _ Hac) as Ha. rewrite He, Hw in Ha. rewrite Ha.
      apply (event_moves_one _ OtherReq I).
Qed.

End request_steps.

(** ** Video memory

    [vm_with ss l b p] is the virtual machine as a session sees it that has
    the books [b] and [p] bytes reserved, beside the other sessions [ss]. *)
Section memory.
Context {A : RmAbi} {D : Type} `{PoolDriver D} {M : Type} `{GuestMem M}.
Implicit Types (ss : gmap Z Vram.Session) (l : Ledger) (b : Vram.Books).

Definition vm_with ss l b (p : Z) : Vm := MkVm l (<[Vram.sub_id b := Vram.MkSession b p]> ss).

Lemma vm_with_put ss l b p l' b' p' : Vram.sub_id b' = Vram.sub_id b ->
  put_session (vm_with ss l b p) (Vram.sub_id b) l' b' p' = vm_with ss l' b' p'.
Proof. intros E. unfold put_session, vm_with. cbn. by rewrite E, insert_insert_eq. Qed.

Lemma vm_with_lookup ss l b p : Vram.sessions (vm_with ss l b p) !! Vram.sub_id b = Some (Vram.MkSession b p).
Proof. apply lookup_insert_eq. Qed.

(** What the counter does not depend on: the placements seen, the refusals counted. *)
Lemma vm_with_same ss l b p l' b' : vm_ok (vm_with ss l b p) ->
  used l' = used l -> limit l' = limit l -> roster_rows l' = roster_rows l ->
  Vram.sub_id b' = Vram.sub_id b -> Vram.open b' = Vram.open b -> owed b' = owed b ->
  vm_ok (vm_with ss l' b' p).
Proof.
  intros Hok E1 E2 E3 E4 E5 E6. rewrite <- (vm_with_put ss l b p) by done.
  pose proof (vm_with_lookup ss l b p) as Hs. pose proof (held_le_used _ _ _ Hok Hs) as ([Hb Hp] & _ & _).
  pose proof (row_of_session _ _ _ Hok Hs) as Hrow.
  destruct Hok as (Hss & Hu & Hw & Hr). eapply moves_ok; [done|exact Hs|]. cbn in *. split.
  - unfold Vram.books_ok in *. by rewrite E4, E5, E6.
  - done.
  - cbn. unfold Vram.held. cbn. lia.
  - unfold within in *. by rewrite E1, E2.
  - intros k r. rewrite E3, E6. destruct (decide _) as [->|]; [apply Hrow|done].
Qed.

Definition not_settled (op : SessOp) : Prop := match op with Settled _ _ _ => False | _ => True end.

(** The session's part of the state. *)
Definition vm_of ss (s : Sess (D:=D)) (p : Z) : Vm := vm_with ss (s_ledger s) (vbooks s) p.

Lemma free_sub l b r h : Vram.sub_id (Vram.free_object l b r h).2 = Vram.sub_id b.
Proof. unfold Vram.free_object, Vram.retain, give_back. by destruct (_ =? 0). Qed.

Lemma settle_sub l b ok a c : Vram.sub_id (settle l b ok a c).2 = Vram.sub_id b.
Proof. unfold settle. destruct (_ || _); [done|]. by destruct (open b !! _). Qed.

Lemma free_vm ss l b p r h : vm_ok (vm_with ss l b p) ->
  vm_ok (vm_with ss (Vram.free_object l b r h).1 (Vram.free_object l b r h).2 p) /\
  Vram.sub_id (Vram.free_object l b r h).2 = Vram.sub_id b.
Proof.
  intros Hok. pose proof (free_sub l b r h) as Hsub. split; [|done].
  assert (vm_step (vm_with ss l b p) (OpFree (Vram.sub_id b) r h) =
    Some (vm_with ss (Vram.free_object l b r h).1 (Vram.free_object l b r h).2 p)) as Hv; [|by eapply vm_step_ok].
  unfold vm_step. rewrite vm_with_lookup. cbn [mbind option_bind Vram.books pending ledger vm_with].
  destruct (Vram.free_object l b r h) as [l' b']. cbn [fst snd] in *. by rewrite vm_with_put.
Qed.

Lemma sess_op_vm ss (s : Sess (D:=D)) op p : not_settled op -> vm_ok (vm_of ss s p) ->
  vm_ok (vm_of ss (sess_op s op) p) /\ Vram.sub_id (vbooks (sess_op s op)) = Vram.sub_id (vbooks s).
Proof.
  intros Hn Hok. destruct op; try done; unfold vm_of in *.
  - split; [|done]. by eapply vm_with_same.
  - split; [|done]. cbn. unfold placement, first_placement. destruct (ask_kind a) as [[? ?] ?].
    destruct (bool_decide _); [done|]. by eapply vm_with_same.
  - cbn [sess_op]. pose proof (free_vm ss (s_ledger s) (vbooks s) p root h Hok) as [Hv Hsub].
    by destruct (Vram.free_object (s_ledger s) (vbooks s) root h).
Qed.

Lemma sess_run_vm ss p ops : forall s : Sess (D:=D), Forall not_settled ops -> vm_ok (vm_of ss s p) ->
  vm_ok (vm_of ss (sess_run s ops) p) /\ Vram.sub_id (vbooks (sess_run s ops)) = Vram.sub_id (vbooks s).
Proof.
  induction ops as [|op ops IH]; intros s Hl Hok; [done|]. apply Forall_cons_1 in Hl as [Ho Hl].
  destruct (sess_op_vm _ _ _ _ Ho Hok) as [Hok' E]. cbn. rewrite <- E. by apply IH.
Qed.

Lemma settled_vm ss (s : Sess (D:=D)) ok a c : vm_ok (vm_of ss s (bytes_of c)) -> bytes_of c <> 0 ->
  vm_ok (vm_of ss (sess_op s (Settled ok a c)) 0) /\
  Vram.sub_id (vbooks (sess_op s (Settled ok a c))) = Vram.sub_id (vbooks s).
Proof.
  intros Hok Hc. unfold vm_of in *. cbn [sess_op].
  pose proof (settle_sub (s_ledger s) (vbooks s) ok a c) as Hsub.
  destruct (settle (s_ledger s) (vbooks s) ok a c) as [l' b'] eqn:E. cbn [snd] in Hsub. split; [|done].
  eapply (vm_step_ok _ (OpSettle (Vram.sub_id (vbooks s)) ok a (Vram.token c) (root c) (parent c) (handle c)));
    [exact Hok|].
  unfold vm_step. rewrite vm_with_lookup. cbn [mbind option_bind Vram.books pending ledger vm_with].
  rewrite (proj2 (Z.eqb_neq _ _) Hc). destruct c as [tok rt par hd n]. cbn [Vram.token root parent handle bytes_of].
  by rewrite E, vm_with_put.
Qed.

Lemma sess_run_app (s : Sess (D:=D)) k1 k2 : sess_run s (k1 ++ k2) = sess_run (sess_run s k1) k2.
Proof. apply foldl_app. Qed.

(** What was reserved for a call is settled after it, once. *)
Lemma effects_vm ss plan rt sc ax (s : Sess (D:=D)) : vm_ok (vm_of ss s (vram_reserved plan)) ->
  vm_ok (vm_of ss (sess_run s (effects plan rt sc ax)) 0) /\
  Vram.sub_id (vbooks (sess_run s (effects plan rt sc ax))) = Vram.sub_id (vbooks s).
Proof.
  assert (Forall not_settled (arena_ops plan rt sc ++ event_ops plan rt sc ++ waiter_ops plan rt sc)) as Hpre.
  { unfold arena_ops, event_ops, waiter_ops. repeat apply Forall_app_2; repeat case_match; repeat constructor. }
  assert (Forall not_settled (range_ops plan rt sc ++ vidheap_ops plan rt sc ++ root_ops plan rt sc ++
    free_ops plan rt sc)) as Hpost.
  { unfold range_ops, vidheap_ops, root_ops, free_ops.
    repeat apply Forall_app_2; repeat case_match; repeat constructor. }
  intros Hok. replace (effects plan rt sc ax) with ((arena_ops plan rt sc ++ event_ops plan rt sc ++
    waiter_ops plan rt sc) ++ vram_ops plan rt sc ax ++ (range_ops plan rt sc ++ vidheap_ops plan rt sc ++
    root_ops plan rt sc ++ free_ops plan rt sc)) by (unfold effects; by rewrite <- !app_assoc).
  rewrite (sess_run_app s), (sess_run_app _ (vram_ops plan rt sc ax)).
  destruct (sess_run_vm _ _ _ _ Hpre Hok) as [H1 E1]. revert H1 E1.
  generalize (sess_run s (arena_ops plan rt sc ++ event_ops plan rt sc ++ waiter_ops plan rt sc)) as s1.
  intros s1 H1 E1. assert (vm_ok (vm_of ss (sess_run s1 (vram_ops plan rt sc ax)) 0) /\
    Vram.sub_id (vbooks (sess_run s1 (vram_ops plan rt sc ax))) = Vram.sub_id (vbooks s1)) as [H2 E2].
  { unfold vram_ops. destruct (vram_reserved plan =? 0) eqn:Ez; bools; [by rewrite Ez in H1|]. cbn zeta.
    rewrite sess_run_app.
    match goal with |- context [sess_run s1 ?ops] => assert (Forall not_settled ops) as Hp
      by (case_match; repeat constructor); destruct (sess_run_vm _ _ _ _ Hp H1) as [H2 E2]; revert H2 E2;
      generalize (sess_run s1 ops) as s2 end. intros s2 H2 <-.
    exact (settled_vm ss s2 _ _ (MkCharge _ _ _ _ _) H2 Ez). }
  destruct (sess_run_vm _ _ _ _ Hpost H2) as [H3 E3]. split; [done|congruence].
Qed.

Context {AOk : RmAbiOk A}.
Context (penv : PrepEnv (M:=M)) (env : ExecEnv) (req : Req) (payload : bytes) (Hreq : wf_req req).

Lemma reserved_vm ss (st st1 : Sess (D:=D)) pl : accounted penv req st st1 pl -> vm_ok (vm_of ss st 0) ->
  vm_ok (vm_of ss st1 (vram_reserved pl)).
Proof.
  intros Hac Hok. destruct (ac_same _ _ _ _ _ Hac) as (_ & _ & Hb). unfold vm_of in *. rewrite Hb.
  destruct (ac_vram _ _ _ _ _ Hac) as [(-> & _ & ->)|(n & ok & Hn & Hr & -> & _)]; [done|].
  eapply (vm_step_ok _ (OpReserve (Vram.sub_id (vbooks st)) n)); [exact Hok|].
  unfold vm_step. rewrite vm_with_lookup. cbn [mbind option_bind Vram.books pending ledger vm_with].
  rewrite Hr, Z.eqb_refl, (proj2 (Z.ltb_lt 0 n)), (proj2 (Z.leb_le n _)) by lia. cbn [andb].
  by rewrite vm_with_put.
Qed.

Lemma ioctl_memory ss st lg r x' : ioctl_done penv env req payload st lg r x' -> vm_ok (vm_of ss st 0) ->
  vm_ok (vm_of ss (sess x') 0) /\ Vram.sub_id (vbooks (sess x')) = Vram.sub_id (vbooks st).
Proof.
  intros [e _ _ Hr _|pl sc ax st1 Hpl Hex] Hok.
  - destruct Hr as (st1 & [l ->] & [(w' & -> & Hr)|Hr]); [done|].
    by destruct Hr as [->|[(b & c & e' & -> & _)|(b & c & t & kc & e' & -> & _)]].
  - destruct (planned_facts _ _ _ Hreq _ _ _ _ _ Hpl) as (Hac & Hrd & _).
    destruct (ac_same _ _ _ _ _ Hac) as (_ & _ & Hb). pose proof (reserved_vm ss _ _ _ Hac Hok) as H1.
    destruct (executed_sess _ _ _ _ _ Hex) as [[rt ->]|[Hm ->]]; cbn [sess].
    + rewrite sess_run_app, <- Hb. assert (Forall not_settled (refusal_ops pl)) as Hn
        by (unfold refusal_ops; repeat case_match; repeat constructor).
      destruct (sess_run_vm _ _ _ _ Hn H1) as [H2 <-]. by apply effects_vm.
    + destruct (rd_managed _ Hrd Hm) as (Hv & _ & _ & _ & Hn). rewrite Hn. cbn [dropping].
      rewrite <- Hb. by rewrite Hv in H1.
Qed.

End memory.

(** ** What the guest reads *)
Section answers.
Context {A : RmAbi} {AOk : RmAbiOk A} {D : Type} `{PoolDriver D} {M : Type} `{GuestMem M}.
Context (penv : PrepEnv (M:=M)) (req : Req) (payload : bytes) (Hreq : wf_req req).

(** Where the parts of a reply are. *)
Lemma get_range_shift a b c o n : 0 <= o -> 0 <= n -> o + n <= blen b ->
  get_range (a ++ b ++ c) (blen a + o) n = get_range b o n.
Proof.
  intros Ho Hn Hl. pose proof (blen_nonneg a). unfold get_range, in_range. rewrite !blen_app.
  pose proof (blen_nonneg c). rewrite !(proj2 (Z.leb_le _ _)) by lia. cbn [andb]. f_equal.
  unfold blen in *. replace (Z.to_nat (Z.of_nat (length a) + o)) with (length a + Z.to_nat o)%nat by lia.
  rewrite <- drop_drop, drop_app_length, drop_app_le, take_app_le by (rewrite ?length_drop; lia). done.
Qed.

Lemma reply_word rsp sc ax o : wf_rsp rsp -> 0 <= o -> o + 4 <= blen sc ->
  get_u32 (reply rsp sc ax) (WIRE_LEN Rsp + o) = get_u32 sc o.
Proof.
  intros Hw Ho Hl. unfold get_le, reply.
  rewrite <- (as_bytes_length rsp) by exact Hw. rewrite get_range_shift by (cbn; lia). done.
Qed.

Lemma reply_rest rsp sc ax : wf_rsp rsp ->
  drop (Z.to_nat (WIRE_LEN Rsp + blen sc)) (reply rsp sc ax) = ax.
Proof.
  intros Hw. unfold reply. rewrite <- (as_bytes_length rsp) by exact Hw. unfold blen.
  replace (Z.to_nat _) with (length (as_bytes rsp) + length sc)%nat by lia.
  by rewrite <- drop_drop, !drop_app_length.
Qed.

Lemma planned_nr (st : Sess (D:=D)) pl sc ax st1 : planned penv req payload st pl sc ax st1 ->
  p_dev_tag pl = dev_tag req /\ (ioctl_nr req = NV_ESC_RM_CONTROL -> p_ioctl_nr pl = NV_ESC_RM_CONTROL).
Proof.
  intros (dev & fd & sc0 & ax0 & inline & aux0 & s & params & afd & specs & ds & Had & Hp).
  split; [by eapply prepared_target|]. intros Hnr.
  destruct Hp as [? ? ? ? ? ? _ _ _ []|? ? ? ? Hn _ _ _ Ho]; [done|]. destruct Ho as [|? ? ? ? ? ? ? Ha|? ? ? ? ? Ha]; [done| |].
  - rewrite Hnr in Ha. by destruct dev.
  - by rewrite Hnr in Ha.
Qed.

(** A control is forwarded. *)
Lemma planned_control (st : Sess (D:=D)) pl sc ax st1 d : planned penv req payload st pl sc ax st1 ->
  dev_of (dev_tag req) = Some d -> is_uvm d = false -> ioctl_nr req = NV_ESC_RM_CONTROL ->
  p_action pl = Forward.
Proof.
  intros Hpl Hdev Hd Hnr. pose proof (proj1 (proj2 (planned_facts _ _ _ Hreq _ _ _ _ _ Hpl))) as Hrd.
  pose proof (proj2 (planned_nr _ _ _ _ _ Hpl) Hnr) as Hpnr.
  destruct Hpl as (dev & fd & sc0 & ax0 & inline & aux0 & s & params & afd & specs & ds & Had & Hp).
  rewrite (ad_dev _ _ _ _ _ _ _ _ _ _ _ _ _ _ _ Had) in Hdev. injection Hdev as ->.
  assert (p_action pl <> FakeVramFull) as Hnf.
  { intros Hf. apply (rd_full _ Hrd) in Hf as (_ & _ & _ & _ & Hk). rewrite Hpnr in Hk. by destruct (vram_vidheap pl); [destruct Hk|]. }
  destruct Hp as [? ? ? ? ? ? _ _ _ Hfin|]; [|done]. destruct Hfin. cbn in *. unfold choose_action in *.
  rewrite Hd in *. cbn [andb] in *. by destruct (vp_full vp).
Qed.

Lemma planned_roster (st : Sess (D:=D)) pl st1 : accounted penv req st st1 pl ->
  roster (s_ledger st1) = roster (s_ledger st).
Proof.
  intros Hac. destruct (ac_vram _ _ _ _ _ Hac) as [(_ & _ & ->)|(n & ok & _ & Hr & _)]; [done|].
  revert Hr. unfold Vram.reserve, charge. destruct (charge_next _ _ _); by intros [= _ <-].
Qed.

Lemma called_roster env plan (x : Exec (D:=D)) rt errno y : called env plan x rt errno y ->
  roster (s_ledger (sess y)) = roster (s_ledger (sess x)).
Proof.
  intros Hc. rewrite (proj2 (called_profile _ _ _ _ _ _ Hc)). unfold refusal_ops.
  by destruct (p_action plan), (vram_ask plan).
Qed.

Context (Hpayload : wf_bytes payload) (Hpenv : env_ok penv).

Lemma rsp_of_wf plan rt errno : ready plan -> -2147483648 <= rt < 2147483648 -> (rt < 0 -> 0 < errno < 4096) ->
  wf_rsp (rsp_of plan rt errno) /\ rsp_inline_len (rsp_of plan rt errno) = p_inline_len plan.
Proof.
  intros Hrd Hrt He. destruct (rd_head _ Hrd) as (Hs & Hi & Ha). unfold rsp_of. rewrite !wrap32_small by done.
  split; [|done]. unfold wf_rsp. cbn. split_and!; try done; try apply Hs; try apply Hi; try apply Ha;
    destruct (rt <? 0) eqn:E; bools; try lia; specialize (He E); lia.
Qed.

(** A reply that reports success is that of a call that was made or answered,
    and holds its buffers. *)
Record succeeded env (st : Sess (D:=D)) lg (r : bytes) (x' : Exec (D:=D)) (rsp : Rsp) (pl : Plan) (sc ax : bytes)
    (st1 : Sess (D:=D)) (errno : Z) (y z : Exec (D:=D)) : Prop := {
  su_prepare : prepare penv req payload st = (Ok (pl, (sc, ax)), st1);
  su_planned : planned penv req payload st pl sc ax st1;
  su_accounted : accounted penv req st st1 pl;
  su_ready : ready pl;
  su_called : called env pl (MkExec st1 sc ax [] lg) 0 errno y;
  su_swapped : swapped env pl false y z;
  su_concluded : concluded pl 0 errno z r x';
  su_reply : r = reply rsp (scratch x') (aux x');
  su_answered : answered pl 0 z false x';
  su_rsp : wf_rsp rsp /\ rsp_inline_len rsp = p_inline_len pl;
}.

Lemma ioctl_succeeded env (st : Sess (D:=D)) lg r x' rsp :
  exec_env_ok env -> 0 <= fb_length (profile (s_ledger st)) ->
  on_ioctl penv env req payload st lg = (Ok r, x') -> from_bytes r = Some rsp -> Wire.ret rsp = 0 ->
  exists pl sc ax st1 errno y z, succeeded env st lg r x' rsp pl sc ax st1 errno y z.
Proof.
  intros Henv Hfb Hrun Hrsp Hret.
  assert (forall e, is_errno e -> r = reply_err (seq req) e -> False) as Hno.
  { intros e He ->. unfold reply_err, reply in Hrsp. rewrite from_bytes_as_bytes in Hrsp.
    2: { unfold is_errno, wf_req in *. cbn. unfold wf_rsp. cbn. split_and!; try done; try lia; apply Hreq. }
    injection Hrsp as <-. cbn in Hret. unfold is_errno in He. lia. }
  pose proof (ioctl_cases penv env req payload Hreq Hpayload Hpenv Henv st lg Hfb) as Hc.
  destruct (prepare penv req payload st) as [[[pl [sc ax]]|e|] st1] eqn:Hprep; [| |done].
  2: { destruct Hc as (He & _ & Hi). rewrite Hi in Hrun. injection Hrun as <- _. by destruct (Hno e He). }
  destruct Hc as (Hpl & r' & x'' & Hi & Hex). rewrite Hi in Hrun. injection Hrun as -> ->.
  destruct (planned_facts _ _ _ Hreq _ _ _ _ _ Hpl) as (Hac & Hrd & Hseq & _).
  destruct Hex as [_ -> _ _ _|rt errno y z _ Hcl Hrt Herr Hsw Hcc];
    [rewrite Hseq in Hno; by destruct (Hno EINVAL)|].
  destruct (cc_reply _ _ _ _ _ _ Hcc) as ([] & Hr & _ & Han);
    [rewrite Hr, Hseq in Hno; by destruct (Hno EINVAL)|].
  destruct (rsp_of_wf pl rt errno Hrd Hrt Herr) as [Hwf Hlen].
  rewrite Hr in Hrsp. unfold reply in Hrsp. rewrite from_bytes_as_bytes in Hrsp by exact Hwf. injection Hrsp as <-.
  assert (rt = 0) as ->.
  { cbn in Hret. destruct (rt <? 0) eqn:E; bools; [|done]. specialize (Herr E). lia. }
  by exists pl, sc, ax, st1, errno, y, z.
Qed.

(** Outside NVOS64 and NVOS32 the inline block of the reply is the driver's. *)
Lemma succeeded_scratch env st lg r x' rsp pl sc ax st1 errno y z :
  succeeded env st lg r x' rsp pl sc ax st1 errno y z -> p_ioctl_nr pl = NV_ESC_RM_CONTROL ->
  scratch x' = scratch z.
Proof.
  intros S Hnr. pose proof (cc_scratch _ _ _ _ _ _ (su_concluded _ _ _ _ _ _ _ _ _ _ _ _ _ S)) as Hs.
  pose proof (su_ready _ _ _ _ _ _ _ _ _ _ _ _ _ S) as Hrd.
  destruct (osdesc_nvos64_tail pl) as [t|] eqn:Ht.
  - destruct (rd_tail _ Hrd t Ht) as (_ & _ & Hp). apply (rd_pages _ Hrd) in Hp.
    destruct Hp as (_ & _ & _ & _ & _ & Hp & _). by rewrite Hnr in Hp.
  - unfold vidheap_call in Hs. rewrite Hnr in Hs. by rewrite andb_false_r in Hs.
Qed.

(** An answer [b] to a process query, made of this machine's [rows] in the
    driver's answer [ans].  A process list: the count and all 950 entries of
    the table are the roster's PIDs, then zeros.  A memory query: each entry
    answered for keeps its question and gets the roster's usage, the rest of
    RM's record is zero.  No other byte of [ans] changes. *)
Definition roster_answer (cmd : Z) (rows : list ProcRow) (ans b : bytes) : Prop :=
  if cmd =? CMD_GPU_GET_PIDS then
    let n := Z.of_nat (Nat.min (length rows) PIDS_MAX) in
    PIDS_LEN <= blen ans /\ get_u32 b PIDS_COUNT_OFF = Some n /\
    (forall i, (i < PIDS_MAX)%nat ->
       get_u32 b (PIDS_TBL_OFF + 4 * Z.of_nat i) = Some (pid_entry rows i)) /\
    frame ans b PIDS_COUNT_OFF PIDS_LEN
  else
    exists asked, get_u32 ans PIDINFO_COUNT_OFF = Some asked /\
    let n := Z.min (Z.min asked PIDINFO_MAX) ((blen ans - PIDINFO_LIST_OFF) / PIDINFO_ENTRY) in
    get_u32 b PIDINFO_COUNT_OFF = Some n /\
    (forall i, 0 <= i < n -> entry_answered rows ans b i) /\
    frame ans b 0 (PIDINFO_LIST_OFF + PIDINFO_ENTRY * n).

Lemma list_rewrite_roster cmd rows ans n b :
  Forall row_ok rows -> wf_bytes ans -> list_rewrite cmd ans rows = Ok (Some n, b) ->
  roster_answer cmd rows ans b.
Proof.
  intros Hrows Hwf. unfold list_rewrite, roster_answer. destruct (cmd =? CMD_GPU_GET_PIDS).
  - destruct (get_pids_shows_roster_only ans rows Hrows) as (r & b' & -> & Hshort & Hfull). intros [= -> ->].
    destruct (decide (blen ans < PIDS_LEN)) as [Hs|Hs]; [by destruct (Hshort Hs)|].
    split; [lia|]. by apply Hfull; lia.
  - intros Hr. pose proof Hr as Hr'. unfold rewrite_get_pid_info in Hr'. destruct (_ <? _) eqn:E; [done|]. bools.
    destruct (rd32 ans PIDINFO_COUNT_OFF) as [asked| |] eqn:Hask; [|done..]. unfold rd32 in Hask.
    destruct (get_u32 ans PIDINFO_COUNT_OFF) as [v|] eqn:Hv; [|done]. injection Hask as ->.
    exists asked. split; [done|]. destruct (get_pid_info_answers_from_roster ans rows asked Hrows Hwf E Hv)
      as (b' & Hb' & H1 & H2 & H3). rewrite Hb' in Hr. injection Hr as _ ->. done.
Qed.


(** The buffers the driver sees: those of the plan, with this machine's UUID
    replaced by the card's in the blocks that name a GPU. *)
Definition names_card (pl : Plan) (sc : bytes) : bool :=
  (p_ioctl_nr pl =? NV_ESC_RM_CONTROL) && (32 <=? p_inline_len pl) && bool_decide (word sc 8 ∈ UUID_CONTROLS).

Definition asked env (pl : Plan) (sc ax sc' ax' : bytes) : Prop :=
  (if uvm_call pl then translation env true sc = Ok sc' else sc' = sc) /\
  (if negb (uvm_call pl) && names_card pl sc then translation env true ax = Ok ax' else ax' = ax).

Definition no_ioctl (c : HostCall) : Prop := match c with Ioctl _ _ _ _ => False | _ => True end.

Lemma store_no_ioctl pl (s : Sess (D:=D)) cs : semaphore_store pl s cs -> Forall no_ioctl cs.
Proof. intros [->|(? & ? & ? & ? & ? & -> & _)]; repeat constructor. Qed.

Lemma afterwards_no_ioctl cs : Forall afterwards cs -> Forall no_ioctl cs.
Proof. intros Hcs. eapply Forall_impl; [exact Hcs|]. by intros []. Qed.

(** C8: The driver sees a request only as it was prepared.  A refused request
    asks nothing of the host; one the backend answers itself never reaches
    the driver; a forwarded one reaches it in exactly one call, on the
    descriptor and with the request number and the buffers of the prepared
    plan, in which only the UUID of the card was translated. *)
Theorem driver_call_exact env (st : Sess (D:=D)) lg r x' :
  exec_env_ok env -> 0 <= fb_length (profile (s_ledger st)) ->
  on_ioctl penv env req payload st lg = (Ok r, x') ->
  match prepare penv req payload st with
  | (Ok (pl, (sc, ax)), _) =>
      match p_action pl with
      | Forward => exists sc' ax' cs, calls x' = Ioctl (p_target_fd pl) (p_request pl) sc' ax' :: cs /\
          Forall afterwards cs /\ asked env pl sc ax sc' ax'
      | _ => Forall no_ioctl (calls x')
      end
  | _ => calls x' = []
  end.
Proof.
  intros Henv Hfb Hrun. pose proof (ioctl_cases penv env req payload Hreq Hpayload Hpenv Henv st lg Hfb) as Hc.
  destruct (prepare penv req payload st) as [[[pl [sc ax]]|e|] st1]; [| |done].
  2: { destruct Hc as (_ & _ & Hi). rewrite Hi in Hrun. by injection Hrun as _ <-. }
  destruct Hc as (_ & r' & x'' & Hi & Hex). rewrite Hi in Hrun. injection Hrun as -> ->.
  destruct Hex as [Ha _ _ _ (cs & Hcs & Hst)|rt errno y z _ Hcl _ _ Hsw Hcc].
  { rewrite Ha, Hcs. by eapply store_no_ioctl. }
  destruct (cc_calls _ _ _ _ _ _ Hcc) as (cs & Hcs & Haf). rewrite (sw_calls _ _ _ _ _ Hsw) in Hcs.
  pose proof (afterwards_no_ioctl _ Haf) as Hn. unfold called in Hcl. destruct (p_action pl).
  - destruct Hcl as (u & [_ _ _ Hs1 Hs2] & _ & _ & Hu). rewrite Hu in Hcs. eexists _, _, cs.
    split; [exact Hcs|]. split; [done|]. exact (conj Hs1 Hs2).
  - destruct Hcl as (_ & _ & Hy & _). by rewrite Hcs, Hy.
  - destruct Hcl as (_ & _ & _ & cs' & Hy & Hst). rewrite Hcs, Hy. apply Forall_app_2; [|done].
    by eapply store_no_ioctl.
  - destruct Hcl as (_ & _ & Hy & _). by rewrite Hcs, Hy.
Qed.

(** A refused allocation: the operations on the books are those of the
    refusal alone. *)
Lemma full_effects pl sc ax : ready pl -> p_action pl = FakeVramFull ->
  get_u32 sc (vram_status_off pl) = Some NV_ERR_NO_MEMORY ->
  vram_ops pl 0 sc ax = [] /\ vidheap_ops pl 0 sc = [] /\ free_ops pl 0 sc = [].
Proof.
  intros Hrd Ha Hw. destruct (rd_full _ Hrd Ha) as (_ & _ & _ & Hr & Hk).
  assert (okw sc (vram_status_off pl) = false) as Hno by (by rewrite (proj2 (word_eq _ _ _ Hw))).
  unfold vram_ops, vidheap_ops, free_ops. rewrite Hr. split; [done|].
  destruct (vram_vidheap pl).
  - destruct Hk as [-> Ho]. rewrite Ho in Hno. rewrite Hno. by rewrite !andb_false_r.
  - rewrite Hk. cbn [Z.eqb]. by rewrite !andb_false_r.
Qed.

Lemma full_status env pl (x y z : Exec (D:=D)) rt errno r x' : ready pl -> p_action pl = FakeVramFull ->
  called env pl x rt errno y -> swapped env pl false y z -> concluded pl rt errno z r x' ->
  rt = 0 /\ get_u32 (scratch x') (vram_status_off pl) = Some NV_ERR_NO_MEMORY /\
  blen (scratch x') = p_inline_len pl /\ r = reply (rsp_of pl rt errno) (scratch x') (aux x').
Proof.
  intros Hrd Ha Hcl Hsw Hcc. destruct (rd_full _ Hrd Ha) as (Hu & _ & Ht & _ & Hk).
  unfold called in Hcl. rewrite Ha in Hcl. destruct Hcl as (-> & _ & _ & _ & He). split; [done|].
  assert (uvm_call pl = false) as Huv.
  { unfold uvm_call. destruct (dev_of (p_dev_tag pl)) eqn:Hd; [by apply Hu|done]. }
  pose proof (sw_scratch _ _ _ _ _ Hsw) as Hs. rewrite Huv in Hs.
  pose proof (ed_get _ _ _ _ _ He) as Hw. rewrite <- Hs in Hw.
  pose proof (cc_scratch _ _ _ _ _ _ Hcc) as Hx. rewrite Ht in Hx. split; [|split].
  - change (Some NV_ERR_NO_MEMORY) with (Some (NV_ERR_NO_MEMORY mod 256 ^ Z.of_nat 4)). rewrite <- Hw.
    unfold vidheap_call in Hx. destruct (vram_vidheap pl).
    + destruct Hk as [_ Ho]. rewrite Ho. destruct (_ && _); [|by rewrite Hx].
      apply (frame_get_le _ _ _ _ _ _ Hx). left. unfold V_STATUS_OFF. lia.
    + rewrite Hk in Hx. cbn [Z.eqb] in Hx. rewrite andb_false_r in Hx. by rewrite Hx.
  - apply (cc_bufs _ _ _ _ _ _ Hcc).
  - destruct (cc_reply _ _ _ _ _ _ Hcc) as (refused & -> & Hno & _). rewrite Hno; [done|].
    unfold control_answer. destruct (vram_vidheap pl); [destruct Hk as [Hk _]|]; rewrite Hk; cbn [Z.eqb];
      by rewrite andb_false_r.
Qed.

Definition no_memory_op (op : SessOp) : Prop :=
  match op with Placed _ _ _ _ | Settled _ _ _ | ChargesFreed _ _ => False | _ => True end.

Lemma sess_run_memory ops : forall s : Sess (D:=D), Forall no_memory_op ops ->
  s_ledger (sess_run s ops) = s_ledger s /\ owed (vbooks (sess_run s ops)) = owed (vbooks s).
Proof.
  induction ops as [|op ops IH]; intros s Hops; [done|]. apply Forall_cons_1 in Hops as [Ho Hops]. cbn.
  destruct (IH (sess_op s op) Hops) as [-> ->]. by destruct op.
Qed.

(** What does not fit the share is refused and leaves the ledger alone. *)
Lemma reserve_over l n : limit l <> 0 -> limit l < used l + n -> Vram.reserve l n = (false, l).
Proof.
  intros Hlim Hover. unfold Vram.reserve, charge, charge_next.
  destruct (checked_add64 (used l) n) as [s|] eqn:Hs; [|done]. apply checked_add64_Some in Hs as [-> _]. cbn.
  by rewrite (proj2 (Z.eqb_neq _ _) Hlim), (proj2 (Z.ltb_lt _ _) Hover).
Qed.

(** C11: A full card answers like a full card.  A well-formed request for [n]
    bytes of video memory, read off the wire, with [n] more than what is left
    of this machine's share, never reaches the driver: the reply reports
    success with NV_ERR_NO_MEMORY in the status word of the guest's own
    block (of NVOS64, NVOS21 or NVOS32), and neither the ledger nor what the
    session owes changes. *)
Theorem full_card_answered env (st : Sess (D:=D)) lg r x' pl sc ax st1 d n :
  exec_env_ok env -> 0 <= fb_length (profile (s_ledger st)) ->
  dev_of (dev_tag req) = Some d -> wants_vram req payload d n ->
  limit (s_ledger st) <> 0 -> limit (s_ledger st) < used (s_ledger st) + n ->
  prepare penv req payload st = (Ok (pl, (sc, ax)), st1) ->
  on_ioctl penv env req payload st lg = (Ok r, x') ->
  (exists rsp, from_bytes r = Some rsp /\ Wire.ret rsp = 0) /\
  get_u32 r (WIRE_LEN Rsp + memory_status_off req) = Some NV_ERR_NO_MEMORY /\
  Forall no_ioctl (calls x') /\
  s_ledger (sess x') = s_ledger st /\ owed (vbooks (sess x')) = owed (vbooks st).
Proof.
  intros Henv Hfb Hdev Hwant Hlim Hover Hprep Hrun.
  pose proof (ioctl_cases penv env req payload Hreq Hpayload Hpenv Henv st lg Hfb) as Hc.
  rewrite Hprep in Hc. destruct Hc as (Hpl & r' & x'' & Hi & Hex). rewrite Hi in Hrun. injection Hrun as -> ->.
  destruct (planned_facts _ _ _ Hreq _ _ _ _ _ Hpl) as (Hac & Hrd & _).
  destruct (ac_same _ _ _ _ _ Hac) as (_ & _ & Hb).
  destruct (planned_sourced _ _ _ Hreq Hpayload Hpenv _ _ _ _ _ Hpl) as (d' & Hd' & Hso).
  rewrite Hdev in Hd'. injection Hd' as <-. destruct (so_vram _ _ _ _ _ _ Hso n Hwant) as (ok & Hr & Ha & _ & Hoff).
  rewrite reserve_over in Hr by done. injection Hr as <- Hl. specialize (Ha eq_refl).
  destruct Hex as [Hm _ _ _ _|rt errno y z _ Hcl Hrt Herr Hsw Hcc]; [congruence|].
  pose proof (full_status _ _ _ _ _ _ _ _ _ Hrd Ha Hcl Hsw Hcc) as (-> & Hst & Hl1 & ->). rewrite <- Hoff.
  destruct (rsp_of_wf pl 0 errno Hrd ltac:(lia) ltac:(lia)) as [Hwf _].
  destruct (rd_vram _ Hrd (or_intror Ha)) as (Ho & Ho4 & _).
  split. { exists (rsp_of pl 0 errno). split; [|done]. unfold reply. by rewrite from_bytes_as_bytes by exact Hwf. }
  split; [by rewrite reply_word by (done || lia)|]. unfold called in Hcl. rewrite Ha in Hcl.
  destruct Hcl as (_ & _ & Hcy & Hsy & _). split.
  { destruct (cc_calls _ _ _ _ _ _ Hcc) as (cs & -> & Haf). rewrite (sw_calls _ _ _ _ _ Hsw), Hcy.
    by apply afterwards_no_ioctl. }
  rewrite (cc_sess _ _ _ _ _ _ Hcc), (sw_sess _ _ _ _ _ Hsw), Hsy, Hl, <- Hb. cbn [sess].
  rewrite <- sess_run_app. apply sess_run_memory.
  destruct (full_effects pl (scratch x') (aux x') Hrd Ha Hst) as (E1 & E2 & E3).
  unfold effects. rewrite E1, E2, E3. unfold refusal_ops, arena_ops, event_ops, waiter_ops, range_ops, root_ops.
  repeat apply Forall_app_2; repeat case_match; repeat constructor.
Qed.

End answers.

(** ** Examples *)

(** A driver that leaves the inline block alone and fills the parameters with
    something of the host's. *)
Definition leaky_driver (fd request : Z) (sc ax : bytes) : Z * Z * (bytes * bytes) :=
  (0, 0, (sc, map (fun _ => 7) ax)).

Definition example_exec : ExecEnv :=
  MkExecEnv leaky_driver None (MkSwitches true true true) false naming.NameFormat_default 1
    {| pid := 77; pi_pad := 0; comm := replicate 16 65 |} false (fun _ => false).

Lemma example_exec_ok : exec_env_ok example_exec.
Proof.
  split; [|done]. intros fd request sc ax Hsc Hax. cbn. split_and!; try done; try lia.
  - apply Forall_fmap. eapply Forall_impl; [exact Hax|]. intros ? _. by vm_compute.
  - unfold blen. by rewrite length_map.
Qed.

Definition no_logs : LogBooks := MkLogBooks 0 ∅.

(** One process is known, 16 MiB are the machine's share. *)
Definition named_sess : Sess (D:=TableDriver) :=
  set_vram (register (s_ledger example_sess) 1 77 (replicate 3 65)) (vbooks example_sess) example_sess.

Definition pids_req : Req := {|
  seq := 5; kind := 3; dev_tag := 0; ioctl_nr := NV_ESC_RM_CONTROL; target_token := 1;
  inline_len := 32; aux_len := 3812; fd_field_off := NONE_U32; fd_field_proc := NONE_U32;
  fd_field_token := NONE_U64; embedded_ptr_off := 16; nested_count := 0;
  nested := replicate MAX_NESTED NestedDesc_default;
  aux_fd_field_off := NONE_U32; aux_fd_field_proc := NONE_U32;
  aux_fd_field_token := NONE_U64; map_len := 0; addr := 0; gpa_run_count := 0;
  guest_proc := 1 |}.

Definition pids_payload : bytes :=
  put_range (put_range (put_range (replicate 3844 0) 8 (le_bytes 4 CMD_GPU_GET_PIDS))
    16 (le_bytes 8 0x7f0000001000)) 24 (le_bytes 4 3812).

(** A device-memory allocation of 32 MiB. *)
Definition alloc_req : Req := {|
  seq := 6; kind := 3; dev_tag := 0; ioctl_nr := NV_ESC_RM_ALLOC; target_token := 1;
  inline_len := 48; aux_len := 128; fd_field_off := NONE_U32; fd_field_proc := NONE_U32;
  fd_field_token := NONE_U64; embedded_ptr_off := 16; nested_count := 0;
  nested := replicate MAX_NESTED NestedDesc_default;
  aux_fd_field_off := NONE_U32; aux_fd_field_proc := NONE_U32;
  aux_fd_field_token := NONE_U64; map_len := 0; addr := 0; gpa_run_count := 0;
  guest_proc := 1 |}.

Definition alloc_payload : bytes :=
  put_range (put_range (put_range (replicate 176 0) 12 (le_bytes 4 0x40))
    16 (le_bytes 8 0x7f0000001000)) 112 (le_bytes 8 0x2000000).

Definition pids_done := on_ioctl (A:=V615) example_env example_exec pids_req pids_payload named_sess no_logs.
Definition alloc_done := on_ioctl (A:=V615) example_env example_exec alloc_req alloc_payload named_sess no_logs.

Lemma example_req_wf : wf_req pids_req /\ wf_req alloc_req.
Proof.
  assert (Forall wf_nested (replicate MAX_NESTED NestedDesc_default)) by (repeat constructor; vm_compute; congruence).
  split; unfold wf_req, is_u32, is_u64; cbn; split_and!; try done; lia.
Qed.


Definition ran {X} (o : outcome Empty_set X) (d : X) : X := match o with Ok x => x | _ => d end.
Definition planned_of (m : outcome Z (Plan * (bytes * bytes)) * Sess (D:=TableDriver)) :
    option (Plan * (bytes * bytes)) := match m.1 with Ok p => Some p | _ => None end.

Lemma driver_call_exact_witness : exists pl sc ax sc' ax' cs,
  planned_of (prepare (A:=V615) example_env pids_req pids_payload named_sess) = Some (pl, (sc, ax)) /\
  p_target_fd pl = 33 /\ calls pids_done.2 = Ioctl (p_target_fd pl) (p_request pl) sc' ax' :: cs /\
  Forall afterwards cs /\ asked example_exec pl sc ax sc' ax'.
Proof.
  assert (pids_done = (Ok (ran pids_done.1 []), pids_done.2)) as Hd by (vm_compute; reflexivity).
  pose proof (driver_call_exact (A:=V615) example_env pids_req pids_payload (proj1 example_req_wf)
    (wf_bytesb_spec pids_payload eq_refl) example_env_ok example_exec named_sess no_logs _ _
    example_exec_ok ltac:(by vm_compute) Hd) as Hx.
  assert (exists pl sc ax st1, prepare (A:=V615) example_env pids_req pids_payload named_sess =
    (Ok (pl, (sc, ax)), st1) /\ p_action pl = Forward /\ p_target_fd pl = 33) as (pl & sc & ax & st1 & Hp & Ha & Hf).
  { eexists _, _, _, _. split; [vm_compute; reflexivity|]. split; reflexivity. }
  rewrite Hp, Ha in Hx. destruct Hx as (sc' & ax' & cs & Hc & Hcs & Hask).
  exists pl, sc, ax, sc', ax', cs. rewrite Hp. split_and!; done.
Defined.

(** 32 MiB of a share of 16 MiB. *)
Lemma full_card_answered_witness :
  wants_vram alloc_req alloc_payload Ctl 0x2000000 /\
  get_u32 (ran alloc_done.1 []) 72 = Some NV_ERR_NO_MEMORY /\ Forall no_ioctl (calls alloc_done.2) /\
  s_ledger (sess alloc_done.2) = s_ledger named_sess.
Proof.
  assert (alloc_done = (Ok (ran alloc_done.1 []), alloc_done.2)) as Hd by (vm_compute; reflexivity).
  assert (exists pl sc ax st1, prepare (A:=V615) example_env alloc_req alloc_payload named_sess =
    (Ok (pl, (sc, ax)), st1)) as (pl & sc & ax & st1 & Hp).
  { eexists _, _, _, _. vm_compute. reflexivity. }
  assert (wants_vram alloc_req alloc_payload Ctl 0x2000000) as Hw.
  { split; [reflexivity|]. split; [lia|]. left. split; [reflexivity|]. split; [vm_compute; congruence|].
    split; [vm_compute; reflexivity|]. exists 0, 0. split_and!; vm_compute; reflexivity. }
  split; [exact Hw|].
  destruct (full_card_answered (A:=V615) example_env alloc_req alloc_payload (proj2 example_req_wf)
    (wf_bytesb_spec alloc_payload eq_refl) example_env_ok example_exec named_sess no_logs _ _ pl sc ax st1 Ctl 0x2000000
    example_exec_ok ltac:(by vm_compute) eq_refl Hw ltac:(by vm_compute) ltac:(by vm_compute) Hp Hd) as (_ & Hs & Hc & Hl & _).
  exact (conj Hs (conj Hc Hl)).
Defined.
