(* ===== verification/Mediate.v ===== *)
(** * The manifest of rewritten fields (nvrm-abi/src/mediate.rs)

    [manifest] names every field the boundary between guest and driver
    rewrites; a native run and a run in a guest may differ inside these fields
    and nowhere else.  The file holds the table and proves it complete for the
    backend: whatever the driver answers, a byte of the answer that the backend
    changes is in it.  Only the explanations in prose are left out of a row,
    and the text dump. *)
From stdpp Require Import strings sorting.
From S2P Require Import Prelude.
From S2P Require Import Effects.
From S2P Require Import Bytes.
From S2P Require Import Wire.
From S2P Require Import CLayout.
From S2P Require Import SysConsts.
From S2P Require Import Sys.
From S2P Require Import SysLayout.
From S2P Require Import NvAbi.
From S2P Require Import Xlate.
From S2P Require Import RequestShape.
From S2P Require Import VramPolicy.
From S2P Require Import Vram.
From S2P Require Import Answers.
From S2P Require Import Naming.
From S2P Require Import Grid.
From S2P Require Import AnswerShape.
From S2P Require Import Arena.
From S2P Require Import HostPool.
From S2P Require Import Prepare.
From S2P Require Import Prepared.
From S2P Require Import Execute.
From S2P Require Import Executed.
From S2P Require Import Request.

Local Open Scope string_scope.
Local Open Scope list_scope.
Local Open Scope Z_scope.

Module mediate.

Definition NR_RM_CONTROL : Z := 0x2a.

Inductive Kind :=
| BdfScalar | BdfArray | BdfAddress | NestedPtr | CtrlFd | BackendAnswered | IdentityString.

Global Instance Kind_eq_dec : EqDecision Kind.
Proof. solve_decision. Defined.

Record Mediated := MkMediated {
  nr : Z; cmd : Z; off : Z; len : Z; stride : Z; count : Z; kind : Kind; field : string }.

Global Instance Mediated_eq_dec : EqDecision Mediated.
Proof. solve_decision. Defined.

Definition end_ (m : Mediated) : Z :=
  if (1 <? count m) && (0 <? stride m) then off m + stride m * (count m - 1) + len m
  else off m + len m.

(** ** GPU addresses *)
Definition bdf_scalars : list (string * Z * Z) :=
  [("GET_ID_INFO", NV0000_CTRL_CMD_GPU_GET_ID_INFO, offset_of NV0000_CTRL_GPU_GET_ID_INFO_PARAMS "gpuId");
   ("GET_ID_INFO_V2", NV0000_CTRL_CMD_GPU_GET_ID_INFO_V2, offset_of NV0000_CTRL_GPU_GET_ID_INFO_V2_PARAMS "gpuId");
   ("GET_ID_INFO boardId", NV0000_CTRL_CMD_GPU_GET_ID_INFO, offset_of NV0000_CTRL_GPU_GET_ID_INFO_PARAMS "boardId");
   ("GET_ID_INFO_V2 boardId", NV0000_CTRL_CMD_GPU_GET_ID_INFO_V2,
    offset_of NV0000_CTRL_GPU_GET_ID_INFO_V2_PARAMS "boardId");
   ("GET_PCI_INFO", NV0000_CTRL_CMD_GPU_GET_PCI_INFO, offset_of NV0000_CTRL_GPU_GET_PCI_INFO_PARAMS "gpuId");
   ("GET_UUID_INFO", NV0000_CTRL_CMD_GPU_GET_UUID_INFO, offset_of NV0000_CTRL_GPU_GET_UUID_INFO_PARAMS "gpuId");
   ("GET_UUID_FROM_GPU_ID", NV0000_CTRL_CMD_GPU_GET_UUID_FROM_GPU_ID,
    offset_of NV0000_CTRL_GPU_GET_UUID_FROM_GPU_ID_PARAMS "gpuId");
   ("MODIFY_DRAIN_STATE", NV0000_CTRL_CMD_GPU_MODIFY_DRAIN_STATE,
    offset_of NV0000_CTRL_GPU_MODIFY_DRAIN_STATE_PARAMS "gpuId");
   ("QUERY_DRAIN_STATE", NV0000_CTRL_CMD_GPU_QUERY_DRAIN_STATE,
    offset_of NV0000_CTRL_GPU_QUERY_DRAIN_STATE_PARAMS "gpuId");
   ("ASYNC_ATTACH_ID", NV0000_CTRL_CMD_GPU_ASYNC_ATTACH_ID,
    offset_of NV0000_CTRL_GPU_ASYNC_ATTACH_ID_PARAMS "gpuId");
   ("WAIT_ATTACH_ID", NV0000_CTRL_CMD_GPU_WAIT_ATTACH_ID, offset_of NV0000_CTRL_GPU_WAIT_ATTACH_ID_PARAMS "gpuId");
   ("GPUACCT_GET_ACCOUNTING_STATE", NV0000_CTRL_CMD_GPUACCT_GET_ACCOUNTING_STATE,
    offset_of NV0000_CTRL_GPUACCT_GET_ACCOUNTING_STATE_PARAMS "gpuId")].

Section abi.
Context {A : RmAbi}.

(** Name, command, offset, count and stride. *)
Definition bdf_arrays : list (string * Z * Z * Z * Z) :=
  [("GET_ATTACHED_IDS", NV0000_CTRL_CMD_GPU_GET_ATTACHED_IDS,
    offset_of NV0000_CTRL_GPU_GET_ATTACHED_IDS_PARAMS "gpuIds", NV0000_CTRL_GPU_MAX_ATTACHED_GPUS, 4);
   ("GET_PROBED_IDS", NV0000_CTRL_CMD_GPU_GET_PROBED_IDS,
    offset_of NV0000_CTRL_GPU_GET_PROBED_IDS_PARAMS "gpuIds", NV0000_CTRL_GPU_MAX_PROBED_GPUS, 4);
   ("ATTACH_IDS", NV0000_CTRL_CMD_GPU_ATTACH_IDS,
    offset_of NV0000_CTRL_GPU_ATTACH_IDS_PARAMS "gpuIds", NV0000_CTRL_GPU_MAX_PROBED_GPUS, 4);
   ("DETACH_IDS", NV0000_CTRL_CMD_GPU_DETACH_IDS,
    offset_of NV0000_CTRL_GPU_DETACH_IDS_PARAMS "gpuIds", NV0000_CTRL_GPU_MAX_ATTACHED_GPUS, 4);
   ("GET_ACTIVE_DEVICE_IDS", NV0000_CTRL_CMD_GPU_GET_ACTIVE_DEVICE_IDS,
    offset_of NV0000_CTRL_GPU_GET_ACTIVE_DEVICE_IDS_PARAMS "devices" + offset_of NV0000_CTRL_GPU_ACTIVE_DEVICE "gpuId",
    NV0000_CTRL_GPU_MAX_ACTIVE_DEVICES, size_of NV0000_CTRL_GPU_ACTIVE_DEVICE);
   ("P2P_CAPS_MATRIX_A", NV0000_CTRL_CMD_SYSTEM_GET_P2P_CAPS_MATRIX,
    off_const P2P_CAPS_MATRIX_PARAMS_OFFS "gpuIdGrpA", NV0000_CTRL_SYSTEM_MAX_P2P_GROUP_GPUS, 4);
   ("P2P_CAPS_MATRIX_B", NV0000_CTRL_CMD_SYSTEM_GET_P2P_CAPS_MATRIX,
    off_const P2P_CAPS_MATRIX_PARAMS_OFFS "gpuIdGrpB", NV0000_CTRL_SYSTEM_MAX_P2P_GROUP_GPUS, 4)].

(** Suffix, member, offset and bytes. *)
Definition pci_info_fields : list (string * string * Z * Z) :=
  [("PCI_INFO_GPUID", "gpuId", offset_of NV0000_CTRL_GPU_GET_PCI_INFO_PARAMS "gpuId", 4);
   ("PCI_INFO_DOMAIN", "domain", offset_of NV0000_CTRL_GPU_GET_PCI_INFO_PARAMS "domain", 4);
   ("PCI_INFO_BUS", "bus", offset_of NV0000_CTRL_GPU_GET_PCI_INFO_PARAMS "bus", 2);
   ("PCI_INFO_SLOT", "slot", offset_of NV0000_CTRL_GPU_GET_PCI_INFO_PARAMS "slot", 2)].

(** [name_off], [name_max] of the ABI at hand. *)
Definition name_off : Z := GPU_NAME_STRING_PARAMS_OFF_gpuNameString.
Definition name_max : Z := size_of GpuNameStringBuffer.

(** ** The manifest *)
Definition ctl (c o l : Z) (k : Kind) (f : string) : Mediated :=
  MkMediated NR_RM_CONTROL c (wrap32 o) l 0 0 k f.
Definition ctl_array (c o l s n : Z) (k : Kind) (f : string) : Mediated :=
  MkMediated NR_RM_CONTROL c (wrap32 o) l (wrap32 s) n k f.

Definition scalar_rows : list Mediated :=
  map (fun '(name, c, o) => ctl c o 4 BdfScalar name) bdf_scalars.

Definition array_rows : list Mediated :=
  map (fun '(name, c, o, n, s) => ctl_array c o 4 s n BdfArray name) bdf_arrays.

Definition address_rows : list Mediated :=
  omap (fun '(_, member, o, l) =>
    if bool_decide (member = "gpuId") then None
    else Some (ctl NV0000_CTRL_CMD_GPU_GET_PCI_INFO o l BdfAddress member)) pci_info_fields.

Definition pointer_rows : list Mediated :=
  concat (map (fun c => map (fun p => ctl c (np_ptr_off p) 8 NestedPtr "NvP64") (nested_ptrs c)) nested_cmds).

Definition fd_rows : list Mediated :=
  omap (fun c => o ← ctrl_fd_offset c; Some (ctl c o 4 CtrlFd "fd")) ctrl_fd_cmds.

Definition pids_rows : list Mediated :=
  [ctl CMD_GPU_GET_PIDS PIDS_COUNT_OFF 4 BackendAnswered "pidTblCount";
   ctl_array CMD_GPU_GET_PIDS PIDS_TBL_OFF 4 4 (Z.of_nat PIDS_MAX) BackendAnswered "pidTbl"].

Definition pid_info_rows : list Mediated :=
  [ctl CMD_GPU_GET_PID_INFO PIDINFO_COUNT_OFF 4 BackendAnswered "pidInfoListCount";
   ctl_array CMD_GPU_GET_PID_INFO PIDINFO_LIST_OFF PIDINFO_ENTRY PIDINFO_ENTRY PIDINFO_MAX
     BackendAnswered "pidInfoList"].

Definition fb_rows : list Mediated :=
  map (fun '(c, base) => ctl_array c (base + FBINFO_DATA_OFF) 4 FBINFO_ENTRY FBINFO_MAX BackendAnswered
                           "fbInfoList[].data")
    [(CMD_FB_GET_INFO_V2, FBINFO_LIST_OFF); (CMD_FB_GET_INFO, 0)].

Definition virtmode_rows : list Mediated :=
  [ctl CMD_GPU_GET_VIRTUALIZATION_MODE VIRTMODE_OFF 4 BackendAnswered "virtualizationMode";
   ctl CMD_GPU_GET_VIRTUALIZATION_MODE VIRTMODE_GRIDBUILD_OFF 1 BackendAnswered "isGridBuild"].

Definition uuid_rows : list Mediated :=
  map (fun '(c, o, f) => ctl c o 256 IdentityString f)
    [(CMD_GPU_GET_GID_INFO, offset_of NV2080_CTRL_GPU_GET_GID_INFO_PARAMS "data", "data");
     (NV0000_CTRL_CMD_GPU_GET_UUID_INFO, offset_of NV0000_CTRL_GPU_GET_UUID_INFO_PARAMS "gpuUuid", "gpuUuid");
     (NV0000_CTRL_CMD_GPU_GET_UUID_FROM_GPU_ID, offset_of NV0000_CTRL_GPU_GET_UUID_FROM_GPU_ID_PARAMS "gpuUuid",
      "gpuUuid")].

Definition encoder_rows : list Mediated :=
  [ctl CMD_GPU_GET_ENCODER_CAPACITY ENCCAP_OFF 4 BackendAnswered "encoderCapacity"].

Definition name_rows : list Mediated :=
  [ctl CMD_GPU_GET_NAME_STRING name_off (wrap32 name_max) IdentityString "gpuNameString"].

Definition inline (n o l : Z) (k : Kind) (f : string) : Mediated := MkMediated n 0 (wrap32 o) l 0 0 k f.

Definition card_info_rows : list Mediated :=
  map (fun '(member, o, l) => inline NV_ESC_CARD_INFO o l BdfAddress member)
    [("pci_info.domain", offset_of nv_ioctl_card_info_t "pci_info" + offset_of nv_pci_info_t "domain", 4);
     ("pci_info.bus", offset_of nv_ioctl_card_info_t "pci_info" + offset_of nv_pci_info_t "bus", 1);
     ("pci_info.slot", offset_of nv_ioctl_card_info_t "pci_info" + offset_of nv_pci_info_t "slot", 1);
     ("pci_info.function", offset_of nv_ioctl_card_info_t "pci_info" + offset_of nv_pci_info_t "function", 1)] ++
  [inline NV_ESC_CARD_INFO (offset_of nv_ioctl_card_info_t "gpu_id") 4 BdfScalar "gpu_id"].

Definition vidheap_rows : list Mediated :=
  map (fun '(member, o) => inline NV_ESC_RM_VID_HEAP_CONTROL o 8 BackendAnswered member)
    [("total", offset_of NVOS32_PARAMETERS "total"); ("free", offset_of NVOS32_PARAMETERS "free")].

Definition rows : list Mediated :=
  scalar_rows ++ array_rows ++ address_rows ++ pointer_rows ++ fd_rows ++ pids_rows ++ pid_info_rows ++ fb_rows ++
  virtmode_rows ++ uuid_rows ++ encoder_rows ++ name_rows ++ card_info_rows ++ vidheap_rows.

(** [sort_by_key(|m| (m.nr, m.cmd, m.off, m.len))] *)
Definition key (m : Mediated) : list Z := [nr m; cmd m; off m; len m].

Fixpoint lex_le (a b : list Z) : bool :=
  match a, b with
  | x :: a', y :: b' => (x <? y) || ((x =? y) && lex_le a' b')
  | [], _ => true
  | _, [] => false
  end.

Definition key_le (m m' : Mediated) : Prop := lex_le (key m) (key m') = true.
Global Instance key_le_dec : RelDecision key_le.
Proof. intros m m'. unfold key_le. apply _. Defined.

Definition manifest : list Mediated := merge_sort key_le rows.

End abi.

(** Whether byte [o] lies in the field. *)
Definition covers (m : Mediated) (o : Z) : bool :=
  (off m <=? o) &&
  if (1 <? count m) && (0 <? stride m)
  then ((o - off m) mod stride m <? len m) && ((o - off m) / stride m <? count m)
  else o <? off m + len m.
End mediate.

Import mediate.

(** ** Buffers that differ only in given places *)
Definition within (P : Z -> Prop) (b b' : bytes) : Prop :=
  length b' = length b /\ forall i : nat, b' !! i = b !! i \/ P (Z.of_nat i).

Lemma within_refl P b : within P b b.
Proof. split; [done|]. by left. Qed.

Lemma within_mono (P Q : Z -> Prop) b b' : (forall o, P o -> Q o) -> within P b b' -> within Q b b'.
Proof. intros HPQ [Hl Hi]. split; [done|]. intros i. destruct (Hi i); auto. Qed.

Lemma within_trans P a b c : within P a b -> within P b c -> within P a c.
Proof.
  intros [L1 H1] [L2 H2]. split; [congruence|]. intros i.
  destruct (H2 i) as [-> |]; [|by right]. apply H1.
Qed.

Global Instance within_preorder P : PreOrder (within P).
Proof. split; [intros b; apply within_refl|intros a b c; apply within_trans]. Qed.

Lemma within_get P b b' o n : within P b b' -> (forall i, o <= i < o + Z.of_nat n -> ~ P i) ->
  get_le n b' o = get_le n b o.
Proof.
  intros [Hl Hi] HP. unfold get_le, get_range, in_range, blen. rewrite Hl.
  destruct (_ && _ && _) eqn:E; [|done]. bools. do 2 f_equal. apply list_eq. intros i.
  destruct (decide (i < n)%nat); [|by rewrite !lookup_take_ge by lia].
  rewrite !lookup_take_lt, !lookup_drop by lia.
  destruct (Hi (Z.to_nat o + i)%nat) as [|HPi]; [done|]. exfalso. apply (HP _) in HPi; [done|lia].
Qed.

Lemma within_set_range P b o d b' : or_panic (E:=Empty_set) (set_range b o d) = Ok b' ->
  (forall i, o <= i < o + blen d -> P i) -> within P b b'.
Proof.
  unfold set_range. destruct (in_range b o (blen d)) eqn:E; [|done]. cbn [or_panic]. intros [= <-] HP.
  apply in_range_spec in E as (Ho & _ & Hl). split.
  - pose proof (blen_put_range b o d Ho Hl) as Hbl. unfold blen in Hbl. lia.
  - intros i. destruct (decide (Z.of_nat i < o \/ o + blen d <= Z.of_nat i)).
    + left. by apply put_range_lookup_ne.
    + right. apply HP. lia.
Qed.

Lemma within_wr32 P b o v b' : wr32 b o v = Ok b' -> (forall i, o <= i < o + 4 -> P i) -> within P b b'.
Proof. intros Hw HP. eapply within_set_range; [exact Hw|]. unfold blen. by rewrite length_le_bytes. Qed.

Lemma within_wr64 P b o v b' : wr64 b o v = Ok b' -> (forall i, o <= i < o + 8 -> P i) -> within P b b'.
Proof. intros Hw HP. eapply within_set_range; [exact Hw|]. unfold blen. by rewrite length_le_bytes. Qed.

Lemma within_write_u32s P vs : forall b o b', write_u32s b o vs = Ok b' ->
  (forall i, o <= i < o + 4 * Z.of_nat (length vs) -> P i) -> within P b b'.
Proof.
  induction vs as [|v vs IH]; intros b o b'; cbn [write_u32s length]; [intros [= <-] _; apply within_refl|].
  intros Hw HP. inv_ok. eapply within_trans; [eapply within_wr32; [done|]|eapply IH; [done|]]; intros i Hi; apply HP; lia.
Qed.

Lemma within_write_u64s P vs : forall b o b', write_u64s b o vs = Ok b' ->
  (forall i, o <= i < o + 8 * Z.of_nat (length vs) -> P i) -> within P b b'.
Proof.
  induction vs as [|v vs IH]; intros b o b'; cbn [write_u64s length]; [intros [= <-] _; apply within_refl|].
  intros Hw HP. inv_ok. eapply within_trans; [eapply within_wr64; [done|]|eapply IH; [done|]]; intros i Hi; apply HP; lia.
Qed.

Lemma within_for_range P f n : (forall a i a', f a i = Ok a' -> within (P i) a a') -> forall a i a',
  for_range f a i n = Ok a' -> within (fun o => exists k, i <= k < i + Z.of_nat n /\ P k o) a a'.
Proof.
  intros Hf. induction n as [|n IH]; intros a i a'; cbn [for_range]; [intros [= <-]; apply within_refl|].
  intros Hw. inv_ok. eapply within_trans; [eapply within_mono; [|eapply Hf; done]|eapply within_mono; [|eapply IH; done]];
    cbn beta; [intros o Ho; exists i; split; [lia|done]|]. intros o (k & Hk & Ho). exists k. split; [lia|done].
Qed.

Lemma within_suffix (P : Z -> Prop) (o : Z) b p : 0 <= o <= blen b ->
  within (fun i => P (i + o)) (drop (Z.to_nat o) b) p -> within P b (take (Z.to_nat o) b ++ p).
Proof.
  unfold blen. intros Ho [Hl Hi]. rewrite length_drop in Hl. split.
  - rewrite length_app, length_take. lia.
  - intros i. destruct (decide (i < Z.to_nat o)%nat).
    + left. rewrite lookup_app_l by (rewrite length_take; lia). by rewrite lookup_take_lt.
    + rewrite lookup_app_r, length_take by (rewrite length_take; lia).
      destruct (Hi (i - Z.to_nat o)%nat) as [He|HP].
      * left. replace (i - Z.to_nat o `min` length b)%nat with (i - Z.to_nat o)%nat by lia. rewrite He, lookup_drop. f_equal. lia.
      * right. by replace (Z.of_nat i) with (Z.of_nat (i - Z.to_nat o) + o) by lia.
Qed.

(** ** Each rewrite stays in the fields of its command *)
Lemma covers_plain m o : count m = 0 -> off m <= o < off m + len m -> covers m o = true.
Proof. intros Hc Ho. unfold covers. rewrite Hc. cbn. apply andb_true_iff. rewrite Z.leb_le, Z.ltb_lt. lia. Qed.

Lemma covers_element m o k : 1 < count m -> 0 < len m <= stride m -> 0 <= k < count m ->
  off m + stride m * k <= o < off m + stride m * k + len m -> covers m o = true.
Proof.
  intros Hc Hl Hk Ho. unfold covers. rewrite (proj2 (Z.ltb_lt 1 _)), (proj2 (Z.ltb_lt 0 _)) by lia. cbn [andb].
  assert (o - off m = (o - off m - stride m * k) + k * stride m) as E by lia. rewrite E.
  rewrite Z.mod_add, Z.div_add, Z.mod_small, Z.div_small by lia.
  rewrite !andb_true_iff, Z.leb_le, !Z.ltb_lt. nia.
Qed.

(** The fields the backend itself writes. *)
Definition own (m : Mediated) : bool := bool_decide (kind m = BackendAnswered \/ kind m = IdentityString).

Section fields.
Context {A : RmAbi}.

(** Byte [o] of the parameters of control [c] is in the manifest. *)
Definition in_field (n c o : Z) : Prop :=
  exists m, m ∈ manifest /\ nr m = n /\ cmd m = c /\ own m = true /\ covers m o = true.

Lemma in_manifest m : m ∈ rows -> m ∈ manifest.
Proof. intros Hm. unfold manifest. by rewrite merge_sort_Permutation. Qed.

Lemma in_rows m : m ∈ pids_rows ++ pid_info_rows ++ fb_rows ++ virtmode_rows ++ uuid_rows ++ encoder_rows ++ name_rows ++
  card_info_rows ++ vidheap_rows -> m ∈ manifest.
Proof. intros Hm. apply in_manifest. unfold rows. do 5 (apply elem_of_app; right). exact Hm. Qed.

Ltac row := apply in_rows; repeat first
  [apply elem_of_app; left; solve [left | right; left] | apply elem_of_app; right | left | right; left].

Lemma plain_field n c f l k s o : (let m := MkMediated n c f l 0 0 k s in m ∈ manifest /\ own m = true) ->
  f <= o < f + l -> in_field n c o.
Proof. intros [Hm Hown] Ho. eexists. split_and!; [exact Hm|done|done|done|]. by apply covers_plain. Qed.

Lemma element_field n c f l st ct k s o i : (let m := MkMediated n c f l st ct k s in m ∈ manifest /\ own m = true) ->
  1 < ct -> 0 < l <= st -> 0 <= i < ct -> f + st * i <= o < f + st * i + l -> in_field n c o.
Proof. intros [Hm Hown] H1 H2 H3 H4. eexists. split_and!; [exact Hm|done|done|done|]. by apply (covers_element _ _ i). Qed.

(** An array without gaps. *)
Lemma array_field n c f l ct k s o : (let m := MkMediated n c f l l ct k s in m ∈ manifest /\ own m = true) ->
  1 < ct -> 0 < l -> f <= o < f + l * ct -> in_field n c o.
Proof.
  intros Hm H1 H2 H3. eapply (element_field _ _ _ _ _ _ _ _ _ ((o - f) / l)); [exact Hm|done|lia|..];
    pose proof (Z.div_mod (o - f) l); pose proof (Z.mod_pos_bound (o - f) l); nia.
Qed.

Abbreviation control := (in_field NR_RM_CONTROL).

Lemma pids_field o : 8 <= o < 12 + 4 * 950 -> control CMD_GPU_GET_PIDS o.
Proof.
  intros Ho. destruct (decide (o < 12)).
  - eapply (plain_field _ _ 8 4); [split; [row|done]|lia].
  - eapply (array_field _ _ 12 4 950); [split; [row|done]|lia..].
Qed.

Lemma pid_info_field o : 0 <= o < 4 \/ 8 <= o < 8 + 72 * 200 -> control CMD_GPU_GET_PID_INFO o.
Proof.
  intros [Ho|Ho].
  - eapply (plain_field _ _ 0 4); [split; [row|done]|lia].
  - eapply (array_field _ _ 8 72 200); [split; [row|done]|lia..].
Qed.

Lemma fb_field o k : 0 <= k < 128 ->
  (8 * k + 4 <= o < 8 * k + 8 -> control CMD_FB_GET_INFO o) /\ (8 * k + 8 <= o < 8 * k + 12 -> control CMD_FB_GET_INFO_V2 o).
Proof.
  intros Hk. split; intros Ho.
  - eapply (element_field _ _ 4 4 8 128 _ _ _ k); [split; [row|done]|lia..].
  - eapply (element_field _ _ 8 4 8 128 _ _ _ k); [split; [row|done]|lia..].
Qed.

Lemma virtmode_field o : 0 <= o < 5 -> control CMD_GPU_GET_VIRTUALIZATION_MODE o.
Proof.
  intros Ho. destruct (decide (o < 4)).
  - eapply (plain_field _ _ 0 4); [split; [row|done]|lia].
  - eapply (plain_field _ _ 4 1); [split; [row|done]|lia].
Qed.

Lemma encoder_field o : 4 <= o < 8 -> control CMD_GPU_GET_ENCODER_CAPACITY o.
Proof. intros Ho. eapply (plain_field _ _ 4 4); [split; [row|done]|lia]. Qed.

Lemma vidheap_field o : 24 <= o < 40 -> in_field NV_ESC_RM_VID_HEAP_CONTROL 0 o.
Proof.
  intros Ho. destruct (decide (o < 32)).
  - eapply (plain_field _ _ 24 8); [split; [row|done]|lia].
  - eapply (plain_field _ _ 32 8); [split; [row|done]|lia].
Qed.

(** ** Each rewrite stays in the fields of its command *)
Lemma pids_within b ps r b' : rewrite_get_pids b ps = Ok (r, b') -> within (control CMD_GPU_GET_PIDS) b b'.
Proof.
  destruct pids_layout as (E1 & E2 & _). unfold rewrite_get_pids. rewrite E1, E2.
  intros Hr. inv_ok; [apply within_refl|].
  eapply within_trans; [eapply within_write_u32s; [done|]|eapply within_trans; [eapply within_write_u32s; [done|]|
    eapply within_wr32; [done|]]]; intros o Ho; apply pids_field;
    rewrite ?length_map, ?length_take, ?length_replicate in Ho; unfold PIDS_MAX in Ho; lia.
Qed.

Lemma pid_info_within b ps r b' : rewrite_get_pid_info b ps = Ok (r, b') -> within (control CMD_GPU_GET_PID_INFO) b b'.
Proof.
  destruct pidinfo_layout as (E1 & E2 & E3 & _ & E5). unfold rewrite_get_pid_info. rewrite E1, E2, E3.
  intros Hr. inv_ok; [apply within_refl|].
  eapply within_trans; [|eapply within_wr32; [done|]; intros o Ho; apply pid_info_field; lia].
  eapply within_mono; [|eapply (within_for_range (fun i o => 8 + 72 * i <= o < 8 + 72 * i + 72)); [|done]].
  - cbn beta. intros o (k & Hk & Ho). apply pid_info_field. unfold PIDINFO_MAX in Hk. lia.
  - intros b1 i b2 Hi. unfold pid_info_entry in Hi. rewrite E2, E3, E5 in Hi. inv_ok.
    eapply within_trans; [eapply within_wr32; [done|]|eapply within_trans; [eapply within_write_u64s; [done|]|eapply within_wr64; [done|]]];
      cbn; intros o Ho; lia.
Qed.

Lemma cap_within lim us n : forall b i t r, cap_entries b lim us i n t = Ok r ->
  within (fun o => exists k, i <= k < i + Z.of_nat n /\ 8 * k + 4 <= o < 8 * k + 8) b r.2.
Proof.
  destruct fbinfo_layout as [E _]. induction n as [|n IH]; intros b i t r; cbn [cap_entries]; [intros [= <-]; apply within_refl|].
  rewrite E. intros Hr. inv_ok. destruct (fb_value lim us _); inv_ok.
  - eapply within_trans; [eapply within_wr32; [done|]; intros o Ho; exists i; lia|].
    eapply within_mono; [|eapply IH; done]. cbn beta. intros o (k & Hk & Ho). exists k. lia.
  - eapply within_mono; [|eapply IH; done]. cbn beta. intros o (k & Hk & Ho). exists k. lia.
Qed.

Lemma cap_fb_within b asked lim us r : cap_fb_entries b asked lim us = Ok r ->
  within (fun o => exists k, 0 <= k < 128 /\ 8 * k + 4 <= o < 8 * k + 8) b r.2.
Proof.
  unfold cap_fb_entries. intros Hr. inv_ok. cbn [snd]. eapply within_mono; [|eapply cap_within; done].
  cbn beta. unfold FBINFO_MAX. intros o (k & Hk & Ho). exists k. lia.
Qed.

Lemma fb_list_within b asked lim us r : rewrite_fb_info_list b asked lim us = Ok r ->
  within (control CMD_FB_GET_INFO) b r.2.
Proof.
  unfold rewrite_fb_info_list. intros Hr. inv_ok; [apply within_refl|].
  eapply within_mono; [|eapply cap_fb_within; done]. cbn beta. intros o (k & Hk & Ho). by apply (fb_field o k).
Qed.

Lemma fb_info_within b lim us r : rewrite_fb_info b lim us = Ok r -> within (control CMD_FB_GET_INFO_V2) b r.2.
Proof.
  destruct fbinfo_layout as [E _]. unfold rewrite_fb_info. rewrite E. intros Hr. inv_ok; [apply within_refl|].
  apply (within_suffix _ FBINFO_LIST_OFF); [unfold FBINFO_LIST_OFF in *; bool_cases; lia|].
  eapply within_mono; [|eapply cap_fb_within; done].
  cbn beta. intros o (k & Hk & Ho). apply (fb_field _ k); unfold FBINFO_LIST_OFF; lia.
Qed.

Lemma virtmode_within b r : rewrite_virtualization_mode b = Ok r -> within (control CMD_GPU_GET_VIRTUALIZATION_MODE) b r.2.
Proof.
  destruct virtmode_layout as (E1 & E2 & _). unfold rewrite_virtualization_mode. rewrite E1, E2.
  destruct (_ <? _); [intros [= <-]; apply within_refl|].
  intros (b1 & Hb1 & (b2 & Hb2 & [= <-])%bind_Ok)%bind_Ok. cbn [snd].
  eapply within_trans; [eapply within_wr32; [exact Hb1|]|eapply within_set_range; [exact Hb2|]];
    unfold blen; cbn [length]; intros o Ho; apply virtmode_field; lia.
Qed.

Lemma encoder_within b p r : rewrite_encoder_capacity b p = Ok r -> within (control CMD_GPU_GET_ENCODER_CAPACITY) b r.2.
Proof.
  destruct enccap_layout as [E _]. unfold rewrite_encoder_capacity. rewrite E. intros Hr. inv_ok; [apply within_refl|].
  eapply within_wr32; [done|]. intros o Ho. apply encoder_field. lia.
Qed.

Lemma vidheap_within b lim us r : rewrite_vidheap_info b lim us = Ok r ->
  within (in_field NV_ESC_RM_VID_HEAP_CONTROL 0) b r.2.
Proof.
  unfold rewrite_vidheap_info. intros Hr. inv_ok; [apply within_refl|].
  eapply within_trans; [eapply within_wr64; [done|]|eapply within_wr64; [done|]]; intros o Ho; apply vidheap_field;
    change V_TOTAL with 24 in *; change V_FREE with 32 in *; lia.
Qed.

(** The name field of the default ABI, which the backend writes whichever
    driver it serves, lies inside that of every supported driver. *)
Context (Hname : name_off = 4 /\ 64 <= name_max <= 128).

Lemma name_field o : 4 <= o < 68 -> control CMD_GPU_GET_NAME_STRING o.
Proof.
  intros Ho. eapply (plain_field _ _ (wrap32 name_off) (wrap32 name_max)); [split; [row|done]|].
  destruct Hname as [-> Hm]. change (wrap32 4) with 4. unfold wrap32. rewrite Z.mod_small by lia. lia.
Qed.

Lemma name_within f b p r : rewrite_gpu_name f b p = Ok r -> within (control CMD_GPU_GET_NAME_STRING) b r.2.
Proof.
  unfold rewrite_gpu_name. change Naming.name_off with 4. change Naming.name_max with 64.
  destruct (_ <? _); [intros [= <-]; apply within_refl|].
  intros (raw & _ & (b1 & Hb1 & (b2 & Hb2 & [= <-])%bind_Ok)%bind_Ok)%bind_Ok. cbn [snd].
  set (n := Z.min _ _) in *. assert (0 <= n <= 63) by (unfold n, blen; lia).
  eapply within_trans; [eapply within_set_range; [exact Hb1|]|eapply within_set_range; [exact Hb2|]];
    intros o Ho; apply name_field; unfold blen in Ho; rewrite ?length_take, ?length_replicate in Ho; lia.
Qed.
End fields.

(** ** What code may do to the state *)
Section only.
Context {St : Type} (R : St -> St -> Prop) `{!PreOrder R}.

(** Where [m] returns, the states before and after it are related. *)
Definition only {E X} (m : eff E St X) : Prop := forall s a s', m s = (Ok a, s') -> R s s'.

Lemma run_bind {E X Y} (m : eff E St X) (k : X -> eff E St Y) s b s' : (m ≫= k) s = (Ok b, s') ->
  exists a s1, m s = (Ok a, s1) /\ k a s1 = (Ok b, s').
Proof. unfold mbind, eff_bind. destruct (m s) as [[a|e|] s1]; [by exists a, s1|done|done]. Qed.

Lemma only_bind {E X Y} (m : eff E St X) (k : X -> eff E St Y) : only m -> (forall a, only (k a)) -> only (m ≫= k).
Proof. intros Hm Hk s b s' (a & s1 & H1 & H2)%run_bind. etransitivity; [by eapply Hm|by eapply Hk]. Qed.

Lemma run_only {E X Y} (m : eff E St X) (k : X -> eff E St Y) s b s' : only m -> (m ≫= k) s = (Ok b, s') ->
  exists a s1, R s s1 /\ k a s1 = (Ok b, s').
Proof. intros Hm (a & s1 & H1 & H2)%run_bind. exists a, s1. split; [by eapply Hm|done]. Qed.

Lemma only_ret {E X} (a : X) : only (E:=E) (mret a).
Proof. intros s b s' [= _ <-]. reflexivity. Qed.

Lemma only_asks {E X} (f : St -> X) : only (E:=E) (asks f).
Proof. intros s b s' [= _ <-]. reflexivity. Qed.

Lemma only_lift {E X} (m : outcome E X) : only (lift m).
Proof. intros s b s' [= _ <-]. reflexivity. Qed.

Lemma only_modify {E} f : (forall s, R s (f s)) -> only (E:=E) (modify f).
Proof. intros Hf s b s' [= _ <-]. apply Hf. Qed.

Lemma only_if {E X} (c : bool) (m n : eff E St X) : only m -> only n -> only (if c then m else n).
Proof. by destruct c. Qed.
End only.

(** ** The stages after the driver's call *)
Section stages.
Context {A : RmAbi} (Hname : name_off = 4 /\ 64 <= name_max <= 128).
Context {D : Type} `{PoolDriver D} (env : ExecEnv) (plan : Plan) (rt : Z).
Context (Hfb : forall off asked, fb_info_list plan = Some (off, asked) -> 0 <= off).

Abbreviation Ex := (Exec (D:=D)).

(** The inline block differs in [P], the parameters in [Q]. *)
Definition differs (P Q : Z -> Prop) (x x' : Ex) : Prop :=
  within P (scratch x) (scratch x') /\ within Q (aux x) (aux x').

Abbreviation nowhere := (fun _ : Z => False).

Global Instance differs_preorder P Q : PreOrder (differs P Q).
Proof.
  split; [intros x; split; reflexivity|]. intros x y z [? ?] [? ?]. split; (etransitivity; [eassumption|done]).
Qed.

Lemma differs_mono (P P' Q Q' : Z -> Prop) x x' : (forall o, P o -> P' o) -> (forall o, Q o -> Q' o) ->
  differs P Q x x' -> differs P' Q' x x'.
Proof. intros HP HQ [? ?]. split; by eapply within_mono. Qed.

Lemma only_at32 P Q o : only (differs P Q) (at32 o).
Proof. intros x a x'. unfold at32. intros [= _ <-]. reflexivity. Qed.
Lemma only_at64 P Q o : only (differs P Q) (at64 o).
Proof. intros x a x'. unfold at64. intros [= _ <-]. reflexivity. Qed.

Lemma only_edit_aux P Q f : (forall b b', f b = Ok b' -> within Q b b') -> only (differs P Q) (edit_aux f).
Proof.
  intros Hf x a x' (b & x1 & [= <- <-] & (b' & x2 & [= Hb <-] & [= _ <-])%run_bind)%run_bind.
  split; [reflexivity|]. by apply Hf.
Qed.

Lemma only_edit_scratch P Q f : (forall b b', f b = Ok b' -> within P b b') -> only (differs P Q) (edit_scratch f).
Proof.
  intros Hf x a x' (b & x1 & [= <- <-] & (b' & x2 & [= Hb <-] & [= _ <-])%run_bind)%run_bind.
  split; [|reflexivity]. by apply Hf.
Qed.

Ltac only_step :=
  lazymatch goal with
  | |- only _ (mbind _ _) => apply only_bind; [apply _| |intros ?]
  | |- only _ (mret _) => apply only_ret; apply _
  | |- only _ (asks _) => apply only_asks; apply _
  | |- only _ (lift _) => apply only_lift; apply _
  | |- only _ (modify _) => apply only_modify; intros ?; split; apply within_refl
  | |- only _ (when _ _) => unfold when
  | |- only _ (at32 _) => apply only_at32
  | |- only _ (at64 _) => apply only_at64
  | |- only _ (if _ then _ else _) => apply only_if
  | |- only _ (match ?x with _ => _ end) => destruct x
  end.

Lemma only_status_ok P Q o : only (differs P Q) (status_ok o).
Proof. unfold status_ok. repeat only_step. Qed.

Ltac only_stage := repeat first [only_step | apply only_status_ok].

(** The stages that only keep books. *)
Ltac bookkeeping :=
  unfold keep_arena, finish_event, finish_register, finish_unregister, waiter_ok, settle_reservation, placed_at, release_range,
    vidheap_free, vidheap_done, log_object, record_root, free_rm_object, label_client, grant_copies, log_call, log_sub,
    log_status, on_evb, free_os_event, free_charges;
  only_stage.

Ltac next Hrun := apply (run_only (differs nowhere nowhere)) in Hrun as (? & ? & ? & Hrun); [|solve [bookkeeping]].
Ltac collected := repeat (etransitivity; [eassumption|]); reflexivity.

Lemma early_run {X} (k : eff Empty_set Ex X) x r x' :
  (_ ← keep_arena plan rt; _ ← finish_event plan rt; _ ← finish_register plan rt; _ ← finish_unregister plan rt; k) x =
    (Ok r, x') -> exists y, differs nowhere nowhere x y /\ k y = (Ok r, x').
Proof. intros Hrun. do 4 next Hrun. eexists. split; [|exact Hrun]. collected. Qed.

Lemma late_run {X} (k : eff Empty_set Ex X) x r x' :
  (_ ← settle_reservation plan rt; _ ← release_range plan rt; _ ← vidheap_free plan rt;
   _ ← log_object plan; _ ← record_root plan rt; _ ← free_rm_object plan rt;
   _ ← label_client env plan rt; _ ← grant_copies plan rt; _ ← log_call env plan rt; k) x = (Ok r, x') ->
  exists y, differs nowhere nowhere x y /\ k y = (Ok r, x').
Proof. intros Hrun. do 9 next Hrun. eexists. split; [|exact Hrun]. collected. Qed.

Lemma restore_only : only (differs (fun o => is_Some (osdesc_nvos64_tail plan) /\ 16 <= o < 40) nowhere) (restore_middle plan).
Proof.
  unfold restore_middle. destruct (osdesc_nvos64_tail plan) as [t|]; only_stage.
  apply only_edit_scratch. intros b b' Hb. eapply within_set_range; [exact Hb|]. unfold blen. rewrite length_take.
  intros i Hi. split; [by eexists|]. lia.
Qed.

(** ** The mediation of an answer *)

(** Where the answer to control [c] may be changed; the list of FB_GET_INFO
    hangs off a pointer, its fields count from there. *)
Definition answer_field (c o : Z) : Prop :=
  in_field NR_RM_CONTROL c o \/
  exists off asked, fb_info_list plan = Some (off, asked) /\ in_field NR_RM_CONTROL CMD_FB_GET_INFO (o - off).

Lemma only_rewritten P c {X} (f : bytes -> may_panic (option X * bytes)) :
  (forall b r, f b = Ok r -> within (in_field NR_RM_CONTROL c) b r.2) ->
  only (differs P (answer_field c)) (edit_aux (rewritten f)).
Proof.
  intros Hf. apply only_edit_aux. intros b b' (r & Hr & [= <-])%bind_Ok.
  eapply within_mono; [|by apply Hf]. by left.
Qed.

Lemma capacity_only c : only (differs nowhere (answer_field c)) (capacity c).
Proof.
  unfold capacity. only_step; [only_stage|]. destruct (enabled _ && _) eqn:E; only_stage. bools. subst c.
  apply only_rewritten. intros b r. apply fb_info_within.
Qed.

Lemma capacity_list_only c : only (differs nowhere (answer_field c)) (capacity_list plan).
Proof.
  pose proof Hfb as Hoff. unfold capacity_list. destruct (fb_info_list plan) as [[off asked]|] eqn:Hl; [|only_stage].
  specialize (Hoff off asked eq_refl).
  only_step; [only_stage|]. only_step; [only_stage|]. only_step; [|only_stage].
  apply only_edit_aux. intros b b'. unfold on_suffix. destruct (blen b <? off) eqn:E; [done|]. bools.
  intros (p & (r & Hr & [= <-])%bind_Ok & [= <-])%bind_Ok.
  apply within_suffix; [lia|]. eapply within_mono; [|by eapply fb_list_within].
  cbn beta. intros o Ho. right. exists off, asked. split; [done|]. by replace (o + off - off) with o by lia.
Qed.

Lemma card_name_only c : only (differs nowhere (answer_field c)) (card_name env c).
Proof.
  unfold card_name. destruct (_ && _) eqn:E; only_stage. bools. subst c.
  apply only_rewritten. intros b r. by apply name_within.
Qed.

Lemma process_lists_only c : only (differs nowhere (answer_field c)) (process_lists c).
Proof.
  unfold process_lists. destruct (_ || _) eqn:E; [|only_stage]. only_step; [only_stage|]. only_step; [|only_stage].
  intros x res x' (rows & x1 & [= <- <-] & (b & x2 & [= <- <-] & (r & x3 & [= Hr <-] & (u & x4 & [= _ <-] & [= _ <-])%run_bind)%run_bind)%run_bind)%run_bind.
  split; [reflexivity|]. cbn [aux set_aux]. apply (within_mono (in_field NR_RM_CONTROL c)); [by left|]. destruct r as [n b'].
  apply orb_true_iff in E. rewrite !Z.eqb_eq in E. destruct E as [-> | ->].
  - change (CMD_GPU_GET_PIDS =? CMD_GPU_GET_PIDS) with true in Hr. exact (pids_within _ _ _ _ Hr).
  - change (CMD_GPU_GET_PID_INFO =? CMD_GPU_GET_PIDS) with false in Hr. exact (pid_info_within _ _ _ _ Hr).
Qed.

Lemma vgpu_answers_only c : only (differs nowhere (answer_field c)) (vgpu_answers env c).
Proof.
  unfold vgpu_answers. only_step; [only_stage|]. only_step; [only_stage|]. only_step; [only_stage|].
  destruct ((c =? _) && _ && _) eqn:E; [|clear E; destruct ((c =? _) && _) eqn:E; [|only_stage]];
    rewrite !andb_true_iff, Z.eqb_eq in E; [destruct E as [[-> _] _]|destruct E as [-> _]]; apply only_rewritten.
  - intros b r. apply virtmode_within.
  - intros b r. apply encoder_within.
Qed.

Lemma at32_run o (x : Ex) c y : at32 o x = (Ok c, y) -> get_u32 (scratch x) o = Some c /\ y = x.
Proof. unfold at32, u32_of. intros [= Hc <-]. by destruct (get_u32 (scratch x) o); simplify_eq/=. Qed.

Lemma rewrite_answer_run x refused x' : rewrite_answer env plan rt x = (Ok refused, x') ->
  differs nowhere (fun o => control_answer plan rt = true /\
    exists c, get_u32 (scratch x) 8 = Some c /\ answer_field c o) x x'.
Proof.
  unfold rewrite_answer. fold (control_answer plan rt). destruct (control_answer plan rt); [|intros [= _ <-]; reflexivity].
  intros (c & x1 & [Hc ->]%at32_run & Hrun)%run_bind.
  apply (differs_mono nowhere nowhere (answer_field c)); [done|eauto|]. revert Hrun.
  match goal with |- ?m x = _ -> _ => cut (only (differs nowhere (answer_field c)) m); [intros Ho; apply Ho|] end.
  repeat first [apply capacity_only | apply capacity_list_only | apply card_name_only | apply process_lists_only
    | apply vgpu_answers_only | only_step].
Qed.

Lemma within_prefix P b n p p' : get_range b 0 n = Some p -> within P p p' -> within P b (p' ++ drop (Z.to_nat n) b).
Proof.
  intros Hp [Hl Hi]. pose proof (get_range_length _ _ _ _ Hp) as Hpl. assert (is_Some (get_range b 0 n)) as Hr by eauto.
  apply get_range_is_Some in Hr as (_ & Hn & Hb). unfold blen in *. split; [rewrite length_app, length_drop; lia|].
  intros i. destruct (decide (i < Z.to_nat n)%nat).
  - rewrite lookup_app_l by lia. destruct (Hi i) as [-> |]; [left|by right].
    by rewrite (get_range_lookup _ _ _ _ _ Hp).
  - left. rewrite lookup_app_r, lookup_drop by lia. f_equal. lia.
Qed.

Lemma vidheap_capacity_run x u x' : vidheap_capacity plan rt x = (Ok u, x') ->
  differs (fun o => vidheap_call plan = true /\ in_field NV_ESC_RM_VID_HEAP_CONTROL 0 o) nowhere x x'.
Proof.
  intros (l & x1 & [= <- <-] & (ok & x2 & Hok & Hrun)%run_bind)%run_bind. revert Hok.
  assert (forall y, vidheap_done plan rt x = (Ok ok, y) -> y = x /\ (ok = true -> vidheap_call plan = true)) as Hdone.
  { intros y. unfold vidheap_done, vidheap_call. destruct (_ && _ && _ && _) eqn:E; [|by intros [= <- <-]].
    intros (st & x3 & [_ ->]%at32_run & [= _ <-])%run_bind. bools. split; [done|]. intros _. apply andb_true_iff. by rewrite Z.eqb_eq. }
  destruct (enabled _); [intros [-> Hv]%Hdone|intros [= <- <-]; injection Hrun as _ <-; reflexivity].
  destruct ok; [|injection Hrun as _ <-; reflexivity]. specialize (Hv eq_refl). revert Hrun. cbn [when].
  match goal with |- ?m x = _ -> ?R x x' => cut (only R m); [intros Ho; apply Ho|] end.
  apply only_edit_scratch. intros b b'. unfold on_prefix.
  intros (p & Hp & (p' & (r & Hr & [= <-])%bind_Ok & [= <-])%bind_Ok)%bind_Ok.
  destruct (get_range b 0 _) as [q|] eqn:Hq; [|done]. injection Hp as ->.
  eapply within_prefix; [exact Hq|]. eapply within_mono; [|by eapply vidheap_within]. cbn beta. auto.
Qed.

(** What the backend changes in the answer it got, UUIDs apart. *)
Definition mediated (y x' : Ex) : Prop :=
  differs (fun o => is_Some (osdesc_nvos64_tail plan) /\ 16 <= o < 40 \/
                    vidheap_call plan = true /\ in_field NV_ESC_RM_VID_HEAP_CONTROL 0 o)
          (fun o => control_answer plan rt = true /\ exists c, get_u32 (scratch y) 8 = Some c /\ answer_field c o) y x'.

Lemma after_call_run errno x r x' : after_call env plan rt errno x = (Ok r, x') ->
  exists y refused, uuid_swap env plan false x = (Ok tt, y) /\ mediated y x' /\
    r = (if refused : bool then reply_err (p_seq plan) EINVAL else reply (rsp_of plan rt errno) (scratch x') (aux x')).
Proof.
  intros ([] & y & Hu & (y1 & D1 & Hrun)%early_run)%run_bind. exists y.
  apply run_bind in Hrun as ([] & y2 & D2%restore_only & Hrun).
  apply run_bind in Hrun as (refused & y3 & D3%rewrite_answer_run & Hrun).
  apply run_bind in Hrun as ([] & y4 & D4%vidheap_capacity_run & Hrun).
  apply late_run in Hrun as (y5 & D5 & Hrun). exists refused.
  assert (get_u32 (scratch y2) 8 = get_u32 (scratch y) 8) as E8.
  { rewrite (within_get _ _ _ 8 4 (proj1 D2)) by (intros i Hi [_ ?]; lia). exact (within_get _ _ _ 8 4 (proj1 D1) ltac:(auto)). }
  rewrite E8 in D3.
  assert (mediated y y5) as Hm.
  { unfold mediated. repeat (etransitivity; [eapply differs_mono; [| |eassumption]; cbn beta; tauto|]). reflexivity. }
  split; [done|]. destruct refused; [by injection Hrun as <- <-|].
  apply run_bind in Hrun as (z & y6 & [= <- <-] & [= <- <-]). done.
Qed.
End stages.

(** The driver's answer with the card's UUID replaced by this machine's in the
    blocks that name a GPU. *)
Definition told env (pl : Plan) (sc ax sc' ax' : bytes) : Prop :=
  (if uvm_call pl then translation env false sc = Ok sc' else sc' = sc) /\
  (if negb (uvm_call pl) && names_card pl sc then translation env false ax = Ok ax' else ax' = ax).

Section forwarded.
Context {A : RmAbi} {AOk : RmAbiOk A} {D : Type} `{PoolDriver D}.
Context (env : ExecEnv) (pl : Plan) (Henv : exec_env_ok env).

(** A forwarded call: the question, the answer and what follows. *)
Lemma forwarded_run (x : Exec (D:=D)) r x' : bufs pl x -> p_action pl = Forward -> execute env pl x = (Ok r, x') ->
  exists sc1 ax1 rt errno y z, asked env pl (scratch x) (aux x) sc1 ax1 /\
    driver env (p_target_fd pl) (p_request pl) sc1 ax1 = (rt, errno, (scratch y, aux y)) /\
    uuid_swap env pl false y = (Ok tt, z) /\ told env pl (scratch y) (aux y) (scratch z) (aux z) /\
    after_call env pl rt errno y = (Ok r, x').
Proof.
  intros Hb Ha. unfold execute, run_call. rewrite Ha.
  intros (o & x1 & (re & x2 & Hf & [= <- <-])%run_bind & Hrun)%run_bind.
  apply run_bind in Hf as ([] & u & Hu & Hf).
  destruct (wp_run _ _ _ _ _ _ (wp_uuid_swap env pl Henv true x Hb) Hu) as [Hm _ _ Hs1 Hs2].
  apply run_bind in Hf as (u' & u2 & [= <- <-] & Hf).
  destruct (driver env _ _ (scratch u) (aux u)) as [[rt errno] [sc2 ax2]] eqn:Hd.
  apply run_bind in Hf as ([] & u3 & [= <-] & Hf). apply run_bind in Hf as ([] & u4 & [= <-] & Hf).
  apply run_bind in Hf as ([] & u5 & [= <-] & Hf). injection Hf as <- <-. cbn beta iota in Hrun.
  set (y := set_aux ax2 _) in Hrun. exists (scratch u), (aux u), rt, errno, y.
  assert (bufs pl y) as Hy.
  { destruct (m_bufs _ _ _ _ Hm Hb) as [[W1 L1] [W2 L2]]. pose proof (xe_driver _ Henv (p_target_fd pl) (p_request pl) _ _ W1 W2) as Hk.
    rewrite Hd in Hk. unfold bufs. cbn. destruct Hk as ([? ?] & [? ?] & _). split_and!; try done; congruence. }
  pose proof Hrun as Hr. unfold after_call in Hr. apply run_bind in Hr as ([] & z & Hz & _). exists z.
  destruct (wp_run _ _ _ _ _ _ (wp_uuid_swap env pl Henv false y Hy) Hz) as [_ _ _ Ht1 Ht2].
  split_and!; [exact (conj Hs1 Hs2)|exact Hd|exact Hz|exact (conj Ht1 Ht2)|exact Hrun].
Qed.
End forwarded.

(** ** Theorems *)

(** The table itself, for every driver: sorted without two records of one
    field, every record has a length, a stride and a count or neither, and the
    elements of an array do not overlap. *)
Definition well_formed (l : list Mediated) : bool :=
  bool_decide (StronglySorted key_le l) && bool_decide (NoDup (map key l)) &&
  forallb (fun m => (0 <=? off m) && (0 <? len m) && (off m <? end_ m) && eqb (stride m =? 0) (count m =? 0) &&
                    ((count m =? 0) || ((1 <? count m) && (len m <=? stride m)))) l.

Lemma manifest_well_formed v : well_formed (manifest (A:=dispatch v id)) = true.
Proof. destruct v; vm_compute; reflexivity. Qed.

(** Every control in which UUIDs are translated has its record. *)
Lemma uuid_recorded {A : RmAbi} c : c ∈ UUID_CONTROLS ->
  exists m, m ∈ manifest /\ nr m = NR_RM_CONTROL /\ cmd m = c /\ kind m = IdentityString.
Proof.
  assert (forall m, m ∈ uuid_rows -> m ∈ manifest) as Hin.
  { intros m Hm. apply in_rows. do 4 (apply elem_of_app; right). by apply elem_of_app; left. }
  unfold UUID_CONTROLS. rewrite !elem_of_cons, elem_of_nil.
  intros [-> |[-> |[-> |[]]]]; eexists; (split; [apply Hin|]).
  1: by left. 2: by right; left. 3: by right; right; left. all: done.
Qed.

Lemma driver_name v : name_off (A:=dispatch v id) = 4 /\ 64 <= name_max (A:=dispatch v id) <= 128.
Proof. destruct v; vm_compute; split_and!; congruence. Qed.

Lemma driver_abi_ok v : RmAbiOk (dispatch v id).
Proof. destruct v; apply _. Qed.

(** C10: The manifest is complete for the backend.  Whatever request is
    forwarded and whatever a driver of any supported series answers, compare
    the two buffers of the reply with those the driver wrote, the card's UUID
    replaced where the control names a card (such a control has an identity
    record).  A byte of the parameters differs only in a field the manifest
    lists for this control or, when the request was FB_GET_INFO, in a field
    listed for it, counted from the start of the nested list the request
    announced.  A byte of the inline block differs only in a listed field of
    NVOS32 or, for an allocation over guest pages in the NVOS64 form, at 16 to
    39, where the reply holds the bytes the guest itself sent. *)
Theorem answers_within_manifest (v : DriverVersion) {D : Type} `{PoolDriver D} {M : Type} `{GuestMem M}
    (penv : PrepEnv (M:=M)) env req payload (st : Sess (D:=D)) lg r x' pl sc ax st1 :
  wf_req req -> wf_bytes payload -> env_ok penv -> exec_env_ok env -> 0 <= fb_length (profile (s_ledger st)) ->
  prepare (A:=dispatch v id) penv req payload st = (Ok (pl, (sc, ax)), st1) -> p_action pl = Forward ->
  on_ioctl (A:=dispatch v id) penv env req payload st lg = (Ok r, x') ->
  exists sc1 ax1 rt errno sc2 ax2 sc3 ax3 refused,
    asked env pl sc ax sc1 ax1 /\
    driver env (p_target_fd pl) (p_request pl) sc1 ax1 = (rt, errno, (sc2, ax2)) /\
    told env pl sc2 ax2 sc3 ax3 /\
    (names_card pl sc2 = true -> exists m, m ∈ manifest (A:=dispatch v id) /\ nr m = NR_RM_CONTROL /\
       cmd m = word sc2 8 /\ kind m = IdentityString) /\
    r = (if refused : bool then reply_err (p_seq pl) EINVAL else reply (rsp_of pl rt errno) (scratch x') (aux x')) /\
    within (fun o => is_Some (osdesc_nvos64_tail pl) /\ 16 <= o < 40 \/
       vidheap_call pl = true /\ in_field (A:=dispatch v id) NV_ESC_RM_VID_HEAP_CONTROL 0 o) sc3 (scratch x') /\
    (is_Some (osdesc_nvos64_tail pl) -> is_Some (get_range payload 16 24) /\
       get_range (scratch x') 16 24 = get_range payload 16 24) /\
    within (fun o => control_answer pl rt = true /\ exists c, get_u32 sc3 8 = Some c /\
       (in_field (A:=dispatch v id) NR_RM_CONTROL c o \/
        get_u32 payload 8 = Some CMD_FB_GET_INFO /\ exists d, d ∈ listed req /\
          in_field (A:=dispatch v id) NR_RM_CONTROL CMD_FB_GET_INFO (o - aux_off d))) ax3 (aux x').
Proof.
  intros Hreq Hpay Hpenv Henv Hfb Hprep Ha Hrun. pose proof (driver_abi_ok v) as AOk.
  pose proof (ioctl_cases (A:=dispatch v id) penv env req payload Hreq Hpay Hpenv Henv st lg Hfb) as Hc. rewrite Hprep in Hc.
  destruct Hc as (Hpl & r1 & x1 & Hi & Hex). rewrite Hrun in Hi. injection Hi as <- <-.
  destruct (planned_facts (A:=dispatch v id) _ _ _ Hreq _ _ _ _ _ Hpl) as (_ & Hrd & _ & Hsc & Hax).
  destruct (planned_sourced (A:=dispatch v id) _ _ _ Hreq Hpay Hpenv _ _ _ _ _ Hpl) as (dv & _ & Hso).
  unfold on_ioctl in Hrun. rewrite Hprep in Hrun.
  destruct (forwarded_run (A:=dispatch v id) env pl Henv (MkExec st1 sc ax [] lg) _ _ (conj Hsc Hax) Ha Hrun)
    as (sc1 & ax1 & rt & errno & y & z & Hq & Hd & Hz & Ht & Haf).
  destruct (after_call_run (A:=dispatch v id) (driver_name v) env pl rt (rd_fb _ Hrd) errno y r x' Haf) as (z' & refused & Hz' & [M1 M2] & Hr).
  rewrite Hz in Hz'. injection Hz' as <-.
  exists sc1, ax1, rt, errno, (scratch y), (aux y), (scratch z), (aux z), refused. split_and!; try done.
  - unfold names_card. intros Hn. apply andb_true_iff in Hn as [_ Hn%bool_decide_eq_true]. by apply uuid_recorded.
  - intros [t Hts]. pose proof (so_tail _ _ _ _ _ _ Hso t Hts) as Hp. rewrite Hp. split; [by eexists|].
    destruct Hex as [Hm _ _ _ _|rt' errno' y' z' _ _ _ _ _ Hcc]; [congruence|].
    pose proof (cc_scratch _ _ _ _ _ _ Hcc) as Hs. rewrite Hts in Hs.
    pose proof (so_get _ _ _ _ Hs) as Hg. destruct (rd_tail _ Hrd t Hts) as (Hl & _). by rewrite Hl in Hg.
  - eapply within_mono; [|exact M2]. intros o (Hca & c & Hc & [Hf|(off & asked & Hl & Hf)]); (split; [done|]); exists c; (split; [done|]);
      [by left|right]. destruct (so_fb _ _ _ _ _ _ Hso _ _ Hl) as (H8 & dd & Hin & ->). split; [done|]. by exists dd.
Qed.

(** ** Examples *)

(** The list of FB_GET_INFO is the one whose record counts from the list: in
    the parameters themselves it would lie over their pointer. *)
Example fb_list_record : exists m p, m ∈ manifest (A:=V615) /\ p ∈ manifest (A:=V615) /\
  cmd m = CMD_FB_GET_INFO /\ cmd p = CMD_FB_GET_INFO /\ kind m = BackendAnswered /\ kind p = NestedPtr /\
  covers m 12 = true /\ covers p 12 = true.
Proof.
  exists (ctl_array CMD_FB_GET_INFO (0 + FBINFO_DATA_OFF) 4 FBINFO_ENTRY FBINFO_MAX BackendAnswered "fbInfoList[].data"),
    (ctl CMD_FB_GET_INFO 8 8 NestedPtr "NvP64").
  split_and!; [| |done..]; apply (bool_decide_unpack _); vm_compute; exact I.
Qed.

(** The process list of a driver that fills the answer with sevens. *)
Lemma answers_within_manifest_witness : exists pl sc3 ax3,
  planned_of (prepare (A:=V615) example_env pids_req pids_payload named_sess) = Some pl /\
  get_u32 (aux pids_done.2) 12 = Some 77 /\ get_u32 (aux pids_done.2) 0 = Some 0x07070707 /\
  within (fun o => control_answer pl.1 0 = true /\ exists c, get_u32 sc3 8 = Some c /\
    (in_field (A:=V615) NR_RM_CONTROL c o \/
     get_u32 pids_payload 8 = Some CMD_FB_GET_INFO /\ exists d, d ∈ listed pids_req /\
       in_field (A:=V615) NR_RM_CONTROL CMD_FB_GET_INFO (o - aux_off d))) ax3 (aux pids_done.2).
Proof.
  assert (pids_done = (Ok (ran pids_done.1 []), pids_done.2)) as Hd by (vm_compute; reflexivity).
  assert (exists pl sc ax st1, prepare (A:=V615) example_env pids_req pids_payload named_sess =
    (Ok (pl, (sc, ax)), st1) /\ p_action pl = Forward) as (pl & sc & ax & st1 & Hp & Ha).
  { eexists _, _, _, _. split; [vm_compute; reflexivity|]. reflexivity. }
  destruct (answers_within_manifest DV615 example_env example_exec pids_req pids_payload named_sess no_logs _ _ pl sc ax st1
    (proj1 example_req_wf) (wf_bytesb_spec pids_payload eq_refl) example_env_ok example_exec_ok ltac:(by vm_compute) Hp Ha Hd)
    as (sc1 & ax1 & rt & errno & sc2 & ax2 & sc3 & ax3 & refused & _ & Hdr & _ & _ & _ & _ & _ & Hw).
  exists (pl, (sc, ax)), sc3, ax3. rewrite Hp. split; [reflexivity|]. split; [vm_compute; reflexivity|].
  split; [vm_compute; reflexivity|]. injection Hdr as <- _ _ _. exact Hw.
Defined.
