(* ===== verification/Session.v ===== *)
(** * The messages of one guest process (crates/vhost-user-nvrm/src/session.rs)

    [handle_msg_with] takes one message of the guest and gives the reply:
    HELLO, OPEN, CLOSE, IOCTL, MAP_PREPARE and UVM_POOL_BACK.  An ioctl is
    [Execute.on_ioctl]; the other handlers are here.

    What the kernel decides while a message is handled, the outcome of opening
    a device node included, is [HostEnv]; [Session] adds to the [Sess] of
    [Prepare] what only the other handlers use. *)
From stdpp Require Import strings.
From S2P Require Import Prelude.
From S2P Require Import Effects.
From S2P Require Import Bytes.
From S2P Require Import Wire.
From S2P Require Import CLayout.
From S2P Require Import SysConsts.
From S2P Require Import SysLayout.
From S2P Require Import NvAbi.
From S2P Require Import Xlate.
From S2P Require Import RequestShape.
From S2P Require Import Mirror.
From S2P Require Import VramPolicy.
From S2P Require Import Vram.
From S2P Require Import Window.
From S2P Require Import Arena.
From S2P Require Import HostPool.
From S2P Require Import Waiters.
From S2P Require Import Prepare.
From S2P Require Import Prepared.
From S2P Require Import Execute.
From S2P Require Import Executed.
From S2P Require Import Request.
Import GuestWords.

Local Open Scope list_scope.
Local Open Scope Z_scope.

Definition NV_MAX_DEVICES : Z := 32.

Section session.
Context {A : RmAbi} {D : Type} `{PoolDriver D} {M : Type} `{GuestMem M}.

Record Session := BuildSession {
  core : Sess (D:=D);
  sub : Z; proc : ProcInfo;
  maps : gmap Z PendingMap; blob : Z;
  log_books : LogBooks }.

Definition set_core (c : Sess (D:=D)) (s : Session) : Session :=
  BuildSession c (sub s) (proc s) (maps s) (blob s) (log_books s).

(** [he_open] opens the node of a device, [he_dup] and [he_driver] are the
    outcomes of duplicating the UVM descriptor and of opening a driver for a
    pool. *)
Record HostEnv := MkHostEnv {
  he_prep : PrepEnv (M:=M); he_exec : ExecEnv;
  he_open : Dev -> Z -> option Z; he_dup : bool; he_driver : bool }.

(** [aux_fd_host] and [fd_field_host] as the device resolved them. *)
Definition with_fds (e : PrepEnv (M:=M)) (aux_fd fd_field : option Z) : PrepEnv (M:=M) :=
  MkPrepEnv (aux_addr e) aux_fd fd_field (is_private e) (mem e) (pe_page e) (pe_max_pin e)
    (pe_calls e) (arena_va e) (ctl_open e) (ctl_bound e) (gpu_open e) (gpu_registered e)
    (managed_compat e).

Definition with_identity (e : ExecEnv) (sub : Z) (p : ProcInfo) : ExecEnv :=
  MkExecEnv (driver e) (card e) (grid_switches e) (gpu_name_raw e) (name_format e) sub p
    (verbose e) (ctrl_dump_wanted e).

Definition no_proc : ProcInfo := {| pid := 0; pi_pad := 0; comm := replicate 16 0 |}.

(** [Session::detached_proc], with the state shared by all sessions. *)
Definition session_new (n p : Z) (l : Ledger) (w : World D) : Session :=
  BuildSession
    (MkSess n FdMirror.Mirror_new EventBooks_new [] None (Books_new p) l w)
    p no_proc ∅ (Z.lor (Z.shiftl p 32) 1) (MkLogBooks 0 ∅).

(** ** Handlers *)
Definition on_hello (req : Req) : bytes :=
  if negb (ioctl_nr req =? PROTO_VERSION) then reply_err (seq req) EPROTO
  else reply (ok_rsp (seq req) 0) [] [].

(** The identity of the process, adopted once. *)
Definition adopt (req : Req) (payload : bytes) (s : Session) : Session :=
  if (WIRE_LEN ProcInfo <=? inline_len req) && (WIRE_LEN ProcInfo <=? blen payload)
     && (pid (proc s) =? 0) && bool_decide (list.head (comm (proc s)) = Some 0)
  then
    match from_bytes (A:=ProcInfo) payload with
    | None => s
    | Some info =>
        let c := core s in
        BuildSession
          (set_vram (announce (s_ledger c) (vbooks c) (pid info) (comm_str info)) (vbooks c) c)
          (sub s) info (maps s) (blob s) (log_books s)
    end
  else s.

Definition open_node (env : HostEnv) (req : Req) (kind : Dev) (s : Session)
  : outcome Empty_set bytes * Session :=
  match he_open env kind (ioctl_nr req) with
  | None => (Ok (reply_err (seq req) EACCES), s)
  | Some fd =>
      match FdMirror.insert (Prepare.mirror (core s)) fd kind with
      | Ok (tok, m) =>
          (Ok (reply (ok_rsp (seq req) tok) [] []), set_core (set_mirror m (core s)) s)
      | _ => (Panic, s)
      end
  end.

Definition on_open (env : HostEnv) (req : Req) (payload : bytes) (s : Session)
  : outcome Empty_set bytes * Session :=
  let s := adopt req payload s in
  if (dev_tag req =? DevTag.to_u32 DevTag.Gpu) && (NV_MAX_DEVICES <=? ioctl_nr req)
  then (Ok (reply_err (seq req) EINVAL), s)
  else
    match dev_of (dev_tag req) with
    | None => (Ok (reply_err (seq req) EINVAL), s)
    | Some UvmTools => (Ok (reply_err (seq req) ENOTSUP), s)
    | Some kind => open_node env req kind s
    end.

(** [close_clients_of_token]: the clients allocated on the descriptor. *)
Definition dying (b : EventBooks) (token : Z) : list Z :=
  map fst (map_to_list (filter (fun e : Z * Z => e.2 = token) (client_token b))).

Definition close_clients (token : Z) (c : Sess (D:=D)) : Sess (D:=D) :=
  let w := foldl (fun w r => drop_osdesc_client w (sid c) r) (world c) (dying (evb c) token) in
  set_evb (close_clients_of_token (evb c) token) (set_world w c).

Definition on_close (req : Req) (s : Session) : bytes * Session :=
  let c := core s in let tok := target_token req in
  let c := set_world (close_uvm (world c) (sid c) tok) c in
  let c := set_mirror (FdMirror.remove (Prepare.mirror c) tok) c in
  let '(l, b) := close_token (s_ledger c) (vbooks c) tok in
  let c := close_clients tok (set_vram l b c) in
  (reply (ok_rsp (seq req) 0) [] [], set_core c s).

Definition map_part (s : Session) : MapSession :=
  MkMapSession (Prepare.mirror (core s)) (maps s) (blob s).
Definition set_maps (m : MapSession) (s : Session) : Session :=
  BuildSession (core s) (sub s) (proc s) (pending_maps m) (next_blob_id m) (log_books s).

(** [Session::on_map_prepare] is [Window.session_map_prepare]. *)
Definition prepare_map (req : Req) (s : Session) : bytes * Session :=
  let '(rsp, m) := session_map_prepare (map_part s) req in (reply rsp [] [], set_maps m s).

Definition on_uvm_pool_back (env : HostEnv) (req : Req) (payload : bytes) (s : Session)
  : outcome Empty_set bytes * Session :=
  let c := core s in let tok := target_token req in
  if negb (bool_decide (FdMirror.kind_of (Prepare.mirror c) tok = Some Uvm))
  then (Ok (reply_err (seq req) EBADF), s)
  else
    match mem (he_prep env) with
    | None => (Ok (reply_err (seq req) EIO), s)
    | Some m =>
        match FdMirror.raw (Prepare.mirror c) tok with
        | None => (Ok (reply_err (seq req) EBADF), s)
        | Some _ =>
            match decode payload (gpa_run_count req) with
            | Ok (Some runs) =>
                let call := MkArenaCall (pe_page (he_prep env)) (pe_max_pin (he_prep env))
                              (pe_calls (he_prep env)) m runs in
                match back_pool_for (world c) (sid c) tok {| ga := addr req |} {| gl := map_len req |}
                        call (he_dup env) (he_driver env) with
                | (Ok _, w) => (Ok (reply (ok_rsp (seq req) 0) [] []), set_core (set_world w c) s)
                | (Err _, w) => (Ok (reply_err (seq req) EIO), set_core (set_world w c) s)
                | (Panic, w) => (Panic, set_core (set_world w c) s)
                end
            | Ok None => (Ok (reply_err (seq req) EINVAL), s)
            | _ => (Panic, s)
            end
        end
    end.

Definition session_ioctl (env : HostEnv) (aux_fd fd_field : option Z) (req : Req) (payload : bytes)
    (s : Session) : outcome Empty_set bytes * (Session * list HostCall) :=
  let '(r, x) := on_ioctl (with_fds (he_prep env) aux_fd fd_field)
                   (with_identity (he_exec env) (sub s) (proc s)) req payload (core s) (log_books s) in
  (r, (BuildSession (sess x) (sub s) (proc s) (maps s) (blob s) (logs x), Execute.calls x)).

(** ** One message

    [None] is a message too short to be answered. *)
Definition handle_msg_with (env : HostEnv) (aux_fd fd_field : option Z) (msg : bytes) (s : Session)
  : outcome Empty_set (option bytes) * (Session * list HostCall) :=
  match from_bytes (A:=Req) msg with
  | None => (Ok None, (s, []))
  | Some req =>
      let payload := drop (Z.to_nat (WIRE_LEN Req)) msg in
      let out (r : outcome Empty_set bytes * (Session * list HostCall)) :=
        (Some <$> r.1, r.2) in
      match Kind.from_u32 (kind req) with
      | Some Kind.Hello => (Ok (Some (on_hello req)), (s, []))
      | Some Kind.Open => let '(r, s) := on_open env req payload s in out (r, (s, []))
      | Some Kind.Close => let '(r, s) := on_close req s in (Ok (Some r), (s, []))
      | Some Kind.Ioctl => out (session_ioctl env aux_fd fd_field req payload s)
      | Some Kind.MapPrepare => let '(r, s) := prepare_map req s in (Ok (Some r), (s, []))
      | Some Kind.UvmPoolBack => let '(r, s) := on_uvm_pool_back env req payload s in out (r, (s, []))
      | None => (Ok (Some (reply_err (seq req) EPROTO)), (s, []))
      end
  end.

End session.

(** ** What a message does to each component *)
Section moves.
Context {A : RmAbi} {AOk : RmAbiOk A} {D : Type} `{PoolDriver D} `{!PoolDriverLaws D} {M : Type} `{GuestMem M}.
Implicit Types (s : Session (D:=D)) (c : Sess (D:=D)).

Record host_ok (env : HostEnv (M:=M)) : Prop := {
  ho_prep : env_ok (he_prep env); ho_page : 0 < pe_page (he_prep env);
  ho_exec : exec_env_ok (he_exec env) }.

Record session_inv s : Prop := {
  si_world : world_ok [] (world (core s));
  si_live : sid (core s) ∈ live (world (core s));
  si_fb : 0 <= fb_length (profile (s_ledger (core s)));
  si_mirror : FdMirror.mirror_inv (Prepare.mirror (core s));
}.

(** The whole effect on what the sessions share and on the books. *)
Record core_moves (env : HostEnv (M:=M)) c c' : Prop := {
  cm_sid : sid c' = sid c;
  cm_sub : Vram.sub_id (vbooks c') = Vram.sub_id (vbooks c);
  cm_world : pool_moves (M:=M) (world c) (world c');
  cm_events : event_moves (he_prep env) (evb c) (evb c');
  cm_memory : forall ss, vm_ok (vm_of ss c 0) -> vm_ok (vm_of ss c' 0);
  cm_profile : profile (s_ledger c') = profile (s_ledger c);
  cm_mirror : rtc FdMirror.mirror_step (Prepare.mirror c) (Prepare.mirror c') /\
    FdMirror.next (Prepare.mirror c') <= FdMirror.next (Prepare.mirror c) + 1;
}.

Lemma core_moves_same env c c' : sid c' = sid c -> vbooks c' = vbooks c -> world c' = world c -> evb c' = evb c ->
  s_ledger c' = s_ledger c -> Prepare.mirror c' = Prepare.mirror c -> core_moves env c c'.
Proof.
  intros E1 E2 E3 E4 E5 E6. split; rewrite ?E2, ?E3, ?E4, ?E5, ?E6; try done.
  - apply pool_moves_refl.
  - apply (event_moves_one _ _ OtherReq I).
  - unfold vm_of. by rewrite E2, E5.
  - split; [done|lia].
Qed.

Lemma core_moves_refl env c : core_moves env c c.
Proof. by apply core_moves_same. Qed.

Lemma pool_moves_ok (w w' : World D) : pool_moves (M:=M) w w' -> world_ok [] w -> world_ok [] w' /\ live w' = live w.
Proof.
  intros (l & Hl & ->) Hw. split.
  - apply pool_run_ok; [|done]. eapply Forall_impl; [exact Hl|]. by intros ? [? _].
  - apply live_run. eapply Forall_impl; [exact Hl|]. by intros ? [_ ?].
Qed.

Lemma moves_inv env s s' : core_moves env (core s) (core s') -> session_inv s -> session_inv s'.
Proof.
  intros Hm [Hw Hl Hf Hi]. destruct (pool_moves_ok _ _ (cm_world _ _ _ Hm) Hw) as [Hw' El]. split; [done|..].
  - by rewrite (cm_sid _ _ _ Hm), El.
  - by rewrite (cm_profile _ _ _ Hm).
  - destruct (cm_mirror _ _ _ Hm) as [Hs _]. clear -Hs Hi. induction Hs; eauto using FdMirror.mirror_step_inv.
Qed.

(** *** The ledger's profile is fixed *)
Lemma release_profile l n : profile (release l n) = profile l.
Proof. unfold release. by destruct (n =? 0). Qed.

Lemma set_bytes_profile l k n : profile (set_bytes l k n) = profile l.
Proof. unfold set_bytes. by destruct (_ !! _). Qed.

Lemma give_back_profile l b n : profile (give_back l b n).1 = profile l.
Proof. unfold give_back. destruct (n =? 0); [done|]. cbn. unfold publish. by rewrite set_bytes_profile, release_profile. Qed.

Lemma settle_profile l b ok a ch : profile (settle l b ok a ch).1 = profile l.
Proof.
  unfold settle. destruct (_ || _); [apply release_profile|].
  destruct (open b !! _); cbn [fst]; unfold publish; rewrite set_bytes_profile; [apply release_profile|done].
Qed.

Lemma sess_run_profile ops : forall c, profile (s_ledger (sess_run c ops)) = profile (s_ledger c).
Proof.
  induction ops as [|op ops IH]; intros c; [done|].
  change (sess_run c (op :: ops)) with (sess_run (sess_op c op) ops). rewrite IH.
  destruct op; try done; cbn [sess_op].
  - cbn. unfold placement, first_placement. destruct (ask_kind a) as [[? ?] ?]. by destruct (bool_decide _).
  - pose proof (settle_profile (s_ledger c) (vbooks c) ok attr_out c0) as Hp. by destruct (settle _ _ _ _ _).
  - unfold Vram.free_object. destruct (Vram.retain _ _) as [b n].
    pose proof (give_back_profile (s_ledger c) b n) as Hp. by destruct (give_back _ _ _).
Qed.

Lemma sess_run_sub ops : forall c, Vram.sub_id (vbooks (sess_run c ops)) = Vram.sub_id (vbooks c).
Proof.
  induction ops as [|op ops IH]; intros c; [done|].
  change (sess_run c (op :: ops)) with (sess_run (sess_op c op) ops). rewrite IH.
  destruct op; try done; cbn [sess_op].
  - pose proof (settle_sub (s_ledger c) (vbooks c) ok attr_out c0) as Hp. by destruct (settle _ _ _ _ _).
  - pose proof (free_sub (s_ledger c) (vbooks c) root h) as Hp. by destruct (Vram.free_object _ _ _ _).
Qed.

Lemma ioctl_sub (penv : PrepEnv (M:=M)) env req payload c lg r x' : wf_req req ->
  ioctl_done penv env req payload c lg r x' -> Vram.sub_id (vbooks (sess x')) = Vram.sub_id (vbooks c).
Proof.
  intros Hreq [e _ _ Hr _|pl sc ax st1 Hpl Hex].
  - destruct Hr as (st1 & [l ->] & [(w' & -> & Hr)|Hr]); [done|].
    by destruct Hr as [->|[(b & k & e' & -> & _)|(b & k & t & kc & e' & -> & _)]].
  - destruct (planned_facts _ _ _ Hreq _ _ _ _ _ Hpl) as (Hac & Hrd & _).
    destruct (ac_same _ _ _ _ _ Hac) as (_ & _ & <-).
    destruct (executed_sess _ _ _ _ _ Hex) as [[rt ->]|[Hm ->]]; cbn [sess].
    + apply sess_run_sub.
    + destruct (rd_managed _ Hrd Hm) as (_ & _ & _ & _ & Hn). by rewrite Hn.
Qed.

Lemma ioctl_profile (penv : PrepEnv (M:=M)) env req payload c lg r x' : wf_req req ->
  ioctl_done penv env req payload c lg r x' -> profile (s_ledger (sess x')) = profile (s_ledger c).
Proof.
  intros Hreq [e _ _ Hr _|pl sc ax st1 Hpl Hex].
  - destruct Hr as (st1 & [l ->] & [(w' & -> & Hr)|Hr]); [done|].
    by destruct Hr as [->|[(b & k & e' & -> & _)|(b & k & t & kc & e' & -> & _)]].
  - destruct (planned_facts _ _ _ Hreq _ _ _ _ _ Hpl) as (Hac & Hrd & _).
    assert (profile (s_ledger st1) = profile (s_ledger c)) as Hp.
    { destruct (ac_vram _ _ _ _ _ Hac) as [(_ & _ & ->)|(n & ok & _ & Hr & _)]; [done|].
      by eapply reserve_profile. }
    destruct (executed_sess _ _ _ _ _ Hex) as [[rt ->]|[Hm ->]]; cbn [sess].
    + by rewrite sess_run_profile.
    + destruct (rd_managed _ Hrd Hm) as (_ & _ & _ & _ & Hn). by rewrite Hn.
Qed.

(** *** The handlers *)
Lemma ok_framed req tok : wf_req req -> is_u64 tok -> framed req (reply (ok_rsp (seq req) tok) [] []).
Proof.
  intros Hr Ht. apply reply_framed; try done. unfold wf_rsp, wf_req in *. cbn.
  split_and!; try done; try lia; apply Hr.
Qed.

(** A handler that answered: the reply belongs to the request, the books moved. *)
Record answered_by (env : HostEnv (M:=M)) (req : Req) s (o : outcome Empty_set bytes) s' : Prop := {
  ab_reply : match o with Ok r => framed req r | Err _ => False | Panic => True end;
  ab_panic : o = Panic -> FdMirror.next (Prepare.mirror (core s)) = u64_max;
  ab_moves : core_moves env (core s) (core s');
  ab_maps : sub s' = sub s /\ maps s' = maps s /\ blob s' = blob s;
}.

Section handlers.
Context (env : HostEnv (M:=M)) (req : Req) (Hreq : wf_req req) (Henv : host_ok env).

Lemma err_answered s e : is_errno e -> answered_by env req s (Ok (reply_err (seq req) e)) s.
Proof. intros He. split; [by apply reply_err_framed|done|apply core_moves_refl|done]. Qed.

Lemma ok_answered s : answered_by env req s (Ok (reply (ok_rsp (seq req) 0) [] [])) s.
Proof. split; [by apply ok_framed|done|apply core_moves_refl|done]. Qed.

Lemma adopt_moves payload s : core_moves env (core s) (core (adopt req payload s)) /\
  sub (adopt req payload s) = sub s /\ maps (adopt req payload s) = maps s /\ blob (adopt req payload s) = blob s /\
  Prepare.mirror (core (adopt req payload s)) = Prepare.mirror (core s).
Proof.
  unfold adopt. destruct (_ && _); [|by split; [apply core_moves_refl|]].
  destruct (from_bytes payload) as [info|]; [|by split; [apply core_moves_refl|]].
  split; [|done]. cbn [core]. split; try done.
  - apply pool_moves_refl.
  - apply (event_moves_one _ _ OtherReq I).
  - intros ss Hok. unfold vm_of in *. cbn [s_ledger vbooks set_vram].
    eapply (vm_step_ok _ (OpAnnounce (Vram.sub_id (vbooks (core s))) (pid info) (comm_str info))); [exact Hok|].
    unfold vm_step. rewrite vm_with_lookup. cbn [mbind option_bind Vram.books pending ledger vm_with].
    by rewrite vm_with_put.
  - cbn. unfold announce. by rewrite set_bytes_profile.
  - split; [done|cbn; lia].
Qed.

Lemma open_answered payload s : session_inv s ->
  answered_by env req s (on_open env req payload s).1 (on_open env req payload s).2.
Proof.
  intros Hi. destruct (adopt_moves payload s) as (Hm & E1 & E2 & E3 & Em).
  assert (forall e, is_errno e -> answered_by env req s (Ok (reply_err (seq req) e)) (adopt req payload s)) as Herr.
  { intros e He. split; [by apply reply_err_framed|done|done|done]. }
  unfold on_open. destruct (_ && _); [by apply Herr|].
  assert (forall kind, answered_by env req s (open_node env req kind (adopt req payload s)).1
    (open_node env req kind (adopt req payload s)).2) as Hopen.
  { intros kind. unfold open_node. destruct (he_open env kind (ioctl_nr req)) as [fd|]; [|by apply Herr].
    destruct (si_mirror _ Hi) as [Hn Hmap]. rewrite Em.
    destruct (FdMirror.insert (Prepare.mirror (core s)) fd kind) as [[tok m]|u|] eqn:Hins.
    - pose proof Hins as Hins'. apply FdMirror.insert_Ok in Hins' as (-> & Hlt & ->).
      split; [apply ok_framed; [done|unfold is_u64; lia]|done| |done].
      destruct Hm as [M1 M2 M3 M4 M5 M6 [M7 M8]]. split; try done. cbn. split; [|lia].
      apply rtc_once. by eapply FdMirror.step_insert.
    - exfalso. revert Hins. unfold FdMirror.insert. by destruct (checked_add64 _ _).
    - split; [done| |done|done]. intros _. revert Hins. unfold FdMirror.insert, checked_add64.
      destruct (_ <=? _) eqn:E; [done|]. bools. intros _. lia. }
  destruct (dev_of (dev_tag req)) as [[| | |]|]; first [by apply Herr|apply Hopen].
Qed.

Lemma drop_clients_moves n l : forall w : World D,
  pool_moves (M:=M) w (foldl (fun w r => drop_osdesc_client w n r) w l).
Proof.
  induction l as [|r l IH]; intros w; [apply pool_moves_refl|]. cbn [foldl].
  eapply pool_moves_trans; [|apply IH]. by apply (pool_moves_step w (DropOsdescClient n r)).
Qed.

Lemma close_sub l b tok : Vram.sub_id (close_token l b tok).2 = Vram.sub_id b.
Proof. unfold close_token, Vram.retain, give_back. by destruct (_ =? 0). Qed.

Lemma close_vm ss l b p tok : vm_ok (vm_with ss l b p) ->
  vm_ok (vm_with ss (close_token l b tok).1 (close_token l b tok).2 p).
Proof.
  intros Hok. pose proof (close_sub l b tok) as Hsub.
  assert (vm_step (vm_with ss l b p) (OpClose (Vram.sub_id b) tok) =
    Some (vm_with ss (close_token l b tok).1 (close_token l b tok).2 p)) as Hv; [|by eapply vm_step_ok].
  unfold vm_step. rewrite vm_with_lookup. cbn [mbind option_bind Vram.books pending ledger vm_with].
  destruct (close_token l b tok) as [l' b']. cbn [fst snd] in *. by rewrite vm_with_put.
Qed.

Lemma close_profile l b tok : profile (close_token l b tok).1 = profile l.
Proof. unfold close_token. destruct (Vram.retain _ _) as [b' n]. apply give_back_profile. Qed.

Lemma close_answered s : answered_by env req s (Ok (on_close req s).1) (on_close req s).2.
Proof.
  unfold on_close. set (c := core s). set (tok := target_token req).
  pose proof (close_sub (s_ledger c) (vbooks c) tok) as Hsub.
  pose proof (close_profile (s_ledger c) (vbooks c) tok) as Hprof.
  pose proof (fun ss => close_vm ss (s_ledger c) (vbooks c) 0 tok) as Hvm.
  cbn [s_ledger vbooks set_mirror set_world].
  destruct (close_token (s_ledger c) (vbooks c) tok) as [l b]. cbn [fst snd] in *.
  split; [by apply ok_framed|done| |done]. cbn [core set_core]. split; try done.
  - unfold close_clients. cbn. eapply pool_moves_trans; [|apply drop_clients_moves].
    by apply (pool_moves_step (world c) (CloseUvm (sid c) tok)).
  - apply (event_moves_one _ _ (CloseToken tok) I).
  - split; [apply rtc_once, FdMirror.step_remove|].
    change (FdMirror.next (Prepare.mirror c) <= FdMirror.next (Prepare.mirror c) + 1). lia.
Qed.

Lemma pool_back_answered payload s : session_inv s ->
  answered_by env req s (on_uvm_pool_back env req payload s).1 (on_uvm_pool_back env req payload s).2.
Proof.
  intros [Hw _ _ _]. assert (forall e, is_errno e -> answered_by env req s (Ok (reply_err (seq req) e)) s) as Herr
    by (intros; by apply err_answered).
  unfold on_uvm_pool_back. destruct (negb _); [by apply Herr|].
  destruct (mem (he_prep env)) as [m|]; [|by apply Herr].
  destruct (FdMirror.raw _ _); [|by apply Herr].
  assert (is_u32 (gpa_run_count req) /\ is_u64 (addr req) /\ is_u64 (map_len req)) as (Hrc & Ha & Hl)
    by (unfold wf_req in Hreq; by destruct_and! Hreq).
  pose proof (decode_no_panic payload (gpa_run_count req) ltac:(apply Hrc)) as Hd.
  destruct (decode payload (gpa_run_count req)) as [[runs|]|e|]; [|by apply Herr|destruct e|done].
  set (call := MkArenaCall _ _ _ _ _).
  assert (call_ok (M:=M) (BackPool (sid (core s)) (target_token req) {| ga := addr req |} {| gl := map_len req |}
    call (he_dup env) (he_driver env))) as Hop by (split; [split_and!; [apply ho_page, Henv|done..]|done]).
  pose proof (pool_moves_step (world (core s)) _ Hop) as Hm. cbn [pool_step] in Hm.
  destruct (back_pool_for (world (core s)) (sid (core s)) (target_token req) {| ga := addr req |}
    {| gl := map_len req |} call (he_dup env) (he_driver env)) as [o w'] eqn:Hb. cbn [snd] in Hm.
  eapply back_pool_for_ok in Hb as [_ Hnp]; [|done|apply ho_page, Henv|apply Hl|apply Ha].
  assert (forall r, framed req r -> answered_by env req s (Ok r) (set_core (set_world w' (core s)) s)) as Hans.
  { intros r Hr. split; [done|done| |done]. split; try done.
    - apply (event_moves_one _ _ OtherReq I).
    - split; [done|cbn; lia]. }
  destruct o; [apply Hans; by apply ok_framed|apply Hans; by apply reply_err_framed|done].
Qed.

Lemma ioctl_answered aux_fd fd_field payload s : session_inv s -> wf_bytes payload ->
  let '(o, (s', _)) := session_ioctl env aux_fd fd_field req payload s in answered_by env req s o s'.
Proof.
  intros [Hw Hl Hf Hmi] Hp. unfold session_ioctl.
  set (penv := with_fds (he_prep env) aux_fd fd_field). set (eenv := with_identity _ _ _).
  assert (exec_env_ok eenv) as He by (destruct (ho_exec _ Henv); by split).
  assert (env_ok penv) as Hpe by apply (ho_prep _ Henv).
  destruct (ioctl_runs penv eenv req payload Hreq Hp Hpe He (core s) (log_books s) Hf) as (r & x' & Hr & Hd).
  assert (0 < pe_page penv) as Hpg by apply (ho_page _ Henv).
  assert (is_Some (states (world (core s)) !! sid (core s))) as Hst by (by apply elem_of_dom).
  rewrite Hr. split; [by eapply ioctl_framed|done| |done]. cbn [core].
  destruct (ioctl_world penv Hpg eenv req payload Hreq _ _ _ _ Hd Hst) as (E1 & E2 & E3).
  split; try done.
  - by eapply ioctl_sub.
  - exact (ioctl_events penv eenv req payload Hreq _ _ _ _ Hd).
  - intros ss Hok. by eapply ioctl_memory.
  - by eapply ioctl_profile.
  - rewrite E2. split; [done|lia].
Qed.

End handlers.

(** Every message but MAP_PREPARE, which the device completes. *)
Lemma handle_answered env aux_fd fd_field msg s req : host_ok env -> wf_bytes msg -> session_inv s ->
  from_bytes msg = Some req -> Kind.from_u32 (kind req) <> Some Kind.MapPrepare ->
  let '(o, (s', _)) := handle_msg_with env aux_fd fd_field msg s in
  exists o', o = Some <$> o' /\ answered_by env req s o' s'.
Proof.
  intros Henv Hw Hi Hm Hk. unfold handle_msg_with. rewrite Hm.
  assert (wf_req req) as Hreq by (apply (from_bytes_inv msg req Hw Hm)).
  assert (wf_bytes (drop (Z.to_nat (WIRE_LEN Req)) msg)) as Hp by (by apply Forall_drop).
  destruct (Kind.from_u32 (kind req)) as [[| | | | |]|]; try done.
  - eexists (Ok _). split; [done|]. unfold on_hello. destruct (negb _); [by apply err_answered|by apply ok_answered].
  - pose proof (open_answered env req Hreq (drop (Z.to_nat (WIRE_LEN Req)) msg) s Hi) as Ha.
    destruct (on_open _ _ _ _) as [o s']. by exists o.
  - pose proof (close_answered env req Hreq s) as Ha. destruct (on_close _ _) as [r s']. by exists (Ok r).
  - pose proof (ioctl_answered env req Hreq Henv aux_fd fd_field _ s Hi Hp) as Ha.
    destruct (session_ioctl _ _ _ _ _ _) as [o [s' cs]]. by exists o.
  - pose proof (pool_back_answered env req Hreq Henv (drop (Z.to_nat (WIRE_LEN Req)) msg) s Hi) as Ha.
    destruct (on_uvm_pool_back _ _ _ _) as [o s']. by exists o.
  - eexists (Ok _). split; [done|]. by apply err_answered.
Qed.

End moves.
