(* ===== verification/Polls.v ===== *)
(** * The poll set of the device (crates/vhost-user-nvrm/src/nvrm.rs)

    The device watches, in one epoll set, the control descriptors that carry
    RM events of a client and the guest descriptors on which a process
    allocated OS events.  Each registration has a number that is never used
    again; [poll_srcs] says what a number stands for, [poll_ids] keeps a
    descriptor from being registered twice.

    Whether the kernel accepts a registration is an argument; waiters go to
    the poll thread of [Waiters] instead. *)
From S2P Require Import Prelude.
From S2P Require Import Wire.
From S2P Require Import Prepare.

Inductive PollSrc :=
| SrcEventCtl (proc client fd : Z)
| SrcClient (proc token fd : Z)
| SrcNotify.

Definition PollKey : Type := Z * Z * Z.

(** What a session reports; waiters are diverted before. *)
Inductive Pollable :=
| PollEventCtl (client fd : Z)
| PollClient (c : ClientPoll).

Record PollSet := MkPollSet {
  poll_srcs : gmap Z PollSrc; poll_ids : gmap PollKey Z; next_poll_id : Z }.

Definition poll_key (proc : Z) (p : Pollable) : PollKey :=
  match p with
  | PollEventCtl client _ => (proc, NONE_U64, client)
  | PollClient c => (default proc (cp_owner c), cp_token c, 0)
  end.

Definition poll_src (proc : Z) (p : Pollable) : PollSrc :=
  match p with
  | PollEventCtl client fd => SrcEventCtl proc client fd
  | PollClient c => SrcClient (default proc (cp_owner c)) (cp_token c) (cp_fd c)
  end.

(** One turn of [register_pollables]; [added] is the answer of epoll_ctl. *)
Definition register_one (proc : Z) (added : Z -> bool) (s : PollSet) (p : Pollable) : PollSet :=
  let key := poll_key proc p in
  match poll_ids s !! key with
  | Some _ => s
  | None =>
      let id := next_poll_id s in
      if added id
      then MkPollSet (<[id := poll_src proc p]> (poll_srcs s)) (<[key := id]> (poll_ids s)) (id + 1)
      else MkPollSet (poll_srcs s) (poll_ids s) (id + 1)
  end.

Definition register_pollables (proc : Z) (added : Z -> bool) (s : PollSet) (new : list Pollable) : PollSet :=
  foldl (register_one proc added) s new.

(** [register_waiter_notify]. *)
Definition poll_new : PollSet := MkPollSet {[1 := SrcNotify]} ∅ 2.

Definition src_key (src : PollSrc) : option PollKey :=
  match src with
  | SrcEventCtl proc client _ => Some (proc, NONE_U64, client)
  | SrcClient proc token _ => Some (proc, token, 0)
  | SrcNotify => None
  end.

Definition unregister_id (s : PollSet) (id : Z) : PollSet :=
  match poll_srcs s !! id with
  | None => s
  | Some src =>
      MkPollSet (delete id (poll_srcs s))
        (match src_key src with Some k => delete k (poll_ids s) | None => poll_ids s end)
        (next_poll_id s)
  end.

Definition unregister_key (s : PollSet) (k : PollKey) : PollSet :=
  match poll_ids s !! k with None => s | Some id => unregister_id s id end.

Definition unregister_token (s : PollSet) (proc token : Z) : PollSet := unregister_key s (proc, token, 0).
Definition unregister_event_ctl (s : PollSet) (proc client : Z) : PollSet :=
  unregister_key s (proc, NONE_U64, client).

Definition src_of_proc (proc : Z) (src : PollSrc) : bool :=
  match src with
  | SrcEventCtl p _ _ | SrcClient p _ _ => p =? proc
  | SrcNotify => false
  end.

Definition unregister_proc (s : PollSet) (proc : Z) : PollSet :=
  foldl unregister_id s (map fst (filter (fun e => src_of_proc proc e.2 = true) (map_to_list (poll_srcs s)))).

(** ** Steps *)
Inductive PollOp :=
| PollRegister (proc : Z) (added : Z -> bool) (new : list Pollable)
| PollUnregister (id : Z)
| PollCloseToken (proc token : Z)
| PollFreeCtl (proc client : Z)
| PollProcGone (proc : Z).

Definition poll_step (s : PollSet) (op : PollOp) : PollSet :=
  match op with
  | PollRegister proc added new => register_pollables proc added s new
  | PollUnregister id => unregister_id s id
  | PollCloseToken proc token => unregister_token s proc token
  | PollFreeCtl proc client => unregister_event_ctl s proc client
  | PollProcGone proc => unregister_proc s proc
  end.

Definition poll_run : PollSet -> list PollOp -> PollSet := foldl poll_step.

(** ** The two tables agree *)
Record poll_ok (s : PollSet) : Prop := {
  pk_ids k id : poll_ids s !! k = Some id <-> exists src, poll_srcs s !! id = Some src /\ src_key src = Some k;
  pk_next id : is_Some (poll_srcs s !! id) -> 1 <= id < next_poll_id s;
  pk_pos : 1 <= next_poll_id s;
}.

Lemma poll_src_key proc p : src_key (poll_src proc p) = Some (poll_key proc p).
Proof. by destruct p. Qed.

Lemma register_one_ok proc added s p : poll_ok s -> poll_ok (register_one proc added s p).
Proof.
  intros [Hi Hn Hp]. unfold register_one. destruct (poll_ids s !! poll_key proc p) eqn:Hk; [done|].
  assert (poll_srcs s !! next_poll_id s = None) as Hf.
  { destruct (poll_srcs s !! next_poll_id s) eqn:E; [|done]. specialize (Hn (next_poll_id s) ltac:(by eexists)). lia. }
  destruct (added (next_poll_id s)); split; cbn.
  - intros k id. destruct (decide (k = poll_key proc p)) as [->|Hne].
    + rewrite lookup_insert_eq. split.
      * intros [= <-]. exists (poll_src proc p). by rewrite lookup_insert_eq, poll_src_key.
      * intros (src & Hs & Hsk). destruct (decide (id = next_poll_id s)) as [->|Hne]; [done|].
        rewrite lookup_insert_ne in Hs by done.
        assert (poll_ids s !! poll_key proc p = Some id) by (apply Hi; eauto). congruence.
    + rewrite lookup_insert_ne by done. rewrite Hi. destruct (decide (id = next_poll_id s)) as [->|Hni].
      * rewrite lookup_insert_eq, Hf. split; [by intros (? & ? & _)|]. intros (src & [= <-] & Hsk).
        rewrite poll_src_key in Hsk. congruence.
      * by rewrite lookup_insert_ne.
  - intros id [src Hs]. destruct (decide (id = next_poll_id s)) as [->|Hne]; [lia|].
    rewrite lookup_insert_ne in Hs by done. specialize (Hn id ltac:(by eexists)). lia.
  - lia.
  - done.
  - intros id Hs. specialize (Hn id Hs). lia.
  - lia.
Qed.

Lemma unregister_id_ok s id : poll_ok s -> poll_ok (unregister_id s id).
Proof.
  intros [Hi Hn Hp]. unfold unregister_id. destruct (poll_srcs s !! id) as [src|] eqn:Hs; [|done].
  split; cbn; [|intros i Hsome; apply Hn; apply lookup_delete_is_Some in Hsome; naive_solver|done].
  intros k i. destruct (src_key src) as [k'|] eqn:Hk.
  - assert (poll_ids s !! k' = Some id) as Hk' by (apply Hi; eauto).
    rewrite lookup_delete_Some, Hi. split.
    + intros (Hne & src' & Hs' & Hsk). exists src'. split; [|done]. apply lookup_delete_Some. split; [|done].
      intros <-. congruence.
    + intros (src' & Hs' & Hsk). apply lookup_delete_Some in Hs' as [Hne Hs']. split; [|eauto].
      intros <-. assert (poll_ids s !! k' = Some i) by (apply Hi; eauto). congruence.
  - rewrite Hi. split; intros (src' & Hs' & Hsk); exists src'; (split; [|done]).
    + apply lookup_delete_Some. split; [|done]. intros <-. congruence.
    + by apply lookup_delete_Some in Hs' as [_ ?].
Qed.

Lemma unregister_key_ok s k : poll_ok s -> poll_ok (unregister_key s k).
Proof. intros Hs. unfold unregister_key. destruct (_ !! _); [by apply unregister_id_ok|done]. Qed.

Lemma unregister_all_ok l : forall s, poll_ok s -> poll_ok (foldl unregister_id s l).
Proof. induction l as [|id l IH]; intros s Hs; [done|]. by apply IH, unregister_id_ok. Qed.

Lemma poll_step_ok s op : poll_ok s -> poll_ok (poll_step s op).
Proof.
  intros Hs. destruct op; cbn; [|by apply unregister_id_ok|by apply unregister_key_ok..|by apply unregister_all_ok].
  unfold register_pollables. revert s Hs. induction new as [|p new IH]; intros s Hs; [done|].
  by apply IH, register_one_ok.
Qed.

Lemma poll_run_ok ops : forall s, poll_ok s -> poll_ok (poll_run s ops).
Proof. induction ops as [|op ops IH]; intros s Hs; [done|]. by apply IH, poll_step_ok. Qed.

Lemma poll_new_ok : poll_ok poll_new.
Proof.
  split; cbn; [|intros id [src [<- <-]%lookup_singleton_Some]; lia|lia].
  intros k id. rewrite lookup_empty. split; [done|].
  by intros (src & [<- <-]%lookup_singleton_Some & ?).
Qed.

(** *** Numbers are not used again *)
Definition same_or_gone (s s' : PollSet) : Prop :=
  next_poll_id s <= next_poll_id s' /\
  forall id, id < next_poll_id s -> poll_srcs s' !! id = poll_srcs s !! id \/ poll_srcs s' !! id = None.

Lemma same_or_gone_refl s : same_or_gone s s.
Proof. split; [lia|auto]. Qed.

Lemma same_or_gone_trans s1 s2 s3 : same_or_gone s1 s2 -> same_or_gone s2 s3 -> same_or_gone s1 s3.
Proof.
  intros [N1 H1] [N2 H2]. split; [lia|]. intros id Hid. destruct (H1 id Hid) as [E1|E1], (H2 id ltac:(lia)) as [E2|E2];
    rewrite ?E2, ?E1; auto.
Qed.

Lemma register_one_keeps proc added s p : same_or_gone s (register_one proc added s p).
Proof.
  unfold register_one. destruct (_ !! _); [apply same_or_gone_refl|]. destruct (added _); (split; [cbn; lia|]); [|auto].
  intros id Hid. left. cbn. by rewrite lookup_insert_ne by lia.
Qed.

Lemma unregister_keeps s id : same_or_gone s (unregister_id s id).
Proof.
  unfold unregister_id. destruct (poll_srcs s !! id) eqn:E; [|apply same_or_gone_refl]. split; [cbn; lia|].
  intros i Hi. cbn. destruct (decide (i = id)) as [->|Hne]; [right; apply lookup_delete_eq|left; by apply lookup_delete_ne].
Qed.

Lemma fold_keeps {X} (f : PollSet -> X -> PollSet) l : (forall s x, same_or_gone s (f s x)) ->
  forall s, same_or_gone s (foldl f s l).
Proof.
  intros Hf. induction l as [|x l IH]; intros s; [apply same_or_gone_refl|]. eapply same_or_gone_trans; [apply Hf|apply IH].
Qed.

Lemma poll_step_keeps s op : same_or_gone s (poll_step s op).
Proof.
  destruct op; cbn.
  - apply fold_keeps. intros. apply register_one_keeps.
  - apply unregister_keeps.
  - unfold unregister_token, unregister_key. destruct (_ !! _); [apply unregister_keeps|apply same_or_gone_refl].
  - unfold unregister_event_ctl, unregister_key. destruct (_ !! _); [apply unregister_keeps|apply same_or_gone_refl].
  - apply fold_keeps. intros. apply unregister_keeps.
Qed.

(** *** A process that is gone *)
Lemma unregister_all_gone l : forall s id, id ∈ l -> poll_srcs (foldl unregister_id s l) !! id = None.
Proof.
  induction l as [|i l IH]; intros s id Hin; [by apply elem_of_nil in Hin|]. cbn.
  destruct (decide (id ∈ l)) as [Hl|Hl]; [by apply IH|]. assert (id = i) as -> by set_solver.
  assert (forall l' s', poll_srcs s' !! i = None -> poll_srcs (foldl unregister_id s' l') !! i = None) as Hk.
  { induction l' as [|j l' IH']; intros s' Hs'; [done|]. cbn. apply IH'. unfold unregister_id.
    destruct (poll_srcs s' !! j); [|done]. cbn. by rewrite lookup_delete_None; right. }
  apply Hk. unfold unregister_id. destruct (poll_srcs s !! i) eqn:E; [|done]. cbn. apply lookup_delete_eq.
Qed.

Lemma unregister_subset l : forall s id src, poll_srcs (foldl unregister_id s l) !! id = Some src ->
  poll_srcs s !! id = Some src.
Proof.
  induction l as [|i l IH]; intros s id src Hs; [done|]. cbn in Hs. apply IH in Hs. revert Hs. unfold unregister_id.
  destruct (poll_srcs s !! i); [|done]. cbn. by intros [_ ?]%lookup_delete_Some.
Qed.

Lemma proc_unregistered s proc id src :
  poll_srcs (unregister_proc s proc) !! id = Some src -> src_of_proc proc src = false.
Proof.
  intros Hs. unfold unregister_proc in Hs. pose proof (unregister_subset _ _ _ _ Hs) as Hs0.
  destruct (src_of_proc proc src) eqn:E; [|done]. rewrite unregister_all_gone in Hs; [done|].
  apply list_elem_of_fmap. exists (id, src). split; [done|]. apply list_elem_of_filter. split; [done|].
  by apply elem_of_map_to_list.
Qed.

(** The numbers of the poll set are exact.  After any sequence of
    registrations and removals each descriptor is registered under one
    number at most and the two tables are inverse to each other; a number
    names what it was given to for as long as it is known and nothing
    afterwards, so an event that arrives late reaches nobody else; and a
    process that is gone has no registration left. *)
Theorem poll_ids_exact ops ops' :
  let s := poll_run poll_new ops in let s' := poll_run s ops' in
  (forall k id, poll_ids s !! k = Some id <-> exists src, poll_srcs s !! id = Some src /\ src_key src = Some k) /\
  (forall id src, poll_srcs s !! id = Some src -> poll_srcs s' !! id = Some src \/ poll_srcs s' !! id = None) /\
  (forall id, id < next_poll_id s -> poll_srcs s !! id = None -> poll_srcs s' !! id = None) /\
  (forall proc id src, poll_srcs (poll_step s (PollProcGone proc)) !! id = Some src -> src_of_proc proc src = false).
Proof.
  intros s s'. pose proof (poll_run_ok ops _ poll_new_ok) as Hok. fold s in Hok.
  pose proof (fold_keeps poll_step ops' poll_step_keeps s) as [_ Hk]. split; [apply (pk_ids _ Hok)|]. split_and!.
  - intros id src Hs. pose proof (pk_next _ Hok id ltac:(by eexists)). rewrite <- Hs. apply Hk. lia.
  - intros id Hid Hn. rewrite <- Hn. destruct (Hk id Hid) as [E|E]; [done|]. by rewrite Hn.
  - intros proc id src. apply proc_unregistered.
Qed.
