(* ===== verification/Device.v ===== *)
(** * The device (crates/vhost-user-nvrm/src/nvrm.rs)

    [NvrmDevice] owns the sessions of all guest processes and what they share:
    the ledger of video memory, the page registrations, the window, the poll
    set and the poll thread.  [handle] answers one message of the guest.

    The components are modelled one by one in [Vram], [HostPool], [Window],
    [Waiters] and [Polls], each with its own view of a session; here a session
    is whole, and every view is a projection of the device.

    What is outside: the VMM ([Vmm]), the driver and the kernel ([HostEnv]);
    [de_poller] says whether the poll thread still answers, [de_added] what
    epoll_ctl says. *)
From stdpp Require Import strings.
From S2P Require Import Prelude.
From S2P Require Import Effects.
From S2P Require Import Bytes.
From S2P Require Import Wire.
From S2P Require Import SysConsts.
From S2P Require Import NvAbi.
From S2P Require Import SysLayout.
From S2P Require Import Mirror.
From S2P Require Import VramPolicy.
From S2P Require Import Vram.
From S2P Require Import Window.
From S2P Require Import Arena.
From S2P Require Import HostPool.
From S2P Require Import Waiters.
From S2P Require Import Prepare.
From S2P Require Import Prepared.
From S2P Require Import Execute.
From S2P Require Import Executed.
From S2P Require Import Request.
From S2P Require Import Session.
From S2P Require Import Polls.

Local Open Scope list_scope.
Local Open Scope Z_scope.

Section device.
Context {A : RmAbi} {D : Type} `{PoolDriver D} {M : Type} `{GuestMem M} {V : Type} `{Vmm V}.

(** A session without what it shares. *)
Record Private := MkPrivate {
  v_sid : Z; v_mirror : FdMirror.Mirror; v_evb : EventBooks; v_polls : list ClientPoll;
  v_gpu : option Z; v_books : Vram.Books; v_proc : ProcInfo; v_maps : gmap Z PendingMap; v_blob : Z;
  v_logs : LogBooks }.

(** [n_next] numbers the sessions; a process that comes back gets a new one. *)
Record NvrmDevice := MkNvrm {
  n_sessions : gmap Z Private;
  n_tables : bytes;
  n_backend : option V; n_window : gmap Z WindowMap;
  n_ledger : Ledger; n_world : World D;
  n_polls : PollSet; n_poller : Poller;
  n_error : bool; n_next : Z }.

Record DeviceEnv := MkDeviceEnv {
  de_host : HostEnv (M:=M); de_window : Window.Env; de_poller : bool; de_added : Z -> bool }.

Definition private (s : Session (D:=D)) : Private :=
  let c := core s in
  MkPrivate (sid c) (Prepare.mirror c) (evb c) (client_polls c) (osdesc_gpu c) (vbooks c) (proc s)
    (maps s) (blob s) (log_books s).

Definition load (d : NvrmDevice) (p : Z) (v : Private) : Session (D:=D) :=
  BuildSession
    (MkSess (v_sid v) (v_mirror v) (v_evb v) (v_polls v) (v_gpu v) (v_books v) (n_ledger d) (n_world d))
    p (v_proc v) (v_maps v) (v_blob v) (v_logs v).

Definition set_sessions (d : NvrmDevice) (m : gmap Z Private) : NvrmDevice :=
  MkNvrm m (n_tables d) (n_backend d) (n_window d) (n_ledger d) (n_world d) (n_polls d) (n_poller d)
    (n_error d) (n_next d).
Definition set_shared (d : NvrmDevice) (l : Ledger) (w : World D) : NvrmDevice :=
  MkNvrm (n_sessions d) (n_tables d) (n_backend d) (n_window d) l w (n_polls d) (n_poller d)
    (n_error d) (n_next d).
Definition set_window (d : NvrmDevice) (b : option V) (m : gmap Z WindowMap) : NvrmDevice :=
  MkNvrm (n_sessions d) (n_tables d) b m (n_ledger d) (n_world d) (n_polls d) (n_poller d) (n_error d)
    (n_next d).
Definition set_watches (d : NvrmDevice) (ps : PollSet) (p : Poller) (e : bool) : NvrmDevice :=
  MkNvrm (n_sessions d) (n_tables d) (n_backend d) (n_window d) (n_ledger d) (n_world d) ps p e (n_next d).

(** A session is put back. *)
Definition store (d : NvrmDevice) (p : Z) (s : Session (D:=D)) : NvrmDevice :=
  set_sessions (set_shared d (s_ledger (core s)) (world (core s))) (<[p := private s]> (n_sessions d)).

(** [session_for] *)
Definition session_for (d : NvrmDevice) (p : Z) : option (Session (D:=D) * NvrmDevice) :=
  match n_sessions d !! p with
  | Some v => Some (load d p v, d)
  | None =>
      if bool_decide (MAX_SESSIONS <= base.size (n_sessions d))%nat then None
      else
        let n := n_next d in
        let s := session_new n p (n_ledger d) (pool_step (M:=M) (n_world d) (HostPool.NewSession n)) in
        let d := store d p s in
        Some (s, MkNvrm (n_sessions d) (n_tables d) (n_backend d) (n_window d) (n_ledger d) (n_world d)
                   (n_polls d) (n_poller d) (n_error d) (n + 1))
  end.

Definition resolve_fd (d : NvrmDevice) (p token : Z) : option Z :=
  v ← n_sessions d !! p; FdMirror.raw (v_mirror v) token.

(** The window's view of the device. *)
Definition window_view (d : NvrmDevice) : Window.Device V :=
  Window.MkDevice ((fun v => MkMapSession (v_mirror v) (v_maps v) (v_blob v)) <$> n_sessions d)
    (n_window d) (n_backend d) (n_error d).

(** ** Requests the device answers itself *)
Definition on_get_tables (d : NvrmDevice) (req : Req) : bytes :=
  let total := blen (n_tables d) in let off := addr req in
  if total <? off then as_bytes (err_rsp (seq req) EINVAL)
  else
    let want := Z.max (Z.min (map_len req) MAX_PAYLOAD) 1 in
    let chunk := take (Z.to_nat (Z.min (off + want) total - off)) (drop (Z.to_nat off) (n_tables d)) in
    as_bytes {| rsp_seq := seq req; ret := 0; Wire.token := total; rsp_inline_len := wrap32 (blen chunk);
                rsp_aux_len := 0; scm_fd_count := 0; rsp_pad := 0 |} ++ chunk.

Definition on_map_release (d : NvrmDevice) (req : Req) : bytes * NvrmDevice :=
  let '(rsp, w) := Window.on_map_release (window_view d) req in
  (as_bytes rsp, set_window d (backend w) (window w)).

(** [on_map_prepare]: the session exists from here on, the rest is the
    window's. *)
Definition on_map_prepare (env : DeviceEnv) (d : NvrmDevice) (req : Req) : bytes * NvrmDevice :=
  let p := guest_proc req in
  match session_for d p with
  | None => (as_bytes (err_rsp (seq req) ENOMEM), d)
  | Some (s, d) =>
      let '(rsp, w) := Window.on_map_prepare (de_window env) (window_view d) req in
      let d := set_window d (backend w) (window w) in
      (as_bytes rsp,
       match Window.sessions w !! p with
       | Some m => store d p (set_maps m s)
       | None => d
       end)
  end.

(** The session is dropped: its books and its registrations. *)
Definition drop_session (d : NvrmDevice) (p : Z) : NvrmDevice :=
  match n_sessions d !! p with
  | None => d
  | Some v =>
      set_sessions (set_shared d (drop_books (n_ledger d) (v_books v)) (end_session (n_world d) (v_sid v)))
        (delete p (n_sessions d))
  end.

Definition on_proc_gone (env : DeviceEnv) (d : NvrmDevice) (req : Req) : bytes * NvrmDevice :=
  let p := guest_proc req in
  if p =? 0 then (as_bytes (err_rsp (seq req) EINVAL), d)
  else if negb (unregister_ok (de_window env))
  then (as_bytes (err_rsp (seq req) EIO), set_watches d (n_polls d) (n_poller d) true)
  else
    let d := set_watches d (unregister_proc (n_polls d) p) (cancel_process (n_poller d) p) (n_error d) in
    let '(ok, w) := release_window_of (window_view d) p in
    let d := set_window d (backend w) (window w) in
    if negb ok then (as_bytes (err_rsp (seq req) EIO), d)
    else
      let d := drop_session d p in
      (as_bytes (ok_rsp (seq req) 0), set_shared d (n_ledger d) (budget_retry (n_world d))).

(** ** Requests of a session *)

(** The books once everything a session reported has been taken. *)
Definition taken (b : EventBooks) : EventBooks :=
  Waiters.MkBooks (event_ctls b) (next_event_id b) (next_waiter_generation b) (events b) (waiter_pool b)
    (waiters b) (pending_unwatch b) [] [] [] (client_token b) (ev_registered b) (ev_fired b)
    (ev_unmatched b) (ev_dataless b).

Definition pollables (s : Session (D:=D)) : list Pollable :=
  map (fun cf : Z * Z => PollEventCtl cf.1 cf.2) (ctl_news (evb (core s))) ++
  map PollClient (client_polls (core s)).

(** The poll thread lets go of retired slots before they can be reused, then
    new descriptors are watched and control descriptors of dead clients
    leave the poll set. *)
Definition settle_polls (env : DeviceEnv) (d : NvrmDevice) (p : Z) (s : Session (D:=D)) (seq : Z)
    (out : bytes) : bytes * NvrmDevice :=
  let b := evb (core s) in
  let keep b := set_core (set_polls [] (set_evb (taken b) (core s))) s in
  if negb (de_poller env)
  then (as_bytes (err_rsp seq EIO),
        set_watches (store d p (keep (set_waiters b (waiter_pool b) (waiters b) [] []))) (n_polls d)
          (n_poller d) true)
  else
    let done := keep (finish_unwatch b) in
    let poller := cancel_slots (n_poller d) p (map (fun r => slot_id (ret_slot r)) (pending_unwatch b)) in
    let '(poller, ok) := watch_all poller p (pending_watch b) in
    let polls := register_pollables p (de_added env) (n_polls d) (pollables s) in
    if negb ok
    then (as_bytes (err_rsp seq EIO), set_watches (store d p done) polls poller true)
    else
      let polls := foldl (fun ps cf => unregister_event_ctl ps p cf.1) polls (pending_ctl_unwatch b) in
      (out, set_watches (store d p done) polls poller (n_error d)).

(** The descriptor a field names, resolved in the process that owns it. *)
Definition owner_fd (d : NvrmDevice) (p token : Z) : option Z :=
  if negb (token =? NONE_U64) && negb (p =? NONE_U32) then resolve_fd d p token else None.

Definition on_session (env : DeviceEnv) (d : NvrmDevice) (req : Req) (msg : bytes)
  : outcome Empty_set bytes * (NvrmDevice * list HostCall) :=
  let p := guest_proc req in
  let d := if kind req =? Kind.to_u32 Kind.Close
           then set_watches d (unregister_token (n_polls d) p (target_token req)) (n_poller d) (n_error d)
           else d in
  let fd_field := owner_fd d (fd_field_proc req) (fd_field_token req) in
  let aux_fd := owner_fd d (aux_fd_field_proc req) (aux_fd_field_token req) in
  match session_for d p with
  | None => (Ok (as_bytes (err_rsp (seq req) ENOMEM)), (d, []))
  | Some (s, d) =>
      match handle_msg_with (de_host env) aux_fd fd_field msg s with
      | (Ok r, (s, cs)) =>
          let out := default (as_bytes (err_rsp (seq req) EPROTO)) r in
          let '(out, d) := settle_polls env d p s (seq req) out in (Ok out, (d, cs))
      | (_, (s, cs)) => (Panic, (store d p s, cs))
      end
  end.

(** [handle] *)
Definition handle (env : DeviceEnv) (msg : bytes) (d : NvrmDevice)
  : outcome Empty_set bytes * (NvrmDevice * list HostCall) :=
  match from_bytes (A:=Req) msg with
  | None => (Ok (as_bytes (err_rsp 0 EPROTO)), (d, []))
  | Some req =>
      if n_error d then (Ok (as_bytes (err_rsp (seq req) EIO)), (d, []))
      else if kind req =? KIND_GET_TABLES then (Ok (on_get_tables d req), (d, []))
      else if kind req =? KIND_MAP_RELEASE then let '(r, d) := on_map_release d req in (Ok r, (d, []))
      else if kind req =? KIND_PROC_GONE then let '(r, d) := on_proc_gone env d req in (Ok r, (d, []))
      else if kind req =? Kind.to_u32 Kind.MapPrepare
      then let '(r, d) := on_map_prepare env d req in (Ok r, (d, []))
      else on_session env d req msg
  end.

(** ** Events *)

(** [on_poll] for the poll thread: every firing is taken to its session. *)
Definition put_books (d : NvrmDevice) (m : gmap Z EventBooks) : NvrmDevice :=
  set_sessions d (map_imap (fun p v => Some (match m !! p with
    | Some b => MkPrivate (v_sid v) (v_mirror v) b (v_polls v) (v_gpu v) (v_books v) (v_proc v) (v_maps v)
                  (v_blob v) (v_logs v)
    | None => v end)) (n_sessions d)).

Definition deliver_fired (d : NvrmDevice) : list (Fired * (Z * Z * Z)) * NvrmDevice :=
  let '(out, m) := deliver (v_evb <$> n_sessions d) (fired (n_poller d)) in
  (out, put_books (set_watches d (n_polls d) (MkPoller (watches (n_poller d)) []) (n_error d)) m).

(** [on_poll] for an event control: its events are drained; a control that
    was lost is forgotten. *)
Definition drain_ctl (d : NvrmDevice) (id : Z) (answer : nat -> EventData)
  : list (EventReg * Z) * NvrmDevice :=
  match poll_srcs (n_polls d) !! id with
  | Some (SrcEventCtl p c _) =>
      match n_sessions d !! p with
      | None => ([], set_watches d (unregister_id (n_polls d) id) (n_poller d) (n_error d))
      | Some v =>
          let '(out, b) := drain_os_events (v_evb v) c answer in
          let polls := match event_ctls b !! c with Some _ => n_polls d | None => unregister_id (n_polls d) id end in
          (out, set_watches (put_books d {[p := b]}) polls (n_poller d) (n_error d))
      end
  | _ => ([], d)
  end.

(** [set_backend_req_fd]: the VMM starts over, and so does the window. *)
Definition set_backend (d : NvrmDevice) (v : V) : NvrmDevice := set_window d (Some v) ∅.

Definition device_new (tables : bytes) (p : Profile) (lim : Z) (dr : D) : NvrmDevice :=
  MkNvrm ∅ tables None ∅ (with_profile p) (world_new lim dr) poll_new (MkPoller [] []) false 0.

End device.
Arguments NvrmDevice D V : clear implicits.
