(* ===== verification/DeviceInv.v ===== *)
(** * The device as a whole

    The invariants of the components hold of the projections of the device
    after any sequence of messages, poll rounds and events.  Messages are
    arbitrary bytes; what the driver, the kernel and the VMM answer is
    arbitrary too, within what [HostEnv], [PoolDriverLaws] and [VmmLaws] say. *)
From stdpp Require Import strings.
From S2P Require Import Prelude.
From S2P Require Import Effects.
From S2P Require Import Bytes.
From S2P Require Import Wire.
From S2P Require Import SysConsts.
From S2P Require Import NvAbi.
From S2P Require Import SysLayout.
From S2P Require Import Mirror.
From S2P Require Import VramPolicy.
From S2P Require Import Vram.
From S2P Require Import Window.
From S2P Require Import Arena.
From S2P Require Import HostPool.
From S2P Require Import Waiters.
From S2P Require Import Prepare.
From S2P Require Import Prepared.
From S2P Require Import Execute.
From S2P Require Import Executed.
From S2P Require Import Request.
From S2P Require Import Session.
From S2P Require Import Polls.
From S2P Require Import Device.

(** ** The poll thread around one message *)
Section events.

(** Books that differ only in what no slot depends on. *)
Record same_slots (b b' : EventBooks) : Prop := {
  ss_pool : waiter_pool b' = waiter_pool b;
  ss_waiters : waiters b' = waiters b;
  ss_unwatch : pending_unwatch b' = pending_unwatch b;
  ss_watch : pending_watch b' = pending_watch b;
}.

Lemma alloc_same_slots b c o k r b' : alloc_os_event_id b c o k = (r, b') -> same_slots b b'.
Proof.
  unfold alloc_os_event_id, take_event_id. destruct (_ <=? _); [|by intros [= _ <-]].
  destruct (event_ctls _ !! c); [destruct k; by intros [= _ <-]|].
  destruct o; [destruct k; by intros [= _ <-]|by intros [= _ <-]].
Qed.

Lemma calm_same_slots b r : calm r -> same_slots b (run_req b r).
Proof.
  destruct r as [| |r o k ok h| | | |]; try done. intros _. cbn.
  destruct (alloc_os_event_id b (er_client r) o k) as [[id|e|] b'] eqn:E; apply alloc_same_slots in E; try done.
  destruct E as [E1 E2 E3 E4]. by destruct ok.
Qed.

Lemma same_slots_quiet b b' : same_slots b b' -> Waiters.quiet b -> Waiters.quiet b'.
Proof. intros [_ _ E3 E4] [H1 H2]. split; congruence. Qed.

Context {G : gset Z} (e : EventDevice) (He : dev_ok G e) (Hidle : phase e = Idle).

Lemma idle_quiet p b : Waiters.books e !! p = Some b -> Waiters.quiet b.
Proof. intros Hb. pose proof (dv_phase _ He) as Hp. unfold phase_ok in Hp. rewrite Hidle in Hp. by apply (Hp p). Qed.

(** A request that leaves nothing for the poll thread. *)
Lemma calm_dev p b r : Waiters.books e !! p = Some b -> calm r -> dev_ok G (set_books e p (run_req b r) Idle).
Proof.
  intros Hb Hr. pose proof (calm_same_slots b r Hr) as Hs.
  assert (dev_ok G (set_books e p (run_req b r) (Cancelling p))) as Hd.
  { eapply (dev_step_ok G e (Request p r)); [done|]. unfold dev_step. rewrite Hidle, Hb. cbn [mbind option_bind].
    by destruct r. }
  destruct Hd as [H1 H2 H3 H4 H5 H6]. split; try done. intros q b' Hq.
  destruct (decide (q = p)) as [->|Hne]; [|by apply (H5 q b')].
  cbn in Hq. rewrite lookup_insert_eq in Hq. injection Hq as <-. eapply same_slots_quiet; [exact Hs|].
  by apply (idle_quiet p).
Qed.

(** Reporting empties lists no slot depends on. *)
Lemma same_dev p b b' : Waiters.books e !! p = Some b -> same_slots b b' -> next_event_id b' = next_event_id b ->
  dev_ok G (set_books e p b' Idle).
Proof.
  intros Hb Hs En. pose proof Hs as [E1 E2 E3 E4].
  assert (forall f x, slot_occ f x b' = slot_occ f x b) as Hocc
    by (intros f x; unfold slot_occ; by rewrite E1, E2, E3).
  assert (held_slots b' = held_slots b) as Hheld by (unfold held_slots; by rewrite E2, E3).
  split; cbn.
  - intros q c [[<- <-]|[_ Hq]]%lookup_insert_Some; [|by apply (dv_books _ He)].
    eapply books_move; [by apply (dv_books _ He p b)|intros x; by rewrite Hocc|done..].
  - intros q [Hq _]%lookup_insert_None. by apply (dv_gone _ He).
  - intros x. rewrite (gsum_update _ _ _ _ _ Hb), Hocc. pose proof (dv_fds _ He x). lia.
  - intros w Hw. destruct (dv_watch _ He w Hw) as (c & sl & Hc & Hh & Hx).
    destruct (decide (fired_proc (watch_fired w) = p)) as [Hp|Hp].
    + exists b', sl. rewrite Hp, lookup_insert_eq. rewrite Hp, Hb in Hc. injection Hc as <-.
      unfold held in *. by rewrite Hheld.
    + exists c, sl. by rewrite lookup_insert_ne.
  - unfold phase_ok. cbn. apply map_Forall_insert_2.
    + eapply same_slots_quiet; [exact Hs|]. by apply (idle_quiet p).
    + pose proof (dv_phase _ He) as Hp. unfold phase_ok in Hp. by rewrite Hidle in Hp.
  - apply (dv_error _ He).
Qed.

(** A descriptor no slot has. *)
Definition fd_free (fd : Z) : Prop :=
  forall p b sl, Waiters.books e !! p = Some b -> sl ∈ slots b -> ctl sl <> fd.
End events.

Lemma fd_free_same e p b b' ph fd : Waiters.books e !! p = Some b -> same_slots b b' -> fd_free e fd ->
  fd_free (set_books e p b' ph) fd.
Proof.
  intros Hb [E1 E2 E3 _] Hf q c sl. cbn. intros [[<- <-]|[_ Hq]]%lookup_insert_Some Hsl; [|by apply (Hf q c)].
  apply (Hf p b); [done|]. unfold slots in *. by rewrite <- E1, <- E2, <- E3.
Qed.

Lemma fd_free_fresh e r : (forall fd, match r with RegisterWaiter _ _ _ _ o _ _ => o | _ => None end = Some fd -> fd_free e fd) ->
  fresh_for e r = true.
Proof.
  intros Hf. destruct r as [c t kc tok [fd|] bd ok| | | | | |]; try done. cbn. apply negb_true_iff.
  destruct (existsb _ _) eqn:E; [|done]. exfalso. apply existsb_exists in E as (x & Hx & ->%Z.eqb_eq).
  unfold open_fds in Hx. apply in_concat in Hx as (l & ([q b] & <- & Hq)%in_map_iff & (sl & <- & Hsl)%in_map_iff).
  apply list_elem_of_In, elem_of_map_to_list in Hq. apply (Hf (ctl sl) eq_refl q b sl); [done|by apply list_elem_of_In|done].
Qed.

(** The poll thread follows one request of a session. *)
Lemma settle_dev {M} {G} (penv : PrepEnv (M:=M)) e p b0 b : dev_ok G e -> phase e = Idle ->
  Waiters.books e !! p = Some b0 -> (forall fd, ctl_open penv = Some fd -> fd_free e fd) ->
  event_moves penv b0 b ->
  let q := cancel_slots (poller e) p (map (fun r => slot_id (ret_slot r)) (pending_unwatch b)) in
  (watch_all q p (pending_watch b)).2 = true /\
  dev_ok G (MkEventDevice (<[p := taken (finish_unwatch b)]> (Waiters.books e)) (watch_all q p (pending_watch b)).1
    Idle (event_error e)).
Proof.
  intros He Hi Hb Hfd (r1 & r2 & Hcalm & Hcall & ->) q.
  pose proof (calm_dev e He Hi p b0 r1 Hb Hcalm) as He1. set (b1 := run_req b0 r1) in *.
  assert (fresh_for (set_books e p b1 Idle) r2 = true) as Hfresh.
  { apply fd_free_fresh. intros fd Hr. eapply fd_free_same; [exact Hb|by apply calm_same_slots|].
    apply Hfd. by destruct r2; cbn in Hcall, Hr; simplify_eq. }
  set (b := run_req b1 r2) in *.
  assert (dev_run (set_books e p b1 Idle) [Request p r2; Cancel; Finish; Register] =
    Some (MkEventDevice (<[p := set_waiters (finish_unwatch b) (waiter_pool (finish_unwatch b)) (waiters b) [] []]>
      (Waiters.books e)) (watch_all q p (pending_watch b)).1 Idle
      (event_error e || negb (watch_all q p (pending_watch b)).2))) as Hrun.
  { cbn [dev_run dev_step phase set_books Waiters.books poller event_error mbind option_bind].
    rewrite lookup_insert_eq. cbn [mbind option_bind]. rewrite Hfresh.
    cbn [mbind option_bind phase Waiters.books poller event_error set_books]. rewrite !lookup_insert_eq.
    cbn [mbind option_bind phase Waiters.books poller event_error set_books]. rewrite !lookup_insert_eq.
    cbn [mbind option_bind phase Waiters.books poller event_error set_books]. rewrite !lookup_insert_eq.
    cbn [mbind option_bind phase Waiters.books poller event_error set_books].
    fold b q. change (pending_watch (finish_unwatch b)) with (pending_watch b).
    destruct (watch_all q p (pending_watch b)) as [q' ok]. cbn [fst snd].
    cbn [mbind option_bind]. by rewrite ?insert_insert_eq. }
  apply (dev_run_ok _ G) in Hrun; [|done]. change (foldl note_exit G _) with G in Hrun. pose proof (dv_error _ Hrun) as Herr. cbn in Herr.
  apply orb_false_iff in Herr as [Ee Hok]. apply negb_false_iff in Hok. split; [done|].
  rewrite Hok, Ee in Hrun. cbn [negb orb] in Hrun.
  pose proof (same_dev _ Hrun eq_refl p _ (taken (finish_unwatch b)) ltac:(cbn; apply lookup_insert_eq)) as Hs.
  unfold set_books in Hs. cbn [Waiters.books poller event_error] in Hs. rewrite insert_insert_eq, <- Ee in Hs.
  by apply Hs.
Qed.

Section device.
Context {A : RmAbi} {AOk : RmAbiOk A} {D : Type} `{PoolDriver D} `{!PoolDriverLaws D}.
Context {M : Type} `{GuestMem M} {V : Type} `{Vmm V} `{!VmmLaws V}.
Implicit Types (d : NvrmDevice D V) (env : DeviceEnv (M:=M)) (s : Session (D:=D)).

(** The virtual machine's share of the card and its bound on pinned pages. *)
Context (pr : Profile) (lim : Z).

(** ** Projections *)
Definition vm_view d : Vm := MkVm (n_ledger d) ((fun v => Vram.MkSession (v_books v) 0) <$> n_sessions d).
Definition event_view d : EventDevice :=
  MkEventDevice (v_evb <$> n_sessions d) (n_poller d) Idle (n_error d).

(** All but the poll thread. *)
Record nvrm_base d : Prop := {
  nk_world : world_ok [] (n_world d);
  nk_live p v : n_sessions d !! p = Some v -> v_sid v ∈ live (n_world d);
  nk_fresh n : n ∈ live (n_world d) -> n < n_next d;
  nk_sids p q v w : n_sessions d !! p = Some v -> n_sessions d !! q = Some w -> v_sid v = v_sid w -> p = q;
  nk_vm : vm_ok (vm_view d);
  nk_fb : 0 <= fb_length (profile (n_ledger d));
  nk_mirror p v : n_sessions d !! p = Some v -> FdMirror.mirror_inv (v_mirror v);
  nk_window : Window.device_ok (window_view d);
  nk_polls : poll_ok (n_polls d);
  nk_tables : blen (n_tables d) < 2 ^ 63;
  nk_profile : profile (n_ledger d) = pr;
  nk_limit : pin_limit_of (n_world d) = lim;
}.

(** [G] are the processes whose exit was refused. *)
Definition nvrm_ok (G : gset Z) d : Prop := nvrm_base d /\ (n_error d = false -> dev_ok G (event_view d)).

Lemma nvrm_weaken (G G' : gset Z) d : (forall p, is_Some (n_sessions d !! p) -> p ∈ G -> p ∈ G') ->
  nvrm_ok G d -> nvrm_ok G' d.
Proof.
  intros Hsub [Hd He]. split; [done|]. intros Hne. eapply dev_ok_weaken; [|by apply He].
  intros p Hp. apply Hsub. cbn in Hp. by rewrite lookup_fmap, fmap_is_Some in Hp.
Qed.

Lemma nvrm_more (G G' : gset Z) d : nvrm_ok G d -> nvrm_ok (G ∪ G') d.
Proof. apply nvrm_weaken. set_solver. Qed.

Context {G : gset Z}.

(** ** A session in the device *)
Lemma loaded_inv d p v : nvrm_base d -> n_sessions d !! p = Some v -> session_inv (load d p v).
Proof.
  intros Hd Hv. split; cbn.
  - apply (nk_world _ Hd).
  - by apply (nk_live _ Hd p).
  - apply (nk_fb _ Hd).
  - by apply (nk_mirror _ Hd p).
Qed.

(** The ledger as the session sees it. *)
Lemma vm_stored d p s : Vram.sub_id (vbooks (core s)) = p ->
  vm_view (store d p s) = vm_of (Vram.sessions (vm_view d)) (core s) 0.
Proof. intros <-. unfold vm_view, vm_of, vm_with. cbn. by rewrite fmap_insert. Qed.

Lemma vm_loaded d p v : nvrm_base d -> n_sessions d !! p = Some v ->
  Vram.sub_id (v_books v) = p /\ vm_ok (vm_of (Vram.sessions (vm_view d)) (core (load d p v)) 0).
Proof.
  intros Hd Hv. pose proof (nk_vm _ Hd) as Hok.
  assert (Vram.sessions (vm_view d) !! p = Some (Vram.MkSession (v_books v) 0)) as Hs
    by (cbn; by rewrite lookup_fmap, Hv).
  destruct (proj1 Hok p _ Hs) as [[Hsub _] _]. cbn in Hsub. split; [done|].
  unfold vm_of, vm_with. cbn [core load vbooks s_ledger]. rewrite Hsub. rewrite insert_id; done.
Qed.

Lemma window_stored d p s : Window.device_ok (window_view d) -> maps s = ∅ ->
  Window.device_ok (window_view (store d p s)).
Proof.
  intros (Hw & Hb & Hs) Hm. split; [done|]. split; [done|]. cbn. rewrite fmap_insert.
  by apply map_Forall_insert_2.
Qed.

Lemma session_maps d p v : nvrm_base d -> n_sessions d !! p = Some v -> v_maps v = ∅.
Proof.
  intros Hd Hv. destruct (nk_window _ Hd) as (_ & _ & Hs). cbn in Hs.
  apply (Hs p (MkMapSession (v_mirror v) (v_maps v) (v_blob v))). by rewrite lookup_fmap, Hv.
Qed.

Lemma pool_moves_limit (w w' : World D) : pool_moves (M:=M) w w' -> pin_limit_of w' = pin_limit_of w.
Proof. intros (l & _ & ->). apply limit_run. Qed.

(** What the invariants of a session depend on, but for its events. *)
Definition footprint s := (sid (core s), vbooks (core s), s_ledger (core s), world (core s),
  Prepare.mirror (core s), maps s).

(** A session that moved is put back. *)
Lemma store_base host d p v s s' : nvrm_base d -> n_sessions d !! p = Some v ->
  core_moves (M:=M) host (core (load d p v)) (core s) -> maps s = v_maps v -> footprint s' = footprint s ->
  nvrm_base (store d p s').
Proof.
  intros Hd Hv Hm Hmaps [= F1 F2 F3 F4 F5 F6]. destruct (vm_loaded _ _ _ Hd Hv) as [Hsub Hvm].
  destruct (pool_moves_ok _ _ (cm_world _ _ _ Hm) (nk_world _ Hd)) as [Hw El]. rewrite <- F4 in Hw, El.
  assert (sid (core s') = v_sid v) as Esid by (rewrite F1; apply (cm_sid _ _ _ Hm)).
  assert (forall q u, n_sessions (store d p s') !! q = Some u ->
    (q = p /\ u = private s') \/ (q <> p /\ n_sessions d !! q = Some u)) as Hlook.
  { intros q u. cbn. intros [[<- <-]|[? ?]]%lookup_insert_Some; [by left|right]. split; [|done]. by intros ->. }
  split.
  - done.
  - intros q u Hq. cbn. rewrite El. destruct (Hlook q u Hq) as [[-> ->]|[_ Hq']]; [|by apply (nk_live _ Hd q)].
    cbn. rewrite Esid. by apply (nk_live _ Hd p).
  - intros n. cbn. rewrite El. apply (nk_fresh _ Hd).
  - intros q q' u u' Hq Hq'. destruct (Hlook q u Hq) as [[-> ->]|[Hne Hq1]], (Hlook q' u' Hq') as [[-> ->]|[Hne' Hq2]];
      cbn; rewrite ?Esid; intros Heq; [done|by apply (nk_sids _ Hd p q' v u')|by apply (nk_sids _ Hd q p u v)|].
    by apply (nk_sids _ Hd q q' u u').
  - rewrite vm_stored; [|by rewrite F2, (cm_sub _ _ _ Hm)]. unfold vm_of. rewrite F2, F3.
    by apply (cm_memory _ _ _ Hm).
  - cbn. rewrite F3, (cm_profile _ _ _ Hm). apply (nk_fb _ Hd).
  - intros q u Hq. destruct (Hlook q u Hq) as [[-> ->]|[_ Hq']]; [|by apply (nk_mirror _ Hd q)].
    destruct (cm_mirror _ _ _ Hm) as [Hs _]. pose proof (nk_mirror _ Hd p v Hv) as Hi. cbn in *. rewrite F5.
    clear -Hs Hi. induction Hs; eauto using FdMirror.mirror_step_inv.
  - apply window_stored; [apply (nk_window _ Hd)|]. rewrite F6, Hmaps. by eapply session_maps.
  - apply (nk_polls _ Hd).
  - apply (nk_tables _ Hd).
  - cbn. rewrite F3, (cm_profile _ _ _ Hm). apply (nk_profile _ Hd).
  - cbn. rewrite F4, (pool_moves_limit _ _ (cm_world _ _ _ Hm)). apply (nk_limit _ Hd).
Qed.

Lemma watches_base d ps poller e : nvrm_base d -> poll_ok ps -> nvrm_base (set_watches d ps poller e).
Proof. intros [] Hp. by split. Qed.

(** ** A session that is new *)
Lemma session_for_spec d p s d' : nvrm_ok G d -> Device.session_for (M:=M) d p = Some (s, d') ->
  nvrm_ok G d' /\ exists v, n_sessions d' !! p = Some v /\ s = load d' p v /\ n_error d' = n_error d /\
    n_polls d' = n_polls d /\ n_tables d' = n_tables d.
Proof.
  intros [Hd He]. unfold Device.session_for. destruct (n_sessions d !! p) as [v|] eqn:Hv.
  { intros [= <- <-]. split; [by split|]. exists v. auto 10. }
  destruct (bool_decide _); [done|]. intros [= <- <-].
  assert (states (n_world d) !! n_next d = None) as Hn.
  { destruct (states (n_world d) !! n_next d) eqn:E; [|done]. apply live_elem in E.
    apply (nk_fresh _ Hd) in E. lia. }
  split; [|eexists; split; [cbn; apply lookup_insert_eq|rewrite Hn; auto 10]].
  assert (pool_step (M:=M) (n_world d) (HostPool.NewSession (n_next d)) =
    set_state (n_world d) (n_next d) (MkPoolState [] ∅)) as Hw by (cbn; by rewrite Hn).
  rewrite ?Hw, ?Hn. set (w := set_state (n_world d) (n_next d) (MkPoolState [] ∅)) in *.
  assert (live w = {[n_next d]} ∪ live (n_world d)) as El by (unfold live; cbn; apply dom_insert_L).
  assert (forall q u, n_sessions (store d p (session_new (n_next d) p (n_ledger d) w)) !! q = Some u ->
    (q = p /\ v_sid u = n_next d /\ v_mirror u = FdMirror.Mirror_new) \/ n_sessions d !! q = Some u) as Hlook.
  { intros q u. cbn. intros [[<- <-]|[? ?]]%lookup_insert_Some; [by left|by right]. }
  split; [split; cbn -[store session_new w]|].
  - rewrite <- Hw. by apply pool_step_ok; [|apply (nk_world _ Hd)].
  - intros q u Hq. rewrite El. destruct (Hlook q u Hq) as [(_ & -> & _)|Hq']; [set_solver|].
    pose proof (nk_live _ Hd q u Hq'). set_solver.
  - intros n. rewrite El. intros [->%elem_of_singleton|Hl]%elem_of_union; [lia|]. apply (nk_fresh _ Hd) in Hl. lia.
  - intros q q' u u' Hq Hq' Heq.
    assert (forall r x, n_sessions d !! r = Some x -> v_sid x < n_next d) as Hlt
      by (intros r x Hx; by apply (nk_fresh _ Hd), (nk_live _ Hd r)).
    destruct (Hlook q u Hq) as [(-> & E & _)|Hq1], (Hlook q' u' Hq') as [(-> & E' & _)|Hq2]; try done.
    + specialize (Hlt _ _ Hq2). lia.
    + specialize (Hlt _ _ Hq1). lia.
    + by apply (nk_sids _ Hd q q' u u').
  - eapply (vm_step_ok (vm_view d) (OpNew p)); [apply (nk_vm _ Hd)|].
    unfold vm_step, vm_view, put_session, store. cbn [Vram.sessions n_sessions set_sessions set_shared n_ledger ledger].
    rewrite lookup_fmap, Hv. cbn [fmap option_fmap option_map]. by rewrite fmap_insert.
  - apply (nk_fb _ Hd).
  - intros q u Hq. destruct (Hlook q u Hq) as [(_ & _ & ->)|Hq']; [|by apply (nk_mirror _ Hd q)].
    split; [cbn; unfold u64_max; lia|]. cbn. by intros ? [? ?%lookup_empty_Some].
  - apply (window_stored d p (session_new (n_next d) p (n_ledger d) w)); [apply (nk_window _ Hd)|done].
  - apply (nk_polls _ Hd).
  - apply (nk_tables _ Hd).
  - apply (nk_profile _ Hd).
  - apply (nk_limit _ Hd).
  - intros Hne. eapply (dev_step_ok G (event_view d) (NewSession p)); [by apply He|].
    unfold dev_step, event_view, set_books, store.
    cbn [phase books n_sessions set_sessions set_shared n_error n_poller poller event_error].
    rewrite lookup_fmap, Hv. cbn [fmap option_fmap option_map]. by rewrite fmap_insert.
Qed.

(** What a message may find: the kernel hands out descriptors that are not
    open, and its error numbers are error numbers. *)
Definition env_fits d env : Prop :=
  (host_ok (de_host env) /\ forall e, probe (de_window env) = Some e -> is_errno e) /\
  forall fd, ctl_open (he_prep (de_host env)) = Some fd -> fd_free (event_view d) fd.

Lemma session_for_fits d env p s d' : Device.session_for (M:=M) d p = Some (s, d') -> env_fits d env -> env_fits d' env.
Proof.
  unfold Device.session_for. destruct (n_sessions d !! p) as [v|] eqn:Hv; [by intros [= _ <-]|].
  destruct (bool_decide _); [done|]. intros [= _ <-] [Hh Hf]. split; [done|]. intros fd Hfd q b sl.
  cbn. rewrite lookup_fmap. destruct (decide (q = p)) as [->|Hne].
  - rewrite lookup_insert_eq. cbn. intros [= <-] []%elem_of_nil.
  - rewrite lookup_insert_ne by done. intros Hq. apply (Hf fd Hfd q). cbn. by rewrite lookup_fmap.
Qed.

(** *** Messages of a session *)
Lemma settle_polls_ok env d p v s seq out : nvrm_ok G d -> n_error d = false -> env_fits d env ->
  n_sessions d !! p = Some v -> core_moves (de_host env) (core (load d p v)) (core s) -> maps s = v_maps v ->
  nvrm_ok G (settle_polls env d p s seq out).2 /\
  ((settle_polls env d p s seq out).1 = out \/ (settle_polls env d p s seq out).1 = as_bytes (err_rsp seq EIO)).
Proof.
  intros [Hd He] Hne [_ Hfd] Hv Hm Hmaps. unfold settle_polls.
  set (keep := fun b => set_core (set_polls [] (set_evb (taken b) (core s))) s).
  assert (forall b, nvrm_base (store d p (keep b))) as Hstore by (intros b; by eapply store_base).
  destruct (de_poller env); cbn [negb]; [|split; [|by right]].
  2: { split; [apply watches_base; [apply Hstore|apply (nk_polls _ Hd)]|done]. }
  assert (Waiters.books (event_view d) !! p = Some (v_evb v)) as Hb by (cbn; by rewrite lookup_fmap, Hv).
  destruct (settle_dev _ _ p _ _ (He Hne) eq_refl Hb Hfd (cm_events _ _ _ Hm)) as [Hok Hdev].
  cbn [poller event_view] in Hok, Hdev. set (q := cancel_slots _ _ _) in *.
  destruct (watch_all q p (pending_watch (evb (core s)))) as [q' ok] eqn:Hq. cbn [fst snd] in Hok, Hdev. subst ok.
  cbn [negb]. split; [split|by left].
  - apply watches_base; [apply Hstore|]. set (ps := register_pollables _ _ _ _).
    assert (poll_ok ps) as Hps by (apply (poll_step_ok _ (PollRegister p (de_added env) (pollables s))), (nk_polls _ Hd)).
    clearbody ps. revert ps Hps. induction (pending_ctl_unwatch (evb (core s))) as [|cf l IH]; intros ps Hps; [done|].
    apply IH, unregister_key_ok, Hps.
  - intros _. unfold event_view. cbn. rewrite fmap_insert. exact Hdev.
Qed.

(** A session has handed out every descriptor number there is. *)
Definition exhausted d : Prop := exists p v, n_sessions d !! p = Some v /\ FdMirror.next (v_mirror v) = u64_max.

(** The process that asks to leave. *)
Definition leaver (req : Req) : gset Z := if kind req =? KIND_PROC_GONE then {[guest_proc req]} else ∅.

(** The answer belongs to the request, and every invariant holds after it,
    but for what it says of the waiters of a process that asked to leave and
    is still there. *)
Definition device_answers (req : Req) (o : outcome Empty_set bytes) d' : Prop :=
  match o with
  | Ok r => framed req r /\ nvrm_ok (G ∪ leaver req) d'
  | Err _ => False
  | Panic => exhausted d'
  end.

Lemma err_rsp_framed req e : wf_req req -> is_errno e -> framed req (as_bytes (err_rsp (seq req) e)).
Proof. intros Hr He. pose proof (reply_err_framed req Hr e He) as Hf. unfold reply_err, reply in Hf.
  by rewrite !app_nil_r in Hf. Qed.

Lemma mirror_steps_next m m' : rtc FdMirror.mirror_step m m' -> FdMirror.next m <= FdMirror.next m'.
Proof.
  induction 1 as [m|m1 m2 m3 Hs _ IH]; [lia|]. etransitivity; [|exact IH]. inversion Hs; subst.
  - match goal with H : FdMirror.insert _ _ _ = _ |- _ => apply FdMirror.insert_Ok in H as (_ & _ & ->) end. cbn. lia.
  - cbn. lia.
Qed.

Lemma on_session_ok env d req msg : nvrm_ok G d -> n_error d = false -> env_fits d env -> wf_bytes msg ->
  from_bytes msg = Some req -> kind req <> Kind.to_u32 Kind.MapPrepare ->
  let '(o, (d', _)) := on_session env d req msg in device_answers req o d'.
Proof.
  intros Hd Hne Henv Hw Hm Hk. unfold on_session. set (p := guest_proc req).
  assert (wf_req req) as Hreq by (apply (from_bytes_inv msg req Hw Hm)).
  set (d0 := if kind req =? _ then _ else d).
  assert (nvrm_ok G d0 /\ n_error d0 = false /\ env_fits d0 env /\ n_sessions d0 = n_sessions d) as (Hd0 & Hne0 & Henv0 & Es).
  { subst d0. destruct (_ =? _); [|done]. split; [|done]. destruct Hd as [Hb He]. split; [|done].
    apply watches_base; [done|]. apply unregister_key_ok, (nk_polls _ Hb). }
  destruct (Device.session_for d0 p) as [[s d1]|] eqn:Hs; [|split; [by apply err_rsp_framed|by apply nvrm_more]].
  destruct (session_for_spec _ _ _ _ Hd0 Hs) as (Hd1 & v & Hv & -> & Ee & _).
  pose proof (session_for_fits _ env _ _ _ Hs Henv0) as Henv1.
  pose proof (handle_answered (de_host env) (owner_fd d0 (aux_fd_field_proc req) (aux_fd_field_token req))
    (owner_fd d0 (fd_field_proc req) (fd_field_token req)) msg (load d1 p v) req (proj1 (proj1 Henv)) Hw
    (loaded_inv _ _ _ (proj1 Hd1) Hv) Hm ltac:(by rewrite Kind.kind_from_u32_Some)) as Ha.
  destruct (handle_msg_with _ _ _ _ _) as [o [s' cs]]. destruct Ha as (o' & -> & [Hr Hp Hmv (_ & Hmaps & _)]).
  destruct o' as [r|[]|]; cbn [fmap outcome_fmap].
  2: { exists p, (private s'). split; [cbn; apply lookup_insert_eq|].
    pose proof (mirror_steps_next _ _ (proj1 (cm_mirror _ _ _ Hmv))) as Hle. rewrite (Hp eq_refl) in Hle.
    destruct (store_base _ _ _ _ _ _ (proj1 Hd1) Hv Hmv Hmaps eq_refl) as [_ _ _ _ _ _ Hmir _ _ _ _ _].
    destruct (Hmir p (private s')) as [Hn _]; [cbn; apply lookup_insert_eq|]. cbn in Hn |- *. lia. }
  destruct (settle_polls_ok env d1 p v s' (seq req) r Hd1 ltac:(congruence) Henv1 Hv Hmv Hmaps) as [Hok Hout].
  cbn [default]. destruct (settle_polls _ _ _ _ _ _) as [out d2]. cbn [fst snd] in *. split; [|by apply nvrm_more].
  destruct Hout as [-> | ->]; [done|by apply err_rsp_framed].
Qed.

(** *** The forwarding tables *)
Lemma get_tables_framed d req : nvrm_base d -> wf_req req -> framed req (on_get_tables d req).
Proof.
  intros Hd Hr. pose proof (nk_tables _ Hd) as Ht. unfold on_get_tables.
  destruct (_ <? _) eqn:E; [by apply err_rsp_framed|]. set (chunk := take _ _).
  assert (0 <= blen chunk < 2 ^ 32) as Hc.
  { unfold blen, chunk in *. rewrite length_take, length_drop. unfold MAX_PAYLOAD. lia. }
  assert (wrap32 (blen chunk) = blen chunk) as Ew by (apply wrap32_small; unfold is_u32, u32_max; lia).
  rewrite Ew. pose proof (reply_framed req (Build_Rsp (seq req) 0 (blen (n_tables d)) (blen chunk) 0 0 0) chunk []) as Hf.
  unfold reply in Hf. rewrite app_nil_r in Hf. apply Hf; try done. unfold wf_rsp, wf_req, is_u32, is_u64, u32_max, u64_max in *. cbn.
  assert (0 <= blen (n_tables d)) by (unfold blen; lia).
  split_and!; try done; try lia; apply Hr.
Qed.

(** *** The window *)
Lemma window_base d b m : nvrm_base d ->
  Window.device_ok (Window.MkDevice (Window.sessions (window_view d)) m b (n_error d)) -> nvrm_base (set_window d b m).
Proof. intros [] Hw. by split. Qed.

Lemma map_prepare_rsp wenv (w : Window.Device V) req : (forall e, probe wenv = Some e -> is_errno e) ->
  (exists e, is_errno e /\ (Window.on_map_prepare wenv w req).1 = err_rsp (seq req) e) \/
  exists dv, (Window.on_map_prepare wenv w req).1 = ok_rsp (seq req) (cache_for dv).
Proof.
  intros He. assert (forall e, is_errno e -> exists e', is_errno e' /\ err_rsp (seq req) e = err_rsp (seq req) e') as Herr by eauto.
  unfold Window.on_map_prepare. destruct (Window.session_for _ _) as [[s w1]|]; [|left; by apply Herr].
  assert (forall e, is_errno e -> ret (err_rsp (seq req) e) <> 0) as Hz by (cbn; unfold is_errno; lia).
  unfold session_map_prepare. destruct (FdMirror.raw _ _); [|left; by apply Herr].
  destruct (_ || _); [left; by apply Herr|]. destruct (FdMirror.kind_of _ _); [|left; by apply Herr].
  destruct (negb _); [left; by apply Herr|]. cbn [ret ok_rsp Z.eqb negb].
  destruct (take_pending_map _ _ _) as [[[[fd len] dv]|] s2]; [|left; by apply Herr].
  unfold install. cbn [Window.backend Window.window set_session]. destruct (backend w1); [|left; by apply Herr].
  destruct (negb _); [left; by apply Herr|]. destruct (window_overlaps _ _ _); [left; by apply Herr|].
  destruct (probe wenv) as [e|]; [left; by apply Herr, He|]. destruct (shmem_map _ _ _) as [[] v']; [right; by eexists|].
  left; by apply Herr.
Qed.

Lemma ok_rsp_framed req tok : wf_req req -> is_u64 tok -> framed req (as_bytes (ok_rsp (seq req) tok)).
Proof. intros Hr Ht. pose proof (ok_framed req tok Hr Ht) as Hf. unfold reply in Hf. by rewrite !app_nil_r in Hf. Qed.

Lemma map_release_ok d req : nvrm_ok G d -> wf_req req ->
  framed req (Device.on_map_release d req).1 /\ nvrm_ok G (Device.on_map_release d req).2.
Proof.
  intros [Hd He] Hr. unfold Device.on_map_release, Window.on_map_release.
  destruct (release_window _ _) as [ok w] eqn:Hw.
  destruct (release_window_spec _ _ _ _ (nk_window _ Hd) Hw) as ((W1 & W2 & W3) & Es & _). cbn [fst snd].
  split; [destruct ok; [by apply ok_rsp_framed|by apply err_rsp_framed]|].
  split; [|done]. apply window_base; [done|]. split; [done|]. split; [done|]. cbn in *. by rewrite <- Es.
Qed.

Lemma map_prepare_ok env d req : nvrm_ok G d -> env_fits d env -> wf_req req ->
  framed req (Device.on_map_prepare env d req).1 /\ nvrm_ok G (Device.on_map_prepare env d req).2.
Proof.
  intros Hd Henv Hr. unfold Device.on_map_prepare.
  destruct (Device.session_for _ _) as [[s d1]|] eqn:Hs; [|split; [by apply err_rsp_framed|done]].
  destruct (session_for_spec _ _ _ _ Hd Hs) as ([Hd1 He1] & v & Hv & -> & _).
  assert (0 <= addr req /\ 0 <= map_len req) as [Ha Hl] by (unfold wf_req, is_u64 in Hr; destruct_and! Hr; lia).
  pose proof (on_map_prepare_ok (de_window env) _ req (nk_window _ Hd1) Ha Hl) as (W1 & W2 & W3).
  pose proof (map_prepare_rsp (de_window env) (window_view d1) req (proj2 (proj1 Henv))) as Hrsp.
  destruct (Window.on_map_prepare _ _ _) as [rsp w]. cbn [fst snd] in *. split.
  { destruct Hrsp as [(e & He & ->)|[dv ->]]; [by apply err_rsp_framed|]. apply ok_rsp_framed; [done|]. by destruct dv. }
  set (d2 := set_window d1 _ _).
  assert (nvrm_base d2) as Hd2.
  { apply window_base; [done|]. split; [done|]. split; [done|]. apply (nk_window _ Hd1). }
  destruct (Window.sessions w !! _) as [m|] eqn:Hm; [|by split].
  assert (pending_maps m = ∅) as Hempty by (by apply (W3 _ _ Hm)).
  pose proof (session_maps _ _ _ Hd1 Hv) as Hvm. split.
  - eapply (store_base (de_host env) d2 _ v (load d2 _ v)); [done|done|apply core_moves_refl|done|].
    unfold footprint. cbn. by rewrite Hempty, Hvm.
  - unfold event_view. cbn. rewrite fmap_insert, insert_id; [exact He1|]. by rewrite lookup_fmap, Hv.
Qed.

(** *** A process that is gone *)
Lemma live_end (w : World D) n : live (end_session w n) = live w ∖ {[n]}.
Proof.
  assert (forall l (u : World D), states (retain_all u l) = states u) as Hr
    by (induction l as [|a l IH]; intros u; [done|]; cbn; by rewrite IH).
  unfold end_session. destruct (states w !! n) as [st|] eqn:Hn.
  - destruct (sweep _ _ _) as [[? ?] ?]. unfold live. rewrite Hr. cbn. by rewrite dom_delete_L.
  - unfold live. apply not_elem_of_dom in Hn. set_solver.
Qed.

Lemma drop_profile l b : profile (drop_books l b) = profile l.
Proof. unfold drop_books. cbn. destruct (negb _); [apply release_profile|done]. Qed.

Lemma drop_session_base d p : nvrm_base d -> nvrm_base (drop_session d p).
Proof.
  intros Hd. unfold drop_session. destruct (n_sessions d !! p) as [v|] eqn:Hv; [|done].
  split; cbn.
  - apply end_session_ok, (nk_world _ Hd).
  - intros q u [Hne Hq]%lookup_delete_Some. rewrite live_end. apply elem_of_difference.
    split; [by apply (nk_live _ Hd q)|]. rewrite elem_of_singleton. intros E. apply Hne.
    by apply (nk_sids _ Hd p q v u).
  - intros n. rewrite live_end. intros [Hn _]%elem_of_difference. by apply (nk_fresh _ Hd).
  - intros q q' u u' [_ Hq]%lookup_delete_Some [_ Hq']%lookup_delete_Some. by apply (nk_sids _ Hd).
  - eapply (vm_step_ok (vm_view d) (OpDrop p)); [apply (nk_vm _ Hd)|].
    unfold vm_step, vm_view. cbn [Vram.sessions ledger n_ledger n_sessions set_sessions set_shared].
    rewrite lookup_fmap, Hv. cbn. by rewrite fmap_delete.
  - pose proof (drop_profile (n_ledger d) (v_books v)) as E. cbn in E. rewrite E. apply (nk_fb _ Hd).
  - intros q u [_ Hq]%lookup_delete_Some. by apply (nk_mirror _ Hd q).
  - destruct (nk_window _ Hd) as (W1 & W2 & W3). split; [done|]. split; [done|]. cbn. rewrite fmap_delete.
    by apply map_Forall_delete.
  - apply (nk_polls _ Hd).
  - apply (nk_tables _ Hd).
  - pose proof (drop_profile (n_ledger d) (v_books v)) as E. cbn in E. rewrite E. apply (nk_profile _ Hd).
  - pose proof (limit_step (M:=M) (n_world d) (EndSession (v_sid v))) as E. cbn in E. rewrite E. apply (nk_limit _ Hd).
Qed.

Lemma proc_gone_ok env d req : nvrm_ok G d -> wf_req req ->
  framed req (Device.on_proc_gone env d req).1 /\
  nvrm_ok (G ∪ {[guest_proc req]}) (Device.on_proc_gone env d req).2.
Proof.
  intros [Hd He] Hr. unfold Device.on_proc_gone. set (p := guest_proc req).
  assert (forall u, (n_error d = false -> dev_ok (note_exit G (Waiters.ProcGone p u)) (proc_gone (event_view d) p u)) /\
    note_exit G (Waiters.ProcGone p u) ⊆ G ∪ {[p]}) as Hgone.
  { intros u. split; [|destruct u; cbn; set_solver]. intros Hne. by apply gone_ok; [apply He|]. }
  assert (nvrm_ok (G ∪ {[p]}) d) as Hall by (eapply (nvrm_weaken G); [set_solver|by split]).
  destruct (p =? 0); [split; [by apply err_rsp_framed|done]|].
  destruct (negb (unregister_ok _)).
  { split; [by apply err_rsp_framed|]. split; [|done]. apply watches_base; [done|apply (nk_polls _ Hd)]. }
  set (d1 := set_watches d _ _ _).
  assert (nvrm_base d1) as Hd1 by (apply watches_base; [done|apply unregister_all_ok, (nk_polls _ Hd)]).
  destruct (release_window_of (window_view d1) p) as [ok w] eqn:Hw. unfold release_window_of in Hw.
  pose proof (release_all_spec _ _ _ _ (nk_window _ Hd1) Hw) as ((W1 & W2 & W3) & Es & _).
  set (d2 := set_window d1 _ _).
  assert (nvrm_base d2) as Hd2 by (apply window_base; [done|split; [done|split; [done|]]; cbn in *; by rewrite <- Es]).
  destruct ok; cbn [negb].
  2: { split; [by apply err_rsp_framed|]. split; [done|]. intros Hne.
       destruct (Hgone false) as [Hg Hsub]. eapply dev_ok_weaken; [|by apply Hg]. set_solver. }
  split; [by apply ok_rsp_framed|].
  pose proof (drop_session_base d2 p Hd2) as Hd3. destruct (budget_retry_ok _ (n_world (drop_session d2 p)) (nk_world _ Hd3)) as [Hw3 Hs3].
  split.
  - destruct Hd3 as [B1 B2 B3 B4 B5 B6 B7 B8 B9 B10 B11 B12]. split; try done; cbn.
    + intros q u Hq. rewrite live_budget_retry. by apply (B2 q).
    + intros n. rewrite live_budget_retry. apply B3.
    + by rewrite limit_budget_retry.
  - intros Hne. destruct (Hgone true) as [Hg Hsub].
    assert (n_error d = false) as Hne' by (revert Hne; unfold drop_session; cbn; by destruct (n_sessions d !! p)).
    specialize (Hg Hne'). eapply dev_ok_weaken; [intros q _; apply Hsub|].
    replace (event_view _) with (proc_gone (event_view d) p true); [done|].
    unfold proc_gone, event_view, drop_session. cbn. destruct (n_sessions d !! p) eqn:Hv; cbn; [by rewrite fmap_delete|].
    rewrite delete_id; [done|]. by rewrite lookup_fmap, Hv.
Qed.

(** ** Any message *)
Lemma handle_ok env msg d : nvrm_ok G d -> env_fits d env -> wf_bytes msg ->
  let '(o, (d', _)) := Device.handle env msg d in
  match from_bytes (A:=Req) msg with
  | None => o = Ok (as_bytes (err_rsp 0 EPROTO)) /\ d' = d
  | Some req => device_answers req o d'
  end.
Proof.
  intros Hd Henv Hw. unfold Device.handle. destruct (from_bytes msg) as [req|] eqn:Hm; [|done].
  assert (wf_req req) as Hreq by (apply (from_bytes_inv msg req Hw Hm)).
  destruct (n_error d) eqn:Hne; [split; [by apply err_rsp_framed|by apply nvrm_more]|].
  destruct (kind req =? KIND_GET_TABLES); [split; [apply get_tables_framed; [apply Hd|done]|by apply nvrm_more]|].
  destruct (kind req =? KIND_MAP_RELEASE).
  { pose proof (map_release_ok d req Hd Hreq) as [Hr Hok]. destruct (Device.on_map_release d req) as [r d'].
    split; [done|by apply nvrm_more]. }
  destruct (kind req =? KIND_PROC_GONE) eqn:Hgone.
  { pose proof (proc_gone_ok env d req Hd Hreq) as [Hr Hok]. destruct (Device.on_proc_gone env d req) as [r d'].
    split; [done|]. unfold leaver. by rewrite Hgone. }
  destruct (kind req =? Kind.to_u32 Kind.MapPrepare) eqn:Hk.
  { pose proof (map_prepare_ok env d req Hd Henv Hreq) as [Hr Hok]. destruct (Device.on_map_prepare env d req) as [r d'].
    split; [done|by apply nvrm_more]. }
  apply Z.eqb_neq in Hk. by apply on_session_ok.
Qed.

(** ** Events *)
Lemma put_books_lookup d m p v : n_sessions (put_books d m) !! p = Some v ->
  exists u, n_sessions d !! p = Some u /\ v_sid v = v_sid u /\ v_mirror v = v_mirror u /\ v_books v = v_books u /\
    v_maps v = v_maps u /\ v_blob v = v_blob u.
Proof.
  cbn. rewrite map_lookup_imap. destruct (n_sessions d !! p) as [u|]; [|done]. cbn. intros [= <-].
  exists u. by destruct (m !! p).
Qed.

Lemma put_books_fmap {X} (f : Private -> X) d m :
  (forall v b, f (MkPrivate (v_sid v) (v_mirror v) b (v_polls v) (v_gpu v) (v_books v) (v_proc v) (v_maps v) (v_blob v) (v_logs v)) = f v) ->
  f <$> n_sessions (put_books d m) = f <$> n_sessions d.
Proof.
  intros Hf. apply map_eq. intros p. rewrite !lookup_fmap. cbn. rewrite map_lookup_imap.
  destruct (n_sessions d !! p) as [u|]; [|done]. cbn. destruct (m !! p); [by rewrite Hf|done].
Qed.

Lemma put_books_base d m : nvrm_base d -> nvrm_base (put_books d m).
Proof.
  intros Hd. pose proof (put_books_lookup d m) as Hl.
  split; try apply Hd.
  - intros p v (u & Hu & -> & _)%Hl. by apply (nk_live _ Hd p).
  - intros p q v w (u & Hu & -> & _)%Hl (u' & Hu' & -> & _)%Hl. by apply (nk_sids _ Hd).
  - unfold vm_view. rewrite (put_books_fmap (fun v => Vram.MkSession (v_books v) 0)) by done. apply (nk_vm _ Hd).
  - intros p v (u & Hu & _ & -> & _)%Hl. by apply (nk_mirror _ Hd p).
  - unfold window_view. rewrite (put_books_fmap (fun v => MkMapSession (v_mirror v) (v_maps v) (v_blob v))) by done.
    apply (nk_window _ Hd).
Qed.

Lemma put_books_events d m : (forall p, is_Some (m !! p) -> is_Some (n_sessions d !! p)) ->
  v_evb <$> n_sessions (put_books d m) = m ∪ (v_evb <$> n_sessions d).
Proof.
  intros Hm. apply map_eq. intros p. rewrite lookup_fmap, lookup_union, lookup_fmap. cbn. rewrite map_lookup_imap.
  destruct (n_sessions d !! p) as [u|] eqn:Hu; cbn; destruct (m !! p) as [b|] eqn:Hb; try done.
  destruct (Hm p) as [u Hu']; [by eexists|congruence].
Qed.

Lemma deliver_dom l : forall m, dom (deliver m l).2 = dom m.
Proof.
  induction l as [|f l IH]; intros m; [done|]. cbn. destruct (m !! fired_proc f) as [b|] eqn:Hb; [|apply IH].
  destruct (semsurf_wake b (registration f)) as [r b']. specialize (IH (<[fired_proc f := b']> m)).
  destruct (deliver _ l) as [out m']. cbn in *. rewrite IH, dom_insert_L. apply elem_of_dom_2 in Hb. set_solver.
Qed.

Lemma deliver_fired_ok d : nvrm_ok G d -> nvrm_ok G (deliver_fired d).2.
Proof.
  intros [Hd He]. unfold deliver_fired.
  pose proof (deliver_dom (fired (n_poller d)) (v_evb <$> n_sessions d)) as Hdom.
  destruct (deliver _ _) as [out m] eqn:Hdl. cbn [snd] in *. split.
  - apply put_books_base, watches_base; [done|apply (nk_polls _ Hd)].
  - intros Hne. eapply (dev_step_ok G (event_view d) Deliver); [by apply He|].
    unfold dev_step, event_view. cbn -[put_books]. rewrite Hdl. f_equal. cbn -[put_books]. f_equal.
    rewrite put_books_events.
    + apply map_eq. intros p. rewrite lookup_union. cbn. destruct (m !! p) as [b|] eqn:Hb; [by destruct ((v_evb <$> n_sessions d) !! p)|].
      apply not_elem_of_dom in Hb. rewrite Hdom in Hb. apply not_elem_of_dom in Hb. cbn. by rewrite Hb.
    + intros p Hp%elem_of_dom. rewrite Hdom, dom_fmap in Hp. by apply elem_of_dom.
Qed.

Lemma drain_ctl_ok d id answer : nvrm_ok G d -> nvrm_ok G (drain_ctl d id answer).2.
Proof.
  intros [Hd He]. unfold drain_ctl. destruct (poll_srcs (n_polls d) !! id) as [[p c fd| |]|]; try by split.
  destruct (n_sessions d !! p) as [v|] eqn:Hv.
  2: { split; [|done]. by apply watches_base, unregister_id_ok, (nk_polls _ Hd). }
  destruct (drain_os_events (v_evb v) c answer) as [out b] eqn:Hdr. cbn [snd]. split.
  - apply watches_base; [by apply put_books_base|].
    destruct (event_ctls b !! c); [apply (nk_polls _ Hd)|apply unregister_id_ok, (nk_polls _ Hd)].
  - intros Hne. eapply (dev_step_ok G (event_view d) (DrainCtl p c answer)); [by apply He|].
    unfold dev_step, event_view. cbn -[put_books]. rewrite lookup_fmap, Hv. cbn -[put_books drain_os_events].
    rewrite Hdr. unfold set_books. cbn -[put_books]. do 2 f_equal. rewrite put_books_events.
    + by rewrite insert_union_singleton_l.
    + intros q [x [<- _]%lookup_singleton_Some]. by eexists.
Qed.

(** A round of the poll thread. *)
Definition poll_thread d (paced : Z -> bool) (ready : Watch -> bool) : NvrmDevice D V :=
  set_watches d (n_polls d) (poll_round (n_poller d) paced ready) (n_error d).

Lemma poll_thread_ok d paced ready : nvrm_ok G d -> nvrm_ok G (poll_thread d paced ready).
Proof.
  intros [Hd He]. split; [by apply watches_base, (nk_polls _ Hd)|]. intros Hne.
  by eapply (dev_step_ok G (event_view d) (Poll paced ready)); [apply He|].
Qed.

Lemma set_backend_ok d v : nvrm_ok G d -> mapped v = ∅ -> nvrm_ok G (set_backend d v).
Proof.
  intros [Hd He] Hv. split; [|done]. apply window_base; [done|]. destruct (nk_window _ Hd) as (_ & _ & W3).
  split; [apply window_ok_empty|]. split; [|done]. cbn. by rewrite Hv, fmap_empty.
Qed.

Lemma hang_up_ok d id : nvrm_ok G d -> nvrm_ok G (set_watches d (unregister_id (n_polls d) id) (n_poller d) (n_error d)).
Proof. intros [Hd He]. split; [|done]. by apply watches_base, unregister_id_ok, (nk_polls _ Hd). Qed.

Lemma device_new_base tables dr : blen tables < 2 ^ 63 -> 0 <= fb_length pr -> world_ok [] (world_new lim dr) ->
  nvrm_ok ∅ (Device.device_new (V:=V) tables pr lim dr).
Proof.
  intros Ht Hf Hw. split; [split; try done|].
  - apply poll_new_ok.
  - intros _. unfold event_view. cbn. rewrite fmap_empty. apply dev_new_ok.
Qed.

End device.
