(* ===== verification/Serve.v ===== *)
(** * The two queues of the device (crates/vhost-user-nvrm/src/nvrm.rs)

    Queue 0 carries requests: [process_queue] answers every posted chain.
    Queue 1 carries events: [on_poll] turns what the host signals into
    EVENT_FIRED messages and writes them into the buffers the guest posted.

    The virtqueues are outside: a chain says what its reader and writer give,
    and whether the queue accepted the used entry.  [Wait] is what epoll says. *)
From stdpp Require Import strings.
From S2P Require Import Prelude.
From S2P Require Import Bytes.
From S2P Require Import Wire.
From S2P Require Import SysConsts.
From S2P Require Import NvAbi.
From S2P Require Import SysLayout.
From S2P Require Import Window.
From S2P Require Import Arena.
From S2P Require Import HostPool.
From S2P Require Import Waiters.
From S2P Require Import Prepare.
From S2P Require Import Execute.
From S2P Require Import Request.
From S2P Require Import Session.
From S2P Require Import Polls.
From S2P Require Import Device.

Local Open Scope list_scope.
Local Open Scope Z_scope.

Section serve.
Context {A : RmAbi} {D : Type} `{PoolDriver D} {M : Type} `{GuestMem M} {V : Type} `{Vmm V}.
Implicit Types (d : NvrmDevice D V) (env : DeviceEnv (M:=M)).

(** ** Requests *)

(** A chain of the request queue: what the reader holds, or that it cannot be
    made; how much the writer takes. *)
Record Chain := MkChain {
  c_head : Z; c_reader : option bytes; c_read_ok : bool;
  c_writer : option Z; c_write_ok : bool; c_used_ok : bool }.

Inductive QueueError := NoMemory | BadReader | BadWriter | EventPath | WriteFailed | UsedFailed | SignalFailed.

(** The response, or an error in its place where it does not fit. *)
Definition fit_response (resp : bytes) (room : Z) : bytes :=
  let resp := if room <? blen resp
              then as_bytes (err_rsp (default 0 (rsp_seq <$> from_bytes (A:=Rsp) resp)) EMSGSIZE)
              else resp in
  take (Z.to_nat (Z.min (blen resp) room)) resp.

(** One turn of the loop: what is written into the used chain. *)
Definition serve_chain (env : DeviceEnv) (c : Chain) (d : NvrmDevice D V)
  : outcome QueueError bytes * (NvrmDevice D V * list HostCall) :=
  match c_reader c, c_writer c with
  | None, _ => (Err BadReader, (d, []))
  | Some _, None => (Err BadWriter, (d, []))
  | Some msg, Some room =>
      let '(resp, (d, cs)) :=
        if negb ((WIRE_LEN Req <=? blen msg) && (blen msg <=? MAX_MSG))
        then (Ok (as_bytes (err_rsp 0 EMSGSIZE)), (d, []))
        else if c_read_ok c then handle env msg d
        else (Ok (as_bytes (err_rsp 0 EIO)), (d, [])) in
      match resp with
      | Ok resp =>
          if n_error d then (Err EventPath, (d, cs))
          else
            let out := fit_response resp room in
            if negb (c_write_ok c) then (Err WriteFailed, (d, cs))
            else if negb (c_used_ok c) then (Err UsedFailed, (d, cs))
            else (Ok out, (d, cs))
      | _ => (Panic, (d, cs))
      end
  end.

Fixpoint serve_chains (l : list (DeviceEnv * Chain)) (d : NvrmDevice D V)
  : outcome QueueError (list (Z * bytes)) * (NvrmDevice D V * list HostCall) :=
  match l with
  | [] => (Ok [], (d, []))
  | (env, c) :: l' =>
      match serve_chain env c d with
      | (Ok out, (d, cs)) =>
          match serve_chains l' d with
          | (Ok used, (d, cs')) => (Ok ((c_head c, out) :: used), (d, cs ++ cs'))
          | (r, (d, cs')) => (r, (d, cs ++ cs'))
          end
      | (Err e, (d, cs)) => (Err e, (d, cs))
      | (Panic, (d, cs)) => (Panic, (d, cs))
      end
  end.

(** [mem]: was SET_MEM_TABLE seen; [signal]: did the notification go out. *)
Definition process_queue (mem signal : bool) (l : list (DeviceEnv * Chain)) (d : NvrmDevice D V)
  : outcome QueueError (list (Z * bytes)) * (NvrmDevice D V * list HostCall) :=
  if negb mem then (Err NoMemory, (d, []))
  else match serve_chains l d with
       | (Ok [], x) => (Ok [], x)
       | (Ok used, x) => if signal then (Ok used, x) else (Err SignalFailed, x)
       | r => r
       end.

(** ** Events *)

(** A buffer of the event queue: the writer's room, or that it is unusable. *)
Record Inbuf := MkInbuf { ib_head : Z; ib_room : option Z; ib_write : bool; ib_used : bool }.

Record EventQueue := MkEventQueue {
  q_enabled : bool; q_mem : bool; q_posted : list Inbuf; q_used : list (Z * bytes) }.

(** The event half of [NvrmDevice]. *)
Record EventState := MkEventState {
  ev_seq : Z; ev_delivered : Z; ev_wakes : Z; ev_dropped_noslot : Z; ev_dropped_noqueue : Z;
  ev_announced : bool; evq : EventQueue }.

Definition next_seq (e : EventState) : Z * EventState :=
  let n := wrap32 (ev_seq e + 1) in
  (n, MkEventState n (ev_delivered e) (ev_wakes e) (ev_dropped_noslot e) (ev_dropped_noqueue e) (ev_announced e) (evq e)).

Definition drop_noqueue (e : EventState) : EventState :=
  MkEventState (ev_seq e) (ev_delivered e) (ev_wakes e) (ev_dropped_noslot e) (ev_dropped_noqueue e + 1)
    (ev_announced e) (evq e).
Definition drop_noslot (e : EventState) (q : EventQueue) : EventState :=
  MkEventState (ev_seq e) (ev_delivered e) (ev_wakes e) (ev_dropped_noslot e + 1) (ev_dropped_noqueue e)
    (ev_announced e) q.
Definition add_wake (e : EventState) : EventState :=
  MkEventState (ev_seq e) (ev_delivered e) (ev_wakes e + 1) (ev_dropped_noslot e) (ev_dropped_noqueue e)
    (ev_announced e) (evq e).

(** [push_event]: a buffer that cannot take the message goes back empty. *)
Definition push_event (e : EventState) (req : Req) : bool * EventState :=
  let q := evq e in
  if negb (q_enabled q) then (false, drop_noqueue e)
  else if negb (q_mem q) then (false, drop_noqueue e)
  else
    match q_posted q with
    | [] => (false, drop_noslot e q)
    | b :: l =>
        let after u := MkEventQueue (q_enabled q) (q_mem q) l (q_used q ++ u) in
        let unused := if ib_used b then [(ib_head b, [])] else [] in
        match ib_room b with
        | None => (false, drop_noslot e (after unused))
        | Some room =>
            if room <? WIRE_LEN Req then (false, drop_noslot e (after unused))
            else if negb (ib_write b) then (false, drop_noslot e (after unused))
            else if negb (ib_used b) then (false, drop_noslot e (after []))
            else (true, MkEventState (ev_seq e) (ev_delivered e + 1) (ev_wakes e) (ev_dropped_noslot e)
                          (ev_dropped_noqueue e) true (after [(ib_head b, as_bytes req)]))
        end
    end.

(** EVENT_FIRED, by what it comes from. *)
Definition fired_default (s p cls tok : Z) : Req :=
  let r := Req_default in
  {| seq := s; kind := KIND_EVENT_FIRED; dev_tag := dev_tag r; ioctl_nr := cls; target_token := tok;
     inline_len := inline_len r; aux_len := aux_len r; fd_field_off := fd_field_off r;
     fd_field_proc := fd_field_proc r; fd_field_token := fd_field_token r;
     embedded_ptr_off := embedded_ptr_off r; nested_count := nested_count r; nested := nested r;
     aux_fd_field_off := aux_fd_field_off r; aux_fd_field_proc := aux_fd_field_proc r;
     aux_fd_field_token := aux_fd_field_token r; map_len := map_len r; addr := addr r;
     gpa_run_count := gpa_run_count r; guest_proc := p |}.

(** A client descriptor that became readable. *)
Definition client_fired (p tok s : Z) : Req := fired_default s p NV01_EVENT_OS_EVENT tok.

(** An OS event drained from a control descriptor. *)
Definition os_event_fired (p : Z) (f : EventReg * Z) (s : Z) : Req :=
  let '(r, info) := f in let b := fired_default s p (class r) (er_token r) in
  {| seq := s; kind := kind b; dev_tag := dev_tag b; ioctl_nr := ioctl_nr b; target_token := target_token b;
     inline_len := info; aux_len := NV_OK; fd_field_off := er_client r; fd_field_proc := fd_field_proc b;
     fd_field_token := er_id r; embedded_ptr_off := h_event r; nested_count := notify_index r;
     nested := nested b; aux_fd_field_off := aux_fd_field_off b; aux_fd_field_proc := aux_fd_field_proc b;
     aux_fd_field_token := aux_fd_field_token b; map_len := map_len b; addr := guest_data r;
     gpa_run_count := gpa_run_count b; guest_proc := p |}.

(** A semaphore waiter: hEvent zero, the callback in [addr]. *)
Definition waiter_fired (f : Fired * (Z * Z * Z)) (s : Z) : Req :=
  let '(w, (client, kc, tok)) := f in let p := fired_proc w in
  let b := fired_default s p NV01_EVENT_KERNEL_CALLBACK_EX tok in
  {| seq := s; kind := kind b; dev_tag := dev_tag b; ioctl_nr := ioctl_nr b; target_token := target_token b;
     inline_len := inline_len b; aux_len := NV_OK; fd_field_off := client; fd_field_proc := fd_field_proc b;
     fd_field_token := event_id (registration w); embedded_ptr_off := 0; nested_count := nested_count b;
     nested := nested b; aux_fd_field_off := aux_fd_field_off b; aux_fd_field_proc := aux_fd_field_proc b;
     aux_fd_field_token := aux_fd_field_token b; map_len := map_len b; addr := kc;
     gpa_run_count := gpa_run_count b; guest_proc := p |}.

(** Every message is numbered, then pushed. *)
Fixpoint push_all (e : EventState) (l : list (Z -> Req)) : bool * EventState :=
  match l with
  | [] => (false, e)
  | mk :: l' =>
      let '(s, e) := next_seq e in
      let '(w, e) := push_event e (mk s) in
      let '(ws, e) := push_all e l' in (w || ws, e)
  end.

(** One event of epoll. [r_answer] is what GET_EVENT_DATA says, [r_taken]
    whether the poll thread handed its firings over. *)
Record Ready := MkReady { r_id : Z; r_hup : bool; r_answer : nat -> EventData; r_taken : bool }.

Inductive PollError := NotifyLost | TakeFailed | WaitFailed | EventSignalFailed.

(** The messages an event causes, how many of them are wakes, and the
    device after it. *)
Definition on_ready (r : Ready) (d : NvrmDevice D V)
  : outcome PollError (list (Z -> Req) * Z) * NvrmDevice D V :=
  let src := poll_srcs (n_polls d) !! r_id r in
  if r_hup r then
    match src with
    | Some SrcNotify => (Err NotifyLost, d)
    | _ => (Ok ([], 0), set_watches d (unregister_id (n_polls d) (r_id r)) (n_poller d) (n_error d))
    end
  else
    match src with
    | Some (SrcClient p tok _) => (Ok ([client_fired p tok], 1), d)
    | Some (SrcEventCtl p _ _) =>
        let '(fs, d) := drain_ctl d (r_id r) (r_answer r) in (Ok (map (os_event_fired p) fs, 0), d)
    | Some SrcNotify =>
        if negb (r_taken r) then (Err TakeFailed, d)
        else let '(fs, d) := deliver_fired d in (Ok (map waiter_fired fs, Z.of_nat (length fs)), d)
    | None => (Ok ([], 0), d)
    end.

Fixpoint repeat_wake (n : nat) (e : EventState) : EventState :=
  match n with O => e | S n' => repeat_wake n' (add_wake e) end.

Fixpoint on_readies (l : list Ready) (d : NvrmDevice D V) (e : EventState)
  : outcome PollError bool * (NvrmDevice D V * EventState) :=
  match l with
  | [] => (Ok false, (d, e))
  | r :: l' =>
      match on_ready r d with
      | (Ok (ms, n), d) =>
          let '(w, e) := push_all e ms in
          match on_readies l' d (repeat_wake (Z.to_nat n) e) with
          | (Ok ws, x) => (Ok (w || ws), x)
          | y => y
          end
      | (Err x, d) => (Err x, (d, e))
      | (Panic, d) => (Panic, (d, e))
      end
  end.

Inductive Wait := WaitInterrupted | WaitError | WaitReady (l : list Ready).

(** At most [n] rounds; an empty one is the last. *)
Fixpoint poll_rounds (n : nat) (ws : list Wait) (d : NvrmDevice D V) (e : EventState)
  : outcome PollError bool * (NvrmDevice D V * EventState) :=
  match n, ws with
  | O, _ | _, [] => (Ok false, (d, e))
  | S n', WaitInterrupted :: ws' => poll_rounds n' ws' d e
  | S _, WaitError :: _ => (Err WaitFailed, (d, e))
  | S _, WaitReady [] :: _ => (Ok false, (d, e))
  | S n', WaitReady l :: ws' =>
      match on_readies l d e with
      | (Ok w, (d, e)) =>
          match poll_rounds n' ws' d e with
          | (Ok w', x) => (Ok (w || w'), x)
          | y => y
          end
      | y => y
      end
  end.

(** [on_poll]; the result says whether the guest was signalled. *)
Definition on_poll (ws : list Wait) (signal : bool) (d : NvrmDevice D V) (e : EventState)
  : outcome PollError bool * (NvrmDevice D V * EventState) :=
  match poll_rounds 8 ws d e with
  | (Ok true, x) => if signal then (Ok true, x) else (Err EventSignalFailed, x)
  | r => r
  end.

End serve.
