(* ===== verification/Served.v ===== *)
(** * Serving a virtual machine

    What holds of the device after any sequence of queue kicks, poll rounds,
    event deliveries and reconnections: every posted request is answered by
    one used entry that belongs to it, the shared books stay exact, and every
    event is one message with the next number. *)
From stdpp Require Import strings.
From S2P Require Import Prelude.
From S2P Require Import Bytes.
From S2P Require Import Wire.
From S2P Require Import SysConsts.
From S2P Require Import NvAbi.
From S2P Require Import SysLayout.
From S2P Require Import Mirror.
From S2P Require Import VramPolicy.
From S2P Require Import Vram.
From S2P Require Import Window.
From S2P Require Import Arena.
From S2P Require Import HostPool.
From S2P Require Import Waiters.
From S2P Require Import RequestShape.
From S2P Require Import Prepare.
From S2P Require Import Execute.
From S2P Require Import Executed.
From S2P Require Import Request.
From S2P Require Import Session.
From S2P Require Import Polls.
From S2P Require Import Device.
From S2P Require Import DeviceInv.
From S2P Require Import Serve.

Local Open Scope list_scope.
Local Open Scope Z_scope.

Section served.
Context {A : RmAbi} {AOk : RmAbiOk A} {D : Type} `{PoolDriver D} `{!PoolDriverLaws D}.
Context {M : Type} `{GuestMem M} {V : Type} `{Vmm V} `{!VmmLaws V}.
Implicit Types (d : NvrmDevice D V) (env : DeviceEnv (M:=M)).

(** ** One chain *)

(** What answers a message: a reply to it or, where it cannot be read as a
    request, an error without a number. *)
Definition answers (msg : bytes) (out : bytes) : Prop :=
  (exists req, from_bytes msg = Some req /\ framed req out) \/
  exists e, is_errno e /\ out = as_bytes (err_rsp 0 e).

Lemma err_rsp_wf s e : is_u32 s -> is_errno e -> wf_rsp (err_rsp s e).
Proof.
  unfold is_errno, wf_rsp, is_u32, is_u64, u32_max, u64_max. cbn. intros. split_and!; lia.
Qed.

Lemma err_rsp_len s e : is_u32 s -> is_errno e -> blen (as_bytes (err_rsp s e)) = WIRE_LEN Rsp.
Proof. intros Hs He. apply as_bytes_length. by apply err_rsp_wf. Qed.

Lemma take_room out room : blen out <= room -> take (Z.to_nat (Z.min (blen out) room)) out = out.
Proof. intros Hl. apply take_ge. unfold blen in *. lia. Qed.

Lemma fit_err s e room : is_u32 s -> is_errno e -> WIRE_LEN Rsp <= room ->
  fit_response (as_bytes (err_rsp s e)) room = as_bytes (err_rsp s e).
Proof.
  intros Hs He Hr. pose proof (err_rsp_len s e Hs He) as El. unfold fit_response.
  rewrite (proj2 (Z.ltb_ge _ _)) by lia. apply take_room. lia.
Qed.

Lemma fit_framed req resp room : wf_req req -> framed req resp -> WIRE_LEN Rsp <= room ->
  framed req (fit_response resp room).
Proof.
  intros Hq (rsp & Hrsp & Hwf & Hseq & Hrest) Hr. unfold fit_response. destruct (_ <? _) eqn:E.
  - rewrite Hrsp. cbn [fmap option_fmap option_map default]. rewrite Hseq.
    assert (is_u32 (seq req)) as Hs by apply Hq.
    rewrite take_room by (by rewrite err_rsp_len). by apply err_rsp_framed.
  - bools. rewrite take_room by lia. by exists rsp.
Qed.

(** Processes that have asked to leave and still have a session, after [c]. *)
Definition asked (c : Chain) : gset Z :=
  match c_reader c ≫= from_bytes (A:=Req) with Some req => leaver req | None => ∅ end.

Definition overstay (G : gset Z) (c : Chain) d' : gset Z := (G ∪ asked c) ∩ dom (n_sessions d').

Lemma nvrm_overstay pr lim G c d' req : c_reader c ≫= from_bytes (A:=Req) = Some req ->
  nvrm_ok pr lim (G ∪ leaver req) d' -> nvrm_ok pr lim (overstay G c d') d'.
Proof.
  intros Hc. apply nvrm_weaken. intros p Hp Hin. unfold overstay, asked. rewrite Hc.
  apply elem_of_intersection. split; [done|by apply elem_of_dom].
Qed.

Lemma nvrm_stay pr lim G c d' : nvrm_ok pr lim G d' -> nvrm_ok pr lim (overstay G c d') d'.
Proof.
  apply nvrm_weaken. intros p Hp Hin. unfold overstay. apply elem_of_intersection.
  split; [set_solver|by apply elem_of_dom].
Qed.

Lemma serve_chain_ok pr lim G env c d : nvrm_ok pr lim G d -> env_fits d env ->
  (forall msg, c_reader c = Some msg -> wf_bytes msg) ->
  let '(o, (d', _)) := serve_chain env c d in
  match o with
  | Ok out => nvrm_ok pr lim (overstay G c d') d' /\ exists msg room, c_reader c = Some msg /\ c_writer c = Some room /\
      (WIRE_LEN Rsp <= room -> answers msg out)
  | Err _ => nvrm_ok pr lim (overstay G c d') d'
  | Panic => exhausted d'
  end.
Proof.
  intros Hd Henv Hw. unfold serve_chain. destruct (c_reader c) as [msg|] eqn:Hc; [|by apply nvrm_stay].
  destruct (c_writer c) as [room|]; [|by apply nvrm_stay]. specialize (Hw msg eq_refl).
  set (inner := if negb _ then _ else _).
  assert (let '(o, (d', _)) := inner in match o with
    | Ok resp => nvrm_ok pr lim (overstay G c d') d' /\ (WIRE_LEN Rsp <= room -> answers msg (fit_response resp room))
    | Err _ => False | Panic => exhausted d' end) as Hinner.
  { subst inner. destruct (negb _).
    { split; [by apply nvrm_stay|]. intros Hr. right. exists EMSGSIZE. split; [done|]. by apply fit_err. }
    destruct (c_read_ok c).
    2: { split; [by apply nvrm_stay|]. intros Hr. right. exists EIO. split; [done|]. by apply fit_err. }
    pose proof (handle_ok pr lim env msg d Hd Henv Hw) as Hh.
    destruct (Device.handle env msg d) as [o [d' cs]]. destruct (from_bytes msg) as [req|] eqn:Hm.
    - assert (wf_req req) as Hreq by (apply (from_bytes_inv msg req Hw Hm)).
      destruct o as [r|[]|]; [|done]. destruct Hh as [Hf Hok]. split; [by eapply nvrm_overstay; [rewrite Hc|]|].
      intros Hr. left. exists req. split; [done|]. by apply fit_framed.
    - destruct Hh as [-> ->]. split; [by apply nvrm_stay|]. intros Hr. right. exists EPROTO. split; [done|]. by apply fit_err. }
  destruct inner as [[resp|[]|] [d' cs]]; [|done]. destruct Hinner as [Hok Hans].
  destruct (n_error d'); [done|]. destruct (negb _); [done|]. destruct (negb _); [done|].
  split; [done|]. by exists msg, room.
Qed.

(** ** A kick of the request queue *)

(** Every message finds what [env_fits] says when its turn comes. *)
Fixpoint chains_fit d (l : list (DeviceEnv (M:=M) * Chain)) : Prop :=
  match l with
  | [] => True
  | (env, c) :: l' =>
      env_fits d env /\ (forall msg, c_reader c = Some msg -> wf_bytes msg) /\
      chains_fit (serve_chain env c d).2.1 l'
  end.

(** A used entry for a chain. *)
Definition used_for (ec : DeviceEnv (M:=M) * Chain) (u : Z * bytes) : Prop :=
  u.1 = c_head ec.2 /\ exists msg room, c_reader ec.2 = Some msg /\ c_writer ec.2 = Some room /\
    (WIRE_LEN Rsp <= room -> answers msg u.2).

(** [overstay] after every chain a kick gets to. *)
Fixpoint overstays (G : gset Z) (l : list (DeviceEnv (M:=M) * Chain)) d : gset Z :=
  match l with
  | [] => G
  | (env, c) :: l' =>
      let '(o, (d', _)) := serve_chain env c d in
      match o with Ok _ => overstays (overstay G c d') l' d' | _ => overstay G c d' end
  end.

Lemma serve_chains_ok pr lim l : forall G d, nvrm_ok pr lim G d -> chains_fit d l ->
  let '(o, (d', _)) := serve_chains l d in
  match o with
  | Ok used => nvrm_ok pr lim (overstays G l d) d' /\ Forall2 used_for l used
  | Err _ => nvrm_ok pr lim (overstays G l d) d'
  | Panic => exhausted d'
  end.
Proof.
  induction l as [|[env c] l IH]; intros G d Hd; [by split|]. cbn [chains_fit serve_chains overstays]. intros (Henv & Hw & Hl).
  pose proof (serve_chain_ok pr lim G env c d Hd Henv Hw) as Hc.
  destruct (serve_chain env c d) as [[out|e|] [d' cs]]; try done. destruct Hc as [Hd' Hu].
  specialize (IH _ d' Hd' Hl). destruct (serve_chains l d') as [[used|e|] [d2 cs']]; try done.
  destruct IH as [Hd2 Hus]. split; [done|]. by constructor.
Qed.

Definition kick_overstays (G : gset Z) (mem : bool) (l : list (DeviceEnv (M:=M) * Chain)) d : gset Z :=
  if mem then overstays G l d else G.

Lemma process_queue_ok pr lim G mem sg l d : nvrm_ok pr lim G d -> chains_fit d l ->
  let '(o, (d', _)) := process_queue mem sg l d in
  match o with
  | Ok used => nvrm_ok pr lim (kick_overstays G mem l d) d' /\ Forall2 used_for l used
  | Err _ => nvrm_ok pr lim (kick_overstays G mem l d) d'
  | Panic => exhausted d'
  end.
Proof.
  intros Hd Hl. unfold process_queue. destruct mem; [|done]. cbn [negb kick_overstays].
  pose proof (serve_chains_ok pr lim l G d Hd Hl) as Hs.
  destruct (serve_chains l d) as [[[|u used]|e|] [d' cs]]; try done. destruct sg; [done|]. by destruct Hs.
Qed.

(** ** Events *)
Lemma on_ready_ok pr lim G r d : nvrm_ok pr lim G d -> nvrm_ok pr lim G (on_ready r d).2.
Proof.
  intros Hd. unfold on_ready. destruct (r_hup r).
  { destruct (poll_srcs _ !! _) as [[]|]; cbn [snd]; try done; by apply hang_up_ok. }
  destruct (poll_srcs _ !! _) as [[p c fd|p tok fd|]|]; try done.
  - pose proof (drain_ctl_ok pr lim d (r_id r) (r_answer r) Hd) as Hok. by destruct (drain_ctl _ _ _).
  - destruct (negb _); [done|]. pose proof (deliver_fired_ok pr lim d Hd) as Hok. by destruct (deliver_fired _).
Qed.

Lemma on_readies_ok pr lim G l : forall d e, nvrm_ok pr lim G d -> nvrm_ok pr lim G (on_readies l d e).2.1.
Proof.
  induction l as [|r l IH]; intros d e Hd; [done|]. cbn. pose proof (on_ready_ok pr lim G r d Hd) as Hr.
  destruct (on_ready r d) as [[[ms n]|x|] d']; try done. destruct (push_all e ms) as [w e'].
  specialize (IH d' (repeat_wake (Z.to_nat n) e') Hr). by destruct (on_readies _ _ _) as [[] [? ?]].
Qed.

Lemma poll_rounds_ok pr lim G n : forall ws d e, nvrm_ok pr lim G d -> nvrm_ok pr lim G (poll_rounds n ws d e).2.1.
Proof.
  induction n as [|n IH]; intros ws d e Hd; [done|]. destruct ws as [|[| |l] ws]; try done; [by apply IH|].
  cbn [poll_rounds]. destruct l as [|r l]; [done|]. pose proof (on_readies_ok pr lim G (r :: l) d e Hd) as Hr.
  destruct (on_readies _ _ _) as [[w|x|] [d' e']]; try done.
  specialize (IH ws d' e' Hr). by destruct (poll_rounds _ _ _ _) as [[] [? ?]].
Qed.

Lemma on_poll_ok pr lim G ws sg d e : nvrm_ok pr lim G d -> nvrm_ok pr lim G (on_poll ws sg d e).2.1.
Proof.
  intros Hd. unfold on_poll. pose proof (poll_rounds_ok pr lim G 8 ws d e Hd) as Hr.
  destruct (poll_rounds _ _ _ _) as [[[]|x|] y]; try done. by destruct sg.
Qed.

(** ** Reachable devices *)

(** The set is of the processes that have asked to leave and are still there:
    the VMM refused one of their unmaps. *)
Inductive reach (tables : bytes) (pr : Profile) (lim : Z) (dr : D) : gset Z -> NvrmDevice D V -> EventState -> Prop :=
| reach_new e : reach tables pr lim dr ∅ (Device.device_new tables pr lim dr) e
| reach_kick mem sg l G d e o d' cs :
    reach tables pr lim dr G d e -> chains_fit d l ->
    process_queue mem sg l d = (o, (d', cs)) -> o <> Panic ->
    reach tables pr lim dr (kick_overstays G mem l d) d' e
| reach_thread paced ready G d e :
    reach tables pr lim dr G d e -> reach tables pr lim dr G (poll_thread d paced ready) e
| reach_poll ws sg G d e o d' e' :
    reach tables pr lim dr G d e -> on_poll ws sg d e = (o, (d', e')) -> reach tables pr lim dr G d' e'
| reach_posted G d e e' : reach tables pr lim dr G d e -> reach tables pr lim dr G d e'
| reach_backend v G d e :
    reach tables pr lim dr G d e -> mapped v = ∅ -> reach tables pr lim dr G (set_backend d v) e.

(** The host before any virtual machine is served. *)
Record fresh_host (tables : bytes) (pr : Profile) (lim : Z) (dr : D) : Prop := {
  fh_tables : blen tables < 2 ^ 63; fh_fb : 0 <= fb_length pr; fh_lim : 0 <= lim;
  fh_objects : objects dr = ∅; fh_ranges : ranges dr = ∅ }.

Lemma reach_ok tables pr lim dr G d e : fresh_host tables pr lim dr -> reach tables pr lim dr G d e -> nvrm_ok pr lim G d.
Proof.
  intros [F1 F2 F3 F4 F5]. induction 1 as [e|mem sg l G d e o d' cs _ IH Hfit Hq Ho|paced ready G d e _ IH
    |ws sg G d e o d' e' _ IH Hp|G d e e' _ IH|v G d e _ IH Hv].
  - apply device_new_base; [done|done|]. by apply world_new_ok.
  - pose proof (process_queue_ok pr lim G mem sg l d IH Hfit) as Hk. rewrite Hq in Hk.
    destruct o; [by destruct Hk|done|done].
  - by apply poll_thread_ok.
  - pose proof (on_poll_ok pr lim G ws sg d e IH) as Hk. by rewrite Hp in Hk.
  - done.
  - by apply set_backend_ok.
Qed.

End served.

(** ** What reaches the event queue *)

(** The used entries [u] that [l] leaves behind, [n] of them with a message:
    every message takes one buffer at most, in order. *)
Inductive writes : nat -> list Req -> list (Z * bytes) -> Prop :=
| writes_nil : writes 0 [] []
| writes_drop n r l u : writes n l u -> writes n (r :: l) u
| writes_unused n r l u h : writes n l u -> writes n (r :: l) ((h, []) :: u)
| writes_put n r l u h : writes n l u -> writes (S n) (r :: l) ((h, as_bytes r) :: u).

Lemma writes_app n l u n' l' u' : writes n l u -> writes n' l' u' -> writes (n + n') (l ++ l') (u ++ u').
Proof. intros Hw Hw'. induction Hw; cbn; [done|by constructor..]. Qed.

Lemma writes_le n l u : writes n l u -> (n <= length l)%nat.
Proof. induction 1; cbn; lia. Qed.

Lemma writes_all n l u : writes n l u -> n = length l -> map snd u = map as_bytes l.
Proof.
  induction 1 as [|n r l u Hw _|n r l u h Hw _|n r l u h Hw IH]; intros E; cbn in *; [done|..].
  - apply writes_le in Hw. lia.
  - apply writes_le in Hw. lia.
  - f_equal. apply IH. lia.
Qed.

(** A buffer a message fits in. *)
Definition good_inbuf (b : Inbuf) : Prop :=
  ib_write b = true /\ ib_used b = true /\ exists room, ib_room b = Some room /\ WIRE_LEN Req <= room.

(** The guest has posted room for [n] messages, and [rest]. *)
Definition has_room (q : EventQueue) (n : nat) (rest : list Inbuf) : Prop :=
  q_enabled q = true /\ q_mem q = true /\
  exists bs, q_posted q = bs ++ rest /\ length bs = n /\ Forall good_inbuf bs.

Record pushed (l : list Req) (w : bool) (e e' : EventState) : Prop := {
  pu_flags : q_enabled (evq e') = q_enabled (evq e) /\ q_mem (evq e') = q_mem (evq e);
  pu_written : exists n u, writes n l u /\ q_used (evq e') = q_used (evq e) ++ u /\
    ev_delivered e' = ev_delivered e + Z.of_nat n /\ w = negb (n =? 0)%nat /\
    (forall rest, has_room (evq e) (length l) rest -> n = length l /\ q_posted (evq e') = rest);
  pu_count : ev_delivered e' + ev_dropped_noslot e' + ev_dropped_noqueue e' =
    ev_delivered e + ev_dropped_noslot e + ev_dropped_noqueue e + Z.of_nat (length l);
}.

Lemma pushed_nil e : pushed [] false e e.
Proof.
  split; [done| |cbn; lia]. exists 0%nat, []. rewrite app_nil_r.
  split_and!; [constructor|done|lia|done|]. intros rest (_ & _ & bs & -> & Hl & _).
  by apply nil_length_inv in Hl as ->.
Qed.

Lemma pushed_app l l' w w' e e1 e2 : pushed l w e e1 -> pushed l' w' e1 e2 -> pushed (l ++ l') (w || w') e e2.
Proof.
  intros [[F1 F2] (n & u & W1 & U1 & D1 & S1 & R1) C1] [[G1 G2] (n' & u' & W2 & U2 & D2 & S2 & R2) C2].
  split; [split; congruence| |rewrite length_app; lia].
  exists (n + n')%nat, (u ++ u'). split_and!.
  - by apply writes_app.
  - by rewrite U2, U1, app_assoc.
  - lia.
  - subst w w'. by destruct n, n'.
  - rewrite length_app. intros rest (E1 & E2 & bs & Hp & Hl & Hg).
    rewrite <- (take_drop (length l) bs) in Hp, Hg. apply Forall_app in Hg as [Hg1 Hg2]. rewrite <- app_assoc in Hp.
    destruct (R1 (drop (length l) bs ++ rest)) as [-> Hp1].
    { split_and!; [done|done|]. eexists. split; [exact Hp|]. rewrite length_take. split; [lia|done]. }
    destruct (R2 rest) as [-> Hp2]; [|done].
    split_and!; [congruence|congruence|]. eexists. split; [exact Hp1|]. rewrite length_drop. split; [lia|done].
Qed.

(** A message that was dropped, and a buffer that may have been. *)
Lemma pushed_dropped r e e' u : q_enabled (evq e') = q_enabled (evq e) -> q_mem (evq e') = q_mem (evq e) ->
  q_used (evq e') = q_used (evq e) ++ u -> (u = [] \/ exists h, u = [(h, [])]) -> ev_delivered e' = ev_delivered e ->
  ev_dropped_noslot e' + ev_dropped_noqueue e' = ev_dropped_noslot e + ev_dropped_noqueue e + 1 ->
  (forall rest, ~ has_room (evq e) 1 rest) -> pushed [r] false e e'.
Proof.
  intros E1 E2 Eu Hu Ed Ec Hno. split; [done| |cbn; lia]. exists 0%nat, u. split_and!; [|done|lia|done|].
  - destruct Hu as [->|[h ->]]; by repeat constructor.
  - intros rest Hr. by apply Hno in Hr.
Qed.

Lemma push_event_spec e r : let '(w, e') := push_event e r in pushed [r] w e e' /\ ev_seq e' = ev_seq e.
Proof.
  unfold push_event. destruct (q_enabled (evq e)) eqn:E1; cbn [negb].
  2: { split; [|done]. eapply (pushed_dropped _ _ _ []); cbn; try done; [by rewrite app_nil_r|by left|lia|].
       intros rest (? & _); congruence. }
  destruct (q_mem (evq e)) eqn:E2; cbn [negb].
  2: { split; [|done]. eapply (pushed_dropped _ _ _ []); cbn; try done; [by rewrite app_nil_r|by left|lia|].
       intros rest (_ & ? & _); congruence. }
  destruct (q_posted (evq e)) as [|b l] eqn:Ep.
  { split; [|done]. eapply (pushed_dropped _ _ _ []); cbn; try done; [by rewrite app_nil_r|by left|lia|].
    intros rest (_ & _ & bs & Hb & Hl & _). rewrite Ep in Hb. by destruct bs. }
  set (unused := if ib_used b then _ else _).
  assert (unused = [] \/ exists h, unused = [(h, [])]) as Hun by (subst unused; destruct (ib_used b); [right|left]; eauto).
  assert (forall u, (u = [] \/ exists h, u = [(h, [])]) -> ~ good_inbuf b ->
    pushed [r] false e (drop_noslot e (MkEventQueue true true l (q_used (evq e) ++ u)))) as Hbad.
  { intros u Hu Hb. eapply (pushed_dropped _ _ _ u); cbn; try done; [lia|].
    intros rest (_ & _ & bs & Hbs & Hl & Hg). rewrite Ep in Hbs. destruct bs as [|b' bs]; [done|].
    injection Hbs as <- _. by apply Forall_cons in Hg as [? _]. }
  destruct (ib_room b) as [room|] eqn:Er.
  2: { split; [|done]. apply Hbad; [done|]. intros (_ & _ & room & ? & _). congruence. }
  destruct (room <? WIRE_LEN Req) eqn:Es.
  { split; [|done]. apply Hbad; [done|]. intros (_ & _ & room' & Hr & ?). bools. simplify_eq. lia. }
  destruct (ib_write b) eqn:Ew; cbn [negb]; [|split; [|done]; apply Hbad; [done|]; intros (? & _); congruence].
  destruct (ib_used b) eqn:Eu; cbn [negb]; [|split; [|done]; apply Hbad; [by left|]; intros (_ & ? & _); congruence].
  split; [|done]. split; [cbn; split; congruence| |cbn; lia]. exists 1%nat, [(ib_head b, as_bytes r)].
  cbn [ev_delivered evq q_used q_posted]. split_and!; [apply writes_put, writes_nil|done|lia|done|]. intros rest (_ & _ & bs & Hb & Hl & _). split; [done|].
  rewrite Ep in Hb. destruct bs as [|b' [|]]; try done. by injection Hb.
Qed.

(** Messages get consecutive numbers, modulo 2^32. *)
Definition numbered (s : Z) (ms : list (Z -> Req)) : list Req :=
  imap (fun i mk => mk (wrap32 (s + 1 + Z.of_nat i))) ms.

Lemma wrap32_add s k : wrap32 (wrap32 s + k) = wrap32 (s + k).
Proof. unfold wrap32. by rewrite Zplus_mod_idemp_l. Qed.

Lemma numbered_app s l k : numbered s (l ++ k) = numbered s l ++ numbered (wrap32 (s + Z.of_nat (length l))) k.
Proof.
  unfold numbered. rewrite imap_app. f_equal. apply imap_ext. intros i mk _. cbn. f_equal.
  rewrite <- (Z.add_assoc (wrap32 _)), wrap32_add. f_equal. lia.
Qed.

Lemma numbered_length s ms : length (numbered s ms) = length ms.
Proof. apply length_imap. Qed.

Lemma wrap32_u32 z : is_u32 (wrap32 z).
Proof. unfold is_u32, wrap32, u32_max. pose proof (Z.mod_pos_bound z 4294967296). lia. Qed.

Lemma push_all_spec ms : forall e, is_u32 (ev_seq e) -> let '(w, e') := push_all e ms in
  pushed (numbered (ev_seq e) ms) w e e' /\ ev_seq e' = wrap32 (ev_seq e + Z.of_nat (length ms)).
Proof.
  induction ms as [|mk ms IH]; intros e Hs; cbn [push_all].
  { split; [apply pushed_nil|]. cbn. rewrite Z.add_0_r. by rewrite wrap32_small. }
  destruct (next_seq e) as [s e1] eqn:En. injection En as <- <-.
  set (n := wrap32 (ev_seq e + 1)). set (e1 := MkEventState _ _ _ _ _ _ _).
  pose proof (push_event_spec e1 (mk n)) as Hp. destruct (push_event e1 (mk n)) as [w e2]. destruct Hp as [Hp Es].
  assert (is_u32 n) as Hn by apply wrap32_u32.
  specialize (IH e2 ltac:(rewrite Es; done)). destruct (push_all e2 ms) as [ws e3]. destruct IH as [Hps Es3].
  rewrite Es in Hps, Es3. cbn [ev_seq e1] in Hps, Es3. split.
  - change (mk :: ms) with ([mk] ++ ms). rewrite numbered_app. cbn [length]. change (Z.of_nat 1) with 1. fold n.
    assert (numbered (ev_seq e) [mk] = [mk n]) as -> by (cbn; unfold n; by rewrite Z.add_0_r).
    eapply pushed_app; [|exact Hps]. destruct Hp as [P1 P2 P3]. by split.
  - rewrite Es3. unfold n. rewrite wrap32_add. f_equal. cbn [length]. lia.
Qed.

Lemma wakes_spec n : forall e l w e0, pushed l w e0 e -> pushed l w e0 (repeat_wake n e) /\ ev_seq (repeat_wake n e) = ev_seq e.
Proof.
  induction n as [|n IH]; intros e l w e0 Hp; [done|]. cbn. apply (IH (add_wake e)). destruct Hp as [P1 P2 P3]. by split.
Qed.

Section produced.
Context {D : Type} `{PoolDriver D} {V : Type} `{Vmm V}.
Implicit Types (d : NvrmDevice D V).

(** What a sequence of events means, apart from the queue. *)
Fixpoint produce (l : list Ready) d : list (Z -> Req) * NvrmDevice D V :=
  match l with
  | [] => ([], d)
  | r :: l' =>
      match on_ready r d with
      | (Ok (ms, _), d) => let '(k, d) := produce l' d in (ms ++ k, d)
      | (_, d) => ([], d)
      end
  end.

(** The events that are looked at: eight rounds, up to an empty one. *)
Fixpoint handled (n : nat) (ws : list Wait) : list Ready :=
  match n, ws with
  | S n', WaitInterrupted :: ws' => handled n' ws'
  | S n', WaitReady (r :: l) :: ws' => (r :: l) ++ handled n' ws'
  | _, _ => []
  end.

Definition reported (l : list Ready) d (w : bool) e d' e' : Prop :=
  let ms := (produce l d).1 in
  d' = (produce l d).2 /\ pushed (numbered (ev_seq e) ms) w e e' /\
  ev_seq e' = wrap32 (ev_seq e + Z.of_nat (length ms)).

Lemma reported_seq l d w e d' e' : reported l d w e d' e' -> is_u32 (ev_seq e').
Proof. intros (_ & _ & ->). apply wrap32_u32. Qed.

Lemma on_readies_reported l : forall d e w d' e', is_u32 (ev_seq e) -> on_readies l d e = (Ok w, (d', e')) ->
  reported l d w e d' e' /\ forall k, produce (l ++ k) d = ((produce l d).1 ++ (produce k d').1, (produce k d').2).
Proof.
  induction l as [|r l IH]; intros d e w d' e' Hs.
  { intros [= <- <- <-]. split; [split_and!; [done|apply pushed_nil|]|].
    - cbn. rewrite Z.add_0_r. by rewrite wrap32_small.
    - intros k. cbn. by destruct (produce k d). }
  unfold reported. cbn [on_readies produce app]. destruct (on_ready r d) as [[[ms n]|x|] d1]; [|done|done].
  pose proof (push_all_spec ms e Hs) as Hp. destruct (push_all e ms) as [w1 e1]. destruct Hp as [Hp Es].
  destruct (wakes_spec (Z.to_nat n) e1 _ _ _ Hp) as [Hp1 Es1]. set (e2 := repeat_wake _ _) in *.
  assert (is_u32 (ev_seq e2)) as Hs2 by (rewrite Es1, Es; apply wrap32_u32).
  destruct (on_readies l d1 e2) as [[ws|x|] [d2 e3]] eqn:Hr; [|done|done]. intros [= <- <- <-].
  destruct (IH _ _ _ _ _ Hs2 Hr) as [(E1 & Hp2 & Es3) Happ].
  destruct (produce l d1) as [k d4] eqn:Hk. cbn [fst snd] in *. split.
  - split; [done|]. rewrite numbered_app. split.
    + eapply pushed_app; [exact Hp1|]. by rewrite <- Es, <- Es1.
    + rewrite Es3, Es1, Es, wrap32_add, length_app. f_equal. lia.
  - intros k'. rewrite Happ. cbn [fst snd]. by rewrite app_assoc.
Qed.

Lemma poll_rounds_reported n : forall ws d e w d' e', is_u32 (ev_seq e) ->
  poll_rounds n ws d e = (Ok w, (d', e')) -> reported (handled n ws) d w e d' e'.
Proof.
  assert (forall d e, is_u32 (ev_seq e) -> reported [] d false e d e) as Hnil.
  { intros d e Hs. split; [done|]. split; [apply pushed_nil|]. cbn. rewrite Z.add_0_r. by rewrite wrap32_small. }
  induction n as [|n IH]; intros ws d e w d' e' Hs; [intros [= <- <- <-]; by apply Hnil|].
  destruct ws as [|[| |[|r l]] ws]; cbn [poll_rounds handled]; try done;
    try (intros [= <- <- <-]; by apply Hnil); [by apply IH|].
  destruct (on_readies (r :: l) d e) as [[w1|x|] [d1 e1]] eqn:Hr; [|done|done].
  destruct (on_readies_reported _ _ _ _ _ _ Hs Hr) as [Hrep Happ].
  pose proof (reported_seq _ _ _ _ _ _ Hrep) as Hs1. destruct Hrep as (-> & Hp & Es).
  destruct (poll_rounds n ws _ e1) as [[w2|x|] [d2 e2]] eqn:Hr2; [|done|done]. intros [= <- <- <-].
  destruct (IH _ _ _ _ _ _ Hs1 Hr2) as (E2 & Hp2 & Es2). unfold reported. rewrite Happ. cbn [fst snd].
  split; [done|]. rewrite numbered_app. split.
  - eapply pushed_app; [exact Hp|]. by rewrite <- Es.
  - rewrite Es2, Es, wrap32_add, length_app. f_equal. lia.
Qed.

End produced.

(** ** Theorems *)
Lemma gsum_ext {X} (f g : X -> Z) (m : gmap Z X) : (forall x, f x = g x) -> gsum f m = gsum g m.
Proof.
  intros Hfg. induction m as [|k x m Hk IH] using map_ind; [done|]. by rewrite !gsum_fresh, Hfg, IH by done.
Qed.

Lemma gsum_fmap {X Y} (f : Y -> Z) (g : X -> Y) (m : gmap Z X) : gsum f (g <$> m) = gsum (fun x => f (g x)) m.
Proof.
  induction m as [|k x m Hk IH] using map_ind; [by rewrite fmap_empty|].
  rewrite fmap_insert, !gsum_fresh; [by rewrite IH|done|by rewrite lookup_fmap, Hk].
Qed.

Section theorems.
Context {A : RmAbi} {AOk : RmAbiOk A} {D : Type} `{PoolDriver D} `{!PoolDriverLaws D}.
Context {M : Type} `{GuestMem M} {V : Type} `{Vmm V} `{!VmmLaws V}.
Context (tables : bytes) (pr : Profile) (lim : Z) (dr : D) (G : gset Z) (d : NvrmDevice D V) (e : EventState).
Context (Hhost : fresh_host tables pr lim dr) (Hreach : reach (M:=M) tables pr lim dr G d e).

(** C2: Every request posted is answered by exactly one used entry.  Whatever
    bytes the guest posts, and in whatever state earlier traffic has left the
    device, a kick that completes has used every chain once and in order, and
    each entry whose buffer holds a response header is a well-formed response
    carrying that request's sequence number, or an error numbered zero where
    the bytes are no request.  The backend gives out no answer without this
    only when the ring, the event path or the poll thread failed, and stops
    only when a session has issued all 2^64-1 descriptor numbers. *)
Theorem requests_answered mem sg l o d' cs : chains_fit d l -> process_queue mem sg l d = (o, (d', cs)) ->
  match o with
  | Ok used => Forall2 used_for l used
  | Err _ => True
  | Panic => exhausted d'
  end.
Proof.
  intros Hl Hq. pose proof (process_queue_ok pr lim G mem sg l d (reach_ok _ _ _ _ _ _ _ Hhost Hreach) Hl) as Hk.
  rewrite Hq in Hk. by destruct o; [destruct Hk| |].
Qed.


(** C19: A firing of the poll thread becomes one message for the callback it
    was armed for.  When the thread's descriptor is readable on a reachable
    device, every queued firing yields one EVENT_FIRED message, in order,
    with the client, callback and token of the waiter armed under that very
    registration, hEvent zero, and nothing stays queued. *)
Theorem waiter_messages id answer o d' : n_error d = false -> poll_srcs (n_polls d) !! id = Some SrcNotify ->
  on_ready (MkReady id false answer true) d = (o, d') ->
  fired (n_poller d') = [] /\ exists fs, o = Ok (map waiter_fired fs, Z.of_nat (length fs)) /\
    map fst fs = fired (n_poller d) /\
    Forall (fun fc => wakes (v_evb <$> n_sessions d) fc.1 fc.2) fs.
Proof.
  intros Hne Hid Ho. destruct (reach_ok _ _ _ _ _ _ _ Hhost Hreach) as [_ He]. specialize (He Hne).
  destruct (deliver_ok (G:=G) (fired (n_poller d)) (v_evb <$> n_sessions d) (watches (n_poller d)) (n_error d)) as (Hm & Hall & _).
  { revert He. unfold event_view. by destruct (n_poller d). }
  unfold on_ready in Ho. cbn [r_hup r_id r_taken negb] in Ho. rewrite Hid in Ho. unfold deliver_fired in Ho.
  destruct (deliver _ _) as [fs m]. injection Ho as <- <-. split; [done|]. by exists fs.
Qed.

End theorems.

(** C18: Events reach the guest in order, each with the next number.  A poll
    pass that completes has looked at the events of at most eight rounds; the
    messages they stand for are numbered consecutively modulo 2^32, each is
    written to at most one posted buffer, in order, as the whole message or
    not at all, what is delivered and what is dropped add up, the guest is
    signalled exactly if something was written, and where the guest has
    posted enough buffers nothing is lost. *)
Theorem events_in_order {D} `{PoolDriver D} {V} `{Vmm V} (d : NvrmDevice D V) e ws sg w d' e' :
  is_u32 (ev_seq e) -> on_poll ws sg d e = (Ok w, (d', e')) ->
  let ms := (produce (handled 8 ws) d).1 in let l := numbered (ev_seq e) ms in
  d' = (produce (handled 8 ws) d).2 /\ ev_seq e' = wrap32 (ev_seq e + Z.of_nat (length ms)) /\
  ev_delivered e' + ev_dropped_noslot e' + ev_dropped_noqueue e' =
    ev_delivered e + ev_dropped_noslot e + ev_dropped_noqueue e + Z.of_nat (length ms) /\
  exists n u, writes n l u /\ q_used (evq e') = q_used (evq e) ++ u /\
    ev_delivered e' = ev_delivered e + Z.of_nat n /\ w = negb (n =? 0)%nat /\
    forall rest, has_room (evq e) (length ms) rest -> map snd u = map as_bytes l /\ q_posted (evq e') = rest.
Proof.
  intros Hs Hp ms l. assert (poll_rounds 8 ws d e = (Ok w, (d', e'))) as Hr.
  { revert Hp. unfold on_poll. destruct (poll_rounds 8 ws d e) as [[[]|x|] y]; try done. by destruct sg. }
  destruct (poll_rounds_reported 8 ws d e w d' e' Hs Hr) as (E1 & [_ (n & u & Hw & Hu & Hd & Hsg & Hroom) Hc] & Es).
  fold ms l in E1, Hw, Hroom, Hc, Es. assert (length l = length ms) as El by apply numbered_length.
  rewrite El in Hroom, Hc. split_and!; try done. exists n, u. split_and!; try done.
  intros rest Hrest. destruct (Hroom rest Hrest) as [Hn Hq]. split; [|done].
  eapply writes_all; [exact Hw|congruence].
Qed.

(** ** Examples *)
Lemma fd_free_fds e fd : existsb (Z.eqb fd) (open_fds e) = false -> fd_free e fd.
Proof.
  intros Hf p b sl Hp Hsl <-. apply not_true_iff_false in Hf. apply Hf, existsb_exists. exists (ctl sl).
  split; [|apply Z.eqb_refl]. unfold open_fds. apply in_concat. exists (map ctl (slots b)). split.
  - apply in_map_iff. exists (p, b). split; [done|]. by apply list_elem_of_In, elem_of_map_to_list.
  - apply in_map_iff. exists sl. split; [done|]. by apply list_elem_of_In.
Qed.

Definition example_host (fd : option Z) : DeviceEnv (M:=RegionList) :=
  MkDeviceEnv
    (MkHostEnv
       (MkPrepEnv 0x5000 None None (fun _ => false) (Some [MkRegion 0x10000000 0x800000 (Some 0)])
          4096 0x10000000 (MkArenaEnv true (fun _ => true)) 0x700000 fd true (Some 41) true false)
       example_exec (fun _ n => Some (50 + n)) false false)
    (MkEnv true None true) true (fun _ => true).

Lemma example_host_ok fd : host_ok (de_host (example_host fd)).
Proof. split; [split; [split|split]; vm_compute; done|done|apply example_exec_ok]. Qed.

Definition message (sq k tag nr tok inl ax emb len off proc : Z) (payload : bytes) : bytes :=
  as_bytes {| seq := sq; kind := k; dev_tag := tag; ioctl_nr := nr; target_token := tok; inline_len := inl;
    aux_len := ax; fd_field_off := NONE_U32; fd_field_proc := NONE_U32; fd_field_token := NONE_U64;
    embedded_ptr_off := emb; nested_count := 0; nested := replicate MAX_NESTED NestedDesc_default;
    aux_fd_field_off := NONE_U32; aux_fd_field_proc := NONE_U32; aux_fd_field_token := NONE_U64;
    map_len := len; addr := off; gpa_run_count := 0; guest_proc := proc |} ++ payload.

Definition posted (head : Z) (msg : bytes) : Chain := MkChain head (Some msg) true (Some 4096) true true.

(** Process 7 opens the control node and a GPU node, places 4 KiB of it in the
    window, arms a waiter, and sends three bytes. *)
Definition wait_payload : bytes :=
  foldl (fun b (ow : Z * bytes) => put_range b ow.1 ow.2) (replicate 64 0)
    [(0, le_bytes 4 0xc1d00001); (8, le_bytes 4 NV_SEMAPHORE_SURFACE_CTRL_CMD_REGISTER_WAITER);
     (16, le_bytes 8 0x7f0000001000); (24, le_bytes 4 32); (56, le_bytes 8 0xffff888000001000)].

Definition example_kick : list (DeviceEnv (M:=RegionList) * Chain) :=
  [(example_host None, posted 0 (message 1 (Kind.to_u32 Kind.Open) 0 0 0 0 0 NONE_U32 0 0 7 []));
   (example_host None, posted 1 (message 2 (Kind.to_u32 Kind.Open) 1 0 0 0 0 NONE_U32 0 0 7 []));
   (example_host None, posted 2 (message 3 (Kind.to_u32 Kind.MapPrepare) 1 0 2 0 0 NONE_U32 4096 8192 7 []));
   (example_host (Some 40), posted 3 (message 4 (Kind.to_u32 Kind.Ioctl) 0 NV_ESC_RM_CONTROL 1 32 32 16 0 0 7 wait_payload));
   (example_host None, posted 4 [1; 2; 3])].

Definition example_start : NvrmDevice TableDriver TableVmm :=
  set_backend (Device.device_new (replicate 100 9) (accounting 0x1000000) 0x8000 (example_driver false)) (∅ : TableVmm).

Lemma example_fits (d : NvrmDevice TableDriver TableVmm) fd :
  match fd with Some x => existsb (Z.eqb x) (open_fds (event_view d)) | None => false end = false ->
  env_fits d (example_host fd).
Proof.
  intros Hf. split; [split; [apply example_host_ok|done]|]. cbn. intros x ->. by apply fd_free_fds.
Qed.

Lemma posted_wf head m : wf_bytesb m = true -> forall msg, c_reader (posted head m) = Some msg -> wf_bytes msg.
Proof. intros Hm msg [= <-]. by apply wf_bytesb_spec. Qed.

Lemma example_kick_fits : chains_fit (A:=V615) example_start example_kick.
Proof.
  unfold example_kick. cbn [chains_fit]. split_and!; try exact I;
    first [apply posted_wf; vm_compute; reflexivity|apply example_fits; vm_compute; reflexivity].
Qed.

Definition example_end : NvrmDevice TableDriver TableVmm :=
  (process_queue (A:=V615) true true example_kick example_start).2.1.

Lemma example_fresh : fresh_host (replicate 100 9) (accounting 0x1000000) 0x8000 (example_driver false).
Proof. split; vm_compute; done. Qed.

Definition idle_events : EventState := MkEventState 0 0 0 0 0 false (MkEventQueue true true [] []).

Lemma example_start_reached : reach (A:=V615) (M:=RegionList) (replicate 100 9) (accounting 0x1000000) 0x8000
  (example_driver false) ∅ example_start idle_events.
Proof. apply reach_backend; [apply reach_new|reflexivity]. Qed.

Definition kick_used : list (Z * bytes) :=
  match (process_queue (A:=V615) true true example_kick example_start).1 with Ok u => u | _ => [] end.

Lemma example_kick_done : process_queue (A:=V615) true true example_kick example_start =
  (Ok kick_used, (example_end, (process_queue (A:=V615) true true example_kick example_start).2.2)).
Proof. vm_compute. reflexivity. Qed.

Lemma example_end_reached : reach (A:=V615) (M:=RegionList) (replicate 100 9) (accounting 0x1000000) 0x8000
  (example_driver false) ∅ example_end idle_events.
Proof.
  assert (kick_overstays (A:=V615) ∅ true example_kick example_start = ∅) as <- by (vm_compute; reflexivity).
  eapply reach_kick; [apply example_start_reached|apply example_kick_fits|apply example_kick_done|done].
Qed.

Lemma requests_answered_witness : map fst kick_used = [0; 1; 2; 3; 4] /\ Forall2 used_for example_kick kick_used.
Proof.
  split; [vm_compute; reflexivity|].
  exact (requests_answered (A:=V615) _ _ _ _ _ _ _ example_fresh example_start_reached true true example_kick
    (Ok kick_used) _ _ example_kick_fits example_kick_done).
Defined.


(** The semaphore is signalled. *)
Definition example_fired : NvrmDevice TableDriver TableVmm := poll_thread example_end (fun _ => false) (fun _ => true).

Definition notify_ready : Ready := MkReady 1 false (fun _ => CallFailed) true.

Lemma waiter_messages_witness : exists fs,
  (on_ready notify_ready example_fired).1 = Ok (map waiter_fired fs, Z.of_nat (length fs)) /\
  map fst fs = [MkFired 7 (MkReg 1 1)] /\ Forall (fun fc => wakes (v_evb <$> n_sessions example_fired) fc.1 fc.2) fs.
Proof.
  assert (reach (A:=V615) (M:=RegionList) (replicate 100 9) (accounting 0x1000000) 0x8000
    (example_driver false) ∅ example_fired idle_events) as Hr by apply reach_thread, example_end_reached.
  destruct (waiter_messages (A:=V615) _ _ _ _ _ _ _ example_fresh Hr 1 (fun _ => CallFailed)
    (on_ready notify_ready example_fired).1 (on_ready notify_ready example_fired).2) as [_ (fs & Ho & Hf & Hw)].
  - vm_compute. reflexivity.
  - vm_compute. reflexivity.
  - apply surjective_pairing.
  - exists fs. split; [exact Ho|]. split; [|exact Hw]. rewrite Hf. vm_compute. reflexivity.
Defined.

(** The number after 2^32-1 is zero. *)
Definition one_buffer : EventState :=
  MkEventState 4294967295 0 0 0 0 false (MkEventQueue true true [MkInbuf 3 (Some 4096) true true] []).

Definition example_waits : list Wait := [WaitReady [notify_ready]; WaitReady []].
Definition poll_pass := on_poll example_waits true example_fired one_buffer.

Lemma seq_u32 : is_u32 (ev_seq one_buffer).
Proof. vm_compute. split; congruence. Qed.

Lemma example_pass : on_poll example_waits true example_fired one_buffer = (Ok true, (poll_pass.2.1, poll_pass.2.2)).
Proof. vm_compute. reflexivity. Qed.

Lemma events_in_order_witness : exists n u,
  writes n (numbered (ev_seq one_buffer) (produce (handled 8 example_waits) example_fired).1) u /\
  q_used (evq poll_pass.2.2) = q_used (evq one_buffer) ++ u /\
  map fst (q_used (evq poll_pass.2.2)) = [3] /\ ev_seq poll_pass.2.2 = 0.
Proof.
  pose proof (events_in_order example_fired one_buffer example_waits true
    true poll_pass.2.1 poll_pass.2.2 seq_u32 example_pass) as Hx.
  destruct Hx as (_ & _ & _ & n & u & Hw & Hu & _).
  exists n, u. split; [exact Hw|]. split; [exact Hu|]. split; vm_compute; reflexivity.
Defined.
