(* ===== verification/Fetch.v ===== *)
(** * The guest fetches the tables (virtio_nvrm.c, nvrm_fetch_tables)

    The guest asks for the stream chunk by chunk and hands it to the parser.
    The loop ends whatever the host answers; against a device that serves the
    tables [Tables.build] made, whatever else that device does in between, it
    ends with those tables. *)
From stdpp Require Import strings.
From S2P Require Import Prelude.
From S2P Require Import Bytes.
From S2P Require Import Wire.
From S2P Require Import SysConsts.
From S2P Require Import NvAbi.
From S2P Require Import SysLayout.
From S2P Require Import Xlate.
From S2P Require Import Tables.
From S2P Require Import VramPolicy.
From S2P Require Import Vram.
From S2P Require Import Window.
From S2P Require Import Arena.
From S2P Require Import HostPool.
From S2P Require Import Waiters.
From S2P Require Import Prepare.
From S2P Require Import Execute.
From S2P Require Import Request.
From S2P Require Import Session.
From S2P Require Import Polls.
From S2P Require Import Device.
From S2P Require Import DeviceInv.
From S2P Require Import Serve.
From S2P Require Import Served.

Local Open Scope list_scope.
Local Open Scope Z_scope.

(** ** The loop of the guest *)
Definition CHUNK : Z := 4096.

(** [nvrm_req_init] with what the fetch sets. *)
Definition get_tables_req (s got : Z) : Req :=
  let r := Req_default in
  {| seq := s; kind := KIND_GET_TABLES; dev_tag := dev_tag r; ioctl_nr := ioctl_nr r; target_token := target_token r;
     inline_len := inline_len r; aux_len := aux_len r; fd_field_off := fd_field_off r;
     fd_field_proc := fd_field_proc r; fd_field_token := fd_field_token r;
     embedded_ptr_off := embedded_ptr_off r; nested_count := nested_count r; nested := nested r;
     aux_fd_field_off := aux_fd_field_off r; aux_fd_field_proc := aux_fd_field_proc r;
     aux_fd_field_token := aux_fd_field_token r; map_len := CHUNK; addr := got;
     gpa_run_count := gpa_run_count r; guest_proc := 0 |}.

Inductive FetchError := NoAnswer | BadLength | Rejected | ImplausibleTotal | NoMemory | UnusableChunk | TablesRejected (w : Why).

(** One turn: the total and the stream so far. [rsp] is what the transport
    brought back, if anything; [room] is whether kvzalloc finds memory for the
    stream once its length is known. *)
Definition fetch_chunk (room : bool) (rsp : option bytes) (total : Z) (blob : bytes) : outcome FetchError (Z * bytes) :=
  rsp ← ok_or rsp NoAnswer;
  fail_if! (blen rsp <? WIRE_LEN Rsp) || (WIRE_LEN Rsp + CHUNK <? blen rsp) with BadLength;
  h ← ok_or (from_bytes (A:=Rsp) rsp) BadLength;
  fail_if! negb (ret h =? 0) with Rejected;
  total ←
    (if total =? 0 then
       fail_if! (Wire.token h <? WIRE_LEN TableHdr) || (SZ_1M <? Wire.token h) with ImplausibleTotal;
       fail_if! negb room with NoMemory; Ok (Wire.token h)
     else Ok total);
  let n := rsp_inline_len h in
  fail_if! (n =? 0) || (total <? blen blob + n) || (blen rsp <? WIRE_LEN Rsp + n) with UnusableChunk;
  Ok (total, blob ++ take (Z.to_nat n) (drop (Z.to_nat (WIRE_LEN Rsp)) rsp)).

Section fetch.
(** The [i]th request goes out with number [sq i]; [ask i] is its answer. *)
Context (room : bool) (ask : nat -> bytes -> option bytes) (sq : nat -> Z).

Fixpoint fetch_loop (fuel i : nat) (total : Z) (blob : bytes) : option (outcome FetchError bytes) :=
  match fuel with
  | O => None
  | S fuel =>
      match fetch_chunk room (ask i (as_bytes (get_tables_req (sq i) (blen blob)))) total blob with
      | Ok (total, blob) => if blen blob <? total then fetch_loop fuel (S i) total blob else Some (Ok blob)
      | Err e => Some (Err e)
      | Panic => Some Panic
      end
  end.

Definition nvrm_fetch_tables (fuel : nat) : option (outcome FetchError GuestTables) :=
  r ← fetch_loop fuel 0 0 [];
  Some (blob ← r; map_err TablesRejected (nvrm_tables_parse blob)).

(** ** It ends *)
Hypothesis Hbytes : forall i m r, ask i m = Some r -> wf_bytes r.

Lemma fetch_chunk_grows rsp total blob total' blob' : (forall r, rsp = Some r -> wf_bytes r) ->
  (total = 0 \/ blen blob <= total <= SZ_1M) ->
  fetch_chunk room rsp total blob = Ok (total', blob') -> blen blob < blen blob' <= total' /\ 0 < total' <= SZ_1M.
Proof.
  intros Hw Ht. unfold fetch_chunk. destruct rsp as [rsp|]; [|done]. cbn [ok_or mbind outcome_bind].
  destruct (_ || _) eqn:Hl; [done|]. destruct (from_bytes rsp) as [h|] eqn:Hh; [|done]. cbn [ok_or mbind outcome_bind].
  destruct (from_bytes_inv rsp h (Hw rsp eq_refl) Hh) as [Hwf _].
  assert (0 <= rsp_inline_len h) as Hn by (cbn in Hwf; unfold wf_rsp, is_u32 in Hwf; tauto).
  destruct (negb (ret h =? 0)); [done|].
  match goal with |- (?m ≫= _) = _ -> _ => destruct m as [tot| |] eqn:Htot; try done end. cbn [mbind outcome_bind].
  destruct (_ || (blen rsp <? _)) eqn:Hc; [done|]. rewrite !orb_false_iff in Hc. destruct Hc as [[C1 C2] C3].
  apply Z.eqb_neq in C1. apply Z.ltb_ge in C2, C3. intros [= <- <-].
  assert (0 < tot <= SZ_1M) as Hb.
  { destruct (total =? 0) eqn:E; bools; [|injection Htot as <-; destruct Ht; [done|]; pose proof (blen_nonneg blob); lia].
    destruct (_ || (SZ_1M <? _)) eqn:Hr in Htot; [done|]. destruct (negb room); [done|]. injection Htot as <-. rewrite orb_false_iff in Hr.
    destruct Hr as [R1 R2]. apply Z.ltb_ge in R1, R2. change (WIRE_LEN TableHdr) with 96 in R1. lia. }
  rewrite blen_app. assert (blen (take (Z.to_nat (rsp_inline_len h)) (drop (Z.to_nat (WIRE_LEN Rsp)) rsp)) = rsp_inline_len h) as ->.
  { unfold blen in *. rewrite length_take, length_drop. assert (0 <= WIRE_LEN Rsp) by (unfold WIRE_LEN; lia). lia. }
  lia.
Qed.

Lemma fetch_loop_ends fuel : forall i total blob, (total = 0 \/ blen blob < total <= SZ_1M) ->
  (Z.to_nat (SZ_1M - blen blob) < fuel)%nat -> is_Some (fetch_loop fuel i total blob).
Proof.
  induction fuel as [|fuel IH]; intros i total blob Ht Hf; [lia|]. cbn [fetch_loop].
  destruct (fetch_chunk _ _ _ _) as [[total' blob']|e|] eqn:Hc; [|by eexists..].
  apply fetch_chunk_grows in Hc as [G1 G2]; [|intros r; apply Hbytes|lia].
  destruct (_ <? _) eqn:E; [|by eexists]. apply Z.ltb_lt in E. apply IH; lia.
Qed.

End fetch.

(** ** The device serves what it was given *)
Section tables.
Context {A : RmAbi} {D : Type} `{PoolDriver D}.
Context {M : Type} `{GuestMem M} {V : Type} `{Vmm V}.
Implicit Types (d : NvrmDevice D V) (env : DeviceEnv (M:=M)).

Lemma settle_tables env d p s q out : n_tables (settle_polls env d p s q out).2 = n_tables d.
Proof.
  unfold settle_polls. destruct (negb _); [done|]. destruct (watch_all _ _ _) as [poller ok].
  by destruct (negb ok).
Qed.

Lemma session_for_tables d p s d' : Device.session_for (M:=M) d p = Some (s, d') -> n_tables d' = n_tables d.
Proof.
  unfold Device.session_for. destruct (n_sessions d !! p); [by intros [= _ <-]|].
  destruct (bool_decide _); [done|]. by intros [= _ <-].
Qed.

Lemma handle_tables env msg d : n_tables (handle env msg d).2.1 = n_tables d.
Proof.
  unfold handle. destruct (from_bytes msg) as [req|]; [|done]. destruct (n_error d); [done|].
  destruct (kind req =? KIND_GET_TABLES); [done|].
  destruct (kind req =? KIND_MAP_RELEASE).
  { unfold on_map_release. by destruct (Window.on_map_release _ _). }
  destruct (kind req =? KIND_PROC_GONE).
  { unfold on_proc_gone. destruct (_ =? 0); [done|]. destruct (negb (unregister_ok _)); [done|].
    destruct (release_window_of _ _) as [ok w]. destruct (negb ok); [done|]. cbn. unfold drop_session.
    by destruct (n_sessions _ !! _). }
  destruct (kind req =? Kind.to_u32 Kind.MapPrepare).
  { unfold on_map_prepare. destruct (Device.session_for d _) as [[s d1]|] eqn:Hs; [|done].
    apply session_for_tables in Hs. destruct (Window.on_map_prepare _ _ _) as [rsp w].
    by destruct (Window.sessions w !! _). }
  unfold on_session. set (d0 := if kind req =? _ then _ else d).
  assert (n_tables d0 = n_tables d) as E0 by (unfold d0; by destruct (kind req =? _)).
  destruct (Device.session_for d0 _) as [[s d1]|] eqn:Hs; [|done]. apply session_for_tables in Hs.
  destruct (handle_msg_with _ _ _ _ _) as [[r|e|] [s' cs]]; cbn [snd fst]; [|cbn; congruence..].
  pose proof (settle_tables env d1 (guest_proc req) s' (seq req) (default (as_bytes (err_rsp (seq req) EPROTO)) r)) as Ht.
  destruct (settle_polls _ _ _ _ _ _) as [out d2]. cbn in *. congruence.
Qed.

Lemma serve_chain_tables env c d : n_tables (serve_chain env c d).2.1 = n_tables d.
Proof.
  unfold serve_chain. destruct (c_reader c) as [msg|]; [|done]. destruct (c_writer c) as [room|]; [|done].
  destruct (if negb _ then _ else _) as [resp [d' cs]] eqn:Hx.
  assert (n_tables d' = n_tables d) as <-.
  { destruct (negb _); [by injection Hx as <- <- <-|]. destruct (c_read_ok c); [|by injection Hx as <- <- <-].
    pose proof (handle_tables env msg d) as E. by rewrite Hx in E. }
  clear Hx. destruct resp as [resp|e|]; [|done..]. destruct (n_error d'); [done|].
  destruct (c_write_ok c); [|done]. by destruct (c_used_ok c).
Qed.

Lemma serve_chains_tables l : forall d, n_tables (serve_chains l d).2.1 = n_tables d.
Proof.
  induction l as [|[env c] l IH]; intros d; [done|]. cbn [serve_chains].
  pose proof (serve_chain_tables env c d) as E. destruct (serve_chain env c d) as [[out|e|] [d' cs]]; cbn in E |- *; try done.
  specialize (IH d'). destruct (serve_chains l d') as [[|e|] [d2 cs']]; cbn in *; congruence.
Qed.

Lemma process_queue_tables mem sg l d : n_tables (process_queue mem sg l d).2.1 = n_tables d.
Proof.
  unfold process_queue. destruct (negb mem); [done|]. pose proof (serve_chains_tables l d) as E.
  destruct (serve_chains l d) as [[[|u used]|e|] [d' cs]]; try done. by destruct sg.
Qed.

End tables.

Section events.
Context {D : Type} `{PoolDriver D} {V : Type} `{Vmm V}.
Implicit Types (d : NvrmDevice D V).

Lemma on_ready_tables r d : n_tables (on_ready r d).2 = n_tables d.
Proof.
  unfold on_ready, drain_ctl, deliver_fired. destruct (r_hup r); destruct (poll_srcs _ !! _) as [[]|]; try done.
  - destruct (n_sessions d !! _) as [v|]; [|done]. by destruct (drain_os_events _ _ _).
  - destruct (negb _); [done|]. by destruct (deliver _ _).
Qed.

Lemma on_readies_tables l : forall d e, n_tables (on_readies l d e).2.1 = n_tables d.
Proof.
  induction l as [|r l IH]; intros d e; [done|]. cbn. pose proof (on_ready_tables r d) as E.
  destruct (on_ready r d) as [[[ms n]|x|] d']; try done. destruct (push_all e ms) as [w e'].
  specialize (IH d' (repeat_wake (Z.to_nat n) e')). destruct (on_readies _ _ _) as [[] [? ?]]; cbn in *; congruence.
Qed.

Lemma poll_rounds_tables n : forall ws d e, n_tables (poll_rounds n ws d e).2.1 = n_tables d.
Proof.
  induction n as [|n IH]; intros ws d e; [done|]. destruct ws as [|[| |l] ws]; try done; [apply IH|].
  cbn [poll_rounds]. destruct l as [|r l]; [done|]. pose proof (on_readies_tables (r :: l) d e) as E.
  destruct (on_readies _ _ _) as [[w|x|] [d' e']]; try done.
  specialize (IH ws d' e'). destruct (poll_rounds _ _ _ _) as [[] [? ?]]; cbn in *; congruence.
Qed.

Lemma on_poll_tables ws sg d e : n_tables (on_poll ws sg d e).2.1 = n_tables d.
Proof.
  unfold on_poll. pose proof (poll_rounds_tables 8 ws d e) as E.
  destruct (poll_rounds _ _ _ _) as [[[]|x|] y]; try done. by destruct sg.
Qed.
End events.

(** ** Fetching from the device *)
Section device.
Context {A : RmAbi} {D : Type} `{PoolDriver D}.
Context {M : Type} `{GuestMem M} {V : Type} `{Vmm V}.
Implicit Types (d : NvrmDevice D V) (env : DeviceEnv (M:=M)).

Lemma reach_tables tables pr lim dr G d e : reach (M:=M) tables pr lim dr G d e -> n_tables d = tables.
Proof.
  induction 1 as [e|mem sg l G d e o d' cs _ IH Hfit Hq Ho|paced ready G d e _ IH|ws sg G d e o d' e' _ IH Hp|G d e e' _ IH
    |v G d e _ IH Hv]; try done.
  - pose proof (process_queue_tables mem sg l d) as E. rewrite Hq in E. cbn in E. congruence.
  - pose proof (on_poll_tables ws sg d e) as E. rewrite Hp in E. cbn in E. congruence.
Qed.

(** The chain of a table request, and what comes back in it. *)
Definition ask_device env d (msg : bytes) : option bytes :=
  match (serve_chain env (MkChain 0 (Some msg) true (Some (WIRE_LEN Rsp + CHUNK)) true true) d).1 with
  | Ok out => Some out
  | _ => None
  end.

Definition chunk_of (T : bytes) (got : Z) : bytes := take (Z.to_nat (Z.min (got + CHUNK) (blen T) - got)) (drop (Z.to_nat got) T).

Definition chunk_rsp (T : bytes) (s got : Z) : Rsp :=
  {| rsp_seq := s; ret := 0; Wire.token := blen T; rsp_inline_len := blen (chunk_of T got); rsp_aux_len := 0;
     scm_fd_count := 0; rsp_pad := 0 |}.

Lemma chunk_length T got : 0 <= got <= blen T -> blen (chunk_of T got) = Z.min (got + CHUNK) (blen T) - got.
Proof. intros Hg. unfold chunk_of, blen in *. rewrite length_take, length_drop. unfold CHUNK. lia. Qed.

Lemma chunk_rsp_wf T s got : is_u32 s -> 0 <= got <= blen T -> blen T <= SZ_1M -> wf_rsp (chunk_rsp T s got).
Proof.
  intros Hs Hg Ht. pose proof (chunk_length T got Hg) as Hc. unfold wf_rsp, chunk_rsp, SZ_1M, CHUNK in *. cbn -[blen].
  unfold is_u32, is_u64, u32_max, u64_max in *. split_and!; lia.
Qed.

Lemma get_tables_req_wf s got : is_u32 s -> 0 <= got <= SZ_1M -> wf_req (get_tables_req s got).
Proof.
  intros Hs Hg. assert (is_u64 got) as Ha by (unfold is_u64, u64_max, SZ_1M in *; lia).
  unfold wf_req. cbn [seq kind dev_tag ioctl_nr target_token inline_len aux_len fd_field_off fd_field_proc fd_field_token
    embedded_ptr_off nested_count nested aux_fd_field_off aux_fd_field_proc aux_fd_field_token map_len addr gpa_run_count
    guest_proc get_tables_req].
  assert (Forall wf_nested (nested Req_default)) as Hn.
  { apply Forall_replicate. unfold wf_nested. split_and!; vm_compute; split; congruence. }
  split_and!; first [assumption|reflexivity|vm_compute; split; congruence].
Qed.

Lemma device_answers_chunk env d s got : is_u32 s -> n_error d = false -> blen (n_tables d) <= SZ_1M ->
  0 <= got <= blen (n_tables d) ->
  ask_device env d (as_bytes (get_tables_req s got)) =
  Some (as_bytes (chunk_rsp (n_tables d) s got) ++ chunk_of (n_tables d) got).
Proof.
  intros Hs He Ht Hg. pose proof (get_tables_req_wf s got Hs ltac:(lia)) as Hw.
  assert (blen (as_bytes (get_tables_req s got)) = WIRE_LEN Req) as Hl by (by apply as_bytes_length).
  unfold ask_device, serve_chain. cbn [c_reader c_writer c_read_ok c_write_ok c_used_ok]. rewrite Hl.
  assert (negb ((WIRE_LEN Req <=? WIRE_LEN Req) && (WIRE_LEN Req <=? MAX_MSG)) = false) as -> by (vm_compute; reflexivity).
  unfold handle. rewrite <- (app_nil_r (as_bytes (get_tables_req s got))), from_bytes_as_bytes by done. rewrite He.
  change (kind (get_tables_req s got) =? KIND_GET_TABLES) with true. cbn iota. rewrite He. cbn [negb fst].
  assert (on_get_tables d (get_tables_req s got) = as_bytes (chunk_rsp (n_tables d) s got) ++ chunk_of (n_tables d) got) as ->.
  { unfold on_get_tables. cbn [addr get_tables_req map_len seq]. rewrite (proj2 (Z.ltb_ge _ _)) by lia.
    change (Z.max (Z.min CHUNK MAX_PAYLOAD) 1) with CHUNK. fold (chunk_of (n_tables d) got). unfold chunk_rsp.
    rewrite wrap32_id; [done|]. rewrite chunk_length by done. unfold CHUNK, u32_max. lia. }
  f_equal. pose proof (chunk_rsp_wf (n_tables d) s got Hs Hg Ht) as Hr. unfold fit_response.
  assert (blen (as_bytes (chunk_rsp (n_tables d) s got) ++ chunk_of (n_tables d) got) <= WIRE_LEN Rsp + CHUNK) as Hfit.
  { rewrite blen_app, as_bytes_length, chunk_length by done. unfold CHUNK. lia. }
  rewrite (proj2 (Z.ltb_ge _ _)) by done. by apply take_room.
Qed.

(** A chunk the device sent is taken. *)
Lemma fetch_chunk_served T s got total blob : is_u32 s -> WIRE_LEN TableHdr <= blen T <= SZ_1M ->
  total = 0 \/ total = blen T -> blob = take (Z.to_nat got) T -> 0 <= got < blen T ->
  fetch_chunk true (Some (as_bytes (chunk_rsp T s got) ++ chunk_of T got)) total blob =
  Ok (blen T, take (Z.to_nat (Z.min (got + CHUNK) (blen T))) T).
Proof.
  intros Hs Ht Htot Hblob Hg. pose proof (chunk_rsp_wf T s got Hs ltac:(lia) ltac:(lia)) as Hr.
  pose proof (chunk_length T got ltac:(lia)) as Hc. unfold fetch_chunk. cbn [ok_or mbind outcome_bind].
  assert (blen blob = got) as Hb by (subst blob; unfold blen in *; rewrite length_take; lia).
  assert (0 < CHUNK) as Hch by done.
  rewrite from_bytes_as_bytes by done. rewrite blen_app, as_bytes_length by done.
  rewrite !(proj2 (Z.ltb_ge _ _)) by lia. cbn -[blen WIRE_LEN SZ_1M chunk_of take drop as_bytes app].
  match goal with |- context [if total =? 0 then ?x else _] => assert ((if total =? 0 then x else Ok total) = Ok (blen T)) as -> end.
  { destruct Htot as [-> | ->]; [|by rewrite (proj2 (Z.eqb_neq _ _)) by lia].
    cbn -[blen WIRE_LEN SZ_1M]. by rewrite !(proj2 (Z.ltb_ge _ _)) by lia. }
  cbn -[blen WIRE_LEN SZ_1M chunk_of take drop as_bytes app]. rewrite Hb, (proj2 (Z.eqb_neq _ _)) by lia.
  rewrite !(proj2 (Z.ltb_ge _ _)) by lia. cbn -[blen WIRE_LEN SZ_1M chunk_of take drop as_bytes app]. do 2 f_equal.
  rewrite drop_app_length' by (pose proof (as_bytes_length (chunk_rsp T s got) Hr) as E; unfold blen in E; lia).
  rewrite take_ge by (unfold blen; lia). unfold chunk_of. rewrite Hblob.
  rewrite take_take_drop. f_equal. lia.
Qed.

(** Without memory the first chunk is the last. *)
Lemma fetch_chunk_no_memory T s : is_u32 s -> WIRE_LEN TableHdr <= blen T <= SZ_1M ->
  fetch_chunk false (Some (as_bytes (chunk_rsp T s 0) ++ chunk_of T 0)) 0 [] = Err NoMemory.
Proof.
  intros Hs Ht. pose proof (chunk_rsp_wf T s 0 Hs ltac:(change (WIRE_LEN TableHdr) with 96 in Ht; lia) ltac:(lia)) as Hr.
  pose proof (chunk_length T 0 ltac:(change (WIRE_LEN TableHdr) with 96 in Ht; lia)) as Hc. unfold fetch_chunk. cbn [ok_or mbind outcome_bind].
  assert (0 < CHUNK) as Hch by done.
  rewrite from_bytes_as_bytes by done. rewrite blen_app, as_bytes_length by done.
  rewrite !(proj2 (Z.ltb_ge _ _)) by (pose proof (blen_nonneg (chunk_of T 0)); lia).
  cbn -[blen WIRE_LEN SZ_1M chunk_of take drop as_bytes app].
  by rewrite !(proj2 (Z.ltb_ge _ _)) by lia.
Qed.

Lemma fetch_loop_served (T : bytes) sq (ask : nat -> bytes -> option bytes) :
  WIRE_LEN TableHdr <= blen T <= SZ_1M -> (forall i, is_u32 (sq i)) ->
  (forall i got, 0 <= got <= blen T -> ask i (as_bytes (get_tables_req (sq i) got)) =
     Some (as_bytes (chunk_rsp T (sq i) got) ++ chunk_of T got)) ->
  forall fuel i total got, total = 0 \/ total = blen T -> 0 <= got < blen T -> blen T - got <= CHUNK * Z.of_nat fuel ->
  fetch_loop true ask sq fuel i total (take (Z.to_nat got) T) = Some (Ok T).
Proof.
  intros Ht Hs Ha. induction fuel as [|fuel IH]; intros i total got Htot Hg Hf; [lia|]. cbn [fetch_loop].
  assert (blen (take (Z.to_nat got) T) = got) as -> by (unfold blen in *; rewrite length_take; lia).
  rewrite Ha by lia. rewrite (fetch_chunk_served T (sq i) got) by (done || lia).
  set (got' := Z.min (got + CHUNK) (blen T)).
  assert (blen (take (Z.to_nat got') T) = got') as -> by (unfold got', blen in *; rewrite length_take; unfold CHUNK; lia).
  destruct (got' <? blen T) eqn:E; bools.
  - apply IH; [by right|unfold got', CHUNK in *; lia|unfold got', CHUNK in *; lia].
  - rewrite take_ge; [done|]. unfold blen in *. lia.
Qed.

End device.

(** C33: A guest that starts always gets the tables.  Whatever a host answers,
    the loop that fetches them ends (each accepted chunk has a byte and the
    total is at most a megabyte).  And if the answers come from the device,
    each from any state it can reach whose event path works, whatever other
    requests and events it served in between, then 256 requests are enough
    and the guest ends with exactly the tables the backend built for its
    driver, or with its own want of memory for them. *)
Theorem guest_gets_tables {A : RmAbi} {AOk : RmAbiOk A} {D : Type} `{PoolDriver D} {M : Type} `{GuestMem M} {V : Type}
    `{Vmm V} (room : bool) (sq : nat -> Z) :
  (forall ask : nat -> bytes -> option bytes, (forall i m r, ask i m = Some r -> wf_bytes r) ->
     is_Some (nvrm_fetch_tables room ask sq (S (Z.to_nat SZ_1M)))) /\
  (forall t pr lim dr (gs : nat -> gset Z) (ds : nat -> NvrmDevice D V) (es : nat -> EventState) (envs : nat -> DeviceEnv (M:=M)),
     Tables.build = Ok t -> (forall i, is_u32 (sq i)) ->
     (forall i, reach (M:=M) (tb_bytes t) pr lim dr (gs i) (ds i) (es i) /\ n_error (ds i) = false) ->
     nvrm_fetch_tables room (fun i => ask_device (envs i) (ds i)) sq 256 =
       Some (if room then Ok guest_tables else Err NoMemory)).
Proof.
  split.
  - intros ask Hb. unfold nvrm_fetch_tables.
    destruct (fetch_loop_ends room ask sq Hb (S (Z.to_nat SZ_1M)) 0 0 []) as [r ->]; [by left|change (blen []) with 0; lia|by eexists].
  - intros t pr lim dr gs ds es envs. rewrite built. intros <-%(inj Ok) Hs Hd. cbn [tb_bytes] in Hd. pose proof stream_length as Hl.
    unfold nvrm_fetch_tables. set (ask := fun i => ask_device (envs i) (ds i)).
    assert (forall i got, 0 <= got <= blen stream -> ask i (as_bytes (get_tables_req (sq i) got)) =
      Some (as_bytes (chunk_rsp stream (sq i) got) ++ chunk_of stream got)) as Hask.
    { intros i got Hg. destruct (Hd i) as [Hr He]. pose proof (reach_tables _ _ _ _ _ _ _ Hr) as Ht.
      rewrite <- Ht in Hg |- *. apply device_answers_chunk; [done|done|rewrite Ht; lia|done]. }
    destruct room.
    + assert (fetch_loop true ask sq 256 0 0 [] = Some (Ok stream)) as ->.
      { apply (fetch_loop_served stream sq ask Hl Hs Hask) with (got := 0); [by left| |].
        - unfold HDR_LEN in Hl. lia.
        - unfold SZ_1M, CHUNK in *. lia. }
      cbn [mbind option_bind outcome_bind]. by rewrite stream_parses.
    + cbn [fetch_loop]. change (blen []) with 0. rewrite Hask by (unfold HDR_LEN in Hl; lia).
      rewrite fetch_chunk_no_memory by done. done.
Qed.

(** A VMM that reconnects before every request. *)
Definition fetch_device (i : nat) : NvrmDevice TableDriver TableVmm :=
  Nat.iter i (fun d => set_backend d (∅ : TableVmm))
    (Device.device_new (stream (A:=V615)) (accounting 0x1000000) 0x8000 (example_driver false)).

Lemma fetch_device_reached i : reach (A:=V615) (M:=RegionList) (stream (A:=V615)) (accounting 0x1000000) 0x8000
  (example_driver false) ∅ (fetch_device i) idle_events /\ n_error (fetch_device i) = false.
Proof.
  induction i as [|i [IH1 IH2]]; [split; [apply reach_new|done]|]. split; [|done].
  apply reach_backend; [exact IH1|done].
Qed.

Lemma guest_gets_tables_witness : nvrm_fetch_tables true
  (fun i => ask_device (A:=V615) (example_host None) (fetch_device i)) (fun i => wrap32 (Z.of_nat i)) 256
  = Some (Ok (guest_tables (A:=V615))).
Proof.
  destruct (guest_gets_tables (A:=V615) (AOk:=V615_ok) (M:=RegionList) (D:=TableDriver) (V:=TableVmm) true
    (fun i => wrap32 (Z.of_nat i))) as [_ H].
  exact (H _ _ _ _ (fun _ => ∅) fetch_device (fun _ => idle_events) (fun _ => example_host None) built
    (fun i => wrap32_bounds _) fetch_device_reached).
Defined.
