(* ===== verification/AbiCheck.v ===== *)
(** * Compatibility of driver ABIs (crates/xtask/src/abi)

    The generator measures the layouts of every supported driver into a
    [Manifest], compares each pair ([classify]), and keeps in one shared module
    only the declarations that are the same everywhere together with all they
    refer to ([partition]); [refuse_on_breaking] stops it where a mediated
    type broke and nobody said so.  Parsing the bindings (syn) and printing
    reports are outside; a reason is a value instead of a text. *)
From stdpp Require Import gmap strings sorting list.
From S2P Require Import Prelude.

Local Open Scope list_scope.
Local Open Scope Z_scope.

(** ** Manifests (manifest.rs) *)
Inductive Kind := Struct | Union.

Record Field := MkField { f_name : string; f_offset : option Z; f_ty : string }.

Record TypeLayout := MkTypeLayout {
  t_kind : Kind; t_size : Z; t_align : Z; t_fields : list Field; t_embeds : gset string }.

Record Constant := MkConstant { c_ty : string; c_value : string }.

Record Manifest := MkManifest {
  m_version : string; m_headers : string; m_commit : string;
  m_renames : gmap string string; m_aliases : gmap string string;
  m_constants : gmap string Constant; m_types : gmap string TypeLayout }.

(** The closure [resolve] of [Manifest::parse]: at most 32 aliases are
    followed, each to a declared or aliased name. *)
Fixpoint resolve_alias (fuel : nat) (m : Manifest) (name : string) : string :=
  match fuel with
  | O => name
  | S fuel' =>
      match m_aliases m !! name with
      | Some next =>
          if bool_decide (next ∈ dom (m_types m)) || bool_decide (next ∈ dom (m_aliases m))
          then resolve_alias fuel' m next else name
      | None => name
      end
  end.

Definition resolve_name (m : Manifest) (name : string) : string := resolve_alias 32 m name.

Global Instance Kind_eq_dec : EqDecision Kind.
Proof. solve_decision. Defined.

Definition embedded_types (m : Manifest) : gset string :=
  map_fold (fun _ t out => t_embeds t ∪ out) ∅ (m_types m).

(** Sets and maps are walked in the order of their keys. *)
Definition string_le (a b : string) : Prop := String.leb a b = true.
Global Instance string_le_dec : RelDecision string_le.
Proof. intros a b. unfold string_le. apply _. Defined.
Definition in_order (X : gset string) : list string := merge_sort string_le (elements X).

Lemma in_order_elem X n : n ∈ in_order X <-> n ∈ X.
Proof. unfold in_order. rewrite merge_sort_Permutation. apply elem_of_elements. Qed.

(** ** Classification (classify.rs) *)
Inductive Verdict := Identical | AppendOnly | Breaking.
Global Instance Verdict_eq_dec : EqDecision Verdict.
Proof. solve_decision. Defined.

Inductive Reason :=
| AbsentIn (v : string) | NewIn (absent new : string)
| KindChanged (a b : Kind) | AlignChanged (a b : Z)
| FieldRemoved (n : string) | FieldMoved (n : string) (x y : Z)
| OffsetLost (n : string) (x : Z) | OffsetGained (n : string) (y : Z)
| FieldType (n : string) (a b : string)
| ContainedGrew (a b : Z) | NotGrown (a b : Z) | AddedInside (n : string) (o a : Z)
| AddedUnmeasured (n : string) | EmbeddedGrew (a b : Z) | Appended (a b : Z) (names : list string)
| ValueChanged (a b : string) | TypeChanged (a b : string).

Record Change := MkChange { ch_name : string; ch_verdict : Verdict; ch_reasons : list Reason }.

Record PairReport := MkPairReport {
  r_from : string; r_to : string; r_identical : nat; r_append_only : nat; r_breaking : nat;
  r_types : list Change; r_constants : list Change }.

Definition verdict (r : PairReport) : Verdict :=
  if bool_decide (0 < r_breaking r)%nat || negb (bool_decide (length (r_constants r) = 0%nat)) then Breaking
  else if bool_decide (0 < r_append_only r)%nat then AppendOnly
  else Identical.

Definition find_field (fs : list Field) (n : string) : option Field :=
  List.find (fun g => bool_decide (f_name g = n)) fs.

(** What became of one field. *)
Definition field_reasons (b : TypeLayout) (f : Field) : list Reason :=
  match find_field (t_fields b) (f_name f) with
  | None => [FieldRemoved (f_name f)]
  | Some g =>
      match f_offset f, f_offset g with
      | Some x, Some y => if x =? y then [] else [FieldMoved (f_name f) x y]
      | Some x, None => [OffsetLost (f_name f) x]
      | None, Some y => [OffsetGained (f_name f) y]
      | None, None => []
      end ++
      if bool_decide (f_ty g = f_ty f) then [] else [FieldType (f_name f) (f_ty f) (f_ty g)]
  end.

Definition added_fields (a b : TypeLayout) : list Field :=
  List.filter (fun g => negb (existsb (fun f => bool_decide (f_name f = f_name g)) (t_fields a))) (t_fields b).

Definition early (size : Z) (g : Field) : bool :=
  match f_offset g with Some o => o <? size | None => true end.

Definition classify_type (name : string) (from to : option TypeLayout) (embedded : bool) (from_v to_v : string)
  : outcome Empty_set Change :=
  let breaking r := Ok (MkChange name Breaking [r]) in
  match from, to with
  | Some _, None => breaking (AbsentIn to_v)
  | None, Some _ => breaking (NewIn from_v to_v)
  | None, None => Panic
  | Some a, Some b =>
      let reasons :=
        (if bool_decide (t_kind a = t_kind b) then [] else [KindChanged (t_kind a) (t_kind b)]) ++
        (if t_align a =? t_align b then [] else [AlignChanged (t_align a) (t_align b)]) ++
        concat (map (field_reasons b) (t_fields a)) in
      let added := added_fields a b in
      match reasons with
      | _ :: _ => Ok (MkChange name Breaking reasons)
      | [] =>
          match added with
          | [] =>
              if t_size a =? t_size b then Ok (MkChange name Identical reasons)
              else breaking (ContainedGrew (t_size a) (t_size b))
          | _ :: _ =>
              if t_size b <=? t_size a then breaking (NotGrown (t_size a) (t_size b))
              else match List.find (early (t_size a)) added with
                   | Some e => breaking (match f_offset e with
                                         | Some o => AddedInside (f_name e) o (t_size a)
                                         | None => AddedUnmeasured (f_name e) end)
                   | None =>
                       if embedded then breaking (EmbeddedGrew (t_size a) (t_size b))
                       else Ok (MkChange name AppendOnly [Appended (t_size a) (t_size b) (map f_name added)])
                   end
          end
      end
  end.

Definition classify_const (name : string) (from to : option Constant) (from_v to_v : string)
  : outcome Empty_set (option Change) :=
  let change r := Ok (Some (MkChange name Breaking [r])) in
  match from, to with
  | Some a, Some b =>
      if bool_decide (c_value a = c_value b) && bool_decide (c_ty a = c_ty b) then Ok None
      else if negb (bool_decide (c_value a = c_value b)) then change (ValueChanged (c_value a) (c_value b))
      else change (TypeChanged (c_ty a) (c_ty b))
  | Some _, None => change (AbsentIn to_v)
  | None, Some _ => change (NewIn from_v to_v)
  | None, None => Panic
  end.

Definition count_type (r : PairReport) (c : Change) : PairReport :=
  match ch_verdict c with
  | Identical => MkPairReport (r_from r) (r_to r) (S (r_identical r)) (r_append_only r) (r_breaking r) (r_types r) (r_constants r)
  | AppendOnly => MkPairReport (r_from r) (r_to r) (r_identical r) (S (r_append_only r)) (r_breaking r) (r_types r ++ [c]) (r_constants r)
  | Breaking => MkPairReport (r_from r) (r_to r) (r_identical r) (r_append_only r) (S (r_breaking r)) (r_types r ++ [c]) (r_constants r)
  end.

Definition count_const (r : PairReport) (c : option Change) : PairReport :=
  match c with
  | None => r
  | Some c => MkPairReport (r_from r) (r_to r) (r_identical r) (r_append_only r) (r_breaking r) (r_types r) (r_constants r ++ [c])
  end.

Fixpoint each {X S} (f : X -> S -> outcome Empty_set S) (l : list X) (s : S) : outcome Empty_set S :=
  match l with
  | [] => Ok s
  | x :: l' => s ← f x s; each f l' s
  end.

Definition classify (from to : Manifest) : outcome Empty_set PairReport :=
  let embedded := embedded_types from ∪ embedded_types to in
  let names := in_order (dom (m_types from) ∪ dom (m_types to)) in
  let cnames := in_order (dom (m_constants from) ∪ dom (m_constants to)) in
  r ← each (fun n r =>
        c ← classify_type n (m_types from !! n) (m_types to !! n) (bool_decide (n ∈ embedded)) (m_version from) (m_version to);
        Ok (count_type r c)) names (MkPairReport (m_version from) (m_version to) 0 0 0 [] []);
  each (fun n r =>
        c ← classify_const n (m_constants from !! n) (m_constants to !! n) (m_version from) (m_version to);
        Ok (count_const r c)) cnames r.

(** All ordered pairs (mod.rs). *)
Definition all_pairs (ms : list Manifest) : outcome Empty_set (list PairReport) :=
  each (fun ab out => r ← classify ab.1 ab.2; Ok (out ++ [r]))
    (List.filter (fun ab => negb (bool_decide (m_version ab.1 = m_version ab.2))) (list_prod ms ms)) [].

Definition find_pair (pairs : list PairReport) (from to : string) : option PairReport :=
  List.find (fun p => bool_decide (r_from p = from) && bool_decide (r_to p = to)) pairs.

(** ** What the verdicts mean *)
Definition field_kept (b : TypeLayout) (f : Field) : Prop :=
  exists g, find_field (t_fields b) (f_name f) = Some g /\ f_offset g = f_offset f /\ f_ty g = f_ty f.

Definition kept (a b : TypeLayout) : Prop :=
  t_kind a = t_kind b /\ t_align a = t_align b /\ Forall (field_kept b) (t_fields a).

Definition same (a b : TypeLayout) : Prop := kept a b /\ added_fields a b = [] /\ t_size a = t_size b.

Definition extends (a b : TypeLayout) : Prop :=
  kept a b /\ added_fields a b <> [] /\ t_size a < t_size b /\
  Forall (fun g => exists o, f_offset g = Some o /\ t_size a <= o) (added_fields a b).

Lemma field_reasons_nil b f : field_reasons b f = [] <-> field_kept b f.
Proof.
  unfold field_reasons, field_kept. destruct (find_field _ _) as [g|].
  2: { split; [done|]. by intros (? & ? & _). }
  split.
  - intros [Ho Ht]%app_nil. exists g. case_bool_decide; [|done]. split_and!; [done| |done].
    destruct (f_offset f) as [x|], (f_offset g) as [y|]; try done. destruct (x =? y) eqn:E; [|done]. bools. congruence.
  - intros (g' & [= <-] & Ho & Ht). rewrite bool_decide_true by done. rewrite app_nil_r. rewrite Ho.
    destruct (f_offset f); [|done]. by rewrite Z.eqb_refl.
Qed.

Lemma concat_nil {X Y} (f : X -> list Y) l : concat (map f l) = [] <-> Forall (fun x => f x = []) l.
Proof.
  induction l as [|x l IH]; cbn; [by split|]. rewrite app_nil, IH, Forall_cons. done.
Qed.

Lemma find_Forall {X} (P : X -> bool) l : List.find P l = None <-> Forall (fun x => P x = false) l.
Proof.
  induction l as [|x l IH]; cbn; [by split|]. rewrite Forall_cons. destruct (P x); [|rewrite IH]; naive_solver.
Qed.

Lemma early_false size g : early size g = false <-> exists o, f_offset g = Some o /\ size <= o.
Proof.
  unfold early. destruct (f_offset g) as [o|]; [|naive_solver]. rewrite Z.ltb_ge. naive_solver.
Qed.

Lemma Forall_iff' {X} (P Q : X -> Prop) l : (forall x, P x <-> Q x) -> Forall P l <-> Forall Q l.
Proof. intros HPQ. split; intros Hl; (eapply Forall_impl; [exact Hl|]); naive_solver. Qed.

(** The three verdicts on two types are these three relations. *)
Lemma classify_type_spec n a b e fv tv : exists c, classify_type n (Some a) (Some b) e fv tv = Ok c /\ ch_name c = n /\
  (ch_verdict c = Identical <-> same a b) /\ (ch_verdict c = AppendOnly <-> extends a b /\ e = false).
Proof.
  unfold classify_type. set (rs := _ ++ _ ++ concat _).
  assert (rs = [] <-> kept a b) as Hk.
  { subst rs. rewrite !app_nil, concat_nil, (Forall_iff' _ _ _ (field_reasons_nil b)). unfold kept.
    case_bool_decide; destruct (t_align a =? t_align b) eqn:E; bools; naive_solver. }
  destruct rs as [|x rs].
  2: { eexists. split_and!; [done|done| |]; cbn; split; try done; unfold same, extends; naive_solver. }
  destruct (proj1 Hk eq_refl) as (K1 & K2 & K3). clear Hk. unfold same, extends.
  destruct (added_fields a b) as [|g gs] eqn:Ha.
  - destruct (t_size a =? t_size b) eqn:E; bools; eexists; split_and!; try done; cbn; split; try done; naive_solver.
  - destruct (t_size b <=? t_size a) eqn:E; bools.
    { eexists; split_and!; try done; cbn; split; try done; [naive_solver|]. intros ((_ & _ & ? & _) & _). lia. }
    destruct (List.find (early (t_size a)) (g :: gs)) as [x|] eqn:Hf.
    { eexists; split_and!; try done; cbn [ch_verdict]; split; try done; [naive_solver|].
      intros ((_ & _ & _ & Hg) & _). rewrite <- (Forall_iff' _ _ _ (early_false (t_size a))) in Hg.
      apply find_Forall in Hg. congruence. }
    apply find_Forall in Hf. rewrite (Forall_iff' _ _ _ (early_false (t_size a))) in Hf.
    destruct e; eexists; split_and!; try done; cbn [ch_verdict]; split; try done; try naive_solver.
Qed.

(** ** The report of a pair *)
Section pair.
Context (from to : Manifest).

Definition embedded : gset string := embedded_types from ∪ embedded_types to.

Definition type_change (n : string) : outcome Empty_set Change :=
  classify_type n (m_types from !! n) (m_types to !! n) (bool_decide (n ∈ embedded)) (m_version from) (m_version to).

Definition const_change (n : string) : outcome Empty_set (option Change) :=
  classify_const n (m_constants from !! n) (m_constants to !! n) (m_version from) (m_version to).

Lemma type_change_total n : n ∈ dom (m_types from) ∪ dom (m_types to) -> exists c, type_change n = Ok c.
Proof.
  intros Hn. unfold type_change. destruct (m_types from !! n) as [a|] eqn:Ha, (m_types to !! n) as [b|] eqn:Hb.
  - destruct (classify_type_spec n a b (bool_decide (n ∈ embedded)) (m_version from) (m_version to)) as (c & -> & _). by eexists.
  - by eexists.
  - by eexists.
  - apply elem_of_union in Hn as [[]%elem_of_dom|[]%elem_of_dom]; congruence.
Qed.

Lemma const_change_total n : n ∈ dom (m_constants from) ∪ dom (m_constants to) -> exists c, const_change n = Ok c.
Proof.
  intros Hn. unfold const_change, classify_const.
  destruct (m_constants from !! n) as [a|] eqn:Ha, (m_constants to !! n) as [b|] eqn:Hb.
  - destruct (_ && _); [by eexists|]. destruct (negb _); by eexists.
  - by eexists.
  - by eexists.
  - apply elem_of_union in Hn as [[]%elem_of_dom|[]%elem_of_dom]; congruence.
Qed.

Definition type_step (n : string) (r : PairReport) : outcome Empty_set PairReport :=
  c ← type_change n; Ok (count_type r c).
Definition const_step (n : string) (r : PairReport) : outcome Empty_set PairReport :=
  c ← const_change n; Ok (count_const r c).

Definition reported (n : string) (v : Verdict) : Prop := exists c, type_change n = Ok c /\ ch_verdict c = v.

Lemma types_counted l : forall r, (forall n, n ∈ l -> exists c, type_change n = Ok c) ->
  exists r', each type_step l r = Ok r' /\ r_from r' = r_from r /\ r_to r' = r_to r /\ r_constants r' = r_constants r /\
    (r_breaking r' = 0%nat <-> r_breaking r = 0%nat /\ forall n, n ∈ l -> ~ reported n Breaking) /\
    (r_append_only r' = 0%nat <-> r_append_only r = 0%nat /\ forall n, n ∈ l -> ~ reported n AppendOnly) /\
    (forall c, c ∈ r_types r' <-> c ∈ r_types r \/ exists n, n ∈ l /\ type_change n = Ok c /\ ch_verdict c <> Identical).
Proof.
  induction l as [|n l IH]; intros r Hl.
  { exists r. split_and!; try done; [naive_solver set_solver..|]. intros c. split; [by left|].
    intros [|(n & []%elem_of_nil & _)]; done. }
  destruct (Hl n) as [c Hc]; [by left|].
  destruct (IH (count_type r c)) as (r' & E & E1 & E2 & E3 & E4 & E5 & E6); [intros m Hm; apply Hl; by right|].
  assert (type_step n r = Ok (count_type r c)) as Hstep by (unfold type_step; by rewrite Hc).
  exists r'. cbn [each]. rewrite Hstep. cbn [mbind outcome_bind]. rewrite E.
  assert (forall v, reported n v <-> ch_verdict c = v) as Hr.
  { intros v. split; [intros (c' & Hc' & <-); congruence|]. intros <-. by exists c. }
  assert (r_from (count_type r c) = r_from r /\ r_to (count_type r c) = r_to r /\ r_constants (count_type r c) = r_constants r)
    as (F1 & F2 & F3) by (unfold count_type; by destruct (ch_verdict c)).
  split_and!; [done|congruence..| | |].
  - rewrite E4. setoid_rewrite elem_of_cons. unfold count_type. destruct (ch_verdict c) eqn:Hv; cbn; split.
    + intros [? ?]. split; [done|]. intros m [-> |]; [rewrite Hr; congruence|naive_solver].
    + naive_solver.
    + intros [? ?]. split; [done|]. intros m [-> |]; [rewrite Hr; congruence|naive_solver].
    + naive_solver.
    + by intros [? _].
    + intros [_ Hn]. exfalso. apply (Hn n); [by left|by apply Hr].
  - rewrite E5. setoid_rewrite elem_of_cons. unfold count_type. destruct (ch_verdict c) eqn:Hv; cbn; split.
    + intros [? ?]. split; [done|]. intros m [-> |]; [rewrite Hr; congruence|naive_solver].
    + naive_solver.
    + by intros [? _].
    + intros [_ Hn]. exfalso. apply (Hn n); [by left|by apply Hr].
    + intros [? ?]. split; [done|]. intros m [-> |]; [rewrite Hr; congruence|naive_solver].
    + naive_solver.
  - intros c'. rewrite E6. assert (forall A : Prop, ch_verdict c <> Identical ->
      ((A \/ c' = c) \/ (exists m, m ∈ l /\ type_change m = Ok c' /\ ch_verdict c' <> Identical)) <->
      A \/ exists m, (m = n \/ m ∈ l) /\ type_change m = Ok c' /\ ch_verdict c' <> Identical) as moved.
    { intros Q Hv. split.
      - intros [[HQ | ->]|(m & Hm & Hx)]; [by left|right; exists n; auto|right; exists m; auto].
      - intros [HQ|(m & [-> |Hm] & Hx & Hy)]; [auto|left; right; congruence|right; exists m; auto]. }
    setoid_rewrite elem_of_cons. unfold count_type. destruct (ch_verdict c) eqn:Hv; cbn.
    + split; [naive_solver|]. intros [?|(m & [-> |Hm] & Hc' & Hv')]; [by left|congruence|right; by exists m].
    + rewrite elem_of_app, list_elem_of_singleton. apply moved. congruence.
    + rewrite elem_of_app, list_elem_of_singleton. apply moved. congruence.
Qed.

Lemma consts_counted l : forall r, (forall n, n ∈ l -> exists c, const_change n = Ok c) ->
  exists r', each const_step l r = Ok r' /\ r_from r' = r_from r /\ r_to r' = r_to r /\ r_breaking r' = r_breaking r /\
    r_append_only r' = r_append_only r /\ r_types r' = r_types r /\
    (length (r_constants r') = 0%nat <-> length (r_constants r) = 0%nat /\ forall n, n ∈ l -> const_change n = Ok None).
Proof.
  induction l as [|n l IH]; intros r Hl.
  { exists r. split_and!; try done. naive_solver set_solver. }
  destruct (Hl n) as [c Hc]; [by left|].
  destruct (IH (count_const r c)) as (r' & E & E1 & E2 & E3 & E4 & E5 & E6); [intros m Hm; apply Hl; by right|].
  assert (const_step n r = Ok (count_const r c)) as Hstep by (unfold const_step; by rewrite Hc).
  exists r'. cbn [each]. rewrite Hstep. cbn [mbind outcome_bind]. rewrite E.
  setoid_rewrite elem_of_cons. destruct c as [c|]; cbn in *; split_and!; try congruence; rewrite E6.
  - rewrite length_app. cbn. split; [lia|]. intros [_ Hn]. specialize (Hn n (or_introl eq_refl)). congruence.
  - split; [|naive_solver]. intros [? ?]. split; [done|]. intros m [-> |]; naive_solver.
Qed.

Definition all_types (P : string -> TypeLayout -> TypeLayout -> Prop) : Prop :=
  dom (m_types from) = dom (m_types to) /\
  forall n a b, m_types from !! n = Some a -> m_types to !! n = Some b -> P n a b.

Definition compatible : Prop := m_constants from = m_constants to /\
  all_types (fun n a b => same a b \/ extends a b /\ n ∉ embedded).

Lemma const_change_none n : const_change n = Ok None <->
  is_Some (m_constants from !! n) /\ m_constants from !! n = m_constants to !! n.
Proof.
  unfold const_change, classify_const. destruct (m_constants from !! n) as [[ta va]|], (m_constants to !! n) as [[tb vb]|]; cbn.
  - repeat case_bool_decide; cbn; split; intros Hx; try done; try (destruct Hx; congruence). split; [by eexists|congruence].
  - by split; [|intros []].
  - by split; [|intros [[]]].
  - by split; [|intros [[]]].
Qed.

Lemma consts_same : (forall n, n ∈ in_order (dom (m_constants from) ∪ dom (m_constants to)) -> const_change n = Ok None) <->
  m_constants from = m_constants to.
Proof.
  setoid_rewrite in_order_elem. setoid_rewrite const_change_none. split.
  - intros Hn. apply map_eq. intros n. destruct (decide (n ∈ dom (m_constants from) ∪ dom (m_constants to))) as [Hin|Hout].
    + by apply Hn.
    + rewrite not_elem_of_union, !not_elem_of_dom in Hout. by destruct Hout as [-> ->].
  - intros <- n [Hn|Hn]%elem_of_union; (split; [by apply elem_of_dom|done]).
Qed.

Lemma reported_both n a b v : m_types from !! n = Some a -> m_types to !! n = Some b ->
  reported n v <-> match v with
  | Identical => same a b
  | AppendOnly => extends a b /\ n ∉ embedded
  | Breaking => ~ same a b /\ ~ (extends a b /\ n ∉ embedded)
  end.
Proof.
  intros Ha Hb. unfold reported, type_change. rewrite Ha, Hb.
  destruct (classify_type_spec n a b (bool_decide (n ∈ embedded)) (m_version from) (m_version to)) as (c & -> & _ & C1 & C2).
  rewrite bool_decide_eq_false in C2. destruct v; rewrite <- ?C1, <- ?C2.
  - split; [by intros (c' & [= <-] & <-)|by exists c].
  - split; [by intros (c' & [= <-] & <-)|by exists c].
  - split; [intros (c' & [= <-] & ->); done|]. intros [N1 N2]. exists c. split; [done|]. by destruct (ch_verdict c).
Qed.

Lemma not_reported P : (forall n, n ∈ in_order (dom (m_types from) ∪ dom (m_types to)) -> ~ reported n Breaking /\ P n) <->
  all_types (fun n a b => (same a b \/ extends a b /\ n ∉ embedded) /\ P n).
Proof.
  setoid_rewrite in_order_elem. split.
  - intros Hn. split.
    + apply set_eq. intros n. destruct (decide (n ∈ dom (m_types from) ∪ dom (m_types to))) as [Hin|Hout]; [|set_solver].
      destruct (Hn n Hin) as [Hb _]. rewrite !elem_of_dom.
      destruct (m_types from !! n) eqn:Ha, (m_types to !! n) eqn:Hb'; try (split; by intros []);
        exfalso; apply Hb; unfold reported, type_change; rewrite Ha, Hb'; by eexists.
    + intros n a b Ha Hb. destruct (Hn n) as [Hr HP]; [apply elem_of_union; left; by apply elem_of_dom|]. split; [|done].
      rewrite (reported_both n a b Breaking Ha Hb) in Hr.
      destruct (classify_type_spec n a b (bool_decide (n ∈ embedded)) (m_version from) (m_version to)) as (c & _ & _ & C1 & C2).
      rewrite bool_decide_eq_false in C2. destruct (ch_verdict c); [left; by apply C1|right; by apply C2|].
      exfalso. apply Hr. split; [by intros ?%C1|by intros ?%C2].
  - intros [Hd Hn] n Hin. rewrite <- Hd in Hin. assert (n ∈ dom (m_types from)) as Hf by set_solver.
    pose proof Hf as Ht. rewrite Hd in Ht. apply elem_of_dom in Hf as [a Ha], Ht as [b Hb].
    destruct (Hn n a b Ha Hb) as [Hs HP]. split; [|done]. rewrite (reported_both n a b Breaking Ha Hb). tauto.
Qed.

Lemma classify_exact : exists r, classify from to = Ok r /\ r_from r = m_version from /\ r_to r = m_version to /\
  (verdict r <> Breaking <-> compatible) /\
  (verdict r = Identical <-> m_constants from = m_constants to /\ all_types (fun _ => same)) /\
  (forall c, c ∈ r_types r <-> exists n, n ∈ dom (m_types from) ∪ dom (m_types to) /\ type_change n = Ok c /\
     ch_verdict c <> Identical).
Proof.
  unfold classify. fold embedded.
  change (fun n r => c ← classify_type n _ _ _ _ _; _) with type_step.
  change (fun n r => c ← classify_const n _ _ _ _; _) with const_step.
  destruct (types_counted (in_order (dom (m_types from) ∪ dom (m_types to)))
    (MkPairReport (m_version from) (m_version to) 0 0 0 [] [])) as (r1 & -> & F1 & T1 & C1 & B1 & A1 & L1).
  { intros n Hn. by apply type_change_total, in_order_elem. }
  cbn [mbind outcome_bind].
  destruct (consts_counted (in_order (dom (m_constants from) ∪ dom (m_constants to))) r1) as (r & -> & F2 & T2 & B2 & A2 & L2 & C2).
  { intros n Hn. by apply const_change_total, in_order_elem. }
  rewrite C1, consts_same in C2. cbn in *.
  exists r. split; [done|]. split; [congruence|]. split; [congruence|].
  assert (r_breaking r = 0%nat <-> forall n, n ∈ in_order (dom (m_types from) ∪ dom (m_types to)) -> ~ reported n Breaking) as HB.
  { rewrite B2, B1. naive_solver. }
  assert (r_append_only r = 0%nat <-> forall n, n ∈ in_order (dom (m_types from) ∪ dom (m_types to)) -> ~ reported n AppendOnly) as HA.
  { rewrite A2, A1. naive_solver. }
  split_and!.
  - unfold verdict, compatible. pose proof (not_reported (fun _ => True)) as Hn.
    trans (r_breaking r = 0%nat /\ length (r_constants r) = 0%nat).
    { repeat case_bool_decide; cbn; split; try done; try lia; intros [? ?]; lia. }
    rewrite HB, C2. split; [intros [H1 [_ H2]]|intros [H2 H1]]; split; try done; [|].
    + destruct (proj1 Hn) as [D1 D2]; [intros n Hin; split; [by apply H1|done]|]. split; [done|]. intros n a b Ha Hb. by destruct (D2 n a b Ha Hb).
    + intros n Hin. destruct (proj2 Hn) with n as [? _]; [|done|done]. destruct H1 as [D1 D2]. split; [done|]. intros; split; [by apply D2|done].
  - unfold verdict. pose proof (not_reported (fun n => ~ reported n AppendOnly)) as Hn.
    trans (r_breaking r = 0%nat /\ r_append_only r = 0%nat /\ length (r_constants r) = 0%nat).
    { repeat case_bool_decide; cbn; split; try done; try lia; intros (? & ? & ?); lia. }
    rewrite HB, HA, C2. split.
    + intros (H1 & H2 & _ & H3). split; [done|]. destruct (proj1 Hn) as [D1 D2]; [intros n Hin; split; by auto|].
      split; [done|]. intros n a b Ha Hb. destruct (D2 n a b Ha Hb) as [[?|He] Ho]; [done|]. exfalso. apply Ho.
      by apply (reported_both n a b AppendOnly Ha Hb).
    + intros [H3 [D1 D2]]. assert (all_types (fun n a b => (same a b \/ extends a b /\ n ∉ embedded) /\ ~ reported n AppendOnly)) as Hall.
      { split; [done|]. intros n a b Ha Hb. split; [left; by apply D2 with n|]. rewrite (reported_both n a b AppendOnly Ha Hb).
        destruct (D2 n a b Ha Hb) as (_ & Hadd & _). by intros [(_ & Hne & _) _]. }
      split_and!; [intros n Hin; by apply (proj2 Hn Hall)..|done|done].
  - intros c. rewrite L2, L1. setoid_rewrite in_order_elem. split; [intros [[]%elem_of_nil|?]; done|by right].
Qed.
End pair.

(** ** What a caller reads *)
Lemma embedded_types_elem m d : d ∈ embedded_types m <-> exists n t, m_types m !! n = Some t /\ d ∈ t_embeds t.
Proof.
  unfold embedded_types. apply (map_fold_weak_ind (fun out ts => d ∈ out <-> exists n t, ts !! n = Some t /\ d ∈ t_embeds t)).
  - split; [set_solver|]. by intros (? & ? & ?%lookup_empty_Some & _).
  - intros n t ts out Hn IH. rewrite elem_of_union, IH. split.
    + intros [Hd|(k & u & Hk & Hu)]; [exists n, t; by rewrite lookup_insert_eq|]. exists k, u. split; [|done].
      rewrite lookup_insert_ne; [done|]. congruence.
    + intros (k & u & [[-> ->]|[_ Hk]]%lookup_insert_Some & Hu); [by left|right; by exists k, u].
Qed.

Lemma find_field_some fs n f : find_field fs n = Some f -> f ∈ fs /\ f_name f = n.
Proof.
  unfold find_field. intros [Hin Hb]%List.find_some. split; [by apply list_elem_of_In|]. by apply bool_decide_eq_true in Hb.
Qed.

Lemma kept_found a b n f : kept a b -> find_field (t_fields a) n = Some f ->
  exists g, find_field (t_fields b) n = Some g /\ f_offset g = f_offset f /\ f_ty g = f_ty f.
Proof.
  intros (_ & _ & Hk) [Hin <-]%find_field_some. rewrite Forall_forall in Hk. by apply Hk.
Qed.

Lemma same_found a b n g : same a b -> find_field (t_fields b) n = Some g ->
  exists f, find_field (t_fields a) n = Some f /\ f_offset f = f_offset g /\ f_ty f = f_ty g.
Proof.
  intros (Hk & Ha & _) Hg. pose proof (find_field_some _ _ _ Hg) as [Hin Hn].
  assert (existsb (fun f => bool_decide (f_name f = f_name g)) (t_fields a) = true) as Hex.
  { destruct (existsb _ _) eqn:E; [done|]. exfalso. assert (g ∈ added_fields a b) as Hadd; [|rewrite Ha in Hadd; by apply elem_of_nil in Hadd].
    apply list_elem_of_In, filter_In. split; [by apply list_elem_of_In|]. by rewrite E. }
  destruct (find_field (t_fields a) n) as [f|] eqn:Hf.
  - destruct (kept_found a b n f Hk Hf) as (g' & Hg' & Ho & Ht). exists f. rewrite Hg in Hg'. injection Hg' as <-. auto.
  - exfalso. apply existsb_exists in Hex as (f & Hin' & Hb). apply bool_decide_eq_true in Hb.
    apply find_Forall in Hf. rewrite Forall_forall in Hf. specialize (Hf f ltac:(by apply list_elem_of_In)).
    apply bool_decide_eq_false in Hf. congruence.
Qed.

Section access.
(** The name of the type a field of this spelling holds by value, or whose
    elements it holds ([by_value_refs] on the parsed type).  The name means
    what the aliases of the driver say. *)
Context (elem : string -> option string).

Definition denotes (m : Manifest) (ty : string) : option string :=
  e ← elem ty; if bool_decide (resolve_name m e ∈ dom (m_types m)) then Some (resolve_name m e) else None.

(** What [Manifest::parse] records of the types its fields contain. *)
Definition embeds_named (m : Manifest) : Prop :=
  forall n t f d, m_types m !! n = Some t -> f ∈ t_fields t -> denotes m (f_ty f) = Some d -> d ∈ t_embeds t.

(** The names written in the fields of [from] mean the same in both. *)
Definition aliases_agree (from to : Manifest) : Prop :=
  forall n t f e, m_types from !! n = Some t -> f ∈ t_fields t -> elem (f_ty f) = Some e ->
    resolve_name from e = resolve_name to e.

Lemma resolve_name_ext m m' e :
  m_aliases m = m_aliases m' -> dom (m_types m) = dom (m_types m') -> resolve_name m e = resolve_name m' e.
Proof.
  intros Ha Hd. unfold resolve_name. generalize 32%nat as fuel. intros fuel. revert e.
  induction fuel as [|fuel IH]; intros e; [done|]. cbn. rewrite Ha, Hd. destruct (_ !! e) as [next|]; [|done].
  destruct (_ || _); [apply IH|done].
Qed.

(** Equal alias tables agree where the same types are declared. *)
Lemma same_aliases_agree from to :
  m_aliases from = m_aliases to -> dom (m_types from) = dom (m_types to) -> aliases_agree from to.
Proof. intros Ha Hd n t f e _ _ _. by apply resolve_name_ext. Qed.

Lemma denotes_agree from to n t f :
  aliases_agree from to -> dom (m_types from) = dom (m_types to) ->
  m_types from !! n = Some t -> f ∈ t_fields t -> denotes from (f_ty f) = denotes to (f_ty f).
Proof.
  intros Hag Hd Ht Hf. unfold denotes. destruct (elem (f_ty f)) as [e|] eqn:He; [|done]. cbn [mbind option_bind].
  by rewrite (Hag n t f e Ht Hf He), Hd.
Qed.

(** Where a caller built for [m] finds what a path of fields and element
    numbers leads to, from the start of a [n], and its type. *)
Fixpoint place (m : Manifest) (n : string) (path : list (string * Z)) : option (Z * string) :=
  match path with
  | [] => None
  | (f, i) :: rest =>
      t ← m_types m !! n; g ← find_field (t_fields t) f; o ← f_offset g;
      match rest with
      | [] => if i =? 0 then Some (o, f_ty g) else None
      | _ =>
          d ← denotes m (f_ty g); td ← m_types m !! d; x ← place m d rest;
          Some (o + i * t_size td + x.1, x.2)
      end
  end.

Lemma place_kept from to (all : all_types from to (fun n a b => same a b \/ extends a b /\ n ∉ embedded from to)) path :
  embeds_named from -> aliases_agree from to ->
  forall n x, place from n path = Some x -> place to n path = Some x.
Proof.
  intros Hemb Hag. destruct all as [Hd Hall].
  assert (forall n a, m_types from !! n = Some a -> exists b, m_types to !! n = Some b /\ (same a b \/ extends a b /\ n ∉ embedded from to)) as Hto.
  { intros n a Ha. assert (n ∈ dom (m_types to)) as [b Hb]%elem_of_dom by (rewrite <- Hd; by apply elem_of_dom_2 in Ha).
    exists b. split; [done|]. by apply Hall. }
  induction path as [|[f i] rest IH]; intros n x; [done|]. cbn [place].
  destruct (m_types from !! n) as [a|] eqn:Ha; [|done]. destruct (Hto n a Ha) as (b & Hb & Hrel). rewrite Hb. cbn [mbind option_bind].
  destruct (find_field (t_fields a) f) as [g|] eqn:Hg; [|done]. cbn [mbind option_bind].
  destruct (kept_found a b f g) as (g' & Hg' & Ho & Ht); [by destruct Hrel as [[]|[[] _]]|done|]. rewrite Hg'. cbn [mbind option_bind]. rewrite Ho, Ht.
  destruct (f_offset g) as [o|]; [|done]. cbn [mbind option_bind]. destruct rest as [|s rest]; [done|].
  pose proof (find_field_some _ _ _ Hg) as [Hgin _]. rewrite <- (denotes_agree from to n a g Hag Hd Ha Hgin).
  destruct (denotes from (f_ty g)) as [d|] eqn:Hden; [|done]. cbn [mbind option_bind].
  destruct (m_types from !! d) as [td|] eqn:Htd; [|done]. destruct (Hto d td Htd) as (td' & Htd' & Hrel'). rewrite Htd'. cbn [mbind option_bind].
  destruct (place from d (s :: rest)) as [y|] eqn:Hy; [|done]. rewrite (IH d y Hy). cbn [mbind option_bind].
  assert (t_size td = t_size td') as ->; [|done].
  destruct Hrel' as [(_ & _ & ?)|[_ Hno]]; [done|]. exfalso. apply Hno. unfold embedded. apply elem_of_union. left. apply embedded_types_elem.
  exists n, a. split; [done|]. by eapply Hemb.
Qed.

Lemma place_same from to (all : all_types from to (fun _ => same)) path :
  aliases_agree from to -> forall n x, place to n path = Some x -> place from n path = Some x.
Proof.
  intros Hag. destruct all as [Hd Hall].
  assert (forall n b, m_types to !! n = Some b -> exists a, m_types from !! n = Some a /\ same a b) as Hfrom.
  { intros n b Hb. assert (n ∈ dom (m_types from)) as [a Ha]%elem_of_dom by (rewrite Hd; by apply elem_of_dom_2 in Hb).
    exists a. split; [done|]. by apply (Hall n). }
  induction path as [|[f i] rest IH]; intros n x; [done|]. cbn [place].
  destruct (m_types to !! n) as [b|] eqn:Hb; [|done]. destruct (Hfrom n b Hb) as (a & Ha & Hrel). rewrite Ha. cbn [mbind option_bind].
  destruct (find_field (t_fields b) f) as [g|] eqn:Hg; [|done]. cbn [mbind option_bind].
  destruct (same_found a b f g Hrel Hg) as (g' & Hg' & Ho & Ht). rewrite Hg'. cbn [mbind option_bind]. rewrite Ho, Ht.
  destruct (f_offset g) as [o|]; [|done]. cbn [mbind option_bind]. destruct rest as [|s rest]; [done|].
  pose proof (find_field_some _ _ _ Hg') as [Hgin _]. rewrite <- Ht, (denotes_agree from to n a g' Hag Hd Ha Hgin).
  destruct (denotes to (f_ty g')) as [d|]; [|done]. cbn [mbind option_bind].
  destruct (m_types to !! d) as [td|] eqn:Htd; [|done]. destruct (Hfrom d td Htd) as (td' & Htd' & (_ & _ & Hs)). rewrite Htd'. cbn [mbind option_bind].
  destruct (place to d (s :: rest)) as [y|] eqn:Hy; [|done]. rewrite (IH d y Hy). cbn [mbind option_bind]. by rewrite Hs.
Qed.
End access.

(** ** The shared declarations (items.rs, emit.rs) *)
Record ItemGroup := MkGroup { g_text : string; g_refs : gset string }.
Record Items := MkItems { it_order : list string; it_groups : gmap string ItemGroup }.
Record Version := MkVersion { v_name : string; v_manifest : Manifest; v_items : Items }.
Record Partition := MkPartition { p_stable : list string; p_volatile : gset string }.

Definition groups (v : Version) : gmap string ItemGroup := it_groups (v_items v).

(** The same text in every version, or in none. *)
Definition same_text (versions : list Version) (primary : Version) (n : string) : bool :=
  forallb (fun v => bool_decide (g_text <$> groups v !! n = g_text <$> groups primary !! n)) versions.

Definition refers_outside (primary : Version) (stable : gset string) (n : string) : bool :=
  match groups primary !! n with Some g => negb (bool_decide (g_refs g ⊆ stable)) | None => false end.

(** One round; indexing a name that is not there panics. *)
Definition to_drop (primary : Version) (stable : gset string) : outcome Empty_set (gset string) :=
  if bool_decide (stable ⊆ dom (groups primary))
  then Ok (filter (fun n => refers_outside primary stable n = true) stable)
  else Panic.

Fixpoint drop_until (fuel : nat) (primary : Version) (stable : gset string) : option (outcome Empty_set (gset string)) :=
  match fuel with
  | O => None
  | S fuel =>
      match to_drop primary stable with
      | Ok d => if bool_decide (d = ∅) then Some (Ok stable) else drop_until fuel primary (stable ∖ d)
      | _ => Some Panic
      end
  end.

(** Each round but the last removes a name, so one round more than there are
    names is enough. *)
Definition partition (versions : list Version) : option (outcome Empty_set Partition) :=
  match versions with
  | [] => Some Panic
  | primary :: _ =>
      let same := filter (fun n => same_text versions primary n = true) (dom (groups primary)) in
      r ← drop_until (S (size same)) primary same;
      Some (stable ← r;
        Ok (MkPartition (List.filter (fun n => bool_decide (n ∈ stable)) (it_order (v_items primary)))
              (⋃ (map (fun v => dom (groups v)) versions) ∖ stable)))
  end.

Definition closed (primary : Version) (s : gset string) : Prop :=
  forall n, n ∈ s -> exists g, groups primary !! n = Some g /\ g_refs g ⊆ s.

Lemma drop_until_spec primary fuel : forall s, s ⊆ dom (groups primary) -> (size s < fuel)%nat ->
  exists s', drop_until fuel primary s = Some (Ok s') /\ s' ⊆ s /\ closed primary s' /\
    forall T, T ⊆ s -> closed primary T -> T ⊆ s'.
Proof.
  induction fuel as [|fuel IH]; intros s Hs Hf; [lia|]. cbn [drop_until]. unfold to_drop. rewrite bool_decide_true by done.
  set (d := filter _ s). case_bool_decide as Hd.
  - exists s. split_and!; [done|done| |done]. intros n Hn. pose proof (Hs n Hn) as [g Hg]%elem_of_dom. exists g. split; [done|].
    destruct (decide (g_refs g ⊆ s)) as [|Hno]; [done|]. exfalso. assert (n ∈ d) as Hin; [|rewrite Hd in Hin; by apply elem_of_empty in Hin].
    apply elem_of_filter. split; [|done]. unfold refers_outside. rewrite Hg. by rewrite bool_decide_false.
  - assert (d ⊆ s) as Hsub by (intros n [_ Hn]%elem_of_filter; done).
    assert (size d <> 0%nat) as Hne by (by intros ?%size_empty_inv%leibniz_equiv).
    pose proof (subseteq_size _ _ Hsub) as Hle.
    destruct (IH (s ∖ d)) as (s' & E & S1 & S2 & S3); [set_solver|rewrite size_difference by done; lia|].
    exists s'. split_and!; [done|set_solver|done|]. intros T HT Hc. apply S3; [|done].
    intros n Hn. apply elem_of_difference. split; [by apply HT|]. intros [Hr _]%elem_of_filter.
    destruct (Hc n Hn) as (g & Hg & Hrefs). unfold refers_outside in Hr. rewrite Hg in Hr.
    apply negb_true_iff, bool_decide_eq_false in Hr. set_solver.
Qed.

Lemma same_text_spec versions primary n : n ∈ dom (groups primary) -> primary ∈ versions ->
  same_text versions primary n = true <->
  exists g, groups primary !! n = Some g /\ forall v, v ∈ versions -> exists g', groups v !! n = Some g' /\ g_text g' = g_text g.
Proof.
  intros [g Hg]%elem_of_dom Hp. unfold same_text. rewrite forallb_forall. setoid_rewrite bool_decide_eq_true. rewrite Hg. split.
  - intros Hv. exists g. split; [done|]. intros v Hin%list_elem_of_In. specialize (Hv v Hin).
    destruct (groups v !! n) as [g'|]; [|done]. exists g'. split; [done|]. by injection Hv.
  - intros (g' & [= <-] & Hv) v Hin%list_elem_of_In. destruct (Hv v Hin) as (g' & -> & Ht). cbn. by rewrite Ht.
Qed.

(** The same declaration in every version. *)
Definition shared (versions : list Version) (primary : Version) (n : string) : Prop :=
  exists g, groups primary !! n = Some g /\
    forall v, v ∈ versions -> exists g', groups v !! n = Some g' /\ g_text g' = g_text g.

Lemma partition_spec primary vs : (forall n, n ∈ it_order (v_items primary) <-> n ∈ dom (groups primary)) ->
  exists p, partition (primary :: vs) = Some (Ok p) /\
    (forall n, n ∈ p_stable p -> shared (primary :: vs) primary n /\
       forall g m, groups primary !! n = Some g -> m ∈ g_refs g -> m ∈ p_stable p) /\
    (forall T : gset string, (forall n, n ∈ T -> shared (primary :: vs) primary n) -> closed primary T ->
       forall n, n ∈ T -> n ∈ p_stable p) /\
    (forall n, n ∈ p_volatile p <-> (exists v, v ∈ primary :: vs /\ n ∈ dom (groups v)) /\ n ∉ p_stable p).
Proof.
  intros Hord. unfold partition. set (versions := primary :: vs). set (s0 := filter _ (dom (groups primary))).
  assert (primary ∈ versions) as Hp by (by left).
  destruct (drop_until_spec primary (S (size s0)) s0) as (s & -> & S1 & S2 & S3); [set_solver|lia|].
  cbn [mbind option_bind outcome_bind]. eexists. split; [done|]. cbn [p_stable p_volatile].
  assert (s0 ⊆ dom (groups primary)) as Hs0 by (intros n [_ Hn]%elem_of_filter; done).
  assert (forall n, n ∈ List.filter (fun n => bool_decide (n ∈ s)) (it_order (v_items primary)) <-> n ∈ s) as Hmem.
  { intros n. rewrite list_elem_of_In, filter_In, <- list_elem_of_In, bool_decide_eq_true, Hord. split; [tauto|]. intros Hn. split; [|done]. by apply Hs0, S1. }
  split_and!.
  - intros n Hn%Hmem. split.
    + pose proof (S1 n Hn) as [Ht Hd]%elem_of_filter. by apply same_text_spec in Ht.
    + intros g m Hg Hm. apply Hmem. destruct (S2 n Hn) as (g' & Hg' & Hr). rewrite Hg in Hg'. injection Hg' as <-. by apply Hr.
  - intros T HT Hc n Hn. apply Hmem. apply (S3 T); [|done|done]. intros m Hm. apply elem_of_filter.
    destruct (HT m Hm) as (g & Hg & Hv). assert (m ∈ dom (groups primary)) as Hd by (by apply elem_of_dom_2 in Hg).
    split; [|done]. apply same_text_spec; [done|done|]. by exists g.
  - intros n. rewrite elem_of_difference, Hmem, elem_of_union_list. split; intros [Hx Hn]; (split; [|done]).
    + destruct Hx as (X & HX & Hin). apply list_elem_of_fmap in HX as (v & -> & Hv). by exists v.
    + destruct Hx as (v & Hv & Hin). exists (dom (groups v)). split; [|done]. by apply (list_elem_of_fmap_2 (fun v => dom (groups v))).
Qed.

(** ** Stopping the generator (emit.rs) *)

(** abi.toml: the mediated types and, by version, the breaks acknowledged. *)
Record AbiToml := MkAbiToml { cfg_mediated : gmap string string; cfg_layout : gmap string (gset string) }.

Definition mediated_values (cfg : AbiToml) : list string :=
  omap (fun k => cfg_mediated cfg !! k) (in_order (dom (cfg_mediated cfg))).
Definition mediated (cfg : AbiToml) : gset string := list_to_set (mediated_values cfg).

Definition windows2 {X} (l : list X) : list (X * X) := combine l (tl l).

Definition declared (cfg : AbiToml) (version n : string) : bool :=
  match cfg_layout cfg !! version with Some names => bool_decide (n ∈ names) | None => false end.

Definition breaks (r : PairReport) : list Change := List.filter (fun c => bool_decide (ch_verdict c = Breaking)) (r_types r).

Definition owed_by (cfg : AbiToml) (part : Partition) (reports : list PairReport) (w : Version * Version)
  : list (string * string * list Reason) :=
  match find_pair reports (v_name w.1) (v_name w.2) with
  | None => []
  | Some r =>
      map (fun c => (v_name w.2, ch_name c, ch_reasons c))
        (List.filter (fun c => bool_decide (ch_name c ∈ mediated cfg) && bool_decide (ch_name c ∈ p_volatile part) &&
                               negb (declared cfg (v_name w.2) (ch_name c))) (breaks r))
  end.

Definition broke (versions : list Version) (reports : list PairReport) (version n : string) : bool :=
  existsb (fun w : Version * Version => bool_decide (v_name w.2 = version) &&
    existsb (fun r => bool_decide (r_from r = v_name w.1) && bool_decide (r_to r = version) &&
      existsb (fun c => bool_decide (ch_name c = n)) (breaks r)) reports) (windows2 versions).

Definition stale_acks (cfg : AbiToml) (versions : list Version) (reports : list PairReport) : list (string * string) :=
  concat (map (fun v => map (fun n => (v, n))
    (List.filter (fun n => negb (broke versions reports v n)) (in_order (default ∅ (cfg_layout cfg !! v)))))
    (in_order (dom (cfg_layout cfg)))).

Definition settled (cfg : AbiToml) (part : Partition) : list string :=
  List.filter (fun n => negb (bool_decide (n ∈ p_volatile part))) (mediated_values cfg).

Inductive Refused :=
| StaleAcks (l : list (string * string)) | Settled (l : list string) | Owed (l : list (string * string * list Reason)).

Definition refuse_on_breaking (cfg : AbiToml) (part : Partition) (versions : list Version) (reports : list PairReport)
  : outcome Refused unit :=
  let owed := concat (map (owed_by cfg part reports) (windows2 versions)) in
  match stale_acks cfg versions reports with
  | _ :: _ as l => Err (StaleAcks l)
  | [] =>
      match settled cfg part with
      | _ :: _ as l => Err (Settled l)
      | [] => match owed with [] => Ok tt | _ :: _ => Err (Owed owed) end
      end
  end.

Lemma each_collect {X Y} (f : X -> outcome Empty_set Y) l : (forall x, exists y, f x = Ok y) -> forall out,
  exists ys, each (fun x out => y ← f x; Ok (out ++ [y])) l out = Ok (out ++ ys) /\ Forall2 (fun x y => f x = Ok y) l ys.
Proof.
  intros Hf. induction l as [|x l IH]; intros out; [exists []; by rewrite app_nil_r|].
  destruct (Hf x) as [y Hy]. destruct (IH (out ++ [y])) as (ys & E & H2). exists (y :: ys). cbn [each]. rewrite Hy. cbn [mbind outcome_bind].
  rewrite E, <- app_assoc. split; [done|by constructor].
Qed.

(** Every pair of different versions has its own report. *)
Lemma all_pairs_find ms : NoDup (map m_version ms) -> exists rs, all_pairs ms = Ok rs /\
  forall a b, a ∈ ms -> b ∈ ms -> m_version a <> m_version b ->
    (exists r, find_pair rs (m_version a) (m_version b) = Some r /\ classify a b = Ok r) /\
    (forall r, r ∈ rs -> r_from r = m_version a -> r_to r = m_version b -> classify a b = Ok r).
Proof.
  intros Hnd. unfold all_pairs. set (l := List.filter _ _).
  destruct (each_collect (fun ab : Manifest * Manifest => classify ab.1 ab.2) l) with (out := @nil PairReport) as (rs & E & H2).
  { intros [a b]. cbn [fst snd]. destruct (classify_exact a b) as (r & -> & _). by eexists. }
  exists rs. split; [done|]. intros a b Ha Hb Hne.
  assert (forall m m', m ∈ ms -> m' ∈ ms -> m_version m = m_version m' -> m = m') as Huniq.
  { intros m m' Hm Hm' Heq. apply list_elem_of_lookup in Hm as [i Hi], Hm' as [j Hj].
    assert (i = j) as ->; [|congruence]. apply (NoDup_lookup (map m_version ms) i j (m_version m) Hnd);
      [|rewrite Heq]; rewrite list_lookup_fmap; [by rewrite Hi|by rewrite Hj]. }
  assert ((a, b) ∈ l) as Hin.
  { apply list_elem_of_In, filter_In. split; [apply in_prod; by apply list_elem_of_In|]. cbn. by rewrite bool_decide_false. }
  assert (forall r, r ∈ rs -> r_from r = m_version a -> r_to r = m_version b -> classify a b = Ok r) as Hown.
  { intros r Hr Ef Et. apply list_elem_of_lookup in Hr as [i Hi]. destruct (Forall2_lookup_r _ _ _ _ _ H2 Hi) as ([a' b'] & Hi' & Hc).
    cbn in Hc. destruct (classify_exact a' b') as (r' & Hc' & F & T & _). rewrite Hc' in Hc. injection Hc as ->.
    apply list_elem_of_lookup_2, list_elem_of_In, filter_In in Hi' as [Hi' _]. apply in_prod_iff in Hi' as [Hia Hib].
    rewrite (Huniq a a'), (Huniq b b'); [done|done|by apply list_elem_of_In|congruence|done|by apply list_elem_of_In|congruence]. }
  split; [|done]. unfold find_pair. destruct (List.find _ rs) as [r|] eqn:Hf.
  - exists r. split; [done|]. apply List.find_some in Hf as [Hr Hb'%andb_true_iff]. rewrite !bool_decide_eq_true in Hb'.
    apply Hown; [by apply list_elem_of_In|tauto|tauto].
  - exfalso. apply list_elem_of_lookup in Hin as [i Hi]. destruct (Forall2_lookup_l _ _ _ _ _ H2 Hi) as (r & Hr & Hc).
    cbn in Hc. destruct (classify_exact a b) as (r' & Hc' & F & T & _). rewrite Hc' in Hc. injection Hc as ->.
    apply find_Forall in Hf. rewrite Forall_forall in Hf. specialize (Hf r ltac:(by eapply list_elem_of_lookup_2)).
    rewrite !bool_decide_true in Hf by done. done.
Qed.

Lemma type_change_name from to n c : type_change from to n = Ok c -> ch_name c = n.
Proof.
  unfold type_change. destruct (m_types from !! n) as [a|], (m_types to !! n) as [b|].
  - destruct (classify_type_spec n a b (bool_decide (n ∈ embedded from to)) (m_version from) (m_version to)) as (c' & -> & Hn & _).
    by intros [= <-].
  - by intros [= <-].
  - by intros [= <-].
  - done.
Qed.

(** A type that a caller built for [from] can use as [to] has it. *)
Definition usable (from to : Manifest) (n : string) : Prop :=
  exists a b, m_types from !! n = Some a /\ m_types to !! n = Some b /\ (same a b \/ extends a b /\ n ∉ embedded from to).

Lemma usable_dec from to n : n ∈ dom (m_types from) ∪ dom (m_types to) -> usable from to n \/ ~ usable from to n.
Proof.
  intros Hn. destruct (type_change_total from to n Hn) as [c Hc]. unfold usable.
  destruct (m_types from !! n) as [a|] eqn:Ha, (m_types to !! n) as [b|] eqn:Hb;
    try (right; intros (? & ? & ? & ? & _); congruence).
  assert (reported from to n (ch_verdict c)) as Hr by (by exists c).
  rewrite (reported_both from to n a b _ Ha Hb) in Hr. destruct (ch_verdict c).
  - left. exists a, b. auto.
  - left. exists a, b. auto.
  - right. intros (a' & b' & Ha' & Hb' & Hx). simplify_eq. tauto.
Qed.

Lemma breaks_spec from to r n : classify from to = Ok r ->
  (exists c, c ∈ breaks r /\ ch_name c = n) <-> n ∈ dom (m_types from) ∪ dom (m_types to) /\ ~ usable from to n.
Proof.
  intros Hr. destruct (classify_exact from to) as (r' & Hr' & _ & _ & _ & _ & Hc). rewrite Hr in Hr'. injection Hr' as <-.
  assert (forall c, c ∈ breaks r <-> c ∈ r_types r /\ ch_verdict c = Breaking) as Hb.
  { intros c. unfold breaks. by rewrite list_elem_of_In, filter_In, <- list_elem_of_In, bool_decide_eq_true. }
  assert (forall m, m ∈ dom (m_types from) ∪ dom (m_types to) -> reported from to m Breaking <-> ~ usable from to m) as Hu.
  { intros m Hm. destruct (m_types from !! m) as [a|] eqn:Ha, (m_types to !! m) as [b|] eqn:Hb'.
    - rewrite (reported_both from to m a b Breaking Ha Hb'). unfold usable. split.
      + intros [N1 N2] (a' & b' & Ha' & Hb'' & Hx). rewrite Ha in Ha'. rewrite Hb' in Hb''. simplify_eq. tauto.
      + intros Hn. split; intros Hx; apply Hn; exists a, b; auto.
    - split; [by intros _ (? & ? & ? & ? & _); congruence|]. intros _. unfold reported, type_change. rewrite Ha, Hb'. by eexists.
    - split; [by intros _ (? & ? & ? & ? & _); congruence|]. intros _. unfold reported, type_change. rewrite Ha, Hb'. by eexists.
    - apply elem_of_union in Hm as [[]%elem_of_dom|[]%elem_of_dom]; congruence. }
  split.
  - intros (c & [(m & Hm & Ht & _)%Hc Hv]%Hb & Hn). pose proof (type_change_name _ _ _ _ Ht) as Hn'. rewrite <- Hn, Hn'.
    split; [done|]. apply Hu; [done|]. by exists c.
  - intros [Hn Hno]. apply Hu in Hno as (c & Ht & Hv); [|done]. exists c. split; [|by eapply type_change_name].
    apply Hb. split; [|done]. apply Hc. exists n. split_and!; [done|done|congruence].
Qed.

Lemma windows2_elem {X} (l : list X) a b : (a, b) ∈ windows2 l <-> exists i, l !! i = Some a /\ l !! S i = Some b.
Proof.
  unfold windows2. induction l as [|x l IH]; cbn [tl].
  { cbn. rewrite elem_of_nil. split; [done|]. by intros (i & ? & _). }
  destruct l as [|y l]; cbn [combine].
  - rewrite elem_of_nil. split; [done|]. intros (i & _ & Hb). by destruct i.
  - rewrite elem_of_cons. cbn [tl] in IH. rewrite IH. split.
    + intros [[= -> ->]|(i & Ha & Hb)]; [by exists 0%nat|by exists (S i)].
    + intros ([|i] & Ha & Hb); [left; cbn in *; congruence|right; by exists i].
Qed.

Lemma filter_nil {X} (P : X -> bool) l : List.filter P l = [] <-> Forall (fun x => P x = false) l.
Proof.
  induction l as [|x l IH]; cbn; [by split|]. rewrite Forall_cons. destruct (P x); [|rewrite IH]; naive_solver.
Qed.

(** The reports of neighbouring versions. *)
Lemma reports_of (versions : list Version) rs :
  NoDup (map v_name versions) -> Forall (fun v => m_version (v_manifest v) = v_name v) versions ->
  all_pairs (map v_manifest versions) = Ok rs ->
  (forall i a b, versions !! i = Some a -> versions !! S i = Some b ->
     exists r, find_pair rs (v_name a) (v_name b) = Some r /\ classify (v_manifest a) (v_manifest b) = Ok r) /\
  (forall i a b r, versions !! i = Some a -> versions !! S i = Some b -> r ∈ rs -> r_from r = v_name a -> r_to r = v_name b ->
     classify (v_manifest a) (v_manifest b) = Ok r).
Proof.
  intros Hnd Hver Hrs. rewrite Forall_forall in Hver.
  assert (map m_version (map v_manifest versions) = map v_name versions) as Em.
  { rewrite map_map. apply map_ext_in. intros v Hv. by apply Hver, list_elem_of_In. }
  destruct (all_pairs_find (map v_manifest versions)) as (rs' & Hrs' & Hp); [by rewrite Em|].
  rewrite Hrs in Hrs'. injection Hrs' as <-.
  assert (forall i a b, versions !! i = Some a -> versions !! S i = Some b -> v_name a <> v_name b) as Hne.
  { intros i a b Ha Hb Heq. assert (i = S i); [|lia]. apply (NoDup_lookup (map v_name versions) i (S i) (v_name a) Hnd);
      [|rewrite Heq]; rewrite list_lookup_fmap; [by rewrite Ha|by rewrite Hb]. }
  assert (forall i a b, versions !! i = Some a -> versions !! S i = Some b ->
    (exists r, find_pair rs (v_name a) (v_name b) = Some r /\ classify (v_manifest a) (v_manifest b) = Ok r) /\
    (forall r, r ∈ rs -> r_from r = v_name a -> r_to r = v_name b -> classify (v_manifest a) (v_manifest b) = Ok r)) as Hq.
  { intros i a b Ha Hb. pose proof (list_elem_of_lookup_2 _ _ _ Ha) as Ia. pose proof (list_elem_of_lookup_2 _ _ _ Hb) as Ib.
    pose proof (Hp (v_manifest a) (v_manifest b) (list_elem_of_fmap_2 v_manifest _ _ Ia) (list_elem_of_fmap_2 v_manifest _ _ Ib)) as Hx.
    rewrite (Hver a Ia), (Hver b Ib) in Hx. exact (Hx (Hne i a b Ha Hb)). }
  split; [intros i a b Ha Hb; by apply (Hq i a b)|]. intros i a b r Ha Hb. by apply (Hq i a b).
Qed.

(** ** Theorems *)


(** C37: The declarations shared between driver versions are exactly those that
    can be: the loop that removes names ends; what is left reads the same in
    every version, as does everything it refers to, directly or not; no larger
    set of names of the first version has that property; and the names left to
    the versioned modules are all others of any version. *)
Theorem stable_names_shared primary vs :
  (forall n, n ∈ it_order (v_items primary) <-> n ∈ dom (groups primary)) ->
  exists p, partition (primary :: vs) = Some (Ok p) /\
    (forall n m, n ∈ p_stable p ->
       rtc (fun n m => exists g, groups primary !! n = Some g /\ m ∈ g_refs g) n m ->
       m ∈ p_stable p /\ shared (primary :: vs) primary m) /\
    (forall T : gset string, (forall n, n ∈ T -> shared (primary :: vs) primary n) -> closed primary T ->
       forall n, n ∈ T -> n ∈ p_stable p) /\
    (forall n, n ∈ p_volatile p <-> (exists v, v ∈ primary :: vs /\ n ∈ dom (groups v)) /\ n ∉ p_stable p).
Proof.
  intros Hord. destruct (partition_spec primary vs Hord) as (p & Hp & P1 & P2 & P3). exists p. split_and!; [done| |done|done].
  intros n m Hn Hr. induction Hr as [n|n k m (g & Hg & Hk) _ IH]; [split; [done|by apply P1]|].
  apply IH. by apply (P1 n Hn) with g.
Qed.

(** The generator only goes on when every break is known.  If it is not
    stopped, then between neighbouring versions every mediated type that
    abi.toml does not acknowledge can be used by callers built for the older
    version (it is unchanged, or only grew at its end and nothing contains it);
    every acknowledged break is a measured one; and every mediated type is one
    that differs between versions. *)
Theorem breaks_acknowledged cfg part (versions : list Version) rs :
  NoDup (map v_name versions) -> Forall (fun v => m_version (v_manifest v) = v_name v) versions ->
  all_pairs (map v_manifest versions) = Ok rs -> refuse_on_breaking cfg part versions rs = Ok tt ->
  (forall i a b n, versions !! i = Some a -> versions !! S i = Some b -> n ∈ mediated cfg ->
     n ∈ dom (m_types (v_manifest a)) ∪ dom (m_types (v_manifest b)) -> declared cfg (v_name b) n = false ->
     usable (v_manifest a) (v_manifest b) n) /\
  (forall v n, declared cfg v n = true -> exists i a b, versions !! i = Some a /\ versions !! S i = Some b /\ v_name b = v /\
     ~ usable (v_manifest a) (v_manifest b) n) /\
  (forall n, n ∈ mediated cfg -> n ∈ p_volatile part).
Proof.
  intros Hnd Hver Hrs Hok. destruct (reports_of versions rs Hnd Hver Hrs) as [Hfind Hown].
  unfold refuse_on_breaking in Hok. destruct (stale_acks cfg versions rs) eqn:Hst; [|done].
  destruct (settled cfg part) eqn:Hset; [|done]. destruct (concat _) eqn:Howed; [|done].
  assert (forall n, n ∈ mediated cfg -> n ∈ p_volatile part) as Hvol.
  { intros n Hn%elem_of_list_to_set. apply filter_nil in Hset. rewrite Forall_forall in Hset. specialize (Hset n Hn).
    by apply negb_false_iff, bool_decide_eq_true in Hset. }
  split_and!; [| |done].
  - intros i a b n Ha Hb Hm Hn Hdec. destruct (Hfind i a b Ha Hb) as (r & Hf & Hc).
    destruct (usable_dec _ _ n Hn) as [|Hno]; [done|]. exfalso.
    destruct (proj2 (breaks_spec _ _ r n Hc)) as (c & Hin & Hcn); [done|].
    apply concat_nil in Howed. rewrite Forall_forall in Howed. specialize (Howed (a, b)).
    unfold owed_by in Howed. cbn [fst snd] in Howed. rewrite Hf in Howed.
    apply fmap_nil_inv, filter_nil in Howed; [|apply windows2_elem; by exists i]. rewrite Forall_forall in Howed.
    specialize (Howed c Hin). rewrite Hcn, !bool_decide_true, Hdec in Howed by auto. done.
  - intros v n Hdec. unfold declared in Hdec. destruct (cfg_layout cfg !! v) as [names|] eqn:Hl; [|done]. apply bool_decide_eq_true in Hdec.
    unfold stale_acks in Hst. apply concat_nil in Hst. rewrite Forall_forall in Hst.
    specialize (Hst v (proj2 (in_order_elem _ _) (elem_of_dom_2 _ _ _ Hl))). apply fmap_nil_inv, filter_nil in Hst. rewrite Hl in Hst. cbn in Hst.
    rewrite Forall_forall in Hst. specialize (Hst n (proj2 (in_order_elem _ _) Hdec)). apply negb_false_iff in Hst. unfold broke in Hst.
    apply existsb_exists in Hst as ([a b] & Hw%list_elem_of_In & Hst). apply windows2_elem in Hw as (i & Ha & Hb). cbn [fst snd] in Hst.
    apply andb_true_iff in Hst as [Hv%bool_decide_eq_true Hst]. apply existsb_exists in Hst as (r & Hr%list_elem_of_In & Hst).
    rewrite !andb_true_iff, !bool_decide_eq_true in Hst. destruct Hst as [[Hf Ht] Hst].
    apply existsb_exists in Hst as (c & Hc%list_elem_of_In & Hn%bool_decide_eq_true).
    exists i, a, b. split_and!; [done|done|done|].
    apply (breaks_spec _ _ r n (Hown i a b r Ha Hb Hr Hf ltac:(congruence))). by exists c.
Qed.

(** ** Examples *)
Definition inner_type : TypeLayout :=
  MkTypeLayout Struct 8 4 [MkField "x" (Some 0) "u32"; MkField "y" (Some 4) "u32"] ∅.
Definition params_fields : list Field := [MkField "mode" (Some 0) "u32"; MkField "parts" (Some 8) "[Part; 2usize]"].

Definition driver_of (version : string) (params : TypeLayout) : Manifest :=
  MkManifest version "open-gpu-kernel-modules" "0" ∅ {["Part" := "INNER"%string]} {["LIMIT" := MkConstant "u32" "2"]} (<["PARAMS" := params]> {["INNER" := inner_type]}).

(** The parameters as they were, grown at the end, and rearranged. *)
Definition driver1 : Manifest := driver_of "580" (MkTypeLayout Struct 24 8 params_fields {["INNER"]}).
Definition driver2 : Manifest :=
  driver_of "595" (MkTypeLayout Struct 32 8 (params_fields ++ [MkField "extra" (Some 24) "u64"]) {["INNER"]}).
Definition driver3 : Manifest :=
  driver_of "610" (MkTypeLayout Struct 32 8 [MkField "parts" (Some 0) "[Part; 2usize]"; MkField "mode" (Some 16) "u32"] {["INNER"]}).

Definition example_elem (ty : string) : option string :=
  if bool_decide (ty = "[Part; 2usize]"%string) then Some "Part"%string else None.

(** A check of every entry of a map. *)
Lemma map_checked {X} (P : string * X -> bool) (m : gmap string X) n x :
  forallb P (map_to_list m) = true -> m !! n = Some x -> P (n, x) = true.
Proof.
  rewrite forallb_forall. intros Hall Hn. apply Hall, list_elem_of_In. by apply elem_of_map_to_list.
Qed.

Definition embeds_checked (elem : string -> option string) (m : Manifest) : bool :=
  forallb (fun nt : string * TypeLayout => forallb (fun f => match denotes elem m (f_ty f) with
    | Some d => bool_decide (d ∈ t_embeds nt.2) | None => true end) (t_fields nt.2)) (map_to_list (m_types m)).

Lemma embeds_checked_named elem m : embeds_checked elem m = true -> embeds_named elem m.
Proof.
  intros Hall n t f d Hn Hf Hd. pose proof (map_checked _ _ n t Hall Hn) as Ht. cbn [snd] in Ht.
  rewrite forallb_forall in Ht. specialize (Ht f (proj1 (list_elem_of_In _ _) Hf)). rewrite Hd in Ht.
  by apply bool_decide_eq_true in Ht.
Qed.

Lemma driver1_embeds : embeds_named example_elem driver1.
Proof. apply embeds_checked_named. vm_compute. reflexivity. Qed.


(** Two structures of one size, and a driver whose alias moved from one to the
    other: no type changed and the verdict is identical, but [y] is elsewhere.
    The comparison never looks at the aliases. *)
Definition other_type : TypeLayout :=
  MkTypeLayout Struct 8 4 [MkField "y" (Some 0) "u32"; MkField "x" (Some 4) "u32"] ∅.

Definition aliased (version target : string) : Manifest :=
  MkManifest version "open-gpu-kernel-modules" "0" ∅ {["Part" := target]} ∅
    (<["PARAMS" := MkTypeLayout Struct 24 8 params_fields {[target]}]>
     (<["INNER" := inner_type]> {["OTHER" := other_type]})).

Example retargeted_alias_missed :
  let from := aliased "580" "INNER" in let to := aliased "595" "OTHER" in
  let path := [("parts"%string, 1); ("y"%string, 0)] in
  embeds_named example_elem from /\
  (exists r, classify from to = Ok r /\ verdict r = Identical) /\
  place example_elem from "PARAMS" path = Some (20, "u32"%string) /\
  place example_elem to "PARAMS" path = Some (16, "u32"%string).
Proof.
  intros from to path. split; [apply embeds_checked_named; vm_compute; reflexivity|].
  split; [eexists; split; vm_compute; reflexivity|]. split; vm_compute; reflexivity.
Qed.

(** A refers to B, C to D; only D differs. *)
Definition version_of (m : Manifest) (d : string) : Version :=
  MkVersion (m_version m) m (MkItems ["C"; "A"; "D"; "B"]%string
    (<["A" := MkGroup "struct A" {["B"]}]> (<["B" := MkGroup "struct B" ∅]>
     (<["C" := MkGroup "struct C" {["D"]}]> {["D" := MkGroup d ∅]})))%string).

Lemma stable_names_shared_witness : exists p,
  partition [version_of driver1 "u32"; version_of driver2 "u64"] = Some (Ok p) /\ p_stable p = ["A"; "B"]%string /\
  shared [version_of driver1 "u32"; version_of driver2 "u64"] (version_of driver1 "u32") "B".
Proof.
  destruct (stable_names_shared (version_of driver1 "u32") [version_of driver2 "u64"]) as (p & Hp & Hs & _).
  { intros n. cbn. rewrite !dom_insert_L, dom_singleton_L. set_solver. }
  exists p. split; [exact Hp|].
  assert (p_stable p = ["A"; "B"]%string) as Ep.
  { assert (exists q, partition [version_of driver1 "u32"; version_of driver2 "u64"] = Some (Ok q) /\ p_stable q = ["A"; "B"]%string)
      as (q & Hq & Eq) by (eexists; split; [vm_compute; reflexivity|reflexivity]).
    rewrite Hp in Hq. injection Hq as ->. exact Eq. }
  split; [exact Ep|]. assert ("B"%string ∈ p_stable p) as Hin by (rewrite Ep; right; left).
  exact (proj2 (Hs "B"%string "B"%string Hin (rtc_refl _ _))).
Defined.

Definition example_versions : list Version := [version_of driver1 "u32"; version_of driver2 "u64"; version_of driver3 "u64"].
Definition example_toml : AbiToml := MkAbiToml {["Params" := "PARAMS"]}%string {["610" := {["PARAMS"]}]}%string.

Lemma breaks_acknowledged_witness : exists rs, all_pairs (map v_manifest example_versions) = Ok rs /\
  refuse_on_breaking example_toml (MkPartition [] {["PARAMS"%string]}) example_versions rs = Ok tt /\
  usable driver1 driver2 "PARAMS".
Proof.
  assert (exists rs, all_pairs (map v_manifest example_versions) = Ok rs /\
    refuse_on_breaking example_toml (MkPartition [] {["PARAMS"%string]}) example_versions rs = Ok tt) as (rs & Hrs & Hok)
    by (eexists; split; vm_compute; reflexivity).
  exists rs. split_and!; [exact Hrs|exact Hok|].
  destruct (breaks_acknowledged example_toml (MkPartition [] {["PARAMS"%string]}) example_versions rs) as (H1 & _).
  - apply (bool_decide_unpack _). vm_compute. exact I.
  - repeat constructor.
  - exact Hrs.
  - exact Hok.
  - apply (H1 0%nat (version_of driver1 "u32") (version_of driver2 "u64") "PARAMS"%string); [done|done| | |].
    + apply (bool_decide_unpack _). vm_compute. exact I.
    + apply (bool_decide_unpack _). vm_compute. exact I.
    + vm_compute. reflexivity.
Defined.
