(* ===== verification/Backing.v ===== *)
(** * The driver behind registered guest pages (host_pool.rs, share.rs)

    [HostPool] works against the interface [PoolDriver].  Here is what stands
    behind it: [Backing], the backend's own RM client of a session, and
    [RealPoolDriver], which turns each operation into one ioctl with a
    parameter block.  The kernel is the class [RmKernel], a function on bytes;
    its laws say what the documented fields of a block mean.  The theorem is
    that the driver, seen through the sessions that own clients and UVM files,
    keeps every law [HostPool] relies on. *)
From stdpp Require Import strings.
From S2P Require Import Prelude.
From S2P Require Import Effects.
From S2P Require Import Bytes.
From S2P Require Import Text.
From S2P Require Import CLayout.
From S2P Require Import SysConsts.
From S2P Require Import Sys.
From S2P Require Import SysLayout.
From S2P Require Import NvAbi.
From S2P Require Import Xlate.
From S2P Require Import Mirror.
From S2P Require Import Naming.
From S2P Require Import Answers.
From S2P Require Import Arena.
From S2P Require Import HostPool.

Local Open Scope string_scope.
Local Open Scope list_scope.
Local Open Scope Z_scope.

(** ** Parameter blocks *)

(** A zeroed structure with some members assigned. *)
Definition build (size : Z) (fs : list (Z * bytes)) : bytes :=
  foldl (fun b f => put_range b f.1 f.2) (replicate (Z.to_nat size) 0) fs.

Definition word_at (o v : Z) : Z * bytes := (o, le_bytes 4 v).
Definition quad_at (o v : Z) : Z * bytes := (o, le_bytes 8 v).

(** The members lie inside and apart from each other, by offset and length. *)
Definition apart (f g : Z * Z) : bool := (f.1 + f.2 <=? g.1) || (g.1 + g.2 <=? f.1).
Fixpoint fits (size : Z) (fs : list (Z * Z)) : bool :=
  match fs with
  | [] => true
  | f :: r => (0 <=? f.1) && (0 <=? f.2) && (f.1 + f.2 <=? size) && forallb (apart f) r && fits size r
  end.
Definition extents (fs : list (Z * bytes)) : list (Z * Z) := map (fun f => (f.1, blen f.2)) fs.

Lemma build_length size fs : 0 <= size -> fits size (extents fs) = true -> blen (build size fs) = size.
Proof.
  intros Hs. unfold build.
  assert (blen (replicate (Z.to_nat size) 0) = size) as Hl by (unfold blen; rewrite length_replicate; lia).
  revert Hl. generalize (replicate (Z.to_nat size) 0). induction fs as [|[o d] fs IH]; intros b Hl Hf; cbn; [done|].
  cbn [extents map fits fst snd] in Hf. rewrite !andb_true_iff, !Z.leb_le in Hf. destruct Hf as [[[[? ?] ?] _] Hf].
  apply IH; [|done]. rewrite blen_put_range; lia.
Qed.

(** Later members leave [o, o + n) alone. *)
Lemma build_keeps size fs : forall b o n, blen b = size -> fits size (extents fs) = true ->
  forallb (apart (o, n)) (extents fs) = true ->
  get_range (foldl (fun b f => put_range b f.1 f.2) b fs) o n = get_range b o n.
Proof.
  induction fs as [|[p d] fs IH]; intros b o n Hl Hf Ha; cbn; [done|].
  cbn [extents map fits forallb fst snd] in Hf, Ha. rewrite !andb_true_iff, !Z.leb_le in Hf. destruct Hf as [[[[? ?] ?] _] Hf].
  apply andb_true_iff in Ha as [Hp Ha]. unfold apart in Hp. cbn [fst snd] in Hp. rewrite orb_true_iff, !Z.leb_le in Hp.
  rewrite IH; [|rewrite blen_put_range; lia|done|done]. apply get_put_disjoint; lia.
Qed.

Lemma build_get size fs o d : 0 <= size -> fits size (extents fs) = true -> (o, d) ∈ fs ->
  get_range (build size fs) o (blen d) = Some d.
Proof.
  intros Hs. unfold build.
  assert (blen (replicate (Z.to_nat size) 0) = size) as Hl by (unfold blen; rewrite length_replicate; lia).
  revert Hl. generalize (replicate (Z.to_nat size) 0). induction fs as [|[p e] fs IH]; intros b Hl Hf Hin.
  { by apply elem_of_nil in Hin. }
  cbn [extents map fits fst snd] in Hf. rewrite !andb_true_iff, !Z.leb_le in Hf. destruct Hf as [[[[? ?] ?] Ha] Hf].
  cbn [foldl fst snd]. apply elem_of_cons in Hin as [[= -> ->]|Hin].
  - rewrite (build_keeps size); [|rewrite blen_put_range; lia|done|done]. by apply get_put_same; [|lia].
  - apply IH; [rewrite blen_put_range; lia|done|done].
Qed.

Lemma build_u32 size fs o v : 0 <= size -> fits size (extents fs) = true -> word_at o v ∈ fs -> is_u32 v ->
  get_u32 (build size fs) o = Some v.
Proof.
  intros Hs Hf Hin Hv. pose proof (build_get size fs _ _ Hs Hf Hin) as Hg. unfold blen in Hg. rewrite length_le_bytes in Hg.
  unfold get_le. rewrite Hg. cbn [fmap option_fmap option_map]. f_equal. apply le_val_le_bytes_small. unfold is_u32, u32_max in Hv.
  change (256 ^ Z.of_nat 4) with 4294967296. lia.
Qed.

Lemma build_u64 size fs o v : 0 <= size -> fits size (extents fs) = true -> quad_at o v ∈ fs -> is_u64 v ->
  get_u64 (build size fs) o = Some v.
Proof.
  intros Hs Hf Hin Hv. pose proof (build_get size fs _ _ Hs Hf Hin) as Hg. unfold blen in Hg. rewrite length_le_bytes in Hg.
  unfold get_le. rewrite Hg. cbn [fmap option_fmap option_map]. f_equal. apply le_val_le_bytes_small. unfold is_u64, u64_max in Hv.
  change (256 ^ Z.of_nat 8) with 18446744073709551616. lia.
Qed.

(** ** The kernel *)

(** What the pointer in a block leads to: nothing, a parameter buffer, or the
    pages of an arena, which are known by their identity as in [HostPool]. *)
Inductive Pointee := Nothing | Params (b : bytes) | Pages (arena : Z).

(** An open file stands for the descriptors that share it. *)
Class RmKernel (K : Type) := {
  k_open : K -> string -> option Z * K;
  k_close : K -> Z -> K;
  k_ioctl : K -> Z -> Z -> bytes -> Pointee -> Z * (bytes * Pointee) * K;
  (** a successful UVM_FREE made for the guest *)
  k_uvm_freed : K -> Z -> Z -> K;
  (** OS descriptors by client and handle, UVM mappings by file and address,
      with the arena whose pages each can reach *)
  k_objects : K -> gmap (Z * Z) Z;
  k_ranges : K -> gmap (Z * Z) Z;
}.

Inductive BackErr :=
| OpenFailed | IoctlFailed (nr : Z) | Rm (nr status : Z) | HandlesExhausted | BadGid (len : Z)
| GrantRefused (ret status : Z) | UvmIoctl | UvmStatus (status : Z).

(** ** The client of a session (host_pool.rs, [Backing]) *)
Module backing.
Record Backing := MkBacking { ctl : Z; gpu_reg : Z; root : Z; device : Z; uuid : bytes }.

Definition OSDESC_FLAGS : Z :=
  Z.lor (Z.lor (Z.lor (Z.shiftl 1 4) (Z.shiftl 0 8)) (Z.shiftl 1 12)) (Z.shiftl 1 30).
Definition UVM_MAP_EXTERNAL_ALLOCATION : Z := 33.
Definition UVM_CREATE_EXTERNAL_RANGE : Z := 73.
Definition CREATE_RANGE_STATUS_OFF : Z := offset_of UVM_CREATE_EXTERNAL_RANGE_PARAMS "rmStatus".
Definition MAP_EXTERNAL_STATUS_OFF : Z := offset_of UVM_MAP_EXTERNAL_ALLOCATION_PARAMS "rmStatus".

(** The assertions of the source. *)
Example status_offsets : CREATE_RANGE_STATUS_OFF = 16 /\ MAP_EXTERNAL_STATUS_OFF = 9260 /\
  size_of UVM_CREATE_EXTERNAL_RANGE_PARAMS = 24 /\ size_of UVM_MAP_EXTERNAL_ALLOCATION_PARAMS = 9264 /\
  OSDESC_FLAGS = 0x40001010.
Proof. vm_compute. done. Qed.

Section client.
Context {K : Type} `{RmKernel K}.
(** Where a parameter buffer of the caller lies. *)
Context (buf_addr : Z).

Definition open_dev (path : string) : eff BackErr K Z := fun k =>
  match k_open k path with
  | (Some fd, k) => (Ok fd, k)
  | (None, k) => (Err OpenFailed, k)
  end.

(** A descriptor that is closed when [m] is over, however it ends. *)
Definition closing {X} (fd : Z) (m : eff BackErr K X) : eff BackErr K X := fun k =>
  let '(r, k) := m k in (r, k_close k fd).

Definition ioctl_raw (fd nr : Z) (t : layout) (b : bytes) (p : Pointee) : eff BackErr K (bytes * Pointee) := fun k =>
  let '(r, out, k) := k_ioctl k fd (Ioc.iowr t nr) b p in
  (if r <? 0 then Err (IoctlFailed nr) else Ok out, k).

Definition check_status (nr status : Z) : outcome BackErr unit :=
  if status =? NV_OK then Ok tt else Err (Rm nr status).

(** The status word of a block the driver has filled in. *)
Definition checked (nr o : Z) (out : bytes * Pointee) : outcome BackErr unit :=
  s ← or_panic (get_u32 out.1 o); check_status nr s.

Definition alloc (b : Backing) (parent h class : Z) (params : Pointee) : eff BackErr K unit :=
  let t := NVOS64_PARAMETERS in
  out ← ioctl_raw (ctl b) NV_ESC_RM_ALLOC t
    (build (size_of t)
       [word_at (offset_of t "hRoot") (root b); word_at (offset_of t "hObjectParent") parent;
        word_at (offset_of t "hObjectNew") h; word_at (offset_of t "hClass") class;
        quad_at (offset_of t "pAllocParms") (match params with Nothing => 0 | _ => buf_addr end)]) params;
  lift (checked NV_ESC_RM_ALLOC (offset_of t "status") out).

Definition control (b : Backing) (object cmd : Z) (params : bytes) : eff BackErr K bytes :=
  let t := NVOS54_PARAMETERS in
  out ← ioctl_raw (ctl b) NV_ESC_RM_CONTROL t
    (build (size_of t)
       [word_at (offset_of t "hClient") (root b); word_at (offset_of t "hObject") object; word_at (offset_of t "cmd") cmd;
        quad_at (offset_of t "params") buf_addr; word_at (offset_of t "paramsSize") (wrap32 (blen params))]) (Params params);
  _ ← lift (checked NV_ESC_RM_CONTROL (offset_of t "status") out);
  mret (match out.2 with Params p => p | _ => params end).

(** The counter of handles is the state beside the kernel's. *)
Definition on_kernel {X} (m : eff BackErr K X) : eff BackErr (K * Z) X :=
  zoom fst (fun k s => (k, s.2)) m.

Definition handle : eff BackErr (K * Z) Z := fun s =>
  if s.2 + 1 <=? u32_max then (Ok s.2, (s.1, s.2 + 1)) else (Err HandlesExhausted, s).

Definition os_descriptor (b : Backing) (host_va len arena : Z) : eff BackErr (K * Z) Z :=
  let t := NVOS02_PARAMETERS in
  osdesc ← handle;
  out ← on_kernel (ioctl_raw (gpu_reg b) NV_ESC_RM_ALLOC_MEMORY Nvos02WithFd
    (build (size_of Nvos02WithFd)
       [word_at (offset_of t "hRoot") (root b); word_at (offset_of t "hObjectParent") (device b);
        word_at (offset_of t "hObjectNew") osdesc; word_at (offset_of t "hClass") NV01_MEMORY_SYSTEM_OS_DESCRIPTOR;
        word_at (offset_of t "flags") OSDESC_FLAGS; quad_at (offset_of t "pMemory") host_va;
        quad_at (offset_of t "limit") (len - 1); word_at (offset_of Nvos02WithFd "fd") (wrap32 (-1))]) (Pages arena));
  _ ← lift (checked NV_ESC_RM_ALLOC_MEMORY (offset_of t "status") out);
  mret osdesc.

Definition free (b : Backing) (osdesc : Z) : eff BackErr K unit :=
  let t := NVOS00_PARAMETERS in
  out ← ioctl_raw (ctl b) NV_ESC_RM_FREE t
    (build (size_of t)
       [word_at (offset_of t "hRoot") (root b); word_at (offset_of t "hObjectParent") (device b);
        word_at (offset_of t "hObjectOld") osdesc]) Nothing;
  lift (checked NV_ESC_RM_FREE (offset_of t "status") out).

(** ** Sharing (share.rs, with the parameter builders of [NvAbi]) *)

(** The ioctl's return value and the status word. *)
Definition client_control (fd hclient cmd : Z) (params : bytes) : K -> may_panic (Z * Z) * K := fun k =>
  let p := nvos54_client_control hclient cmd buf_addr (wrap32 (blen params)) in
  let '(ret, out, k) := k_ioctl k fd (Ioc.iowr_raw NV_ESC_RM_CONTROL (wrap32 (blen p))) p (Params params) in
  (st ← or_panic (get_u32 out.1 28); Ok (ret, st), k).

Definition set_sub_process_id (fd hclient sub_id : Z) (name : str) : K -> may_panic (Z * Z) * K :=
  client_control fd hclient 0x901 (sub_process_id_params sub_id (utf8 name)).

Definition grant_dup_same_process (fd hclient hobject : Z) : K -> may_panic (Z * Z) * K :=
  client_control fd hclient 0x0d06 (share_object_params hobject).

Definition grant (b : Backing) (osdesc : Z) : eff BackErr K unit := fun k =>
  let '(r, k) := grant_dup_same_process (ctl b) (root b) osdesc k in
  match r with
  | Ok (r, s) => (if negb (r =? 0) || negb (s =? 0) then Err (GrantRefused r s) else Ok tt, k)
  | _ => (Panic, k)
  end.

(** ** Creation *)
Definition register_fd (fd ctl : Z) : eff BackErr K unit :=
  _ ← ioctl_raw fd NV_ESC_REGISTER_FD IoctlRegisterFd (build (size_of IoctlRegisterFd) [word_at 0 (wrap32 ctl)]) Nothing;
  mret tt.

Definition open_for_mapping (path : string) (ctl : Z) : eff BackErr K Z :=
  fd ← open_dev path;
  on_error (fun k => k_close k fd) (_ ← register_fd fd ctl; mret fd).

(** Device and subdevice, and the card's UUID from the subdevice. *)
Definition attach (b : Backing) : eff BackErr (K * Z) Backing :=
  device ← handle;
  _ ← on_kernel (alloc b (root b) device NV01_DEVICE_0 (Params (replicate (Z.to_nat (size_of NV0080_ALLOC_PARAMETERS)) 0)));
  let b := MkBacking (ctl b) (gpu_reg b) (root b) device (uuid b) in
  subdevice ← handle;
  _ ← on_kernel (alloc b device subdevice NV20_SUBDEVICE_0
                   (Params (replicate (Z.to_nat (size_of NV2080_ALLOC_PARAMETERS)) 0)));
  let t := NV2080_CTRL_GPU_GET_GID_INFO_PARAMS in
  gid ← on_kernel (control b subdevice NV2080_CTRL_CMD_GPU_GET_GID_INFO
                     (build (size_of t) [word_at (offset_of t "index") 0; word_at (offset_of t "flags") 2]));
  len ← lift (or_panic (get_u32 gid (offset_of t "length")));
  if len =? 16 then
    u ← lift (or_panic (get_range gid (offset_of t "data") 16));
    mret (MkBacking (ctl b) (gpu_reg b) (root b) (device) u)
  else fail (BadGid len).

Definition new_root (ctl : Z) : eff BackErr K Z :=
  let t := NVOS64_PARAMETERS in
  out ← ioctl_raw ctl NV_ESC_RM_ALLOC t (build (size_of t) [word_at (offset_of t "hClass") NV01_ROOT_CLIENT]) Nothing;
  _ ← lift (checked NV_ESC_RM_ALLOC (offset_of t "status") out);
  lift (or_panic (get_u32 out.1 (offset_of t "hObjectNew"))).

(** The client and its next handle.  Descriptors are closed when an error
    returns early; that of the first GPU node always. *)
Definition Backing_new : eff BackErr K (Backing * Z) :=
  ctl ← open_dev "/dev/nvidiactl";
  root ← on_error (fun k => k_close k ctl) (new_root ctl);
  gpu ← on_error (fun k => k_close k ctl) (open_dev "/dev/nvidia0");
  reg ← on_error (fun k => k_close (k_close k gpu) ctl) (open_for_mapping "/dev/nvidia0" ctl);
  closing gpu (on_error (fun k => k_close (k_close k ctl) reg)
    (if root + 1 <=? u32_max then fun k =>
       let '(r, (k, next)) := attach (MkBacking ctl reg root 0 (replicate 16 0)) (k, root + 1) in
       (b ← r; Ok (b, next), k)
     else fail HandlesExhausted)).

(** The UUID and the memory of the card, through a client that closes again. *)
Definition card : eff BackErr K (bytes * Z) :=
  '(b, _) ← Backing_new;
  closing (gpu_reg b) (closing (ctl b) (
    let t := NV2080_CTRL_FB_GET_INFO_V2_PARAMS in
    fb ← control b (device b + 1) CMD_FB_GET_INFO_V2
      (build (size_of t) [word_at (offset_of t "fbInfoListSize") 1;
         word_at (offset_of t "fbInfoList" + offset_of NV2080_CTRL_FB_INFO "index") FB_INFO_INDEX_TOTAL_RAM_SIZE]);
    kib ← lift (or_panic (get_u32 fb (offset_of t "fbInfoList" + offset_of NV2080_CTRL_FB_INFO "data")));
    mret (uuid b, kib * 1024))).

(** ** The driver (host_pool.rs, [RealPoolDriver]) *)

(** One UVM call on an open file; the status word is at [status_off]. *)
Definition uvm_call (file cmd : Z) (p : bytes) (status_off : Z) : eff BackErr K unit := fun k =>
  let '(r, out, k) := k_ioctl k file cmd p Nothing in
  (if negb (r =? 0) then Err UvmIoctl
   else s ← or_panic (get_u32 out.1 status_off); if s =? NV_OK then Ok tt else Err (UvmStatus s), k).

Definition create_params (addr len : Z) : bytes :=
  let t := UVM_CREATE_EXTERNAL_RANGE_PARAMS in
  build (size_of t) [quad_at (offset_of t "base") addr; quad_at (offset_of t "length") len].

Definition create_range (file addr len : Z) : eff BackErr K unit :=
  uvm_call file UVM_CREATE_EXTERNAL_RANGE (create_params addr len) CREATE_RANGE_STATUS_OFF.

Definition map_params (b : Backing) (addr len h : Z) : bytes :=
  let t := UVM_MAP_EXTERNAL_ALLOCATION_PARAMS in
  let g := UvmGpuMappingAttributes in
  let first := offset_of t "perGpuAttributes" in
  build (size_of t)
    [quad_at (offset_of t "base") addr; quad_at (offset_of t "length") len;
     (first + offset_of g "gpuUuid", uuid b);
     word_at (first + offset_of g "gpuMappingType") UvmGpuMappingTypeReadWriteAtomic;
     word_at (first + offset_of g "gpuCachingType") UvmGpuCachingTypeDefault;
     quad_at (offset_of t "gpuAttributesCount") 1;
     word_at (offset_of t "rmCtrlFd") (wrap32 (ctl b)); word_at (offset_of t "hClient") (root b);
     word_at (offset_of t "hMemory") h].

Definition map_range (b : Backing) (file addr len h : Z) : eff BackErr K unit :=
  uvm_call file UVM_MAP_EXTERNAL_ALLOCATION (map_params b addr len h) MAP_EXTERNAL_STATUS_OFF.

(** R580 has a length; the offset of newer layouts is out of bounds. *)
Definition free_params {A : RmAbi} (addr len : Z) : bytes :=
  let size := size_of UvmFreeParams in
  build size (quad_at UVM_FREE_PARAMS_OFF_base addr ::
    (if UVM_FREE_PARAMS_OFF_length + 8 <=? size then [quad_at UVM_FREE_PARAMS_OFF_length len] else [])).

Definition free_range {A : RmAbi} (file addr len : Z) : eff BackErr K unit :=
  uvm_call file uvm.FREE (free_params addr len) UVM_FREE_PARAMS_OFF_rmStatus.
End client.
End backing.

(** ** What the documented fields of a block mean *)
Definition good (r : Z) (b : bytes) (o : Z) : bool := bool_decide (r = 0 /\ get_u32 b o = Some NV_OK).

Class RmKernelLaws (K : Type) `{RmKernel K} (A : RmAbi) : Prop := {
  (** an ioctl returns 0 or -1 and writes the block it was given *)
  kl_ret k fd req b p r b' p' k' : k_ioctl k fd req b p = (r, (b', p'), k') -> r <= 0 /\ blen b' = blen b;
  (** ALLOC_MEMORY describes the pages under a new handle of the client *)
  kl_alloc k fd b a r b' p' k' client h :
    k_ioctl k fd (Ioc.iowr Nvos02WithFd NV_ESC_RM_ALLOC_MEMORY) b (Pages a) = (r, (b', p'), k') ->
    get_u32 b (offset_of NVOS02_PARAMETERS "hRoot") = Some client ->
    get_u32 b (offset_of NVOS02_PARAMETERS "hObjectNew") = Some h ->
    get_u32 b (offset_of NVOS02_PARAMETERS "hClass") = Some NV01_MEMORY_SYSTEM_OS_DESCRIPTOR ->
    k_ranges k' = k_ranges k /\
    if good r b' (offset_of NVOS02_PARAMETERS "status")
    then k_objects k !! (client, h) = None /\ k_objects k' = <[(client, h) := a]> (k_objects k)
    else k_objects k' = k_objects k;
  kl_free k fd b r b' p' k' client h :
    k_ioctl k fd (Ioc.iowr NVOS00_PARAMETERS NV_ESC_RM_FREE) b Nothing = (r, (b', p'), k') ->
    get_u32 b (offset_of NVOS00_PARAMETERS "hRoot") = Some client ->
    get_u32 b (offset_of NVOS00_PARAMETERS "hObjectOld") = Some h ->
    k_ranges k' = k_ranges k /\
    k_objects k' = (if good r b' (offset_of NVOS00_PARAMETERS "status") then delete (client, h) (k_objects k)
                    else k_objects k);
  (** CLIENT_SHARE_OBJECT changes rights only *)
  kl_share k fd b p r b' p' k' :
    k_ioctl k fd (Ioc.iowr NVOS54_PARAMETERS NV_ESC_RM_CONTROL) b p = (r, (b', p'), k') ->
    get_u32 b (offset_of NVOS54_PARAMETERS "cmd") = Some 0x0d06 ->
    k_objects k' = k_objects k /\ k_ranges k' = k_ranges k;
  kl_create k file b r b' p' k' :
    k_ioctl k file backing.UVM_CREATE_EXTERNAL_RANGE b Nothing = (r, (b', p'), k') ->
    k_objects k' = k_objects k /\ k_ranges k' = k_ranges k;
  (** a map drops what was mapped there before it looks at the new object *)
  kl_map k file b r b' p' k' addr client h :
    k_ioctl k file backing.UVM_MAP_EXTERNAL_ALLOCATION b Nothing = (r, (b', p'), k') ->
    get_u64 b (offset_of UVM_MAP_EXTERNAL_ALLOCATION_PARAMS "base") = Some addr ->
    get_u32 b (offset_of UVM_MAP_EXTERNAL_ALLOCATION_PARAMS "hClient") = Some client ->
    get_u32 b (offset_of UVM_MAP_EXTERNAL_ALLOCATION_PARAMS "hMemory") = Some h ->
    k_objects k' = k_objects k /\
    (k_ranges k' ⊆ k_ranges k \/ exists a, k_objects k !! (client, h) = Some a /\
       k_ranges k' ⊆ <[(file, addr) := a]> (k_ranges k));
  kl_uvm_free k file b r b' p' k' addr :
    k_ioctl k file uvm.FREE b Nothing = (r, (b', p'), k') ->
    get_u64 b UVM_FREE_PARAMS_OFF_base = Some addr ->
    k_objects k' = k_objects k /\
    k_ranges k' = (if good r b' UVM_FREE_PARAMS_OFF_rmStatus then delete (file, addr) (k_ranges k) else k_ranges k);
  kl_guest_free k file addr :
    k_objects (k_uvm_freed k file addr) = k_objects k /\
    k_ranges (k_uvm_freed k file addr) = delete (file, addr) (k_ranges k);
}.

(** ** A table under other keys *)
Section rekey.
Context {K1 K2 V : Type} `{Countable K1, Countable K2} (f : K1 -> option K2).
Context (inj : forall k k' x, f k = Some x -> f k' = Some x -> k = k').

Definition rekey (m : gmap K1 V) : gmap K2 V :=
  map_fold (fun k v acc => match f k with Some x => <[x := v]> acc | None => acc end) ∅ m.

Lemma rekey_lookup m x v : rekey m !! x = Some v <-> exists k, f k = Some x /\ m !! k = Some v.
Proof.
  unfold rekey. revert x v. apply (map_fold_weak_ind (fun acc m => forall x v, acc !! x = Some v <-> exists k, f k = Some x /\ m !! k = Some v)).
  - intros x v. rewrite lookup_empty. split; [done|]. intros (k & _ & Hk). by rewrite lookup_empty in Hk.
  - intros k w m' acc Hk IH x v. destruct (f k) as [y|] eqn:Hf.
    + destruct (decide (x = y)) as [-> |Hne].
      * rewrite lookup_insert_eq. split.
        { intros [= ->]. exists k. by rewrite lookup_insert_eq. }
        intros (k' & Hf' & Hm). rewrite (inj _ _ _ Hf' Hf), lookup_insert_eq in Hm. done.
      * rewrite lookup_insert_ne, IH by done. split; intros (k' & Hf' & Hm); exists k'; (split; [done|]).
        { destruct (decide (k = k')) as [-> |]; [congruence|]. by rewrite lookup_insert_ne. }
        destruct (decide (k = k')) as [-> |]; [congruence|]. by rewrite lookup_insert_ne in Hm.
    + rewrite IH. split; intros (k' & Hf' & Hm); exists k'; (split; [done|]).
      { destruct (decide (k = k')) as [-> |]; [congruence|]. by rewrite lookup_insert_ne. }
      destruct (decide (k = k')) as [-> |]; [congruence|]. by rewrite lookup_insert_ne in Hm.
Qed.

Lemma rekey_at m k x : f k = Some x -> rekey m !! x = m !! k.
Proof.
  intros Hf. apply option_eq. intros v. rewrite rekey_lookup. split; [|by exists k].
  intros (k' & Hf' & Hm). by rewrite (inj _ _ _ Hf Hf').
Qed.

Lemma rekey_insert m k x v : f k = Some x -> rekey (<[k := v]> m) = <[x := v]> (rekey m).
Proof.
  intros Hf. apply map_eq. intros y. destruct (decide (x = y)) as [<- |Hne].
  - by rewrite (rekey_at _ _ _ Hf), !lookup_insert_eq.
  - rewrite lookup_insert_ne by done. apply option_eq. intros w. rewrite !rekey_lookup.
    split; intros (k' & Hf' & Hm); exists k'; (split; [done|]); destruct (decide (k = k')) as [-> |]; try congruence;
      [by rewrite lookup_insert_ne in Hm|by rewrite lookup_insert_ne].
Qed.

Lemma rekey_delete m k x : f k = Some x -> rekey (delete k m) = delete x (rekey m).
Proof.
  intros Hf. apply map_eq. intros y. destruct (decide (x = y)) as [<- |Hne].
  - by rewrite (rekey_at _ _ _ Hf), !lookup_delete_eq.
  - rewrite lookup_delete_ne by done. apply option_eq. intros w. rewrite !rekey_lookup.
    split; intros (k' & Hf' & Hm); exists k'; (split; [done|]); destruct (decide (k = k')) as [-> |]; try congruence;
      [by rewrite lookup_delete_ne in Hm|by rewrite lookup_delete_ne].
Qed.

Lemma rekey_mono m m' : m ⊆ m' -> rekey m ⊆ rekey m'.
Proof.
  intros Hm. apply map_subseteq_spec. intros x v. rewrite !rekey_lookup. intros (k & Hf & Hk). exists k.
  split; [done|]. by eapply lookup_weaken.
Qed.
End rekey.

(** The key under which a map has a value. *)
Section owner.
Context {X V Y : Type} `{Countable X, EqDecision Y} (m : gmap X V) (g : V -> Y).
Definition owner (y : Y) : option X := (fun p => p.2.1) <$> list_find (fun p : X * V => g p.2 = y) (map_to_list m).

Lemma owner_some y x : owner y = Some x -> exists v, m !! x = Some v /\ g v = y.
Proof.
  unfold owner. destruct (list_find _ _) as [[i [x' v]]|] eqn:E; [|done]. cbn. intros [= ->].
  apply list_find_Some in E as (Hi & Hg & _). exists v. split; [|done]. by apply elem_of_map_to_list, (list_elem_of_lookup_2 _ i).
Qed.

Lemma owner_of x v : (forall x x' v v', m !! x = Some v -> m !! x' = Some v' -> g v = g v' -> x = x') ->
  m !! x = Some v -> owner (g v) = Some x.
Proof.
  intros Hinj Hx. destruct (owner (g v)) as [x'|] eqn:E.
  - apply owner_some in E as (v' & Hx' & Hg). f_equal. by eapply Hinj.
  - exfalso. unfold owner in E. apply fmap_None, list_find_None in E. rewrite Forall_forall in E.
    apply (E (x, v)); [|done]. by apply elem_of_map_to_list.
Qed.
End owner.

(** ** The driver of all sessions *)

(** The clients of the sessions, the UVM files of their tokens, and where
    arenas and pools lie.  RM gives every client its own number, and a file
    that two sessions shared would not be theirs. *)
Record Host := MkHost {
  backings : gmap Z backing.Backing;
  files : gmap (Z * Z) Z;
  arena_place : Z -> Z * Z;
  pool_len : RangeKey -> Z;
  host_clients : forall s s' b b', backings !! s = Some b -> backings !! s' = Some b' ->
    backing.root b = backing.root b' -> s = s';
  host_files : forall t t' f f', files !! t = Some f -> files !! t' = Some f' -> f = f' -> t = t';
  host_backing : forall s b, backings !! s = Some b -> is_u32 (backing.root b) /\ blen (backing.uuid b) = 16;
}.

Record RealDriver (K : Type) (A : RmAbi) := MkReal { rk : K; nexts : gmap Z Z; host : Host }.
Arguments MkReal {K A} _ _ _.
Arguments rk {K A} _.
Arguments nexts {K A} _.
Arguments host {K A} _.

Section real.
Context {K : Type} `{RmKernel K} {A : RmAbi}.
Context (buf_addr : Z).

Abbreviation D := (RealDriver K A).

Definition is_u32b (z : Z) : bool := (0 <=? z) && (z <=? u32_max).
Definition is_u64b (z : Z) : bool := (0 <=? z) && (z <=? u64_max).

Definition succeeded {X} (r : outcome BackErr X) : bool := match r with Ok _ => true | _ => false end.

Definition set_kernel (k : K) (d : D) : D := MkReal k (nexts d) (host d).

Definition on_backing (d : D) (s : Z) (m : backing.Backing -> eff BackErr K unit) : bool * D :=
  match backings (host d) !! s with
  | Some b => let '(r, k) := m b (rk d) in (succeeded r, set_kernel k d)
  | None => (false, d)
  end.

Definition on_file (d : D) (t : Z * Z) (m : Z -> eff BackErr K unit) : bool * D :=
  match files (host d) !! t with
  | Some f => let '(r, k) := m f (rk d) in (succeeded r, set_kernel k d)
  | None => (false, d)
  end.

Definition real_allocate (d : D) (s a : Z) : option Z * D :=
  match backings (host d) !! s, nexts d !! s with
  | Some b, Some n =>
      if is_u32b n then
        let '(r, (k, n')) := backing.os_descriptor b (arena_place (host d) a).1 (arena_place (host d) a).2 a (rk d, n) in
        (match r with Ok h => Some h | _ => None end, MkReal k (<[s := n']> (nexts d)) (host d))
      else (None, d)
  | _, _ => (None, d)
  end.

(** Handles are 32 bits and addresses 64 by type. *)
Definition real_grant (d : D) (o : ObjKey) : bool * D :=
  if is_u32b o.2 then on_backing d o.1 (fun b => backing.grant buf_addr b o.2) else (false, d).

Definition real_create_range (d : D) (k : RangeKey) (len : Z) : bool * D :=
  on_file d k.1 (fun f => backing.create_range f k.2 len).

Definition real_map_range (d : D) (k : RangeKey) (o : ObjKey) (len : Z) : bool * D :=
  if is_u64b k.2 && is_u32b o.2 then
    match backings (host d) !! o.1 with
    | Some b => on_file d k.1 (fun f => backing.map_range b f k.2 len o.2)
    | None => (false, d)
    end
  else (false, d).

Definition real_free_range (d : D) (k : RangeKey) : bool * D :=
  if is_u64b k.2 then on_file d k.1 (fun f => backing.free_range f k.2 (pool_len (host d) k)) else (false, d).

Definition real_free_object (d : D) (o : ObjKey) : bool * D :=
  if is_u32b o.2 then on_backing d o.1 (fun b => backing.free b o.2) else (false, d).

Definition real_guest_free (d : D) (k : RangeKey) : D :=
  match files (host d) !! k.1 with
  | Some f => set_kernel (k_uvm_freed (rk d) f k.2) d
  | None => d
  end.

(** The kernel's tables as the sessions see them. *)
Definition session_object (h : Host) (o : Z * Z) : option ObjKey :=
  s ← owner (backings h) backing.root o.1; Some (s, o.2).
Definition session_range (h : Host) (r : Z * Z) : option RangeKey :=
  t ← owner (files h) id r.1; Some (t, r.2).

Global Instance RealDriver_driver : PoolDriver D := {
  allocate := real_allocate;
  HostPool.grant := real_grant;
  HostPool.create_range := real_create_range;
  HostPool.map_range := real_map_range;
  HostPool.free_range := real_free_range;
  free_object := real_free_object;
  guest_free := real_guest_free;
  objects d := rekey (session_object (host d)) (k_objects (rk d));
  ranges d := rekey (session_range (host d)) (k_ranges (rk d));
}.
End real.

Section laws.
Context {K : Type} `{RmKernel K} {A : RmAbi} {AOk : RmAbiOk A} {L : RmKernelLaws K A}.
Context (buf_addr : Z) (Hapart : UVM_FREE_PARAMS_OFF_base + 8 <= UVM_FREE_PARAMS_OFF_length).
Abbreviation D := (RealDriver K A).

Lemma session_object_of h s b x : backings h !! s = Some b -> session_object h (backing.root b, x) = Some (s, x).
Proof. intros Hs. unfold session_object. cbn [fst snd]. rewrite (owner_of _ _ s b); [done|apply host_clients|done]. Qed.

Lemma session_range_of h t f a : files h !! t = Some f -> session_range h (f, a) = Some (t, a).
Proof.
  intros Ht. unfold session_range. cbn [fst snd]. change f with (id f) at 1. rewrite (owner_of _ _ t f); [done|apply host_files|done].
Qed.

Lemma session_object_some h o s x : session_object h o = Some (s, x) ->
  exists b, backings h !! s = Some b /\ o = (backing.root b, x).
Proof.
  unfold session_object. destruct o as [r y]. cbn [fst snd]. destruct (owner _ _ r) as [s'|] eqn:E; [|done]. cbn.
  intros [= -> ->]. apply owner_some in E as (b & Hb & <-). by exists b.
Qed.

Lemma session_range_some h r t a : session_range h r = Some (t, a) -> exists f, files h !! t = Some f /\ r = (f, a).
Proof.
  unfold session_range. destruct r as [g y]. cbn [fst snd]. destruct (owner _ _ g) as [t'|] eqn:E; [|done]. cbn.
  intros [= -> ->]. apply owner_some in E as (f & Hf & <-). by exists f.
Qed.

Lemma session_object_inj h o o' x : session_object h o = Some x -> session_object h o' = Some x -> o = o'.
Proof.
  destruct x as [s y]. intros (b & Hb & ->)%session_object_some (b' & Hb' & ->)%session_object_some.
  rewrite Hb in Hb'. by injection Hb' as ->.
Qed.

Lemma session_range_inj h r r' x : session_range h r = Some x -> session_range h r' = Some x -> r = r'.
Proof.
  destruct x as [t a]. intros (f & Hf & ->)%session_range_some (f' & Hf' & ->)%session_range_some.
  rewrite Hf in Hf'. by injection Hf' as ->.
Qed.

Lemma good_spec r b o : good r b o = true <-> r = 0 /\ get_u32 b o = Some NV_OK.
Proof. unfold good. apply bool_decide_eq_true. Qed.

(** A call through [ioctl_raw] whose status word is checked. *)
Lemma ioctl_checked k fd nr t b p o r b' p' k' : k_ioctl k fd (Ioc.iowr t nr) b p = (r, (b', p'), k') ->
  0 <= o -> o + 4 <= blen b -> exists res : outcome BackErr unit,
  (out ← backing.ioctl_raw fd nr t b p; lift (backing.checked nr o out)) k = (res, k') /\ succeeded res = good r b' o.
Proof.
  intros Hk Ho Hl. destruct (kl_ret _ _ _ _ _ _ _ _ _ Hk) as [Hr Hb].
  destruct (proj2 (get_le_is_Some 4 b' o)) as [st Hst]; [lia|].
  unfold mbind, eff_bind, backing.ioctl_raw. rewrite Hk. unfold good. destruct (r <? 0) eqn:E; bools.
  - eexists. split; [done|]. symmetry. apply bool_decide_eq_false. lia.
  - unfold lift, backing.checked, backing.check_status. cbn [fst snd]. rewrite Hst. cbn [or_panic mbind outcome_bind].
    eexists. split; [done|]. destruct (st =? NV_OK) eqn:E2; bools; symmetry.
    + apply bool_decide_eq_true. split; [lia|congruence].
    + apply bool_decide_eq_false. intros [_ [= ?]]. congruence.
Qed.

Lemma uvm_call_run k file cmd b o r b' p' k' : k_ioctl k file cmd b Nothing = (r, (b', p'), k') ->
  0 <= o -> o + 4 <= blen b -> exists res : outcome BackErr unit,
  backing.uvm_call file cmd b o k = (res, k') /\ succeeded res = good r b' o.
Proof.
  intros Hk Ho Hl. destruct (kl_ret _ _ _ _ _ _ _ _ _ Hk) as [Hr Hb].
  destruct (proj2 (get_le_is_Some 4 b' o)) as [st Hst]; [lia|].
  unfold backing.uvm_call. rewrite Hk. cbn [fst]. rewrite Hst. eexists. split; [done|]. unfold good. rewrite Hst.
  destruct (r =? 0) eqn:E; bools; cbn [negb or_panic mbind outcome_bind].
  - destruct (st =? NV_OK) eqn:E2; bools; symmetry; [apply bool_decide_eq_true; split; congruence|].
    apply bool_decide_eq_false. intros [_ [= ?]]. congruence.
  - symmetry. apply bool_decide_eq_false. naive_solver.
Qed.

Lemma is_u32b_spec z : is_u32b z = true <-> is_u32 z.
Proof. unfold is_u32b, is_u32. rewrite andb_true_iff, !Z.leb_le. lia. Qed.
Lemma is_u64b_spec z : is_u64b z = true <-> is_u64 z.
Proof. unfold is_u64b, is_u64. rewrite andb_true_iff, !Z.leb_le. lia. Qed.

Lemma free_object_laws (d : D) o ok d' : real_free_object d o = (ok, d') ->
  host d' = host d /\ k_ranges (rk d') = k_ranges (rk d) /\
  rekey (session_object (host d)) (k_objects (rk d')) =
    (if ok then delete o (rekey (session_object (host d)) (k_objects (rk d))) else rekey (session_object (host d)) (k_objects (rk d))).
Proof.
  unfold real_free_object, on_backing. destruct o as [s h]. cbn [fst snd].
  destruct (is_u32b h) eqn:Hh; [apply is_u32b_spec in Hh|by intros [= <- <-]].
  destruct (backings (host d) !! s) as [b|] eqn:Hb; [|by intros [= <- <-]].
  destruct (host_backing _ _ _ Hb) as [Hroot _]. unfold backing.free. set (blk := build _ _).
  destruct (k_ioctl (rk d) (backing.ctl b) (Ioc.iowr NVOS00_PARAMETERS NV_ESC_RM_FREE) blk Nothing) as [[r [b' p']] k'] eqn:Hk.
  assert (blen blk = size_of NVOS00_PARAMETERS) as Hlen by (by apply build_length; [vm_compute; congruence|vm_compute]).
  destruct (ioctl_checked _ _ _ _ _ _ (offset_of NVOS00_PARAMETERS "status") _ _ _ _ Hk) as (res & -> & Hres);
    [vm_compute; congruence|rewrite Hlen; vm_compute; congruence|].
  destruct (kl_free _ _ _ _ _ _ _ (backing.root b) h Hk) as [Hrg Hob].
  { apply build_u32; [vm_compute; congruence|by vm_compute|by left|done]. }
  { apply build_u32; [vm_compute; congruence|by vm_compute|by right; right; left|done]. }
  intros [= <- <-]. cbn [host rk set_kernel]. split_and!; [done|done|]. rewrite Hob, Hres. destruct (good _ _ _); [|done].
  by apply rekey_delete; [apply session_object_inj|apply session_object_of].
Qed.

Lemma allocate_laws (d : D) s a o d' : real_allocate d s a = (o, d') ->
  host d' = host d /\ k_ranges (rk d') = k_ranges (rk d) /\
  match o with
  | Some h => rekey (session_object (host d)) (k_objects (rk d)) !! (s, h) = None /\
      rekey (session_object (host d)) (k_objects (rk d')) = <[(s, h) := a]> (rekey (session_object (host d)) (k_objects (rk d)))
  | None => k_objects (rk d') = k_objects (rk d)
  end.
Proof.
  unfold real_allocate. destruct (backings (host d) !! s) as [b|] eqn:Hb; [|by intros [= <- <-]].
  destruct (nexts d !! s) as [n|]; [|by intros [= <- <-]].
  destruct (is_u32b n) eqn:Hn; [apply is_u32b_spec in Hn|by intros [= <- <-]].
  destruct (host_backing _ _ _ Hb) as [Hroot _]. unfold backing.os_descriptor, backing.handle.
  unfold mbind at 1, eff_bind at 1. cbn [fst snd]. destruct (n + 1 <=? u32_max); [|by intros [= <- <-]].
  set (blk := build _ _). unfold backing.on_kernel, zoom.
  destruct (k_ioctl (rk d) (backing.gpu_reg b) (Ioc.iowr Nvos02WithFd NV_ESC_RM_ALLOC_MEMORY) blk (Pages a))
    as [[r [b' p']] k'] eqn:Hk.
  assert (blen blk = size_of Nvos02WithFd) as Hlen by (by apply build_length; [vm_compute; congruence|vm_compute]).
  destruct (kl_alloc _ _ _ _ _ _ _ _ (backing.root b) n Hk) as [Hrg Hob].
  { apply build_u32; [vm_compute; congruence|by vm_compute|by left|done]. }
  { apply build_u32; [vm_compute; congruence|by vm_compute|by right; right; left|done]. }
  { apply build_u32; [vm_compute; congruence|by vm_compute|by right; right; right; left|by vm_compute]. }
  destruct (ioctl_checked _ _ _ _ _ _ (offset_of NVOS02_PARAMETERS "status") _ _ _ _ Hk) as (res & Hrun & Hres);
    [vm_compute; congruence|rewrite Hlen; vm_compute; congruence|].
  revert Hrun. unfold mbind, eff_bind. cbn [fst snd].
  destruct (backing.ioctl_raw _ _ _ blk _ (rk d)) as [[out|e|] k2].
  - unfold lift. cbn [fst snd]. destruct (backing.checked _ _ out) as [[]|e|]; intros [= <- ->] [= <- <-]; cbn [host rk];
      cbn [succeeded] in Hres; rewrite <- Hres in Hob; try (by split_and!).
    destruct Hob as [Hnone ->]. split_and!; [done|done| |].
    + rewrite (rekey_at _ (session_object_inj (host d)) _ (backing.root b, n)); [done|by apply session_object_of].
    + apply rekey_insert; [apply session_object_inj|by apply session_object_of].
  - intros [= <- ->] [= <- <-]. cbn [succeeded] in Hres. rewrite <- Hres in Hob. by split_and!.
  - intros [= <- ->] [= <- <-]. cbn [succeeded] in Hres. rewrite <- Hres in Hob. by split_and!.
Qed.

Lemma nvos54_build hclient cmd ptr len : nvos54_client_control hclient cmd ptr len =
  build 32 [word_at 0 hclient; word_at 4 hclient; word_at 8 cmd; quad_at 16 ptr; word_at 24 len].
Proof. done. Qed.

Lemma grant_laws (d : D) o ok d' : real_grant buf_addr d o = (ok, d') ->
  host d' = host d /\ k_objects (rk d') = k_objects (rk d) /\ k_ranges (rk d') = k_ranges (rk d).
Proof.
  unfold real_grant, on_backing. destruct (is_u32b o.2); [|by intros [= <- <-]].
  destruct (backings (host d) !! o.1) as [b|]; [|by intros [= <- <-]].
  unfold backing.grant, backing.grant_dup_same_process, backing.client_control.
  rewrite nvos54_build. set (blk := build 32 _).
  assert (blen blk = 32) as Hlen by (by apply build_length; [|vm_compute]). rewrite Hlen.
  change (Ioc.iowr_raw NV_ESC_RM_CONTROL (wrap32 32)) with (Ioc.iowr NVOS54_PARAMETERS NV_ESC_RM_CONTROL).
  destruct (k_ioctl (rk d) _ _ blk _) as [[r [b' p']] k'] eqn:Hk.
  destruct (kl_share _ _ _ _ _ _ _ _ Hk) as [Ho Hr].
  { by apply build_u32; [|vm_compute|right; right; left|vm_compute]. }
  destruct (or_panic _ ≫= _) as [[r' s']| |]; intros [= _ <-]; by split_and!.
Qed.

Lemma create_laws (d : D) k l ok d' : real_create_range d k l = (ok, d') ->
  host d' = host d /\ k_objects (rk d') = k_objects (rk d) /\ k_ranges (rk d') = k_ranges (rk d).
Proof.
  unfold real_create_range, on_file. destruct (files (host d) !! k.1) as [f|]; [|by intros [= <- <-]].
  unfold backing.create_range, backing.uvm_call. destruct (k_ioctl (rk d) f _ _ _) as [[r [b' p']] k'] eqn:Hk.
  destruct (kl_create _ _ _ _ _ _ _ Hk) as [Ho Hr]. intros [= _ <-]. by split_and!.
Qed.

Lemma map_params_fit b addr len h : blen (backing.uuid b) = 16 ->
  fits (size_of UVM_MAP_EXTERNAL_ALLOCATION_PARAMS) (extents
    (let t := UVM_MAP_EXTERNAL_ALLOCATION_PARAMS in let g := UvmGpuMappingAttributes in let first := offset_of t "perGpuAttributes" in
     [quad_at (offset_of t "base") addr; quad_at (offset_of t "length") len; (first + offset_of g "gpuUuid", backing.uuid b);
      word_at (first + offset_of g "gpuMappingType") UvmGpuMappingTypeReadWriteAtomic;
      word_at (first + offset_of g "gpuCachingType") UvmGpuCachingTypeDefault; quad_at (offset_of t "gpuAttributesCount") 1;
      word_at (offset_of t "rmCtrlFd") (wrap32 (backing.ctl b)); word_at (offset_of t "hClient") (backing.root b);
      word_at (offset_of t "hMemory") h])) = true.
Proof. intros Hu. unfold extents. cbn [map fst snd quad_at word_at]. rewrite Hu. vm_compute. done. Qed.

Lemma map_laws (d : D) k o l ok d' : real_map_range d k o l = (ok, d') ->
  host d' = host d /\ k_objects (rk d') = k_objects (rk d) /\
  let rg := rekey (session_range (host d)) in
  (rg (k_ranges (rk d')) ⊆ rg (k_ranges (rk d)) \/
   exists a, rekey (session_object (host d)) (k_objects (rk d)) !! o = Some a /\
     rg (k_ranges (rk d')) ⊆ <[k := a]> (rg (k_ranges (rk d)))).
Proof.
  unfold real_map_range, on_file. destruct k as [t addr], o as [s h]. cbn [fst snd].
  destruct (is_u64b addr && is_u32b h) eqn:Hg; [|by intros [= <- <-]; split_and!; [| |left]].
  apply andb_true_iff in Hg as [Haddr%is_u64b_spec Hh%is_u32b_spec].
  destruct (backings (host d) !! s) as [b|] eqn:Hb; [|by intros [= <- <-]; split_and!; [| |left]].
  destruct (files (host d) !! t) as [f|] eqn:Hf; [|by intros [= <- <-]; split_and!; [| |left]].
  destruct (host_backing _ _ _ Hb) as [Hroot Hu]. pose proof (map_params_fit b addr l h Hu) as Hfit.
  unfold backing.map_range, backing.uvm_call. destruct (k_ioctl (rk d) f _ _ _) as [[r [b' p']] k'] eqn:Hk.
  destruct (kl_map _ _ _ _ _ _ _ addr (backing.root b) h Hk) as [Ho Hr].
  { apply build_u64; [vm_compute; congruence|exact Hfit|by left|done]. }
  { apply build_u32; [vm_compute; congruence|exact Hfit|by do 7 right; left|done]. }
  { apply build_u32; [vm_compute; congruence|exact Hfit|by do 8 right; left|done]. }
  intros [= _ <-]. cbn [host rk set_kernel]. split_and!; [done|done|]. destruct Hr as [Hr|(a & Ha & Hr)].
  - left. by apply rekey_mono; [apply session_range_inj|].
  - right. exists a. split; [by rewrite (rekey_at _ (session_object_inj (host d)) _ _ _ (session_object_of _ _ _ h Hb))|].
    rewrite <- (rekey_insert _ (session_range_inj (host d)) _ (f, addr) (t, addr)) by (by apply session_range_of).
    by apply rekey_mono; [apply session_range_inj|].
Qed.

Lemma free_params_fit addr len : let size := size_of UvmFreeParams in
  0 <= size /\ UVM_FREE_PARAMS_OFF_base + 8 <= size /\ fits size (extents (quad_at UVM_FREE_PARAMS_OFF_base addr ::
    (if UVM_FREE_PARAMS_OFF_length + 8 <=? size then [quad_at UVM_FREE_PARAMS_OFF_length len] else []))) = true.
Proof.
  pose proof (abi_free_base (A:=A)) as Hb. apply andb_true_iff in Hb as [Hb1%Z.leb_le Hb2%Z.leb_le].
  split_and!; [lia|done|]. destruct (UVM_FREE_PARAMS_OFF_length + 8 <=? _) eqn:E; bools; cbn [extents map fits forallb fst snd quad_at];
    unfold apart, blen; cbn [fst snd]; rewrite !length_le_bytes, ?andb_true_iff, ?orb_true_iff, ?Z.leb_le; split_and!; try done; lia.
Qed.

Lemma free_range_laws (d : D) k ok d' : real_free_range d k = (ok, d') ->
  host d' = host d /\ k_objects (rk d') = k_objects (rk d) /\
  rekey (session_range (host d)) (k_ranges (rk d')) =
    (if ok then delete k (rekey (session_range (host d)) (k_ranges (rk d))) else rekey (session_range (host d)) (k_ranges (rk d))).
Proof.
  unfold real_free_range, on_file. destruct k as [t addr]. cbn [fst snd].
  destruct (is_u64b addr) eqn:Hg; [apply is_u64b_spec in Hg|by intros [= <- <-]].
  destruct (files (host d) !! t) as [f|] eqn:Hf; [|by intros [= <- <-]].
  destruct (free_params_fit addr (pool_len (host d) (t, addr))) as (Hs & Hb & Hfit).
  unfold backing.free_range. set (blk := backing.free_params _ _).
  destruct (k_ioctl (rk d) f uvm.FREE blk Nothing) as [[r [b' p']] k'] eqn:Hk.
  assert (blen blk = size_of UvmFreeParams) as Hlen by (by apply build_length).
  pose proof (abi_status_inside (A:=A)) as Hst. rewrite !andb_true_iff, !Z.leb_le in Hst.
  destruct (uvm_call_run _ _ _ _ UVM_FREE_PARAMS_OFF_rmStatus _ _ _ _ Hk) as (res & -> & Hres); [tauto|rewrite Hlen; tauto|].
  destruct (kl_uvm_free _ _ _ _ _ _ _ addr Hk) as [Ho Hr]; [by apply build_u64; [| |left|]|].
  intros [= <- <-]. cbn [host rk set_kernel]. split_and!; [done|done|]. rewrite Hr, Hres. destruct (good _ _ _); [|done].
  by apply rekey_delete; [apply session_range_inj|apply session_range_of].
Qed.

Lemma guest_free_laws (d : D) k : host (real_guest_free d k) = host d /\
  k_objects (rk (real_guest_free d k)) = k_objects (rk d) /\
  rekey (session_range (host d)) (k_ranges (rk (real_guest_free d k))) = delete k (rekey (session_range (host d)) (k_ranges (rk d))).
Proof.
  unfold real_guest_free. destruct k as [t addr]. cbn [fst snd]. destruct (files (host d) !! t) as [f|] eqn:Hf.
  - cbn [host rk set_kernel]. destruct (kl_guest_free (A:=A) (rk d) f addr) as [-> ->]. split_and!; [done|done|].
    by apply rekey_delete; [apply session_range_inj|apply session_range_of].
  - split_and!; [done|done|]. symmetry. apply delete_id. apply eq_None_not_Some. intros [a Ha].
    apply rekey_lookup in Ha as (r & Hr & _); [|apply session_range_inj].
    apply session_range_some in Hr as (f & Hf' & _). congruence.
Qed.

Lemma real_laws : @PoolDriverLaws D (RealDriver_driver buf_addr).
Proof.
  split; cbn [objects ranges allocate HostPool.grant HostPool.create_range HostPool.map_range HostPool.free_range free_object
    guest_free RealDriver_driver].
  - intros d s a h d' (Eh & Er & Hn & Ho)%allocate_laws. rewrite Eh, Er. done.
  - intros d s a d' (Eh & Er & Ho)%allocate_laws. by rewrite Eh, Er, Ho.
  - intros d k ok d' (Eh & Eo & Er)%grant_laws. by rewrite Eh, Er, Eo.
  - intros d k l ok d' (Eh & Eo & Er)%create_laws. by rewrite Eh, Er, Eo.
  - intros d k o l ok d' (Eh & Eo & Er)%map_laws. rewrite Eh, Eo. done.
  - intros d k ok d' (Eh & Eo & Er)%free_range_laws. rewrite Eh, Eo. done.
  - intros d k ok d' (Eh & Er & Eo)%free_object_laws. rewrite Eh, Er. done.
  - intros d k. destruct (guest_free_laws d k) as (Eh & Eo & Er). rewrite Eh, Eo. done.
Qed.
End laws.

(** ** A kernel *)

(** Tables and a counter of descriptors and clients. *)
Record TableKernel (A : RmAbi) := MkTable { tk_objects : gmap (Z * Z) Z; tk_ranges : gmap (Z * Z) Z; tk_next : Z }.
Arguments MkTable {A} _ _ _.
Arguments tk_objects {A} _.
Arguments tk_ranges {A} _.
Arguments tk_next {A} _.

Inductive Call := AllocMemory | Free | Control | Alloc | MapExternal | UvmFree | Other.

Definition call_of (req : Z) : Call :=
  if req =? Ioc.iowr Nvos02WithFd NV_ESC_RM_ALLOC_MEMORY then AllocMemory
  else if req =? Ioc.iowr NVOS00_PARAMETERS NV_ESC_RM_FREE then Free
  else if req =? Ioc.iowr NVOS54_PARAMETERS NV_ESC_RM_CONTROL then Control
  else if req =? Ioc.iowr NVOS64_PARAMETERS NV_ESC_RM_ALLOC then Alloc
  else if req =? backing.UVM_MAP_EXTERNAL_ALLOCATION then MapExternal
  else if req =? uvm.FREE then UvmFree
  else Other.

Definition poke (b : bytes) (o v : Z) : bytes := default b (set_u32 b o v).
Definition peek (b : bytes) (o : Z) : Z := default 0 (get_u32 b o).
Definition peek64 (b : bytes) (o : Z) : Z := default 0 (get_u64 b o).

Section table.
Context {A : RmAbi}.

Definition table_alloc_memory (k : TableKernel A) (b : bytes) (a : Z) : Z * bytes * TableKernel A :=
  let t := NVOS02_PARAMETERS in
  let key := (peek b (offset_of t "hRoot"), peek b (offset_of t "hObjectNew")) in
  if negb (blen b =? size_of Nvos02WithFd) then (-1, b, k)
  else match tk_objects k !! key with
       | Some _ => (0, poke b (offset_of t "status") NV_ERR_NO_MEMORY, k)
       | None => (0, poke b (offset_of t "status") NV_OK, MkTable (<[key := a]> (tk_objects k)) (tk_ranges k) (tk_next k))
       end.

Definition table_free (k : TableKernel A) (b : bytes) : Z * bytes * TableKernel A :=
  let t := NVOS00_PARAMETERS in
  if negb (blen b =? size_of t) then (-1, b, k)
  else (0, poke b (offset_of t "status") NV_OK,
        MkTable (delete (peek b (offset_of t "hRoot"), peek b (offset_of t "hObjectOld")) (tk_objects k)) (tk_ranges k) (tk_next k)).

Definition table_map (k : TableKernel A) (file : Z) (b : bytes) : Z * bytes * TableKernel A :=
  let t := UVM_MAP_EXTERNAL_ALLOCATION_PARAMS in
  let key := (file, peek64 b (offset_of t "base")) in
  match tk_objects k !! (peek b (offset_of t "hClient"), peek b (offset_of t "hMemory")) with
  | Some a => (0, poke b (offset_of t "rmStatus") NV_OK, MkTable (tk_objects k) (<[key := a]> (tk_ranges k)) (tk_next k))
  | None => (0, poke b (offset_of t "rmStatus") NV_ERR_NO_MEMORY, MkTable (tk_objects k) (delete key (tk_ranges k)) (tk_next k))
  end.

Definition table_uvm_free (k : TableKernel A) (file : Z) (b : bytes) : Z * bytes * TableKernel A :=
  if negb (blen b =? size_of UvmFreeParams) then (-1, b, k)
  else (0, poke b UVM_FREE_PARAMS_OFF_rmStatus NV_OK,
        MkTable (tk_objects k) (delete (file, peek64 b UVM_FREE_PARAMS_OFF_base) (tk_ranges k)) (tk_next k)).

(** A root client gets the next number; GET_GID_INFO has 16 bytes, FB_GET_INFO
    says 8 GiB. *)
Definition table_alloc (k : TableKernel A) (b : bytes) : Z * bytes * TableKernel A :=
  let o := offset_of NVOS64_PARAMETERS "hObjectNew" in
  if peek b o =? 0 then (0, poke b o (tk_next k), MkTable (tk_objects k) (tk_ranges k) (tk_next k + 1)) else (0, b, k).

Definition table_params (b : bytes) (p : Pointee) : Pointee :=
  match p with
  | Params q => Params (poke (poke q 8 (if peek b 8 =? NV2080_CTRL_CMD_GPU_GET_GID_INFO then 16 else 0x800000)) 12 77)
  | _ => p
  end.

Global Instance TableKernel_kernel : RmKernel (TableKernel A) := {
  k_open k _ := (Some (tk_next k), MkTable (tk_objects k) (tk_ranges k) (tk_next k + 1));
  k_close k _ := k;
  k_ioctl k fd req b p :=
    match call_of req, p with
    | AllocMemory, Pages a => let '(r, b, k) := table_alloc_memory k b a in (r, (b, p), k)
    | Free, _ => let '(r, b, k) := table_free k b in (r, (b, p), k)
    | Control, _ => (0, (b, table_params b p), k)
    | Alloc, _ => let '(r, b, k) := table_alloc k b in (r, (b, p), k)
    | MapExternal, _ => let '(r, b, k) := table_map k fd b in (r, (b, p), k)
    | UvmFree, _ => let '(r, b, k) := table_uvm_free k fd b in (r, (b, p), k)
    | _, _ => (0, (b, p), k)
    end;
  k_uvm_freed k file addr := MkTable (tk_objects k) (delete (file, addr) (tk_ranges k)) (tk_next k);
  k_objects := tk_objects;
  k_ranges := tk_ranges;
}.

Lemma poke_length b o v : blen (poke b o v) = blen b.
Proof. unfold poke. destruct (set_u32 b o v) eqn:E; [|done]. by apply set_le_blen in E. Qed.

Lemma poke_get b o v : 0 <= o -> o + 4 <= blen b -> is_u32 v -> get_u32 (poke b o v) o = Some v.
Proof.
  intros Ho Hl Hv. unfold poke. assert (set_u32 b o v = Some (put_range b o (le_bytes 4 v))) as E by (by apply set_le_Some).
  rewrite E. change (get_u32 (put_range b o (le_bytes 4 v)) o = Some v). rewrite (get_set_le_same 4 b o v _ E). f_equal. apply Z.mod_small.
  unfold is_u32, u32_max in Hv. change (256 ^ Z.of_nat 4) with 4294967296. lia.
Qed.

Lemma poke_good b o v : 0 <= o -> o + 4 <= blen b -> is_u32 v -> good 0 (poke b o v) o = (v =? NV_OK).
Proof.
  intros Ho Hl Hv. unfold good. rewrite poke_get by done. destruct (v =? NV_OK) eqn:E; bools.
  - apply bool_decide_eq_true. split; congruence.
  - apply bool_decide_eq_false. intros [_ [= ?]]. congruence.
Qed.

Definition shaped (b : bytes) (x : Z * bytes * TableKernel A) : Prop := x.1.1 <= 0 /\ blen x.1.2 = blen b.

Lemma table_shape k fd b : (forall a, shaped b (table_alloc_memory k b a)) /\ shaped b (table_free k b) /\
  shaped b (table_alloc k b) /\ shaped b (table_map k fd b) /\ shaped b (table_uvm_free k fd b).
Proof.
  unfold shaped, table_alloc_memory, table_free, table_alloc, table_map, table_uvm_free.
  split_and!; intros; repeat case_match; cbn [fst snd]; rewrite ?poke_length; lia.
Qed.

Lemma table_laws {AOk : RmAbiOk A} : RmKernelLaws (TableKernel A) A.
Proof.
  assert (is_u32 NV_OK /\ is_u32 NV_ERR_NO_MEMORY) as [Hok Herr] by (split; vm_compute; split; congruence).
  split.
  - intros k fd req b p r b' p' k'. cbn [k_ioctl TableKernel_kernel]. pose proof (table_shape k fd b) as (S1 & S2 & S3 & S4 & S5).
    destruct (call_of req), p as [|q|a]; try (intros [= <- <- <- <-]; split; [lia|done]); try specialize (S1 a);
      repeat match goal with
      | S : shaped b ?m |- context [?m] => destruct m as [[r0 b0] k0]; destruct S; by intros [= <- <- <- <-]
      end.
  - intros k fd b a r b' p' k' c h. cbn [k_ioctl TableKernel_kernel k_objects k_ranges].
    change (call_of (Ioc.iowr Nvos02WithFd NV_ESC_RM_ALLOC_MEMORY)) with AllocMemory.
    unfold table_alloc_memory, peek. intros Hk Hc Hh _. rewrite Hc, Hh in Hk. cbn [from_option] in Hk. unfold id in Hk. revert Hk.
    destruct (blen b =? _) eqn:El; cbn [negb]; bools.
    2: { intros Hk; cbv beta iota in Hk; injection Hk as <- <- <- <-. split; [done|]. unfold good. rewrite bool_decide_false by (intros [? _]; lia). done. }
    assert (0 <= offset_of NVOS02_PARAMETERS "status" /\ offset_of NVOS02_PARAMETERS "status" + 4 <= blen b) as [H1 H2]
      by (rewrite El; vm_compute; split; congruence).
    destruct (tk_objects k !! (c, h)) eqn:Eo; intros Hk; cbv beta iota in Hk; injection Hk as <- <- <- <-; rewrite poke_good by done; by split.
  - intros k fd b r b' p' k' c h. cbn [k_ioctl TableKernel_kernel k_objects k_ranges].
    change (call_of (Ioc.iowr NVOS00_PARAMETERS NV_ESC_RM_FREE)) with Free.
    unfold table_free, peek. intros Hk Hc Hh. rewrite Hc, Hh in Hk. cbn [from_option] in Hk. unfold id in Hk. revert Hk.
    destruct (blen b =? _) eqn:El; cbn [negb]; bools.
    2: { intros Hk; cbv beta iota in Hk; injection Hk as <- <- <- <-. split; [done|]. unfold good. rewrite bool_decide_false by (intros [? _]; lia). done. }
    assert (0 <= offset_of NVOS00_PARAMETERS "status" /\ offset_of NVOS00_PARAMETERS "status" + 4 <= blen b) as [H1 H2]
      by (rewrite El; vm_compute; split; congruence).
    intros Hk; cbv beta iota in Hk; injection Hk as <- <- <- <-. rewrite poke_good by done. by split.
  - intros k fd b p r b' p' k'. cbn [k_ioctl TableKernel_kernel].
    change (call_of (Ioc.iowr NVOS54_PARAMETERS NV_ESC_RM_CONTROL)) with Control. intros Hk; cbv beta iota in Hk; by injection Hk as <- <- <- <-.
  - intros k fd b r b' p' k'. cbn [k_ioctl TableKernel_kernel].
    change (call_of backing.UVM_CREATE_EXTERNAL_RANGE) with Other. intros Hk; cbv beta iota in Hk; by injection Hk as <- <- <- <-.
  - intros k file b r b' p' k' addr c h. cbn [k_ioctl TableKernel_kernel k_objects k_ranges].
    change (call_of backing.UVM_MAP_EXTERNAL_ALLOCATION) with MapExternal.
    unfold table_map, peek, peek64. intros Hk Ha Hc Hh. rewrite Ha, Hc, Hh in Hk. cbn [from_option] in Hk. unfold id in Hk. revert Hk.
    destruct (tk_objects k !! (c, h)) as [a|] eqn:Eo; intros Hk; cbv beta iota in Hk; injection Hk as <- <- <- <-; cbn [tk_objects tk_ranges]; (split; [done|]).
    + right. by exists a.
    + left. apply delete_subseteq.
  - intros k file b r b' p' k' addr. cbn [k_ioctl TableKernel_kernel k_objects k_ranges].
    change (call_of uvm.FREE) with UvmFree. unfold table_uvm_free, peek64. intros Hk Ha. rewrite Ha in Hk. cbn [from_option] in Hk. unfold id in Hk. revert Hk.
    destruct (blen b =? _) eqn:El; cbn [negb]; bools.
    2: { intros Hk; cbv beta iota in Hk; injection Hk as <- <- <- <-. split; [done|]. unfold good. rewrite bool_decide_false by (intros [? _]; lia). done. }
    pose proof (abi_status_inside (A:=A)) as Hst. rewrite !andb_true_iff, !Z.leb_le in Hst.
    intros Hk; cbv beta iota in Hk; injection Hk as <- <- <- <-. rewrite poke_good by (done || rewrite ?El; tauto). by split.
  - by intros k file addr.
Qed.
End table.

(** ** Theorems *)
Lemma driver_free_apart v : UVM_FREE_PARAMS_OFF_base (H:=dispatch v id) + 8 <= UVM_FREE_PARAMS_OFF_length (H:=dispatch v id).
Proof. destruct v; vm_compute; congruence. Qed.

Lemma driver_abi v : RmAbiOk (dispatch v id).
Proof. destruct v; apply _. Qed.

(** C13: The driver calls of the backend do what the page registration relies
    on.  Given only what the documented fields of the parameter blocks mean to
    the kernel, the operations the backend makes of ioctls (handles counted
    up, blocks built field by field, return value and status word checked)
    keep every law of the interface, for every driver series.  So after any
    sequence of registrations, failures, releases and session ends, no OS
    descriptor of a backing client and no UVM mapping of a session's file that
    the kernel still holds reaches an arena whose mapping was given back. *)
Theorem real_driver_sound (v : DriverVersion) {K : Type} `{RmKernel K} (buf_addr : Z) {M : Type} `{GuestMem M}
    lim (d : RealDriver K (dispatch v id)) (ops : list (PoolOp (M:=M))) :
  RmKernelLaws K (dispatch v id) -> 0 <= lim ->
  (forall s b x, backings (host d) !! s = Some b -> k_objects (rk d) !! (backing.root b, x) = None) ->
  (forall t f a, files (host d) !! t = Some f -> k_ranges (rk d) !! (f, a) = None) -> Forall op_ok ops ->
  let DD : PoolDriver (RealDriver K (dispatch v id)) := RealDriver_driver buf_addr in
  let w := pool_run (H:=DD) (world_new lim d) ops in
  @PoolDriverLaws _ DD /\
  (forall s b x a, backings (host (drv w)) !! s = Some b -> k_objects (rk (drv w)) !! (backing.root b, x) = Some a ->
     a ∉ dropped w) /\
  (forall t f addr a, files (host (drv w)) !! t = Some f -> k_ranges (rk (drv w)) !! (f, addr) = Some a -> a ∉ dropped w).
Proof.
  intros L Hlim Ho Hr Hops DD w. pose proof (driver_abi v) as AOk. pose proof (real_laws buf_addr (driver_free_apart v)) as Laws.
  split; [done|].
  assert (objects d = ∅ /\ ranges d = ∅) as [Eo Er].
  { split; apply map_empty; intros x; apply eq_None_not_Some; intros [a Ha]; apply rekey_lookup in Ha as (y & Hy & Hk).
    - destruct x as [s h]. apply session_object_some in Hy as (b & Hb & ->). by rewrite (Ho s b h Hb) in Hk.
    - apply session_object_inj.
    - destruct x as [t addr]. apply session_range_some in Hy as (f & Hf & ->). by rewrite (Hr t f addr Hf) in Hk.
    - apply session_range_inj. }
  pose proof (reachable_ok lim d ops Hlim Eo Er Hops) as Hw. apply world_no_dma in Hw as [N1 N2]. split.
  - intros s b x a Hb Ha. apply (N1 (s, x)).
    pose proof (rekey_at _ (session_object_inj (host (drv w))) (k_objects (rk (drv w))) _ _ (session_object_of _ _ _ x Hb)) as E.
    by rewrite <- E in Ha.
  - intros t f addr a Hf Ha. apply (N2 (t, addr)).
    pose proof (rekey_at _ (session_range_inj (host (drv w))) (k_ranges (rk (drv w))) _ _ (session_range_of _ _ _ addr Hf)) as E.
    by rewrite <- E in Ha.
Qed.

(** ** Examples *)

(** A client is created and its session registers pages. *)
Definition fresh_kernel : TableKernel V580 := MkTable ∅ ∅ 100.

Example new_client : exists b k, backing.Backing_new (K:=TableKernel V580) 0x7000 fresh_kernel = (Ok (b, 104), k) /\
  backing.root b = 101 /\ backing.device b = 102 /\ blen (backing.uuid b) = 16.
Proof. eexists _, _. split; [vm_compute; reflexivity|]. by vm_compute. Qed.

Example the_card : exists u k, backing.card (K:=TableKernel V580) 0x7000 fresh_kernel = (Ok (u, 8 * 2 ^ 30), k).
Proof. eexists _, _. vm_compute. reflexivity. Qed.

Definition example_backing : backing.Backing := backing.MkBacking 100 103 101 102 (replicate 16 7).

Definition example_host : Host.
Proof.
  refine (MkHost {[1 := example_backing]} {[(1, 7) := 55]} (fun _ => (0x10000000, 0x3000)) (fun _ => 0x3000) _ _ _).
  - intros s s' b b' [<- _]%lookup_singleton_Some [<- _]%lookup_singleton_Some _. done.
  - intros t t' f f' [<- _]%lookup_singleton_Some [<- _]%lookup_singleton_Some _. done.
  - intros s b [_ <-]%lookup_singleton_Some. split; [by vm_compute|done].
Defined.

Definition example_real : RealDriver (TableKernel V580) V580 := MkReal fresh_kernel {[1 := 104]} example_host.

(** A pool is registered, which gives the client a descriptor and the file a
    mapping, and released again. *)
Definition example_pools : list (PoolOp (M:=RegionList)) := [NewSession 1; example_pool 1 7 0x200000].

Lemma real_driver_sound_witness :
  let w := pool_run (H:=RealDriver_driver 0x7000) (world_new 0x10000 example_real) example_pools in
  k_objects (rk (drv w)) !! (101, 104) = Some 0 /\ k_ranges (rk (drv w)) !! (55, 0x200000) = Some 0 /\ (0 ∉ dropped w) /\
  dropped (pool_run (H:=RealDriver_driver 0x7000) w [CloseUvm (M:=RegionList) 1 7]) = [0].
Proof.
  split; [vm_compute; reflexivity|]. split; [vm_compute; reflexivity|]. split; [|vm_compute; reflexivity].
  destruct (real_driver_sound DV580 (K:=TableKernel V580) 0x7000 0x10000 example_real example_pools) as (_ & Ho & _).
  - apply table_laws.
  - lia.
  - intros s b x _. reflexivity.
  - intros t f a _. reflexivity.
  - repeat constructor; vm_compute; congruence.
  - apply (Ho 1 example_backing 104); vm_compute; reflexivity.
Defined.
