(* ===== verification/Start.v ===== *)
(** * The backend process (main.rs, version.rs, the start-up half of nvrm.rs)

    From [main] to the moment the daemon serves its socket: the privilege it
    gives up, the driver it detects, the card it asks, and the policies it
    reads from its environment.  The capabilities of the process, the kernel
    of [Backing] and the cell that holds the card are the state; what the
    environment and the system calls answer is an argument.  Everything that
    goes wrong ends the process before it serves. *)
From stdpp Require Import strings.
From S2P Require Import Prelude.
From S2P Require Import Effects.
From S2P Require Import Bytes.
From S2P Require Import Text.
From S2P Require Import CLayout.
From S2P Require Import SysConsts.
From S2P Require Import Sys.
From S2P Require Import SysLayout.
From S2P Require Import NvAbi.
From S2P Require Import Tables.
From S2P Require Import VramPolicy.
From S2P Require Import Vram.
From S2P Require Import Answers.
From S2P Require Import Naming.
From S2P Require Import Grid.
From S2P Require Import Window.
From S2P Require Import Arena.
From S2P Require Import HostPool.
From S2P Require Import Waiters.
From S2P Require Import Polls.
From S2P Require Import Device.
From S2P Require Import DeviceInv.
From S2P Require Import Serve.
From S2P Require Import Served.
From S2P Require Import Backing.

Local Open Scope string_scope.
Local Open Scope list_scope.
Local Open Scope Z_scope.

(** ** Privilege (main.rs) *)
Record CapData := MkCap { effective : Z; permitted : Z; inheritable : Z }.

Definition ADMIN_BIT : Z := Z.shiftl 1 21.

(** [!x] on [u32]. *)
Definition not32 (x : Z) : Z := Z.lxor u32_max x.

Definition clear_admin_capability (data : CapData * CapData) : bool * (CapData * CapData) :=
  let low := data.1 in
  let had_admin := negb (Z.land (Z.lor (Z.lor (effective low) (permitted low)) (inheritable low)) ADMIN_BIT =? 0) in
  (had_admin, (MkCap (Z.land (effective low) (not32 ADMIN_BIT)) (Z.land (permitted low) (not32 ADMIN_BIT))
                 (Z.land (inheritable low) (not32 ADMIN_BIT)), data.2)).

(** ** The environment *)

(** What [std::env::var] answers; [env_ok] is [.ok()]. *)
Inductive EnvVar := NotPresent | NotUnicode | Var (s : str).
Definition env_ok (v : EnvVar) : option str := match v with Var s => Some s | _ => None end.

(** The arguments, [None] where one is not Unicode, the name of the program
    first; the version file; and whether each system call succeeds. *)
Record StartEnv := MkStart {
  argv : list (option str); var : string -> EnvVar; version_file : option str;
  capget_ok : bool; capset_ok : bool; epoll_ok : bool; waiters_ok : bool; notify_ok : bool;
  daemon_ok : bool; has_handler : bool; listener_ok : bool }.

Inductive StartErr :=
| Usage | ReadCapabilities | DropCapabilities
| VersionUnreadable | VersionUnparsable | Unsupported (running : str)
| BadProfile (e : decide_error) | BadPinTotal | PinTotalText | PinRefused (e : pool_error)
| EpollFailed | WaitersFailed | NotifyFailed | DaemonFailed | NoHandler | ListenerFailed.

(** ** Which driver runs (version.rs) *)

(** [split_whitespace]: the pieces between white space that are not empty. *)
Fixpoint words_from (acc : str) (s : str) : list str :=
  match s with
  | [] => if is_empty acc then [] else [reverse acc]
  | c :: r => if is_whitespace c then (if is_empty acc then words_from [] r else reverse acc :: words_from [] r)
              else words_from (c :: acc) r
  end.
Definition split_whitespace (s : str) : list str := words_from [] s.

Definition starts_with_digit (t : str) : bool := match t with c :: _ => is_ascii_digit c | [] => false end.
Definition version_like (t : str) : bool := (length (split_at 46 t) =? 3)%nat && starts_with_digit t.

Definition running_driver_version (file : option str) : outcome StartErr str :=
  s ← ok_or file VersionUnreadable;
  ok_or (snd <$> list_find (fun t => version_like t = true) (split_whitespace s)) VersionUnparsable.

(** The literals of [from_version_string] are ASCII. *)
Fixpoint ascii_text (s : str) : option string :=
  match s with
  | [] => Some EmptyString
  | c :: r => t ← ascii_text r;
      if (0 <=? c) && (c <? 128) then Some (String (Ascii.ascii_of_nat (Z.to_nat c)) t) else None
  end.

Definition detect (file : option str) : outcome StartErr DriverVersion :=
  running ← running_driver_version file;
  ok_or (t ← ascii_text running; from_version_string t) (Unsupported running).

(** ** Settings *)
Definition PinBudget_from_env (v : EnvVar) : outcome StartErr PinBudget :=
  limit ← match v with
          | Var raw => ok_or (parse_pin_bytes raw) BadPinTotal
          | NotPresent => Ok (Z.shiftl 1024 20)
          | NotUnicode => Err PinTotalText
          end;
  map_err PinRefused (PinBudget_new limit).

(** The limit of one arena; an unusable value reads as the default. *)
Definition max_pin_bytes (v : EnvVar) : Z :=
  let default_mib := 256 in
  match v with
  | Var s => match parse_pin_bytes s with Some b => b | None => Z.shiftl default_mib 20 end
  | _ => Z.shiftl default_mib 20
  end.

(** An unknown format keeps the default name. *)
Definition name_format (v : EnvVar) : naming.NameFormat :=
  match naming.from_env (env_ok v) with Ok f => f | _ => naming.NameFormat_default end.

Definition raw_env (var : string -> EnvVar) (card_total : Z) : RawEnv :=
  let get n := env_ok (var n) in
  MkRawEnv (get "LEA_VRAM_LIMIT_MIB") (get "LEA_VRAM_PROFILE_MIB") (get "LEA_VRAM_RESERVE_MIB")
    (get "LEA_VGPU_TYPE") (get "LEA_VGPU_PROFILE_MIB") (get "LEA_VGPU_FB_MIB") (get "LEA_VGPU_ENCODER_CAP") card_total.

(** The notes and the announcement go to the log. *)
Definition profile_from_env (var : string -> EnvVar) (card_total : Z) : outcome decide_error Profile :=
  r ← startup.decide (raw_env var card_total); Ok r.1.

Definition Ledger_new (var : string -> EnvVar) (card : option Card) : outcome decide_error Ledger :=
  p ← profile_from_env var (from_option card_bytes 0 card); Ok (with_profile p).

(** ** Start-up *)
Record Proc (K : Type) := MkProc { caps : CapData * CapData; rm : K; card_cell : option Card }.
Arguments MkProc {K} _ _ _.
Arguments caps {K} _.
Arguments rm {K} _.
Arguments card_cell {K} _.

Record Serving (D V : Type) := MkServing { version : DriverVersion; socket : str; device : NvrmDevice D V }.
Arguments MkServing {D V} _ _ _.
Arguments version {D V} _.
Arguments socket {D V} _.
Arguments device {D V} _.

Section start.
Context {K : Type} `{RmKernel K} {D : Type} `{PoolDriver D} {V : Type} `{Vmm V}.
Context (env : StartEnv) (buf_addr : Z) (dr : D).
Abbreviation proc_eff := (eff StartErr (Proc K)).

Definition set_caps (c : CapData * CapData) (p : Proc K) : Proc K := MkProc c (rm p) (card_cell p).
Definition call_ok (b : bool) (e : StartErr) : proc_eff unit := if b then mret tt else fail e.

Definition keeps_admin : bool := match var env "LEA_ADMIN_PRIV" with Var s => str_eqb s (lit "1") | _ => false end.

Definition settle_admin_privilege : proc_eff unit :=
  _ ← call_ok (capget_ok env) ReadCapabilities;
  data ← asks caps;
  if keeps_admin then mret tt
  else
    let '(had_admin, data) := clear_admin_capability data in
    if negb had_admin then mret tt
    else
      _ ← call_ok (capset_ok env) DropCapabilities;
      modify (set_caps data).

(** The card is kept once; a card that does not answer is not an error. *)
Definition set_card (sock : str) (asked : outcome BackErr (bytes * Z)) (p : Proc K) : outcome StartErr unit * Proc K :=
  match asked with
  | Ok (h, total) =>
      (Ok tt, MkProc (caps p) (rm p) (match card_cell p with Some c => Some c | None => Some (Card_new sock h total) end))
  | Err _ => (Ok tt, p)
  | Panic => (Panic, p)
  end.

Definition ask_card (sock : str) : proc_eff unit := fun p =>
  let '(asked, k) := backing.card buf_addr (rm p) in set_card sock asked (MkProc (caps p) k (card_cell p)).

Definition build_tables (A : RmAbi) : outcome StartErr Tables :=
  map_err (fun e : Empty_set => match e with end) (Tables.build (A:=A)).

(** [NvrmDevice::new] and [register_waiter_notify], whose entry is the first of
    [poll_new]. *)
Definition NvrmDevice_new (A : RmAbi) : proc_eff (NvrmDevice D V) :=
  t ← lift (build_tables A);
  card ← asks card_cell;
  vram ← lift (map_err BadProfile (Ledger_new (var env) card));
  pins ← lift (PinBudget_from_env (var env "LEA_MAX_PIN_TOTAL_MIB"));
  _ ← call_ok (epoll_ok env) EpollFailed;
  _ ← call_ok (waiters_ok env) WaitersFailed;
  _ ← call_ok (notify_ok env) NotifyFailed;
  mret (Device.device_new (tb_bytes t) (profile vram) (pin_limit pins) dr).

Definition serve_with (A : RmAbi) (sock : str) : proc_eff (NvrmDevice D V) :=
  _ ← ask_card sock;
  d ← NvrmDevice_new A;
  _ ← call_ok (daemon_ok env) DaemonFailed;
  _ ← call_ok (has_handler env) NoHandler;
  _ ← call_ok (listener_ok env) ListenerFailed;
  mret d.

Definition serve (sock : str) : proc_eff (Serving D V) :=
  v ← lift (detect (version_file env));
  d ← dispatch v (fun A => serve_with A sock);
  mret (MkServing v sock d).

(** [std::env::args] panics at an argument that is not Unicode, also at one
    that is skipped. *)
Definition args : proc_eff (list str) := l ← lift (or_panic (mapM id (argv env))); mret (drop 1 l).

Definition main : proc_eff (Serving D V) :=
  _ ← settle_admin_privilege;
  l ← args;
  match l with
  | [flag; sock] => if str_eqb flag (lit "--nvrm") then serve sock else fail Usage
  | _ => fail Usage
  end.
End start.

(** ** The card can be asked *)

(** An ioctl writes into the buffers it was given. *)
Definition same_size (p p' : Pointee) : Prop :=
  match p, p' with Params q, Params q' => blen q' = blen q | _, _ => True end.

Class KernelLengths (K : Type) `{RmKernel K} : Prop :=
  kernel_lengths k fd req b p r b' p' k' : k_ioctl k fd req b p = (r, (b', p'), k') -> blen b' = blen b /\ same_size p p'.

(** Code that does not panic, and what it returns. *)
Definition fine {E St X} (m : eff E St X) (Q : X -> Prop) : Prop :=
  forall s, wp m (fun a _ => Q a) (fun _ _ => True) s.

Section fine.
Context {E St : Type}.

Lemma fine_bind {X Y} (m : eff E St X) (f : X -> eff E St Y) P Q :
  fine m P -> (forall a, P a -> fine (f a) Q) -> fine (m ≫= f) Q.
Proof. intros Hm Hf s. apply wp_bind. eapply wp_mono; [apply Hm|intros a s' Ha; by apply Hf|done]. Qed.

Lemma fine_ret {X} (a : X) (Q : X -> Prop) : Q a -> fine (E:=E) (St:=St) (mret a) Q.
Proof. by intros ? s. Qed.

Lemma fine_fail {X} (e : E) (Q : X -> Prop) : fine (St:=St) (fail e) Q.
Proof. by intros s. Qed.

Lemma fine_lift {X} (m : outcome E X) (Q : X -> Prop) : sat m Q (fun _ => True) -> fine (St:=St) (lift m) Q.
Proof. by intros ? s. Qed.

Lemma fine_on_error {X} (c : St -> St) (m : eff E St X) Q : fine m Q -> fine (on_error c m) Q.
Proof. intros Hm s. apply wp_on_error. apply Hm. Qed.
End fine.

Section client.
Context {K : Type} `{RmKernel K} {KL : KernelLengths K} (buf_addr : Z).

Lemma fine_closing {X} fd (m : eff BackErr K X) Q : fine m Q -> fine (backing.closing fd m) Q.
Proof. intros Hm k. specialize (Hm k). unfold wp, backing.closing in *. by destruct (m k). Qed.

Lemma fine_on_kernel {X} (m : eff BackErr K X) Q : fine m Q -> fine (backing.on_kernel m) Q.
Proof. intros Hm [k n]. specialize (Hm k). unfold wp, backing.on_kernel, zoom in *. cbn. by destruct (m k). Qed.

Lemma open_dev_fine path : fine (backing.open_dev path) (fun _ => True).
Proof. intros k. unfold wp, backing.open_dev. by destruct (k_open k path) as [[] ?]. Qed.

Lemma handle_fine : fine (backing.handle (K:=K)) (fun _ => True).
Proof. intros [k n]. unfold wp, backing.handle. cbn [fst snd]. by case_match. Qed.

Lemma ioctl_raw_fine fd nr t b p :
  fine (backing.ioctl_raw fd nr t b p) (fun out => blen out.1 = blen b /\ same_size p out.2).
Proof.
  intros k. unfold wp, backing.ioctl_raw. destruct (k_ioctl k fd _ b p) as [[r [b' p']] k'] eqn:Hk.
  apply kernel_lengths in Hk. by destruct (r <? 0).
Qed.

Lemma checked_sat nr o (out : bytes * Pointee) n : blen out.1 = n -> 0 <= o -> o + 4 <= n ->
  sat (backing.checked nr o out) (fun _ => True) (fun _ => True).
Proof.
  intros Hl Ho Hn. destruct (proj2 (get_le_is_Some 4 out.1 o)) as [st Hst]; [lia|].
  unfold backing.checked. rewrite Hst. unfold backing.check_status. cbn. by case_match.
Qed.

(** A block built from its members and the status word read back. *)
Lemma call_fine {X} fd nr t size fs p o (f : bytes * Pointee -> eff BackErr K X) Q :
  0 <= size -> fits size (extents fs) = true -> 0 <= o -> o + 4 <= size ->
  (forall out, blen out.1 = size -> same_size p out.2 -> fine (f out) Q) ->
  fine (out ← backing.ioctl_raw fd nr t (build size fs) p; _ ← lift (backing.checked nr o out); f out) Q.
Proof.
  intros Hs Hf Ho Hl Hk. eapply fine_bind; [apply ioctl_raw_fine|]. intros out [Hb Hp]. rewrite build_length in Hb by done.
  eapply fine_bind; [apply fine_lift; by eapply checked_sat|]. intros _ _. by apply Hk.
Qed.

Lemma alloc_fine b parent h class p : fine (backing.alloc buf_addr b parent h class p) (fun _ => True).
Proof.
  unfold backing.alloc. eapply fine_bind; [apply ioctl_raw_fine|]. intros out [Hb _].
  rewrite build_length in Hb by (vm_compute; congruence || done).
  apply fine_lift. eapply checked_sat; [exact Hb|vm_compute; congruence..].
Qed.

Lemma control_fine b object cmd params : fine (backing.control buf_addr b object cmd params) (fun q => blen q = blen params).
Proof.
  unfold backing.control. apply call_fine; [vm_compute; congruence|by vm_compute|vm_compute; congruence..|].
  intros [o p] _ Hp. apply fine_ret. cbn in *. by destruct p.
Qed.

Lemma new_root_fine ctl : fine (backing.new_root ctl) (fun _ => True).
Proof.
  unfold backing.new_root. apply call_fine; [vm_compute; congruence|by vm_compute|vm_compute; congruence..|].
  intros out Hb _. apply fine_lift. destruct (proj2 (get_le_is_Some 4 out.1 (offset_of NVOS64_PARAMETERS "hObjectNew"))) as [v ->].
  - rewrite Hb. vm_compute. split; congruence.
  - done.
Qed.

Lemma open_for_mapping_fine path ctl : fine (backing.open_for_mapping path ctl) (fun _ => True).
Proof.
  unfold backing.open_for_mapping. eapply fine_bind; [apply open_dev_fine|]. intros fd _. apply fine_on_error.
  unfold backing.register_fd. eapply (fine_bind _ _ (fun _ => True)); [|by intros; apply fine_ret].
  eapply fine_bind; [apply ioctl_raw_fine|]. by intros; apply fine_ret.
Qed.

(** A word or some bytes of an answer whose length is known. *)
Lemma read_word (q : bytes) n o (Q : Z -> Prop) : blen q = n -> 0 <= o -> o + 4 <= n -> (forall v, Q v) ->
  sat (or_panic (get_u32 q o) : outcome BackErr Z) Q (fun _ => True).
Proof. intros Hq Ho Hl HQ. destruct (proj2 (get_le_is_Some 4 q o)) as [v ->]; [lia|]. apply HQ. Qed.

Lemma attach_fine b : fine (backing.attach buf_addr b) (fun _ => True).
Proof.
  unfold backing.attach. eapply fine_bind; [apply handle_fine|]. intros device _.
  eapply fine_bind; [apply fine_on_kernel, alloc_fine|]. intros _ _.
  eapply fine_bind; [apply handle_fine|]. intros subdevice _.
  eapply fine_bind; [apply fine_on_kernel, alloc_fine|]. intros _ _.
  eapply fine_bind; [apply fine_on_kernel, control_fine|]. intros gid Hg. cbv beta in Hg.
  rewrite build_length in Hg by (vm_compute; congruence || done).
  eapply fine_bind; [apply fine_lift; eapply (read_word gid _ _ (fun _ => True) Hg); [vm_compute; congruence..|done]|]. intros len _.
  case_match; [|apply fine_fail]. eapply (fine_bind _ _ (fun _ => True)); [|by intros; apply fine_ret]. apply fine_lift.
  destruct (proj2 (get_range_is_Some gid (offset_of NV2080_CTRL_GPU_GET_GID_INFO_PARAMS "data") 16)) as [u ->]; [|done].
  rewrite Hg. vm_compute. split_and!; congruence.
Qed.

Lemma Backing_new_fine : fine (backing.Backing_new buf_addr) (fun _ => True).
Proof.
  unfold backing.Backing_new. eapply fine_bind; [apply open_dev_fine|]. intros ctl _.
  eapply fine_bind; [apply fine_on_error, new_root_fine|]. intros root _.
  eapply fine_bind; [apply fine_on_error, open_dev_fine|]. intros gpu _.
  eapply fine_bind; [apply fine_on_error, open_for_mapping_fine|]. intros reg _.
  apply fine_closing, fine_on_error. case_match; [|apply fine_fail]. intros k.
  pose proof (attach_fine (backing.MkBacking ctl reg root 0 (replicate 16 0)) (k, root + 1)) as Ha. unfold wp in *.
  by destruct (backing.attach _ _ _) as [[] [? ?]].
Qed.

Lemma card_fine : fine (backing.card buf_addr) (fun _ => True).
Proof.
  unfold backing.card. eapply fine_bind; [apply Backing_new_fine|]. intros [b n] _. do 2 apply fine_closing.
  eapply fine_bind; [apply control_fine|]. intros fb Hf. cbv beta in Hf.
  rewrite build_length in Hf by (vm_compute; congruence || done).
  eapply fine_bind; [apply fine_lift; eapply (read_word fb _ _ (fun _ => True) Hf); [vm_compute; congruence..|done]|].
  by intros; apply fine_ret.
Qed.
End client.

(** ** Lemmas *)

(** [c'] is [c] without the administrator's bit. *)
Definition without_admin (w w' : Z) : Prop := forall i, 0 <= i < 32 -> Z.testbit w' i = Z.testbit w i && negb (i =? 21).
Definition admin_dropped (c c' : CapData * CapData) : Prop :=
  without_admin (effective c.1) (effective c'.1) /\ without_admin (permitted c.1) (permitted c'.1) /\
  without_admin (inheritable c.1) (inheritable c'.1) /\ c'.2 = c.2.

Lemma admin_bit i : 0 <= i -> Z.testbit ADMIN_BIT i = (i =? 21).
Proof. intros Hi. change ADMIN_BIT with (2 ^ 21). rewrite Z.pow2_bits_eqb by lia. apply Z.eqb_sym. Qed.

Lemma not32_admin w : without_admin w (Z.land w (not32 ADMIN_BIT)).
Proof.
  intros i Hi. unfold not32. rewrite Z.land_spec, Z.lxor_spec, admin_bit by lia. change u32_max with (Z.ones 32).
  rewrite Z.testbit_ones_nonneg by lia. destruct (Z.ltb_spec i 32); [|lia]. by destruct (i =? 21).
Qed.

(** The test of all three sets at once. *)
Lemma land_admin_0 w : Z.land w ADMIN_BIT = 0 -> without_admin w w.
Proof.
  intros Hw i Hi. assert (Z.testbit (Z.land w ADMIN_BIT) i = false) as Hb by (rewrite Hw; apply Z.testbit_0_l).
  rewrite Z.land_spec, admin_bit in Hb by lia. destruct (i =? 21); [|by rewrite andb_true_r].
  rewrite andb_true_r in Hb. by rewrite Hb.
Qed.

Lemma lor_admin_0 w w' : Z.land (Z.lor w w') ADMIN_BIT = 0 -> Z.land w ADMIN_BIT = 0 /\ Z.land w' ADMIN_BIT = 0.
Proof. rewrite Z.land_lor_distr_l. apply Z.lor_eq_0_iff. Qed.

Lemma clear_admin_drops c : admin_dropped c (clear_admin_capability c).2 /\
  ((clear_admin_capability c).1 = false -> admin_dropped c c).
Proof.
  split; [split_and!; try apply not32_admin; done|]. cbn. rewrite negb_false_iff, Z.eqb_eq.
  intros [[He Hp]%lor_admin_0 Hi]%lor_admin_0. split_and!; by try apply land_admin_0.
Qed.

Lemma ascii_text_lit s : forall t, ascii_text s = Some t -> s = lit t.
Proof.
  induction s as [|c s IH]; intros t; cbn; [by intros [= <-]|]. destruct (ascii_text s) as [u|]; [|done]. cbn.
  destruct ((0 <=? c) && (c <? 128)) eqn:Hc; [|done]. bools. intros [= <-]. cbn [lit].
  rewrite Ascii.nat_ascii_embedding by lia. rewrite Z2Nat.id by lia. f_equal. by apply IH.
Qed.

Lemma from_version_string_inv s v : from_version_string s = Some v -> s = DriverVersion_as_str v.
Proof.
  unfold from_version_string.
  repeat match goal with |- context [String.eqb s ?x] => destruct (String.eqb_spec s x) as [->|]; [by intros [= <-]|] end. done.
Qed.

Lemma detect_names file v : detect file = Ok v ->
  exists s, file = Some s /\ lit (DriverVersion_as_str v) ∈ split_whitespace s.
Proof.
  unfold detect, running_driver_version. destruct file as [s|]; cbn; [|done].
  destruct (list_find _ _) as [[i w]|] eqn:Hw; cbn; [|done]. destruct (ascii_text w) as [t|] eqn:Ht; cbn; [|done].
  destruct (from_version_string t) as [v'|] eqn:Hv; cbn; [|done]. intros [= ->]. exists s. split; [done|].
  apply from_version_string_inv in Hv as ->. apply ascii_text_lit in Ht as <-.
  apply list_find_Some in Hw as (Hi & _). by apply list_elem_of_lookup_2 in Hi.
Qed.

Lemma detect_no_panic file : detect file <> Panic.
Proof.
  unfold detect, running_driver_version. destruct file as [s|]; cbn; [|done]. destruct (list_find _ _); cbn; [|done].
  by destruct (_ ≫= _).
Qed.

Lemma pins_positive v b : PinBudget_from_env v = Ok b -> 0 < pin_limit b <= u64_max.
Proof.
  unfold PinBudget_from_env. destruct v as [| |raw]; cbn; [by intros [= <-]|done|].
  unfold parse_pin_bytes. destruct (parse_u64 (trim raw)) as [n|] eqn:Hn; cbn; [|done].
  apply parse_uint_range in Hn; [|done]. unfold checked_mul64. destruct (_ <=? u64_max) eqn:Hm; cbn; [|done].
  destruct (_ =? 0) eqn:Hz; cbn; [done|]. bools. unfold PinBudget_new.
  destruct (_ =? 0); [done|]. intros [= <-]. cbn. lia.
Qed.

Lemma decide_no_panic e : startup.decide e <> Panic.
Proof.
  unfold startup.decide, choose. repeat case_match; try done.
Qed.

Lemma pins_no_panic v : PinBudget_from_env v <> Panic.
Proof. unfold PinBudget_from_env, PinBudget_new. destruct v as [| |raw]; cbn; [done|done|]. by destruct (parse_pin_bytes raw); cbn; [case_match|]. Qed.

Section started.
Context {K : Type} `{RmKernel K} {KL : KernelLengths K} {D : Type} `{PoolDriver D} `{!PoolDriverLaws D}.
Context {V : Type} `{Vmm V} `{!VmmLaws V} {M : Type} `{GuestMem M}.
Context (env : StartEnv) (buf_addr : Z) (dr : D).
Implicit Types p : Proc K.

Definition privilege_settled (c c' : CapData * CapData) : Prop :=
  if keeps_admin env then c' = c else admin_dropped c c'.

Lemma call_ok_wp b e (Q : unit -> Proc K -> Prop) p : Q tt p -> wp (call_ok b e) Q (fun _ _ => True) p.
Proof. by destruct b. Qed.

Lemma settle_wp p : wp (settle_admin_privilege env) (fun _ p' => privilege_settled (caps p) (caps p')) (fun _ _ => True) p.
Proof.
  unfold settle_admin_privilege, privilege_settled. wp_step. apply call_ok_wp. do 2 wp_step.
  destruct (keeps_admin env); [by apply wp_ret|].
  destruct (clear_admin_drops (caps p)) as [Hc Hn]. destruct (clear_admin_capability (caps p)) as [[] data]; cbn [fst snd negb] in *.
  - wp_step. apply call_ok_wp. by apply wp_modify.
  - apply wp_ret. by apply Hn.
Qed.

Lemma ask_card_wp sock p : wp (ask_card buf_addr sock) (fun _ p' => caps p' = caps p) (fun _ _ => True) p.
Proof.
  pose proof (card_fine buf_addr (rm p)) as Hc. unfold wp, ask_card in *.
  destruct (backing.card buf_addr (rm p)) as [[[h t]|e|] k]; [done|done|by destruct Hc].
Qed.

(** What a device is created with. *)
Record created (A : RmAbi) (c : option Card) (d : NvrmDevice D V) : Prop := {
  cr_new : d = Device.device_new (stream (A:=A)) (profile (n_ledger d)) (pin_limit_of (n_world d)) dr;
  cr_selected : startup.selected (raw_env (var env) (from_option card_bytes 0 c)) (profile (n_ledger d));
  cr_coherent : startup.coherent (profile (n_ledger d));
  cr_limit : 0 < pin_limit_of (n_world d) <= u64_max;
}.

Lemma build_tables_ok (A : RmAbi) {AOk : RmAbiOk A} : exists t, build_tables A = Ok t /\ tb_bytes t = stream (A:=A).
Proof.
  unfold build_tables. generalize (built (A:=A)). generalize (Tables.build (A:=A)). generalize (stream (A:=A)).
  intros s o ->. eexists. split; reflexivity.
Qed.

Lemma NvrmDevice_new_wp (A : RmAbi) {AOk : RmAbiOk A} p :
  wp (NvrmDevice_new (V:=V) env dr A) (fun d p' => p' = p /\ created A (card_cell p') d) (fun _ _ => True) p.
Proof.
  unfold NvrmDevice_new. destruct (build_tables_ok A) as (t & -> & Ht). do 2 wp_step. cbn [sat]. do 4 wp_step.
  unfold Ledger_new, profile_from_env. destruct (startup.decide _) as [[pr notes]| |] eqn:Hd; cbn [sat map_err mbind outcome_bind fst]; [|done|by eapply decide_no_panic].
  do 2 wp_step. destruct (PinBudget_from_env _) as [b| |] eqn:Hb; cbn [sat]; [|done|by eapply pins_no_panic].
  wp_step. apply call_ok_wp. wp_step. apply call_ok_wp. wp_step. apply call_ok_wp. apply wp_ret. split; [done|].
  apply startup.decide_selects in Hd as [Hs Hc]. split; cbn; [by rewrite Ht|done|done|by eapply pins_positive].
Qed.

Definition started (c : CapData * CapData) (sv : Serving D V) (p : Proc K) : Prop :=
  (exists name, argv env = [name; Some (lit "--nvrm"); Some (socket sv)]) /\ detect (version_file env) = Ok (version sv) /\
  privilege_settled c (caps p) /\ created (dispatch (version sv) id) (card_cell p) (device sv).

Lemma serve_with_wp (A : RmAbi) {AOk : RmAbiOk A} sock p :
  wp (serve_with (V:=V) env buf_addr dr A sock) (fun d p' => caps p' = caps p /\ created A (card_cell p') d) (fun _ _ => True) p.
Proof.
  unfold serve_with. wp_step. eapply wp_mono; [apply ask_card_wp| |done]. intros u p1 Hc; cbv beta in Hc. wp_step.
  eapply wp_mono; [by apply NvrmDevice_new_wp| |done]. intros d p2 [-> Hd].
  do 3 (wp_step; apply call_ok_wp). by apply wp_ret.
Qed.

(** The arguments that are asked for. *)
Lemma asked_args l flag sock : mapM id (argv env) = Some l -> drop 1 l = [flag; sock] ->
  exists name, argv env = [name; Some flag; Some sock].
Proof.
  rewrite mapM_Some. intros Hl Hd. destruct l as [|name l]; [done|]. cbn in Hd. rewrite drop_0 in Hd. subst l.
  inversion Hl as [|? ? ? ? Hn Hl1]; subst. inversion Hl1 as [|? ? ? ? Hf Hl2]; subst. inversion Hl2 as [|? ? ? ? Hs Hl3]; subst.
  inversion Hl3; subst. cbn in Hn, Hf, Hs. subst. by eexists.
Qed.

Lemma main_wp l p : mapM id (argv env) = Some l ->
  wp (main (V:=V) env buf_addr dr) (started (caps p)) (fun _ _ => True) p.
Proof.
  intros Hl. unfold main. wp_step. eapply wp_mono; [apply settle_wp| |done]. intros u p1 Hp; cbv beta in Hp. wp_step.
  unfold args. rewrite Hl. wp_step. apply wp_lift. cbn [sat]. apply wp_ret.
  destruct (drop 1 l) as [|flag [|sock []]] eqn:Ha; try done. destruct (str_eqb flag (lit "--nvrm")) eqn:Hf; [|done].
  apply bool_decide_eq_true in Hf as ->. pose proof (asked_args _ _ _ Hl Ha) as Hargs. unfold serve. wp_step.
  destruct (detect (version_file env)) as [v|e|] eqn:Hv; [|done|by eapply detect_no_panic].
  apply wp_lift. cbn [sat]. wp_step.
  assert (dispatch v (fun A => serve_with (K:=K) (V:=V) env buf_addr dr A sock) = serve_with env buf_addr dr (dispatch v id) sock)
    as -> by (by destruct v).
  pose proof (driver_abi v) as AOk. eapply wp_mono; [by apply serve_with_wp| |done]. intros d p2 [Hc Hd].
  apply wp_ret. split_and!; [done|done|by rewrite Hc|done].
Qed.

(** An argument that is not Unicode: the process does not get to serve. *)
Lemma main_bad_args p sv p' : mapM id (argv env) = None -> main (V:=V) env buf_addr dr p <> (Ok sv, p').
Proof.
  intros Hl. unfold main, args. rewrite Hl. unfold mbind, eff_bind. by destruct (settle_admin_privilege env p) as [[[]|e|] p1].
Qed.
End started.

(** ** Theorems *)
Section claims.
Context {K : Type} `{RmKernel K} {KL : KernelLengths K} {D : Type} `{PoolDriver D} `{!PoolDriverLaws D}.
Context {V : Type} `{Vmm V} `{!VmmLaws V} {M : Type} `{GuestMem M}.

(** C3: The backend process starts safely.  Whatever its arguments, its
    environment and the system calls answer, it does not panic on the way to
    its socket, unless an argument is not Unicode text.  If it serves, it was
    asked to; it has given up CAP_SYS_ADMIN in all three sets and kept every
    other capability, unless it was told to keep it; the driver it speaks to is the one the version file names; the
    memory policy is the one its variables select, with numbers that add up,
    and the pin budget is positive; and from the device it serves, every
    device reachable by requests, poll rounds and reconnections keeps the
    invariant of the whole device under that policy and budget. *)
Theorem backend_start env buf_addr (dr : D) (p : Proc K) r p' :
  objects dr = ∅ -> ranges dr = ∅ -> main (V:=V) env buf_addr dr p = (r, p') ->
  (r = Panic -> None ∈ argv env) /\ forall sv, r = Ok sv ->
  let A := dispatch (version sv) id in
  let pr := profile (n_ledger (device sv)) in
  let lim := pin_limit_of (n_world (device sv)) in
  (exists name, argv env = [name; Some (lit "--nvrm"); Some (socket sv)]) /\
  (exists s, version_file env = Some s /\ lit (DriverVersion_as_str (version sv)) ∈ split_whitespace s) /\
  (if keeps_admin env then caps p' = caps p else admin_dropped (caps p) (caps p')) /\
  (startup.selected (raw_env (var env) (from_option card_bytes 0 (card_cell p'))) pr /\ startup.coherent pr /\ 0 < lim <= u64_max) /\
  (forall e, reach (A:=A) (M:=M) (stream (A:=A)) pr lim dr ∅ (device sv) e) /\
  (forall G d e, reach (A:=A) (M:=M) (stream (A:=A)) pr lim dr G d e -> nvrm_ok pr lim G d).
Proof.
  intros Ho Hr Hm. destruct (mapM id (argv env)) as [l|] eqn:Hargs.
  2: { split; [|intros sv ->; by apply main_bad_args in Hm].
       intros _. apply mapM_None in Hargs. apply Exists_exists in Hargs as (a & Ha & E). cbn in E. by subst a. }
  pose proof (wp_run _ _ _ _ _ _ (main_wp env buf_addr dr l p Hargs) Hm) as Hw. split; [by intros ->|].
  intros sv -> A pr lim. destruct Hw as (Ha & Hv & Hp & [Hn Hs Hc Hl]). fold A pr lim in Hn, Hs, Hc, Hl.
  pose proof (driver_abi (version sv)) as AOk. split_and!; try done.
  - by apply detect_names.
  - apply Hl.
  - apply Hl.
  - intros e. rewrite Hn. apply reach_new.
  - intros G d e. apply (reach_ok (AOk:=AOk)). pose proof (stream_length (A:=A)) as Ht. unfold SZ_1M in Ht.
    destruct Hc as (Hf & Hsz & Hres & _). split; [lia| |lia|done|done].
    destruct Hf as [Hoff|Hf]; [|lia]. unfold startup.selected in Hs. fold pr. rewrite Hoff in Hs. by destruct Hs as [-> _].
Qed.
End claims.

(** ** Examples *)
Global Instance table_lengths {A : RmAbi} : KernelLengths (TableKernel A).
Proof.
  intros k fd req b p r b' p' k'. cbn [k_ioctl TableKernel_kernel]. pose proof (table_shape k fd b) as (S1 & S2 & S3 & S4 & S5).
  assert (forall q, same_size q q) as Hq by (by intros []).
  destruct (call_of req), p as [|q|a]; try (intros [= <- <- <- <-]; split; [done|]; cbn; by rewrite ?poke_length); try specialize (S1 a);
    repeat match goal with
    | S : shaped b ?m |- context [?m] => destruct m as [[r0 b0] k0]; destruct S; by intros [= <- <- <- <-]
    end.
Qed.

Definition example_var (n : string) : EnvVar :=
  if String.eqb n "LEA_VRAM_PROFILE_MIB" then Var (lit "2048")
  else if String.eqb n "LEA_MAX_PIN_TOTAL_MIB" then Var (lit " 512 ") else NotPresent.

Definition version_text : str := lit "NVRM version: NVIDIA UNIX Open Kernel Module for x86_64  580.178.04  Release Build".

Definition example_env (args : list string) : StartEnv :=
  MkStart (Some (lit "vhost-user-nvrm") :: map (fun a => Some (lit a)) args) example_var (Some version_text) true true true true true true true true.

Definition example_proc : Proc (TableKernel V580) := MkProc (MkCap 0x200401 0x3fffff 0, MkCap 0x1ff 0x1ff 0) fresh_kernel None.

Definition example_main : outcome StartErr (Serving TableDriver TableVmm) * Proc (TableKernel V580) :=
  main (example_env ["--nvrm"; "/run/vm1/nvrm.sock"]) 0x7000 (example_driver false) example_proc.

Example usage : (main (V:=TableVmm) (example_env ["--nvrm"]) 0x7000 (example_driver false) example_proc).1 = Err Usage.
Proof. vm_compute. reflexivity. Qed.

Lemma example_serves : match example_main with
  | (Ok sv, p') => version sv = DV580 /\ caps p' = (MkCap 0x401 0x1fffff 0, MkCap 0x1ff 0x1ff 0) /\
      fb_length (profile (n_ledger (device sv))) = 1792 * 2 ^ 20 /\ pin_limit_of (n_world (device sv)) = 512 * 2 ^ 20
  | _ => False
  end.
Proof.
  destruct (build_tables_ok V580) as (t & Ht & _). revert Ht. unfold example_main, main, serve, serve_with, NvrmDevice_new.
  generalize build_tables. intros bt Ht. vm_compute in Ht. vm_compute. rewrite Ht. done.
Qed.

Lemma backend_start_witness : exists sv p', example_main = (Ok sv, p') /\ version sv = DV580 /\
  caps p' = (MkCap 0x401 0x1fffff 0, MkCap 0x1ff 0x1ff 0) /\ admin_dropped (caps example_proc) (caps p') /\
  nvrm_ok (profile (n_ledger (device sv))) (pin_limit_of (n_world (device sv))) ∅ (device sv).
Proof.
  pose proof example_serves as Hs. destruct example_main as [[sv|e|] p'] eqn:Hm; [|done|done].
  destruct Hs as (Hv & Hc & _). exists sv, p'. split; [done|]. split; [done|]. split; [done|].
  destruct (backend_start (M:=RegionList) (example_env ["--nvrm"; "/run/vm1/nvrm.sock"]) 0x7000 (example_driver false) example_proc
    _ _ (fh_objects _ _ _ _ example_fresh) (fh_ranges _ _ _ _ example_fresh) Hm) as [_ H].
  destruct (H sv eq_refl) as (_ & _ & Hd & _ & Hr & Ho). split; [exact Hd|]. exact (Ho _ _ idle_events (Hr _)).
Defined.
