(* ===== verification/Trace.v ===== *)
(** * The trace library (nvrm-trace: lib.rs, fdtable.rs)

    A library that stands between a program and libc: each hook makes the real
    call with the arguments it got and logs what concerns an NVIDIA device.
    Which descriptors do is kept in a table of tags.  The program's side of the
    system (libc, kernel, memory) is the class [Libc]; a log write may do
    anything to [errno] and nothing else the program sees.  Shown: a traced
    program computes what it does untraced; and as long as device descriptors
    come and go by the hooked calls only ([undisturbed]: no fcntl(F_DUPFD),
    close_range or received descriptor), tags are true, and they are
    complete while the counter of lost ones is zero. *)
From stdpp Require Import strings.
From S2P Require Import Prelude.
From S2P Require Import Bytes.
From S2P Require Import Text.
From S2P Require Import CLayout.
From S2P Require Import SysConsts.
From S2P Require Import Sys.
From S2P Require Import NvAbi.

Local Open Scope string_scope.
Local Open Scope list_scope.
Local Open Scope Z_scope.

Module trace.

(** ** Devices *)
Inductive NvDev := Ctl | Gpu | Uvm | UvmTools | Event | Drm (render : bool) | Modeset.

Global Instance NvDev_eq_dec : EqDecision NvDev.
Proof. solve_decision. Defined.

(** A C string: a null pointer, bytes that are not UTF-8, or text. *)
Inductive CPath := NullPath | NotUtf8 | Path (s : str).

Global Instance CPath_eq_dec : EqDecision CPath.
Proof. solve_decision. Defined.

Definition numbered (prefix : string) (s : str) : bool :=
  match strip_prefix (lit prefix) s with Some n => bool_decide (is_Some (parse_u32 n)) | None => false end.

Definition classify (path : CPath) : option NvDev :=
  match path with
  | Path s =>
      if str_eqb s (lit "/dev/nvidiactl") then Some Ctl
      else if str_eqb s (lit "/dev/nvidia-uvm") then Some Uvm
      else if str_eqb s (lit "/dev/nvidia-uvm-tools") then Some UvmTools
      else if str_eqb s (lit "/dev/nvidia-modeset") then Some Modeset
      else if numbered "/dev/dri/card" s then Some (Drm false)
      else if numbered "/dev/dri/renderD" s then Some (Drm true)
      else if numbered "/dev/nvidia" s then Some Gpu
      else None
  | _ => None
  end.

(** ** The table of tags (fdtable.rs) *)
Definition MAX_FD : Z := 65536.
Definition NONE : Z := 0.

Definition encode (d : NvDev) : Z :=
  match d with
  | Ctl => 1 | Uvm => 2 | UvmTools => 3 | Event => 4 | Drm false => 5 | Drm true => 6 | Modeset => 7 | Gpu => 8
  end.

Definition decode (v : Z) : option NvDev :=
  match v with
  | 1 => Some Ctl | 2 => Some Uvm | 3 => Some UvmTools | 4 => Some Event
  | 5 => Some (Drm false) | 6 => Some (Drm true) | 7 => Some Modeset | 8 => Some Gpu
  | _ => None
  end.

(** Slots not in the map hold [NONE]. *)
Record FdTable := MkTable { slots : gmap Z Z; OVERFLOW : Z }.

Definition slot (fd : Z) : option Z := if fd <? 0 then None else if fd <? MAX_FD then Some fd else None.

Definition insert (t : FdTable) (fd : Z) (dev : NvDev) : FdTable :=
  match slot fd with
  | Some i => MkTable (<[i := encode dev]> (slots t)) (OVERFLOW t)
  | None => MkTable (slots t) (wrap64 (OVERFLOW t + 1))
  end.

Definition get (t : FdTable) (fd : Z) : option NvDev := i ← slot fd; decode (default NONE (slots t !! i)).

Definition remove (t : FdTable) (fd : Z) : FdTable :=
  match slot fd with Some i => MkTable (<[i := NONE]> (slots t)) (OVERFLOW t) | None => t end.

Definition duplicate (t : FdTable) (oldfd newfd : Z) : FdTable :=
  match get t oldfd with Some dev => insert t newfd dev | None => remove t newfd end.

(** ** Calls *)
Record PollFd := MkPollFd { pf_fd : Z; pf_revents : Z }.

Inductive Call :=
| Ioctl (fd req arg : Z)
| Open (path : CPath) (flags mode : Z) | Open64 (path : CPath) (flags mode : Z)
| Openat (dirfd : Z) (path : CPath) (flags mode : Z) | Openat64 (dirfd : Z) (path : CPath) (flags mode : Z)
| Close (fd : Z) | Dup (oldfd : Z) | Dup2 (oldfd newfd : Z) | Dup3 (oldfd newfd flags : Z)
| Mmap (addr len prot flags fd off : Z) | Mmap64 (addr len prot flags fd off : Z)
| Read (fd buf n : Z) | Poll (fds n timeout : Z)
(** a call that is not hooked *)
| Unhooked (what : Z).

(** [real errno o c] is the result, [errno] and the system after the call.
    Buffers the tracer decodes are readable. *)
Class Libc (W : Type) := {
  real : Z -> W -> Call -> Z * Z * W;
  peek : W -> Z -> Z -> bytes;
  pollfds : W -> Z -> Z -> list PollFd;
  (** descriptors with the path each was opened by *)
  fds : W -> gmap Z CPath;
}.

(** What is logged. *)
Inductive Line :=
| LDetailPre (dev : NvDev) (cmd arg : Z) | LIoctl (dev : NvDev) (fd nr size ret arg : Z)
| LEventReg (fd : Z) (prev : option NvDev) | LOpen (dev : NvDev) (fd : Z)
| LMmap (dev : NvDev) (fd len off p : Z) | LRead (dev : NvDev) (fd ret : Z) | LPoll (dev : NvDev) (fd revents : Z).

Record Tracer (W : Type) := MkTracer { tab : FdTable; errno : Z; os : W; lines : list Line }.
Arguments MkTracer {W} _ _ _ _.
Arguments tab {W} _.
Arguments errno {W} _.
Arguments os {W} _.
Arguments lines {W} _.

Section hooks.
Context {W : Type} `{Libc W}.
(** The [errno] a log write leaves behind. *)
Context (noise : list Line -> Z).
Implicit Types t : Tracer W.

Definition set_tab (f : FdTable -> FdTable) t : Tracer W := MkTracer (f (tab t)) (errno t) (os t) (lines t).
Definition set_errno (e : Z) t : Tracer W := MkTracer (tab t) e (os t) (lines t).
Definition log (l : Line) t : Tracer W := MkTracer (tab t) (noise (lines t ++ [l])) (os t) (lines t ++ [l]).

(** [ErrnoGuard]: the value at its creation is put back when it is dropped. *)
Definition guarded (m : Tracer W -> Tracer W) t : Tracer W := set_errno (errno t) (m t).

Definition pass_on (c : Call) t : Z * Tracer W :=
  let '(r, e, o) := real (errno t) (os t) c in (r, MkTracer (tab t) e o (lines t)).

(** [log::decode]: UVM numbers are raw. *)
Definition decode_cmd (dev : NvDev) (cmd : Z) : Z * Z :=
  match dev with Uvm | UvmTools => (cmd, 0) | _ => (Ioc.ioc_nr cmd, Ioc.ioc_size cmd) end.

Definition is_rm (dev : NvDev) : bool := match dev with Ctl | Gpu => true | _ => false end.

Definition read_xfer (o : W) (arg : Z) : option nv_ioctl_xfer_value :=
  if arg =? 0 then None
  else let b := peek o arg (size_of nv_ioctl_xfer_t) in
       let w n := default 0 (get_u32 b (offset_of nv_ioctl_xfer_t n)) in
       Some {| x_cmd := w "cmd"; x_size := w "size"; x_ptr := default 0 (get_u64 b (offset_of nv_ioctl_xfer_t "ptr")) |}.

Definition ioctl_payload (o : W) (dev : NvDev) (cmd arg : Z) : Z * Z * Z :=
  match (if is_rm dev then unwrap_xfer cmd (read_xfer o arg) else None) with
  | Some (Ok (nr, ptr, len)) => (nr, wrap32 len, ptr)
  | _ => let '(nr, size) := decode_cmd dev cmd in (nr, size, arg)
  end.

Definition nv_ioctl_alloc_os_event_t : layout :=
  struct [("hClient", NvU32); ("hDevice", NvU32); ("fd", NvU32); ("Status", NvU32)].

Definition note_event_fd (dev : NvDev) (nr size arg : Z) t : Tracer W :=
  let ev := nv_ioctl_alloc_os_event_t in
  if negb (is_rm dev) || negb (nr =? NV_ESC_ALLOC_OS_EVENT) || (size <? size_of ev) || (arg =? 0) then t
  else
    let p := peek (os t) arg (size_of ev) in
    let w n := default 0 (get_u32 p (offset_of ev n)) in
    if negb (w "Status" =? 0) then t
    else
      let efd := as_i32 (w "fd") in
      let prev := get (tab t) efd in
      let t := log (LEventReg efd prev) t in
      match prev with None => set_tab (fun x => insert x efd Event) t | Some _ => t end.

Definition ioctl (fd req arg : Z) t : Z * Tracer W :=
  let dev := get (tab t) fd in
  let t := match dev with
           | Some d => guarded (log (LDetailPre d (wrap32 req) arg)) t
           | None => t
           end in
  let '(ret, t) := pass_on (Ioctl fd req arg) t in
  (ret, guarded (fun t =>
     match dev with
     | Some d =>
         let '(nr, size, arg) := ioctl_payload (os t) d (wrap32 req) arg in
         let t := log (LIoctl d fd nr size ret arg) t in
         if ret =? 0 then note_event_fd d nr size arg t else t
     | None => t
     end) t).

Definition note_open (path : CPath) (fd : Z) t : Tracer W :=
  if (fd <? 0) || bool_decide (path = NullPath) then t
  else match classify path with
       | Some dev => log (LOpen dev fd) (set_tab (fun x => insert x fd dev) t)
       | None => t
       end.

(** The four ways to open differ in the call they forward. *)
Definition opening (c : Call) (path : CPath) t : Z * Tracer W :=
  let '(fd, t) := pass_on c t in (fd, guarded (note_open path fd) t).

Definition close (fd : Z) t : Z * Tracer W := pass_on (Close fd) (set_tab (fun x => remove x fd) t).

(** So do the ways to duplicate; no log is written. *)
Definition duplicating (c : Call) (oldfd : Z) t : Z * Tracer W :=
  let '(r, t) := pass_on c t in (r, if 0 <=? r then set_tab (fun x => duplicate x oldfd r) t else t).

Definition mmap_common (c : Call) (fd len off : Z) t : Z * Tracer W :=
  let '(p, t) := pass_on c t in
  (p, guarded (fun t => match get (tab t) fd with Some d => log (LMmap d fd len off p) t | None => t end) t).

Definition read (fd buf n : Z) t : Z * Tracer W :=
  let dev := get (tab t) fd in
  let '(r, t) := pass_on (Read fd buf n) t in
  (r, guarded (fun t => match dev with Some d => log (LRead d fd r) t | None => t end) t).

Definition log_poll t (p : PollFd) : Tracer W :=
  match get (tab t) (pf_fd p) with Some d => log (LPoll d (pf_fd p) (pf_revents p)) t | None => t end.

Definition poll (ptr n timeout : Z) t : Z * Tracer W :=
  let '(r, t) := pass_on (Poll ptr n timeout) t in
  (r, guarded (fun t => if (0 <=? r) && negb (ptr =? 0) then foldl log_poll t (pollfds (os t) ptr n) else t) t).

(** What a traced program's call does. *)
Definition hook (c : Call) : Tracer W -> Z * Tracer W :=
  match c with
  | Ioctl fd req arg => ioctl fd req arg
  | Open path _ _ | Open64 path _ _ | Openat _ path _ _ | Openat64 _ path _ _ => opening c path
  | Close fd => close fd
  | Dup oldfd | Dup2 oldfd _ | Dup3 oldfd _ _ => duplicating c oldfd
  | Mmap _ len _ _ fd off | Mmap64 _ len _ _ fd off => mmap_common c fd len off
  | Read fd buf n => read fd buf n
  | Poll ptr n timeout => poll ptr n timeout
  | Unhooked _ => pass_on c
  end.

(** A program makes [n] calls; each depends on the system and on every result
    and [errno] it has seen. *)
Fixpoint traced (prog : list (Z * Z) -> W -> Call) (n : nat) (seen : list (Z * Z)) t : list (Z * Z) * Tracer W :=
  match n with
  | O => (seen, t)
  | S n => let '(r, t) := hook (prog seen (os t)) t in traced prog n (seen ++ [(r, errno t)]) t
  end.

Fixpoint untraced (prog : list (Z * Z) -> W -> Call) (n : nat) (seen : list (Z * Z)) (e : Z) (o : W)
  : list (Z * Z) * (Z * W) :=
  match n with
  | O => (seen, (e, o))
  | S n => let '(r, e, o) := real e o (prog seen o) in untraced prog n (seen ++ [(r, e)]) e o
  end.

Definition table_new : FdTable := MkTable ∅ 0.
End hooks.

(** ** What the descriptors do *)
Definition opened (c : Call) : option CPath :=
  match c with
  | Open path _ _ | Open64 path _ _ | Openat _ path _ _ | Openat64 _ path _ _ => Some path
  | _ => None
  end.
Definition duplicated (c : Call) : option Z :=
  match c with Dup oldfd | Dup2 oldfd _ | Dup3 oldfd _ _ => Some oldfd | _ => None end.
Definition closed (c : Call) : option Z := match c with Close fd => Some fd | _ => None end.

Class LibcLaws (W : Type) `{Libc W} : Prop := {
  ll_open e o c path r e' o' : opened c = Some path -> real e o c = (r, e', o') ->
    if r <? 0 then fds o' = fds o else fds o !! r = None /\ fds o' = <[r := path]> (fds o);
  (** a descriptor is gone even when close reports an error *)
  ll_close e o fd r e' o' : real e o (Close fd) = (r, e', o') -> fds o' = delete fd (fds o);
  ll_dup e o c old r e' o' : duplicated c = Some old -> real e o c = (r, e', o') ->
    if r <? 0 then fds o' = fds o else exists path, fds o !! old = Some path /\ fds o' = <[r := path]> (fds o);
}.

(** No descriptor of a device appeared, went or changed. *)
Definition unnoticed {W : Type} `{Libc W} (o o' : W) : Prop := forall fd,
  fds o' !! fd = fds o !! fd \/ (fds o !! fd = None /\ forall path, fds o' !! fd = Some path -> classify path = None).

(** A run in which only the hooked calls that open, close or duplicate
    descriptors do so with those of devices.  Other calls can: fcntl(F_DUPFD),
    close_range or recvmsg are not hooked. *)
Fixpoint undisturbed {W : Type} `{Libc W} (prog : list (Z * Z) -> W -> Call) (n : nat) (seen : list (Z * Z)) (e : Z) (o : W)
  : Prop :=
  match n with
  | O => True
  | S n =>
      let c := prog seen o in
      let '(r, e', o') := real e o c in
      (opened c = None -> duplicated c = None -> closed c = None -> unnoticed o o') /\
      undisturbed prog n (seen ++ [(r, e')]) e' o'
  end.

(** ** The table *)
Lemma decode_encode d : decode (encode d) = Some d.
Proof. by destruct d as [| | | | |[]|]. Qed.

Lemma slot_some fd i : slot fd = Some i -> i = fd.
Proof. unfold slot. destruct (fd <? 0), (fd <? MAX_FD); congruence. Qed.

Lemma get_insert t fd d fd' : slot fd <> None -> get (insert t fd d) fd' = if decide (fd' = fd) then Some d else get t fd'.
Proof.
  unfold insert. destruct (slot fd) as [i|] eqn:Hs; [|done]. intros _. pose proof (slot_some _ _ Hs) as ->. unfold get. cbn [slots].
  case_decide as E.
  - subst fd'. rewrite Hs. cbn. rewrite lookup_insert_eq. apply decode_encode.
  - destruct (slot fd') as [j|] eqn:Hj; [|done]. apply slot_some in Hj as ->. cbn. by rewrite lookup_insert_ne.
Qed.

Lemma get_insert_out t fd d fd' : slot fd = None -> get (insert t fd d) fd' = get t fd'.
Proof. unfold insert. by intros ->. Qed.

Lemma get_remove t fd fd' : get (remove t fd) fd' = if decide (fd' = fd) then None else get t fd'.
Proof.
  unfold remove, get. case_decide as E; [subst fd'|]; destruct (slot fd) as [i|] eqn:Hs; try done.
  - apply slot_some in Hs as ->. cbn. by rewrite lookup_insert_eq.
  - apply slot_some in Hs as ->. cbn [slots]. destruct (slot fd') as [j|] eqn:Hj; [|done]. apply slot_some in Hj as ->. cbn.
    by rewrite lookup_insert_ne.
Qed.

Lemma remove_overflow t fd : OVERFLOW (remove t fd) = OVERFLOW t.
Proof. unfold remove. by destruct (slot fd). Qed.

(** Tags are true, the counter has not wrapped after [n] calls, and while it is
    zero no device is missing. *)
Record table_ok (n : Z) (t : FdTable) (f : gmap Z CPath) : Prop := {
  to_sound fd d : get t fd = Some d -> d <> Event -> exists path, f !! fd = Some path /\ classify path = Some d;
  to_count : 0 <= OVERFLOW t <= n;
  to_complete fd path d : OVERFLOW t = 0 -> f !! fd = Some path -> classify path = Some d -> get t fd = Some d;
}.

Lemma table_ok_more n m t f : table_ok n t f -> n <= m -> table_ok m t f.
Proof. intros [H1 H2 H3] Hm. split; [done|lia|done]. Qed.

Section table.
Context (n : Z) (t : FdTable) (f : gmap Z CPath) (Hok : table_ok n t f) (Hn : n + 1 < 2 ^ 64).

(** A tag for a descriptor whose path has that device, or an event's where
    there was none; other descriptors stay. *)
Lemma insert_ok fd d f' :
  (d <> Event -> exists path, f' !! fd = Some path /\ classify path = Some d) ->
  (forall path d', OVERFLOW t = 0 -> f' !! fd = Some path -> classify path = Some d' -> d' = d) ->
  (forall fd', fd' <> fd -> f' !! fd' = f !! fd') -> table_ok (n + 1) (insert t fd d) f'.
Proof.
  intros Hd Hu Hf. pose proof (to_count _ _ _ Hok) as Hc. destruct (slot fd) as [i|] eqn:Hs.
  - assert (OVERFLOW (insert t fd d) = OVERFLOW t) as Ho by (unfold insert; by rewrite Hs). split.
    + intros fd' d'. rewrite get_insert by congruence. case_decide as E; [subst fd'; by intros [= <-]|].
      rewrite (Hf _ E). apply (to_sound _ _ _ Hok).
    + lia.
    + intros fd' path d'. rewrite Ho, get_insert by congruence. case_decide as E; [subst fd'|].
      * intros H0 Hp Hk. f_equal. symmetry. by eapply Hu.
      * rewrite (Hf _ E). apply (to_complete _ _ _ Hok).
  - assert (OVERFLOW (insert t fd d) = OVERFLOW t + 1) as Ho.
    { unfold insert. rewrite Hs. cbn. unfold wrap64. apply Z.mod_small. change 18446744073709551616 with (2 ^ 64). lia. }
    split.
    + intros fd' d' Hg He. rewrite get_insert_out in Hg by done. destruct (decide (fd' = fd)) as [->|E].
      * unfold get in Hg. by rewrite Hs in Hg.
      * rewrite (Hf _ E). by apply (to_sound _ _ _ Hok).
    + lia.
    + intros fd' path d' H0. lia.
Qed.

(** A descriptor that is now no device. *)
Lemma remove_ok fd f' : (forall path, f' !! fd = Some path -> OVERFLOW t = 0 -> classify path = None) ->
  (forall fd', fd' <> fd -> f' !! fd' = f !! fd') -> table_ok n (remove t fd) f'.
Proof.
  intros Hd Hf. split.
  - intros fd' d'. rewrite get_remove. case_decide as E; [done|]. rewrite (Hf _ E). apply (to_sound _ _ _ Hok).
  - rewrite remove_overflow. apply (to_count _ _ _ Hok).
  - intros fd' path d'. rewrite remove_overflow, get_remove. case_decide as E; [subst fd'|].
    + intros H0 Hp Hc. by rewrite (Hd _ Hp H0) in Hc.
    + rewrite (Hf _ E). apply (to_complete _ _ _ Hok).
Qed.

(** New descriptors that are no device. *)
Lemma fresh_ok f' : (forall fd, f' !! fd = f !! fd \/ (f !! fd = None /\ forall path, f' !! fd = Some path -> classify path = None)) ->
  table_ok n t f'.
Proof.
  intros Hf. split.
  - intros fd d Hg Hd. destruct (to_sound _ _ _ Hok fd d Hg Hd) as (path & Hp & Hc).
    destruct (Hf fd) as [E|[E _]]; [|congruence]. exists path. by rewrite E.
  - apply (to_count _ _ _ Hok).
  - intros fd path d H0 Hp Hc. destruct (Hf fd) as [E|[_ E]]; [rewrite E in Hp; by eapply (to_complete _ _ _ Hok)|].
    by rewrite (E _ Hp) in Hc.
Qed.

Lemma duplicate_ok old new path : f !! old = Some path -> table_ok (n + 1) (duplicate t old new) (<[new := path]> f).
Proof.
  intros Hp. assert (forall fd', fd' <> new -> <[new := path]> f !! fd' = f !! fd') as Hne
    by (intros; by rewrite lookup_insert_ne).
  unfold duplicate. destruct (get t old) as [d|] eqn:Hg.
  - apply insert_ok; [| |done].
    + intros Hd. destruct (to_sound _ _ _ Hok old d Hg Hd) as (q & Hq & Hc). exists q. rewrite lookup_insert_eq. split; congruence.
    + intros q d' H0. rewrite lookup_insert_eq. intros [= <-] Hc. pose proof (to_complete _ _ _ Hok old path d' H0 Hp Hc). congruence.
  - eapply table_ok_more; [apply remove_ok; [|done]|lia]. intros q. rewrite lookup_insert_eq. intros [= <-] H0.
    destruct (classify path) as [d|] eqn:Hc; [|done]. pose proof (to_complete _ _ _ Hok old path d H0 Hp Hc). congruence.
Qed.
End table.

(** ** The hooks *)
Section traced.
Context {W : Type} `{Libc W} (noise : list Line -> Z).
Implicit Types t : Tracer W.

Lemma log_polls_keep l : forall t, tab (foldl (log_poll noise) t l) = tab t /\ os (foldl (log_poll noise) t l) = os t.
Proof.
  induction l as [|p l IH]; intros t; [done|]. cbn [foldl]. destruct (IH (log_poll noise t p)) as [-> ->].
  unfold log_poll. by destruct (get _ _).
Qed.

Lemma note_event_keeps d nr size arg t : os (note_event_fd noise d nr size arg t) = os t /\
  (tab (note_event_fd noise d nr size arg t) = tab t \/
   exists efd, get (tab t) efd = None /\ tab (note_event_fd noise d nr size arg t) = insert (tab t) efd Event).
Proof.
  unfold note_event_fd. destruct (_ || _); [by split; [|left]|]. destruct (negb _); [by split; [|left]|].
  destruct (get (tab t) _) eqn:Hg; [by split; [|left]|]. split; [done|]. right. by eexists.
Qed.

(** The call and its [errno] reach the program as they are. *)
Lemma hook_exact c t r t' : hook noise c t = (r, t') -> real (errno t) (os t) c = (r, errno t', os t').
Proof.
  assert (forall c t r t', pass_on c t = (r, t') -> real (errno t) (os t) c = (r, errno t', os t')) as Hf.
  { intros c' u r' u'. unfold pass_on. destruct (real _ _ _) as [[x y] z]. by intros [= <- <-]. }
  unfold hook, ioctl, opening, close, duplicating, mmap_common, read, poll.
  destruct c; try (apply Hf);
    try (destruct (pass_on _ _) as [r0 t0] eqn:E; apply Hf in E; intros [= <- <-]; unfold guarded, note_open; cbn [errno os set_errno];
      rewrite E; repeat case_match; done).
  - destruct (pass_on _ _) as [r0 t0] eqn:E. apply Hf in E. intros [= <- <-]. cbn [guarded set_errno errno os].
    replace (real (errno t) (os t) (Ioctl fd req arg)) with (r0, errno t0, os t0) by (rewrite <- E; by destruct (get (tab t) fd)).
    f_equal. destruct (get (tab t) fd); [|done]. destruct (ioctl_payload _ _ _ _) as [[nr size] a].
    destruct (r0 =? 0); [|done]. by rewrite (proj1 (note_event_keeps _ _ _ _ _)).
  - intros E. by apply Hf in E.
  - destruct (pass_on _ _) as [r0 t0] eqn:E. apply Hf in E. intros [= <- <-]. cbn [guarded set_errno errno os]. rewrite E.
    f_equal. destruct (_ && _); [|done]. by rewrite (proj2 (log_polls_keep _ _)).
Qed.

Context {Laws : LibcLaws W}.

(** What a hook does to the table, given what the call did to the descriptors. *)
Lemma pass_on_tab c t r t' : pass_on c t = (r, t') -> tab t' = tab t /\ real (errno t) (os t) c = (r, errno t', os t').
Proof. unfold pass_on. destruct (real _ _ _) as [[x y] z]. by intros [= <- <-]. Qed.

Lemma other_table n t t' : unnoticed (os t) (os t') ->
  table_ok n (tab t) (fds (os t)) -> table_ok n (tab t) (fds (os t')).
Proof. intros Hr Hok. eapply fresh_ok; [exact Hok|]. exact Hr. Qed.

Lemma note_open_ok n path fd (o : W) t : n + 1 < 2 ^ 64 -> table_ok n (tab t) (fds o) ->
  (if fd <? 0 then fds (os t) = fds o else fds o !! fd = None /\ fds (os t) = <[fd := path]> (fds o)) ->
  table_ok (n + 1) (tab (note_open noise path fd t)) (fds (os t)).
Proof.
  intros Hn Hok. unfold note_open. destruct (fd <? 0); cbn [orb].
  - intros ->. eapply table_ok_more; [done|lia].
  - intros [Hnone ->]. assert (forall fd', fd' <> fd -> <[fd := path]> (fds o) !! fd' = fds o !! fd') as Hne
      by (intros; by rewrite lookup_insert_ne).
    assert (classify path = None -> table_ok (n + 1) (tab t) (<[fd := path]> (fds o))) as Hnot.
    { intros Hc. eapply table_ok_more; [eapply fresh_ok; [exact Hok|]|lia]. intros fd'. destruct (decide (fd' = fd)) as [->|E].
      - right. split; [done|]. rewrite lookup_insert_eq. by intros q [= <-].
      - left. by apply Hne. }
    case_bool_decide as Hp; [subst path; by apply Hnot|]. destruct (classify path) as [d|] eqn:Hc; [|by apply Hnot].
    cbn [tab log set_tab]. eapply insert_ok; [exact Hok|done| | |done].
    + intros _. exists path. by rewrite lookup_insert_eq.
    + intros q d' _. rewrite lookup_insert_eq. intros [= <-]. congruence.
Qed.

Lemma ioctl_tab fd req arg t r t' : ioctl noise fd req arg t = (r, t') ->
  tab t' = tab t \/ exists efd, get (tab t) efd = None /\ tab t' = insert (tab t) efd Event.
Proof.
  unfold ioctl. destruct (pass_on _ _) as [r0 t0] eqn:E. apply pass_on_tab in E as [Et _].
  assert (tab t0 = tab t) as E0 by (rewrite Et; by destruct (get (tab t) fd)). rewrite <- E0. clear Et E0.
  intros [= _ <-]. cbn [guarded set_errno tab]. destruct (get (tab t0) fd) as [d|]; [|by left].
  destruct (ioctl_payload _ _ _ _) as [[nr size] a]. destruct (r0 =? 0); [|by left].
  apply (note_event_keeps d nr size a (log noise _ t0)).
Qed.

Lemma hook_table n c t r t' : n + 1 < 2 ^ 64 -> table_ok n (tab t) (fds (os t)) -> hook noise c t = (r, t') ->
  (opened c = None -> duplicated c = None -> closed c = None -> unnoticed (os t) (os t')) ->
  table_ok (n + 1) (tab t') (fds (os t')).
Proof.
  intros Hn Hok Hh Hquiet. pose proof (hook_exact _ _ _ _ Hh) as Hr.
  assert (opened c = None -> duplicated c = None -> closed c = None -> table_ok (n + 1) (tab t) (fds (os t'))) as Hother.
  { intros. eapply table_ok_more; [eapply other_table; [by apply Hquiet|done]|lia]. }
  assert (forall path, opened c = Some path -> hook noise c t = opening noise c path t -> table_ok (n + 1) (tab t') (fds (os t'))) as Hopen.
  { intros path Ho Hc. rewrite Hc in Hh. unfold opening in Hh. destruct (pass_on c t) as [fd t0] eqn:E.
    apply pass_on_tab in E as [Et Er]. injection Hh as <- <-. cbn [guarded set_errno tab os].
    assert (os (note_open noise path fd t0) = os t0) as Eo by (unfold note_open; by repeat case_match).
    rewrite Eo. rewrite <- Et in Hok. apply (note_open_ok n path fd (os t)); [done|done|]. by eapply ll_open. }
  assert (forall old, duplicated c = Some old -> hook noise c t = duplicating c old t -> table_ok (n + 1) (tab t') (fds (os t'))) as Hdup.
  { intros old Ho Hc. rewrite Hc in Hh. unfold duplicating in Hh. destruct (pass_on c t) as [fd t0] eqn:E.
    apply pass_on_tab in E as [Et Er]. injection Hh as <- <-. pose proof (ll_dup _ _ _ _ _ _ _ Ho Er) as Hl.
    destruct (Z.leb_spec 0 fd) as [Hz|Hz], (Z.ltb_spec fd 0); try lia; cbn [set_tab tab os]; rewrite Et.
    - destruct Hl as (path & Hp & ->). by apply duplicate_ok.
    - rewrite Hl. eapply table_ok_more; [exact Hok|lia]. }
  destruct c; try (by eapply Hopen); try (by eapply Hdup); cbn [hook] in Hh.
  - specialize (Hother eq_refl eq_refl eq_refl). destruct (ioctl_tab _ _ _ _ _ _ Hh) as [->|(efd & Hg & ->)]; [done|].
    assert (table_ok n (tab t) (fds (os t'))) as Hok'
      by (eapply other_table; [by apply Hquiet|done]).
    eapply insert_ok; [exact Hok'|done|done| |done]. intros path d H0 Hp Hc.
    pose proof (to_complete _ _ _ Hok' efd path d H0 Hp Hc). congruence.
  - unfold close in Hh. apply pass_on_tab in Hh as [-> _]. cbn [set_tab tab].
    rewrite (ll_close _ _ _ _ _ _ Hr). eapply table_ok_more; [eapply remove_ok; [exact Hok|..]|lia].
    + intros path. by rewrite lookup_delete_eq.
    + intros fd' E. by rewrite lookup_delete_ne.
  - unfold mmap_common in Hh. destruct (pass_on _ _) as [r0 t0] eqn:E. apply pass_on_tab in E as [Et _]. injection Hh as _ <-.
    specialize (Hother eq_refl eq_refl eq_refl). cbn [guarded set_errno tab] in *. by destruct (get _ _); cbn [log tab]; rewrite Et.
  - unfold mmap_common in Hh. destruct (pass_on _ _) as [r0 t0] eqn:E. apply pass_on_tab in E as [Et _]. injection Hh as _ <-.
    specialize (Hother eq_refl eq_refl eq_refl). cbn [guarded set_errno tab] in *. by destruct (get _ _); cbn [log tab]; rewrite Et.
  - unfold read in Hh. destruct (pass_on _ _) as [r0 t0] eqn:E. apply pass_on_tab in E as [Et _]. injection Hh as _ <-.
    specialize (Hother eq_refl eq_refl eq_refl). cbn [guarded set_errno tab] in *. by destruct (get _ _); cbn [log tab]; rewrite Et.
  - unfold poll in Hh. destruct (pass_on _ _) as [r0 t0] eqn:E. apply pass_on_tab in E as [Et _]. injection Hh as _ <-.
    specialize (Hother eq_refl eq_refl eq_refl). cbn [guarded set_errno tab] in *.
    destruct (_ && _); [rewrite (proj1 (log_polls_keep _ _))|]; by rewrite Et.
  - apply pass_on_tab in Hh as [-> _]. by apply Hother.
Qed.

Lemma table_new_ok f : (forall fd path, f !! fd = Some path -> classify path = None) -> table_ok 0 table_new f.
Proof.
  intros Hf. assert (forall fd, get table_new fd = None) as Hg
    by (intros fd; unfold get; destruct (slot fd); [cbn; by rewrite lookup_empty|done]).
  split; [intros fd d; by rewrite Hg|done|]. intros fd path d _ Hp Hc. by rewrite (Hf _ _ Hp) in Hc.
Qed.

Lemma traced_exact prog n : forall k seen t seen' t', traced noise prog n seen t = (seen', t') ->
  untraced prog n seen (errno t) (os t) = (seen', (errno t', os t')) /\
  (k + Z.of_nat n < 2 ^ 64 -> undisturbed prog n seen (errno t) (os t) -> table_ok k (tab t) (fds (os t)) -> table_ok (k + Z.of_nat n) (tab t') (fds (os t'))).
Proof.
  induction n as [|n IH]; intros k seen t seen' t'; cbn [traced untraced undisturbed].
  - intros [= <- <-]. split; [done|]. by rewrite Z.add_0_r.
  - destruct (hook noise _ t) as [r t1] eqn:Hh. intros Ht. rewrite (hook_exact _ _ _ _ Hh).
    destruct (IH (k + 1) _ _ _ _ Ht) as [-> Htab]. split; [done|]. intros Hk [Hq Hrest] Hok.
    replace (k + Z.of_nat (S n)) with (k + 1 + Z.of_nat n) by lia. apply Htab; [lia|done|]. eapply hook_table; [|done|done|done]. lia.
Qed.
End traced.
End trace.

(** ** Theorems *)
Import trace.

(** C39: Tracing changes nothing, and its tags can be trusted while the hooks
    see every device descriptor.  Any program that runs under the trace
    library, whatever log writes do to [errno], gets the results and [errno]
    it gets without it and leaves the system as it would.  If no call other
    than the hooked open, close and dup calls made, closed or replaced a
    descriptor of a device (fcntl(F_DUPFD), close_range and descriptors
    received over a socket are not hooked), every device tag (other than that
    of an RM event) is of an open descriptor of that device; and while the
    counter of descriptors outside the table is zero, no descriptor of a
    device is without its tag, however it was opened, duplicated, replaced or
    registered for events. *)
Theorem tracing_exact {W : Type} `{Libc W} `{!LibcLaws W} (noise : list Line -> Z) (prog : list (Z * Z) -> W -> Call)
    (n : nat) (e : Z) (o : W) seen t :
  Z.of_nat n < 2 ^ 64 -> (forall fd path, fds o !! fd = Some path -> classify path = None) ->
  traced noise prog n [] (MkTracer table_new e o []) = (seen, t) ->
  untraced prog n [] e o = (seen, (errno t, os t)) /\
  (undisturbed prog n [] e o ->
   (forall fd d, get (tab t) fd = Some d -> d <> Event -> exists path, fds (os t) !! fd = Some path /\ classify path = Some d) /\
   (OVERFLOW (tab t) = 0 -> forall fd path d, fds (os t) !! fd = Some path -> classify path = Some d -> get (tab t) fd = Some d)).
Proof.
  intros Hn Ho Ht. destruct (traced_exact noise prog n 0 _ _ _ _ Ht) as [Hu Htab]. split; [exact Hu|]. intros Hq.
  destruct (Htab Hn Hq (table_new_ok _ Ho)) as [Hs _ Hc]. split; [exact Hs|]. intros H0 fd path d. by apply Hc.
Qed.

(** ** A small system *)
Record SmallOs := MkSmall { so_fds : gmap Z CPath; so_next : Z }.

(** Descriptors are handed out in order; every event structure names 12.  The
    calls that are not hooked: 1 is fcntl(3, F_DUPFD), 2 closes all. *)
Definition small_give (o : SmallOs) (e : Z) (path : CPath) : Z * Z * SmallOs :=
  if (0 <=? so_next o) && bool_decide (so_fds o !! so_next o = None)
  then (so_next o, e, MkSmall (<[so_next o := path]> (so_fds o)) (so_next o + 1)) else (-1, 24, o).

Definition small_replace (o : SmallOs) (e old new : Z) : Z * Z * SmallOs :=
  match so_fds o !! old with
  | Some path => if 0 <=? new then (new, e, MkSmall (<[new := path]> (so_fds o)) (so_next o)) else (-1, 9, o)
  | None => (-1, 9, o)
  end.

Global Instance SmallOs_libc : Libc SmallOs := {
  real e o c :=
    match c with
    | Open path _ _ | Open64 path _ _ | Openat _ path _ _ | Openat64 _ path _ _ => small_give o e path
    | Close fd => (match so_fds o !! fd with Some _ => 0 | None => -1 end, e, MkSmall (delete fd (so_fds o)) (so_next o))
    | Dup old => match so_fds o !! old with Some path => small_give o e path | None => (-1, 9, o) end
    | Dup2 old new | Dup3 old new _ => small_replace o e old new
    | Unhooked 1 => match so_fds o !! 3 with Some path => small_give o e path | None => (-1, 9, o) end
    | Unhooked 2 => (0, e, MkSmall ∅ (so_next o))
    | _ => (0, e, o)
    end;
  peek _ _ _ := [0; 0; 0; 0; 0; 0; 0; 0; 12; 0; 0; 0; 0; 0; 0; 0];
  pollfds _ _ _ := [MkPollFd 3 1];
  fds := so_fds;
}.

Lemma small_give_law o e path r e' o' : small_give o e path = (r, e', o') ->
  if r <? 0 then so_fds o' = so_fds o else so_fds o !! r = None /\ so_fds o' = <[r := path]> (so_fds o).
Proof.
  unfold small_give. destruct (0 <=? so_next o) eqn:E; [|by intros [= <- <- <-]]. case_bool_decide; [|by intros [= <- <- <-]].
  intros [= <- <- <-]. bools. by destruct (Z.ltb_spec (so_next o) 0); [lia|].
Qed.

Lemma small_replace_law o e old new r e' o' : small_replace o e old new = (r, e', o') ->
  if r <? 0 then so_fds o' = so_fds o else exists path, so_fds o !! old = Some path /\ so_fds o' = <[r := path]> (so_fds o).
Proof.
  unfold small_replace. destruct (so_fds o !! old) as [p|]; [|by intros [= <- <- <-]].
  destruct (Z.leb_spec 0 new); intros [= <- <- <-]; [|done]. destruct (Z.ltb_spec new 0); [lia|by eexists].
Qed.

Global Instance SmallOs_laws : LibcLaws SmallOs.
Proof.
  split.
  - intros e o c p r e' o' Hc. destruct c; try done; injection Hc as <-; apply small_give_law.
  - by intros e o fd r e' o' [= <- <- <-].
  - intros e o c old r e' o' Hc. destruct c; try done; injection Hc as <-; try apply small_replace_law. cbn. destruct (so_fds o !! oldfd) as [p|]; [|by intros [= <- <- <-]].
    intros Hg. apply small_give_law in Hg. destruct (r <? 0); [done|]. exists p. by destruct Hg.
Qed.

(** The control node is opened, duplicated beyond the table and back, an event
    is registered and a file is opened. *)
Definition example_calls : list Call :=
  [Open (Path (lit "/dev/nvidiactl")) 2 0; Ioctl 3 (Ioc.iowr_raw NV_ESC_ALLOC_OS_EVENT 16) 0x1000; Dup2 3 70000; Dup 70000;
   Open (Path (lit "/etc/hosts")) 0 0; Dup2 3 12; Poll 0x2000 1 0; Close 3].
Definition example_prog (seen : list (Z * Z)) (_ : SmallOs) : Call := nth (length seen) example_calls (Unhooked 0).
Definition example_noise (l : list Line) : Z := 100 + Z.of_nat (length l).
Definition example_traced (n : nat) := traced example_noise example_prog n [] (MkTracer table_new 7 (MkSmall ∅ 3) []).

Example traced_tags : let t := (example_traced 8).2 in
  map (get (tab t)) [3; 4; 5; 12; 70000] = [None; None; None; Some Ctl; None] /\ OVERFLOW (tab t) = 1 /\
  map fst (example_traced 8).1 = [3; 0; 70000; 4; 5; 12; 0; 0] /\ errno t = 7.
Proof. vm_compute. done. Qed.

Example traced_event : get (tab (example_traced 2).2) 12 = Some Event /\ length (lines (example_traced 2).2) = 4%nat.
Proof. vm_compute. done. Qed.

Lemma tracing_exact_witness : untraced example_prog 2 [] 7 (MkSmall ∅ 3) =
    ([(3, 7); (0, 7)], (7, MkSmall {[3 := Path (lit "/dev/nvidiactl")]} 4)) /\
  get (tab (example_traced 2).2) 3 = Some Ctl.
Proof.
  destruct (tracing_exact example_noise example_prog 2 7 (MkSmall ∅ 3) (example_traced 2).1 (example_traced 2).2)
    as (Hu & Hc).
  - done.
  - intros fd path. cbn. by rewrite lookup_empty.
  - vm_compute. reflexivity.
  - split; [rewrite Hu; vm_compute; reflexivity|].
    destruct Hc as [_ Hc]; [|apply (Hc eq_refl 3 (Path (lit "/dev/nvidiactl"))); vm_compute; reflexivity].
    split; [done|]. split; [|done]. intros _ _ _ fd. by left.
Defined.

(** What is not hooked is not seen: a descriptor duplicated by fcntl has no tag
    and is not counted as lost, and the tag of one closed by close_range stays. *)
Example unhooked_dup_missed :
  let t := (traced example_noise (fun seen _ => nth (length seen) [Open (Path (lit "/dev/nvidiactl")) 2 0; Unhooked 1] (Unhooked 0))
              2 [] (MkTracer table_new 7 (MkSmall ∅ 3) [])).2 in
  fds (os t) !! 4 = Some (Path (lit "/dev/nvidiactl")) /\ get (tab t) 4 = None /\ OVERFLOW (tab t) = 0.
Proof. vm_compute. done. Qed.

Example unhooked_close_missed :
  let t := (traced example_noise (fun seen _ => nth (length seen) [Open (Path (lit "/dev/nvidiactl")) 2 0; Unhooked 2] (Unhooked 0))
              2 [] (MkTracer table_new 7 (MkSmall ∅ 3) [])).2 in
  fds (os t) !! 3 = None /\ get (tab t) 3 = Some Ctl.
Proof. vm_compute. done. Qed.
