(* ===== verification/Flags.v ===== *)
(** * Bit fields of flag words (crates/nvrm-abi/src/nvgpu.rs)

    The fields of the flag words the direct client and the backend compose,
    with the values the source names for them.  A flag word is made by OR-ing
    fields shifted into place, so it says what was asked only where the fields
    of the word are apart and every named value fits its field.  Shown: this
    holds of every word here, and any choice of values for distinct fields of
    a word reads back, the other fields being zero. *)
From S2P Require Import Prelude.
From S2P Require Import NvAbi.

#[export] Instance drf_eq_dec : EqDecision Drf.t.
Proof. solve_decision. Defined.

(** The fields of one 32-bit word, each with its named values. *)
Definition Word := list (option Drf.t * list Z).

Module nvos33_flags.
Definition ACCESS : option Drf.t := Drf.hi_lo 1 0.
Definition ACCESS_READ_WRITE : Z := 0.
Definition ACCESS_READ_ONLY : Z := 1.
Definition ACCESS_WRITE_ONLY : Z := 2.
Definition PERSISTENT : option Drf.t := Drf.hi_lo 4 4.
Definition PERSISTENT_DISABLE : Z := 0.
Definition PERSISTENT_ENABLE : Z := 1.
Definition SKIP_SIZE_CHECK : option Drf.t := Drf.hi_lo 8 8.
Definition SKIP_SIZE_CHECK_DISABLE : Z := 0.
Definition SKIP_SIZE_CHECK_ENABLE : Z := 1.
Definition MEM_SPACE : option Drf.t := Drf.hi_lo 14 14.
Definition MEM_SPACE_CLIENT : Z := 0.
Definition MEM_SPACE_USER : Z := 1.
Definition MAPPING : option Drf.t := Drf.hi_lo 16 15.
Definition MAPPING_DEFAULT : Z := 0.
Definition MAPPING_DIRECT : Z := 1.
Definition MAPPING_REFLECTED : Z := 2.
Definition FIFO_MAPPING : option Drf.t := Drf.hi_lo 17 17.
Definition FIFO_MAPPING_DEFAULT : Z := 0.
Definition FIFO_MAPPING_ENABLE : Z := 1.
Definition MAP_FIXED : option Drf.t := Drf.hi_lo 18 18.
Definition MAP_FIXED_DISABLE : Z := 0.
Definition MAP_FIXED_ENABLE : Z := 1.
Definition RESERVE_ON_UNMAP : option Drf.t := Drf.hi_lo 19 19.
Definition RESERVE_ON_UNMAP_DISABLE : Z := 0.
Definition RESERVE_ON_UNMAP_ENABLE : Z := 1.
Definition BUS : option Drf.t := Drf.hi_lo 21 20.
Definition BUS_DEFAULT : Z := 0.
Definition BUS_COHERENT_LINK : Z := 1.
Definition BUS_PCIE : Z := 2.
Definition OS_DESCRIPTOR : option Drf.t := Drf.hi_lo 22 22.
Definition OS_DESCRIPTOR_DISABLE : Z := 0.
Definition OS_DESCRIPTOR_ENABLE : Z := 1.
Definition CACHING_TYPE : option Drf.t := Drf.hi_lo 25 23.
Definition CACHING_TYPE_CACHED : Z := 0.
Definition CACHING_TYPE_UNCACHED : Z := 1.
Definition CACHING_TYPE_WRITECOMBINED : Z := 2.
Definition CACHING_TYPE_WRITEBACK : Z := 5.
Definition CACHING_TYPE_DEFAULT : Z := 6.
Definition CACHING_TYPE_UNCACHED_WEAK : Z := 7.
Definition ALLOW_MAPPING_ON_HCC : option Drf.t := Drf.hi_lo 26 26.
Definition ALLOW_MAPPING_ON_HCC_NO : Z := 0.
Definition ALLOW_MAPPING_ON_HCC_YES : Z := 1.
Definition words : list Word :=
  [[(ACCESS, [ACCESS_READ_WRITE; ACCESS_READ_ONLY; ACCESS_WRITE_ONLY]);
    (PERSISTENT, [PERSISTENT_DISABLE; PERSISTENT_ENABLE]);
    (SKIP_SIZE_CHECK, [SKIP_SIZE_CHECK_DISABLE; SKIP_SIZE_CHECK_ENABLE]);
    (MEM_SPACE, [MEM_SPACE_CLIENT; MEM_SPACE_USER]);
    (MAPPING, [MAPPING_DEFAULT; MAPPING_DIRECT; MAPPING_REFLECTED]);
    (FIFO_MAPPING, [FIFO_MAPPING_DEFAULT; FIFO_MAPPING_ENABLE]);
    (MAP_FIXED, [MAP_FIXED_DISABLE; MAP_FIXED_ENABLE]);
    (RESERVE_ON_UNMAP, [RESERVE_ON_UNMAP_DISABLE; RESERVE_ON_UNMAP_ENABLE]);
    (BUS, [BUS_DEFAULT; BUS_COHERENT_LINK; BUS_PCIE]);
    (OS_DESCRIPTOR, [OS_DESCRIPTOR_DISABLE; OS_DESCRIPTOR_ENABLE]);
    (CACHING_TYPE, [CACHING_TYPE_CACHED; CACHING_TYPE_UNCACHED; CACHING_TYPE_WRITECOMBINED;
       CACHING_TYPE_WRITEBACK; CACHING_TYPE_DEFAULT; CACHING_TYPE_UNCACHED_WEAK]);
    (ALLOW_MAPPING_ON_HCC, [ALLOW_MAPPING_ON_HCC_NO; ALLOW_MAPPING_ON_HCC_YES])]].
End nvos33_flags.

Module nvos46_flags.
Definition ACCESS : option Drf.t := Drf.hi_lo 1 0.
Definition ACCESS_READ_WRITE : Z := 0.
Definition ACCESS_READ_ONLY : Z := 1.
Definition ACCESS_WRITE_ONLY : Z := 2.
Definition PAGE_KIND : option Drf.t := Drf.hi_lo 3 3.
Definition PAGE_KIND_PHYSICAL : Z := 0.
Definition PAGE_KIND_VIRTUAL : Z := 1.
Definition CACHE_SNOOP : option Drf.t := Drf.hi_lo 4 4.
Definition CACHE_SNOOP_DISABLE : Z := 0.
Definition CACHE_SNOOP_ENABLE : Z := 1.
Definition KERNEL_MAPPING : option Drf.t := Drf.hi_lo 5 5.
Definition KERNEL_MAPPING_NONE : Z := 0.
Definition SHADER_ACCESS : option Drf.t := Drf.hi_lo 7 6.
Definition SHADER_ACCESS_DEFAULT : Z := 0.
Definition SHADER_ACCESS_READ_ONLY : Z := 1.
Definition SHADER_ACCESS_WRITE_ONLY : Z := 2.
Definition SHADER_ACCESS_READ_WRITE : Z := 3.
Definition PAGE_SIZE : option Drf.t := Drf.hi_lo 11 8.
Definition PAGE_SIZE_DEFAULT : Z := 0.
Definition PAGE_SIZE_4KB : Z := 1.
Definition PAGE_SIZE_BIG : Z := 2.
Definition PAGE_SIZE_BOTH : Z := 3.
Definition PAGE_SIZE_HUGE : Z := 4.
Definition PAGE_SIZE_512M : Z := 5.
Definition DMA_OFFSET_GROWS : option Drf.t := Drf.hi_lo 14 14.
Definition DMA_OFFSET_GROWS_UP : Z := 0.
Definition DMA_OFFSET_GROWS_DOWN : Z := 1.
Definition DMA_OFFSET_FIXED : option Drf.t := Drf.hi_lo 15 15.
Definition DMA_OFFSET_FIXED_FALSE : Z := 0.
Definition DMA_OFFSET_FIXED_TRUE : Z := 1.
Definition GPU_CACHEABLE : option Drf.t := Drf.hi_lo 18 17.
Definition GPU_CACHEABLE_DEFAULT : Z := 0.
Definition GPU_CACHEABLE_YES : Z := 1.
Definition GPU_CACHEABLE_NO : Z := 2.
Definition PAGE_KIND_OVERRIDE : option Drf.t := Drf.hi_lo 19 19.
Definition TLB_LOCK : option Drf.t := Drf.hi_lo 28 28.
Definition DEFER_TLB_INVALIDATION : option Drf.t := Drf.hi_lo 31 31.
Definition words : list Word :=
  [[(ACCESS, [ACCESS_READ_WRITE; ACCESS_READ_ONLY; ACCESS_WRITE_ONLY]);
    (PAGE_KIND, [PAGE_KIND_PHYSICAL; PAGE_KIND_VIRTUAL]);
    (CACHE_SNOOP, [CACHE_SNOOP_DISABLE; CACHE_SNOOP_ENABLE]);
    (KERNEL_MAPPING, [KERNEL_MAPPING_NONE]);
    (SHADER_ACCESS, [SHADER_ACCESS_DEFAULT; SHADER_ACCESS_READ_ONLY; SHADER_ACCESS_WRITE_ONLY;
       SHADER_ACCESS_READ_WRITE]);
    (PAGE_SIZE, [PAGE_SIZE_DEFAULT; PAGE_SIZE_4KB; PAGE_SIZE_BIG; PAGE_SIZE_BOTH; PAGE_SIZE_HUGE; PAGE_SIZE_512M]);
    (DMA_OFFSET_GROWS, [DMA_OFFSET_GROWS_UP; DMA_OFFSET_GROWS_DOWN]);
    (DMA_OFFSET_FIXED, [DMA_OFFSET_FIXED_FALSE; DMA_OFFSET_FIXED_TRUE]);
    (GPU_CACHEABLE, [GPU_CACHEABLE_DEFAULT; GPU_CACHEABLE_YES; GPU_CACHEABLE_NO]);
    (PAGE_KIND_OVERRIDE, []);
    (TLB_LOCK, []);
    (DEFER_TLB_INVALIDATION, [])]].
End nvos46_flags.

Module nvos32_attr.
Definition PAGE_SIZE : option Drf.t := Drf.hi_lo 24 23.
Definition PHYSICALITY : option Drf.t := Drf.hi_lo 28 27.
Definition words : list Word :=
  [[(PAGE_SIZE, []);
    (Some NVOS32_ATTR_LOCATION, []);
    (PHYSICALITY, []);
    (NVOS32_ATTR_COHERENCY, [])]].
End nvos32_attr.

Module nvos32_attr2.
Definition ISO : option Drf.t := Drf.hi_lo 18 18.
Definition USE_EGM : option Drf.t := Some (Drf.shift_mask 24 0x1).
Definition USE_EGM_FALSE : Z := 0.
Definition USE_EGM_TRUE : Z := 1.
Definition words : list Word :=
  [[(NVOS32_ATTR2_GPU_CACHEABLE, []);
    (ISO, []);
    (USE_EGM, [USE_EGM_FALSE; USE_EGM_TRUE])]].
End nvos32_attr2.

Module nvos02_flags.
Definition ALLOC : option Drf.t := Some (Drf.shift_mask 16 0x3).
Definition ALLOC_NONE : Z := 1.
Definition MAPPING_NO_MAP : Z := 1.
Definition words : list Word :=
  [[(NVOS02_FLAGS_PHYSICALITY, []);
    (NVOS02_FLAGS_LOCATION, []);
    (NVOS02_FLAGS_COHERENCY, []);
    (ALLOC, [ALLOC_NONE]);
    (NVOS02_FLAGS_GPU_CACHEABLE, []);
    (Some NVOS02_FLAGS_MAPPING, [MAPPING_NO_MAP])]].
End nvos02_flags.

Module nvos04_flags.
Definition CHANNEL_TYPE : option Drf.t := Drf.hi_lo 1 0.
Definition VPR : option Drf.t := Drf.hi_lo 2 2.
Definition CC_SECURE : option Drf.t := Drf.hi_lo 2 2.
Definition CHANNEL_SKIP_MAP_REFCOUNTING : option Drf.t := Drf.hi_lo 3 3.
Definition GROUP_CHANNEL_RUNQUEUE : option Drf.t := Drf.hi_lo 4 4.
Definition PRIVILEGED_CHANNEL : option Drf.t := Drf.hi_lo 5 5.
Definition DELAY_CHANNEL_SCHEDULING : option Drf.t := Drf.hi_lo 6 6.
Definition CHANNEL_DENY_PHYSICAL_MODE_CE : option Drf.t := Drf.hi_lo 7 7.
Definition CHANNEL_USERD_INDEX_VALUE : option Drf.t := Drf.hi_lo 10 8.
Definition CHANNEL_USERD_INDEX_FIXED : option Drf.t := Drf.hi_lo 11 11.
Definition CHANNEL_USERD_INDEX_PAGE_VALUE : option Drf.t := Drf.hi_lo 20 12.
Definition CHANNEL_USERD_INDEX_PAGE_FIXED : option Drf.t := Drf.hi_lo 21 21.
Definition CHANNEL_DENY_AUTH_LEVEL_PRIV : option Drf.t := Drf.hi_lo 22 22.
Definition CHANNEL_SKIP_SCRUBBER : option Drf.t := Drf.hi_lo 23 23.
Definition CHANNEL_CLIENT_MAP_FIFO : option Drf.t := Drf.hi_lo 24 24.
Definition SET_EVICT_LAST_CE_PREFETCH_CHANNEL : option Drf.t := Drf.hi_lo 25 25.
Definition CHANNEL_VGPU_PLUGIN_CONTEXT : option Drf.t := Drf.hi_lo 26 26.
Definition CHANNEL_PBDMA_ACQUIRE_TIMEOUT : option Drf.t := Drf.hi_lo 27 27.
Definition GROUP_CHANNEL_THREAD : option Drf.t := Drf.hi_lo 29 28.
Definition MAP_CHANNEL : option Drf.t := Drf.hi_lo 30 30.
Definition SKIP_CTXBUFFER_ALLOC : option Drf.t := Drf.hi_lo 31 31.
(** [CC_SECURE] is a second reading of the bit of [VPR]. *)
Definition words : list Word :=
  [[(CHANNEL_TYPE, []);
    (VPR, []);
    (CHANNEL_SKIP_MAP_REFCOUNTING, []);
    (GROUP_CHANNEL_RUNQUEUE, []);
    (PRIVILEGED_CHANNEL, []);
    (DELAY_CHANNEL_SCHEDULING, []);
    (CHANNEL_DENY_PHYSICAL_MODE_CE, []);
    (CHANNEL_USERD_INDEX_VALUE, []);
    (CHANNEL_USERD_INDEX_FIXED, []);
    (CHANNEL_USERD_INDEX_PAGE_VALUE, []);
    (CHANNEL_USERD_INDEX_PAGE_FIXED, []);
    (CHANNEL_DENY_AUTH_LEVEL_PRIV, []);
    (CHANNEL_SKIP_SCRUBBER, []);
    (CHANNEL_CLIENT_MAP_FIFO, []);
    (SET_EVICT_LAST_CE_PREFETCH_CHANNEL, []);
    (CHANNEL_VGPU_PLUGIN_CONTEXT, []);
    (CHANNEL_PBDMA_ACQUIRE_TIMEOUT, []);
    (GROUP_CHANNEL_THREAD, []);
    (MAP_CHANNEL, []);
    (SKIP_CTXBUFFER_ALLOC, [])]].
End nvos04_flags.

Module clc46f.
Definition GP_ENTRY0_GET : option Drf.t := Drf.hi_lo 31 2.
Definition GP_ENTRY1_GET_HI : option Drf.t := Drf.hi_lo 7 0.
Definition GP_ENTRY1_LENGTH : option Drf.t := Drf.hi_lo 30 10.
Definition DMA_METHOD_ADDRESS : option Drf.t := Drf.hi_lo 11 0.
Definition DMA_METHOD_SUBCHANNEL : option Drf.t := Drf.hi_lo 15 13.
Definition DMA_METHOD_COUNT : option Drf.t := Drf.hi_lo 28 16.
Definition DMA_SEC_OP : option Drf.t := Drf.hi_lo 31 29.
Definition SEM_EXECUTE_OPERATION : option Drf.t := Drf.hi_lo 2 0.
Definition SEM_EXECUTE_RELEASE_WFI : option Drf.t := Drf.hi_lo 20 20.
Definition SEM_EXECUTE_PAYLOAD_SIZE : option Drf.t := Drf.hi_lo 24 24.
Definition SEM_EXECUTE_RELEASE_TIMESTAMP : option Drf.t := Drf.hi_lo 25 25.
Definition USERD_GP_GET : Z := 0x88.
Definition USERD_GP_PUT : Z := 0x8c.
(** The two words of a GP entry, the header of a method, SEM_EXECUTE. *)
Definition words : list Word :=
  [[(GP_ENTRY0_GET, [])];
   [(GP_ENTRY1_GET_HI, []); (GP_ENTRY1_LENGTH, [])];
   [(DMA_METHOD_ADDRESS, []); (DMA_METHOD_SUBCHANNEL, []); (DMA_METHOD_COUNT, []); (DMA_SEC_OP, [])];
   [(SEM_EXECUTE_OPERATION, []); (SEM_EXECUTE_RELEASE_WFI, []); (SEM_EXECUTE_PAYLOAD_SIZE, []); (SEM_EXECUTE_RELEASE_TIMESTAMP, [])]].
End clc46f.

(** Every word of this file. *)
Definition all_words : list Word :=
  nvos33_flags.words ++ nvos46_flags.words ++ nvos32_attr.words ++ nvos32_attr2.words ++
  nvos02_flags.words ++ nvos04_flags.words ++ clc46f.words.

(** ** Composed words *)

(** Fields shifted into place and OR-ed together. *)
Definition compose (l : list (Drf.t * Z)) : Z := foldr (fun fv w => Z.lor (Drf.set fv.1 fv.2) w) 0 l.

Definition top (f : Drf.t) : Z := Drf.shift f + Z.log2 (Drf.mask f + 1) - 1.

(** A field that covers the bits from its shift to [top], inside the word. *)
Definition field_ok (f : Drf.t) : bool :=
  (0 <=? Drf.shift f) && (Drf.shift f <=? top f) && (top f <? 32) &&
  (Drf.mask f =? Z.ones (top f - Drf.shift f + 1)).

Definition apart (f g : Drf.t) : bool := (top f <? Drf.shift g) || (top g <? Drf.shift f).

Fixpoint all_apart (fs : list Drf.t) : bool :=
  match fs with
  | [] => true
  | f :: fs => forallb (apart f) fs && all_apart fs
  end.

Definition entry_ok (e : option Drf.t * list Z) : bool :=
  match e.1 with
  | Some f => field_ok f && forallb (fun v => (0 <=? v) && (v <=? Drf.mask f)) e.2
  | None => false
  end.

Definition word_ok (w : Word) : bool := forallb entry_ok w && all_apart (omap fst w).

Lemma all_words_ok : forallb word_ok all_words = true.
Proof. vm_compute. reflexivity. Qed.

Lemma field_ok_covers f : field_ok f = true -> Drf.covers (top f) (Drf.shift f) f.
Proof. unfold field_ok, Drf.covers. intros H. rewrite !andb_true_iff in H. destruct H as [[[? ?] ?] ?]. bools. split_and!; lia. Qed.

Lemma set_put f v : Drf.set f v = Drf.put f 0 v.
Proof. unfold Drf.put. by rewrite Z.land_0_l, Z.lor_0_l. Qed.

Lemma get_lor f a b : Drf.get f (Z.lor a b) = Z.lor (Drf.get f a) (Drf.get f b).
Proof. unfold Drf.get. by rewrite Z.shiftr_lor, Z.land_lor_distr_l. Qed.

Lemma get_zero f : Drf.get f 0 = 0.
Proof. unfold Drf.get. by rewrite Z.shiftr_0_l, Z.land_0_l. Qed.

Lemma get_set_same f v : field_ok f = true -> 0 <= v <= Drf.mask f -> Drf.get f (Drf.set f v) = v.
Proof.
  intros Hf Hv. apply field_ok_covers in Hf as Hc. rewrite set_put.
  rewrite (Drf.drf_get_put_same _ _ _ _ _ Hc) by done. apply Z.mod_small.
  destruct Hc as (? & _ & _ & Hm). rewrite Hm, Z.ones_equiv in Hv. lia.
Qed.

Lemma get_set_apart f g v :
  field_ok f = true -> field_ok g = true -> apart f g = true -> Drf.get g (Drf.set f v) = 0.
Proof.
  intros Hf%field_ok_covers Hg%field_ok_covers Ha. unfold apart in Ha. rewrite set_put.
  erewrite Drf.drf_get_put_other; [apply get_zero|done|done| |done].
  apply orb_true_iff in Ha as [Ha|Ha]; bools; lia.
Qed.

Lemma apart_sym f g : apart f g = apart g f.
Proof. apply orb_comm. Qed.

Lemma all_apart_elem fs f g : all_apart fs = true -> f ∈ fs -> g ∈ fs -> f <> g -> apart f g = true.
Proof.
  induction fs as [|h fs IH]; intros Ha Hf Hg Hne; [by apply elem_of_nil in Hf|].
  simpl in Ha. apply andb_true_iff in Ha as [Hh Ha]. rewrite forallb_forall in Hh.
  apply elem_of_cons in Hf as [->|Hf]; apply elem_of_cons in Hg as [->|Hg].
  - done.
  - apply Hh. by apply list_elem_of_In.
  - rewrite apart_sym. apply Hh. by apply list_elem_of_In.
  - by apply IH.
Qed.

(** [l] gives fitting values to distinct fields of [w]. *)
Definition chosen (w : Word) (l : list (Drf.t * Z)) : Prop :=
  NoDup l.*1 /\ Forall (fun fv => fv.1 ∈ omap fst w /\ 0 <= fv.2 <= Drf.mask fv.1) l.

Lemma word_field_ok w f : word_ok w = true -> f ∈ omap fst w -> field_ok f = true.
Proof.
  unfold word_ok. intros [Hw _]%andb_true_iff (e & He & Hf)%list_elem_of_omap.
  rewrite forallb_forall in Hw. apply list_elem_of_In, Hw in He. unfold entry_ok in He. rewrite Hf in He. by bools.
Qed.

Lemma word_apart w f g :
  word_ok w = true -> f ∈ omap fst w -> g ∈ omap fst w -> f <> g -> apart f g = true.
Proof. unfold word_ok. intros [_ Hw]%andb_true_iff. by apply all_apart_elem. Qed.

Lemma compose_other w l f :
  word_ok w = true -> chosen w l -> f ∈ omap fst w -> f ∉ l.*1 -> Drf.get f (compose l) = 0.
Proof.
  intros Hw [_ Hl] Hf Hn. induction Hl as [|[g v] l [Hg _] Hl IH]; simpl in *; [apply get_zero|].
  apply not_elem_of_cons in Hn as [Hne Hn]. rewrite get_lor, IH, Z.lor_0_r by done.
  apply get_set_apart; eauto using word_field_ok, word_apart.
Qed.

Lemma compose_same w l f v :
  word_ok w = true -> chosen w l -> (f, v) ∈ l -> Drf.get f (compose l) = v.
Proof.
  intros Hw Hl Hin. induction l as [|[g u] l IH]; [by apply elem_of_nil in Hin|].
  destruct Hl as [Hd Hl]. simpl in *. apply NoDup_cons in Hd as [Hg Hd]. apply Forall_cons in Hl as [[Hgw Hu] Hl].
  rewrite get_lor. simpl in *. apply elem_of_cons in Hin as [[= -> ->]|Hin].
  - rewrite (compose_other w), Z.lor_0_r by done. eauto using get_set_same, word_field_ok.
  - rewrite (get_set_apart g f), Z.lor_0_l, IH; eauto using word_field_ok; [done|..].
    + eapply word_field_ok; [done|]. rewrite Forall_forall in Hl. by apply (Hl (f, v)).
    + eapply word_apart; [done|done|rewrite Forall_forall in Hl; by apply (Hl (f, v))|].
      intros ->. apply Hg. by apply (list_elem_of_fmap_2 fst _ (f, v)).
Qed.

(** Any choice of fitting values for distinct fields of one of the words, put
    together by OR, reads back field by field, and the fields not chosen read
    as zero; the values the source names fit their fields. *)
Theorem flags_read_back (w : Word) (l : list (Drf.t * Z)) :
  w ∈ all_words -> chosen w l ->
  (forall f v, (f, v) ∈ l -> Drf.get f (compose l) = v) /\
  (forall f, f ∈ omap fst w -> f ∉ l.*1 -> Drf.get f (compose l) = 0) /\
  (forall f vs v, (Some f, vs) ∈ w -> v ∈ vs -> 0 <= v <= Drf.mask f).
Proof.
  intros Hw Hl. assert (word_ok w = true) as Hok.
  { pose proof all_words_ok as H. rewrite forallb_forall in H. by apply H, list_elem_of_In. }
  split_and!; eauto using compose_same, compose_other.
  intros f vs v Hin Hv. unfold word_ok in Hok. apply andb_true_iff in Hok as [Hok _]. rewrite forallb_forall in Hok.
  apply list_elem_of_In, Hok in Hin. unfold entry_ok in Hin. simpl in Hin. apply andb_true_iff in Hin as [_ Hvs].
  rewrite forallb_forall in Hvs. apply list_elem_of_In, Hvs in Hv. bools. lia.
Qed.

(** The mapping flags of a buffer: read-write 4 KiB pages that snoop, at a
    fixed address. *)
Lemma flags_read_back_witness :
  let l := [(Drf.Mk 0 3, nvos46_flags.ACCESS_READ_WRITE); (Drf.Mk 8 15, nvos46_flags.PAGE_SIZE_4KB);
            (Drf.Mk 4 1, nvos46_flags.CACHE_SNOOP_ENABLE); (Drf.Mk 15 1, nvos46_flags.DMA_OFFSET_FIXED_TRUE)] in
  Drf.get (Drf.Mk 8 15) (compose l) = 1 /\ Drf.get (Drf.Mk 3 1) (compose l) = 0.
Proof.
  intros l. assert (nvos46_flags.words = [default [] (head nvos46_flags.words)]) as E by reflexivity.
  assert (default [] (head nvos46_flags.words) ∈ all_words) as Hw.
  { unfold all_words. rewrite E. right. left. }
  assert (chosen (default [] (head nvos46_flags.words)) l) as Hl.
  { split; [by apply (bool_decide_unpack _); vm_compute|].
    unfold l. rewrite !Forall_cons. split_and!; try apply Forall_nil_2; try (vm_compute; discriminate);
      by apply (bool_decide_unpack _); vm_compute. }
  destruct (flags_read_back _ l Hw Hl) as (H1 & H2 & _). split.
  - apply H1. right. left.
  - apply H2; by apply (bool_decide_unpack _); vm_compute.
Defined.
