(* ===== verification/Guards.v ===== *)
(** * Compile-time guards and names of statuses (crates/nvrm-abi/src/nvgpu.rs, lib.rs)

    nvgpu.rs transcribes numbers and layouts by hand and asserts at compile
    time that the generated bindings agree.  Each block of assertions is here
    the list of its two sides.  Shown: all of them hold of the bindings as they
    are modelled; the escapes said to carry a descriptor are those the
    translation rewrites; and the hand-written status codes, of which the
    assertions cover three, agree with the bindings but for one. *)
From stdpp Require Import strings.
From S2P Require Import Prelude.
From S2P Require Import CLayout.
From S2P Require Import SysConsts.
From S2P Require Import Sys.
From S2P Require Import NvAbi.
From S2P Require Import Xlate.
From S2P Require Import Flags.

Local Open Scope string_scope.
Local Open Scope list_scope.
Local Open Scope Z_scope.

(** ** Status codes transcribed by hand *)
Module status.
Definition NV_OK : Z := 0x00.
Definition NV_ERR_INVALID_ADDRESS : Z := 0x1e.
Definition NV_ERR_INVALID_ARGUMENT : Z := 0x1f.
Definition NV_ERR_INVALID_CLASS : Z := 0x22.
Definition NV_ERR_INVALID_CLIENT : Z := 0x23.
Definition NV_ERR_INVALID_LIMIT : Z := 0x2e.
Definition NV_ERR_NOT_SUPPORTED : Z := 0x56.
Definition NV_ERR_INSUFFICIENT_PERMISSIONS : Z := 0x1b.
Definition NV_ERR_INVALID_OBJECT_HANDLE : Z := 0x33.
Definition NV_ERR_STATE_IN_USE : Z := 0x24.
End status.

(** [status_name]; [status.] names the transcription, the others are the
    bindings. *)
Definition status_name (s : Z) : option string :=
  if s =? status.NV_OK then Some "NV_OK"
  else if s =? status.NV_ERR_INSUFFICIENT_PERMISSIONS then Some "NV_ERR_INSUFFICIENT_PERMISSIONS"
  else if s =? status.NV_ERR_INVALID_ADDRESS then Some "NV_ERR_INVALID_ADDRESS"
  else if s =? status.NV_ERR_INVALID_ARGUMENT then Some "NV_ERR_INVALID_ARGUMENT"
  else if s =? status.NV_ERR_INVALID_CLASS then Some "NV_ERR_INVALID_CLASS"
  else if s =? status.NV_ERR_INVALID_CLIENT then Some "NV_ERR_INVALID_CLIENT"
  else if s =? status.NV_ERR_STATE_IN_USE then Some "NV_ERR_STATE_IN_USE"
  else if s =? status.NV_ERR_INVALID_LIMIT then Some "NV_ERR_INVALID_LIMIT"
  else if s =? status.NV_ERR_INVALID_OBJECT_HANDLE then Some "NV_ERR_INVALID_OBJECT_HANDLE"
  else if s =? status.NV_ERR_NOT_SUPPORTED then Some "NV_ERR_NOT_SUPPORTED"
  else if s =? NV_ERR_NO_MEMORY then Some "NV_ERR_NO_MEMORY"
  else if s =? NV_ERR_OBJECT_NOT_FOUND then Some "NV_ERR_OBJECT_NOT_FOUND"
  else if s =? NV_ERR_INVALID_PARAM_STRUCT then Some "NV_ERR_INVALID_PARAM_STRUCT"
  else if s =? NV_ERR_INVALID_PARAMETER then Some "NV_ERR_INVALID_PARAMETER"
  else if s =? NV_ERR_INSERT_DUPLICATE_NAME then Some "NV_ERR_INSERT_DUPLICATE_NAME"
  else if s =? NV_ERR_OPERATING_SYSTEM then Some "NV_ERR_OPERATING_SYSTEM"
  else None.

Definition ESCAPES_WITH_FD : list Z :=
  [NV_ESC_ALLOC_OS_EVENT; NV_ESC_FREE_OS_EVENT; NV_ESC_RM_ALLOC_MEMORY; NV_ESC_RM_MAP_MEMORY].

(** ** The blocks of assertions *)
Module guards.

Definition numa_guards : list (Z * Z) :=
  [(size_of IoctlNumaOfflineAddresses, 520);
   (offset_of IoctlNumaOfflineAddresses "num_entries", 512);
   (size_of IoctlNumaInfo, 560);
   (offset_of IoctlNumaInfo "memblock_size", 8);
   (offset_of IoctlNumaInfo "use_auto_online", 32);
   (offset_of IoctlNumaInfo "offline_addresses", 40)].

Definition os_event_guards : list (Z * Z) :=
  [(size_of IoctlAllocOsEvent, 16);
   (size_of IoctlFreeOsEvent, 16)].

Definition escape_guards : list (Z * Z) :=
  [(NV_ESC_RM_ALLOC_MEMORY, 0x27);
   (NV_ESC_RM_FREE, 0x29);
   (NV_ESC_RM_CONTROL, 0x2a);
   (NV_ESC_RM_ALLOC, 0x2b);
   (NV_ESC_RM_DUP_OBJECT, 0x34);
   (NV_ESC_RM_SHARE, 0x35);
   (NV_ESC_RM_VID_HEAP_CONTROL, 0x4a);
   (NV_ESC_RM_MAP_MEMORY, 0x4e);
   (NV_ESC_RM_UNMAP_MEMORY, 0x4f);
   (NV_ESC_RM_MAP_MEMORY_DMA, 0x57);
   (NV_ESC_RM_UNMAP_MEMORY_DMA, 0x58)].

Definition class_guards : list (Z * Z) :=
  [(NV01_ROOT_CLIENT, 0x41);
   (NV01_MEMORY_SYSTEM, 0x3e);
   (NV01_DEVICE_0, 0x80);
   (NV20_SUBDEVICE_0, 0x2080);
   (NV50_MEMORY_VIRTUAL, 0x50a0);
   (FERMI_CONTEXT_SHARE_A, 0x9067);
   (FERMI_VASPACE_A, 0x90f1);
   (KEPLER_CHANNEL_GROUP_A, 0xa06c);
   (TURING_CHANNEL_GPFIFO_A, 0xc46f);
   (TURING_USERMODE_A, 0xc461)].

Definition status_guards : list (Z * Z) :=
  [(NV_OK, status.NV_OK);
   (NV_ERR_INVALID_ARGUMENT, status.NV_ERR_INVALID_ARGUMENT);
   (NV_ERR_NOT_SUPPORTED, status.NV_ERR_NOT_SUPPORTED)].

Definition vidheap_guards : list (Z * Z) :=
  [(offset_of NVOS32_PARAMETERS__bindgen_ty_1__bindgen_ty_1 "hMemory", offset_of NVOS32_PARAMETERS__bindgen_ty_1__bindgen_ty_3 "hMemory")].

Definition channel_guards : list (Z * Z) :=
  [(NVA06C_CTRL_CMD_GPFIFO_SCHEDULE, 0xa06c0101);
   (NVC36F_CTRL_CMD_GPFIFO_GET_WORK_SUBMIT_TOKEN, 0xc36f0108);
   (NV_CHANNELGPFIFO_NOTIFICATION_TYPE_WORK_SUBMIT_TOKEN, 1)].

Definition pushbuffer_guards : list (Z * Z) :=
  [(NVC46F_SEM_ADDR_LO, 0x5c);
   (NVC46F_SEM_ADDR_HI, 0x60);
   (NVC46F_SEM_PAYLOAD_LO, 0x64);
   (NVC46F_SEM_PAYLOAD_HI, 0x68);
   (NVC46F_SEM_EXECUTE, 0x6c);
   (NVC46F_SEM_EXECUTE_OPERATION_RELEASE, 1);
   (NVC46F_DMA_SEC_OP_INC_METHOD, 1);
   (NVC46F_GP_ENTRY__SIZE, 8);
   (TURING_USERMODE_A, 0xc461);
   (NVC361_NOTIFY_CHANNEL_PENDING, 0x90)].

Definition guard_NVOS64_PARAMETERS : measured := Measured NVOS64_PARAMETERS 48 8
    [("hRoot", 0); ("hObjectParent", 4); ("hObjectNew", 8); ("hClass", 12); ("pAllocParms", 16);
     ("pRightsRequested", 24); ("paramsSize", 32); ("flags", 36); ("status", 40)].

Definition guard_NVOS00_PARAMETERS : measured := Measured NVOS00_PARAMETERS 16 4
    [("hRoot", 0); ("hObjectParent", 4); ("hObjectOld", 8); ("status", 12)].

Definition guard_NVOS02_PARAMETERS : measured := Measured NVOS02_PARAMETERS 48 8
    [("hRoot", 0); ("hObjectParent", 4); ("hObjectNew", 8); ("hClass", 12); ("flags", 16);
     ("pMemory", 24); ("limit", 32); ("status", 40)].

Definition guard_NVOS54_PARAMETERS : measured := Measured NVOS54_PARAMETERS 32 8
    [("hClient", 0); ("hObject", 4); ("cmd", 8); ("flags", 12); ("params", 16); ("paramsSize", 24);
     ("status", 28)].

Definition guard_NVOS33_PARAMETERS : measured := Measured NVOS33_PARAMETERS 48 8
    [("hClient", 0); ("hDevice", 4); ("hMemory", 8); ("offset", 16); ("length", 24);
     ("pLinearAddress", 32); ("status", 40); ("flags", 44)].

Definition guard_Nvos33WithFd : measured := Measured Nvos33WithFd 56 8
    [("params", 0); ("fd", 48)].

Definition guard_NVOS46_PARAMETERS : measured := Measured NVOS46_PARAMETERS 64 8
    [("hClient", 0); ("hDevice", 4); ("hDma", 8); ("hMemory", 12); ("offset", 16); ("length", 24);
     ("flags", 32); ("flags2", 36); ("kindOverride", 40); ("dmaOffset", 48); ("status", 56)].

Definition guard_NV_MEMORY_ALLOCATION_PARAMS : measured := Measured NV_MEMORY_ALLOCATION_PARAMS 128 8
    [("owner", 0); ("type_", 4); ("flags", 8); ("width", 12); ("height", 16); ("pitch", 20);
     ("attr", 24); ("attr2", 28); ("format", 32); ("comprCovg", 36); ("zcullCovg", 40); ("rangeLo", 48);
     ("rangeHi", 56); ("size", 64); ("alignment", 72); ("offset", 80); ("limit", 88); ("address", 96);
     ("ctagOffset", 104); ("hVASpace", 108); ("internalflags", 112); ("tag", 116); ("numaNode", 120)].

Definition guard_NVOS32_PARAMETERS : measured := Measured NVOS32_PARAMETERS 184 8
    [("hRoot", 0); ("hObjectParent", 4); ("function", 8); ("hVASpace", 12); ("ivcHeapNumber", 16);
     ("status", 20); ("total", 24); ("free", 32); ("data", 40)].

Definition guard_NVOS32_PARAMETERS__bindgen_ty_1__bindgen_ty_1 : measured := Measured NVOS32_PARAMETERS__bindgen_ty_1__bindgen_ty_1 120 8
    [("owner", 0); ("hMemory", 4); ("type_", 8); ("flags", 12); ("attr", 16); ("format", 20);
     ("comprCovg", 24); ("zcullCovg", 28); ("partitionStride", 32); ("width", 36); ("height", 40);
     ("size", 48); ("alignment", 56); ("offset", 64); ("limit", 72); ("address", 80);
     ("rangeBegin", 88); ("rangeEnd", 96); ("attr2", 104); ("ctagOffset", 108); ("numaNode", 112)].

Definition guard_NVOS32_PARAMETERS__bindgen_ty_1__bindgen_ty_3 : measured := Measured NVOS32_PARAMETERS__bindgen_ty_1__bindgen_ty_3 12 4
    [("owner", 0); ("hMemory", 4); ("flags", 8)].

Definition guard_NV_CHANNEL_GROUP_ALLOCATION_PARAMETERS_v610 : measured := Measured NV_CHANNEL_GROUP_ALLOCATION_PARAMETERS_v610 20 4
    [("hObjectError", 0); ("hObjectEccError", 4); ("hVASpace", 8); ("engineType", 12);
     ("bIsCallingContextVgpuPlugin", 16)].

Definition guard_NV_MEMORY_DESC_PARAMS : measured := Measured NV_MEMORY_DESC_PARAMS 24 8
    [("base", 0); ("size", 8); ("addressSpace", 16); ("cacheAttrib", 20)].

Definition guard_NV_CHANNEL_ALLOC_PARAMS_v610 : measured := Measured NV_CHANNEL_ALLOC_PARAMS_v610 376 8
    [("hObjectError", 0); ("hObjectBuffer", 4); ("gpFifoOffset", 8); ("gpFifoEntries", 16);
     ("flags", 20); ("hContextShare", 24); ("hVASpace", 28); ("hHandleVASpace", 32);
     ("hUserdMemory", 36); ("userdOffset", 72); ("engineType", 136); ("cid", 140); ("subDeviceId", 144);
     ("hObjectEccError", 148); ("instanceMem", 152); ("userdMem", 176); ("ramfcMem", 200);
     ("mthdbufMem", 224); ("hPhysChannelGroup", 248); ("internalFlags", 252); ("errorNotifierMem", 256);
     ("eccErrorNotifierMem", 280); ("ProcessID", 304); ("SubProcessID", 308); ("encryptIv", 312);
     ("decryptIv", 324); ("hmacNonce", 336); ("tpcConfigID", 368)].

Definition guard_NVA06C_CTRL_GPFIFO_SCHEDULE_PARAMS : measured := Measured NVA06C_CTRL_GPFIFO_SCHEDULE_PARAMS 3 1
    [("bEnable", 0); ("bSkipSubmit", 1); ("bSkipEnable", 2)].

Definition guard_NVC36F_CTRL_CMD_GPFIFO_GET_WORK_SUBMIT_TOKEN_PARAMS : measured := Measured NVC36F_CTRL_CMD_GPFIFO_GET_WORK_SUBMIT_TOKEN_PARAMS 4 4
    [("workSubmitToken", 0)].

Definition layout_guards : list measured :=
  [guard_NVOS64_PARAMETERS;
   guard_NVOS00_PARAMETERS;
   guard_NVOS02_PARAMETERS;
   guard_NVOS54_PARAMETERS;
   guard_NVOS33_PARAMETERS;
   guard_Nvos33WithFd;
   guard_NVOS46_PARAMETERS;
   guard_NV_MEMORY_ALLOCATION_PARAMS;
   guard_NVOS32_PARAMETERS;
   guard_NVOS32_PARAMETERS__bindgen_ty_1__bindgen_ty_1;
   guard_NVOS32_PARAMETERS__bindgen_ty_1__bindgen_ty_3;
   guard_NV_CHANNEL_GROUP_ALLOCATION_PARAMETERS_v610;
   guard_NV_MEMORY_DESC_PARAMS;
   guard_NV_CHANNEL_ALLOC_PARAMS_v610;
   guard_NVA06C_CTRL_GPFIFO_SCHEDULE_PARAMS;
   guard_NVC36F_CTRL_CMD_GPFIFO_GET_WORK_SUBMIT_TOKEN_PARAMS].

(** Positions in the notation of gVisor: a field, its shift and its mask. *)
Definition attr_guards : list (option Drf.t * Z * Z) :=
  [(Some NVOS32_ATTR_LOCATION, 25, 0x3); (nvos32_attr.PAGE_SIZE, 23, 0x3); (nvos32_attr.PHYSICALITY, 27, 0x3);
   (NVOS32_ATTR_COHERENCY, 29, 0x7); (nvos33_flags.CACHING_TYPE, 23, 0x7); (NVOS32_ATTR2_GPU_CACHEABLE, 2, 0x3)].

Definition osdesc_guards : list (option Drf.t * Z * Z) :=
  [(NVOS02_FLAGS_PHYSICALITY, 4, 0xf); (NVOS02_FLAGS_LOCATION, 8, 0xf); (NVOS02_FLAGS_COHERENCY, 12, 0xf);
   (nvos02_flags.ALLOC, 16, 0x3); (NVOS02_FLAGS_GPU_CACHEABLE, 18, 0x1); (Some NVOS02_FLAGS_MAPPING, 30, 0x3)].

(** [a.shift + 4 == b.shift] *)
Definition osdesc_neighbours : list (option Drf.t * option Drf.t) :=
  [(NVOS02_FLAGS_PHYSICALITY, NVOS02_FLAGS_LOCATION); (NVOS02_FLAGS_LOCATION, NVOS02_FLAGS_COHERENCY);
   (NVOS02_FLAGS_COHERENCY, nvos02_flags.ALLOC)].

End guards.

(** ** What the guards and the names say *)
Definition agree (l : list (Z * Z)) : bool := forallb (fun p => p.1 =? p.2) l.

Definition at_position (p : option Drf.t * Z * Z) : bool :=
  match p with
  | (Some f, s, m) => (Drf.shift f =? s) && (Drf.mask f =? m)
  | (None, _, _) => false
  end.

Definition next_to (p : option Drf.t * option Drf.t) : bool :=
  match p with
  | (Some f, Some g) => Drf.shift f + 4 =? Drf.shift g
  | _ => false
  end.

(** Every compile-time assertion of nvgpu.rs holds of the modelled bindings:
    escape, class, status and method numbers, sizes, alignments and offsets of
    the structures, positions of the bit fields. *)
Theorem guards_hold :
  Forall (fun l => agree l = true)
    [guards.numa_guards; guards.os_event_guards; guards.escape_guards; guards.class_guards; guards.status_guards;
     guards.vidheap_guards; guards.channel_guards; guards.pushbuffer_guards] /\
  forallb assert_layout guards.layout_guards = true /\
  forallb at_position (guards.attr_guards ++ guards.osdesc_guards) = true /\
  forallb next_to guards.osdesc_neighbours = true.
Proof. split_and!; [repeat constructor|..]; vm_compute; reflexivity. Qed.

(** The escapes listed as carrying a descriptor, with REGISTER_FD, are exactly
    the frontend escapes in which a descriptor is translated; where the
    structure is a wrapper the translated field is its [fd]. *)
Theorem escapes_with_fd_translated (dev : Dev) (nr size : Z) :
  is_uvm dev = false ->
  (is_Some (fd_field_offset dev nr size) <-> nr = NV_ESC_REGISTER_FD \/ nr ∈ ESCAPES_WITH_FD) /\
  fd_field_offset dev NV_ESC_RM_MAP_MEMORY size = Some (offset_of Nvos33WithFd "fd") /\
  fd_field_offset dev NV_ESC_RM_ALLOC_MEMORY size = Some (offset_of Nvos02WithFd "fd").
Proof.
  intros Hd. unfold fd_field_offset. rewrite Hd. split; [|split; reflexivity].
  rewrite match_nr_is_Some. unfold match_keys, ESCAPES_WITH_FD. cbn [fmap list_fmap fst concat app].
  rewrite !elem_of_cons, elem_of_nil. tauto.
Qed.

Lemma escapes_with_fd_translated_witness : is_Some (fd_field_offset Ctl NV_ESC_ALLOC_OS_EVENT 16).
Proof. apply (escapes_with_fd_translated Ctl NV_ESC_ALLOC_OS_EVENT 16); [reflexivity|right; left]. Defined.

(** The codes of the bindings for the statuses [status_name] names. *)
Definition binding_codes : list (Z * string) :=
  [(NV_OK, "NV_OK"); (NV_ERR_INSUFFICIENT_PERMISSIONS, "NV_ERR_INSUFFICIENT_PERMISSIONS");
   (NV_ERR_INVALID_ADDRESS, "NV_ERR_INVALID_ADDRESS"); (NV_ERR_INVALID_ARGUMENT, "NV_ERR_INVALID_ARGUMENT");
   (NV_ERR_INVALID_CLASS, "NV_ERR_INVALID_CLASS"); (NV_ERR_INVALID_CLIENT, "NV_ERR_INVALID_CLIENT");
   (NV_ERR_STATE_IN_USE, "NV_ERR_STATE_IN_USE"); (NV_ERR_INVALID_LIMIT, "NV_ERR_INVALID_LIMIT");
   (NV_ERR_INVALID_OBJECT_HANDLE, "NV_ERR_INVALID_OBJECT_HANDLE"); (NV_ERR_NOT_SUPPORTED, "NV_ERR_NOT_SUPPORTED");
   (NV_ERR_NO_MEMORY, "NV_ERR_NO_MEMORY"); (NV_ERR_OBJECT_NOT_FOUND, "NV_ERR_OBJECT_NOT_FOUND");
   (NV_ERR_INVALID_PARAM_STRUCT, "NV_ERR_INVALID_PARAM_STRUCT"); (NV_ERR_INVALID_PARAMETER, "NV_ERR_INVALID_PARAMETER");
   (NV_ERR_INSERT_DUPLICATE_NAME, "NV_ERR_INSERT_DUPLICATE_NAME"); (NV_ERR_OPERATING_SYSTEM, "NV_ERR_OPERATING_SYSTEM")].

(** A status other than NV_ERR_STATE_IN_USE and the code that the
    transcription gives it in its place is named as the bindings name it, and
    one they do not list is not named. *)
Theorem status_names_exact (s : Z) (n : string) :
  s <> NV_ERR_STATE_IN_USE -> s <> status.NV_ERR_STATE_IN_USE ->
  (status_name s = Some n <-> (s, n) ∈ binding_codes).
Proof.
  intros H1 H2. split.
  - unfold status_name. intros H.
    repeat (destruct (_ =? _) eqn:E in H; [apply Z.eqb_eq in E; simplify_eq; by apply (bool_decide_unpack _); vm_compute|clear E]).
    done.
  - unfold binding_codes. rewrite !elem_of_cons, elem_of_nil. intros H.
    repeat (destruct H as [[= -> ->]|H]; [done || reflexivity|]). done.
Qed.

Lemma status_names_exact_witness : status_name 0x57 = Some "NV_ERR_OBJECT_NOT_FOUND".
Proof. apply (status_names_exact 0x57); [discriminate|discriminate|]. by apply (bool_decide_unpack _); vm_compute. Defined.

(** NV_ERR_STATE_IN_USE is transcribed as 0x24: in the bindings it is 0x63,
    and 0x24 is NV_ERR_INVALID_COMMAND.  No assertion compares the two, so an
    invalid command is reported under the other name and a state in use under
    none. *)
Theorem state_in_use_misnamed :
  status.NV_ERR_STATE_IN_USE = NV_ERR_INVALID_COMMAND /\
  status_name NV_ERR_INVALID_COMMAND = Some "NV_ERR_STATE_IN_USE" /\
  status_name NV_ERR_STATE_IN_USE = None.
Proof. by vm_compute. Qed.
