(* ===== verification/Client.v ===== *)
(** * The direct client of the diagnostic tools (nvrm-client)

    An RM client with its own handles, a record of what was allocated, and the
    order in which to free it.  [free_order] is a depth-first walk over parent
    and dependency edges; the order in which a hash set is iterated is an
    argument.  Shown: the walk ends on every graph, frees each object that
    hangs on the root once and nothing else, dependants first wherever the
    edges have no cycle; handles do not repeat; addresses handed out of a GPU
    reservation do not overlap. *)
From stdpp Require Import strings relations.
From S2P Require Import Prelude.
From S2P Require Import Effects.
From S2P Require Import Bytes.
From S2P Require Import CLayout.
From S2P Require Import SysConsts.
From S2P Require Import Sys.
From S2P Require Import NvAbi.
From S2P Require Import Flags.
From S2P Require Import Backing.
From S2P Require Import Start.

Local Open Scope string_scope.
Local Open Scope list_scope.
Local Open Scope Z_scope.

Module client.

(** ** Handles (handle.rs) *)
Definition DAEMON_HANDLE_BIT : Z := 0x80000000.

Record HandleAllocator := MkAlloc { h_root : Z; h_next : Z }.
Definition HandleAllocator_new (root : Z) : HandleAllocator := MkAlloc root 1.

(** One turn of the loop of [take]: [None] goes round again. *)
Definition take_turn (a : HandleAllocator) : may_panic (option Z) * HandleAllocator :=
  if h_next a <? DAEMON_HANDLE_BIT then
    let h := Z.lor DAEMON_HANDLE_BIT (h_next a) in
    (Ok (if h =? h_root a then None else Some h), MkAlloc (h_root a) (h_next a + 1))
  else (Panic, a).

(** Only one number is skipped, so two turns are enough. *)
Fixpoint take_loop (fuel : nat) (a : HandleAllocator) : option (may_panic Z * HandleAllocator) :=
  match fuel with
  | O => None
  | S fuel => match take_turn a with
              | (Ok (Some h), a) => Some (Ok h, a)
              | (Ok None, a) => take_loop fuel a
              | (_, a) => Some (Panic, a)
              end
  end.
Definition take (a : HandleAllocator) : may_panic Z * HandleAllocator := default (Panic, a) (take_loop 2 a).

Definition is_guest (h : Z) : bool := Z.land h DAEMON_HANDLE_BIT =? 0.

(** ** Objects (object.rs) *)
Record Object := MkObject { handle : Z; parent : Z; class : Z; dependants : gset Z }.
Definition Object_new (h p c : Z) : Object := MkObject h p c ∅.
Definition Object_root (h : Z) : Object := Object_new h 0 NV01_ROOT_CLIENT.

Definition with_dependants (f : gset Z -> gset Z) (o : Object) : Object :=
  MkObject (handle o) (parent o) (class o) (f (dependants o)).

Abbreviation ObjectTree := (gmap Z Object).

Definition remove (t : ObjectTree) (h : Z) : ObjectTree :=
  with_dependants (fun d => d ∖ {[h]}) <$> delete h t.

Definition insert (t : ObjectTree) (obj : Object) : ObjectTree :=
  let h := handle obj in
  let t := match t !! h with Some _ => remove t h | None => t end in
  let t := <[h := obj]> t in
  alter (with_dependants (fun d => {[h]} ∪ d)) (parent obj) t.

Definition add_dependant (t : ObjectTree) (on dependant : Z) : ObjectTree :=
  match t !! dependant with
  | Some _ => alter (with_dependants (fun d => {[dependant]} ∪ d)) on t
  | None => t
  end.

Definition parent_of (t : ObjectTree) (h : Z) : option Z := parent <$> t !! h.

Section order.
(** The order in which a hash set is iterated. *)
Context (iter : gset Z -> list Z).

Definition Walk : Type := gset Z * list Z.

(** [None] is a walk cut short by its fuel. *)
Fixpoint visit (fuel : nat) (t : ObjectTree) (h : Z) (w : Walk) : option Walk :=
  match fuel with
  | O => None
  | S fuel =>
      if decide (h ∈ w.1) then Some w
      else
        let w := ({[h]} ∪ w.1, w.2) in
        w ← match t !! h with
            | Some o => foldl (fun w d => w ≫= visit fuel t d) (Some w) (iter (dependants o))
            | None => Some w
            end;
        Some (w.1, w.2 ++ [h])
  end.

(** Every level of the walk has a handle of its own, of an object, a dependant
    or the root. *)
Definition known (t : ObjectTree) (root : Z) : gset Z :=
  {[root]} ∪ dom t ∪ map_fold (fun _ o s => dependants o ∪ s) ∅ t.

Definition free_order (t : ObjectTree) (root : Z) : option (list Z) :=
  snd <$> visit (S (size (known t root))) t root (∅, []).
End order.

(** ** The client (lib.rs) *)
Record RmClient := MkClient { ctl : Z; root : Z; handles : HandleAllocator; objects : ObjectTree }.

Definition set_objects (f : ObjectTree -> ObjectTree) (c : RmClient) : RmClient :=
  MkClient (ctl c) (root c) (handles c) (f (objects c)).

(** A CPU mapping: its length and whether reads are allowed; an access gives
    the offset it reaches. *)
Record CpuMap := MkCpuMap { cm_len : Z; cm_readable : bool }.

Definition access_ptr (m : CpuMap) (width off : Z) : may_panic Z :=
  if (off mod width =? 0) && match checked_add64 off width with Some e => e <=? cm_len m | None => false end
  then Ok off else Panic.

Definition read_u32 (m : CpuMap) (off : Z) : may_panic Z := if cm_readable m then access_ptr m 4 off else Panic.
Definition write_u32 (m : CpuMap) (off : Z) : may_panic Z := access_ptr m 4 off.
Definition write_u64 (m : CpuMap) (off : Z) : may_panic Z := access_ptr m 8 off.

Record Buffer := MkBuffer { b_handle : Z; b_size : Z; gpu_va : Z; b_cpu : CpuMap }.

Definition USERMODE_SIZE : Z := 65536.

Section rm.
Context {K : Type} `{RmKernel K} (iter : gset Z -> list Z) (buf_addr : Z).
Abbreviation rm := (eff BackErr (K * RmClient)).

Definition on_kernel {X} (m : eff BackErr K X) : rm X := zoom fst (fun k s => (k, s.2)) m.
Definition get_client {X} (f : RmClient -> X) : rm X := asks (fun s => f s.2).
Definition on_objects (f : ObjectTree -> ObjectTree) : rm unit := modify (fun s => (s.1, set_objects f s.2)).

Definition open_client : eff BackErr K RmClient :=
  ctl ← backing.open_dev "/dev/nvidiactl";
  on_error (fun k => k_close k ctl) (
    root ← backing.new_root ctl;
    mret (MkClient ctl root (HandleAllocator_new root) (insert ∅ (Object_root root)))).

Definition next_handle : rm Z := fun s =>
  let '(r, a) := take (handles s.2) in
  (match r with Ok h => Ok h | _ => Panic end, (s.1, MkClient (ctl s.2) (root s.2) a (objects s.2))).

(** The handle RM answers with, and the parameters it filled in. *)
Definition alloc (parent h class : Z) (params : Pointee) : rm (Z * Pointee) :=
  let t := NVOS64_PARAMETERS in
  c ← get_client id;
  out ← on_kernel (backing.ioctl_raw (ctl c) NV_ESC_RM_ALLOC t
    (build (size_of t)
       [word_at (offset_of t "hRoot") (root c); word_at (offset_of t "hObjectParent") parent;
        word_at (offset_of t "hObjectNew") h; word_at (offset_of t "hClass") class;
        quad_at (offset_of t "pAllocParms") (match params with Nothing => 0 | _ => buf_addr end)]) params);
  _ ← lift (backing.checked NV_ESC_RM_ALLOC (offset_of t "status") out);
  new ← lift (or_panic (get_u32 out.1 (offset_of t "hObjectNew")));
  _ ← on_objects (fun t => insert t (Object_new new parent class));
  mret (new, out.2).

Definition control (object cmd : Z) (params : bytes) : rm bytes :=
  let t := NVOS54_PARAMETERS in
  c ← get_client id;
  size ← lift (if blen params <=? u32_max then Ok (blen params) else Panic);
  out ← on_kernel (backing.ioctl_raw (ctl c) NV_ESC_RM_CONTROL t
    (build (size_of t)
       [word_at (offset_of t "hClient") (root c); word_at (offset_of t "hObject") object; word_at (offset_of t "cmd") cmd;
        quad_at (offset_of t "params") buf_addr; word_at (offset_of t "paramsSize") size]) (Params params));
  _ ← lift (backing.checked NV_ESC_RM_CONTROL (offset_of t "status") out);
  mret (match out.2 with Params p => p | _ => params end).

(** One turn of the loop of [free]. *)
Definition free_one (h : Z) : rm unit :=
  let t := NVOS00_PARAMETERS in
  c ← get_client id;
  out ← on_kernel (backing.ioctl_raw (ctl c) NV_ESC_RM_FREE t
    (build (size_of t)
       [word_at (offset_of t "hRoot") (root c);
        word_at (offset_of t "hObjectParent") (default (root c) (parent_of (objects c) h));
        word_at (offset_of t "hObjectOld") h]) Nothing);
  _ ← lift (backing.checked NV_ESC_RM_FREE (offset_of t "status") out);
  on_objects (fun t => remove t h).

Fixpoint free_all (hs : list Z) : rm unit :=
  match hs with
  | [] => mret tt
  | h :: hs => _ ← free_one h; free_all hs
  end.

Definition free (h : Z) : rm unit :=
  order ← get_client (fun c => free_order iter (objects c) h);
  hs ← lift (or_panic order);
  free_all hs.

Definition depends_on (on dependant : Z) : rm unit := on_objects (fun t => add_dependant t on dependant).

(** ** Memory (mem.rs) *)
Definition OWNER_TAG : Z := le_val [108; 101; 97; 110].

(** [Drf::set] of a declared field. *)
Definition field (f : option Drf.t) (v : Z) : Z := match f with Some f => Drf.set f v | None => 0 end.

Definition sysmem_attr (coherency : Z) : Z :=
  Z.lor (Z.lor (Z.lor (Drf.set NVOS32_ATTR_LOCATION NVOS32_ATTR_LOCATION_PCI)
      (field nvos32_attr.PHYSICALITY NVOS32_ATTR_PHYSICALITY_NONCONTIGUOUS))
      (field NVOS32_ATTR_COHERENCY coherency))
    (field nvos32_attr.PAGE_SIZE NVOS32_ATTR_PAGE_SIZE_4KB).

Definition alloc_sysmem (device size coherency : Z) : rm Z :=
  let t := NV_MEMORY_ALLOCATION_PARAMS in
  h ← next_handle;
  r ← alloc device h NV01_MEMORY_SYSTEM (Params (build (size_of t)
    [word_at (offset_of t "owner") OWNER_TAG; word_at (offset_of t "type_") NVOS32_TYPE_IMAGE;
     word_at (offset_of t "attr") (sysmem_attr coherency); quad_at (offset_of t "size") size]));
  mret r.1.

Record VaRange := MkRange { va_handle : Z; va_base : Z; va_size : Z; va_next : Z }.

Definition is_power_of_two (a : Z) : bool := (0 <? a) && (2 ^ Z.log2 a =? a).
Definition not64 (x : Z) : Z := Z.lxor u64_max x.

Definition bump (r : VaRange) (len align : Z) : outcome BackErr (Z * VaRange) :=
  let full := Rm NV_ESC_RM_MAP_MEMORY_DMA NV_ERR_NO_MEMORY in
  if (align =? 0) || negb (is_power_of_two align) then Err full
  else
    up ← ok_or (checked_add64 (va_next r) (align - 1)) full;
    let start := Z.land up (not64 (align - 1)) in
    end_ ← ok_or (checked_add64 start len) full;
    limit ← ok_or (checked_add64 (va_base r) (va_size r)) full;
    if limit <? end_ then Err full else Ok (start, MkRange (va_handle r) (va_base r) (va_size r) end_).

Definition alloc_virtual (device vaspace size : Z) : rm VaRange :=
  let t := NV_MEMORY_ALLOCATION_PARAMS in
  h ← next_handle;
  let p := build (size_of t)
    [word_at (offset_of t "owner") OWNER_TAG; word_at (offset_of t "type_") NVOS32_TYPE_IMAGE;
     word_at (offset_of t "flags") NVOS32_ALLOC_FLAGS_VIRTUAL;
     word_at (offset_of t "attr") (Z.lor (Drf.set NVOS32_ATTR_LOCATION NVOS32_ATTR_LOCATION_PCI)
       (field nvos32_attr.PAGE_SIZE NVOS32_ATTR_PAGE_SIZE_4KB));
     quad_at (offset_of t "size") size; word_at (offset_of t "hVASpace") vaspace] in
  r ← alloc device h NV50_MEMORY_VIRTUAL (Params p);
  base ← lift (or_panic (get_u64 (match r.2 with Params q => q | _ => p end) (offset_of t "offset")));
  mret (MkRange h base size base).

(** The flags of a GPU mapping: read-write, 4 KiB pages, snooping, at the
    address given. *)
Definition map_flags : Z :=
  Z.lor (Z.lor (Z.lor (field nvos46_flags.ACCESS nvos46_flags.ACCESS_READ_WRITE)
      (field nvos46_flags.PAGE_SIZE nvos46_flags.PAGE_SIZE_4KB))
      (field nvos46_flags.CACHE_SNOOP nvos46_flags.CACHE_SNOOP_ENABLE))
    (field nvos46_flags.DMA_OFFSET_FIXED nvos46_flags.DMA_OFFSET_FIXED_TRUE).

Definition cpu_flags : Z :=
  Z.lor (Z.lor (Z.lor (field nvos33_flags.ACCESS nvos33_flags.ACCESS_READ_WRITE)
      (field nvos33_flags.MEM_SPACE nvos33_flags.MEM_SPACE_CLIENT))
      (field nvos33_flags.MAPPING nvos33_flags.MAPPING_DEFAULT))
    (field nvos33_flags.RESERVE_ON_UNMAP nvos33_flags.RESERVE_ON_UNMAP_ENABLE).

Definition doorbell_flags : Z :=
  Z.lor (field nvos33_flags.ACCESS NVOS33_FLAGS_ACCESS_WRITE_ONLY)
    (field nvos33_flags.MEM_SPACE nvos33_flags.MEM_SPACE_CLIENT).

Definition map_dma (device : Z) (range : VaRange) (h size va : Z) : rm Z :=
  let t := NVOS46_PARAMETERS in
  c ← get_client id;
  out ← on_kernel (backing.ioctl_raw (ctl c) NV_ESC_RM_MAP_MEMORY_DMA t
    (build (size_of t)
       [word_at (offset_of t "hClient") (root c); word_at (offset_of t "hDevice") device;
        word_at (offset_of t "hDma") (va_handle range); word_at (offset_of t "hMemory") h;
        quad_at (offset_of t "length") size; word_at (offset_of t "flags") map_flags;
        quad_at (offset_of t "dmaOffset") va]) Nothing);
  _ ← lift (backing.checked NV_ESC_RM_MAP_MEMORY_DMA (offset_of t "status") out);
  lift (or_panic (get_u64 out.1 (offset_of t "dmaOffset"))).

(** The range is updated by [bump] also when the call fails. *)
Definition map_gpu (device : Z) (range : VaRange) (h size : Z) : rm (outcome BackErr Z * VaRange) := fun s =>
  match bump range size 4096 with
  | Ok (va, range) => let '(r, s) := map_dma device range h size va s in (Ok (r, range), s)
  | Err e => (Ok (Err e, range), s)
  | Panic => (Panic, s)
  end.

(** NVOS33 on the client's descriptor, for the context of [fd]. *)
Definition map_memory (device h size flags fd : Z) : rm unit :=
  let t := NVOS33_PARAMETERS in
  c ← get_client id;
  out ← on_kernel (backing.ioctl_raw (ctl c) NV_ESC_RM_MAP_MEMORY Nvos33WithFd
    (build (size_of Nvos33WithFd)
       [word_at (offset_of t "hClient") (root c); word_at (offset_of t "hDevice") device; word_at (offset_of t "hMemory") h;
        quad_at (offset_of t "length") size; word_at (offset_of t "flags") flags;
        word_at (offset_of Nvos33WithFd "fd") (wrap32 fd)]) Nothing);
  lift (backing.checked NV_ESC_RM_MAP_MEMORY (offset_of t "status") out).

(** [mmap_ok] is what mmap answers; the descriptor is closed on an error. *)
Definition map_cpu (mmap_ok : bool) (device h size : Z) : rm CpuMap :=
  fd ← on_kernel (backing.open_dev "/dev/nvidiactl");
  on_error (fun s => (k_close s.1 fd, s.2)) (
    _ ← map_memory device h size cpu_flags fd;
    if mmap_ok then mret (MkCpuMap size true) else fail OpenFailed).

Definition map_doorbell (mmap_ok : bool) (gpu : string) (subdevice usermode : Z) : rm CpuMap :=
  c ← get_client id;
  fd ← on_kernel (backing.open_for_mapping gpu (ctl c));
  on_error (fun s => (k_close s.1 fd, s.2)) (
    _ ← map_memory subdevice usermode USERMODE_SIZE doorbell_flags fd;
    if mmap_ok then mret (MkCpuMap USERMODE_SIZE false) else fail OpenFailed).

(** The GPU half of [buffer]: the address and the range it leaves. *)
Definition enter_range (device : Z) (range : option VaRange) (h size : Z) : rm (outcome BackErr Z * option VaRange) :=
  match range with
  | Some r =>
      '(va, r) ← map_gpu device r h size;
      _ ← (match va with Ok _ => depends_on (va_handle r) h | _ => mret tt end);
      mret (va, Some r)
  | None => mret (Ok 0, None)
  end.

(** The range comes back also when the buffer does not. *)
Definition buffer (mmap_ok : bool) (device : Z) (range : option VaRange) (size coherency : Z)
  : rm (outcome BackErr Buffer * option VaRange) := fun s =>
  match alloc_sysmem device size coherency s with
  | (Ok h, s) =>
      match enter_range device range h size s with
      | (Ok (Ok va, range), s) =>
          let '(r, s) := map_cpu mmap_ok device h size s in (Ok (cpu ← r; Ok (MkBuffer h size va cpu), range), s)
      | (Ok (Err e, range), s) => (Ok (Err e, range), s)
      | (Ok (Panic, _), s) | (Panic, s) => (Panic, s)
      | (Err e, s) => (Err e, s)
      end
  | (Err e, s) => (Ok (Err e, range), s)
  | (Panic, s) => (Panic, s)
  end.
End rm.

(** ** The walk *)
Definition dep (t : ObjectTree) (x d : Z) : Prop := exists o, t !! x = Some o /\ d ∈ dependants o.

Definition before (x y : Z) (l : list Z) : Prop := exists i j, l !! i = Some x /\ l !! j = Some y /\ (i < j)%nat.

Lemma before_app x y l l' : before x y l -> before x y (l ++ l').
Proof. intros (i & j & Hi & Hj & Hl). exists i, j. split_and!; [by apply lookup_app_l_Some..|done]. Qed.

Lemma before_snoc x y l : x ∈ l -> before x y (l ++ [y]).
Proof.
  intros [i Hi]%list_elem_of_lookup. exists i, (length l). split_and!; [by apply lookup_app_l_Some| |by eapply lookup_lt_Some].
  rewrite lookup_app_r by lia. by rewrite Nat.sub_diag.
Qed.

Lemma elem_of_snoc (l : list Z) x y : x ∈ l ++ [y] <-> x ∈ l \/ x = y.
Proof. by rewrite elem_of_app, list_elem_of_singleton. Qed.

Section walk.
Context (iter : gset Z -> list Z) (Hiter : forall s x, x ∈ iter s <-> x ∈ s) (t : ObjectTree).

(** From [w] to [w'] the handles [ext] were added, all of them in [P], each with
    its dependants: seen, and listed before it unless there is a cycle. *)
Record walked (P : Z -> Prop) (w w' : Walk) (ext : list Z) : Prop := {
  wk_out : w'.2 = w.2 ++ ext;
  wk_nodup : NoDup ext;
  wk_new x : x ∈ ext -> (x ∉ w.1) /\ P x;
  wk_seen x : x ∈ w'.1 <-> x ∈ w.1 \/ x ∈ ext;
  wk_deps x d : x ∈ ext -> dep t x d -> d ∈ w'.1 /\ (before d x w'.2 \/ rtc (dep t) d x);
}.

(** Handles whose visit has begun and not ended lead to [h]. *)
Definition open_above (w : Walk) (h : Z) : Prop := forall g, g ∈ w.1 -> g ∉ w.2 -> rtc (dep t) g h.

Lemma walked_refl P w : walked P w w [].
Proof. split; [by rewrite app_nil_r|constructor|by intros x ?%elem_of_nil|set_solver|by intros x d ?%elem_of_nil]. Qed.

Lemma walked_trans P w w1 w2 e1 e2 : walked P w w1 e1 -> walked P w1 w2 e2 -> walked P w w2 (e1 ++ e2).
Proof.
  intros [O1 N1 W1 S1 D1] [O2 N2 W2 S2 D2]. split.
  - by rewrite O2, O1, app_assoc.
  - apply NoDup_app. split_and!; [done| |done]. intros x Hx Hx'. destruct (W2 x Hx') as [Hn _]. apply Hn, S1. by right.
  - intros x [Hx|Hx]%elem_of_app; [by apply W1|]. destruct (W2 x Hx) as [Hn HP]. split; [|done]. intros ?. apply Hn, S1. by left.
  - intros x. rewrite S2, S1, elem_of_app. tauto.
  - intros x d [Hx|Hx]%elem_of_app Hd; [|by apply D2]. destruct (D1 x d Hx Hd) as [Hs Hb]. split; [apply S2; by left|].
    destruct Hb as [Hb|Hb]; [left|by right]. rewrite O2. by apply before_app.
Qed.

Lemma walked_open P w w' ext h : walked P w w' ext -> open_above w h -> open_above w' h.
Proof.
  intros [O _ _ S _] Hw g Hg Hn. rewrite O, not_elem_of_app in Hn. destruct Hn as [Hn1 Hn2].
  apply S in Hg as [Hg|Hg]; [by apply Hw|done].
Qed.

Lemma walked_mono (P Q : Z -> Prop) w w' ext : walked P w w' ext -> (forall x, P x -> Q x) -> walked Q w w' ext.
Proof. intros [O N W S D] HPQ. split; try done. intros x Hx. destruct (W x Hx). auto. Qed.

Section loop.
Context (fuel : nat) (IH : forall h w w', visit iter fuel t h w = Some w' -> open_above w h ->
  exists ext, walked (fun x => rtc (dep t) h x) w w' ext /\ h ∈ w'.1).

Lemma loop_walked h ds : (forall d, d ∈ ds -> dep t h d) -> forall w w', open_above w h ->
  foldl (fun w d => w ≫= visit iter fuel t d) (Some w) ds = Some w' ->
  exists ext, walked (fun x => rtc (dep t) h x) w w' ext /\ forall d, d ∈ ds -> d ∈ w'.1.
Proof.
  induction ds as [|d ds IHds]; intros Hds w w' Hw.
  { cbn. intros [= <-]. exists []. split; [apply walked_refl|]. by intros d ?%elem_of_nil. }
  cbn [foldl]. change (Some w ≫= visit iter fuel t d) with (visit iter fuel t d w).
  destruct (visit iter fuel t d w) as [w1|] eqn:Hv.
  2: { intros Hf. exfalso. revert Hf. clear. induction ds; [done|exact IHds]. }
  assert (dep t h d) as Hd by (apply Hds; left).
  assert (open_above w d) as Hwd by (intros g Hg Hn; eapply rtc_r; [by apply Hw|done]).
  destruct (IH _ _ _ Hv Hwd) as (e1 & He1 & Hin). intros Hf.
  destruct (IHds (fun d' H => Hds d' (list_elem_of_further _ _ _ H)) w1 w' (walked_open _ _ _ _ _ He1 Hw) Hf) as (e2 & He2 & Hall).
  exists (e1 ++ e2). split.
  - eapply walked_trans; [|exact He2]. eapply walked_mono; [exact He1|]. intros x Hx. by eapply rtc_l.
  - intros d' [->|Hd']%elem_of_cons; [|by apply Hall]. apply (wk_seen _ _ _ _ He2). by left.
Qed.
End loop.

(** The rest of a visit after its dependants. *)
Lemma visit_last h o w w1 e1 : t !! h = o -> h ∉ w.1 -> open_above w h ->
  walked (fun x => rtc (dep t) h x) ({[h]} ∪ w.1, w.2) w1 e1 ->
  (forall d, dep t h d -> d ∈ w1.1) -> walked (fun x => rtc (dep t) h x) w (w1.1, w1.2 ++ [h]) (e1 ++ [h]).
Proof.
  intros _ Hh Hw [O N W S D] Hds. cbn [fst snd] in *. split; cbn [fst snd].
  - by rewrite O, app_assoc.
  - apply NoDup_app. split_and!; [done| |apply NoDup_singleton]. intros x Hx Hx'. apply list_elem_of_singleton in Hx' as ->.
    destruct (W h Hx) as [Hn _]. set_solver.
  - intros x [Hx| ->]%elem_of_snoc; [|done]. destruct (W x Hx) as [Hn HP]. set_solver.
  - intros x. rewrite S, elem_of_snoc. set_solver.
  - intros x d [Hx| ->]%elem_of_snoc Hd.
    + destruct (D x d Hx Hd) as [Hs Hb]. split; [done|]. destruct Hb; [left; by apply before_app|by right].
    + pose proof (Hds d Hd) as Hs. split; [done|]. destruct (decide (d ∈ w1.2)) as [Hi|Hi]; [left; by apply before_snoc|right].
      rewrite O, not_elem_of_app in Hi. apply S in Hs as [Hs|Hs]; [|tauto]. apply elem_of_union in Hs as [Hs|Hs]; [by apply elem_of_singleton in Hs as ->|].
      apply Hw; tauto.
Qed.

Lemma visit_walked fuel : forall h w w', visit iter fuel t h w = Some w' -> open_above w h ->
  exists ext, walked (fun x => rtc (dep t) h x) w w' ext /\ h ∈ w'.1.
Proof.
  induction fuel as [|fuel IH]; intros h w w'; [done|]. cbn [visit]. case_decide as Hh.
  { intros [= <-] _. exists []. split; [apply walked_refl|done]. }
  intros Hv Hw. set (w0 := ({[h]} ∪ w.1, w.2)) in Hv.
  assert (open_above w0 h) as Hw0.
  { intros g Hg Hn. cbn in Hg, Hn. apply elem_of_union in Hg as [Hg|Hg]; [by apply elem_of_singleton in Hg as ->|by apply Hw]. }
  assert (forall w1 e1, walked (fun x => rtc (dep t) h x) w0 w1 e1 -> (forall d, dep t h d -> d ∈ w1.1) -> Some (w1.1, w1.2 ++ [h]) = Some w' ->
    exists ext, walked (fun x => rtc (dep t) h x) w w' ext /\ h ∈ w'.1) as Hend.
  { intros w1 e1 He Hds [= <-]. exists (e1 ++ [h]). split; [by eapply visit_last|]. cbn. apply (wk_seen _ _ _ _ He). left. cbn. set_solver. }
  destruct (t !! h) as [o|] eqn:Ho.
  - destruct (foldl _ _ _) as [w1|] eqn:Hf; [|done]. cbn in Hv.
    destruct (loop_walked fuel IH h (iter (dependants o))) with (w := w0) (w' := w1) as (e1 & He & Hall).
    + intros d Hd%Hiter. by exists o.
    + done.
    + done.
    + eapply Hend; [exact He| |exact Hv]. intros d (o' & Ho' & Hd). apply Hall, Hiter. congruence.
  - eapply (Hend w0 []); [apply walked_refl| |exact Hv]. intros d (o' & Ho' & _). congruence.
Qed.

(** ** It ends *)
Section ends.
Context (U : gset Z) (HU : forall x d, x ∈ U -> dep t x d -> d ∈ U).

Lemma visit_grows fuel : forall h w w', visit iter fuel t h w = Some w' -> w.1 ⊆ w'.1.
Proof.
  induction fuel as [|fuel IH]; intros h w w'; [done|]. cbn [visit]. case_decide; [by intros [= <-]|].
  assert (forall ds w w', foldl (fun w d => w ≫= visit iter fuel t d) (Some w) ds = Some w' -> w.1 ⊆ w'.1) as Hl.
  { induction ds as [|d ds IHds]; intros v v'; [by intros [= <-]|]. cbn [foldl].
    change (Some v ≫= visit iter fuel t d) with (visit iter fuel t d v). destruct (visit iter fuel t d v) as [v1|] eqn:Hv.
    - intros Hf. etrans; [by eapply IH|by eapply IHds].
    - intros Hf. exfalso. revert Hf. clear. induction ds; [done|exact IHds]. }
  destruct (t !! h) as [o|].
  - destruct (foldl _ _ _) as [w1|] eqn:Hf; [|done]. intros [= <-]. apply Hl in Hf. cbn in *. set_solver.
  - intros [= <-]. cbn. set_solver.
Qed.

Lemma visit_ends fuel : forall h w, h ∈ U -> (size (U ∖ w.1) < fuel)%nat -> is_Some (visit iter fuel t h w).
Proof.
  induction fuel as [|fuel IH]; intros h w Hh Hs; [lia|]. cbn [visit]. case_decide as Hw; [by eexists|].
  assert (size (U ∖ ({[h]} ∪ w.1)) < fuel)%nat as Hs'.
  { assert (size (U ∖ ({[h]} ∪ w.1)) < size (U ∖ w.1))%nat; [|lia]. apply subset_size. split; set_solver. }
  assert (forall ds w, (forall d, d ∈ ds -> d ∈ U) -> (size (U ∖ w.1) < fuel)%nat ->
    is_Some (foldl (fun w d => w ≫= visit iter fuel t d) (Some w) ds)) as Hl.
  { induction ds as [|d ds IHds]; intros v Hds Hv; [by eexists|]. cbn [foldl].
    change (Some v ≫= visit iter fuel t d) with (visit iter fuel t d v).
    destruct (IH d v) as [v1 Hv1]; [apply Hds; left|done|]. rewrite Hv1. apply IHds; [intros; apply Hds; by right|].
    apply visit_grows in Hv1. eapply Nat.le_lt_trans; [apply subseteq_size|exact Hv]. set_solver. }
  destruct (t !! h) as [o|] eqn:Ho.
  - destruct (Hl (iter (dependants o)) ({[h]} ∪ w.1, w.2)) as [w1 ->]; [|done|by eexists].
    intros d Hd%Hiter. eapply HU; [exact Hh|by exists o].
  - by eexists.
Qed.
End ends.

Lemma visit_final fuel h w w' : visit iter fuel t h w = Some w' -> h ∉ w.1 -> last w'.2 = Some h.
Proof.
  destruct fuel as [|fuel]; [done|]. cbn [visit]. intros Hv Hh. rewrite decide_False in Hv by done.
  destruct (match t !! h with Some o => _ | None => _ end) as [w1|]; [|done]. injection Hv as <-. apply last_snoc.
Qed.

Lemma known_closed r x d : x ∈ known t r -> dep t x d -> d ∈ known t r.
Proof.
  intros _ (o & Ho & Hd). unfold known. apply elem_of_union_r. revert Ho Hd.
  refine (map_fold_weak_ind (fun s m => m !! x = Some o -> d ∈ dependants o -> d ∈ s) _ ∅ _ _ t); [by rewrite lookup_empty|].
  intros i o' m s _ IH. rewrite lookup_insert_Some. intros [[-> ->]|[_ Hm]] Hd; apply elem_of_union; [by left|right; by apply IH].
Qed.

Definition order_ok (r : Z) (out : list Z) : Prop :=
  NoDup out /\ (forall x, x ∈ out <-> rtc (dep t) r x) /\ last out = Some r /\
  (forall x d, x ∈ out -> dep t x d -> before d x out \/ rtc (dep t) d x).

Lemma free_order_ok r : exists out, free_order iter t r = Some out /\ order_ok r out.
Proof.
  unfold free_order. destruct (visit_ends (known t r) (known_closed r) (S (size (known t r))) r (∅, [])) as [w Hw].
  - unfold known. set_solver.
  - cbn [fst]. rewrite difference_empty_L. lia.
  - rewrite Hw. exists w.2. split; [done|]. pose proof (visit_final _ _ _ _ Hw ltac:(set_solver)) as Hl.
    destruct (visit_walked _ _ _ _ Hw) as (ext & [O N W S D] & Hr); [intros g Hg; set_solver|]. cbn [fst snd app] in *.
    assert (forall x, x ∈ w.1 <-> x ∈ w.2) as Hs by (intros x; rewrite S, O; set_solver).
    split_and!; [by rewrite O| |done|].
    + assert (forall y z, rtc (dep t) y z -> y ∈ w.1 -> z ∈ w.1) as Hcl.
      { induction 1 as [|x y z Hxy _ IH]; [done|]. intros Hx. apply IH. apply (D x y); [rewrite <- O; by apply Hs|done]. }
      intros x. split; [rewrite O; intros Hx; by apply W|]. rewrite <- Hs. intros Hx. by apply (Hcl r).
    + intros x d Hx Hd. rewrite O in Hx. by apply D.
Qed.
End walk.

(** ** Freeing *)
Lemma dep_remove t h x d : dep (remove t h) x d <-> dep t x d /\ x <> h /\ d <> h.
Proof.
  unfold dep, remove. split.
  - intros (o & Ho & Hd). rewrite lookup_fmap in Ho. apply fmap_Some in Ho as (o' & Ho' & ->).
    apply lookup_delete_Some in Ho' as [Hx Ho']. cbn in Hd. split_and!; [exists o'; set_solver|done|set_solver].
  - intros ((o & Ho & Hd) & Hx & Hh). exists (with_dependants (fun s => s ∖ {[h]}) o).
    rewrite lookup_fmap, lookup_delete_ne, Ho by done. cbn. set_solver.
Qed.

Lemma dom_remove t h x : is_Some (remove t h !! x) <-> is_Some (t !! x) /\ x <> h.
Proof.
  unfold remove. rewrite lookup_fmap, fmap_is_Some. rewrite <- !elem_of_dom, dom_delete. set_solver.
Qed.

Lemma removed_all l : forall t,
  (forall x, is_Some (foldl remove t l !! x) <-> is_Some (t !! x) /\ x ∉ l) /\
  (forall x d, dep (foldl remove t l) x d <-> dep t x d /\ (x ∉ l) /\ d ∉ l).
Proof.
  induction l as [|h l IH]; intros t; cbn [foldl].
  - split; intros; set_solver.
  - destruct (IH (remove t h)) as [H1 H2]. split.
    + intros x. rewrite H1, dom_remove. set_solver.
    + intros x d. rewrite H2, dep_remove. set_solver.
Qed.

Section freeing.
Context {K : Type} `{RmKernel K} {KL : KernelLengths K}.

(** One RM_FREE as the kernel sees it: the ioctl on [fd], its block with the
    client, the parent and the object to free, and whether RM accepted it. *)
Definition free_call (fd rt parent h : Z) (k : K) (ok : bool) (k' : K) : Prop :=
  let t := NVOS00_PARAMETERS in
  exists blk ret b' p', k_ioctl k fd (Ioc.iowr t NV_ESC_RM_FREE) blk Nothing = (ret, (b', p'), k') /\
    blen blk = size_of t /\ get_range blk (offset_of t "hRoot") 4 = Some (le_bytes 4 rt) /\
    get_range blk (offset_of t "hObjectParent") 4 = Some (le_bytes 4 parent) /\
    get_range blk (offset_of t "hObjectOld") 4 = Some (le_bytes 4 h) /\
    ok = bool_decide (0 <= ret /\ get_u32 b' (offset_of t "status") = Some NV_OK).

(** The kernel from [k] to [k'] by one accepted RM_FREE for each handle, in
    order, and nothing else; [t] is the record before. *)
Inductive rm_frees (fd rt : Z) : ObjectTree -> K -> list Z -> K -> Prop :=
| frees_none t k : rm_frees fd rt t k [] k
| frees_one t k h k1 hs k' :
    free_call fd rt (default rt (parent_of t h)) h k true k1 ->
    rm_frees fd rt (remove t h) k1 hs k' -> rm_frees fd rt t k (h :: hs) k'.

Lemma free_one_run h (k : K) c r k' c' : free_one h (k, c) = (r, (k', c')) ->
  let call := free_call (ctl c) (root c) (default (root c) (parent_of (objects c) h)) h k in
  match r with
  | Ok _ => c' = set_objects (fun t => remove t h) c /\ call true k'
  | Err _ => c' = c /\ call false k'
  | Panic => False
  end.
Proof.
  unfold free_one, get_client, asks, mbind, eff_bind, on_kernel, zoom. cbn [fst snd id]. set (blk := build _ _).
  set (t := NVOS00_PARAMETERS) in *.
  assert (blen blk = size_of t) as Hlen by (by apply build_length; [vm_compute; congruence|vm_compute]).
  assert (forall o v, (o, le_bytes 4 v) ∈ [word_at (offset_of t "hRoot") (root c);
      word_at (offset_of t "hObjectParent") (default (root c) (parent_of (objects c) h)); word_at (offset_of t "hObjectOld") h] ->
    get_range blk o 4 = Some (le_bytes 4 v)) as Hget.
  { intros o v Hin. apply (build_get (size_of t)) in Hin; [exact Hin|vm_compute; congruence|by vm_compute]. }
  unfold backing.ioctl_raw. destruct (k_ioctl k (ctl c) _ blk Nothing) as [[ret [b' p']] k1] eqn:Hk.
  pose proof (kernel_lengths _ _ _ _ _ _ _ _ _ Hk) as [Hb _]. rewrite Hlen in Hb.
  assert (forall ok, ok = bool_decide (0 <= ret /\ get_u32 b' (offset_of t "status") = Some NV_OK) ->
    free_call (ctl c) (root c) (default (root c) (parent_of (objects c) h)) h k ok k1) as Hcall.
  { intros ok ->. exists blk, ret, b', p'. split_and!; [exact Hk|done|apply Hget; by left|apply Hget; by right; left|
      apply Hget; by right; right; left|done]. }
  destruct (ret <? 0) eqn:Er; bools.
  { intros [= <- <- <-]. split; [by destruct c|]. apply Hcall. symmetry. apply bool_decide_eq_false_2. lia. }
  destruct (proj2 (get_le_is_Some 4 b' (offset_of t "status"))) as [st Hst].
  { rewrite Hb. vm_compute. split; congruence. }
  unfold backing.checked, lift. cbn [fst snd]. rewrite Hst. cbn [or_panic mbind outcome_bind].
  unfold backing.check_status. destruct (st =? NV_OK) eqn:Es; bools; intros [= <- <- <-]; (split; [by destruct c|]);
    apply Hcall; symmetry.
  - apply bool_decide_eq_true_2. by subst st.
  - apply bool_decide_eq_false_2. rewrite Hst. intros [_ [= ?]]. done.
Qed.

Lemma free_all_run hs : forall (k : K) c r k' c', free_all hs (k, c) = (r, (k', c')) ->
  exists done rest, hs = done ++ rest /\ c' = set_objects (fun t => foldl remove t done) c /\
  match r with
  | Ok _ => rest = [] /\ rm_frees (ctl c) (root c) (objects c) k done k'
  | Err _ => exists x rest' k1, rest = x :: rest' /\ rm_frees (ctl c) (root c) (objects c) k done k1 /\
      free_call (ctl c) (root c) (default (root c) (parent_of (objects c') x)) x k1 false k'
  | Panic => False
  end.
Proof.
  induction hs as [|h hs IH]; intros k c r k' c'; cbn [free_all].
  { intros [= <- <- <-]. exists [], []. split; [done|]. split; [by destruct c|]. split; [done|]. constructor. }
  unfold mbind, eff_bind. destruct (free_one h (k, c)) as [r1 [k1 c1]] eqn:E. apply free_one_run in E. destruct r1 as [[]|e|].
  - destruct E as [-> Hcall]. intros (dn & rest & -> & -> & Hr)%IH. exists (h :: dn), rest. split; [done|]. split; [done|].
    cbn [ctl root objects set_objects] in Hr. destruct r as [[]|e|]; [| |done].
    + destruct Hr as [-> Hr]. split; [done|]. by econstructor.
    + destruct Hr as (x & rest' & k2 & -> & Hr & Hx). exists x, rest', k2. split; [done|]. split; [by econstructor|done].
  - destruct E as [-> Hcall]. intros [= <- <- <-]. exists [], (h :: hs). split; [done|]. split; [by destruct c|].
    exists h, hs, k. split; [done|]. split; [constructor|done].
  - done.
Qed.
End freeing.

(** ** Buffers *)
Section buffers.
Context {K : Type} `{RmKernel K} (buf_addr : Z).
Abbreviation rm := (eff BackErr (K * RmClient)).

(** The client is as it was. *)
Definition keeps {X} (m : rm X) : Prop := forall s, (m s).2.2 = s.2.

Lemma keeps_bind {X Y} (m : rm X) (f : X -> rm Y) : keeps m -> (forall a, keeps (f a)) -> keeps (m ≫= f).
Proof.
  intros Hm Hf s. unfold mbind, eff_bind. specialize (Hm s). destruct (m s) as [[a|e|] s1]; cbn in *; [|done|done].
  by rewrite Hf.
Qed.

Lemma keeps_kernel {X} (m : eff BackErr K X) : keeps (on_kernel m).
Proof. intros [k c]. unfold on_kernel, zoom. cbn. by destruct (m k). Qed.

Lemma keeps_lift {X} (m : outcome BackErr X) : keeps (lift m).
Proof. done. Qed.

Lemma keeps_map_memory device h size flags fd : keeps (map_memory device h size flags fd).
Proof. apply keeps_bind; [done|]. intros c. apply keeps_bind; [apply keeps_kernel|]. intros out. apply keeps_lift. Qed.

Lemma keeps_on_error {X} (f : K * RmClient -> K * RmClient) (m : rm X) : keeps m -> (forall s, (f s).2 = s.2) -> keeps (on_error f m).
Proof. intros Hm Hf s. unfold on_error. specialize (Hm s). destruct (m s) as [[] s1]; [done|cbn in *; by rewrite Hf|done]. Qed.

Lemma keeps_map_cpu ok device h size : keeps (map_cpu ok device h size).
Proof.
  apply keeps_bind; [apply keeps_kernel|]. intros fd. apply keeps_on_error; [|done].
  apply keeps_bind; [apply keeps_map_memory|]. intros _. by destruct ok.
Qed.

Lemma keeps_map_dma device r h size va : keeps (map_dma device r h size va).
Proof.
  apply keeps_bind; [done|]. intros c. apply keeps_bind; [apply keeps_kernel|]. intros out.
  apply keeps_bind; [apply keeps_lift|]. intros _. apply keeps_lift.
Qed.

Lemma map_gpu_run device r h size s res r' s' : map_gpu device r h size s = (Ok (res, r'), s') ->
  s'.2 = s.2 /\ va_handle r' = va_handle r.
Proof.
  unfold map_gpu. destruct (bump r size 4096) as [[va r1]|e|] eqn:Hb; [|by intros [= <- <- <-]|done].
  assert (va_handle r1 = va_handle r) as Hh.
  { revert Hb. unfold bump. destruct (_ || _); [done|]. destruct (checked_add64 (va_next r) _); [|done]. cbn [ok_or mbind outcome_bind].
    destruct (checked_add64 _ size); [|done]. cbn [ok_or mbind outcome_bind]. destruct (checked_add64 _ _); [|done]. cbn [ok_or mbind outcome_bind].
    destruct (_ <? _); [done|]. by intros [= <- <-]. }
  pose proof (keeps_map_dma device r1 h size va s) as Hk. destruct (map_dma _ _ _ _ _ s) as [x s1]. cbn in Hk. by intros [= <- <- <-].
Qed.

(** The memory is recorded under the handle that comes back. *)
Lemma alloc_sysmem_run device size coherency s h s' : alloc_sysmem buf_addr device size coherency s = (Ok h, s') ->
  objects s'.2 = insert (objects s.2) (Object_new h device NV01_MEMORY_SYSTEM).
Proof.
  unfold alloc_sysmem, mbind at 1, eff_bind at 1, next_handle. destruct (take (handles s.2)) as [[n|e|] a]; [|done|done].
  unfold mbind at 1, eff_bind at 1. set (s1 := (s.1, MkClient _ _ a _)). set (pp := Params _). clearbody pp. intros Hr. unfold alloc in Hr.
  unfold mbind at 1, eff_bind at 1, get_client, asks in Hr. cbn [id] in Hr.
  match type of Hr with context [on_kernel ?m] => pose proof (keeps_kernel m s1) as Hk; destruct (on_kernel m s1) as [[out|e|] s2] eqn:E end.
  - revert Hr. unfold mbind at 1, eff_bind at 1. rewrite E. unfold mbind at 1, eff_bind at 1, lift. destruct (backing.checked _ _ _); [|done|done].
    unfold mbind at 1, eff_bind at 1. destruct (get_u32 _ _) as [new|]; [|done]. cbn in Hk. cbn. intros [= <- <-]. cbn. by rewrite Hk.
  - revert Hr. unfold mbind at 1, eff_bind at 1. by rewrite E.
  - revert Hr. unfold mbind at 1, eff_bind at 1. by rewrite E.
Qed.

Lemma inserted (t : ObjectTree) o x : is_Some (t !! x) -> x <> handle o ->
  is_Some (insert t o !! x) /\ is_Some (insert t o !! handle o).
Proof.
  intros Hx Hne. unfold insert. set (t1 := match t !! handle o with Some _ => _ | None => _ end).
  assert (is_Some (t1 !! x)) as H1 by (unfold t1; case_match; [by apply dom_remove|done]).
  split; rewrite <- elem_of_dom, dom_alter_L, dom_insert_L; [apply elem_of_dom in H1|]; set_solver.
Qed.

Lemma dep_added (t : ObjectTree) on d : is_Some (t !! on) -> is_Some (t !! d) -> dep (add_dependant t on d) on d.
Proof.
  intros [o Ho] [od Hd]. unfold add_dependant. rewrite Hd. eexists. rewrite lookup_alter_eq, Ho. cbn. split; [done|]. cbn. set_solver.
Qed.

Lemma buffer_run ok device r size coherency s b range s' :
  buffer buf_addr ok device (Some r) size coherency s = (Ok (Ok b, range), s') ->
  is_Some (objects s.2 !! va_handle r) -> b_handle b <> va_handle r -> dep (objects s'.2) (va_handle r) (b_handle b).
Proof.
  unfold buffer. destruct (alloc_sysmem _ _ _ _ s) as [[h|e|] s1] eqn:Ea; [|by intros [= ? _ _]|done]. apply alloc_sysmem_run in Ea.
  unfold enter_range, mbind at 1, eff_bind at 1. destruct (map_gpu device r h size s1) as [[[res r1]|e|] s2] eqn:Eg; [|done|done].
  apply map_gpu_run in Eg as [E2 Eh]. unfold mbind at 1, eff_bind at 1. destruct res as [va|e|]; [|by intros [= ? _ _]|done].
  unfold depends_on, on_objects, modify. cbn [mret eff_ret].
  set (s3 := (s2.1, set_objects _ s2.2)). pose proof (keeps_map_cpu ok device h size s3) as Hk.
  destruct (map_cpu _ _ _ _ s3) as [[cpu|e|] s4]; cbn; [|done|done]. intros [= <- <- <-] Hr Hne. cbn in Hk, Hne |- *.
  rewrite Hk. cbn. rewrite E2, Ea, Eh. destruct (inserted (objects s.2) (Object_new h device NV01_MEMORY_SYSTEM) (va_handle r) Hr) as [H1 H2];
    [cbn; congruence|]. by apply dep_added.
Qed.
End buffers.

(** ** Handles and addresses *)
Lemma bit_lor n : 0 <= n < DAEMON_HANDLE_BIT -> Z.lor DAEMON_HANDLE_BIT n = DAEMON_HANDLE_BIT + n.
Proof.
  intros Hn. change DAEMON_HANDLE_BIT with (2 ^ 31) in *. rewrite <- Z.lxor_lor, <- Z.add_nocarry_lxor; [done|..];
    apply Z.bits_inj'; intros i Hi; rewrite Z.land_spec, Z.pow2_bits_eqb, Z.testbit_0_l by lia;
    destruct (Z.eqb_spec 31 i) as [<-|]; try done; cbn [andb]; rewrite Z.testbit_eqb, Z.div_small by lia; done.
Qed.

Lemma take_run a : 1 <= h_next a -> match take a with
  | (Ok h, a') => h_root a' = h_root a /\ h_next a < h_next a' /\ h <> h_root a /\ h_next a' <= h_next a + 2 /\
      h_next a' <= DAEMON_HANDLE_BIT /\ h = DAEMON_HANDLE_BIT + (h_next a' - 1)
  | (_, a') => DAEMON_HANDLE_BIT - 1 <= h_next a
  end.
Proof.
  intros Ha. unfold take. cbn [take_loop]. unfold take_turn. destruct (Z.ltb_spec (h_next a) DAEMON_HANDLE_BIT) as [H1|]; [|cbn; lia].
  rewrite bit_lor by lia. destruct (Z.eqb_spec (DAEMON_HANDLE_BIT + h_next a) (h_root a)) as [E1|]; [|cbn; lia]. cbn [h_next h_root].
  destruct (Z.ltb_spec (h_next a + 1) DAEMON_HANDLE_BIT) as [H2|]; [|cbn; lia].
  rewrite bit_lor by lia. destruct (Z.eqb_spec (DAEMON_HANDLE_BIT + (h_next a + 1)) (h_root a)); [lia|cbn; lia].
Qed.

(** The handles of [n] calls, up to a panic. *)
Fixpoint takes (n : nat) (a : HandleAllocator) : list Z :=
  match n with
  | O => []
  | S n => match take a with (Ok h, a) => h :: takes n a | _ => [] end
  end.

Lemma takes_spec n : forall a, 1 <= h_next a ->
  NoDup (takes n a) /\ (forall h, h ∈ takes n a -> h <> h_root a /\ DAEMON_HANDLE_BIT + h_next a <= h < 2 * DAEMON_HANDLE_BIT) /\
  (h_next a + 2 * Z.of_nat n < DAEMON_HANDLE_BIT -> length (takes n a) = n).
Proof.
  induction n as [|n IH]; intros a Ha; cbn [takes]; [split_and!; [constructor|by intros h ?%elem_of_nil|done]|].
  pose proof (take_run a Ha) as Ht. destruct (take a) as [[h|e|] a']; cycle 1.
  { split_and!; [constructor|by intros x ?%elem_of_nil|lia]. }
  { split_and!; [constructor|by intros x ?%elem_of_nil|lia]. }
  destruct Ht as (Hr & Hn & Hh & H2 & Hd & ->). destruct (IH a' ltac:(lia)) as (I1 & I2 & I3). rewrite Hr in I2. split_and!.
  - apply NoDup_cons. split; [|done]. intros Hin. apply I2 in Hin. lia.
  - intros x [->|Hx]%elem_of_cons; [lia|]. apply I2 in Hx. lia.
  - intros Hl. cbn [length]. rewrite I3; lia.
Qed.

Lemma is_guest_range h : DAEMON_HANDLE_BIT <= h < 2 * DAEMON_HANDLE_BIT -> is_guest h = false.
Proof.
  intros Hh. unfold is_guest. apply Z.eqb_neq. replace h with (Z.lor DAEMON_HANDLE_BIT (h - DAEMON_HANDLE_BIT)) by (rewrite bit_lor; lia).
  rewrite Z.land_comm, Z.land_lor_distr_r, Z.land_diag. intros [E _]%Z.lor_eq_0_iff. discriminate E.
Qed.

Lemma testbit_high up i : 0 <= up < 2 ^ 64 -> 64 <= i -> Z.testbit up i = false.
Proof.
  intros Hu Hi. destruct (Z.eq_dec up 0) as [->|]; [apply Z.testbit_0_l|]. apply Z.bits_above_log2; [lia|].
  assert (Z.log2 up < 64) by (apply Z.log2_lt_pow2; lia). lia.
Qed.

Lemma bump_run r len align s r' : bump r len align = Ok (s, r') -> 0 <= va_next r ->
  (align | s) /\ va_next r <= s /\ s < va_next r + align /\ va_next r' = s + len /\ va_next r' <= va_base r + va_size r /\
  va_base r' = va_base r /\ va_size r' = va_size r.
Proof.
  unfold bump. destruct ((align =? 0) || negb (is_power_of_two align)) eqn:Ha; [done|].
  apply orb_false_iff in Ha as [_ Ha]. apply negb_false_iff, andb_true_iff in Ha as [Hpos%Z.ltb_lt Hpow%Z.eqb_eq].
  unfold checked_add64. destruct (va_next r + (align - 1) <=? u64_max) eqn:Hu; [|done]. apply Z.leb_le in Hu. cbn [ok_or mbind outcome_bind].
  set (up := va_next r + (align - 1)) in *. set (g := Z.log2 align) in *.
  pose proof (Z.log2_nonneg align) as Hg. fold g in Hg. change u64_max with (2 ^ 64 - 1) in Hu.
  intros Hrun Hn. assert (Z.land up (not64 (align - 1)) = up / align * align) as Es.
  { rewrite <- Hpow. replace (2 ^ g - 1) with (Z.ones g) by (rewrite Z.ones_equiv; lia). apply Z.bits_inj'. intros i Hi.
    rewrite Z.land_spec. unfold not64. rewrite Z.lxor_spec, <- Z.shiftl_mul_pow2, <- Z.shiftr_div_pow2 by lia.
    rewrite Z.shiftl_spec by lia. rewrite Z.testbit_ones by lia. replace (0 <=? i) with true by (symmetry; apply Z.leb_le; lia).
    change u64_max with (Z.ones 64). rewrite Z.testbit_ones by lia. replace (0 <=? i) with true by (symmetry; apply Z.leb_le; lia).
    cbn [andb]. destruct (Z.ltb_spec i g) as [Hig|Hig].
    - rewrite (Z.testbit_neg_r _ (i - g)) by lia. destruct (Z.ltb_spec i 64); [apply andb_false_r|]. by rewrite (testbit_high up) by lia.
    - rewrite Z.shiftr_spec by lia. replace (i - g + g) with i by lia. rewrite xorb_false_r.
      destruct (Z.ltb_spec i 64); [apply andb_true_r|]. by rewrite (testbit_high up) by lia. }
  rewrite Es in Hrun. destruct (up / align * align + len <=? u64_max); [|done]. cbn [ok_or mbind outcome_bind] in Hrun.
  destruct (va_base r + va_size r <=? u64_max); [|done]. cbn [ok_or mbind outcome_bind] in Hrun.
  destruct (Z.ltb_spec (va_base r + va_size r) (up / align * align + len)); [done|]. injection Hrun as <- <-. cbn [va_next va_base va_size].
  pose proof (Z.div_mod up align ltac:(lia)). pose proof (Z.mod_pos_bound up align ltac:(lia)).
  split; [apply Z.divide_factor_r|]. lia.
Qed.

(** The ranges handed out for a list of lengths and alignments; refused ones
    leave the reservation as it is. *)
Fixpoint bumps (r : VaRange) (reqs : list (Z * Z)) : list (Z * Z) :=
  match reqs with
  | [] => []
  | (len, align) :: reqs =>
      match bump r len align with
      | Ok (s, r) => (s, len) :: bumps r reqs
      | _ => bumps r reqs
      end
  end.

Lemma bumps_spec reqs : forall r, 0 <= va_base r <= va_next r -> Forall (fun q => 0 <= q.1) reqs ->
  (forall s len, (s, len) ∈ bumps r reqs -> va_next r <= s /\ s + len <= va_base r + va_size r) /\
  (forall i j p q, bumps r reqs !! i = Some p -> bumps r reqs !! j = Some q -> (i < j)%nat -> p.1 + p.2 <= q.1).
Proof.
  induction reqs as [|[len align] reqs IH]; intros r Hr Hq; cbn [bumps]; [split; [by intros s l ?%elem_of_nil|by intros []]|].
  apply Forall_cons in Hq as [Hl Hq]. cbn in Hl. destruct (bump r len align) as [[s r1]| |] eqn:Hb; [|by apply IH..].
  apply bump_run in Hb as (_ & H1 & _ & H2 & H3 & H4 & H5); [|lia]. destruct (IH r1 ltac:(lia) Hq) as [I1 I2]. split.
  - intros s' l [[= -> ->]|Hin]%elem_of_cons; [lia|]. apply I1 in Hin. rewrite H4, H5 in Hin. lia.
  - intros [|i] [|j] p q Hp Hj Hij; cbn in Hp, Hj; [lia| |lia|apply (I2 i j p q Hp Hj); lia].
    injection Hp as <-. destruct q as [s' l]. apply list_elem_of_lookup_2, I1 in Hj. cbn. lia.
Qed.
End client.

(** ** Theorems *)
Import client.

(** C38: The direct client frees dependants first.  Whatever parent and
    dependency edges were recorded, with or without cycles, and in whatever
    order hash sets are iterated, freeing a handle ends: it goes through every
    object that hangs on it, each once and nothing else, the handle itself
    last, and every dependant before what it depends on unless the two depend
    on each other.  The kernel sees exactly one RM_FREE for each of them in
    this order, on the client's descriptor, naming the client, the recorded
    parent (or the client) and that object, as long as RM accepts them; the
    first that the ioctl or its status word refuses is the last one made and
    turns the result into an error.  The record has lost exactly what RM
    accepted, with all edges to it. *)
Theorem client_frees_in_order (iter : gset Z -> list Z) {K : Type} `{RmKernel K} {KL : KernelLengths K} (h : Z)
    (k : K) (c : RmClient) r k' c' :
  (forall s x, x ∈ iter s <-> x ∈ s) -> free iter h (k, c) = (r, (k', c')) ->
  exists done rest, order_ok (objects c) h (done ++ rest) /\
    match r with
    | Ok _ => rest = [] /\ rm_frees (ctl c) (root c) (objects c) k done k'
    | Err _ => exists x rest' k1, rest = x :: rest' /\ rm_frees (ctl c) (root c) (objects c) k done k1 /\
        free_call (ctl c) (root c) (default (root c) (parent_of (objects c') x)) x k1 false k'
    | Panic => False
    end /\
    (ctl c' = ctl c /\ root c' = root c /\ handles c' = handles c) /\
    (forall x, is_Some (objects c' !! x) <-> is_Some (objects c !! x) /\ x ∉ done) /\
    (forall x d, dep (objects c') x d <-> dep (objects c) x d /\ (x ∉ done) /\ d ∉ done).
Proof.
  intros Hiter. destruct (free_order_ok iter Hiter (objects c) h) as (out & Ho & Hok).
  unfold free, get_client, asks, mbind, eff_bind. cbn [fst snd]. rewrite Ho. cbn [lift or_panic]. unfold lift.
  intros (dn & rest & -> & -> & Hr)%free_all_run. exists dn, rest. destruct (removed_all dn (objects c)) as [H1 H2]. by split_and!.
Qed.

(** A buffer entered into a GPU reservation is recorded as depending on it, so
    that freeing the reservation frees the buffer first. *)
Theorem buffer_freed_first (iter : gset Z -> list Z) {K : Type} `{RmKernel K} buf_addr ok device r size coherency
    (k : K) (c : RmClient) b range k' c' out :
  (forall s x, x ∈ iter s <-> x ∈ s) -> is_Some (objects c !! va_handle r) -> b_handle b <> va_handle r ->
  buffer buf_addr ok device (Some r) size coherency (k, c) = (Ok (Ok b, range), (k', c')) ->
  free_order iter (objects c') (va_handle r) = Some out ->
  before (b_handle b) (va_handle r) out \/ rtc (dep (objects c')) (b_handle b) (va_handle r).
Proof.
  intros Hiter Hr Hne Hb Ho. apply (buffer_run buf_addr) in Hb; [|done|done].
  destruct (free_order_ok iter Hiter (objects c') (va_handle r)) as (out' & Ho' & _ & Hreach & _ & Hord).
  rewrite Ho in Ho'. injection Ho' as <-. apply Hord; [by apply Hreach|exact Hb].
Qed.

(** Handles come from the reserved range, are never the client's own and never
    repeat; the range lasts for more than a billion of them. *)
Theorem handles_fresh (n : nat) (client_root : Z) :
  let hs := takes n (HandleAllocator_new client_root) in
  NoDup hs /\ (forall h, h ∈ hs -> h <> client_root /\ is_guest h = false /\ is_u32 h) /\
  (Z.of_nat n < 2 ^ 30 - 1 -> length hs = n).
Proof.
  intros hs. destruct (takes_spec n (HandleAllocator_new client_root)) as (H1 & H2 & H3); [cbn; lia|].
  cbn [h_next h_root HandleAllocator_new] in *. split_and!; [done| |].
  - intros h Hh. apply H2 in Hh as [? Hr]. split_and!; [done|apply is_guest_range; lia|].
    unfold is_u32, u32_max. change DAEMON_HANDLE_BIT with 2147483648 in Hr. lia.
  - intros Hn. apply H3. change DAEMON_HANDLE_BIT with (2 * 2 ^ 30). lia.
Qed.

(** Mappings in a GPU reservation are inside it and apart from each other,
    whatever lengths and alignments were asked for and refused. *)
Theorem addresses_apart (r : VaRange) (reqs : list (Z * Z)) :
  0 <= va_base r <= va_next r -> Forall (fun q => 0 <= q.1) reqs ->
  (forall s len, (s, len) ∈ bumps r reqs -> va_base r <= s /\ s + len <= va_base r + va_size r) /\
  (forall i j p q, bumps r reqs !! i = Some p -> bumps r reqs !! j = Some q -> (i < j)%nat -> p.1 + p.2 <= q.1).
Proof.
  intros Hr Hq. destruct (bumps_spec reqs r Hr Hq) as [H1 H2]. split; [|done]. intros s len Hs. apply H1 in Hs. lia.
Qed.

(** A device, a memory, and a channel that uses both. *)
Definition channel_tree : ObjectTree :=
  add_dependant (foldl insert ∅ [Object_root 1; Object_new 2 1 0x80; Object_new 3 1 0x3e; Object_new 4 2 0xc46f]) 3 4.
Definition channel_client : RmClient := MkClient 5 1 (HandleAllocator_new 1) channel_tree.

Example channel_order : free_order elements channel_tree 1 = Some [4; 3; 2; 1] /\ free_order elements channel_tree 3 = Some [4; 3].
Proof. vm_compute. done. Qed.

Example bump_examples : bumps (MkRange 7 0x70000000 0x3000 0x70000001) [(0x1000, 4096); (0x2000, 4096); (16, 3); (8, 8)]
  = [(0x70001000, 0x1000); (0x70002000, 8)].
Proof. vm_compute. done. Qed.

Lemma client_frees_in_order_witness : exists k' c',
  free elements 3 (fresh_kernel, channel_client) = (Ok tt, (k', c')) /\
  (exists dn, 4 ∈ dn /\ rm_frees 5 1 channel_tree fresh_kernel dn k') /\
  objects c' !! 4 = None /\ is_Some (objects c' !! 2) /\ ~ dep (objects c') 2 4.
Proof.
  destruct (free elements 3 (fresh_kernel, channel_client)) as [r [k' c']] eqn:Hf.
  assert (r = Ok tt) as -> by (apply (f_equal fst) in Hf; vm_compute in Hf; by rewrite <- Hf).
  exists k', c'. split; [done|].
  destruct (client_frees_in_order elements 3 fresh_kernel channel_client _ _ _ (fun s x => elem_of_elements s x) Hf)
    as (dn & rest & (Hnd & Hreach & _) & [-> Hfr] & _ & Hdom & Hdep). rewrite app_nil_r in Hreach.
  assert (dep channel_tree 3 4) as H34 by (eexists; split; [vm_compute; reflexivity|vm_compute; reflexivity]).
  assert (4 ∈ dn) as H4 by (apply Hreach; by apply rtc_once).
  split_and!.
  - exists dn. split; [exact H4|exact Hfr].
  - apply eq_None_not_Some. intros Hs. apply Hdom in Hs. tauto.
  - apply (f_equal (fun x => objects x.2.2 !! 2)) in Hf. cbn [fst snd] in Hf. rewrite <- Hf. vm_compute. by eexists.
  - intros Hd. apply Hdep in Hd. tauto.
Defined.
